(* ===== verification/_CoqProject ===== *)
-Q . S2P
Prelude.v
JsCore.v
Schedule.v
TaskGraph.v
DagModel.v
DagEdit.v
SavePipeline.v
SaveRefine.v
DiffLines.v
DiffPanel.v
GraphLayout.v
DictData.v
Labels.v
Creation.v
Format.v
Routing.v
Jump.v
RunView.v
RunDisplay.v
Settings.v
PillEditor.v
RunsTab.v
Keyed.v
Resources.v
Palette.v
Dashboard.v
Trigger.v
PanZoom.v
Session.v
Dialogs.v
Workers.v
Admin.v
Projects.v
TaskForm.v
Markup.v
Screens.v
HomePages.v
DagPages.v
DagDialogs.v
TaskPages.v
RunPages.v
ResourcePages.v
AdminPages.v
GraphPage.v
BuilderPages.v
SchedPreview.v
Pages.v
Navigation.v
RunActions.v
Requests.v
PillDrag.v
EdgeTools.v
WorkerDialogs.v
Chrome.v
LogStream.v
LogPanels.v
