(* ===== verification/Prelude.v ===== *)
(** * cronova web console: verification development

    The program is the browser console of cronova, a workflow scheduler: the plain
    JavaScript of src/internal/web/static/ ([base.js], [builder.js], [views.js],
    [boot.js]). It keeps the workflow on screen in a global [D] (the workflow, its
    tasks, the runs and what is being edited), turns it into markup, and saves every
    edit with a debounced request that carries a concurrency token. Around that page
    are a home page, a run page that polls, a dialog and a wizard for new workflows,
    hash routes, a jump menu, the sign-in gate and the pages of the administrator.
    The Go server is outside; where the console relies on it the server is a parameter
    or a step of the model (an answer that arrives, with any content). Where a claim
    spans both, the handlers are translated from the Go sources: the save endpoint's
    test, the resource tables, the scheduler's substitution, the relations between
    workflows, the actions on a run, the table of routes and the log stream.

    ** Conventions

    A JavaScript string is [jstr], a list of UTF-16 code units ([JsCore.v]), so that
    [trim], [split], regular expressions and lengths are the ones of the language;
    [lit] reads a literal of the source. A number field is [numf]: what [+el.value]
    gives for it. A plain object used as a map is a [gmap] read through [obj_get],
    which knows the names every object inherits. Text on screen is a [label], a key of
    the dictionary with its arguments. Handlers are functions on the state of their
    page; asynchronous code is a step function on a state that lists what is in the
    air (timers, open requests), so a theorem over all runs covers every interleaving.
    An event that the page does not offer in a state gives [None]; the runs are those
    without.

    ** Files, in dependency order

    - [Prelude.v]: tactics, hint databases, generic lemmas. [JsCore.v]: the parts of
      JavaScript the code uses.
    - [Schedule.v]: the schedule form (builder.js [parseScheduleState],
      [computeSchedule], [wireSchedModes], [wireSchedBody]; base.js [nvSchedGloss]).
    - [TaskGraph.v]: [hasCycle] (views.js) and [topoOrder] (base.js).
    - [DagModel.v]: [showDag]'s loading, [validateDag], [dagSpecFrom] and the helpers
      for headers and status lists (views.js).
    - [DagEdit.v]: every edit of the workflow page, the graph-edit session with its
      snapshot, and [saveDag]'s entry (views.js).
    - [SavePipeline.v]: [saveDag], [flushSave], [flushPendingSaves], deletion, and the
      server's build endpoint as a compare-and-set; [SaveRefine.v]: its refinement of
      an atomic register.
    - [DiffLines.v]: [diffLines] (views.js), the line diff of two definitions.
      [DiffPanel.v]: [loadGraphDiff], the panel of a graph session's unsaved changes.
    - [GraphLayout.v]: [renderGraph] (base.js) and the external stubs of views.js.
    - [DictData.v], [Labels.v]: the dictionaries and the labels taken from them.
    - [Creation.v]: the new-workflow dialog and the wizard (builder.js).
    - [Format.v]: [esc], durations, sparklines, the duration trend.
    - [Routing.v]: hash routes, [setHash], [applyRoute] and the browser's history.
      [Jump.v]: the jump menu.
    - [RunView.v]: opening and polling a run; [RunDisplay.v]: what its page shows.
    - [Settings.v]: the settings tab and the novice switch. [PillEditor.v]: the editor
      of commands with placeholders, and the jar form. [RunsTab.v]: the run history.
      [Trigger.v]: the manual trigger and the backfill. [Dashboard.v]: the home page.
    - [Keyed.v]: arrays of rows with a key. [Resources.v]: variables, connections and
      alert groups, with the server's handlers (config_handlers.go). [Palette.v]: the
      variable palette and the scheduler's substitution (scheduler.go). [Workers.v]: the
      workers page and its poll. [Admin.v]: the audit trail and the API tokens.
      [Projects.v]: project uploads. [TaskForm.v]: the form of the task page.
    - [PanZoom.v]: the graph's viewport. [Session.v]: sign-in and mode. [Dialogs.v]:
      dialogs and toasts.
    - [Markup.v]: the browser's reading of the strings assigned to [innerHTML]: templates
      as chunks, the scanner of the HTML standard, inert fragments. The templates over the
      models above: [Screens.v] (shared pieces), [HomePages.v], [DagPages.v],
      [DagDialogs.v], [TaskPages.v], [RunPages.v], [ResourcePages.v], [AdminPages.v],
      [BuilderPages.v] (the new-workflow dialog, the wizard, the schedule editor).
      [Pages.v]: the table of all of them, and the theorems over the table.
    - [GraphPage.v]: the page of relations between workflows, with the server's lists.
    - [SchedPreview.v]: the debounced preview of the next runs.
    - [Navigation.v]: going from page to page: view, address, breadcrumb, mode, language
      and what is on screen, under late answers.
    - [RunActions.v]: cancel, retry and mark, as the pages offer them and as
      scheduler.go performs them. [Requests.v]: the URLs of all requests, the browser's
      dot segments, the server's table of routes, and a run button from its click to
      its handler.
    - [PillDrag.v]: drag and drop of pills between the editors of a task.
      [EdgeTools.v]: the graph editor's pointer tools. [WorkerDialogs.v]: the actions and
      token dialogs of the workers page. [Chrome.v]: around the pages, from the theme to
      the heartbeat.
    - [LogStream.v]: a task's log from the server's file through the event stream to the
      box on screen. [LogPanels.v]: the streams and log panels of the run pages.

    The components meet in a few places. [DagEdit.page] is the [D] that [Settings]
    edits and [SavePipeline] saves; the body of a save is [DagModel.save_spec], over
    [Schedule.computeSchedule]; [Creation] posts bodies of the same type; [RunsTab] and
    [RunView] share [runLive]; [TaskForm] edits one task of the page, with
    the command parser of [PillEditor]'s jar form; [Resources] keeps its
    arrays with [Keyed]; [DiffPanel] is about the edits of [DagEdit], the bodies of
    [DagModel] and the diffs of [DiffLines]; [Palette] follows a name of [Resources]
    through the editor of [PillEditor] to the scheduler; the labels of every page are checked against [DictData].
    The templates of [Pages] print the states of these components, and their theorems
    hold for all of them. [Navigation] keeps of a page its name and what it was drawn
    for; [Routing] has the addresses, [RunView] the run page's poll and [Session] the
    mode, each with more detail of its own. [Requests] carries an action of [RunActions]
    from the button to the scheduler's function. [LogStream] brings the lines that
    [LogPanels] puts into the boxes of [RunDisplay]. [PillDrag] edits the contents of
    [PillEditor], [EdgeTools] the page of [DagEdit]; [Chrome]'s search box is [Jump]'s menu.

    ** What the theorems show

    - Correct data: a model without reported errors gives a well-formed request
      ([saved_spec_ok], [validateDag_exact]); opening and saving changes nothing the
      request carries ([open_save_roundtrip], [sched_form_roundtrip]); edits keep the
      model well formed ([edits_keep_wf], [rename_keeps_graph], [settings_consistent]),
      those made with the pointer too ([edge_tools_exact], [drops_exact]) and those of
      the task form ([task_form_exact]); what the dialogs create is valid
      ([wizard_creates_valid]).
    - What the browser is given: every page is well-formed markup whose tags and
      attributes do not depend on the data, with no script in it ([screens_inert]), holds
      every element its handlers rely on ([screens_find]), and is written for all data
      with one exception ([screens_written]).
    - Console and server together: every request reaches the handler it is meant for, with
      the names it was given ([requests_arrive]); the server takes the actions the run
      page offers, with one exception, and does what they say ([run_actions_accepted]);
      the relations page draws exactly the declared triggers ([relations_drawn]); a log
      arrives line by line, whenever the server reads it ([log_arrives]).
    - Algorithms against references: [hasCycle_spec], [topoOrder_spec],
      [diffLines_spec], [graphDropAllowed_exact], [renderGraph_readable].
    - Interleavings: the save pipeline is serial, settles, never conflicts with itself
      and refines a register ([save_serialized], [saves_settle], [no_self_conflict],
      [no_save_while_deleting], [saves_refine_register]); polls end, are single and
      touch only their page ([run_poll_safe], [runs_tab_safe], [workers_poll_safe],
      [poll_converges]); with one request per row at a time, the resource tabs mirror the
      server's tables ([vars_mirror], [conns_mirror]); sign-in refines a machine of four phases ([session_phases]);
      once the current request is answered the page, the address and the breadcrumb agree,
      barring the late answers the code does not check ([navigation_settles]); the preview of the next runs shows the form it is under
      ([preview_settles]); the heartbeat draws nothing without need ([heartbeat_quiet]); a
      join token is shown from the answer that made it until its dialog is closed
      ([join_token_shown]); log streams are closable and write only to their own panel
      ([log_panels_exact]).
    - Compositions: the panel of unsaved changes tells what a save would do
      ([diff_panel_exact]); a name picked in the palette is replaced by what it stands for
      when the task runs ([palette_resolves]).
    - Round trips and displays: [routes_reopen], [esc_reads_back], [pill_roundtrip],
      [sparkline_honest], [gantt_to_scale], [log_view_exact], [home_truthful].
    - Behaviour the code does not mean: theorems that exhibit it, for instance
      [save_loses_unread], [accepted_edit_can_be_lost], [back_trapped],
      [notify_chip_inverted], [anchor_leaks], [late_answers], [vars_races],
      [skipped_rows_stay], [skipped_list_stays], [audit_page_repeats],
      [jar_form_forgets], [stale_diffs], [menu_outlives_page],
      [late_answers_misplace], [late_log_streams_on].

    ** Bounds and fuel

    [TaskGraph.visit] recurses with fuel; [hasCycle] passes one more than the number of
    names, the depth a search without repetition can reach, and [hasCycle_spec] proves
    that it returns. [topoOrder] runs one round more than there are tasks; every round
    but the last outputs a task. [diffLines] walks a table of the two lengths with their sum as fuel.
    [PillEditor.fill_loop] takes the length of the string, each placeholder being at
    least one character. [DagEdit.fresh] tries one name more than there are tasks.
    [RunActions.closure_loop] takes an element off its queue per step: at most the start
    and one per edge. [TaskPages.hl_loop] takes the length of the command.
    [LogStream]'s loops take the length of the bytes they cut or read. The
    numbers of the code are doubles; lengths, counts and seconds are modelled as [Z] or
    [N] (exact below 2^53), pixels and scales as rationals where the code divides.

    ** Not modelled

    - redoc.standalone.js is a vendored bundle.
    - Styles: colours, sizes and what a class does to them; the markup itself is.
    - The clock, [toLocaleString], the browser's layout and the place under a pointer are
      inputs; where the focus is, except as an argument.
    - Selections over several nodes of a command editor and the browser's own editing of a
      selection: its ranges have no faithful small model here. The order of concurrent
      directory reads of a dropped folder.
    - Animations and scrolling.
    - The server beyond the functions named above: its storage, processes, notifications
      and schedules; the hash and the YAML rendering of a definition, and the next runs of
      a schedule, are functions or answers a theorem holds for all of.
    *)

From stdpp Require Export base option list list_numbers gmap fin_maps relations.
From Stdlib Require Export ZArith NArith Lia.

(** ** Tactics and hints shared by the components *)

#[export] Set Warnings "-clear-no-such-hyp,-register-all".

Create HintDb cronova.
Create Rewrite HintDb cronova.

(** Case analysis on every [match], [if] and [decide] of the goal; what the
    equations contradict is closed. *)
Ltac split_cases :=
  repeat (case_match || case_decide || case_bool_decide); simplify_eq/=; try done.

(** Turn boolean tests of the context into propositions. *)
Ltac bool_props :=
  repeat match goal with
  | H : (_ && _) = true |- _ => apply andb_true_iff in H as [? ?]
  | H : (_ || _) = false |- _ => apply orb_false_iff in H as [? ?]
  | H : negb _ = true |- _ => apply negb_true_iff in H
  | H : negb _ = false |- _ => apply negb_false_iff in H
  | H : bool_decide _ = true |- _ => apply bool_decide_eq_true in H
  | H : bool_decide _ = false |- _ => apply bool_decide_eq_false in H
  | H : (_ <? _)%N = true |- _ => apply N.ltb_lt in H
  | H : (_ <? _)%N = false |- _ => apply N.ltb_ge in H
  | H : (_ <=? _)%N = true |- _ => apply N.leb_le in H
  | H : (_ <=? _)%N = false |- _ => apply N.leb_gt in H
  | H : (_ =? _)%N = true |- _ => apply N.eqb_eq in H
  | H : (_ =? _)%N = false |- _ => apply N.eqb_neq in H
  | H : (_ <? _)%Z = true |- _ => apply Z.ltb_lt in H
  | H : (_ <? _)%Z = false |- _ => apply Z.ltb_ge in H
  | H : (_ <=? _)%Z = true |- _ => apply Z.leb_le in H
  | H : (_ <=? _)%Z = false |- _ => apply Z.leb_gt in H
  | H : (_ =? _)%Z = true |- _ => apply Z.eqb_eq in H
  | H : (_ =? _)%Z = false |- _ => apply Z.eqb_neq in H
  end.

(** Decide a closed proposition by evaluation. *)
Ltac compute_decide := apply (bool_decide_unpack _); vm_compute; exact I.

(** ** [forEach] over a state, with failure

    [foldM f l s] is the JS [l.forEach] over a state threaded by [f]; it stops
    with [None] as soon as one step runs out of fuel. *)
Fixpoint foldM {A S : Type} (f : A -> S -> option S) (l : list A) (s : S) : option S :=
  match l with
  | [] => Some s
  | x :: l' => match f x s with Some s' => foldM f l' s' | None => None end
  end.

Section foldM.
Context {A S : Type} (f : A -> S -> option S).

Lemma foldM_snoc l x s :
  foldM f (l ++ [x]) s = match foldM f l s with Some s' => f x s' | None => None end.
Proof.
  revert s; induction l as [|y l IH]; intros s; simpl.
  - by destruct (f x s).
  - destruct (f y s); [apply IH|done].
Qed.

(** An invariant indexed by the part of the list already visited. *)
Lemma foldM_ind (P : list A -> S -> Prop) l s s' :
  P [] s ->
  (forall done x s1 s2, x ∈ l -> P done s1 -> f x s1 = Some s2 -> P (done ++ [x]) s2) ->
  foldM f l s = Some s' -> P l s'.
Proof.
  intros H0. revert s'. induction l as [|x l IH] using rev_ind; intros s' Hstep E.
  - by simplify_eq/=.
  - rewrite foldM_snoc in E. destruct (foldM f l s) as [s1|] eqn:El; [|done].
    eapply Hstep; [set_solver| |exact E].
    eapply IH; [|done]. intros; eapply Hstep; eauto. set_solver.
Qed.

(** The fold succeeds when every step does, under an invariant. *)
Lemma foldM_total (P : S -> Prop) l s :
  P s ->
  (forall x s1, x ∈ l -> P s1 -> exists s2, f x s1 = Some s2 /\ P s2) ->
  exists s', foldM f l s = Some s' /\ P s'.
Proof.
  revert s; induction l as [|x l IH]; intros s Hs Hstep; simpl; [by eauto|].
  destruct (Hstep x s) as (s2 & -> & H2); [by left|done|].
  apply IH; [done|]. intros; apply Hstep; [by right|done].
Qed.
End foldM.

(** ** Longest prefix satisfying a test: the scanning step of a regex *)

Fixpoint span {A : Type} (p : A -> bool) (l : list A) : list A * list A :=
  match l with
  | [] => ([], [])
  | x :: l' => if p x then let '(a, b) := span p l' in (x :: a, b) else ([], l)
  end.

(** The scan of [p] stops at the head of [l]. *)
Definition stops {A : Type} (p : A -> bool) (l : list A) : Prop :=
  match l with [] => True | x :: _ => p x = false end.

Section span.
Context {A : Type} (p : A -> bool).

Lemma span_app l : (span p l).1 ++ (span p l).2 = l.
Proof.
  induction l as [|x l IH]; [done|]; simpl.
  destruct (p x); [|done]. destruct (span p l) as [a b]; simpl in *. by rewrite IH.
Qed.

Lemma span_all l : Forall (fun x => p x = true) (span p l).1.
Proof.
  induction l as [|x l IH]; [constructor|]; simpl.
  destruct (p x) eqn:E; [|constructor]. destruct (span p l); simpl in *. by constructor.
Qed.

Lemma span_stops l : stops p (span p l).2.
Proof.
  induction l as [|x l IH]; [done|]; simpl.
  destruct (p x) eqn:E; [by destruct (span p l)|done].
Qed.

Lemma span_exact a b :
  Forall (fun x => p x = true) a -> stops p b -> span p (a ++ b) = (a, b).
Proof.
  induction 1 as [|x a Hx Ha IH]; intros Hb; simpl.
  - destruct b as [|y b]; [done|]; simpl in *. by rewrite Hb.
  - by rewrite Hx, (IH Hb).
Qed.

Lemma span_inv l a b :
  span p l = (a, b) -> l = a ++ b /\ Forall (fun x => p x = true) a /\ stops p b.
Proof.
  intros E. pose proof (span_app l). pose proof (span_all l). pose proof (span_stops l).
  by rewrite E in *.
Qed.
End span.

(** ** Lists *)

(** The last entry of [l] that [p] accepts: JS objects filled by a [forEach]
    keep the last value written under a key. *)
Definition find_last {A : Type} (p : A -> bool) (l : list A) : option A :=
  List.find p (reverse l).

Lemma filter_all {A} (P : A -> Prop) `{forall x, Decision (P x)} l :
  Forall P l -> filter P l = l.
Proof. induction 1 as [|x l Hx _ IH]; [done|]. by rewrite filter_cons_True, IH. Qed.

Lemma filter_none {A} (P : A -> Prop) `{forall x, Decision (P x)} l :
  Forall (fun x => ~ P x) l -> filter P l = [].
Proof. induction 1 as [|x l Hx _ IH]; [done|]. by rewrite filter_cons_False. Qed.

Lemma fmap_filter {A B} (f : A -> B) (P : B -> Prop) `{forall y, Decision (P y)} (l : list A) :
  f <$> filter (fun x => P (f x)) l = filter P (f <$> l).
Proof.
  induction l as [|x l IH]; [done|]. rewrite fmap_cons, !filter_cons.
  case_decide; by rewrite ?fmap_cons, IH.
Qed.

Lemma NoDup_snoc {A} (l : list A) x : NoDup (l ++ [x]) <-> NoDup l /\ x ∉ l.
Proof.
  rewrite NoDup_app. split.
  - intros (? & H & _). split; [done|]. intros Hx. by apply (H x Hx), list_elem_of_singleton.
  - intros [? ?]. split; [done|]. split; [|apply NoDup_singleton].
    intros y Hy ->%list_elem_of_singleton. done.
Qed.

Lemma Forall_snoc {A} (P : A -> Prop) l x : Forall P (l ++ [x]) <-> Forall P l /\ P x.
Proof. by rewrite Forall_app, Forall_singleton. Qed.

#[export] Hint Resolve NoDup_nil_2 NoDup_singleton : cronova.

(** A homomorphism carries a cycle to a cycle. *)
Lemma tc_map {A B} (R : relation A) (S : relation B) (f : A -> B) x y :
  (forall a b, R a b -> S (f a) (f b)) -> tc R x y -> tc S (f x) (f y).
Proof. intros Hf. induction 1; [by apply tc_once, Hf|]. eapply tc_l; [by apply Hf|done]. Qed.

(** An accessible point lies on no cycle. *)
Lemma Acc_no_loop {A} (R : relation A) x : Acc (flip R) x -> ~ tc R x x.
Proof.
  induction 1 as [x _ IH]. intros Hx. inversion Hx as [|? y ? Hxy Hyx]; subst.
  - by apply (IH x).
  - apply (IH y Hxy). eapply tc_r; [exact Hyx|done].
Qed.

(** Adding the edge [d -> u] to a terminating relation keeps it terminating
    exactly when there was no path from [u] to [d]. *)
Lemma Acc_add_edge {A} (R S : relation A) d u :
  (forall x, Acc (flip R) x) -> (forall x y, S x y -> R x y \/ (x = d /\ y = u)) ->
  ~ rtc R u d -> forall x, Acc (flip S) x.
Proof.
  intros HR HS Hn.
  assert (Hu : forall x, ~ rtc R x d -> Acc (flip S) x).
  { intros x. induction (HR x) as [x _ IH]. intros Hx. constructor.
    intros y [HRy|[-> _]]%HS; [|by destruct Hx].
    apply IH; [done|]. intros Hy. apply Hx. by eapply rtc_l. }
  intros x. induction (HR x) as [x _ IH]. constructor.
  intros y [HRy|[-> ->]]%HS; [by apply IH|]. by apply Hu.
Qed.
