(* ===== verification/JsCore.v ===== *)
(** * The JavaScript strings, numbers and objects the console uses

    A JS string is the list of its UTF-16 code units ([jstr]); source literals
    are written [lit "..."] (UTF-8 in this file, decoded to code units).  A JS
    number that the console computes with is an integer here; [to_double] is the
    rounding to 53 significant bits that reading a long digit string performs.
    A plain object used as a dictionary has the names of [Object.prototype] as
    inherited properties ([obj_get]). *)

From Stdlib Require Import Ascii String.
Export AsciiSyntax StringSyntax.
From S2P Require Import Prelude.

Abbreviation jstr := (list N).
Declare Scope js_scope.

(** ** Literals *)

Fixpoint utf16_of_utf8 (bs : list N) : jstr :=
  match bs with
  | [] => []
  | b :: r =>
    if (b <? 128)%N then b :: utf16_of_utf8 r
    else if (b <? 224)%N then
      match r with
      | b1 :: r1 => ((b mod 32) * 64 + b1 mod 64)%N :: utf16_of_utf8 r1
      | _ => [65533%N]
      end
    else if (b <? 240)%N then
      match r with
      | b1 :: b2 :: r2 =>
        ((b mod 16) * 4096 + (b1 mod 64) * 64 + b2 mod 64)%N :: utf16_of_utf8 r2
      | _ => [65533%N]
      end
    else
      match r with
      | b1 :: b2 :: b3 :: r3 =>
        let cp := ((b mod 8) * 262144 + (b1 mod 64) * 4096 + (b2 mod 64) * 64
                   + b3 mod 64 - 65536)%N in
        (55296 + cp / 1024)%N :: (56320 + cp mod 1024)%N :: utf16_of_utf8 r3
      | _ => [65533%N]
      end
  end.

Definition of_literal (s : string) : jstr :=
  utf16_of_utf8 (map N_of_ascii (list_ascii_of_string s)).

(** [lit "..."] and [ch "c"] are replaced by their code units when read. *)
Notation "'lit' s" :=
  (ltac:(let x := eval vm_compute in (of_literal s%string) in exact x))
  (at level 1, s at level 0, only parsing).
Notation "'ch' c" :=
  (ltac:(let x := eval vm_compute in (N_of_ascii c%char) in exact x))
  (at level 1, c at level 0, only parsing).

(** ** Truthiness: the empty string is falsy, [s || d] is [s] unless falsy *)

Definition truthy (s : jstr) : bool := match s with [] => false | _ => true end.
Definition js_or (s d : jstr) : jstr := if truthy s then s else d.
Notation "s '||j' d" := (js_or s d) (at level 50, left associativity) : js_scope.
Open Scope js_scope.

Lemma js_or_nil_r s : s ||j [] = s.
Proof. by destruct s. Qed.
Lemma js_or_idem s d : (s ||j d) ||j d = s ||j d.
Proof. by destruct s, d. Qed.
Lemma truthy_true s : truthy s = true <-> s <> [].
Proof. by destruct s. Qed.
#[export] Hint Rewrite js_or_nil_r js_or_idem : cronova.

(** ** White space and [String.prototype.trim] *)

(** ECMAScript WhiteSpace and LineTerminator: what [trim] and [\s] accept. *)
Definition is_ws (c : N) : bool :=
  ((9 <=? c) && (c <=? 13) || (c =? 32) || (c =? 160) || (c =? 5760)
   || (8192 <=? c) && (c <=? 8202) || (c =? 8232) || (c =? 8233) || (c =? 8239)
   || (c =? 8287) || (c =? 12288) || (c =? 65279))%N.

Definition trim_start (s : jstr) : jstr := (span is_ws s).2.
Definition trim (s : jstr) : jstr := reverse (trim_start (reverse (trim_start s))).

Lemma trim_start_id s : stops is_ws s -> trim_start s = s.
Proof. unfold trim_start. destruct s as [|c s]; [done|]; simpl. by intros ->. Qed.
Lemma trim_start_stops s : stops is_ws (trim_start s).
Proof. apply span_stops. Qed.
Lemma trim_start_suffix s : exists a, s = a ++ trim_start s /\ Forall (fun c => is_ws c = true) a.
Proof. exists (span is_ws s).1. split; [symmetry; apply span_app|apply span_all]. Qed.

(** A string without white space at either end. *)
Definition trimmed (s : jstr) : Prop := stops is_ws s /\ stops is_ws (reverse s).

Lemma trim_id s : trimmed s -> trim s = s.
Proof.
  intros [H1 H2]. unfold trim. rewrite (trim_start_id s), trim_start_id by done.
  apply reverse_involutive.
Qed.

Lemma trim_trimmed s : trimmed (trim s).
Proof.
  unfold trim, trimmed. rewrite reverse_involutive. split; [|apply trim_start_stops].
  destruct (trim_start_suffix (reverse (trim_start s))) as (a & Ha & _).
  set (t := trim_start (reverse (trim_start s))) in *.
  pose proof (trim_start_stops s) as Hs. apply (f_equal reverse) in Ha.
  rewrite reverse_involutive, reverse_app in Ha. rewrite Ha in Hs.
  by destruct (reverse t).
Qed.

Lemma trim_idem s : trim (trim s) = trim s.
Proof. apply trim_id, trim_trimmed. Qed.
Lemma trim_nil : trim [] = [].
Proof. done. Qed.
#[export] Hint Rewrite trim_idem trim_nil : cronova.
#[export] Hint Resolve trim_trimmed : cronova.

(** ** Prefixes, search and splitting *)

Fixpoint strip_prefix (p s : jstr) : option jstr :=
  match p, s with
  | [], _ => Some s
  | c :: p', d :: s' => if (c =? d)%N then strip_prefix p' s' else None
  | _ :: _, [] => None
  end.

Definition starts_with (p s : jstr) : bool :=
  match strip_prefix p s with Some _ => true | None => false end.

Lemma strip_prefix_app p s : strip_prefix p (p ++ s) = Some s.
Proof. induction p as [|c p IH]; [done|]; simpl. by rewrite N.eqb_refl. Qed.

Lemma strip_prefix_Some p s r : strip_prefix p s = Some r <-> s = p ++ r.
Proof.
  split; [|intros ->; apply strip_prefix_app].
  revert s; induction p as [|c p IH]; intros s; simpl; [congruence|].
  destruct s as [|d s]; [done|]. destruct (N.eqb_spec c d) as [->|]; [|done].
  intros H. by rewrite (IH _ H).
Qed.

(** [s.includes(p)] *)
Fixpoint includes (p s : jstr) : bool :=
  starts_with p s || match s with [] => false | _ :: s' => includes p s' end.

Lemma includes_app a p b : includes p (a ++ p ++ b) = true.
Proof.
  induction a as [|c a IH]; simpl.
  - destruct (p ++ b) eqn:E; simpl; unfold starts_with; rewrite <- E, strip_prefix_app; done.
  - by rewrite IH, orb_true_r.
Qed.

(** [s.split(sep)] for a one-character separator *)
Fixpoint split_on (sep : N) (s : jstr) : list jstr :=
  match s with
  | [] => [[]]
  | c :: s' =>
    if (c =? sep)%N then [] :: split_on sep s'
    else match split_on sep s' with
         | [] => [[c]]
         | w :: ws => (c :: w) :: ws
         end
  end.

(** [l.join(sep)] *)
Fixpoint join (sep : jstr) (l : list jstr) : jstr :=
  match l with
  | [] => []
  | [w] => w
  | w :: ws => w ++ sep ++ join sep ws
  end.

Lemma join_cons sep w w' l : join sep (w :: w' :: l) = w ++ sep ++ join sep (w' :: l).
Proof. done. Qed.

Lemma split_on_nonnil sep s : split_on sep s <> [].
Proof. destruct s as [|c s]; simpl; [done|]. destruct (c =? sep)%N; [done|]. by destruct (split_on sep s). Qed.

Lemma join_split sep s : join [sep] (split_on sep s) = s.
Proof.
  induction s as [|c s IH]; [done|]; simpl.
  pose proof (split_on_nonnil sep s) as Hn.
  destruct (N.eqb_spec c sep) as [->|].
  - simpl. destruct (split_on sep s) as [|w ws]; [done|]. by rewrite IH.
  - destruct (split_on sep s) as [|w [|w' ws]]; [done|..]; simpl in *; by rewrite <- IH.
Qed.

Lemma split_on_word sep w : sep ∉ w -> split_on sep w = [w].
Proof.
  induction w as [|c w IH]; [done|]; simpl. intros H.
  destruct (N.eqb_spec c sep) as [->|]; [set_solver|]. rewrite IH; set_solver.
Qed.

Lemma split_on_cons sep w s : sep ∉ w -> split_on sep (w ++ sep :: s) = w :: split_on sep s.
Proof.
  induction w as [|c w IH]; simpl; intros H.
  - by rewrite N.eqb_refl.
  - destruct (N.eqb_spec c sep) as [->|]; [set_solver|]. rewrite IH; set_solver.
Qed.

Lemma split_join sep l : l <> [] -> Forall (fun w => sep ∉ w) l -> split_on sep (join [sep] l) = l.
Proof.
  intros Hn. induction 1 as [|w l Hw _ IH]; [done|]. destruct l as [|w' l].
  - by apply split_on_word.
  - change (join [sep] (w :: w' :: l)) with (w ++ sep :: join [sep] (w' :: l)).
    rewrite split_on_cons by done. by rewrite IH.
Qed.

(** ** Decimal digits *)

Definition is_digit (c : N) : bool := ((48 <=? c) && (c <=? 57))%N.

Fixpoint digits_aux (fuel : nat) (n : N) (acc : jstr) : jstr :=
  match fuel with
  | O => acc
  | S f =>
    let acc' := (48 + n mod 10)%N :: acc in
    if (n <? 10)%N then acc' else digits_aux f (n / 10)%N acc'
  end.

(** [`${n}`] for a non-negative integer below 10^21 (JS prints larger ones in
    exponent notation). [N.size n] rounds are enough: each divides by ten. *)
Definition digits (n : N) : jstr := digits_aux (S (N.to_nat (N.size n))) n [].
#[global] Arguments digits n : simpl never.

(** The value of a digit string. *)
Definition digits_val (ds : jstr) : N := fold_left (fun a c => 10 * a + (c - 48))%N ds 0%N.

Lemma digits_aux_val fuel n acc :
  (n < 2 ^ N.of_nat fuel)%N ->
  fold_left (fun a c => 10 * a + (c - 48))%N (digits_aux (S fuel) n acc) 0%N =
  fold_left (fun a c => 10 * a + (c - 48))%N acc n.
Proof.
  revert n acc; induction fuel as [|fuel IH]; intros n acc Hn.
  - assert (n = 0%N) as -> by (change (2 ^ N.of_nat 0)%N with 1%N in Hn; lia). done.
  - remember (S fuel) as sf. cbn [digits_aux]. destruct (n <? 10)%N eqn:E; bool_props.
    + cbn [fold_left]. f_equal. rewrite N.mod_small by lia. clear. lia.
    + subst sf. rewrite IH.
      * cbn [fold_left]. f_equal. rewrite (N.add_comm 48), N.add_sub. symmetry. by apply N.div_mod.
      * rewrite Nat2N.inj_succ, N.pow_succ_r' in Hn.
        apply N.Div0.div_lt_upper_bound. lia.
Qed.

Lemma digits_val_digits n : digits_val (digits n) = n.
Proof.
  unfold digits_val, digits. rewrite digits_aux_val; [done|].
  rewrite N2Nat.id. apply N.size_gt.
Qed.

Lemma digits_inj n m : digits n = digits m -> n = m.
Proof. intros H. by rewrite <- (digits_val_digits n), <- (digits_val_digits m), H. Qed.

Lemma digits_aux_digit fuel n acc :
  Forall (fun c => is_digit c = true) acc ->
  Forall (fun c => is_digit c = true) (digits_aux fuel n acc).
Proof.
  revert n acc; induction fuel as [|fuel IH]; intros n acc Ha; [done|]; simpl.
  assert (Hd : is_digit (48 + n mod 10) = true).
  { unfold is_digit. pose proof (N.mod_lt n 10 ltac:(done)) as Hm.
    generalize dependent (n mod 10)%N. intros d Hm.
    apply andb_true_iff; split; apply N.leb_le; lia. }
  destruct (n <? 10)%N; [by constructor|]. apply IH. by constructor.
Qed.

Lemma digits_digit n : Forall (fun c => is_digit c = true) (digits n).
Proof. apply digits_aux_digit. constructor. Qed.

Lemma digits_aux_nonnil fuel n acc : acc <> [] -> digits_aux fuel n acc <> [].
Proof.
  revert n acc; induction fuel as [|fuel IH]; intros n acc H; [done|]; simpl.
  destruct (n <? 10)%N; [done|]. by apply IH.
Qed.

Lemma digits_nonnil n : digits n <> [].
Proof. unfold digits; simpl. destruct (n <? 10)%N; [done|]. by apply digits_aux_nonnil. Qed.
#[export] Hint Resolve digits_digit digits_nonnil : cronova.

Lemma digit_not_ws c : is_digit c = true -> is_ws c = false.
Proof.
  unfold is_digit, is_ws. intros H. bool_props.
  rewrite !orb_false_iff, !andb_false_iff, !N.eqb_neq, !N.leb_gt. repeat split; lia.
Qed.

(** ** Numbers *)

(** Rounding of a non-negative integer to the nearest double, ties to even
    (magnitudes below 2^1024). *)
Definition to_double (n : N) : N :=
  if (n <=? 2 ^ 53)%N then n
  else
    let u := (2 ^ (N.size n - 53))%N in
    let q := (n / u)%N in let r := (n mod u)%N in
    if (2 * r <? u)%N then (q * u)%N
    else if (u <? 2 * r)%N then ((q + 1) * u)%N
    else if N.even q then (q * u)%N else ((q + 1) * u)%N.

Lemma to_double_exact n : (n <= 2 ^ 53)%N -> to_double n = n.
Proof. unfold to_double. intros H. apply N.leb_le in H. by rewrite H. Qed.

(** [`${z}`] for an integer number *)
Definition num_str (z : Z) : jstr :=
  if (z <? 0)%Z then ch "-" :: digits (Z.to_N (- z)) else digits (Z.to_N z).

#[global] Arguments num_str z : simpl never.
#[global] Arguments to_double n : simpl never.

(** ** Objects used as dictionaries *)

(** The property names of [Object.prototype]. *)
Definition proto_names : list jstr :=
  [ lit "constructor"; lit "__defineGetter__"; lit "__defineSetter__"; lit "hasOwnProperty";
    lit "__lookupGetter__"; lit "__lookupSetter__"; lit "isPrototypeOf";
    lit "propertyIsEnumerable"; lit "toString"; lit "valueOf"; lit "__proto__";
    lit "toLocaleString" ].

Inductive slot (A : Type) :=
| Own (a : A)        (** an own property *)
| Inherited          (** found on [Object.prototype]: some truthy object *)
| Missing.           (** [undefined] *)
Arguments Own {A} a.
Arguments Inherited {A}.
Arguments Missing {A}.

Definition obj_get {A} (m : gmap jstr A) (k : jstr) : slot A :=
  match m !! k with
  | Some a => Own a
  | None => if bool_decide (k ∈ proto_names) then Inherited else Missing
  end.

Lemma obj_get_plain {A} (m : gmap jstr A) k :
  k ∉ proto_names -> obj_get m k = match m !! k with Some a => Own a | None => Missing end.
Proof. intros H. unfold obj_get. by rewrite bool_decide_eq_false_2. Qed.

(** ** Identifier shapes *)

Definition is_alnum (c : N) : bool :=
  (is_digit c || (65 <=? c) && (c <=? 90) || (97 <=? c) && (c <=? 122))%N.
Definition is_idchar (c : N) : bool :=
  (is_alnum c || (c =? ch "_") || (c =? ch ".") || (c =? ch "-"))%N.

Lemma digits_idchars n : forallb is_idchar (digits n) = true.
Proof.
  apply forallb_forall. intros c Hc. pose proof (digits_digit n) as H. rewrite Forall_forall in H.
  apply list_elem_of_In in Hc. unfold is_idchar, is_alnum. by rewrite (H _ Hc).
Qed.

(** [ID_RE], [/^[A-Za-z0-9][A-Za-z0-9_.-]*$/] of base.js. *)
Definition ID_RE (s : jstr) : bool :=
  match s with c :: r => is_alnum c && forallb is_idchar r | [] => false end.

Lemma ID_RE_nonnil s : ID_RE s = true -> s <> [].
Proof. by destruct s. Qed.
#[export] Hint Resolve ID_RE_nonnil : cronova.

(** [/^.../i] of an ASCII pattern: ASCII letters match in either case. *)
Definition lower_ascii (c : N) : N := if ((65 <=? c) && (c <=? 90))%N then (c + 32)%N else c.
Definition starts_with_ci (p s : jstr) : bool := starts_with (map lower_ascii p) (map lower_ascii s).

(** [parseInt(s, 10)]: the sign and digits after leading white space; [NaN] is
    [None]. *)
Definition parse_int (s : jstr) : option Z :=
  let r := trim_start s in
  let '(neg, r1) := match r with
    | c :: r' => if (c =? ch "-")%N then (true, r') else if (c =? ch "+")%N then (false, r')
                 else (false, r)
    | [] => (false, r) end in
  match (span is_digit r1).1 with
  | [] => None
  | ds => let n := Z.of_N (to_double (digits_val ds)) in Some (if neg then - n else n)%Z
  end.

Lemma parse_int_digits n : (n <= 2 ^ 53)%N -> parse_int (digits n) = Some (Z.of_N n).
Proof.
  intros Hn. unfold parse_int. pose proof (digits_digit n) as Hd.
  pose proof (digits_nonnil n) as Hne. pose proof (digits_val_digits n) as Hv.
  rewrite trim_start_id.
  2: { destruct (digits n); [done|]. inversion Hd; subst. by apply digit_not_ws. }
  assert (Hs : span is_digit (digits n) = (digits n, [])).
  { rewrite <- (app_nil_r (digits n)) at 1. by apply span_exact. }
  destruct (digits n) as [|c r] eqn:E; [done|].
  assert (Hc : is_digit c = true) by by inversion Hd.
  assert ((c =? ch "-")%N = false /\ (c =? ch "+")%N = false) as [-> ->].
  { unfold is_digit in Hc. bool_props. split; apply N.eqb_neq; lia. }
  rewrite Hs. cbn [fst]. by rewrite Hv, to_double_exact.
Qed.
