(* ===== verification/Schedule.v ===== *)
(** * The schedule editor (builder.js, base.js, views.js)

    State of the schedule form, the conversion between the schedule string the
    server stores and that form ([parseScheduleState], [computeSchedule]), the
    form's event handlers, and the plain-language descriptions of a schedule.
    Localized text is a [label]: the dictionary key and its arguments. *)

From S2P Require Import Prelude JsCore.

(** ** Localized text: [t(key, args...)] or a raw string *)

Inductive label :=
| Raw (s : jstr)
| T (key : jstr) (args : list label).

(** ** The form *)

Inductive sched_unit := Us | Um | Uh.
Inductive sched_mode := Manual | Every | Cron.

#[export] Instance sched_unit_eq_dec : EqDecision sched_unit.
Proof. solve_decision. Defined.
#[export] Instance sched_mode_eq_dec : EqDecision sched_mode.
Proof. solve_decision. Defined.

Definition unit_str (u : sched_unit) : jstr :=
  match u with Us => lit "s" | Um => lit "m" | Uh => lit "h" end.

Definition unit_of (c : N) : option sched_unit :=
  if (c =? ch "s")%N then Some Us
  else if (c =? ch "m")%N then Some Um
  else if (c =? ch "h")%N then Some Uh
  else None.

Record sched := Sched {
  schedule : jstr;       (** the string the server receives *)
  schedMode : sched_mode;
  schedEvery : Z;
  schedUnit : sched_unit;
  schedCron : jstr;
}.

(** [/^@every\s+(\d+)(s|m|h)$/.exec(s)]: the digits and the unit.  White space,
    digits and units are disjoint, so the greedy scan needs no backtracking. *)
Definition every_re (s : jstr) : option (jstr * sched_unit) :=
  match strip_prefix (lit "@every") s with
  | None => None
  | Some r =>
    let '(w, r1) := span is_ws r in
    let '(ds, r2) := span is_digit r1 in
    match w, ds, r2 with
    | _ :: _, _ :: _, [u] => match unit_of u with Some u' => Some (ds, u') | None => None end
    | _, _, _ => None
    end
  end.

Definition parseScheduleState (s : jstr) : sched :=
  match s with
  | [] => Sched s Manual 5 Um []
  | _ =>
    match every_re s with
    | Some (ds, u) => Sched s Every (Z.of_N (to_double (digits_val ds))) u []
    | None => Sched s Cron 5 Um s
    end
  end.

Definition computeSchedule (d : sched) : sched :=
  let s := match schedMode d with
    | Manual => []
    | Every => if (0 <? schedEvery d)%Z
               then lit "@every " ++ num_str (schedEvery d) ++ unit_str (schedUnit d)
               else []
    | Cron => trim (schedCron d)
    end in
  Sched s (schedMode d) (schedEvery d) (schedUnit d) (schedCron d).

(** ** Event handlers ([wireSchedModes], [wireSchedBody]) *)

Inductive sched_event :=
| PickMode (m : sched_mode)    (** a mode pill *)
| InputEvery (n : Z)           (** the interval field: [+ev.value || 0] *)
| PickUnit (u : sched_unit)
| InputCron (s : jstr)         (** the cron field *)
| PickCron (s : jstr).         (** a preset or cheat-sheet example *)

Definition sched_step (e : sched_event) (d : sched) : sched :=
  let '(Sched s m n u c) := d in
  computeSchedule
    match e with
    | PickMode m' => Sched s m' n u c
    | InputEvery n' => Sched s m n' u c
    | PickUnit u' => Sched s m n u' c
    | InputCron c' => Sched s m n u c'
    | PickCron c' => Sched s m n u c'
    end.

(** ** Descriptions *)

(** [{k, v}] of builder.js *)
Definition CRON_PRESETS : list (jstr * jstr) :=
  [ (lit "cp_min", lit "* * * * *"); (lit "cp_hour", lit "0 * * * *");
    (lit "cp_day", lit "0 0 * * *"); (lit "cp_2am", lit "0 2 * * *");
    (lit "cp_mon", lit "0 0 * * 1") ].

Definition unit_label (u : sched_unit) : label := T (lit "unit_" ++ unit_str u) [].

(** [""] is [None]. *)
Definition schedSentence (d : sched) : option label :=
  if bool_decide (schedMode d = Every) && (0 <? schedEvery d)%Z then
    Some (T (lit "sp_every") [Raw (num_str (schedEvery d)); unit_label (schedUnit d)])
  else if bool_decide (schedMode d = Cron) then
    match List.find (fun p => bool_decide (p.2 = trim (schedCron d))) CRON_PRESETS with
    | Some p => Some (T p.1 [])
    | None => None
    end
  else None.

(** The summary is one label, or the sentence and the raw schedule joined by a
    middle dot. *)
Definition schedSummary (d : sched) : list label :=
  if bool_decide (schedMode d = Manual) || negb (truthy (schedule d)) then [T (lit "sub_manual") []]
  else match schedSentence d with
       | Some s => [s; Raw (lit " · "); Raw (schedule d)]
       | None => [Raw (schedule d)]
       end.

(** [\s+\*] *)
Definition ws_star (s : jstr) : option jstr :=
  match span is_ws s with
  | (_ :: _, c :: r) => if (c =? ch "*")%N then Some r else None
  | _ => None
  end.

(** [\d{1,2}] followed by a non-digit: both regexes that use it continue with a
    separator, so the scan is maximal. *)
Definition digits12 (s : jstr) : option (jstr * jstr) :=
  match span is_digit s with
  | (([_] | [_; _]) as ds, r) => Some (ds, r)
  | _ => None
  end.

(** [/^(\d{1,2})\s+(\d{1,2})\s+\*\s+\*\s+\*$/] : minute and hour *)
Definition daily_re (s : jstr) : option (jstr * jstr) :=
  match digits12 s with
  | None => None
  | Some (mm, r) =>
    match span is_ws r with
    | (_ :: _, r1) =>
      match digits12 r1 with
      | Some (hh, r2) =>
        match ws_star r2 with
        | Some r3 => match ws_star r3 with
          | Some r4 => match ws_star r4 with Some [] => Some (mm, hh) | _ => None end
          | None => None end
        | None => None end
      | None => None
      end
    | _ => None
    end
  end.

(** [s.padStart(2, "0")] *)
Definition pad2 (s : jstr) : jstr :=
  match s with [] => lit "00" | [c] => [ch "0"; c] | _ => s end.

Definition nvSchedGloss (sch : jstr) : label :=
  let s := trim sch in
  if negb (truthy s) then T (lit "nv_gloss_manual") []
  else match daily_re s with
  | Some (mm, hh) => T (lit "nv_gloss_daily") [Raw (pad2 hh ++ lit ":" ++ pad2 mm)]
  | None =>
    match every_re s with
    | Some (ds, u) => T (lit "nv_gloss_every") [Raw ds; unit_label u]
    | None => Raw s
    end
  end.

(** [/^(\d{1,2}):(\d{1,2})$/] or the default 02:00 *)
Definition hm_re (hm : jstr) : jstr * jstr :=
  match digits12 hm with
  | Some (hh, c :: r) =>
    if (c =? ch ":")%N then
      match digits12 r with Some (mm, []) => (hh, mm) | _ => (lit "2", lit "0") end
    else (lit "2", lit "0")
  | _ => (lit "2", lit "0")
  end.

(** ["HH:MM"] to a five-field cron; [+m[i]] of at most two digits is exact. *)
Definition wzDailyCron (hm : jstr) : jstr :=
  let '(hh, mm) := hm_re hm in
  digits (digits_val mm) ++ lit " " ++ digits (digits_val hh) ++ lit " * * *".

(** ** Lemmas on the interval syntax *)

Lemma unit_of_str u : exists c, unit_str u = [c] /\ unit_of c = Some u /\ is_digit c = false
  /\ is_ws c = false.
Proof. destruct u; eexists; split_and!; reflexivity. Qed.

Lemma unit_of_inv c u : unit_of c = Some u -> unit_str u = [c].
Proof. unfold unit_of. intros. repeat case_match; bool_props; by simplify_eq. Qed.

Lemma digits_stops_ws ds r : ds <> [] -> Forall (fun c => is_digit c = true) ds ->
  stops is_ws (ds ++ r).
Proof. destruct ds; [done|]. intros _ H. inversion H; subst. by apply digit_not_ws. Qed.

Lemma every_re_intro w ds u :
  w <> [] -> Forall (fun c => is_ws c = true) w ->
  ds <> [] -> Forall (fun c => is_digit c = true) ds ->
  every_re (lit "@every" ++ w ++ ds ++ unit_str u) = Some (ds, u).
Proof.
  intros Hw Fw Hd Fd. destruct (unit_of_str u) as (c & -> & Hu & Hc & _).
  unfold every_re. rewrite strip_prefix_app.
  rewrite (span_exact is_ws w) by auto using digits_stops_ws.
  rewrite (span_exact is_digit ds) by done.
  destruct w, ds; [done..|]. by rewrite Hu.
Qed.

Lemma every_re_inv s ds u :
  every_re s = Some (ds, u) ->
  exists w, s = lit "@every" ++ w ++ ds ++ unit_str u /\ w <> [] /\ ds <> []
    /\ Forall (fun c => is_ws c = true) w /\ Forall (fun c => is_digit c = true) ds.
Proof.
  unfold every_re. destruct (strip_prefix _ s) as [r|] eqn:E; [|done].
  apply strip_prefix_Some in E as ->.
  destruct (span is_ws r) as [w r1] eqn:E1. destruct (span is_digit r1) as [ds' r2] eqn:E2.
  apply span_inv in E1 as (-> & Fw & _). apply span_inv in E2 as (-> & Fd & _).
  destruct w as [|w0 w]; [done|]. destruct ds' as [|d0 ds']; [done|].
  destruct r2 as [|c [|? ?]]; [done| |done].
  destruct (unit_of c) eqn:Eu; [|done]. intros; simplify_eq.
  apply unit_of_inv in Eu. exists (w0 :: w). by rewrite Eu.
Qed.

(** The canonical interval string, as [computeSchedule] prints it. *)
Definition every_str (n : N) (u : sched_unit) : jstr := lit "@every " ++ digits n ++ unit_str u.

Lemma every_re_str n u : every_re (every_str n u) = Some (digits n, u).
Proof.
  change (every_str n u) with (lit "@every" ++ lit " " ++ digits n ++ unit_str u).
  apply every_re_intro; auto with cronova.
Qed.

Lemma every_str_cons n u : exists s, every_str n u = ch "@" :: s.
Proof. by eexists. Qed.

Lemma every_trimmed s ds u : every_re s = Some (ds, u) -> trimmed s.
Proof.
  intros (w & -> & _)%every_re_inv. split; [done|].
  destruct (unit_of_str u) as (c & -> & _ & _ & Hc).
  by rewrite !reverse_app.
Qed.

Lemma parse_every n u :
  (n <= 2 ^ 53)%N ->
  parseScheduleState (every_str n u) = Sched (every_str n u) Every (Z.of_N n) u [].
Proof.
  intros Hn. unfold parseScheduleState.
  rewrite every_re_str, digits_val_digits, to_double_exact by done. done.
Qed.

Lemma compute_every s n u c :
  (0 < n)%Z ->
  computeSchedule (Sched s Every n u c) = Sched (every_str (Z.to_N n) u) Every n u c.
Proof.
  intros Hn. unfold computeSchedule; simpl. rewrite (proj2 (Z.ltb_lt _ _) Hn).
  unfold num_str. by rewrite (proj2 (Z.ltb_ge _ _)) by lia.
Qed.

#[export] Hint Rewrite parse_every compute_every every_re_str using lia : cronova.

(** [computeSchedule] only rewrites the [schedule] field, so it is idempotent. *)
Lemma compute_idem d : computeSchedule (computeSchedule d) = computeSchedule d.
Proof. by destruct d as [s [] n u c]. Qed.

(** ** Lemmas on the daily cron *)

Lemma digits12_intro ds r :
  ds <> [] -> length ds <= 2 -> Forall (fun c => is_digit c = true) ds -> stops is_digit r ->
  digits12 (ds ++ r) = Some (ds, r).
Proof.
  intros Hn Hl Hd Hs. unfold digits12. rewrite span_exact by done.
  by destruct ds as [|? [|? [|? ?]]]; [|..|simpl in Hl; lia].
Qed.

Lemma digits_aux_length fuel n acc :
  (n < 100)%N -> length (digits_aux (S (S fuel)) n acc) <= 2 + length acc.
Proof.
  intros Hn. assert (E : (n / 10 <? 10)%N = true).
  { apply N.ltb_lt, N.Div0.div_lt_upper_bound. lia. }
  cbn [digits_aux]. rewrite E. destruct (n <? 10)%N; simpl; lia.
Qed.

Lemma digits_length2 n : (n < 100)%N -> length (digits n) <= 2.
Proof.
  intros Hn. unfold digits. destruct (N.to_nat (N.size n)) eqn:E.
  - simpl. destruct (n <? 10)%N; simpl; lia.
  - apply (digits_aux_length _ n []), Hn.
Qed.

Lemma digits_val_lt100 ds :
  length ds <= 2 -> Forall (fun c => is_digit c = true) ds -> (digits_val ds < 100)%N.
Proof.
  intros Hl Hd. unfold digits_val, is_digit in *.
  destruct ds as [|a [|b [|? ?]]]; simpl in Hl; [| | |lia]; cbn [fold_left];
    repeat match goal with H : Forall _ (_ :: _) |- _ => inversion H; subst; clear H end;
    bool_props; lia.
Qed.

(** The two-digit clock text of a number below 100. *)
Definition two (n : N) : jstr := pad2 (digits n).

Lemma two_spec n : (n < 100)%N ->
  two n <> [] /\ length (two n) <= 2 /\ Forall (fun c => is_digit c = true) (two n)
  /\ digits_val (two n) = n.
Proof.
  intros Hn. pose proof (digits_length2 n Hn) as Hl. pose proof (digits_digit n) as Hd.
  pose proof (digits_val_digits n) as Hv. pose proof (digits_nonnil n) as Hne. unfold two.
  destruct (digits n) as [|a [|b [|? ?]]]; simpl in *; [done| | |lia]; split_and!; try done.
  by constructor.
Qed.

Lemma hm_re_intro hh mm :
  hh <> [] -> length hh <= 2 -> Forall (fun c => is_digit c = true) hh ->
  mm <> [] -> length mm <= 2 -> Forall (fun c => is_digit c = true) mm ->
  hm_re (hh ++ lit ":" ++ mm) = (hh, mm).
Proof.
  intros. unfold hm_re. rewrite digits12_intro by done.
  change (lit ":" ++ mm) with (ch ":" :: mm); cbv iota beta. rewrite N.eqb_refl.
  rewrite <- (app_nil_r mm) at 1. by rewrite digits12_intro.
Qed.

Lemma daily_re_intro mm hh :
  hh <> [] -> length hh <= 2 -> Forall (fun c => is_digit c = true) hh ->
  mm <> [] -> length mm <= 2 -> Forall (fun c => is_digit c = true) mm ->
  daily_re (mm ++ lit " " ++ hh ++ lit " * * *") = Some (mm, hh).
Proof.
  intros. unfold daily_re. rewrite digits12_intro by done.
  rewrite (span_exact is_ws (lit " ")) by (by repeat constructor || by apply digits_stops_ws).
  by rewrite digits12_intro.
Qed.

Lemma daily_trimmed mm hh :
  mm <> [] -> Forall (fun c => is_digit c = true) mm ->
  trimmed (mm ++ lit " " ++ hh ++ lit " * * *").
Proof.
  intros Hn Hd. split; [by apply digits_stops_ws|]. by rewrite !reverse_app.
Qed.

(** ** Properties *)

(** The form state a user can leave behind: a positive interval that a double
    holds exactly, or a cron expression that is not itself an interval. *)
Definition form_ok (d : sched) : Prop :=
  match schedMode d with
  | Manual => True
  | Every => (0 < schedEvery d <= 2 ^ 53)%Z
  | Cron => schedCron d <> [] /\ trimmed (schedCron d) /\ every_re (schedCron d) = None
  end.



(** A stored schedule string in the shape the server and the form agree on. *)
Definition stored_ok (s : jstr) : Prop :=
  s = [] \/ (exists n u, s = every_str n u /\ (0 < n <= 2 ^ 53)%N)
  \/ (s <> [] /\ trimmed s /\ every_re s = None).

Lemma open_save_schedule s :
  stored_ok s -> schedule (computeSchedule (parseScheduleState s)) = s.
Proof.
  intros [->|[(n & u & -> & Hn)|(Hne & Ht & He)]]; [done| |].
  - rewrite parse_every, compute_every by lia. simpl. by rewrite N2Z.id.
  - unfold parseScheduleState. rewrite He. destruct s as [|c s]; [done|]. by apply trim_id.
Qed.

(** Whatever sequence of clicks and keystrokes the schedule form receives,
    its schedule string stays in step with the visible fields, and is empty, a
    positive interval, or trimmed text. *)
Theorem sched_events_sync (es : list sched_event) (d : sched) :
  computeSchedule d = d ->
  let d' := foldr sched_step d es in
  computeSchedule d' = d' /\
  (schedule d' = [] \/ (exists n u, schedule d' = every_str n u /\ (0 < n)%N)
   \/ trimmed (schedule d')).
Proof.
  intros H0. assert (Hs : computeSchedule (foldr sched_step d es) = foldr sched_step d es).
  { destruct es as [|e es]; [done|]; simpl. generalize (foldr sched_step d es).
    intros [s m n u c]. apply compute_idem. }
  split; [exact Hs|]. revert Hs. generalize (foldr sched_step d es). clear.
  intros [s m n u c]. unfold computeSchedule; simpl. destruct m; intros Hs; simplify_eq.
  - by left.
  - case_match; bool_props; simplify_eq; [|by left]. right; left.
    exists (Z.to_N n), u. unfold num_str. rewrite (proj2 (Z.ltb_ge n 0)) by lia. split; [done|lia].
  - right; right. apply trim_trimmed.
Qed.

Lemma sched_events_sync_witness :
  schedule (foldr sched_step (parseScheduleState []) [PickUnit Uh; InputEvery 3; PickMode Every])
  = lit "@every 3h".
Proof.
  destruct (sched_events_sync [PickUnit Uh; InputEvery 3; PickMode Every]
              (parseScheduleState []) eq_refl) as [<- _]. reflexivity.
Defined.

(** The novice page describes a wizard schedule with the time that was
    entered: for every clock time HH:MM, the description of the cron line the
    wizard writes shows HH:MM again; and an interval is described by its own
    count and unit. *)
Theorem gloss_of_wizard_schedule :
  (forall h m, (h < 100)%N -> (m < 100)%N ->
     nvSchedGloss (wzDailyCron (two h ++ lit ":" ++ two m))
     = T (lit "nv_gloss_daily") [Raw (two h ++ lit ":" ++ two m)]) /\
  (forall n u, nvSchedGloss (every_str n u)
     = T (lit "nv_gloss_every") [Raw (digits n); unit_label u]).
Proof.
  split.
  - intros h m Hh Hm. destruct (two_spec h Hh) as (? & ? & ? & Vh).
    destruct (two_spec m Hm) as (? & ? & ? & Vm).
    unfold wzDailyCron. rewrite hm_re_intro by done. rewrite Vh, Vm. unfold nvSchedGloss.
    rewrite trim_id by (apply daily_trimmed; auto with cronova).
    rewrite daily_re_intro by auto using digits_length2 with cronova.
    unfold two. destruct (digits m) eqn:E; [by apply digits_nonnil in E|done].
  - intros n u. unfold nvSchedGloss. rewrite trim_id by eapply every_trimmed, every_re_str.
    by rewrite every_re_str.
Qed.
