(* ===== verification/TaskGraph.v ===== *)
(** * The task graph: cycle check, ordering, and drawing (views.js, base.js)

    [hasCycle] (views.js) guards every edit of the dependencies, [topoOrder]
    (base.js) numbers the steps of the novice screens, and the level
    computation of [renderGraph] (base.js) places the nodes.  The graph of a
    list of tasks has an edge from a task to each of its dependencies that is
    itself a task. *)

From S2P Require Import Prelude JsCore.

(** What these functions read of a task. *)
Record node := Node { nid : jstr; ndeps : list jstr }.

#[export] Instance node_eq_dec : EqDecision node.
Proof. solve_decision. Defined.

(** [const byId = {}; tasks.forEach((tk) => byId[tk.id] = tk)] *)
Definition byId (ts : list node) : gmap jstr node :=
  foldl (fun m t => <[nid t := t]> m) ∅ ts.

(** Task [x] waits for task [y]. *)
Definition edge (m : gmap jstr node) (x y : jstr) : Prop :=
  exists t, m !! x = Some t /\ y ∈ ndeps t /\ is_Some (m !! y).

Definition cyclic (ts : list node) : Prop := exists x, tc (edge (byId ts)) x x.
Definition acyclic (ts : list node) : Prop := forall x, Acc (flip (edge (byId ts))) x.

(** No task is named like a property of [Object.prototype], nor unnamed. *)
Definition plain_ids (ts : list node) : Prop :=
  Forall (fun t => nid t <> [] /\ nid t ∉ proto_names) ts.
#[export] Instance plain_ids_dec ts : Decision (plain_ids ts).
Proof. unfold plain_ids. apply _. Defined.

(** ** [hasCycle]: depth-first search with colors 1 (on the stack) and 2 (done) *)

Inductive color := Gray | Black.

Record dfs := Dfs { colors : gmap jstr color; cyc : bool }.

Definition paint (c : color) (id : jstr) (st : dfs) : dfs := Dfs (<[id := c]> (colors st)) (cyc st).

Fixpoint visit (m : gmap jstr node) (fuel : nat) (id : jstr) (st : dfs) : option dfs :=
  match fuel with
  | O => None
  | S f =>
    match obj_get (colors st) id with
    | Own Gray => Some (Dfs (colors st) true)
    | Own Black => Some st
    | _ =>
      let deps := match obj_get m id with Own t => ndeps t | _ => [] end in
      match foldM (fun d s => match obj_get m d with Missing => Some s | _ => visit m f d s end)
              deps (paint Gray id st) with
      | Some s => Some (paint Black id s)
      | None => None
      end
    end
  end.

(** Recursion is at most one call deeper than there are tasks. *)
Definition hasCycle_run (ts : list node) : option dfs :=
  let m := byId ts in
  foldM (fun t s =>
      if truthy (nid t)
      then match obj_get (colors s) (nid t) with
           | Missing => visit m (S (length ts)) (nid t) s
           | _ => Some s
           end
      else Some s)
    ts (Dfs ∅ false).

Definition hasCycle (ts : list node) : bool :=
  match hasCycle_run ts with Some s => cyc s | None => false end.

(** ** [topoOrder]: Kahn's rounds over the task list *)

Record topo := Topo { tout : list node; tdone : gset jstr; tprogress : bool }.

Definition topo_ready (m : gmap jstr node) (done : gset jstr) (t : node) : bool :=
  forallb (fun d => bool_decide (d ∈ done) ||
                    match obj_get m d with Missing => true | _ => false end) (ndeps t).

Definition topo_visit (m : gmap jstr node) (s : topo) (t : node) : topo :=
  if bool_decide (nid t ∈ tdone s) then s
  else if topo_ready m (tdone s) t then Topo (tout s ++ [t]) ({[nid t]} ∪ tdone s) true
  else s.

Definition topo_pass (m : gmap jstr node) (ts : list node) (s : topo) : topo :=
  foldl (topo_visit m) (Topo (tout s) (tdone s) false) ts.

Definition topo_more (ts : list node) (s : topo) : bool :=
  (length (tout s) <? length ts)%nat && tprogress s.

(** Every round but the last outputs a task, so [S (length ts)] rounds are enough. *)
Fixpoint topo_loop (fuel : nat) (m : gmap jstr node) (ts : list node) (s : topo) : topo :=
  match fuel with
  | O => s
  | S f => if topo_more ts s then topo_loop f m ts (topo_pass m ts s) else s
  end.

Definition topo_final (ts : list node) : topo :=
  topo_loop (S (length ts)) (byId ts) ts (Topo [] ∅ true).

Definition topoOrder (ts : list node) : list node :=
  let s := topo_final ts in
  tout s ++ filter (fun t => nid t ∉ tdone s) ts.

(** ** Lemmas on [byId] *)

Lemma byId_snoc ts t : byId (ts ++ [t]) = <[nid t := t]> (byId ts).
Proof. unfold byId. by rewrite foldl_app. Qed.

Lemma byId_Some ts x t : byId ts !! x = Some t -> t ∈ ts /\ nid t = x.
Proof.
  induction ts as [|u ts IH] using rev_ind; [done|]. rewrite byId_snoc.
  intros [[<- <-]|[? H]]%lookup_insert_Some; [set_solver|].
  destruct (IH H). set_solver.
Qed.

Lemma byId_is_Some ts x : is_Some (byId ts !! x) <-> x ∈ nid <$> ts.
Proof.
  split.
  - intros [t [? <-]%byId_Some]. by apply list_elem_of_fmap_2.
  - induction ts as [|u ts IH] using rev_ind; [by intros ?%not_elem_of_nil|].
    rewrite byId_snoc, fmap_app. intros H. destruct (decide (nid u = x)) as [<-|Hne].
    + rewrite lookup_insert_eq. by eexists.
    + rewrite lookup_insert_ne by done. apply IH. set_solver.
Qed.

Lemma byId_NoDup ts t : NoDup (nid <$> ts) -> t ∈ ts -> byId ts !! nid t = Some t.
Proof.
  induction ts as [|u ts IH] using rev_ind; [by intros _ ?%not_elem_of_nil|].
  rewrite fmap_snoc, NoDup_snoc, byId_snoc; intros [Hn Hu] Ht.
  apply elem_of_app in Ht as [Ht| ->%list_elem_of_singleton].
  - rewrite lookup_insert_ne; [by apply IH|]. intros E. apply Hu. rewrite E.
    by apply list_elem_of_fmap_2.
  - by rewrite lookup_insert_eq.
Qed.

Lemma byId_None ts x : byId ts !! x = None <-> x ∉ nid <$> ts.
Proof. rewrite <- byId_is_Some. apply eq_None_not_Some. Qed.

Lemma edge_dom_l m x y : edge m x y -> is_Some (m !! x).
Proof. intros (t & ? & _). by eexists. Qed.

Lemma acyclic_not_cyclic ts : acyclic ts -> ~ cyclic ts.
Proof. intros H [x Hx]. by apply (Acc_no_loop _ x (H x)). Qed.

#[export] Hint Resolve edge_dom_l : cronova.

(** ** Graphs related by a map of their tasks *)

(** A task and what it waits for, as a pair of names. *)
Definition waits (ts : list node) (x y : jstr) : Prop :=
  exists t, t ∈ ts /\ nid t = x /\ y ∈ ndeps t /\ y ∈ nid <$> ts.

Lemma edge_waits ts x y : edge (byId ts) x y -> waits ts x y.
Proof. intros (t & [Ht <-]%byId_Some & Hy & Hd). exists t. by rewrite byId_is_Some in Hd. Qed.

Lemma waits_edge ts x y : NoDup (nid <$> ts) -> waits ts x y -> edge (byId ts) x y.
Proof.
  intros Hn (t & Ht & <- & Hy & Hd). exists t. split_and!; [by apply byId_NoDup|done|by apply byId_is_Some].
Qed.

(** Accessibility pulled back along [f], a map into an acyclic graph. *)
Lemma acyclic_map ts ts' (f : jstr -> jstr) :
  acyclic ts -> (forall x y, edge (byId ts') x y -> edge (byId ts) (f x) (f y)) -> acyclic ts'.
Proof.
  intros Ha Hf x. remember (f x) as z eqn:Ez. revert x Ez.
  induction (Ha z) as [z _ IH]. intros x ->. constructor. intros y Hy.
  apply (IH (f y)); [by apply Hf|done].
Qed.

Lemma acyclic_waits ts ts' (f : jstr -> jstr) :
  NoDup (nid <$> ts) -> acyclic ts ->
  (forall x y, waits ts' x y -> waits ts (f x) (f y)) -> acyclic ts'.
Proof.
  intros Hn Ha Hf. apply (acyclic_map ts ts' f Ha). intros x y Hxy.
  by apply waits_edge, Hf, edge_waits.
Qed.

(** ** Correctness of [hasCycle] *)

Section visit.
Context (m : gmap jstr node).

Definition gray_dom (st : dfs) : Prop :=
  forall g, colors st !! g = Some Gray -> is_Some (m !! g).

(** What a completed visit preserves and adds. *)
Record step_ok (st st' : dfs) : Prop := {
  ok_gray g : colors st !! g = Some Gray <-> colors st' !! g = Some Gray;
  ok_black b : colors st !! b = Some Black -> colors st' !! b = Some Black;
  ok_cyc : cyc st = true -> cyc st' = true;
  ok_acc : cyc st' = false ->
    (forall b, colors st !! b = Some Black -> Acc (flip (edge m)) b) ->
    forall b, colors st' !! b = Some Black -> Acc (flip (edge m)) b;
}.

Lemma step_ok_refl st : step_ok st st.
Proof. by split. Qed.

Lemma step_ok_trans st1 st2 st3 : step_ok st1 st2 -> step_ok st2 st3 -> step_ok st1 st3.
Proof.
  intros [G1 B1 C1 A1] [G2 B2 C2 A2]. split; intros.
  - by rewrite G1, G2.
  - auto.
  - auto.
  - eapply A2; eauto. eapply A1; eauto.
    destruct (cyc st2) eqn:E; [|done]. by rewrite C2 in *.
Qed.

(** Every task on the stack reaches [x]. *)
Definition on_path (st : dfs) (x : jstr) : Prop :=
  forall g, colors st !! g = Some Gray -> tc (edge m) g x.

Definition found (st : dfs) : Prop := cyc st = true -> exists x, tc (edge m) x x.

(** The contract of one visit of [id] from [st] to [st']. *)
Definition visit_ok (id : jstr) (st st' : dfs) : Prop :=
  step_ok st st' /\
  (cyc st' = false -> colors st' !! id = Some Black) /\
  ((is_Some (m !! id) -> on_path st id) -> found st -> found st').

(** The contract of the visits of the dependencies [done] of [id]. *)
Definition deps_ok (id : jstr) (st : dfs) (done : list jstr) (s : dfs) : Prop :=
  step_ok (paint Gray id st) s /\
  (cyc s = false -> forall d, d ∈ done -> is_Some (m !! d) -> colors s !! d = Some Black) /\
  (on_path st id -> found st -> found s).

Lemma gray_dom_step st st' : step_ok st st' -> gray_dom st -> gray_dom st'.
Proof. intros H Hg g Hgr. by apply Hg, (ok_gray _ _ H). Qed.

Lemma paint_gray_dom id st : is_Some (m !! id) -> gray_dom st -> gray_dom (paint Gray id st).
Proof. intros Hi Hg g; simpl. intros [[<- _]|[_ H]]%lookup_insert_Some; [done|by apply Hg]. Qed.

(** Finishing [id] after its dependencies. *)
Lemma visit_ok_finish id st s t :
  colors st !! id = None -> m !! id = Some t ->
  deps_ok id st (ndeps t) s -> visit_ok id st (paint Black id s).
Proof.
  intros Hw Ht (Hok & Hbl & Hf).
  assert (Hgi : colors s !! id = Some Gray) by (apply (ok_gray _ _ Hok), lookup_insert_eq).
  split_and!.
  - split; simpl.
    + intros g. destruct (decide (g = id)) as [->|Hne].
      * rewrite Hw, lookup_insert_eq. naive_solver.
      * rewrite lookup_insert_ne by done. rewrite <- (ok_gray _ _ Hok). simpl.
        by rewrite lookup_insert_ne.
    + intros b Hb. destruct (decide (b = id)) as [->|Hne]; [by rewrite lookup_insert_eq|].
      rewrite lookup_insert_ne by done. apply (ok_black _ _ Hok). simpl.
      by rewrite lookup_insert_ne.
    + apply (ok_cyc _ _ Hok).
    + intros Hc Ha.
      assert (Hold : forall b, colors s !! b = Some Black -> Acc (flip (edge m)) b).
      { apply (ok_acc _ _ Hok Hc). intros b; simpl. intros [[_ ?]|[_ ?]]%lookup_insert_Some; [done|auto]. }
      intros b; simpl. intros [[<- _]|[_ Hb]]%lookup_insert_Some; [|auto].
      constructor. intros y (t' & Ht' & Hy & Hd). simplify_eq. apply Hold, Hbl; done.
  - intros _. apply lookup_insert_eq.
  - intros Hp Hst. apply Hf; [|done]. apply Hp. by eexists.
Qed.

(** An id with no task (a dangling dependency that names an inherited
    property) has no edges: visiting it only paints it. *)
Lemma visit_ok_absent id st :
  colors st !! id = None -> m !! id = None -> visit_ok id st (paint Black id (paint Gray id st)).
Proof.
  intros Hw Hm. split_and!; [|intros _; apply lookup_insert_eq|done].
  split; simpl; [| |done|].
  - intros g. rewrite insert_insert_eq. destruct (decide (g = id)) as [->|].
    + rewrite Hw, lookup_insert_eq. naive_solver.
    + by rewrite lookup_insert_ne.
  - intros b Hb. rewrite insert_insert_eq, lookup_insert_ne by naive_solver. done.
  - intros _ Ha b. rewrite insert_insert_eq. intros [[<- _]|[_ ?]]%lookup_insert_Some; [|auto].
    constructor. intros y (t & ? & _). by simplify_eq.
Qed.

Lemma obj_get_Own {A} (o : gmap jstr A) k a : obj_get o k = Own a <-> o !! k = Some a.
Proof. unfold obj_get. repeat case_match; naive_solver. Qed.

Lemma obj_get_not_own {A} (o : gmap jstr A) k :
  (forall a, obj_get o k <> Own a) <-> o !! k = None.
Proof.
  unfold obj_get. destruct (o !! k) eqn:E; [naive_solver|].
  case_bool_decide; naive_solver.
Qed.

Lemma visit_spec fuel id st st' :
  visit m fuel id st = Some st' -> gray_dom st -> visit_ok id st st'.
Proof.
  revert id st st'; induction fuel as [|f IH]; intros id st st' E Hg; [done|].
  cbn [visit] in E. destruct (colors st !! id) as [[]|] eqn:Ec.
  - rewrite (proj2 (obj_get_Own _ _ _) Ec) in E. simplify_eq. split_and!; [by split|done|].
    intros Hp _ _. exists id. apply Hp; [by apply Hg|done].
  - rewrite (proj2 (obj_get_Own _ _ _) Ec) in E. simplify_eq.
    split_and!; [apply step_ok_refl|done|done].
  - assert (Hwhite : forall c, obj_get (colors st) id <> Own c) by by apply obj_get_not_own.
    destruct (foldM _ _ _) as [s|] eqn:Ef;
      [|exfalso; destruct (obj_get (colors st) id) as [c| |]; [by apply (Hwhite c)|done..]].
    assert (st' = paint Black id s) as ->.
    { destruct (obj_get (colors st) id) as [c| |]; [by destruct (Hwhite c)|congruence..]. }
    destruct (m !! id) as [t|] eqn:Em.
    + rewrite (proj2 (obj_get_Own m id t) Em) in Ef. eapply visit_ok_finish; [done..|].
      revert Ef. apply (foldM_ind _ (deps_ok id st)).
      { split_and!; [apply step_ok_refl|by intros _ ? ?%not_elem_of_nil|done]. }
      intros done d s1 s2 Hd (Hok & Hbl & Hf) Ed.
      assert (Hgs : gray_dom s1).
      { eapply gray_dom_step, paint_gray_dom; eauto. }
      destruct (m !! d) as [td|] eqn:Emd.
      * rewrite (proj2 (obj_get_Own m d td) Emd) in Ed.
        destruct (IH _ _ _ Ed Hgs) as (Hok2 & Hb2 & Hf2). split_and!.
        -- by eapply step_ok_trans.
        -- intros Hc y [Hy| ->%list_elem_of_singleton]%elem_of_app Hdom; [|auto].
           apply (ok_black _ _ Hok2), Hbl; [|done..].
           destruct (cyc s1) eqn:E1; [|done]. by rewrite (ok_cyc _ _ Hok2) in Hc.
        -- intros Hp Hst. apply Hf2; [|by apply Hf]. intros _ g Hgr.
           assert (edge m id d) by (exists t; rewrite Emd; eauto).
           apply (ok_gray _ _ Hok) in Hgr. simpl in Hgr.
           apply lookup_insert_Some in Hgr as [[<- _]|[_ Hgr]]; [by apply tc_once|].
           eapply tc_r; [by apply Hp|done].
      * assert (s2 = s1 \/ visit_ok d s1 s2) as Hs2.
        { destruct (obj_get m d) eqn:Eo; [|right; by eapply IH|left; congruence].
          by apply obj_get_Own in Eo; simplify_eq. }
        assert (step_ok s1 s2 /\ (found s1 -> found s2)) as [Hok2 Hf2].
        { destruct Hs2 as [->|(? & _ & Hx)]; [split; [apply step_ok_refl|done]|].
          split; [done|]. apply Hx. rewrite Emd. by intros []. }
        split_and!; [by eapply step_ok_trans| |naive_solver].
        intros Hc y [Hy| ->%list_elem_of_singleton]%elem_of_app Hdom;
          [|rewrite Emd in Hdom; by destruct Hdom].
        apply (ok_black _ _ Hok2), Hbl; [|done..].
        destruct (cyc s1) eqn:E1; [|done]. by rewrite (ok_cyc _ _ Hok2) in Hc.
    + assert (s = paint Gray id st) as ->.
      { destruct (obj_get m id) eqn:Eo; [by apply obj_get_Own in Eo; simplify_eq|..];
          by simplify_eq/=. }
      by apply visit_ok_absent.
Qed.
End visit.

(** ** Enough fuel *)

Section visit_total.
Context (m : gmap jstr node).

(** Tasks not yet visited. *)
Definition whites (st : dfs) : nat := size (dom m ∖ dom (colors st)).

Lemma whites_mono st st' : dom (colors st) ⊆ dom (colors st') -> whites st' <= whites st.
Proof. intros H. unfold whites. apply subseteq_size. set_solver. Qed.

Lemma whites_paint c id st :
  is_Some (m !! id) -> colors st !! id = None -> whites (paint c id st) < whites st.
Proof.
  intros Hi Hw. apply elem_of_dom in Hi. apply not_elem_of_dom in Hw.
  unfold whites, paint; simpl. apply subset_size. rewrite dom_insert_L. set_solver.
Qed.

Lemma visit_total fuel id st :
  whites st < fuel ->
  exists st', visit m fuel id st = Some st' /\ dom (colors st) ⊆ dom (colors st').
Proof.
  revert id st; induction fuel as [|f IH]; intros id st Hf; [lia|]. cbn [visit].
  destruct (colors st !! id) as [[]|] eqn:Ec;
    [rewrite (proj2 (obj_get_Own _ _ _) Ec); by eexists..|].
  assert (Hwhite : forall c, obj_get (colors st) id <> Own c) by by apply obj_get_not_own.
  assert (Hsub : dom (colors st) ⊆ dom (colors (paint Gray id st))).
  { unfold paint; simpl. rewrite dom_insert_L. set_solver. }
  edestruct (foldM_total (fun d s => match obj_get m d with Missing => Some s
                                    | _ => visit m f d s end)
               (fun s => dom (colors (paint Gray id st)) ⊆ dom (colors s))
               (match obj_get m id with Own t => ndeps t | _ => [] end) (paint Gray id st))
    as (s & Es & Hs); [done| |].
  - intros d s Hd Hs. destruct (m !! id) as [t|] eqn:Em.
    + destruct (IH d s) as (s' & E' & Hs').
      { eapply Nat.le_lt_trans; [by apply whites_mono|].
        eapply Nat.lt_le_trans; [by apply whites_paint; [eexists|]|lia]. }
      destruct (obj_get m d); eexists; (split; [done|set_solver]).
    + destruct (obj_get m id) eqn:E; [by apply obj_get_Own in E; simplify_eq|..];
        by apply not_elem_of_nil in Hd.
  - rewrite Es. exists (paint Black id s).
    split; [destruct (obj_get (colors st) id) as [c| |]; [by destruct (Hwhite c)|done..]|].
    unfold paint at 1; simpl. rewrite dom_insert_L. set_solver.
Qed.
End visit_total.

Lemma whites_le ts st : whites (byId ts) st <= length ts.
Proof.
  unfold whites. transitivity (size (dom (byId ts))); [apply subseteq_size; set_solver|].
  transitivity (size (list_to_set (nid <$> ts) : gset jstr)).
  - apply subseteq_size. intros x. rewrite elem_of_dom, byId_is_Some. set_solver.
  - rewrite <- (length_fmap nid ts). generalize (nid <$> ts). clear.
    induction l as [|x l IH]; [done|]; simpl.
    rewrite size_union_alt, size_singleton.
    transitivity (1 + size (list_to_set l : gset jstr)); [|lia].
    apply Nat.add_le_mono_l, subseteq_size. set_solver.
Qed.

Lemma hasCycle_run_total ts : exists s, hasCycle_run ts = Some s.
Proof.
  unfold hasCycle_run.
  edestruct (foldM_total (A := node) (S := dfs)) as (s & E & _); [exact (I : (fun _ => True) _)| |by exists s].
  intros t s _ _. cbv beta. destruct (truthy (nid t)); [|by eexists].
  destruct (obj_get (colors s) (nid t)); try by eexists.
  destruct (visit_total (byId ts) (S (length ts)) (nid t) s) as (s2 & E & _); [|exists s2; split; [exact E|exact I]].
  pose proof (whites_le ts s). lia.
Qed.

(** What the outer loop of [hasCycle] establishes. *)
Lemma hasCycle_run_spec ts s :
  plain_ids ts -> hasCycle_run ts = Some s ->
  found (byId ts) s /\ (cyc s = false -> acyclic ts).
Proof.
  intros Hp Hr. unfold hasCycle_run in Hr.
  assert (H : (forall g, colors s !! g <> Some Gray) /\ found (byId ts) s /\
     (cyc s = false -> (forall b, colors s !! b = Some Black -> Acc (flip (edge (byId ts))) b)
        /\ forall t, t ∈ ts -> colors s !! nid t = Some Black)).
  { revert Hr. apply (foldM_ind _ (fun done s =>
      (forall g, colors s !! g <> Some Gray) /\ found (byId ts) s /\
      (cyc s = false -> (forall b, colors s !! b = Some Black -> Acc (flip (edge (byId ts))) b)
        /\ forall t, t ∈ done -> colors s !! nid t = Some Black))).
    { split_and!; [done|done|]. intros _. split; [done|]. by intros t ?%not_elem_of_nil. }
    intros done t s1 s2 Ht (Hg & Hf & Hb) E.
    destruct (proj1 (Forall_forall _ _) Hp t Ht) as [Hne Hpl].
    apply truthy_true in Hne. rewrite Hne, obj_get_plain in E by done.
    destruct (colors s1 !! nid t) as [c|] eqn:Ec.
    - simplify_eq. split_and!; [done..|]. intros Hc. destruct (Hb Hc) as [Ha Hd].
      split; [done|]. intros u [Hu| ->%list_elem_of_singleton]%elem_of_app; [auto|].
      destruct c; [by destruct (Hg (nid t))|done].
    - apply visit_spec in E; [|intros g ?; by destruct (Hg g)].
      destruct E as (Hok & Hbl & Hfd). split_and!.
      + intros g ?%(ok_gray _ _ _ Hok). by destruct (Hg g).
      + apply Hfd; [|done]. intros _ g ?. by destruct (Hg g).
      + intros Hc. assert (Hc1 : cyc s1 = false).
        { destruct (cyc s1) eqn:E1; [|done]. by rewrite (ok_cyc _ _ _ Hok) in Hc. }
        destruct (Hb Hc1) as [Ha Hd]. split; [by apply (ok_acc _ _ _ Hok)|].
        intros u [Hu| ->%list_elem_of_singleton]%elem_of_app; [|auto].
        by apply (ok_black _ _ _ Hok), Hd. }
  destruct H as (_ & Hf & Hb). split; [done|]. intros Hc x. destruct (Hb Hc) as [Ha Hd].
  destruct (decide (x ∈ nid <$> ts)) as [(t & -> & Ht)%list_elem_of_fmap|Hx]; [by apply Ha, Hd|].
  constructor. intros y Hy%edge_dom_l. by apply byId_is_Some in Hy.
Qed.

(** The two readings of the result, for the components that call [hasCycle]. *)
Lemma hasCycle_true ts : plain_ids ts -> hasCycle ts = true -> cyclic ts.
Proof.
  intros Hp. unfold hasCycle. destruct (hasCycle_run_total ts) as [s E]. rewrite E.
  intros Hc. by apply (hasCycle_run_spec ts s Hp E).
Qed.

Lemma hasCycle_false ts : plain_ids ts -> hasCycle ts = false -> acyclic ts.
Proof.
  intros Hp. unfold hasCycle. destruct (hasCycle_run_total ts) as [s E]. rewrite E.
  by apply (hasCycle_run_spec ts s Hp E).
Qed.

Lemma acyclic_hasCycle ts : plain_ids ts -> acyclic ts -> hasCycle ts = false.
Proof.
  intros Hp Ha. destruct (hasCycle ts) eqn:E; [|done].
  destruct (acyclic_not_cyclic ts Ha). by apply hasCycle_true.
Qed.
#[export] Hint Resolve hasCycle_false acyclic_hasCycle : cronova.

(** ** Correctness of [topoOrder] *)

(** Every dependency of an entry that is a task of [ts] comes before the entry. *)
Definition dep_order (ts l : list node) : Prop :=
  forall l1 t l2, l = l1 ++ t :: l2 ->
  forall d, d ∈ ndeps t -> d ∈ nid <$> ts -> d ∈ nid <$> l1.

(** No dangling dependency is named like a property of [Object.prototype]. *)
Definition plain_deps (ts : list node) : Prop :=
  Forall (fun t => Forall (fun d => d ∈ nid <$> ts \/ d ∉ proto_names) (ndeps t)) ts.
#[export] Instance plain_deps_dec ts : Decision (plain_deps ts).
Proof. unfold plain_deps. apply _. Defined.

Lemma plain_deps_elem ts t d :
  plain_deps ts -> t ∈ ts -> d ∈ ndeps t -> d ∈ nid <$> ts \/ d ∉ proto_names.
Proof. unfold plain_deps. rewrite Forall_forall. intros H Ht. by apply (proj1 (Forall_forall _ _) (H t Ht)). Qed.

Lemma dep_order_nil ts : dep_order ts [].
Proof. by intros [] ???. Qed.

Lemma dep_order_snoc ts l t :
  dep_order ts l -> (forall d, d ∈ ndeps t -> d ∈ nid <$> ts -> d ∈ nid <$> l) ->
  dep_order ts (l ++ [t]).
Proof.
  intros Hl Ht l1 u l2 E d Hd Hts.
  destruct l2 as [|v l2 _] using rev_ind.
  - apply app_inj_tail in E as [-> ->]. by apply Ht.
  - rewrite app_comm_cons, app_assoc in E. apply app_inj_tail in E as [-> _]. by eapply Hl.
Qed.

Lemma dep_order_prefix ts l l' : dep_order ts (l ++ l') -> dep_order ts l.
Proof. intros H l1 t l2 -> d. apply (H l1 t (l2 ++ l')). by rewrite <- app_assoc. Qed.

Section topo.
Context (ts : list node).
Abbreviation m := (byId ts).

Record topo_inv (s : topo) : Prop := {
  ti_sub : tout s ⊆ ts;
  ti_nodup : NoDup (nid <$> tout s);
  ti_done x : x ∈ tdone s <-> x ∈ nid <$> tout s;
  ti_order : dep_order ts (tout s);
}.

Lemma topo_ready_spec done t :
  topo_ready m done t = true <->
  (forall d, d ∈ ndeps t -> d ∈ done \/ ((d ∉ nid <$> ts) /\ d ∉ proto_names)).
Proof.
  unfold topo_ready. rewrite forallb_forall. setoid_rewrite <- list_elem_of_In.
  apply forall_proper; intros d. rewrite orb_true_iff, bool_decide_eq_true, <- byId_None.
  unfold obj_get. destruct (m !! d); [naive_solver|]. case_bool_decide; naive_solver.
Qed.

Lemma topo_visit_inv s t : t ∈ ts -> topo_inv s -> topo_inv (topo_visit m s t).
Proof.
  intros Ht H. destruct H as [H1 H2 H3 H4]. unfold topo_visit.
  case_bool_decide as Hd; [done|]. destruct (topo_ready _ _ _) eqn:Er; [|done].
  split; simpl.
  - set_solver.
  - rewrite fmap_snoc. apply NoDup_snoc. by rewrite <- H3.
  - intros x. rewrite fmap_snoc, elem_of_union, elem_of_singleton, H3, elem_of_app.
    rewrite list_elem_of_singleton. naive_solver.
  - apply dep_order_snoc; [done|]. intros d Hdd Hts. rewrite <- H3.
    destruct (proj1 (topo_ready_spec _ _) Er d Hdd) as [?|[? _]]; done.
Qed.

Lemma topo_pass_inv s : topo_inv s -> topo_inv (topo_pass m ts s).
Proof.
  intros H. unfold topo_pass.
  assert (Hi : topo_inv (Topo (tout s) (tdone s) false)) by by destruct H.
  revert Hi. generalize (Topo (tout s) (tdone s) false) as s0.
  enough (Hl : forall l s0, l ⊆ ts -> topo_inv s0 -> topo_inv (foldl (topo_visit m) s0 l)).
  { intros s0. apply Hl. set_solver. }
  induction l as [|t l IH]; intros s0 Hs Hi; [done|]; simpl.
  apply IH; [set_solver|]. apply topo_visit_inv; [set_solver|done].
Qed.

Lemma topo_loop_inv fuel s : topo_inv s -> topo_inv (topo_loop fuel m ts s).
Proof.
  revert s; induction fuel as [|f IH]; intros s H; [done|]; simpl.
  destruct (topo_more ts s); [|done]. by apply IH, topo_pass_inv.
Qed.

Lemma topo_visit_cases s t :
  (topo_visit m s t = s /\ (nid t ∉ tdone s -> topo_ready m (tdone s) t = false)) \/
  topo_visit m s t = Topo (tout s ++ [t]) ({[nid t]} ∪ tdone s) true.
Proof. unfold topo_visit. repeat (case_bool_decide || case_match); naive_solver. Qed.

Lemma topo_visits_mono l s :
  let s' := foldl (topo_visit m) s l in
  length (tout s) <= length (tout s') /\ (tprogress s = true -> tprogress s' = true).
Proof.
  revert s; induction l as [|t l IH]; intros s; simpl; [done|].
  destruct (IH (topo_visit m s t)) as [H1 H2].
  destruct (topo_visit_cases s t) as [[E _]|E]; rewrite E in *; [done|].
  simpl in *. rewrite length_app in H1. split; [lia|]. intros _. by apply H2.
Qed.

(** A pass without progress leaves the state alone and finds nothing ready. *)
Lemma topo_visits_progress l s :
  let s' := foldl (topo_visit m) s l in
  tprogress s = false ->
  if tprogress s' then length (tout s) < length (tout s')
  else tout s' = tout s /\ tdone s' = tdone s /\
       forall t, t ∈ l -> nid t ∉ tdone s -> topo_ready m (tdone s) t = false.
Proof.
  revert s; induction l as [|t l IH]; intros s; simpl; intros Hp.
  { rewrite Hp. split_and!; try done. by intros ? ?%not_elem_of_nil. }
  destruct (topo_visit_cases s t) as [[E Hr]|E]; rewrite E.
  - specialize (IH s Hp). destruct (tprogress _); [done|].
    destruct IH as (? & ? & H3). split_and!; [done..|].
    intros u [->|Hu]%elem_of_cons; auto.
  - destruct (topo_visits_mono l (Topo (tout s ++ [t]) ({[nid t]} ∪ tdone s) true)) as [H1 H2].
    rewrite (H2 eq_refl). simpl in H1. rewrite length_app in H1. simpl in H1. lia.
Qed.

(** When the loop stops, either everything is out or nothing is ready. *)
Definition topo_stuck (s : topo) : Prop :=
  tprogress s = false -> forall t, t ∈ ts -> nid t ∉ tdone s -> topo_ready m (tdone s) t = false.

Lemma topo_pass_stuck s : topo_stuck (topo_pass m ts s).
Proof.
  pose proof (topo_visits_progress ts (Topo (tout s) (tdone s) false) eq_refl) as H.
  intros Hp. unfold topo_pass in *. rewrite Hp in H. destruct H as (_ & -> & H). exact H.
Qed.

Lemma topo_loop_done fuel s :
  length ts - length (tout s) < fuel -> topo_stuck s ->
  topo_more ts (topo_loop fuel m ts s) = false /\ topo_stuck (topo_loop fuel m ts s).
Proof.
  revert s; induction fuel as [|f IH]; intros s Hf Hs; [lia|]; simpl.
  destruct (topo_more ts s) eqn:Em; [|done].
  pose proof (topo_visits_progress ts (Topo (tout s) (tdone s) false) eq_refl) as Hp.
  pose proof (topo_pass_stuck s) as Hst. fold (topo_pass m ts s) in Hp.
  unfold topo_more in Em. apply andb_true_iff in Em as [Em%Nat.ltb_lt _].
  destruct (tprogress (topo_pass m ts s)) eqn:Ep.
  - apply IH; [simpl in Hp; lia|done].
  - assert (Hm : topo_more ts (topo_pass m ts s) = false).
    { unfold topo_more. by rewrite Ep, andb_false_r. }
    destruct f; simpl; [done|]. by rewrite Hm.
Qed.

Lemma topo_final_spec :
  topo_inv (topo_final ts) /\ topo_more ts (topo_final ts) = false /\ topo_stuck (topo_final ts).
Proof.
  split.
  - apply topo_loop_inv. split; simpl; [set_solver|constructor|set_solver|apply dep_order_nil].
  - apply topo_loop_done; simpl; [lia|done].
Qed.

Section unique.
Context (Hnd : NoDup (nid <$> ts)).

Lemma node_unique t u : t ∈ ts -> u ∈ ts -> nid t = nid u -> t = u.
Proof.
  intros Ht%byId_NoDup Hu%byId_NoDup E; [|done..]. rewrite E in Ht. congruence.
Qed.

Lemma topo_out_done s t : topo_inv s -> t ∈ tout s <-> t ∈ ts /\ nid t ∈ tdone s.
Proof.
  intros [Hs _ Hd _]. rewrite Hd. split.
  - intros Ht. split; [by apply Hs|]. by apply list_elem_of_fmap_2.
  - intros [Ht (u & E & Hu)%list_elem_of_fmap]. by rewrite (node_unique t u) by auto.
Qed.

Lemma topoOrder_Permutation : topoOrder ts ≡ₚ ts.
Proof.
  destruct topo_final_spec as [Hi _]. unfold topoOrder.
  etransitivity; [|apply (filter_app_complement (fun t => nid t ∈ tdone (topo_final ts)))].
  apply Permutation_app; [|done]. apply NoDup_Permutation.
  - eapply NoDup_fmap_1, ti_nodup, Hi.
  - apply NoDup_filter. by eapply NoDup_fmap_1.
  - intros t. rewrite (topo_out_done _ t Hi), list_elem_of_filter. naive_solver.
Qed.

(** Without a cycle, everything is output by the rounds. *)
Lemma topo_all_done : plain_deps ts -> acyclic ts -> forall t, t ∈ ts -> nid t ∈ tdone (topo_final ts).
Proof.
  destruct topo_final_spec as (Hi & Hm & Hst). intros Hpd Hac t Ht.
  unfold topo_more in Hm. apply andb_false_iff in Hm as [Hm|Hp].
  - apply Nat.ltb_ge in Hm.
    assert (E : tout (topo_final ts) ≡ₚ ts).
    { apply submseteq_length_Permutation; [|done]. apply NoDup_submseteq;
        [eapply NoDup_fmap_1, ti_nodup, Hi|apply Hi]. }
    apply (topo_out_done _ t Hi). by rewrite E.
  - remember (nid t) as x eqn:Ex. revert t Ex Ht. induction (Hac x) as [x _ IH].
    intros t -> Ht. destruct (decide (nid t ∈ tdone (topo_final ts))) as [|Hn]; [done|].
    assert (Hr : topo_ready m (tdone (topo_final ts)) t = true); [|by rewrite Hst in Hr].
    apply topo_ready_spec. intros d Hd.
    destruct (plain_deps_elem ts t d Hpd Ht Hd) as [Hin|]; [|destruct (decide (d ∈ nid <$> ts)); [|by right]].
    all: left; assert (Hin' : d ∈ nid <$> ts) by done;
      apply list_elem_of_fmap in Hin' as (u & -> & Hu); eapply (IH (nid u)); [|done..].
    all: exists t; split_and!; [by apply byId_NoDup|done|by apply byId_is_Some].
Qed.

Lemma topoOrder_dep_order : plain_deps ts -> acyclic ts -> dep_order ts (topoOrder ts).
Proof.
  intros Hpd Hac. unfold topoOrder.
  assert (filter (fun t => nid t ∉ tdone (topo_final ts)) ts = []) as ->.
  { apply filter_none, Forall_forall. intros t Ht Hn. by apply Hn, topo_all_done. }
  rewrite app_nil_r. apply topo_final_spec.
Qed.

Lemma topo_visits_sorted l :
  plain_deps ts -> dep_order ts l -> NoDup (nid <$> l) -> l ⊆ ts ->
  let s := foldl (topo_visit m) (Topo [] ∅ false) l in
  tout s = l /\ (forall x, x ∈ tdone s <-> x ∈ nid <$> l).
Proof.
  intros Hpd. induction l as [|t l IH] using rev_ind; intros Ho Hn Hs; simpl.
  { split; [done|]. set_solver. }
  rewrite fmap_snoc, NoDup_snoc in Hn. destruct Hn as [Hn Ht].
  destruct IH as [E1 E2]; [by eapply dep_order_prefix|done|set_solver|].
  rewrite foldl_app; simpl. set (s := foldl _ _ l) in *.
  unfold topo_visit. rewrite bool_decide_eq_false_2 by by rewrite E2.
  assert (topo_ready m (tdone s) t = true) as ->.
  { apply topo_ready_spec. intros d Hd. rewrite E2.
    destruct (decide (d ∈ nid <$> ts)) as [Hin|Hin].
    - left. by eapply (Ho l t []).
    - right. split; [done|]. destruct (plain_deps_elem ts t d Hpd) as [?|?]; [set_solver|done..]. }
  simpl. rewrite E1. split; [done|]. intros x. rewrite fmap_snoc, elem_of_union, E2. set_solver.
Qed.

Lemma topoOrder_sorted : plain_deps ts -> dep_order ts ts -> topoOrder ts = ts.
Proof.
  intros Hpd Ho. destruct (topo_visits_sorted ts) as [E1 E2]; [done..|set_solver|].
  assert (E : tout (topo_final ts) = ts /\ forall x, x ∈ tdone (topo_final ts) <-> x ∈ nid <$> ts).
  { assert (Hl : topo_more ts (topo_pass m ts (Topo [] ∅ true)) = false).
    { unfold topo_more, topo_pass. simpl. by rewrite E1, Nat.ltb_irrefl. }
    unfold topo_final. cbn [topo_loop]. destruct (topo_more ts (Topo [] ∅ true)) eqn:Em.
    - destruct (length ts); cbn [topo_loop]; [by split|]. rewrite Hl. by split.
    - unfold topo_more in Em. simpl in Em. rewrite andb_true_r in Em.
      apply Nat.ltb_ge, Nat.le_0_r, nil_length_inv in Em. rewrite Em.
      split; [done|set_solver]. }
  destruct E as [E3 E4]. unfold topoOrder. rewrite E3.
  assert (filter (fun t => nid t ∉ tdone (topo_final ts)) ts = []) as ->; [|apply app_nil_r].
  apply filter_none, Forall_forall. intros t Ht Hn. apply Hn, E4.
  by apply list_elem_of_fmap_2.
Qed.
End unique.
End topo.

(** ** Properties *)

(** C5 The cycle check always finishes and answers exactly: on tasks that are
    named and not named like a property of [Object.prototype], [hasCycle] is
    true when some task depends on itself, directly or through other tasks, and
    false otherwise. *)
Theorem hasCycle_spec ts :
  plain_ids ts ->
  (exists s, hasCycle_run ts = Some s) /\ (hasCycle ts = true <-> cyclic ts)
  /\ (hasCycle ts = false <-> acyclic ts).
Proof.
  intros Hp. split_and!; [apply hasCycle_run_total|split|split]; eauto with cronova.
  - by apply hasCycle_true.
  - intros Hc. destruct (hasCycle ts) eqn:E; [done|].
    by destruct (acyclic_not_cyclic ts (hasCycle_false ts Hp E)).
Qed.

Definition two_cycle : list node :=
  [Node (lit "a") [lit "b"]; Node (lit "b") [lit "a"]].

Lemma hasCycle_spec_witness : plain_ids two_cycle /\ cyclic two_cycle.
Proof.
  assert (Hp : plain_ids two_cycle) by compute_decide.
  split; [exact Hp|]. apply (hasCycle_spec two_cycle Hp). reflexivity.
Defined.

(** The check is blind to tasks named like a property every JS object
    inherits: two tasks named [constructor] and [toString] that wait for each
    other form a cycle that [hasCycle] does not report. *)
Theorem hasCycle_misses_inherited_names :
  let ts := [Node (lit "constructor") [lit "toString"]; Node (lit "toString") [lit "constructor"]] in
  cyclic ts /\ hasCycle ts = false.
Proof.
  split; [|reflexivity]. exists (lit "constructor").
  apply tc_l with (lit "toString"); [|apply tc_once];
    (eexists; split_and!; [reflexivity|by left|by eexists]).
Qed.

(** C15 The step order shown to novices is a reordering of the tasks in which,
    when there is no cycle, every step comes after all the steps it waits for. *)
Theorem topoOrder_spec ts :
  NoDup (nid <$> ts) -> plain_deps ts ->
  topoOrder ts ≡ₚ ts /\ (acyclic ts -> dep_order ts (topoOrder ts)).
Proof. intros. split; [by apply topoOrder_Permutation|]. intros. by apply topoOrder_dep_order. Qed.

Definition etl : list node :=
  [Node (lit "load") [lit "transform"]; Node (lit "extract") [];
   Node (lit "transform") [lit "extract"]].

Lemma topoOrder_spec_witness :
  NoDup (nid <$> etl) /\ plain_deps etl /\ dep_order etl (topoOrder etl)
  /\ nid <$> topoOrder etl = [lit "extract"; lit "transform"; lit "load"].
Proof.
  assert (Hn : NoDup (nid <$> etl)) by compute_decide.
  assert (Hd : plain_deps etl) by compute_decide.
  split_and!; [exact Hn|exact Hd| |reflexivity].
  apply (topoOrder_spec etl Hn Hd). apply hasCycle_false; [compute_decide|reflexivity].
Defined.

(** The order is stable: tasks that are already in dependency order keep
    their order. *)
Theorem topoOrder_stable ts :
  NoDup (nid <$> ts) -> plain_deps ts -> dep_order ts ts -> topoOrder ts = ts.
Proof. apply topoOrder_sorted. Qed.

Definition etl_sorted : list node :=
  [Node (lit "extract") []; Node (lit "transform") [lit "extract"];
   Node (lit "load") [lit "transform"]].

Lemma topoOrder_stable_witness : topoOrder etl_sorted = etl_sorted.
Proof.
  apply (topoOrder_stable etl_sorted); [compute_decide..|].
  apply (dep_order_snoc _ [_; _]); [apply (dep_order_snoc _ [_]); [apply (dep_order_snoc _ [])|]|];
    [apply dep_order_nil|..]; intros d Hd _; simpl in Hd;
    repeat (apply elem_of_cons in Hd as [->|Hd]); first [by apply not_elem_of_nil in Hd | compute_decide].
Defined.
