(* ===== verification/DagModel.v ===== *)
(** * The in-memory workflow: loading, validation, and the saved spec (views.js)

    [showDag] turns the server's JSON ([served]) into the editable model
    ([loadDag]); [validateDag] checks that model; [dagSpecFrom] turns it into
    the request body of a save. *)

From S2P Require Import Prelude JsCore Schedule TaskGraph.

(** ** Data *)

(** A numeric form field: [""] or the number typed. *)
Inductive numf := Blank | NumF (z : Z).
#[export] Instance numf_eq_dec : EqDecision numf.
Proof. solve_decision. Defined.

(** [+f || 0], and [f === "" || f == null ? null : +f] *)
Definition num_of (f : numf) : Z := match f with Blank => 0 | NumF z => z end.
Definition num_opt (f : numf) : option Z := match f with Blank => None | NumF z => Some z end.

Record task := Task {
  tk_id : jstr; tk_type : jstr; tk_command : jstr; tk_conn : jstr; tk_project : jstr;
  tk_pool : jstr; tk_priority : numf; tk_retries : numf; tk_retry_delay : numf;
  tk_retry_backoff : jstr; tk_retry_delay_max : numf; tk_timeout : numf; tk_sla : numf;
  tk_deps : list jstr; tk_trigger_rule : jstr; tk_subdag : jstr; tk_worker_group : jstr;
  tk_dodDag : jstr; tk_dodOffset : jstr; tk_dodTimeout : numf; tk_dodOnTimeout : jstr;
  tk_httpMethod : jstr; tk_httpUrl : jstr; tk_httpHeaders : jstr; tk_httpBody : jstr;
  tk_httpStatus : jstr;
}.
#[export] Instance task_eq_dec : EqDecision task.
Proof. solve_decision. Defined.

(** [{ ...tk, id }] and [{ ...tk, deps }] *)
Definition with_id (i : jstr) (tk : task) : task :=
  let '(Task _ a b c d e f g h j k l m ds o p q r s t u v w x y z) := tk in
  Task i a b c d e f g h j k l m ds o p q r s t u v w x y z.
Definition with_deps (ds : list jstr) (tk : task) : task :=
  let '(Task i a b c d e f g h j k l m _ o p q r s t u v w x y z) := tk in
  Task i a b c d e f g h j k l m ds o p q r s t u v w x y z.
Definition with_command (cmd : jstr) (tk : task) : task :=
  let '(Task i a _ c d e f g h j k l m ds o p q r s t u v w x y z) := tk in
  Task i a cmd c d e f g h j k l m ds o p q r s t u v w x y z.

(** [blankTask()] of builder.js; the fields it leaves undefined are falsy, like
    [""]. *)
Definition blankTask : task :=
  Task [] (lit "shell") [] [] [] (lit "default") (NumF 0) Blank Blank [] Blank Blank Blank
       [] (lit "all_success") [] [] [] [] Blank [] [] [] [] [] [].

Record dag := Dag {
  d_dag_id : jstr; d_sched : sched; d_start_date : jstr; d_catchup : bool; d_paused : bool;
  d_max_active_runs : Z; d_default_retries : Z; d_execution_policy : jstr;
  d_trigger_after : list jstr; d_notify_url : jstr; d_notify_on : list jstr;
  d_notify_format : jstr; d_notify_group : jstr; d_sla : Z; d_dagrun_timeout : Z;
  d_definition_hash : jstr;
}.

(** ** What the server returns for a workflow ([GET /api/dags/{id}])

    Every field the console guards with [||] or [??] may be absent.  The last
    fields of [served] and of [served_task] are served too, but [showDag] does
    not read them. *)
Record served_http := SvHttp {
  sh_method : option jstr; sh_url : option jstr; sh_headers : option (list (jstr * jstr));
  sh_body : option jstr; sh_expected_status : option (list Z);
}.
Record served_dod := SvDod {
  sd_dag : option jstr; sd_offset : option jstr; sd_timeout : option Z; sd_on_timeout : option jstr;
}.
Record served_task := SvTask {
  st_id : jstr; st_type : option jstr; st_command : option jstr; st_conn : option jstr;
  st_project : option jstr; st_pool : option jstr; st_priority : option Z;
  st_retries : option Z; st_retry_delay : option Z; st_retry_backoff : option jstr;
  st_retry_delay_max : option Z; st_timeout : option Z; st_sla : option Z;
  st_deps : option (list jstr); st_trigger_rule : option jstr; st_subdag : option jstr;
  st_worker_group : option jstr; st_dod : option served_dod; st_http : option served_http;
  st_when : option jstr;
}.
Record served := Served {
  sv_dag_id : jstr; sv_schedule : option jstr; sv_start_date : option jstr;
  sv_catchup : option bool; sv_paused : option bool; sv_max_active_runs : option Z;
  sv_default_retries : option Z; sv_execution_policy : option jstr;
  sv_trigger_after : option (list jstr); sv_notify_url : option jstr;
  sv_notify_on : option (list jstr); sv_notify_format : option jstr;
  sv_notify_group : option jstr; sv_sla : option Z; sv_dagrun_timeout : option Z;
  sv_definition_hash : option jstr; sv_tasks : option (list served_task);
  sv_timezone : option jstr; sv_max_active_tasks : option Z;
  sv_trigger_on_event : option (list jstr);
}.

(** ** Loading ([showDag]) *)

(** [x || d] for a string, a number, a list or a boolean that may be absent *)
Definition str_or (x : option jstr) (d : jstr) : jstr := default [] x ||j d.
Definition int_or (x : option Z) (d : Z) : Z :=
  match x with Some 0%Z | None => d | Some z => z end.
Definition list_or {A} (x : option (list A)) : list A := default [] x.
(** [x ?? ""] and [x || ""] for a number *)
Definition numf_of (x : option Z) : numf := match x with Some z => NumF z | None => Blank end.
Definition numf_or (x : option Z) : numf :=
  match x with Some 0%Z | None => Blank | Some z => NumF z end.

Definition header_line (h : jstr * jstr) : jstr := h.1 ++ lit ": " ++ h.2.

Definition loadTask (t : served_task) : task :=
  let h := default (SvHttp None None None None None) (st_http t) in
  let dd := default (SvDod None None None None) (st_dod t) in
  {| tk_id := st_id t; tk_type := str_or (st_type t) (lit "shell");
     tk_command := str_or (st_command t) []; tk_conn := str_or (st_conn t) [];
     tk_project := str_or (st_project t) []; tk_pool := str_or (st_pool t) (lit "default");
     tk_priority := NumF (int_or (st_priority t) 0); tk_retries := numf_of (st_retries t);
     tk_retry_delay := numf_of (st_retry_delay t); tk_retry_backoff := str_or (st_retry_backoff t) [];
     tk_retry_delay_max := numf_or (st_retry_delay_max t); tk_timeout := numf_or (st_timeout t);
     tk_sla := numf_or (st_sla t); tk_deps := list_or (st_deps t);
     tk_trigger_rule := str_or (st_trigger_rule t) (lit "all_success");
     tk_subdag := str_or (st_subdag t) []; tk_worker_group := str_or (st_worker_group t) [];
     tk_dodDag := str_or (sd_dag dd) []; tk_dodOffset := str_or (sd_offset dd) [];
     tk_dodTimeout := numf_or (sd_timeout dd); tk_dodOnTimeout := str_or (sd_on_timeout dd) [];
     tk_httpMethod := str_or (sh_method h) (lit "GET"); tk_httpUrl := str_or (sh_url h) [];
     tk_httpHeaders := match sh_headers h with
                       | Some hs => join (lit "
") (header_line <$> hs)
                       | None => [] end;
     tk_httpBody := str_or (sh_body h) [];
     tk_httpStatus := join (lit ", ") (num_str <$> list_or (sh_expected_status h)) |}.

Definition loadDag (s : served) : dag * list task :=
  ({| d_dag_id := sv_dag_id s; d_sched := parseScheduleState (str_or (sv_schedule s) []);
      d_start_date := take 10 (default [] (sv_start_date s));
      d_catchup := default false (sv_catchup s); d_paused := default false (sv_paused s);
      d_max_active_runs := int_or (sv_max_active_runs s) 1;
      d_default_retries := int_or (sv_default_retries s) 0;
      d_execution_policy := str_or (sv_execution_policy s) [];
      d_trigger_after := list_or (sv_trigger_after s);
      d_notify_url := str_or (sv_notify_url s) []; d_notify_on := list_or (sv_notify_on s);
      d_notify_format := str_or (sv_notify_format s) [];
      d_notify_group := str_or (sv_notify_group s) [];
      d_sla := int_or (sv_sla s) 0; d_dagrun_timeout := int_or (sv_dagrun_timeout s) 0;
      d_definition_hash := str_or (sv_definition_hash s) [] |},
   loadTask <$> list_or (sv_tasks s)).

(** ** Header lines and status lists (views.js) *)

(** [line.indexOf(":")], when it is positive: key and value, both trimmed. *)
Definition header_of_line (line : jstr) : option (jstr * jstr) :=
  match span (fun c => negb (c =? ch ":")%N) line with
  | ((_ :: _) as k, _ :: v) => if truthy (trim k) then Some (trim k, trim v) else None
  | _ => None
  end.

(** Assigning a string to [h.__proto__] does nothing. *)
Definition set_prop (h : gmap jstr jstr) (kv : jstr * jstr) : gmap jstr jstr :=
  if bool_decide (kv.1 = lit "__proto__") then h else <[kv.1 := kv.2]> h.

Definition parseHeaderLines (text : jstr) : gmap jstr jstr :=
  foldl (fun h line => match header_of_line line with Some kv => set_prop h kv | None => h end)
    ∅ (split_on (ch "
") text).

Definition parseStatusList (text : jstr) : list Z :=
  filter (fun n => 100 <= n <= 599)%Z
    (omap (fun s => parse_int (trim s)) (split_on (ch ",") text)).

(** ** Validation ([validateDag]) *)

Definition to_node (tk : task) : node := Node (tk_id tk) (tk_deps tk).

Definition is_type (tk : task) (ty : jstr) : bool := bool_decide (tk_type tk = ty).
Definition blank (s : jstr) : bool := negb (truthy (trim s)).

Definition notify_url_ok (url : jstr) : bool :=
  starts_with_ci (lit "http://") url || starts_with_ci (lit "https://") url
  || starts_with_ci (lit "mailto:") url.

(** The tests in source order; each error is its dictionary key. *)
Definition dag_checks (d : dag) (ts : list task) : list (bool * jstr) :=
  let ids := tk_id <$> ts in
  let nonEmpty := filter (fun i => truthy i = true) ids in
  let nurl := trim (d_notify_url d) in
  let some_named p := existsb (fun x => truthy (tk_id x) && p x) ts in
  [ (existsb (fun i => negb (truthy i)) ids, lit "err_emptyid");
    (existsb (fun i => negb (ID_RE i)) nonEmpty, lit "err_taskid");
    (negb (bool_decide (NoDup nonEmpty)), lit "err_dup");
    (some_named (fun x => negb (is_type x (lit "http")) && negb (is_type x (lit "subdag"))
                          && blank (tk_command x)), lit "err_emptycmd");
    (some_named (fun x => is_type x (lit "http") && blank (tk_httpUrl x)), lit "err_httpurl");
    (some_named (fun x => is_type x (lit "sql") && blank (tk_conn x)), lit "err_sqlconn");
    (some_named (fun x => is_type x (lit "subdag") && blank (tk_subdag x)), lit "err_subdag");
    (hasCycle (to_node <$> filter (fun x => truthy (tk_id x) = true) ts), lit "err_cycle");
    (truthy nurl && negb (notify_url_ok nurl), lit "err_notify_url") ].

Definition validateDag (d : dag) (ts : list task) : list label :=
  omap (fun c : bool * jstr => if c.1 then Some (T c.2 []) else None) (dag_checks d ts).

(** ** The request body of a save ([dagSpecFrom]) *)

Record spec_http := SpHttp {
  ph_method : jstr; ph_url : jstr; ph_headers : gmap jstr jstr; ph_body : jstr;
  ph_expected_status : list Z;
}.
Record spec_dod := SpDod { pd_dag : jstr; pd_offset : jstr; pd_timeout : Z; pd_on_timeout : jstr }.
Record spec_task := SpTask {
  sp_id : jstr; sp_type : jstr; sp_pool : jstr; sp_priority : Z; sp_deps : list jstr;
  sp_timeout : Z; sp_sla : Z; sp_trigger_rule : jstr; sp_retries : option Z;
  sp_retry_delay : option Z; sp_retry_backoff : jstr; sp_retry_delay_max : Z;
  sp_http : option spec_http; sp_subdag : option jstr; sp_command : option jstr;
  sp_conn : option jstr; sp_project : option jstr; sp_worker_group : option jstr;
  sp_depends_on_dag : option spec_dod;
}.
Record spec := Spec {
  s_dag_id : jstr; s_schedule : jstr; s_start_date : jstr; s_catchup : bool;
  s_max_active_runs : Z; s_default_retries : Z; s_trigger_after : list jstr;
  s_notify_url : jstr; s_notify_group : jstr; s_notify_on : list jstr; s_notify_format : jstr;
  s_execution_policy : jstr; s_expected_hash : jstr; s_sla : Z; s_dagrun_timeout : Z;
  s_tasks : list spec_task;
}.

Definition when {A} (b : bool) (x : A) : option A := if b then Some x else None.

Definition specTask (ts : list task) (tk : task) : spec_task :=
  let http := is_type tk (lit "http") in
  let sub := negb http && is_type tk (lit "subdag") in
  let cmd := negb http && negb sub in
  let dd := trim (tk_dodDag tk) in
  {| sp_id := tk_id tk; sp_type := tk_type tk; sp_pool := tk_pool tk ||j lit "default";
     sp_priority := num_of (tk_priority tk);
     sp_deps := filter (fun dep => dep ∈ tk_id <$> ts) (tk_deps tk);
     sp_timeout := Z.max 0 (num_of (tk_timeout tk)); sp_sla := Z.max 0 (num_of (tk_sla tk));
     sp_trigger_rule := tk_trigger_rule tk ||j lit "all_success";
     sp_retries := num_opt (tk_retries tk); sp_retry_delay := num_opt (tk_retry_delay tk);
     sp_retry_backoff := tk_retry_backoff tk;
     sp_retry_delay_max := Z.max 0 (num_of (tk_retry_delay_max tk));
     sp_http := when http
       {| ph_method := tk_httpMethod tk ||j lit "GET"; ph_url := trim (tk_httpUrl tk);
          ph_headers := parseHeaderLines (tk_httpHeaders tk); ph_body := tk_httpBody tk;
          ph_expected_status := parseStatusList (tk_httpStatus tk) |};
     sp_subdag := when sub (trim (tk_subdag tk));
     sp_command := when cmd (tk_command tk);
     sp_conn := when (cmd && is_type tk (lit "sql")) (trim (tk_conn tk));
     sp_project := when (cmd && is_type tk (lit "shell") && truthy (tk_project tk)) (tk_project tk);
     sp_worker_group := when (truthy (trim (tk_worker_group tk))) (trim (tk_worker_group tk));
     sp_depends_on_dag := when (truthy dd)
       {| pd_dag := dd; pd_offset := trim (tk_dodOffset tk);
          pd_timeout := Z.max 0 (num_of (tk_dodTimeout tk));
          pd_on_timeout := tk_dodOnTimeout tk |} |}.

Definition dagSpecFrom (d : dag) (ts : list task) : spec :=
  let target := truthy (trim (d_notify_url d)) || truthy (trim (d_notify_group d)) in
  {| s_dag_id := d_dag_id d; s_schedule := schedule (d_sched d); s_start_date := d_start_date d;
     s_catchup := d_catchup d; s_max_active_runs := int_or (Some (d_max_active_runs d)) 1;
     s_default_retries := d_default_retries d; s_trigger_after := d_trigger_after d;
     s_notify_url := trim (d_notify_url d); s_notify_group := trim (d_notify_group d);
     s_notify_on := if target then d_notify_on d else [];
     s_notify_format := d_notify_format d; s_execution_policy := d_execution_policy d;
     s_expected_hash := d_definition_hash d; s_sla := Z.max 0 (d_sla d);
     s_dagrun_timeout := Z.max 0 (d_dagrun_timeout d);
     s_tasks := specTask ts <$> filter (fun tk => truthy (tk_id tk) = true) ts |}.

(** [flushSave] recomputes the schedule string before it builds the body. *)
Definition save_spec (d : dag) (ts : list task) : spec :=
  dagSpecFrom {| d_dag_id := d_dag_id d; d_sched := computeSchedule (d_sched d);
      d_start_date := d_start_date d; d_catchup := d_catchup d; d_paused := d_paused d;
      d_max_active_runs := d_max_active_runs d; d_default_retries := d_default_retries d;
      d_execution_policy := d_execution_policy d; d_trigger_after := d_trigger_after d;
      d_notify_url := d_notify_url d; d_notify_on := d_notify_on d;
      d_notify_format := d_notify_format d; d_notify_group := d_notify_group d; d_sla := d_sla d;
      d_dagrun_timeout := d_dagrun_timeout d; d_definition_hash := d_definition_hash d |} ts.

(** ** Lemmas on headers and status lists *)

Definition header_ok (h : jstr * jstr) : Prop :=
  h.1 <> [] /\ trimmed h.1 /\ trimmed h.2 /\ ~ (ch ":" ∈ h.1) /\ h.1 <> lit "__proto__"
  /\ Forall (fun c => c <> ch "
") (h.1 ++ h.2).
Definition headers_ok (hs : list (jstr * jstr)) : Prop := NoDup hs.*1 /\ Forall header_ok hs.

Lemma trim_start_cons_ws c s : is_ws c = true -> trim_start (c :: s) = trim_start s.
Proof. intros Hc. unfold trim_start; simpl. rewrite Hc. by destruct (span is_ws s). Qed.

Lemma trim_cons_ws c s : is_ws c = true -> trim (c :: s) = trim s.
Proof. intros Hc. unfold trim. by rewrite trim_start_cons_ws. Qed.

Lemma header_of_header_line h : header_ok h -> header_of_line (header_line h) = Some h.
Proof.
  destruct h as [k v]. intros (Hne & Hk & Hv & Hc & _); simpl in *.
  unfold header_of_line, header_line; simpl.
  rewrite span_exact; [|apply Forall_forall; intros c Hx|done].
  2: { apply negb_true_iff, N.eqb_neq. naive_solver. }
  destruct k as [|c k]; [done|]. rewrite (trim_id (c :: k)) by done.
  by rewrite trim_cons_ws, trim_id.
Qed.

Lemma header_line_no_newline h : header_ok h -> ch "
" ∉ header_line h.
Proof.
  destruct h as [k v]. intros (_ & _ & _ & _ & _ & Hn) Hin; simpl in *.
  unfold header_line in Hin; simpl in Hin. apply Forall_app in Hn as [Hk Hv].
  rewrite Forall_forall in Hk, Hv. rewrite !elem_of_app, !elem_of_cons in Hin.
  destruct Hin as [Hin|[?|[?|Hin]]]; [by eapply Hk|done|done|by eapply Hv].
Qed.

Lemma parseHeaderLines_lines hs :
  headers_ok hs -> parseHeaderLines (join (lit "
") (header_line <$> hs)) = list_to_map hs.
Proof.
  intros [Hn Hok]. unfold parseHeaderLines. destruct hs as [|h0 hs0]; [done|].
  rewrite split_join; [|done|].
  2: { apply Forall_fmap. eapply Forall_impl; [exact Hok|]. intros h. apply header_line_no_newline. }
  revert Hn Hok. generalize (h0 :: hs0) as hs. clear h0 hs0. intros hs.
  rewrite <- (right_id_L ∅ (∪) (list_to_map hs)).
  assert (Hd : forall k, k ∈ hs.*1 -> (∅ : gmap jstr jstr) !! k = None) by done.
  revert Hd. generalize (∅ : gmap jstr jstr) as m. induction hs as [|h hs IH]; intros m Hd Hn Hok.
  - symmetry. apply (left_id_L ∅ (∪)). 
  - rewrite fmap_cons in *. apply NoDup_cons in Hn as [Hh Hn]. inversion Hok as [|? ? Hoh Hos]; subst.
    simpl. rewrite header_of_header_line by done. unfold set_prop at 2.
    rewrite bool_decide_eq_false_2 by apply Hoh. destruct h as [k v]; simpl in *.
    rewrite IH; [|intros k' Hk'; rewrite lookup_insert_ne by set_solver; apply Hd; set_solver|done..].
    rewrite <- insert_union_l. symmetry; apply insert_union_r, not_elem_of_list_to_map_1. done.
Qed.

Lemma num_str_nonneg z : (0 <= z)%Z -> num_str z = digits (Z.to_N z).
Proof. intros Hz. unfold num_str. by rewrite (proj2 (Z.ltb_ge _ _)) by lia. Qed.

Lemma digits_trimmed n : trimmed (digits n).
Proof.
  pose proof (digits_digit n) as Hd. pose proof (digits_nonnil n). split.
  - rewrite <- (app_nil_r (digits n)). by apply digits_stops_ws.
  - rewrite <- (app_nil_r (reverse _)). apply digits_stops_ws; [|by apply Forall_reverse].
    intros E. apply (f_equal reverse) in E. by rewrite reverse_involutive in E.
Qed.

Lemma digit_neq_comma n : ch "," ∉ digits n.
Proof.
  intros Hin. pose proof (digits_digit n) as Hd. rewrite Forall_forall in Hd.
  by specialize (Hd _ Hin).
Qed.

Lemma join_space ws w :
  join (lit ", ") (w :: ws) = join (lit ",") (w :: ((fun s => ch " " :: s) <$> ws)).
Proof.
  assert (H : forall v, v ++ join (lit ", ") (w :: ws)
                        = join (lit ",") ((v ++ w) :: ((fun s => ch " " :: s) <$> ws))).
  2: { apply (H []). }
  revert w; induction ws as [|w' ws IH]; intros w v; [done|].
  rewrite join_cons, fmap_cons, join_cons. rewrite (app_assoc v). apply (f_equal (fun s => (v ++ w) ++ s)).
  exact (f_equal (fun s => ch "," :: s) (IH w' (lit " "))).
Qed.

Lemma parseStatusList_join zs :
  Forall (fun z => 100 <= z <= 599)%Z zs ->
  parseStatusList (join (lit ", ") (num_str <$> zs)) = zs.
Proof.
  intros Hr. unfold parseStatusList. destruct zs as [|z zs]; [done|].
  assert (Hp : forall z, (100 <= z <= 599)%Z -> parse_int (num_str z) = Some z).
  { intros y Hy. rewrite num_str_nonneg, parse_int_digits by lia. f_equal. lia. }
  assert (Ht : forall z, (100 <= z <= 599)%Z -> trimmed (num_str z)).
  { intros y Hy. rewrite num_str_nonneg by lia. apply digits_trimmed. }
  assert (Hc : forall z, (100 <= z <= 599)%Z -> ch "," ∉ num_str z).
  { intros y Hy. rewrite num_str_nonneg by lia. apply digit_neq_comma. }
  rewrite fmap_cons, join_space, split_join; [|done|].
  - assert (E : omap (fun s => parse_int (trim s))
        (num_str z :: ((fun s => ch " " :: s) <$> (num_str <$> zs))) = z :: zs).
    { inversion Hr as [|? ? Hz Hzs]; subst. simpl. rewrite trim_id, Hp by auto. f_equal.
      clear Hr Hz. induction Hzs as [|y ys Hy _ IH]; [done|]; simpl.
      rewrite trim_cons_ws, trim_id, Hp by auto. by f_equal. }
    rewrite E. by apply filter_all.
  - inversion Hr as [|? ? Hz Hzs]; subst. constructor; [by apply Hc|].
    rewrite <- list_fmap_compose. apply Forall_fmap. eapply Forall_impl; [exact Hzs|].
    intros y Hy; simpl. apply not_elem_of_cons. split; [done|by apply Hc].
Qed.

(** ** What a valid workflow is *)

Definition named (s : jstr) : Prop := trim s <> [].

(** The payload a task of each type needs. *)
Record payload_ok (tk : task) : Prop := {
  pl_command : tk_type tk <> lit "http" -> tk_type tk <> lit "subdag" -> named (tk_command tk);
  pl_http : tk_type tk = lit "http" -> named (tk_httpUrl tk);
  pl_sql : tk_type tk = lit "sql" -> named (tk_conn tk);
  pl_subdag : tk_type tk = lit "subdag" -> named (tk_subdag tk);
}.

Record valid_model (d : dag) (ts : list task) : Prop := {
  vm_ids : Forall (fun tk => ID_RE (tk_id tk) = true) ts;
  vm_nodup : NoDup (tk_id <$> ts);
  vm_acyclic : acyclic (to_node <$> ts);
  vm_payload : Forall payload_ok ts;
  vm_notify : trim (d_notify_url d) = [] \/ notify_url_ok (trim (d_notify_url d)) = true;
}.

(** No task is named like a property of [Object.prototype]. *)
Definition plain_tasks (ts : list task) : Prop := Forall (fun tk => tk_id tk ∉ proto_names) ts.
#[export] Instance plain_tasks_dec ts : Decision (plain_tasks ts).
Proof. unfold plain_tasks. apply _. Defined.

Lemma nid_to_node (ts : list task) : nid <$> (to_node <$> ts) = tk_id <$> ts.
Proof. by rewrite <- list_fmap_compose. Qed.
#[export] Hint Rewrite nid_to_node : cronova.

Lemma blank_true s : blank s = true <-> trim s = [].
Proof. unfold blank. by destruct (trim s). Qed.

Lemma existsb_false {A} (p : A -> bool) l :
  existsb p l = false <-> Forall (fun x => p x = false) l.
Proof.
  induction l as [|x l IH]; simpl; [by rewrite Forall_nil|].
  by rewrite orb_false_iff, Forall_cons, IH.
Qed.

Lemma named_all ts :
  Forall (fun tk => ID_RE (tk_id tk) = true) ts ->
  filter (fun x => truthy (tk_id x) = true) ts = ts
  /\ filter (fun i => truthy i = true) (tk_id <$> ts) = tk_id <$> ts.
Proof.
  intros H. split; apply filter_all; [|apply Forall_fmap];
    (eapply Forall_impl; [exact H|]; intros tk Htk; by apply truthy_true, ID_RE_nonnil).
Qed.

Lemma plain_nodes ts :
  Forall (fun tk => ID_RE (tk_id tk) = true) ts -> plain_tasks ts -> plain_ids (to_node <$> ts).
Proof.
  intros H1 H2. apply Forall_fmap, Forall_forall. intros tk Htk. simpl.
  unfold plain_tasks in H2. rewrite Forall_forall in H1, H2. split; [|by apply H2].
  by apply ID_RE_nonnil, H1.
Qed.

(** [validateDag] reports nothing when every one of its tests is false. *)
Lemma validateDag_nil d ts :
  validateDag d ts = [] <-> Forall (fun c : bool * jstr => c.1 = false) (dag_checks d ts).
Proof.
  unfold validateDag. induction (dag_checks d ts) as [|[[] k] l IH]; simpl;
    rewrite ?Forall_nil, ?Forall_cons; simpl; [done| |]; naive_solver.
Qed.

Lemma ids_checks ts :
  existsb (fun i => negb (truthy i)) (tk_id <$> ts) = false /\
  existsb (fun i => negb (ID_RE i)) (filter (fun i => truthy i = true) (tk_id <$> ts)) = false
  <-> Forall (fun tk => ID_RE (tk_id tk) = true) ts.
Proof.
  rewrite !existsb_false, <- (Forall_fmap tk_id (fun i => ID_RE i = true)).
  generalize (tk_id <$> ts). induction l as [|i l IH]; [by rewrite Forall_nil|].
  rewrite !Forall_cons, <- IH. destruct (truthy i) eqn:E.
  - rewrite filter_cons_True, Forall_cons by done. destruct (ID_RE i); naive_solver.
  - destruct i; [naive_solver|done].
Qed.

Lemma payload_check x :
  (negb (is_type x (lit "http")) && negb (is_type x (lit "subdag")) && blank (tk_command x) = false
   /\ is_type x (lit "http") && blank (tk_httpUrl x) = false
   /\ is_type x (lit "sql") && blank (tk_conn x) = false
   /\ is_type x (lit "subdag") && blank (tk_subdag x) = false) <-> payload_ok x.
Proof.
  unfold is_type, named, blank. rewrite !andb_false_iff, !negb_false_iff, !bool_decide_eq_true,
    !bool_decide_eq_false, !truthy_true.
  split.
  - intros (H1 & H2 & H3 & H4). split; unfold named; tauto.
  - intros [H1 H2 H3 H4]; unfold named in *.
    destruct (decide (tk_type x = lit "http")), (decide (tk_type x = lit "subdag")),
      (decide (tk_type x = lit "sql")); tauto.
Qed.

Lemma payload_checks ts :
  Forall (fun tk => ID_RE (tk_id tk) = true) ts ->
  let some_named p := existsb (fun x => truthy (tk_id x) && p x) ts in
  (some_named (fun x => negb (is_type x (lit "http")) && negb (is_type x (lit "subdag"))
                        && blank (tk_command x)) = false /\
   some_named (fun x => is_type x (lit "http") && blank (tk_httpUrl x)) = false /\
   some_named (fun x => is_type x (lit "sql") && blank (tk_conn x)) = false /\
   some_named (fun x => is_type x (lit "subdag") && blank (tk_subdag x)) = false)
  <-> Forall payload_ok ts.
Proof.
  intros Hid. cbv zeta. rewrite !existsb_false, !Forall_forall. rewrite Forall_forall in Hid.
  assert (Ht : forall x, x ∈ ts -> truthy (tk_id x) = true).
  { intros x Hx. by apply truthy_true, ID_RE_nonnil, Hid. }
  setoid_rewrite <- payload_check. split.
  - intros (H1 & H2 & H3 & H4) x Hx. specialize (H1 x Hx). specialize (H2 x Hx).
    specialize (H3 x Hx). specialize (H4 x Hx). by rewrite Ht in *.
  - intros H. split_and!; intros x Hx; rewrite Ht by done; by apply (H x Hx).
Qed.

Lemma validateDag_valid d ts :
  plain_tasks ts -> validateDag d ts = [] <-> valid_model d ts.
Proof.
  intros Hp. rewrite validateDag_nil. unfold dag_checks.
  rewrite !Forall_cons, Forall_nil. cbn [fst].
  assert (Hn : truthy (trim (d_notify_url d)) && negb (notify_url_ok (trim (d_notify_url d))) = false
    <-> trim (d_notify_url d) = [] \/ notify_url_ok (trim (d_notify_url d)) = true).
  { rewrite andb_false_iff, negb_false_iff. destruct (trim (d_notify_url d)); naive_solver. }
  rewrite Hn. clear Hn. split.
  - intros (H1 & H2 & H3 & H4 & H5 & H6 & H7 & H8 & H9 & _).
    pose proof (proj1 (ids_checks ts) (conj H1 H2)) as Hid.
    destruct (named_all ts Hid) as [E1 E2]. rewrite E2 in H3. rewrite E1 in H8. split.
    + done.
    + by apply negb_false_iff, bool_decide_eq_true in H3.
    + by apply hasCycle_false, H8; apply plain_nodes.
    + by apply (payload_checks ts Hid).
    + done.
  - intros [Hid Hnd Hac Hpl Hu]. destruct (proj2 (ids_checks ts) Hid) as [H1 H2].
    destruct (named_all ts Hid) as [E1 E2]. rewrite E1, E2. rewrite E2 in H2.
    destruct (proj2 (payload_checks ts Hid) Hpl) as (H4 & H5 & H6 & H7).
    repeat (split; [first [assumption | by apply negb_false_iff, bool_decide_eq_true
      | by apply acyclic_hasCycle, Hac; apply plain_nodes]|]).
    done.
Qed.

(** ** Properties of the saved spec *)

Definition spec_node (tk : spec_task) : node := Node (sp_id tk) (sp_deps tk).

(** The shape of a request body that the server can take as a workflow. *)
Record spec_ok (sp : spec) : Prop := {
  so_nodup : NoDup (sp_id <$> s_tasks sp);
  so_ids : Forall (fun tk => ID_RE (sp_id tk) = true) (s_tasks sp);
  so_deps : Forall (fun tk => Forall (fun dep => dep ∈ sp_id <$> s_tasks sp) (sp_deps tk)) (s_tasks sp);
  so_acyclic : acyclic (spec_node <$> s_tasks sp);
  so_times : (0 <= s_sla sp /\ 0 <= s_dagrun_timeout sp)%Z /\
    Forall (fun tk => 0 <= sp_timeout tk /\ 0 <= sp_sla tk /\ 0 <= sp_retry_delay_max tk)%Z (s_tasks sp);
  so_notify : s_notify_on sp <> [] -> s_notify_url sp <> [] \/ s_notify_group sp <> [];
  so_payload : Forall (fun tk => match sp_http tk, sp_subdag tk, sp_command tk with
    | Some h, None, None => sp_type tk = lit "http" /\ ph_url h <> []
        /\ Forall (fun c => 100 <= c <= 599)%Z (ph_expected_status h)
    | None, Some s, None => sp_type tk = lit "subdag" /\ s <> []
    | None, None, Some c => trim c <> []
        /\ (sp_type tk = lit "sql" -> exists cn, sp_conn tk = Some cn /\ cn <> [])
    | _, _, _ => False end) (s_tasks sp);
}.

Lemma parseStatusList_range s : Forall (fun c => 100 <= c <= 599)%Z (parseStatusList s).
Proof. apply Forall_forall. intros c. unfold parseStatusList. rewrite list_elem_of_filter. by intros [? _]. Qed.

Lemma specTask_payload ts tk : payload_ok tk ->
  match sp_http (specTask ts tk), sp_subdag (specTask ts tk), sp_command (specTask ts tk) with
    | Some h, None, None => sp_type (specTask ts tk) = lit "http" /\ ph_url h <> []
        /\ Forall (fun c => 100 <= c <= 599)%Z (ph_expected_status h)
    | None, Some s, None => sp_type (specTask ts tk) = lit "subdag" /\ s <> []
    | None, None, Some c => trim c <> [] /\ (sp_type (specTask ts tk) = lit "sql" ->
                              exists cn, sp_conn (specTask ts tk) = Some cn /\ cn <> [])
    | _, _, _ => False end.
Proof.
  intros [H1 H2 H3 H4]. unfold specTask, is_type, named in *.
  cbn [sp_http sp_subdag sp_command sp_type sp_conn].
  destruct (decide (tk_type tk = lit "http")) as [E|E].
  - rewrite !(bool_decide_eq_true_2 _ E). simpl. auto using parseStatusList_range.
  - rewrite !(bool_decide_eq_false_2 _ E). simpl.
    destruct (decide (tk_type tk = lit "subdag")) as [E'|E'].
    + rewrite !(bool_decide_eq_true_2 _ E'). simpl. auto.
    + rewrite !(bool_decide_eq_false_2 _ E'). simpl. split; [auto|]. intros Es.
      rewrite (bool_decide_eq_true_2 _ Es). simpl. eauto.
Qed.

Lemma spec_ids ts : sp_id <$> (specTask ts <$> ts) = tk_id <$> ts.
Proof. by rewrite <- list_fmap_compose. Qed.

Lemma spec_acyclic ts :
  NoDup (tk_id <$> ts) -> acyclic (to_node <$> ts) -> acyclic (spec_node <$> (specTask ts <$> ts)).
Proof.
  intros Hn Ha. apply (acyclic_waits (to_node <$> ts) _ id); [by rewrite nid_to_node|done|].
  intros x y (t & Ht & <- & Hy & _). rewrite <- list_fmap_compose in Ht.
  apply list_elem_of_fmap in Ht as (tk & -> & Htk). simpl in *.
  apply list_elem_of_filter in Hy as [Hin Hy]. exists (to_node tk). rewrite nid_to_node.
  split_and!; [by apply list_elem_of_fmap_2|done..].
Qed.

(** C1 A model the console reports no error for is saved whole and well formed:
    every task is in the request, in order and under its own name; names are
    unique and well shaped; every dependency names a task of the request; there
    is no cycle; time limits are not negative; each task carries exactly the
    payload of its type; and notifications have a destination. *)
Theorem saved_spec_ok d ts :
  plain_tasks ts -> validateDag d ts = [] ->
  sp_id <$> s_tasks (save_spec d ts) = tk_id <$> ts /\ spec_ok (save_spec d ts).
Proof.
  intros Hp Hv. apply validateDag_valid in Hv as [Hid Hnd Hac Hpl _]; [|done].
  destruct (named_all ts Hid) as [E _].
  unfold save_spec, dagSpecFrom. cbn [d_notify_url d_notify_group d_notify_on s_tasks].
  rewrite E. split; [apply spec_ids|]. split; cbn [s_tasks s_sla s_dagrun_timeout s_notify_on
    s_notify_url s_notify_group]; rewrite ?spec_ids.
  - done.
  - by apply Forall_fmap.
  - apply Forall_fmap, Forall_forall. intros tk _; simpl. apply Forall_forall.
    intros x. by rewrite list_elem_of_filter; intros [? _].
  - by apply spec_acyclic.
  - split; [lia|]. apply Forall_fmap, Forall_forall. intros tk _; simpl. lia.
  - destruct (trim (d_notify_url d)), (trim (d_notify_group d)); simpl; auto.
  - apply Forall_fmap. eapply Forall_impl; [exact Hpl|]. intros tk. apply specTask_payload.
Qed.

Definition shell_task (i cmd : jstr) (deps : list jstr) : task :=
  with_id i (with_command cmd (with_deps deps blankTask)).
Definition blank_dag (i : jstr) : dag :=
  Dag i (parseScheduleState []) [] false false 1 0 [] [] [] [] [] [] 0 0 [].
Definition two_steps : list task :=
  [shell_task (lit "extract") (lit "echo 1") []; shell_task (lit "load") (lit "echo 2") [lit "extract"]].

Lemma saved_spec_ok_witness :
  plain_tasks two_steps /\ validateDag (blank_dag (lit "etl")) two_steps = [] /\
  spec_ok (save_spec (blank_dag (lit "etl")) two_steps).
Proof.
  assert (Hp : plain_tasks two_steps) by compute_decide.
  assert (Hv : validateDag (blank_dag (lit "etl")) two_steps = []) by reflexivity.
  split; [exact Hp|]. split; [exact Hv|].
  apply (saved_spec_ok (blank_dag (lit "etl")) two_steps Hp Hv).
Defined.

(** C36 The console's check is exact: it reports no error for a workflow when,
    and only when, the names are well shaped and distinct, nothing depends on
    itself in a circle, every task has the payload of its type, and the
    notification address is empty or a web or mail address. *)
Theorem validateDag_exact d ts :
  plain_tasks ts -> (validateDag d ts = [] <-> valid_model d ts).
Proof. apply validateDag_valid. Qed.

Lemma validateDag_exact_witness :
  plain_tasks two_steps /\ valid_model (blank_dag (lit "etl")) two_steps.
Proof.
  assert (Hp : plain_tasks two_steps) by compute_decide.
  split; [exact Hp|].
  apply (validateDag_exact (blank_dag (lit "etl")) two_steps Hp). reflexivity.
Defined.

(** ** Opening and saving *)

(** The definition a served workflow denotes: every field as the server sent
    it, absent ones at the server's default. *)
Definition spec_of_http (h : served_http) : spec_http :=
  SpHttp (default (lit "GET") (sh_method h)) (default [] (sh_url h))
         (list_to_map (default [] (sh_headers h))) (default [] (sh_body h))
         (default [] (sh_expected_status h)).
Definition spec_of_dod (dd : served_dod) : spec_dod :=
  SpDod (default [] (sd_dag dd)) (default [] (sd_offset dd)) (default 0%Z (sd_timeout dd))
        (default [] (sd_on_timeout dd)).
Definition nonempty (s : option jstr) : option jstr := match s with Some [] => None | _ => s end.

Definition spec_of_task (t : served_task) : spec_task :=
  let ty := default (lit "shell") (st_type t) in
  let has_command := negb (bool_decide (ty = lit "http")) && negb (bool_decide (ty = lit "subdag")) in
  {| sp_id := st_id t; sp_type := ty; sp_pool := default (lit "default") (st_pool t);
     sp_priority := default 0%Z (st_priority t); sp_deps := default [] (st_deps t);
     sp_timeout := default 0%Z (st_timeout t); sp_sla := default 0%Z (st_sla t);
     sp_trigger_rule := default (lit "all_success") (st_trigger_rule t);
     sp_retries := st_retries t; sp_retry_delay := st_retry_delay t;
     sp_retry_backoff := default [] (st_retry_backoff t);
     sp_retry_delay_max := default 0%Z (st_retry_delay_max t);
     sp_http := spec_of_http <$> st_http t; sp_subdag := nonempty (st_subdag t);
     sp_command := when has_command (default [] (st_command t)); sp_conn := nonempty (st_conn t);
     sp_project := nonempty (st_project t); sp_worker_group := nonempty (st_worker_group t);
     sp_depends_on_dag := spec_of_dod <$> st_dod t |}.

Definition spec_of_served (s : served) : spec :=
  {| s_dag_id := sv_dag_id s; s_schedule := default [] (sv_schedule s);
     s_start_date := take 10 (default [] (sv_start_date s));
     s_catchup := default false (sv_catchup s);
     s_max_active_runs := default 1%Z (sv_max_active_runs s);
     s_default_retries := default 0%Z (sv_default_retries s);
     s_trigger_after := default [] (sv_trigger_after s);
     s_notify_url := default [] (sv_notify_url s); s_notify_group := default [] (sv_notify_group s);
     s_notify_on := default [] (sv_notify_on s); s_notify_format := default [] (sv_notify_format s);
     s_execution_policy := default [] (sv_execution_policy s);
     s_expected_hash := default [] (sv_definition_hash s); s_sla := default 0%Z (sv_sla s);
     s_dagrun_timeout := default 0%Z (sv_dagrun_timeout s);
     s_tasks := spec_of_task <$> default [] (sv_tasks s) |}.

(** The shape of the workflows the server stores: texts that the save trims
    are trimmed, optional texts are absent or not empty, numbers are in range,
    and a field of one task type is present on that type only. *)
Definition set_text (s : option jstr) : Prop := s <> Some [].
Definition trim_text (s : option jstr) : Prop := trimmed (default [] s).
Definition nat_field (z : option Z) : Prop := (0 <= default 0 z)%Z.

Record http_ok (h : served_http) : Prop := {
  ho_method : set_text (sh_method h);
  ho_url : trim_text (sh_url h);
  ho_headers : headers_ok (default [] (sh_headers h));
  ho_status : Forall (fun z => 100 <= z <= 599)%Z (default [] (sh_expected_status h));
}.
Record dod_ok (dd : served_dod) : Prop := {
  do_dag : exists n, sd_dag dd = Some n /\ n <> [];
  do_dag_trim : trim_text (sd_dag dd);
  do_offset : trim_text (sd_offset dd);
  do_timeout : nat_field (sd_timeout dd);
}.
Record served_task_ok (ids : list jstr) (t : served_task) : Prop := {
  to_id : st_id t <> [];
  to_type : set_text (st_type t);
  to_pool : set_text (st_pool t);
  to_rule : set_text (st_trigger_rule t);
  to_deps : Forall (fun d => d ∈ ids) (default [] (st_deps t));
  to_nums : nat_field (st_timeout t) /\ nat_field (st_sla t) /\ nat_field (st_retry_delay_max t);
  to_group : trim_text (st_worker_group t);
  to_http : if bool_decide (st_type t = Some (lit "http"))
            then exists h, st_http t = Some h /\ http_ok h else st_http t = None;
  to_subdag : if bool_decide (st_type t = Some (lit "subdag"))
              then exists n, st_subdag t = Some n /\ n <> [] /\ trimmed n
              else default [] (st_subdag t) = [];
  to_conn : if bool_decide (st_type t = Some (lit "sql"))
            then exists n, st_conn t = Some n /\ n <> [] /\ trimmed n
            else default [] (st_conn t) = [];
  to_project : default (lit "shell") (st_type t) <> lit "shell" -> default [] (st_project t) = [];
  to_dod : forall dd, st_dod t = Some dd -> dod_ok dd;
}.
Record served_ok (s : served) : Prop := {
  ok_schedule : stored_ok (default [] (sv_schedule s));
  ok_runs : sv_max_active_runs s <> Some 0%Z;
  ok_url : trim_text (sv_notify_url s);
  ok_group : trim_text (sv_notify_group s);
  ok_on : default [] (sv_notify_on s) <> [] ->
          default [] (sv_notify_url s) <> [] \/ default [] (sv_notify_group s) <> [];
  ok_nums : nat_field (sv_sla s) /\ nat_field (sv_dagrun_timeout s);
  ok_tasks : Forall (served_task_ok (st_id <$> default [] (sv_tasks s))) (default [] (sv_tasks s));
}.

Lemma str_or_nil x : str_or x [] = default [] x.
Proof. unfold str_or. by autorewrite with cronova. Qed.
Lemma str_or_set x d : set_text x -> str_or x d = default d x.
Proof. unfold set_text, str_or. by destruct x as [[|c s]|]. Qed.
Lemma set_or_again x d : set_text x -> default d x ||j d = default d x.
Proof. intros H. rewrite <- (str_or_set x d H). apply js_or_idem. Qed.
Lemma int_or_zero x : int_or x 0 = default 0%Z x.
Proof. by destruct x as [[]|]. Qed.
Lemma num_of_or x : num_of (numf_or x) = default 0%Z x.
Proof. by destruct x as [[]|]. Qed.
Lemma num_opt_of x : num_opt (numf_of x) = x.
Proof. by destruct x. Qed.
Lemma max_nat x : nat_field x -> Z.max 0 (default 0%Z x) = default 0%Z x.
Proof. unfold nat_field. lia. Qed.
Lemma trim_default x : trim_text x -> trim (default [] x) = default [] x.
Proof. apply trim_id. Qed.
Lemma when_nonempty x : when (truthy (default [] x)) (default [] x) = nonempty x.
Proof. by destruct x as [[]|]. Qed.
#[export] Hint Rewrite str_or_nil int_or_zero num_of_or num_opt_of when_nonempty : cronova.
#[export] Hint Rewrite str_or_set set_or_again max_nat trim_default using done : cronova.

(** The http part of a task. *)
Lemma save_http h : http_ok h ->
  {| ph_method := str_or (sh_method h) (lit "GET") ||j lit "GET";
     ph_url := trim (str_or (sh_url h) []);
     ph_headers := parseHeaderLines
       match sh_headers h with Some hs => join (lit "
") (header_line <$> hs) | None => [] end;
     ph_body := str_or (sh_body h) [];
     ph_expected_status :=
       parseStatusList (join (lit ", ") (num_str <$> list_or (sh_expected_status h))) |}
  = spec_of_http h.
Proof.
  intros [Hm Hu Hh Hs]. unfold spec_of_http, list_or in *. autorewrite with cronova.
  rewrite parseStatusList_join by done. f_equal.
  destruct (sh_headers h); [by apply parseHeaderLines_lines|done].
Qed.

(** The cross-workflow wait of a task. *)
Lemma save_dod o : (forall dd, o = Some dd -> dod_ok dd) ->
  let dd := default (SvDod None None None None) o in
  let n := trim (str_or (sd_dag dd) []) in
  when (truthy n) {| pd_dag := n; pd_offset := trim (str_or (sd_offset dd) []);
     pd_timeout := Z.max 0 (num_of (numf_or (sd_timeout dd)));
     pd_on_timeout := str_or (sd_on_timeout dd) [] |} = spec_of_dod <$> o.
Proof.
  intros Ho. destruct o as [dd|]; [|done]. destruct (Ho dd eq_refl) as [(n & E & Hn) Ht Hof Hti].
  cbn [default from_option fmap option_fmap option_map]. autorewrite with cronova.
  unfold spec_of_dod. rewrite E. simpl.
  rewrite E. by destruct n.
Qed.

Lemma default_type t ty :
  set_text (st_type t) -> ty <> lit "shell" ->
  default (lit "shell") (st_type t) = ty <-> st_type t = Some ty.
Proof. intros _ Hn. destruct (st_type t); simpl; naive_solver. Qed.

(** A text field of one task type. *)
Lemma save_text (b : bool) o :
  (if b then exists n, o = Some n /\ n <> [] /\ trimmed n else default [] o = []) ->
  when b (trim (default [] o)) = nonempty o.
Proof.
  destruct b.
  - intros (n & -> & Hn & Ht). simpl. rewrite trim_id by done. by destruct n.
  - by destruct o as [[]|].
Qed.

Lemma other_type (ty a b : jstr) :
  a <> b -> negb (bool_decide (ty = a)) && bool_decide (ty = b) = bool_decide (ty = b).
Proof. intros H. repeat case_bool_decide; subst; done. Qed.

Lemma command_type (ty b : jstr) :
  b <> lit "http" -> b <> lit "subdag" ->
  negb (bool_decide (ty = lit "http")) && negb (bool_decide (ty = lit "subdag"))
    && bool_decide (ty = b) = bool_decide (ty = b).
Proof. intros H1 H2. rewrite <- andb_assoc, !other_type; congruence. Qed.

Lemma save_task all t :
  served_task_ok (st_id <$> all) t ->
  specTask (loadTask <$> all) (loadTask t) = spec_of_task t.
Proof.
  intros [Hid Hty Hpo Hru Hde (Ht1 & Ht2 & Ht3) Hgr Hht Hsu Hco Hpr Hdo].
  assert (Hids : tk_id <$> (loadTask <$> all) = st_id <$> all) by by rewrite <- list_fmap_compose.
  unfold specTask, spec_of_task, is_type.
  cbn [loadTask tk_id tk_type tk_pool tk_priority tk_deps tk_timeout tk_sla tk_trigger_rule
    tk_retries tk_retry_delay tk_retry_backoff tk_retry_delay_max tk_httpMethod tk_httpUrl
    tk_httpHeaders tk_httpBody tk_httpStatus tk_subdag tk_command tk_conn tk_project
    tk_worker_group tk_dodDag tk_dodOffset tk_dodTimeout tk_dodOnTimeout].
  rewrite (save_dod (st_dod t) Hdo), Hids, (str_or_set (st_type t)) by done.
  pose proof (default_type t (lit "http") Hty ltac:(done)) as Eh.
  pose proof (default_type t (lit "subdag") Hty ltac:(done)) as Es.
  pose proof (default_type t (lit "sql") Hty ltac:(done)) as Eq.
  rewrite <- (bool_decide_ext _ _ Eh) in Hht. rewrite <- (bool_decide_ext _ _ Es) in Hsu.
  rewrite <- (bool_decide_ext _ _ Eq) in Hco. clear Eh Es Eq.
  set (ty := default (lit "shell") (st_type t)) in *.
  rewrite (other_type ty (lit "http") (lit "subdag")), !command_type by done.
  autorewrite with cronova. f_equal; try (by apply save_text).
  - by apply filter_all.
  - destruct (bool_decide (ty = lit "http")); [|by rewrite Hht]. destruct Hht as (h & -> & Hh).
    simpl. f_equal. rewrite <- (save_http h Hh). by autorewrite with cronova.
  - destruct (decide (ty = lit "shell")) as [E|E].
    + rewrite bool_decide_eq_true_2 by done. apply when_nonempty.
    + rewrite bool_decide_eq_false_2 by done. specialize (Hpr E).
      by destruct (st_project t) as [[]|].
  - by rewrite trim_default, when_nonempty.
Qed.

(** C2 Opening a workflow and saving it without an edit sends back the
    definition the server served: every field that the request carries has the
    served value, for every task type. *)
Theorem open_save_roundtrip s :
  served_ok s -> save_spec (loadDag s).1 (loadDag s).2 = spec_of_served s.
Proof.
  intros [Hsc Hru Hu Hg Hon (Hn1 & Hn2) Hts].
  unfold save_spec, dagSpecFrom, spec_of_served, loadDag, list_or.
  cbn [fst snd d_dag_id d_sched d_start_date d_catchup d_paused d_max_active_runs d_default_retries
    d_execution_policy d_trigger_after d_notify_url d_notify_on d_notify_format d_notify_group d_sla
    d_dagrun_timeout d_definition_hash].
  autorewrite with cronova. f_equal.
  - by apply open_save_schedule.
  - by destruct (sv_max_active_runs s) as [[]|].
  - destruct (default [] (sv_notify_on s)) as [|e es]; [by case_match|].
    destruct Hon as [H|H]; [done|..]; apply truthy_true in H; rewrite H; [done|].
    by rewrite orb_true_r.
  - set (ts := default [] (sv_tasks s)) in *. rewrite filter_all.
    + rewrite <- list_fmap_compose. apply list_fmap_ext. intros i t Ht. apply save_task.
      by eapply Forall_lookup_1 in Ht; [|exact Hts].
    + apply Forall_fmap. eapply Forall_impl; [exact Hts|]. intros t Ht. by apply truthy_true, Ht.
Qed.

Definition sample_shell : served_task :=
  SvTask (lit "extract") (Some (lit "shell")) (Some (lit "echo 1")) None None (Some (lit "default"))
    (Some 2%Z) (Some 3%Z) (Some 30%Z) None None None None None (Some (lit "all_success")) None
    (Some (lit "gpu")) (Some (SvDod (Some (lit "upstream")) (Some (lit "- 1d")) (Some 60%Z) None))
    None None.
Definition sample_http : served_task :=
  SvTask (lit "ping") (Some (lit "http")) None None None (Some (lit "default")) None None None None
    None (Some 10%Z) None (Some [lit "extract"]) (Some (lit "all_done")) None None None
    (Some (SvHttp (Some (lit "POST")) (Some (lit "https://x.test/hook"))
       (Some [(lit "Accept", lit "text/html; q=0.9"); (lit "X-Id", lit "a:b")]) (Some (lit "{}"))
       (Some [200; 204]%Z))) None.
Definition sample_served : served :=
  Served (lit "etl") (Some (lit "@every 5m")) (Some (lit "2024-01-01T00:00:00Z")) (Some true) None
    (Some 1%Z) (Some 2%Z) None None (Some (lit "mailto:ops@x.test")) (Some [lit "failure"]) None None
    None (Some 3600%Z) (Some (lit "h1")) (Some [sample_shell; sample_http]) None None None.

Lemma sample_shell_ok ids : served_task_ok ids sample_shell.
Proof. split; try done. intros dd [= <-]. split; try done. by eexists. Qed.

Lemma sample_header_ok k v :
  bool_decide (k <> [] /\ ~ (ch ":" ∈ k) /\ k <> lit "__proto__"
               /\ Forall (fun c => c <> ch "
") (k ++ v)) = true ->
  trimmed k -> trimmed v -> header_ok (k, v).
Proof. rewrite bool_decide_eq_true. unfold header_ok; simpl. tauto. Qed.

Lemma sample_http_ok : served_task_ok [lit "extract"; lit "ping"] sample_http.
Proof.
  split; try done; [compute_decide|]. eexists. split; [done|].
  split; [done|done| |compute_decide]. split; [compute_decide|].
  by repeat constructor; try (apply sample_header_ok; [vm_compute; reflexivity|split; exact eq_refl..]).
Qed.

Lemma sample_served_ok : served_ok sample_served.
Proof.
  split; try done.
  - right; left. exists 5%N, Um. by split.
  - by left.
  - constructor; [apply sample_shell_ok|]. constructor; [apply sample_http_ok|constructor].
Qed.

Lemma open_save_roundtrip_witness :
  served_ok sample_served /\
  s_schedule (save_spec (loadDag sample_served).1 (loadDag sample_served).2) = lit "@every 5m".
Proof.
  split; [exact sample_served_ok|].
  rewrite (open_save_roundtrip sample_served sample_served_ok). reflexivity.
Defined.

(** What [showDag] does not read. *)
Definition set_when (w : option jstr) (t : served_task) : served_task :=
  let '(SvTask a b c d e f g h i j k l m n o p q r s _) := t in
  SvTask a b c d e f g h i j k l m n o p q r s w.
Definition set_unread (tz : option jstr) (mat : option Z) (ev : option (list jstr))
    (wh : jstr -> option jstr) (s : served) : served :=
  let '(Served a b c d e f g h i j k l m n o p ts _ _ _) := s in
  Served a b c d e f g h i j k l m n o p ((fun l : list served_task => (fun t => set_when (wh (st_id t)) t) <$> l) <$> ts)
    tz mat ev.

(** Opening and saving a workflow loses four settings it was served with:
    the time zone of its schedule, its limit of concurrent tasks, the events
    that trigger it, and the run condition of each task.  Whatever their values,
    the request is the same as for a workflow that has none of them. *)
Theorem save_loses_unread tz mat ev wh s :
  let s' := set_unread tz mat ev wh s in
  save_spec (loadDag s').1 (loadDag s').2 = save_spec (loadDag s).1 (loadDag s).2.
Proof.
  assert (E : loadDag (set_unread tz mat ev wh s) = loadDag s); [|by cbv zeta; rewrite E].
  destruct s as [???????????????? [ts|]]; [|done].
  unfold loadDag, list_or; simpl. f_equal. rewrite <- list_fmap_compose.
  apply list_fmap_ext. intros i t _; simpl. by destruct t.
Qed.
