(* ===== verification/DagEdit.v ===== *)
(** * Editing a workflow in memory (views.js)

    The page state [D] of an open workflow, its edit handlers (task list, task
    page, and the graph editor with its pending session), and the invariant
    they keep.  A handler returns the new state and its effects. *)

From S2P Require Import Prelude JsCore Schedule TaskGraph DagModel.

(** ** State and effects *)

Record page := Page {
  pg_dag : dag; pg_tasks : list task;
  pg_graphPending : option jstr; pg_activeTaskId : option jstr;
  pg_graphBase : option (list task); pg_graphDirty : nat; pg_diffOpen : bool;
  pg_diffCache : bool; pg_connectMode : bool;
  pg_deleting : bool;   (** the global flag of a delete in progress *)
}.

Inductive effect :=
| ArmSave                      (** the debounce timer of a save is (re)armed *)
| Invalid (errs : list label)  (** the save is held; the errors are shown *)
| Toast (l : label)
| OpenTask (id : jstr)         (** the task page is shown *)
| Render.                      (** the current page is drawn again *)

Definition set_tasks (ts : list task) (p : page) : page :=
  Page (pg_dag p) ts (pg_graphPending p) (pg_activeTaskId p) (pg_graphBase p) (pg_graphDirty p)
       (pg_diffOpen p) (pg_diffCache p) (pg_connectMode p) (pg_deleting p).
Definition set_pending (g : option jstr) (p : page) : page :=
  Page (pg_dag p) (pg_tasks p) g (pg_activeTaskId p) (pg_graphBase p) (pg_graphDirty p)
       (pg_diffOpen p) (pg_diffCache p) (pg_connectMode p) (pg_deleting p).
Definition set_active (a : option jstr) (p : page) : page :=
  Page (pg_dag p) (pg_tasks p) (pg_graphPending p) a (pg_graphBase p) (pg_graphDirty p)
       (pg_diffOpen p) (pg_diffCache p) (pg_connectMode p) (pg_deleting p).
Definition set_connect (c : bool) (p : page) : page :=
  Page (pg_dag p) (pg_tasks p) (pg_graphPending p) (pg_activeTaskId p) (pg_graphBase p)
       (pg_graphDirty p) (pg_diffOpen p) (pg_diffCache p) c (pg_deleting p).
(** [D.graphBase = b; D.graphDirty = n; D.diffCache = null] *)
Definition set_session (b : option (list task)) (n : nat) (p : page) : page :=
  Page (pg_dag p) (pg_tasks p) (pg_graphPending p) (pg_activeTaskId p) b n (pg_diffOpen p) false
       (pg_connectMode p) (pg_deleting p).
Definition set_diffOpen (o : bool) (p : page) : page :=
  Page (pg_dag p) (pg_tasks p) (pg_graphPending p) (pg_activeTaskId p) (pg_graphBase p)
       (pg_graphDirty p) o (pg_diffCache p) (pg_connectMode p) (pg_deleting p).

Definition set_dag (d : dag) (p : page) : page :=
  Page d (pg_tasks p) (pg_graphPending p) (pg_activeTaskId p) (pg_graphBase p) (pg_graphDirty p)
       (pg_diffOpen p) (pg_diffCache p) (pg_connectMode p) (pg_deleting p).

(** ** Small helpers of the handlers *)

Definition has_id (ts : list task) (i : jstr) : bool := existsb (fun x => bool_decide (tk_id x = i)) ts.

(** [D.tasks.find((x) => x.id === id)], with its index *)
Definition find_task (i : jstr) (ts : list task) : option (nat * task) :=
  list_find (fun x => tk_id x = i) ts.

(** [arr.splice(arr.indexOf(x), 1)] *)
Fixpoint remove_first (x : jstr) (l : list jstr) : list jstr :=
  match l with [] => [] | y :: l' => if bool_decide (y = x) then l' else y :: remove_first x l' end.

(** [const i = arr.indexOf(o); if (i >= 0) arr[i] = n] *)
Fixpoint replace_first (o n : jstr) (l : list jstr) : list jstr :=
  match l with [] => [] | y :: l' => if bool_decide (y = o) then n :: l' else y :: replace_first o n l' end.

(** [do { id = mk(n); n++; } while (D.tasks.some((x) => x.id === id))] *)
Fixpoint fresh_loop (fuel : nat) (mk : N -> jstr) (ts : list task) (n : N) : option jstr :=
  match fuel with
  | O => None
  | S f => if has_id ts (mk n) then fresh_loop f mk ts (n + 1)%N else Some (mk n)
  end.
(** One candidate more than there are tasks is enough. *)
Definition fresh (mk : N -> jstr) (ts : list task) (n : N) : option jstr :=
  fresh_loop (S (length ts)) mk ts n.

Definition task_name (n : N) : jstr := lit "task_" ++ digits n.
Definition step_name (n : N) : jstr := lit "step_" ++ digits n.
Definition copy_name (i : jstr) (n : N) : jstr :=
  i ++ lit "_copy" ++ (if (1 <? n)%N then lit "_" ++ digits n else []).

Definition cyclic_tasks (ts : list task) : bool :=
  hasCycle (to_node <$> filter (fun x => truthy (tk_id x) = true) ts).

(** ** [saveDag] as the editor sees it (the timer itself is in SavePipeline) *)

Definition saveDag (p : page) : page * list effect :=
  if pg_deleting p then (p, [])
  else match validateDag (pg_dag p) (pg_tasks p) with
       | [] => (set_session None 0 p, [ArmSave])
       | errs => (p, [Invalid errs])
       end.

(** Run [saveDag], then the rest of the handler. *)
Definition then_save (p : page) (k : list effect) : page * list effect :=
  let '(p', es) := saveDag p in (p', es ++ k).

(** ** Handlers of the task list *)

Definition next_n (p : page) : N := N.of_nat (length (pg_tasks p) + 1).

Definition showTask (i : jstr) (p : page) : page * list effect := (set_active (Some i) p, [OpenTask i]).

Definition addTask (p : page) : option (page * list effect) :=
  match fresh task_name (pg_tasks p) (next_n p) with
  | None => None
  | Some i =>
    let '(p1, es) := saveDag (set_tasks (pg_tasks p ++ [with_id i blankTask]) p) in
    let '(p2, es') := showTask i p1 in Some (p2, es ++ es')
  end.

(** The last step in display order. *)
Definition last_step (ts : list task) : option jstr :=
  nid <$> last (topoOrder (to_node <$> filter (fun x => truthy (tk_id x) = true) ts)).

Definition nvAddStep (p : page) : option (page * list effect) :=
  match fresh step_name (pg_tasks p) (next_n p) with
  | None => None
  | Some i =>
    let deps := match last_step (pg_tasks p) with Some d => [d] | None => [] end in
    let tk := with_deps deps (with_command (lit "echo hello cronova") (with_id i blankTask)) in
    Some (then_save (set_tasks (pg_tasks p ++ [tk]) p) [Render])
  end.

(** The editor of one step's command (novice mode). *)
Definition nvEditStep (i : jstr) (cmd : jstr) (p : page) : page * list effect :=
  match find_task i (pg_tasks p) with
  | None => (p, [])
  | Some (n, _) => then_save (set_tasks (alter (with_command cmd) n (pg_tasks p)) p) [Render]
  end.

Definition duplicateTask (taskID : jstr) (p : page) : option (page * list effect) :=
  match find_task taskID (pg_tasks p) with
  | None => Some (p, [])
  | Some (_, src) =>
    match fresh (copy_name taskID) (pg_tasks p) 1 with
    | None => None
    | Some nid => Some (then_save (set_tasks (pg_tasks p ++ [with_id nid src]) p) [Render])
    end
  end.

Definition deleteTask (taskID : jstr) (confirmed : bool) (p : page) : page * list effect :=
  if confirmed then
    let kept := filter (fun x => tk_id x <> taskID) (pg_tasks p) in
    let scrub x := with_deps (filter (fun d => d <> taskID) (tk_deps x)) x in
    then_save (set_tasks (scrub <$> kept) p) [Render]
  else (p, []).

(** ** Handlers of the task page: the task is at index [n] of [D.tasks] *)

Definition renameActiveTask (n : nat) (newId : jstr) (p : page) : page * list effect :=
  match pg_tasks p !! n with
  | None => (p, [])
  | Some tk =>
    let oldId := tk_id tk in
    if bool_decide (newId = oldId) then (p, [])
    else if negb (truthy newId) then (p, [Toast (T (lit "err_emptyid") []); Render])
    else if negb (ID_RE newId) then (p, [Toast (T (lit "err_taskid") []); Render])
    else if has_id (delete n (pg_tasks p)) newId then (p, [Toast (T (lit "err_dup") []); Render])
    else
      let ts := imap (fun m x => if bool_decide (m = n) then with_id newId x
                                 else with_deps (replace_first oldId newId (tk_deps x)) x)
                     (pg_tasks p) in
      then_save (set_active (Some newId) (set_tasks ts p)) [Render]
  end.

Definition toggle_dep (dep : jstr) (l : list jstr) : list jstr :=
  if bool_decide (dep ∈ l) then remove_first dep l else l ++ [dep].

(** A dependency chip of the task page: toggled, and toggled back on a cycle. *)
Definition toggleDepChip (n : nat) (dep : jstr) (p : page) : page * list effect :=
  let flip_dep x := with_deps (toggle_dep dep (tk_deps x)) x in
  let ts := alter flip_dep n (pg_tasks p) in
  if cyclic_tasks ts
  then (set_tasks (alter flip_dep n ts) p, [Toast (T (lit "err_cycle") [])])
  else then_save (set_tasks ts p) [].

(** ** The graph editor: a pending session over [D.tasks] *)

Definition graphMutate (f : list task -> list task) (p : page) : page * list effect :=
  let base := match pg_graphBase p with Some b => b | None => pg_tasks p end in
  (set_session (Some base) (pg_graphDirty p + 1) (set_tasks (f (pg_tasks p)) p), [Render]).

Definition end_session (p : page) : page :=
  set_pending None (set_diffOpen false (set_session None 0 p)).

Definition graphSaveSession (p : page) : page * list effect :=
  match validateDag (pg_dag p) (pg_tasks p) with
  | e :: errs => (p, [Invalid (e :: errs); Toast e])
  | [] => then_save (end_session p) [Render]
  end.

Definition graphDiscardSession (p : page) : page * list effect :=
  let ts := match pg_graphBase p with Some b => b | None => pg_tasks p end in
  (end_session (set_tasks ts p), [Toast (T (lit "diff_discarded") []); Render]).

(** [answer] is what the name prompt returns; [None] when it is dismissed. *)
Definition addTaskFromGraph (answer : option jstr) (p : page) : page * list effect :=
  match answer with
  | None | Some [] => (p, [])
  | Some i =>
    if negb (ID_RE i) then (p, [Toast (T (lit "err_taskid") [])])
    else if has_id (pg_tasks p) i then (p, [Toast (T (lit "err_dup") [])])
    else graphMutate (fun ts => ts ++ [with_command (lit "echo TODO") (with_id i blankTask)]) p
  end.

Definition push_dep (up : jstr) (x : task) : task := with_deps (tk_deps x ++ [up]) x.
Definition drop_dep (up : jstr) (x : task) : task := with_deps (remove_first up (tk_deps x)) x.

Definition graphToggleDep (up down : jstr) (allowRemove : bool) (p : page) : page * list effect :=
  match find_task down (pg_tasks p) with
  | None => (p, [Render])
  | Some (n, dt) =>
    if bool_decide (up = down) then (p, [Render])
    else if bool_decide (up ∈ tk_deps dt) then
      if allowRemove then graphMutate (alter (drop_dep up) n) p
      else (p, [Toast (T (lit "ge_dup_dep") []); Render])
    else if cyclic_tasks (alter (push_dep up) n (pg_tasks p))
    then (p, [Toast (T (lit "err_cycle") []); Render])
    else graphMutate (alter (push_dep up) n) p
  end.

Definition graphDropAllowed (up down : jstr) (p : page) : bool :=
  match find_task down (pg_tasks p) with
  | None => false
  | Some (n, dt) =>
    if bool_decide (up = down) then false
    else if bool_decide (up ∈ tk_deps dt) then false
    else negb (cyclic_tasks (alter (push_dep up) n (pg_tasks p)))
  end.

Definition onGraphNodeActivate (i : jstr) (shift : bool) (p : page) : page * list effect :=
  if starts_with (lit "__ext__") i then (p, [])
  else if negb (pg_connectMode p || shift || bool_decide (is_Some (pg_graphPending p)))
  then showTask i p
  else match pg_graphPending p with
       | None => (set_pending (Some i) p, [Render])
       | Some up =>
         if bool_decide (up = i) then (set_pending None p, [Render])
         else graphToggleDep up i true (set_pending None p)
       end.

Definition toggleConnectMode (p : page) : page * list effect :=
  (set_pending None (set_connect (negb (pg_connectMode p)) p), [Render]).
Definition toggleDiff (p : page) : page * list effect := (set_diffOpen (negb (pg_diffOpen p)) p, [Render]).

(** ** The invariant of the edited tasks *)

Record tasks_wf (ts : list task) : Prop := {
  wf_ids : Forall (fun tk => ID_RE (tk_id tk) = true) ts;
  wf_plain : plain_tasks ts;
  wf_nodup : NoDup (tk_id <$> ts);
  wf_deps : Forall (fun tk => NoDup (tk_deps tk) /\ Forall (fun d => d ∈ tk_id <$> ts) (tk_deps tk)) ts;
  wf_acyclic : acyclic (to_node <$> ts);
}.

Definition page_wf (p : page) : Prop :=
  tasks_wf (pg_tasks p) /\ (forall b, pg_graphBase p = Some b -> tasks_wf b).

(** ** Lemmas on tasks and names *)

Lemma tk_id_with_deps ds tk : tk_id (with_deps ds tk) = tk_id tk.
Proof. by destruct tk. Qed.
Lemma tk_deps_with_deps ds tk : tk_deps (with_deps ds tk) = ds.
Proof. by destruct tk. Qed.
Lemma tk_id_with_id i tk : tk_id (with_id i tk) = i.
Proof. by destruct tk. Qed.
Lemma tk_deps_with_id i tk : tk_deps (with_id i tk) = tk_deps tk.
Proof. by destruct tk. Qed.
Lemma tk_id_with_command c tk : tk_id (with_command c tk) = tk_id tk.
Proof. by destruct tk. Qed.
Lemma tk_deps_with_command c tk : tk_deps (with_command c tk) = tk_deps tk.
Proof. by destruct tk. Qed.
#[export] Hint Rewrite tk_id_with_deps tk_deps_with_deps tk_id_with_id tk_deps_with_id
  tk_id_with_command tk_deps_with_command : cronova.

Lemma has_id_spec ts i : has_id ts i = true <-> i ∈ tk_id <$> ts.
Proof.
  unfold has_id. rewrite existsb_exists, list_elem_of_fmap.
  setoid_rewrite bool_decide_eq_true. setoid_rewrite <- list_elem_of_In. naive_solver.
Qed.

Lemma has_id_false ts i : has_id ts i = false <-> i ∉ tk_id <$> ts.
Proof. rewrite <- has_id_spec. by destruct (has_id ts i). Qed.

Lemma find_task_Some i ts n tk :
  find_task i ts = Some (n, tk) -> ts !! n = Some tk /\ tk_id tk = i.
Proof. intros (? & ? & _)%list_find_Some. done. Qed.

Lemma find_task_None i ts : find_task i ts = None <-> i ∉ tk_id <$> ts.
Proof.
  unfold find_task. rewrite list_find_None, Forall_forall, list_elem_of_fmap. naive_solver.
Qed.

Lemma fresh_loop_spec fuel mk ts n :
  match fresh_loop fuel mk ts n with
  | Some i => exists k, (n <= k)%N /\ i = mk k /\ (i ∉ tk_id <$> ts)
              /\ forall j, (n <= j < k)%N -> mk j ∈ tk_id <$> ts
  | None => forall j, (n <= j < n + N.of_nat fuel)%N -> mk j ∈ tk_id <$> ts
  end.
Proof.
  revert n; induction fuel as [|f IH]; intros n; [intros j Hj; lia|]. cbn [fresh_loop].
  destruct (has_id ts (mk n)) eqn:E.
  - apply has_id_spec in E. specialize (IH (n + 1)%N). destruct (fresh_loop f mk ts (n + 1)) as [i|].
    + destruct IH as (k & Hk & -> & Hi & Hj). exists k. split_and!; [lia|done..|].
      intros j Hjk. destruct (decide (j = n)) as [->|]; [done|]. apply Hj. lia.
    + intros j Hj. destruct (decide (j = n)) as [->|]; [done|]. apply IH. lia.
  - apply has_id_false in E. exists n. split_and!; [lia|done..|]. intros j Hj; lia.
Qed.

(** Pigeonhole: among one candidate more than there are tasks, one is free. *)
Lemma fresh_spec mk ts n :
  (forall a b, (n <= a)%N -> (n <= b)%N -> mk a = mk b -> a = b) ->
  exists i k, fresh mk ts n = Some i /\ i = mk k /\ (n <= k)%N /\ (i ∉ tk_id <$> ts)
    /\ forall j, (n <= j < k)%N -> mk j ∈ tk_id <$> ts.
Proof.
  intros Hinj. pose proof (fresh_loop_spec (S (length ts)) mk ts n) as H. unfold fresh.
  destruct (fresh_loop _ mk ts n) as [i|]; [destruct H as (k & ?); naive_solver|exfalso].
  set (l := (fun x => mk (n + N.of_nat x)%N) <$> seq 0 (S (length ts))).
  assert (Hl : NoDup l).
  { apply NoDup_fmap_2_strong; [|apply NoDup_seq]. intros a b _ _ E. apply Hinj in E; lia. }
  assert (Hs : l ⊆ tk_id <$> ts).
  { intros x. unfold l. rewrite list_elem_of_fmap. intros (y & -> & Hy%elem_of_seq). apply H. lia. }
  pose proof (submseteq_length _ _ (NoDup_submseteq _ _ Hl Hs)) as Hlen.
  unfold l in Hlen. rewrite !length_fmap, length_seq in Hlen. lia.
Qed.

Lemma task_name_inj a b : task_name a = task_name b -> a = b.
Proof. intros H. by apply digits_inj, (app_inv_head (lit "task_")). Qed.
Lemma step_name_inj a b : step_name a = step_name b -> a = b.
Proof. intros H. by apply digits_inj, (app_inv_head (lit "step_")). Qed.
Lemma copy_name_inj i a b :
  (1 <= a)%N -> (1 <= b)%N -> copy_name i a = copy_name i b -> a = b.
Proof.
  unfold copy_name. intros Ha Hb H. do 2 apply app_inv_head in H.
  destruct (1 <? a)%N eqn:Ea, (1 <? b)%N eqn:Eb; bool_props; [|done..|lia].
  by apply digits_inj, (app_inv_head (lit "_")).
Qed.

(** ** The generated names are well shaped and plain *)

Lemma digit_idchar c : is_digit c = true -> is_idchar c = true.
Proof. intros H. unfold is_idchar, is_alnum. by rewrite H. Qed.


Lemma ID_RE_app s r : ID_RE s = true -> forallb is_idchar r = true -> ID_RE (s ++ r) = true.
Proof.
  destruct s as [|c s]; [done|]. simpl. rewrite forallb_app. intros [-> ->]%andb_true_iff ->. done.
Qed.

Lemma ID_RE_task_name n : ID_RE (task_name n) = true.
Proof. apply (ID_RE_app (lit "task_")); [done|apply digits_idchars]. Qed.
Lemma ID_RE_step_name n : ID_RE (step_name n) = true.
Proof. apply (ID_RE_app (lit "step_")); [done|apply digits_idchars]. Qed.
Lemma ID_RE_copy_name i n : ID_RE i = true -> ID_RE (copy_name i n) = true.
Proof.
  intros Hi. unfold copy_name. apply ID_RE_app; [done|]. rewrite forallb_app.
  destruct (1 <? n)%N; [|done]. rewrite forallb_app, digits_idchars. done.
Qed.

(** No property of [Object.prototype] ends in a digit or in "_copy". *)
Definition ends_in (p : jstr -> bool) (s : jstr) : bool := p (reverse s).
Definition odd_end (s : jstr) : bool :=
  match s with
  | c :: s' => is_digit c || starts_with (reverse (lit "_copy")) s
  | [] => false
  end.

Lemma odd_end_plain s : ends_in odd_end s = true -> s ∉ proto_names.
Proof.
  intros H Hin. assert (Hf : Forall (fun x => ends_in odd_end x = false) proto_names) by compute_decide.
  rewrite Forall_forall in Hf. by rewrite Hf in H.
Qed.

Lemma ends_digits a n : ends_in odd_end (a ++ digits n) = true.
Proof.
  unfold ends_in. rewrite reverse_app. pose proof (digits_digit n) as Hd.
  assert (Hr : reverse (digits n) <> []).
  { intros E. apply (digits_nonnil n). apply (f_equal reverse) in E. by rewrite reverse_involutive in E. }
  apply Forall_reverse in Hd. destruct (reverse (digits n)) as [|c r]; [done|].
  inversion Hd as [|? ? Hc _]; subst. unfold odd_end; simpl. by rewrite Hc.
Qed.

Lemma task_name_plain n : task_name n ∉ proto_names.
Proof. apply odd_end_plain, (ends_digits (lit "task_")). Qed.
Lemma step_name_plain n : step_name n ∉ proto_names.
Proof. apply odd_end_plain, (ends_digits (lit "step_")). Qed.
Lemma copy_name_plain i n : copy_name i n ∉ proto_names.
Proof.
  apply odd_end_plain. unfold copy_name. destruct (1 <? n)%N.
  - rewrite !app_assoc. apply ends_digits.
  - rewrite app_nil_r. unfold ends_in. by rewrite reverse_app.
Qed.
#[export] Hint Resolve ID_RE_task_name ID_RE_step_name ID_RE_copy_name
  task_name_plain step_name_plain copy_name_plain : cronova.

(** ** Preservation, one lemma per shape of edit *)

Lemma waits_tasks ts x y :
  waits (to_node <$> ts) x y <->
  exists tk, tk ∈ ts /\ tk_id tk = x /\ y ∈ tk_deps tk /\ y ∈ tk_id <$> ts.
Proof.
  unfold waits. rewrite nid_to_node. split.
  - intros (t & (tk & -> & Htk)%list_elem_of_fmap & H). by exists tk.
  - intros (tk & Htk & H). exists (to_node tk). split; [by apply list_elem_of_fmap_2|done].
Qed.

Lemma wf_acyclic_map ts ts' (f : jstr -> jstr) :
  tasks_wf ts ->
  (forall x y, waits (to_node <$> ts') x y -> waits (to_node <$> ts) (f x) (f y)) ->
  acyclic (to_node <$> ts').
Proof.
  intros Hw. apply acyclic_waits; [rewrite nid_to_node|]; apply Hw.
Qed.

Lemma wf_dep_elem ts tk d : tasks_wf ts -> tk ∈ ts -> d ∈ tk_deps tk -> d ∈ tk_id <$> ts.
Proof.
  intros Hw Ht. pose proof (wf_deps _ Hw) as H. rewrite Forall_forall in H.
  destruct (H tk Ht) as [_ Hc]. rewrite Forall_forall in Hc. apply Hc.
Qed.

Lemma wf_deps_nodup ts tk : tasks_wf ts -> tk ∈ ts -> NoDup (tk_deps tk).
Proof.
  intros Hw Ht. pose proof (wf_deps _ Hw) as H. rewrite Forall_forall in H. by destruct (H tk Ht).
Qed.

Lemma wf_no_self ts tk : tasks_wf ts -> tk ∈ ts -> tk_id tk ∉ tk_deps tk.
Proof.
  intros Hw Ht Hd. eapply acyclic_not_cyclic; [apply (wf_acyclic _ Hw)|]. exists (tk_id tk).
  apply tc_once, waits_edge; [rewrite nid_to_node; apply Hw|]. apply waits_tasks.
  exists tk. split_and!; [done..|]. by apply list_elem_of_fmap_2.
Qed.

(** A new last task: nothing waits for it yet. *)
Lemma acyclic_append ts tk :
  tasks_wf ts -> tk_id tk ∉ tk_id <$> ts -> Forall (fun d => d ∈ tk_id <$> ts) (tk_deps tk) ->
  acyclic (to_node <$> (ts ++ [tk])).
Proof.
  intros Hw Hf Hd.
  assert (Hold : forall x, x <> tk_id tk -> Acc (flip (edge (byId (to_node <$> (ts ++ [tk]))))) x).
  { intros x. induction (wf_acyclic _ Hw x) as [x _ IH]. intros Hx. constructor.
    intros y (u & Hu & Hux & Hy & _)%edge_waits%waits_tasks.
    apply elem_of_app in Hu as [Hu|Hu]; [|apply list_elem_of_singleton in Hu; congruence].
    assert (Hyt : y ∈ tk_id <$> ts) by by eapply wf_dep_elem.
    apply IH; [|by intros ->]. apply waits_edge; [rewrite nid_to_node; apply Hw|].
    apply waits_tasks. by exists u. }
  intros x. destruct (decide (x = tk_id tk)) as [->|Hx]; [|by apply Hold]. constructor.
  intros y (u & Hu & Hux & Hy & _)%edge_waits%waits_tasks. apply Hold. intros ->. apply Hf.
  apply elem_of_app in Hu as [Hu| ->%list_elem_of_singleton]; [by eapply wf_dep_elem|].
  rewrite Forall_forall in Hd. by apply Hd.
Qed.

Lemma wf_append ts tk :
  tasks_wf ts -> ID_RE (tk_id tk) = true -> tk_id tk ∉ proto_names -> tk_id tk ∉ tk_id <$> ts ->
  NoDup (tk_deps tk) -> Forall (fun d => d ∈ tk_id <$> ts) (tk_deps tk) -> tasks_wf (ts ++ [tk]).
Proof.
  intros Hw Hi Hp Hf Hn Hd. split.
  - apply Forall_snoc. split; [apply Hw|done].
  - apply Forall_snoc. split; [apply Hw|done].
  - rewrite fmap_snoc. apply NoDup_snoc. split; [apply Hw|done].
  - rewrite fmap_snoc. apply Forall_snoc. split.
    + eapply Forall_impl; [apply (wf_deps _ Hw)|]. intros u [? Hu]. split; [done|].
      eapply Forall_impl; [exact Hu|]. set_solver.
    + split; [done|]. eapply Forall_impl; [exact Hd|]. set_solver.
  - by apply acyclic_append.
Qed.

(** One task is changed, its name kept. *)
Lemma ids_alter f n (ts : list task) : (forall x, tk_id (f x) = tk_id x) -> tk_id <$> alter f n ts = tk_id <$> ts.
Proof.
  intros Hf. apply list_eq. intros i. rewrite !list_lookup_fmap.
  destruct (decide (i = n)) as [->|Hne].
  - rewrite list_lookup_alter_eq. destruct (ts !! n); simpl; by rewrite ?Hf.
  - by rewrite list_lookup_alter_ne.
Qed.

Lemma elem_of_alter f n (ts : list task) x :
  x ∈ alter f n ts -> x ∈ ts \/ exists u, ts !! n = Some u /\ x = f u.
Proof.
  intros [i Hi]%list_elem_of_lookup. destruct (decide (i = n)) as [->|Hne].
  - rewrite list_lookup_alter_eq in Hi. destruct (ts !! n) as [u|] eqn:E; [|done].
    right. exists u. by simplify_eq/=.
  - rewrite list_lookup_alter_ne in Hi by done. left. by eapply list_elem_of_lookup_2.
Qed.

Lemma ids_Forall (P : jstr -> Prop) (ts : list task) : Forall (fun tk => P (tk_id tk)) ts <-> Forall P (tk_id <$> ts).
Proof. by rewrite Forall_fmap. Qed.

Lemma wf_alter f n ts :
  tasks_wf ts -> (forall x, tk_id (f x) = tk_id x) ->
  (forall u, ts !! n = Some u ->
     NoDup (tk_deps (f u)) /\ Forall (fun d => d ∈ tk_id <$> ts) (tk_deps (f u))) ->
  acyclic (to_node <$> alter f n ts) -> tasks_wf (alter f n ts).
Proof.
  intros Hw Hf Hd Ha. pose proof (ids_alter f n ts Hf) as E. split; [..|exact Ha].
  - rewrite (ids_Forall (fun i => ID_RE i = true)), E, <- ids_Forall. apply Hw.
  - unfold plain_tasks. rewrite (ids_Forall (fun i => i ∉ proto_names)), E, <- ids_Forall. apply Hw.
  - rewrite E. apply Hw.
  - apply Forall_forall. intros x [Hx|(u & Hu & ->)]%elem_of_alter; rewrite E; [|by apply Hd].
    pose proof (wf_deps _ Hw) as H. rewrite Forall_forall in H. by apply H.
Qed.

(** Taking a dependency away, or leaving the dependencies alone. *)
Lemma wf_alter_sub f n ts :
  tasks_wf ts -> (forall x, tk_id (f x) = tk_id x) ->
  (forall x, NoDup (tk_deps x) -> NoDup (tk_deps (f x))) ->
  (forall x d, d ∈ tk_deps (f x) -> d ∈ tk_deps x) -> tasks_wf (alter f n ts).
Proof.
  intros Hw Hf Hs Hin.
  apply wf_alter; [done|done| |].
  - intros u Hu%list_elem_of_lookup_2. split.
    + by eapply Hs, wf_deps_nodup.
    + apply Forall_forall. intros d Hd%Hin. by eapply wf_dep_elem.
  - apply (wf_acyclic_map ts _ id Hw). intros x y (tk & Htk & <- & Hy & Hyi)%waits_tasks.
    rewrite ids_alter in Hyi by done. apply waits_tasks.
    apply elem_of_alter in Htk as [Htk|(u & Hu%list_elem_of_lookup_2 & ->)]; [by exists tk|].
    exists u. split_and!; [done|by rewrite Hf|by apply Hin|done].
Qed.

Lemma remove_first_elem x y l : y ∈ remove_first x l -> y ∈ l.
Proof.
  induction l as [|z l IH]; simpl; [done|]. case_bool_decide; [by right|].
  intros [->|Hy]%elem_of_cons; [by left|right; auto].
Qed.

Lemma remove_first_NoDup x l : NoDup l -> NoDup (remove_first x l).
Proof.
  induction 1 as [|y l Hy Hl IH]; simpl; [constructor|]. case_bool_decide; [assumption|].
  constructor; [|assumption]. by intros ?%remove_first_elem.
Qed.

Lemma wf_drop up n ts : tasks_wf ts -> tasks_wf (alter (drop_dep up) n ts).
Proof.
  intros Hw. apply wf_alter_sub; [done|..]; unfold drop_dep; intros x; autorewrite with cronova.
  - reflexivity.
  - apply remove_first_NoDup.
  - intros d. apply remove_first_elem.
Qed.

Lemma wf_command c n ts : tasks_wf ts -> tasks_wf (alter (with_command c) n ts).
Proof. intros Hw. apply wf_alter_sub; [done|..]; intros x; by autorewrite with cronova. Qed.

(** A dependency is added after the cycle check. *)
Lemma cyclic_tasks_false ts :
  Forall (fun tk => ID_RE (tk_id tk) = true) ts -> plain_tasks ts ->
  cyclic_tasks ts = false -> acyclic (to_node <$> ts).
Proof.
  intros Hi Hp. unfold cyclic_tasks. rewrite (proj1 (named_all ts Hi)).
  apply hasCycle_false. by apply plain_nodes.
Qed.

Lemma cyclic_tasks_acyclic ts :
  Forall (fun tk => ID_RE (tk_id tk) = true) ts -> plain_tasks ts ->
  acyclic (to_node <$> ts) -> cyclic_tasks ts = false.
Proof.
  intros Hi Hp. unfold cyclic_tasks. rewrite (proj1 (named_all ts Hi)).
  apply acyclic_hasCycle. by apply plain_nodes.
Qed.

Lemma alter_ids_wf f n ts :
  tasks_wf ts -> (forall x, tk_id (f x) = tk_id x) ->
  Forall (fun tk => ID_RE (tk_id tk) = true) (alter f n ts) /\ plain_tasks (alter f n ts).
Proof.
  intros Hw Hf. unfold plain_tasks.
  rewrite (ids_Forall (fun i => ID_RE i = true)), (ids_Forall (fun i => i ∉ proto_names)).
  rewrite ids_alter, <- !ids_Forall by done. split; apply Hw.
Qed.

Lemma push_dep_id up x : tk_id (push_dep up x) = tk_id x.
Proof. apply tk_id_with_deps. Qed.
Lemma drop_dep_id up x : tk_id (drop_dep up x) = tk_id x.
Proof. apply tk_id_with_deps. Qed.
#[export] Hint Resolve push_dep_id drop_dep_id : cronova.

Lemma wf_push up n u ts :
  tasks_wf ts -> ts !! n = Some u -> up ∈ tk_id <$> ts -> up ∉ tk_deps u ->
  cyclic_tasks (alter (push_dep up) n ts) = false -> tasks_wf (alter (push_dep up) n ts).
Proof.
  intros Hw Hu Hup Hn Hc. apply wf_alter; [done|apply push_dep_id| |].
  - intros u' Hu'. simplify_eq. unfold push_dep. autorewrite with cronova.
    apply list_elem_of_lookup_2 in Hu. split.
    + apply NoDup_snoc. split; [by eapply wf_deps_nodup|done].
    + apply Forall_snoc. split; [|done]. apply Forall_forall. intros d Hd. by eapply wf_dep_elem.
  - destruct (alter_ids_wf (push_dep up) n ts Hw (push_dep_id up)).
    by apply cyclic_tasks_false.
Qed.

(** Toggling a chip twice restores the dependencies, up to their order. *)
Lemma remove_first_not_elem x l : x ∉ l -> remove_first x l = l.
Proof.
  induction l as [|y l IH]; simpl; [done|]. intros H.
  rewrite bool_decide_eq_false_2 by set_solver. rewrite IH; set_solver.
Qed.
Lemma remove_first_snoc x l : x ∉ l -> remove_first x (l ++ [x]) = l.
Proof.
  induction l as [|y l IH]; simpl; [by rewrite bool_decide_eq_true_2|]. intros H.
  rewrite bool_decide_eq_false_2 by set_solver. rewrite IH; set_solver.
Qed.

(** Deleting a task. *)
Lemma wf_delete i ts :
  tasks_wf ts ->
  tasks_wf ((fun x => with_deps (filter (fun d => d <> i) (tk_deps x)) x) <$> filter (fun x => tk_id x <> i) ts).
Proof.
  intros Hw. set (f := fun x => with_deps (filter (fun d => d <> i) (tk_deps x)) x).
  set (kept := filter (fun x => tk_id x <> i) ts).
  assert (E : tk_id <$> (f <$> kept) = tk_id <$> kept).
  { rewrite <- list_fmap_compose. apply list_fmap_ext. intros ? x _. apply tk_id_with_deps. }
  assert (Hk : forall x, x ∈ kept <-> tk_id x <> i /\ x ∈ ts).
  { intros x. unfold kept. by rewrite list_elem_of_filter. }
  assert (Hi : forall d, d ∈ tk_id <$> kept <-> d ∈ tk_id <$> ts /\ d <> i).
  { intros d. rewrite !list_elem_of_fmap. setoid_rewrite Hk. naive_solver. }
  assert (Hsub : forall P : task -> Prop, Forall P ts -> Forall P kept).
  { intros P. rewrite !Forall_forall. intros H x [_ Hx]%Hk. by apply H. }
  split.
  - rewrite (ids_Forall (fun j => ID_RE j = true)), E, <- ids_Forall. apply Hsub, Hw.
  - unfold plain_tasks. rewrite (ids_Forall (fun j => j ∉ proto_names)), E, <- ids_Forall.
    apply Hsub, Hw.
  - rewrite E. eapply (eq_ind_r NoDup); [|exact (fmap_filter tk_id (fun j => j <> i) ts)].
    apply NoDup_filter, Hw.
  - apply Forall_fmap, Forall_forall. intros x [Hne Hx]%Hk; simpl. unfold f.
    rewrite tk_deps_with_deps. split; [by eapply NoDup_filter, wf_deps_nodup|].
    apply Forall_forall. intros d [Hd Hdx]%list_elem_of_filter.
    fold f. rewrite E. apply Hi. split; [by eapply wf_dep_elem|done].
  - apply (wf_acyclic_map ts _ id Hw).
    intros x y (tk & (u & -> & [Hne Hu]%Hk)%list_elem_of_fmap & <- & Hy & Hyi)%waits_tasks.
    rewrite E in Hyi. apply waits_tasks. exists u. unfold f in *. rewrite tk_id_with_deps.
    rewrite tk_deps_with_deps in Hy. apply list_elem_of_filter in Hy as [_ Hy].
    split_and!; [done..|]. by apply Hi in Hyi as [? _].
Qed.

(** ** Renaming: every name and every dependency changes the same way *)

Section rename.
Context (ts : list task) (old new : jstr).
Context (Hw : tasks_wf ts) (Hnew : new ∉ tk_id <$> ts).

Definition rn (d : jstr) : jstr := if bool_decide (d = old) then new else d.
Definition rn_back (d : jstr) : jstr := if bool_decide (d = new) then old else d.
Definition rn_task (u : task) : task := with_id (rn (tk_id u)) (with_deps (rn <$> tk_deps u) u).

Lemma replace_first_fmap l : NoDup l -> replace_first old new l = rn <$> l.
Proof using.
  induction 1 as [|y l Hy Hl IH]; [done|]. simpl. unfold rn at 1. case_bool_decide as E.
  - subst. f_equal. rewrite <- (list_fmap_id l) at 1. apply list_fmap_ext.
    intros j x Hx%list_elem_of_lookup_2. unfold rn. rewrite bool_decide_eq_false_2; [done|].
    by intros ->.
  - by rewrite IH.
Qed.

Lemma rn_fix (l : list jstr) : old ∉ l -> rn <$> l = l.
Proof using.
  intros H. rewrite <- (list_fmap_id l) at 2. apply list_fmap_ext.
  intros j x Hx%list_elem_of_lookup_2. unfold rn. by rewrite bool_decide_eq_false_2 by (intros ->; done).
Qed.

Lemma with_id_same u : with_id (tk_id u) u = u.
Proof using. by destruct u. Qed.
Lemma with_deps_same u : with_deps (tk_deps u) u = u.
Proof using. by destruct u. Qed.

Lemma rename_fmap n tk :
  ts !! n = Some tk -> tk_id tk = old ->
  imap (fun m x => if bool_decide (m = n) then with_id new x
                   else with_deps (replace_first old new (tk_deps x)) x) ts = rn_task <$> ts.
Proof using Hw.
  intros Hn Ho. apply list_eq. intros m. rewrite list_lookup_imap, list_lookup_fmap.
  destruct (ts !! m) as [u|] eqn:Hm; [|done]. simpl. f_equal. unfold rn_task.
  assert (Hu : u ∈ ts) by by eapply list_elem_of_lookup_2.
  destruct (decide (m = n)) as [->|Hmn].
  - rewrite bool_decide_eq_true_2 by done. simplify_eq. unfold rn at 1.
    rewrite bool_decide_eq_true_2 by done. rewrite rn_fix; [by rewrite with_deps_same|].
    rewrite <- Ho; by apply wf_no_self with ts.
  - rewrite bool_decide_eq_false_2 by done.
    rewrite replace_first_fmap by (by eapply wf_deps_nodup). unfold rn at 2.
    rewrite bool_decide_eq_false_2.
    + by rewrite <- (tk_id_with_deps (rn <$> tk_deps u) u), with_id_same.
    + intros E. apply Hmn. eapply NoDup_lookup; [apply (wf_nodup _ Hw)|..];
        rewrite list_lookup_fmap; [by rewrite Hm|rewrite Hn; simpl; congruence].
Qed.

Lemma rn_back_rn d : d ∈ tk_id <$> ts -> rn_back (rn d) = d.
Proof using Hnew.
  intros Hd. unfold rn, rn_back. repeat case_bool_decide; congruence.
Qed.

Lemma rn_ids : tk_id <$> (rn_task <$> ts) = rn <$> (tk_id <$> ts).
Proof using.
  rewrite <- !list_fmap_compose. apply list_fmap_ext. intros ? u _. apply tk_id_with_id.
Qed.

Lemma rn_task_deps u : tk_deps (rn_task u) = rn <$> tk_deps u.
Proof using. unfold rn_task. by rewrite tk_deps_with_id, tk_deps_with_deps. Qed.

Lemma rename_waits x y :
  waits (to_node <$> (rn_task <$> ts)) x y <->
  exists x0 y0, x = rn x0 /\ y = rn y0 /\ waits (to_node <$> ts) x0 y0.
Proof using Hw Hnew.
  rewrite waits_tasks, rn_ids. split.
  - intros (tk & (u & -> & Hu)%list_elem_of_fmap & <- & Hy & Hyi).
    rewrite rn_task_deps in Hy. apply list_elem_of_fmap in Hy as (d & -> & Hd).
    exists (tk_id u), d. split_and!; [apply tk_id_with_id|done|]. apply waits_tasks.
    exists u. split_and!; [done..|]. by eapply wf_dep_elem.
  - intros (x0 & y0 & -> & -> & (u & Hu & <- & Hy & Hyi)%waits_tasks).
    exists (rn_task u). rewrite rn_task_deps. split_and!.
    + by apply list_elem_of_fmap_2.
    + apply tk_id_with_id.
    + by apply list_elem_of_fmap_2.
    + by apply list_elem_of_fmap_2.
Qed.

Lemma wf_rename :
  ID_RE new = true -> new ∉ proto_names -> tasks_wf (rn_task <$> ts).
Proof using Hw Hnew.
  intros Hi Hp. assert (Hinj : forall a b, a ∈ tk_id <$> ts -> b ∈ tk_id <$> ts -> rn a = rn b -> a = b).
  { intros a b Ha Hb E. by rewrite <- (rn_back_rn a), <- (rn_back_rn b), E. }
  split.
  - rewrite (ids_Forall (fun j => ID_RE j = true)), rn_ids, Forall_fmap.
    pose proof (wf_ids _ Hw) as H. rewrite (ids_Forall (fun j => ID_RE j = true)) in H.
    eapply Forall_impl; [exact H|]. intros d Hd. unfold rn; simpl. by case_bool_decide.
  - unfold plain_tasks. rewrite (ids_Forall (fun j => j ∉ proto_names)), rn_ids, Forall_fmap.
    pose proof (wf_plain _ Hw) as H. unfold plain_tasks in H.
    rewrite (ids_Forall (fun j => j ∉ proto_names)) in H.
    eapply Forall_impl; [exact H|]. intros d Hd. unfold rn; simpl. by case_bool_decide.
  - rewrite rn_ids. apply NoDup_fmap_2_strong; [done|apply Hw].
  - apply Forall_fmap, Forall_forall. intros u Hu; simpl. rewrite rn_task_deps, rn_ids. split.
    + apply NoDup_fmap_2_strong; [|by eapply wf_deps_nodup].
      intros a b Ha Hb. apply Hinj; by eapply wf_dep_elem.
    + apply Forall_fmap, Forall_forall. intros d Hd; simpl. apply list_elem_of_fmap_2.
      by eapply wf_dep_elem.
  - apply (wf_acyclic_map ts _ rn_back Hw). intros x y (x0 & y0 & -> & -> & H)%rename_waits.
    pose proof H as (u & Hu & Ex & _ & Hy)%waits_tasks.
    rewrite !rn_back_rn; [done|done|]. rewrite <- Ex. by apply list_elem_of_fmap_2.
Qed.
End rename.

(** ** Sequences of edits *)

Inductive edit :=
| EAdd | ENvAdd | ENvEdit (i cmd : jstr) | EDuplicate (i : jstr) | EDelete (i : jstr) (ok : bool)
| EOpen (i : jstr) | ERename (n : nat) (i : jstr) | EChip (n : nat) (dep : jstr)
| EGraphAdd (answer : option jstr) | ENode (i : jstr) (shift : bool) | EDrop (up down : jstr)
| EEdgeRemove (up down : jstr) | EConnect | EDiff | EGraphSave | EGraphDiscard.

Definition edit_run (e : edit) (p : page) : option (page * list effect) :=
  match e with
  | EAdd => addTask p
  | ENvAdd => nvAddStep p
  | ENvEdit i cmd => Some (nvEditStep i cmd p)
  | EDuplicate i => duplicateTask i p
  | EDelete i ok => Some (deleteTask i ok p)
  | EOpen i => Some (showTask i p)
  | ERename n i => Some (renameActiveTask n i p)
  | EChip n dep => Some (toggleDepChip n dep p)
  | EGraphAdd a => Some (addTaskFromGraph a p)
  | ENode i shift => Some (onGraphNodeActivate i shift p)
  | EDrop up down => Some (graphToggleDep up down false p)
  | EEdgeRemove up down => Some (graphToggleDep up down true p)
  | EConnect => Some (toggleConnectMode p)
  | EDiff => Some (toggleDiff p)
  | EGraphSave => Some (graphSaveSession p)
  | EGraphDiscard => Some (graphDiscardSession p)
  end.

Fixpoint edits_run (es : list edit) (p : page) : option (page * list effect) :=
  match es with
  | [] => Some (p, [])
  | e :: es' =>
    match edit_run e p with
    | None => None
    | Some (p1, o1) => match edits_run es' p1 with
                       | None => None
                       | Some (p2, o2) => Some (p2, o1 ++ o2)
                       end
    end
  end.

(** What the page offers in state [p]: chips and nodes of existing tasks, and
    names that are not properties of [Object.prototype].  The first click of a
    two-click connection must still name a task. *)
Definition enabled (e : edit) (p : page) : Prop :=
  match e with
  | ERename _ i | EGraphAdd (Some i) => i ∉ proto_names
  | EChip n dep => dep ∈ tk_id <$> pg_tasks p
  | EDrop up _ | EEdgeRemove up _ => up ∈ tk_id <$> pg_tasks p
  | ENode _ _ => match pg_graphPending p with Some up => up ∈ tk_id <$> pg_tasks p | None => True end
  | _ => True
  end.

Fixpoint all_enabled (es : list edit) (p : page) : Prop :=
  match es with
  | [] => True
  | e :: es' => enabled e p /\
      match edit_run e p with Some (p1, _) => all_enabled es' p1 | None => True end
  end.

#[export] Instance enabled_dec e p : Decision (enabled e p).
Proof. destruct e; simpl; repeat case_match; apply _. Defined.
#[export] Instance all_enabled_dec es p : Decision (all_enabled es p).
Proof.
  revert p. induction es as [|e es IH]; intros p; simpl; [apply _|].
  destruct (edit_run e p) as [[p1 o]|]; apply _.
Defined.

(** [saveDag] ends the graph session or leaves it; the tasks are the same. *)
Lemma saveDag_cases p :
  pg_tasks (saveDag p).1 = pg_tasks p /\
  (pg_graphBase (saveDag p).1 = None \/ pg_graphBase (saveDag p).1 = pg_graphBase p).
Proof. unfold saveDag. destruct (pg_deleting p); [auto|]. by destruct (validateDag _ _); auto. Qed.

Lemma page_wf_save p k : page_wf p -> page_wf (then_save p k).1.
Proof.
  intros [Ht Hb]. destruct (saveDag_cases p) as [E1 E2]. unfold then_save.
  destruct (saveDag p) as [p' es]; simpl in *. split; [by rewrite E1|].
  intros b Eb. destruct E2 as [E2|E2]; [congruence|]. apply Hb. congruence.
Qed.

Lemma page_wf_tasks p ts : page_wf p -> tasks_wf ts -> page_wf (set_tasks ts p).
Proof. intros [_ Hb] Ht. by split. Qed.

Lemma page_wf_mutate f p : page_wf p -> tasks_wf (f (pg_tasks p)) -> page_wf (graphMutate f p).1.
Proof.
  intros [Ht Hb] Hf. split; [done|]; simpl. intros b. destruct (pg_graphBase p); naive_solver.
Qed.

Lemma page_wf_toggle up down r p :
  page_wf p -> up ∈ tk_id <$> pg_tasks p -> page_wf (graphToggleDep up down r p).1.
Proof.
  intros Hp Hup. unfold graphToggleDep.
  destruct (find_task down (pg_tasks p)) as [[n dt]|] eqn:E; [|done].
  apply find_task_Some in E as [Hn <-]. case_bool_decide; [done|]. case_bool_decide as Hin.
  - destruct r; [|done]. apply page_wf_mutate; [done|]. apply wf_drop, (proj1 Hp).
  - destruct (cyclic_tasks _) eqn:Ec; [done|]. apply page_wf_mutate; [done|].
    by eapply wf_push; [exact (proj1 Hp)|..].
Qed.

Lemma blank_wf ts tk :
  tasks_wf ts -> ID_RE (tk_id tk) = true -> tk_id tk ∉ proto_names -> tk_id tk ∉ tk_id <$> ts ->
  tk_deps tk = [] -> tasks_wf (ts ++ [tk]).
Proof. intros Hw ? ? ? E. apply wf_append; try done; rewrite E; constructor. Qed.

Lemma last_step_elem ts d : tasks_wf ts -> last_step ts = Some d -> d ∈ tk_id <$> ts.
Proof.
  intros Hw. unfold last_step. rewrite (proj1 (named_all ts (wf_ids _ Hw))).
  destruct (last _) as [t|] eqn:E; [|done]. intros [= <-].
  apply last_Some_elem_of in E.
  rewrite topoOrder_Permutation in E by (rewrite nid_to_node; apply Hw).
  apply list_elem_of_fmap in E as (tk & -> & Htk). exact (list_elem_of_fmap_2 tk_id _ _ Htk).
Qed.

(** ** Every edit keeps the invariant *)

Lemma page_wf_add tk p :
  page_wf p -> ID_RE (tk_id tk) = true -> tk_id tk ∉ proto_names ->
  tk_id tk ∉ tk_id <$> pg_tasks p -> tk_deps tk = [] -> page_wf (set_tasks (pg_tasks p ++ [tk]) p).
Proof. intros Hp ? ? ? ?. apply page_wf_tasks, blank_wf; first [assumption | exact (proj1 Hp)]. Qed.

Lemma addTask_wf p :
  page_wf p -> exists p' es, addTask p = Some (p', es) /\ page_wf p'.
Proof.
  intros Hp. unfold addTask.
  destruct (fresh_spec task_name (pg_tasks p) (next_n p)) as (i & k & -> & -> & _ & Hi & _).
  { intros a b _ _. apply task_name_inj. }
  pose proof (page_wf_save (set_tasks (pg_tasks p ++ [with_id (task_name k) blankTask]) p) []) as H.
  unfold then_save in H. destruct (saveDag _) as [p1 es1]. do 2 eexists. split; [done|].
  apply H, page_wf_add; autorewrite with cronova; auto with cronova.
Qed.

Lemma nvAddStep_wf p :
  page_wf p -> exists p' es, nvAddStep p = Some (p', es) /\ page_wf p'.
Proof.
  intros Hp. unfold nvAddStep.
  destruct (fresh_spec step_name (pg_tasks p) (next_n p)) as (i & k & -> & -> & _ & Hi & _).
  { intros a b _ _. apply step_name_inj. }
  rewrite (surjective_pairing (then_save _ _)). do 2 eexists. split; [done|].
  apply page_wf_save, page_wf_tasks; [done|].
  apply wf_append; autorewrite with cronova; auto with cronova; [exact (proj1 Hp)|..];
    destruct (last_step (pg_tasks p)) eqn:E; auto with cronova; try constructor; try constructor.
  eapply last_step_elem; [exact (proj1 Hp)|done].
Qed.

Lemma duplicateTask_wf i p :
  page_wf p -> exists p' es, duplicateTask i p = Some (p', es) /\ page_wf p'.
Proof.
  intros Hp. unfold duplicateTask.
  destruct (find_task i (pg_tasks p)) as [[n src]|] eqn:E; [|by eauto].
  apply find_task_Some in E as [Hn <-]. apply list_elem_of_lookup_2 in Hn.
  destruct (fresh_spec (copy_name (tk_id src)) (pg_tasks p) 1) as (j & k & -> & -> & _ & Hi & _).
  { apply copy_name_inj. }
  rewrite (surjective_pairing (then_save _ _)). do 2 eexists. split; [done|].
  pose proof (proj1 Hp) as Hw. pose proof (wf_ids _ Hw) as Hid. rewrite Forall_forall in Hid.
  apply page_wf_save, page_wf_tasks; [done|].
  apply wf_append; autorewrite with cronova; auto with cronova.
  - by eapply wf_deps_nodup.
  - apply Forall_forall. intros d Hd. by eapply wf_dep_elem.
Qed.

Lemma renameActiveTask_wf n i p :
  page_wf p -> i ∉ proto_names -> page_wf (renameActiveTask n i p).1.
Proof.
  intros Hp Hpl. unfold renameActiveTask. destruct (pg_tasks p !! n) as [tk|] eqn:Hn; [|done].
  case_bool_decide as Hne; [done|]. destruct (truthy i); [|done]; simpl.
  destruct (ID_RE i) eqn:Hi; [|done]; simpl.
  destruct (has_id _ i) eqn:Hh; [done|]. apply has_id_false in Hh.
  assert (Hnew : i ∉ tk_id <$> pg_tasks p).
  { rewrite (delete_Permutation _ _ _ Hn), fmap_cons. set_solver. }
  apply page_wf_save. rewrite (rename_fmap _ (tk_id tk) i (proj1 Hp) n tk) by done.
  apply (page_wf_tasks p); [done|]. apply wf_rename; [exact (proj1 Hp)|done..].
Qed.


Lemma alter_at (f g : task -> task) n (ts : list task) u :
  ts !! n = Some u -> f u = g u -> alter f n ts = alter g n ts.
Proof. intros Hn E. apply list_alter_ext; [|done]. intros x Hx. by simplify_eq. Qed.

Lemma alter_fix (f : task -> task) n (ts : list task) :
  (forall u, ts !! n = Some u -> f u = u) -> alter f n ts = ts.
Proof.
  intros H. apply list_eq. intros m. destruct (decide (m = n)) as [->|Hne].
  - rewrite list_lookup_alter_eq. destruct (ts !! n); [|done]. simpl. by rewrite H.
  - by rewrite list_lookup_alter_ne.
Qed.

(** A dependency chip: removed when it was on, added when it was off and that
    makes no cycle, and left alone otherwise. *)
Lemma toggleDepChip_cases n dep p u :
  page_wf p -> pg_tasks p !! n = Some u -> dep ∈ tk_id <$> pg_tasks p ->
  toggleDepChip n dep p =
    if bool_decide (dep ∈ tk_deps u) then then_save (set_tasks (alter (drop_dep dep) n (pg_tasks p)) p) []
    else if cyclic_tasks (alter (push_dep dep) n (pg_tasks p))
    then (set_tasks (pg_tasks p) p, [Toast (T (lit "err_cycle") [])])
    else then_save (set_tasks (alter (push_dep dep) n (pg_tasks p)) p) [].
Proof.
  intros [Hw _] Hn Hd. unfold toggleDepChip.
  set (f := fun x => with_deps (toggle_dep dep (tk_deps x)) x).
  case_bool_decide as Hin.
  - assert (Ef : f u = drop_dep dep u).
    { unfold f, toggle_dep, drop_dep. by rewrite bool_decide_eq_true_2. }
    rewrite (alter_at f (drop_dep dep) n _ u Hn Ef). rewrite cyclic_tasks_acyclic; [done|..];
      by apply wf_drop.
  - assert (Ef : f u = push_dep dep u).
    { unfold f, toggle_dep, push_dep. by rewrite bool_decide_eq_false_2. }
    rewrite (alter_at f (push_dep dep) n _ u Hn Ef). destruct (cyclic_tasks _) eqn:Ec; [|done].
    f_equal. f_equal. rewrite list_alter_alter_eq. apply alter_fix. intros u' Hu'. simplify_eq.
    unfold f, push_dep, toggle_dep; simpl. rewrite tk_deps_with_deps.
    rewrite bool_decide_eq_true_2 by set_solver. rewrite remove_first_snoc by done.
    by destruct u.
Qed.

Lemma toggleDepChip_wf n dep p :
  page_wf p -> dep ∈ tk_id <$> pg_tasks p -> page_wf (toggleDepChip n dep p).1.
Proof.
  intros Hp Hd. destruct (pg_tasks p !! n) as [u|] eqn:Hn.
  - rewrite (toggleDepChip_cases n dep p u) by done. case_bool_decide as Hin.
    + apply page_wf_save, page_wf_tasks; [done|]. apply wf_drop, (proj1 Hp).
    + destruct (cyclic_tasks _) eqn:Ec; [by destruct p|].
      apply page_wf_save, page_wf_tasks; [done|]. by eapply wf_push; [exact (proj1 Hp)|..].
  - assert (E : forall f, alter f n (pg_tasks p) = pg_tasks p).
    { intros f. apply alter_fix. intros u Hu. congruence. }
    unfold toggleDepChip. rewrite !E.
    destruct (cyclic_tasks _); [|apply page_wf_save]; by apply page_wf_tasks, (proj1 Hp).
Qed.

Lemma edit_run_wf e p :
  page_wf p -> enabled e p -> exists p' es, edit_run e p = Some (p', es) /\ page_wf p'.
Proof.
  intros Hp He. assert (Hpair : forall r : page * list effect, page_wf r.1 ->
    exists p' es, Some r = Some (p', es) /\ page_wf p') by (intros [p' es]; eauto).
  destruct e as [| |i cmd|i|i ok|i|n i|n dep|a|i shift|up down|up down| | | |];
    cbn [edit_run]; try apply Hpair.
  - by apply addTask_wf.
  - by apply nvAddStep_wf.
  - unfold nvEditStep. destruct (find_task i _) as [[n tk]|]; [|done].
    apply page_wf_save, page_wf_tasks, wf_command, (proj1 Hp). done.
  - by apply duplicateTask_wf.
  - unfold deleteTask. destruct ok; [|done]. apply page_wf_save, page_wf_tasks; [done|].
    apply wf_delete, (proj1 Hp).
  - by destruct Hp.
  - by apply renameActiveTask_wf.
  - by apply toggleDepChip_wf.
  - unfold addTaskFromGraph. destruct a as [[|c a]|]; [done| |done].
    destruct (ID_RE (c :: a)) eqn:Hi; simpl; [|done].
    destruct (has_id _ _) eqn:Hh; [done|]. apply has_id_false in Hh.
    apply page_wf_mutate; [done|]. apply blank_wf; first [exact (proj1 Hp)|assumption|reflexivity].
  - unfold onGraphNodeActivate. destruct (starts_with _ i); [done|].
    destruct (negb _); [by destruct Hp|].
    destruct (pg_graphPending p) as [up|] eqn:Eg; [|by destruct Hp].
    case_bool_decide; [by destruct Hp|]. apply page_wf_toggle; [by destruct Hp|].
    unfold enabled in He. by rewrite Eg in He.
  - by apply page_wf_toggle.
  - by apply page_wf_toggle.
  - by destruct Hp.
  - by destruct Hp.
  - unfold graphSaveSession. destruct (validateDag _ _); [|done].
    apply page_wf_save. by destruct Hp.
  - unfold graphDiscardSession. destruct Hp as [Ht Hb]. split; simpl; [|done].
    destruct (pg_graphBase p); auto.
Qed.

(** ** Properties *)

(** C6 Whatever the user does with the task list, the task page and the graph
    editor, the edited workflow keeps distinct, well-shaped names, dependencies
    that name existing tasks without repetition, and no cycle; every edit
    finishes, the search for a free name included. *)
Theorem edits_keep_wf es p :
  page_wf p -> all_enabled es p ->
  exists p' out, edits_run es p = Some (p', out) /\ page_wf p'.
Proof.
  revert p. induction es as [|e es IH]; intros p Hp; simpl; [by eauto|]. intros [He Hes].
  destruct (edit_run_wf e p Hp He) as (p1 & o1 & E & H1). rewrite E in Hes |- *.
  destruct (IH p1 H1 Hes) as (p2 & o2 & -> & H2). eauto.
Qed.

Definition open_page (ts : list task) : page :=
  Page (blank_dag (lit "etl")) ts None None None 0 false false false false.

Lemma two_steps_wf : page_wf (open_page two_steps).
Proof.
  split; [|done]. split; try compute_decide. apply hasCycle_false; [compute_decide|reflexivity].
Qed.

Definition sample_edits : list edit :=
  [EAdd; EChip 2 (lit "load"); EDuplicate (lit "extract"); ERename 0 (lit "fetch");
   EDelete (lit "load") true; ENode (lit "fetch") true; ENode (lit "task_3") true].

Lemma edits_keep_wf_witness :
  page_wf (open_page two_steps) /\ all_enabled sample_edits (open_page two_steps) /\
  exists p' out, edits_run sample_edits (open_page two_steps) = Some (p', out) /\ page_wf p'.
Proof.
  assert (He : all_enabled sample_edits (open_page two_steps)).
  { compute_decide. }
  split; [exact two_steps_wf|]. split; [exact He|].
  apply (edits_keep_wf sample_edits (open_page two_steps) two_steps_wf He).
Defined.

(** The edits of the graph editor's session. *)
Definition graph_edit (e : edit) : Prop :=
  match e with
  | EGraphAdd _ | ENode _ _ | EDrop _ _ | EEdgeRemove _ _ | EConnect | EDiff => True
  | _ => False
  end.

Definition session_of (p0 p : page) : Prop :=
  match pg_graphBase p with
  | None => pg_tasks p = pg_tasks p0 /\ pg_graphDirty p = 0
  | Some b => b = pg_tasks p0 /\ pg_graphDirty p <> 0
  end.

Lemma mutate_session p0 p f : session_of p0 p -> session_of p0 (graphMutate f p).1.
Proof.
  unfold session_of; simpl. destruct (pg_graphBase p); intros [-> H]; simpl; split; try done; lia.
Qed.

Lemma mutate_edit p0 p f p' out :
  session_of p0 p -> graphMutate f p = (p', out) -> session_of p0 p' /\ ArmSave ∉ out.
Proof.
  intros Hs E. pose proof (mutate_session p0 p f Hs) as H. rewrite E in H.
  split; [done|]. injection E as _ <-. set_solver.
Qed.

Lemma toggle_session p0 p up down r :
  session_of p0 p ->
  session_of p0 (graphToggleDep up down r p).1 /\ ArmSave ∉ (graphToggleDep up down r p).2.
Proof.
  intros Hs. unfold graphToggleDep. destruct (find_task _ _) as [[n dt]|]; [|by split; [|set_solver]].
  repeat case_bool_decide; try destruct r; try destruct (cyclic_tasks _);
    (split; [try done; by apply mutate_session|set_solver]).
Qed.

Lemma graph_edit_session e p0 p p' out :
  graph_edit e -> session_of p0 p -> edit_run e p = Some (p', out) ->
  session_of p0 p' /\ ArmSave ∉ out.
Proof.
  intros He Hs E. destruct e as [| |i cmd|i|i ok|i|n i|n dep|a|i shift|up down|up down| | | |];
    try done; cbn [edit_run] in E; apply Some_inj in E.
  - unfold addTaskFromGraph in E. destruct a as [[|c a]|]; simplify_eq; [by split; [|set_solver]| |by split; [|set_solver]].
    destruct (ID_RE (c :: a)), (has_id (pg_tasks p) (c :: a)); simpl in E; simplify_eq;
      try (by split; [|set_solver]).
    eapply mutate_edit; [exact Hs|exact E].
  - unfold onGraphNodeActivate in E. destruct (starts_with _ i); [simplify_eq; by split; [|set_solver]|].
    destruct (negb _); [unfold showTask in E; simplify_eq; by split; [|set_solver]|].
    destruct (pg_graphPending p) as [up|]; [|simplify_eq; by split; [|set_solver]].
    case_bool_decide; [simplify_eq; by split; [|set_solver]|].
    pose proof (toggle_session p0 (set_pending None p) up i true Hs) as Ht. by rewrite E in Ht.
  - pose proof (toggle_session p0 p up down false Hs) as Ht. by rewrite E in Ht.
  - pose proof (toggle_session p0 p up down true Hs) as Ht. by rewrite E in Ht.
  - unfold toggleConnectMode in E. simplify_eq. by split; [|set_solver].
  - unfold toggleDiff in E. simplify_eq. by split; [|set_solver].
Qed.

Lemma graph_edits_session es p0 p p' out :
  Forall graph_edit es -> session_of p0 p -> edits_run es p = Some (p', out) ->
  session_of p0 p' /\ ArmSave ∉ out.
Proof.
  intros Hes. revert p out. induction Hes as [|e es He _ IH]; intros p out Hs E; simpl in E.
  { simplify_eq. split; [exact Hs|set_solver]. }
  destruct (edit_run e p) as [[p1 o1]|] eqn:E1; [|done].
  destruct (graph_edit_session e p0 p p1 o1 He Hs E1) as [Hs1 Ho1].
  destruct (edits_run es p1) as [[p2 o2]|] eqn:E2; [|done]. simplify_eq.
  destruct (IH p1 o2 Hs1 E2) as [? ?]. split; [done|]. set_solver.
Qed.

(** A graph session is pending until it is saved: no edit of the session
    starts a save, the count of unsaved changes is zero only when nothing was
    changed, and discarding brings back the tasks the session started from. *)
Theorem graph_session_discard es p p' out :
  pg_graphBase p = None -> pg_graphDirty p = 0 -> Forall graph_edit es ->
  edits_run es p = Some (p', out) ->
  (ArmSave ∉ out) /\ (pg_graphDirty p' = 0 -> pg_tasks p' = pg_tasks p) /\
  pg_tasks (graphDiscardSession p').1 = pg_tasks p /\
  pg_graphBase (graphDiscardSession p').1 = None /\ pg_graphDirty (graphDiscardSession p').1 = 0.
Proof.
  intros Hb Hd Hes E. assert (Hs : session_of p p) by (unfold session_of; by rewrite Hb).
  destruct (graph_edits_session es p p p' out Hes Hs E) as [Hs' Ho]. clear Hs.
  rename Hs' into Hs. unfold session_of in Hs. split; [done|].
  unfold graphDiscardSession; simpl. destruct (pg_graphBase p'); naive_solver.
Qed.

Definition sample_session : list edit :=
  [EGraphAdd (Some (lit "check")); EDrop (lit "load") (lit "check"); EDrop (lit "check") (lit "extract")].

Lemma graph_session_discard_witness :
  exists p' out, edits_run sample_session (open_page two_steps) = Some (p', out) /\
    pg_graphDirty p' = 2 /\ pg_tasks (graphDiscardSession p').1 = two_steps.
Proof.
  eexists _, _. split; [reflexivity|]. split; [reflexivity|].
  refine (proj1 (proj2 (proj2 (graph_session_discard sample_session (open_page two_steps) _ _
    eq_refl eq_refl _ eq_refl)))).
  repeat constructor.
Defined.

(** ** Adding a dependency: the exact condition *)

(** [x] waits for [y], directly or through other tasks. *)
Definition depends (ts : list task) : relation jstr := tc (waits (to_node <$> ts)).

Lemma push_waits up n u ts x y :
  ts !! n = Some u -> up ∈ tk_id <$> ts ->
  waits (to_node <$> alter (push_dep up) n ts) x y ->
  waits (to_node <$> ts) x y \/ (x = tk_id u /\ y = up).
Proof.
  intros Hn Hup (tk & Htk & <- & Hy & Hyi)%waits_tasks.
  rewrite ids_alter in Hyi by apply push_dep_id. rewrite waits_tasks.
  apply elem_of_alter in Htk as [Htk|(u' & Hu' & ->)]; [left; by exists tk|]. simplify_eq.
  unfold push_dep in *. rewrite tk_id_with_deps. rewrite tk_deps_with_deps in Hy.
  apply elem_of_app in Hy as [Hy| ->%list_elem_of_singleton]; [left|by right].
  exists u. split_and!; try done. by eapply list_elem_of_lookup_2.
Qed.

Lemma waits_push up n u ts x y :
  ts !! n = Some u -> up ∈ tk_id <$> ts ->
  waits (to_node <$> ts) x y \/ (x = tk_id u /\ y = up) ->
  NoDup (tk_id <$> ts) ->
  waits (to_node <$> alter (push_dep up) n ts) x y.
Proof.
  intros Hn Hup H Hnd. apply waits_tasks. rewrite ids_alter by apply push_dep_id.
  assert (Hu : push_dep up u ∈ alter (push_dep up) n ts).
  { apply (list_elem_of_lookup_2 _ n). by rewrite list_lookup_alter_eq, Hn. }
  destruct H as [(tk & Htk & <- & Hy & Hyi)%waits_tasks|[-> ->]].
  - apply list_elem_of_lookup in Htk as [m Hm]. destruct (decide (m = n)) as [->|Hmn].
    + simplify_eq. exists (push_dep up u). split_and!; [done|apply push_dep_id| |done].
      unfold push_dep. rewrite tk_deps_with_deps. set_solver.
    + exists tk. split_and!; [|done..]. apply (list_elem_of_lookup_2 _ m).
      by rewrite list_lookup_alter_ne.
  - exists (push_dep up u). split_and!; [done|apply push_dep_id| |done].
    unfold push_dep. rewrite tk_deps_with_deps. set_solver.
Qed.

Lemma wf_acc ts : tasks_wf ts -> forall x, Acc (flip (waits (to_node <$> ts))) x.
Proof.
  intros Hw x. induction (wf_acyclic _ Hw x) as [x _ IH]. constructor. intros y Hy.
  apply IH. apply waits_edge; [rewrite nid_to_node; apply Hw|exact Hy].
Qed.

Lemma push_cyclic up n u ts :
  tasks_wf ts -> ts !! n = Some u -> up ∈ tk_id <$> ts -> up <> tk_id u ->
  cyclic_tasks (alter (push_dep up) n ts) = false <-> ~ depends ts up (tk_id u).
Proof.
  intros Hw Hn Hup Hne. destruct (alter_ids_wf (push_dep up) n ts Hw (push_dep_id up)) as [Hi Hp].
  pose proof (wf_nodup _ Hw) as Hnd.
  assert (Hnd' : NoDup (nid <$> (to_node <$> alter (push_dep up) n ts))).
  { rewrite nid_to_node, ids_alter by apply push_dep_id. done. }
  split.
  - intros Hc%cyclic_tasks_false Hd; [|done..].
    apply (acyclic_not_cyclic _ Hc). exists up.
    apply (tc_map (waits (to_node <$> alter (push_dep up) n ts)) _ id).
    { intros a b. by apply waits_edge. }
    eapply tc_r; [|eapply waits_push; eauto].
    eapply (tc_map _ _ id); [|exact Hd]. intros a b Hab. eapply waits_push; eauto.
  - intros Hd. apply cyclic_tasks_acyclic; [done..|].
    assert (Ha : forall x, Acc (flip (waits (to_node <$> alter (push_dep up) n ts))) x).
    { apply (Acc_add_edge (waits (to_node <$> ts)) _ (tk_id u) up); [by apply wf_acc| |].
      - intros x y. by apply push_waits.
      - intros [->|(z & Hz & Hr)]%rtc_inv; [done|]. apply Hd. eapply tc_rtc_r; [by apply tc_once|done]. }
    intros x. induction (Ha x) as [x _ IH]. constructor. intros y Hy. by apply IH, edge_waits.
Qed.

Lemma drop_allowed_spec up down p :
  page_wf p -> up ∈ tk_id <$> pg_tasks p ->
  (graphDropAllowed up down p = true <->
     exists n u, pg_tasks p !! n = Some u /\ tk_id u = down /\ up <> down /\
       (up ∉ tk_deps u) /\ ~ depends (pg_tasks p) up down) /\
  pg_tasks (graphToggleDep up down false p).1 =
    (if graphDropAllowed up down p
     then (fun x => if bool_decide (tk_id x = down) then push_dep up x else x) <$> pg_tasks p
     else pg_tasks p).
Proof.
  intros [Hw _] Hup. unfold graphDropAllowed, graphToggleDep.
  destruct (find_task down (pg_tasks p)) as [[n u]|] eqn:E.
  2: { split; [|done]. apply find_task_None in E. split; [done|].
       intros (n & u & Hn%list_elem_of_lookup_2 & <- & _). destruct E. by apply list_elem_of_fmap_2. }
  apply find_task_Some in E as [Hn <-].
  assert (Huniq : forall m v, pg_tasks p !! m = Some v -> tk_id v = tk_id u -> m = n).
  { intros m v Hm Hv. eapply NoDup_lookup; [apply (wf_nodup _ Hw)|..]; rewrite list_lookup_fmap;
      [by rewrite Hm|rewrite Hn; simpl; congruence]. }
  case_bool_decide as Hne; [|case_bool_decide as Hin].
  - split; [|done]. naive_solver.
  - split; [|done]. split; [done|]. intros (m & v & Hm & Hv & _ & Hnin & _).
    pose proof (Huniq m v Hm Hv) as ->. by simplify_eq.
  - pose proof (push_cyclic up n u (pg_tasks p) Hw Hn Hup Hne) as Hc.
    destruct (cyclic_tasks _); simpl; (split; [|try done]).
    + split; [done|]. intros (m & v & _ & _ & _ & _ & Hd). by apply Hc in Hd.
    + split; [|done]. intros _. exists n, u. split_and!; try done. by apply Hc.
    + apply list_eq. intros m. rewrite list_lookup_fmap.
      destruct (decide (m = n)) as [->|Hmn].
      * rewrite list_lookup_alter_eq, Hn. simpl. by rewrite bool_decide_eq_true_2.
      * rewrite list_lookup_alter_ne by done. destruct (pg_tasks p !! m) as [v|] eqn:Hm; [|done].
        simpl. rewrite bool_decide_eq_false_2; [done|]. intros Hv. by apply Hmn, (Huniq m v).
Qed.

(** The drag feedback is exact: a drop is shown as allowed precisely when
    the target is another task that does not already wait for the dragged one
    and that the dragged one does not wait for, even indirectly; and then the
    drop adds that dependency and nothing else, while any other drop leaves the
    tasks as they are. *)
Theorem graphDropAllowed_exact up down p :
  page_wf p -> up ∈ tk_id <$> pg_tasks p ->
  (graphDropAllowed up down p = true <->
     exists n u, pg_tasks p !! n = Some u /\ tk_id u = down /\ up <> down /\
       (up ∉ tk_deps u) /\ ~ depends (pg_tasks p) up down) /\
  pg_tasks (graphToggleDep up down false p).1 =
    (if graphDropAllowed up down p
     then (fun x => if bool_decide (tk_id x = down) then push_dep up x else x) <$> pg_tasks p
     else pg_tasks p).
Proof. apply drop_allowed_spec. Qed.

Lemma graphDropAllowed_exact_witness :
  graphDropAllowed (lit "load") (lit "extract") (open_page two_steps) = false /\
  pg_tasks (graphToggleDep (lit "load") (lit "extract") false (open_page two_steps)).1 = two_steps.
Proof.
  split; [reflexivity|].
  assert (Hup : lit "load" ∈ tk_id <$> pg_tasks (open_page two_steps)) by compute_decide.
  exact (proj2 (graphDropAllowed_exact (lit "load") (lit "extract") (open_page two_steps)
    two_steps_wf Hup)).
Defined.

(** Renaming a task keeps the graph: an accepted name changes the task's
    own name and every reference to it, and the new tasks wait for each other
    exactly as the old ones did. *)
Theorem rename_keeps_graph n tk i p :
  page_wf p -> pg_tasks p !! n = Some tk -> i <> tk_id tk -> ID_RE i = true ->
  i ∉ tk_id <$> pg_tasks p ->
  let ts' := pg_tasks (renameActiveTask n i p).1 in
  ts' = rn_task (tk_id tk) i <$> pg_tasks p /\
  (forall x y, waits (to_node <$> ts') x y <->
     exists x0 y0, x = rn (tk_id tk) i x0 /\ y = rn (tk_id tk) i y0 /\
                   waits (to_node <$> pg_tasks p) x0 y0).
Proof.
  intros [Hw _] Hn Hne Hi Hnew. cbv zeta.
  assert (E : pg_tasks (renameActiveTask n i p).1 = rn_task (tk_id tk) i <$> pg_tasks p).
  { unfold renameActiveTask. rewrite Hn, (bool_decide_eq_false_2 _ Hne).
    rewrite (proj2 (truthy_true i)) by (by apply ID_RE_nonnil). rewrite Hi.
    assert (has_id (delete n (pg_tasks p)) i = false) as ->.
    { apply has_id_false. rewrite (delete_Permutation _ _ _ Hn), fmap_cons in Hnew. set_solver. }
    simpl. rewrite (rename_fmap _ (tk_id tk) i Hw n tk) by done. unfold then_save.
    match goal with |- context [saveDag ?q] => destruct (saveDag_cases q) as [Eq _];
      destruct (saveDag q) end. exact Eq. }
  rewrite E. split; [done|]. by apply rename_waits.
Qed.

Lemma rename_keeps_graph_witness :
  tk_deps <$> pg_tasks (renameActiveTask 0 (lit "fetch") (open_page two_steps)).1 !! 1
  = Some [lit "fetch"].
Proof.
  rewrite (proj1 (rename_keeps_graph 0 (shell_task (lit "extract") (lit "echo 1") []) (lit "fetch")
    (open_page two_steps) two_steps_wf eq_refl ltac:(compute_decide) eq_refl ltac:(compute_decide))).
  reflexivity.
Defined.

(** A two-click connection outlives the deletion of its first task: after
    picking [extract], deleting it and clicking [load], [load] waits for a task
    that does not exist, and the console's check reports nothing. *)
Theorem stale_connection_dangles :
  exists p' out tk,
    edits_run [ENode (lit "extract") true; EDelete (lit "extract") true; ENode (lit "load") false]
      (open_page two_steps) = Some (p', out) /\
    tk ∈ pg_tasks p' /\ lit "extract" ∈ tk_deps tk /\
    (lit "extract" ∉ tk_id <$> pg_tasks p') /\ validateDag (pg_dag p') (pg_tasks p') = [].
Proof.
  eexists _, _, (shell_task (lit "load") (lit "echo 2") [lit "extract"]).
  split; [reflexivity|]. split_and!; [compute_decide|compute_decide|compute_decide|reflexivity].
Qed.
