(* ===== verification/SavePipeline.v ===== *)
(** * The save pipeline (views.js) and the endpoint it talks to

    The debounced, serialized save of the open workflow, as a transition system:
    timers fire, requests are processed and answered, the user edits, opens
    another workflow or deletes this one, in any order.  The server side is the
    optimistic-concurrency test of [buildDAG] (internal/api/server.go); the hash
    of a stored definition and the parser's verdict are parameters. *)

From S2P Require Import Prelude JsCore Schedule TaskGraph DagModel DagEdit.

(** ** The endpoint [POST /api/dags/build] *)

Inductive reply := Saved (definition_hash : jstr) | Conflict | Rejected | NoAnswer.

(** The definition stored for a request: everything but the token. *)
Definition stored_of (b : spec) : spec :=
  Spec (s_dag_id b) (s_schedule b) (s_start_date b) (s_catchup b) (s_max_active_runs b)
       (s_default_retries b) (s_trigger_after b) (s_notify_url b) (s_notify_group b)
       (s_notify_on b) (s_notify_format b) (s_execution_policy b) [] (s_sla b)
       (s_dagrun_timeout b) (s_tasks b).

Section server.
Context (definitionHash : spec -> jstr) (accepts : spec -> bool).

Definition buildDAG (b : spec) (m : gmap jstr spec) : reply * gmap jstr spec :=
  let save := if accepts b
    then (Saved (definitionHash (stored_of b)), <[s_dag_id b := stored_of b]> m)
    else (Rejected, m) in
  match m !! s_dag_id b with
  | Some cur =>
    if truthy (s_expected_hash b) && negb (bool_decide (definitionHash cur = s_expected_hash b))
    then (Conflict, m) else save
  | None => save
  end.
End server.

(** ** State *)

Record request := Request { rq_seq : nat; rq_body : spec; rq_reply : option reply }.

(** A [showDag] in progress: waiting in [flushPendingSaves], or fetching. *)
Inductive nav := NavWait (id : jstr) | NavFetch (id : jstr).
(** A [deleteActiveDag] in progress. *)
Inductive del := DelIdle | DelWait (id : jstr) | DelSent (id : jstr).

Inductive indicator := Saving | SavedOk | Unsaved | SaveError.

Record sys := Sys {
  D : option page;
  saveTimer : option nat;      (** the variable *)
  timers : list nat;           (** the timers that will fire *)
  next_timer : nat;
  saveSeq : nat; saveInflight : bool; savePending : bool; deleting : bool;
  reqs : list request;         (** requests without an answer read *)
  navs : list nav; del_state : del;
  srv : gmap jstr spec;        (** the server's definitions *)
  ss : indicator;
  due : bool;                  (** bookkeeping: [saveDag] armed a save that no request carries yet *)
}.

Definition init (p : option page) (m : gmap jstr spec) : sys :=
  Sys p None [] 1 0 false false false [] [] DelIdle m SavedOk false.

(** Field updates. *)
Definition with_D d s := Sys d (saveTimer s) (timers s) (next_timer s) (saveSeq s) (saveInflight s)
  (savePending s) (deleting s) (reqs s) (navs s) (del_state s) (srv s) (ss s) (due s).
Definition with_timer v l s := Sys (D s) v l (next_timer s) (saveSeq s) (saveInflight s)
  (savePending s) (deleting s) (reqs s) (navs s) (del_state s) (srv s) (ss s) (due s).
Definition with_flags i pe de s := Sys (D s) (saveTimer s) (timers s) (next_timer s) (saveSeq s) i pe de
  (reqs s) (navs s) (del_state s) (srv s) (ss s) (due s).
Definition with_reqs r s := Sys (D s) (saveTimer s) (timers s) (next_timer s) (saveSeq s) (saveInflight s)
  (savePending s) (deleting s) r (navs s) (del_state s) (srv s) (ss s) (due s).
Definition with_navs n s := Sys (D s) (saveTimer s) (timers s) (next_timer s) (saveSeq s) (saveInflight s)
  (savePending s) (deleting s) (reqs s) n (del_state s) (srv s) (ss s) (due s).
Definition with_del d s := Sys (D s) (saveTimer s) (timers s) (next_timer s) (saveSeq s) (saveInflight s)
  (savePending s) (deleting s) (reqs s) (navs s) d (srv s) (ss s) (due s).
Definition with_srv m s := Sys (D s) (saveTimer s) (timers s) (next_timer s) (saveSeq s) (saveInflight s)
  (savePending s) (deleting s) (reqs s) (navs s) (del_state s) m (ss s) (due s).
Definition with_ss i s := Sys (D s) (saveTimer s) (timers s) (next_timer s) (saveSeq s) (saveInflight s)
  (savePending s) (deleting s) (reqs s) (navs s) (del_state s) (srv s) i (due s).
Definition with_due b s := Sys (D s) (saveTimer s) (timers s) (next_timer s) (saveSeq s) (saveInflight s)
  (savePending s) (deleting s) (reqs s) (navs s) (del_state s) (srv s) (ss s) b.
Definition next_seq s := Sys (D s) (saveTimer s) (timers s) (next_timer s) (S (saveSeq s)) (saveInflight s)
  (savePending s) (deleting s) (reqs s) (navs s) (del_state s) (srv s) (ss s) (due s).

(** [D.dag = d], [D.dag.definition_hash = h] *)
Definition set_hash (h : jstr) (d : dag) : dag :=
  Dag (d_dag_id d) (d_sched d) (d_start_date d) (d_catchup d) (d_paused d) (d_max_active_runs d)
      (d_default_retries d) (d_execution_policy d) (d_trigger_after d) (d_notify_url d)
      (d_notify_on d) (d_notify_format d) (d_notify_group d) (d_sla d) (d_dagrun_timeout d) h.
Definition set_sched (c : sched) (d : dag) : dag :=
  Dag (d_dag_id d) c (d_start_date d) (d_catchup d) (d_paused d) (d_max_active_runs d)
      (d_default_retries d) (d_execution_policy d) (d_trigger_after d) (d_notify_url d)
      (d_notify_on d) (d_notify_format d) (d_notify_group d) (d_sla d) (d_dagrun_timeout d)
      (d_definition_hash d).
Definition set_id (i : jstr) (d : dag) : dag :=
  Dag i (d_sched d) (d_start_date d) (d_catchup d) (d_paused d) (d_max_active_runs d)
      (d_default_retries d) (d_execution_policy d) (d_trigger_after d) (d_notify_url d)
      (d_notify_on d) (d_notify_format d) (d_notify_group d) (d_sla d) (d_dagrun_timeout d)
      (d_definition_hash d).

(** ** The functions of views.js *)

(** [clearTimeout(saveTimer)] *)
Definition clear_timer (s : sys) : sys :=
  match saveTimer s with
  | Some i => with_timer (saveTimer s) (filter (fun j => j <> i) (timers s)) s
  | None => s
  end.

(** [saveTimer = setTimeout(flushSave, 400)] *)
Definition arm_timer (s : sys) : sys :=
  Sys (D s) (Some (next_timer s)) (timers s ++ [next_timer s]) (S (next_timer s)) (saveSeq s)
      (saveInflight s) (savePending s) (deleting s) (reqs s) (navs s) (del_state s) (srv s) (ss s)
      (due s).

(** [saveDag]; with no open workflow [validateDag] throws and nothing changes. *)
Definition saveDag (s : sys) : sys :=
  if deleting s then s
  else match D s with
       | None => s
       | Some p =>
         match validateDag (pg_dag p) (pg_tasks p) with
         | [] => with_due true (arm_timer (clear_timer
                   (with_ss Saving (with_D (Some (set_session None 0 p)) s))))
         | _ => with_ss Unsaved s
         end
       end.

(** [flushSave]: the new state and whether the call throws. *)
Definition flushSave (s : sys) : sys * bool :=
  if deleting s then (s, false)
  else if saveInflight s then (with_flags true true (deleting s) s, false)
  else
    let s1 := next_seq (with_flags true (savePending s) (deleting s) s) in
    match D s with
    | None => (s1, true)
    | Some p =>
      let p' := set_dag (set_sched (computeSchedule (d_sched (pg_dag p))) (pg_dag p)) p in
      let b := dagSpecFrom (pg_dag p') (pg_tasks p') in
      (with_due false (with_D (Some p') (with_reqs (reqs s1 ++ [Request (saveSeq s1) b None]) s1)), false)
    end.

(** The rest of [flushSave] once its request [r] is answered or has failed. *)
Definition adopt (r : reply) (s : sys) : sys :=
  match r, D s with
  | Saved h, Some p => if truthy h then with_D (Some (set_dag (set_hash h (pg_dag p)) p)) s else s
  | _, _ => s
  end.
Definition show_result (seq : nat) (r : reply) (s : sys) : sys :=
  if Nat.eqb seq (saveSeq s)
  then with_ss (match r with Saved _ => SavedOk | _ => SaveError end) s else s.
Definition finish (seq : nat) (r : reply) (s : sys) : sys :=
  let s1 := show_result seq r (adopt r s) in
  let s2 := with_flags false (savePending s1) (deleting s1) s1 in
  if savePending s2 then (flushSave (with_flags false false (deleting s2) s2)).1 else s2.

(** [flushPendingSaves] up to its first suspension, and whether it throws. *)
Definition flushPendingSaves (s : sys) : sys * bool :=
  match saveTimer s with
  | Some _ => flushSave (with_timer None (timers (clear_timer s)) s)
  | None => (s, false)
  end.

(** [deleteActiveDag] after the confirmation, up to its first suspension. *)
Definition delete_start (i : jstr) (s : sys) : sys :=
  with_del (DelWait i)
    (with_flags (saveInflight s) false true (with_timer None (timers (clear_timer s)) s)).

(** [reflectSaveState] at the end of a page draw. *)
Definition reflectSaveState (s : sys) : sys :=
  match D s with
  | None => s
  | Some p => match validateDag (pg_dag p) (pg_tasks p) with
    | [] => with_ss (if bool_decide (is_Some (saveTimer s)) || saveInflight s then Saving else SavedOk) s
    | _ => with_ss Unsaved s
    end
  end.

(** ** Events and steps *)

Inductive event :=
| Edit (d : dag) (ts : list task) (saves : bool)
    (** a handler rewrites settings and tasks; [saves] when it calls [saveDag] *)
| GraphEdit (e : edit)  (** a step of the graph editor's session *)
| Redraw
| Fire (i : nat)
| Serve             (** the server handles the oldest unhandled request *)
| Lose              (** the connection of the oldest request breaks *)
| Answer            (** the answer of the oldest request is read *)
| Foreign (b : spec) (** someone else stores a definition *)
| NavStart (i : jstr) | NavGo (n : nat) | NavDone (n : nat) (d : option page)
| DelStart | DelSend | DelDone (ok : bool).

Section pipeline.
Context (definitionHash : spec -> jstr) (accepts : spec -> bool).

(** [None]: the event cannot happen in this state. *)
Definition step (e : event) (s : sys) : option sys :=
  match e with
  | Edit d ts saves =>
    match D s with
    | None => None
    | Some p =>
      let d' := set_hash (d_definition_hash (pg_dag p)) (set_id (d_dag_id (pg_dag p)) d) in
      let s1 := with_D (Some (set_tasks ts (set_dag d' p))) s in
      Some (if saves then saveDag s1 else s1)
    end
  | GraphEdit e =>
    match D s with
    | None => None
    | Some p =>
        match edit_run e p with
        | Some (p', out) => if existsb (fun o => match o with ArmSave | Invalid _ => true | _ => false end) out
                            then None else Some (with_D (Some p') s)
        | None => None
        end
    end
  | Redraw => Some (reflectSaveState s)
  | Fire i => if bool_decide (i ∈ timers s)
      then Some (flushSave (with_timer (saveTimer s) (filter (fun j => j <> i) (timers s)) s)).1
      else None
  | Serve =>
    match reqs s with
    | Request q b None :: rs =>
      let '(r, m) := buildDAG definitionHash accepts b (srv s) in
      Some (with_srv m (with_reqs (Request q b (Some r) :: rs) s))
    | _ => None
    end
  | Lose =>
    match reqs s with
    | Request q b _ :: rs => Some (with_reqs (Request q b (Some NoAnswer) :: rs) s)
    | _ => None
    end
  | Answer =>
    match reqs s with
    | Request q b (Some r) :: rs => Some (finish q r (with_reqs rs s))
    | _ => None
    end
  | Foreign b => Some (with_srv (<[s_dag_id b := stored_of b]> (srv s)) s)
  | NavStart i =>
    let '(s1, threw) := flushPendingSaves s in
    Some (if threw then s1 else with_navs (navs s1 ++ [NavWait i]) s1)
  | NavGo n =>
    match navs s !! n with
    | Some (NavWait i) => if saveInflight s then None
                          else Some (with_navs (<[n := NavFetch i]> (navs s)) s)
    | _ => None
    end
  | NavDone n d =>
    match navs s !! n with
    | Some (NavFetch i) => Some (with_navs (delete n (navs s)) (with_D d s))
    | _ => None
    end
  | DelStart =>
    match D s, del_state s with
    | Some p, DelIdle => Some (delete_start (d_dag_id (pg_dag p)) s)
    | _, _ => None
    end
  | DelSend =>
    match del_state s with
    | DelWait i => if saveInflight s then None else Some (with_del (DelSent i) s)
    | _ => None
    end
  | DelDone ok =>
    match del_state s with
    | DelSent i =>
      let s1 := with_del DelIdle (with_flags (saveInflight s) (savePending s) false s) in
      Some (if ok then with_srv (delete i (srv s1)) s1 else s1)
    | _ => None
    end
  end.

Fixpoint run (es : list event) (s : sys) : option sys :=
  match es with
  | [] => Some s
  | e :: es' => match step e s with Some s' => run es' s' | None => None end
  end.
End pipeline.

(** The pipeline's [saveDag] does to the page what the editor's [saveDag] does,
    and arms the timer when the editor asks for it. *)
Lemma saveDag_agrees p s :
  pg_deleting p = deleting s ->
  D (saveDag (with_D (Some p) s)) = Some (DagEdit.saveDag p).1 /\
  (ArmSave ∈ (DagEdit.saveDag p).2 ->
     saveTimer (saveDag (with_D (Some p) s)) = Some (next_timer s) /\
     next_timer s ∈ timers (saveDag (with_D (Some p) s))).
Proof.
  intros Hd. unfold saveDag, DagEdit.saveDag. simpl. rewrite Hd.
  destruct (deleting s); [by split; [|intros ?%not_elem_of_nil]|].
  destruct (validateDag _ _).
  - unfold clear_timer; simpl. destruct (saveTimer s); simpl; set_solver.
  - split; [done|]. by intros ?%list_elem_of_singleton.
Qed.

(** ** The invariant of every reachable state *)

Record pipe_inv (s : sys) : Prop := {
  pi_reqs : reqs s = [] \/ exists b r, reqs s = [Request (saveSeq s) b r];
  pi_inflight : reqs s <> [] -> saveInflight s = true;
  pi_timers : timers s = [] \/ exists i, saveTimer s = Some i /\ timers s = [i];
  pi_fresh : Forall (fun i => i < next_timer s) (timers s);
  pi_pending : savePending s = true -> saveInflight s = true;
  pi_del : deleting s = true <-> del_state s <> DelIdle;
  pi_del_quiet : deleting s = true -> timers s = [] /\ savePending s = false;
  pi_del_sent : (exists i, del_state s = DelSent i) -> reqs s = [];
}.

Lemma init_inv p m : pipe_inv (init p m).
Proof. split; simpl; try done; auto. Qed.

Ltac inv_auto := split; simpl in *; try done; eauto; try naive_solver.

Lemma clear_timers s : pipe_inv s -> timers (clear_timer s) = [].
Proof.
  intros H. unfold clear_timer. destruct (pi_timers s H) as [E|(i & E1 & E2)].
  - destruct (saveTimer s); simpl; by rewrite E.
  - rewrite E1; simpl. rewrite E2. by rewrite filter_cons_False by (by intros []).
Qed.

Lemma with_D_inv d s : pipe_inv s -> pipe_inv (with_D d s).
Proof. by intros []; split. Qed.
Lemma with_ss_inv i s : pipe_inv s -> pipe_inv (with_ss i s).
Proof. by intros []; split. Qed.
Lemma with_srv_inv m s : pipe_inv s -> pipe_inv (with_srv m s).
Proof. by intros []; split. Qed.
Lemma with_navs_inv n s : pipe_inv s -> pipe_inv (with_navs n s).
Proof. by intros []; split. Qed.
Lemma with_due_inv b s : pipe_inv s -> pipe_inv (with_due b s).
Proof. by intros []; split. Qed.
Lemma no_timer_inv v s : pipe_inv s -> pipe_inv (with_timer v [] s).
Proof. intros []; split; simpl; auto. naive_solver. Qed.
Lemma idle_request_inv q b r r' s :
  pipe_inv s -> reqs s = [Request q b r] -> pipe_inv (with_reqs [Request q b r'] s).
Proof.
  intros [R I T F P D1 D2 D3] E. split; simpl; auto.
  - right. destruct R as [R|(b0 & r0 & R)]; rewrite E in R; simplify_eq. eauto.
  - intros _. apply I. by rewrite E.
  - intros Hd. specialize (D3 Hd). by rewrite E in D3.
Qed.

Lemma saveDag_inv s : pipe_inv s -> pipe_inv (saveDag s).
Proof.
  intros H. unfold saveDag. destruct (deleting s) eqn:Ed; [done|].
  destruct (D s) as [p|]; [|done]. destruct (validateDag _ _); [|by apply with_ss_inv].
  apply with_due_inv. set (s1 := with_ss Saving (with_D (Some (set_session None 0 p)) s)).
  assert (H1 : pipe_inv s1) by by apply with_ss_inv, with_D_inv.
  pose proof (clear_timers s1 H1) as Et.
  assert (Ef : forall A (f : sys -> A), (forall v l, f (with_timer v l s1) = f s1) -> f (clear_timer s1) = f s1).
  { intros A f Hf. unfold clear_timer. by destruct (saveTimer s1). }
  destruct H as [R I T F P D1 D2 D3]. unfold arm_timer. rewrite Et.
  split; simpl; rewrite ?(Ef _ reqs), ?(Ef _ saveSeq), ?(Ef _ saveInflight), ?(Ef _ savePending),
    ?(Ef _ deleting), ?(Ef _ del_state); try done; simpl; eauto.
  by rewrite Ed.
Qed.

Lemma flushSave_inv s : pipe_inv s -> pipe_inv (flushSave s).1.
Proof.
  intros H. unfold flushSave. destruct (deleting s) eqn:Ed; [done|].
  destruct (saveInflight s) eqn:Ei.
  - destruct H as [R I T F P D1 D2 D3]. simpl. rewrite Ed in *. split; simpl; auto; by rewrite ?Ed in *.
  - assert (Er : reqs s = []).
    { destruct (reqs s) eqn:E; [done|]. assert (saveInflight s = true); [|congruence].
      apply (pi_inflight s H). by rewrite E. }
    destruct H as [R I T F P D1 D2 D3].
    assert (Hd : del_state s = DelIdle).
    { destruct (del_state s) eqn:E; [done|..]; assert (deleting s = true) by (apply D1; congruence); congruence. }
    destruct (D s) as [p|]; simpl; split; simpl; rewrite ?Ed, ?Er, ?Hd in *; auto; try done;
      try naive_solver.
Qed.

(** The state in which a read answer leaves the pipeline, before a pending flush. *)
Definition answered (q : nat) (r : reply) (s : sys) : sys :=
  let t := show_result q r (adopt r (with_reqs [] s)) in with_flags false false (deleting t) t.

Lemma answered_fields q r s :
  let t := show_result q r (adopt r (with_reqs [] s)) in
  timers t = timers s /\ reqs t = [] /\ savePending t = savePending s /\ deleting t = deleting s
  /\ saveTimer t = saveTimer s /\ next_timer t = next_timer s /\ del_state t = del_state s
  /\ srv t = srv s /\ (D s <> None -> D t <> None).
Proof.
  unfold show_result, adopt. simpl. repeat case_match; simpl; split_and!; congruence.
Qed.

Lemma finish_answered q r s :
  finish q r (with_reqs [] s) =
    if savePending s then (flushSave (answered q r s)).1
    else answered q r s.
Proof.
  destruct (answered_fields q r s) as (_ & _ & E & _). unfold finish, answered.
  cbn [savePending with_flags]. rewrite E. by destruct (savePending s).
Qed.

Lemma answered_inv q r b r' s :
  pipe_inv s -> reqs s = [Request q b r'] -> pipe_inv (answered q r s).
Proof.
  intros H E. destruct (answered_fields q r s) as (E1 & E2 & E3 & E4 & E5 & E6 & E7 & _).
  unfold answered. destruct H as [R I T F P D1 D2 D3].
  split; simpl; rewrite ?E1, ?E2, ?E4, ?E5, ?E6, ?E7; auto; try done. naive_solver.
Qed.

Lemma finish_inv q r b r' s :
  pipe_inv s -> reqs s = [Request q b r'] -> pipe_inv (finish q r (with_reqs [] s)).
Proof.
  intros H E. rewrite finish_answered. pose proof (answered_inv q r b r' s H E).
  destruct (savePending s); [by apply flushSave_inv|done].
Qed.

Lemma one_request s : pipe_inv s ->
  reqs s = [] \/ exists b r, reqs s = [Request (saveSeq s) b r].
Proof. apply pi_reqs. Qed.

Lemma fire_timers i s : pipe_inv s -> i ∈ timers s -> filter (fun j => j <> i) (timers s) = [].
Proof.
  intros H Hi. destruct (pi_timers s H) as [E|(j & _ & E)]; rewrite E in Hi |- *; [done|].
  apply list_elem_of_singleton in Hi as ->. rewrite filter_cons_False; [done|naive_solver].
Qed.

Lemma flushPending_inv s : pipe_inv s -> pipe_inv (flushPendingSaves s).1.
Proof.
  intros H. unfold flushPendingSaves. destruct (saveTimer s); [|done].
  apply flushSave_inv. rewrite clear_timers by done. by apply no_timer_inv.
Qed.

Lemma delete_start_inv i s : pipe_inv s -> del_state s = DelIdle -> pipe_inv (delete_start i s).
Proof.
  intros H Hd. unfold delete_start. rewrite clear_timers by done.
  destruct H as [R I T F P D1 D2 D3]. split; simpl; auto; try done. naive_solver.
Qed.

Section invariant.
Context (definitionHash : spec -> jstr) (accepts : spec -> bool).
Abbreviation go := (step definitionHash accepts).
Abbreviation goes := (run definitionHash accepts).

Lemma step_inv e s s' : pipe_inv s -> go e s = Some s' -> pipe_inv s'.
Proof using.
  intros H E.
  destruct e as [d ts saves|e| |i| | | |b|i|n|n d| | |ok]; cbn [step] in E.
  - destruct (D s); [|done]. injection E as <-. destruct saves; [apply saveDag_inv|]; by apply with_D_inv.
  - destruct (D s); [|done]. destruct (edit_run e _) as [[p' out]|]; [|done].
    destruct (existsb _ out); [done|]. injection E as <-. by apply with_D_inv.
  - injection E as <-. unfold reflectSaveState. repeat case_match; try done; by apply with_ss_inv.
  - case_bool_decide as Hi; [|done]. injection E as <-. apply flushSave_inv.
    rewrite fire_timers by done. by apply no_timer_inv.
  - destruct (one_request s H) as [R|(b & r & R)]; rewrite R in E; [done|].
    destruct r; [done|]. destruct (buildDAG _ _ _ _) as [r m]. injection E as <-.
    eapply with_srv_inv, idle_request_inv; done.
  - destruct (one_request s H) as [R|(b & r & R)]; rewrite R in E; [done|].
    injection E as <-. by eapply idle_request_inv.
  - destruct (one_request s H) as [R|(b & r & R)]; rewrite R in E; [done|].
    destruct r as [r|]; [|done]. injection E as <-. by eapply finish_inv.
  - injection E as <-. by apply with_srv_inv.
  - pose proof (flushPending_inv s H) as H1. destruct (flushPendingSaves s) as [s1 []];
      injection E as <-; [done|by apply with_navs_inv].
  - destruct (navs s !! n) as [[i|i]|]; [|done..]. destruct (saveInflight s); [done|].
    injection E as <-. by apply with_navs_inv.
  - destruct (navs s !! n) as [[i|i]|]; [done| |done]. injection E as <-.
    by apply with_navs_inv, with_D_inv.
  - destruct (D s); [|done]. destruct (del_state s) eqn:Ed; [|done..]. injection E as <-.
    by apply delete_start_inv.
  - destruct (del_state s) eqn:Ed; [done| |done]. destruct (saveInflight s) eqn:Ei; [done|].
    injection E as <-.
    assert (Er : reqs s = []).
    { destruct (reqs s) eqn:Er; [done|]. rewrite (pi_inflight s H) in Ei; [done|by rewrite Er]. }
    destruct H as [R I T F P D1 D2 D3]. split; simpl; auto; rewrite ?Ed in *; naive_solver.
  - destruct (del_state s) eqn:Ed; [done..|].
    assert (Hr : reqs s = []) by (apply (pi_del_sent s H); eauto).
    assert (Hx : pipe_inv (with_del DelIdle (with_flags (saveInflight s) (savePending s) false s))).
    { destruct H as [R I T F P D1 D2 D3]. split; simpl; auto; done. }
    injection E as <-. destruct ok; [by apply with_srv_inv|done].
Qed.

Lemma run_inv es s s' : pipe_inv s -> goes es s = Some s' -> pipe_inv s'.
Proof using.
  revert s; induction es as [|e es IH]; intros s H E; simpl in E; [by simplify_eq|].
  destruct (step _ _ e s) as [s1|] eqn:E1; [|done].
  eapply IH; [|exact E]. by eapply step_inv.
Qed.
End invariant.

(** ** Progress: the events that need no user *)

Definition auto_event (e : event) : bool :=
  match e with Fire _ | Serve | Answer => true | _ => false end.

Definition settled (s : sys) : Prop :=
  timers s = [] /\ reqs s = [] /\ saveInflight s = false /\ savePending s = false.

(** [saveInflight] without a request: [flushSave] threw before its request. *)
Definition stuck (s : sys) : Prop := saveInflight s = true /\ reqs s = [].

(** Remaining automatic events. *)
Definition work (s : sys) : nat :=
  7 * length (timers s) + (if savePending s then 3 else 0) +
  match reqs s with [] => 0 | Request _ _ None :: _ => 2 | _ => 1 end.

(** Save is owed: it will be carried by a timer or a pending flush. *)
Definition due_ok (s : sys) : Prop :=
  due s = true -> timers s <> [] \/ savePending s = true \/ stuck s.

Section progress.
Context (definitionHash : spec -> jstr) (accepts : spec -> bool).
Abbreviation go := (step definitionHash accepts).
Abbreviation goes := (run definitionHash accepts).

Lemma auto_step_work e s s' :
  pipe_inv s -> D s <> None -> auto_event e = true -> go e s = Some s' ->
  work s' < work s /\ (D s' <> None) /\ deleting s' = deleting s.
Proof using.
  intros H Hd He E. destruct e; try done; cbn [step] in E.
  - case_bool_decide as Hi; [|done]. injection E as <-. rewrite fire_timers by done.
    assert (Ht : length (timers s) = 1).
    { destruct (pi_timers s H) as [Et|(j & _ & Et)]; rewrite Et in *; [by apply not_elem_of_nil in Hi|done]. }
    unfold flushSave; simpl. unfold work. rewrite Ht. destruct (deleting s) eqn:Ed.
    + simpl. split_and!; [lia|done..].
    + destruct (saveInflight s) eqn:Ei; simpl.
      * split_and!; [|done..]. destruct (savePending s); lia.
      * destruct (D s) as [p|]; [|done]. simpl. split_and!; [|done..].
        destruct (reqs s) eqn:Er; simpl; [destruct (savePending s); lia|].
        rewrite (pi_inflight s H) in Ei; [done|by rewrite Er].
  - destruct (one_request s H) as [R|(b & r & R)]; rewrite R in E; [done|]. destruct r; [done|].
    destruct (buildDAG _ _ _ _) as [r m]. injection E as <-. unfold work; simpl. rewrite R.
    split_and!; [lia|done..].
  - destruct (one_request s H) as [R|(b & r & R)]; rewrite R in E; [done|].
    destruct r as [r|]; [|done]. injection E as <-.
    destruct (answered_fields (saveSeq s) r s) as (E1 & E2 & E3 & E4 & _ & _ & _ & _ & E5).
    specialize (E5 Hd). rewrite finish_answered. unfold work at 2. rewrite R.
    unfold answered. set (t := show_result _ _ _) in *.
    destruct (savePending s).
    + unfold flushSave; simpl. destruct (deleting t) eqn:Edt; simpl.
      * unfold work; simpl. rewrite E1, E2. split_and!; [lia|done|congruence].
      * destruct (D t) eqn:EDt; [|done]. unfold work; simpl. rewrite E1, E2. simpl.
        split_and!; [lia|done|congruence].
    + unfold work; simpl. rewrite E1, E2. split_and!; [lia|done|congruence].
Qed.

(** A state that is not settled has an automatic event, unless it is stuck. *)
Lemma auto_step_enabled s :
  pipe_inv s -> ~ settled s -> ~ stuck s ->
  exists e s', auto_event e = true /\ go e s = Some s'.
Proof using.
  intros H Hn Hs. destruct (timers s) as [|i l] eqn:Et.
  - destruct (one_request s H) as [R|(b & r & R)].
    + exfalso. destruct (saveInflight s) eqn:Ei; [by apply Hs|]. apply Hn. split_and!; try done.
      destruct (savePending s) eqn:Ep; [|done]. by rewrite (pi_pending s H) in Ei.
    + destruct r as [r|].
      * exists Answer. cbn [step]. rewrite R. eauto.
      * exists Serve. cbn [step]. rewrite R.
        destruct (buildDAG _ _ _ _) as [r m]. eauto.
  - exists (Fire i). cbn [step]. rewrite bool_decide_eq_true_2; [eauto|].
    rewrite Et. by left.
Qed.

Lemma not_stuck_auto e s s' :
  pipe_inv s -> D s <> None -> ~ stuck s -> auto_event e = true -> go e s = Some s' -> ~ stuck s'.
Proof using.
  intros H Hd Hs He E [Hi Hr]. destruct e; try done; cbn [step] in E.
  - case_bool_decide as Hin; [|done]. injection E as <-. rewrite fire_timers in Hi, Hr by done.
    unfold flushSave in Hi, Hr. simpl in Hi, Hr. destruct (deleting s); [by apply Hs|].
    destruct (saveInflight s) eqn:Ei; [by apply Hs|]. destruct (D s); [|done]. simpl in Hr.
    by destruct (reqs s).
  - destruct (one_request s H) as [R|(b & r & R)]; rewrite R in E; [done|]. destruct r; [done|].
    destruct (buildDAG _ _ _ _) as [r m]. by injection E as <-.
  - destruct (one_request s H) as [R|(b & r & R)]; rewrite R in E; [done|].
    destruct r as [r|]; [|done]. injection E as <-. revert Hi Hr. rewrite finish_answered.
    destruct (answered_fields (saveSeq s) r s) as (_ & E2 & _ & _ & _ & _ & _ & _ & E5).
    specialize (E5 Hd). unfold answered. set (t := show_result _ _ _) in *.
    destruct (savePending s); [|done].
    unfold flushSave; simpl. destruct (deleting t); [done|]. destruct (D t); [|done]. simpl.
    by rewrite E2.
Qed.
End progress.

(** ** Every save that was asked for is carried by a request *)

Definition no_delete (e : event) : bool := match e with DelStart => false | _ => true end.

Lemma due_flush s : pipe_inv s -> deleting s = false -> due_ok (flushSave s).1.
Proof.
  intros H He. unfold flushSave, due_ok, stuck. rewrite He. destruct (saveInflight s) eqn:Ei; simpl.
  { intros _. right; by left. }
  destruct (D s); simpl; [done|]. intros _. right; right. split; [done|].
  destruct (reqs s) eqn:R; [done|]. rewrite (pi_inflight s H) in Ei; [done|by rewrite R].
Qed.

Section due.
Context (definitionHash : spec -> jstr) (accepts : spec -> bool).
Abbreviation go := (step definitionHash accepts).
Abbreviation goes := (run definitionHash accepts).

Lemma step_due e s s' :
  no_delete e = true -> pipe_inv s -> deleting s = false -> due_ok s -> go e s = Some s' ->
  due_ok s' /\ deleting s' = false.
Proof using.
  intros He H Hd Hu E.
  assert (Hidle : del_state s = DelIdle).
  { destruct (del_state s) eqn:Es; [done|..]; exfalso;
      assert (deleting s = true) by (apply (pi_del s H); congruence); congruence. }
  assert (Hflush : forall v, due_ok (flushSave (with_timer v [] s)).1
                             /\ deleting (flushSave (with_timer v [] s)).1 = false).
  { intros v. split; [by apply due_flush, Hd; apply no_timer_inv|].
    unfold flushSave; simpl. rewrite Hd. destruct (saveInflight s); [done|]. by destruct (D s). }
  assert (Hlive : reqs s <> [] -> ~ stuck s) by (intros Hr [_ ?]; done).
  destruct e as [d ts saves|e| |i| | | |b|i|n|n d| | |ok]; try done; cbn [step] in E.
  - destruct (D s) as [p|]; [|done]. injection E as <-. destruct saves; [|done].
    unfold saveDag; simpl. rewrite Hd. destruct (validateDag _ _); [|done].
    split; [|unfold clear_timer; simpl; by destruct (saveTimer s)].
    intros _. left. simpl. by destruct (timers (clear_timer _)).
  - destruct (D s); [|done]. destruct (edit_run e _) as [[p' out]|]; [|done].
    destruct (existsb _ out); [done|]. by injection E as <-.
  - injection E as <-. unfold reflectSaveState. repeat case_match; done.
  - case_bool_decide as Hi; [|done]. injection E as <-. rewrite fire_timers by done. apply Hflush.
  - destruct (reqs s) as [|[q b [r|]] rs] eqn:R; try done. destruct (buildDAG _ _ _ _).
    injection E as <-. split; [|done]. intros Hx. destruct (Hu Hx) as [?|[?|?]]; [by left|by right; left|].
    by destruct Hlive.
  - destruct (reqs s) as [|[q b a] rs] eqn:R; [done|]. injection E as <-. split; [|done].
    intros Hx. destruct (Hu Hx) as [?|[?|?]]; [by left|by right; left|]. by destruct Hlive.
  - destruct (one_request s H) as [R|(b & r & R)]; rewrite R in E; [done|].
    destruct r as [r|]; [|done]. injection E as <-. rewrite finish_answered.
    destruct (answered_fields (saveSeq s) r s) as (E1 & E2 & E3 & E4 & _).
    assert (Eu : due (answered (saveSeq s) r s) = due s).
    { unfold answered, show_result, adopt. repeat case_match; done. }
    assert (Ed : deleting (answered (saveSeq s) r s) = false) by (unfold answered; simpl; congruence).
    destruct (savePending s) eqn:Ep.
    + split; [apply due_flush; [by eapply answered_inv|done]|].
      unfold flushSave. rewrite Ed. destruct (saveInflight _); [done|]. by destruct (D _).
    + split; [|done]. intros Hx. rewrite Eu in Hx. left. unfold answered; simpl. rewrite E1.
      destruct (Hu Hx) as [?|[?|?]]; [done|congruence|]. destruct Hlive; [by rewrite R|done].
  - by injection E as <-.
  - unfold flushPendingSaves in E. destruct (saveTimer s).
    + rewrite clear_timers in E by done. destruct (Hflush None) as [F1 F2].
      destruct (flushSave _) as [s1 []]; by injection E as <-.
    + by injection E as <-.
  - destruct (navs s !! n) as [[i|i]|]; [|done..]. destruct (saveInflight s); [done|].
    by injection E as <-.
  - destruct (navs s !! n) as [[i|i]|]; [done| |done]. by injection E as <-.
  - by rewrite Hidle in E.
  - by rewrite Hidle in E.
Qed.

Lemma run_due es s s' :
  Forall (fun e => no_delete e = true) es -> pipe_inv s -> deleting s = false -> due_ok s ->
  goes es s = Some s' -> due_ok s' /\ deleting s' = false.
Proof using.
  intros Hes. revert s. induction Hes as [|e es He _ IH]; intros s H Hd Hu E; simpl in E.
  { by simplify_eq. }
  destruct (step _ _ e s) as [s1|] eqn:E1; [|done].
  destruct (step_due e s s1 He H Hd Hu E1) as [Hu1 Hd1].
  eapply (IH s1); [by eapply step_inv|done..].
Qed.

Lemma auto_run es s s' :
  Forall (fun e => auto_event e = true) es -> pipe_inv s -> D s <> None -> ~ stuck s ->
  goes es s = Some s' -> length es + work s' <= work s /\ pipe_inv s' /\ ~ stuck s'.
Proof using.
  intros Hes. revert s. induction Hes as [|e es He _ IH]; intros s H Hd Hs E; simpl in E.
  { simplify_eq. split_and!; [simpl; lia|done..]. }
  destruct (step _ _ e s) as [s1|] eqn:E1; [|done].
  destruct (auto_step_work _ _ e s s1 H Hd He E1) as (Hw & Hd1 & _).
  destruct (IH s1) as (Hl & Hi & Hns); [by eapply step_inv|done|by eapply not_stuck_auto|done|].
  split_and!; [simpl; lia|done..].
Qed.
End due.

(** ** No conflict with oneself *)

(** The token [h] matches the stored definition of [i], if there is one. *)
Definition token_ok (hash : spec -> jstr) (m : gmap jstr spec) (i h : jstr) : Prop :=
  h = [] \/ forall cur, m !! i = Some cur -> hash cur = h.

Definition sole_inv (hash : spec -> jstr) (s : sys) : Prop :=
  match D s with
  | None => False
  | Some p =>
    let i := d_dag_id (pg_dag p) in let h := d_definition_hash (pg_dag p) in
    match reqs s with
    | [] => token_ok hash (srv s) i h
    | Request _ b a :: rs =>
      rs = [] /\ s_dag_id b = i /\
      match a with
      | None => s_expected_hash b = h /\ token_ok hash (srv s) i h
      | Some (Saved h') => h' <> [] /\ token_ok hash (srv s) i h'
      | Some Rejected => token_ok hash (srv s) i h
      | _ => False
      end
    end /\ (forall j, del_state s = DelWait j \/ del_state s = DelSent j -> j = i)
  end.

(** The events of one user on one workflow: no other editor, no navigation,
    no broken connection. *)
Definition sole_event (e : event) : bool :=
  match e with
  | Lose | Foreign _ | NavStart _ | NavGo _ | NavDone _ _ => false
  | _ => true
  end.

Section sole.
Context (hash : spec -> jstr) (accepts : spec -> bool).
Context (hash_nonempty : forall b, hash b <> []).
Abbreviation go := (step hash accepts).
Abbreviation goes := (run hash accepts).

(** What the invariant reads of a state. *)
Lemma sole_ext s s' :
  sole_inv hash s -> reqs s' = reqs s -> srv s' = srv s -> del_state s' = del_state s ->
  (forall p, D s = Some p -> exists p', D s' = Some p' /\
     d_dag_id (pg_dag p') = d_dag_id (pg_dag p) /\
     d_definition_hash (pg_dag p') = d_definition_hash (pg_dag p)) -> sole_inv hash s'.
Proof using.
  unfold sole_inv. intros H E1 E2 E3 E4. destruct (D s) as [p|]; [|done].
  destruct (E4 p eq_refl) as (p' & -> & E5 & E6). by rewrite E1, E2, E3, E5, E6.
Qed.

Lemma token_fresh m i b :
  s_dag_id b = i -> token_ok hash (<[i := stored_of b]> m) i (hash (stored_of b)).
Proof using.
  intros Hi. right. intros cur. rewrite lookup_insert_eq. by intros [= <-].
Qed.

Lemma flush_sole s : pipe_inv s -> sole_inv hash s -> sole_inv hash (flushSave s).1.
Proof using.
  intros H Hs. unfold flushSave. destruct (deleting s) eqn:Ed; [done|].
  destruct (saveInflight s) eqn:Ei; [by apply (sole_ext s); eauto|].
  assert (Er : reqs s = []).
  { destruct (reqs s) eqn:Er; [done|]. rewrite (pi_inflight s H) in Ei; [done|by rewrite Er]. }
  unfold sole_inv in *. destruct (D s) as [p|]; [|done]. simpl. rewrite Er in *. simpl.
  by destruct Hs.
Qed.

Lemma saveDag_sole s : sole_inv hash s -> sole_inv hash (saveDag s).
Proof using.
  intros Hs. unfold saveDag. destruct (deleting s); [done|].
  destruct (D s) as [p|] eqn:Ep; [|done]. destruct (validateDag _ _); [|by apply (sole_ext s); eauto].
  apply (sole_ext s); [done|..]; unfold clear_timer; simpl; destruct (saveTimer s); try done;
    simpl; intros q Eq; simplify_eq; eexists; (split; [done|done]).
Qed.

Lemma edit_dag_same e p p' out : edit_run e p = Some (p', out) -> pg_dag p' = pg_dag p.
Proof using.
  assert (Hs : forall q k, pg_dag (then_save q k).1 = pg_dag q).
  { intros q k. unfold then_save. unfold DagEdit.saveDag.
    destruct (pg_deleting q); [done|]. by destruct (validateDag _ _). }
  assert (Hm : forall f q, pg_dag (graphMutate f q).1 = pg_dag q) by done.
  assert (Ht : forall u d r q, pg_dag (graphToggleDep u d r q).1 = pg_dag q).
  { intros u d r q. unfold graphToggleDep. repeat case_match; done. }
  assert (Hf : forall (r : page * list effect) q q' o, Some r = Some (q', o) -> pg_dag r.1 = pg_dag q ->
    pg_dag q' = pg_dag q) by (intros [? ?] q q' o [= -> ->]; done).
  intros E. destruct e as [| |i cmd|i|i ok|i|n i|n dep|a|i shift|up down|up down| | | |];
    cbn [edit_run] in E.
  - unfold addTask in E. destruct (fresh _ _ _); [|done].
    pose proof (Hs (set_tasks (pg_tasks p ++ [with_id l blankTask]) p) []) as H.
    unfold then_save in H. destruct (DagEdit.saveDag _) as [p1 o1]. simpl in *. by simplify_eq/=.
  - unfold nvAddStep in E. destruct (fresh _ _ _); [|done]. eapply Hf; [exact E|]. by rewrite Hs.
  - eapply Hf; [exact E|]. unfold nvEditStep. repeat case_match; [|done]. by rewrite Hs.
  - unfold duplicateTask in E. destruct (find_task i _) as [[? ?]|]; [|by simplify_eq].
    destruct (fresh _ _ _); [|done]. eapply Hf; [exact E|]. by rewrite Hs.
  - eapply Hf; [exact E|]. unfold deleteTask. destruct ok; [|done]. by rewrite Hs.
  - eapply Hf; [exact E|]. done.
  - eapply Hf; [exact E|]. unfold renameActiveTask. destruct (pg_tasks p !! n); [|done].
    repeat case_match; try done. by rewrite Hs.
  - eapply Hf; [exact E|]. unfold toggleDepChip. destruct (cyclic_tasks _); [done|]. by rewrite Hs.
  - eapply Hf; [exact E|]. unfold addTaskFromGraph. repeat case_match; done.
  - eapply Hf; [exact E|]. unfold onGraphNodeActivate. repeat case_match; try done. by rewrite Ht.
  - eapply Hf; [exact E|]. by rewrite Ht.
  - eapply Hf; [exact E|]. by rewrite Ht.
  - eapply Hf; [exact E|]. done.
  - eapply Hf; [exact E|]. done.
  - eapply Hf; [exact E|]. unfold graphSaveSession. destruct (validateDag _ _); [by rewrite Hs|done].
  - eapply Hf; [exact E|]. done.
Qed.

Lemma serve_sole s s' : pipe_inv s -> sole_inv hash s -> go Serve s = Some s' -> sole_inv hash s'.
Proof using hash_nonempty.
  intros H Hs E. cbn [step] in E. unfold sole_inv in *. destruct (D s) as [p|] eqn:Ep; [|done].
  destruct (one_request s H) as [R|(b & r & R)]; rewrite R in *; [done|]. destruct r; [done|].
  destruct Hs as ((_ & Hi & Hh & Ht) & Hd). unfold buildDAG in E. rewrite Hi, Hh in E.
  assert (Hok : (let '(r, m) := (if accepts b
      then (Saved (hash (stored_of b)), <[d_dag_id (pg_dag p) := stored_of b]> (srv s))
      else (Rejected, srv s)) in
      Some (with_srv m (with_reqs [Request (saveSeq s) b (Some r)] s))) = Some s').
  { destruct (srv s !! d_dag_id (pg_dag p)) as [cur|] eqn:Ec; [|exact E].
    destruct (truthy (d_definition_hash (pg_dag p))) eqn:Et; [|exact E].
    destruct Ht as [Ht|Ht]; [by rewrite Ht in Et|].
    rewrite (bool_decide_eq_true_2 _ (Ht cur Ec)) in E. exact E. }
  clear E. destruct (accepts b); injection Hok as <-; simpl; rewrite Ep; split; try done.
  split_and!; try done. by apply token_fresh.
Qed.

Lemma answer_sole s s' : pipe_inv s -> sole_inv hash s -> go Answer s = Some s' -> sole_inv hash s'.
Proof using.
  intros H Hs E. cbn [step] in E.
  destruct (one_request s H) as [R|(b & r & R)]; rewrite R in E; [done|].
  destruct r as [r|]; [|done]. injection E as <-.
  assert (Ha : sole_inv hash (answered (saveSeq s) r s)).
  { unfold sole_inv in Hs. destruct (D s) as [p|] eqn:Ep; [|done]. rewrite R in Hs.
    destruct Hs as ((_ & Hi & Ha) & Hd). unfold answered, show_result, adopt.
    destruct r as [h| | |]; try done.
    - destruct Ha as [Hne Hh]. apply truthy_true in Hne. rewrite Hne. simpl. rewrite Ep.
      destruct (Nat.eqb _ _); unfold sole_inv; simpl; done.
    - simpl. destruct (Nat.eqb _ _); unfold sole_inv; simpl; by rewrite Ep. }
  rewrite finish_answered. destruct (savePending s); [|done].
  apply flush_sole; [by eapply answered_inv|done].
Qed.

Lemma sole_step e s s' :
  sole_event e = true -> pipe_inv s -> sole_inv hash s -> go e s = Some s' -> sole_inv hash s'.
Proof using hash_nonempty.
  intros He H Hs E. destruct e as [d ts saves|e| |i| | | |b|i|n|n d| | |ok]; try done.
  - cbn [step] in E. destruct (D s) as [p|] eqn:Ep; [|done]. injection E as <-.
    assert (H1 : sole_inv hash (with_D (Some (set_tasks ts (set_dag (set_hash (d_definition_hash (pg_dag p))
       (set_id (d_dag_id (pg_dag p)) d)) p))) s)).
    { apply (sole_ext s); try done. intros q Eq. rewrite Ep in Eq. simplify_eq. by eexists. }
    destruct saves; [by apply saveDag_sole|done].
  - cbn [step] in E. destruct (D s) as [p|] eqn:Ep; [|done].
    destruct (edit_run e p) as [[p' out]|] eqn:Er; [|done].
    destruct (existsb _ out); [done|]. injection E as <-. apply (sole_ext s); try done.
    intros q Eq. rewrite Ep in Eq. simplify_eq. exists p'. by rewrite (edit_dag_same _ _ _ _ Er).
  - cbn [step] in E. injection E as <-. unfold reflectSaveState. repeat case_match; try done;
      (apply (sole_ext s); try done; intros q Eq; by exists q).
  - cbn [step] in E. case_bool_decide as Hi; [|done]. injection E as <-.
    rewrite fire_timers by done. apply flush_sole; [by apply no_timer_inv|].
    apply (sole_ext s); try done. intros q Eq. by exists q.
  - by eapply serve_sole.
  - by eapply answer_sole.
  - cbn [step] in E. unfold sole_inv in *. destruct (D s) as [p|] eqn:Ep; [|done].
    destruct (del_state s); [|done..]. injection E as <-. simpl. rewrite Ep.
    split; [by destruct Hs|]. intros j [[= <-]|?]; done.
  - cbn [step] in E. unfold sole_inv in *. destruct (del_state s) as [|i|i] eqn:Ed; [done| |done].
    destruct (saveInflight s); [done|]. injection E as <-. simpl.
    destruct (D s) as [p|]; [|done]. destruct Hs as [H1 H2]. split; [done|].
    intros j [?|[= <-]]; [done|]. apply H2. by left.
  - cbn [step] in E. destruct (del_state s) as [|i|i] eqn:Ed; [done..|].
    assert (Hr : reqs s = []) by (apply (pi_del_sent s H); eauto).
    unfold sole_inv in *. destruct (D s) as [p|] eqn:Ep; [|done]. rewrite Hr in Hs.
    destruct Hs as [Ht Hj]. injection E as <-. destruct ok; simpl; rewrite Ep; simpl; rewrite ?Hr.
    + split; [|by intros j [?|?]]. destruct Ht as [Ht|Ht]; [by left|right]. intros cur.
      rewrite (Hj i) by (by right). by rewrite lookup_delete_eq.
    + split; [done|]. by intros j [?|?].
Qed.

Lemma sole_run es s s' :
  Forall (fun e => sole_event e = true) es -> pipe_inv s -> sole_inv hash s ->
  goes es s = Some s' -> sole_inv hash s'.
Proof using hash_nonempty.
  intros Hes. revert s. induction Hes as [|e es He _ IH]; intros s H Hs E; simpl in E; [by simplify_eq|].
  destruct (step _ _ e s) as [s1|] eqn:E1; [|done].
  eapply (IH s1); [by eapply step_inv|by eapply sole_step|done].
Qed.
End sole.

(** ** Properties *)

(** A server for the examples: the hash is the list of the task names. *)
Definition toy_hash (b : spec) : jstr := ch "#" :: join (lit ",") (sp_id <$> s_tasks b).
Definition toy_accepts (b : spec) : bool := true.
Abbreviation toy_run := (run toy_hash toy_accepts).

Definition etl_page : page := open_page two_steps.
Definition etl_init : sys := init (Some etl_page) ∅.
Definition end_of (es : list event) : sys := default etl_init (toy_run es etl_init).

(** C4 Saves are serialized and debounced: in every reachable state at most one
    save request is unanswered, it is the latest one and the pipeline knows of
    it, and at most one timer is running, the one [saveTimer] names. *)
Theorem save_serialized hash accepts es p m s :
  run hash accepts es (init p m) = Some s ->
  length (reqs s) <= 1 /\ length (timers s) <= 1 /\
  (forall r, r ∈ reqs s -> rq_seq r = saveSeq s /\ saveInflight s = true) /\
  (forall i, i ∈ timers s -> saveTimer s = Some i).
Proof.
  intros E. pose proof (run_inv hash accepts es _ s (init_inv p m) E) as H.
  destruct H as [R I T _ _ _ _ _].
  assert (Hi : forall r, r ∈ reqs s -> saveInflight s = true).
  { intros r Hr. apply I. intros Hn. rewrite Hn in Hr. by apply not_elem_of_nil in Hr. }
  destruct R as [R|(b & r & R)], T as [T|(i & Ti & T)]; rewrite R, T in *; simpl;
    (split_and!; [lia|lia|..]); try (intros ? ?%not_elem_of_nil; done);
    try (intros ? ->%list_elem_of_singleton; done).
  all: intros x Hx; split; [|by eapply Hi]; apply list_elem_of_singleton in Hx as ->; done.
Qed.

Definition one_save : list event :=
  [Edit (blank_dag []) (two_steps ++ [shell_task (lit "x") (lit "true") []]) true; Fire 1].

Lemma save_serialized_witness :
  toy_run one_save etl_init = Some (end_of one_save) /\ length (timers (end_of one_save)) <= 1.
Proof.
  assert (E : toy_run one_save etl_init = Some (end_of one_save)) by (vm_compute; reflexivity).
  split; [exact E|]. exact (proj1 (proj2 (save_serialized _ _ _ _ _ _ E))).
Defined.

(** C27 Once a deletion is confirmed nothing revives the workflow from the
    pipeline: until the deletion ends no event starts a save request or a
    timer, and the DELETE is only sent when no save request is in flight. *)
Theorem no_save_while_deleting hash accepts es p m s :
  run hash accepts es (init p m) = Some s -> deleting s = true ->
  timers s = [] /\ savePending s = false /\
  (forall i, del_state s = DelSent i -> reqs s = []) /\
  (forall e s', step hash accepts e s = Some s' ->
     saveSeq s' = saveSeq s /\ length (reqs s') <= length (reqs s) /\ timers s' = []).
Proof.
  intros E Hd. pose proof (run_inv hash accepts es _ s (init_inv p m) E) as H.
  destruct (pi_del_quiet s H Hd) as [Ht Hp]. split_and!; [done..| |].
  { intros i Hi. apply (pi_del_sent s H). by exists i. }
  intros e s' Es. destruct e as [d ts saves|e| |i| | | |b|i|n|n d| | |ok]; cbn [step] in Es.
  - destruct (D s); [|done]. injection Es as <-. unfold saveDag. destruct saves; simpl; rewrite ?Hd; done.
  - destruct (D s); [|done]. destruct (edit_run e _) as [[p' out]|]; [|done].
    destruct (existsb _ out); [done|]. by injection Es as <-.
  - injection Es as <-. unfold reflectSaveState. repeat case_match; done.
  - rewrite Ht in Es. by rewrite bool_decide_eq_false_2 in Es by apply not_elem_of_nil.
  - destruct (reqs s) as [|[q b [r|]] rs] eqn:R; try done.
    destruct (buildDAG _ _ _ _). injection Es as <-. simpl. by rewrite Ht.
  - destruct (reqs s) as [|[q b a] rs] eqn:R; [done|]. injection Es as <-. simpl. by rewrite Ht.
  - destruct (one_request s H) as [R|(b & r & R)]; rewrite R in Es; [done|].
    destruct r as [r|]; [|done]. injection Es as <-. rewrite finish_answered, Hp.
    destruct (answered_fields (saveSeq s) r s) as (E1 & E2 & _). unfold answered; simpl.
    rewrite E1, E2. split_and!; [|simpl; lia|done].
    unfold show_result, adopt. repeat case_match; done.
  - by injection Es as <-.
  - unfold flushPendingSaves, flushSave in Es. destruct (saveTimer s); simpl in Es; rewrite ?Hd in Es;
      injection Es as <-; simpl; [|done]. by rewrite clear_timers.
  - destruct (navs s !! n) as [[i|i]|]; [|done..]. destruct (saveInflight s); [done|].
    by injection Es as <-.
  - destruct (navs s !! n) as [[i|i]|]; [done| |done]. by injection Es as <-.
  - destruct (D s); [|done]. destruct (del_state s) eqn:Edel; [|done..]. exfalso.
    by apply (proj1 (pi_del s H) Hd).
  - destruct (del_state s); [done| |done]. destruct (saveInflight s); [done|]. by injection Es as <-.
  - destruct (del_state s); [done..|]. injection Es as <-. by destruct ok.
Qed.

Definition save_then_delete : list event := one_save ++ [DelStart; Serve; Answer; DelSend].

Lemma no_save_while_deleting_witness :
  toy_run save_then_delete etl_init = Some (end_of save_then_delete) /\
  deleting (end_of save_then_delete) = true /\ timers (end_of save_then_delete) = [].
Proof.
  assert (E : toy_run save_then_delete etl_init = Some (end_of save_then_delete))
    by (vm_compute; reflexivity).
  assert (Hd : deleting (end_of save_then_delete) = true) by (vm_compute; reflexivity).
  split; [exact E|]. split; [exact Hd|].
  exact (proj1 (no_save_while_deleting _ _ _ _ _ _ E Hd)).
Defined.

(** C14 A save never conflicts with an earlier save of the same page: without
    another editor, a navigation or a broken connection, no request is ever
    answered with a conflict, however the edits, timers and answers interleave. *)
Theorem no_self_conflict hash accepts es p m s :
  (forall b, hash b <> []) -> Forall (fun e => sole_event e = true) es ->
  token_ok hash m (d_dag_id (pg_dag p)) (d_definition_hash (pg_dag p)) ->
  run hash accepts es (init (Some p) m) = Some s ->
  forall r, r ∈ reqs s -> rq_reply r <> Some Conflict.
Proof.
  intros Hh Hes Ht E r Hr Hc.
  assert (Hs : sole_inv hash (init (Some p) m)) by (split; [exact Ht|by intros j [?|?]]).
  pose proof (sole_run hash accepts Hh es _ s Hes (init_inv _ _) Hs E) as H. unfold sole_inv in H.
  destruct (D s) as [p'|]; [|done]. destruct (reqs s) as [|[q b a] rs]; [by apply not_elem_of_nil in Hr|].
  destruct H as ((-> & _ & Ha) & _). apply list_elem_of_singleton in Hr as ->. simpl in Hc. by subst a.
Qed.

Definition two_saves : list event :=
  one_save ++ [Edit (blank_dag []) two_steps true; Fire 2; Serve; Answer; Serve].

Lemma no_self_conflict_witness :
  toy_run two_saves etl_init = Some (end_of two_saves) /\
  (forall r, r ∈ reqs (end_of two_saves) -> rq_reply r <> Some Conflict) /\
  length (reqs (end_of two_saves)) = 1.
Proof.
  assert (E : toy_run two_saves etl_init = Some (end_of two_saves)) by (vm_compute; reflexivity).
  split; [exact E|]. split; [|vm_compute; reflexivity].
  refine (no_self_conflict toy_hash toy_accepts two_saves etl_page ∅ _ _ _ _ E).
  - intros b. unfold toy_hash. discriminate.
  - repeat constructor.
  - left. reflexivity.
Defined.

(** C26 Every save that is asked for is sent: from any reachable state with an
    open workflow and no deletion, the timers, the server and the answers alone
    come to rest after a bounded number of events, in whatever order they
    happen; and at rest no request is open and nothing asked for is unsent. *)
Theorem saves_settle hash accepts es p m s :
  Forall (fun e => no_delete e = true) es -> run hash accepts es (init p m) = Some s ->
  D s <> None -> ~ stuck s ->
  forall es' s', Forall (fun e => auto_event e = true) es' -> run hash accepts es' s = Some s' ->
  length es' <= 12 /\
  ((forall e, auto_event e = true -> step hash accepts e s' = None) -> settled s' /\ due s' = false).
Proof.
  intros Hes E Hd Hns es' s' Hes' E'.
  pose proof (run_inv hash accepts es _ s (init_inv p m) E) as H.
  destruct (run_due hash accepts es _ s Hes (init_inv p m) eq_refl ltac:(done) E) as [Hu Hdel].
  destruct (auto_run hash accepts es' s s' Hes' H Hd Hns E') as (Hl & H' & Hns').
  assert (Hes2 : Forall (fun e => no_delete e = true) es').
  { eapply Forall_impl; [exact Hes'|]. by intros []. }
  destruct (run_due hash accepts es' s s' Hes2 H Hdel Hu E') as [Hu' _].
  split.
  { assert (work s <= 12); [|lia]. unfold work.
    destruct (one_request s H) as [R|(b & [r|] & R)], (pi_timers s H) as [T|(i & _ & T)];
      rewrite R, T; simpl; destruct (savePending s); lia. }
  intros Hstop. assert (Hset : settled s').
  { assert (Hdec : settled s' \/ ~ settled s').
    { unfold settled. destruct (timers s'), (reqs s'), (saveInflight s'), (savePending s');
        first [by left | right; naive_solver]. }
    destruct Hdec as [|Hn]; [done|]. exfalso.
    destruct (auto_step_enabled hash accepts s' H' Hn Hns') as (e & s2 & He & Es).
    by rewrite Hstop in Es. }
  split; [done|]. destruct (due s') eqn:Edue; [|done]. exfalso.
  destruct Hset as (T & R & I & P). destruct (Hu' Edue) as [?|[?|?]]; congruence.
Qed.

Definition edit_twice : list event :=
  [Edit (blank_dag []) (two_steps ++ [shell_task (lit "x") (lit "true") []]) true; Fire 1;
   Edit (blank_dag []) two_steps true].
Definition drain : list event := [Fire 2; Serve; Answer; Serve; Answer].

Lemma saves_settle_witness :
  toy_run edit_twice etl_init = Some (end_of edit_twice) /\ due (end_of edit_twice) = true /\
  length drain <= 12.
Proof.
  assert (E : toy_run edit_twice etl_init = Some (end_of edit_twice)) by (vm_compute; reflexivity).
  split; [exact E|]. split; [vm_compute; reflexivity|].
  assert (E' : toy_run drain (end_of edit_twice) = Some (end_of (edit_twice ++ drain)))
    by (vm_compute; reflexivity).
  refine (proj1 (saves_settle toy_hash toy_accepts edit_twice (Some etl_page) ∅ _ _ E _ _ drain _ _ E')).
  - repeat constructor.
  - vm_compute. discriminate.
  - vm_compute. by intros [_ ?].
  - repeat constructor.
Defined.

(** ** What the pipeline does not guarantee *)

Lemma stuck_step hash accepts e s s' :
  stuck s -> step hash accepts e s = Some s' -> stuck s' /\ saveSeq s' = saveSeq s.
Proof.
  intros [Hi Hr] E. unfold stuck.
  destruct e as [d ts saves|e| |i| | | |b|i|n|n d| | |ok]; cbn [step] in E; rewrite ?Hr, ?Hi in E; try done.
  - destruct (D s) as [p|]; [|done]. injection E as <-. destruct saves; [|done].
    unfold saveDag; simpl. destruct (deleting s); [done|]. destruct (validateDag _ _); [|done].
    unfold clear_timer; simpl. by destruct (saveTimer s).
  - destruct (D s); [|done]. destruct (edit_run e _) as [[p' out]|]; [|done].
    destruct (existsb _ out); [done|]. by injection E as <-.
  - injection E as <-. unfold reflectSaveState. repeat case_match; done.
  - case_bool_decide; [|done]. injection E as <-. unfold flushSave; simpl.
    destruct (deleting s); [done|]. by rewrite Hi.
  - by injection E as <-.
  - unfold flushPendingSaves in E. destruct (saveTimer s).
    + unfold flushSave in E; simpl in E. destruct (deleting s); [by injection E as <-|].
      rewrite Hi in E. by injection E as <-.
    + by injection E as <-.
  - destruct (navs s !! n) as [[i|i]|]; done.
  - destruct (navs s !! n) as [[i|i]|]; [done| |done]. by injection E as <-.
  - destruct (D s); [|done]. destruct (del_state s); [|done..]. by injection E as <-.
  - destruct (del_state s); done.
  - destruct (del_state s); [done..|]. injection E as <-. by destruct ok.
Qed.

Lemma stuck_run hash accepts es s s' :
  stuck s -> run hash accepts es s = Some s' -> stuck s' /\ saveSeq s' = saveSeq s.
Proof.
  revert s. induction es as [|e es IH]; intros s H E; simpl in E; [by simplify_eq|].
  destruct (step _ _ e s) as [s1|] eqn:E1; [|done].
  destruct (stuck_step _ _ _ _ _ H E1) as [H1 Hq]. rewrite <- Hq. by apply IH.
Qed.

(** The edit [x] of the examples, and its events. *)
Definition edit_x : event :=
  Edit (blank_dag []) (two_steps ++ [shell_task (lit "x") (lit "true") []]) true.
Definition wedge : list event := [NavStart (lit "b"); NavGo 0; edit_x; NavDone 0 None; Fire 1].

(** A timer that fires while no workflow is open wedges the pipeline: an
    edit made while another workflow is being fetched arms the timer, the fetch
    fails, and the flush throws with [saveInflight] set. After that no save
    request is ever issued and no later [showDag] gets past [flushPendingSaves]. *)
Theorem flush_without_page_wedges :
  toy_run wedge etl_init = Some (end_of wedge) /\
  forall es s, toy_run es (end_of wedge) = Some s ->
    saveSeq s = saveSeq (end_of wedge) /\ reqs s = [] /\
    forall n, step toy_hash toy_accepts (NavGo n) s = None.
Proof.
  split; [vm_compute; reflexivity|]. intros es s E.
  assert (H : stuck (end_of wedge)) by (split; vm_compute; reflexivity).
  destruct (stuck_run _ _ _ _ _ H E) as [[Hi Hr] Hq]. split_and!; [done..|].
  intros n. cbn [step]. rewrite Hi. by destruct (navs s !! n) as [[i|i]|].
Qed.

Definition bad_edit : event :=
  Edit (blank_dag []) (two_steps ++ [shell_task (lit "y") [] []]) true.
Definition posts_invalid : list event := [edit_x; bad_edit; Fire 1].
Definition posts_session : list event :=
  [edit_x; GraphEdit (EGraphAdd (Some (lit "z"))); Fire 1; GraphEdit EGraphDiscard].

Definition body_ids (s : sys) : list jstr :=
  match reqs s with r :: _ => sp_id <$> s_tasks (rq_body r) | [] => [] end.
Definition page_ids (s : sys) : list jstr :=
  match D s with Some p => tk_id <$> pg_tasks p | None => [] end.
Definition page_errors (s : sys) : list label :=
  match D s with Some p => validateDag (pg_dag p) (pg_tasks p) | None => [] end.

(** A running timer sends whatever the page holds when it fires. After a
    valid edit and, within the delay, an invalid one, the invalid workflow is
    sent although the page shows it as not saved; and a change of the graph
    session made within the delay is sent before it is saved, so that
    discarding the session restores the page but not the request. *)
Theorem timer_sends_current_page :
  (exists s, toy_run posts_invalid etl_init = Some s /\ page_errors s <> [] /\ ss s = Unsaved /\
     lit "y" ∈ body_ids s) /\
  (exists s, toy_run posts_session etl_init = Some s /\ (lit "z" ∉ page_ids s) /\
     lit "z" ∈ body_ids s).
Proof.
  split.
  - exists (end_of posts_invalid). split; [vm_compute; reflexivity|].
    split; [vm_compute; discriminate|]. split; [vm_compute; reflexivity|compute_decide].
  - exists (end_of posts_session). split; [vm_compute; reflexivity|]. split; compute_decide.
Qed.

Definition other_page : page :=
  Page (blank_dag (lit "other")) [] None None None 0 false false false false.
Definition lost_by_nav : list event :=
  [NavStart (lit "other"); NavGo 0; edit_x; NavDone 0 (Some other_page); Fire 1; Serve; Answer].
Definition lost_by_delete : list event := [edit_x; DelStart; DelSend; DelDone false].

(** An accepted edit can be dropped without a trace: made while another
    workflow is being fetched, it is never sent, its timer saving the other
    workflow instead; and an edit whose timer a deletion cleared stays unsent
    when the deletion is refused. *)
Theorem accepted_edit_can_be_lost :
  (exists s, toy_run lost_by_nav etl_init = Some s /\ settled s /\ ss s = SavedOk /\
     srv s !! lit "etl" = None) /\
  (exists s, toy_run lost_by_delete etl_init = Some s /\ settled s /\ deleting s = false /\
     due s = true /\ lit "x" ∈ page_ids s).
Proof.
  split.
  - exists (end_of lost_by_nav). split; [vm_compute; reflexivity|].
    split_and!; vm_compute; repeat split.
  - exists (end_of lost_by_delete). split; [vm_compute; reflexivity|].
    split; [vm_compute; repeat split|]. split_and!; [vm_compute; reflexivity..|compute_decide].
Qed.

Definition saved_redrawn : list event := one_save ++ [Serve; Answer; Redraw].

(** The save indicator does not come to rest: [saveTimer] keeps the number of
    a timer that has fired, so a page drawn after the save has completed shows
    "saving" although nothing is armed, in flight or pending. *)
Theorem indicator_stays_saving :
  exists s, toy_run saved_redrawn etl_init = Some s /\ settled s /\ ss s = Saving.
Proof.
  exists (end_of saved_redrawn). split; [vm_compute; reflexivity|].
  split; [vm_compute; repeat split|vm_compute; reflexivity].
Qed.
