(* ===== verification/SaveRefine.v ===== *)
(** * The save pipeline refines an atomic register

    What the pipeline promises to its user: behind the debounce, the request in
    flight, the queued flush and the concurrency token there is one document, and a
    save replaces it in one step. The abstract register has that step and the deletion
    only; every event of the pipeline is one of them or changes nothing. *)

From S2P Require Import Prelude JsCore Schedule TaskGraph DagModel DagEdit SavePipeline.

(** ** The register: the stored workflows and the token of the one being edited *)

Record register := Register { rg_store : gmap jstr spec; rg_token : jstr }.

Section register.
Context (hash : spec -> jstr) (accepts : spec -> bool) (i : jstr).

(** A save replaces the document [i] by one the server accepts, and is made with the
    current token; the new token is the new document's. *)
Inductive reg_step : register -> register -> Prop :=
| Reg_save m t b :
    s_dag_id b = i -> accepts b = true -> s_expected_hash b = t -> token_ok hash m i t ->
    reg_step (Register m t) (Register (<[i := stored_of b]> m) (hash (stored_of b)))
| Reg_delete m t : reg_step (Register m t) (Register (delete i m) t).
End register.

(** ** The abstraction

    The token is the page's, unless a save has been stored whose answer the page has
    not read yet. *)
Definition abs_token (s : sys) : jstr :=
  match reqs s with
  | Request _ _ (Some (Saved h)) :: _ => h
  | _ => match D s with Some p => d_definition_hash (pg_dag p) | None => [] end
  end.
Definition abs (s : sys) : register := Register (srv s) (abs_token s).

Definition page_hash (s : sys) : option jstr := (fun p => d_definition_hash (pg_dag p)) <$> D s.

Lemma abs_ext s s' : reqs s' = reqs s -> srv s' = srv s -> page_hash s' = page_hash s -> abs s' = abs s.
Proof.
  unfold abs, abs_token, page_hash. intros -> -> Hp. f_equal.
  destruct (reqs s) as [|[q b [[]|]] rs]; try done;
    destruct (D s), (D s'); simpl in Hp; congruence.
Qed.

Lemma flush_abs s : pipe_inv s -> abs (flushSave s).1 = abs s.
Proof.
  intros H. unfold flushSave. destruct (deleting s); [done|].
  destruct (saveInflight s) eqn:Ei; [by apply abs_ext|].
  assert (Er : reqs s = []).
  { destruct (reqs s) eqn:Er; [done|]. rewrite (pi_inflight s H) in Ei; [done|by rewrite Er]. }
  unfold abs, abs_token. destruct (D s) as [p|] eqn:ED; simpl; rewrite Er; simpl; by rewrite ?ED.
Qed.

Lemma saveDag_abs s : abs (saveDag s) = abs s.
Proof.
  unfold saveDag. destruct (deleting s); [done|]. destruct (D s) as [p|] eqn:ED; [|done].
  destruct (validateDag _ _); [|by apply abs_ext].
  unfold clear_timer; simpl.
  destruct (saveTimer s); apply abs_ext; try done; unfold page_hash; simpl; by rewrite ED.
Qed.

Section refinement.
Context (hash : spec -> jstr) (accepts : spec -> bool) (hash_nonempty : forall b, hash b <> []).

(** The events at which the document changes. *)
Definition commits (e : event) : bool :=
  match e with Serve | DelDone true => true | _ => false end.

Lemma answer_abs s s' :
  pipe_inv s -> sole_inv hash s -> step hash accepts Answer s = Some s' -> abs s' = abs s.
Proof using.
  intros H Hs E. cbn [step] in E.
  destruct (one_request s H) as [R|(b & r & R)]; rewrite R in E; [done|].
  destruct r as [r|]; [|done]. injection E as <-.
  assert (Ha : abs (answered (saveSeq s) r s) = abs s).
  { unfold sole_inv in Hs. destruct (D s) as [p|] eqn:Ep; [|done]. rewrite R in Hs.
    destruct Hs as ((_ & _ & Ha) & _). unfold answered, show_result, adopt.
    destruct r as [h| | |]; try done.
    - destruct Ha as [Hne _]. apply truthy_true in Hne. rewrite Hne. simpl. rewrite Ep.
      destruct (Nat.eqb _ _); unfold abs, abs_token; simpl; by rewrite R.
    - simpl. destruct (Nat.eqb _ _); unfold abs, abs_token; simpl; by rewrite R, Ep. }
  rewrite finish_answered. destruct (savePending s); [|done].
  rewrite flush_abs; [done|by eapply answered_inv].
Qed.

Lemma serve_abs s s' i :
  pipe_inv s -> sole_inv hash s -> (forall p, D s = Some p -> d_dag_id (pg_dag p) = i) ->
  step hash accepts Serve s = Some s' -> reg_step hash accepts i (abs s) (abs s') \/ abs s' = abs s.
Proof using.
  intros H Hs Hid E. cbn [step] in E. unfold sole_inv in Hs. destruct (D s) as [p|] eqn:Ep; [|done].
  specialize (Hid p eq_refl).
  destruct (one_request s H) as [R|(b & r & R)]; rewrite R in *; [done|]. destruct r; [done|].
  destruct Hs as ((_ & Hi & Hh & Ht) & _). rewrite Hid in *. unfold buildDAG in E. rewrite Hi in E.
  assert (Hok : (let '(r, m) := (if accepts b
      then (Saved (hash (stored_of b)), <[i := stored_of b]> (srv s)) else (Rejected, srv s)) in
      Some (with_srv m (with_reqs [Request (saveSeq s) b (Some r)] s))) = Some s').
  { destruct (srv s !! i) as [cur|] eqn:Ec; [|exact E].
    destruct (truthy (s_expected_hash b)) eqn:Et; [|exact E]. rewrite Hh in Et, E.
    destruct Ht as [Ht|Ht]; [by rewrite Ht in Et|].
    rewrite (bool_decide_eq_true_2 _ (Ht cur Ec)) in E. exact E. }
  clear E. assert (Eabs : abs s = Register (srv s) (d_definition_hash (pg_dag p))).
  { unfold abs, abs_token. by rewrite R, Ep. }
  destruct (accepts b) eqn:Ea; injection Hok as <-.
  - left. rewrite Eabs. by apply Reg_save.
  - right. rewrite Eabs. unfold abs, abs_token; simpl. by rewrite Ep.
Qed.

(** The id of the open workflow does not change. *)
Definition opens (i : jstr) (s : sys) : Prop := exists p, D s = Some p /\ d_dag_id (pg_dag p) = i.

Lemma sole_step_abs e s s' i :
  sole_event e = true -> pipe_inv s -> sole_inv hash s -> opens i s ->
  step hash accepts e s = Some s' ->
  (if commits e then reg_step hash accepts i (abs s) (abs s') \/ abs s' = abs s else abs s' = abs s).
Proof using.
  intros He H Hs (p & Ep & Hi) E. destruct e as [d ts saves|e| |j| | | |b|j|n|n d| | |ok]; try done; cbn [commits].
  - cbn [step] in E. rewrite Ep in E. injection E as <-.
    destruct saves; rewrite ?saveDag_abs; apply abs_ext; try done; unfold page_hash; simpl; by rewrite Ep.
  - cbn [step] in E. rewrite Ep in E. destruct (edit_run e p) as [[p' out]|] eqn:Er; [|done].
    destruct (existsb _ out); [done|]. injection E as <-. apply abs_ext; try done.
    unfold page_hash; simpl. by rewrite Ep, (edit_dag_same _ _ _ _ Er).
  - cbn [step] in E. injection E as <-. unfold reflectSaveState. rewrite Ep. by destruct (validateDag _ _).
  - cbn [step] in E. case_bool_decide as Hj; [|done]. injection E as <-.
    rewrite fire_timers by done. rewrite flush_abs by by apply no_timer_inv. by apply abs_ext.
  - eapply serve_abs; [done|done| |exact E]. intros q Eq. congruence.
  - by eapply answer_abs.
  - cbn [step] in E. rewrite Ep in E. destruct (del_state s); [|done..]. injection E as <-. by apply abs_ext.
  - cbn [step] in E. destruct (del_state s); [done| |done]. destruct (saveInflight s); [done|].
    injection E as <-. by apply abs_ext.
  - cbn [step] in E. destruct (del_state s) as [|j|j] eqn:Ed; [done..|].
    assert (Hr : reqs s = []) by (apply (pi_del_sent s H); eauto).
    unfold sole_inv in Hs. rewrite Ep, Hr in Hs. destruct Hs as [_ Hj].
    assert (Ej : j = i) by (rewrite <- Hi; apply Hj; by right). subst j.
    destruct ok; injection E as <-; cbn [commits]; [left|by apply abs_ext].
    assert (Eabs : abs s = Register (srv s) (d_definition_hash (pg_dag p))).
    { unfold abs, abs_token. by rewrite Hr, Ep. }
    rewrite Eabs. unfold abs, abs_token; simpl. rewrite Hr, Ep. constructor.
Qed.

Lemma flush_opens i s : opens i s -> opens i (flushSave s).1.
Proof using.
  intros (p & Ep & Hi). unfold flushSave. destruct (deleting s); [by exists p|].
  destruct (saveInflight s); [by exists p|]. rewrite Ep. eexists. split; [done|]. exact Hi.
Qed.

Lemma sole_step_opens e s s' i :
  sole_event e = true -> opens i s -> step hash accepts e s = Some s' -> opens i s'.
Proof using.
  intros He (p & Ep & Hi) E.
  assert (Hsame : forall t, D t = D s -> opens i t) by (intros t Et; exists p; by rewrite Et).
  destruct e as [d ts saves|e| |j| | | |b|j|n|n d| | |ok]; try done; cbn [step] in E.
  - rewrite Ep in E. injection E as <-. destruct saves; [|eexists; split; [done|exact Hi]].
    unfold saveDag; simpl. destruct (deleting s); [by eexists|].
    destruct (validateDag _ _); [|by eexists].
    unfold clear_timer; simpl. destruct (saveTimer s); by eexists.
  - rewrite Ep in E. destruct (edit_run e p) as [[p' out]|] eqn:Er; [|done].
    destruct (existsb _ out); [done|]. injection E as <-. exists p'. split; [done|].
    by rewrite (edit_dag_same _ _ _ _ Er).
  - injection E as <-. unfold reflectSaveState. rewrite Ep. destruct (validateDag _ _); by apply Hsame.
  - case_bool_decide; [|done]. injection E as <-. by apply flush_opens, Hsame.
  - destruct (reqs s) as [|[q b [r|]] rs]; try done. destruct (buildDAG _ _ _ _). injection E as <-. by apply Hsame.
  - destruct (reqs s) as [|[q b [r|]] rs]; try done. injection E as <-. unfold finish.
    assert (Ho : opens i (show_result q r (adopt r (with_reqs rs s)))).
    { unfold show_result, adopt; simpl. rewrite Ep. destruct r as [h| | |]; repeat case_match; simpl;
        eexists; (split; [done|exact Hi]). }
    destruct Ho as (p' & Ep' & Hi'). destruct (savePending _); [|by exists p'].
    apply flush_opens. by exists p'.
  - rewrite Ep in E. destruct (del_state s); [|done..]. injection E as <-. by apply Hsame.
  - destruct (del_state s); [done| |done]. destruct (saveInflight s); [done|]. injection E as <-. by apply Hsame.
  - destruct (del_state s); [done..|]. injection E as <-. destruct ok; by apply Hsame.
Qed.

Lemma sole_run_opens es s s' i :
  Forall (fun e => sole_event e = true) es -> opens i s -> run hash accepts es s = Some s' -> opens i s'.
Proof using.
  intros Hes. revert s. induction Hes as [|e es He _ IH]; intros s Ho E; simpl in E; [by simplify_eq|].
  destruct (step _ _ e s) as [s1|] eqn:E1; [|done].
  exact (IH s1 (sole_step_opens e s s1 i He Ho E1) E).
Qed.

Lemma refines_run es i s s' :
  Forall (fun e => sole_event e = true) es -> pipe_inv s -> sole_inv hash s -> opens i s ->
  run hash accepts es s = Some s' -> rtc (reg_step hash accepts i) (abs s) (abs s').
Proof using hash_nonempty.
  intros Hes. revert s. induction Hes as [|e es He _ IH]; intros s H Hs Ho E; simpl in E.
  { simplify_eq. apply rtc_refl. }
  destruct (step _ _ e s) as [s1|] eqn:E1; [|done].
  pose proof (sole_step_abs e s s1 i He H Hs Ho E1) as Ha.
  assert (Hr : rtc (reg_step hash accepts i) (abs s1) (abs s')).
  { apply IH; [by eapply step_inv|by eapply sole_step|by eapply sole_step_opens|done]. }
  destruct (commits e); [|by rewrite <- Ha]. destruct Ha as [Ha| <-]; [by eapply rtc_l|done].
Qed.
End refinement.

(** C3 The save pipeline of one user on one workflow refines the register: for every
    interleaving of edits, timers, requests, answers and deletions, the server's
    definitions and the token are those of a run of the register that starts from the
    same ones; and of all events only the server's handling of a save and a successful
    deletion move the register, by at most one step. *)
Theorem saves_refine_register hash accepts es p m s :
  (forall b, hash b <> []) -> Forall (fun e => sole_event e = true) es ->
  token_ok hash m (d_dag_id (pg_dag p)) (d_definition_hash (pg_dag p)) ->
  run hash accepts es (init (Some p) m) = Some s ->
  rtc (reg_step hash accepts (d_dag_id (pg_dag p)))
      (Register m (d_definition_hash (pg_dag p))) (abs s) /\
  (forall e s', sole_event e = true -> step hash accepts e s = Some s' ->
     if commits e then reg_step hash accepts (d_dag_id (pg_dag p)) (abs s) (abs s') \/ abs s' = abs s
     else abs s' = abs s).
Proof.
  intros Hh Hes Ht E.
  assert (Hs : sole_inv hash (init (Some p) m)) by (split; [exact Ht|by intros j [?|?]]).
  assert (Ho : opens (d_dag_id (pg_dag p)) (init (Some p) m)) by by exists p.
  split.
  - change (Register m (d_definition_hash (pg_dag p))) with (abs (init (Some p) m)).
    by eapply refines_run; eauto using init_inv.
  - intros e s' He E'. eapply sole_step_abs; [done| | | |exact E'].
    + exact (run_inv hash accepts es _ s (init_inv _ _) E).
    + by eapply sole_run; eauto using init_inv.
    + by eapply sole_run_opens.
Qed.

Lemma saves_refine_register_witness :
  toy_run two_saves etl_init = Some (end_of two_saves) /\
  rtc (reg_step toy_hash toy_accepts (lit "etl")) (Register ∅ []) (abs (end_of two_saves)) /\
  dom (rg_store (abs (end_of two_saves))) = {[lit "etl"]}.
Proof.
  assert (E : toy_run two_saves etl_init = Some (end_of two_saves)) by (vm_compute; reflexivity).
  split; [exact E|]. split; [|vm_compute; reflexivity].
  refine (proj1 (saves_refine_register toy_hash toy_accepts two_saves etl_page ∅ _ _ _ _ E)).
  - intros b. unfold toy_hash. discriminate.
  - repeat constructor.
  - left. reflexivity.
Defined.
