(* ===== verification/DiffLines.v ===== *)
(** * The line diff of the graph session's preview (views.js)

    [diffLines] compares the saved definition with the pending one: a table of
    the longest common subsequence lengths of all suffixes, and a walk over it.
    The walk is shown to be a diff of the two texts, and a shortest one. *)

From S2P Require Import Prelude JsCore.

Inductive mark := Same | Del | Add.
#[export] Instance mark_eq_dec : EqDecision mark.
Proof. solve_decision. Defined.

(** ** The code *)

(** Row [i] of the table from row [i + 1], for the line [x] of [A]; [B] is
    scanned from its end. *)
Fixpoint dp_row (x : jstr) (B : list jstr) (below : list nat) : list nat :=
  match B, below with
  | y :: B', b :: below' =>
    let r := dp_row x B' below' in
    (if bool_decide (x = y) then default 0 (head below') + 1
     else Nat.max b (default 0 (head r))) :: r
  | _, _ => [0]
  end.

Fixpoint dp_table (A B : list jstr) : list (list nat) :=
  match A with
  | [] => [replicate (length B + 1) 0]
  | x :: A' => let t := dp_table A' B in dp_row x B (default [] (head t)) :: t
  end.

Definition dp_at (t : list (list nat)) (i j : nat) : nat :=
  default 0 (default [] (t !! i) !! j).

(** The three loops of the walk; every round moves [i] or [j] forward. *)
Fixpoint diff_walk (fuel : nat) (t : list (list nat)) (A B : list jstr) (i j : nat)
  : list (mark * jstr) :=
  match fuel with
  | O => []
  | S f =>
    match A !! i, B !! j with
    | Some x, Some y =>
      if bool_decide (x = y) then (Same, x) :: diff_walk f t A B (S i) (S j)
      else if dp_at t i (S j) <=? dp_at t (S i) j then (Del, x) :: diff_walk f t A B (S i) j
      else (Add, y) :: diff_walk f t A B i (S j)
    | Some x, None => (Del, x) :: diff_walk f t A B (S i) j
    | None, Some y => (Add, y) :: diff_walk f t A B i (S j)
    | None, None => []
    end
  end.

(** [split_on 10]: the separator is the line feed. *)
Definition diffLines (a b : jstr) : list (mark * jstr) :=
  let A := split_on 10%N a in
  let B := split_on 10%N b in
  diff_walk (length A + length B) (dp_table A B) A B 0 0.

(** ** The reference: length of a longest common subsequence *)

Fixpoint lcs (A : list jstr) : list jstr -> nat :=
  fix go (B : list jstr) : nat :=
    match A, B with
    | x :: A', y :: B' => if bool_decide (x = y) then S (lcs A' B') else Nat.max (lcs A' B) (go B')
    | _, _ => 0
    end.

Lemma lcs_nil_l B : lcs [] B = 0.
Proof. by destruct B. Qed.
Lemma lcs_nil_r A : lcs A [] = 0.
Proof. by destruct A. Qed.
Lemma lcs_cons x A y B :
  lcs (x :: A) (y :: B) =
    if bool_decide (x = y) then S (lcs A B) else Nat.max (lcs A (y :: B)) (lcs (x :: A) B).
Proof. done. Qed.
#[export] Hint Rewrite lcs_nil_l lcs_nil_r : cronova.

Lemma sublist_tail (z : jstr) l y B : sublist (z :: l) (y :: B) -> sublist l B.
Proof.
  inversion 1; subst; [done|]. etransitivity; [|done]. by apply sublist_cons.
Qed.

(** No common subsequence is longer. *)
Lemma sublist_lcs A : forall l B, sublist l A -> sublist l B -> length l <= lcs A B.
Proof.
  induction A as [|x A IHA]; intros l B HA.
  { apply sublist_nil_r in HA as ->. simpl; lia. }
  revert l HA. induction B as [|y B IHB]; intros l HA HB.
  { apply sublist_nil_r in HB as ->. simpl; lia. }
  rewrite lcs_cons. case_bool_decide as E.
  - subst y. destruct l as [|z l]; [simpl; lia|]. simpl. apply le_n_S, IHA; by eapply sublist_tail.
  - inversion HA as [|? l' ? HA'|? ? ? HA']; subst.
    + inversion HB as [|? ? ? HB'|? ? ? HB']; subst; [done|].
      pose proof (IHB _ HA HB') as H. lia.
    + pose proof (IHA _ _ HA' HB) as H. lia.
Qed.

(** ** The table holds the reference *)

Fixpoint lcs_row (A B : list jstr) : list nat :=
  lcs A B :: match B with [] => [] | _ :: B' => lcs_row A B' end.

Lemma lcs_row_head A B : head (lcs_row A B) = Some (lcs A B).
Proof. by destruct B. Qed.
Lemma lcs_row_nil B : lcs_row [] B = replicate (length B + 1) 0.
Proof. induction B as [|y B IH]; [done|]. cbn [lcs_row]. rewrite IH, lcs_nil_l. done. Qed.
Lemma lcs_row_lookup A B j : j <= length B -> lcs_row A B !! j = Some (lcs A (drop j B)).
Proof.
  revert j; induction B as [|y B IH]; intros [|j] Hj; simpl in *; try done; [lia|].
  apply IH. lia.
Qed.

Lemma dp_row_spec x A B : dp_row x B (lcs_row A B) = lcs_row (x :: A) B.
Proof.
  induction B as [|y B IH]; [done|]. cbn [dp_row lcs_row]. rewrite IH, lcs_cons.
  rewrite !lcs_row_head. cbn [default from_option id]. f_equal. case_bool_decide; unfold id; lia.
Qed.

Lemma dp_table_spec A B :
  dp_table A B = (fun i => lcs_row (drop i A) B) <$> seq 0 (length A + 1).
Proof.
  induction A as [|x A IH]; simpl.
  - by rewrite lcs_row_nil.
  - rewrite IH. rewrite Nat.add_1_r. cbn [seq]. rewrite !fmap_cons. cbn [head default from_option id].
    unfold id. rewrite dp_row_spec. f_equal. f_equal.
    rewrite <- (fmap_S_seq 1), <- list_fmap_compose.
    done.
Qed.

Lemma dp_at_spec A B i j :
  i <= length A -> j <= length B -> dp_at (dp_table A B) i j = lcs (drop i A) (drop j B).
Proof.
  intros Hi Hj. unfold dp_at. rewrite dp_table_spec, list_lookup_fmap.
  rewrite lookup_seq_lt by lia. simpl. by rewrite lcs_row_lookup.
Qed.

(** ** The walk *)

Definition old_lines (d : list (mark * jstr)) : list jstr :=
  (filter (fun l : mark * jstr => l.1 <> Add) d).*2.
Definition new_lines (d : list (mark * jstr)) : list jstr :=
  (filter (fun l : mark * jstr => l.1 <> Del) d).*2.
Definition same_lines (d : list (mark * jstr)) : list jstr :=
  (filter (fun l : mark * jstr => l.1 = Same) d).*2.

Lemma old_lines_cons m x d :
  old_lines ((m, x) :: d) = match m with Add => old_lines d | _ => x :: old_lines d end.
Proof. by destruct m. Qed.
Lemma new_lines_cons m x d :
  new_lines ((m, x) :: d) = match m with Del => new_lines d | _ => x :: new_lines d end.
Proof. by destruct m. Qed.
Lemma same_lines_cons m x d :
  same_lines ((m, x) :: d) = match m with Same => x :: same_lines d | _ => same_lines d end.
Proof. by destruct m. Qed.

Lemma walk_spec fuel A B i j :
  i <= length A -> j <= length B -> (length A - i) + (length B - j) <= fuel ->
  let d := diff_walk fuel (dp_table A B) A B i j in
  old_lines d = drop i A /\ new_lines d = drop j B /\
  length (same_lines d) = lcs (drop i A) (drop j B).
Proof.
  revert i j. induction fuel as [|f IH]; intros i j Hi Hj Hf; simpl.
  { assert (i = length A /\ j = length B) as [-> ->] by lia. rewrite !drop_all. done. }
  destruct (A !! i) as [x|] eqn:Ex, (B !! j) as [y|] eqn:Ey.
  - pose proof (lookup_lt_Some _ _ _ Ex). pose proof (lookup_lt_Some _ _ _ Ey).
    rewrite (drop_S A x i Ex), (drop_S B y j Ey), lcs_cons. case_bool_decide as E.
    + subst y. destruct (IH (S i) (S j)) as (H1 & H2 & H3); [lia..|].
      rewrite old_lines_cons, new_lines_cons, same_lines_cons. simpl. by rewrite H1, H2, H3.
    + rewrite !dp_at_spec by lia. rewrite (drop_S A x i Ex), (drop_S B y j Ey).
      destruct (Nat.leb_spec (lcs (x :: drop (S i) A) (drop (S j) B))
                             (lcs (drop (S i) A) (y :: drop (S j) B))) as [Hle|Hlt].
      * destruct (IH (S i) j) as (H1 & H2 & H3); [lia..|]. rewrite (drop_S B y j Ey) in H2, H3.
        rewrite old_lines_cons, new_lines_cons, same_lines_cons. rewrite H1, H2, H3.
        split_and!; [done..|lia].
      * destruct (IH i (S j)) as (H1 & H2 & H3); [lia..|]. rewrite (drop_S A x i Ex) in H1, H3.
        rewrite old_lines_cons, new_lines_cons, same_lines_cons. rewrite H1, H2, H3.
        split_and!; [done..|lia].
  - pose proof (lookup_lt_Some _ _ _ Ex). apply lookup_ge_None in Ey.
    destruct (IH (S i) j) as (H1 & H2 & H3); [lia..|]. rewrite (drop_S A x i Ex).
    rewrite (drop_ge B) in * by done. autorewrite with cronova in *.
    rewrite old_lines_cons, new_lines_cons, same_lines_cons. simpl. by rewrite H1, H2, H3.
  - pose proof (lookup_lt_Some _ _ _ Ey). apply lookup_ge_None in Ex.
    destruct (IH i (S j)) as (H1 & H2 & H3); [lia..|]. rewrite (drop_S B y j Ey).
    rewrite (drop_ge A) in * by done. autorewrite with cronova in *.
    rewrite old_lines_cons, new_lines_cons, same_lines_cons. simpl. by rewrite H1, H2, H3.
  - apply lookup_ge_None in Ex, Ey. rewrite (drop_ge A), (drop_ge B) by done. done.
Qed.

Lemma diffLines_lines a b :
  old_lines (diffLines a b) = split_on 10%N a /\ new_lines (diffLines a b) = split_on 10%N b.
Proof.
  unfold diffLines. set (A := split_on 10%N a). set (B := split_on 10%N b).
  destruct (walk_spec (length A + length B) A B 0 0) as (H1 & H2 & _); [lia..|]. by rewrite H1, H2.
Qed.

(** C16 The diff shown before a save is a diff of the two texts, and a shortest
    one: the kept and removed lines are the lines of the old text in order, the
    kept and added lines are those of the new text, and no common subsequence of
    the two texts has more lines than the diff keeps. *)
Theorem diffLines_spec a b :
  let d := diffLines a b in
  old_lines d = split_on 10%N a /\ new_lines d = split_on 10%N b /\
  (forall l, sublist l (split_on 10%N a) -> sublist l (split_on 10%N b) ->
     length l <= length (same_lines d)).
Proof.
  unfold diffLines. set (A := split_on 10%N a). set (B := split_on 10%N b).
  destruct (walk_spec (length A + length B) A B 0 0) as (H1 & H2 & H3); [lia..|].
  cbv zeta. rewrite H1, H2, H3. split_and!; [done..|]. intros l. by apply sublist_lcs.
Qed.
