(* ===== verification/DiffPanel.v ===== *)
(** * The pending-changes panel of the graph editor (views.js): [loadGraphDiff]

    While a graph session is open, the structure tab can show what saving would do to
    the stored definition: the page's body is sent to the validate endpoint, the stored
    definition is fetched, and the two texts are shown as a line diff, which is kept in
    [D.diffCache] until the next change. The panel meets three components: the edits and
    the session of [DagEdit.v], the body of [DagModel.v] and the diff of [DiffLines.v].

    The page is a transition system: edits, forms that write and save, pages drawn and
    left, workflows opened, and answers in any order. *)

From S2P Require Import Prelude JsCore Schedule TaskGraph DagModel DagEdit SavePipeline DiffLines.

(** ** The panel's content *)

(** The answer of [POST /api/dags/validate]. *)
Record verdict := Verdict { v_valid : bool; v_error : jstr; v_yaml : option jstr }.

(** What the two requests of one [loadGraphDiff] give. *)
Inductive danswer := DGot (definition_yaml : jstr) | DFailed (message : jstr).

Inductive dpiece := PInvalid (e : jstr) | PRows (rows : list (mark * jstr)) | PSame | PFailed (e : jstr).

(** The panel's content; [[]] is the empty string, which is falsy. *)
Definition diffHtml (r : danswer) (v : verdict) : list dpiece :=
  match r with
  | DFailed m => [PFailed m]
  | DGot y =>
    (if v_valid v then [] else [PInvalid (v_error v)]) ++
    match v_yaml v with
    | None => []
    | Some c => let rows := diffLines y c in
      if existsb (fun l => negb (bool_decide (l.1 = Same))) rows then [PRows rows] else [PSame]
    end
  end.

(** ** State *)

Inductive panel := Loading | Html (c : list dpiece).

Record dpanel := DPage {
  dp_D : option page;               (** [D] *)
  dp_tab : bool;                    (** the structure tab is on screen *)
  dp_cache : list dpiece;            (** the text in [D.diffCache], when it is set *)
  dp_panel : option panel;          (** [#gd-panel] *)
  dp_reqs : list (jstr * spec);     (** open requests: [dagID] and the posted body *)
}.
Definition put_page (d : option page) (s : dpanel) : dpanel :=
  DPage d (dp_tab s) (dp_cache s) (dp_panel s) (dp_reqs s).
Definition set_screen (t : bool) (x : option panel) (s : dpanel) : dpanel :=
  DPage (dp_D s) t (dp_cache s) x (dp_reqs s).
Definition set_dreqs (q : list (jstr * spec)) (s : dpanel) : dpanel :=
  DPage (dp_D s) (dp_tab s) (dp_cache s) (dp_panel s) q.
Definition put_cache (c : list dpiece) (s : dpanel) : dpanel :=
  DPage (dp_D s) (dp_tab s) c (dp_panel s) (dp_reqs s).

(** [D.diffCache = html] on the page object *)
Definition mark_cached (p : page) : page :=
  Page (pg_dag p) (pg_tasks p) (pg_graphPending p) (pg_activeTaskId p) (pg_graphBase p)
       (pg_graphDirty p) (pg_diffOpen p) true (pg_connectMode p) (pg_deleting p).
(** [D.diffCache], [[]] when it is null or empty *)
Definition cached (s : dpanel) (p : page) : list dpiece := if pg_diffCache p then dp_cache s else [].

(** [computeSchedule(D)] *)
Definition schedule_page (p : page) : page :=
  set_dag (set_sched (computeSchedule (d_sched (pg_dag p))) (pg_dag p)) p.

(** ** The code *)

Section panel.
Context (validate : spec -> verdict).

Definition loadGraphDiff (s : dpanel) : dpanel :=
  match dp_D s, dp_panel s with
  | Some p, Some _ =>
    match cached s p with
    | [] =>
      let p' := schedule_page p in
      set_dreqs (dp_reqs s ++ [(d_dag_id (pg_dag p'), dagSpecFrom (pg_dag p') (pg_tasks p'))])
        (put_page (Some p') s)
    | c => set_screen (dp_tab s) (Some (Html c)) s
    end
  | _, _ => s
  end.

(** There are unsaved changes and the panel is unfolded. *)
Definition unfolded (p : page) : bool := (0 <? pg_graphDirty p) && pg_diffOpen p.

(** [renderDagStructure] and the end of [wireDagStructure] *)
Definition draw_structure (s : dpanel) : dpanel :=
  match dp_D s with
  | Some p =>
    if dp_tab s then
      let s1 := set_screen true (if unfolded p then Some Loading else None) s in
      if unfolded p then loadGraphDiff s1 else s1
    else s
  | None => s
  end.

(** What an effect of a handler does to the screen. *)
Definition apply_effect (s : dpanel) (f : effect) : dpanel :=
  match f with
  | Render => draw_structure s
  | OpenTask _ => set_screen false None s
  | _ => s
  end.

(** The rest of [loadGraphDiff], after its requests. *)
Definition diff_answer (i : jstr) (b : spec) (r : danswer) (s : dpanel) : dpanel :=
  match dp_D s with
  | Some p =>
    if bool_decide (d_dag_id (pg_dag p) = i) then
      let html := diffHtml r (validate (stored_of b)) in
      let s1 := put_cache html (put_page (Some (mark_cached p)) s) in
      set_screen (dp_tab s1) (match dp_panel s1 with Some _ => Some (Html html) | None => None end) s1
    else s
  | None => s
  end.

(** The handlers of the task page among the edits. *)
Definition on_task_page (e : edit) : bool :=
  match e with ERename _ _ | EChip _ _ => true | _ => false end.

Inductive dp_event :=
| PEdit (e : edit)
| PForm (d : dag) (ts : list task)   (** a form of another tab or page writes the workflow and saves *)
| PHash (h : jstr)                   (** the answer of a save *)
| PShow                              (** the structure tab is drawn, from another tab or page *)
| PLeave                             (** another tab or page is drawn *)
| POpen (d : dag) (ts : list task)   (** [showDag] has loaded a workflow *)
| PGone                              (** [showDag] has failed: [D = null] *)
| PAnswer (k : nat) (r : danswer).

Definition dp_step (e : dp_event) (s : dpanel) : option dpanel :=
  match e with
  | PEdit f =>
    match dp_D s with
    | Some p =>
      if on_task_page f && dp_tab s then None
      else match edit_run f p with
           | Some (p', out) => Some (foldl apply_effect (put_page (Some p') s) out)
           | None => None
           end
    | None => None
    end
  | PForm d ts =>
    match dp_D s with
    | Some p =>
      if dp_tab s || negb (bool_decide (d_dag_id d = d_dag_id (pg_dag p))) then None
      else Some (put_page (Some (DagEdit.saveDag (set_dag d (set_tasks ts p))).1) s)
    | None => None
    end
  | PHash h =>
    match dp_D s with
    | Some p => Some (put_page (Some (set_dag (set_hash h (pg_dag p)) p)) s)
    | None => None
    end
  | PShow => match dp_D s with
             | Some _ => Some (draw_structure (set_screen true None s))
             | None => None
             end
  | PLeave => Some (set_screen false None s)
  | POpen d ts =>
    Some (set_screen false None
           (put_page (Some (Page d ts None None None 0 false false false false)) s))
  | PGone => Some (set_screen false None (put_page None s))
  | PAnswer k r => match dp_reqs s !! k with
                   | Some (i, b) => Some (diff_answer i b r (set_dreqs (delete k (dp_reqs s)) s))
                   | None => None
                   end
  end.

Fixpoint dp_run (es : list dp_event) (s : dpanel) : option dpanel :=
  match es with
  | [] => Some s
  | e :: es' => match dp_step e s with Some s1 => dp_run es' s1 | None => None end
  end.
End panel.

Definition dp_init : dpanel := DPage None false [] None [].

(** ** What an edit does to the screen *)

(** The effects of an edit redraw the tab, leave it, or do not touch the screen; the
    last only when nothing has changed or on the task page. *)
Definition screen_of (f : edit) (p p' : page) (out : list effect) : Prop :=
  (forall s, foldl apply_effect s out = draw_structure s) \/
  (forall s, foldl apply_effect s out = set_screen false None s) \/
  ((forall s, foldl apply_effect s out = s) /\ (p' = p \/ on_task_page f = true)).

Lemma saveDag_quiet p s : foldl apply_effect s (DagEdit.saveDag p).2 = s.
Proof. unfold DagEdit.saveDag. destruct (pg_deleting p); [done|]. by destruct (validateDag _ _). Qed.

Lemma then_save_screen p k s :
  foldl apply_effect s (then_save p k).2 = foldl apply_effect s k.
Proof.
  unfold then_save. pose proof (saveDag_quiet p s) as H. destruct (DagEdit.saveDag p) as [p' es].
  simpl in *. by rewrite foldl_app, H.
Qed.

Lemma saves_screen f p q p' out : then_save q [Render] = (p', out) -> screen_of f p p' out.
Proof.
  intros E. left. intros s. replace out with (then_save q [Render]).2 by by rewrite E.
  by rewrite then_save_screen.
Qed.

Lemma toggle_screen f p up down r q p' out :
  graphToggleDep up down r q = (p', out) -> screen_of f p p' out.
Proof.
  unfold graphToggleDep, graphMutate. intros E. left. intros s. split_cases.
Qed.

Lemma edit_screen f p p' out : edit_run f p = Some (p', out) -> screen_of f p p' out.
Proof.
  intros E. destruct f as [| |i cmd|i|i ok|i|n i|n dep|a|i shift|up down|up down| | | |];
    cbn [edit_run] in E.
  - unfold addTask in E. destruct (fresh _ _ _) as [j|]; [|done].
    pose proof (saveDag_quiet (set_tasks (pg_tasks p ++ [with_id j blankTask]) p)) as H.
    destruct (DagEdit.saveDag _) as [p1 o1]. simplify_eq/=. right; left. intros s.
    by rewrite foldl_app, H.
  - unfold nvAddStep in E. destruct (fresh _ _ _) as [j|]; [|done]. injection E as E.
    by eapply saves_screen.
  - unfold nvEditStep in E. injection E as E. destruct (find_task _ _) as [[n tk]|];
      [by eapply saves_screen|]. simplify_eq. right; right. split; [done|auto].
  - unfold duplicateTask in E. destruct (find_task _ _) as [[n tk]|];
      [|simplify_eq; right; right; split; [done|auto]].
    destruct (fresh _ _ _) as [j|]; [|done]. injection E as E. by eapply saves_screen.
  - unfold deleteTask in E. injection E as E. destruct ok; [by eapply saves_screen|].
    simplify_eq. right; right. split; [done|auto].
  - injection E as E. right; left. by simplify_eq.
  - unfold renameActiveTask in E. injection E as E.
    destruct (pg_tasks p !! n) as [tk|]; [|simplify_eq; right; right; split; [done|auto]].
    repeat case_match; try (by eapply saves_screen); simplify_eq; first [by left|right; right; split; [done|auto]].
  - unfold toggleDepChip in E. cbv zeta in E. injection E as E. right; right.
    destruct (cyclic_tasks _); [by simplify_eq; split; [done|auto]|]. split; [|by right]. intros s.
    change (foldl apply_effect s (p', out).2 = s). rewrite <- E. apply then_save_screen.
  - unfold addTaskFromGraph, graphMutate in E. injection E as E.
    repeat case_match; simplify_eq; first [by left|right; right; split; [done|auto]].
  - unfold onGraphNodeActivate in E. injection E as E. destruct (starts_with _ _);
      [simplify_eq; right; right; split; [done|auto]|].
    destruct (negb _); [right; left; by injection E as <- <-|].
    destruct (pg_graphPending p) as [up|]; [|by left; simplify_eq].
    case_bool_decide; [by left; simplify_eq|]. by eapply toggle_screen.
  - injection E as E. by eapply toggle_screen.
  - injection E as E. by eapply toggle_screen.
  - left. by injection E as <- <-.
  - left. by injection E as <- <-.
  - unfold graphSaveSession in E. injection E as E. destruct (validateDag _ _);
      [by eapply saves_screen|]. simplify_eq. right; right. split; [done|auto].
  - left. by injection E as <- <-.
Qed.

(** ** The panel and its requests *)

(** The panel is there when the tab is on screen with the changes unfolded, and shows
    "loading" only while a request for the workflow is open. *)
Record panel_inv (s : dpanel) : Prop := {
  pi_panel : is_Some (dp_panel s) <-> dp_tab s = true /\ exists p, dp_D s = Some p /\ unfolded p = true;
  pi_loading : forall p, dp_D s = Some p -> dp_panel s = Some Loading ->
    exists b, (d_dag_id (pg_dag p), b) ∈ dp_reqs s;
}.

(** The body a request of this page carries, without the token of the last save. *)
Definition pending (p : page) : spec := stored_of (save_spec (pg_dag p) (pg_tasks p)).

Lemma schedule_pending p : pending (schedule_page p) = pending p.
Proof. reflexivity. Qed.

(** [draw_structure] with the tab on screen. *)
Lemma draw_on s p :
  dp_D s = Some p -> dp_tab s = true ->
  draw_structure s =
    if unfolded p then
      if bool_decide (cached s p = []) then
        DPage (Some (schedule_page p)) true (dp_cache s) (Some Loading)
          (dp_reqs s ++ [(d_dag_id (pg_dag p), save_spec (pg_dag p) (pg_tasks p))])
      else DPage (Some p) true (dp_cache s) (Some (Html (cached s p))) (dp_reqs s)
    else DPage (Some p) true (dp_cache s) None (dp_reqs s).
Proof.
  intros E Et. unfold draw_structure. rewrite E, Et. destruct (unfolded p).
  - unfold loadGraphDiff, set_screen; simpl. rewrite E.
    change (cached (DPage _ _ _ _ _) p) with (cached s p). case_bool_decide as Hc.
    + rewrite Hc. done.
    + by destruct (cached s p).
  - unfold set_screen. by rewrite E.
Qed.

Lemma draw_off s : dp_D s = None \/ dp_tab s = false -> draw_structure s = s.
Proof. unfold draw_structure. intros [->| ->]; [done|]. by destruct (dp_D s). Qed.

(** Off the tab nothing is drawn, and there must be no panel left. *)
Definition no_stray (s : dpanel) : Prop := dp_D s = None \/ dp_tab s = false -> dp_panel s = None.

Lemma panel_no_stray s : panel_inv s -> no_stray s.
Proof.
  intros [Hp _] H. destruct (dp_panel s) as [x|]; [|done]. destruct Hp as [(Ht & p & Ep & _) _]; [done|].
  destruct H; congruence.
Qed.

Lemma closed_inv s : dp_panel s = None -> (dp_D s = None \/ dp_tab s = false) -> panel_inv s.
Proof.
  intros Hn H. split; rewrite Hn; [|done]. split; [by intros [? ?]|].
  intros (Ht & p & Ep & _). destruct H; congruence.
Qed.

Lemma draw_panel_inv s : no_stray s -> panel_inv (draw_structure s).
Proof.
  intros Hs. destruct (dp_D s) as [p|] eqn:Ep; [|rewrite draw_off by auto; apply closed_inv; auto].
  destruct (dp_tab s) eqn:Et; [|rewrite draw_off by auto; apply closed_inv; auto].
  rewrite (draw_on s p) by done. destruct (unfolded p) eqn:Eu; [case_bool_decide|]; split; simpl.
  - split; [|done]. intros _. split; [done|]. by exists (schedule_page p).
  - intros q [= <-] _. eexists. apply elem_of_app. right. by apply list_elem_of_singleton.
  - split; [|done]. intros _. split; [done|]. by exists p.
  - done.
  - split; [by intros [? ?]|]. intros [_ (q & [= <-] & ?)]. congruence.
  - done.
Qed.

Lemma elem_of_delete {A} (l : list A) k x y : x ∈ l -> l !! k = Some y -> x <> y -> x ∈ delete k l.
Proof.
  intros Hx Hk Hn. rewrite (delete_Permutation _ _ _ Hk) in Hx. by apply elem_of_cons in Hx as [->|?].
Qed.

(** The page object is replaced by one with the same panel and the same name. *)
Lemma put_page_inv s p p' :
  panel_inv s -> dp_D s = Some p -> d_dag_id (pg_dag p') = d_dag_id (pg_dag p) ->
  unfolded p' = unfolded p \/ dp_tab s = false -> panel_inv (put_page (Some p') s).
Proof.
  intros Hs Ep Hid [Hu|Ht].
  - destruct Hs as [Hp Hl]. split; simpl.
    + rewrite Hp, Ep. split; intros (? & q & [= <-] & ?); split; eauto; eexists; split; eauto; congruence.
    + intros q [= <-]. rewrite Hid. by apply Hl.
  - apply closed_inv; [|by right]. apply (panel_no_stray s Hs). by right.
Qed.

Section inv.
Context (validate : spec -> verdict).

Lemma answer_panel_inv k i b r s :
  panel_inv s -> dp_reqs s !! k = Some (i, b) ->
  panel_inv (diff_answer validate i b r (set_dreqs (delete k (dp_reqs s)) s)).
Proof.
  intros [Hp Hl] Hk. unfold diff_answer; simpl. destruct (dp_D s) as [p|] eqn:Ep.
  - case_bool_decide as Hi; split; simpl.
    + destruct (dp_panel s) as [x|].
      * split; [|done]. intros _. destruct Hp as [(Ht & q & Eq & Hu) _]; [done|]. simplify_eq.
        split; [done|]. by exists (mark_cached q).
      * split; [by intros [? ?]|]. intros (Ht & q & [= <-] & Hu). apply Hp. split; [done|]. by exists p.
    + intros q [= <-]. destruct (dp_panel s); congruence.
    + by rewrite Ep.
    + rewrite Ep. intros q [= <-] E. destruct (Hl p eq_refl E) as [b' Hb]. exists b'.
      eapply elem_of_delete; [done|done|]. intros [= E1 _]. congruence.
  - split; simpl; rewrite Ep; [done|]. done.
Qed.

Lemma dp_step_panel e s s' : dp_step validate e s = Some s' -> panel_inv s -> panel_inv s'.
Proof.
  intros E Hs. destruct e as [f|d ts|h| | |d ts| |k r]; cbn [dp_step] in E.
  - destruct (dp_D s) as [p|] eqn:Ep; [|done]. destruct (on_task_page f && dp_tab s) eqn:Ef; [done|].
    destruct (edit_run f p) as [[p' out]|] eqn:Er; [|done]. injection E as <-.
    pose proof (panel_no_stray s Hs) as Hn. unfold no_stray in Hn.
    destruct (edit_screen _ _ _ _ Er) as [H|[H|[H Hq]]]; rewrite H.
    + apply draw_panel_inv. intros [?|?]; [done|]. apply Hn. by right.
    + apply closed_inv; [done|by right].
    + apply (put_page_inv s p); [done|done|by rewrite (edit_dag_same _ _ _ _ Er)|].
      destruct Hq as [->|Hq]; [by left|]. right. by rewrite Hq in Ef.
  - destruct (dp_D s) as [p|] eqn:Ep; [|done]. destruct (dp_tab s) eqn:Et; [done|].
    case_bool_decide as Hi; [|done]. injection E as <-. apply (put_page_inv s p); [done|done| |by right].
    rewrite <- Hi. unfold DagEdit.saveDag. by repeat case_match.
  - destruct (dp_D s) as [p|] eqn:Ep; [|done]. injection E as <-. apply (put_page_inv s p); auto.
  - destruct (dp_D s) as [p|] eqn:Ep; [|done]. injection E as <-. by apply draw_panel_inv.
  - injection E as <-. apply closed_inv; [done|by right].
  - injection E as <-. apply closed_inv; [done|by right].
  - injection E as <-. apply closed_inv; [done|by right].
  - destruct (dp_reqs s !! k) as [[i b]|] eqn:Ek; [|done]. injection E as <-. by apply answer_panel_inv.
Qed.

Lemma dp_run_panel es s s' : dp_run validate es s = Some s' -> panel_inv s -> panel_inv s'.
Proof.
  revert s; induction es as [|e es IH]; intros s E Hs; simpl in E; [by simplify_eq|].
  destruct (dp_step validate e s) as [s1|] eqn:E1; [|done]. eapply IH; [done|]. by eapply dp_step_panel.
Qed.

Lemma dp_init_panel : panel_inv dp_init.
Proof. apply closed_inv; [done|by left]. Qed.

End inv.

(** ** What the panel's text was computed from *)

(** No request for the workflow [i] is open. *)
Definition no_request (i : jstr) (s : dpanel) : Prop := Forall (fun r => r.1 <> i) (dp_reqs s).

(** The page [p'] replaces [p]: the definition that would be saved is the same, or the
    cached diff is cleared and no request is under way. *)
Definition refreshed (s : dpanel) (p p' : page) : Prop :=
  pending p' = pending p \/ (no_request (d_dag_id (pg_dag p)) s /\ pg_diffCache p' = false).

Definition careful_step (e : dp_event) (s : dpanel) : Prop :=
  match e, dp_D s with
  | PEdit f, Some p => match edit_run f p with Some (p', _) => refreshed s p p' | None => True end
  | PForm d ts, Some p => refreshed s p (DagEdit.saveDag (set_dag d (set_tasks ts p))).1
  | POpen d _, _ => no_request (d_dag_id d) s
  | _, _ => True
  end.

Fixpoint careful (v : spec -> verdict) (es : list dp_event) (s : dpanel) : Prop :=
  match es with
  | [] => True
  | e :: es' => careful_step e s /\
      match dp_step v e s with Some s1 => careful v es' s1 | None => True end
  end.

#[local] Instance spec_http_eq_dec : EqDecision spec_http.
Proof. solve_decision. Defined.
#[local] Instance spec_dod_eq_dec : EqDecision spec_dod.
Proof. solve_decision. Defined.
#[local] Instance spec_task_eq_dec : EqDecision spec_task.
Proof. solve_decision. Defined.
#[local] Instance spec_eq_dec : EqDecision spec.
Proof. solve_decision. Defined.
#[local] Instance refreshed_dec s p p' : Decision (refreshed s p p').
Proof. unfold refreshed, no_request. apply _. Defined.
#[local] Instance careful_step_dec e s : Decision (careful_step e s).
Proof. unfold careful_step, no_request. repeat case_match; apply _. Defined.
#[local] Instance careful_dec v es s : Decision (careful v es s).
Proof.
  revert s; induction es as [|e es IH]; intros s; simpl; [apply _|]. destruct (dp_step v e s); apply _.
Defined.

(** The cached diff survives an edit only when nothing was changed, when the changed
    workflow is held as invalid, while a deletion is under way, or on the task page. *)
Definition cache_kept (f : edit) (p p' : page) (out : list effect) : Prop :=
  pg_diffCache p' = false \/
  (pg_diffCache p' = pg_diffCache p /\
   (pg_tasks p' = pg_tasks p \/ (exists errs, Invalid errs ∈ out) \/ pg_deleting p = true \/
    on_task_page f = true)).

Lemma then_save_cache f p q k p' out :
  pg_diffCache q = pg_diffCache p -> pg_deleting q = pg_deleting p ->
  then_save q k = (p', out) -> cache_kept f p p' out.
Proof.
  unfold then_save, DagEdit.saveDag. intros Hc Hd E. destruct (pg_deleting q) eqn:Eq.
  - simplify_eq. right. split; [done|]. right; right; left. congruence.
  - destruct (validateDag _ _) as [|e errs]; simplify_eq; [by left|]. right. split; [done|]. right; left.
    eexists. simpl. apply elem_of_cons. by left.
Qed.

Lemma toggle_cache f p q up down r p' out :
  pg_diffCache q = pg_diffCache p -> pg_tasks q = pg_tasks p ->
  graphToggleDep up down r q = (p', out) -> cache_kept f p p' out.
Proof.
  unfold graphToggleDep, graphMutate. intros Hc Ht E.
  repeat case_match; simplify_eq; first [by left|(right; split; [done|auto])].
Qed.

Lemma edit_cache f p p' out : edit_run f p = Some (p', out) -> cache_kept f p p' out.
Proof.
  intros E. destruct f as [| |i cmd|i|i ok|i|n i|n dep|a|i shift|up down|up down| | | |];
    cbn [edit_run] in E.
  - unfold addTask in E. destruct (fresh _ _ _) as [j|]; [|done].
    set (q := set_tasks (pg_tasks p ++ [with_id j blankTask]) p) in E.
    assert (H : cache_kept EAdd p (then_save q []).1 (then_save q []).2).
    { eapply then_save_cache; [| |apply surjective_pairing]; done. }
    unfold then_save in H. destruct (DagEdit.saveDag q) as [p2 o2]. simplify_eq/=.
    rewrite app_nil_r in H. destruct H as [H|[H1 H2]]; [by left|right; split; [done|]].
    destruct H2 as [H2|[[errs H2]|[H2|H2]]]; [by left| |by right; right; left|done].
    right; left. exists errs. apply elem_of_app. by left.
  - unfold nvAddStep in E. destruct (fresh _ _ _) as [j|]; [|done]. injection E as E.
    by eapply then_save_cache; [| |exact E].
  - unfold nvEditStep in E. injection E as E. destruct (find_task _ _) as [[n tk]|].
    + by eapply then_save_cache; [| |exact E].
    + simplify_eq. right; split; [done|auto].
  - unfold duplicateTask in E. destruct (find_task _ _) as [[n tk]|]; [|simplify_eq; right; split; [done|auto]].
    destruct (fresh _ _ _) as [j|]; [|done]. injection E as E.
    by eapply then_save_cache; [| |exact E].
  - unfold deleteTask in E. injection E as E. destruct ok; [|simplify_eq; right; split; [done|auto]].
    by eapply then_save_cache; [| |exact E].
  - injection E as <- <-. right; split; [done|auto].
  - unfold renameActiveTask in E. injection E as E.
    destruct (pg_tasks p !! n) as [tk|]; [|simplify_eq; right; split; [done|auto]].
    repeat case_match; try (by eapply then_save_cache; [| |exact E]); simplify_eq; (right; split; [done|auto]).
  - unfold toggleDepChip in E. cbv zeta in E. injection E as E.
    destruct (cyclic_tasks _); [simplify_eq; right; split; [done|auto]|].
    by eapply then_save_cache; [| |exact E].
  - unfold addTaskFromGraph, graphMutate in E. injection E as E.
    repeat case_match; simplify_eq; first [by left|(right; split; [done|auto])].
  - unfold onGraphNodeActivate in E. injection E as E. destruct (starts_with _ _);
      [simplify_eq; right; split; [done|auto]|].
    destruct (negb _); [injection E as <- <-; right; split; [done|auto]|].
    destruct (pg_graphPending p) as [up|]; [|simplify_eq; right; split; [done|auto]].
    case_bool_decide; [simplify_eq; right; split; [done|auto]|]. by eapply toggle_cache; [| |exact E].
  - injection E as E. by eapply toggle_cache; [| |exact E].
  - injection E as E. by eapply toggle_cache; [| |exact E].
  - injection E as <- <-. right; split; [done|auto].
  - injection E as <- <-. right; split; [done|auto].
  - unfold graphSaveSession in E. injection E as E. destruct (validateDag _ _).
    + unfold then_save, DagEdit.saveDag in E. by repeat case_match; simplify_eq; left.
    + simplify_eq. right; split; [done|auto].
  - injection E as <- <-. by left.
Qed.

Section fresh.
Context (validate : spec -> verdict).

(** The content is the diff of what would be saved now. *)
Definition diff_of (p : page) (c : list dpiece) : Prop := exists r, c = diffHtml r (validate (pending p)).

Definition reqs_fresh (s : dpanel) (p : page) : Prop :=
  forall i b, (i, b) ∈ dp_reqs s -> i = d_dag_id (pg_dag p) -> stored_of b = pending p.
Definition cache_fresh (s : dpanel) (p : page) : Prop :=
  pg_diffCache p = true -> diff_of p (dp_cache s).
Definition shown_fresh (s : dpanel) : Prop :=
  forall p c, dp_D s = Some p -> dp_panel s = Some (Html c) -> diff_of p c.
Definition data_fresh (s : dpanel) : Prop :=
  forall p, dp_D s = Some p -> reqs_fresh s p /\ cache_fresh s p.

Lemma pending_diff p p' c : pending p' = pending p -> diff_of p c -> diff_of p' c.
Proof. unfold diff_of. by intros ->. Qed.

Lemma draw_fresh s : data_fresh s -> no_stray s -> data_fresh (draw_structure s) /\ shown_fresh (draw_structure s).
Proof.
  intros Hd Hn. unfold no_stray in Hn.
  destruct (dp_D s) as [p|] eqn:Ep; [|rewrite draw_off by auto; split; [done|intros p; congruence]].
  destruct (dp_tab s) eqn:Et; [|rewrite draw_off by auto; split; [done|]; intros q c _; rewrite Hn by auto; done].
  destruct (Hd p Ep) as [Hr Hc]. rewrite (draw_on s p) by done.
  destruct (unfolded p) eqn:Eu; [case_bool_decide as Hn0|]; (split; [intros q [= <-]|intros q c [= <-]]).
  - split.
    + intros i b Hib Hi. rewrite schedule_pending. simpl in Hib.
      apply elem_of_app in Hib as [Hib|[= _ ->]%list_elem_of_singleton]; [|done]. by eapply Hr.
    + intros H. apply (pending_diff p); [apply schedule_pending|]. by apply Hc.
  - done.
  - by split.
  - simpl. intros [= <-]. unfold cached in *. destruct (pg_diffCache p) eqn:E; [by apply Hc|done].
  - by split.
  - done.
Qed.

(** The page object is replaced. *)
Lemma put_page_fresh s p p' :
  data_fresh s -> dp_D s = Some p -> d_dag_id (pg_dag p') = d_dag_id (pg_dag p) ->
  (pg_diffCache p' = false \/ pg_diffCache p' = pg_diffCache p) ->
  refreshed s p p' -> data_fresh (put_page (Some p') s).
Proof.
  intros Hd Ep Hid Hc H q [= <-]. destruct (Hd p Ep) as [Hr Hh]. destruct H as [H|[H1 H2]].
  - split.
    + intros i b Hib Hi. rewrite H. eapply Hr; [done|congruence].
    + intros Ht. apply (pending_diff p); [done|]. apply Hh. destruct Hc; congruence.
  - split; [|intros ?; congruence]. intros i b Hib Hi. unfold no_request in H1.
    rewrite Forall_forall in H1. destruct (H1 _ Hib). simpl. congruence.
Qed.

Lemma no_panel_fresh s : dp_panel s = None -> shown_fresh s.
Proof. intros E p c _. by rewrite E. Qed.

Lemma saveDag_cache p : pg_diffCache (DagEdit.saveDag p).1 = false \/
  pg_diffCache (DagEdit.saveDag p).1 = pg_diffCache p.
Proof. unfold DagEdit.saveDag. repeat case_match; auto. Qed.

Lemma answer_fresh i b r s :
  data_fresh s -> shown_fresh s ->
  (forall p, dp_D s = Some p -> d_dag_id (pg_dag p) = i -> stored_of b = pending p) ->
  data_fresh (diff_answer validate i b r s) /\ shown_fresh (diff_answer validate i b r s).
Proof.
  intros Hd Hs Hb. unfold diff_answer. destruct (dp_D s) as [p|] eqn:Ep; [|done].
  case_bool_decide as Hi; [|done]. assert (Hn : diff_of p (diffHtml r (validate (stored_of b)))).
  { exists r. by rewrite (Hb p eq_refl Hi). }
  destruct (Hd p Ep) as [Hr _]. split.
  - intros q [= <-]. split; [exact Hr|]. by intros _.
  - intros q c [= <-]. simpl. by destruct (dp_panel s); intros [= <-].
Qed.

Lemma dp_step_fresh e s s' :
  dp_step validate e s = Some s' -> careful_step e s -> panel_inv s ->
  data_fresh s -> shown_fresh s -> data_fresh s' /\ shown_fresh s'.
Proof.
  intros E Hc Hi Hd Hs. pose proof (panel_no_stray s Hi) as Hn. unfold no_stray in Hn.
  destruct e as [f|d ts|h| | |d ts| |k r]; cbn [dp_step] in E; unfold careful_step in Hc.
  - destruct (dp_D s) as [p|] eqn:Ep; [|done]. destruct (on_task_page f && dp_tab s) eqn:Ef; [done|].
    destruct (edit_run f p) as [[p' out]|] eqn:Er; [|done]. injection E as <-.
    assert (Hd' : data_fresh (put_page (Some p') s)).
    { apply (put_page_fresh s p); [done|done|by rewrite (edit_dag_same _ _ _ _ Er)| |done].
      destruct (edit_cache _ _ _ _ Er) as [?|[? _]]; auto. }
    destruct (edit_screen _ _ _ _ Er) as [H|[H|[H Hq]]]; rewrite H.
    + apply draw_fresh; [done|]. intros [?|?]; [done|]. apply Hn. by right.
    + split; [done|]. by apply no_panel_fresh.
    + split; [done|]. destruct Hq as [->|Hq].
      * intros q c [= <-]. by apply Hs.
      * apply no_panel_fresh, Hn. right. by rewrite Hq in Ef.
  - destruct (dp_D s) as [p|] eqn:Ep; [|done]. destruct (dp_tab s) eqn:Et; [done|].
    case_bool_decide as Hid; [|done]. injection E as <-. split.
    + apply (put_page_fresh s p); [done|done| | |done].
      * rewrite <- Hid. unfold DagEdit.saveDag. by repeat case_match.
      * apply (saveDag_cache (set_dag d (set_tasks ts p))).
    + apply no_panel_fresh, Hn. by right.
  - destruct (dp_D s) as [p|] eqn:Ep; [|done]. injection E as <-. split.
    + apply (put_page_fresh s p); auto. by left.
    + intros q c [= <-] Hq. apply (pending_diff p); [done|]. by apply Hs.
  - destruct (dp_D s) as [p|] eqn:Ep; [|done]. injection E as <-. by apply draw_fresh.
  - injection E as <-. split; [done|]. by apply no_panel_fresh.
  - injection E as <-. split; [|by apply no_panel_fresh]. intros q [= <-]. split; [|done].
    intros i b Hib Hid. unfold no_request in Hc. rewrite Forall_forall in Hc. by destruct (Hc _ Hib).
  - injection E as <-. split; [done|]. by apply no_panel_fresh.
  - destruct (dp_reqs s !! k) as [[i b]|] eqn:Ek; [|done]. injection E as <-.
    apply answer_fresh; [|done|].
    + intros p Ep. destruct (Hd p Ep) as [Hr Hh]. split; [|done]. intros j c Hj. apply Hr.
      exact (list_elem_of_delete_inv _ _ _ Hj).
    + intros p Ep Hid. destruct (Hd p Ep) as [Hr _]. eapply Hr; [by eapply list_elem_of_lookup_2|done].
Qed.

Lemma dp_run_fresh es s s' :
  dp_run validate es s = Some s' -> careful validate es s -> panel_inv s ->
  data_fresh s -> shown_fresh s -> shown_fresh s'.
Proof.
  revert s; induction es as [|e es IH]; intros s E Hc Hi Hd Hs; simpl in *; [by simplify_eq|].
  destruct Hc as [Hc1 Hc2]. destruct (dp_step validate e s) as [s1|] eqn:E1; [|done].
  destruct (dp_step_fresh _ _ _ E1 Hc1 Hi Hd Hs) as [Hd1 Hs1].
  eapply IH; [done|done| |done|done]. by eapply dp_step_panel.
Qed.

End fresh.

(** ** What the text says *)

Lemma same_rows (d : list (mark * jstr)) :
  existsb (fun l => negb (bool_decide (l.1 = Same))) d = false -> old_lines d = new_lines d.
Proof.
  induction d as [|[m x] d IH]; [done|]. simpl. intros H. bool_props. simplify_eq/=.
  rewrite old_lines_cons, new_lines_cons. by rewrite IH.
Qed.

Lemma diffHtml_reads y v c :
  c = diffHtml (DGot y) v ->
  (forall rows, PRows rows ∈ c -> exists canon, v_yaml v = Some canon /\
     old_lines rows = split_on 10%N y /\ new_lines rows = split_on 10%N canon) /\
  (PSame ∈ c -> v_yaml v = Some y).
Proof.
  intros ->. unfold diffHtml. destruct (v_yaml v) as [canon|].
  - destruct (diffLines_lines y canon) as [Ho Hn].
    destruct (existsb _ (diffLines y canon)) eqn:E; split; [intros rows Hr|intros Hr|intros rows Hr|intros Hr];
      destruct (v_valid v); repeat (apply elem_of_cons in Hr as [Hr|Hr]; [simplify_eq|]);
      try by apply elem_of_nil in Hr.
    1,2: by exists canon.
    1,2: apply same_rows in E; rewrite Ho, Hn in E; f_equal;
      by rewrite <- (join_split 10%N y), E, join_split.
  - destruct (v_valid v); split; intros *; set_solver.
Qed.

(** ** Properties *)


(** An endpoint that answers with the names of the tasks, one per line. *)
Definition names_verdict (b : spec) : verdict := Verdict true [] (Some (join [10%N] (sp_id <$> s_tasks b))).
Definition saved_names : jstr := join [10%N] [lit "extract"; lit "load"].

Definition sample_diff : list dp_event :=
  [POpen (blank_dag (lit "etl")) two_steps; PShow; PEdit (EGraphAdd (Some (lit "check"))); PEdit EDiff;
   PAnswer 0 (DGot saved_names); PLeave; PHash (lit "h1"); PShow;
   PEdit (EGraphAdd (Some (lit "report"))); PAnswer 0 (DGot saved_names)].
Definition sample_rows : list (mark * jstr) :=
  [(Same, lit "extract"); (Same, lit "load"); (Add, lit "check"); (Add, lit "report")].


(** ** What is not guarded against *)

(** The cached diff outlives changes that are held as invalid: with the panel unfolded,
    a task added from the list (it has no command yet) is not in the text when the
    structure tab is drawn again, and nothing is asked. And an older answer that arrives
    after a newer one replaces it. *)
Lemma stale_diffs :
  let old := Html [PRows [(Same, lit "extract"); (Same, lit "load"); (Add, lit "check")]] in
  (exists s p, dp_run names_verdict
     [POpen (blank_dag (lit "etl")) two_steps; PShow; PEdit (EGraphAdd (Some (lit "check"))); PEdit EDiff;
      PAnswer 0 (DGot saved_names); PEdit EAdd; PShow] dp_init = Some s /\
   dp_D s = Some p /\ dp_panel s = Some old /\ dp_reqs s = [] /\
   tk_id <$> pg_tasks p = [lit "extract"; lit "load"; lit "check"; lit "task_4"]) /\
  (exists s p, dp_run names_verdict
     [POpen (blank_dag (lit "etl")) two_steps; PShow; PEdit (EGraphAdd (Some (lit "check"))); PEdit EDiff;
      PEdit (EGraphAdd (Some (lit "report"))); PAnswer 1 (DGot saved_names);
      PAnswer 0 (DGot saved_names)] dp_init = Some s /\
   dp_D s = Some p /\ dp_panel s = Some old /\ dp_reqs s = [] /\
   tk_id <$> pg_tasks p = [lit "extract"; lit "load"; lit "check"; lit "report"]).
Proof. intros old. split; eexists _, _; (split; [vm_compute; reflexivity|]); repeat split. Qed.
