(* ===== verification/GraphLayout.v ===== *)
(** * Drawing the task graph (base.js, [renderGraph])

    The layout of the dependency graph: a column per level, a row per task of
    the level, dashed stubs for the other workflows a task waits for, and the
    edges.  The picture is modelled by its numbers and names; the SVG text that
    carries them is not.  The object keyed by task names is a finite map here:
    the theorems are about names that are not properties of [Object.prototype]. *)

From S2P Require Import Prelude JsCore TaskGraph.

(** ** Input and stubs *)

Record gtask := GTask { g_id : jstr; g_deps : list jstr; g_dod : jstr; g_subdag : jstr }.

(** A node of the picture: a task, or the stub of another workflow. *)
Record gnode := GNode { n_id : jstr; n_deps : list jstr; n_ext : option jstr; n_subdag : jstr }.

Definition EXT : jstr := lit "__ext__".

(** [stubs[sid] ||= {...}] over the tasks, in order *)
Definition add_stub (stubs : list gnode) (t : gtask) : list gnode :=
  match g_dod t with
  | [] => stubs
  | ext => if bool_decide (EXT ++ ext ∈ n_id <$> stubs) then stubs
           else stubs ++ [GNode (EXT ++ ext) [] (Some ext) []]
  end.
Definition stubs (ts : list gtask) : list gnode := foldl add_stub [] ts.

Definition task_node (t : gtask) : gnode :=
  GNode (g_id t) (g_deps t ++ match g_dod t with [] => [] | ext => [EXT ++ ext] end) None (g_subdag t).

Definition ext_key (from to : jstr) : jstr := from ++ lit "|" ++ to.
Definition ext_edges (ts : list gtask) : list jstr :=
  omap (fun t => match g_dod t with [] => None | ext => Some (ext_key (EXT ++ ext) (g_id t)) end) ts.

Definition all_nodes (ts : list gtask) : list gnode := stubs ts ++ (task_node <$> ts).
Definition graph_of (l : list gnode) : gmap jstr node := byId ((fun n => Node (n_id n) (n_deps n)) <$> l).

(** ** Levels: memoized depth, cut at a node already on the way *)

Definition lvl_state : Type := gmap jstr nat * gset jstr.

Definition present (m : gmap jstr node) (id : jstr) : list jstr :=
  match m !! id with Some t => filter (fun d => is_Some (m !! d)) (ndeps t) | None => [] end.

Fixpoint lvl (m : gmap jstr node) (fuel : nat) (id : jstr) (st : lvl_state) : option (nat * lvl_state) :=
  match fuel with
  | O => None
  | S f =>
    match st.1 !! id with
    | Some n => Some (n, st)
    | None =>
      if bool_decide (id ∈ st.2) then Some (0, st)
      else
        let deps := present m id in
        match foldM (fun d acc => match lvl m f d acc.2 with
                                  | Some (n, s) => Some (Nat.max acc.1 n, s)
                                  | None => None
                                  end) deps (0, (st.1, {[id]} ∪ st.2)) with
        | None => None
        | Some (mx, s) =>
          let n := match deps with [] => 0 | _ => S mx end in
          Some (n, (<[id := n]> s.1, s.2))
        end
    end
  end.

(** [all.forEach((t2) => lvl(t2.id, new Set()))]; a call nests at most once per node. *)
Definition levels (l : list gnode) : option (gmap jstr nat) :=
  foldM (fun n lev => match lvl (graph_of l) (S (length l)) (n_id n) (lev, ∅) with
                      | Some (_, s) => Some s.1
                      | None => None
                      end) l ∅.

(** ** Positions *)

Definition NW : Z := 150.
Definition NH : Z := 36.
Definition CG : Z := 200.
Definition RG : Z := 52.
Definition PAD : Z := 16.

Definition level_of (lev : gmap jstr nat) (i : jstr) : nat := default 0 (lev !! i).

(** The names of column [L], in order. *)
Definition column (lev : gmap jstr nat) (l : list gnode) (L : nat) : list jstr :=
  filter (fun i => level_of lev i = L) (n_id <$> l).

(** [pos[id]]: the last index of [id] in its column *)
Definition row_of (lev : gmap jstr nat) (l : list gnode) (i : jstr) : option nat :=
  snd <$> List.find (fun p => bool_decide (p.1 = i))
    (reverse (imap (fun k j => (j, k)) (column lev l (level_of lev i)))).

Definition pos (lev : gmap jstr nat) (l : list gnode) (i : jstr) : option (Z * Z) :=
  match row_of lev l i with
  | Some r => Some (PAD + Z.of_nat (level_of lev i) * CG, PAD + Z.of_nat r * RG)%Z
  | None => None
  end.

Definition max_list (l : list nat) : nat := foldr Nat.max 0 l.
Definition maxL (lev : gmap jstr nat) (l : list gnode) : nat := max_list (level_of lev <$> (n_id <$> l)).
Definition maxR (lev : gmap jstr nat) (l : list gnode) : nat :=
  max_list ((fun i => length (column lev l (level_of lev i))) <$> (n_id <$> l)).

(** ** The picture *)

Record gedge := GEdge {
  e_from : jstr; e_to : jstr; e_x1 : Z; e_y1 : Z; e_mx : Z; e_x2 : Z; e_y2 : Z;
  e_dashed : bool; e_hit : bool;
}.
Record gbox := GBox { b_node : gnode; b_x : Z; b_y : Z; b_pending : bool; b_handle : bool }.
Record drawing := Drawing {
  dr_W : Z; dr_H : Z; dr_wrapH : Z; dr_edges : list gedge; dr_boxes : list gbox;
}.
Record gopts := GOpts { o_editable : bool; o_pending : option jstr }.

Definition edge_to (lev : gmap jstr nat) (l : list gnode) (ext : list jstr) (o : gopts)
    (t : gnode) (d : jstr) : option gedge :=
  match pos lev l d, pos lev l (n_id t) with
  | Some (xd, yd), Some (xt, yt) =>
    let isExt := bool_decide (ext_key d (n_id t) ∈ ext) in
    let x1 := (xd + NW)%Z in let y1 := (yd + NH / 2)%Z in
    let x2 := xt in let y2 := (yt + NH / 2)%Z in
    Some (GEdge d (n_id t) x1 y1 ((x1 + x2) / 2) x2 y2 isExt (o_editable o && negb isExt))
  | _, _ => None
  end.

Definition box_of (lev : gmap jstr nat) (l : list gnode) (o : gopts) (t : gnode) : option gbox :=
  match pos lev l (n_id t) with
  | Some (x, y) =>
    let task := bool_decide (n_ext t = None) in
    Some (GBox t x y (task && bool_decide (o_pending o = Some (n_id t))) (task && o_editable o))
  | None => None
  end.

(** [None] for the placeholder of an empty list (and for lack of fuel, which
    does not happen). *)
Definition renderGraph (ts : list gtask) (o : gopts) : option drawing :=
  match ts with
  | [] => None
  | _ =>
    let l := all_nodes ts in
    match levels l with
    | None => None
    | Some lev =>
      let W := (PAD * 2 + Z.of_nat (maxL lev l) * CG + NW)%Z in
      let H := (PAD * 2 + (Z.of_nat (maxR lev l) - 1) * RG + NH)%Z in
      Some (Drawing W H (Z.min (H + 24) 460)
        (l ≫= fun t => omap (edge_to lev l (ext_edges ts) o t) (n_deps t))
        (omap (box_of lev l o) l))
    end
  end.

(** ** Correctness of the levels *)

Section lvl.
Context (m : gmap jstr node).

(** A level is one more than the greatest level of what the node waits for. *)
Definition level_val (lev : gmap jstr nat) (x : jstr) (n : nat) : Prop :=
  (forall d, d ∈ present m x -> exists k, lev !! d = Some k /\ k < n) /\
  (n = 0 \/ exists d, d ∈ present m x /\ lev !! d = Some (n - 1)).
Definition level_ok (lev : gmap jstr nat) : Prop := forall x n, lev !! x = Some n -> level_val lev x n.

Definition seen_ok (P : jstr -> Prop) (lev : gmap jstr nat) (seen : gset jstr) : Prop :=
  forall x, x ∈ seen -> is_Some (lev !! x) \/ P x.

Lemma present_edge x d : d ∈ present m x -> edge m x d.
Proof.
  unfold present. destruct (m !! x) as [t|] eqn:E; [|by intros ?%not_elem_of_nil].
  intros [Hd Hin]%list_elem_of_filter. by exists t.
Qed.

Lemma level_val_unique lev x n k : level_val lev x n -> level_val lev x k -> n = k.
Proof.
  intros [A1 A2] [B1 B2].
  assert (Hle : forall a b, level_val lev x a -> level_val lev x b -> a <= b).
  { intros a b [_ [->|(d & Hd & E)]] [H _]; [lia|]. destruct (H d Hd) as (c & Ec & Hc).
    rewrite E in Ec. simplify_eq. lia. }
  apply Nat.le_antisymm; by apply Hle.
Qed.

Lemma level_val_mono lev lev' x n : lev ⊆ lev' -> level_val lev x n -> level_val lev' x n.
Proof.
  intros Hs [H1 H2]. split.
  - intros d Hd. destruct (H1 d Hd) as (k & E & Hk). exists k. split; [|done].
    by eapply lookup_weaken.
  - destruct H2 as [->|(d & Hd & E)]; [by left|right]. exists d. split; [done|].
    by eapply lookup_weaken.
Qed.

Lemma level_ok_insert lev x n :
  level_ok lev -> level_val lev x n -> lev ⊆ <[x := n]> lev /\ level_ok (<[x := n]> lev).
Proof.
  intros Hl Hx. assert (Hs : lev ⊆ <[x := n]> lev).
  { destruct (lev !! x) as [k|] eqn:E; [|by apply insert_subseteq].
    rewrite insert_id; [done|]. by rewrite E, (level_val_unique lev x k n) by auto. }
  split; [done|]. intros y k. intros [[<- <-]|[_ E]]%lookup_insert_Some;
    (eapply level_val_mono; [exact Hs|]); [done|by apply Hl].
Qed.

(** What a call adds, when no node of [P] is reachable from [id] and back. *)
Definition lvl_post (P : jstr -> Prop) (lev : gmap jstr nat) (id : jstr) (r : nat * lvl_state) : Prop :=
  lev ⊆ r.2.1 /\ level_ok r.2.1 /\ seen_ok P r.2.1 r.2.2 /\ r.2.1 !! id = Some r.1.

(** What the calls for the dependencies [ds] of [id] add. *)
Definition deps_post (P : jstr -> Prop) (lev : gmap jstr nat) (id : jstr) (ds : list jstr)
    (r : nat * lvl_state) : Prop :=
  lev ⊆ r.2.1 /\ level_ok r.2.1 /\ seen_ok (fun x => P x \/ x = id) r.2.1 r.2.2 /\
  (forall d, d ∈ ds -> exists k, r.2.1 !! d = Some k /\ k <= r.1) /\
  (ds = [] -> r.1 = 0) /\ (ds <> [] -> exists d, d ∈ ds /\ r.2.1 !! d = Some r.1).

Lemma lvl_finish P lev id r :
  deps_post P lev id (present m id) r ->
  lvl_post P lev id (match present m id with [] => 0 | _ => S r.1 end,
    (<[id := match present m id with [] => 0 | _ => S r.1 end]> r.2.1, r.2.2)).
Proof.
  destruct r as [mx [lev2 seen2]]. unfold deps_post, lvl_post; simpl.
  intros (Hs & Hl & Hseen & Hb & _ & Ht). set (n := match present m id with [] => 0 | _ => S mx end).
  assert (Hv : level_val lev2 id n).
  { unfold n. destruct (present m id) as [|d0 ds] eqn:Ed.
    - split; [rewrite Ed; by intros d ?%not_elem_of_nil|by left].
    - split; rewrite Ed.
      + intros d Hd. destruct (Hb d Hd) as (k & E & Hk). exists k. split; [done|lia].
      + right. destruct (Ht ltac:(done)) as (d & Hd & E). exists d. split; [done|].
        rewrite E. f_equal. lia. }
  destruct (level_ok_insert lev2 id n Hl Hv) as [Hs2 Hl2]. split_and!.
  - by etransitivity.
  - done.
  - intros x Hx. destruct (Hseen x Hx) as [[k Hk]|[HP|Heq]]; [left|by right|left].
    + exists k. by eapply lookup_weaken.
    + subst x. rewrite lookup_insert_eq. by eexists.
  - by rewrite lookup_insert_eq.
Qed.

Context (Hac : forall x, ~ tc (edge m) x x).

Lemma lvl_spec fuel P id lev seen r :
  lvl m fuel id (lev, seen) = Some r -> level_ok lev -> seen_ok P lev seen ->
  (forall x, P x -> tc (edge m) x id) -> lvl_post P lev id r.
Proof using Hac.
  revert P id lev seen r. induction fuel as [|f IH]; intros P id lev seen r E Hl Hseen HP; [done|].
  cbn [lvl fst snd] in E. destruct (lev !! id) as [n|] eqn:En; [by simplify_eq|].
  case_bool_decide as Hin.
  { destruct (Hseen id Hin) as [[k Hk]|Hp]; [congruence|]. by destruct (Hac id (HP id Hp)). }
  destruct (foldM _ (present m id) _) as [[mx [lev2 seen2]]|] eqn:Ef; [|done]. injection E as <-.
  apply (lvl_finish P lev id (mx, (lev2, seen2))).
  revert Ef. apply (foldM_ind _ (deps_post P lev id)).
  - unfold deps_post; simpl. split_and!; [done|done| |by intros d ?%not_elem_of_nil|done|done].
    intros x [Hx|Hx]%elem_of_union; [right; right; set_solver|].
    destruct (Hseen x Hx); [by left|by right; left].
  - intros done d [mx1 [lev1 seen1]] r2 Hd (Hs1 & Hl1 & Hsn1 & Hb1 & Hz1 & Ht1) Ed; simpl in *.
    destruct (lvl m f d (lev1, seen1)) as [[k [lev3 seen3]]|] eqn:El; [|done]. injection Ed as <-.
    destruct (IH (fun x => P x \/ x = id) d lev1 seen1 _ El Hl1 Hsn1) as (Hs3 & Hl3 & Hsn3 & Hk).
    { intros x [Hp| ->]; [eapply tc_r; [by apply HP|]|apply tc_once]; by apply present_edge. }
    unfold deps_post; simpl in *. split_and!; [by etransitivity|done|done| |by destruct done|].
    + intros y [Hy| ->%list_elem_of_singleton]%elem_of_app.
      * destruct (Hb1 y Hy) as (j & Ej & Hj). exists j. split; [by eapply lookup_weaken|lia].
      * exists k. split; [done|lia].
    + intros _. destruct (Nat.max_spec mx1 k) as [[_ ->]|[Hle ->]]; [exists d; set_solver|].
      destruct done as [|d1 ds1]; [|by destruct Ht1 as (y & Hy & Ey); [done|];
        exists y; split; [set_solver|by eapply lookup_weaken]].
      exists d. split; [set_solver|]. rewrite Hz1 in * by done. rewrite Hk. f_equal. lia.
Qed.
End lvl.

(** A call returns: each nested call sees one more node. *)
Lemma lvl_total m fuel id lev seen :
  is_Some (m !! id) -> size (dom m ∖ seen) < fuel ->
  exists n lev' seen', lvl m fuel id (lev, seen) = Some (n, (lev', seen')) /\ seen ⊆ seen'.
Proof.
  revert id lev seen; induction fuel as [|f IH]; intros id lev seen Hid Hf; [lia|].
  cbn [lvl fst snd]. destruct (lev !! id) as [n|]; [by exists n, lev, seen|].
  case_bool_decide as Hin; [by exists 0, lev, seen|].
  assert (Hlt : size (dom m ∖ ({[id]} ∪ seen)) < f).
  { apply elem_of_dom in Hid. eapply Nat.lt_le_trans; [apply subset_size|apply Nat.lt_succ_r, Hf].
    set_solver. }
  edestruct (foldM_total (fun d (acc : nat * lvl_state) => match lvl m f d acc.2 with
      | Some (n, s) => Some (Nat.max acc.1 n, s) | None => None end)
    (fun acc => {[id]} ∪ seen ⊆ acc.2.2) (present m id) (0, (lev, {[id]} ∪ seen)))
    as ([mx [lev2 seen2]] & E & Hs); [done| |].
  - intros d [mx [lev1 seen1]] Hd Hs; simpl in *.
    destruct (IH d lev1 seen1) as (n & lev' & seen' & E & Hs').
    + apply present_edge in Hd as (t & _ & _ & Hd). done.
    + eapply Nat.le_lt_trans; [|exact Hlt]. apply subseteq_size. set_solver.
    + rewrite E. eexists. split; [done|]. simpl. set_solver.
  - rewrite E. do 3 eexists. split; [done|]. simpl in *. set_solver.
Qed.

Lemma graph_of_Some l i : i ∈ n_id <$> l <-> is_Some (graph_of l !! i).
Proof.
  unfold graph_of. rewrite byId_is_Some, <- list_fmap_compose. done.
Qed.

Lemma graph_of_size l : size (dom (graph_of l) ∖ ∅) < S (length l).
Proof.
  pose proof (whites_le ((fun n => Node (n_id n) (n_deps n)) <$> l) (Dfs ∅ false)) as H.
  unfold whites in H. simpl in H. rewrite dom_empty_L, length_fmap in H. unfold graph_of. lia.
Qed.

(** All levels are computed, and are right when there is no cycle. *)
Lemma levels_spec l :
  exists lev, levels l = Some lev /\
    ((forall x, ~ tc (edge (graph_of l)) x x) ->
     level_ok (graph_of l) lev /\ forall i, i ∈ n_id <$> l -> is_Some (lev !! i)).
Proof.
  unfold levels. set (m := graph_of l).
  destruct (foldM_total (fun n lev => match lvl m (S (length l)) (n_id n) (lev, ∅) with
      | Some (_, s) => Some s.1 | None => None end) (fun _ => True) l ∅) as (lev & E & _); [done| |].
  { intros n lev Hn _. destruct (lvl_total m (S (length l)) (n_id n) lev ∅) as (k & lev' & s' & -> & _).
    - apply graph_of_Some. by apply list_elem_of_fmap_2.
    - apply graph_of_size.
    - by eexists. }
  exists lev. split; [done|]. intros Hac.
  cut (level_ok m lev /\ forall n, n ∈ l -> is_Some (lev !! n_id n)).
  { intros [H1 H2]. split; [done|]. intros i (n & -> & Hn)%list_elem_of_fmap. by apply H2. }
  revert E. apply (foldM_ind _ (fun done lev => level_ok m lev /\ forall n, n ∈ done -> is_Some (lev !! n_id n))).
  - split; [by intros x n ?|]. by intros n ?%not_elem_of_nil.
  - intros done n lev1 lev2 Hn [Hl Hd] E.
    destruct (lvl m (S (length l)) (n_id n) (lev1, ∅)) as [[k [lev' s']]|] eqn:El; [|done].
    injection E as <-.
    destruct (lvl_spec m Hac _ (fun _ => False) _ _ _ _ El Hl) as (Hs & Hl' & _ & Hk); [set_solver|done|].
    simpl in *. split; [done|]. intros x [Hx| ->%list_elem_of_singleton]%elem_of_app; [|by eexists].
    destruct (Hd x Hx) as [j Hj]. exists j. by eapply lookup_weaken.
Qed.

(** ** Correctness of the positions *)

Lemma row_of_spec lev l i :
  i ∈ n_id <$> l ->
  exists k, row_of lev l i = Some k /\ column lev l (level_of lev i) !! k = Some i.
Proof.
  intros Hi. unfold row_of. set (c := column lev l (level_of lev i)).
  assert (Hc : i ∈ c) by (apply list_elem_of_filter; done).
  destruct (List.find _ _) as [[j k]|] eqn:E.
  - apply List.find_some in E as [Hin Hj]. cbn [fst] in Hj. apply bool_decide_eq_true in Hj as ->.
    apply list_elem_of_In, elem_of_reverse, elem_of_lookup_imap in Hin as (k' & j & Ejk & Hk).
    injection Ejk as -> ->. by exists k'.
  - exfalso. apply list_elem_of_lookup in Hc as [k Hk].
    eapply List.find_none in E; [|apply list_elem_of_In, elem_of_reverse;
      apply (elem_of_lookup_imap_2 (fun k j => (j, k)) c i k Hk)].
    simpl in E. by apply bool_decide_eq_false in E.
Qed.

Lemma max_list_ge l x : x ∈ l -> x <= max_list l.
Proof. induction l as [|y l IH]; [by intros ?%not_elem_of_nil|]. simpl. intros [->|?%IH]%elem_of_cons; lia. Qed.

Lemma pos_spec lev l i :
  i ∈ n_id <$> l ->
  exists k, pos lev l i = Some (PAD + Z.of_nat (level_of lev i) * CG, PAD + Z.of_nat k * RG)%Z /\
    column lev l (level_of lev i) !! k = Some i /\ level_of lev i <= maxL lev l /\ S k <= maxR lev l.
Proof.
  intros Hi. destruct (row_of_spec lev l i Hi) as (k & E & Hk). exists k. unfold pos. rewrite E.
  split_and!; [done|done| |].
  - by apply max_list_ge, list_elem_of_fmap_2.
  - apply lookup_lt_Some in Hk. etransitivity; [exact Hk|].
    apply max_list_ge. by apply (list_elem_of_fmap_2 (fun j => length (column lev l (level_of lev j)))).
Qed.

(** ** The whole picture *)

Lemma stubs_snoc ts t : stubs (ts ++ [t]) = add_stub (stubs ts) t.
Proof. unfold stubs. by rewrite foldl_app. Qed.

Lemma stubs_spec ts :
  NoDup (n_id <$> stubs ts) /\
  (forall n, n ∈ stubs ts -> n_deps n = [] /\ exists ext, n_id n = EXT ++ ext) /\
  (forall t, t ∈ ts -> g_dod t <> [] -> EXT ++ g_dod t ∈ n_id <$> stubs ts).
Proof.
  induction ts as [|t ts (IH1 & IH2 & IH3)] using rev_ind.
  { split_and!; [constructor|by intros n ?%not_elem_of_nil..]. }
  rewrite stubs_snoc. unfold add_stub. destruct (g_dod t) as [|c ext] eqn:Ed.
  - split_and!; [done|done|]. intros u [Hu| ->%list_elem_of_singleton]%elem_of_app; [auto|done].
  - case_bool_decide as Hin.
    + split_and!; [done|done|]. intros u [Hu| ->%list_elem_of_singleton]%elem_of_app; [auto|].
      by rewrite Ed.
    + rewrite fmap_snoc. split_and!.
      * by apply NoDup_snoc.
      * intros n [Hn| ->%list_elem_of_singleton]%elem_of_app; [auto|]. split; [done|by eexists].
      * intros u [Hu| ->%list_elem_of_singleton]%elem_of_app Hne; [set_solver|].
        rewrite Ed. set_solver.
Qed.

Section picture.
Context (ts : list gtask).
Context (Hnd : NoDup (g_id <$> ts)) (Hext : Forall (fun t => starts_with EXT (g_id t) = false) ts).
Context (Hac : acyclic ((fun t => Node (g_id t) (g_deps t)) <$> ts)).

Lemma ids_all : n_id <$> all_nodes ts = (n_id <$> stubs ts) ++ (g_id <$> ts).
Proof using. unfold all_nodes. rewrite fmap_app, <- list_fmap_compose. done. Qed.

Lemma task_not_stub t e : t ∈ ts -> g_id t <> EXT ++ e.
Proof using Hext.
  intros Ht E. rewrite Forall_forall in Hext. specialize (Hext t Ht). rewrite E in Hext.
  unfold starts_with in Hext. by rewrite strip_prefix_app in Hext.
Qed.

Lemma stub_not_task n : n ∈ stubs ts -> n_id n ∉ g_id <$> ts.
Proof using Hext.
  destruct (stubs_spec ts) as (_ & H & _). intros Hn (t & E & Ht)%list_elem_of_fmap.
  destruct (H n Hn) as (_ & e & Ee). by apply (task_not_stub t e Ht); congruence.
Qed.

Lemma NoDup_all : NoDup (n_id <$> all_nodes ts).
Proof using Hnd Hext.
  rewrite ids_all. apply NoDup_app. split_and!; [apply stubs_spec| |done].
  intros x (n & -> & Hn)%list_elem_of_fmap. by apply stub_not_task.
Qed.

Lemma edge_all x y :
  edge (graph_of (all_nodes ts)) x y ->
  exists n, n ∈ all_nodes ts /\ n_id n = x /\ y ∈ n_deps n /\ y ∈ n_id <$> all_nodes ts.
Proof using.
  intros (t & Ht & <- & Hy & Hd)%edge_waits. apply list_elem_of_fmap in Ht as (n & -> & Hn).
  exists n. rewrite <- list_fmap_compose in Hd. done.
Qed.

Lemma all_acyclic x : ~ tc (edge (graph_of (all_nodes ts))) x x.
Proof using Hnd Hext Hac.
  assert (Hstub : forall x, x ∉ g_id <$> ts -> Acc (flip (edge (graph_of (all_nodes ts)))) x).
  { intros z Hz. constructor. intros y (n & Hn & <- & Hy & _)%edge_all.
    apply elem_of_app in Hn as [Hn|(t & -> & Ht)%list_elem_of_fmap].
    - destruct (stubs_spec ts) as (_ & H & _). destruct (H n Hn) as [E _]. rewrite E in Hy.
      by apply not_elem_of_nil in Hy.
    - destruct Hz. exact (list_elem_of_fmap_2 g_id _ _ Ht). }
  apply Acc_no_loop. induction (Hac x) as [x _ IH]. constructor.
  intros y Hxy. destruct (decide (y ∈ g_id <$> ts)) as [Hy|Hy]; [|by apply Hstub].
  apply IH. apply edge_all in Hxy as (n & Hn & <- & Hyd & _).
  apply waits_edge; [by rewrite <- list_fmap_compose|].
  apply elem_of_app in Hn as [Hn|(t & -> & Ht)%list_elem_of_fmap].
  - destruct (stubs_spec ts) as (_ & H & _). destruct (H n Hn) as [E _]. rewrite E in Hyd.
    by apply not_elem_of_nil in Hyd.
  - exists (Node (g_id t) (g_deps t)). split_and!; [by apply (list_elem_of_fmap_2 (fun t => Node (g_id t) (g_deps t)))|done| |].
    + simpl in Hyd. apply elem_of_app in Hyd as [Hyd|Hyd]; [done|].
      destruct (g_dod t) as [|c e]; [by apply not_elem_of_nil in Hyd|].
      apply list_elem_of_singleton in Hyd as ->. apply list_elem_of_fmap in Hy as (u & Eu & Hu).
      exfalso. exact (task_not_stub u (c :: e) Hu (eq_sym Eu)).
    + by rewrite <- list_fmap_compose.
Qed.

(** The levels of the picture: every edge goes to a lower level. *)
Lemma picture_levels :
  exists lev, levels (all_nodes ts) = Some lev /\
    forall n d, n ∈ all_nodes ts -> d ∈ n_deps n -> d ∈ n_id <$> all_nodes ts ->
      S (level_of lev d) <= level_of lev (n_id n).
Proof using Hnd Hext Hac.
  destruct (levels_spec (all_nodes ts)) as (lev & E & H). destruct (H all_acyclic) as [Hl Hd].
  exists lev. split; [done|]. intros n d Hn Hdn Hin.
  destruct (Hd (n_id n)) as [k Hk]; [by apply list_elem_of_fmap_2|].
  destruct (Hl _ _ Hk) as [Hv _]. destruct (Hv d) as (j & Ej & Hj).
  - unfold present, graph_of.
    pose proof (byId_NoDup ((fun n => Node (n_id n) (n_deps n)) <$> all_nodes ts) (Node (n_id n) (n_deps n))) as Hb.
    simpl in Hb. rewrite Hb; [|by rewrite <- list_fmap_compose; apply NoDup_all|
      by apply (list_elem_of_fmap_2 (fun n => Node (n_id n) (n_deps n)))].
    apply list_elem_of_filter. split; [by apply graph_of_Some|done].
  - unfold level_of. rewrite Hk, Ej. simpl. lia.
Qed.
End picture.

Lemma pos_inj lev l i j p q :
  i ∈ n_id <$> l -> j ∈ n_id <$> l -> i <> j -> pos lev l i = Some p -> pos lev l j = Some q ->
  (Z.abs (p.1 - q.1) >= CG \/ Z.abs (p.2 - q.2) >= RG)%Z.
Proof.
  intros Hi Hj Hne Ep Eq. destruct (pos_spec lev l i Hi) as (k & Ek & Hk & _).
  destruct (pos_spec lev l j Hj) as (k' & Ek' & Hk' & _). rewrite Ek in Ep. rewrite Ek' in Eq.
  simplify_eq; simpl. unfold CG, RG. destruct (decide (level_of lev i = level_of lev j)) as [E|E]; [|lia].
  rewrite E in Hk. right. assert (k <> k') by (intros ->; congruence). lia.
Qed.

Lemma edge_to_spec lev l ext o t d e :
  t ∈ l -> d ∈ n_id <$> l -> S (level_of lev d) <= level_of lev (n_id t) ->
  edge_to lev l ext o t d = Some e ->
  e_from e = d /\ e_to e = n_id t /\ (e_x1 e + 50 <= e_x2 e)%Z /\ (e_x1 e < e_mx e < e_x2 e)%Z.
Proof.
  intros Ht Hd Hl E. unfold edge_to in E.
  destruct (pos_spec lev l d Hd) as (k & Ek & _).
  destruct (pos_spec lev l (n_id t)) as (k' & Ek' & _); [by apply list_elem_of_fmap_2|].
  rewrite Ek, Ek' in E. injection E as <-. cbn [e_from e_to e_x1 e_x2 e_mx].
  unfold PAD, CG, NW. split_and!; [done|done|lia|..].
  - apply Z.lt_le_trans with (16 + Z.of_nat (level_of lev d) * 200 + 150 + 1)%Z; [lia|].
    apply Z.div_le_lower_bound; lia.
  - apply Z.div_lt_upper_bound; lia.
Qed.

Lemma pos_elem lev l i p : pos lev l i = Some p -> i ∈ n_id <$> l.
Proof.
  unfold pos, row_of. destruct (List.find _ _) as [[j k]|] eqn:E; [|done]. intros _.
  apply List.find_some in E as [Hin Hj]. cbn [fst] in Hj. apply bool_decide_eq_true in Hj as ->.
  apply list_elem_of_In, elem_of_reverse, elem_of_lookup_imap in Hin as (k' & j & Ejk & Hk).
  injection Ejk as -> ->. apply list_elem_of_lookup_2 in Hk. unfold column in Hk.
  by apply list_elem_of_filter in Hk as [_ Hk].
Qed.

Lemma box_elem lev l o b :
  b ∈ omap (box_of lev l o) l -> b_node b ∈ l /\ pos lev l (n_id (b_node b)) = Some (b_x b, b_y b).
Proof.
  intros (n & Hn & E)%list_elem_of_omap. unfold box_of in E.
  destruct (pos lev l (n_id n)) as [[x y]|] eqn:Ep; [|done]. by injection E as <-.
Qed.

Lemma boxes_all lev l o : b_node <$> omap (box_of lev l o) l = l.
Proof.
  assert (H : forall k, k ⊆ l -> b_node <$> omap (box_of lev l o) k = k); [|by apply H].
  induction k as [|n k IH]; intros Hs; [done|].
  destruct (pos_spec lev l (n_id n)) as (r & E & _); [apply list_elem_of_fmap_2; set_solver|].
  assert (En : box_of lev l o n = Some (GBox n (PAD + Z.of_nat (level_of lev (n_id n)) * CG)
    (PAD + Z.of_nat r * RG) (bool_decide (n_ext n = None) && bool_decide (o_pending o = Some (n_id n)))
    (bool_decide (n_ext n = None) && o_editable o))) by (unfold box_of; by rewrite E).
  cbn [omap list_omap]. rewrite En, fmap_cons. f_equal. apply IH. set_solver.
Qed.

(** The edges drawn: those of dependencies that are in the picture. *)
Definition edges_of lev l ext o : list gedge :=
  l ≫= fun t => omap (edge_to lev l ext o t) (n_deps t).

Lemma edge_elem lev l ext o e :
  e ∈ edges_of lev l ext o ->
  exists n d, n ∈ l /\ d ∈ n_deps n /\ d ∈ n_id <$> l /\ edge_to lev l ext o n d = Some e.
Proof.
  intros (n & He & Hn)%list_elem_of_bind. apply list_elem_of_omap in He as (d & Hd & Ee).
  exists n, d. split_and!; try done. unfold edge_to in Ee.
  destruct (pos lev l d) as [p|] eqn:Ep; [|done]. by eapply pos_elem.
Qed.

Lemma edge_drawn lev l ext o n d :
  n ∈ l -> d ∈ n_deps n -> d ∈ n_id <$> l ->
  exists e, e ∈ edges_of lev l ext o /\ e_from e = d /\ e_to e = n_id n /\
    e_dashed e = bool_decide (ext_key d (n_id n) ∈ ext).
Proof.
  intros Hn Hd Hin. destruct (pos_spec lev l (n_id n)) as (k & Ek & _); [by apply list_elem_of_fmap_2|].
  destruct (pos_spec lev l d Hin) as (k' & Ek' & _).
  assert (exists e, edge_to lev l ext o n d = Some e /\ e_from e = d /\ e_to e = n_id n /\
    e_dashed e = bool_decide (ext_key d (n_id n) ∈ ext)) as (e & Ee & H).
  { unfold edge_to. rewrite Ek, Ek'. by eexists. }
  exists e. split; [|done]. apply list_elem_of_bind. exists n. split; [|done].
  apply list_elem_of_omap. by exists d.
Qed.

Lemma task_in_all ts t : t ∈ ts -> task_node t ∈ all_nodes ts.
Proof. intros Ht. apply elem_of_app. right. by apply list_elem_of_fmap_2. Qed.

Definition boxes_apart (b c : gbox) : Prop :=
  (Z.abs (b_x b - b_x c) >= NW + 50 \/ Z.abs (b_y b - b_y c) >= NH + 16)%Z.


Definition sample_graph : list gtask :=
  [GTask (lit "load") [lit "extract"] (lit "upstream") []; GTask (lit "extract") [] [] [];
   GTask (lit "report") [lit "load"; lit "extract"] [] (lit "child")].

