(* ===== verification/DictData.v ===== *)
(** * The two dictionaries of the console (base.js, [DICT])

    Every entry of [DICT.zh] and [DICT.en], in source order: its key, the number
    of parameters (0 for a plain string), and its text as pieces. *)

From S2P Require Import Prelude JsCore.

(** A piece of text: literal, a parameter, or a choice on [n > k]. *)
Inductive piece :=
| Txt (s : jstr)
| Arg (n : nat)
| IfGt (n : nat) (k : N) (yes no : list piece).

Definition dict : Type := list (jstr * (nat * list piece)).

(** Lines 40 to 139. *)
Definition DICT_zh_1 : dict :=
[
  (lit "workspace", (0, [Txt (lit "工作区")]));
  (lit "nav_dags", (0, [Txt (lit "工作流")]));
  (lit "newdag", (0, [Txt (lit "+ 新建工作流")]));
  (lit "f_all", (0, [Txt (lit "全部")]));
  (lit "f_running", (0, [Txt (lit "运行中")]));
  (lit "f_failed", (0, [Txt (lit "失败")]));
  (lit "f_paused", (0, [Txt (lit "已暂停")]));
  (lit "dags_sub", (0, [Txt (lit "点击名称查看运行记录和结构；用左侧开关暂停 / 恢复自动调度。")]));
  (lit "ov_fail_title", (1, [Arg 0; Txt (lit " 最近一次运行失败")]));
  (lit "ov_fail_more", (1, [Txt (lit "另有 "); Arg 0; Txt (lit " 个工作流也在失败")]));
  (lit "ov_rest_ok", (1, [Txt (lit "其余 "); Arg 0; Txt (lit " 个工作流一切正常")]));
  (lit "ov_all_ok", (0, [Txt (lit "所有工作流运行正常")]));
  (lit "ov_last_run", (1, [Txt (lit "最近一次运行 "); Arg 0]));
  (lit "ov_running", (0, [Txt (lit "运行中")]));
  (lit "ov_running_tip", (0, [Txt (lit "正在执行的运行数")]));
  (lit "ov_rate", (0, [Txt (lit "近期成功率")]));
  (lit "ov_go", (0, [Txt (lit "去处理 →")]));
  (lit "hlp_dag", (0, [Txt ((lit "<b>工作流（DAG）</b>= 一组按依赖顺序自动执行的任务，加上「什么时候跑」的调度规则。<span class=" ++ [34%N] ++ lit "eg" ++ [34%N] ++ lit ">例如：每天 2 点，先取数 → 再加工 → 最后写入。</span>"))]));
  (lit "hlp_toggle", (0, [Txt (lit "<b>调度开关。</b>关掉后不再自动运行（手动触发仍可用），历史全部保留，随时可恢复。")]));
  (lit "hlp_spark", (0, [Txt ((lit "每一格是一次运行：<b class=" ++ [34%N] ++ lit "ok" ++ [34%N] ++ lit ">绿</b>=成功、<b class=" ++ [34%N] ++ lit "bad" ++ [34%N] ++ lit ">红</b>=失败、<b class=" ++ [34%N] ++ lit "run" ++ [34%N] ++ lit ">蓝</b>=进行中，越高耗时越长。悬停看详情。"))]));
  (lit "hlp_next", (0, [Txt (lit "按调度规则算出的下一次自动运行时间。「就绪」= 正在等一个空闲槽位。")]));
  (lit "hlp_rate", (0, [Txt (lit "最近运行中成功的比例（每个工作流最多统计 14 次，跳过和取消不计入）。")]));
  (lit "toggle_tip_on", (0, [Txt (lit "已启用 —— 点击暂停自动调度")]));
  (lit "toggle_tip_off", (0, [Txt (lit "已暂停 —— 点击恢复自动调度")]));
  (lit "btn_run_word", (0, [Txt (lit "运行")]));
  (lit "run_now_tip", (0, [Txt (lit "立即手动运行一次，不影响原有调度")]));
  (lit "day_today", (0, [Txt (lit "今天")]));
  (lit "day_yesterday", (0, [Txt (lit "昨天")]));
  (lit "h_dag", (0, [Txt (lit "工作流")]));
  (lit "h_spark", (0, [Txt (lit "最近 14 次")]));
  (lit "h_pool", (0, [Txt (lit "POOL")]));
  (lit "h_next", (0, [Txt (lit "下次运行")]));
  (lit "no_match", (0, [Txt (lit "没有匹配的工作流")]));
  (lit "no_match_filter", (0, [Txt (lit "这个筛选下没有工作流")]));
  (lit "no_dags_title", (0, [Txt (lit "还没有工作流")]));
  (lit "no_dags_sub", (0, [Txt (lit "创建第一个工作流，开始调度任务。")]));
  (lit "trigger", (0, [Txt (lit "触发")]));
  (lit "manual_trigger", (0, [Txt (lit "手动触发")]));
  (lit "back_dags", (0, [Txt (lit "← 工作流")]));
  (lit "run_word", (0, [Txt (lit "run")]));
  (lit "sub_manual", (0, [Txt (lit "仅手动触发")]));
  (lit "max_active", (0, [Txt (lit "最大并发")]));
  (lit "run_progress", (0, [Txt (lit "进度")]));
  (lit "sec_graph", (0, [Txt (lit "依赖图")]));
  (lit "sec_structure", (0, [Txt (lit "结构")]));
  (lit "sec_runs", (0, [Txt (lit "运行历史")]));
  (lit "sec_instances", (0, [Txt (lit "任务实例")]));
  (lit "g_timeline", (0, [Txt (lit "时间线")]));
  (lit "g_never_ran", (0, [Txt (lit "未运行")]));
  (lit "run_no_tasks", (0, [Txt (lit "该运行暂无任务实例")]));
  (lit "run_done_ok", (0, [Txt (lit "运行成功完成")]));
  (lit "run_done_fail", (0, [Txt (lit "运行失败")]));
  (lit "run_done_timeout", (0, [Txt (lit "运行超时")]));
  (lit "run_cancel", (0, [Txt (lit "取消运行")]));
  (lit "run_retry", (0, [Txt (lit "重跑失败")]));
  (lit "task_retry", (0, [Txt (lit "重跑")]));
  (lit "run_cancelled_toast", (0, [Txt (lit "运行已取消")]));
  (lit "run_retried_toast", (0, [Txt (lit "已重新排队")]));
  (lit "task_mark", (0, [Txt (lit "标记状态")]));
  (lit "run_mark", (0, [Txt (lit "标记运行")]));
  (lit "mark_skip", (0, [Txt (lit "跳过")]));
  (lit "mark_done_toast", (0, [Txt (lit "已标记")]));
  (lit "mark_task_title", (1, [Txt (lit "标记任务“"); Arg 0; Txt (lit "”为?")]));
  (lit "mark_task_body", (0, [Txt (lit "手动覆盖任务状态。运行中的任务会先被终止;标记成功/跳过会放行被它阻塞的下游。")]));
  (lit "mark_run_title", (1, [Txt (lit "标记运行“"); Arg 0; Txt (lit "”为?")]));
  (lit "mark_run_body", (0, [Txt (lit "覆盖已结束运行的最终状态(不改动任务)。标记成功会触发下游工作流。")]));
  (lit "confirm_cancel_title", (1, [Txt (lit "取消运行“"); Arg 0; Txt (lit "”?")]));
  (lit "confirm_cancel_body", (0, [Txt (lit "正在运行的任务会被终止。")]));
  (lit "th_act", (0, [Txt (lit "操作")]));
  (lit "confirm_retry_title", (1, [Txt (lit "重跑“"); Arg 0; Txt (lit "”?")]));
  (lit "confirm_retry_body", (0, [Txt (lit "该任务及其所有下游任务会被重置并重新运行。")]));
  (lit "copied", (0, [Txt (lit "已复制")]));
  (lit "copy_fail", (0, [Txt (lit "复制失败，请手动选择文本")]));
  (lit "copy_hint", (0, [Txt (lit "点击复制")]));
  (lit "search_ph", (0, [Txt (lit "搜索工作流…")]));
  (lit "jump_open", (0, [Txt (lit "打开")]));
  (lit "jump_none", (0, [Txt (lit "无匹配工作流")]));
  (lit "gz_in", (0, [Txt (lit "放大")]));
  (lit "gz_out", (0, [Txt (lit "缩小")]));
  (lit "gz_fit", (0, [Txt (lit "适应视图")]));
  (lit "gz_hint", (0, [Txt (lit "拖拽平移 · Ctrl/⌘+滚轮缩放")]));
  (lit "login_title", (0, [Txt (lit "登录 cronova")]));
  (lit "login_sub", (0, [Txt (lit "请输入你的账户凭据")]));
  (lit "login_user", (0, [Txt (lit "用户名")]));
  (lit "login_pass", (0, [Txt (lit "密码")]));
  (lit "login_btn", (0, [Txt (lit "登录")]));
  (lit "login_bad", (0, [Txt (lit "用户名或密码错误")]));
  (lit "logout", (0, [Txt (lit "登出")]));
  (lit "sess_expired", (0, [Txt (lit "会话已过期，请重新登录")]));
  (lit "role_admin", (0, [Txt (lit "管理员")]));
  (lit "role_viewer", (0, [Txt (lit "只读")]));
  (lit "tab_runs", (0, [Txt (lit "运行")]));
  (lit "tab_structure", (0, [Txt (lit "结构")]));
  (lit "tab_settings", (0, [Txt (lit "设置")]));
  (lit "dh_last", (0, [Txt (lit "上次运行")]));
  (lit "dh_next", (0, [Txt (lit "调度")]));
  (lit "dh_rate", (0, [Txt (lit "近期成功率")]));
  (lit "dh_never", (0, [Txt (lit "还没有运行")]));
  (lit "dh_norate", (0, [Txt (lit "—")]));
  (lit "set_done", (0, [Txt (lit "完成")]));
  (lit "set_edit", (0, [Txt (lit "编辑")]));
  (lit "set_none", (0, [Txt (lit "无")]));
  (lit "set_sched", (0, [Txt (lit "调度")]));
  (lit "set_max", (0, [Txt (lit "最大并发")]));
  (lit "set_retries", (0, [Txt (lit "默认重试")]));
  (lit "set_deps", (0, [Txt (lit "上游依赖")]));
  (lit "set_deps_hint", (0, [Txt (lit "上游工作流成功后自动触发本工作流")]));
  (lit "set_no_deps_avail", (0, [Txt (lit "暂无其他工作流可选")]));
  (lit "set_notify", (0, [Txt (lit "通知")]));
  (lit "set_notify_hint", (0, [Txt (lit "运行结束后向 Webhook 发送 JSON（兼容 Slack/飞书/Discord），或引用告警组一次通知多个渠道")]));
  (lit "notify_failure", (0, [Txt (lit "失败")]));
  (lit "notify_success", (0, [Txt (lit "成功")]));
  (lit "notify_off", (0, [Txt (lit "未选择事件")]));
  (lit "notify_need_url", (0, [Txt (lit "先填写 Webhook URL 或选择告警组，再选择触发事件")]));
  (lit "err_notify_url", (0, [Txt (lit "通知 URL 必须以 http://、https:// 或 mailto: 开头")]));
  (lit "nf_label", (0, [Txt (lit "消息格式")]));
  (lit "nf_hint", (0, [Txt (lit "raw = 完整 JSON 载荷;其余按平台的入群机器人格式包装摘要文本;email 供 mailto: 地址使用")]));
  (lit "nf_feishu", (0, [Txt (lit "飞书")]));
  (lit "nf_dingtalk", (0, [Txt (lit "钉钉")]));
  (lit "nf_email", (0, [Txt (lit "邮件")]));
  (lit "set_group", (0, [Txt (lit "告警组")]));
  (lit "ag_group_none", (0, [Txt (lit "不使用告警组")]));
  (lit "ag_opt_missing", (1, [Arg 0; Txt (lit "（不存在）")]));
  (lit "ag_url_overridden", (0, [Txt (lit "已选择告警组，单独 URL 将被忽略")]));
  (lit "notify_mailto_hint", (0, [Txt (lit "URL 也支持 mailto:地址1,地址2（需在服务端配置 smtp: 后才能发信）")]));
  (lit "btn_backfill", (0, [Txt (lit "回填")]));
  (lit "bf_hint", (0, [Txt (lit "为区间内每个调度周期补建一次运行(含首尾;已存在的周期自动跳过,执行受最大并发限制)")]));
  (lit "bf_from", (0, [Txt (lit "开始日期")]));
  (lit "bf_to", (0, [Txt (lit "结束日期")]));
  (lit "bf_go", (0, [Txt (lit "开始回填")]));
  (lit "bf_need_dates", (0, [Txt (lit "请选择起止日期")]));
  (lit "bf_done", (2, [Txt (lit "回填已入队:新建 "); Arg 0; Txt (lit " 个运行,跳过 "); Arg 1; Txt (lit " 个已存在")]));
  (lit "rf_all", (0, [Txt (lit "全部")]));
  (lit "rf_running", (0, [Txt (lit "进行中")]));
  (lit "rf_failed", (0, [Txt (lit "失败")]));
  (lit "rf_success", (0, [Txt (lit "成功")]));
  (lit "t_backoff", (0, [Txt (lit "重试退避")]));
  (lit "bo_fixed", (0, [Txt (lit "固定间隔")]));
  (lit "bo_exponential", (0, [Txt (lit "指数退避")]));
  (lit "t_backoff_hint", (0, [Txt (lit "指数退避:第 n 次重试等待 重试间隔×2ⁿ⁻¹")]));
  (lit "t_backoffmax", (0, [Txt (lit "退避上限(秒)")]));
  (lit "t_backoffmax_hint", (0, [Txt (lit "指数退避的最长等待;0 = 不封顶")]));
  (lit "set_sla", (0, [Txt (lit "SLA（软）")]));
  (lit "set_sla_hint", (0, [Txt (lit "从 run 开始算，超时未完成即告警（继续运行）。0=关闭。需配置通知 Webhook。")]));
  (lit "set_timeout", (0, [Txt (lit "运行超时（硬）")]));
  (lit "set_timeout_hint", (0, [Txt (lit "从 run 开始算，超时则强制失败并杀掉运行中任务 → timed_out。0=关闭。")]));
  (lit "secs", (0, [Txt (lit "秒")]));
  (lit "set_off", (0, [Txt (lit "关闭")]));
  (lit "t_sla", (0, [Txt (lit "任务 SLA（秒）")]));
  (lit "t_sla_hint", (0, [Txt (lit "从 run 开始算，此任务超时未完成即告警。0=关闭。")]));
  (lit "t_timeout_hint", (0, [Txt (lit "单次执行超时即杀（秒）。0=不限。")]));
  (lit "danger_title", (0, [Txt (lit "危险操作")]));
  (lit "danger_del_hint", (0, [Txt (lit "归档此工作流：不再调度，历史保留。")]));
  (lit "nd_more", (0, [Txt (lit "调度与更多选项")]));
  (lit "nd_less", (0, [Txt (lit "收起")]));
  (lit "nav_resources", (0, [Txt (lit "变量 & 连接")]));
  (lit "nav_audit", (0, [Txt (lit "审计")]));
  (lit "nav_api", (0, [Txt (lit "API")]));
  (lit "audit_sub", (0, [Txt (lit "运维操作记录:谁在何时对哪个工作流/运行做了什么。")]));
  (lit "audit_empty", (0, [Txt (lit "暂无操作记录")]));
  (lit "au_time", (0, [Txt (lit "时间")]));
  (lit "au_actor", (0, [Txt (lit "操作人")]));
  (lit "au_action", (0, [Txt (lit "操作")]));
  (lit "au_target", (0, [Txt (lit "对象")]));
  (lit "act_trigger", (0, [Txt (lit "触发")]));
  (lit "act_cancel", (0, [Txt (lit "取消")]));
  (lit "act_retry_run", (0, [Txt (lit "重跑运行")]));
  (lit "act_retry_task", (0, [Txt (lit "重跑任务")]));
  (lit "act_mark_task", (0, [Txt (lit "标记任务")]));
  (lit "act_mark_run", (0, [Txt (lit "标记运行")]));
  (lit "act_update_dag", (0, [Txt (lit "保存工作流")]));
  (lit "act_create_dag", (0, [Txt (lit "创建工作流")]));
  (lit "act_delete_dag", (0, [Txt (lit "归档工作流")]));
  (lit "act_pause", (0, [Txt (lit "暂停")]));
  (lit "act_unpause", (0, [Txt (lit "恢复")]));
  (lit "act_create_token", (0, [Txt (lit "创建 Token")]));
  (lit "act_delete_token", (0, [Txt (lit "撤销 Token")]));
  (lit "act_set_alert_group", (0, [Txt (lit "保存告警组")]));
  (lit "act_delete_alert_group", (0, [Txt (lit "删除告警组")]));
  (lit "api_title", (0, [Txt (lit "API 与集成")]));
  (lit "api_sub", (0, [Txt (lit "把 cronova 的全部能力对接到你的平台。查看交互式 API 文档,并管理机器访问用的 API Token。")]));
  (lit "api_docs_h", (0, [Txt (lit "API 文档")]));
  (lit "api_docs_hint", (0, [Txt (lit "完整的 OpenAPI 参考,内置 curl / Go / Python / Java 示例,可在页面内切换语言。")]));
  (lit "api_open_docs", (0, [Txt (lit "打开 API 文档 →")]));
  (lit "api_spec_link", (0, [Txt (lit "OpenAPI 规范")]));
  (lit "tok_title", (0, [Txt (lit "API Tokens")]));
  (lit "tok_sub", (0, [Txt (lit "机器访问凭据。以 Authorization: Bearer <token> 调用 API。明文仅在创建时显示一次。")]));
  (lit "tok_name", (0, [Txt (lit "名称")]));
  (lit "tok_role", (0, [Txt (lit "角色")]));
  (lit "tok_prefix", (0, [Txt (lit "前缀")]));
  (lit "tok_created", (0, [Txt (lit "创建时间")]));
  (lit "tok_lastused", (0, [Txt (lit "最近使用")]));
  (lit "tok_never", (0, [Txt (lit "从未使用")]));
  (lit "tok_create", (0, [Txt (lit "创建 Token")]));
  (lit "tok_none", (0, [Txt (lit "还没有 Token")]));
  (lit "tok_name_ph", (0, [Txt (lit "如 ci-bot")]));
  (lit "tok_revoke", (0, [Txt (lit "撤销")]));
  (lit "tok_need_name", (0, [Txt (lit "请填写名称")]));
  (lit "tok_revoke_title", (1, [Txt (lit "撤销 Token“"); Arg 0; Txt (lit "”?")]));
  (lit "tok_revoke_body", (0, [Txt (lit "撤销后使用该 Token 的调用会立即失败,且不可恢复。")]));
  (lit "tok_created_ok", (0, [Txt (lit "Token 已创建")]));
  (lit "tok_revoked", (0, [Txt (lit "Token 已撤销")]));
  (lit "tok_reveal_h", (0, [Txt (lit "你的新 API Token")]));
  (lit "tok_reveal_warn", (0, [Txt (lit "请立即复制并妥善保存 —— 关闭后将无法再次查看明文。")]));
  (lit "tok_copy", (0, [Txt (lit "复制")]));
  (lit "tok_done", (0, [Txt (lit "我已保存")]));
  (lit "role_admin_full", (0, [Txt (lit "管理员(读写)")]));
  (lit "role_operator", (0, [Txt (lit "运维(触发/取消/重跑)")]));
  (lit "role_viewer_ro", (0, [Txt (lit "只读(仅 GET)")]));
  (lit "res_vars", (0, [Txt (lit "变量")]));
  (lit "res_conns", (0, [Txt (lit "连接")]));
  (lit "res_groups", (0, [Txt (lit "告警组")]));
  (lit "res_sub", (0, [Txt (lit "跨任务共享的配置。命令里用 {{ var.KEY }} / {{ conn.ID.字段 }} 引用，触发时用 {{ params.KEY }}。")]));
  (lit "ag_hint", (0, [Txt (lit "把多个通知渠道打包成一个具名分组，工作流通过 notify.group 引用；值班渠道调整时只需改这里。")]));
  (lit "ag_name", (0, [Txt (lit "组名")]));
  (lit "ag_channels", (0, [Txt (lit "渠道")]));
  (lit "ag_updated", (0, [Txt (lit "更新时间")]));
  (lit "ag_channel_n", (1, [Arg 0; Txt (lit " 个渠道")]));
  (lit "ag_none", (0, [Txt (lit "还没有告警组")]));
  (lit "ag_add", (0, [Txt (lit "新建告警组")]));
  (lit "ag_edit", (0, [Txt (lit "编辑告警组")]));
  (lit "ag_add_channel", (0, [Txt (lit "+ 添加渠道")]));
  (lit "ag_remove_channel", (0, [Txt (lit "移除渠道")]));
  (lit "ag_fmt", (0, [Txt (lit "格式")]));
  (lit "ag_url_ph", (0, [Txt (lit "https://hooks.slack.com/… 或 mailto:oncall@example.com")]));
  (lit "ag_max", (1, [Txt (lit "最多 "); Arg 0; Txt (lit " 个渠道")]));
  (lit "ag_err_channels", (0, [Txt (lit "告警组需要 1-16 个通知渠道")]));
  (lit "ag_err_url", (0, [Txt (lit "渠道 URL 必须以 http://、https:// 或 mailto: 开头")]));
  (lit "ag_mailto_hint", (0, [Txt (lit "mailto: 渠道通过服务端 SMTP 发信，需先在配置文件的 smtp: 段配置邮件服务器")]));
  (lit "ag_del_title", (1, [Txt (lit "删除告警组“"); Arg 0; Txt (lit "”？")]));
  (lit "ag_del_body", (0, [Txt (lit "引用它的工作流将退回使用各自的通知 URL 或实例默认通知，不会丢失告警。")]));
  (lit "v_key", (0, [Txt (lit "变量名")]));
  (lit "v_value", (0, [Txt (lit "值")]));
  (lit "v_add", (0, [Txt (lit "添加变量")]));
  (lit "v_none", (0, [Txt (lit "还没有变量")]));
  (lit "v_save", (0, [Txt (lit "保存")]));
  (lit "c_id", (0, [Txt (lit "连接 ID")]));
  (lit "c_type", (0, [Txt (lit "类型")]));
  (lit "c_host", (0, [Txt (lit "主机")]));
  (lit "c_port", (0, [Txt (lit "端口")]));
  (lit "c_login", (0, [Txt (lit "用户名")]));
  (lit "c_password", (0, [Txt (lit "密码")]));
  (lit "c_extra", (0, [Txt (lit "额外(JSON)")]));
  (lit "c_add", (0, [Txt (lit "新建连接")]));
  (lit "c_edit", (0, [Txt (lit "编辑连接")]));
  (lit "c_none", (0, [Txt (lit "还没有连接")]));
  (lit "c_pw_set", (0, [Txt (lit "已设置")]));
  (lit "c_pw_none", (0, [Txt (lit "未设置")]));
  (lit "c_pw_keep", (0, [Txt (lit "留空则不修改")]));
  (lit "c_del_title", (1, [Txt (lit "删除连接“"); Arg 0; Txt (lit "”?")]));
  (lit "v_del_title", (1, [Txt (lit "删除变量“"); Arg 0; Txt (lit "”?")]));
  (lit "del_body", (0, [Txt (lit "此操作不可撤销。")]));
  (lit "trig_params", (0, [Txt (lit "带参数触发")]));
  (lit "p_params", (0, [Txt (lit "参数")]));
  (lit "p_add", (0, [Txt (lit "加一行")]));
  (lit "p_key", (0, [Txt (lit "键")]));
  (lit "p_val", (0, [Txt (lit "值")]));
  (lit "p_trigger", (0, [Txt (lit "触发")]));
  (lit "p_hint", (0, [Txt (lit "参数注入为 CRONOVA_PARAM_* 环境变量，命令里用 {{ params.键 }} 引用。")]));
  (lit "run_params", (0, [Txt (lit "参数")]));
  (lit "res_saved", (0, [Txt (lit "已保存")]));
  (lit "res_deleted", (0, [Txt (lit "已删除")]));
  (lit "err_key", (0, [Txt (lit "无效名称（仅限字母、数字、_ . -）")]));
  (lit "btn_trigger", (0, [Txt (lit "▶ 触发运行")]));
  (lit "btn_pause", (0, [Txt (lit "暂停")]));
  (lit "btn_resume", (0, [Txt (lit "恢复")]));
  (lit "btn_delete", (0, [Txt (lit "删除")]));
  (lit "confirm_del_dag_title", (1, [Txt (lit "归档工作流“"); Arg 0; Txt (lit "”？")]));
  (lit "confirm_del_dag_body", (0, [Txt (lit "它将被归档(从列表隐藏),运行历史保留,之后可恢复。")]));
  (lit "dag_archived", (0, [Txt (lit "该工作流已归档(已删除)。")]));
  (lit "confirm_word", (0, [Txt (lit "确定")]));
  (lit "cancel_word", (0, [Txt (lit "取消")]));
  (lit "aria_theme", (0, [Txt (lit "切换主题")]));
  (lit "aria_lang", (0, [Txt (lit "切换语言")]));
  (lit "toast_run_queued", (0, [Txt (lit "已触发，run 已排队")]));
  (lit "toast_pool_saved", (0, [Txt (lit "池已保存")]));
  (lit "toast_dag_deleted", (0, [Txt (lit "工作流已归档")]));
  (lit "th_id", (0, [Txt (lit "id")]));
  (lit "th_type", (0, [Txt (lit "类型")]));
  (lit "th_command", (0, [Txt (lit "命令")]));
  (lit "th_deps", (0, [Txt (lit "依赖")]));
  (lit "th_logical", (0, [Txt (lit "逻辑时间")]));
  (lit "th_state", (0, [Txt (lit "状态")]));
  (lit "th_trig", (0, [Txt (lit "触发")]));
  (lit "th_started", (0, [Txt (lit "开始")]));
  (lit "th_dur", (0, [Txt (lit "耗时")]));
  (lit "th_task", (0, [Txt (lit "任务")]));
  (lit "th_try", (0, [Txt (lit "尝试")]));
  (lit "th_logs", (0, [Txt (lit "日志")]));
  (lit "no_runs", (0, [Txt (lit "还没有运行记录 — 触发一次。")]));
  (lit "k_logical", (0, [Txt (lit "逻辑时间")]));
  (lit "k_trig", (0, [Txt (lit "触发")]));
  (lit "k_dur", (0, [Txt (lit "耗时")]));
  (lit "k_started", (0, [Txt (lit "开始")]));
  (lit "log_word", (0, [Txt (lit "日志")]));
  (lit "live", (0, [Txt (lit "实时")]));
  (lit "pools_sub", (0, [Txt (lit "全局并发槽位，跨所有工作流与 run 共享。")]));
  (lit "p_name", (0, [Txt (lit "名称")]));
  (lit "p_slots", (0, [Txt (lit "槽位")]));
  (lit "p_save", (0, [Txt (lit "保存")]));
  (lit "p_newname", (0, [Txt (lit "新池名称")]));
  (lit "p_create", (0, [Txt (lit "创建池")]));
  (lit "p_need", (0, [Txt (lit "需要名称和正整数槽位")]));
  (lit "trig_fail", (0, [Txt (lit "触发失败")]));
  (lit "api_err", (0, [Txt (lit "API 错误")]));
  (lit "err_code_not_found", (0, [Txt (lit "对象不存在（可能已被删除）")]));
  (lit "err_code_no_tasks", (0, [Txt (lit "该工作流还没有任何步骤，先添加一个再运行")]));
  (lit "err_code_bad_mark_state", (0, [Txt (lit "不允许标记为这个状态")]));
  (lit "err_code_queue_full", (0, [Txt (lit "运行队列已满，请稍后再试")]));
  (lit "err_code_active_runs", (0, [Txt (lit "该工作流还有正在进行的运行，先取消或等它们结束")]));
  (lit "err_code_run_not_active", (0, [Txt (lit "这次运行已经结束，无法取消")]))
].

(** Lines 140 to 239. *)
Definition DICT_zh_2 : dict :=
[
  (lit "err_code_nothing_to_retry", (0, [Txt (lit "这次运行没有失败的步骤，无需重跑")]));
  (lit "err_code_run_still_active", (0, [Txt (lit "这次运行还在进行中，结束后才能重跑")]));
  (lit "err_code_bad_group_name", (0, [Txt (lit "告警组名称不合法（仅限字母、数字、_ . -，不超过 128 字符）")]));
  (lit "err_code_dag_conflict", (0, [Txt (lit "该工作流已被其他人修改——请刷新页面合并你的改动，直接重试会再次冲突")]));
  (lit "err_code_group_channels", (0, [Txt (lit "告警组需要 1-16 个通知渠道")]));
  (lit "err_code_group_channel_url", (0, [Txt (lit "渠道 URL 必须以 http://、https:// 或 mailto: 开头")]));
  (lit "err_code_group_channel_format", (0, [Txt (lit "渠道格式不合法（raw / slack / feishu / dingtalk / email）")]));
  (lit "dt_hint", (0, [Txt (lit "运行时长趋势：越高越慢，颜色为结果；点击柱子打开该次运行")]));
  (lit "runs_more", (0, [Txt (lit "加载更多 ↓")]));
  (lit "audit_more", (0, [Txt (lit "加载更多 ↓")]));
  (lit "log_all", (0, [Txt (lit "全部任务")]));
  (lit "bulk_all", (0, [Txt (lit "全选（当前筛选）")]));
  (lit "bulk_pick", (1, [Txt (lit "选择 "); Arg 0]));
  (lit "bulk_selected", (1, [Txt (lit "已选 "); Arg 0; Txt (lit " 个工作流")]));
  (lit "bulk_done", (2, [Txt (lit "批量操作完成："); Arg 0; Txt (lit "/"); Arg 1; Txt (lit " 成功")]));
  (lit "bulk_del_title", (1, [Txt (lit "归档选中的 "); Arg 0; Txt (lit " 个工作流？")]));
  (lit "au_f_actor", (0, [Txt (lit "按操作人筛选")]));
  (lit "au_f_action", (0, [Txt (lit "按操作筛选")]));
  (lit "au_f_all", (0, [Txt (lit "全部")]));
  (lit "nx_paused", (0, [Txt (lit "已暂停")]));
  (lit "nx_due", (0, [Txt (lit "就绪")]));
  (lit "nx_in", (1, [Arg 0; Txt (lit " 分钟后")]));
  (lit "b_dag_info", (0, [Txt (lit "DAG 信息")]));
  (lit "f_dag_id", (0, [Txt (lit "DAG ID")]));
  (lit "f_start", (0, [Txt (lit "开始日期")]));
  (lit "f_catchup", (0, [Txt (lit "补跑 catchup")]));
  (lit "f_maxactive", (0, [Txt (lit "最大并发")]));
  (lit "f_defretries", (0, [Txt (lit "默认重试")]));
  (lit "f_catchup_hint", (0, [Txt (lit "开启后，从 start_date 起每个错过的调度周期都会补建一次运行（每个 tick 最多补一个，受最大并发限制，不会形成风暴）")]));
  (lit "f_trigger_after", (0, [Txt (lit "上游依赖 (成功后触发)")]));
  (lit "b_addtask", (0, [Txt (lit "+ 添加任务")]));
  (lit "b_remove", (0, [Txt (lit "移除")]));
  (lit "t_id", (0, [Txt (lit "任务 ID")]));
  (lit "t_type", (0, [Txt (lit "类型")]));
  (lit "t_command", (0, [Txt (lit "命令")]));
  (lit "t_pool", (0, [Txt (lit "Pool")]));
  (lit "t_priority", (0, [Txt (lit "优先级")]));
  (lit "t_http", (0, [Txt (lit "HTTP 请求")]));
  (lit "http_method", (0, [Txt (lit "方法")]));
  (lit "http_url", (0, [Txt (lit "URL")]));
  (lit "http_headers", (0, [Txt (lit "请求头")]));
  (lit "http_headers_hint", (0, [Txt (lit "每行一个,格式 Key: Value,可用 {{ var. }} / {{ conn. }}")]));
  (lit "http_body", (0, [Txt (lit "请求体")]));
  (lit "http_status", (0, [Txt (lit "期望状态码")]));
  (lit "http_status_hint", (0, [Txt (lit "逗号分隔,如 200,201;留空=任意 2xx")]));
  (lit "err_httpurl", (0, [Txt (lit "HTTP 任务必须填 URL")]));
  (lit "t_python", (0, [Txt (lit "Python 代码")]));
  (lit "python_hint", (0, [Txt (lit "内联 Python,用 python3 -c 执行;CRONOVA_* 变量在环境里可读;可用 {{ var. }} 模板。退出码非 0=失败。")]));
  (lit "t_sql", (0, [Txt (lit "SQL 查询")]));
  (lit "sql_conn", (0, [Txt (lit "连接")]));
  (lit "sql_conn_hint", (0, [Txt (lit "已配置的连接 id(其类型定驱动:postgres/mysql/sqlite)。见「变量 & 连接」。")]));
  (lit "err_sqlconn", (0, [Txt (lit "SQL 任务必须选连接")]));
  (lit "t_retries", (0, [Txt (lit "重试 (空=默认)")]));
  (lit "t_retrydelay", (0, [Txt (lit "重试间隔(秒)")]));
  (lit "t_timeout", (0, [Txt (lit "超时(秒)")]));
  (lit "t_deps", (0, [Txt (lit "依赖")]));
  (lit "t_nodeps", (0, [Txt (lit "暂无其他任务")]));
  (lit "t_project", (0, [Txt (lit "工程")]));
  (lit "t_optional", (0, [Txt (lit "(可选)")]));
  (lit "proj_none", (0, [Txt (lit "无(不附加工程)")]));
  (lit "proj_upload", (0, [Txt (lit "上传 / 新建工程")]));
  (lit "proj_hint", (0, [Txt (lit "选中后,命令会在该工程的干净副本目录里运行(如 python3 main.py)。仅 shell 任务可用。")]));
  (lit "proj_name", (0, [Txt (lit "工程名")]));
  (lit "proj_name_bad", (0, [Txt (lit "工程名只能含字母/数字/. _ -")]));
  (lit "proj_mode_files", (0, [Txt (lit "上传文件 / 文件夹")]));
  (lit "proj_mode_inline", (0, [Txt (lit "写脚本")]));
  (lit "proj_drop", (0, [Txt (lit "把文件或文件夹拖到这里")]));
  (lit "proj_pick_files", (0, [Txt (lit "选择文件")]));
  (lit "proj_pick_folder", (0, [Txt (lit "选择文件夹")]));
  (lit "proj_ziphint", (0, [Txt (lit "拖入 .zip 会自动解压")]));
  (lit "proj_filename", (0, [Txt (lit "文件名")]));
  (lit "proj_content", (0, [Txt (lit "脚本内容")]));
  (lit "proj_do_upload", (0, [Txt (lit "上传")]));
  (lit "proj_selected", (1, [Txt (lit "已选 "); Arg 0; Txt (lit " 个文件")]));
  (lit "proj_uploaded", (0, [Txt (lit "工程已上传")]));
  (lit "proj_upload_fail", (0, [Txt (lit "上传失败")]));
  (lit "proj_need_name", (0, [Txt (lit "请先填写工程名")]));
  (lit "proj_need_files", (0, [Txt (lit "请先选择文件或写入脚本内容")]));
  (lit "proj_manage", (0, [Txt (lit "管理工程")]));
  (lit "err_dagid", (0, [Txt (lit "请填写合法 DAG ID（字母/数字/_-.）")]));
  (lit "err_taskid", (0, [Txt (lit "任务 ID 不合法（字母/数字/_-.）")]));
  (lit "err_dup", (0, [Txt (lit "任务 ID 重复")]));
  (lit "err_emptyid", (0, [Txt (lit "存在空任务 ID")]));
  (lit "err_emptycmd", (0, [Txt (lit "存在空命令")]));
  (lit "err_cycle", (0, [Txt (lit "依赖存在环")]));
  (lit "sched", (0, [Txt (lit "调度")]));
  (lit "sm_manual", (0, [Txt (lit "手动")]));
  (lit "sm_every", (0, [Txt (lit "固定间隔")]));
  (lit "sm_cron", (0, [Txt (lit "Cron 表达式")]));
  (lit "sched_manual_hint", (0, [Txt (lit "仅手动触发或被上游工作流触发")]));
  (lit "sched_every_pre", (0, [Txt (lit "每隔")]));
  (lit "unit_s", (0, [Txt (lit "秒")]));
  (lit "unit_m", (0, [Txt (lit "分钟")]));
  (lit "unit_h", (0, [Txt (lit "小时")]));
  (lit "disabled_note", (0, [Txt (lit "(暂不可用)")]));
  (lit "cp_min", (0, [Txt (lit "每分钟")]));
  (lit "cp_hour", (0, [Txt (lit "每小时")]));
  (lit "cp_day", (0, [Txt (lit "每天 0:00")]));
  (lit "cp_2am", (0, [Txt (lit "每天 2:00")]));
  (lit "cp_mon", (0, [Txt (lit "每周一 0:00")]));
  (lit "cron_help", (0, [Txt (lit "用法")]));
  (lit "ch_title", (0, [Txt (lit "Cron 写法")]));
  (lit "ch_format", (0, [Txt (lit "格式：分 时 日 月 周（5 段，空格分隔）")]));
  (lit "ch_fields", (0, [Txt (lit "字段")]));
  (lit "ch_ops", (0, [Txt (lit "符号")]));
  (lit "ch_examples", (0, [Txt (lit "常用示例（点击填入）")]));
  (lit "ch_shortcuts", (0, [Txt (lit "快捷写法")]));
  (lit "t_rule", (0, [Txt (lit "触发规则")]));
  (lit "tr_all_success", (0, [Txt (lit "全部成功")]));
  (lit "tr_all_done", (0, [Txt (lit "全部完成")]));
  (lit "tr_one_success", (0, [Txt (lit "任一成功")]));
  (lit "tr_one_failed", (0, [Txt (lit "任一失败")]));
  (lit "tr_all_failed", (0, [Txt (lit "全部失败")]));
  (lit "tr_none_failed", (0, [Txt (lit "无失败")]));
  (lit "trd_all_success", (0, [Txt (lit "全部上游成功才运行(默认)")]));
  (lit "trd_all_done", (0, [Txt (lit "全部上游完成即运行(无论成败)——适合清理/汇总")]));
  (lit "trd_one_success", (0, [Txt (lit "任一上游成功即运行")]));
  (lit "trd_one_failed", (0, [Txt (lit "任一上游失败即运行——适合告警")]));
  (lit "trd_all_failed", (0, [Txt (lit "全部上游都失败才运行")]));
  (lit "trd_none_failed", (0, [Txt (lit "没有上游失败(成功或跳过)时运行")]));
  (lit "pool_hint", (0, [Txt (lit "并发槽位,跨所有工作流共享;同名 pool 的任务竞争同一批槽位")]));
  (lit "cb_interp", (0, [Txt (lit "解释器")]));
  (lit "cb_runas", (0, [Txt (lit "运行方式")]));
  (lit "cb_target", (0, [Txt (lit "模块 / 脚本")]));
  (lit "cb_args", (0, [Txt (lit "参数")]));
  (lit "cb_jar", (0, [Txt (lit "Jar 路径")]));
  (lit "cb_mainclass", (0, [Txt (lit "主类")]));
  (lit "cb_client", (0, [Txt (lit "SQL 客户端")]));
  (lit "cb_query", (0, [Txt (lit "SQL 查询")]));
  (lit "cmdopt_module", (0, [Txt (lit "模块 (-m)")]));
  (lit "cmdopt_script", (0, [Txt (lit "脚本文件")]));
  (lit "cmd_will_run", (0, [Txt (lit "将执行:")]));
  (lit "cmd_edit_raw", (0, [Txt (lit "编辑原始命令")]));
  (lit "cmd_use_form", (0, [Txt (lit "用表单填写")]));
  (lit "cmd_cant_parse", (0, [Txt (lit "当前命令无法解析成表单,已保留原始编辑")]));
  (lit "var_insert", (0, [Txt (lit "点击或拖拽插入变量")]));
  (lit "var_editor_aria", (0, [Txt (lit "命令编辑器,可插入变量药丸")]));
  (lit "var_pill_aria", (1, [Txt (lit "变量 "); Arg 0]));
  (lit "var_pill_remove", (1, [Txt (lit "移除变量 "); Arg 0]));
  (lit "var_empty", (0, [Txt (lit "无")]));
  (lit "var_add_key", (0, [Txt (lit "自定义…")]));
  (lit "var_conn_field", (0, [Txt (lit "选字段")]));
  (lit "var_goto_settings", (0, [Txt (lit "去设置")]));
  (lit "vd_logical_date", (0, [Txt (lit "本次运行的逻辑日期(到天)")]));
  (lit "vd_logical_datetime", (0, [Txt (lit "逻辑日期时间(RFC3339)")]));
  (lit "vd_date_expr", (0, [Txt (lit "日期表达式：±N d/h/w/mo 偏移、.month_start/.month_end/.week_start/.week_end 锚点、| %Y%m%d 自定义格式，可组合")]));
  (lit "vd_run_id", (0, [Txt (lit "本次运行的唯一 ID")]));
  (lit "vd_dag_id", (0, [Txt (lit "所属 DAG 的 ID")]));
  (lit "vd_task_id", (0, [Txt (lit "当前任务 ID")]));
  (lit "vd_try_number", (0, [Txt (lit "第几次尝试(重试递增)")]));
  (lit "vd_var", (0, [Txt (lit "共享变量")]));
  (lit "vd_conn", (0, [Txt (lit "连接字段")]));
  (lit "vd_params", (0, [Txt (lit "手动触发参数")]));
  (lit "vg_builtin", (0, [Txt (lit "内置")]));
  (lit "vg_var", (0, [Txt (lit "变量")]));
  (lit "vg_conn", (0, [Txt (lit "连接")]));
  (lit "vg_params", (0, [Txt (lit "参数")]));
  (lit "graph_connect_hint", (0, [Txt (lit "拖动节点右侧圆点到另一任务即可连线；点击节点打开任务编辑；Shift+点击两个节点（或开启连线模式后依次点击）同样可连接/断开；点击连线可移除依赖")]));
  (lit "ge_addtask", (0, [Txt (lit "+ 添加任务")]));
  (lit "ge_connect", (0, [Txt (lit "连线模式")]));
  (lit "ge_connect_tip", (0, [Txt (lit "开启后：点上游任务、再点下游任务即可连接/断开依赖（支持键盘操作）")]));
  (lit "ge_new_id_title", (0, [Txt (lit "新任务 ID")]));
  (lit "ge_edge_remove", (0, [Txt (lit "移除依赖")]));
  (lit "ge_dup_dep", (0, [Txt (lit "依赖已存在")]));
  (lit "ge_edge_aria", (2, [Txt (lit "依赖 "); Arg 0; Txt (lit " → "); Arg 1; Txt (lit "，回车移除")]));
  (lit "ge_node_aria", (1, [Txt (lit "任务 "); Arg 0]));
  (lit "diff_unsaved", (1, [Arg 0; Txt (lit " 处修改未保存")]));
  (lit "diff_save", (0, [Txt (lit "保存")]));
  (lit "diff_discard", (0, [Txt (lit "放弃")]));
  (lit "diff_show", (0, [Txt (lit "查看差异")]));
  (lit "diff_hide", (0, [Txt (lit "收起差异")]));
  (lit "diff_loading", (0, [Txt (lit "正在生成差异预览…")]));
  (lit "diff_invalid", (0, [Txt (lit "当前修改未通过校验")]));
  (lit "diff_same", (0, [Txt (lit "与已保存版本一致")]));
  (lit "diff_discarded", (0, [Txt (lit "已放弃未保存的修改")]));
  (lit "t_subdag", (0, [Txt (lit "目标工作流")]));
  (lit "subdag_hint", (0, [Txt (lit "作为子流程运行另一个工作流：本任务跟随子运行的最终状态，取消会级联到子运行")]));
  (lit "subdag_none", (0, [Txt (lit "选择工作流…")]));
  (lit "err_subdag", (0, [Txt (lit "子流程任务必须选择目标工作流")]));
  (lit "dod_title", (0, [Txt (lit "跨工作流依赖")]));
  (lit "dod_hint", (0, [Txt (lit "等待另一个工作流对应周期的运行成功后，此任务才就绪")]));
  (lit "dod_dag", (0, [Txt (lit "依赖的工作流")]));
  (lit "dod_offset", (0, [Txt (lit "周期偏移")]));
  (lit "dod_offset_hint", (0, [Txt (lit "- 1d / .month_start / 留空=同周期")]));
  (lit "dod_timeout", (0, [Txt (lit "等待超时（秒）")]));
  (lit "dod_timeout_hint", (0, [Txt (lit "0 = 一直等到运行超时")]));
  (lit "dod_on_timeout", (0, [Txt (lit "超时后")]));
  (lit "dod_fail", (0, [Txt (lit "失败")]));
  (lit "dod_skip", (0, [Txt (lit "跳过")]));
  (lit "parent_run", (0, [Txt (lit "父运行")]));
  (lit "child_run", (0, [Txt (lit "子运行")]));
  (lit "nav_graph", (0, [Txt (lit "关系图")]));
  (lit "graph_title", (0, [Txt (lit "工作流关系图")]));
  (lit "graph_sub", (0, [Txt (lit "按 trigger_after 展示工作流之间的触发依赖")]));
  (lit "graph_none", (0, [Txt (lit "暂无跨工作流依赖（没有工作流配置 trigger_after）")]));
  (lit "graph_view_hint", (0, [Txt (lit "提示：箭头表示「触发后」方向；点击节点查看该工作流；虚线节点为未找到的工作流")]));
  (lit "ss_saved", (0, [Txt (lit "已保存")]));
  (lit "ss_saving", (0, [Txt (lit "保存中…")]));
  (lit "ss_invalid", (0, [Txt (lit "待修复后保存")]));
  (lit "ss_error", (0, [Txt (lit "保存失败")]));
  (lit "dag_no_tasks_title", (0, [Txt (lit "暂无任务")]));
  (lit "dag_no_tasks_sub", (0, [Txt (lit "添加一个任务以启用此工作流")]));
  (lit "dag_disabled_hint", (0, [Txt (lit "添加任务后可触发")]));
  (lit "nd_title", (0, [Txt (lit "新建工作流")]));
  (lit "nd_create", (0, [Txt (lit "创建")]));
  (lit "nd_cancel", (0, [Txt (lit "取消")]));
  (lit "nd_dagid_dup", (0, [Txt (lit "该 DAG ID 已存在")]));
  (lit "tpl_start", (0, [Txt (lit "从模板开始")]));
  (lit "tpl_tasks", (0, [Txt (lit "个任务")]));
  (lit "tpl_blank", (0, [Txt (lit "空白")]));
  (lit "tpl_blank_d", (0, [Txt (lit "从零开始,稍后自己加任务")]));
  (lit "tpl_etl", (0, [Txt (lit "每日 ETL")]));
  (lit "tpl_etl_d", (0, [Txt (lit "抽取 → 转换 → 加载 的三步流水线")]));
  (lit "tpl_report", (0, [Txt (lit "定时报表")]));
  (lit "tpl_report_d", (0, [Txt (lit "取数 → 生成报表,预设每天 08:00")]));
  (lit "tpl_fanout", (0, [Txt (lit "扇出-扇入")]));
  (lit "tpl_fanout_d", (0, [Txt (lit "start → 两个并行分支 → 汇合")]));
  (lit "coach_tpl_ready", (0, [Txt (lit "模板已就绪 — 点「触发运行」看它跑一遍,再按需修改任务")]));
  (lit "sp_every", (2, [Txt (lit "每 "); Arg 0; Txt (lit " "); Arg 1; Txt (lit "运行一次")]));
  (lit "sp_next", (0, [Txt (lit "接下来")]));
  (lit "sp_invalid", (0, [Txt (lit "表达式无效,无法计算触发时间")]));
  (lit "tz_note", (0, [Txt (lit "调度按 UTC 计算;页面时间按你的本地时区显示")]));
  (lit "btn_duplicate", (0, [Txt (lit "⧉ 复制")]));
  (lit "dup_dag_title", (0, [Txt (lit "复制为新工作流(输入新 ID)")]));
  (lit "dup_done", (0, [Txt (lit "已复制")]));
  (lit "y_copy", (0, [Txt (lit "复制")]));
  (lit "y_download", (0, [Txt (lit "下载")]));
  (lit "y_close", (0, [Txt (lit "关闭")]));
  (lit "y_copied", (0, [Txt (lit "YAML 已复制到剪贴板")]));
  (lit "y_copy_fail", (0, [Txt (lit "复制失败,请手动选择文本")]));
  (lit "nd_import_yaml", (0, [Txt (lit "或粘贴 YAML 导入…")]));
  (lit "nd_back_form", (0, [Txt (lit "← 返回表单创建")]));
  (lit "nd_import", (0, [Txt (lit "导入")]));
  (lit "nd_yaml_empty", (0, [Txt (lit "请先粘贴 YAML 内容")]));
  (lit "nd_imported", (0, [Txt (lit "YAML 已导入")]));
  (lit "gs_title", (0, [Txt (lit "快速上手")]));
  (lit "gs_create", (0, [Txt (lit "创建第一个工作流")]));
  (lit "gs_trigger", (0, [Txt (lit "触发一次运行")]));
  (lit "gs_green", (0, [Txt (lit "拿到一次成功运行")]));
  (lit "adv_options", (0, [Txt (lit "高级选项")]));
  (lit "log_find_ph", (0, [Txt (lit "在日志中查找…")]));
  (lit "log_download", (0, [Txt (lit "下载完整日志")]));
  (lit "log_matches", (1, [Arg 0; Txt (lit " 行匹配")]));
  (lit "log_capped", (1, [Txt (lit "仅显示最近 "); Arg 0; Txt (lit " 行")]));
  (lit "back_dag", (1, [Txt (lit "← 返回 "); Arg 0]));
  (lit "confirm_del_task_title", (1, [Txt (lit "删除任务 “"); Arg 0; Txt (lit "”？")]));
  (lit "nav_workers", (0, [Txt (lit "工作节点")]));
  (lit "wk_sub", (0, [Txt (lit "接入本调度器的远程工作节点：实时状态、负载与排空/移除操作。任务通过 worker_group 路由到对应分组。")]));
  (lit "wk_name", (0, [Txt (lit "名称")]));
  (lit "wk_group", (0, [Txt (lit "分组")]));
  (lit "wk_state", (0, [Txt (lit "状态")]));
  (lit "wk_active", (0, [Txt (lit "运行任务")]));
  (lit "wk_version", (0, [Txt (lit "版本")]));
  (lit "wk_heartbeat", (0, [Txt (lit "最近心跳")]));
  (lit "wk_created", (0, [Txt (lit "加入时间")]));
  (lit "wk_online", (0, [Txt (lit "在线")]));
  (lit "wk_offline", (0, [Txt (lit "离线")]));
  (lit "wk_lost", (0, [Txt (lit "失联")]));
  (lit "wk_draining", (0, [Txt (lit "排空中")]));
  (lit "wk_unnamed", (0, [Txt (lit "（未命名）")]));
  (lit "wk_drain", (0, [Txt (lit "排空")]));
  (lit "wk_undrain", (0, [Txt (lit "恢复分配")]));
  (lit "wk_drain_title", (1, [Txt (lit "排空工作节点“"); Arg 0; Txt (lit "”？")]));
  (lit "wk_drain_body", (0, [Txt (lit "排空后不再分配新任务，正在运行的任务会继续跑完。可随时恢复。")]));
  (lit "wk_undrain_title", (1, [Txt (lit "恢复工作节点“"); Arg 0; Txt (lit "”？")]));
  (lit "wk_undrain_body", (0, [Txt (lit "恢复后该节点重新参与任务分配。")]));
  (lit "wk_drained_toast", (0, [Txt (lit "已开始排空")]));
  (lit "wk_undrained_toast", (0, [Txt (lit "已恢复分配")]));
  (lit "wk_remove", (0, [Txt (lit "移除")]))
].

(** Lines 240 to 338. *)
Definition DICT_zh_3 : dict :=
[
  (lit "wk_remove_title", (1, [Txt (lit "移除工作节点“"); Arg 0; Txt (lit "”？")]));
  (lit "wk_remove_body", (0, [Txt (lit "移除立即生效且不可撤销：该节点的证书随即失效，无法重新连接；再次接入必须用新令牌重新加入。")]));
  (lit "wk_removed_toast", (0, [Txt (lit "工作节点已移除")]));
  (lit "wk_none_title", (0, [Txt (lit "还没有工作节点接入")]));
  (lit "wk_none_sub", (0, [Txt (lit "两步接入一个远程工作节点：")]));
  (lit "wk_join_step1", (0, [Txt (lit "在本页生成一次性加入令牌")]));
  (lit "wk_join_step2", (0, [Txt (lit "在工作节点主机上运行：")]));
  (lit "wk_token_btn", (0, [Txt (lit "生成加入令牌")]));
  (lit "wk_token_title", (0, [Txt (lit "生成一次性加入令牌")]));
  (lit "wk_token_ttl", (0, [Txt (lit "有效期")]));
  (lit "wk_ttl_1h", (0, [Txt (lit "1 小时")]));
  (lit "wk_ttl_24h", (0, [Txt (lit "24 小时")]));
  (lit "wk_ttl_7d", (0, [Txt (lit "7 天")]));
  (lit "wk_token_create", (0, [Txt (lit "生成")]));
  (lit "wk_token_reveal_h", (0, [Txt (lit "你的加入令牌")]));
  (lit "wk_token_warn", (0, [Txt (lit "令牌仅显示这一次，且只能使用一次——关闭后无法再次查看。")]));
  (lit "wk_join_cmd_h", (0, [Txt (lit "在工作节点主机上运行：")]));
  (lit "wk_expires", (0, [Txt (lit "过期时间")]));
  (lit "err_code_workers_disabled", (0, [Txt (lit "工作节点接入未启用——需在服务端配置 worker_listen")]));
  (lit "wk_disabled_hint", (0, [Txt (lit "服务端未启用工作节点接入。在 cronova.yaml 配置 worker_listen（或设置 CRONOVA_WORKER_LISTEN），重启后再试。")]));
  (lit "rel_now", (0, [Txt (lit "刚刚")]));
  (lit "rel_ago", (1, [Arg 0; Txt (lit "前")]));
  (lit "set_policy", (0, [Txt (lit "运行策略")]));
  (lit "set_policy_hint", (0, [Txt (lit "同一工作流多个运行同时就绪时如何准入。串行策略强制同一时间最多一个活跃运行（无视最大并发）。")]));
  (lit "po_parallel", (0, [Txt (lit "并行")]));
  (lit "po_serial_wait", (0, [Txt (lit "串行等待")]));
  (lit "po_serial_discard", (0, [Txt (lit "串行丢弃")]));
  (lit "po_serial_priority", (0, [Txt (lit "串行优先")]));
  (lit "pod_parallel", (0, [Txt (lit "并行：按「最大并发」允许多个运行同时执行（默认）")]));
  (lit "pod_serial_wait", (0, [Txt (lit "串行等待：同一时间只跑一个，后到的运行排队，按逻辑时间依次执行")]));
  (lit "pod_serial_discard", (0, [Txt (lit "串行丢弃：同一时间只跑一个，忙碌期间到来的运行会被取消（可见，不静默）")]));
  (lit "pod_serial_priority", (0, [Txt (lit "串行优先：同一时间只跑一个，队列按运行优先级从高到低出队")]));
  (lit "p_priority", (0, [Txt (lit "优先级")]));
  (lit "p_priority_hint", (0, [Txt (lit "-100 到 100，默认 0；数值高者优先获得调度槽位（serial_priority 队列也按它出队）")]));
  (lit "run_priority_tip", (0, [Txt (lit "运行优先级：高者优先获得调度槽位")]));
  (lit "mode_novice", (0, [Txt (lit "新手")]));
  (lit "mode_expert", (0, [Txt (lit "专家")]));
  (lit "mode_toggle_title", (0, [Txt (lit "界面模式：新手默认只保留必需信息，专家显示全部指标与操作")]));
  (lit "nv_workbench", (0, [Txt (lit "工作台")]));
  (lit "nv_myflows", (0, [Txt (lit "我的工作流")]));
  (lit "nv_shared", (0, [Txt (lit "共享配置")]));
  (lit "nv_help", (0, [Txt (lit "帮助中心")]));
  (lit "nv_sys_ok", (0, [Txt (lit "系统运行正常")]));
  (lit "nv_newflow", (0, [Txt (lit "＋ 新建工作流")]));
  (lit "s0_title", (0, [Txt (lit "把重复的脚本，交给 cronova 定时跑")]));
  (lit "s0_sub", (0, [Txt (lit "按时执行、失败自动重试、随时查看日志。")]));
  (lit "s0_sub2", (0, [Txt (lit "三步建好第一条工作流，大约需要 1 分钟。")]));
  (lit "s0_step1", (0, [Txt (lit "选一个起点")]));
  (lit "s0_step2", (0, [Txt (lit "确认要执行的命令")]));
  (lit "s0_step3", (0, [Txt (lit "试跑一次，看它变绿")]));
  (lit "s0_cta", (0, [Txt (lit "创建我的第一个工作流 →")]));
  (lit "s0_expert_link", (0, [Txt (lit "我用过 Airflow / Azkaban，直接进专家模式 →")]));
  (lit "s0_term_hint", (0, [Txt (lit "「工作流」= 按顺序执行的一组命令，专业术语叫 DAG。切到专家模式会看到完整术语。")]));
  (lit "wz_crumb", (0, [Txt (lit "新建工作流")]));
  (lit "wz_back", (0, [Txt (lit "← 返回")]));
  (lit "wz_stepof", (1, [Txt (lit "第 "); Arg 0; Txt (lit " 步 / 共 3 步")]));
  (lit "wz1_title", (0, [Txt (lit "选一个和你最像的场景")]));
  (lit "wz1_sub", (0, [Txt (lit "之后每一步都可以改，这只是一个起点。")]));
  (lit "wz_tpl_etl", (0, [Txt (lit "每日数据处理")]));
  (lit "wz_tpl_etl_d", (0, [Txt (lit "先取数、再加工、最后写入 —— 三步依次执行")]));
  (lit "wz_tpl_etl_m", (0, [Txt (lit "3 个步骤 · 上一步成功才执行下一步")]));
  (lit "wz_tpl_report", (0, [Txt (lit "定时报表")]));
  (lit "wz_tpl_report_d", (0, [Txt (lit "取数、生成报表并发送 —— 适合每天早上自动发日报")]));
  (lit "wz_tpl_report_m", (0, [Txt (lit "2 个步骤 · 预设每天 08:00")]));
  (lit "wz_tpl_blank", (0, [Txt (lit "从零开始")]));
  (lit "wz_tpl_blank_d", (0, [Txt (lit "只有一个步骤，跑你自己的任意命令或脚本")]));
  (lit "wz_tpl_blank_m", (0, [Txt (lit "1 个步骤 · 最简单")]));
  (lit "wz_tpl_blank_chip", (0, [Txt (lit "你的命令")]));
  (lit "wz1_next", (0, [Txt (lit "下一步：确认命令 →")]));
  (lit "wz2_title", (0, [Txt (lit "这些步骤会依次执行")]));
  (lit "wz2_sub", (0, [Txt (lit "命令就是你平时在终端里敲的那一行。上一步成功，才会开始下一步；失败会自动重试。")]));
  (lit "wz2_name_label", (0, [Txt (lit "给工作流起个名字")]));
  (lit "wz2_name_hint", (0, [Txt (lit "用英文、数字或下划线，例如 daily_report")]));
  (lit "wz2_adv", (0, [Txt (lit "进阶（可跳过）：命令里可以插入运行时变量，跑的时候自动替换成真实值。点一下试试——")]));
  (lit "wz2_datevar", (0, [Txt (lit "＋ 今天的日期")]));
  (lit "wz2_datevar_note", (0, [Txt (lit "会在第 1 步命令末尾加上")]));
  (lit "wz2_inserted", (1, [Txt (lit "已插入 ✓ 运行时会替换成实际日期，例如 --date "); Arg 0; Txt (lit "（可在上面的输入框里直接改）")]));
  (lit "wz2_next", (0, [Txt (lit "下一步：什么时候运行 →")]));
  (lit "wz_prev", (0, [Txt (lit "← 上一步")]));
  (lit "wz3_title", (0, [Txt (lit "它应该什么时候运行？")]));
  (lit "wz3_sub", (0, [Txt (lit "现在选个大概就行，之后随时能改。")]));
  (lit "wz3_daily", (0, [Txt (lit "每天固定时间")]));
  (lit "wz3_daily_d", (0, [Txt (lit "最常见：夜里跑数据、早上发报表")]));
  (lit "wz3_interval", (0, [Txt (lit "每隔一段时间")]));
  (lit "wz3_interval_d", (0, [Txt (lit "适合轮询、同步类任务")]));
  (lit "wz3_every", (0, [Txt (lit "每")]));
  (lit "wz3_minutes", (0, [Txt (lit "分钟")]));
  (lit "wz3_manual", (0, [Txt (lit "只在我手动点击时运行")]));
  (lit "wz3_manual_d", (0, [Txt (lit "先手动跑熟了，再设成自动也不迟")]));
  (lit "wz3_note", (0, [Txt (lit "创建后会立刻带你手动试跑一次，确认一切正常。")]));
  (lit "wz3_cron_hint", (0, [Txt (lit "专家模式里这里是 cron 表达式（如 0 2 * * *），支持更复杂的规则。")]));
  (lit "wz3_create", (0, [Txt (lit "▶ 创建并试跑一次")]));
  (lit "nv_sched_daily", (1, [Txt (lit "将于每天 "); Arg 0; Txt (lit " 自动运行。")]));
  (lit "nv_sched_interval", (1, [Txt (lit "将每隔 "); Arg 0; Txt (lit " 分钟自动运行一次。")]));
  (lit "nv_sched_manual", (0, [Txt (lit "只在你手动点击「运行」时执行，不会自动触发。")]));
  (lit "nv_gloss_daily", (1, [Txt (lit "每天 "); Arg 0; Txt (lit " 自动运行")]));
  (lit "nv_gloss_every", (2, [Txt (lit "每 "); Arg 0; Txt (lit " "); Arg 1; Txt (lit "自动运行")]));
  (lit "nv_gloss_manual", (0, [Txt (lit "仅手动运行")]));
  (lit "nvr_running_title", (1, [Txt (lit "正在运行 "); Arg 0; Txt (lit " …")]));
  (lit "nvr_sub", (0, [Txt (lit "每个步骤跑完会自动进入下一步，不用刷新。")]));
  (lit "nvr_done_title", (1, [Txt (lit "运行成功，用时 "); Arg 0]));
  (lit "nvr_done_sub", (0, [Txt (lit "失败时它会自动重试，并把日志留在这里。")]));
  (lit "nvr_done_home", (0, [Txt (lit "完成，回到首页")]));
  (lit "nvr_detail", (0, [Txt (lit "查看详情")]));
  (lit "nvr_failed_title", (2, [Txt (lit "第 "); Arg 0; Txt (lit " 步 "); Arg 1; Txt (lit " 失败了")]));
  (lit "nvr_failed_generic", (0, [Txt (lit "运行失败了")]));
  (lit "nvr_failed_sub", (0, [Txt (lit "前面的步骤已成功，后面的没有执行。错误原因见日志最后几行。")]));
  (lit "nvr_retried", (1, [Txt (lit "已自动重试 "); Arg 0; Txt (lit " 次仍失败。")]));
  (lit "nvr_cancelled_title", (0, [Txt (lit "运行已取消")]));
  (lit "nvr_timeout_title", (0, [Txt (lit "运行超时，已强制停止")]));
  (lit "nvr_cancelled_sub", (0, [Txt (lit "你手动停止了这次运行。命令没问题的话，随时可以再次运行。")]));
  (lit "nvr_timeout_sub", (0, [Txt (lit "运行超过了设定的时长限制，已被强制停止，后面的步骤没有执行。")]));
  (lit "nvr_rerun", (0, [Txt (lit "修复后重跑 ▶")]));
  (lit "nvr_rerun2", (0, [Txt (lit "再次运行 ▶")]));
  (lit "nvr_edit_steps", (0, [Txt (lit "编辑步骤")]));
  (lit "nvr_home", (0, [Txt (lit "回首页")]));
  (lit "nvr_waiting", (0, [Txt (lit "等待中")]));
  (lit "nvr_notrun", (0, [Txt (lit "未执行")]));
  (lit "nvr_running_dur", (0, [Txt (lit "运行中…")]));
  (lit "nvr_retry_n", (1, [Txt (lit "重试 "); Arg 0; Txt (lit " 次")]));
  (lit "nv_health_ok", (0, [Txt (lit "一切正常")]));
  (lit "nv_health_line", (1, [Arg 0; Txt (lit " 个工作流 · 最近运行没有失败")]));
  (lit "nv_health_bad_title", (1, [Txt (lit "有 "); Arg 0; Txt (lit " 个工作流需要处理")]));
  (lit "nv_health_bad_line", (1, [Arg 0; Txt (lit " 的最近一次运行失败 · 修复后可一键重跑")]));
  (lit "nv_fix", (0, [Txt (lit "去处理 →")]));
  (lit "nv_metrics_link", (0, [Txt (lit "查看完整指标 →")]));
  (lit "nv_run_btn", (0, [Txt (lit "▶ 运行")]));
  (lit "nv_view_btn", (0, [Txt (lit "查看 →")]));
  (lit "nv_next_hints", (0, [Txt (lit "下一步可以：")]));
  (lit "nv_hint_another", (0, [Txt (lit "再建一个工作流")]));
  (lit "nv_hint_expert", (0, [Txt (lit "切到专家模式看全部功能")]));
  (lit "nv_never_ran", (0, [Txt (lit "还没有运行过")]));
  (lit "nv_last_run", (1, [Txt (lit "上次运行"); Arg 0]));
  (lit "nv_enabled", (0, [Txt (lit "已启用")]));
  (lit "nv_run_now", (0, [Txt (lit "▶ 立即运行")]));
  (lit "nv_more", (0, [Txt (lit "更多 ⋯")]));
  (lit "nv_more_title", (0, [Txt (lit "暂停 / 复制 / 删除等更多操作")]));
  (lit "nv_more_q", (1, [Txt (lit "对 "); Arg 0; Txt (lit " 做什么？")]));
  (lit "nv_more_expert", (0, [Txt (lit "切到专家模式编辑")]));
  (lit "nv_steps_h", (0, [Txt (lit "步骤")]));
  (lit "nv_steps_hint", (0, [Txt (lit "（专家模式里叫「任务 / task」）")]));
  (lit "nv_edit", (0, [Txt (lit "编辑")]));
  (lit "nv_add_step", (0, [Txt (lit "+ 添加步骤")]));
  (lit "nv_edit_step_title", (1, [Txt (lit "编辑步骤 "); Arg 0]));
  (lit "nv_del_step", (0, [Txt (lit "删除此步骤")]));
  (lit "nv_recent_h", (0, [Txt (lit "最近运行")]));
  (lit "nv_view_log", (0, [Txt (lit "查看日志 →")]));
  (lit "nv_notify_h", (0, [Txt (lit "失败通知")]));
  (lit "nv_notify_toggle", (0, [Txt (lit "失败时通知我")]));
  (lit "nv_notify_hint", (0, [Txt (lit "粘贴群机器人的 Webhook 地址（支持 Slack / 飞书 / 钉钉，自动识别格式）。运行失败时会发一条消息。")]));
  (lit "nv_adv_summary", (0, [Txt (lit "更多设置（并发、重试、超时……）")]));
  (lit "nv_adv_body", (2, [Txt (lit "这些默认值已经够用："); IfGt 0 0%N [Txt (lit "失败自动重试 "); Arg 0; Txt (lit " 次、")] []; Txt (lit "同一时间只跑 "); Arg 1; Txt (lit " 份。")]));
  (lit "nv_adv_body2", (0, [Txt (lit "需要精细控制时再展开，或")]));
  (lit "nv_adv_body3", (0, [Txt (lit "查看全部设置项。")]));
  (lit "nv_to_expert", (0, [Txt (lit "切到专家模式")]));
  (lit "nv_fail_ribbon", (2, [Txt (lit "第 "); Arg 0; Txt (lit " 步 "); Arg 1; Txt (lit " 失败")]));
  (lit "nv_fail_ribbon_generic", (0, [Txt (lit "最近一次运行失败")]));
  (lit "nv_see_log", (0, [Txt (lit "看日志")]));
  (lit "nv_step_extract", (0, [Txt (lit "抽取数据")]));
  (lit "nv_step_transform", (0, [Txt (lit "加工处理")]));
  (lit "nv_step_load", (0, [Txt (lit "写入结果")]));
  (lit "nv_step_fetch", (0, [Txt (lit "取数")]));
  (lit "nv_step_render", (0, [Txt (lit "生成并发送报表")]));
  (lit "nv_step_1", (0, [Txt (lit "第一步")]))
].

(** Lines 341 to 440. *)
Definition DICT_en_1 : dict :=
[
  (lit "workspace", (0, [Txt (lit "Workspace")]));
  (lit "nav_dags", (0, [Txt (lit "Workflows")]));
  (lit "newdag", (0, [Txt (lit "+ New workflow")]));
  (lit "f_all", (0, [Txt (lit "All")]));
  (lit "f_running", (0, [Txt (lit "Running")]));
  (lit "f_failed", (0, [Txt (lit "Failed")]));
  (lit "f_paused", (0, [Txt (lit "Paused")]));
  (lit "dags_sub", (0, [Txt (lit "Click a name for runs and structure; the left toggle pauses / resumes scheduling.")]));
  (lit "ov_fail_title", (1, [Arg 0; Txt (lit ": latest run failed")]));
  (lit "ov_fail_more", (1, [Arg 0; Txt (lit " more failing")]));
  (lit "ov_rest_ok", (1, [Txt (lit "the other "); Arg 0; Txt (lit " are healthy")]));
  (lit "ov_all_ok", (0, [Txt (lit "All workflows healthy")]));
  (lit "ov_last_run", (1, [Txt (lit "last run "); Arg 0]));
  (lit "ov_running", (0, [Txt (lit "Running")]));
  (lit "ov_running_tip", (0, [Txt (lit "Runs currently executing")]));
  (lit "ov_rate", (0, [Txt (lit "Recent success")]));
  (lit "ov_go", (0, [Txt (lit "Investigate →")]));
  (lit "hlp_dag", (0, [Txt ((lit "<b>A workflow (DAG)</b> = tasks that run in dependency order, plus a rule for when to run. <span class=" ++ [34%N] ++ lit "eg" ++ [34%N] ++ lit ">e.g. daily at 2:00 — extract → transform → load.</span>"))]));
  (lit "hlp_toggle", (0, [Txt (lit "<b>Schedule switch.</b> Off = no more automatic runs (manual trigger still works); history is kept and it can be re-enabled any time.")]));
  (lit "hlp_spark", (0, [Txt ((lit "Each bar is one run: <b class=" ++ [34%N] ++ lit "ok" ++ [34%N] ++ lit ">green</b>=success, <b class=" ++ [34%N] ++ lit "bad" ++ [34%N] ++ lit ">red</b>=failed, <b class=" ++ [34%N] ++ lit "run" ++ [34%N] ++ lit ">blue</b>=running; taller = slower. Hover for details."))]));
  (lit "hlp_next", (0, [Txt (lit "Next automatic run per the schedule. “due” = waiting for a free slot.")]));
  (lit "hlp_rate", (0, [Txt (lit "Share of recent runs that succeeded (up to 14 per workflow; skips and cancellations don't count).")]));
  (lit "toggle_tip_on", (0, [Txt (lit "Enabled — click to pause scheduling")]));
  (lit "toggle_tip_off", (0, [Txt (lit "Paused — click to resume scheduling")]));
  (lit "btn_run_word", (0, [Txt (lit "Run")]));
  (lit "run_now_tip", (0, [Txt (lit "Run once now, manually — doesn't affect the schedule")]));
  (lit "day_today", (0, [Txt (lit "today")]));
  (lit "day_yesterday", (0, [Txt (lit "yesterday")]));
  (lit "h_dag", (0, [Txt (lit "WORKFLOW")]));
  (lit "h_spark", (0, [Txt (lit "LAST 14")]));
  (lit "h_pool", (0, [Txt (lit "POOL")]));
  (lit "h_next", (0, [Txt (lit "NEXT RUN")]));
  (lit "no_match", (0, [Txt (lit "No matching workflows")]));
  (lit "no_match_filter", (0, [Txt (lit "No workflows under this filter")]));
  (lit "no_dags_title", (0, [Txt (lit "No workflows yet")]));
  (lit "no_dags_sub", (0, [Txt (lit "Create your first workflow to start scheduling tasks.")]));
  (lit "trigger", (0, [Txt (lit "Trigger")]));
  (lit "manual_trigger", (0, [Txt (lit "manual trigger")]));
  (lit "back_dags", (0, [Txt (lit "← Workflows")]));
  (lit "run_word", (0, [Txt (lit "run")]));
  (lit "sub_manual", (0, [Txt (lit "manual trigger only")]));
  (lit "max_active", (0, [Txt (lit "max active")]));
  (lit "run_progress", (0, [Txt (lit "Progress")]));
  (lit "sec_graph", (0, [Txt (lit "Dependency graph")]));
  (lit "sec_structure", (0, [Txt (lit "Structure")]));
  (lit "sec_runs", (0, [Txt (lit "Run history")]));
  (lit "sec_instances", (0, [Txt (lit "Task instances")]));
  (lit "g_timeline", (0, [Txt (lit "Timeline")]));
  (lit "g_never_ran", (0, [Txt (lit "did not run")]));
  (lit "run_no_tasks", (0, [Txt (lit "No task instances yet for this run")]));
  (lit "run_done_ok", (0, [Txt (lit "Run finished — success")]));
  (lit "run_done_fail", (0, [Txt (lit "Run failed")]));
  (lit "run_done_timeout", (0, [Txt (lit "Run timed out")]));
  (lit "run_cancel", (0, [Txt (lit "Cancel run")]));
  (lit "run_retry", (0, [Txt (lit "Retry failed")]));
  (lit "task_retry", (0, [Txt (lit "Retry")]));
  (lit "run_cancelled_toast", (0, [Txt (lit "Run cancelled")]));
  (lit "run_retried_toast", (0, [Txt (lit "Re-queued")]));
  (lit "task_mark", (0, [Txt (lit "Mark state")]));
  (lit "run_mark", (0, [Txt (lit "Mark run")]));
  (lit "mark_skip", (0, [Txt (lit "Skip")]));
  (lit "mark_done_toast", (0, [Txt (lit "Marked")]));
  (lit "mark_task_title", (1, [Txt (lit "Mark task “"); Arg 0; Txt (lit "” as?")]));
  (lit "mark_task_body", (0, [Txt (lit "Manually override the task state. A running task is stopped first; marking success/skip releases downstream tasks it was blocking.")]));
  (lit "mark_run_title", (1, [Txt (lit "Mark run “"); Arg 0; Txt (lit "” as?")]));
  (lit "mark_run_body", (0, [Txt (lit "Override a finished run's recorded outcome (tasks untouched). Marking success fires downstream-workflow triggers.")]));
  (lit "confirm_cancel_title", (1, [Txt (lit "Cancel run “"); Arg 0; Txt (lit "”?")]));
  (lit "confirm_cancel_body", (0, [Txt (lit "Running tasks will be killed.")]));
  (lit "th_act", (0, [Txt (lit "Actions")]));
  (lit "confirm_retry_title", (1, [Txt (lit "Retry “"); Arg 0; Txt (lit "”?")]));
  (lit "confirm_retry_body", (0, [Txt (lit "This task and all of its downstream tasks will be reset and re-run.")]));
  (lit "copied", (0, [Txt (lit "Copied")]));
  (lit "copy_fail", (0, [Txt (lit "Copy failed — select the text manually")]));
  (lit "copy_hint", (0, [Txt (lit "Click to copy")]));
  (lit "search_ph", (0, [Txt (lit "Search workflows…")]));
  (lit "jump_open", (0, [Txt (lit "Open")]));
  (lit "jump_none", (0, [Txt (lit "No matching workflow")]));
  (lit "gz_in", (0, [Txt (lit "Zoom in")]));
  (lit "gz_out", (0, [Txt (lit "Zoom out")]));
  (lit "gz_fit", (0, [Txt (lit "Fit to view")]));
  (lit "gz_hint", (0, [Txt (lit "Drag to pan · Ctrl/⌘ + wheel to zoom")]));
  (lit "login_title", (0, [Txt (lit "Sign in to cronova")]));
  (lit "login_sub", (0, [Txt (lit "Enter your account credentials")]));
  (lit "login_user", (0, [Txt (lit "Username")]));
  (lit "login_pass", (0, [Txt (lit "Password")]));
  (lit "login_btn", (0, [Txt (lit "Sign in")]));
  (lit "login_bad", (0, [Txt (lit "Invalid username or password")]));
  (lit "logout", (0, [Txt (lit "Sign out")]));
  (lit "sess_expired", (0, [Txt (lit "Session expired — please sign in again")]));
  (lit "role_admin", (0, [Txt (lit "Admin")]));
  (lit "role_viewer", (0, [Txt (lit "Viewer")]));
  (lit "tab_runs", (0, [Txt (lit "Runs")]));
  (lit "tab_structure", (0, [Txt (lit "Structure")]));
  (lit "tab_settings", (0, [Txt (lit "Settings")]));
  (lit "dh_last", (0, [Txt (lit "Last run")]));
  (lit "dh_next", (0, [Txt (lit "Schedule")]));
  (lit "dh_rate", (0, [Txt (lit "Success rate")]));
  (lit "dh_never", (0, [Txt (lit "No runs yet")]));
  (lit "dh_norate", (0, [Txt (lit "—")]));
  (lit "set_done", (0, [Txt (lit "Done")]));
  (lit "set_edit", (0, [Txt (lit "Edit")]));
  (lit "set_none", (0, [Txt (lit "None")]));
  (lit "set_sched", (0, [Txt (lit "Schedule")]));
  (lit "set_max", (0, [Txt (lit "Max active runs")]));
  (lit "set_retries", (0, [Txt (lit "Default retries")]));
  (lit "set_deps", (0, [Txt (lit "Upstream workflows")]));
  (lit "set_deps_hint", (0, [Txt (lit "Triggered automatically after these workflows succeed")]));
  (lit "set_no_deps_avail", (0, [Txt (lit "No other workflows available")]));
  (lit "set_notify", (0, [Txt (lit "Notifications")]));
  (lit "set_notify_hint", (0, [Txt (lit "POST a JSON webhook when a run finishes (Slack/Feishu/Discord compatible), or reference an alert group to notify several channels at once")]));
  (lit "notify_failure", (0, [Txt (lit "Failure")]));
  (lit "notify_success", (0, [Txt (lit "Success")]));
  (lit "notify_off", (0, [Txt (lit "No events selected")]));
  (lit "notify_need_url", (0, [Txt (lit "Enter a webhook URL or pick an alert group first, then pick events")]));
  (lit "err_notify_url", (0, [Txt (lit "Notify URL must start with http://, https:// or mailto:")]));
  (lit "nf_label", (0, [Txt (lit "Message format")]));
  (lit "nf_hint", (0, [Txt (lit "raw = full JSON payload; the others wrap the summary text in that platform's incoming-webhook envelope; email is for mailto: targets")]));
  (lit "nf_feishu", (0, [Txt (lit "Feishu")]));
  (lit "nf_dingtalk", (0, [Txt (lit "DingTalk")]));
  (lit "nf_email", (0, [Txt (lit "Email")]));
  (lit "set_group", (0, [Txt (lit "Alert group")]));
  (lit "ag_group_none", (0, [Txt (lit "No alert group")]));
  (lit "ag_opt_missing", (1, [Arg 0; Txt (lit " (missing)")]));
  (lit "ag_url_overridden", (0, [Txt (lit "An alert group is selected — this standalone URL will be ignored")]));
  (lit "notify_mailto_hint", (0, [Txt (lit "The URL also accepts mailto:addr1,addr2 (requires smtp: configured on the server)")]));
  (lit "btn_backfill", (0, [Txt (lit "Backfill")]));
  (lit "bf_hint", (0, [Txt (lit "Enqueue one run per schedule period in the window (inclusive; existing periods are skipped, execution obeys max active runs)")]));
  (lit "bf_from", (0, [Txt (lit "From")]));
  (lit "bf_to", (0, [Txt (lit "To")]));
  (lit "bf_go", (0, [Txt (lit "Backfill")]));
  (lit "bf_need_dates", (0, [Txt (lit "Pick both dates")]));
  (lit "bf_done", (2, [Txt (lit "Backfill enqueued: "); Arg 0; Txt (lit " run(s) created, "); Arg 1; Txt (lit " skipped")]));
  (lit "rf_all", (0, [Txt (lit "All")]));
  (lit "rf_running", (0, [Txt (lit "Active")]));
  (lit "rf_failed", (0, [Txt (lit "Failed")]));
  (lit "rf_success", (0, [Txt (lit "Success")]));
  (lit "t_backoff", (0, [Txt (lit "Retry backoff")]));
  (lit "bo_fixed", (0, [Txt (lit "Fixed")]));
  (lit "bo_exponential", (0, [Txt (lit "Exponential")]));
  (lit "t_backoff_hint", (0, [Txt (lit "Exponential: the n-th retry waits retry delay × 2ⁿ⁻¹")]));
  (lit "t_backoffmax", (0, [Txt (lit "Backoff cap (s)")]));
  (lit "t_backoffmax_hint", (0, [Txt (lit "Longest exponential wait; 0 = uncapped")]));
  (lit "set_sla", (0, [Txt (lit "SLA (soft)")]));
  (lit "set_sla_hint", (0, [Txt (lit "From run start; alert if not finished in time (run keeps going). 0 = off. Needs a notify webhook.")]));
  (lit "set_timeout", (0, [Txt (lit "Run timeout (hard)")]));
  (lit "set_timeout_hint", (0, [Txt (lit "From run start; on breach the run is force-failed and running tasks killed → timed_out. 0 = off.")]));
  (lit "secs", (0, [Txt (lit "sec")]));
  (lit "set_off", (0, [Txt (lit "off")]));
  (lit "t_sla", (0, [Txt (lit "Task SLA (sec)")]));
  (lit "t_sla_hint", (0, [Txt (lit "From run start; alert if this task hasn't finished in time. 0 = off.")]));
  (lit "t_timeout_hint", (0, [Txt (lit "Kill a single execution after this many seconds. 0 = none.")]));
  (lit "danger_title", (0, [Txt (lit "Danger zone")]));
  (lit "danger_del_hint", (0, [Txt (lit "Archive this workflow: no more scheduling; history is kept.")]));
  (lit "nd_more", (0, [Txt (lit "Schedule & more options")]));
  (lit "nd_less", (0, [Txt (lit "Hide")]));
  (lit "nav_resources", (0, [Txt (lit "Variables & Connections")]));
  (lit "nav_audit", (0, [Txt (lit "Audit")]));
  (lit "nav_api", (0, [Txt (lit "API")]));
  (lit "audit_sub", (0, [Txt (lit "Operations log: who did what to which DAG/run, and when.")]));
  (lit "audit_empty", (0, [Txt (lit "No operations logged yet")]));
  (lit "au_time", (0, [Txt (lit "Time")]));
  (lit "au_actor", (0, [Txt (lit "Actor")]));
  (lit "au_action", (0, [Txt (lit "Action")]));
  (lit "au_target", (0, [Txt (lit "Target")]));
  (lit "act_trigger", (0, [Txt (lit "trigger")]));
  (lit "act_cancel", (0, [Txt (lit "cancel")]));
  (lit "act_retry_run", (0, [Txt (lit "retry run")]));
  (lit "act_retry_task", (0, [Txt (lit "retry task")]));
  (lit "act_mark_task", (0, [Txt (lit "mark task")]));
  (lit "act_mark_run", (0, [Txt (lit "mark run")]));
  (lit "act_update_dag", (0, [Txt (lit "save workflow")]));
  (lit "act_create_dag", (0, [Txt (lit "create DAG")]));
  (lit "act_delete_dag", (0, [Txt (lit "delete DAG")]));
  (lit "act_pause", (0, [Txt (lit "pause")]));
  (lit "act_unpause", (0, [Txt (lit "unpause")]));
  (lit "act_create_token", (0, [Txt (lit "create token")]));
  (lit "act_delete_token", (0, [Txt (lit "revoke token")]));
  (lit "act_set_alert_group", (0, [Txt (lit "save alert group")]));
  (lit "act_delete_alert_group", (0, [Txt (lit "delete alert group")]));
  (lit "api_title", (0, [Txt (lit "API & Integration")]));
  (lit "api_sub", (0, [Txt (lit "Drive cronova from your own platform. Browse the interactive API reference and manage API tokens for machine access.")]));
  (lit "api_docs_h", (0, [Txt (lit "API reference")]));
  (lit "api_docs_hint", (0, [Txt (lit "Full OpenAPI reference with built-in curl / Go / Python / Java samples and an in-page language switcher.")]));
  (lit "api_open_docs", (0, [Txt (lit "Open API reference →")]));
  (lit "api_spec_link", (0, [Txt (lit "OpenAPI spec")]));
  (lit "tok_title", (0, [Txt (lit "API Tokens")]));
  (lit "tok_sub", (0, [Txt (lit "Machine credentials. Call the API with Authorization: Bearer <token>. The plaintext is shown only once, at creation.")]));
  (lit "tok_name", (0, [Txt (lit "Name")]));
  (lit "tok_role", (0, [Txt (lit "Role")]));
  (lit "tok_prefix", (0, [Txt (lit "Prefix")]));
  (lit "tok_created", (0, [Txt (lit "Created")]));
  (lit "tok_lastused", (0, [Txt (lit "Last used")]));
  (lit "tok_never", (0, [Txt (lit "Never used")]));
  (lit "tok_create", (0, [Txt (lit "Create token")]));
  (lit "tok_none", (0, [Txt (lit "No tokens yet")]));
  (lit "tok_name_ph", (0, [Txt (lit "e.g. ci-bot")]));
  (lit "tok_revoke", (0, [Txt (lit "Revoke")]));
  (lit "tok_need_name", (0, [Txt (lit "Name is required")]));
  (lit "tok_revoke_title", (1, [Txt (lit "Revoke token “"); Arg 0; Txt (lit "”?")]));
  (lit "tok_revoke_body", (0, [Txt (lit "Calls using this token will fail immediately. This cannot be undone.")]));
  (lit "tok_created_ok", (0, [Txt (lit "Token created")]));
  (lit "tok_revoked", (0, [Txt (lit "Token revoked")]));
  (lit "tok_reveal_h", (0, [Txt (lit "Your new API token")]));
  (lit "tok_reveal_warn", (0, [Txt (lit "Copy it now and store it securely — you won't be able to see the plaintext again.")]));
  (lit "tok_copy", (0, [Txt (lit "Copy")]));
  (lit "tok_done", (0, [Txt (lit "I've saved it")]));
  (lit "role_admin_full", (0, [Txt (lit "Admin (read-write)")]));
  (lit "role_operator", (0, [Txt (lit "Operator (trigger/cancel/retry)")]));
  (lit "role_viewer_ro", (0, [Txt (lit "Viewer (GET only)")]));
  (lit "res_vars", (0, [Txt (lit "Variables")]));
  (lit "res_conns", (0, [Txt (lit "Connections")]));
  (lit "res_groups", (0, [Txt (lit "Alert groups")]));
  (lit "res_sub", (0, [Txt (lit "Config shared across tasks. Reference in commands as {{ var.KEY }} / {{ conn.ID.field }}, or {{ params.KEY }} at trigger time.")]));
  (lit "ag_hint", (0, [Txt (lit "Bundle several notify channels under one name and reference it from workflows via notify.group; when the on-call destinations change, edit them here once.")]));
  (lit "ag_name", (0, [Txt (lit "Group name")]));
  (lit "ag_channels", (0, [Txt (lit "Channels")]));
  (lit "ag_updated", (0, [Txt (lit "Updated")]));
  (lit "ag_channel_n", (1, [Arg 0; Txt (lit " channel"); IfGt 0 1%N [Txt (lit "s")] []]));
  (lit "ag_none", (0, [Txt (lit "No alert groups yet")]));
  (lit "ag_add", (0, [Txt (lit "New alert group")]));
  (lit "ag_edit", (0, [Txt (lit "Edit alert group")]));
  (lit "ag_add_channel", (0, [Txt (lit "+ Add channel")]));
  (lit "ag_remove_channel", (0, [Txt (lit "Remove channel")]));
  (lit "ag_fmt", (0, [Txt (lit "Format")]));
  (lit "ag_url_ph", (0, [Txt (lit "https://hooks.slack.com/… or mailto:oncall@example.com")]));
  (lit "ag_max", (1, [Txt (lit "up to "); Arg 0; Txt (lit " channels")]));
  (lit "ag_err_channels", (0, [Txt (lit "An alert group needs 1-16 channels")]));
  (lit "ag_err_url", (0, [Txt (lit "Channel URL must start with http://, https:// or mailto:")]));
  (lit "ag_mailto_hint", (0, [Txt (lit "mailto: channels are sent through the server's SMTP relay — configure the smtp: section of the config file first")]));
  (lit "ag_del_title", (1, [Txt (lit "Delete alert group “"); Arg 0; Txt (lit "”?")]));
  (lit "ag_del_body", (0, [Txt (lit "Workflows referencing it fall back to their own notify URL or the instance default — no alert is lost.")]));
  (lit "v_key", (0, [Txt (lit "Key")]));
  (lit "v_value", (0, [Txt (lit "Value")]));
  (lit "v_add", (0, [Txt (lit "Add variable")]));
  (lit "v_none", (0, [Txt (lit "No variables yet")]));
  (lit "v_save", (0, [Txt (lit "Save")]));
  (lit "c_id", (0, [Txt (lit "Connection ID")]));
  (lit "c_type", (0, [Txt (lit "Type")]));
  (lit "c_host", (0, [Txt (lit "Host")]));
  (lit "c_port", (0, [Txt (lit "Port")]));
  (lit "c_login", (0, [Txt (lit "Login")]));
  (lit "c_password", (0, [Txt (lit "Password")]));
  (lit "c_extra", (0, [Txt (lit "Extra (JSON)")]));
  (lit "c_add", (0, [Txt (lit "New connection")]));
  (lit "c_edit", (0, [Txt (lit "Edit connection")]));
  (lit "c_none", (0, [Txt (lit "No connections yet")]));
  (lit "c_pw_set", (0, [Txt (lit "set")]));
  (lit "c_pw_none", (0, [Txt (lit "not set")]));
  (lit "c_pw_keep", (0, [Txt (lit "leave blank to keep")]));
  (lit "c_del_title", (1, [Txt (lit "Delete connection “"); Arg 0; Txt (lit "”?")]));
  (lit "v_del_title", (1, [Txt (lit "Delete variable “"); Arg 0; Txt (lit "”?")]));
  (lit "del_body", (0, [Txt (lit "This cannot be undone.")]));
  (lit "trig_params", (0, [Txt (lit "Trigger with params")]));
  (lit "p_params", (0, [Txt (lit "Params")]));
  (lit "p_add", (0, [Txt (lit "Add row")]));
  (lit "p_key", (0, [Txt (lit "Key")]));
  (lit "p_val", (0, [Txt (lit "Value")]));
  (lit "p_trigger", (0, [Txt (lit "Trigger")]));
  (lit "p_hint", (0, [Txt (lit "Params are injected as CRONOVA_PARAM_* env vars; reference as {{ params.key }} in commands.")]));
  (lit "run_params", (0, [Txt (lit "Params")]));
  (lit "res_saved", (0, [Txt (lit "Saved")]));
  (lit "res_deleted", (0, [Txt (lit "Deleted")]));
  (lit "err_key", (0, [Txt (lit "Invalid name (letters, digits, _ . - only)")]));
  (lit "btn_trigger", (0, [Txt (lit "▶ Trigger run")]));
  (lit "btn_pause", (0, [Txt (lit "Pause")]));
  (lit "btn_resume", (0, [Txt (lit "Resume")]));
  (lit "btn_delete", (0, [Txt (lit "Delete")]));
  (lit "confirm_del_dag_title", (1, [Txt (lit "Archive workflow “"); Arg 0; Txt (lit "”?")]));
  (lit "confirm_del_dag_body", (0, [Txt (lit "It will be archived (hidden from lists); run history is kept and it can be restored.")]));
  (lit "dag_archived", (0, [Txt (lit "This workflow is archived (deleted).")]));
  (lit "confirm_word", (0, [Txt (lit "Confirm")]));
  (lit "cancel_word", (0, [Txt (lit "Cancel")]));
  (lit "aria_theme", (0, [Txt (lit "Toggle theme")]));
  (lit "aria_lang", (0, [Txt (lit "Switch language")]));
  (lit "toast_run_queued", (0, [Txt (lit "Triggered — run queued")]));
  (lit "toast_pool_saved", (0, [Txt (lit "Pool saved")]));
  (lit "toast_dag_deleted", (0, [Txt (lit "Workflow archived")]));
  (lit "th_id", (0, [Txt (lit "id")]));
  (lit "th_type", (0, [Txt (lit "type")]));
  (lit "th_command", (0, [Txt (lit "command")]));
  (lit "th_deps", (0, [Txt (lit "deps")]));
  (lit "th_logical", (0, [Txt (lit "logical date")]));
  (lit "th_state", (0, [Txt (lit "state")]));
  (lit "th_trig", (0, [Txt (lit "trigger")]));
  (lit "th_started", (0, [Txt (lit "started")]));
  (lit "th_dur", (0, [Txt (lit "duration")]));
  (lit "th_task", (0, [Txt (lit "task")]));
  (lit "th_try", (0, [Txt (lit "try")]));
  (lit "th_logs", (0, [Txt (lit "logs")]));
  (lit "no_runs", (0, [Txt (lit "No runs yet — trigger one.")]));
  (lit "k_logical", (0, [Txt (lit "logical date")]));
  (lit "k_trig", (0, [Txt (lit "trigger")]));
  (lit "k_dur", (0, [Txt (lit "duration")]));
  (lit "k_started", (0, [Txt (lit "started")]));
  (lit "log_word", (0, [Txt (lit "Log")]));
  (lit "live", (0, [Txt (lit "live")]));
  (lit "pools_sub", (0, [Txt (lit "Global concurrency slots, shared across all workflows and runs.")]));
  (lit "p_name", (0, [Txt (lit "name")]));
  (lit "p_slots", (0, [Txt (lit "slots")]));
  (lit "p_save", (0, [Txt (lit "Save")]));
  (lit "p_newname", (0, [Txt (lit "new pool name")]));
  (lit "p_create", (0, [Txt (lit "Create pool")]));
  (lit "p_need", (0, [Txt (lit "name + positive slots required")]));
  (lit "trig_fail", (0, [Txt (lit "trigger failed")]));
  (lit "api_err", (0, [Txt (lit "API error")]));
  (lit "err_code_not_found", (0, [Txt (lit "Not found (it may have been deleted)")]));
  (lit "err_code_no_tasks", (0, [Txt (lit "This workflow has no steps yet — add one before running it")]));
  (lit "err_code_bad_mark_state", (0, [Txt (lit "That state is not a valid mark target")]));
  (lit "err_code_queue_full", (0, [Txt (lit "The run queue is full — try again shortly")]));
  (lit "err_code_active_runs", (0, [Txt (lit "This workflow still has active runs — cancel or wait for them first")]));
  (lit "err_code_run_not_active", (0, [Txt (lit "This run has already finished — nothing to cancel")]));
  (lit "err_code_nothing_to_retry", (0, [Txt (lit "This run has no failed steps to retry")]))
].

(** Lines 441 to 540. *)
Definition DICT_en_2 : dict :=
[
  (lit "err_code_run_still_active", (0, [Txt (lit "This run is still active — retry it after it finishes")]));
  (lit "err_code_bad_group_name", (0, [Txt (lit "Invalid alert group name (letters, digits, _ . - only; max 128 chars)")]));
  (lit "err_code_dag_conflict", (0, [Txt (lit "This workflow changed since you loaded it — reload to merge your edits; retrying will conflict again")]));
  (lit "err_code_group_channels", (0, [Txt (lit "An alert group needs 1-16 channels")]));
  (lit "err_code_group_channel_url", (0, [Txt (lit "Channel URL must start with http://, https:// or mailto:")]));
  (lit "err_code_group_channel_format", (0, [Txt (lit "Invalid channel format (raw / slack / feishu / dingtalk / email)")]));
  (lit "dt_hint", (0, [Txt (lit "Duration trend: taller = slower, color = outcome; click a bar to open that run")]));
  (lit "runs_more", (0, [Txt (lit "Load more ↓")]));
  (lit "audit_more", (0, [Txt (lit "Load more ↓")]));
  (lit "log_all", (0, [Txt (lit "All tasks")]));
  (lit "bulk_all", (0, [Txt (lit "Select all (current filter)")]));
  (lit "bulk_pick", (1, [Txt (lit "Select "); Arg 0]));
  (lit "bulk_selected", (1, [Arg 0; Txt (lit " workflow"); IfGt 0 1%N [Txt (lit "s")] []; Txt (lit " selected")]));
  (lit "bulk_done", (2, [Txt (lit "Bulk action done: "); Arg 0; Txt (lit "/"); Arg 1; Txt (lit " succeeded")]));
  (lit "bulk_del_title", (1, [Txt (lit "Archive the "); Arg 0; Txt (lit " selected workflow"); IfGt 0 1%N [Txt (lit "s")] []; Txt (lit "?")]));
  (lit "au_f_actor", (0, [Txt (lit "Filter by actor")]));
  (lit "au_f_action", (0, [Txt (lit "Filter by action")]));
  (lit "au_f_all", (0, [Txt (lit "All")]));
  (lit "nx_paused", (0, [Txt (lit "paused")]));
  (lit "nx_due", (0, [Txt (lit "due")]));
  (lit "nx_in", (1, [Txt (lit "in "); Arg 0; Txt (lit "m")]));
  (lit "b_dag_info", (0, [Txt (lit "DAG info")]));
  (lit "f_dag_id", (0, [Txt (lit "DAG ID")]));
  (lit "f_start", (0, [Txt (lit "Start date")]));
  (lit "f_catchup", (0, [Txt (lit "Catchup")]));
  (lit "f_maxactive", (0, [Txt (lit "Max active")]));
  (lit "f_defretries", (0, [Txt (lit "Default retries")]));
  (lit "f_catchup_hint", (0, [Txt (lit "When on, every schedule period missed since start_date gets a backfilled run (at most one per tick, bounded by max active runs — no thundering herd)")]));
  (lit "f_trigger_after", (0, [Txt (lit "Trigger after (upstream success)")]));
  (lit "b_addtask", (0, [Txt (lit "+ Add task")]));
  (lit "b_remove", (0, [Txt (lit "Remove")]));
  (lit "t_id", (0, [Txt (lit "Task ID")]));
  (lit "t_type", (0, [Txt (lit "Type")]));
  (lit "t_command", (0, [Txt (lit "Command")]));
  (lit "t_pool", (0, [Txt (lit "Pool")]));
  (lit "t_priority", (0, [Txt (lit "Priority")]));
  (lit "t_http", (0, [Txt (lit "HTTP request")]));
  (lit "http_method", (0, [Txt (lit "Method")]));
  (lit "http_url", (0, [Txt (lit "URL")]));
  (lit "http_headers", (0, [Txt (lit "Headers")]));
  (lit "http_headers_hint", (0, [Txt (lit "One per line, Key: Value — supports {{ var. }} / {{ conn. }}")]));
  (lit "http_body", (0, [Txt (lit "Body")]));
  (lit "http_status", (0, [Txt (lit "Expected status")]));
  (lit "http_status_hint", (0, [Txt (lit "Comma-separated, e.g. 200,201; empty = any 2xx")]));
  (lit "err_httpurl", (0, [Txt (lit "HTTP task requires a URL")]));
  (lit "t_python", (0, [Txt (lit "Python code")]));
  (lit "python_hint", (0, [Txt (lit "Inline Python run with python3 -c; CRONOVA_* vars are in the environment; supports {{ var. }} templates. Non-zero exit = failure.")]));
  (lit "t_sql", (0, [Txt (lit "SQL query")]));
  (lit "sql_conn", (0, [Txt (lit "Connection")]));
  (lit "sql_conn_hint", (0, [Txt (lit "A configured connection id (its type picks the driver: postgres/mysql/sqlite). See Variables & Connections.")]));
  (lit "err_sqlconn", (0, [Txt (lit "SQL task requires a connection")]));
  (lit "t_retries", (0, [Txt (lit "Retries (empty=default)")]));
  (lit "t_retrydelay", (0, [Txt (lit "Retry delay (s)")]));
  (lit "t_timeout", (0, [Txt (lit "Timeout (s)")]));
  (lit "t_deps", (0, [Txt (lit "Depends on")]));
  (lit "t_nodeps", (0, [Txt (lit "no other tasks")]));
  (lit "t_project", (0, [Txt (lit "Project")]));
  (lit "t_optional", (0, [Txt (lit "(optional)")]));
  (lit "proj_none", (0, [Txt (lit "None (no project)")]));
  (lit "proj_upload", (0, [Txt (lit "Upload / new project")]));
  (lit "proj_hint", (0, [Txt (lit "When set, the command runs inside a clean copy of this project (e.g. python3 main.py). Shell tasks only.")]));
  (lit "proj_name", (0, [Txt (lit "Project name")]));
  (lit "proj_name_bad", (0, [Txt (lit "Name may contain only letters/digits/. _ -")]));
  (lit "proj_mode_files", (0, [Txt (lit "Upload files / folder")]));
  (lit "proj_mode_inline", (0, [Txt (lit "Write a script")]));
  (lit "proj_drop", (0, [Txt (lit "Drag files or a folder here")]));
  (lit "proj_pick_files", (0, [Txt (lit "Choose files")]));
  (lit "proj_pick_folder", (0, [Txt (lit "Choose folder")]));
  (lit "proj_ziphint", (0, [Txt (lit "Drop a .zip to auto-extract")]));
  (lit "proj_filename", (0, [Txt (lit "Filename")]));
  (lit "proj_content", (0, [Txt (lit "Script content")]));
  (lit "proj_do_upload", (0, [Txt (lit "Upload")]));
  (lit "proj_selected", (1, [Arg 0; Txt (lit " file(s) selected")]));
  (lit "proj_uploaded", (0, [Txt (lit "Project uploaded")]));
  (lit "proj_upload_fail", (0, [Txt (lit "Upload failed")]));
  (lit "proj_need_name", (0, [Txt (lit "Enter a project name first")]));
  (lit "proj_need_files", (0, [Txt (lit "Choose files or write script content first")]));
  (lit "proj_manage", (0, [Txt (lit "Manage projects")]));
  (lit "err_dagid", (0, [Txt (lit "Valid DAG ID required (letters/digits/_-.)")]));
  (lit "err_taskid", (0, [Txt (lit "Invalid task ID (letters/digits/_-.)")]));
  (lit "err_dup", (0, [Txt (lit "Duplicate task ID")]));
  (lit "err_emptyid", (0, [Txt (lit "Empty task ID")]));
  (lit "err_emptycmd", (0, [Txt (lit "Empty command")]));
  (lit "err_cycle", (0, [Txt (lit "Dependency cycle detected")]));
  (lit "sched", (0, [Txt (lit "Schedule")]));
  (lit "sm_manual", (0, [Txt (lit "Manual")]));
  (lit "sm_every", (0, [Txt (lit "Interval")]));
  (lit "sm_cron", (0, [Txt (lit "Cron expression")]));
  (lit "sched_manual_hint", (0, [Txt (lit "Manual trigger or triggered by an upstream workflow only")]));
  (lit "sched_every_pre", (0, [Txt (lit "Every")]));
  (lit "unit_s", (0, [Txt (lit "sec")]));
  (lit "unit_m", (0, [Txt (lit "min")]));
  (lit "unit_h", (0, [Txt (lit "hr")]));
  (lit "disabled_note", (0, [Txt (lit "(coming soon)")]));
  (lit "cp_min", (0, [Txt (lit "every minute")]));
  (lit "cp_hour", (0, [Txt (lit "hourly")]));
  (lit "cp_day", (0, [Txt (lit "daily 0:00")]));
  (lit "cp_2am", (0, [Txt (lit "daily 2:00")]));
  (lit "cp_mon", (0, [Txt (lit "Mon 0:00")]));
  (lit "cron_help", (0, [Txt (lit "help")]));
  (lit "ch_title", (0, [Txt (lit "Cron format")]));
  (lit "ch_format", (0, [Txt (lit "Format: min hour day month weekday (5 space-separated fields)")]));
  (lit "ch_fields", (0, [Txt (lit "Fields")]));
  (lit "ch_ops", (0, [Txt (lit "Operators")]));
  (lit "ch_examples", (0, [Txt (lit "Examples (click to fill)")]));
  (lit "ch_shortcuts", (0, [Txt (lit "Shortcuts")]));
  (lit "t_rule", (0, [Txt (lit "Trigger rule")]));
  (lit "tr_all_success", (0, [Txt (lit "all success")]));
  (lit "tr_all_done", (0, [Txt (lit "all done")]));
  (lit "tr_one_success", (0, [Txt (lit "one success")]));
  (lit "tr_one_failed", (0, [Txt (lit "one failed")]));
  (lit "tr_all_failed", (0, [Txt (lit "all failed")]));
  (lit "tr_none_failed", (0, [Txt (lit "none failed")]));
  (lit "trd_all_success", (0, [Txt (lit "Runs only if all upstreams succeeded (default)")]));
  (lit "trd_all_done", (0, [Txt (lit "Runs once all upstreams finish, success or not — good for cleanup/summary")]));
  (lit "trd_one_success", (0, [Txt (lit "Runs as soon as any upstream succeeds")]));
  (lit "trd_one_failed", (0, [Txt (lit "Runs as soon as any upstream fails — good for alerts")]));
  (lit "trd_all_failed", (0, [Txt (lit "Runs only if all upstreams failed")]));
  (lit "trd_none_failed", (0, [Txt (lit "Runs if no upstream failed (succeeded or skipped)")]));
  (lit "pool_hint", (0, [Txt (lit "Concurrency slots shared across all DAGs; tasks in the same pool compete for its slots")]));
  (lit "cb_interp", (0, [Txt (lit "Interpreter")]));
  (lit "cb_runas", (0, [Txt (lit "Run as")]));
  (lit "cb_target", (0, [Txt (lit "Module / script")]));
  (lit "cb_args", (0, [Txt (lit "Arguments")]));
  (lit "cb_jar", (0, [Txt (lit "Jar path")]));
  (lit "cb_mainclass", (0, [Txt (lit "Main class")]));
  (lit "cb_client", (0, [Txt (lit "SQL client")]));
  (lit "cb_query", (0, [Txt (lit "SQL query")]));
  (lit "cmdopt_module", (0, [Txt (lit "module (-m)")]));
  (lit "cmdopt_script", (0, [Txt (lit "script file")]));
  (lit "cmd_will_run", (0, [Txt (lit "Will run:")]));
  (lit "cmd_edit_raw", (0, [Txt (lit "edit raw command")]));
  (lit "cmd_use_form", (0, [Txt (lit "use form")]));
  (lit "cmd_cant_parse", (0, [Txt (lit "This command can't be parsed into the form; keeping the raw editor")]));
  (lit "var_insert", (0, [Txt (lit "click or drag to insert a variable")]));
  (lit "var_editor_aria", (0, [Txt (lit "command editor — insert variable pills")]));
  (lit "var_pill_aria", (1, [Txt (lit "variable "); Arg 0]));
  (lit "var_pill_remove", (1, [Txt (lit "remove variable "); Arg 0]));
  (lit "var_empty", (0, [Txt (lit "none")]));
  (lit "var_add_key", (0, [Txt (lit "custom…")]));
  (lit "var_conn_field", (0, [Txt (lit "field")]));
  (lit "var_goto_settings", (0, [Txt (lit "set up")]));
  (lit "vd_logical_date", (0, [Txt (lit "this run's logical date (day)")]));
  (lit "vd_logical_datetime", (0, [Txt (lit "logical date-time (RFC3339)")]));
  (lit "vd_date_expr", (0, [Txt (lit "date expression: ±N d/h/w/mo offsets, .month_start/.month_end/.week_start/.week_end anchors, | %Y%m%d custom format; composable")]));
  (lit "vd_run_id", (0, [Txt (lit "this run's unique id")]));
  (lit "vd_dag_id", (0, [Txt (lit "the DAG id")]));
  (lit "vd_task_id", (0, [Txt (lit "this task's id")]));
  (lit "vd_try_number", (0, [Txt (lit "attempt number (increments on retry)")]));
  (lit "vd_var", (0, [Txt (lit "shared variable")]));
  (lit "vd_conn", (0, [Txt (lit "connection field")]));
  (lit "vd_params", (0, [Txt (lit "manual-trigger param")]));
  (lit "vg_builtin", (0, [Txt (lit "built-in")]));
  (lit "vg_var", (0, [Txt (lit "variables")]));
  (lit "vg_conn", (0, [Txt (lit "connections")]));
  (lit "vg_params", (0, [Txt (lit "params")]));
  (lit "graph_connect_hint", (0, [Txt (lit "Drag the dot on a node's right edge onto another task to connect; click a node to edit the task; Shift+click two nodes (or toggle connect mode and click them in turn) also connects/disconnects; click an edge to remove the dependency")]));
  (lit "ge_addtask", (0, [Txt (lit "+ Add task")]));
  (lit "ge_connect", (0, [Txt (lit "Connect mode")]));
  (lit "ge_connect_tip", (0, [Txt (lit "When on: click the upstream task, then the downstream task to connect/disconnect (keyboard friendly)")]));
  (lit "ge_new_id_title", (0, [Txt (lit "New task ID")]));
  (lit "ge_edge_remove", (0, [Txt (lit "Remove dependency")]));
  (lit "ge_dup_dep", (0, [Txt (lit "Dependency already exists")]));
  (lit "ge_edge_aria", (2, [Txt (lit "Dependency "); Arg 0; Txt (lit " → "); Arg 1; Txt (lit ", press Enter to remove")]));
  (lit "ge_node_aria", (1, [Txt (lit "Task "); Arg 0]));
  (lit "diff_unsaved", (1, [Arg 0; Txt (lit " unsaved change"); IfGt 0 1%N [Txt (lit "s")] []]));
  (lit "diff_save", (0, [Txt (lit "Save")]));
  (lit "diff_discard", (0, [Txt (lit "Discard")]));
  (lit "diff_show", (0, [Txt (lit "View diff")]));
  (lit "diff_hide", (0, [Txt (lit "Hide diff")]));
  (lit "diff_loading", (0, [Txt (lit "Building diff preview…")]));
  (lit "diff_invalid", (0, [Txt (lit "Pending changes fail validation")]));
  (lit "diff_same", (0, [Txt (lit "Identical to the saved version")]));
  (lit "diff_discarded", (0, [Txt (lit "Unsaved changes discarded")]));
  (lit "t_subdag", (0, [Txt (lit "Target workflow")]));
  (lit "subdag_hint", (0, [Txt (lit "Runs another workflow as a child run: this task mirrors the child run's terminal state, and cancel cascades into it")]));
  (lit "subdag_none", (0, [Txt (lit "Pick a workflow…")]));
  (lit "err_subdag", (0, [Txt (lit "A sub-workflow task needs a target workflow")]));
  (lit "dod_title", (0, [Txt (lit "Cross-workflow dependency")]));
  (lit "dod_hint", (0, [Txt (lit "The task becomes ready only after the target workflow's matching period run succeeds")]));
  (lit "dod_dag", (0, [Txt (lit "Depends on workflow")]));
  (lit "dod_offset", (0, [Txt (lit "Period offset")]));
  (lit "dod_offset_hint", (0, [Txt (lit "- 1d / .month_start / blank = same period")]));
  (lit "dod_timeout", (0, [Txt (lit "Wait timeout (sec)")]));
  (lit "dod_timeout_hint", (0, [Txt (lit "0 = wait until the run times out")]));
  (lit "dod_on_timeout", (0, [Txt (lit "On timeout")]));
  (lit "dod_fail", (0, [Txt (lit "fail")]));
  (lit "dod_skip", (0, [Txt (lit "skip")]));
  (lit "parent_run", (0, [Txt (lit "Parent run")]));
  (lit "child_run", (0, [Txt (lit "Child run")]));
  (lit "nav_graph", (0, [Txt (lit "Graph")]));
  (lit "graph_title", (0, [Txt (lit "Workflow Graph")]));
  (lit "graph_sub", (0, [Txt (lit "Trigger dependencies between workflows via trigger_after")]));
  (lit "graph_none", (0, [Txt (lit "No cross-workflow dependencies yet (none declares trigger_after)")]));
  (lit "graph_view_hint", (0, [Txt (lit "Tip: arrows point in the trigger-after direction; click a node to open that workflow; dashed nodes are unknown workflows")]));
  (lit "ss_saved", (0, [Txt (lit "Saved")]));
  (lit "ss_saving", (0, [Txt (lit "Saving…")]));
  (lit "ss_invalid", (0, [Txt (lit "Fix errors to save")]));
  (lit "ss_error", (0, [Txt (lit "Save failed")]));
  (lit "dag_no_tasks_title", (0, [Txt (lit "No tasks yet")]));
  (lit "dag_no_tasks_sub", (0, [Txt (lit "Add a task to enable this workflow")]));
  (lit "dag_disabled_hint", (0, [Txt (lit "Add a task to enable triggering")]));
  (lit "nd_title", (0, [Txt (lit "New workflow")]));
  (lit "nd_create", (0, [Txt (lit "Create")]));
  (lit "nd_cancel", (0, [Txt (lit "Cancel")]));
  (lit "nd_dagid_dup", (0, [Txt (lit "A DAG with this id already exists")]));
  (lit "tpl_start", (0, [Txt (lit "Start from a template")]));
  (lit "tpl_tasks", (0, [Txt (lit "tasks")]));
  (lit "tpl_blank", (0, [Txt (lit "Blank")]));
  (lit "tpl_blank_d", (0, [Txt (lit "Start empty and add tasks yourself")]));
  (lit "tpl_etl", (0, [Txt (lit "Daily ETL")]));
  (lit "tpl_etl_d", (0, [Txt (lit "Three-step extract → transform → load pipeline")]));
  (lit "tpl_report", (0, [Txt (lit "Scheduled report")]));
  (lit "tpl_report_d", (0, [Txt (lit "Fetch → render, preset to run daily at 08:00")]));
  (lit "tpl_fanout", (0, [Txt (lit "Fan-out / fan-in")]));
  (lit "tpl_fanout_d", (0, [Txt (lit "start → two parallel branches → join")]));
  (lit "coach_tpl_ready", (0, [Txt (lit "Template ready — hit “Trigger run” to watch it execute, then tweak the tasks")]));
  (lit "sp_every", (2, [Txt (lit "Runs every "); Arg 0; Txt (lit " "); Arg 1]));
  (lit "sp_next", (0, [Txt (lit "Next")]));
  (lit "sp_invalid", (0, [Txt (lit "Invalid expression — cannot compute fire times")]));
  (lit "tz_note", (0, [Txt (lit "Schedules evaluate in UTC; times shown in your local timezone")]));
  (lit "btn_duplicate", (0, [Txt (lit "⧉ Duplicate")]));
  (lit "dup_dag_title", (0, [Txt (lit "Duplicate as a new workflow (enter a new id)")]));
  (lit "dup_done", (0, [Txt (lit "Duplicated")]));
  (lit "y_copy", (0, [Txt (lit "Copy")]));
  (lit "y_download", (0, [Txt (lit "Download")]));
  (lit "y_close", (0, [Txt (lit "Close")]));
  (lit "y_copied", (0, [Txt (lit "YAML copied to clipboard")]));
  (lit "y_copy_fail", (0, [Txt (lit "Copy failed — select the text manually")]));
  (lit "nd_import_yaml", (0, [Txt (lit "or paste YAML to import…")]));
  (lit "nd_back_form", (0, [Txt (lit "← back to the form")]));
  (lit "nd_import", (0, [Txt (lit "Import")]));
  (lit "nd_yaml_empty", (0, [Txt (lit "Paste some YAML first")]));
  (lit "nd_imported", (0, [Txt (lit "YAML imported")]));
  (lit "gs_title", (0, [Txt (lit "Getting started")]));
  (lit "gs_create", (0, [Txt (lit "Create your first workflow")]));
  (lit "gs_trigger", (0, [Txt (lit "Trigger a run")]));
  (lit "gs_green", (0, [Txt (lit "Get a green run")]));
  (lit "adv_options", (0, [Txt (lit "Advanced options")]));
  (lit "log_find_ph", (0, [Txt (lit "Find in log…")]));
  (lit "log_download", (0, [Txt (lit "Download full log")]));
  (lit "log_matches", (1, [Arg 0; Txt (lit " matching lines")]));
  (lit "log_capped", (1, [Txt (lit "showing last "); Arg 0; Txt (lit " lines")]));
  (lit "back_dag", (1, [Txt (lit "← Back to "); Arg 0]));
  (lit "confirm_del_task_title", (1, [Txt (lit "Delete task “"); Arg 0; Txt (lit "”?")]));
  (lit "nav_workers", (0, [Txt (lit "Workers")]));
  (lit "wk_sub", (0, [Txt (lit "Remote workers dialed into this scheduler: live state, load, and drain/remove operations. Tasks route to a group via worker_group.")]));
  (lit "wk_name", (0, [Txt (lit "Name")]));
  (lit "wk_group", (0, [Txt (lit "Group")]));
  (lit "wk_state", (0, [Txt (lit "State")]));
  (lit "wk_active", (0, [Txt (lit "Active tasks")]));
  (lit "wk_version", (0, [Txt (lit "Version")]));
  (lit "wk_heartbeat", (0, [Txt (lit "Last heartbeat")]));
  (lit "wk_created", (0, [Txt (lit "Joined")]));
  (lit "wk_online", (0, [Txt (lit "online")]));
  (lit "wk_offline", (0, [Txt (lit "offline")]));
  (lit "wk_lost", (0, [Txt (lit "lost")]));
  (lit "wk_draining", (0, [Txt (lit "draining")]));
  (lit "wk_unnamed", (0, [Txt (lit "(unnamed)")]));
  (lit "wk_drain", (0, [Txt (lit "Drain")]));
  (lit "wk_undrain", (0, [Txt (lit "Undrain")]));
  (lit "wk_drain_title", (1, [Txt (lit "Drain worker “"); Arg 0; Txt (lit "”?")]));
  (lit "wk_drain_body", (0, [Txt (lit "A draining worker gets no new assignments; its running tasks finish normally. You can undrain it any time.")]));
  (lit "wk_undrain_title", (1, [Txt (lit "Undrain worker “"); Arg 0; Txt (lit "”?")]));
  (lit "wk_undrain_body", (0, [Txt (lit "The worker resumes receiving task assignments.")]));
  (lit "wk_drained_toast", (0, [Txt (lit "Draining started")]));
  (lit "wk_undrained_toast", (0, [Txt (lit "Assignments resumed")]));
  (lit "wk_remove", (0, [Txt (lit "Remove")]));
  (lit "wk_remove_title", (1, [Txt (lit "Remove worker “"); Arg 0; Txt (lit "”?")]))
].

(** Lines 541 to 638. *)
Definition DICT_en_3 : dict :=
[
  (lit "wk_remove_body", (0, [Txt (lit "Removal is immediate and cannot be undone: the worker's certificate stops being accepted, so it cannot reconnect — rejoining requires a fresh join token.")]));
  (lit "wk_removed_toast", (0, [Txt (lit "Worker removed")]));
  (lit "wk_none_title", (0, [Txt (lit "No workers have joined yet")]));
  (lit "wk_none_sub", (0, [Txt (lit "Attach a remote worker in two steps:")]));
  (lit "wk_join_step1", (0, [Txt (lit "Mint a one-time join token on this page")]));
  (lit "wk_join_step2", (0, [Txt (lit "Run on the worker host:")]));
  (lit "wk_token_btn", (0, [Txt (lit "New join token")]));
  (lit "wk_token_title", (0, [Txt (lit "Mint a one-time join token")]));
  (lit "wk_token_ttl", (0, [Txt (lit "Expires in")]));
  (lit "wk_ttl_1h", (0, [Txt (lit "1 hour")]));
  (lit "wk_ttl_24h", (0, [Txt (lit "24 hours")]));
  (lit "wk_ttl_7d", (0, [Txt (lit "7 days")]));
  (lit "wk_token_create", (0, [Txt (lit "Mint token")]));
  (lit "wk_token_reveal_h", (0, [Txt (lit "Your join token")]));
  (lit "wk_token_warn", (0, [Txt (lit "This token is shown only once and can be used only once — you won't see it again after closing.")]));
  (lit "wk_join_cmd_h", (0, [Txt (lit "Run on the worker host:")]));
  (lit "wk_expires", (0, [Txt (lit "Expires")]));
  (lit "err_code_workers_disabled", (0, [Txt (lit "Worker hub is not enabled — set worker_listen in the server config")]));
  (lit "wk_disabled_hint", (0, [Txt (lit "The server has no worker hub enabled. Configure worker_listen in cronova.yaml (or set CRONOVA_WORKER_LISTEN), restart, and try again.")]));
  (lit "rel_now", (0, [Txt (lit "just now")]));
  (lit "rel_ago", (1, [Arg 0; Txt (lit " ago")]));
  (lit "set_policy", (0, [Txt (lit "Execution policy")]));
  (lit "set_policy_hint", (0, [Txt (lit "How runs of this workflow are admitted when several are ready at once. Serial policies force at most one active run, whatever Max active runs says.")]));
  (lit "po_parallel", (0, [Txt (lit "Parallel")]));
  (lit "po_serial_wait", (0, [Txt (lit "Serial (wait)")]));
  (lit "po_serial_discard", (0, [Txt (lit "Serial (discard)")]));
  (lit "po_serial_priority", (0, [Txt (lit "Serial (priority)")]));
  (lit "pod_parallel", (0, [Txt (lit "Parallel: up to Max active runs execute concurrently (default)")]));
  (lit "pod_serial_wait", (0, [Txt (lit "Serial wait: one at a time; later runs queue and execute in logical-date order")]));
  (lit "pod_serial_discard", (0, [Txt (lit "Serial discard: one at a time; runs arriving while busy are cancelled (visibly, never silently)")]));
  (lit "pod_serial_priority", (0, [Txt (lit "Serial priority: one at a time; the queue drains highest run priority first")]));
  (lit "p_priority", (0, [Txt (lit "Priority")]));
  (lit "p_priority_hint", (0, [Txt (lit "-100 to 100, default 0; higher wins the competition for dispatch slots (and drains first from a serial_priority queue)")]));
  (lit "run_priority_tip", (0, [Txt (lit "Run priority: higher wins dispatch-slot competition")]));
  (lit "mode_novice", (0, [Txt (lit "Simple")]));
  (lit "mode_expert", (0, [Txt (lit "Expert")]));
  (lit "mode_toggle_title", (0, [Txt (lit "Interface mode: Simple keeps only the essentials; Expert shows every metric and action")]));
  (lit "nv_workbench", (0, [Txt (lit "Workbench")]));
  (lit "nv_myflows", (0, [Txt (lit "My workflows")]));
  (lit "nv_shared", (0, [Txt (lit "Shared config")]));
  (lit "nv_help", (0, [Txt (lit "Help center")]));
  (lit "nv_sys_ok", (0, [Txt (lit "System healthy")]));
  (lit "nv_newflow", (0, [Txt (lit "+ New workflow")]));
  (lit "s0_title", (0, [Txt (lit "Hand your repetitive scripts to cronova")]));
  (lit "s0_sub", (0, [Txt (lit "Runs on schedule, retries on failure, logs always at hand.")]));
  (lit "s0_sub2", (0, [Txt (lit "Three steps to your first workflow — about a minute.")]));
  (lit "s0_step1", (0, [Txt (lit "Pick a starting point")]));
  (lit "s0_step2", (0, [Txt (lit "Confirm the commands")]));
  (lit "s0_step3", (0, [Txt (lit "Run once, watch it go green")]));
  (lit "s0_cta", (0, [Txt (lit "Create my first workflow →")]));
  (lit "s0_expert_link", (0, [Txt (lit "I've used Airflow / Azkaban — take me to expert mode →")]));
  (lit "s0_term_hint", (0, [Txt (lit "A “workflow” is a set of commands run in order — the technical term is DAG. Expert mode uses the full terminology.")]));
  (lit "wz_crumb", (0, [Txt (lit "New workflow")]));
  (lit "wz_back", (0, [Txt (lit "← Back")]));
  (lit "wz_stepof", (1, [Txt (lit "Step "); Arg 0; Txt (lit " of 3")]));
  (lit "wz1_title", (0, [Txt (lit "Pick the scenario closest to yours")]));
  (lit "wz1_sub", (0, [Txt (lit "Everything can be changed later — this is just a starting point.")]));
  (lit "wz_tpl_etl", (0, [Txt (lit "Daily data pipeline")]));
  (lit "wz_tpl_etl_d", (0, [Txt (lit "Fetch, transform, then load — three steps in order")]));
  (lit "wz_tpl_etl_m", (0, [Txt (lit "3 steps · each waits for the previous to succeed")]));
  (lit "wz_tpl_report", (0, [Txt (lit "Scheduled report")]));
  (lit "wz_tpl_report_d", (0, [Txt (lit "Fetch data and send a report — great for a daily 8am digest")]));
  (lit "wz_tpl_report_m", (0, [Txt (lit "2 steps · preset daily 08:00")]));
  (lit "wz_tpl_blank", (0, [Txt (lit "From scratch")]));
  (lit "wz_tpl_blank_d", (0, [Txt (lit "A single step running any command or script of yours")]));
  (lit "wz_tpl_blank_m", (0, [Txt (lit "1 step · simplest")]));
  (lit "wz_tpl_blank_chip", (0, [Txt (lit "your command")]));
  (lit "wz1_next", (0, [Txt (lit "Next: confirm commands →")]));
  (lit "wz2_title", (0, [Txt (lit "These steps run one after another")]));
  (lit "wz2_sub", (0, [Txt (lit "A command is the line you'd type in a terminal. Each step starts only after the previous succeeds; failures retry automatically.")]));
  (lit "wz2_name_label", (0, [Txt (lit "Name your workflow")]));
  (lit "wz2_name_hint", (0, [Txt (lit "Letters, digits or underscores — e.g. daily_report")]));
  (lit "wz2_adv", (0, [Txt (lit "Optional: commands can embed runtime variables, replaced with real values at run time. Try it —")]));
  (lit "wz2_datevar", (0, [Txt (lit "+ Today's date")]));
  (lit "wz2_datevar_note", (0, [Txt (lit "appends to the end of step 1's command:")]));
  (lit "wz2_inserted", (1, [Txt (lit "Inserted ✓ replaced with the actual date at run time, e.g. --date "); Arg 0; Txt (lit " (editable in the input above)")]));
  (lit "wz2_next", (0, [Txt (lit "Next: when should it run →")]));
  (lit "wz_prev", (0, [Txt (lit "← Previous")]));
  (lit "wz3_title", (0, [Txt (lit "When should it run?")]));
  (lit "wz3_sub", (0, [Txt (lit "A rough choice is fine — change it any time later.")]));
  (lit "wz3_daily", (0, [Txt (lit "Every day at a fixed time")]));
  (lit "wz3_daily_d", (0, [Txt (lit "Most common: crunch data at night, send reports in the morning")]));
  (lit "wz3_interval", (0, [Txt (lit "At a regular interval")]));
  (lit "wz3_interval_d", (0, [Txt (lit "Good for polling and sync jobs")]));
  (lit "wz3_every", (0, [Txt (lit "every")]));
  (lit "wz3_minutes", (0, [Txt (lit "minutes")]));
  (lit "wz3_manual", (0, [Txt (lit "Only when I trigger it")]));
  (lit "wz3_manual_d", (0, [Txt (lit "Run it by hand first — automate once you trust it")]));
  (lit "wz3_note", (0, [Txt (lit "After creating, we'll take you straight to a trial run to confirm everything works.")]));
  (lit "wz3_cron_hint", (0, [Txt (lit "In expert mode this is a cron expression (e.g. 0 2 * * *) with more powerful rules.")]));
  (lit "wz3_create", (0, [Txt (lit "▶ Create & run once")]));
  (lit "nv_sched_daily", (1, [Txt (lit "It will run automatically every day at "); Arg 0; Txt (lit ".")]));
  (lit "nv_sched_interval", (1, [Txt (lit "It will run automatically every "); Arg 0; Txt (lit " minutes.")]));
  (lit "nv_sched_manual", (0, [Txt (lit "It only runs when you click “Run” — never automatically.")]));
  (lit "nv_gloss_daily", (1, [Txt (lit "daily at "); Arg 0]));
  (lit "nv_gloss_every", (2, [Txt (lit "every "); Arg 0; Txt (lit " "); Arg 1]));
  (lit "nv_gloss_manual", (0, [Txt (lit "manual only")]));
  (lit "nvr_running_title", (1, [Txt (lit "Running "); Arg 0; Txt (lit " …")]));
  (lit "nvr_sub", (0, [Txt (lit "Steps advance automatically — no need to refresh.")]));
  (lit "nvr_done_title", (1, [Txt (lit "Run succeeded in "); Arg 0]));
  (lit "nvr_done_sub", (0, [Txt (lit "On failure it retries automatically and keeps the logs here.")]));
  (lit "nvr_done_home", (0, [Txt (lit "Done — back home")]));
  (lit "nvr_detail", (0, [Txt (lit "View details")]));
  (lit "nvr_failed_title", (2, [Txt (lit "Step "); Arg 0; Txt (lit " "); Arg 1; Txt (lit " failed")]));
  (lit "nvr_failed_generic", (0, [Txt (lit "The run failed")]));
  (lit "nvr_failed_sub", (0, [Txt (lit "Earlier steps succeeded; later ones didn't run. See the last lines of the log for the cause.")]));
  (lit "nvr_retried", (1, [Txt (lit "Retried "); Arg 0; Txt (lit " time(s) automatically, still failing.")]));
  (lit "nvr_cancelled_title", (0, [Txt (lit "Run cancelled")]));
  (lit "nvr_timeout_title", (0, [Txt (lit "Run timed out and was stopped")]));
  (lit "nvr_cancelled_sub", (0, [Txt (lit "You stopped this run. If the commands look right, run it again any time.")]));
  (lit "nvr_timeout_sub", (0, [Txt (lit "The run exceeded its time limit and was force-stopped; later steps did not run.")]));
  (lit "nvr_rerun", (0, [Txt (lit "Fixed — run again ▶")]));
  (lit "nvr_rerun2", (0, [Txt (lit "Run again ▶")]));
  (lit "nvr_edit_steps", (0, [Txt (lit "Edit steps")]));
  (lit "nvr_home", (0, [Txt (lit "Home")]));
  (lit "nvr_waiting", (0, [Txt (lit "waiting")]));
  (lit "nvr_notrun", (0, [Txt (lit "did not run")]));
  (lit "nvr_running_dur", (0, [Txt (lit "running…")]));
  (lit "nvr_retry_n", (1, [Arg 0; Txt (lit " retr"); IfGt 0 1%N [Txt (lit "ies")] [Txt (lit "y")]]));
  (lit "nv_health_ok", (0, [Txt (lit "All good")]));
  (lit "nv_health_line", (1, [Arg 0; Txt (lit " workflow"); IfGt 0 1%N [Txt (lit "s")] []; Txt (lit " · no recent failures")]));
  (lit "nv_health_bad_title", (1, [Arg 0; Txt (lit " workflow"); IfGt 0 1%N [Txt (lit "s")] []; Txt (lit " need"); IfGt 0 1%N [] [Txt (lit "s")]; Txt (lit " attention")]));
  (lit "nv_health_bad_line", (1, [Arg 0; Txt (lit "'s latest run failed · rerun with one click once fixed")]));
  (lit "nv_fix", (0, [Txt (lit "Fix it →")]));
  (lit "nv_metrics_link", (0, [Txt (lit "Full metrics →")]));
  (lit "nv_run_btn", (0, [Txt (lit "▶ Run")]));
  (lit "nv_view_btn", (0, [Txt (lit "View →")]));
  (lit "nv_next_hints", (0, [Txt (lit "Next you could:")]));
  (lit "nv_hint_another", (0, [Txt (lit "create another workflow")]));
  (lit "nv_hint_expert", (0, [Txt (lit "switch to expert mode for everything else")]));
  (lit "nv_never_ran", (0, [Txt (lit "hasn't run yet")]));
  (lit "nv_last_run", (1, [Txt (lit "last run "); Arg 0]));
  (lit "nv_enabled", (0, [Txt (lit "enabled")]));
  (lit "nv_run_now", (0, [Txt (lit "▶ Run now")]));
  (lit "nv_more", (0, [Txt (lit "More ⋯")]));
  (lit "nv_more_title", (0, [Txt (lit "Pause / duplicate / delete and more")]));
  (lit "nv_more_q", (1, [Txt (lit "What to do with "); Arg 0; Txt (lit "?")]));
  (lit "nv_more_expert", (0, [Txt (lit "Edit in expert mode")]));
  (lit "nv_steps_h", (0, [Txt (lit "Steps")]));
  (lit "nv_steps_hint", (0, [Txt (lit "(called “tasks” in expert mode)")]));
  (lit "nv_edit", (0, [Txt (lit "Edit")]));
  (lit "nv_add_step", (0, [Txt (lit "+ Add step")]));
  (lit "nv_edit_step_title", (1, [Txt (lit "Edit step "); Arg 0]));
  (lit "nv_del_step", (0, [Txt (lit "Delete this step")]));
  (lit "nv_recent_h", (0, [Txt (lit "Recent runs")]));
  (lit "nv_view_log", (0, [Txt (lit "View log →")]));
  (lit "nv_notify_h", (0, [Txt (lit "Failure alerts")]));
  (lit "nv_notify_toggle", (0, [Txt (lit "Notify me on failure")]));
  (lit "nv_notify_hint", (0, [Txt (lit "Paste an incoming-webhook URL (Slack / Feishu / DingTalk auto-detected). A message is sent when a run fails.")]));
  (lit "nv_adv_summary", (0, [Txt (lit "More settings (concurrency, retries, timeouts…)")]));
  (lit "nv_adv_body", (2, [Txt (lit "The defaults are enough to start: "); IfGt 0 0%N [Arg 0; Txt (lit " automatic retr"); IfGt 0 1%N [Txt (lit "ies")] [Txt (lit "y")]; Txt (lit " on failure, ")] []; Txt (lit "at most "); Arg 1; Txt (lit " run"); IfGt 1 1%N [Txt (lit "s")] []; Txt (lit " at a time.")]));
  (lit "nv_adv_body2", (0, [Txt (lit "Expand when you need fine control, or")]));
  (lit "nv_adv_body3", (0, [Txt (lit "for every setting.")]));
  (lit "nv_to_expert", (0, [Txt (lit "switch to expert mode")]));
  (lit "nv_fail_ribbon", (2, [Txt (lit "Step "); Arg 0; Txt (lit " "); Arg 1; Txt (lit " failed")]));
  (lit "nv_fail_ribbon_generic", (0, [Txt (lit "The latest run failed")]));
  (lit "nv_see_log", (0, [Txt (lit "view log")]));
  (lit "nv_step_extract", (0, [Txt (lit "Extract data")]));
  (lit "nv_step_transform", (0, [Txt (lit "Transform")]));
  (lit "nv_step_load", (0, [Txt (lit "Load results")]));
  (lit "nv_step_fetch", (0, [Txt (lit "Fetch data")]));
  (lit "nv_step_render", (0, [Txt (lit "Render & send report")]));
  (lit "nv_step_1", (0, [Txt (lit "First step")]))
].
