(* ===== verification/Labels.v ===== *)
(** * Localized text (base.js): [t], [stateLabel], [typeLabel], [nextLabel],
    [descLabel], and the labels of the other components against the dictionaries

    [render] turns a [label] into the text on screen. A label is [localized] when
    each key it mentions is in both dictionaries with as many parameters as the
    label supplies, so that its text never falls back to the raw key, to the other
    language or to [undefined]. *)

From S2P Require Import Prelude JsCore Schedule TaskGraph DagModel DagEdit DictData.

(** ** The dictionaries *)

Inductive language := Zh | En.
#[export] Instance language_eq_dec : EqDecision language.
Proof. solve_decision. Defined.

Definition DICT (l : language) : dict :=
  match l with
  | Zh => DICT_zh_1 ++ DICT_zh_2 ++ DICT_zh_3
  | En => DICT_en_1 ++ DICT_en_2 ++ DICT_en_3
  end.

Definition assoc {A} (l : list (jstr * A)) (k : jstr) : option A :=
  snd <$> List.find (fun p => bool_decide (p.1 = k)) l.

(** [n > k] on a rendered argument: counts are printed in decimal; anything that is
    not a number compares false. *)
Definition gt_num (s : jstr) (k : N) : bool :=
  truthy s && forallb is_digit s && (k <? digits_val s)%N.

(** A template applied to its arguments; a missing argument prints as [undefined]. *)
Fixpoint piece_text (args : list jstr) (p : piece) : jstr :=
  match p with
  | Txt s => s
  | Arg n => default (lit "undefined") (args !! n)
  | IfGt n k yes no =>
    if gt_num (default [] (args !! n)) k
    then List.flat_map (piece_text args) yes else List.flat_map (piece_text args) no
  end.
Definition entry_text (args : list jstr) (e : nat * list piece) : jstr :=
  List.flat_map (piece_text args) e.2.

(** [DICT[lang][k] ?? DICT.zh[k] ?? k], applied when it is a function *)
Definition t (lang : language) (k : jstr) (args : list jstr) : jstr :=
  match assoc (DICT lang) k with
  | Some e => entry_text args e
  | None => match assoc (DICT Zh) k with Some e => entry_text args e | None => k end
  end.

Fixpoint render (lang : language) (l : label) : jstr :=
  match l with Raw s => s | T k args => t lang k (map (render lang) args) end.

(** ** States, run types, next-run and description labels *)

Definition STATE (l : language) : list (jstr * jstr) :=
  match l with
  | Zh => [ (lit "success", lit "成功"); (lit "failed", lit "失败"); (lit "running", lit "运行中");
            (lit "queued", lit "排队"); (lit "scheduled", lit "待运行");
            (lit "up_for_retry", lit "重试中"); (lit "upstream_failed", lit "上游失败");
            (lit "skipped", lit "跳过"); (lit "cancelled", lit "已取消"); (lit "timed_out", lit "超时");
            ([], lit "未运行"); (lit "none", lit "未运行") ]
  | En => [ (lit "success", lit "success"); (lit "failed", lit "failed"); (lit "running", lit "running");
            (lit "queued", lit "queued"); (lit "scheduled", lit "scheduled");
            (lit "up_for_retry", lit "retrying"); (lit "upstream_failed", lit "upstream failed");
            (lit "skipped", lit "skipped"); (lit "cancelled", lit "cancelled");
            (lit "timed_out", lit "timed out"); ([], lit "no runs"); (lit "none", lit "no runs") ]
  end.

Definition TYPEL (l : language) : list (jstr * jstr) :=
  match l with
  | Zh => [ (lit "schedule", lit "定时"); (lit "manual", lit "手动"); (lit "dependency", lit "依赖");
            (lit "event", lit "事件"); (lit "backfill", lit "回填"); (lit "subdag", lit "子流程") ]
  | En => [ (lit "schedule", lit "scheduled"); (lit "manual", lit "manual");
            (lit "dependency", lit "dependency"); (lit "event", lit "event");
            (lit "backfill", lit "backfill"); (lit "subdag", lit "sub-workflow") ]
  end.

(** [table[s]] with the names every object inherits; a label found there would be a
    function, kept apart as [Inherited]. *)
Definition table_get (l : list (jstr * jstr)) (s : jstr) : slot jstr :=
  match assoc l s with
  | Some v => Own v
  | None => if bool_decide (s ∈ proto_names) then Inherited else Missing
  end.

(** [STATE[lang][s] ?? STATE.zh[s] ?? s] *)
Definition stateLabel (lang : language) (s : jstr) : slot jstr :=
  match table_get (STATE lang) s with
  | Missing => match table_get (STATE Zh) s with Missing => Own s | r => r end
  | r => r
  end.
Definition typeLabel (lang : language) (s : jstr) : slot jstr :=
  match table_get (TYPEL lang) s with Missing => Own s | r => r end.

(** [/^in (\d+)m$/] *)
Definition in_minutes (s : jstr) : option jstr :=
  match strip_prefix (lit "in ") s with
  | Some r => match span is_digit r with
    | ((_ :: _) as ds, [c]) => if (c =? ch "m")%N then Some ds else None
    | _ => None
    end
  | None => None
  end.

Definition nextLabel (s : jstr) : label :=
  if bool_decide (s = lit "paused") then T (lit "nx_paused") []
  else if bool_decide (s = lit "due") then T (lit "nx_due") []
  else match in_minutes s with
       | Some m => T (lit "nx_in") [Raw m]
       | None => Raw s
       end.

Definition descLabel (d : jstr) : label :=
  if bool_decide (d = lit "manual trigger") then T (lit "manual_trigger") [] else Raw d.

(** ** The text of a failed request ([api]): a known code beats the server's message *)

Definition err_key (code : jstr) : jstr := lit "err_code_" ++ code.
Definition api_error (lang : language) (statusText error code : jstr) : jstr :=
  let m := error ||j statusText in
  if truthy code then
    let loc := t lang (err_key code) [] in
    if bool_decide (loc <> err_key code) then loc else m
  else m.

(** The session-expiry branch: whether the failed request sends the user to the
    login page. *)
Definition session_expired (status : Z) (signed_in : bool) (path : jstr) : bool :=
  (status =? 401)%Z && signed_in && negb (starts_with (lit "/api/login") path)
  && negb (starts_with (lit "/api/me") path).

(** ** Localized labels *)

Definition has_key (lang : language) (k : jstr) (n : nat) : bool :=
  match assoc (DICT lang) k with Some e => Nat.eqb e.1 n | None => false end.

Fixpoint localized (l : label) : bool :=
  match l with
  | Raw _ => true
  | T k args =>
    has_key Zh k (length args) && has_key En k (length args) && forallb localized args
  end.

(** The parameters a template prints are among those it declares. *)
Fixpoint piece_ok (arity : nat) (p : piece) : bool :=
  match p with
  | Txt s => truthy s
  | Arg n => Nat.ltb n arity
  | IfGt n _ yes no => Nat.ltb n arity && forallb (piece_ok arity) yes && forallb (piece_ok arity) no
  end.
Definition entry_ok (e : jstr * (nat * list piece)) : bool :=
  truthy e.1 && match e.2.2 with [] => false | ps => forallb (piece_ok e.2.1) ps end.

Definition keys (d : dict) : list (jstr * nat) := (fun e => (e.1, e.2.1)) <$> d.

Fixpoint nodupb (l : list jstr) : bool :=
  match l with [] => true | x :: l' => negb (existsb (fun y => bool_decide (x = y)) l') && nodupb l' end.
Lemma nodupb_NoDup l : nodupb l = true -> NoDup l.
Proof.
  induction l as [|x l IH]; simpl; [constructor|]. intros H. bool_props. constructor; [|auto].
  intros Hx. apply not_true_iff_false in H. apply H, existsb_exists. exists x.
  rewrite bool_decide_eq_true. by rewrite <- list_elem_of_In.
Qed.

Lemma assoc_Some {A} (l : list (jstr * A)) k v : assoc l k = Some v -> (k, v) ∈ l.
Proof.
  unfold assoc. destruct (List.find _ l) as [[k' v']|] eqn:E; [|done]. simpl. intros; simplify_eq.
  apply find_some in E as [E%list_elem_of_In Hk%bool_decide_eq_true]. simpl in Hk. by subst.
Qed.

Lemma assoc_key {A} (l : list (jstr * A)) k : k ∈ l.*1 -> is_Some (assoc l k).
Proof.
  intros ([k' v] & -> & H%list_elem_of_In)%list_elem_of_fmap. unfold assoc.
  destruct (List.find _ l) eqn:E; [by eexists|].
  eapply find_none in E; [|done]. simpl in E. by rewrite bool_decide_eq_true_2 in E.
Qed.

Lemma dict_keys_eq : keys (DICT Zh) = keys (DICT En).
Proof. vm_compute. reflexivity. Qed.
Lemma dict_names lang : (DICT lang).*1 = (keys (DICT Zh)).*1.
Proof. destruct lang; [|rewrite dict_keys_eq]; unfold keys; by rewrite <- list_fmap_compose. Qed.
Lemma dict_keys_nodup : NoDup (DICT Zh).*1.
Proof. apply nodupb_NoDup. vm_compute. reflexivity. Qed.
Lemma dict_entries_ok lang : forallb entry_ok (DICT lang) = true.
Proof. by destruct lang; vm_compute. Qed.

(** C40 The two dictionaries agree: the same keys in the same order with the same
    number of parameters, no key twice, no empty key or text, and every parameter
    a text prints is among those it declares. *)
Theorem dictionaries_agree :
  keys (DICT Zh) = keys (DICT En) /\ NoDup (DICT Zh).*1 /\
  (forall lang, Forall (fun e => entry_ok e = true) (DICT lang)) /\
  (forall k l1 l2, is_Some (assoc (DICT l1) k) -> is_Some (assoc (DICT l2) k)).
Proof.
  split_and!; [apply dict_keys_eq|apply dict_keys_nodup| |].
  - intros lang. apply Forall_forall. intros x Hx%list_elem_of_In.
    by eapply forallb_forall in Hx; [|apply dict_entries_ok].
  - intros k l1 l2 [v Hv%assoc_Some]. apply assoc_key.
    rewrite (dict_names l2), <- (dict_names l1). apply list_elem_of_fmap. by exists (k, v).
Qed.

(** ** The labels of the editor are localized *)

Definition all_localized (ls : list label) : Prop := Forall (fun l => localized l = true) ls.

Lemma plain_localized k :
  has_key Zh k 0 = true -> has_key En k 0 = true -> localized (T k []) = true.
Proof. intros H1 H2. simpl. by rewrite H1, H2. Qed.
Lemma unit_localized u : localized (unit_label u) = true.
Proof. by destruct u; vm_compute. Qed.
#[export] Hint Resolve plain_localized unit_localized : cronova.

Lemma validate_localized d ts : all_localized (validateDag d ts).
Proof.
  apply Forall_forall. intros l ([b k] & Hc & Hl)%list_elem_of_omap. simpl in Hl.
  destruct b; [|done]. injection Hl as <-.
  assert (Hk : k ∈ (dag_checks d ts).*2) by (apply list_elem_of_fmap; by exists (true, k)).
  cbv [dag_checks fmap list_fmap snd] in Hk.
  repeat (apply elem_of_cons in Hk as [->|Hk]; [vm_compute; reflexivity|]).
  by apply elem_of_nil in Hk.
Qed.

Lemma sentence_localized d l : schedSentence d = Some l -> localized l = true.
Proof.
  unfold schedSentence. case_match.
  - intros; simplify_eq. cbn [localized length forallb]. rewrite unit_localized.
    vm_compute. reflexivity.
  - case_match; [|done]. destruct (List.find _ _) as [p|] eqn:E; [|done]. intros; simplify_eq.
    apply find_some in E as [E _]. simpl in E.
    repeat (destruct E as [<-|E]; [vm_compute; reflexivity|]). done.
Qed.

Lemma summary_localized d : all_localized (schedSummary d).
Proof.
  unfold schedSummary. case_match; [by constructor; [vm_compute|constructor]|].
  destruct (schedSentence d) as [l|] eqn:E; [apply sentence_localized in E|];
    by repeat (constructor; try done).
Qed.

Lemma gloss_localized s : localized (nvSchedGloss s) = true.
Proof.
  unfold nvSchedGloss. case_match; [by vm_compute|].
  destruct (daily_re _) as [[mm hh]|]; [by vm_compute|].
  destruct (every_re _) as [[ds u]|]; [|done]. cbn [localized length forallb].
  rewrite unit_localized. by vm_compute.
Qed.

(** What an effect shows. *)
Definition shown (e : effect) : list label :=
  match e with Toast l => [l] | Invalid errs => errs | _ => [] end.
Definition shown_ok (es : list effect) : Prop := Forall (fun e => all_localized (shown e)) es.

Lemma saveDag_shown p : shown_ok (saveDag p).2.
Proof.
  unfold saveDag. case_match; [constructor|].
  pose proof (validate_localized (pg_dag p) (pg_tasks p)) as Hs.
  case_match; [by constructor; [constructor|]|]. by constructor; [|constructor].
Qed.
Lemma then_save_shown p k : shown_ok k -> shown_ok (then_save p k).2.
Proof.
  intros Hk. pose proof (saveDag_shown p) as H. unfold then_save.
  destruct (saveDag p). by apply Forall_app.
Qed.

Lemma shown_nil : shown_ok [].
Proof. constructor. Qed.
Lemma shown_render es : shown_ok es -> shown_ok (Render :: es).
Proof. by constructor; [constructor|]. Qed.
Lemma shown_open i es : shown_ok es -> shown_ok (OpenTask i :: es).
Proof. by constructor; [constructor|]. Qed.
Lemma shown_toast l es : localized l = true -> shown_ok es -> shown_ok (Toast l :: es).
Proof. by constructor; [constructor; [|constructor]|]. Qed.
#[export] Hint Resolve shown_nil shown_render shown_open shown_toast then_save_shown : cronova.

(** Effects whose toasts have constant keys. *)
Ltac const_toast :=
  repeat first [apply shown_nil | apply shown_render | apply shown_open
               | apply shown_toast; [vm_compute; reflexivity|]].

Lemma toggleDep_shown up down r p : shown_ok (graphToggleDep up down r p).2.
Proof. unfold graphToggleDep, graphMutate. repeat (case_match; try const_toast). Qed.

Lemma edit_shown e p p' es : edit_run e p = Some (p', es) -> shown_ok es.
Proof.
  assert (Hr : forall r, r = Some (p', es) -> (forall q, r = Some q -> shown_ok q.2) -> shown_ok es).
  { intros r E H. by apply (H _ E). }
  assert (Hrender : shown_ok [Render]) by const_toast.
  assert (Hnil : shown_ok []) by constructor.
  intros E. apply (Hr _ E). clear E. intros q. destruct e; simpl.
  - unfold addTask. destruct (fresh _ _ _); [|done]. pose proof (saveDag_shown) as H.
    specialize (H (set_tasks (pg_tasks p ++ [with_id l blankTask]) p)).
    destruct (saveDag _) as [p1 es1]. simpl. intros E; injection E as <-. apply Forall_app.
    split; [done|const_toast].
  - unfold nvAddStep. destruct (fresh _ _ _); [|done]. intros; simplify_eq. by apply then_save_shown.
  - unfold nvEditStep. destruct (find_task _ _) as [[]|]; intros; simplify_eq; [|done].
    by apply then_save_shown.
  - unfold duplicateTask. destruct (find_task _ _) as [[]|]; [destruct (fresh _ _ _)|];
      intros; simplify_eq; [|done]. by apply then_save_shown.
  - unfold deleteTask. destruct ok; intros; simplify_eq; [|done]. by apply then_save_shown.
  - intros; simplify_eq. const_toast.
  - unfold renameActiveTask. repeat case_match; intros; simplify_eq; try const_toast.
    by apply then_save_shown.
  - unfold toggleDepChip. case_match; intros; simplify_eq; [const_toast|]. by apply then_save_shown.
  - unfold addTaskFromGraph, graphMutate. repeat case_match; intros; simplify_eq; const_toast.
  - unfold onGraphNodeActivate. repeat case_match; intros; simplify_eq; try const_toast.
    apply toggleDep_shown.
  - intros; simplify_eq. apply toggleDep_shown.
  - intros; simplify_eq. apply toggleDep_shown.
  - intros; simplify_eq. const_toast.
  - intros; simplify_eq. const_toast.
  - unfold graphSaveSession. pose proof (validate_localized (pg_dag p) (pg_tasks p)) as H.
    destruct (validateDag _ _) as [|e0 errs]; intros; simplify_eq; [by apply then_save_shown|].
    inversion H; subst. constructor; [done|]. apply shown_toast; [done|constructor].
  - intros; simplify_eq. const_toast.
Qed.

(** Nothing the editor says falls back to a raw key: the errors of
    [validateDag], the schedule sentence, summary and gloss, the next-run label,
    and every message an edit shows mention keys both dictionaries have, with the
    parameters their texts take. *)
Theorem editor_labels_localized :
  (forall d ts, all_localized (validateDag d ts)) /\
  (forall d, all_localized (schedSummary d)) /\
  (forall s, localized (nvSchedGloss s) = true /\ localized (nextLabel s) = true
             /\ localized (descLabel s) = true) /\
  (forall e p p' es, edit_run e p = Some (p', es) -> shown_ok es).
Proof.
  split_and!; [apply validate_localized|apply summary_localized| |apply edit_shown].
  intros s. split_and!; [apply gloss_localized| |].
  - unfold nextLabel. case_match; [by vm_compute|]. case_match; [by vm_compute|].
    case_match; [|done]. by vm_compute.
  - unfold descLabel. case_match; [by vm_compute|done].
Qed.

(** ** Errors of the server *)

(** The codes [mapErr] of the server attaches to an error response. *)
Definition mapErr_codes : list jstr :=
  [ lit "not_found"; lit "no_tasks"; lit "bad_mark_state"; lit "queue_full"; lit "active_runs";
    lit "run_not_active"; lit "nothing_to_retry"; lit "run_still_active" ].

(** A key found in the dictionary whose text is neither the key nor empty. *)
Definition code_known (lang : language) (code : jstr) : bool :=
  match assoc (DICT lang) (err_key code) with
  | Some e => Nat.eqb e.1 0 && bool_decide (entry_text [] e <> err_key code)
              && truthy (entry_text [] e)
  | None => false
  end.
Lemma codes_known lang : forallb (code_known lang) mapErr_codes = true.
Proof. by destruct lang; vm_compute. Qed.

(** A request that failed with a code of the server's error table is reported in
    the user's language, whatever English message came with it; with no code, or
    one the dictionaries do not know, the server's message is shown, or the status
    text when it sent none. *)
Theorem api_error_text :
  (forall lang st err code, code ∈ mapErr_codes ->
     exists e, assoc (DICT lang) (err_key code) = Some e /\ truthy (entry_text [] e) = true /\
       api_error lang st err code = entry_text [] e) /\
  (forall lang st err code, code = [] \/ err_key code ∉ (DICT Zh).*1 ->
     api_error lang st err code = err ||j st).
Proof.
  split.
  - intros lang st err code Hc. pose proof (codes_known lang) as Hk.
    rewrite forallb_forall in Hk. rewrite list_elem_of_In in Hc. specialize (Hk _ Hc).
    unfold code_known in Hk. unfold api_error, t.
    assert (Ht : truthy code = true) by (by destruct Hc as [<-|Hc]; [|
      repeat (destruct Hc as [<-|Hc]; [done|])]).
    rewrite Ht. destruct (assoc _ _) as [e|]; [|done]. exists e. bool_props.
    by rewrite bool_decide_eq_true_2.
  - intros lang st err code H. unfold api_error. destruct (truthy code) eqn:Ht; [|done].
    destruct H as [->|H]; [done|].
    assert (Hn : forall l, assoc (DICT l) (err_key code) = None).
    { intros l. destruct (assoc _ _) as [e|] eqn:E; [|done]. destruct H.
      rewrite (dict_names Zh), <- (dict_names l). apply list_elem_of_fmap. exists (err_key code, e). split; [done|].
      by apply assoc_Some. }
    unfold t. rewrite !Hn. rewrite bool_decide_eq_false_2; [done|]. by intros H2; apply H2.
Qed.
