(* ===== verification/Creation.v ===== *)
(** * Creating workflows (builder.js): the new-workflow dialog and the wizard

    Both post a request body to the same endpoint as a save ([buildDAG]); it is
    the [spec] of DagModel. The dialog is the record [nd], the wizard [wz]; their
    handlers are steps. *)

From S2P Require Import Prelude JsCore Schedule TaskGraph DagModel SavePipeline.

(** ** Templates *)

Record tpl_task := Tpl { tt_id : jstr; tt_cmd : jstr; tt_deps : list jstr }.
Record template := Template {
  tp_key : jstr; tp_name : jstr; tp_desc : jstr; tp_schedule : jstr; tp_tasks : list tpl_task;
}.

Definition DAG_TEMPLATES : list template :=
  [ Template (lit "blank") (lit "tpl_blank") (lit "tpl_blank_d") [] [];
    Template (lit "etl") (lit "tpl_etl") (lit "tpl_etl_d") []
      [ Tpl (lit "extract") (lit "echo extract {{ logical_date }} && sleep 1") [];
        Tpl (lit "transform") (lit "echo transform && sleep 1") [lit "extract"];
        Tpl (lit "load") (lit "echo load run={{ run_id }} && sleep 1") [lit "transform"] ];
    Template (lit "report") (lit "tpl_report") (lit "tpl_report_d") (lit "0 8 * * *")
      [ Tpl (lit "fetch") (lit "echo fetch data for {{ logical_date }} && sleep 1") [];
        Tpl (lit "render") (lit "echo render report && sleep 1") [lit "fetch"] ];
    Template (lit "fanout") (lit "tpl_fanout") (lit "tpl_fanout_d") []
      [ Tpl (lit "start") (lit "echo start && sleep 1") [];
        Tpl (lit "branch_a") (lit "echo branch A && sleep 1") [lit "start"];
        Tpl (lit "branch_b") (lit "echo branch B && sleep 1") [lit "start"];
        Tpl (lit "join") (lit "echo join && sleep 1") [lit "branch_a"; lit "branch_b"] ] ].

Inductive nv_tpl := Etl | Report | Blank_tpl.
#[export] Instance nv_tpl_eq_dec : EqDecision nv_tpl.
Proof. solve_decision. Defined.

Definition defName (k : nv_tpl) : jstr :=
  match k with
  | Etl => lit "my_daily_etl" | Report => lit "daily_report" | Blank_tpl => lit "my_first_flow"
  end.
Definition daily (k : nv_tpl) : option jstr :=
  match k with Report => Some (lit "08:00") | _ => None end.
Definition NV_TEMPLATES (k : nv_tpl) : list tpl_task :=
  match k with
  | Etl => [ Tpl (lit "extract") (lit "sleep 1 && echo extract") [];
             Tpl (lit "transform") (lit "sleep 1 && echo transform") [lit "extract"];
             Tpl (lit "load") (lit "sleep 1 && echo load run={{ run_id }}") [lit "transform"] ]
  | Report => [ Tpl (lit "fetch") (lit "sleep 1 && echo fetch data") [];
                Tpl (lit "render") (lit "sleep 1 && echo render report") [lit "fetch"] ]
  | Blank_tpl => [ Tpl (lit "step_1") (lit "echo hello cronova") [] ]
  end.

(** The request body both build: what they do not set is absent. *)
Definition new_task (x : tpl_task) : spec_task :=
  {| sp_id := tt_id x; sp_type := lit "shell"; sp_pool := lit "default"; sp_priority := 0;
     sp_deps := tt_deps x; sp_timeout := 0; sp_sla := 0; sp_trigger_rule := lit "all_success";
     sp_retries := None; sp_retry_delay := None; sp_retry_backoff := []; sp_retry_delay_max := 0;
     sp_http := None; sp_subdag := None; sp_command := Some (tt_cmd x); sp_conn := None;
     sp_project := None; sp_worker_group := None; sp_depends_on_dag := None |}.
Definition new_spec (id sch start : jstr) (catchup : bool) (retries : Z) (xs : list tpl_task) : spec :=
  {| s_dag_id := id; s_schedule := sch; s_start_date := start; s_catchup := catchup;
     s_max_active_runs := 1; s_default_retries := retries; s_trigger_after := [];
     s_notify_url := []; s_notify_group := []; s_notify_on := []; s_notify_format := [];
     s_execution_policy := []; s_expected_hash := []; s_sla := 0; s_dagrun_timeout := 0;
     s_tasks := new_task <$> xs |}.

(** ** The dialog *)

Record nd := ND {
  nd_existing : gset jstr; nd_dag_id : jstr; nd_sched : sched; nd_start : jstr; nd_catchup : bool;
  nd_template : jstr; nd_advanced : bool; nd_yamlMode : bool;
}.

(** [newDagModal]: the ids of the list, or none when it cannot be fetched. *)
Definition newDagModal (fetched : option (list jstr)) : nd :=
  ND (list_to_set (default [] fetched)) [] (parseScheduleState []) [] false (lit "blank") false false.

Definition find_tpl (k : jstr) : option template :=
  List.find (fun t => bool_decide (tp_key t = k)) DAG_TEMPLATES.

Inductive nd_event :=
| NdPick (key : jstr) | NdAdv | NdToYaml | NdToForm | NdId (raw : jstr)
| NdSched (e : sched_event) | NdStart (s : jstr) | NdCatchup (b : bool).

(** The schedule controls exist only under the fold, the form only outside the YAML
    mode: [None] when there is no such control. *)
Definition nd_step (e : nd_event) (n : nd) : option nd :=
  let '(ND ex id sc st cu tp adv ym) := n in
  match e with
  | NdPick k =>
    if ym then None else
    let seeded := match find_tpl k with Some t => tp_schedule t | None => [] end in
    Some (ND ex id (parseScheduleState seeded) st cu k (adv || truthy seeded) ym)
  | NdAdv => if ym then None else Some (ND ex id sc st cu tp (negb adv) ym)
  | NdToYaml => if ym || negb adv then None else Some (ND ex id sc st cu tp adv true)
  | NdToForm => if ym then Some (ND ex id sc st cu tp adv false) else None
  | NdId raw => if ym then None else Some (ND ex (trim raw) sc st cu tp adv ym)
  | NdSched ev => if ym || negb adv then None else Some (ND ex id (sched_step ev sc) st cu tp adv ym)
  | NdStart s => if ym || negb adv then None else Some (ND ex id sc s cu tp adv ym)
  | NdCatchup b => if ym || negb adv then None else Some (ND ex id sc st b tp adv ym)
  end.

(** [updateNewDagValidity]: the message, and whether the button is enabled. *)
Definition nd_error (n : nd) : option label :=
  if truthy (nd_dag_id n) && negb (ID_RE (nd_dag_id n)) then Some (T (lit "err_dagid") [])
  else if truthy (nd_dag_id n) && bool_decide (nd_dag_id n ∈ nd_existing n)
  then Some (T (lit "nd_dagid_dup") [])
  else None.
Definition can_create (n : nd) : bool :=
  truthy (nd_dag_id n) && match nd_error n with None => true | Some _ => false end.

Definition submitNewDag (n : nd) : spec :=
  let sc := computeSchedule (nd_sched n) in
  let tasks := match find_tpl (nd_template n), DAG_TEMPLATES with
               | Some t, _ => tp_tasks t
               | None, first :: _ => tp_tasks first
               | None, [] => []
               end in
  new_spec (nd_dag_id n) (schedule sc) (nd_start n) (truthy (schedule sc) && nd_catchup n) 0 tasks.

(** ** The wizard *)

Inductive wz_mode := WDaily | WInterval | WManual.
#[export] Instance wz_mode_eq_dec : EqDecision wz_mode.
Proof. solve_decision. Defined.

Record wz := Wz {
  w_step : nat; w_tpl : nv_tpl; w_name : jstr; w_touched : bool; w_edits : gmap jstr jstr;
  w_mode : wz_mode; w_time : jstr; w_n : Z; w_existing : option (gset jstr); w_err : option label;
}.
Definition wz_init : wz :=
  Wz 1 Etl (defName Etl) false ∅ WDaily (lit "02:00") 30 None None.

Definition wzSteps (w : wz) : list tpl_task :=
  (fun s => Tpl (tt_id s) (default (tt_cmd s) (w_edits w !! tt_id s)) (tt_deps s)) <$> NV_TEMPLATES (w_tpl w).

Definition wzValidate (w : wz) : option label :=
  let name := trim (w_name w) in
  if negb (ID_RE name) then Some (T (lit "err_dagid") [])
  else if match w_existing w with Some ex => bool_decide (name ∈ ex) | None => false end
  then Some (T (lit "nd_dagid_dup") [])
  else if existsb (fun s => negb (truthy (trim (tt_cmd s)))) (wzSteps w)
  then Some (T (lit "err_emptycmd") [])
  else None.

(** The message under the name while it is typed. *)
Definition name_error (w : wz) (name : jstr) : option label :=
  if truthy name && negb (ID_RE name) then Some (T (lit "err_dagid") [])
  else if truthy name && match w_existing w with Some ex => bool_decide (name ∈ ex) | None => false end
  then Some (T (lit "nd_dagid_dup") [])
  else None.

Inductive wz_event :=
| WLoaded (ids : option (list jstr))     (** the answer of the list request *)
| WBack | WPrev | WNext | WTpl (k : nv_tpl) | WName (raw : jstr) | WCmd (id cmd : jstr)
| WDateVar | WMode (m : wz_mode) | WTime (s : jstr) | WEvery (n : Z)
| WCreateFailed (msg : jstr).            (** the server refused the creation *)

Definition set_step (k : nat) (w : wz) : wz :=
  let '(Wz _ t nm tc ed m ti n ex _) := w in Wz k t nm tc ed m ti n ex None.
Definition set_err (e : option label) (w : wz) : wz :=
  let '(Wz k t nm tc ed m ti n ex _) := w in Wz k t nm tc ed m ti n ex e.
Definition set_cmd (id cmd : jstr) (w : wz) : wz :=
  let '(Wz k t nm tc ed m ti n ex er) := w in Wz k t nm tc (<[id := cmd]> ed) m ti n ex er.
Definition set_mode (md : wz_mode) (w : wz) : wz :=
  let '(Wz k t nm tc ed _ ti n ex er) := w in Wz k t nm tc ed md ti n ex er.

(** [None]: the step of the wizard on screen has no such control. *)
Definition wz_step (e : wz_event) (w : wz) : option wz :=
  let '(Wz k t nm tc ed m ti n ex er) := w in
  match e with
  | WLoaded ids => Some (Wz k t nm tc ed m ti n (Some (list_to_set (default [] ids))) er)
  | WBack => Some (if Nat.eqb k 1 then set_err None w else set_step (k - 1) w)
  | WPrev => if Nat.eqb k 1 then None else Some (set_step (k - 1) w)
  | WNext =>
    if Nat.eqb k 1 then Some (set_step 2 w)
    else if Nat.eqb k 2 then
      match wzValidate w with
      | Some err => Some (set_err (Some err) w)
      | None => Some (set_step 3 w)
      end
    else None
  | WTpl key =>
    if Nat.eqb k 1 then
      if bool_decide (t = key) then Some w
      else
        let nm' := if tc then nm else defName key in
        match daily key with
        | Some d => Some (Wz k key nm' tc ∅ WDaily d n ex er)
        | None => Some (Wz k key nm' tc ∅ m ti n ex er)
        end
    else None
  | WName raw =>
    if Nat.eqb k 2 then
      let name := trim raw in Some (Wz k t name true ed m ti n ex (name_error w name))
    else None
  | WCmd id cmd =>
    if Nat.eqb k 2 && existsb (fun s => bool_decide (tt_id s = id)) (NV_TEMPLATES t)
    then Some (set_cmd id cmd w) else None
  | WDateVar =>
    if Nat.eqb k 2 then
      match wzSteps w with
      | first :: _ =>
        if includes (lit "logical_date") (tt_cmd first) then Some w
        else Some (set_cmd (tt_id first) (tt_cmd first ++ lit " --date {{ logical_date }}") w)
      | [] => None
      end
    else None
  | WMode md => if Nat.eqb k 3 then Some (set_mode md w) else None
  | WTime s => if Nat.eqb k 3 then
      Some (Wz k t nm tc ed WDaily (if truthy s then s else ti) n ex er) else None
  | WEvery z => if Nat.eqb k 3 then
      Some (Wz k t nm tc ed WInterval ti (Z.max 1 (if (z =? 0)%Z then 1 else z)) ex er) else None
  | WCreateFailed msg => if Nat.eqb k 3 then Some (set_err (Some (Raw msg)) w) else None
  end.
Fixpoint wz_run (es : list wz_event) (w : wz) : option wz :=
  match es with
  | [] => Some w
  | e :: es' => match wz_step e w with Some w' => wz_run es' w' | None => None end
  end.

Definition wzSchedSentence (w : wz) : label :=
  match w_mode w with
  | WDaily => T (lit "nv_sched_daily") [Raw (w_time w)]
  | WInterval => T (lit "nv_sched_interval") [Raw (num_str (Z.max 1 (w_n w)))]
  | WManual => T (lit "nv_sched_manual") []
  end.

Definition wz_schedule (w : wz) : jstr :=
  match w_mode w with
  | WDaily => wzDailyCron (w_time w)
  | WInterval => lit "@every " ++ num_str (Z.max 1 (w_n w)) ++ lit "m"
  | WManual => []
  end.

(** [createAndRunWizard] up to the request: the wizard with its error, or the body
    that is posted; the button exists on step 3. *)
Definition createAndRunWizard (w : wz) : option (wz + spec) :=
  if Nat.eqb (w_step w) 3 then
    match wzValidate w with
    | Some err => Some (inl (set_err (Some err) w))
    | None => Some (inr (new_spec (trim (w_name w)) (wz_schedule w) [] false 2 (wzSteps w)))
    end
  else None.

(** What follows: the page that opens and whether the wizard is forgotten. *)
Inductive landing := ToRun (run : jstr) | ToDag (id : jstr) | StayInWizard.
Definition after_create (built : bool) (run : option jstr) (name : jstr) : landing :=
  if built then match run with Some r => ToRun r | None => ToDag name end else StayInWizard.

(** ** What is created is a valid workflow *)

Definition tpl_node (x : tpl_task) : node := Node (tt_id x) (tt_deps x).

(** The shape of a template that does not depend on its commands. *)
Record tpl_shape (xs : list tpl_task) : Prop := {
  ts_nodup : NoDup (tt_id <$> xs);
  ts_ids : Forall (fun x => ID_RE (tt_id x) = true) xs;
  ts_deps : Forall (fun x => Forall (fun d => d ∈ tt_id <$> xs) (tt_deps x)) xs;
  ts_acyclic : acyclic (tpl_node <$> xs);
}.
Definition commands_ok (xs : list tpl_task) : Prop := Forall (fun x => trim (tt_cmd x) <> []) xs.
#[export] Instance commands_ok_dec xs : Decision (commands_ok xs).
Proof. unfold commands_ok. apply _. Defined.

Lemma new_spec_ok id sch st cu r xs :
  tpl_shape xs -> commands_ok xs -> spec_ok (new_spec id sch st cu r xs).
Proof.
  intros [Hn Hi Hd Ha] Hc.
  assert (Eids : sp_id <$> (new_task <$> xs) = tt_id <$> xs) by by rewrite <- list_fmap_compose.
  split; unfold new_spec; cbn [s_tasks s_sla s_dagrun_timeout s_notify_on s_notify_url s_notify_group].
  - by rewrite Eids.
  - by apply Forall_fmap.
  - rewrite Eids. by apply Forall_fmap.
  - rewrite <- list_fmap_compose. exact Ha.
  - split; [lia|]. apply Forall_fmap, Forall_forall. intros x _; simpl. lia.
  - by intros [].
  - apply Forall_fmap. eapply Forall_impl; [exact Hc|]. intros x Hx; simpl. by split.
Qed.

(** A list of tasks of the same names and dependencies has the same shape. *)
Lemma tpl_shape_same xs ys :
  (tpl_node <$> ys = tpl_node <$> xs) -> tpl_shape xs -> tpl_shape ys.
Proof.
  intros E [Hn Hi Hd Ha].
  assert (Ei : tt_id <$> ys = tt_id <$> xs).
  { apply (f_equal (fmap nid)) in E. by rewrite <- !list_fmap_compose in E. }
  assert (F : forall P : node -> Prop, Forall (fun x => P (tpl_node x)) xs -> Forall (fun x => P (tpl_node x)) ys).
  { intros P HP. change (Forall (P ∘ tpl_node) ys). rewrite <- Forall_fmap, E. by apply Forall_fmap. }
  split.
  - by rewrite Ei.
  - by apply (F (fun n => ID_RE (nid n) = true)).
  - rewrite Ei. by apply (F (fun n => Forall (fun d => d ∈ tt_id <$> xs) (ndeps n))).
  - by rewrite E.
Qed.

Ltac closed_shape :=
  split; [compute_decide|compute_decide|compute_decide|apply hasCycle_false; [compute_decide|vm_compute; reflexivity]].
Lemma dag_templates_shape :
  Forall (fun t => tpl_shape (tp_tasks t) /\ commands_ok (tp_tasks t)) DAG_TEMPLATES.
Proof.
  unfold DAG_TEMPLATES.
  repeat (apply Forall_cons; split; [cbn [tp_tasks]; split; [closed_shape|compute_decide]|]).
  apply Forall_nil. exact I.
Qed.
Lemma nv_templates_shape k : tpl_shape (NV_TEMPLATES k).
Proof. destruct k; closed_shape. Qed.

Lemma find_tpl_elem k t : find_tpl k = Some t -> t ∈ DAG_TEMPLATES.
Proof. intros [H%list_elem_of_In _]%find_some. exact H. Qed.

Fixpoint nd_run (es : list nd_event) (n : nd) : option nd :=
  match es with
  | [] => Some n
  | e :: es' => match nd_step e n with Some n' => nd_run es' n' | None => None end
  end.

(** What the dialog posts when its button is enabled is a workflow the server can
    take: its name is well shaped and not among the known ones, the tasks of the
    template are complete, and catchup is set only together with a schedule. The
    schedule posted is empty while no schedule is on screen: a template's preset
    opens the fold that shows it. *)
Theorem dialog_creates_valid fetched es n :
  nd_run es (newDagModal fetched) = Some n -> can_create n = true ->
  spec_ok (submitNewDag n) /\ s_dag_id (submitNewDag n) = nd_dag_id n /\
  ID_RE (nd_dag_id n) = true /\
  (forall ids, fetched = Some ids -> nd_dag_id n ∉ ids) /\
  (s_catchup (submitNewDag n) = true -> s_schedule (submitNewDag n) <> []).
Proof.
  intros E Hc.
  assert (Hex : nd_existing n = list_to_set (default [] fetched)).
  { change (list_to_set (default [] fetched)) with (nd_existing (newDagModal fetched)).
    revert E. generalize (newDagModal fetched). induction es as [|e es IH]; intros m E; simpl in E; [by simplify_eq|].
    destruct (nd_step e m) as [m'|] eqn:Es; [|done]. rewrite (IH _ E).
    destruct m as [ex id sc st cu tp adv ym]. by destruct e, ym, adv; simpl in Es; simplify_eq. }
  unfold can_create, nd_error in Hc. destruct (truthy (nd_dag_id n)); [|done]. simpl in Hc.
  destruct (ID_RE (nd_dag_id n)) eqn:Hid; [|done]. simpl in Hc.
  case_bool_decide as Hdup; [done|]. split_and!; [|done|done| |].
  - unfold submitNewDag. destruct (find_tpl (nd_template n)) as [t|] eqn:Et.
    + apply find_tpl_elem in Et. pose proof dag_templates_shape as Hall.
      rewrite Forall_forall in Hall. destruct (Hall _ Et). by apply new_spec_ok.
    + apply new_spec_ok; [closed_shape|compute_decide].
  - intros ids ->. rewrite Hex in Hdup. simpl in Hdup. by rewrite elem_of_list_to_set in Hdup.
  - simpl. intros H. apply andb_true_iff in H as [H _]. by apply truthy_true.
Qed.

Definition dialog_events : list nd_event :=
  [NdId (lit " nightly "); NdPick (lit "report"); NdCatchup true].

Lemma dialog_creates_valid_witness :
  exists n, nd_run dialog_events (newDagModal (Some [lit "etl"])) = Some n /\
    s_schedule (submitNewDag n) = lit "0 8 * * *" /\ spec_ok (submitNewDag n).
Proof.
  eexists. split; [vm_compute; reflexivity|]. split; [vm_compute; reflexivity|].
  eapply (dialog_creates_valid (Some [lit "etl"]) dialog_events); vm_compute; reflexivity.
Defined.

(** ** The wizard *)

Lemma wzSteps_nodes w : tpl_node <$> wzSteps w = tpl_node <$> NV_TEMPLATES (w_tpl w).
Proof. unfold wzSteps. by rewrite <- list_fmap_compose. Qed.

Record wz_inv (w : wz) : Prop := {
  wi_step : 1 <= w_step w <= 3;
  wi_n : (1 <= w_n w)%Z;
  wi_known : w_step w = 3 -> ID_RE (trim (w_name w)) = true
    /\ Forall (fun s => trim (tt_cmd s) <> []) (wzSteps w);
}.

Lemma wzValidate_none w : wzValidate w = None ->
  ID_RE (trim (w_name w)) = true /\ commands_ok (wzSteps w) /\
  (forall ex, w_existing w = Some ex -> trim (w_name w) ∉ ex).
Proof.
  unfold wzValidate. destruct (ID_RE _); [|done]. simpl.
  destruct (match w_existing w with Some ex => _ | None => false end) eqn:Ex; [done|].
  destruct (existsb _ _) eqn:Ec; [done|]. intros _. split_and!; [done| |].
  - apply Forall_forall. intros x Hx Hb. apply not_true_iff_false in Ec. apply Ec, existsb_exists.
    exists x. split; [by apply list_elem_of_In|]. by rewrite Hb.
  - intros ex E. rewrite E in Ex. by apply bool_decide_eq_false in Ex.
Qed.

Lemma wz_step_inv e w w' : wz_inv w -> wz_step e w = Some w' -> wz_inv w'.
Proof.
  intros [Hk Hn H3] E. destruct w as [k t nm tc ed m ti n ex er]. simpl in Hk, Hn, H3.
  destruct e as [ids| | | |key|raw|id cmd| |md|s|z|msg]; cbn [wz_step] in E.
  - injection E as <-. by split.
  - injection E as <-. destruct (Nat.eqb_spec k 1); split; simpl; try done; try lia.
  - destruct (Nat.eqb_spec k 1); [done|]. injection E as <-. split; simpl; try done; lia.
  - destruct (Nat.eqb_spec k 1); [injection E as <-; split; simpl; try done; lia|].
    destruct (Nat.eqb_spec k 2); [|done]. destruct (wzValidate _) as [err|] eqn:Ev; injection E as <-.
    + split; simpl; try done; lia.
    + apply wzValidate_none in Ev as (? & ? & _). split; simpl; try done; lia.
  - destruct (Nat.eqb_spec k 1); [|done]. case_bool_decide; [injection E as <-; by split|].
    destruct (daily key); injection E as <-; split; simpl; try done; lia.
  - destruct (Nat.eqb_spec k 2); [|done]. injection E as <-. split; simpl; try done; lia.
  - destruct (Nat.eqb_spec k 2); [|done]. destruct (existsb _ _); [|done]. injection E as <-.
    split; simpl; try done; lia.
  - destruct (Nat.eqb_spec k 2); [|done]. destruct (wzSteps _); [done|].
    destruct (includes _ _); injection E as <-; split; simpl; try done; lia.
  - destruct (Nat.eqb_spec k 3); [|done]. injection E as <-. by split.
  - destruct (Nat.eqb_spec k 3); [|done]. injection E as <-. by split.
  - destruct (Nat.eqb_spec k 3); [|done]. injection E as <-. split; simpl; [done|lia|done].
  - destruct (Nat.eqb_spec k 3); [|done]. injection E as <-. by split.
Qed.

Lemma wz_run_inv es w w' : wz_inv w -> wz_run es w = Some w' -> wz_inv w'.
Proof.
  revert w. induction es as [|e es IH]; intros w H E; simpl in E; [by simplify_eq|].
  destruct (wz_step e w) as [w1|] eqn:Es; [|done]. eapply IH; [|done]. by eapply wz_step_inv.
Qed.

Lemma wz_init_inv : wz_inv wz_init.
Proof. split; simpl; [lia|lia|done]. Qed.


Definition wizard_events : list wz_event :=
  [WNext; WName (lit "nightly"); WCmd (lit "extract") (lit "./extract.sh"); WDateVar; WNext;
   WMode WInterval; WEvery 15].


(** Creation is not protected against replacing a workflow. The bodies of the
    dialog and of the wizard carry no concurrency token, so the server never answers
    them with a conflict and stores them over a workflow of the same name; the
    console's own test is empty when the list of workflows could not be fetched
    (dialog and wizard) or has not arrived yet (wizard). *)
Theorem creation_can_replace (hash : spec -> jstr) (accepts : spec -> bool) :
  (forall n m, accepts (submitNewDag n) = true ->
     exists h, buildDAG hash accepts (submitNewDag n) m
       = (Saved h, <[nd_dag_id n := stored_of (submitNewDag n)]> m)) /\
  (forall id, ID_RE id = true -> trim id = id ->
     exists es n, nd_run es (newDagModal None) = Some n /\ nd_dag_id n = id /\ can_create n = true) /\
  (forall id, ID_RE id = true -> trim id = id -> exists es w sp,
     wz_run es wz_init = Some w /\ createAndRunWizard w = Some (inr sp) /\ s_dag_id sp = id /\
     w_existing w = None).
Proof.
  split_and!.
  - intros n m Ha. eexists. unfold buildDAG. rewrite Ha.
    change (s_dag_id (submitNewDag n)) with (nd_dag_id n). by destruct (m !! nd_dag_id n).
  - intros id Hid Ht. exists [NdId id]. eexists. split; [reflexivity|]. cbn [nd_dag_id]. rewrite Ht.
    split; [done|]. unfold can_create, nd_error. cbn [nd_dag_id nd_existing newDagModal default].
    rewrite Hid. destruct id; [done|]. simpl. by rewrite bool_decide_eq_false_2 by set_solver.
  - intros id Hid Ht. exists [WNext; WName id; WNext].
    assert (Hne : truthy id = true) by by destruct id.
    eexists _, _. cbn [wz_run wz_step Nat.eqb wz_init set_step]. rewrite Ht.
    unfold name_error, wzValidate. cbn [w_name w_existing]. rewrite Ht, Hid, Hne. cbn [andb negb].
    change (existsb _ _) with false. cbv iota beta. split; [reflexivity|].
    unfold createAndRunWizard, wzValidate. cbn [w_step w_name w_existing set_step Nat.eqb].
    rewrite Ht, Hid. cbn [andb negb]. change (existsb _ _) with false.
    split_and!; reflexivity.
Qed.
