(* ===== verification/Format.v ===== *)
(** * Formatting (base.js, views.js): HTML escaping, durations, ages, duration bars

    Timestamps are milliseconds (a parsed [Date]), [None] where the server sent
    none. A JS division of integers is exact here and [Math.round] rounds halves
    up; on the console's operands (milliseconds below 2^45) the doubles give the
    same integers. *)

From S2P Require Import Prelude JsCore Schedule.

(** ** HTML escaping *)

Definition esc_char (c : N) : jstr :=
  if (c =? ch "&")%N then lit "&amp;"
  else if (c =? ch "<")%N then lit "&lt;"
  else if (c =? ch ">")%N then lit "&gt;"
  else if (c =? 34)%N then lit "&quot;"
  else [c].
Definition esc (s : jstr) : jstr := List.flat_map esc_char s.

(** [n] double quotes written out: [attr k v] is [ k="v"]. *)
Definition attr (k v : jstr) : jstr := lit " " ++ k ++ [ch "="; 34%N] ++ v ++ [34%N].

(** [copySpan]: the localized hint is an argument. *)
Definition copySpan (hint text cls title : jstr) : jstr :=
  lit "<span" ++ attr (lit "class") (lit "copyable " ++ cls) ++ attr (lit "data-copy") (esc text)
  ++ attr (lit "role") (lit "button") ++ attr (lit "tabindex") (lit "0")
  ++ attr (lit "title") (esc (title ||j hint))
  ++ attr (lit "aria-label") (hint ++ lit ": " ++ esc text) ++ lit ">" ++ esc text ++ lit "</span>".

(** What a browser reads: the entities [esc] writes are replaced, everything else
    is taken as it is. *)
Definition entities : list (jstr * N) :=
  [ (lit "&amp;", ch "&"); (lit "&lt;", ch "<"); (lit "&gt;", ch ">"); (lit "&quot;", 34%N) ].
Definition entity_at (s : jstr) : option (N * jstr) :=
  match List.find (fun e => starts_with e.1 s) entities with
  | Some e => Some (e.2, drop (length e.1) s)
  | None => None
  end.
Fixpoint decode_loop (fuel : nat) (s : jstr) : jstr :=
  match fuel, s with
  | S f, c :: r =>
    match entity_at s with Some (d, r') => d :: decode_loop f r' | None => c :: decode_loop f r end
  | _, _ => []
  end.
Definition html_decode (s : jstr) : jstr := decode_loop (length s) s.

(** The text up to the first character [c]: the value of an attribute up to its
    closing quote, or a text node up to the next tag. *)
Definition upto (c : N) (s : jstr) : jstr := (span (fun d => negb (d =? c)%N) s).1.

(** ** Durations *)

(** [Math.round(a / b)], [b > 0] *)
Definition round_div (a b : Z) : Z := ((2 * a + b) / (2 * b))%Z.

Definition dash : jstr := lit "—".
Definition num_unit (n : Z) (u : jstr) : jstr := num_str n ++ u.

(** [s < 60 ? `${s}s` : `${Math.floor(s / 60)}m${s % 60}s`] *)
Definition min_sec (s : Z) : jstr :=
  if (s <? 60)%Z then num_unit s (lit "s")
  else num_unit (s / 60) (lit "m") ++ num_unit (s mod 60) (lit "s").

Definition fmtMs (ms : Z) : jstr :=
  if (ms <=? 0)%Z then dash
  else if (ms <? 1000)%Z then num_unit ms (lit "ms")
  else min_sec (round_div ms 1000).

Definition dur (now : Z) (a b : option Z) : jstr :=
  match a with
  | None => dash
  | Some a =>
    let ms := (default now b - a)%Z in
    if (ms <? 0)%Z then dash else min_sec (round_div ms 1000)
  end.

Definition secsLabel (sec : Z) : label :=
  if (sec <=? 0)%Z then T (lit "set_off") []
  else if (sec <? 60)%Z then Raw (num_unit sec (lit "s"))
  else if (sec <? 3600)%Z then
    Raw (num_unit (sec / 60) (lit "m")
         ++ (if (sec mod 60 =? 0)%Z then [] else num_unit (sec mod 60) (lit "s")))
  else
    let h := (sec / 3600)%Z in let m := ((sec mod 3600) / 60)%Z in
    Raw (num_unit h (lit "h") ++ (if (m =? 0)%Z then [] else num_unit m (lit "m"))).

(** [relTime]: [day] is the friendly date used beyond a day. *)
Definition relTime (now : Z) (day : jstr) (x : option Z) : label :=
  match x with
  | None => Raw dash
  | Some d =>
    let s := Z.max 0 (round_div (now - d) 1000) in
    if (s <? 5)%Z then T (lit "rel_now") []
    else if (s <? 60)%Z then T (lit "rel_ago") [Raw (num_unit s (lit "s"))]
    else if (s <? 3600)%Z then T (lit "rel_ago") [Raw (num_unit (s / 60) (lit "m"))]
    else if (s <? 86400)%Z then T (lit "rel_ago") [Raw (num_unit (s / 3600) (lit "h"))]
    else Raw day
  end.

(** ** Bars *)

Record point := Point { pt_state : jstr; pt_ms : Z }.
Record bar := Bar { bar_k : jstr; bar_h : Z; bar_ms : Z }.

Definition noruns : point := Point (lit "noruns") 0.
Definition max_ms (l : list Z) : Z := foldr Z.max 1%Z l.

(** The 14 newest points, padded on the left. *)
Definition spark_points (points : list point) : list point :=
  let arr := drop (length points - 14) points in replicate (14 - length arr) noruns ++ arr.

Definition stub (k : jstr) : bool :=
  bool_decide (k = lit "noruns") || bool_decide (k = lit "skipped").
Definition spark_bar (maxMs : Z) (p : point) : bar :=
  let k := pt_state p ||j lit "noruns" in
  let h : Z := if stub k then 6%Z
           else if (0 <? pt_ms p)%Z then round_div (6 * maxMs + pt_ms p * (22 - 6))%Z maxMs
           else 15%Z in
  Bar k h (pt_ms p).
Definition sparkline (points : list point) (scaleMs : Z) : list bar :=
  let arr := spark_points points in
  let maxMs := Z.max (max_ms (pt_ms <$> arr)) scaleMs in
  spark_bar maxMs <$> arr.

(** A run of the history: the two timestamps. *)
Record timed := Timed { tm_state : jstr; tm_start : option Z; tm_end : option Z }.
Definition run_ms (r : timed) : Z :=
  match tm_start r, tm_end r with Some s, Some f => Z.max 0 (f - s) | _, _ => 0 end.
Definition finished (r : timed) : bool :=
  match tm_start r, tm_end r with Some _, Some _ => true | _, _ => false end.

Definition trend_bar (max : Z) (r : timed) : bar :=
  let m := run_ms r in
  Bar (tm_state r) (if (0 <? m)%Z then Z.max 4 (round_div (m * 46) max) else 3)%Z m.

(** [durationTrendHtml]: the bars oldest first and the scale, or nothing. *)
Definition durationTrend (runs : list timed) : option (list bar * Z) :=
  if length (List.filter finished runs) <? 2 then None
  else
    let items := reverse runs in
    let max := max_ms (run_ms <$> items) in
    Some (trend_bar max <$> items, max).

(** ** Escaping *)

Lemma esc_cons c s : esc (c :: s) = esc_char c ++ esc s.
Proof. done. Qed.
Lemma esc_app a b : esc (a ++ b) = esc a ++ esc b.
Proof. apply flat_map_app. Qed.

(** The five cases of [esc_char]. *)
Lemma esc_char_cases c :
  (exists e, e ∈ entities /\ esc_char c = e.1 /\ e.2 = c) \/
  (esc_char c = [c] /\ Forall (fun e : jstr * N => e.2 <> c) entities).
Proof.
  unfold esc_char.
  destruct (N.eqb_spec c (ch "&")) as [->|]; [left; exists (lit "&amp;", ch "&"); set_solver|].
  destruct (N.eqb_spec c (ch "<")) as [->|]; [left; exists (lit "&lt;", ch "<"); set_solver|].
  destruct (N.eqb_spec c (ch ">")) as [->|]; [left; exists (lit "&gt;", ch ">"); set_solver|].
  destruct (N.eqb_spec c 34) as [->|]; [left; exists (lit "&quot;", 34%N); set_solver|].
  right. split; [done|]. repeat constructor; simpl; congruence.
Qed.

(** The characters that end a text node or an attribute value never occur. *)
Lemma esc_safe s c : c ∈ [ch "<"; ch ">"; 34%N] -> c ∉ esc s.
Proof.
  intros Hc. unfold esc. rewrite list_elem_of_In. intros (d & _ & Hd)%in_flat_map.
  apply list_elem_of_In in Hd. destruct (esc_char_cases d) as [(e & He & E & _)|[E Hn]]; rewrite E in Hd.
  - unfold entities in He.
    repeat (apply elem_of_cons in He as [->|He];
      [simpl in Hd; repeat (apply elem_of_cons in Hc as [->|Hc];
        [repeat (apply elem_of_cons in Hd as [Hd|Hd]; [done|]); by apply elem_of_nil in Hd|]);
        by apply elem_of_nil in Hc|]). by apply elem_of_nil in He.
  - apply list_elem_of_singleton in Hd as ->. unfold entities in Hn.
    repeat (apply Forall_cons in Hn as [? Hn]); simpl in *. set_solver.
Qed.

Lemma upto_esc s c r : c ∈ [ch "<"; ch ">"; 34%N] -> upto c (esc s ++ c :: r) = esc s.
Proof.
  intros Hc. unfold upto. rewrite span_exact; [done| |].
  - apply Forall_forall. intros x Hx. apply negb_true_iff, N.eqb_neq. intros ->.
    by apply (esc_safe s c).
  - simpl. by rewrite N.eqb_refl.
Qed.

Lemma entity_at_esc e r : e ∈ entities -> entity_at (e.1 ++ r) = Some (e.2, r).
Proof.
  unfold entities. intros He.
  repeat (apply elem_of_cons in He as [->|He]; [reflexivity|]). by apply elem_of_nil in He.
Qed.

Lemma entity_at_other c r : c <> ch "&" -> entity_at (c :: r) = None.
Proof.
  intros Hc. apply N.eqb_neq in Hc. unfold entity_at, entities, starts_with. cbn [List.find fst].
  cbn [strip_prefix]. rewrite N.eqb_sym in Hc. by rewrite Hc.
Qed.

Lemma decode_esc s fuel : length (esc s) <= fuel -> decode_loop fuel (esc s) = s.
Proof.
  revert fuel. induction s as [|c s IH]; intros fuel; [by destruct fuel|].
  rewrite esc_cons, length_app. intros Hl.
  assert (Hpos : 0 < length (esc_char c)) by (unfold esc_char; repeat case_match; simpl; lia).
  destruct fuel as [|fuel]; [lia|].
  destruct (esc_char_cases c) as [(e & He & E & <-)|[E Hn]].
  - rewrite E in *. pose proof (entity_at_esc e (esc s) He) as Hat.
    destruct (e.1 ++ esc s) as [|d r] eqn:Er; [destruct e.1; simpl in Hpos; [lia|done]|].
    simpl. rewrite Hat, IH; [done|]. lia.
  - rewrite E in *. simpl in *. unfold entities in Hn. apply Forall_cons in Hn as [Hc _]. simpl in Hc.
    rewrite entity_at_other by congruence. rewrite IH; [done|lia].
Qed.

(** Escaped text is read back exactly, whatever it contains: as an attribute
    value up to the closing quote, as a text node up to the next tag, and it
    opens no tag; the value [copySpan] puts on the clipboard is its text. *)
Theorem esc_reads_back s rest :
  html_decode (upto 34%N (esc s ++ 34%N :: rest)) = s /\
  html_decode (upto (ch "<") (esc s ++ ch "<" :: rest)) = s /\
  (ch "<" ∉ esc s) /\
  (forall hint cls title, exists before after,
     copySpan hint s cls title = before ++ lit "data-copy=" ++ 34%N :: esc s ++ 34%N :: after).
Proof.
  split_and!.
  - rewrite upto_esc by set_solver. by apply decode_esc.
  - rewrite upto_esc by set_solver. by apply decode_esc.
  - apply esc_safe. set_solver.
  - intros hint cls title. unfold copySpan, attr.
    exists (lit "<span class=" ++ 34%N :: (lit "copyable " ++ cls) ++ 34%N :: lit " ").
    eexists. simpl. rewrite <- !app_assoc. simpl. reflexivity.
Qed.

(** ** Reading durations back *)

Definition unit_value (c : N) : option Z :=
  if (c =? ch "h")%N then Some 3600%Z else if (c =? ch "m")%N then Some 60%Z
  else if (c =? ch "s")%N then Some 1%Z else None.

(** The seconds a label such as [1h5m], [3m20s] or [8s] names. *)
Fixpoint read_loop (fuel : nat) (s : jstr) : option Z :=
  match fuel, s with
  | _, [] => Some 0%Z
  | O, _ => None
  | S f, _ =>
    match span is_digit s with
    | ((_ :: _) as ds, c :: r) =>
      match unit_value c, read_loop f r with
      | Some u, Some n => Some (Z.of_N (digits_val ds) * u + n)%Z
      | _, _ => None
      end
    | _ => None
    end
  end.
Definition read_secs (s : jstr) : option Z := read_loop 3 s.

Lemma span_num n c r :
  (0 <= n)%Z -> is_digit c = false ->
  span is_digit (num_unit n [c] ++ r) = (digits (Z.to_N n), c :: r).
Proof.
  intros Hn Hc. unfold num_unit, num_str. destruct (Z.ltb_spec n 0); [lia|].
  rewrite <- app_assoc. apply span_exact; [apply digits_digit|exact Hc].
Qed.

Lemma read_loop_unit f n c u r m :
  (0 <= n)%Z -> is_digit c = false -> unit_value c = Some u -> read_loop f r = Some m ->
  read_loop (S f) (num_unit n [c] ++ r) = Some (n * u + m)%Z.
Proof.
  intros Hn Hc Hu Hr. pose proof (span_num n c r Hn Hc) as E.
  pose proof (digits_nonnil (Z.to_N n)) as Hd.
  assert (Hne : num_unit n [c] ++ r <> []).
  { intros E0. rewrite E0 in E. simpl in E. by injection E as E1 E2. }
  cbn [read_loop]. rewrite E. destruct (num_unit n [c] ++ r) as [|x l] eqn:El; [done|].
  destruct (digits (Z.to_N n)) as [|d ds] eqn:Ed; [done|]. rewrite Hu, Hr, <- Ed.
  by rewrite digits_val_digits, Z2N.id.
Qed.

Lemma read_loop_nil f : read_loop f [] = Some 0%Z.
Proof. by destruct f. Qed.

(** One unit, and an optional second one. *)
Lemma read_one n c u : (0 <= n)%Z -> is_digit c = false -> unit_value c = Some u ->
  read_secs (num_unit n [c]) = Some (n * u)%Z.
Proof.
  intros Hn Hc Hu. unfold read_secs. rewrite <- (app_nil_r (num_unit n [c])).
  rewrite (read_loop_unit 2 n c u [] 0); [f_equal; lia|done..].
Qed.
Lemma read_two n c u k d v : (0 <= n)%Z -> (0 <= k)%Z ->
  is_digit c = false -> unit_value c = Some u -> is_digit d = false -> unit_value d = Some v ->
  read_secs (num_unit n [c] ++ num_unit k [d]) = Some (n * u + k * v)%Z.
Proof.
  intros Hn Hk Hc Hu Hd Hv. unfold read_secs. apply read_loop_unit; [done..|].
  rewrite <- (app_nil_r (num_unit k [d])).
  rewrite (read_loop_unit 1 k d v [] 0); [f_equal; lia|done..].
Qed.

Lemma min_sec_reads s : (0 <= s)%Z -> read_secs (min_sec s) = Some s.
Proof.
  intros Hs. unfold min_sec. destruct (Z.ltb_spec s 60).
  - rewrite (read_one s _ 1) by done. f_equal; lia.
  - rewrite (read_two _ _ 60 _ _ 1); [|apply Z.div_pos; lia|apply Z.mod_pos_bound; lia|done..].
    f_equal. pose proof (Z.div_mod s 60). lia.
Qed.

Lemma round_div_spec a b : (0 < b)%Z -> (2 * Z.abs (a - b * round_div a b) <= b)%Z.
Proof.
  intros Hb. unfold round_div. pose proof (Z.div_mod (2 * a + b) (2 * b) ltac:(lia)) as E.
  pose proof (Z.mod_pos_bound (2 * a + b) (2 * b) ltac:(lia)) as M. nia.
Qed.
Lemma round_div_mono a a' b : (0 < b)%Z -> (a <= a')%Z -> (round_div a b <= round_div a' b)%Z.
Proof. intros Hb H. unfold round_div. apply Z.div_le_mono; lia. Qed.
Lemma round_div_exact k b : (0 < b)%Z -> round_div (k * b) b = k.
Proof.
  intros Hb. unfold round_div. replace (2 * (k * b) + b)%Z with (b + k * (2 * b))%Z by lia.
  rewrite Z.div_add, Z.div_small; lia.
Qed.
Lemma round_div_le k a b : (0 < b)%Z -> (a <= k * b)%Z -> (round_div a b <= k)%Z.
Proof. intros Hb H. rewrite <- (round_div_exact k b Hb). by apply round_div_mono. Qed.
Lemma round_div_ge k a b : (0 < b)%Z -> (k * b <= a)%Z -> (k <= round_div a b)%Z.
Proof. intros Hb H. rewrite <- (round_div_exact k b Hb). by apply round_div_mono. Qed.
Lemma round_div_nonneg a b : (0 < b)%Z -> (0 <= a)%Z -> (0 <= round_div a b)%Z.
Proof. intros. apply round_div_ge; lia. Qed.

(** The durations on screen name what they stand for: a label of [fmtMs] (from
    one second) or [dur] reads back as the duration rounded to the nearest second;
    a label of [secsLabel] reads back as the number of seconds exactly below an
    hour, and from an hour on as the whole minutes. *)
Theorem durations_read_back :
  (forall ms, (1000 <= ms)%Z -> exists s, read_secs (fmtMs ms) = Some s /\ (Z.abs (ms - 1000 * s) <= 500)%Z) /\
  (forall now a b, (a <= default now b)%Z ->
     exists s, read_secs (dur now (Some a) b) = Some s /\ (Z.abs (default now b - a - 1000 * s) <= 500)%Z) /\
  (forall sec, (0 < sec)%Z -> exists l, secsLabel sec = Raw l /\
     read_secs l = Some (if (sec <? 3600)%Z then sec else sec - sec mod 60)%Z).
Proof.
  split_and!.
  - intros ms Hms. unfold fmtMs. destruct (Z.leb_spec ms 0); [lia|]. destruct (Z.ltb_spec ms 1000); [lia|].
    pose proof (round_div_spec ms 1000 ltac:(lia)). exists (round_div ms 1000).
    split; [apply min_sec_reads, round_div_nonneg; lia|lia].
  - intros now a b H. unfold dur. destruct (Z.ltb_spec (default now b - a) 0); [lia|].
    pose proof (round_div_spec (default now b - a) 1000 ltac:(lia)).
    exists (round_div (default now b - a) 1000). split; [apply min_sec_reads, round_div_nonneg; lia|lia].
  - intros sec Hs. unfold secsLabel. destruct (Z.leb_spec sec 0); [lia|].
    destruct (Z.ltb_spec sec 60), (Z.ltb_spec sec 3600); try lia.
    + eexists; split; [done|]. rewrite (read_one sec _ 1) by (done || lia). f_equal; lia.
    + eexists; split; [done|]. pose proof (Z.div_mod sec 60 ltac:(lia)).
      pose proof (Z.mod_pos_bound sec 60 ltac:(lia)). pose proof (Z.div_pos sec 60 ltac:(lia) ltac:(lia)).
      destruct (Z.eqb_spec (sec mod 60) 0) as [E|].
      * rewrite app_nil_r, (read_one _ _ 60) by done. f_equal; lia.
      * rewrite (read_two _ _ 60 _ _ 1) by (done || lia). f_equal; lia.
    + eexists; split; [done|].
      pose proof (Z.div_mod sec 3600 ltac:(lia)). pose proof (Z.mod_pos_bound sec 3600 ltac:(lia)).
      pose proof (Z.div_mod (sec mod 3600) 60 ltac:(lia)).
      pose proof (Z.mod_pos_bound (sec mod 3600) 60 ltac:(lia)).
      pose proof (Z.div_pos sec 3600 ltac:(lia) ltac:(lia)).
      pose proof (Z.div_pos (sec mod 3600) 60 ltac:(lia) ltac:(lia)).
      assert (Em : ((sec mod 3600) mod 60 = sec mod 60)%Z).
      { change 3600%Z with (60 * 60)%Z. rewrite Z.rem_mul_r by lia.
        rewrite (Z.mul_comm 60), Z.mod_add, Z.mod_mod; lia. }
      destruct (Z.eqb_spec ((sec mod 3600) / 60) 0) as [E|].
      * rewrite app_nil_r, (read_one _ _ 3600) by done. f_equal; lia.
      * rewrite (read_two _ _ 3600 _ _ 60) by (done || lia). f_equal; lia.
Qed.

(** ** Bars *)

Lemma max_ms_pos l : (1 <= max_ms l)%Z.
Proof. induction l; simpl; lia. Qed.
Lemma max_ms_ge l x : x ∈ l -> (x <= max_ms l)%Z.
Proof. induction l as [|y l IH]; [by intros ?%elem_of_nil|]. intros [->|H]%elem_of_cons; simpl; [lia|]. specialize (IH H). lia. Qed.
Lemma max_ms_in l : max_ms l = 1%Z \/ max_ms l ∈ l.
Proof.
  induction l as [|y l IH]; [by left|]. simpl. destruct (Z.max_spec y (max_ms l)) as [[_ ->]|[_ ->]].
  - destruct IH; [by left|right; set_solver].
  - right; set_solver.
Qed.

Lemma spark_points_length ps : length (spark_points ps) = 14.
Proof. unfold spark_points. rewrite length_app, length_replicate, length_drop. lia. Qed.

Lemma spark_points_elem ps p : p ∈ spark_points ps -> p = noruns \/ p ∈ ps.
Proof.
  unfold spark_points. intros [[-> _]%elem_of_replicate|Hp]%elem_of_app; [by left|right].
  rewrite <- (take_drop (length ps - 14) ps). apply elem_of_app. by right.
Qed.

(** The height of a bar with a duration. *)
Definition dur_h (M ms : Z) : Z := round_div (6 * M + ms * (22 - 6)) M.
Lemma dur_h_range M ms : (0 < ms)%Z -> (ms <= M)%Z -> (6 <= dur_h M ms <= 22)%Z.
Proof.
  intros H0 H1. unfold dur_h. split; [apply round_div_ge|apply round_div_le]; lia.
Qed.
Lemma dur_h_mono M a b : (0 < M)%Z -> (a <= b)%Z -> (dur_h M a <= dur_h M b)%Z.
Proof. intros. apply round_div_mono; lia. Qed.

Definition timed_bar (b : bar) : bool := negb (stub (bar_k b)) && (0 <? bar_ms b)%Z.

Lemma spark_bar_elem ps M b : b ∈ sparkline ps M -> exists p M',
  p ∈ spark_points ps /\ b = spark_bar M' p /\ (pt_ms p <= M')%Z /\ (1 <= M')%Z /\
  M' = Z.max (max_ms (pt_ms <$> spark_points ps)) M.
Proof.
  unfold sparkline. intros (p & -> & Hp)%list_elem_of_fmap. eexists p, _. split_and!; [done..| | |done].
  - pose proof (max_ms_ge (pt_ms <$> spark_points ps) (pt_ms p) (list_elem_of_fmap_2 pt_ms _ _ Hp)). lia.
  - pose proof (max_ms_pos (pt_ms <$> spark_points ps)). lia.
Qed.

Lemma timed_bar_h M p : timed_bar (spark_bar M p) = true -> bar_h (spark_bar M p) = dur_h M (pt_ms p).
Proof.
  unfold timed_bar, spark_bar, dur_h. simpl. destruct (stub _); [done|].
  by destruct (0 <? pt_ms p)%Z.
Qed.

(** A sparkline has 14 bars, the newest runs last, each between 6 and 22 high.
    With one scale for the dashboard, no smaller than the durations shown, heights
    compare across workflows: a bar with a duration at least as long is at least
    as high, and the longest duration of the scale has the full height. *)
Theorem sparkline_honest ps scale :
  length (sparkline ps scale) = 14 /\
  Forall (fun b => 6 <= bar_h b <= 22)%Z (sparkline ps scale) /\
  (bar_ms <$> drop (14 - length ps) (sparkline ps scale)) = pt_ms <$> drop (length ps - 14) ps /\
  (forall qs b c, Forall (fun p => pt_ms p <= scale)%Z (ps ++ qs) ->
     b ∈ sparkline ps scale -> c ∈ sparkline qs scale ->
     timed_bar b = true -> timed_bar c = true ->
     ((bar_ms b <= bar_ms c -> bar_h b <= bar_h c) /\ (bar_ms b = scale -> bar_h b = 22))%Z).
Proof.
  split_and!.
  - unfold sparkline. by rewrite length_fmap, spark_points_length.
  - apply Forall_forall. intros b (p & M & Hp & -> & H1 & H2 & _)%spark_bar_elem.
    unfold spark_bar; simpl. case_match; [lia|]. case_match; [|lia]. bool_props.
    by apply dur_h_range.
  - unfold sparkline. rewrite <- fmap_drop, <- list_fmap_compose. f_equal. unfold spark_points.
    rewrite length_drop, drop_app_length'; [done|]. rewrite length_replicate. lia.
  - intros qs b c Hs Hb Hc Tb Tc. apply Forall_app in Hs as [Hps Hqs].
    assert (Hmax : forall l, Forall (fun p => pt_ms p <= scale)%Z l -> (1 <= scale)%Z ->
              Z.max (max_ms (pt_ms <$> spark_points l)) scale = scale).
    { intros l Hl H1. destruct (max_ms_in (pt_ms <$> spark_points l)) as [->|Hin]; [lia|].
      apply list_elem_of_fmap in Hin as (p & -> & [->|Hp]%spark_points_elem); [simpl; lia|].
      rewrite Forall_forall in Hl. specialize (Hl _ Hp). lia. }
    apply spark_bar_elem in Hb as (p & M & Hp & -> & H1 & H2 & EM).
    apply spark_bar_elem in Hc as (q & M' & Hq & -> & H3 & H4 & EM').
    pose proof Tb as Tb'. unfold timed_bar in Tb'. simpl in Tb'. bool_props.
    assert (Hpp : p ∈ ps).
    { by destruct (spark_points_elem _ _ Hp) as [->|]. }
    rewrite Forall_forall in Hps. pose proof (Hps _ Hpp).
    assert (H1s : (1 <= scale)%Z) by lia. rewrite <- Forall_forall in Hps.
    rewrite (Hmax _ Hps H1s) in EM. rewrite (Hmax _ Hqs H1s) in EM'. subst M M'.
    rewrite (timed_bar_h _ _ Tb), (timed_bar_h _ _ Tc). simpl. split.
    + intros. by apply dur_h_mono; [lia|].
    + intros ->. unfold dur_h. replace (6 * scale + scale * (22 - 6))%Z with (22 * scale)%Z by lia.
      apply round_div_exact. lia.
Qed.

(** The duration trend of a run history shows one bar per run, oldest first,
    between 3 and 46 high, and only when two of the runs have finished; the slowest
    run has the greatest height. *)
Theorem durationTrend_bars runs bars max :
  durationTrend runs = Some (bars, max) ->
  2 <= length (List.filter finished runs) /\
  bar_k <$> bars = reverse (tm_state <$> runs) /\ Forall (fun b => 3 <= bar_h b <= 46)%Z bars /\
  (forall b c, b ∈ bars -> c ∈ bars -> (bar_ms b <= bar_ms c -> bar_h b <= bar_h c)%Z).
Proof.
  unfold durationTrend. destruct (Nat.ltb_spec (length (List.filter finished runs)) 2); [done|].
  intros E. injection E as <- <-. set (M := max_ms (run_ms <$> reverse runs)).
  pose proof (max_ms_pos (run_ms <$> reverse runs)) as HM. fold M in HM.
  assert (Hel : forall b, b ∈ trend_bar M <$> reverse runs -> exists r, b = trend_bar M r /\ (run_ms r <= M)%Z).
  { intros b (r & -> & Hr)%list_elem_of_fmap. exists r. split; [done|].
    by apply max_ms_ge, list_elem_of_fmap_2. }
  split_and!.
  - lia.
  - rewrite <- list_fmap_compose, <- fmap_reverse. done.
  - apply Forall_forall. intros b (r & -> & Hr)%Hel. unfold trend_bar; simpl.
    case_match; bool_props; [|lia].
    assert (round_div (run_ms r * 46) M <= 46)%Z; [apply round_div_le; lia|lia].
  - intros b c (r & -> & Hr)%Hel (q & -> & Hq)%Hel. unfold trend_bar; simpl. intros Hle.
    destruct (Z.ltb_spec 0 (run_ms r)), (Z.ltb_spec 0 (run_ms q)); try lia.
    assert (round_div (run_ms r * 46) M <= round_div (run_ms q * 46) M)%Z by (apply round_div_mono; lia). lia.
Qed.

Definition sample_history : list timed :=
  [Timed (lit "running") (Some 9000%Z) None; Timed (lit "failed") (Some 5000%Z) (Some 8000%Z);
   Timed (lit "success") (Some 0%Z) (Some 1000%Z)].

Lemma durationTrend_bars_witness :
  exists bars max, durationTrend sample_history = Some (bars, max) /\
    bar_h <$> bars = [15; 46; 3]%Z /\ 2 <= length (List.filter finished sample_history).
Proof.
  eexists _, _. split; [vm_compute; reflexivity|]. split; [reflexivity|].
  eapply (durationTrend_bars sample_history). vm_compute. reflexivity.
Defined.
