(* ===== verification/Routing.v ===== *)
(** * Hash routing (base.js): [setHash], [applyRoute], the [hashchange] handler, and
    the pages' own [setHash] calls (views.js, builder.js)

    A hash is the string [location.hash]. The browser's part is the session
    history (the entries and the current position) and the queue of undelivered
    [hashchange] events. A page that loads data sets its hash before its first
    request and again when the data is there; a [hashchange] queued in between is
    delivered while the request is open. *)

From S2P Require Import Prelude JsCore.

(** ** [encodeURIComponent] and [decodeURIComponent] *)

Definition hex_digit (n : N) : N := if (n <? 10)%N then (48 + n)%N else (55 + n)%N.
Definition hex_value (c : N) : option N :=
  if (48 <=? c)%N && (c <=? 57)%N then Some (c - 48)%N
  else if (65 <=? c)%N && (c <=? 70)%N then Some (c - 55)%N
  else if (97 <=? c)%N && (c <=? 102)%N then Some (c - 87)%N
  else None.

(** Letters, digits and [-_.!~*'()]. *)
Definition unreserved (c : N) : bool :=
  is_alnum c || bool_decide (c ∈ [ch "-"; ch "_"; ch "."; ch "!"; ch "~"; ch "*"; ch "'"; ch "("; ch ")"]).

Definition pct (b : N) : jstr := [ch "%"; hex_digit (b / 16); hex_digit (b mod 16)].

(** The UTF-8 bytes of a code point. *)
Definition utf8 (cp : N) : list N :=
  (if cp <? 128 then [cp]
   else if cp <? 2048 then [192 + cp / 64; 128 + cp mod 64]
   else if cp <? 65536 then [224 + cp / 4096; 128 + cp / 64 mod 64; 128 + cp mod 64]
   else [240 + cp / 262144; 128 + cp / 4096 mod 64; 128 + cp / 64 mod 64; 128 + cp mod 64])%N.

(** [None]: a lone surrogate ([URIError]). *)
Fixpoint encodeURIComponent (s : jstr) : option jstr :=
  match s with
  | [] => Some []
  | c :: r =>
    if unreserved c then (fun e => c :: e) <$> encodeURIComponent r
    else if (55296 <=? c)%N && (c <? 56320)%N then
      match r with
      | d :: r' =>
        if (56320 <=? d)%N && (d <? 57344)%N
        then app (List.flat_map pct (utf8 (65536 + (c - 55296) * 1024 + (d - 56320))%N))
             <$> encodeURIComponent r'
        else None
      | [] => None
      end
    else if (56320 <=? c)%N && (c <? 57344)%N then None
    else app (List.flat_map pct (utf8 c)) <$> encodeURIComponent r
  end.

(** One escaped byte. *)
Definition take_pct (s : jstr) : option (N * jstr) :=
  match s with
  | p :: a :: b :: r =>
    if (p =? ch "%")%N then
      match hex_value a, hex_value b with Some x, Some y => Some (16 * x + y, r)%N | _, _ => None end
    else None
  | _ => None
  end.

(** [n] continuation bytes. *)
Fixpoint take_conts (n : nat) (cp : N) (s : jstr) : option (N * jstr) :=
  match n with
  | O => Some (cp, s)
  | S n' =>
    match take_pct s with
    | Some (b, r) => if (128 <=? b)%N && (b <? 192)%N then take_conts n' (cp * 64 + (b - 128))%N r else None
    | None => None
    end
  end.

(** The code units of a decoded code point; overlong forms, surrogates and values
    beyond 10FFFF are errors. *)
Definition units (n : nat) (cp : N) : option jstr :=
  (if cp <? match n with 0%nat => 0 | 1%nat => 128 | 2%nat => 2048 | _ => 65536 end then None
   else if (55296 <=? cp) && (cp <? 57344) then None
   else if cp <? 65536 then Some [cp]
   else if cp <? 1114112 then Some [55296 + (cp - 65536) / 1024; 56320 + (cp - 65536) mod 1024]
   else None)%N.

Definition lead (b : N) : option (nat * N) :=
  (if b <? 128 then Some (0%nat, b)
   else if b <? 192 then None
   else if b <? 224 then Some (1%nat, b - 192)
   else if b <? 240 then Some (2%nat, b - 224)
   else if b <? 248 then Some (3%nat, b - 240)
   else None)%N.

Fixpoint decode_fuel (fuel : nat) (s : jstr) : option jstr :=
  match fuel, s with
  | _, [] => Some []
  | O, _ => None
  | S f, c :: r =>
    if (c =? ch "%")%N then
      match take_pct s with
      | None => None
      | Some (b, r1) =>
        match lead b with
        | None => None
        | Some (n, v) =>
          match take_conts n v r1 with
          | None => None
          | Some (cp, r2) =>
            match units n cp, decode_fuel f r2 with Some u, Some d => Some (u ++ d) | _, _ => None end
          end
        end
      end
    else (fun d => c :: d) <$> decode_fuel f r
  end.
(** [None]: [URIError]. Every round drops at least one unit. *)
Definition decodeURIComponent (s : jstr) : option jstr := decode_fuel (length s) s.

(** ** Routes *)

(** What [applyRoute] opens. *)
Inductive route :=
| RDags | RNew | RPools | RResources | RGraph | RAudit | RWorkers | RApi
| RRun (id : jstr)
| RDag (id : jstr) (tab : option jstr)
| RTask (dag task : jstr).

#[export] Instance route_eq_dec : EqDecision route.
Proof. solve_decision. Defined.

(** [location.hash.replace(/^#\/?/, "").split("/").map(decodeURIComponent).filter(Boolean)];
    [None] when a segment does not decode. *)
Definition segments (hash : jstr) : option (list jstr) :=
  let h := match strip_prefix (lit "#") hash with
           | Some r => default r (strip_prefix (lit "/") r)
           | None => hash
           end in
  filter (fun s => truthy s = true) <$> mapM decodeURIComponent (split_on (ch "/") h).

Definition route_of (seg : list jstr) : route :=
  match seg with
  | [] => RDags
  | s :: r =>
    if bool_decide (s = lit "dags") then RDags
    else if bool_decide (s = lit "new") then RNew
    else if bool_decide (s = lit "pools") then RPools
    else if bool_decide (s = lit "resources") then RResources
    else if bool_decide (s = lit "graph") then RGraph
    else if bool_decide (s = lit "audit") then RAudit
    else if bool_decide (s = lit "workers") then RWorkers
    else if bool_decide (s = lit "api") then RApi
    else if bool_decide (s = lit "run") then
      match r with id :: _ => RRun id | [] => RDags end
    else if bool_decide (s = lit "dag") then
      match r with
      | [] => RDags
      | [id] => RDag id None
      | id :: t :: k :: _ => if bool_decide (t = lit "task") then RTask id k else RDag id (Some t)
      | id :: t :: _ => RDag id (Some t)
      end
    else RDags
  end.
Definition parse_hash (hash : jstr) : option route := route_of <$> segments hash.

(** The hash a page shows; an id of a lone surrogate has none. *)
Definition enc (s : jstr) : jstr := default [] (encodeURIComponent s).
Definition dag_hash (id : jstr) : jstr := lit "#/dag/" ++ enc id.
(** Of [showDag]: the runs tab has no segment of its own. *)
Definition show_dag_hash (id : jstr) (tab : option jstr) : jstr :=
  match tab with
  | Some tb => if truthy tb && negb (bool_decide (tb = lit "runs")) then dag_hash id ++ lit "/" ++ tb
               else dag_hash id
  | None => dag_hash id
  end.
Definition hash_of (r : route) : jstr :=
  match r with
  | RDags => lit "#/dags" | RNew => lit "#/new" | RPools => lit "#/pools"
  | RResources => lit "#/resources" | RGraph => lit "#/graph" | RAudit => lit "#/audit"
  | RWorkers => lit "#/workers" | RApi => lit "#/api"
  | RRun id => lit "#/run/" ++ enc id
  | RDag id tab => show_dag_hash id tab
  | RTask d k => dag_hash d ++ lit "/task/" ++ enc k
  end.

(** ** The session history *)

Record browser := Browser {
  past : list jstr;      (** the entries behind, nearest first *)
  here : jstr;           (** [location.hash] *)
  ahead : list jstr;     (** the entries in front, nearest first *)
  suppressHash : bool;
  queued : bool;         (** a [hashchange] of [setHash] is not delivered yet *)
}.

(** [None]: a second [hashchange] is queued before the first is delivered. *)
Definition setHash (h : jstr) (replace : bool) (b : browser) : option browser :=
  if bool_decide (here b = h) then Some b
  else if replace then Some (Browser (past b) h (ahead b) (suppressHash b) (queued b))
  else if queued b then None
  else Some (Browser (here b :: past b) h [] true true).

(** Delivery of the queued event: [None] when it is not suppressed, so that the
    route would be applied again. *)
Definition deliver (b : browser) : option browser :=
  if queued b then
    if suppressHash b then Some (Browser (past b) (here b) (ahead b) false false) else None
  else Some b.

Definition go_to (h : jstr) (b : browser) : option browser :=
  match setHash h false b with Some b' => deliver b' | None => None end.

Section site.
(** What the server has: the number of tasks of a workflow that can be opened, its
    tasks, and whether the user is a viewer. *)
Context (load : jstr -> option nat) (has_task : jstr -> jstr -> bool) (viewer : bool).

(** The tab [showDag] opens. *)
Definition tab_of (tab : option jstr) (ntasks : nat) : jstr :=
  match tab with
  | Some t =>
    if bool_decide (t = lit "structure") || bool_decide (t = lit "settings") then t
    else if bool_decide (t = lit "runs") then t
    else if Nat.ltb 0 ntasks then lit "runs" else lit "structure"
  | None => if Nat.ltb 0 ntasks then lit "runs" else lit "structure"
  end.

(** [setDagHash]: the address mirrors the tab, without a new entry. *)
Definition setDagHash (id tab : jstr) (b : browser) : option browser :=
  setHash (show_dag_hash id (Some tab)) true b.

Definition showDag (id : jstr) (tab : option jstr) (b : browser) : option browser :=
  match go_to (show_dag_hash id tab) b with
  | None => None
  | Some b1 => match load id with
               | None => Some b1
               | Some n => setDagHash id (tab_of tab n) b1
               end
  end.

(** [applyRoute] *)
Definition open_route (r : route) (b : browser) : option browser :=
  match r with
  | RDag id tab => showDag id tab b
  | RTask d k =>
    match showDag d None b with
    | None => None
    | Some b1 => match load d with
                 | Some _ => if has_task d k then go_to (hash_of (RTask d k)) b1 else Some b1
                 | None => Some b1
                 end
    end
  | RNew => go_to (hash_of (if viewer then RDags else RNew)) b
  | _ => go_to (hash_of r) b
  end.

Inductive outcome := Stays (b : browser) | Leaves | Outside.

(** A hash that does not decode rejects the promise of the handler: nothing is
    drawn. [Outside]: a case the model excludes. *)
Definition applyRoute (b : browser) : outcome :=
  match parse_hash (here b) with
  | None => Stays b
  | Some r => match open_route r b with Some b' => Stays b' | None => Outside end
  end.

(** A click that opens a page: the task page is opened from its workflow's page. *)
Definition visit (r : route) (b : browser) : option browser :=
  match r with RTask _ _ => go_to (hash_of r) b | _ => open_route r b end.

(** The Back button: the [hashchange] of a traversal is not suppressed. *)
Definition back (b : browser) : outcome :=
  match past b with
  | [] => Leaves
  | h :: p =>
    applyRoute (Browser p h (here b :: ahead b) false false)
  end.

Fixpoint backs (n : nat) (b : browser) : outcome :=
  match n with
  | O => Stays b
  | S n' => match back b with Stays b' => backs n' b' | o => o end
  end.
End site.

(** ** Decoding what was encoded *)

Definition ascii (s : jstr) : Prop := Forall (fun c => (c < 128)%N) s.
(** Ids as the server accepts them. *)
Definition id_ok (s : jstr) : Prop := ascii s /\ s <> [].

Lemma hex_roundtrip n : (n < 16)%N -> hex_value (hex_digit n) = Some n.
Proof.
  unfold hex_value, hex_digit. intros H. destruct (N.ltb_spec n 10).
  - assert ((48 <=? 48 + n)%N && (48 + n <=? 57)%N = true) as ->.
    { apply andb_true_iff; split; apply N.leb_le; lia. } f_equal; lia.
  - assert ((48 <=? 55 + n)%N && (55 + n <=? 57)%N = false) as ->.
    { apply andb_false_iff; right; apply N.leb_gt; lia. }
    assert ((65 <=? 55 + n)%N && (55 + n <=? 70)%N = true) as ->.
    { apply andb_true_iff; split; apply N.leb_le; lia. } f_equal; lia.
Qed.

Lemma take_pct_app b r : (b < 256)%N -> take_pct (pct b ++ r) = Some (b, r).
Proof.
  intros Hb. unfold pct. simpl. rewrite !hex_roundtrip.
  - do 2 f_equal. symmetry. apply N.div_mod. lia.
  - by apply N.mod_lt.
  - apply N.Div0.div_lt_upper_bound. lia.
Qed.

Lemma unreserved_not_pct c : unreserved c = true -> (c =? ch "%")%N = false.
Proof. intros H. apply N.eqb_neq. intros ->. by vm_compute in H. Qed.

Definition enc_char (c : N) : jstr := if unreserved c then [c] else pct c.

Lemma enc_char_plain c : unreserved c = true -> enc_char c = [c].
Proof. unfold enc_char. by intros ->. Qed.
Lemma enc_char_pct c : unreserved c = false -> enc_char c = pct c.
Proof. unfold enc_char. by intros ->. Qed.

Lemma encode_ascii s : ascii s -> encodeURIComponent s = Some (List.flat_map enc_char s).
Proof.
  induction 1 as [|c s Hc Hs IH]; [done|].
  cbn [encodeURIComponent List.flat_map]. unfold enc_char at 1. rewrite IH.
  destruct (unreserved c); [done|].
  assert ((55296 <=? c)%N = false) as -> by (apply N.leb_gt; lia).
  assert ((56320 <=? c)%N = false) as -> by (apply N.leb_gt; lia). cbn [andb].
  unfold utf8. assert ((c <? 128)%N = true) as -> by (by apply N.ltb_lt). cbn [List.flat_map].
  by rewrite app_nil_r.
Qed.

Lemma decode_encode_ascii s fuel : ascii s -> length (List.flat_map enc_char s) <= fuel ->
  decode_fuel fuel (List.flat_map enc_char s) = Some s.
Proof.
  intros Hs. revert fuel. induction Hs as [|c s Hc Hs IH]; intros fuel Hl; [by destruct fuel|].
  cbn [List.flat_map] in *. rewrite length_app in Hl. destruct (unreserved c) eqn:Eu.
  - rewrite (enc_char_plain c Eu) in *. simpl in Hl. destruct fuel as [|fuel]; [lia|]. cbn [app decode_fuel].
    rewrite unreserved_not_pct by done. by rewrite IH by lia.
  - rewrite (enc_char_pct c Eu) in *. simpl in Hl. destruct fuel as [|fuel]; [lia|].
    cbn [decode_fuel]. rewrite take_pct_app by lia.
    unfold lead. assert ((c <? 128)%N = true) as E by (by apply N.ltb_lt). rewrite E.
    cbn [take_conts]. unfold units. rewrite (proj2 (N.ltb_ge c 0)) by lia.
    assert ((55296 <=? c)%N = false) as -> by (apply N.leb_gt; lia). cbn [andb].
    assert ((c <? 65536)%N = true) as -> by (apply N.ltb_lt; lia).
    by rewrite IH by lia.
Qed.

Lemma enc_ascii s : ascii s -> enc s = List.flat_map enc_char s.
Proof. intros H. unfold enc. by rewrite encode_ascii. Qed.
Lemma decode_enc s : ascii s -> decodeURIComponent (enc s) = Some s.
Proof. intros H. rewrite enc_ascii by done. unfold decodeURIComponent. by apply decode_encode_ascii. Qed.

Lemma hex_digit_not_slash n : hex_digit n <> ch "/".
Proof. unfold hex_digit. destruct (N.ltb_spec n 10); lia. Qed.
Lemma enc_no_slash s : ascii s -> ch "/" ∉ enc s.
Proof.
  intros H. rewrite enc_ascii by done. rewrite list_elem_of_In. intros (c & _ & Hc)%in_flat_map.
  destruct (unreserved c) eqn:E.
  - rewrite enc_char_plain in Hc by done. destruct Hc as [->|[]]. by vm_compute in E.
  - rewrite enc_char_pct in Hc by done. destruct Hc as [Hc|[Hc|[Hc|[]]]]; [done|..];
      by apply hex_digit_not_slash in Hc.
Qed.

(** A hash of non-empty segments splits into them. *)
Lemma segments_join (parts : list jstr) :
  parts <> [] -> Forall id_ok parts ->
  segments (lit "#/" ++ join [ch "/"] (enc <$> parts)) = Some parts.
Proof.
  intros Hn Hp. unfold segments. set (h := join _ _).
  change (strip_prefix (lit "#") (lit "#/" ++ h)) with (Some ([ch "/"] ++ h)).
  cbv beta iota. change (lit "/") with [ch "/"]. rewrite strip_prefix_app.
  cbn [from_option]. unfold id, h.
  rewrite split_join.
  - rewrite mapM_fmap_Forall_Some.
    + cbn [fmap option_fmap option_map]. f_equal. apply filter_all.
      eapply Forall_impl; [exact Hp|]. by intros [|? ?] [_ ?].
    + eapply Forall_impl; [exact Hp|]. intros x [? _]. by apply decode_enc.
  - by destruct parts.
  - apply Forall_fmap. eapply Forall_impl; [exact Hp|]. intros x [? _]. by apply enc_no_slash.
Qed.

(** ** Every page's address reopens it *)

(** The tabs of the workflow page that have an
    address of their own. *)
Definition route_ok (r : route) : Prop :=
  match r with
  | RRun id => id_ok id
  | RDag id None => id_ok id
  | RDag id (Some tab) => id_ok id /\ (tab = lit "structure" \/ tab = lit "settings")
  | RTask d k => id_ok d /\ id_ok k
  | _ => True
  end.

Definition parts_of (r : route) : list jstr :=
  match r with
  | RDags => [lit "dags"] | RNew => [lit "new"] | RPools => [lit "pools"]
  | RResources => [lit "resources"] | RGraph => [lit "graph"] | RAudit => [lit "audit"]
  | RWorkers => [lit "workers"] | RApi => [lit "api"]
  | RRun id => [lit "run"; id]
  | RDag id None => [lit "dag"; id]
  | RDag id (Some tab) => [lit "dag"; id; tab]
  | RTask d k => [lit "dag"; d; lit "task"; k]
  end.

Lemma enc_words :
  enc (lit "dag") = lit "dag" /\ enc (lit "run") = lit "run" /\ enc (lit "task") = lit "task" /\
  enc (lit "structure") = lit "structure" /\ enc (lit "settings") = lit "settings".
Proof. by vm_compute. Qed.

Lemma hash_parts r : route_ok r -> hash_of r = lit "#/" ++ join [ch "/"] (enc <$> parts_of r).
Proof.
  destruct enc_words as (Ed & Er & Et & Es & Eg).
  intros H. destruct r as [| | | | | | | |id|id [tab|]|d k]; [vm_compute; reflexivity..| | | |];
    unfold parts_of; rewrite ?fmap_cons, ?fmap_nil, ?Ed, ?Er, ?Et.
  - reflexivity.
  - unfold hash_of, show_dag_hash, dag_hash.
    destruct H as [_ [-> | ->]]; [rewrite Es|rewrite Eg]; simpl; by rewrite <- ?app_assoc.
  - reflexivity.
  - unfold hash_of, dag_hash. simpl. by rewrite <- ?app_assoc.
Qed.

Lemma word_ok s : forallb (fun c => c <? 128)%N s && truthy s = true -> id_ok s.
Proof.
  intros [H Ht]%andb_true_iff. split; [|by apply truthy_true].
  apply Forall_forall. intros c Hc%list_elem_of_In. rewrite forallb_forall in H. by apply N.ltb_lt, H.
Qed.

Lemma parts_ok r : route_ok r -> Forall id_ok (parts_of r).
Proof.
  intros H.
  assert (W : forall w l, forallb (fun c => c <? 128)%N w && truthy w = true ->
            Forall id_ok l -> Forall id_ok (w :: l)).
  { intros w l Hw Hl. constructor; [by apply word_ok|done]. }
  assert (V : forall w l, id_ok w -> Forall id_ok l -> Forall id_ok (w :: l)) by by constructor.
  destruct r as [| | | | | | | |id|id [tab|]|d k]; simpl in H |- *; apply W; try done; auto.
  - destruct H as [Hid Ht]. apply V; [done|]. apply W; [by destruct Ht as [-> | ->]|done].
  - destruct H. auto.
Qed.

Lemma parse_hash_of r : route_ok r -> parse_hash (hash_of r) = Some r.
Proof.
  intros H. unfold parse_hash. rewrite hash_parts, segments_join
    by first [by apply parts_ok | by destruct r as [| | | | | | | | |? []|]].
  cbn [fmap option_fmap option_map]. f_equal.
  destruct r as [| | | | | | | |id|id [tab|]|d k]; try reflexivity.
Qed.

(** C28 The address each page shows reopens that page: [applyRoute] on the hash of a
    route, with identifiers percent-encoded, yields the route. *)
Theorem routes_reopen r : route_ok r -> parse_hash (hash_of r) = Some r.
Proof. apply parse_hash_of. Qed.

Lemma routes_reopen_witness :
  route_ok (RTask (lit "etl daily/1") (lit "a%b")) /\
  hash_of (RTask (lit "etl daily/1") (lit "a%b")) = lit "#/dag/etl%20daily%2F1/task/a%25b" /\
  parse_hash (hash_of (RTask (lit "etl daily/1") (lit "a%b"))) = Some (RTask (lit "etl daily/1") (lit "a%b")).
Proof.
  assert (H : route_ok (RTask (lit "etl daily/1") (lit "a%b"))).
  { split; (split; [repeat constructor|discriminate]). }
  split; [exact H|]. split; [vm_compute; reflexivity|]. exact (routes_reopen _ H).
Defined.

(** ** Opening pages and going back *)

(** Nothing is undelivered and no event will be swallowed. *)
Definition steady (b : browser) : Prop := queued b = false /\ suppressHash b = false.
Definition at_hash (p : list jstr) (h : jstr) (a : list jstr) : browser := Browser p h a false false.

Lemma steady_at b : steady b -> b = at_hash (past b) (here b) (ahead b).
Proof. destruct b; intros [? ?]; simpl in *; by subst. Qed.

Lemma go_to_same h p a : go_to h (at_hash p h a) = Some (at_hash p h a).
Proof. unfold go_to, setHash. simpl. by rewrite bool_decide_eq_true_2. Qed.
Lemma go_to_new h h' p a : h <> h' -> go_to h' (at_hash p h a) = Some (at_hash (h :: p) h' []).
Proof. intros H. unfold go_to, setHash. simpl. by rewrite bool_decide_eq_false_2. Qed.
Lemma setHash_replace h h' p a : setHash h' true (at_hash p h a) = Some (at_hash p h' a).
Proof. unfold setHash. simpl. case_bool_decide; by subst. Qed.

Lemma go_to_at h h' p a : exists p' a', go_to h' (at_hash p h a) = Some (at_hash p' h' a')
  /\ (p' = p \/ p' = h :: p) /\ (h = h' -> p' = p /\ a' = a).
Proof.
  destruct (decide (h = h')) as [->|Hn].
  - rewrite go_to_same. by exists p, a; auto.
  - rewrite go_to_new by done. exists (h :: p), []. split_and!; [done|by right|done].
Qed.

Section nav.
Context (load : jstr -> option nat) (has_task : jstr -> jstr -> bool) (viewer : bool).

(** The address the page of a route ends with. *)
Definition final_hash (r : route) : jstr :=
  match r with
  | RDag id tab => match load id with
                   | Some n => show_dag_hash id (Some (tab_of tab n))
                   | None => show_dag_hash id tab
                   end
  | RNew => hash_of (if viewer then RDags else RNew)
  | _ => hash_of r
  end.

Lemma showDag_at id tab h p a : exists p' a',
  showDag load id tab (at_hash p h a) = Some (at_hash p' (final_hash (RDag id tab)) a') /\
  (p' = p \/ p' = h :: p) /\ (h = show_dag_hash id tab -> p' = p /\ a' = a).
Proof.
  unfold showDag. destruct (go_to_at h (show_dag_hash id tab) p a) as (p' & a' & -> & Hp & Hs).
  exists p', a'. split; [|done]. unfold final_hash. destruct (load id); [apply setHash_replace|done].
Qed.

Lemma visit_at r h p a : exists p' a',
  visit load has_task viewer r (at_hash p h a) = Some (at_hash p' (final_hash r) a') /\
  (p' = p \/ p' = h :: p).
Proof.
  assert (G : (exists id tab, r = RDag id tab) \/
    visit load has_task viewer r (at_hash p h a) = go_to (final_hash r) (at_hash p h a)).
  { destruct r; try (by right). left. by eexists _, _. }
  destruct G as [(id & tab & ->)| ->].
  - destruct (showDag_at id tab h p a) as (p' & a' & E & Hp & _). by exists p', a'.
  - destruct (go_to_at h (final_hash r) p a) as (p' & a' & E & Hp & _). by exists p', a'.
Qed.
End nav.

Section back.
Context (load : jstr -> option nat) (has_task : jstr -> jstr -> bool) (viewer : bool).

Definition back_from (b : browser) : outcome := back load has_task viewer b.

(** The routes whose page sets the address it was opened with. *)
Definition settled_route (r : route) : Prop :=
  match r with RTask _ _ => False | RNew => viewer = false | _ => True end.

Lemma open_same r p a : settled_route r -> route_ok r ->
  open_route load has_task viewer r (at_hash p (hash_of r) a)
  = Some (at_hash p (final_hash load viewer r) a).
Proof.
  intros Hs Hr. destruct r as [| | | | | | | |id|id tab|d k]; try apply go_to_same.
  - simpl. rewrite Hs. apply go_to_same.
  - destruct (showDag_at load viewer id tab (hash_of (RDag id tab)) p a) as (p' & a' & E & _ & Hp).
    destruct (Hp eq_refl) as [-> ->]. exact E.
  - done.
Qed.

(** Opening a page from a state at rest ends at rest, on the page's address, with
    at most one new history entry; and the Back button returns to the entry before
    and takes it off the history when that entry shows any page but a task's (or,
    for a viewer, the new-workflow page). *)
Theorem back_returns :
  (forall r b, steady b -> exists b', visit load has_task viewer r b = Some b' /\ steady b' /\
     here b' = final_hash load viewer r /\ (past b' = past b \/ past b' = here b :: past b)) /\
  (forall r b p, route_ok r -> settled_route r -> past b = hash_of r :: p ->
     exists b', back_from b = Stays b' /\ steady b' /\ past b' = p /\
       here b' = final_hash load viewer r /\ ahead b' = here b :: ahead b).
Proof.
  split.
  - intros r b Hb%steady_at. rewrite Hb.
    destruct (visit_at load has_task viewer r (here b) (past b) (ahead b)) as (p' & a' & -> & Hp).
    by eexists.
  - intros r b p Hr Hs Hp. unfold back_from, back. rewrite Hp. unfold applyRoute. cbn [here].
    rewrite parse_hash_of by done.
    change (Browser p (hash_of r) (here b :: ahead b) false false)
      with (at_hash p (hash_of r) (here b :: ahead b)).
    rewrite open_same by done. by eexists.
Qed.

(** Reopening a task's entry pushes its workflow's address and its own again. *)
Lemma reopen_task d k n p a :
  id_ok d -> id_ok k -> load d = Some (S n) -> has_task d k = true ->
  open_route load has_task viewer (RTask d k) (at_hash p (hash_of (RTask d k)) a)
  = Some (at_hash (dag_hash d :: hash_of (RTask d k) :: p) (hash_of (RTask d k)) []).
Proof.
  intros Hd Hk Hl Ht.
  assert (Hne : hash_of (RTask d k) <> dag_hash d).
  { unfold hash_of. intros E. apply (f_equal length) in E. rewrite length_app in E.
    unfold dag_hash in E. simpl in E. lia. }
  cbn [open_route]. unfold showDag. cbn [show_dag_hash]. rewrite go_to_new by done.
  unfold tab_of. rewrite Hl, Ht. cbn [Nat.ltb Nat.leb]. unfold setDagHash.
  change (show_dag_hash d (Some (lit "runs"))) with (dag_hash d). rewrite setHash_replace.
  by rewrite go_to_new by done.
Qed.

(** Back does not get past two kinds of entries. The entry without a hash, with
    which the console is opened, is pushed over again whenever it is reached, so
    Back leaves the history as it is; and a task's entry, once gone back to, keeps
    Back alternating between the workflow and the task for ever, the entries behind
    the task being out of reach. *)
Theorem back_trapped :
  (forall p, back_from (at_hash ([] :: p) (lit "#/dags") []) = Stays (at_hash ([] :: p) (lit "#/dags") [])) /\
  (forall d k n p b, id_ok d -> id_ok k -> load d = Some (S n) -> has_task d k = true ->
     past b = hash_of (RTask d k) :: p ->
     forall m, exists b', backs load has_task viewer (S m) b = Stays b' /\
       here b' = (if Nat.even m then hash_of (RTask d k) else dag_hash d) /\
       exists q, past b' = q ++ hash_of (RTask d k) :: p).
Proof.
  split.
  - intros p. reflexivity.
  - intros d k n p b Hd Hk Hl Ht Hp.
    assert (B1 : forall b, past b = hash_of (RTask d k) :: p ->
      back load has_task viewer b
      = Stays (at_hash (dag_hash d :: hash_of (RTask d k) :: p) (hash_of (RTask d k)) [])).
    { intros b0 E. unfold back, applyRoute. rewrite E. cbn [here]. rewrite parse_hash_of by done.
      change (Browser p (hash_of (RTask d k)) (here b0 :: ahead b0) false false)
        with (at_hash p (hash_of (RTask d k)) (here b0 :: ahead b0)).
      by rewrite (reopen_task d k n). }
    assert (B2 : back load has_task viewer
        (at_hash (dag_hash d :: hash_of (RTask d k) :: p) (hash_of (RTask d k)) [])
      = Stays (at_hash (hash_of (RTask d k) :: p) (dag_hash d) [hash_of (RTask d k)])).
    { unfold back, applyRoute, at_hash. cbn [past here ahead].
      rewrite (parse_hash_of (RDag d None) Hd : parse_hash (dag_hash d) = _).
      cbn [open_route].
      destruct (showDag_at load viewer d None (dag_hash d) (hash_of (RTask d k) :: p) [hash_of (RTask d k)])
        as (p' & a' & E & _ & Hs). destruct (Hs eq_refl) as [-> ->]. unfold at_hash in E.
      rewrite E. unfold final_hash. rewrite Hl. reflexivity. }
    intros m. revert b Hp. induction (lt_wf m) as [m _ IH]; intros b Hp. cbn [backs].
    rewrite (B1 b Hp). destruct m as [|[|m]].
    + eexists. split_and!; [done..|]. by exists [dag_hash d].
    + cbn [backs]. rewrite B2. eexists. split_and!; [done..|]. by exists [].
    + cbn [backs]. rewrite B2. 
      destruct (IH m ltac:(lia) (at_hash (hash_of (RTask d k) :: p) (dag_hash d) [hash_of (RTask d k)]) eq_refl)
        as (b' & E & Hh & Hq).
      exists b'. split_and!; [exact E|exact Hh|exact Hq].
Qed.
End back.
