(* ===== verification/Jump.v ===== *)
(** * The quick-jump menu of the top bar (base.js, boot.js)

    The menu under the search box: the matches of what is typed, the selected one,
    and the keys that move through them. Text is compared in lower case; workflow
    ids are ASCII, so the ASCII letters decide. *)

From S2P Require Import Prelude JsCore Format.

Definition toLowerCase (s : jstr) : jstr := map lower_ascii s.

(** [s.indexOf(p)] *)
Fixpoint indexOf (p s : jstr) : option nat :=
  if starts_with p s then Some 0
  else match s with [] => None | _ :: s' => S <$> indexOf p s' end.

(** The match of [q] in bold. *)
Definition hlMatch (id q : jstr) : jstr :=
  match indexOf q (toLowerCase id) with
  | None => esc id
  | Some i => esc (take i id) ++ lit "<b>" ++ esc (take (length q) (drop i id)) ++ lit "</b>"
              ++ esc (drop (i + length q) id)
  end.

(** ** The menu *)

Record jump := Jump {
  jumpDags : list jstr;
  jumpSel : Z;              (** -1: nothing selected *)
  menu_open : bool;
  items : list jstr;
}.
Definition jump_init : jump := Jump [] (-1) false [].

Definition closeJump (j : jump) : jump := Jump (jumpDags j) (-1) false [].

(** [ensureJumpDags]: the overview's ids when it is there, else the ids already
    known, else what the request returns ([None] when it fails). *)
Definition ensureJumpDags (overview fetched : option (list jstr)) (j : jump) : jump :=
  let dags := match overview with
              | Some ids => ids
              | None => match jumpDags j with
                        | [] => default [] fetched
                        | ids => ids
                        end
              end in
  Jump dags (jumpSel j) (menu_open j) (items j).

Definition matches (ids : list jstr) (q : jstr) : list jstr :=
  take 8 (List.filter (fun id => includes q (toLowerCase id)) ids).

Definition updateJump (overview : option (list jstr)) (raw : jstr) (j : jump) : jump :=
  let q := toLowerCase (trim raw) in
  let dags := default (jumpDags j) overview in
  if truthy q then
    match matches dags q with
    | [] => Jump dags (-1) true []
    | ms => Jump dags 0 true ms
    end
  else Jump dags (-1) false [].

Definition jumpMove (delta : Z) (j : jump) : jump :=
  if menu_open j then
    match items j with
    | [] => j
    | l => let n := Z.of_nat (length l) in
           Jump (jumpDags j) (Z.rem (jumpSel j + delta + n) n) true l
    end
  else j.

(** The entry Enter opens. *)
Definition jumpEnter (j : jump) : option jstr :=
  if menu_open j then
    if (0 <=? jumpSel j)%Z then items j !! Z.to_nat (jumpSel j) else None
  else None.

(** What happens to the menu. [JumpTo]: the entry under the mouse or of Enter. *)
Inductive jump_event :=
| Focus (overview fetched : option (list jstr)) (value : jstr)
| Input (overview : option (list jstr)) (value : jstr)
| Down | Up | Escape | Blur
| JumpTo (id : jstr).

Definition jump_step (e : jump_event) (j : jump) : jump :=
  match e with
  | Focus ov f v => let j1 := ensureJumpDags ov f j in if truthy v then updateJump ov v j1 else j1
  | Input ov v => updateJump ov v j
  | Down => jumpMove 1 j
  | Up => jumpMove (-1) j
  | Escape | Blur | JumpTo _ => closeJump j
  end.
Definition jump_run (es : list jump_event) (j : jump) : jump := foldl (fun j e => jump_step e j) j es.

(** ** The selection is always valid *)

Record jump_wf (j : jump) : Prop := {
  wf_len : length (items j) <= 8;
  wf_closed : menu_open j = false -> items j = [];
  wf_sel : match items j with [] => jumpSel j = (-1)%Z
           | l => (0 <= jumpSel j < Z.of_nat (length l))%Z end;
}.

Lemma closed_wf ds b : jump_wf (Jump ds (-1) b []).
Proof. split; simpl; [lia|done|done]. Qed.
#[export] Hint Resolve closed_wf : cronova.

Lemma matches_length ids q : length (matches ids q) <= 8.
Proof. unfold matches. rewrite length_take. lia. Qed.

Lemma updateJump_wf ov v j : jump_wf (updateJump ov v j).
Proof.
  unfold updateJump. destruct (truthy _); [|auto with cronova].
  destruct (matches _ _) as [|m ms] eqn:E; [auto with cronova|].
  split; simpl; [|done|lia].
  pose proof (matches_length (default (jumpDags j) ov) (toLowerCase (trim v))) as Hl. by rewrite E in Hl.
Qed.

Lemma rem_step sel d n : (0 <= sel < n)%Z -> (d = 1 \/ d = -1)%Z ->
  (Z.rem (Z.rem (sel + d + n) n + - d + n) n = sel)%Z.
Proof.
  intros Hs Hd. pose proof (Z.rem_bound_pos (sel + d + n) n ltac:(lia) ltac:(lia)).
  rewrite (Z.rem_mod_nonneg (_ + _ + n) n) by lia. rewrite Z.rem_mod_nonneg by lia.
  replace ((sel + d + n) mod n + - d + n)%Z with ((sel + d + n) mod n + (n - d))%Z by lia.
  rewrite Z.add_mod_idemp_l by lia. replace (sel + d + n + (n - d))%Z with (sel + 2 * n)%Z by lia.
  rewrite Z.mod_add by lia. by apply Z.mod_small.
Qed.

Lemma jumpMove_wf d j : (d = 1 \/ d = -1)%Z -> jump_wf j -> jump_wf (jumpMove d j).
Proof.
  intros Hd Hj. unfold jumpMove. destruct (menu_open j) eqn:Em; [|done].
  destruct (items j) as [|m ms] eqn:E; [done|]. destruct Hj as [Hl _ Hs]. rewrite E in Hl, Hs.
  split; simpl in *; [done|done|].
  pose proof (Z.rem_bound_pos (jumpSel j + d + Z.pos (Pos.of_succ_nat (length ms)))
                (Z.pos (Pos.of_succ_nat (length ms))) ltac:(lia) ltac:(lia)). lia.
Qed.

Lemma jump_step_wf e j : jump_wf j -> jump_wf (jump_step e j).
Proof.
  intros Hj. destruct e; simpl; unfold closeJump; auto using updateJump_wf, jumpMove_wf with cronova.
  case_match; [apply updateJump_wf|]. by destruct Hj; split.
Qed.

Lemma jump_run_wf es j : jump_wf j -> jump_wf (jump_run es j).
Proof. revert j. induction es as [|e es IH]; intros j Hj; [done|]. by apply IH, jump_step_wf. Qed.

Lemma matches_include ids q m : m ∈ matches ids q -> m ∈ ids /\ includes q (toLowerCase m) = true.
Proof.
  unfold matches. intros Hm. assert (Hf : m ∈ List.filter (fun id => includes q (toLowerCase id)) ids).
  { rewrite <- (take_drop 8 (List.filter _ ids)). apply elem_of_app. by left. }
  by rewrite list_elem_of_In, filter_In, <- list_elem_of_In in Hf.
Qed.

(** Whatever is typed and pressed, the menu has at most eight entries, none when
    it is closed, and the selection is one of them (or none when there is none);
    Enter opens an entry exactly when one is shown, and the arrows go round, each
    undoing the other; the entries are ids of workflows that contain the typed text. *)
Theorem jump_selection es :
  let j := jump_run es jump_init in
  jump_wf j /\
  (jumpEnter j = None <-> items j = []) /\
  (forall id, jumpEnter j = Some id -> id ∈ items j) /\
  jumpMove (-1) (jumpMove 1 j) = j /\ jumpMove 1 (jumpMove (-1) j) = j /\
  (forall ov v, Forall (fun m => includes (toLowerCase (trim v)) (toLowerCase m) = true
                                 /\ m ∈ default (jumpDags j) ov)
                  (items (updateJump ov v j))).
Proof.
  intros j. assert (Hj : jump_wf j) by (apply jump_run_wf, closed_wf). clearbody j.
  split; [done|]. destruct Hj as [Hl Hc Hs].
  assert (Hen : forall l, items j = l -> l <> [] -> menu_open j = true /\
            (0 <= jumpSel j < Z.of_nat (length l))%Z).
  { intros l <- Hne. split; [destruct (menu_open j); [done|by rewrite Hc in Hne]|].
    by destruct (items j). }
  split_and!.
  - unfold jumpEnter. destruct (items j) as [|m ms] eqn:E.
    + split; [done|]. intros _. rewrite lookup_nil. by repeat case_match.
    + destruct (Hen _ eq_refl) as [-> Hb]; [done|]. split; [|done].
      rewrite (proj2 (Z.leb_le 0 (jumpSel j))) by lia. intros Hn%lookup_ge_None. lia.
  - intros id Hid. unfold jumpEnter in Hid. repeat case_match; try done.
    by eapply list_elem_of_lookup_2.
  - destruct j as [ds sel op its]; simpl in *. unfold jumpMove; simpl.
    destruct op; [|done]. destruct its as [|m ms]; [done|]. cbn [jumpDags jumpSel menu_open items].
    f_equal. destruct (Hen _ eq_refl) as [_ Hb]; [done|]. apply (rem_step sel 1); [done|lia].
  - destruct j as [ds sel op its]; simpl in *. unfold jumpMove; simpl.
    destruct op; [|done]. destruct its as [|m ms]; [done|]. cbn [jumpDags jumpSel menu_open items].
    f_equal. destruct (Hen _ eq_refl) as [_ Hb]; [done|]. apply (rem_step sel (-1)); [done|lia].
  - intros ov v. apply Forall_forall. intros m Hm. unfold updateJump in Hm.
    destruct (truthy _); [|by apply elem_of_nil in Hm].
    destruct (matches _ _) eqn:E; [by apply elem_of_nil in Hm|]. simpl in Hm. rewrite <- E in Hm.
    apply matches_include in Hm. tauto.
Qed.
