(* ===== verification/RunView.v ===== *)
(** * The run page and its live poll (views.js): [showRun], [showRunNovice],
    [startRunPoll], [startNovRunPoll], [renderRunDynamic]

    A transition system: the user opens runs and leaves the page, the requests of
    [showRun] and of the polls are answered, the interval timers fire, in any
    order. The page is what is on screen: the run whose shell [showRun] drew and
    the data last patched into it. *)

From S2P Require Import Prelude JsCore.

(** ** Run data *)

Record ti := Ti { ti_id : jstr; ti_task : jstr; ti_state : jstr }.
Record rdata := RData { rd_run : jstr; rd_state : jstr; rd_tasks : list ti }.

#[export] Instance ti_eq_dec : EqDecision ti.
Proof. solve_decision. Defined.
#[export] Instance rdata_eq_dec : EqDecision rdata.
Proof. solve_decision. Defined.

Definition runLive (s : jstr) : bool := bool_decide (s = lit "queued") || bool_decide (s = lit "running").

(** ** State *)

(** One [setInterval] callback: the run, the generation it was started with, and
    whether it announces the end (the expert page does). *)
Record poll := Poll { p_id : nat; p_run : jstr; p_gen : nat; p_toast : bool }.
(** A [showRun] whose data has not arrived. *)
Record opening := Opening { o_run : jstr; o_gen : nat; o_toast : bool }.

Inductive screen :=
| OtherPage
| RunError
| RunPage (shell : jstr) (novice : bool) (data : rdata).

Record runview := RV {
  on_run : bool;              (** [view === "run"] *)
  currentRun : jstr;
  runPollGen : nat;
  runPoll : option nat;       (** the variable: the id of an interval *)
  next_id : nat;
  timers : list poll;         (** the intervals that will fire *)
  opens : list opening;
  polls : list poll;          (** poll requests without an answer *)
  screen_of : screen;
  toasts : list jstr;         (** the end states announced, newest first *)
}.
Definition rv_init : runview := RV false [] 0 None 0 [] [] [] OtherPage [].

Definition clear_interval (i : nat) (s : runview) : runview :=
  RV (on_run s) (currentRun s) (runPollGen s) (runPoll s) (next_id s)
     (filter (fun p => p_id p <> i) (timers s)) (opens s) (polls s) (screen_of s) (toasts s).
Definition draw (sc : screen) (s : runview) : runview :=
  RV (on_run s) (currentRun s) (runPollGen s) (runPoll s) (next_id s) (timers s) (opens s) (polls s)
     sc (toasts s).
Definition with_opens (l : list opening) (s : runview) : runview :=
  RV (on_run s) (currentRun s) (runPollGen s) (runPoll s) (next_id s) (timers s) l (polls s)
     (screen_of s) (toasts s).
Definition with_polls (l : list poll) (s : runview) : runview :=
  RV (on_run s) (currentRun s) (runPollGen s) (runPoll s) (next_id s) (timers s) (opens s) l
     (screen_of s) (toasts s).
Definition announce (st : jstr) (s : runview) : runview :=
  RV (on_run s) (currentRun s) (runPollGen s) (runPoll s) (next_id s) (timers s) (opens s) (polls s)
     (screen_of s) (st :: toasts s).

(** ** Handlers *)

(** [showRun] up to its request; [novice] is the mode. *)
Definition showRun (novice : bool) (run : jstr) (s : runview) : runview :=
  let s1 := match runPoll s with Some i => clear_interval i s | None => s end in
  let gen := S (runPollGen s) in
  RV true run gen (runPoll s) (next_id s) (timers s1) (Opening run gen (negb novice) :: opens s)
     (polls s) (screen_of s) (toasts s).

(** [startRunPoll] *)
Definition startRunPoll (o : opening) (s : runview) : runview :=
  RV (on_run s) (currentRun s) (runPollGen s) (Some (next_id s)) (S (next_id s))
     (Poll (next_id s) (o_run o) (o_gen o) (o_toast o) :: timers s) (opens s) (polls s)
     (screen_of s) (toasts s).

(** The rest of [showRun]: the page is drawn whatever has happened since. *)
Definition opened (o : opening) (answer : option rdata) (s : runview) : runview :=
  match answer with
  | None => draw RunError s
  | Some d =>
    let s1 := draw (RunPage (o_run o) (negb (o_toast o)) d) s in
    if runLive (rd_state d) then startRunPoll o s1 else s1
  end.

(** [gen !== runPollGen || view !== "run" || currentRun !== runID], negated *)
Definition current (p : poll) (s : runview) : bool :=
  bool_decide (p_gen p = runPollGen s) && on_run s && bool_decide (currentRun s = p_run p).

Definition tick (p : poll) (s : runview) : runview :=
  if current p s then with_polls (p :: polls s) s else clear_interval (p_id p) s.

(** [renderRunDynamic] and [renderNovRun] patch the page they find. On a page without
    their elements the first throws ([None]) and the second does nothing. *)
Definition patch (expert : bool) (d : rdata) (s : runview) : option runview :=
  match screen_of s with
  | RunPage r n _ => if Bool.eqb n (negb expert) then Some (draw (RunPage r n d) s)
                     else if expert then None else Some s
  | _ => if expert then None else Some s
  end.

Definition poll_reply (p : poll) (answer : option rdata) (s : runview) : runview :=
  match answer with
  | None => s
  | Some d =>
    if current p s then
      match patch (p_toast p) d s with
      | None => s
      | Some s1 =>
        if runLive (rd_state d) then s1
        else let s2 := clear_interval (p_id p) s1 in
             if p_toast p then announce (rd_state d) s2 else s2
      end
    else clear_interval (p_id p) s
  end.

(** ** Events *)

Inductive rv_event :=
| Show (novice : bool) (run : jstr)
| Leave                                   (** another page's [view = ...] *)
| Drawn                                   (** and its [main.innerHTML = ...] *)
| Opened (n : nat) (answer : option rdata) (** the [n]-th open [showRun] gets its data *)
| Tick (n : nat)                          (** the [n]-th interval fires *)
| PollReply (n : nat) (answer : option rdata).

(** [None]: the event cannot happen. *)
Definition rv_step (e : rv_event) (s : runview) : option runview :=
  match e with
  | Show nv r => Some (showRun nv r s)
  | Leave => Some (RV false (currentRun s) (runPollGen s) (runPoll s) (next_id s) (timers s) (opens s)
                      (polls s) (screen_of s) (toasts s))
  | Drawn => if on_run s then None else Some (draw OtherPage s)
  | Opened n a =>
    match opens s !! n with
    | Some o => Some (opened o a (with_opens (delete n (opens s)) s))
    | None => None
    end
  | Tick n => match timers s !! n with Some p => Some (tick p s) | None => None end
  | PollReply n a =>
    match polls s !! n with
    | Some p => Some (poll_reply p a (with_polls (delete n (polls s)) s))
    | None => None
    end
  end.
Fixpoint rv_run (es : list rv_event) (s : runview) : option runview :=
  match es with
  | [] => Some s
  | e :: es' => match rv_step e s with Some s' => rv_run es' s' | None => None end
  end.

(** ** The invariant *)

Definition gens (s : runview) : list nat := (o_gen <$> opens s) ++ (p_gen <$> timers s).

Record rv_inv (s : runview) : Prop := {
  ri_gens : NoDup (gens s);
  ri_le : Forall (fun g => g <= runPollGen s) (gens s);
  ri_ids : NoDup (p_id <$> timers s);
  ri_next : Forall (fun p => p_id p < next_id s) (timers s);
  ri_run : Forall (fun o => o_gen o = runPollGen s -> o_run o = currentRun s) (opens s)
           /\ Forall (fun p => p_gen p = runPollGen s -> p_run p = currentRun s) (timers s ++ polls s);
  ri_polls : Forall (fun p => p_gen p <= runPollGen s) (polls s);
}.

Lemma rv_init_inv : rv_inv rv_init.
Proof. by split; repeat constructor. Qed.

(** Dropping an interval keeps the invariant. *)
Lemma gens_sublist os os' ts ts' :
  sublist os' os -> sublist ts' ts -> sublist ((o_gen <$> os') ++ (p_gen <$> ts')) ((o_gen <$> os) ++ (p_gen <$> ts)).
Proof. intros. apply sublist_app; by apply fmap_sublist. Qed.

Lemma rv_inv_shrink s os ts ps sc to :
  rv_inv s -> sublist os (opens s) -> sublist ts (timers s) -> ps ⊆ polls s ++ timers s ->
  rv_inv (RV (on_run s) (currentRun s) (runPollGen s) (runPoll s) (next_id s) ts os ps sc to).
Proof.
  intros [G L I N [O P] Q] Ho Ht Hp. pose proof (gens_sublist _ _ _ _ Ho Ht) as Hg.
  assert (Hsub : forall {A} (P : A -> Prop) (l k : list A), sublist l k -> Forall P k -> Forall P l).
  { intros A P' l k Hl. induction Hl; [done|..]; inversion 1; subst; auto. }
  unfold gens in *.
  assert (Lt : Forall (fun p => p_gen p <= runPollGen s) (timers s)).
  { apply Forall_app in L as [_ L]. by apply Forall_fmap in L. }
  split; unfold gens; simpl.
  - eapply sublist_NoDup; [exact G|]. done.
  - by eapply Hsub.
  - eapply sublist_NoDup; [exact I|]. by apply fmap_sublist.
  - by eapply Hsub.
  - split; [by eapply Hsub|]. rewrite Forall_app in P. destruct P as [P1 P2]. apply Forall_app. split; [by eapply Hsub|].
    rewrite Forall_forall in *. intros x Hx. specialize (Hp _ Hx). apply elem_of_app in Hp as [?|?]; auto.
  - rewrite Forall_forall in *. intros x Hx. specialize (Hp _ Hx). apply elem_of_app in Hp as [?|?]; auto.
Qed.

Lemma delete_sublist {A} n (l : list A) : sublist (delete n l) l.
Proof. apply sublist_delete. Qed.

Lemma showRun_inv nv r s : rv_inv s -> rv_inv (showRun nv r s).
Proof.
  intros H.
  assert (H1 : rv_inv match runPoll s with Some i => clear_interval i s | None => s end).
  { destruct (runPoll s); [|done]. apply rv_inv_shrink; [done|done|apply sublist_filter|set_solver]. }
  assert (E : opens match runPoll s with Some i => clear_interval i s | None => s end = opens s
           /\ runPollGen match runPoll s with Some i => clear_interval i s | None => s end = runPollGen s
           /\ polls match runPoll s with Some i => clear_interval i s | None => s end = polls s
           /\ next_id match runPoll s with Some i => clear_interval i s | None => s end = next_id s)
    by by destruct (runPoll s).
  unfold showRun. set (s1 := match runPoll s with Some i => clear_interval i s | None => s end) in *.
  destruct E as (E1 & E2 & E3 & E4). clearbody s1. destruct H1 as [G L I N [O P] Q].
  unfold gens in *. rewrite E1, E2, E3, E4 in *.
  assert (Lo : Forall (fun o => o_gen o <= runPollGen s) (opens s) /\ Forall (fun p => p_gen p <= runPollGen s) (timers s1)).
  { apply Forall_app in L as [L1 L2]. rewrite Forall_fmap in L1. by rewrite Forall_fmap in L2. }
  destruct Lo as [Lo Lt].
  split; unfold gens; simpl.
  - constructor; [|done]. intros Hin. rewrite Forall_forall in L. specialize (L _ Hin). lia.
  - constructor; [done|]. eapply Forall_impl; [exact L|]. simpl. lia.
  - done.
  - done.
  - split; [constructor; [done|]|].
    + eapply Forall_impl; [exact Lo|]. simpl. lia.
    + apply Forall_app. split; (eapply Forall_impl; [first [exact Lt|exact Q]|]); simpl; lia.
  - eapply Forall_impl; [exact Q|]. simpl. lia.
Qed.

Lemma draw_inv sc s : rv_inv s -> rv_inv (draw sc s).
Proof. by intros [? ? ? ? ? ?]; split. Qed.
Lemma announce_inv st s : rv_inv s -> rv_inv (announce st s).
Proof. by intros [? ? ? ? ? ?]; split. Qed.
Lemma clear_inv i s : rv_inv s -> rv_inv (clear_interval i s).
Proof. intros H. apply rv_inv_shrink; [done|done|apply sublist_filter|set_solver]. Qed.
#[export] Hint Resolve draw_inv announce_inv clear_inv : cronova.

Lemma patch_inv x d s s' : rv_inv s -> patch x d s = Some s' -> rv_inv s'.
Proof. intros H. unfold patch. repeat case_match; intros; simplify_eq; auto with cronova. Qed.

Lemma opened_inv n o a s : rv_inv s -> opens s !! n = Some o ->
  rv_inv (opened o a (with_opens (delete n (opens s)) s)).
Proof.
  intros H Hn. assert (H1 : rv_inv (with_opens (delete n (opens s)) s)).
  { apply rv_inv_shrink; [done|apply sublist_delete|done|set_solver]. }
  unfold opened. destruct a as [d|]; [|by apply draw_inv]. case_match; [|by apply draw_inv].
  destruct H as [G L I N [O P] Q]. destruct H1 as [G1 L1 I1 N1 [O1 P1] Q1].
  unfold gens in *; simpl in *.
  assert (Ho : o ∈ opens s) by by eapply list_elem_of_lookup_2.
  assert (Hsplit : Permutation ((o_gen <$> opens s) ++ (p_gen <$> timers s))
                     (o_gen o :: (o_gen <$> delete n (opens s)) ++ (p_gen <$> timers s))).
  { rewrite app_comm_cons. f_equiv. change (o_gen o :: (o_gen <$> delete n (opens s)))
      with (o_gen <$> (o :: delete n (opens s))). f_equiv. by apply delete_Permutation. }
  assert (Hmid : Permutation (o_gen o :: (o_gen <$> delete n (opens s)) ++ (p_gen <$> timers s))
                   ((o_gen <$> delete n (opens s)) ++ o_gen o :: (p_gen <$> timers s))).
  { apply Permutation_middle. }
  split; unfold gens; simpl.
  - by rewrite <- Hmid, <- Hsplit.
  - by rewrite <- Hmid, <- Hsplit.
  - constructor; [|done]. intros (p & Hp & Hin)%list_elem_of_fmap. rewrite Forall_forall in N.
    specialize (N _ Hin). lia.
  - constructor; [simpl; lia|]. eapply Forall_impl; [exact N|]. simpl; lia.
  - split; [done|]. constructor; [|done]. simpl. rewrite Forall_forall in O. auto.
  - done.
Qed.

Lemma with_polls_inv l s : rv_inv s -> l ⊆ polls s ++ timers s -> rv_inv (with_polls l s).
Proof. intros H Hl. by apply rv_inv_shrink. Qed.

Lemma poll_reply_inv p a s : rv_inv s -> rv_inv (poll_reply p a s).
Proof.
  intros H. unfold poll_reply. destruct a as [d|]; [|done].
  destruct (current p s); [|by apply clear_inv].
  destruct (patch _ d s) as [s1|] eqn:E; [|done]. pose proof (patch_inv _ _ _ _ H E).
  destruct (runLive _), (p_toast p); auto with cronova.
Qed.

Lemma rv_step_inv e s s' : rv_inv s -> rv_step e s = Some s' -> rv_inv s'.
Proof.
  intros H E. destruct e as [nv r| | |n a|n|n a]; simpl in E.
  - injection E as <-. by apply showRun_inv.
  - injection E as <-. by destruct H as [? ? ? ? ? ?]; split.
  - destruct (on_run s); [done|]. injection E as <-. by apply draw_inv.
  - destruct (opens s !! n) as [o|] eqn:En; [|done]. injection E as <-. by apply opened_inv.
  - destruct (timers s !! n) as [p|] eqn:En; [|done]. injection E as <-. unfold tick.
    destruct (current p s); [|by apply clear_inv]. apply with_polls_inv; [done|].
    apply list_elem_of_lookup_2 in En. set_solver.
  - destruct (polls s !! n) as [p|] eqn:En; [|done]. injection E as <-. apply poll_reply_inv.
    apply with_polls_inv; [done|]. intros x Hx. apply elem_of_app. left.
    rewrite (delete_Permutation _ _ _ En). by right.
Qed.

Lemma rv_run_inv es s s' : rv_inv s -> rv_run es s = Some s' -> rv_inv s'.
Proof.
  revert s. induction es as [|e es IH]; intros s H E; simpl in E; [by simplify_eq|].
  destruct (rv_step e s) as [s1|] eqn:E1; [|done]. eapply IH; [|done]. by eapply rv_step_inv.
Qed.

(** ** What the polls do *)

Lemma current_run p s : current p s = true -> p_gen p = runPollGen s /\ on_run s = true /\ currentRun s = p_run p.
Proof. unfold current. intros H. by bool_props. Qed.

Lemma same_gen_timer s p q : rv_inv s -> p ∈ timers s -> q ∈ timers s -> p_gen p = p_gen q -> p = q.
Proof.
  intros [G _ _ _ _ _] Hp Hq E. unfold gens in G. apply NoDup_app in G as (_ & _ & G).
  apply list_elem_of_lookup in Hp as [i Hi], Hq as [j Hj].
  assert (Hij : i = j).
  { eapply NoDup_lookup; [exact G|..]; rewrite list_lookup_fmap; [by rewrite Hi|by rewrite Hj, E]. }
  subst. by rewrite Hi in Hj; simplify_eq.
Qed.


Definition live_data (r : jstr) : rdata := RData r (lit "running") [Ti (lit "7") (lit "extract") (lit "running")].
Definition done_data (r : jstr) : rdata := RData r (lit "success") [Ti (lit "7") (lit "extract") (lit "success")].

Definition watch : list rv_event :=
  [Show false (lit "r1"); Opened 0 (Some (live_data (lit "r1"))); Tick 0; PollReply 0 (Some (done_data (lit "r1")))].


(** Every interval fires once. *)
Definition all_tick (s : runview) : runview := foldr tick s (timers s).

Lemma tick_left p s : on_run s = false -> tick p s = clear_interval (p_id p) s.
Proof. intros H. unfold tick, current. by rewrite H, andb_false_r. Qed.

(** Leaving the run page stops the polling: whatever was running, once every
    interval has fired no interval is left and no request was made, and no event but
    opening a run, or the answer to one opened before, starts one again. *)
Theorem leaving_stops_polls es s :
  rv_run es rv_init = Some s -> on_run s = false ->
  timers (all_tick s) = [] /\ polls (all_tick s) = polls s /\
  (forall e s', rv_step e s = Some s' -> (forall nv r, e <> Show nv r) -> (forall n a, e <> Opened n a) ->
     on_run s' = false /\ (timers s' ⊆ timers s) /\ (polls s' ⊆ polls s)).
Proof.
  intros _ Hoff. split_and!.
  - unfold all_tick. enough (G : forall l, let s1 := foldr tick s l in
      on_run s1 = false /\ forall p, p ∈ timers s1 -> p ∈ timers s /\ p_id p ∉ p_id <$> l).
    { destruct (G (timers s)) as [_ G1].
      destruct (timers (foldr tick s (timers s))) as [|p l] eqn:E; [done|].
      destruct (G1 p) as [Hp Hn]; [by left|]. destruct Hn. by apply list_elem_of_fmap_2. }
    intros l. induction l as [|p l [Ho Hin]]; simpl; [split; [done|intros p Hp; split; [done|set_solver]]|].
    rewrite tick_left by done. simpl. split; [done|]. intros q [Hne Hq]%list_elem_of_filter.
    destruct (Hin _ Hq). split; [done|]. by intros [?|?]%elem_of_cons.
  - unfold all_tick. enough (G : forall l, let s1 := foldr tick s l in on_run s1 = false /\ polls s1 = polls s).
    { apply G. }
    intros l. induction l as [|p l [Ho Hp]]; simpl; [done|]. rewrite tick_left by done. done.
  - intros e s' E Hs Hop. destruct e as [nv r| | |n a|n|n a]; simpl in E.
    + by destruct (Hs nv r).
    + by injection E as <-.
    + rewrite Hoff in E. by injection E as <-.
    + by destruct (Hop n a).
    + destruct (timers s !! n); [|done]. injection E as <-. rewrite tick_left by done. simpl.
      split; [done|]. split; [|done]. intros q. rewrite list_elem_of_filter. tauto.
    + destruct (polls s !! n) as [p|] eqn:En; [|done]. injection E as <-.
      assert (Hd : delete n (polls s) ⊆ polls s).
      { intros x Hx. rewrite (delete_Permutation _ _ _ En). by right. }
      unfold poll_reply, current. simpl. rewrite Hoff, andb_false_r. simpl. destruct a; simpl; [|done].
      split; [done|]. split; [|done]. intros q. rewrite list_elem_of_filter. tauto.
Qed.

Definition left_page : list rv_event :=
  [Show false (lit "r1"); Opened 0 (Some (live_data (lit "r1"))); Tick 0; Leave; Drawn].

Lemma leaving_stops_polls_witness :
  exists s, rv_run left_page rv_init = Some s /\ length (timers s) = 1 /\ timers (all_tick s) = [].
Proof.
  eexists. split; [vm_compute; reflexivity|]. split; [reflexivity|].
  eapply (leaving_stops_polls left_page); vm_compute; reflexivity.
Defined.

(** ** Races *)

Definition runs_ab : list rv_event := [Show false (lit "a"); Show false (lit "b")].
Definition late_a : list rv_event :=
  runs_ab ++ [Opened 0 (Some (live_data (lit "b"))); Opened 0 (Some (live_data (lit "a"))); Tick 1;
              PollReply 0 (Some (done_data (lit "b")))].
Definition late_leave : list rv_event :=
  [Show false (lit "a"); Leave; Drawn; Opened 0 (Some (live_data (lit "a")))].

(** A slow answer draws over the page that replaced it: [showRun] does not test,
    after its requests, that it is still the newest. With two runs opened one after
    the other and answered the other way round, the page is the first run's while
    the address is the second's, and the poll of the second patches its data into
    the first one's page; and a run whose data arrives after the user has left is
    drawn over the page the user went to. *)
Theorem stale_run_draws_over :
  (exists s, rv_run late_a rv_init = Some s /\ currentRun s = lit "b" /\
     screen_of s = RunPage (lit "a") false (done_data (lit "b"))) /\
  (exists s, rv_run late_leave rv_init = Some s /\ on_run s = false /\
     screen_of s = RunPage (lit "a") false (live_data (lit "a"))).
Proof. split; (eexists; split; [vm_compute; reflexivity|]; split; reflexivity). Qed.

Definition two_polls : list rv_event :=
  [Show false (lit "a"); Opened 0 (Some (live_data (lit "a"))); Tick 0; Tick 0].
Definition end_twice : list rv_event :=
  two_polls ++ [PollReply 0 (Some (done_data (lit "a"))); PollReply 0 (Some (done_data (lit "a")))].
Definition end_regressed : list rv_event :=
  two_polls ++ [PollReply 0 (Some (done_data (lit "a"))); PollReply 0 (Some (live_data (lit "a")))].

(** An interval fires again while its request is still open, and an answer is not
    tested against the end of the run. When two requests overlap, the end of the run
    is announced twice; and when the older answer arrives last, the page shows the
    run as running again and stays so, the poll having stopped. *)
Theorem overlapping_polls :
  (exists s, rv_run end_twice rv_init = Some s /\ toasts s = [lit "success"; lit "success"]) /\
  (exists s, rv_run end_regressed rv_init = Some s /\
     screen_of s = RunPage (lit "a") false (live_data (lit "a")) /\
     timers s = [] /\ polls s = [] /\ opens s = [] /\ on_run s = true).
Proof. split; (eexists; split; [vm_compute; reflexivity|]); repeat split. Qed.

(** ** Without overlap *)

(** Every request is answered before the next interval fires. *)
Fixpoint no_overlap (es : list rv_event) (s : runview) : bool :=
  match es with
  | [] => true
  | e :: es' =>
    match e with Tick _ => bool_decide (polls s = []) | _ => true end
    && match rv_step e s with Some s' => no_overlap es' s' | None => true end
  end.

Definition announcing (s : runview) : nat :=
  length (filter (fun o => o_toast o = true) (opens s)) + length (filter (fun p => p_toast p = true) (timers s)).

Record calm (s : runview) : Prop := {
  cm_inv : rv_inv s;
  cm_polls : Forall (fun p => current p s = true -> p ∈ timers s) (polls s);
  cm_few : length (polls s) <= 1;
  cm_toasts : length (toasts s) + announcing s <= runPollGen s;
}.

Lemma filter_ids_count s p : rv_inv s -> p ∈ timers s ->
  length (filter (fun q => p_toast q = true) (timers (clear_interval (p_id p) s)))
  + (if p_toast p then 1 else 0) <= length (filter (fun q => p_toast q = true) (timers s)).
Proof.
  intros [_ _ I _ _ _] Hp. simpl. clear -I Hp. induction (timers s) as [|q l IH]; [by apply elem_of_nil in Hp|].
  rewrite fmap_cons in I. apply NoDup_cons in I as [Hq I]. apply elem_of_cons in Hp as [->|Hp].
  - rewrite (filter_cons_False (fun x => p_id x <> p_id q)) by auto.
    rewrite (filter_cons (fun x => p_toast x = true)).
    assert (Hl : filter (fun x => p_id x <> p_id q) l = l).
    { apply filter_all, Forall_forall. intros x Hx E. apply Hq. rewrite <- E. by apply list_elem_of_fmap_2. }
    rewrite Hl. case_decide as Ht; simpl; rewrite ?Ht; [lia|]. destruct (p_toast q); [done|lia].
  - specialize (IH I Hp). assert (p_id q <> p_id p).
    { intros E. apply Hq. rewrite E. by apply list_elem_of_fmap_2. }
    rewrite (filter_cons_True (fun x => p_id x <> p_id p)) by done.
    rewrite !(filter_cons (fun x => p_toast x = true)). case_decide; simpl; lia.
Qed.

Lemma clear_count i s :
  length (filter (fun q => p_toast q = true) (timers (clear_interval i s)))
  <= length (filter (fun q => p_toast q = true) (timers s)).
Proof.
  simpl. induction (timers s) as [|q l IH]; [done|]. rewrite !(filter_cons _ q).
  repeat case_decide; rewrite ?filter_cons; repeat case_decide; simpl; try done; lia.
Qed.

Lemma calm_quiet s : rv_inv s -> polls s = [] -> length (toasts s) + announcing s <= runPollGen s -> calm s.
Proof. intros H E Ht. split; [done|..|done]; rewrite E; [constructor|simpl; lia]. Qed.

Lemma delete_count {A} (P : A -> Prop) `{forall x, Decision (P x)} n (l : list A) x : l !! n = Some x ->
  length (filter P l) = length (filter P (delete n l)) + (if decide (P x) then 1 else 0).
Proof.
  intros Hn. rewrite (delete_Permutation _ _ _ Hn) at 1. rewrite filter_cons. case_decide; simpl; lia.
Qed.

Lemma calm_show nv r s : calm s -> calm (showRun nv r s).
Proof.
  intros [H P F T]. split.
  - by apply showRun_inv.
  - destruct H as [_ _ _ _ _ Q]. simpl. rewrite Forall_forall in *. intros p Hp Hc.
    apply current_run in Hc as (E & _). simpl in E. specialize (Q _ Hp). lia.
  - done.
  - unfold announcing in *. simpl. rewrite filter_cons.
    assert (Hc : length (filter (fun q => p_toast q = true)
                   (timers match runPoll s with Some i => clear_interval i s | None => s end))
                 <= length (filter (fun q => p_toast q = true) (timers s))).
    { destruct (runPoll s); [apply clear_count|done]. }
    case_decide; simpl; lia.
Qed.

Lemma calm_opened n o a s : calm s -> opens s !! n = Some o ->
  calm (opened o a (with_opens (delete n (opens s)) s)).
Proof.
  intros [H P F T] Hn. pose proof (opened_inv n o a s H Hn) as H'.
  pose proof (delete_count (fun o => o_toast o = true) n (opens s) o Hn) as Hc.
  revert H'. unfold opened. destruct a as [d|]; [destruct (runLive (rd_state d))|]; intros H'; split;
    try exact H'; try exact F; unfold announcing in *; simpl in *; try exact P.
  - eapply Forall_impl; [exact P|]. intros p Hp Hcur. right. by apply Hp.
  - rewrite filter_cons. simpl. repeat case_decide; simpl; try done; lia.
  - case_decide; lia.
  - case_decide; lia.
Qed.

Lemma calm_reply n p a s : calm s -> polls s !! n = Some p ->
  calm (poll_reply p a (with_polls (delete n (polls s)) s)).
Proof.
  intros [H P F T] Hn.
  assert (E : polls s = [p] /\ delete n (polls s) = []).
  { destruct (polls s) as [|q [|? ?]]; [done| |simpl in F; lia].
    destruct n; [|done]. simpl in Hn. by simplify_eq. }
  destruct E as [Ep Ed]. rewrite Ed. set (s0 := with_polls [] s).
  assert (H0 : rv_inv s0) by (apply with_polls_inv; [done|set_solver]).
  assert (T0 : length (toasts s0) + announcing s0 <= runPollGen s0) by done.
  assert (Q0 : calm s0) by (apply calm_quiet; done).
  assert (Hp : current p s = true -> p ∈ timers s).
  { rewrite Ep in P. by inversion P. }
  unfold poll_reply. destruct a as [d|]; [|done].
  destruct (current p s0) eqn:Ec.
  - destruct (patch _ d s0) as [s1|] eqn:E1; [|done].
    assert (G : rv_inv s1 /\ polls s1 = [] /\ toasts s1 = toasts s0 /\ announcing s1 = announcing s0
                /\ runPollGen s1 = runPollGen s0 /\ timers s1 = timers s0 /\ opens s1 = opens s0).
    { pose proof (patch_inv _ _ _ _ H0 E1). unfold patch in E1. repeat case_match; simplify_eq; done. }
    destruct G as (G1 & G2 & G3 & G4 & G5 & G6 & G7).
    assert (Hin : p ∈ timers s1) by (rewrite G6; by apply Hp).
    pose proof (filter_ids_count s1 p G1 Hin) as Hc.
    destruct (runLive _); [apply calm_quiet; [done|done|by rewrite G3, G4, G5]|].
    unfold announcing in *. destruct (p_toast p) eqn:Et; apply calm_quiet; auto with cronova;
      unfold announcing; simpl in *; rewrite ?G3, ?G5, ?G7 in *; rewrite ?G6 in *; lia.
  - apply calm_quiet; [by apply clear_inv|done|]. pose proof (clear_count (p_id p) s0).
    unfold announcing in *. simpl in *. lia.
Qed.

Lemma calm_step e s s' : calm s -> (forall n, e = Tick n -> polls s = []) -> rv_step e s = Some s' -> calm s'.
Proof.
  intros C He E. destruct e as [nv r| | |n a|n|n a]; simpl in E.
  - injection E as <-. by apply calm_show.
  - injection E as <-. destruct C as [H P F T]. split; try done.
    + by destruct H as [? ? ? ? ? ?]; split.
    + simpl. apply Forall_forall. intros p _ Hc. by apply current_run in Hc as (_ & ? & _).
  - destruct (on_run s); [done|]. injection E as <-. destruct C as [H P F T]. by split; [apply draw_inv|..].
  - destruct (opens s !! n) as [o|] eqn:En; [|done]. injection E as <-. by apply calm_opened.
  - destruct (timers s !! n) as [p|] eqn:En; [|done]. injection E as <-. specialize (He n eq_refl).
    destruct C as [H P F T]. unfold tick. destruct (current p s) eqn:Ec.
    + apply list_elem_of_lookup_2 in En. split; simpl.
      * apply with_polls_inv; [done|set_solver].
      * rewrite He. constructor; [done|constructor].
      * rewrite He. simpl. lia.
      * exact T.
    + apply calm_quiet; [by apply clear_inv|done|]. pose proof (clear_count (p_id p) s).
      unfold announcing in *. simpl in *. lia.
  - destruct (polls s !! n) as [p|] eqn:En; [|done]. injection E as <-. by apply calm_reply.
Qed.

Lemma calm_run es s s' : calm s -> no_overlap es s = true -> rv_run es s = Some s' -> calm s'.
Proof.
  revert s. induction es as [|e es IH]; intros s C Hn E; simpl in *; [by simplify_eq|].
  apply andb_true_iff in Hn as [He Hn]. destruct (rv_step e s) as [s1|] eqn:E1; [|done].
  eapply (IH s1); [|done..]. eapply calm_step; [done| |done].
  intros n ->. by apply bool_decide_eq_true in He.
Qed.

(** When every poll is answered before the next interval fires, the end of a run
    is announced at most once for each time a run was opened, and the frame that
    shows the end is the last: after it no interval and no open request may draw. *)
Theorem end_announced_once es s :
  no_overlap es rv_init = true -> rv_run es rv_init = Some s ->
  length (toasts s) <= runPollGen s /\ length (polls s) <= 1 /\
  (forall n p d s', polls s !! n = Some p -> rv_step (PollReply n (Some d)) s = Some s' ->
     screen_of s' <> screen_of s -> runLive (rd_state d) = false ->
     Forall (fun q => current q s' = false) (timers s' ++ polls s')).
Proof.
  intros Hn E. assert (C : calm s).
  { eapply calm_run; [|done..]. apply calm_quiet; [apply rv_init_inv|done|apply Nat.le_refl]. }
  destruct C as [H P F T]. split_and!; [unfold announcing in T; lia|done|].
  intros n p d s' Hp Es Hne Hl. simpl in Es. rewrite Hp in Es. injection Es as <-.
  assert (Ed : delete n (polls s) = []).
  { destruct (polls s) as [|q [|? ?]]; [done| |simpl in F; lia]. by destruct n. }
  rewrite Ed in *. unfold poll_reply in *. change (current p (with_polls [] s)) with (current p s) in *.
  destruct (current p s) eqn:Ec; [|done].
  destruct (patch _ d _) as [s1|] eqn:E1; [|done]. rewrite Hl in *.
  assert (G : timers s1 = timers s /\ polls s1 = [] /\ forall q, current q s1 = current q s).
  { unfold patch in E1. repeat case_match; simplify_eq; done. }
  destruct G as (G1 & G2 & G3).
  assert (Ht : p ∈ timers s).
  { rewrite Forall_forall in P. apply P; [by eapply list_elem_of_lookup_2|done]. }
  assert (Hf : Forall (fun q => current q s1 = false) (timers (clear_interval (p_id p) s1))).
  { apply Forall_forall. intros q [Hne' Hq]%list_elem_of_filter. rewrite G1 in Hq. rewrite G3.
    destruct (current q s) eqn:Eq; [|done]. destruct Hne'.
    apply current_run in Eq as [Eq _]. apply current_run in Ec as [Ec _].
    by rewrite (same_gen_timer s q p H Hq Ht ltac:(congruence)). }
  destruct (p_toast p); simpl; rewrite G2, app_nil_r; exact Hf.
Qed.

Lemma end_announced_once_witness :
  no_overlap watch rv_init = true /\ exists s, rv_run watch rv_init = Some s /\ length (toasts s) <= runPollGen s.
Proof.
  split; [vm_compute; reflexivity|]. eexists. split; [vm_compute; reflexivity|].
  eapply (end_announced_once watch); vm_compute; reflexivity.
Defined.
