(* ===== verification/RunDisplay.v ===== *)
(** * What the run page shows of a run (views.js): the novice checklist, its banner and
    its log, progress, actions, the timeline, and the live log views

    Functions of the data a poll brings, and the state machines of the two log
    views. Timestamps are milliseconds; [now] is the clock. *)

From Stdlib Require Import QArith Qminmax.
From S2P Require Import Prelude JsCore Schedule TaskGraph Labels Format Jump RunView.

(** ** Task instances *)

Record inst := Inst {
  in_id : jstr; in_task : jstr; in_state : jstr; in_try : Z;
  in_start : option Z; in_end : option Z;
}.
Record run := Run { r_state : jstr; r_start : option Z; r_end : option Z }.

Definition TASK_TERMINAL : list jstr :=
  [ lit "success"; lit "failed"; lit "upstream_failed"; lit "skipped"; lit "cancelled"; lit "timed_out" ].
Definition TASK_RETRYABLE : list jstr :=
  [ lit "failed"; lit "upstream_failed"; lit "cancelled"; lit "timed_out" ].
Definition is_terminal (s : jstr) : bool := bool_decide (s ∈ TASK_TERMINAL).
Definition is_retryable (s : jstr) : bool := bool_decide (s ∈ TASK_RETRYABLE).
Definition failed_state (s : jstr) : bool := bool_decide (s = lit "failed") || bool_decide (s = lit "timed_out").

(** [byTask[id]]: the last instance of a task. *)
Definition inst_of (tis : list inst) (id : jstr) : option inst :=
  find_last (fun x => bool_decide (in_task x = id)) tis.

(** ** The checklist of the novice page *)

Inductive icon := IcOk | IcBad | IcSpin | IcSkip | IcPending (n : nat).
Inductive step_text :=
| TDur (a b : option Z)             (** the duration *)
| TState (s : jstr) (retries : Z)   (** the state, and how often it was retried *)
| TLabel (l : label).

Definition step_row (terminalRun : bool) (i : nat) (t : option inst) : icon * step_text :=
  let st := match t with Some x => in_state x | None => [] end in
  let retries := match t with Some x => if (1 <? in_try x)%Z then (in_try x - 1)%Z else 0%Z | None => 0%Z end in
  if bool_decide (st = lit "success") then
    (IcOk, match t with Some x => TDur (in_start x) (in_end x) | None => TDur None None end)
  else if failed_state st then (IcBad, TState st retries)
  else if bool_decide (st = lit "running") || bool_decide (st = lit "up_for_retry")
  then (IcSpin, TLabel (T (lit "nvr_running_dur") []))
  else if bool_decide (st = lit "skipped") || bool_decide (st = lit "cancelled") then (IcSkip, TState st 0)
  else if bool_decide (st = lit "upstream_failed") then (IcSkip, TLabel (T (lit "nvr_notrun") []))
  else (IcPending (i + 1), TLabel (T (if terminalRun then lit "nvr_notrun" else lit "nvr_waiting") [])).

(** The rows: the definition's steps in order, or the instances when the definition
    is gone. [defs] are the ids of [NVR.defs]. *)
Definition step_rows (r : run) (defs : list jstr) (tis : list inst) : list (jstr * (icon * step_text)) :=
  let ids := match defs with [] => in_task <$> tis | _ => defs end in
  imap (fun i id => (id, step_row (negb (runLive (r_state r))) i (inst_of tis id))) ids.

(** Which instance's log is streamed: the pinned step, else a running one, else a
    failed one, else the last finished, else the first. *)
Definition pick_log (pin : option jstr) (tis : list inst) : option inst :=
  let find p := List.find p tis in
  match match pin with Some k => inst_of tis k | None => None end with
  | Some x => Some x
  | None =>
    match find (fun x => bool_decide (in_state x = lit "running")) with
    | Some x => Some x
    | None =>
      match find (fun x => failed_state (in_state x)) with
      | Some x => Some x
      | None =>
        match find_last (fun x => is_terminal (in_state x)) tis with
        | Some x => Some x
        | None => head tis
        end
      end
    end
  end.

(** [openDefaultRunLog] of the expert page. *)
Definition default_log (tis : list inst) : option inst :=
  let find p := List.find p tis in
  match find (fun x => bool_decide (in_state x = lit "running")) with
  | Some x => Some x
  | None => match find (fun x => negb (is_terminal (in_state x))) with
            | Some x => Some x
            | None => head tis
            end
  end.

(** ** The banner *)

Inductive banner :=
| BLive
| BOk
| BBad (title : label) (sub : list label) (rerun : jstr).

(** [tis.find((x) => x.task_id === id)] *)
Definition first_inst (tis : list inst) (id : jstr) : option inst :=
  List.find (fun x => bool_decide (in_task x = id)) tis.
Definition task_failed (tis : list inst) (id : jstr) : bool :=
  match first_inst tis id with Some x => failed_state (in_state x) | None => false end.
Definition fail_index (defs : list jstr) (tis : list inst) : option (nat * jstr) :=
  list_find (fun id => task_failed tis id = true) defs.

Definition run_banner (r : run) (defs : list jstr) (tis : list inst) : banner :=
  if runLive (r_state r) then BLive
  else if bool_decide (r_state r = lit "success") then BOk
  else
    let fi := fail_index defs tis in
    let failTi := match fi with
                  | Some (_, id) => first_inst tis id
                  | None => None
                  end in
    let cancelled := bool_decide (r_state r = lit "cancelled") in
    let timed_out := bool_decide (r_state r = lit "timed_out") in
    let title := if cancelled then T (lit "nvr_cancelled_title") []
                 else if timed_out then T (lit "nvr_timeout_title") []
                 else match fi with
                      | Some (i, id) => T (lit "nvr_failed_title") [Raw (digits (N.of_nat (i + 1))); Raw id]
                      | None => T (lit "nvr_failed_generic") []
                      end in
    let retried := match failTi with
                   | Some x => if (1 <? in_try x)%Z
                               then [T (lit "nvr_retried") [Raw (num_str (in_try x - 1))]] else []
                   | None => []
                   end in
    let sub := if cancelled then [T (lit "nvr_cancelled_sub") []]
               else if timed_out then [T (lit "nvr_timeout_sub") []]
               else T (lit "nvr_failed_sub") [] :: retried in
    BBad title sub (if cancelled then lit "nvr_rerun2" else lit "nvr_rerun").

(** ** Progress and actions of the expert page *)

Definition progress (tis : list inst) : nat * nat * nat :=
  (length (List.filter (fun x => is_terminal (in_state x)) tis), length tis,
   length (List.filter (fun x => bool_decide (in_state x = lit "running")) tis)).

(** The width of the meter, in percent. *)
Definition meter (tis : list inst) : Z :=
  let '(done, total, _) := progress tis in
  if Nat.eqb total 0 then 0%Z else Z.max 4 (round_div (Z.of_nat done * 100) (Z.of_nat total)).

Inductive run_actions := ANone | ACancel | ATerm (canRetry : bool).
Definition actions_of (viewer : bool) (r : run) (tis : list inst) : run_actions :=
  if viewer then ANone
  else if runLive (r_state r) then ACancel
  else ATerm (existsb (fun x => is_retryable (in_state x)) tis).

(** The buttons of an instance's row: retry and mark. *)
Definition row_actions (viewer : bool) (r : run) (x : inst) : bool * bool :=
  (is_retryable (in_state x) && negb (runLive (r_state r)) && negb viewer, negb viewer).

(** The toast at the end of a run: its key and kind. *)
Definition done_toast (st : jstr) : label * jstr :=
  if bool_decide (st = lit "success") then (T (lit "run_done_ok") [], lit "ok")
  else if bool_decide (st = lit "cancelled") then (T (lit "run_cancelled_toast") [], lit "info")
  else if bool_decide (st = lit "timed_out") then (T (lit "run_done_timeout") [], lit "fail")
  else (T (lit "run_done_fail") [], lit "fail").

(** ** The timeline *)

Record gbar := GBar { g_task : jstr; g_left : Q; g_width : Q }.

Definition zmin (l : list Z) (d : Z) : Z := match l with [] => d | x :: r => foldr Z.min x r end.
Definition zmax (l : list Z) (d : Z) : Z := match l with [] => d | x :: r => foldr Z.max x r end.

Definition gantt_t0 (now : Z) (r : run) (tis : list inst) : Z :=
  match r_start r with Some t => t | None => zmin (omap in_start tis) now end.
Definition gantt_t1 (now : Z) (r : run) (tis : list inst) : Z :=
  match r_end r with
  | Some t => t
  | None => if runLive (r_state r) then now
            else zmax (omap in_end tis) (gantt_t0 now r tis + 1000)
  end.
Definition gantt_span (now : Z) (r : run) (tis : list inst) : Z :=
  Z.max 1000 (gantt_t1 now r tis - gantt_t0 now r tis).

(** [None]: a task that never started has a marker instead of a bar. *)
Definition gantt_bar (now : Z) (r : run) (tis : list inst) (x : inst) : option gbar :=
  match in_start x with
  | None => None
  | Some s =>
    let t0 := gantt_t0 now r tis in
    let t1 := gantt_t1 now r tis in
    let span := Z.to_pos (gantt_span now r tis) in
    let f := match in_end x with
             | Some t => t
             | None => if bool_decide (in_state x = lit "running") then now else s
             end in
    Some (GBar (in_task x) (Qmake (100 * (s - t0)) span)
               (Qmax (2 # 5) (Qmake (100 * (Z.min f t1 - s)) span)))
  end.
Definition gantt (now : Z) (r : run) (tis : list inst) : list gbar :=
  omap (gantt_bar now r tis) tis.

(** ** The live log views *)

Definition LOG_CAP : nat := 5000.

(** The last [LOG_CAP] lines: [if (lines.length > LOG_CAP) lines = lines.slice(-LOG_CAP)]. *)
Definition capped (l : list jstr) : list jstr := drop (length l - LOG_CAP) l.

(** A text box: its text, and whether it has a child node. *)
Record box := Box { box_text : jstr; box_child : bool }.
(** [box.textContent = s]: the empty string leaves no child. *)
Definition set_text (s : jstr) : box := Box s (truthy s).
(** [box.appendChild(createTextNode((box.firstChild ? "\n" : "") + s))] *)
Definition append_line (s : jstr) (b : box) : box :=
  Box (box_text b ++ (if box_child b then [10%N] else []) ++ s) true.
Definition lines_text (l : list jstr) : jstr := join [10%N] l.

Section logs.
(** [String.prototype.toLowerCase] *)
Context (lower : jstr -> jstr).

Record logview := LogView { lv_lines : list jstr; lv_filter : jstr; lv_box : box }.
Definition log_open : logview := LogView [] [] (set_text []).

Inductive log_event := Message (s : jstr) | Find (value : jstr).

Definition shown_lines (filter : jstr) (lines : list jstr) : list jstr :=
  if truthy filter then List.filter (fun l => includes filter (lower l)) lines else lines.

(** [render]: the whole box. *)
Definition log_render (v : logview) : logview :=
  LogView (lv_lines v) (lv_filter v) (set_text (lines_text (shown_lines (lv_filter v) (lv_lines v)))).

(** The handlers of [showLog]; [nvOpenLog] is the one without a filter. *)
Definition log_step (e : log_event) (v : logview) : logview :=
  match e with
  | Find x => log_render (LogView (lv_lines v) (lower x) (lv_box v))
  | Message s =>
    let lines := lv_lines v ++ [s] in
    let over := Nat.ltb LOG_CAP (length lines) in
    let v1 := LogView (capped lines) (lv_filter v) (lv_box v) in
    if truthy (lv_filter v) || over then log_render v1
    else LogView (capped lines) (lv_filter v) (append_line s (lv_box v))
  end.
Definition log_run (es : list log_event) (v : logview) : logview := foldl (fun v e => log_step e v) v es.

Definition log_count (v : logview) : option label :=
  if truthy (lv_filter v)
  then Some (T (lit "log_matches") [Raw (digits (N.of_nat (length (shown_lines (lv_filter v) (lv_lines v)))))])
  else if Nat.leb LOG_CAP (length (lv_lines v))
  then Some (T (lit "log_capped") [Raw (digits (N.of_nat LOG_CAP))]) else None.
End logs.

(** [showAllLogs]: the lines of every task in arrival order, up to the cap; a closed
    stream counts once. *)
Record alllogs := AllLogs { al_count : nat; al_lines : list (jstr * jstr); al_notice : nat; al_open : Z }.
Inductive all_event := AllMessage (task data : jstr) | Settle.
Definition all_open (tasks : list jstr) : alllogs := AllLogs 0 [] 0 (Z.of_nat (length tasks)).
Definition all_step (e : all_event) (v : alllogs) : alllogs :=
  match e with
  | AllMessage task data =>
    let n := S (al_count v) in
    if Nat.ltb LOG_CAP n
    then AllLogs n (al_lines v) (if Nat.eqb n (LOG_CAP + 1) then S (al_notice v) else al_notice v) (al_open v)
    else AllLogs n (al_lines v ++ [(task, data)]) (al_notice v) (al_open v)
  | Settle => AllLogs (al_count v) (al_lines v) (al_notice v) (al_open v - 1)
  end.
Definition all_run (es : list all_event) (v : alllogs) : alllogs := foldl (fun v e => all_step e v) v es.
Definition all_live (v : alllogs) : bool := (0 <? al_open v)%Z.

(** ** The log views show the log *)

Lemma LOG_CAP_ge : 2 <= LOG_CAP.
Proof. by apply Nat.leb_le. Qed.
#[global] Opaque LOG_CAP.

Lemma capped_length l : length (capped l) = Nat.min (length l) LOG_CAP.
Proof. unfold capped. rewrite length_drop. lia. Qed.
Lemma capped_short l : length l <= LOG_CAP -> capped l = l.
Proof. intros H. unfold capped. by replace (length l - LOG_CAP) with 0 by lia. Qed.
Lemma capped_snoc l x : capped (capped l ++ [x]) = capped (l ++ [x]).
Proof.
  unfold capped. rewrite !length_app, length_drop. simpl.
  destruct (decide (length l <= LOG_CAP)) as [Hl|Hl].
  - replace (length l - LOG_CAP) with 0 by lia. rewrite drop_0. f_equal. lia.
  - pose proof LOG_CAP_ge. rewrite <- (drop_app_le l [x] (length l - LOG_CAP)) by lia.
    rewrite drop_drop. f_equal. lia.
Qed.

Lemma lines_text_snoc l x : l <> [] -> lines_text (l ++ [x]) = lines_text l ++ 10%N :: x.
Proof.
  unfold lines_text. induction l as [|y l IH]; [done|]. intros _. destruct l as [|z l]; [done|].
  change ((y :: z :: l) ++ [x]) with (y :: z :: (l ++ [x])). rewrite !join_cons.
  change (z :: l ++ [x]) with ((z :: l) ++ [x]). rewrite IH by done. by rewrite <- !app_assoc.
Qed.

(** A text box of lines is empty only for no line or one empty line. *)
Lemma lines_text_truthy l : l <> [] -> l <> [[]] -> truthy (lines_text l) = true.
Proof. destruct l as [|[|c x] [|y l]]; done. Qed.

Section logs_ok.
Context (lower : jstr -> jstr).

Definition messages (es : list log_event) : list jstr :=
  omap (fun e => match e with Message s => Some s | Find _ => None end) es.

(** What the view shows after the messages [ms]. *)
Record log_ok (ms : list jstr) (v : logview) : Prop := {
  lo_lines : lv_lines v = capped ms;
  lo_text : box_text (lv_box v) = lines_text (shown_lines lower (lv_filter v) (lv_lines v));
  lo_child : lv_filter v = [] -> box_child (lv_box v) = match lv_lines v with [] => false | _ => true end;
}.

Lemma render_ok ms v : lv_lines v = capped ms -> ms <> [[]] -> log_ok ms (log_render lower v).
Proof.
  intros Hl Hm. split; simpl; [done|done|]. intros Hf. unfold shown_lines. rewrite Hf. simpl.
  destruct (lv_lines v) as [|x l] eqn:E; [done|]. apply lines_text_truthy; [done|].
  intros [= -> ->]. apply Hm. pose proof (capped_length ms) as Hc. rewrite <- Hl in Hc. simpl in Hc.
  pose proof LOG_CAP_ge. rewrite Hl. symmetry. apply capped_short. lia.
Qed.

Lemma log_step_ok ms e v :
  log_ok ms v -> (ms ++ messages [e]) <> [[]] -> log_ok (ms ++ messages [e]) (log_step lower e v).
Proof.
  intros [Hl Ht Hc] Hm. destruct e as [s|x]; simpl in *.
  - assert (Hn : capped (lv_lines v ++ [s]) = capped (ms ++ [s])) by by rewrite Hl, capped_snoc.
    destruct (truthy (lv_filter v)) eqn:Ef; simpl; [by apply render_ok|].
    destruct (Nat.ltb_spec LOG_CAP (length (lv_lines v ++ [s]))) as [Hlt|Hge]; [by apply render_ok|].
    assert (Hf : lv_filter v = []) by by destruct (lv_filter v).
    rewrite (capped_short (lv_lines v ++ [s])) in * by lia. split; simpl; [done| |].
    + unfold shown_lines in *. rewrite Ef in *. rewrite Ht, (Hc Hf).
      destruct (lv_lines v) as [|y l]; [done|]. by rewrite lines_text_snoc by done.
    + intros _. by destruct (lv_lines v).
  - rewrite app_nil_r in *. by apply render_ok.
Qed.

Lemma log_run_ok es ms v : log_ok ms v -> head (ms ++ messages es) <> Some [] ->
  log_ok (ms ++ messages es) (log_run lower es v).
Proof.
  revert ms v. induction es as [|e es IH]; intros ms v H Hh; [by rewrite app_nil_r|].
  change (messages (e :: es)) with (messages ([e] ++ es)) in *. unfold messages in *.
  rewrite omap_app in *. rewrite app_assoc in *. apply IH; [|done]. apply log_step_ok; [done|].
  intros E. unfold messages in E. rewrite E in Hh. done.
Qed.
End logs_ok.

(** The live log shows the log: after any sequence of messages and searches the
    lines kept are the last 5000 messages, and the box holds exactly those of them
    that match the search, one per line; the count beside the search field is their
    number. (A log whose first line is empty loses that line when it is redrawn
    while it is the only one: the box then has no child to append after.) *)
Theorem log_view_exact (lower : jstr -> jstr) es :
  head (messages es) <> Some [] ->
  let v := log_run lower es log_open in
  lv_lines v = drop (length (messages es) - LOG_CAP) (messages es) /\
  box_text (lv_box v) = lines_text (shown_lines lower (lv_filter v) (lv_lines v)) /\
  (truthy (lv_filter v) = true -> log_count lower v =
     Some (T (lit "log_matches") [Raw (digits (N.of_nat
       (length (List.filter (fun l => includes (lv_filter v) (lower l)) (lv_lines v)))))])).
Proof.
  intros Hh v. destruct (log_run_ok lower es [] log_open) as [H1 H2 _].
  - by split; simpl; [rewrite capped_short by (simpl; lia)|..].
  - done.
  - split; [done|]. split; [done|]. intros Ht. unfold log_count, shown_lines. by rewrite Ht.
Qed.

Definition log_sample : list log_event :=
  [Message (lit "start"); Find (lit "r"); Message []; Message (lit "error"); Find []].
Lemma log_view_exact_witness :
  head (messages log_sample) <> Some [] /\
  box_text (lv_box (log_run toLowerCase log_sample log_open)) = lines_text [lit "start"; []; lit "error"].
Proof.
  assert (H : head (messages log_sample) <> Some []) by done. split; [done|].
  destruct (log_view_exact toLowerCase log_sample H) as (_ & -> & _). vm_compute. reflexivity.
Defined.

Definition all_messages (es : list all_event) : list (jstr * jstr) :=
  omap (fun e => match e with AllMessage t d => Some (t, d) | Settle => None end) es.
Definition settled (es : list all_event) : nat :=
  length (List.filter (fun e => match e with Settle => true | _ => false end) es).

Lemma all_run_spec tasks es :
  let v := all_run es (all_open tasks) in
  let n := length (all_messages es) in
  al_count v = n /\ al_lines v = take LOG_CAP (all_messages es) /\
  al_notice v = (if decide (LOG_CAP < n) then 1 else 0) /\
  al_open v = (Z.of_nat (length tasks) - Z.of_nat (settled es))%Z.
Proof.
  induction es as [|e es IH] using rev_ind.
  { intros v n. rewrite decide_False by (change n with 0; lia). split_and!; [done..|].
    unfold settled, v. simpl. lia. }
  intros v n. subst v n.
  unfold all_run, all_messages, settled in *. rewrite foldl_app, omap_app, List.filter_app, !length_app.
  cbn [foldl]. set (w := foldl _ _ es) in *. set (ms := omap _ es) in *. clearbody w ms.
  destruct IH as (I1 & I2 & I3 & I4).
  destruct e as [t d|]; cbn [omap list_omap all_step List.filter length].
  - rewrite I1. destruct (Nat.ltb_spec LOG_CAP (S (length ms))) as [Hlt|Hge];
      cbn [al_count al_lines al_notice al_open].
    + split_and!; [lia|by rewrite I2, take_app_le by lia| |lia].
      rewrite I3, (decide_True (P := LOG_CAP < length ms + 1)) by lia.
      destruct (Nat.eqb_spec (S (length ms)) (LOG_CAP + 1)).
      * by rewrite decide_False by lia.
      * by rewrite decide_True by lia.
    + split_and!; [lia| | |lia].
      * by rewrite I2, !take_ge by (rewrite ?length_app; simpl; lia).
      * rewrite I3. by do 2 rewrite decide_False by lia.
  - rewrite app_nil_r, Nat.add_0_r. split_and!; [done..|].
    cbn [al_open]. lia.
Qed.

(** The combined log of a run shows the first 5000 lines of all its tasks in the
    order they arrived, says once that it stopped when there are more, and is live
    until every stream has ended. *)
Theorem all_logs_exact tasks es :
  let v := all_run es (all_open tasks) in
  al_lines v = take LOG_CAP (all_messages es) /\
  al_notice v = (if decide (LOG_CAP < length (all_messages es)) then 1 else 0) /\
  all_live v = Nat.ltb (settled es) (length tasks).
Proof.
  destruct (all_run_spec tasks es) as (_ & H1 & H2 & H3). simpl. split_and!; [done..|].
  unfold all_live. rewrite H3. destruct (Nat.ltb_spec (settled es) (length tasks));
    [apply Z.ltb_lt|apply Z.ltb_ge]; lia.
Qed.

(** ** The timeline *)

(** The timestamps of a finished run: it starts before its tasks, each of which ends
    after it starts and before the run ends. *)
Definition times_ok (r : run) (tis : list inst) : Prop :=
  exists t0 t1, r_start r = Some t0 /\ r_end r = Some t1 /\ (t0 <= t1)%Z /\
  Forall (fun x => match in_start x with
                   | None => True
                   | Some s => (t0 <= s <= t1)%Z /\ match in_end x with Some f => (s <= f <= t1)%Z | None => True end
                   end) tis.

Lemma Qle_make (a b : Z) (p : positive) : (a <= b)%Z -> (Qmake a p <= Qmake b p)%Q.
Proof. unfold Qle. simpl. nia. Qed.

(** A fraction of the span in percent. *)
Lemma percent_bounds (n span : Z) : (0 <= n <= span)%Z -> (0 < span)%Z ->
  (0 <= Qmake (100 * n) (Z.to_pos span) <= 100)%Q.
Proof.
  intros Hn Hs. unfold Qle. simpl. rewrite Z2Pos.id by done. split; nia.
Qed.

(** The bars of the timeline of a finished run are drawn inside it and to scale:
    every started task has one bar, in order, between 0 and 100 percent plus the
    smallest width of 0.4; a task that starts later is drawn no further left, and
    bars are no narrower for tasks that took longer. *)
Theorem gantt_to_scale now r tis :
  times_ok r tis -> runLive (r_state r) = false ->
  Forall (fun x => in_state x <> lit "running") tis ->
  let bars := gantt now r tis in
  g_task <$> bars = in_task <$> filter (fun x => in_start x <> None) tis /\
  Forall (fun b => 0 <= g_left b /\ g_left b <= 100 /\ (2 # 5) <= g_width b
                   /\ (g_width b <= 100))%Q bars /\
  (forall x y sx sy, x ∈ tis -> y ∈ tis -> in_start x = Some sx -> in_start y = Some sy ->
     (forall bx b_y, gantt_bar now r tis x = Some bx -> gantt_bar now r tis y = Some b_y ->
        ((sx <= sy)%Z -> (g_left bx <= g_left b_y)%Q) /\
        ((default sx (in_end x) - sx <= default sy (in_end y) - sy)%Z -> (g_width bx <= g_width b_y)%Q))).
Proof.
  intros (t0 & t1 & E0 & E1 & H01 & Ht) Hl Hr.
  set (span := gantt_span now r tis).
  assert (Et0 : gantt_t0 now r tis = t0) by (unfold gantt_t0; by rewrite E0).
  assert (Et1 : gantt_t1 now r tis = t1) by (unfold gantt_t1; by rewrite E1).
  assert (Hs : (1000 <= span)%Z /\ (t1 - t0 <= span)%Z) by (unfold span, gantt_span; rewrite Et0, Et1; lia).
  assert (Hb : forall x sx, x ∈ tis -> in_start x = Some sx ->
     (t0 <= sx)%Z /\ (sx <= default sx (in_end x) <= t1)%Z /\
     gantt_bar now r tis x = Some (GBar (in_task x) (Qmake (100 * (sx - t0)) (Z.to_pos span))
       (Qmax (2 # 5) (Qmake (100 * (default sx (in_end x) - sx)) (Z.to_pos span))))).
  { intros x sx Hx Ex. rewrite Forall_forall in Ht, Hr. specialize (Ht _ Hx). specialize (Hr _ Hx).
    rewrite Ex in Ht. unfold gantt_bar. rewrite Ex, Et0, Et1, (bool_decide_eq_false_2 _ Hr). fold span.
    destruct (in_end x) as [f|]; simpl; (split; [lia|split; [lia|]]).
    - by rewrite Z.min_l by lia.
    - by rewrite Z.min_l by lia. }
  split_and!.
  - unfold gantt. clear Ht Hr. assert (Hsub : forall x, x ∈ tis -> x ∈ tis) by done. revert Hsub.
    generalize tis at 1 4 5. intros l. induction l as [|x l IH]; intros Hsub; [done|]. simpl.
    rewrite filter_cons. destruct (in_start x) as [sx|] eqn:Ex.
    + destruct (Hb x sx) as (_ & _ & ->); [apply Hsub; by left|done|].
      rewrite decide_True by done. simpl. f_equal. apply IH. intros y Hy. apply Hsub. by right.
    + unfold gantt_bar at 1. rewrite Ex. rewrite decide_False by (intros []; done).
      apply IH. intros y Hy. apply Hsub. by right.
  - apply Forall_forall. intros b (x & Hx & Eb)%list_elem_of_omap.
    destruct (in_start x) as [sx|] eqn:Ex; [|unfold gantt_bar in Eb; by rewrite Ex in Eb].
    destruct (Hb x sx Hx Ex) as (B1 & B2 & B3). rewrite B3 in Eb. injection Eb as <-. simpl.
    destruct (percent_bounds (sx - t0) span) as [P1 P2]; [lia|lia|].
    destruct (percent_bounds (default sx (in_end x) - sx) span) as [P3 P4]; [lia|lia|].
    split; [done|]. split; [done|]. split; [apply Q.le_max_l|]. by apply Q.max_lub.
  - intros x y sx sy Hx Hy Ex Ey bx b_y Ebx Eby.
    destruct (Hb x sx Hx Ex) as (_ & _ & B3). destruct (Hb y sy Hy Ey) as (_ & _ & B3').
    rewrite B3 in Ebx. rewrite B3' in Eby. injection Ebx as <-. injection Eby as <-. simpl. split.
    + intros H. apply Qle_make. lia.
    + intros H. apply Q.max_le_compat_l, Qle_make. lia.
Qed.

Definition sample_run : run := Run (lit "success") (Some 0%Z) (Some 10000%Z).
Definition sample_insts : list inst :=
  [Inst (lit "1") (lit "extract") (lit "success") 1 (Some 0%Z) (Some 4000%Z);
   Inst (lit "2") (lit "load") (lit "success") 1 (Some 4000%Z) (Some 10000%Z)].

Lemma gantt_to_scale_witness :
  times_ok sample_run sample_insts /\
  g_task <$> gantt 20000 sample_run sample_insts = [lit "extract"; lit "load"].
Proof.
  assert (H : times_ok sample_run sample_insts).
  { exists 0%Z, 10000%Z. split; [reflexivity|]. split; [reflexivity|]. split; [lia|].
    repeat constructor; simpl; lia. }
  split; [exact H|].
  destruct (gantt_to_scale 20000 sample_run sample_insts H) as [-> _];
    [reflexivity|repeat constructor; discriminate|reflexivity].
Defined.

(** ** The summary of a run *)

Lemma find_In {A} (p : A -> bool) l x : List.find p l = Some x -> x ∈ l /\ p x = true.
Proof. intros [H ?]%find_some. by rewrite list_elem_of_In. Qed.
Lemma find_last_In {A} (p : A -> bool) l x : find_last p l = Some x -> x ∈ l /\ p x = true.
Proof. intros [H ?]%find_In. by rewrite elem_of_reverse in H. Qed.

Lemma filter_length_le {A} (p : A -> bool) l : length (List.filter p l) <= length l.
Proof. induction l as [|x l IH]; simpl; [lia|]. destruct (p x); simpl; lia. Qed.

Lemma progress_sum (tis : list inst) :
  length (List.filter (fun x => is_terminal (in_state x)) tis)
  + length (List.filter (fun x => bool_decide (in_state x = lit "running")) tis) <= length tis.
Proof.
  induction tis as [|x l IH]; simpl; [lia|].
  destruct (is_terminal (in_state x)) eqn:Et, (bool_decide (in_state x = lit "running")) eqn:Er; simpl; try lia.
  apply bool_decide_eq_true in Er. rewrite Er in Et. by vm_compute in Et.
Qed.

(** What the run page says of a run is consistent. The log that opens is an
    instance of the run whenever it has one, a running one when there is one (unless
    another step is pinned); finished and running instances do not overlap, and the
    meter stays within 4 and 100 percent, full exactly when every instance has
    finished; a retry is offered only to admins, on a finished run, for an instance
    that failed or was stopped, and then the run's own retry is offered too. *)
Theorem run_summary (r : run) (tis : list inst) (viewer : bool) :
  (forall pin x, pick_log pin tis = Some x -> x ∈ tis) /\
  (forall pin, pick_log pin tis = None <-> tis = []) /\
  (forall x, pick_log None tis = Some x -> Exists (fun y => in_state y = lit "running") tis ->
     in_state x = lit "running") /\
  (let '(done, total, running) := progress tis in done + running <= total) /\
  (tis <> [] -> (4 <= meter tis <= 100)%Z) /\
  (Forall (fun x => is_terminal (in_state x) = true) tis -> tis <> [] -> meter tis = 100%Z) /\
  (forall x, x ∈ tis -> (row_actions viewer r x).1 = true ->
     viewer = false /\ actions_of viewer r tis = ATerm true).
Proof.
  assert (Hp : forall pin x, pick_log pin tis = Some x -> x ∈ tis).
  { intros pin x H. unfold pick_log in H. unfold inst_of in H. repeat case_match; simplify_eq; try done;
      repeat match goal with
      | E : List.find _ _ = Some _ |- _ => apply find_In in E as [? _]
      | E : find_last _ _ = Some _ |- _ => apply find_last_In in E as [? _]
      end; try done; by apply head_Some_elem_of. }
  split_and!.
  - exact Hp.
  - intros pin. split; [|intros ->; by destruct pin]. unfold pick_log. repeat case_match; try done.
    all: by destruct tis.
  - intros x Hx (y & Hy & Ey)%Exists_exists. unfold pick_log in Hx.
    destruct (List.find _ tis) as [z|] eqn:E.
    + simplify_eq. apply find_In in E as [_ E]. by apply bool_decide_eq_true in E.
    + eapply find_none in E; [|by apply list_elem_of_In]. simpl in E. by rewrite bool_decide_eq_true_2 in E.
  - unfold progress. apply progress_sum.
  - intros Hne. unfold meter, progress. destruct (Nat.eqb_spec (length tis) 0) as [E|E]; [by destruct tis|].
    pose proof (filter_length_le (fun x => is_terminal (in_state x)) tis).
    assert (round_div (Z.of_nat (length (List.filter (fun x => is_terminal (in_state x)) tis)) * 100)
              (Z.of_nat (length tis)) <= 100)%Z; [apply round_div_le; nia|lia].
  - intros Hall Hne. unfold meter, progress. destruct (Nat.eqb_spec (length tis) 0) as [E|E]; [by destruct tis|].
    assert (Ef : List.filter (fun x => is_terminal (in_state x)) tis = tis).
    { clear -Hall. induction Hall as [|x l Hx _ IH]; [done|]. simpl. by rewrite Hx, IH. }
    rewrite Ef, Z.mul_comm, round_div_exact by lia. lia.
  - intros x Hx H. unfold row_actions in H. simpl in H. apply andb_true_iff in H as [H Hv].
    apply andb_true_iff in H as [Hr Hl]. apply negb_true_iff in Hv as ->. split; [done|].
    unfold actions_of. apply negb_true_iff in Hl as ->. f_equal.
    apply existsb_exists. exists x. split; [by apply list_elem_of_In|done].
Qed.

(** The novice page: every row of the checklist stands for one task, in order; a
    task is marked failed exactly when it failed or timed out; and when the banner
    names a failed step, it is the first failed task of the list, under its number,
    and that row is marked failed. *)
Theorem checklist_matches_banner r defs tis :
  NoDup (in_task <$> tis) ->
  (defs <> [] -> (step_rows r defs tis).*1 = defs) /\
  (forall i id ic tx, step_rows r defs tis !! i = Some (id, (ic, tx)) ->
     (ic = IcBad <-> task_failed tis id = true)) /\
  (forall i id, fail_index defs tis = Some (i, id) ->
     (exists tx, step_rows r defs tis !! i = Some (id, (IcBad, tx))) /\
     forall j k, j < i -> defs !! j = Some k -> task_failed tis k = false).
Proof.
  intros Hn.
  assert (Hinst : forall id, inst_of tis id = first_inst tis id).
  { intros id. unfold inst_of, first_inst.
    destruct (find_last _ tis) as [x|] eqn:E1, (List.find _ tis) as [y|] eqn:E2; [| | |done].
    - apply find_last_In in E1 as [Hx Ex%bool_decide_eq_true]. apply find_In in E2 as [Hy Ey%bool_decide_eq_true].
      f_equal. apply list_elem_of_lookup in Hx as [i Hi], Hy as [j Hj].
      assert (i = j).
      { eapply NoDup_lookup; [exact Hn|..]; rewrite list_lookup_fmap; [by rewrite Hi|rewrite Hj]. simpl. congruence. }
      subst. congruence.
    - apply find_last_In in E1 as [Hx Ex]. eapply find_none in E2; [|by apply list_elem_of_In]. congruence.
    - apply find_In in E2 as [Hx Ex]. unfold find_last in E1.
      eapply find_none in E1; [|apply list_elem_of_In; by rewrite elem_of_reverse]. congruence. }
  assert (Hbad : forall b i id, (step_row b i (inst_of tis id)).1 = IcBad <-> task_failed tis id = true).
  { intros b i id. rewrite Hinst. unfold task_failed, step_row, failed_state.
    destruct (first_inst tis id) as [x|]; simpl; [|by split].
    destruct (decide (in_state x = lit "success")) as [E|Es]; [rewrite E; split; done|].
    rewrite (bool_decide_eq_false_2 (in_state x = lit "success")) by done.
    repeat (case_bool_decide; simpl; try done); split; done. }
  split_and!.
  - intros Hd. unfold step_rows. destruct defs as [|d ds]; [done|].
    apply list_eq. intros i. rewrite list_lookup_fmap, list_lookup_imap. by destruct ((d :: ds) !! i).
  - intros i id ic tx. unfold step_rows. rewrite list_lookup_imap.
    destruct (_ !! i) as [k|] eqn:E; [|done]. simpl. intros [= -> Hrow].
    rewrite <- (Hbad (negb (runLive (r_state r))) i id). by rewrite Hrow.
  - intros i id Hf. unfold fail_index in Hf. apply list_find_Some in Hf as (Hi & Hfail & Hbefore).
    split.
    + unfold step_rows. destruct defs as [|d ds]; [done|]. rewrite list_lookup_imap, Hi. simpl.
      pose proof (proj2 (Hbad (negb (runLive (r_state r))) i id) Hfail) as Hb.
      destruct (step_row _ _ _) as [ic tx]. simpl in Hb. subst. by exists tx.
    + intros j k Hj Hk. apply not_true_iff_false. by eapply Hbefore.
Qed.

Definition failed_insts : list inst :=
  [Inst (lit "1") (lit "extract") (lit "success") 1 (Some 0%Z) (Some 4000%Z);
   Inst (lit "2") (lit "load") (lit "failed") 3 (Some 4000%Z) (Some 9000%Z)].

Lemma checklist_matches_banner_witness :
  NoDup (in_task <$> failed_insts) /\
  exists tx, step_rows (Run (lit "failed") None None) [lit "extract"; lit "load"] failed_insts !! 1
             = Some (lit "load", (IcBad, tx)).
Proof.
  assert (H : NoDup (in_task <$> failed_insts)) by compute_decide. split; [exact H|].
  destruct (checklist_matches_banner (Run (lit "failed") None None) [lit "extract"; lit "load"] failed_insts H)
    as (_ & _ & Hf).
  apply (Hf 1 (lit "load")). vm_compute. reflexivity.
Defined.
