(* ===== verification/Settings.v ===== *)
(** * The settings tab of a workflow, and the novice page's notification switch (views.js)

    Each setting is a row; one row at a time is open for editing ([D.editKey]) and
    every edit is saved at once. The event chips of the notification row keep a
    class of their own in the page; the development relates it to the model. *)

From S2P Require Import Prelude JsCore Schedule TaskGraph DagModel DagEdit.

(** ** Fields of the workflow *)

Definition with_sched (v : sched) (d : dag) : dag :=
  let '(Dag i _ st c p m r po ta u on f g sl t h) := d in Dag i v st c p m r po ta u on f g sl t h.
Definition with_start (v : jstr) (d : dag) : dag :=
  let '(Dag i s _ c p m r po ta u on f g sl t h) := d in Dag i s v c p m r po ta u on f g sl t h.
Definition with_catchup (v : bool) (d : dag) : dag :=
  let '(Dag i s st _ p m r po ta u on f g sl t h) := d in Dag i s st v p m r po ta u on f g sl t h.
Definition with_max (v : Z) (d : dag) : dag :=
  let '(Dag i s st c p _ r po ta u on f g sl t h) := d in Dag i s st c p v r po ta u on f g sl t h.
Definition with_retries (v : Z) (d : dag) : dag :=
  let '(Dag i s st c p m _ po ta u on f g sl t h) := d in Dag i s st c p m v po ta u on f g sl t h.
Definition with_policy (v : jstr) (d : dag) : dag :=
  let '(Dag i s st c p m r _ ta u on f g sl t h) := d in Dag i s st c p m r v ta u on f g sl t h.
Definition with_after (v : list jstr) (d : dag) : dag :=
  let '(Dag i s st c p m r po _ u on f g sl t h) := d in Dag i s st c p m r po v u on f g sl t h.
Definition with_url (v : jstr) (d : dag) : dag :=
  let '(Dag i s st c p m r po ta _ on f g sl t h) := d in Dag i s st c p m r po ta v on f g sl t h.
Definition with_on (v : list jstr) (d : dag) : dag :=
  let '(Dag i s st c p m r po ta u _ f g sl t h) := d in Dag i s st c p m r po ta u v f g sl t h.
Definition with_format (v : jstr) (d : dag) : dag :=
  let '(Dag i s st c p m r po ta u on _ g sl t h) := d in Dag i s st c p m r po ta u on v g sl t h.
Definition with_group (v : jstr) (d : dag) : dag :=
  let '(Dag i s st c p m r po ta u on f _ sl t h) := d in Dag i s st c p m r po ta u on f v sl t h.
Definition with_sla (v : Z) (d : dag) : dag :=
  let '(Dag i s st c p m r po ta u on f g _ t h) := d in Dag i s st c p m r po ta u on f g v t h.
Definition with_timeout (v : Z) (d : dag) : dag :=
  let '(Dag i s st c p m r po ta u on f g sl _ h) := d in Dag i s st c p m r po ta u on f g sl v h.

(** ** What the rows show *)

Definition nEvents : list jstr := [lit "failure"; lit "success"].
Definition POLICIES : list jstr := [[]; lit "serial_wait"; lit "serial_discard"; lit "serial_priority"].

(** [notifyTarget] *)
Definition notifyTarget (d : dag) : bool :=
  truthy (trim (d_notify_url d)) || truthy (trim (d_notify_group d)).

(** The tags of the collapsed notification row. *)
Definition notify_tags (d : dag) : list jstr :=
  if notifyTarget d then List.filter (fun e => bool_decide (e ∈ d_notify_on d)) nEvents else [].

(** The class "on" of an event chip when the row is drawn. *)
Definition chip_drawn (d : dag) (e : jstr) : bool :=
  notifyTarget d && bool_decide (e ∈ d_notify_on d).

(** The workflows the dependency row offers, each where it comes first ([new Set]). *)
Definition others (allDags : list jstr) (d : dag) : list jstr :=
  reverse (remove_dups (reverse
    (List.filter (fun x => negb (bool_decide (x = d_dag_id d))) allDags ++ d_trigger_after d))).

(** The options of the alert group, the current one kept when the list lacks it. *)
Definition group_options (names : option (list jstr)) (d : dag) : list jstr :=
  let cur := trim (d_notify_group d) in
  let ns := default [] names in
  [] :: (if truthy cur && negb (bool_decide (cur ∈ ns)) then ns ++ [cur] else ns).

(** The policy the row selects: an unknown one reads as the default. *)
Definition policy_shown (d : dag) : jstr :=
  if bool_decide (d_execution_policy d ∈ POLICIES) then d_execution_policy d else [].

(** ** The tab and its events *)

Inductive setrow := RSched | RMax | RPolicy | RRetries | RSla | RTimeout | RDeps | RNotify.
#[export] Instance setrow_eq_dec : EqDecision setrow.
Proof. solve_decision. Defined.

Record settab := Settab {
  sg_page : page;
  sg_all : list jstr;           (** [D.allDags] *)
  sg_key : option setrow;       (** [D.editKey] *)
  sg_chips : jstr -> bool;      (** class "on" of the event chips on screen *)
}.
Definition sg_dag (s : settab) : dag := pg_dag (sg_page s).

Inductive set_event :=
| OpenRow (r : setrow) | CloseRow
| ESched (e : sched_event) | EStart (v : jstr) | ECatchup (v : bool)
| EMax (v : numf) | EPolicy (v : jstr) | ERetries (v : numf) | ESla (v : numf) | ETimeout (v : numf)
| EAfter (x : jstr)
| EUrl (v : jstr) | EGroup (v : jstr) | EEvent (x : jstr) | EFormat (v : jstr).

Definition row_of (e : set_event) : option setrow :=
  match e with
  | OpenRow _ | CloseRow => None
  | ESched _ | EStart _ | ECatchup _ => Some RSched | EMax _ => Some RMax | EPolicy _ => Some RPolicy
  | ERetries _ => Some RRetries | ESla _ => Some RSla | ETimeout _ => Some RTimeout
  | EAfter _ => Some RDeps
  | EUrl _ | EGroup _ | EEvent _ | EFormat _ => Some RNotify
  end.

(** A control can be used when its row is open; the lists offer only their options. *)
Definition row_enabled (s : settab) (e : set_event) : bool :=
  match row_of e with
  | Some r => bool_decide (sg_key s = Some r)
  | None => true
  end &&
  match e with
  | EPolicy v => bool_decide (v ∈ POLICIES)
  | EAfter x => bool_decide (x ∈ others (sg_all s) (sg_dag s))
  | EEvent x => bool_decide (x ∈ nEvents)
  | _ => true
  end.

(** [syncNotifyTargets]: without a target the events are cleared and the chips go off. *)
Definition syncNotifyTargets (d : dag) (chips : jstr -> bool) : dag * (jstr -> bool) :=
  if notifyTarget d then (d, chips) else (with_on [] d, fun _ => false).

Definition edit_dag (e : set_event) (d : dag) (chips : jstr -> bool) : dag * (jstr -> bool) :=
  match e with
  | OpenRow _ | CloseRow => (d, chips)
  | ESched ev => (with_sched (sched_step ev (d_sched d)) d, chips)
  | EStart v => (with_start v d, chips)
  | ECatchup v => (with_catchup v d, chips)
  | EMax v => (with_max (int_or (Some (num_of v)) 1) d, chips)
  | EPolicy v => (with_policy v d, chips)
  | ERetries v => (with_retries (num_of v) d, chips)
  | ESla v => (with_sla (Z.max 0 (num_of v)) d, chips)
  | ETimeout v => (with_timeout (Z.max 0 (num_of v)) d, chips)
  | EAfter x => (with_after (toggle_dep x (d_trigger_after d)) d, chips)
  | EUrl v => syncNotifyTargets (with_url (trim v) d) chips
  | EGroup v => syncNotifyTargets (with_group v d) chips
  | EEvent x => (with_on (toggle_dep x (d_notify_on d)) d,
                 fun y => if bool_decide (y = x) then negb (chips y) else chips y)
  | EFormat v => (with_format v d, chips)
  end.

(** An edit of a control: the model changes, then [saveDag]. *)
Definition apply_edit (e : set_event) (s : settab) : settab * list effect :=
  let dc := edit_dag e (sg_dag s) (sg_chips s) in
  let r := saveDag (set_dag dc.1 (sg_page s)) in
  (Settab r.1 (sg_all s) (sg_key s) dc.2, r.2).

Definition set_step (e : set_event) (s : settab) : option (settab * list effect) :=
  if negb (row_enabled s e) then None
  else match e with
  | OpenRow r => Some (Settab (sg_page s) (sg_all s) (Some r) (chip_drawn (sg_dag s)), [Render])
  | CloseRow => Some (Settab (sg_page s) (sg_all s) None (sg_chips s), [Render])
  | EEvent x => if notifyTarget (sg_dag s) then Some (apply_edit e s) else Some (s, [])
  | _ => Some (apply_edit e s)
  end.

Fixpoint set_run (es : list set_event) (s : settab) : option settab :=
  match es with
  | [] => Some s
  | e :: es' => match set_step e s with Some (s', _) => set_run es' s' | None => None end
  end.

(** The tab as it is drawn first. *)
Definition settab_of (p : page) (allDags : list jstr) : settab :=
  Settab p allDags None (chip_drawn (pg_dag p)).

(** ** The novice page's switch ([nvNotifySync]) *)

(** The message format follows from the host of the address. *)
Definition nv_format (url cur : jstr) : jstr :=
  if includes (lit "hooks.slack.com") url then lit "slack"
  else if includes (lit "open.feishu.cn") url then lit "feishu"
  else if includes (lit "oapi.dingtalk.com") url then lit "dingtalk"
  else cur.

Definition nvNotifySync (on : bool) (typed : jstr) (d : dag) : dag :=
  let url := trim typed in
  let d1 := with_url (if on || truthy url then url else []) d in
  let d2 := with_on (if on && (truthy url || truthy (trim (d_notify_group d1)))
                     then [lit "failure"] else []) d1 in
  let d3 := if truthy url then with_format (nv_format url (d_notify_format d2)) d2 else d2 in
  if negb on && negb (truthy url) then with_url [] d3 else d3.

(** The checkbox as the page is drawn. *)
Definition nv_checked (d : dag) : bool :=
  (truthy (d_notify_url d) || truthy (d_notify_group d)) && bool_decide (lit "failure" ∈ d_notify_on d).

(** ** The settings a workflow may have *)

Record settings_ok (d : dag) : Prop := {
  so_events : Forall (fun e => e ∈ nEvents) (d_notify_on d);
  so_nodup : NoDup (d_notify_on d);
  so_target : d_notify_on d <> [] -> notifyTarget d = true;
  so_policy : d_execution_policy d ∈ POLICIES;
  so_after : NoDup (d_trigger_after d) /\ d_dag_id d ∉ d_trigger_after d;
  so_max : d_max_active_runs d <> 0%Z;
  so_times : (0 <= d_sla d /\ 0 <= d_dagrun_timeout d)%Z;
}.

Definition chips_ok (s : settab) : Prop :=
  sg_key s = Some RNotify ->
  forall x, x ∈ nEvents -> sg_chips s x = bool_decide (x ∈ d_notify_on (sg_dag s)).

Lemma saveDag_dag p : pg_dag (saveDag p).1 = pg_dag p.
Proof. unfold saveDag. by repeat case_match. Qed.
Lemma saveDag_tasks p : pg_tasks (saveDag p).1 = pg_tasks p.
Proof. unfold saveDag. by repeat case_match. Qed.

(** A save is armed, or the errors that hold it are shown. *)
Definition save_asked (es : list effect) : Prop := ArmSave ∈ es \/ exists errs, Invalid errs ∈ es.

Lemma saveDag_asked p : pg_deleting p = false -> save_asked (saveDag p).2.
Proof.
  intros H. unfold saveDag. rewrite H. destruct (validateDag (pg_dag p) (pg_tasks p)) as [|e es].
  - left. by apply list_elem_of_singleton.
  - right. exists (e :: es). by apply list_elem_of_singleton.
Qed.

(** A step opens or closes a row, does nothing, or is an edit followed by a save. *)
Lemma set_step_inv e s s' out :
  set_step e s = Some (s', out) ->
  row_enabled s e = true /\
  ((exists r, s' = Settab (sg_page s) (sg_all s) (Some r) (chip_drawn (sg_dag s))) \/
   s' = Settab (sg_page s) (sg_all s) None (sg_chips s) \/ s' = s \/
   (row_of e <> None /\ (forall x, e = EEvent x -> notifyTarget (sg_dag s) = true) /\
    (s', out) = apply_edit e s)).
Proof.
  unfold set_step. destruct (row_enabled s e) eqn:Ee; [|done]. cbn [negb]. intros E. split; [done|].
  destruct e as [r| | | | | | | | | | | | |x|];
    try (right; right; right; split; [done|]; split; [done|]; congruence).
  - left. exists r. congruence.
  - right; left. congruence.
  - destruct (notifyTarget (sg_dag s)) eqn:Hn.
    + right; right; right. split; [done|]. split; [done|]. congruence.
    + right; right; left. congruence.
Qed.

Lemma apply_edit_fields e s :
  sg_dag (apply_edit e s).1 = (edit_dag e (sg_dag s) (sg_chips s)).1 /\
  sg_chips (apply_edit e s).1 = (edit_dag e (sg_dag s) (sg_chips s)).2 /\
  sg_key (apply_edit e s).1 = sg_key s /\ sg_all (apply_edit e s).1 = sg_all s /\
  pg_tasks (sg_page (apply_edit e s).1) = pg_tasks (sg_page s).
Proof. unfold apply_edit, sg_dag; simpl. rewrite saveDag_dag, saveDag_tasks. done. Qed.

Lemma remove_first_sub x l y : y ∈ remove_first x l -> y ∈ l.
Proof.
  induction l as [|z l IH]; [done|]; simpl. case_bool_decide; rewrite !elem_of_cons; [by right|].
  intros [->|?]; [by left|right; by apply IH].
Qed.

(** A chip's toggle of a list without repetition adds or removes exactly its entry. *)
Lemma toggle_dep_elem x l y :
  NoDup l -> y ∈ toggle_dep x l <-> (if bool_decide (y = x) then x ∉ l else y ∈ l).
Proof.
  intros Hn. unfold toggle_dep. case_bool_decide as Hx.
  - induction Hn as [|z l Hz Hn IH]; [by apply elem_of_nil in Hx|]. simpl.
    destruct (bool_decide_reflect (z = x)) as [->|Hzx].
    + case_bool_decide; set_solver.
    + rewrite elem_of_cons. assert (Hx' : x ∈ l) by set_solver. specialize (IH Hx').
      case_bool_decide; set_solver.
  - case_bool_decide; set_solver.
Qed.

Lemma toggle_dep_nodup x l : NoDup l -> NoDup (toggle_dep x l).
Proof.
  intros Hn. unfold toggle_dep. case_bool_decide as Hx; [|by apply NoDup_snoc].
  clear Hx. induction Hn as [|z l Hz Hn IH]; [constructor|]; simpl. case_bool_decide; [done|].
  constructor; [|done]. intros Hr%remove_first_sub. done.
Qed.

(** ** The invariant of the tab *)

Lemma syncNotifyTargets_ok d chips :
  Forall (fun e => e ∈ nEvents) (d_notify_on d) -> NoDup (d_notify_on d) ->
  d_execution_policy d ∈ POLICIES -> NoDup (d_trigger_after d) /\ d_dag_id d ∉ d_trigger_after d ->
  d_max_active_runs d <> 0%Z -> (0 <= d_sla d /\ 0 <= d_dagrun_timeout d)%Z ->
  settings_ok (syncNotifyTargets d chips).1.
Proof.
  intros. unfold syncNotifyTargets. destruct (notifyTarget d) eqn:E; [by constructor|].
  destruct d. constructor; simpl in *; done || constructor.
Qed.

Lemma syncNotifyTargets_chips d chips :
  (forall x, x ∈ nEvents -> chips x = bool_decide (x ∈ d_notify_on d)) ->
  forall x, x ∈ nEvents -> (syncNotifyTargets d chips).2 x
                           = bool_decide (x ∈ d_notify_on (syncNotifyTargets d chips).1).
Proof.
  intros H x Hx. unfold syncNotifyTargets. destruct (notifyTarget d); [by apply H|]. by destruct d.
Qed.

Lemma edit_dag_ok e s :
  row_enabled s e = true -> (forall x, e = EEvent x -> notifyTarget (sg_dag s) = true) ->
  settings_ok (sg_dag s) -> settings_ok (edit_dag e (sg_dag s) (sg_chips s)).1.
Proof.
  intros He Ht Hok. unfold row_enabled in He. apply andb_true_iff in He as [_ He].
  pose proof Hok as [H1 H2 H3 H4 [H5 H5'] H6 H7].
  destruct e; simpl; try done;
    try (apply syncNotifyTargets_ok; destruct (sg_dag s); done);
    try (destruct (sg_dag s); constructor; simpl in *; done).
  - destruct (sg_dag s); constructor; simpl in *; try done. by destruct (num_of v).
  - apply bool_decide_eq_true in He. destruct (sg_dag s); constructor; simpl in *; done.
  - destruct (sg_dag s); constructor; simpl in *; try done. lia.
  - destruct (sg_dag s); constructor; simpl in *; try done. lia.
  - apply bool_decide_eq_true in He. unfold others in He.
    apply elem_of_reverse, elem_of_remove_dups, elem_of_reverse, elem_of_app in He.
    destruct (sg_dag s); constructor; simpl in *; try done.
    split; [by apply toggle_dep_nodup|]. rewrite toggle_dep_elem by done. case_bool_decide; [|done].
    intros _. destruct He as [He%list_elem_of_In%filter_In|He]; [|by subst].
    destruct He as [_ He]. by rewrite bool_decide_eq_true_2 in He.
  - apply bool_decide_eq_true in He. specialize (Ht _ eq_refl).
    destruct (sg_dag s); constructor; simpl in *; try done; [|by apply toggle_dep_nodup].
    apply Forall_forall. intros y. rewrite toggle_dep_elem by done. rewrite Forall_forall in H1.
    case_bool_decide; [by subst|apply H1].
Qed.

Lemma edit_dag_chips e s :
  settings_ok (sg_dag s) -> chips_ok s ->
  sg_key s = Some RNotify -> forall x, x ∈ nEvents ->
  (edit_dag e (sg_dag s) (sg_chips s)).2 x
  = bool_decide (x ∈ d_notify_on (edit_dag e (sg_dag s) (sg_chips s)).1).
Proof.
  intros Hok Hc Hk. specialize (Hc Hk). pose proof (so_nodup _ Hok) as Hn. revert Hc Hn.
  generalize (sg_dag s) as d, (sg_chips s) as c. intros d c Hc Hn x Hx.
  destruct e; simpl; try (by apply Hc);
    try (apply syncNotifyTargets_chips; [|done]; intros y Hy; rewrite Hc by done);
    destruct d; simpl in *; try done; try (by apply Hc).
  rewrite Hc by done. apply eq_true_iff_eq. rewrite bool_decide_eq_true, toggle_dep_elem by done.
  case_bool_decide; [subst x0|by rewrite bool_decide_eq_true].
  by rewrite negb_true_iff, bool_decide_eq_false.
Qed.

(** What a session of the tab keeps. *)
Record tab_inv (id : jstr) (ts : list task) (s : settab) : Prop := {
  ti_ok : settings_ok (sg_dag s);
  ti_id : d_dag_id (sg_dag s) = id;
  ti_tasks : pg_tasks (sg_page s) = ts;
  ti_chips : chips_ok s;
}.

Lemma edit_dag_id e d c : d_dag_id (edit_dag e d c).1 = d_dag_id d.
Proof.
  destruct e; simpl; try (by destruct d); unfold syncNotifyTargets; case_match; by destruct d.
Qed.

Lemma chip_drawn_on d x :
  settings_ok d -> chip_drawn d x = bool_decide (x ∈ d_notify_on d).
Proof.
  intros H. unfold chip_drawn. destruct (notifyTarget d) eqn:E; [done|]; simpl.
  symmetry. apply bool_decide_eq_false. intros Hx. rewrite (so_target _ H) in E; [done|].
  intros E'. by rewrite E' in Hx; apply elem_of_nil in Hx.
Qed.

Lemma tab_inv_step id ts e s s' out :
  tab_inv id ts s -> set_step e s = Some (s', out) -> tab_inv id ts s'.
Proof.
  intros [H1 H2 H3 H4] Hs. destruct (set_step_inv _ _ _ _ Hs) as (He & Hcase).
  destruct Hcase as [(r & ->)|[->|[->|(Hr & Ht & Ea)]]].
  - constructor; try done. intros _ x Hx. by apply chip_drawn_on.
  - by constructor.
  - by constructor.
  - destruct (apply_edit_fields e s) as (F1 & F2 & F3 & F4 & F5). rewrite <- Ea in *. simpl in *.
    constructor.
    + rewrite F1. by apply edit_dag_ok.
    + rewrite F1, edit_dag_id. done.
    + by rewrite F5.
    + intros Hk x Hx. rewrite F2, F1. rewrite F3 in Hk. by apply edit_dag_chips.
Qed.

Lemma tab_inv_run id ts es s s' : tab_inv id ts s -> set_run es s = Some s' -> tab_inv id ts s'.
Proof.
  revert s; induction es as [|e es IH]; intros s Hi; simpl; [by intros [= <-]|].
  destruct (set_step e s) as [[s1 o]|] eqn:E; [|done]. apply IH. by eapply tab_inv_step.
Qed.


Lemma open_settings_ok : settings_ok (pg_dag (open_page two_steps)).
Proof. constructor; try compute_decide; done. Qed.

Definition sample_settings : list set_event :=
  [OpenRow RNotify; EUrl (lit " https://hooks.example/x "); EEvent (lit "failure"); EEvent (lit "success");
   EEvent (lit "failure"); EFormat (lit "slack"); CloseRow; OpenRow RSla; ESla (NumF (-4)); CloseRow;
   OpenRow RDeps; EAfter (lit "ingest"); CloseRow; OpenRow RNotify; EUrl []].


(** A workflow whose file names events but no destination is served with both, and
    the tab then shows the opposite of what it saves: typing a destination makes the
    events effective while their chips stay off, and the click that turns the chip
    on takes the event out of the model. *)
Theorem notify_chip_inverted :
  let d := with_on [lit "failure"] (pg_dag (open_page two_steps)) in
  let url := lit "https://hooks.example/x" in
  exists s1 s2,
    set_run [OpenRow RNotify; EUrl url] (settab_of (set_dag d (open_page two_steps)) []) = Some s1 /\
    sg_chips s1 (lit "failure") = false /\ s_notify_on (dagSpecFrom (sg_dag s1) []) = [lit "failure"] /\
    set_run [EEvent (lit "failure")] s1 = Some s2 /\
    sg_chips s2 (lit "failure") = true /\ s_notify_on (dagSpecFrom (sg_dag s2) []) = [].
Proof.
  do 2 eexists. split; [vm_compute; reflexivity|]. split; [reflexivity|]. split; [reflexivity|].
  split; [vm_compute; reflexivity|]. split; reflexivity.
Qed.

(** ** The novice switch *)

Lemma nvNotifySync_fields on typed d :
  let url := trim typed in
  d_notify_url (nvNotifySync on typed d) = url /\
  d_notify_group (nvNotifySync on typed d) = d_notify_group d /\
  d_notify_on (nvNotifySync on typed d)
  = if on && (truthy url || truthy (trim (d_notify_group d))) then [lit "failure"] else [].
Proof.
  intros url. unfold nvNotifySync. fold url. destruct d. simpl.
  destruct on, url; simpl; done.
Qed.

(** The novice switch writes the model the settings tab edits: an alert group chosen
    there is kept, the events are "on failure" exactly when the switch is on and there
    is a destination, and the page drawn again shows the switch in that position; the
    settings stay ones the server takes. *)
Theorem novice_switch on typed d :
  let d' := nvNotifySync on typed d in
  d_notify_group d' = d_notify_group d /\ d_notify_url d' = trim typed /\
  nv_checked d' = on && notifyTarget d' /\
  (d_notify_on d' = [lit "failure"] <-> nv_checked d' = true) /\
  (settings_ok d -> settings_ok d').
Proof.
  intros d'. destruct (nvNotifySync_fields on typed d) as (H1 & H2 & H3). fold d' in H1, H2, H3.
  assert (Ht : notifyTarget d' = truthy (trim typed) || truthy (trim (d_notify_group d))).
  { unfold notifyTarget. by rewrite H1, H2, trim_idem. }
  rewrite <- Ht in H3.
  assert (Hc : nv_checked d' = on && notifyTarget d').
  { unfold nv_checked. rewrite H3, H1, H2. destruct on; simpl; [|apply andb_false_r].
    destruct (notifyTarget d') eqn:E; [|apply andb_false_r]. rewrite Ht in E.
    destruct (trim typed); [|done]. simpl in *. destruct (d_notify_group d); done. }
  rewrite Hc. split_and!; try done.
  - rewrite H3. by destruct (on && notifyTarget d').
  - intros [G1 G2 G3 G4 G5 G6 G7].
    assert (E : d_execution_policy d' = d_execution_policy d /\ d_trigger_after d' = d_trigger_after d /\
      d_dag_id d' = d_dag_id d /\ d_max_active_runs d' = d_max_active_runs d /\ d_sla d' = d_sla d /\
      d_dagrun_timeout d' = d_dagrun_timeout d).
    { unfold d', nvNotifySync. destruct d; simpl. destruct on, (trim typed); done. }
    destruct E as (E1 & E2 & E3 & E4 & E5 & E6).
    constructor; rewrite ?E1, ?E2, ?E3, ?E4, ?E5, ?E6, ?H3; try done;
      destruct on, (notifyTarget d'); simpl; try done; try constructor; try compute_decide.
Qed.
