(* ===== verification/PillEditor.v ===== *)
(** * The variable pill editor and the typed command form (views.js)

    A command is edited as text with atomic pills for its [{{ name }}] placeholders.
    The editor's content is a list of DOM nodes; [fillPillEditor] builds it from the
    stored string and [readPillEditor] serializes it back. A caret splits the content
    in two ([l], [r]), a text node under it into two text nodes. *)

From S2P Require Import Prelude JsCore Schedule DagModel.

(** ** Placeholders *)

Definition is_word (c : N) : bool := (is_alnum c || (c =? ch "_") || (c =? ch "."))%N.

(** [/\{\{\s*([\w.]+)\s*\}\}/] at the start of [s]: the name and what follows. The
    classes of the pattern are disjoint, so the greedy scan needs no backtracking. *)
Definition tpl_at (s : jstr) : option (jstr * jstr) :=
  match strip_prefix (lit "{{") s with
  | None => None
  | Some r =>
    let '(name, r1) := span is_word (span is_ws r).2 in
    match name, strip_prefix (lit "}}") (span is_ws r1).2 with
    | _ :: _, Some r2 => Some (name, r2)
    | _, _ => None
    end
  end.

(** [TPL_RE.exec]: the first placeholder, with the text before and after it. *)
Fixpoint exec_tpl (s : jstr) : option (jstr * jstr * jstr) :=
  match tpl_at s with
  | Some (name, r) => Some ([], name, r)
  | None =>
    match s with
    | [] => None
    | c :: s' => match exec_tpl s' with
                 | Some (b, name, r) => Some (c :: b, name, r)
                 | None => None
                 end
    end
  end.

Definition token (name : jstr) : jstr := lit "{{ " ++ name ++ lit " }}".

(** ** The editor's content *)

Definition ZWSP : N := 8203.
Definition NL : N := 10.

Inductive dnode :=
| Txt (data : jstr)
| Pill (name : jstr)                          (** a span of class pill *)
| Br
| Elem (block : bool) (kids : list dnode).    (** any other element; DIV and P are blocks *)

Definition text_node (s : jstr) : list dnode := match s with [] => [] | _ => [Txt s] end.

(** [fillPillEditor]; a placeholder takes at least one character, so as many
    rounds as there are characters are enough. *)
Fixpoint fill_loop (fuel : nat) (s : jstr) : list dnode :=
  match fuel with
  | O => text_node s
  | S f => match exec_tpl s with
           | Some (b, name, r) => text_node b ++ Pill name :: fill_loop f r
           | None => text_node s
           end
  end.
Definition fillPillEditor (s : jstr) : list dnode := fill_loop (length s) s.

(** One node of [walk]: the output so far and whether a pill came last. *)
Fixpoint walk_node (n : dnode) (st : jstr * bool) {struct n} : jstr * bool :=
  match n with
  | Txt d =>
    let d' := match d with c :: d0 => if st.2 && (c =? ZWSP)%N then d0 else d | [] => d end in
    (st.1 ++ d', false)
  | Pill name => (st.1 ++ token name, true)
  | Br => (st.1 ++ [NL], false)
  | Elem block kids =>
    let out := if block && truthy st.1 && negb (bool_decide (last st.1 = Some NL))
               then st.1 ++ [NL] else st.1 in
    ((fold_left (fun st k => walk_node k st) kids (out, st.2)).1, false)
  end.
Definition walk (ns : list dnode) (st : jstr * bool) : jstr * bool :=
  fold_left (fun st k => walk_node k st) ns st.

Definition readPillEditor (ed : list dnode) : jstr := (walk ed ([], false)).1.

(** ** Editing *)

(** [insertNodesAtCaret], once the selection is deleted: the new nodes at the caret. *)
Definition insertNodesAtCaret (l new r : list dnode) : list dnode := l ++ new ++ r.

(** [insertPill]: a pill and the text node that keeps a caret position after it. *)
Definition insertPill (l r : list dnode) (name : jstr) : list dnode :=
  insertNodesAtCaret l [Pill name; Txt [ZWSP]] r.
Definition insertPlainText (l r : list dnode) (text : jstr) : list dnode :=
  insertNodesAtCaret l [Txt text] r.

(** [removePill] for the pill between [l] and [r]. *)
Definition removePill (l r : list dnode) : list dnode :=
  match r with
  | Txt d :: r' => if bool_decide (d = [ZWSP]) then l ++ r' else l ++ r
  | _ => l ++ r
  end.

Definition anchors (d : jstr) : bool := forallb (fun c => (c =? ZWSP)%N) d.

(** [adjacentPill] for a caret in the text node [d] at offset [off], or between
    [l] and [r] ([None]): the pill next to the caret in the direction asked for. The
    siblings come nearest first. *)
Definition skip_anchor (sibs : list dnode) : list dnode :=
  match sibs with Txt d :: r => if anchors d then r else sibs | _ => sibs end.
Definition adjacentPill (caret : option (jstr * nat)) (before : bool) (l r : list dnode) : option jstr :=
  let sibs := if before then reverse l else r in
  let near := match caret with
    | Some (d, off) => if anchors (if before then take off d else drop off d) then Some sibs else None
    | None => Some sibs
    end in
  match near with
  | None => None
  | Some sibs => match skip_anchor sibs with Pill name :: _ => Some name | _ => None end
  end.

(** [txt.replace(/[\r\n]+/g, " ")] *)
Fixpoint one_line (after : bool) (s : jstr) : jstr :=
  match s with
  | [] => []
  | c :: s' => if ((c =? 13) || (c =? NL))%N
               then (if after then one_line true s' else ch " " :: one_line true s')
               else c :: one_line false s'
  end.

(** What the keyboard and the clipboard do; typing is the browser's, and adds text
    without line breaks. *)
Inductive pe_event :=
| Typed (text : jstr) | EnterKey | Pasted (text : jstr) | PillPicked (name : jstr).

(** The content after an event at the caret; [single] is the editor's data-single. *)
Definition pe_step (single : bool) (e : pe_event) (l r : list dnode) : list dnode :=
  match e with
  | Typed x => insertPlainText l r x
  | EnterKey => if single then l ++ r else insertPlainText l r [NL]
  | Pasted x => insertPlainText l r (if single then one_line false x else x)
  | PillPicked name => insertPill l r name
  end.

(** The kind of a placeholder, which decides a pill's colour. *)
Inductive pill_kind := KBuiltin | KVar | KConn | KParams | KOther.
Definition TEMPLATE_VARS : list jstr :=
  [lit "logical_date"; lit "logical_datetime"; lit "run_id"; lit "dag_id"; lit "task_id"; lit "try_number"].
Definition tplMeta (name : jstr) : pill_kind * option label :=
  if bool_decide (name ∈ TEMPLATE_VARS) then (KBuiltin, Some (T (lit "vd_" ++ name) []))
  else if starts_with (lit "logical_date") name then (KBuiltin, Some (T (lit "vd_date_expr") []))
  else if starts_with (lit "var.") name then (KVar, Some (T (lit "vd_var") []))
  else if starts_with (lit "conn.") name then (KConn, Some (T (lit "vd_conn") []))
  else if starts_with (lit "params.") name then (KParams, Some (T (lit "vd_params") []))
  else (KOther, None).
(** [name] alone when there is no description. *)
Definition pill_title (name : jstr) : list label :=
  match (tplMeta name).2 with Some d => [Raw name; Raw (lit " — "); d] | None => [Raw name] end.

(** ** Lemmas on placeholders *)

Lemma span_app_stop {A} (p : A -> bool) u c y :
  p c = false -> span p (u ++ c :: y) = ((span p u).1, (span p u).2 ++ c :: y).
Proof.
  intros Hc. induction u as [|x u IH]; simpl; [by rewrite Hc|].
  destruct (p x); [|done]. rewrite IH. by destruct (span p u).
Qed.

Definition all_ws (w : jstr) : Prop := Forall (fun c => is_ws c = true) w.
Definition name_ok (n : jstr) : Prop := n <> [] /\ Forall (fun c => is_word c = true) n.

Lemma word_not_ws c : is_word c = true -> is_ws c = false.
Proof.
  unfold is_word, is_alnum, is_digit, is_ws. intros H.
  rewrite !orb_true_iff, !andb_true_iff, !N.eqb_eq, !N.leb_le in H.
  rewrite !orb_false_iff, !andb_false_iff, !N.eqb_neq, !N.leb_gt. lia.
Qed.

(** A placeholder as it is written. *)
Definition written (w1 n w2 : jstr) : jstr := lit "{{" ++ w1 ++ n ++ w2 ++ lit "}}".

Lemma tpl_at_written w1 n w2 r :
  all_ws w1 -> all_ws w2 -> name_ok n -> tpl_at (written w1 n w2 ++ r) = Some (n, r).
Proof.
  intros H1 H2 [Hn Hw]. unfold tpl_at, written. rewrite <- !app_assoc, strip_prefix_app.
  rewrite span_exact; [|exact H1|].
  2: { destruct n as [|c n]; [done|]. inversion Hw; subst. by apply word_not_ws. }
  cbn [snd]. rewrite span_exact; [|exact Hw|].
  2: { destruct H2 as [|c w Hc _]; [done|]. destruct (is_word c) eqn:E; [|done].
       by rewrite word_not_ws in Hc. }
  rewrite span_exact; [|exact H2|done]. cbn [snd]. rewrite strip_prefix_app. by destruct n.
Qed.

Lemma tpl_at_inv s n r :
  tpl_at s = Some (n, r) ->
  exists w1 w2, s = written w1 n w2 ++ r /\ all_ws w1 /\ all_ws w2 /\ name_ok n.
Proof.
  unfold tpl_at. destruct (strip_prefix _ s) as [s1|] eqn:E1; [|done].
  apply strip_prefix_Some in E1 as ->.
  destruct (span is_ws s1) as [w1 s2] eqn:E2. apply span_inv in E2 as (-> & H1 & _). cbn [snd].
  destruct (span is_word s2) as [n' s3] eqn:E3. apply span_inv in E3 as (-> & Hw & _).
  destruct (span is_ws s3) as [w2 s4] eqn:E4. apply span_inv in E4 as (-> & H2 & _). cbn [snd].
  destruct n' as [|c n']; [done|]. destruct (strip_prefix _ s4) as [s5|] eqn:E5; [|done].
  apply strip_prefix_Some in E5 as ->. intros [= <- <-]. exists w1, w2.
  unfold written. rewrite <- !app_assoc. split_and!; try done.
Qed.

Lemma tpl_at_app u n r z : tpl_at u = Some (n, r) -> tpl_at (u ++ z) = Some (n, r ++ z).
Proof.
  intros (w1 & w2 & -> & H1 & H2 & H3)%tpl_at_inv. rewrite <- app_assoc. by apply tpl_at_written.
Qed.

(** A placeholder does not begin before another one's braces and end after them. *)
Lemma tpl_at_before u y p : u <> [] -> tpl_at (u ++ lit "{{" ++ y) = Some p -> tpl_at u <> None.
Proof.
  intros Hu. destruct u as [|c1 [|c2 u]]; [done| |].
  - unfold tpl_at; cbn [strip_prefix app]. destruct (ch "{" =? c1)%N; [|done].
    rewrite N.eqb_refl. done.
  - unfold tpl_at; cbn [strip_prefix app].
    destruct (ch "{" =? c1)%N; [|done]. destruct (ch "{" =? c2)%N; [|done].
    change (lit "{{" ++ y) with (ch "{" :: ch "{" :: y).
    rewrite !span_app_stop by done. cbn [snd]. rewrite !span_app_stop by done.
    destruct (span is_word (span is_ws u).2) as [n v]. cbn [fst snd].
    destruct n as [|c n]; [done|].
    destruct (span is_ws v).2 as [|d1 [|d2 w]]; simpl; [done| |].
    + destruct d1 as [|d1]; [done|]. repeat case_match; done.
    + repeat case_match; simplify_eq; done.
Qed.

Lemma exec_tpl_inv s b n r :
  exec_tpl s = Some (b, n, r) ->
  exists w1 w2, s = b ++ written w1 n w2 ++ r /\ all_ws w1 /\ all_ws w2 /\ name_ok n.
Proof.
  revert b. induction s as [|c s IH]; intros b; cbn [exec_tpl].
  - destruct (tpl_at []) as [[]|] eqn:E; [|done]. by intros [= <- <- <-]; apply tpl_at_inv.
  - destruct (tpl_at (c :: s)) as [[n0 r0]|] eqn:E.
    + intros [= <- <- <-]. by apply tpl_at_inv.
    + destruct (exec_tpl s) as [[[b0 n0] r0]|] eqn:E0; [|done]. intros [= <- <- <-].
      destruct (IH _ eq_refl) as (w1 & w2 & -> & H). exists w1, w2. done.
Qed.

(** The first placeholder stays the first, however it and the rest are written. *)
Lemma exec_tpl_rewrite s b n r z :
  exec_tpl s = Some (b, n, r) -> exec_tpl (b ++ token n ++ z) = Some (b, n, z).
Proof.
  revert b. induction s as [|c s IH]; intros b H; pose proof (exec_tpl_inv _ _ _ _ H) as Hi;
    destruct Hi as (w1 & w2 & Es & _ & _ & Hn);
    assert (Ht : forall z, tpl_at (token n ++ z) = Some (n, z));
    [intros z'; apply (tpl_at_written [32%N] n [32%N]); [by repeat constructor..|done]| |
     intros z'; apply (tpl_at_written [32%N] n [32%N]); [by repeat constructor..|done]|].
  - cbn [exec_tpl] in H. by destruct b.
  - cbn [exec_tpl] in H. destruct (tpl_at (c :: s)) as [[n0 r0]|] eqn:E.
    + injection H as <- <- <-. cbn [app]. specialize (Ht z).
      destruct (token n0 ++ z) eqn:Ez; cbn [exec_tpl]; by rewrite Ht.
    + destruct (exec_tpl s) as [[[b0 n0] r0]|] eqn:E0; [|done]. injection H as <- <- <-.
      assert (Es' : s = b0 ++ written w1 n0 w2 ++ r0) by by injection Es.
      cbn [app exec_tpl]. rewrite (IH _ eq_refl).
      destruct (tpl_at (c :: b0 ++ token n0 ++ z)) as [q|] eqn:Eq; [|done]. exfalso.
      destruct (tpl_at (c :: b0)) as [[n1 r1]|] eqn:E1.
      * apply (tpl_at_app _ _ _ (written w1 n0 w2 ++ r0)) in E1. cbn [app] in E1.
        by rewrite <- Es', E in E1.
      * unfold token in Eq. rewrite <- !app_assoc in Eq.
        by apply (tpl_at_before (c :: b0) (ch " " :: n0 ++ lit " }}" ++ z) q).
Qed.

(** ** Filling *)

(** The content [fillPillEditor] builds for a string. *)
Inductive filled : jstr -> list dnode -> Prop :=
| F_end s : exec_tpl s = None -> filled s (text_node s)
| F_tpl s b n r ns : exec_tpl s = Some (b, n, r) -> filled r ns -> filled s (text_node b ++ Pill n :: ns).

Lemma filled_det s ns ms : filled s ns -> filled s ms -> ns = ms.
Proof.
  intros H. revert ms. induction H as [s E|s b n r ns E _ IH]; intros ms H2;
    inversion H2; simplify_eq; [done|]. f_equal. f_equal. by apply IH.
Qed.

Lemma fill_loop_filled f s : length s <= f -> filled s (fill_loop f s).
Proof.
  revert s. induction f as [|f IH]; intros s Hs; cbn [fill_loop].
  - destruct s; [|simpl in Hs; lia]. by constructor.
  - destruct (exec_tpl s) as [[[b n] r]|] eqn:E; [|by constructor].
    eapply F_tpl; [done|]. apply IH. destruct (exec_tpl_inv _ _ _ _ E) as (w1 & w2 & -> & _).
    rewrite length_app in Hs. unfold written in Hs. simpl in Hs. rewrite length_app in Hs. lia.
Qed.

Lemma fill_filled s : filled s (fillPillEditor s).
Proof. by apply fill_loop_filled. Qed.

(** ** Reading *)

(** The serialization of content without nested elements: [ap] tells whether a pill
    comes before. *)
Definition cut (ap : bool) (d : jstr) : jstr :=
  match d with c :: d0 => if ap && (c =? ZWSP)%N then d0 else d | [] => d end.
Fixpoint ser (ap : bool) (ns : list dnode) : jstr :=
  match ns with
  | [] => []
  | Txt d :: r => cut ap d ++ ser false r
  | Pill n :: r => token n ++ ser true r
  | Br :: r => NL :: ser false r
  | Elem _ _ :: r => ser false r
  end.
Fixpoint ends (ap : bool) (ns : list dnode) : bool :=
  match ns with [] => ap | Pill _ :: r => ends true r | _ :: r => ends false r end.
Definition flat (ns : list dnode) : Prop :=
  Forall (fun n => match n with Elem _ _ => False | _ => True end) ns.

Lemma walk_flat ns out ap : flat ns -> walk ns (out, ap) = (out ++ ser ap ns, ends ap ns).
Proof.
  intros H. revert out ap. induction H as [|n ns Hn _ IH]; intros out ap.
  - unfold walk; simpl. by rewrite app_nil_r.
  - destruct n; [| | |done]; unfold walk in *; cbn [fold_left walk_node fst snd];
      rewrite IH; cbn [ser ends]; by rewrite <- app_assoc.
Qed.

Lemma read_flat ns : flat ns -> readPillEditor ns = ser false ns.
Proof. intros H. unfold readPillEditor. by rewrite walk_flat. Qed.

Lemma ser_app ap l r : ser ap (l ++ r) = ser ap l ++ ser (ends ap l) r.
Proof.
  revert ap. induction l as [|n l IH]; intros ap; [done|].
  destruct n; cbn [app ser ends]; rewrite IH; by rewrite <- ?app_assoc.
Qed.

Lemma filled_flat s ns : filled s ns -> flat ns.
Proof.
  assert (Ht : forall b, flat (text_node b)) by by destruct b; repeat constructor.
  induction 1; [apply Ht|]. apply Forall_app. split; [apply Ht|by constructor].
Qed.

Lemma cut_id ap d : ZWSP ∉ d -> cut ap d = d.
Proof.
  intros H. destruct d as [|c d]; [done|]. unfold cut. destruct (N.eqb_spec c ZWSP) as [->|].
  - destruct H. by left.
  - by rewrite andb_false_r.
Qed.

Lemma ser_text ap b r : ZWSP ∉ b -> ser ap (text_node b ++ Pill r :: []) = b ++ token r.
Proof.
  intros H. destruct b; cbn [text_node app ser]; rewrite app_nil_r; [done|]. by rewrite cut_id.
Qed.

(** ** Pieces of a stored string *)

Inductive piece := PText (s : jstr) | PTok (w1 name w2 : jstr).
Definition as_written (p : piece) : jstr :=
  match p with PText s => s | PTok w1 n w2 => written w1 n w2 end.
Definition as_saved (p : piece) : jstr :=
  match p with PText s => s | PTok _ n _ => token n end.
Definition piece_ok (p : piece) : Prop :=
  match p with PText _ => True | PTok w1 n w2 => all_ws w1 /\ all_ws w2 /\ name_ok n end.

(** What filling and reading does to a string without the anchor character. *)
Lemma filled_read s ns :
  filled s ns -> ZWSP ∉ s ->
  exists ps, Forall piece_ok ps /\ s = concat (as_written <$> ps) /\
    (forall ap, ser ap ns = concat (as_saved <$> ps)) /\ filled (concat (as_saved <$> ps)) ns.
Proof.
  induction 1 as [s E|s b n r ns E _ IH]; intros Hz.
  - exists [PText s]. split_and!; [by repeat constructor|by simpl; rewrite app_nil_r| |].
    + intros ap. destruct s; [done|]. cbn [text_node ser]. by rewrite cut_id.
    + simpl. rewrite app_nil_r. by constructor.
  - destruct (exec_tpl_inv _ _ _ _ E) as (w1 & w2 & Es & H1 & H2 & H3).
    assert (Hb : (ZWSP ∉ b) /\ (ZWSP ∉ r)) by (subst s; set_solver).
    destruct (IH (proj2 Hb)) as (ps & Hok & Hr & Hs & Hf).
    exists (PText b :: PTok w1 n w2 :: ps). split_and!.
    + constructor; [done|by constructor].
    + simpl. by rewrite Es, Hr.
    + intros ap. change (concat (as_saved <$> PText b :: PTok w1 n w2 :: ps))
        with (b ++ token n ++ concat (as_saved <$> ps)). rewrite (app_assoc b).
      change (text_node b ++ Pill n :: ns) with (text_node b ++ [Pill n] ++ ns).
      rewrite app_assoc, ser_app, ser_text by apply Hb. by rewrite Hs.
    + eapply F_tpl; [|exact Hf]. by eapply exec_tpl_rewrite.
Qed.

(** ** Properties *)

(** C30 Opening a command in the pill editor and reading it back keeps everything but
    the white space inside the placeholders' braces, which becomes one space on each
    side: text and names stay, in place. The saved string opens as the same text and
    pills and is read back unchanged from then on. (The string holds none of the
    zero-width characters the editor uses as caret anchors.) *)
Theorem pill_roundtrip s :
  ZWSP ∉ s ->
  let s' := readPillEditor (fillPillEditor s) in
  (exists ps, Forall piece_ok ps /\ s = concat (as_written <$> ps) /\ s' = concat (as_saved <$> ps)) /\
  fillPillEditor s' = fillPillEditor s /\ readPillEditor (fillPillEditor s') = s'.
Proof.
  intros Hz s'. pose proof (fill_filled s) as Hf.
  destruct (filled_read _ _ Hf Hz) as (ps & H1 & H2 & H3 & H4).
  assert (Es : s' = concat (as_saved <$> ps)).
  { unfold s'. rewrite read_flat by by eapply filled_flat. apply H3. }
  assert (Ef : fillPillEditor s' = fillPillEditor s).
  { eapply filled_det; [apply fill_filled|]. by rewrite Es. }
  split_and!; [by exists ps|done|]. by rewrite Ef.
Qed.

Lemma pill_roundtrip_witness :
  let s := lit "echo {{run_id}} > {{  var.out }}/{{x" in
  (ZWSP ∉ s) /\ readPillEditor (fillPillEditor s) = lit "echo {{ run_id }} > {{ var.out }}/{{x" /\
  fillPillEditor (readPillEditor (fillPillEditor s)) = fillPillEditor s.
Proof.
  intros s. assert (Hz : ZWSP ∉ s) by compute_decide. split; [exact Hz|]. split; [vm_compute; reflexivity|].
  exact (proj1 (proj2 (pill_roundtrip s Hz))).
Defined.

(** The caret is between a pill and the anchor that belongs to it. *)
Definition splits_anchor (l r : list dnode) : bool :=
  ends false l && match r with Txt (c :: _) :: _ => (c =? ZWSP)%N | _ => false end.

Lemma ser_ends l r : splits_anchor l r = false -> ser (ends false l) r = ser false r.
Proof.
  unfold splits_anchor. destruct (ends false l); [|done]. cbn [andb]. intros H.
  destruct r as [|[[|c d]| | |] r]; try done. cbn [ser]. f_equal. unfold cut. by rewrite H.
Qed.

Lemma cut_head ap x : head x <> Some ZWSP -> cut ap x = x.
Proof.
  destruct x as [|c x]; [done|]. intros H. unfold cut. destruct (N.eqb_spec c ZWSP) as [->|]; [done|].
  by rewrite andb_false_r.
Qed.

Lemma one_line_head x : head x <> Some ZWSP -> head (one_line false x) <> Some ZWSP.
Proof. destruct x as [|c x]; [done|]; simpl. by destruct ((c =? 13) || (c =? NL))%N. Qed.

Lemma one_line_no_nl b x : NL ∉ one_line b x.
Proof.
  revert b. induction x as [|c x IH]; intros b; simpl; [apply not_elem_of_nil|].
  destruct ((c =? 13) || (c =? NL))%N eqn:E.
  - destruct b; [apply IH|]. apply not_elem_of_cons. split; [done|apply IH].
  - apply orb_false_iff in E as [_ E]. apply N.eqb_neq in E. apply not_elem_of_cons. split; [done|apply IH].
Qed.

Lemma token_no_nl n : name_ok n -> NL ∉ token n.
Proof.
  intros [_ Hn] H. unfold token in H. rewrite !elem_of_app in H.
  destruct H as [H|[H|H]]; [revert H; compute_decide| |].
  - rewrite Forall_forall in Hn. by specialize (Hn _ H).
  - revert H. compute_decide.
Qed.

(** An edit changes the saved string where the caret is and nowhere else: inserting
    a pill adds its placeholder there, and the anchor is not saved; text and a line
    break are added as they are, a paste into a one-line field without line breaks.
    The caret may be anywhere but between a pill and its own anchor. *)
Theorem edit_at_caret single e l r :
  flat l -> flat r -> splits_anchor l r = false ->
  (forall x, e = Typed x -> head x <> Some ZWSP) -> (forall x, e = Pasted x -> head x <> Some ZWSP) ->
  exists new, readPillEditor (l ++ r) = readPillEditor l ++ readPillEditor r /\
    readPillEditor (pe_step single e l r) = readPillEditor l ++ new ++ readPillEditor r /\
    new = match e with
          | Typed x => x
          | EnterKey => if single then [] else [NL]
          | Pasted x => if single then one_line false x else x
          | PillPicked n => token n
          end /\
    (single = true -> (forall x, e = Typed x -> NL ∉ x) -> (forall n, e = PillPicked n -> name_ok n) ->
     NL ∉ new).
Proof.
  intros Hl Hr Hs Ht Hp.
  assert (Hlr : flat (l ++ r)) by by apply Forall_app.
  assert (Htxt : forall x, head x <> Some ZWSP ->
    readPillEditor (insertPlainText l r x) = readPillEditor l ++ x ++ readPillEditor r).
  { intros x Hx. unfold insertPlainText, insertNodesAtCaret.
    rewrite !read_flat by (done || (apply Forall_app; split; [done|by constructor])).
    rewrite ser_app. cbn [app ser]. by rewrite cut_head. }
  assert (Hsame : readPillEditor (l ++ r) = readPillEditor l ++ readPillEditor r).
  { rewrite !read_flat by done. by rewrite ser_app, ser_ends. }
  destruct e as [x| |x|n]; cbn [pe_step].
  - exists x. split_and!; [done|by apply Htxt, Ht|done|]. intros _ H _. by apply H.
  - destruct single.
    + exists []. split_and!; [done|done|done|]. intros _ _ _ H. by apply elem_of_nil in H.
    + exists [NL]. split_and!; [done|by apply Htxt|done|done].
  - exists (if single then one_line false x else x). specialize (Hp x eq_refl).
    split_and!; [done| |done|].
    + apply Htxt. destruct single; [|done]. by apply one_line_head.
    + intros -> _ _. apply one_line_no_nl.
  - exists (token n). split_and!; [done| |done|].
    + unfold insertPill, insertNodesAtCaret.
      rewrite !read_flat by (done || (apply Forall_app; split; [done|by repeat constructor])).
      rewrite ser_app. cbn [app ser cut]. by rewrite N.eqb_refl.
    + intros _ _ Hn. apply token_no_nl. by apply Hn.
Qed.

Lemma edit_at_caret_witness :
  let l := fillPillEditor (lit "cat {{ var.in }}") in let r := [Txt (lit " | wc")] in
  splits_anchor l r = false /\
  readPillEditor (pe_step true (PillPicked (lit "run_id")) l r) = lit "cat {{ var.in }}{{ run_id }} | wc".
Proof.
  intros l r. assert (Hl : flat l) by by repeat constructor. assert (Hr : flat r) by by repeat constructor.
  split; [reflexivity|].
  destruct (edit_at_caret true (PillPicked (lit "run_id")) l r Hl Hr eq_refl) as (new & _ & E & -> & _);
    [done..|]. rewrite E. reflexivity.
Defined.

(** The pill's anchor is a node of its own, or there is none. *)
Definition anchor_alone (r : list dnode) : Prop :=
  match r with
  | Txt d :: r' => head d <> Some ZWSP \/ (d = [ZWSP] /\ splits_anchor [Pill []] r' = false)
  | _ => True
  end.

Lemma anchor_free_ser ap r :
  match r with Txt d :: _ => head d <> Some ZWSP | _ => True end -> ser ap r = ser false r.
Proof. destruct r as [|[d| | |] r]; try done. intros H. cbn [ser]. by rewrite !cut_head. Qed.

(** Removing a pill, with its cross or with the keyboard, takes its placeholder out
    of the saved string and nothing else; and the pill the keyboard removes is the
    one next to the caret, with at most a caret anchor between. *)
Theorem remove_pill_exact l n r :
  flat l -> flat r -> anchor_alone r ->
  (exists suf, readPillEditor (l ++ Pill n :: r) = readPillEditor l ++ token n ++ suf /\
               readPillEditor (removePill l r) = readPillEditor l ++ suf) /\
  (forall caret before m, adjacentPill caret before l r = Some m ->
     exists pre post, (if before then reverse l else r) = pre ++ Pill m :: post /\ length pre <= 1 /\
       Forall (fun x => exists d, x = Txt d /\ anchors d = true) pre).
Proof.
  intros Hl Hr Ha. split.
  - exists (ser true r). assert (Hlr : flat (l ++ Pill n :: r)) by (apply Forall_app; split; [done|by constructor]).
    rewrite (read_flat _ Hlr), (read_flat _ Hl), ser_app. split; [done|].
    assert (Hsame : match r with Txt d :: _ => head d <> Some ZWSP | _ => True end ->
      readPillEditor (l ++ r) = ser false l ++ ser true r).
    { intros H. rewrite read_flat by by apply Forall_app.
      rewrite ser_app, (anchor_free_ser (ends false l) r H), (anchor_free_ser true r H). done. }
    unfold removePill. destruct r as [|[d|m| |] r]; try (by apply Hsame).
    case_bool_decide as Hd; [|apply Hsame; by destruct Ha as [?|[? _]]].
    subst d. destruct Ha as [Ha|[_ Ha]]; [done|]. inversion Hr as [|? ? _ Hr']; subst.
    rewrite read_flat by by apply Forall_app. rewrite ser_app. cbn [ser cut].
    assert (Hns : match r with Txt d :: _ => head d <> Some ZWSP | _ => True end).
    { unfold splits_anchor in Ha; simpl in Ha. destruct r as [|[[|c d]| | |] r]; try done.
      simpl. intros [= ->]. done. }
    by rewrite N.eqb_refl, (anchor_free_ser (ends false l) r Hns).
  - intros caret before m. unfold adjacentPill. set (sibs := if before then reverse l else r).
    assert (Hn : forall near, near = Some sibs \/ near = None ->
      match near with None => None | Some s => match skip_anchor s with Pill name :: _ => Some name | _ => None end end = Some m ->
      exists pre post, sibs = pre ++ Pill m :: post /\ length pre <= 1 /\
        Forall (fun x => exists d, x = Txt d /\ anchors d = true) pre).
    { intros near [->| ->]; [|done]. unfold skip_anchor. destruct sibs as [|[d|x| |] s]; try done.
      - destruct (anchors d) eqn:Ed; [|done]. destruct s as [|[|x| |] s]; try done. intros [= ->].
        exists [Txt d], s. split_and!; [done|simpl; lia|]. constructor; [by exists d|constructor].
      - intros [= ->]. exists [], s. split_and!; [done|simpl; lia|constructor]. }
    apply Hn. destruct caret as [[d off]|]; [|by left]. destruct (anchors _); [by left|by right].
Qed.

Lemma remove_pill_exact_witness :
  let l := [Txt (lit "a ")] in let r := [Txt [ZWSP]; Txt (lit " b")] in
  anchor_alone r /\ readPillEditor (l ++ Pill (lit "x") :: r) = lit "a {{ x }} b" /\
  readPillEditor (removePill l r) = lit "a  b".
Proof.
  intros l r. assert (Hl : flat l) by by repeat constructor. assert (Hr : flat r) by by repeat constructor.
  assert (Ha : anchor_alone r) by by right. split; [exact Ha|].
  destruct (proj1 (remove_pill_exact l (lit "x") r Hl Hr Ha)) as (suf & E1 & E2).
  split; [rewrite E1; revert E1; vm_compute; intros [= <-]; reflexivity|reflexivity].
Defined.

(** The anchor character can get into the saved command: text typed after a new pill
    joins the anchor's text node, which removing the pill then leaves alone; and a
    pill inserted between a pill and its anchor takes the first one's place before
    that anchor, whose own anchor is then followed by it. *)
Theorem anchor_leaks :
  (let '(l, r) := ([], [Txt (ZWSP :: lit "ls")]) in
   readPillEditor (l ++ Pill (lit "x") :: r) = lit "{{ x }}ls" /\
   readPillEditor (removePill l r) = ZWSP :: lit "ls") /\
  (let '(l, r) := ([Pill (lit "x")], [Txt [ZWSP]]) in
   readPillEditor (l ++ r) = lit "{{ x }}" /\
   readPillEditor (insertPill l r (lit "y")) = lit "{{ x }}{{ y }}" ++ [ZWSP]).
Proof. split; split; reflexivity. Qed.

(** ** The typed command form ([CMD_BUILDERS.jar]) *)

Record jar_form := JarForm { jf_jar : jstr; jf_mainclass : jstr; jf_args : jstr }.

Definition compose (f : jar_form) : jstr :=
  (if truthy (jf_mainclass f) then lit "java -cp " ++ jf_jar f ++ lit " " ++ jf_mainclass f
   else lit "java -jar " ++ jf_jar f)
  ++ (if truthy (jf_args f) then lit " " ++ jf_args f else []).

Definition not_ws (c : N) : bool := negb (is_ws c).

(** [(?:\s+([\s\S]+))?$] after a word: nothing, or white space and at least one
    more character; the group, trimmed, or [""]. *)
Definition parse_args (rest : jstr) : option jstr :=
  match rest with [] => Some [] | [_] => None | _ => Some (trim rest) end.

Definition parse_jar (c : jstr) : option jar_form :=
  match strip_prefix (lit "java -jar ") c with
  | None => None
  | Some r => let '(jar, rest) := span not_ws r in
    match jar, parse_args rest with _ :: _, Some a => Some (JarForm jar [] a) | _, _ => None end
  end.
Definition parse_cp (c : jstr) : option jar_form :=
  match strip_prefix (lit "java -cp ") c with
  | None => None
  | Some r =>
    match span not_ws r with
    | ((_ :: _) as jar, sp :: r1) =>
      if (sp =? ch " ")%N then
        let '(main, rest) := span not_ws r1 in
        match main, parse_args rest with _ :: _, Some a => Some (JarForm jar main a) | _, _ => None end
      else None
    | _ => None
    end
  end.
Definition parse (c : jstr) : option jar_form :=
  match parse_jar c with Some f => Some f | None => parse_cp c end.

(** [computeCmdRaw]: whether the task page opens on the raw editor. *)
Definition computeCmdRaw (tk : task) : bool :=
  if negb (is_type tk (lit "jar")) then true
  else if negb (truthy (tk_command tk)) then false
  else match parse (tk_command tk) with None => true | Some _ => false end.

Record form_ok (f : jar_form) : Prop := {
  fo_jar : jf_jar f <> [] /\ Forall (fun c => not_ws c = true) (jf_jar f);
  fo_main : Forall (fun c => not_ws c = true) (jf_mainclass f);
  fo_args : trimmed (jf_args f);
}.

(** The characters of a command that are not white space. *)
Definition ink (s : jstr) : jstr := List.filter not_ws s.

Lemma ink_app a b : ink (a ++ b) = ink a ++ ink b.
Proof. apply List.filter_app. Qed.
Lemma ink_ws a : all_ws a -> ink a = [].
Proof. induction 1 as [|c a Hc _ IH]; [done|]. unfold ink, not_ws in *; simpl. by rewrite Hc. Qed.
Lemma ink_trim_start s : ink (trim_start s) = ink s.
Proof.
  destruct (trim_start_suffix s) as (a & Ha & Hw). transitivity (ink (a ++ trim_start s)); [by rewrite ink_app, (ink_ws a Hw)|by rewrite <- Ha].
Qed.
Lemma ink_reverse s : ink (reverse s) = reverse (ink s).
Proof.
  induction s as [|c s IH]; [done|]. rewrite reverse_cons, ink_app, IH. unfold ink; simpl.
  destruct (not_ws c); [by rewrite reverse_cons|]. apply app_nil_r.
Qed.
Lemma ink_trim s : ink (trim s) = ink s.
Proof. unfold trim. by rewrite ink_reverse, ink_trim_start, ink_reverse, reverse_involutive, ink_trim_start. Qed.

Lemma parse_args_inv rest a : parse_args rest = Some a -> trimmed a /\ ink a = ink rest.
Proof.
  unfold parse_args. destruct rest as [|c [|d r]]; [by intros [= <-]|done|]. intros [= <-].
  split; [apply trim_trimmed|apply ink_trim].
Qed.

Lemma parse_args_of a :
  trimmed a -> parse_args (if truthy a then lit " " ++ a else []) = Some a.
Proof.
  intros Ha. destruct a as [|c a]; [done|].
  change (Some (trim (ch " " :: c :: a)) = Some (c :: a)). by rewrite trim_cons_ws, trim_id.
Qed.

Lemma args_stop a : stops not_ws (if truthy a then lit " " ++ a else []).
Proof. by destruct a. Qed.

Lemma parse_compose f : form_ok f -> parse (compose f) = Some f.
Proof.
  destruct f as [jar main args]. intros [[Hj Hjw] Hm Ha]; simpl in *.
  unfold parse, compose; cbn [jf_jar jf_mainclass jf_args]. destruct main as [|m main]; cbn [truthy].
  - unfold parse_jar. rewrite <- app_assoc, strip_prefix_app.
    rewrite span_exact; [|exact Hjw|apply args_stop]. rewrite parse_args_of by done. by destruct jar.
  - unfold parse_jar. rewrite <- !app_assoc.
    replace (strip_prefix (lit "java -jar ") (lit "java -cp " ++ jar ++ lit " " ++ (m :: main)
      ++ (if truthy args then lit " " ++ args else []))) with (@None jstr) by done.
    unfold parse_cp. rewrite strip_prefix_app. rewrite span_exact; [|exact Hjw|done].
    destruct jar as [|j jar]; [done|]. cbn [app]. rewrite N.eqb_refl, app_comm_cons.
    rewrite (span_exact not_ws (m :: main)); [|exact Hm|apply args_stop]. by rewrite parse_args_of.
Qed.

Lemma parse_inv c f : parse c = Some f -> form_ok f /\ ink (compose f) = ink c.
Proof.
  unfold parse. destruct (parse_jar c) as [g|] eqn:E1.
  - intros [= <-]. unfold parse_jar in E1. destruct (strip_prefix _ c) as [r|] eqn:Es; [|done].
    apply strip_prefix_Some in Es as ->. destruct (span not_ws r) as [jar rest] eqn:Er.
    apply span_inv in Er as (-> & Hj & _). destruct jar as [|j jar]; [done|].
    destruct (parse_args rest) as [a|] eqn:Ea; [|done]. injection E1 as <-.
    apply parse_args_inv in Ea as [Ha Hi]. split; [by constructor|].
    unfold compose; cbn [jf_jar jf_mainclass jf_args truthy]. rewrite !ink_app, <- Hi, <- app_assoc.
    do 2 f_equal. by destruct a.
  - intros E2. unfold parse_cp in E2. destruct (strip_prefix _ c) as [r|] eqn:Es; [|done].
    apply strip_prefix_Some in Es as ->. destruct (span not_ws r) as [jar r0] eqn:Er.
    apply span_inv in Er as (-> & Hj & _). destruct jar as [|j jar]; [done|].
    destruct r0 as [|sp r1]; [done|]. destruct (N.eqb_spec sp (ch " ")) as [->|]; [|done].
    destruct (span not_ws r1) as [main rest] eqn:Er1. apply span_inv in Er1 as (-> & Hm & _).
    destruct main as [|m main]; [done|]. destruct (parse_args rest) as [a|] eqn:Ea; [|done].
    injection E2 as <-. apply parse_args_inv in Ea as [Ha Hi]. split; [by constructor|].
    unfold compose; cbn [jf_jar jf_mainclass jf_args truthy].
    rewrite (app_assoc (lit "java -cp ")), !ink_app, <- !app_assoc. 
    change (ch " " :: (m :: main) ++ rest) with (lit " " ++ (m :: main) ++ rest).
    rewrite !ink_app, <- Hi. do 4 f_equal. by destruct a.
Qed.

(** The jar form is a view of the command: what the form composes opens in the form
    again, field by field; and a command that opens in the form is changed by an
    unedited recomposition in its white space only. *)
Theorem jar_form_roundtrip :
  (forall f tk, form_ok f -> tk_type tk = lit "jar" ->
     parse (compose f) = Some f /\ computeCmdRaw (with_command (compose f) tk) = false) /\
  (forall c f, parse c = Some f -> ink (compose f) = ink c /\ parse (compose f) = Some f).
Proof.
  split.
  - intros f tk Hf Ht. pose proof (parse_compose f Hf) as Hp. split; [done|].
    unfold computeCmdRaw, is_type. destruct tk; simpl in *. rewrite bool_decide_eq_true_2 by done.
    cbn [negb]. rewrite Hp. by destruct (truthy (compose f)).
  - intros c f H. destruct (parse_inv _ _ H) as [Hf Hi]. split; [done|]. by apply parse_compose.
Qed.
