(* ===== verification/RunsTab.v ===== *)
(** * The run history of a workflow: its poll, filters and paging, and the trigger form (views.js)

    The runs tab of the workflow page as a transition system. Requests are answered in
    any order; an answer to a list or refresh request is stored in the page object it
    was issued for, an answer to a poll in the page open when it arrives. The page is
    the expert mode's. *)

From S2P Require Import Prelude JsCore Schedule DagModel RunView.

(** ** State *)

(** A run of the list, as the server sends it: its id and state stand for it. *)
Record rrun := RRun { rr_id : jstr; rr_state : jstr }.
#[export] Instance rrun_eq_dec : EqDecision rrun.
Proof. solve_decision. Defined.

(** [D], as far as the runs tab goes. [dp_serial] is the object's identity. *)
Record dpage := DPage {
  dp_serial : nat; dp_dag : jstr; dp_runs : list rrun;
  dp_filter : jstr;              (** [D.runFilter], [""] when there is none *)
  dp_limit : option Z;           (** [D.runsLimit] *)
  dp_tab : bool;                 (** the runs tab is the open one *)
  dp_edit : bool;                (** a settings row is open *)
  dp_rows : list rrun;           (** the rows [renderDagRuns] drew last *)
}.

Inductive req_kind := QPoll (dagID : jstr) | QList (serial : nat) | QRefresh (serial : nat).
Record req := Req { rq_kind : req_kind; rq_dag : jstr; rq_filter : jstr; rq_limit : Z }.

Record runstab := RunsTab {
  rt_view : bool;                       (** [view === "dag"] *)
  rt_D : option dpage;
  rt_drawn : option nat;                (** the page object drawn, if a workflow's page is *)
  rt_poll : option nat;                 (** [dagRunsPoll] *)
  rt_timers : list (nat * jstr);        (** running intervals and the id they were started for *)
  rt_next : nat; rt_serial : nat;
  rt_reqs : list req;                   (** unanswered requests *)
}.
Definition rt_init : runstab := RunsTab false None None None [] 0 0 [].

Definition with_runs (rs : list rrun) (d : dpage) : dpage :=
  DPage (dp_serial d) (dp_dag d) rs (dp_filter d) (dp_limit d) (dp_tab d) (dp_edit d) (dp_rows d).
Definition with_filter (f : jstr) (d : dpage) : dpage :=
  DPage (dp_serial d) (dp_dag d) (dp_runs d) f (dp_limit d) (dp_tab d) (dp_edit d) (dp_rows d).
Definition with_limit (n : Z) (d : dpage) : dpage :=
  DPage (dp_serial d) (dp_dag d) (dp_runs d) (dp_filter d) (Some n) (dp_tab d) (dp_edit d) (dp_rows d).
Definition with_tab (b e : bool) (d : dpage) : dpage :=
  DPage (dp_serial d) (dp_dag d) (dp_runs d) (dp_filter d) (dp_limit d) b e (dp_rows d).
Definition with_rows (rows : list rrun) (d : dpage) : dpage :=
  DPage (dp_serial d) (dp_dag d) (dp_runs d) (dp_filter d) (dp_limit d) (dp_tab d) (dp_edit d) rows.

Definition set_D (d : option dpage) (s : runstab) : runstab :=
  RunsTab (rt_view s) d (rt_drawn s) (rt_poll s) (rt_timers s) (rt_next s) (rt_serial s) (rt_reqs s).
Definition set_view (v : bool) (dr : option nat) (s : runstab) : runstab :=
  RunsTab v (rt_D s) dr (rt_poll s) (rt_timers s) (rt_next s) (rt_serial s) (rt_reqs s).
Definition set_reqs (q : list req) (s : runstab) : runstab :=
  RunsTab (rt_view s) (rt_D s) (rt_drawn s) (rt_poll s) (rt_timers s) (rt_next s) (rt_serial s) q.

(** ** The poll *)

Definition live (rs : list rrun) : bool := existsb (fun r => runLive (rr_state r)) rs.

(** [runsLimit()] *)
Definition runsLimit (d : dpage) : Z := int_or (dp_limit d) 25.

Definition stopDagRunsPoll (s : runstab) : runstab :=
  RunsTab (rt_view s) (rt_D s) (rt_drawn s) None
    (List.filter (fun t => negb (bool_decide (Some t.1 = rt_poll s))) (rt_timers s))
    (rt_next s) (rt_serial s) (rt_reqs s).

(** The tab shows: the conditions under which the poll goes on. *)
Definition tab_open (s : runstab) (d : dpage) : bool := rt_view s && dp_tab d && negb (dp_edit d).

Definition maybePollDagRuns (s0 : runstab) : runstab :=
  let s := stopDagRunsPoll s0 in
  match rt_D s with
  | Some d =>
    if tab_open s d && live (dp_runs d)
    then RunsTab (rt_view s) (rt_D s) (rt_drawn s) (Some (rt_next s))
           (rt_timers s ++ [(rt_next s, dp_dag d)]) (S (rt_next s)) (rt_serial s) (rt_reqs s)
    else s
  | None => s
  end.

(** The request of a run list: its filter and limit are those of the moment. *)
Definition list_req (k : req_kind) (d : dpage) : req := Req k (dp_dag d) (dp_filter d) (runsLimit d).
Definition issue (k : req_kind) (d : dpage) (s : runstab) : runstab := set_reqs (rt_reqs s ++ [list_req k d]) s.

(** An interval started for [dagID] fires. *)
Definition poll_tick (dagID : jstr) (s : runstab) : runstab :=
  match rt_D s with
  | Some d => if tab_open s d && bool_decide (dp_dag d = dagID) then issue (QPoll dagID) d s
              else stopDagRunsPoll s
  | None => stopDagRunsPoll s
  end.

(** [renderDagRuns]: the table of the current page. (Off the tab there is no table, and
    one is drawn when the tab is opened.) *)
Definition renderDagRuns (s : runstab) : runstab :=
  match rt_D s with Some d => set_D (Some (with_rows (dp_runs d) d)) s | None => s end.

(** The answer to a poll: [None] when the request failed. The table is left alone
    while the focus is in it ([busy]). *)
Definition poll_answer (dagID : jstr) (ans : option (list rrun)) (busy : bool) (s : runstab) : runstab :=
  match ans, rt_D s with
  | Some rs, Some d =>
    if rt_view s && bool_decide (dp_dag d = dagID) && dp_tab d then
      if bool_decide (rs = dp_runs d)
      then if live rs then s else stopDagRunsPoll s
      else let s1 := set_D (Some (with_runs rs d)) s in if busy then s1 else renderDagRuns s1
    else s
  | _, _ => s
  end.

(** ** Pages *)

(** The answer is stored in the page object the request was issued for. *)
Definition store (serial : nat) (rs : list rrun) (s : runstab) : runstab :=
  match rt_D s with
  | Some d => if bool_decide (dp_serial d = serial) then set_D (Some (with_runs rs d)) s else s
  | None => s
  end.

(** [renderDagPage], from the current [D] *)
Definition renderDagPage (s : runstab) : runstab :=
  match rt_D s with
  | Some d => maybePollDagRuns (set_view (rt_view s) (Some (dp_serial d)) (renderDagRuns s))
  | None => s
  end.

(** A filter chip's or the load-more button's handler after its request. *)
Definition list_answer (serial : nat) (ans : option (list rrun)) (s : runstab) : runstab :=
  maybePollDagRuns (renderDagRuns (match ans with Some rs => store serial rs s | None => s end)).

(** [refreshDagRuns] after its request. *)
Definition refresh_answer (serial : nat) (ans : option (list rrun)) (s : runstab) : runstab :=
  match ans with
  | None => s
  | Some rs =>
    let s1 := store serial rs s in
    match rt_D s1 with
    | Some d => if dp_edit d || truthy (dp_filter d) then maybePollDagRuns (renderDagRuns s1) else renderDagPage s1
    | None => s1
    end
  end.

Definition answer (q : req) (ans : option (list rrun)) (busy : bool) (s : runstab) : runstab :=
  match rq_kind q with
  | QPoll dagID => poll_answer dagID ans busy s
  | QList n => list_answer n ans s
  | QRefresh n => refresh_answer n ans s
  end.

(** The filter chips: label key and the states asked for. *)
Definition RUN_FILTERS : list (jstr * jstr) :=
  [(lit "rf_all", []); (lit "rf_running", lit "queued,running");
   (lit "rf_failed", lit "failed,cancelled,timed_out"); (lit "rf_success", lit "success")].

(** The load-more button is shown. *)
Definition more_shown (d : dpage) : bool :=
  (runsLimit d <=? Z.of_nat (length (dp_runs d)))%Z && (runsLimit d <? 200)%Z.

(** The user can use the tab: the workflow's page is the one drawn. *)
Definition on_tab (s : runstab) (d : dpage) : bool :=
  rt_view s && dp_tab d && bool_decide (rt_drawn s = Some (dp_serial d)).

Inductive rt_event :=
| Opening                                           (** [showDag] up to its requests *)
| OpenedDag (id : jstr) (runs : list rrun) (tab : bool)
| OpenFailed
| LeavePage (stop : bool)                           (** another page; most of them stop the poll *)
| ReturnToDag                                       (** [gotoDagPage], from a task's page *)
| SwitchTab (runs : bool)
| EditRow (on : bool)
| ClickFilter (f : jstr)
| ClickMore
| Refresh                                           (** [refreshDagRuns], from a timer or a run's button *)
| PollTick (n : nat)                                (** the [n]-th running interval fires *)
| Answer (n : nat) (ans : option (list rrun)) (busy : bool).  (** the [n]-th open request is answered *)

Definition rt_step (e : rt_event) (s : runstab) : option runstab :=
  match e with
  | Opening => Some (stopDagRunsPoll s)
  | OpenedDag id runs tab =>
    let d := DPage (rt_serial s) id runs [] None tab false [] in
    Some (renderDagPage (RunsTab true (Some d) (rt_drawn s) (rt_poll s) (rt_timers s) (rt_next s)
                           (S (rt_serial s)) (rt_reqs s)))
  | OpenFailed => Some (set_view true None (set_D None s))
  | LeavePage stop => let s1 := set_view false None s in Some (if stop then stopDagRunsPoll s1 else s1)
  | ReturnToDag => match rt_D s with
                   | Some _ => Some (renderDagPage (set_view true (rt_drawn s) s))
                   | None => None
                   end
  | SwitchTab b =>
    match rt_D s with
    | Some d => if rt_view s && bool_decide (rt_drawn s = Some (dp_serial d))
                then if dp_tab d && b then Some s
                     else Some (renderDagPage (set_D (Some (with_tab b false d)) s))
                else None
    | None => None
    end
  | EditRow on =>
    match rt_D s with
    | Some d => if rt_view s && negb (dp_tab d)
                then Some (maybePollDagRuns (set_D (Some (with_tab false on d)) s)) else None
    | None => None
    end
  | ClickFilter f =>
    match rt_D s with
    | Some d => if on_tab s d && bool_decide (f ∈ RUN_FILTERS.*2)
                then let d' := with_filter f d in
                     Some (issue (QList (dp_serial d)) d' (set_D (Some d') s))
                else None
    | None => None
    end
  | ClickMore =>
    match rt_D s with
    | Some d => if on_tab s d && more_shown d
                then let d' := with_limit (Z.min 200 (runsLimit d + 25)) d in
                     Some (issue (QList (dp_serial d)) d' (set_D (Some d') s))
                else None
    | None => None
    end
  | Refresh =>
    match rt_D s with
    | Some d => if rt_view s then Some (issue (QRefresh (dp_serial d)) d s) else Some s
    | None => Some s
    end
  | PollTick n =>
    match rt_timers s !! n with Some (_, dagID) => Some (poll_tick dagID s) | None => None end
  | Answer n ans busy =>
    match rt_reqs s !! n with
    | Some q => Some (answer q ans busy (set_reqs (delete n (rt_reqs s)) s))
    | None => None
    end
  end.

Fixpoint rt_run (es : list rt_event) (s : runstab) : option runstab :=
  match es with
  | [] => Some s
  | e :: es' => match rt_step e s with Some s' => rt_run es' s' | None => None end
  end.

(** ** The invariant *)

Definition limit_ok (n : Z) : Prop := (25 <= n <= 200)%Z.
Definition page_ok (ser : nat) (d : dpage) : Prop :=
  dp_serial d < ser /\ limit_ok (runsLimit d) /\ dp_filter d ∈ RUN_FILTERS.*2.
Definition req_ok (ser : nat) (D : option dpage) (q : req) : Prop :=
  limit_ok (rq_limit q) /\ rq_filter q ∈ RUN_FILTERS.*2 /\
  match rq_kind q with
  | QPoll g => rq_dag q = g
  | QList n | QRefresh n => n < ser /\ forall d, D = Some d -> dp_serial d = n -> rq_dag q = dp_dag d
  end.

Record rt_inv (s : runstab) : Prop := {
  iv_timers : match rt_poll s with
              | Some i => exists g, rt_timers s = [(i, g)]
              | None => rt_timers s = [] end;
  iv_page : forall d, rt_D s = Some d -> page_ok (rt_serial s) d;
  iv_reqs : Forall (req_ok (rt_serial s) (rt_D s)) (rt_reqs s);
}.

(** Two pages are the same object of the same workflow. *)
Definition same_page (d d' : dpage) : Prop := dp_serial d' = dp_serial d /\ dp_dag d' = dp_dag d.

Lemma req_ok_same ser d d' q : same_page d d' -> req_ok ser (Some d) q -> req_ok ser (Some d') q.
Proof.
  intros [Hs Hd] (H1 & H2 & H3). split_and!; [done..|]. destruct (rq_kind q) as [g|n|n]; [done| |];
    destruct H3 as [Hn H3]; (split; [done|]); intros x [= <-] E; rewrite Hd; apply H3; congruence.
Qed.

Lemma req_ok_none ser D q : req_ok ser D q -> req_ok ser None q.
Proof. intros (H1 & H2 & H3). split_and!; [done..|]. destruct (rq_kind q); naive_solver. Qed.

Lemma stop_inv s : rt_inv s -> rt_inv (stopDagRunsPoll s) /\ rt_timers (stopDagRunsPoll s) = [].
Proof.
  intros [H1 H2 H3].
  assert (E : rt_timers (stopDagRunsPoll s) = []).
  { unfold stopDagRunsPoll; simpl. destruct (rt_poll s) as [i|].
    - destruct H1 as (g & ->); simpl. by rewrite bool_decide_eq_true_2.
    - by rewrite H1. }
  split; [|done]. constructor; done.
Qed.

Lemma maybe_inv s : rt_inv s -> rt_inv (maybePollDagRuns s).
Proof.
  intros H. destruct (stop_inv s H) as [Hi E]. unfold maybePollDagRuns.
  destruct (rt_D (stopDagRunsPoll s)) as [d|] eqn:ED; [|exact Hi].
  destruct (tab_open _ d && live (dp_runs d)); [|exact Hi]. destruct Hi as [H1 H2 H3].
  rewrite ED in H2, H3. constructor; cbn [rt_poll rt_timers rt_D rt_serial rt_reqs]; rewrite ?ED; [|done..].
  exists (dp_dag d). by rewrite E.
Qed.

Lemma set_D_inv s d d' :
  rt_D s = Some d -> same_page d d' -> page_ok (rt_serial s) d' -> rt_inv s -> rt_inv (set_D (Some d') s).
Proof.
  intros ED Hs Hp [H1 H2 H3]. constructor; simpl; [done|by intros ? [= <-]|].
  eapply Forall_impl; [exact H3|]. intros q. rewrite ED. by apply req_ok_same.
Qed.

Lemma set_view_inv v dr s : rt_inv s -> rt_inv (set_view v dr s).
Proof. by intros [H1 H2 H3]. Qed.

Lemma set_reqs_inv q s : Forall (req_ok (rt_serial s) (rt_D s)) q -> rt_inv s -> rt_inv (set_reqs q s).
Proof. by intros Hq [H1 H2 H3]. Qed.

Lemma issue_inv k d s :
  rt_D s = Some d -> rt_inv s ->
  match k with QPoll g => dp_dag d = g | QList n | QRefresh n => n = dp_serial d end ->
  rt_inv (issue k d s).
Proof.
  intros ED Hi Hk. apply set_reqs_inv; [|done]. apply Forall_snoc. split; [apply Hi|].
  destruct (iv_page _ Hi _ ED) as (P1 & P2 & P3). split_and!; [done..|]. simpl.
  destruct k as [g|n|n]; [done| |]; subst n; (split; [done|]); intros x; rewrite ED; by intros [= <-].
Qed.

Lemma with_runs_ok ser rs d : page_ok ser d -> page_ok ser (with_runs rs d).
Proof. by intros (H1 & H2 & H3). Qed.

Lemma with_rows_ok ser rs d : page_ok ser d -> page_ok ser (with_rows rs d).
Proof. by intros (H1 & H2 & H3). Qed.

Lemma tab_draw_inv s : rt_inv s -> rt_inv (renderDagRuns s).
Proof.
  intros Hi. unfold renderDagRuns. destruct (rt_D s) as [d|] eqn:ED; [|done].
  eapply set_D_inv; [exact ED|done| |done]. by apply with_rows_ok, (iv_page _ Hi).
Qed.

Lemma store_inv n rs s : rt_inv s -> rt_inv (store n rs s).
Proof.
  intros Hi. unfold store. destruct (rt_D s) as [d|] eqn:ED; [|done]. case_bool_decide; [|done].
  eapply set_D_inv; [exact ED|done| |done]. by apply with_runs_ok, (iv_page _ Hi).
Qed.

Lemma render_inv s : rt_inv s -> rt_inv (renderDagPage s).
Proof.
  intros Hi. unfold renderDagPage. destruct (rt_D s); [|done]. by apply maybe_inv, set_view_inv, tab_draw_inv.
Qed.

#[local] Hint Resolve maybe_inv tab_draw_inv store_inv render_inv set_view_inv : core.

Lemma answer_inv q ans busy s : rt_inv s -> rt_inv (answer q ans busy s).
Proof.
  intros Hi. unfold answer. destruct (rq_kind q) as [g|n|n].
  - unfold poll_answer. destruct ans as [rs|]; [|done]. destruct (rt_D s) as [d|] eqn:ED; [|done].
    destruct (_ && dp_tab d); [|done]. case_bool_decide.
    + destruct (live rs); [done|by apply stop_inv].
    + assert (Hs : rt_inv (set_D (Some (with_runs rs d)) s)).
      { eapply set_D_inv; [exact ED|done| |done]. by apply with_runs_ok, (iv_page _ Hi). }
      destruct busy; auto.
  - unfold list_answer. destruct ans; auto.
  - unfold refresh_answer. destruct ans as [rs|]; [|done].
    pose proof (store_inv n rs s Hi) as Hs. destruct (rt_D (store n rs s)); [|done].
    destruct (_ || _); auto.
Qed.

Lemma more_limit n : limit_ok n -> limit_ok (Z.min 200 (n + 25)).
Proof. unfold limit_ok. lia. Qed.

Lemma runsLimit_more n d : limit_ok n -> runsLimit (with_limit n d) = n.
Proof. unfold runsLimit, limit_ok; simpl. destruct n; try done; lia. Qed.

Lemma rt_step_inv e s s' : rt_inv s -> rt_step e s = Some s' -> rt_inv s'.
Proof.
  intros Hi. pose proof Hi as [H1 H2 H3].
  destruct e as [|id rs tab| |stop| |b|on|f| | |n|n ans busy]; simpl; intros E.
  - injection E as <-. by apply stop_inv.
  - injection E as <-. apply render_inv. constructor; simpl; [done| |].
    + intros d [= <-]. split_and!; simpl; [lia|done|compute_decide].
    + eapply Forall_impl; [exact H3|]. intros q (Q1 & Q2 & Q3). split_and!; [done..|].
      destruct (rq_kind q) as [g|m|m]; [done| |]; destruct Q3 as [Q3 _]; (split; [lia|]);
        intros d [= <-]; simpl; lia.
  - injection E as <-. constructor; simpl; [done|done|].
    eapply Forall_impl; [exact H3|]. intros q. apply req_ok_none.
  - injection E as <-. destruct stop; [apply stop_inv|]; by apply set_view_inv.
  - destruct (rt_D s); [|done]. injection E as <-. auto.
  - destruct (rt_D s) as [d|] eqn:ED; [|done]. destruct (_ && _); [|done].
    destruct (_ && b); injection E as <-; [done|]. apply render_inv.
    eapply set_D_inv; [exact ED|done| |done]. by destruct (H2 d eq_refl) as (P1 & P2 & P3).
  - destruct (rt_D s) as [d|] eqn:ED; [|done]. destruct (_ && _); [|done]. injection E as <-.
    apply maybe_inv. eapply set_D_inv; [exact ED|done| |done].
    by destruct (H2 d eq_refl) as (P1 & P2 & P3).
  - destruct (rt_D s) as [d|] eqn:ED; [|done]. destruct (on_tab s d && _) eqn:Eb; [|done].
    apply andb_true_iff in Eb as [_ Hf]. apply bool_decide_eq_true in Hf. injection E as <-.
    apply issue_inv; [done| |done]. eapply set_D_inv; [exact ED|done| |done].
    destruct (H2 d eq_refl) as (P1 & P2 & P3). by split_and!.
  - destruct (rt_D s) as [d|] eqn:ED; [|done]. destruct (on_tab s d && _); [|done]. injection E as <-.
    apply issue_inv; [done| |done]. eapply set_D_inv; [exact ED|done| |done].
    destruct (H2 d eq_refl) as (P1 & P2 & P3). split_and!; [done| |done].
    rewrite runsLimit_more; by apply more_limit.
  - destruct (rt_D s) as [d|] eqn:ED; [|by injection E as <-].
    destruct (rt_view s); injection E as <-; [|done]. by apply issue_inv.
  - destruct (rt_timers s !! n) as [[i g]|]; [|done]. injection E as <-. unfold poll_tick.
    destruct (rt_D s) as [d|] eqn:ED; [|by apply stop_inv].
    destruct (tab_open s d && _) eqn:Eb; [|by apply stop_inv].
    apply andb_true_iff in Eb as [_ Hg]. apply bool_decide_eq_true in Hg. by apply issue_inv.
  - destruct (rt_reqs s !! n) as [q|]; [|done]. injection E as <-. apply answer_inv.
    apply set_reqs_inv; [|done]. by apply Forall_delete.
Qed.

Lemma rt_run_inv es s s' : rt_inv s -> rt_run es s = Some s' -> rt_inv s'.
Proof.
  revert s; induction es as [|e es IH]; intros s Hi; simpl; [by intros [= <-]|].
  destruct (rt_step e s) eqn:E; [|done]. apply IH. by eapply rt_step_inv.
Qed.

Lemma rt_init_inv : rt_inv rt_init.
Proof. by constructor. Qed.

(** ** What an answer changes *)

Lemma maybe_D s : rt_D (maybePollDagRuns s) = rt_D s.
Proof.
  unfold maybePollDagRuns, stopDagRunsPoll; simpl. destruct (rt_D s) eqn:E; [|done]. by destruct (_ && _).
Qed.

Lemma draw_D s d : rt_D s = Some d -> rt_D (renderDagRuns s) = Some (with_rows (dp_runs d) d).
Proof. unfold renderDagRuns. by intros ->. Qed.

Lemma render_D s d : rt_D s = Some d -> rt_D (renderDagPage s) = Some (with_rows (dp_runs d) d).
Proof. intros E. unfold renderDagPage. rewrite E, maybe_D. simpl. by apply draw_D. Qed.

(** The same page with, possibly, another list, and the table drawn from one. *)
Definition only_runs (d d' : dpage) : Prop := d' = with_rows (dp_rows d') (with_runs (dp_runs d') d).

Lemma only_runs_refl d : only_runs d d.
Proof. by destruct d. Qed.
Lemma only_runs_draw d d' : only_runs d d' -> only_runs d (with_rows (dp_runs d') d').
Proof. unfold only_runs. intros E. rewrite E at 2. by destruct d. Qed.

Lemma store_D n rs s d :
  rt_D s = Some d ->
  exists d', rt_D (store n rs s) = Some d' /\ only_runs d d' /\
    (dp_runs d' = dp_runs d \/ (dp_runs d' = rs /\ dp_serial d = n)).
Proof.
  intros ED. unfold store. rewrite ED. case_bool_decide.
  - exists (with_runs rs d). split_and!; [done..|by right].
  - exists d. split_and!; [done|apply only_runs_refl|by left].
Qed.

Lemma answer_D q ans busy s d :
  req_ok (rt_serial s) (rt_D s) q -> rt_D s = Some d ->
  exists d', rt_D (answer q ans busy s) = Some d' /\ only_runs d d' /\
    (dp_runs d' = dp_runs d \/ (ans = Some (dp_runs d') /\ rq_dag q = dp_dag d)).
Proof.
  intros (_ & _ & Hq) ED. unfold answer. destruct (rq_kind q) as [g|n|n].
  - unfold poll_answer. rewrite ED. destruct ans as [rs|]; [|exists d; eauto using only_runs_refl].
    destruct (rt_view s && bool_decide (dp_dag d = g) && dp_tab d) eqn:Eb;
      [|exists d; eauto using only_runs_refl].
    apply andb_true_iff in Eb as [[_ Hg]%andb_true_iff _]. apply bool_decide_eq_true in Hg.
    case_bool_decide.
    + destruct (live rs); exists d; eauto using only_runs_refl.
    + destruct busy; eexists; (split; [reflexivity|]); (split; [done|]); right; by subst.
  - destruct Hq as [_ Hq]. unfold list_answer. rewrite maybe_D.
    destruct ans as [rs|].
    + destruct (store_D n rs s d ED) as (d' & E & Ho & Hr). eexists. split; [by apply draw_D|].
      split; [by apply only_runs_draw|]. destruct Hr as [?|[<- Hn]]; [by left|right]. eauto.
    + eexists. split; [by apply draw_D|]. split; [by apply only_runs_draw, only_runs_refl|by left].
  - destruct Hq as [_ Hq]. unfold refresh_answer. destruct ans as [rs|]; [|exists d; eauto using only_runs_refl].
    destruct (store_D n rs s d ED) as (d' & E & Ho & Hr). rewrite E. exists (with_rows (dp_runs d') d').
    split_and!; [destruct (_ || _); rewrite ?maybe_D; [by apply draw_D|by apply render_D]|by apply only_runs_draw|].
    destruct Hr as [?|[<- Hn]]; [by left|right]. eauto.
Qed.

(** ** Properties *)

(** C29 The run history in every interleaving of clicks, polls and answers. At most one
    interval runs, the one [dagRunsPoll] names; the page size stays between 25 and the
    server's 200, and every request carries a size in that range and one of the four
    filters. An interval that fires while its tab is not the one shown ends itself
    without a request. An answer changes nothing of the page but its list, and only to
    the runs of the page's own workflow. *)
Theorem runs_tab_safe es s :
  rt_run es rt_init = Some s ->
  (length (rt_timers s) <= 1 /\ forall t, t ∈ rt_timers s -> rt_poll s = Some t.1) /\
  (forall d, rt_D s = Some d -> limit_ok (runsLimit d)) /\
  Forall (fun q => limit_ok (rq_limit q) /\ rq_filter q ∈ RUN_FILTERS.*2) (rt_reqs s) /\
  (forall n s', rt_step (PollTick n) s = Some s' ->
     (rt_reqs s' = rt_reqs s /\ rt_timers s' = []) \/
     (exists d, rt_D s = Some d /\ tab_open s d = true /\ rt_reqs s' = rt_reqs s ++ [list_req (QPoll (dp_dag d)) d])) /\
  (forall n ans busy s' d, rt_step (Answer n ans busy) s = Some s' -> rt_D s = Some d ->
     exists q d', rt_reqs s !! n = Some q /\ rt_D s' = Some d' /\ only_runs d d' /\
       (dp_runs d' = dp_runs d \/ (ans = Some (dp_runs d') /\ rq_dag q = dp_dag d))).
Proof.
  intros Hr. pose proof (rt_run_inv _ _ _ rt_init_inv Hr) as Hi. pose proof Hi as [H1 H2 H3].
  split_and!.
  - destruct (rt_poll s); [destruct H1 as (g & ->)|rewrite H1]; simpl; lia.
  - intros t. destruct (rt_poll s); [destruct H1 as (g & ->)|rewrite H1; by intros ?%elem_of_nil].
    by intros ->%list_elem_of_singleton.
  - intros d ED. by apply (H2 d).
  - eapply Forall_impl; [exact H3|]. by intros q (? & ? & _).
  - intros n s'. simpl. destruct (rt_timers s !! n) as [[i g]|]; [|done]. intros [= <-].
    unfold poll_tick. destruct (stop_inv s Hi) as [_ E]. destruct (rt_D s) as [d|] eqn:ED; [|by left].
    destruct (tab_open s d && _) eqn:Eb; [|by left]. right. exists d.
    apply andb_true_iff in Eb as [Ht Hg]. apply bool_decide_eq_true in Hg. split_and!; [done..|].
    unfold issue; simpl. by rewrite Hg.
  - intros n ans busy s' d. simpl. destruct (rt_reqs s !! n) as [q|] eqn:Eq; [|done]. intros [= <-] ED.
    destruct (answer_D q ans busy (set_reqs (delete n (rt_reqs s)) s) d) as (d' & ?); [|done|by exists q, d'].
    rewrite Forall_forall in H3. apply (H3 q). by eapply list_elem_of_lookup_2.
Qed.

Definition run_a : rrun := RRun (lit "a") (lit "running").
Definition run_ok : rrun := RRun (lit "a") (lit "success").
Definition sample_session : list rt_event :=
  [Opening; OpenedDag (lit "etl") [run_a] true; PollTick 0; Answer 0 (Some [run_a]) false; ClickFilter (lit "success");
   Answer 0 (Some [run_ok]) false; Refresh; PollTick 0].

Lemma runs_tab_safe_witness :
  exists s, rt_run (take 7 sample_session) rt_init = Some s /\ rt_timers s = [] /\ length (rt_reqs s) = 1 /\
    forall d, rt_D s = Some d -> limit_ok (runsLimit d).
Proof.
  eexists. split; [vm_compute; reflexivity|]. split; [reflexivity|]. split; [reflexivity|].
  exact (proj1 (proj2 (runs_tab_safe (take 7 sample_session) _ ltac:(vm_compute; reflexivity)))).
Defined.

Definition round (busy : bool) (rs : list rrun) : list rt_event := [PollTick 0; Answer 0 (Some rs) busy].

(** The page after a round: the table is drawn when the list is new and the focus is
    not in it. *)
Definition after_round (busy : bool) (rs : list rrun) (d : dpage) : dpage :=
  if bool_decide (rs = dp_runs d) || busy then with_runs rs d else with_rows rs (with_runs rs d).

Lemma after_round_runs busy rs d : dp_runs (after_round busy rs d) = rs.
Proof. unfold after_round. by destruct (_ || _). Qed.
Lemma after_round_same busy d : after_round busy (dp_runs d) d = d.
Proof. unfold after_round. rewrite bool_decide_eq_true_2 by done. by destruct d. Qed.

(** One round of the interval, with nothing else going on. *)
Lemma poll_round busy s i d rs :
  rt_inv s -> rt_D s = Some d -> tab_open s d = true -> rt_reqs s = [] -> rt_timers s = [(i, dp_dag d)] ->
  exists s1, rt_run (round busy rs) s = Some s1 /\ rt_inv s1 /\ rt_reqs s1 = [] /\
    rt_D s1 = Some (after_round busy rs d) /\ tab_open s1 (after_round busy rs d) = true /\
    rt_timers s1 = if bool_decide (rs = dp_runs d) && negb (live rs) then [] else rt_timers s.
Proof.
  intros Hi ED Ht Eq Et. pose proof Ht as Ht'. unfold tab_open in Ht'.
  apply andb_true_iff in Ht' as [[Hv Htab]%andb_true_iff He].
  assert (Htab0 : forall x, rt_view x = true -> tab_open x (after_round busy rs d) = true).
  { intros x Hx. unfold tab_open, after_round. destruct (_ || busy); simpl; by rewrite Hx, Htab, He. }
  unfold round; cbn [rt_run rt_step]. rewrite Et. cbn [list_lookup lookup].
  unfold poll_tick. rewrite ED, Ht, bool_decide_eq_true_2 by done. cbn [andb].
  unfold issue. cbn [rt_reqs set_reqs]. rewrite Eq. cbn [app list_lookup lookup].
  unfold answer. cbn [rq_kind list_req delete list_delete].
  set (s0 := set_reqs [] _). assert (Hi0 : rt_inv s0) by (constructor; [apply Hi|apply Hi|constructor]).
  assert (E0 : rt_D s0 = Some d) by done. assert (Ev0 : rt_view s0 = true) by done.
  assert (Et0 : rt_timers s0 = [(i, dp_dag d)]) by done. assert (Er0 : rt_reqs s0 = []) by done.
  clearbody s0. eexists. split; [reflexivity|]. unfold poll_answer.
  rewrite E0, Ev0, Htab, bool_decide_eq_true_2 by done. cbn [andb]. case_bool_decide as Hrs.
  - subst rs. rewrite after_round_same in *.
    destruct (live (dp_runs d)); cbn [andb negb]; [split_and!; auto|].
    destruct (stop_inv s0 Hi0) as [Hi1 E1]. split_and!; auto.
  - cbn [andb]. unfold after_round in *. rewrite bool_decide_eq_false_2 in * by done. cbn [orb] in *.
    assert (Hi1 : rt_inv (set_D (Some (with_runs rs d)) s0)).
    { eapply set_D_inv; [exact E0|done| |done]. by apply with_runs_ok, (iv_page _ Hi0). }
    destruct busy; split_and!; auto.
Qed.

(** The poll follows the server and ends. While the tab shows, a round of the interval
    (its request answered) takes over the server's list, and draws it unless the focus
    is in the table; once the list stays the same, the interval ends at the latest in
    the next round, exactly when no run of the list is queued or running. *)
Theorem poll_converges es s i d rs :
  rt_run es rt_init = Some s ->
  rt_D s = Some d -> tab_open s d = true -> rt_reqs s = [] -> rt_timers s = [(i, dp_dag d)] ->
  forall busy, exists s1 d1, rt_run (round busy rs) s = Some s1 /\ rt_D s1 = Some d1 /\ dp_runs d1 = rs /\
    (busy = false -> dp_rows d = dp_runs d -> dp_rows d1 = rs) /\
    ((rt_timers s1 = [] /\ live rs = false) \/
     (rt_timers s1 = rt_timers s /\
      forall busy2, exists s2, rt_run (round busy2 rs) s1 = Some s2 /\ rt_D s2 = Some d1 /\
        (rt_timers s2 = [] <-> live rs = false))).
Proof.
  intros Hr ED Ht Eq Et busy. pose proof (rt_run_inv _ _ _ rt_init_inv Hr) as Hi.
  destruct (poll_round busy s i d rs Hi ED Ht Eq Et) as (s1 & R1 & Hi1 & Eq1 & ED1 & Ht1 & Et1).
  exists s1, (after_round busy rs d). pose proof (after_round_runs busy rs d) as Hruns.
  split; [done|]. split; [done|]. split; [done|]. split.
  { intros -> Hrows. unfold after_round. case_bool_decide; simpl; congruence. }
  destruct (bool_decide (rs = dp_runs d) && negb (live rs)) eqn:Eb.
  - left. split; [done|]. apply andb_true_iff in Eb as [_ Eb]. by apply negb_true_iff in Eb.
  - right. split; [done|]. intros busy2. rewrite Et in Et1.
    assert (Et1' : rt_timers s1 = [(i, dp_dag (after_round busy rs d))]).
    { rewrite Et1. unfold after_round. by destruct (_ || _). }
    destruct (poll_round busy2 s1 i _ rs Hi1 ED1 Ht1 Eq1 Et1') as (s2 & R2 & _ & _ & ED2 & _ & Et2).
    exists s2. split; [done|]. rewrite Hruns, bool_decide_eq_true_2 in Et2 by done. cbn [andb] in Et2.
    rewrite <- Hruns in ED2 at 1. rewrite after_round_same in ED2. split; [done|].
    rewrite Et2, Et1. by destruct (live rs).
Qed.

Lemma poll_converges_witness :
  exists s d, rt_run (take 2 sample_session) rt_init = Some s /\ rt_D s = Some d /\
    exists s1 d1, rt_run (round false [run_ok]) s = Some s1 /\ rt_D s1 = Some d1 /\ dp_rows d1 = [run_ok].
Proof.
  do 2 eexists. split; [vm_compute; reflexivity|]. split; [reflexivity|].
  destruct (poll_converges (take 2 sample_session) _ 0 _ [run_ok] ltac:(vm_compute; reflexivity)
              eq_refl eq_refl eq_refl eq_refl false) as (s1 & d1 & H1 & H2 & _ & H3 & _).
  exists s1, d1. split; [exact H1|]. split; [exact H2|]. by apply H3.
Defined.

(** A list that could not be drawn is not drawn later, although the comment says that
    the interval catches up: the answers that follow equal the stored list and change
    nothing. A run that ended in between is then shown as running after the poll has
    stopped. *)
Theorem skipped_rows_stay :
  (forall bs s i d,
     rt_inv s -> rt_D s = Some d -> tab_open s d = true -> rt_reqs s = [] -> rt_timers s = [(i, dp_dag d)] ->
     forall s', rt_run (List.flat_map (fun busy => round busy (dp_runs d)) bs) s = Some s' -> rt_D s' = Some d) /\
  (exists s d, rt_run ([Opening; OpenedDag (lit "etl") [run_a] true] ++ round true [run_ok] ++ round false [run_ok])
                 rt_init = Some s /\
     rt_D s = Some d /\ dp_runs d = [run_ok] /\ dp_rows d = [run_a] /\ rt_timers s = []).
Proof.
  split; [|do 2 eexists; split; [vm_compute; reflexivity|]; split_and!; reflexivity].
  induction bs as [|b bs IH]; intros s i d Hi ED Ht Eq Et s' E; [by simplify_eq/=|].
  destruct (poll_round b s i d (dp_runs d) Hi ED Ht Eq Et) as (s1 & R1 & Hi1 & Eq1 & ED1 & Ht1 & Et1).
  rewrite after_round_same, bool_decide_eq_true_2 in * by done. cbn [andb] in Et1.
  cbn [List.flat_map] in E. unfold round in *. cbn [app rt_run] in *.
  destruct (rt_step (PollTick 0) s) as [sa|]; [|done].
  destruct (rt_step (Answer 0 (Some (dp_runs d)) b) sa) as [sb|]; [|done]. simplify_eq.
  destruct (live (dp_runs d)) eqn:El; cbn [negb] in Et1; [by eapply IH; [..|rewrite Et1|]|].
  destruct bs as [|b' bs]; [by simplify_eq/=|]. cbn [List.flat_map app rt_run rt_step] in E.
  by rewrite Et1 in E.
Qed.

Definition run_bad : rrun := RRun (lit "b") (lit "failed").
Definition stale_filter : list rt_event :=
  [Opening; OpenedDag (lit "etl") [run_a; run_bad] true; PollTick 0; ClickFilter (lit "success");
   Answer 1 (Some [run_ok]) false; Answer 0 (Some [run_a; run_bad]) false].
Definition refresh_late : list rt_event :=
  [Opening; OpenedDag (lit "etl") [run_ok] true; Refresh; LeavePage true; Answer 0 (Some [run_ok]) false].

(** Two answers that come too late. A poll's answer is not tested against the filter
    it was asked for: when a filter is chosen while a poll is open, the poll's answer
    replaces the filtered list under the new filter's chip, and if the filtered list
    had no active run no poll is left to correct it. And [refreshDagRuns] tests the
    view before its request only: when the user leaves during it, the workflow's page
    is drawn over the page the user went to. *)
Theorem late_answers :
  (exists s d, rt_run stale_filter rt_init = Some s /\ rt_D s = Some d /\
     dp_filter d = lit "success" /\ dp_runs d = [run_a; run_bad] /\ rt_timers s = [] /\ rt_reqs s = []) /\
  (exists s, rt_run refresh_late rt_init = Some s /\ rt_view s = false /\ rt_drawn s = Some 0).
Proof.
  split; [do 2 eexists|eexists]; split; try (vm_compute; reflexivity); split_and!; reflexivity.
Qed.
