(* ===== verification/Keyed.v ===== *)
(** * Lists of rows with a key, as the resource pages keep them (views.js)

    [RES.vars], [RES.conns], [RES.groups] and [TOKENS] are arrays of rows found by a
    key: a saved row replaces the one with its key or is pushed and the array sorted,
    a deleted one is filtered out. This file holds these operations and what they do to
    an array that mirrors the server's table. *)

From stdpp Require Import sorting.
From S2P Require Import Prelude JsCore.

(** ** [<] on strings: by code units *)

Fixpoint js_lt (a b : jstr) : bool :=
  match a, b with
  | [], [] => false
  | [], _ :: _ => true
  | _ :: _, [] => false
  | c :: a', d :: b' => if (c <? d)%N then true else if (c =? d)%N then js_lt a' b' else false
  end.
Definition js_le (a b : jstr) : Prop := js_lt b a = false.
#[export] Instance js_le_dec a b : Decision (js_le a b).
Proof. unfold js_le. apply _. Defined.

Lemma js_lt_irrefl a : js_lt a a = false.
Proof. induction a as [|c a IH]; [done|]. simpl. by rewrite N.ltb_irrefl, N.eqb_refl. Qed.

Lemma js_lt_trans a b c : js_lt a b = true -> js_lt b c = true -> js_lt a c = true.
Proof.
  revert b c; induction a as [|x a IH]; intros [|y b] [|z c]; simpl; try done.
  destruct (N.ltb_spec x y), (N.ltb_spec y z), (N.ltb_spec x z); try done; try lia;
    destruct (N.eqb_spec x y), (N.eqb_spec y z), (N.eqb_spec x z); try done; try lia.
  apply IH.
Qed.

Lemma js_lt_total a b : js_lt a b = false -> js_lt b a = false -> a = b.
Proof.
  revert b; induction a as [|x a IH]; intros [|y b]; simpl; try done.
  destruct (N.ltb_spec x y), (N.ltb_spec y x); try done.
  assert (x = y) as -> by lia. rewrite N.eqb_refl. intros. f_equal. by apply IH.
Qed.

Lemma js_lt_asym a b : js_lt a b = true -> js_lt b a = false.
Proof.
  intros H. destruct (js_lt b a) eqn:E; [|done].
  pose proof (js_lt_trans _ _ _ H E) as Ha. by rewrite js_lt_irrefl in Ha.
Qed.

#[export] Instance js_le_total : Total js_le.
Proof.
  intros a b. unfold js_le. destruct (js_lt b a) eqn:E; [right|by left]. by apply js_lt_asym.
Qed.
#[export] Instance js_le_trans : Transitive js_le.
Proof.
  intros a b c. unfold js_le. intros H1 H2. destruct (js_lt c a) eqn:E; [|done].
  destruct (js_lt a b) eqn:Eab.
  - by rewrite (js_lt_trans _ _ _ E Eab) in H2.
  - by rewrite (js_lt_total _ _ Eab H1), H2 in E.
Qed.

(** ** The operations *)

Section keyed.
Context {A : Type} (key : A -> jstr).

Definition row_le (x y : A) : Prop := js_le (key x) (key y).
#[local] Instance row_le_dec x y : Decision (row_le x y).
Proof. unfold row_le. apply _. Defined.

(** [l.find((x) => x.key === k)] *)
Definition find_key (k : jstr) (l : list A) : option A := List.find (fun x => bool_decide (key x = k)) l.

(** [l.sort((a, b) => (a.key < b.key ? -1 : 1))]; the keys of the rows differ. *)
Definition sort_rows (l : list A) : list A := merge_sort row_le l.

(** A saved row: in place of the one with its key, or pushed and sorted. *)
Definition put_row (x : A) (l : list A) : list A :=
  match list_find (fun y => key y = key x) l with
  | Some (i, _) => <[i := x]> l
  | None => sort_rows (l ++ [x])
  end.

(** [l.filter((x) => x.key !== k)] *)
Definition drop_row (k : jstr) (l : list A) : list A := filter (fun x => key x <> k) l.

(** ** The array mirrors a table *)

Definition distinct (l : list A) : Prop := NoDup (key <$> l).
Definition mirrors (l : list A) (m : gmap jstr A) : Prop :=
  distinct l /\ forall k, find_key k l = m !! k.

Lemma find_key_Some k l x : find_key k l = Some x -> x ∈ l /\ key x = k.
Proof.
  unfold find_key. intros [H1 H2]%find_some. split; [by apply list_elem_of_In|by bool_props].
Qed.

Lemma find_key_None k l : find_key k l = None <-> k ∉ key <$> l.
Proof.
  unfold find_key. induction l as [|x l IH]; simpl; [split; [intros _ H; inversion H|done]|].
  rewrite not_elem_of_cons. case_bool_decide as E; [split; [done|intros [H _]; congruence]|].
  rewrite IH. naive_solver.
Qed.

Lemma find_key_elem l x : distinct l -> x ∈ l -> find_key (key x) l = Some x.
Proof.
  unfold distinct, find_key. induction l as [|y l IH]; intros Hd Hx; [by inversion Hx|].
  rewrite fmap_cons, NoDup_cons in Hd. destruct Hd as [Hy Hd]. simpl.
  apply elem_of_cons in Hx as [->|Hx]; [by rewrite bool_decide_eq_true_2|].
  case_bool_decide as E; [|by apply IH]. destruct Hy. rewrite E. by apply list_elem_of_fmap_2.
Qed.

Lemma find_key_perm k l l' : distinct l -> l ≡ₚ l' -> find_key k l = find_key k l'.
Proof.
  intros Hd Hp. assert (Hd' : distinct l') by (unfold distinct in *; by rewrite <- Hp).
  destruct (find_key k l) as [x|] eqn:E.
  - apply find_key_Some in E as [Hx <-]. symmetry. apply find_key_elem; [done|by rewrite <- Hp].
  - apply find_key_None in E. symmetry. apply find_key_None. by rewrite <- Hp.
Qed.

Lemma find_key_app k l l' :
  find_key k (l ++ l') = match find_key k l with Some x => Some x | None => find_key k l' end.
Proof. unfold find_key. induction l as [|x l IH]; simpl; [done|]. by case_bool_decide. Qed.

Lemma list_find_key k l :
  match list_find (fun y => key y = k) l with
  | Some (i, y) => l !! i = Some y /\ key y = k
  | None => k ∉ key <$> l
  end.
Proof.
  destruct (list_find _ l) as [[i y]|] eqn:E.
  - by apply list_find_Some in E as (? & ? & _).
  - apply list_find_None in E. rewrite list_elem_of_fmap. intros (y & -> & Hy).
    rewrite Forall_forall in E. by apply (E y).
Qed.

Lemma keys_insert (i : nat) y x (l : list A) : l !! i = Some y -> key y = key x -> key <$> <[i := x]> l = key <$> l.
Proof.
  intros Hi Hk. rewrite list_fmap_insert. apply list_insert_id. by rewrite list_lookup_fmap, Hi, <- Hk.
Qed.

Lemma find_key_insert (l : list A) (i : nat) y x k :
  distinct l -> l !! i = Some y -> key y = key x ->
  find_key k (<[i := x]> l) = if decide (key x = k) then Some x else find_key k l.
Proof.
  unfold distinct, find_key. revert i. induction l as [|z l IH]; intros [|i] Hd Hi Hk; simplify_eq/=.
  - rewrite NoDup_cons in Hd. destruct Hd as [Hy _]. rewrite Hk.
    case_bool_decide; case_decide; done.
  - rewrite NoDup_cons in Hd. destruct Hd as [Hz Hd]. case_bool_decide as E.
    + rewrite decide_False; [done|]. intros Ek. destruct Hz. rewrite E, <- Ek, <- Hk.
      apply list_elem_of_fmap_2. by apply list_elem_of_lookup_2 in Hi.
    + by apply IH.
Qed.

Lemma put_row_perm x l : find_key (key x) l = None -> put_row x l ≡ₚ l ++ [x].
Proof.
  intros H%find_key_None. unfold put_row. pose proof (list_find_key (key x) l) as Hf.
  destruct (list_find _ l) as [[i y]|]; [|apply merge_sort_Permutation].
  destruct Hf as [Hi Hk]. destruct H. rewrite <- Hk. apply list_elem_of_fmap_2. by eapply list_elem_of_lookup_2.
Qed.

Lemma put_row_find x l k :
  distinct l -> distinct (put_row x l) /\
  find_key k (put_row x l) = if decide (key x = k) then Some x else find_key k l.
Proof.
  intros Hd. pose proof (list_find_key (key x) l) as Hf.
  destruct (find_key (key x) l) as [z|] eqn:Ez.
  - unfold put_row. destruct (list_find _ l) as [[i y]|].
    + destruct Hf as [Hi Hk]. split; [unfold distinct; by erewrite keys_insert|by eapply find_key_insert].
    + by apply find_key_None in Hf; rewrite Hf in Ez.
  - pose proof (put_row_perm x l Ez) as Hp.
    assert (Hd' : distinct (l ++ [x])).
    { unfold distinct. rewrite fmap_app, NoDup_app. split; [done|]. split; [|apply NoDup_singleton].
      intros a Ha Ha'. apply list_elem_of_singleton in Ha'. subst a. by apply find_key_None in Ez. }
    split; [unfold distinct; by rewrite Hp|].
    rewrite (find_key_perm k _ (l ++ [x])); [|unfold distinct; by rewrite Hp|done].
    rewrite find_key_app. unfold find_key at 2; simpl. case_decide as E; subst.
    + rewrite Ez. by rewrite bool_decide_eq_true_2.
    + rewrite bool_decide_eq_false_2 by done. by destruct (find_key k l).
Qed.

Lemma drop_row_find k0 l k :
  distinct l -> distinct (drop_row k0 l) /\
  find_key k (drop_row k0 l) = if decide (k0 = k) then None else find_key k l.
Proof.
  unfold distinct, drop_row, find_key. induction l as [|x l IH]; intros Hd; simpl.
  - split; [done|by case_decide].
  - rewrite fmap_cons, NoDup_cons in Hd. destruct Hd as [Hx Hd]. destruct (IH Hd) as [IH1 IH2].
    rewrite filter_cons. destruct (decide (key x <> k0)) as [E|E].
    + rewrite fmap_cons, NoDup_cons. split; [split; [|done]|].
      * intros H. apply Hx. apply list_elem_of_fmap in H as (y & -> & [_ Hy]%list_elem_of_filter).
        by apply list_elem_of_fmap_2.
      * simpl. case_bool_decide as Ek; [by rewrite decide_False by congruence|done].
    + split; [done|]. rewrite IH2. apply dec_stable in E. subst k0.
      case_decide as Ek; [done|]. by rewrite bool_decide_eq_false_2.
Qed.

(** A saved and a deleted row in the array and in the table. *)
Lemma put_row_mirrors x l m : mirrors l m -> mirrors (put_row x l) (<[key x := x]> m).
Proof.
  intros [Hd Hm]. split; [by apply (put_row_find x l (key x))|]. intros k.
  rewrite (proj2 (put_row_find x l k Hd)), Hm. case_decide; subst; [by rewrite lookup_insert_eq|].
  by rewrite lookup_insert_ne.
Qed.
Lemma drop_row_mirrors k l m : mirrors l m -> mirrors (drop_row k l) (delete k m).
Proof.
  intros [Hd Hm]. split; [by apply (drop_row_find k l k)|]. intros k'.
  rewrite (proj2 (drop_row_find k l k' Hd)), Hm. case_decide; subst; [by rewrite lookup_delete_eq|].
  by rewrite lookup_delete_ne.
Qed.

(** The table of an array. *)
Definition table (l : list A) : gmap jstr A := list_to_map ((fun x => (key x, x)) <$> l).
Lemma table_mirrors l : distinct l -> mirrors l (table l).
Proof.
  intros Hd. split; [done|]. intros k. unfold table, find_key. clear Hd.
  induction l as [|x l IH]; simpl; [by rewrite lookup_empty|].
  case_bool_decide as E; [by rewrite E, lookup_insert_eq|]. by rewrite lookup_insert_ne.
Qed.

(** After a new row the array is in the order of its keys. *)
Lemma put_row_sorted x l : find_key (key x) l = None -> StronglySorted row_le (put_row x l).
Proof.
  intros H%find_key_None. unfold put_row. pose proof (list_find_key (key x) l) as Hf.
  destruct (list_find _ l) as [[i y]|].
  - destruct Hf as [Hi Hk]. destruct H. rewrite <- Hk. apply list_elem_of_fmap_2. by eapply list_elem_of_lookup_2.
  - apply StronglySorted_merge_sort.
    + intros a b c. unfold row_le. apply js_le_trans.
    + intros a b. unfold row_le. apply js_le_total.
Qed.

Lemma put_row_forall (P : jstr -> Prop) x l :
  P (key x) -> Forall (fun y => P (key y)) l -> Forall (fun y => P (key y)) (put_row x l).
Proof.
  intros Hx Hl. unfold put_row. destruct (list_find _ l) as [[i y]|].
  - by apply Forall_insert.
  - unfold sort_rows. rewrite merge_sort_Permutation. apply Forall_app. auto.
Qed.
End keyed.
#[export] Hint Resolve put_row_mirrors drop_row_mirrors table_mirrors : cronova.
