(* ===== verification/Resources.v ===== *)
(** * Variables, connections and alert groups (views.js, the resources page)

    The variables tab edits in place: each row has an input, kept in step with
    [RES.vars] on every keystroke, and a save button. Its requests are open for a
    while; the model has the server's table and answers in any order. The
    connection and group dialogs post a whole row, with the array updated from the
    answer; their requests are one step. *)

From S2P Require Import Prelude JsCore Schedule DagModel Keyed.

(** [CFG_KEY_RE], [/^[A-Za-z0-9_.-]+$/] *)
Definition CFG_KEY_RE (s : jstr) : bool := truthy s && forallb is_idchar s.

(** ** The variables tab *)

Record vrow := VRow { v_key : jstr; v_value : jstr }.
#[export] Instance vrow_eq_dec : EqDecision vrow.
Proof. solve_decision. Defined.

Inductive vop := OpSet (k v : jstr) | OpDel (k : jstr).
Definition op_key (o : vop) : jstr := match o with OpSet k _ | OpDel k => k end.

Record vpage := VPage {
  vp_rows : list vrow;                 (** [RES.vars] *)
  vp_inputs : list vrow;               (** the rows of the table on screen, with their inputs' values *)
  vp_srv : gmap jstr vrow;             (** the server's table *)
  vp_open : list (vop * option bool);  (** requests without an answer; what the server decided, once it has *)
}.

Definition set_rows (l : list vrow) (s : vpage) : vpage := VPage l (vp_inputs s) (vp_srv s) (vp_open s).
Definition set_vopen (o : list (vop * option bool)) (s : vpage) : vpage :=
  VPage (vp_rows s) (vp_inputs s) (vp_srv s) o.
Definition send (o : vop) (s : vpage) : vpage := set_vopen (vp_open s ++ [(o, None)]) s.

(** [renderResources] draws the table anew. *)
Definition renderVars (s : vpage) : vpage := VPage (vp_rows s) (vp_rows s) (vp_srv s) (vp_open s).

(** [const v = l.find((x) => x.key === k); if (v) v.value = w;] *)
Definition set_value (k w : jstr) (l : list vrow) : list vrow :=
  match find_key v_key k l with Some _ => put_row v_key (VRow k w) l | None => l end.

(** The page's part of [saveVar] and [delVar] once the request has succeeded. *)
Definition vars_done (o : vop) (s : vpage) : vpage :=
  match o with
  | OpSet k w =>
    match find_key v_key k (vp_rows s) with
    | Some _ => set_rows (set_value k w (vp_rows s)) s
    | None => renderVars (set_rows (sort_rows v_key (vp_rows s ++ [VRow k w])) s)
    end
  | OpDel k => renderVars (set_rows (drop_row v_key k (vp_rows s)) s)
  end.

(** [setVariable] and [deleteVariable] of the server; [up] is false when it fails. *)
Definition vars_server (o : vop) (up : bool) (m : gmap jstr vrow) : gmap jstr vrow * bool :=
  match o with
  | OpSet k w => if up && CFG_KEY_RE k then (<[k := VRow k w]> m, true) else (m, false)
  | OpDel k => if up && bool_decide (is_Some (m !! k)) then (delete k m, true) else (m, false)
  end.

(** The message of the add button's checks. *)
Definition add_error (k : jstr) : option label :=
  if negb (truthy k) then Some (T (lit "v_key") [])
  else if negb (CFG_KEY_RE k) then Some (T (lit "err_key") []) else None.

Inductive vars_event :=
| VType (k w : jstr)          (** the input of row [k] *)
| VSave (k : jstr)            (** the save button of row [k] *)
| VDelete (k : jstr)          (** its delete button, confirmed *)
| VAdd (k w : jstr)           (** the add button *)
| VServer (n : nat) (up : bool)
| VAnswer (n : nat)
| VRedraw.                    (** the tab or the language is switched *)

Definition vars_step (e : vars_event) (s : vpage) : option vpage :=
  match e with
  | VType k w =>
    match find_key v_key k (vp_inputs s) with
    | Some _ => Some (VPage (set_value k w (vp_rows s)) (set_value k w (vp_inputs s)) (vp_srv s) (vp_open s))
    | None => None
    end
  | VSave k =>
    match find_key v_key k (vp_inputs s) with Some r => Some (send (OpSet k (v_value r)) s) | None => None end
  | VDelete k =>
    match find_key v_key k (vp_inputs s) with Some _ => Some (send (OpDel k) s) | None => None end
  | VAdd k w => let k' := trim k in
    match add_error k' with Some _ => Some s | None => Some (send (OpSet k' w) s) end
  | VServer n up =>
    match vp_open s !! n with
    | Some (o, None) => let r := vars_server o up (vp_srv s) in
        Some (VPage (vp_rows s) (vp_inputs s) r.1 (<[n := (o, Some r.2)]> (vp_open s)))
    | _ => None
    end
  | VAnswer n =>
    match vp_open s !! n with
    | Some (o, Some ok) => let s1 := set_vopen (delete n (vp_open s)) s in
        Some (match ok with true => vars_done o s1 | false => s1 end)
    | _ => None
    end
  | VRedraw => Some (renderVars s)
  end.

Fixpoint vars_run (es : list vars_event) (s : vpage) : option vpage :=
  match es with
  | [] => Some s
  | e :: es' => match vars_step e s with Some s' => vars_run es' s' | None => None end
  end.

(** [showResources], with the rows the server listed. *)
Definition loaded (rows : list vrow) (m : gmap jstr vrow) : vpage := VPage rows rows m [].

(** ** The connection dialog *)

Record conn := Conn {
  c_id : jstr; c_type : jstr; c_host : jstr; c_port : Z; c_login : jstr; c_password : jstr; c_extra : jstr }.
(** What the server sends of a connection. *)
Record crow := CRow {
  cr_id : jstr; cr_type : jstr; cr_host : jstr; cr_port : Z; cr_login : jstr; cr_extra : jstr; cr_has_password : bool }.
Definition toConnResp (c : conn) : crow :=
  CRow (c_id c) (c_type c) (c_host c) (c_port c) (c_login c) (c_extra c) (truthy (c_password c)).

Record cform := CForm {
  f_edit : option jstr;    (** the id of the connection edited *)
  f_id : jstr; f_type : jstr; f_host : jstr; f_port : numf; f_login : jstr; f_pw : jstr; f_extra : jstr }.

(** [connDialog] *)
Definition connDialog (c : option crow) : cform :=
  match c with
  | Some c => CForm (Some (cr_id c)) (cr_id c) (cr_type c) (cr_host c)
                    (if (cr_port c =? 0)%Z then Blank else NumF (cr_port c)) (cr_login c) [] (cr_extra c)
  | None => CForm None [] [] [] Blank [] [] []
  end.

(** The dialog's error, or the connection posted. *)
Definition conn_post (f : cform) : label + conn :=
  let id := match f_edit f with Some i => i | None => trim (f_id f) end in
  if negb (truthy id) then inl (T (lit "c_id") [])
  else if negb (CFG_KEY_RE id) then inl (T (lit "err_key") [])
  else inr (Conn id (trim (f_type f)) (trim (f_host f)) (num_of (f_port f)) (trim (f_login f)) (f_pw f) (trim (f_extra f))).

(** [setConnection] of the server: a blank password keeps the stored one. *)
Section connections.
Variable json_valid : jstr -> bool.

Definition setConnection (b : conn) (m : gmap jstr conn) : option (gmap jstr conn * crow) :=
  if negb (CFG_KEY_RE (c_id b)) || truthy (c_extra b) && negb (json_valid (c_extra b)) then None
  else
    let pw := if truthy (c_password b) then c_password b
              else match m !! c_id b with Some old => c_password old | None => [] end in
    let c := Conn (c_id b) (c_type b) (c_host b) (c_port b) (c_login b) pw (c_extra b) in
    Some (<[c_id b := c]> m, toConnResp c).

Inductive conn_event := CSave (f : cform) | CDelete (id : jstr).

(** A dialog's save or a confirmed deletion, with the server's part; an error leaves
    both as they are. *)
Definition conn_step (e : conn_event) (s : list crow * gmap jstr conn) : list crow * gmap jstr conn :=
  match e with
  | CSave f =>
    match conn_post f with
    | inl _ => s
    | inr b => match setConnection b s.2 with
               | Some (m', resp) => (put_row cr_id resp s.1, m')
               | None => s
               end
    end
  | CDelete id => match s.2 !! id with Some _ => (drop_row cr_id id s.1, delete id s.2) | None => s end
  end.
End connections.

(** ** The alert-group dialog *)

Definition AG_MAX_CHANNELS : nat := 16.

(** [AG_URL_RE], [/^(https?:\/\/|mailto:)/i] *)
Definition AG_URL_RE (u : jstr) : bool :=
  starts_with_ci (lit "http://") u || starts_with_ci (lit "https://") u || starts_with_ci (lit "mailto:") u.

Record chan := Chan { ch_url : jstr; ch_format : jstr }.
Record gdialog := GDialog { g_edit : option jstr; g_name : jstr; g_chans : list chan }.

(** [groupDialog] *)
Definition groupDialog (g : option (jstr * list chan)) : gdialog :=
  match g with
  | Some (nm, (_ :: _) as cs) => GDialog (Some nm) nm cs
  | Some (nm, []) => GDialog (Some nm) nm [Chan [] []]
  | None => GDialog None [] [Chan [] []]
  end.

Inductive g_event := GName (v : jstr) | GUrl (i : nat) (v : jstr) | GFormat (i : nat) (v : jstr) | GRemove (i : nat) | GAdd.

Definition g_step (e : g_event) (d : gdialog) : option gdialog :=
  let chans := g_chans d in
  let upd := fun cs => Some (GDialog (g_edit d) (g_name d) cs) in
  match e with
  | GName v => match g_edit d with None => Some (GDialog None v chans) | Some _ => None end
  | GUrl i v => match chans !! i with Some c => upd (<[i := Chan v (ch_format c)]> chans) | None => None end
  | GFormat i v => match chans !! i with Some c => upd (<[i := Chan (ch_url c) v]> chans) | None => None end
  | GRemove i => if (length chans <=? 1) || (length chans <=? i) then None else upd (delete i chans)
  | GAdd => if length chans <? AG_MAX_CHANNELS then upd (chans ++ [Chan [] []]) else None
  end.
Fixpoint g_run (es : list g_event) (d : gdialog) : option gdialog :=
  match es with
  | [] => Some d
  | e :: es' => match g_step e d with Some d' => g_run es' d' | None => None end
  end.

(** The channels posted: blank rows are dropped. *)
Definition g_list (chans : list chan) : list chan :=
  List.filter (fun c => truthy (ch_url c)) (map (fun c => Chan (trim (ch_url c)) (ch_format c)) chans).

(** [save]: the error shown, or the name and channels posted. *)
Definition g_save (d : gdialog) : label + jstr * list chan :=
  let nm := match g_edit d with Some n => n | None => trim (g_name d) end in
  let list := g_list (g_chans d) in
  if negb (truthy nm) then inl (T (lit "ag_name") [])
  else if negb (CFG_KEY_RE nm) || (128 <? length nm) then inl (T (lit "err_key") [])
  else if (length list =? 0) || (AG_MAX_CHANNELS <? length list) then inl (T (lit "ag_err_channels") [])
  else if existsb (fun c => negb (AG_URL_RE (ch_url c))) list then inl (T (lit "ag_err_url") [])
  else inr (nm, list).

(** [RES.groups] once the request has succeeded. *)
Definition group_saved (g : jstr * list chan) (groups : list (jstr * list chan)) : list (jstr * list chan) :=
  put_row fst g groups.

(** ** Calm use

    Two requests for one variable at a time, typing into a row while it is being
    saved, and adding a variable that is there already are the uses the page does not
    follow (see [vars_races]); the others are calm. *)

Definition busy (k : jstr) (s : vpage) : Prop := k ∈ op_key ∘ fst <$> vp_open s.
#[export] Instance busy_dec k s : Decision (busy k s).
Proof. unfold busy. apply _. Defined.

Definition calm (e : vars_event) (s : vpage) : Prop :=
  match e with
  | VType k _ | VSave k | VDelete k => ~ busy k s
  | VAdd k _ => ~ busy (trim k) s /\ find_key v_key (trim k) (vp_rows s) = None
  | _ => True
  end.
Fixpoint calm_run (es : list vars_event) (s : vpage) : Prop :=
  match es with
  | [] => True
  | e :: es' => calm e s /\ match vars_step e s with Some s' => calm_run es' s' | None => True end
  end.

#[export] Instance calm_dec e s : Decision (calm e s).
Proof. destruct e; simpl; apply _. Defined.
#[export] Instance calm_run_dec es s : Decision (calm_run es s).
Proof.
  revert s; induction es as [|e es IH]; intros s; simpl; [apply _|].
  destruct (vars_step e s); [apply and_dec; [apply _|apply IH]|apply _].
Defined.

(** The variables with text typed and not saved since. *)
Definition unsaved_step (e : vars_event) (s : vpage) (U : gset jstr) : gset jstr :=
  match e with
  | VType k _ => {[k]} ∪ U
  | VAnswer n => match vp_open s !! n with Some (o, Some true) => U ∖ {[op_key o]} | _ => U end
  | _ => U
  end.
Fixpoint unsaved (es : list vars_event) (s : vpage) (U : gset jstr) : gset jstr :=
  match es with
  | [] => U
  | e :: es' => match vars_step e s with Some s' => unsaved es' s' (unsaved_step e s U) | None => U end
  end.

(** The row of a variable against the server's: both or neither, and equal unless
    something is typed and not saved. *)
Definition agrees (U : gset jstr) (row srv : option vrow) (k : jstr) : Prop :=
  (is_Some row <-> is_Some srv) /\ (k ∉ U -> row = srv).

(** The row a save was sent from still shows what was sent. *)
Definition as_sent (o : vop) (row : option vrow) : Prop :=
  match o with OpSet k w => row = None \/ row = Some (VRow k w) | OpDel _ => True end.
Definition settled_as (o : vop) : option vrow :=
  match o with OpSet k w => Some (VRow k w) | OpDel _ => None end.

Definition entry_ok (U : gset jstr) (s : vpage) (x : vop * option bool) : Prop :=
  let row := find_key v_key (op_key x.1) (vp_rows s) in
  let srv := vp_srv s !! op_key x.1 in
  as_sent x.1 row /\
  match x.2 with
  | Some true => srv = settled_as x.1
  | _ => agrees U row srv (op_key x.1)
  end.

Definition keys_ok (l : list vrow) : Prop := Forall (fun r => CFG_KEY_RE (v_key r) = true) l.

Record vinv (U : gset jstr) (s : vpage) : Prop := {
  vi_distinct : distinct v_key (vp_rows s);
  vi_inputs : vp_inputs s = vp_rows s;
  vi_keys : keys_ok (vp_rows s);
  vi_okeys : Forall (fun x => CFG_KEY_RE (op_key x.1) = true) (vp_open s);
  vi_open : NoDup (op_key ∘ fst <$> vp_open s);
  vi_entries : Forall (entry_ok U s) (vp_open s);
  vi_rest : forall k, ~ busy k s -> agrees U (find_key v_key k (vp_rows s)) (vp_srv s !! k) k;
}.

Lemma set_value_find k w l k' :
  distinct v_key l -> distinct v_key (set_value k w l) /\
  find_key v_key k' (set_value k w l)
  = (if decide (k = k') then (fun _ => VRow k w) <$> find_key v_key k l else find_key v_key k' l).
Proof.
  intros Hd. unfold set_value. destruct (find_key v_key k l) as [r|] eqn:E.
  - destruct (put_row_find v_key (VRow k w) l k' Hd) as [H1 H2]. split; [done|]. by rewrite H2.
  - split; [done|]. case_decide; [by subst|done].
Qed.

Lemma set_value_keys k w l : CFG_KEY_RE k = true -> keys_ok l -> keys_ok (set_value k w l).
Proof.
  intros Hk Hl. unfold set_value. destruct (find_key v_key k l); [|done].
  by apply (put_row_forall v_key (fun k => CFG_KEY_RE k = true)).
Qed.

Lemma row_key_ok k l r : keys_ok l -> find_key v_key k l = Some r -> CFG_KEY_RE k = true /\ v_key r = k.
Proof.
  intros Hl [Hr <-]%find_key_Some. unfold keys_ok in Hl. rewrite Forall_forall in Hl. by split; [apply Hl|].
Qed.

(** Opening a request for a variable that has none. *)
Lemma send_inv U o s :
  vinv U s -> ~ busy (op_key o) s -> CFG_KEY_RE (op_key o) = true ->
  as_sent o (find_key v_key (op_key o) (vp_rows s)) -> vinv U (send o s).
Proof.
  intros [H1 H2 H3 H4 H5 H6 H7] Hb Hk Hs. split; simpl; try done.
  - apply Forall_app. by repeat constructor.
  - rewrite fmap_app, NoDup_app. split; [done|]. split; [|apply NoDup_singleton].
    intros x Hx Hx'. apply list_elem_of_singleton in Hx'. by subst x.
  - apply Forall_app. split; [done|]. constructor; [|constructor]. split; [done|by apply H7].
  - intros k Hk'. apply H7. unfold busy in *. simpl in Hk'. rewrite fmap_app, elem_of_app in Hk'. tauto.
Qed.

Lemma agrees_mono U k0 row srv k : k <> k0 -> agrees U row srv k -> agrees ({[k0]} ∪ U) row srv k.
Proof. intros Hn [H1 H2]. split; [done|]. set_solver. Qed.

(** A request keeps its standing while rows and table change at other names. *)
Lemma entry_ok_frame U U' s s' x :
  (forall k, k = op_key x.1 -> (k ∉ U' -> k ∉ U) /\
     find_key v_key k (vp_rows s') = find_key v_key k (vp_rows s) /\ vp_srv s' !! k = vp_srv s !! k) ->
  entry_ok U s x -> entry_ok U' s' x.
Proof.
  intros H [Hs Hx]. destruct (H _ eq_refl) as (HU & E1 & E2).
  unfold entry_ok. rewrite E1, E2. split; [done|].
  destruct x.2 as [[|]|]; [done|destruct Hx as [Ha1 Ha2]; split; auto..].
Qed.

Lemma entries_frame U U' s s' l k0 :
  k0 ∉ op_key ∘ fst <$> l ->
  (forall k, k <> k0 -> (k ∉ U' -> k ∉ U) /\
     find_key v_key k (vp_rows s') = find_key v_key k (vp_rows s) /\ vp_srv s' !! k = vp_srv s !! k) ->
  Forall (entry_ok U s) l -> Forall (entry_ok U' s') l.
Proof.
  intros Hk H Hl. rewrite Forall_forall in *. intros x Hx.
  apply (entry_ok_frame U U' s s'); [|by apply Hl]. intros k ->. apply H.
  intros E. apply Hk. rewrite <- E. change (op_key x.1) with ((op_key ∘ fst) x). by apply list_elem_of_fmap_2.
Qed.

Lemma type_inv U k w s :
  vinv U s -> ~ busy k s -> is_Some (find_key v_key k (vp_rows s)) ->
  vinv ({[k]} ∪ U) (VPage (set_value k w (vp_rows s)) (set_value k w (vp_rows s)) (vp_srv s) (vp_open s)).
Proof.
  intros [H1 H2 H3 H4 H5 H6 H7] Hb [r Hr].
  pose proof (fun k' => proj2 (set_value_find k w (vp_rows s) k' H1)) as Hf.
  split; simpl; try done.
  - by apply (set_value_find k w _ k H1).
  - apply set_value_keys; [by eapply row_key_ok|done].
  - apply (entries_frame U _ s _ _ k); [done| |done]. intros k' Hn; simpl.
    rewrite Hf, decide_False by done. split; [set_solver|done].
  - intros k' Hk'. specialize (H7 k' Hk'). rewrite Hf. case_decide as E; [subst k'|by apply agrees_mono].
    split; [|set_solver]. rewrite Hr in *. simpl. split; [intros _; apply H7; eauto|eauto].
Qed.

(** The list of requests without its [n]-th. *)
Lemma open_delete s n x :
  NoDup (op_key ∘ fst <$> vp_open s) -> vp_open s !! n = Some x ->
  NoDup (op_key ∘ fst <$> delete n (vp_open s)) /\
  (op_key x.1 ∉ op_key ∘ fst <$> delete n (vp_open s)) /\
  (forall k, k ∉ op_key ∘ fst <$> delete n (vp_open s) -> k = op_key x.1 \/ ~ busy k s).
Proof.
  intros Hd Hn. pose proof (delete_Permutation _ _ _ Hn) as Hp.
  assert (Hd' := Hd). rewrite Hp, fmap_cons, NoDup_cons in Hd'. destruct Hd' as [Hx Hd'].
  split_and!; [done|done|]. intros k Hk. unfold busy. rewrite Hp, fmap_cons, elem_of_cons. simpl in *.
  destruct (decide (k = op_key x.1)); tauto.
Qed.

Lemma vars_server_spec o up m :
  let r := vars_server o up m in
  (forall k, k <> op_key o -> r.1 !! k = m !! k) /\
  (if r.2 then r.1 !! op_key o = settled_as o else r.1 = m).
Proof.
  destruct o as [k w|k]; simpl; [destruct (up && CFG_KEY_RE k)|destruct (up && bool_decide _)];
    simpl; split; try done; intros; by rewrite ?lookup_insert_eq, ?lookup_delete_eq, ?lookup_insert_ne, ?lookup_delete_ne.
Qed.

Lemma server_inv U s n o up :
  vinv U s -> vp_open s !! n = Some (o, None) ->
  let r := vars_server o up (vp_srv s) in
  vinv U (VPage (vp_rows s) (vp_inputs s) r.1 (<[n := (o, Some r.2)]> (vp_open s))).
Proof.
  intros [H1 H2 H3 H4 H5 H6 H7] Hn r.
  assert (Hk : op_key ∘ fst <$> <[n := (o, Some r.2)]> (vp_open s) = op_key ∘ fst <$> vp_open s).
  { rewrite list_fmap_insert. apply list_insert_id. by rewrite list_lookup_fmap, Hn. }
  destruct (vars_server_spec o up (vp_srv s)) as [Hf Hr]. fold r in Hf, Hr.
  assert (Ho : entry_ok U s (o, None)) by (rewrite Forall_lookup in H6; by apply (H6 n)).
  destruct Ho as [Hs Ha]. split; simpl; try done.
  - apply Forall_insert; [done|]. rewrite Forall_lookup in H4. by apply (H4 n _ Hn).
  - by rewrite Hk.
  - apply Forall_lookup. intros i x Hi. apply list_lookup_insert_Some in Hi as [(<- & <- & _)|[Hni Hi]].
    + split; simpl; [done|]. destruct r.2; [done|]. by rewrite Hr.
    + rewrite Forall_lookup in H6. apply (entry_ok_frame U U s); [|by apply (H6 i)].
      intros k ->. split_and!; [done|done|]. simpl. apply Hf. intros E.
      rewrite NoDup_alt in H5. apply Hni. apply (H5 n i (op_key o)).
      * by rewrite list_lookup_fmap, Hn.
      * rewrite list_lookup_fmap, Hi. simpl. by rewrite E.
  - intros k Hb. unfold busy in Hb; simpl in Hb. rewrite Hk in Hb. rewrite Hf; [by apply H7|].
    intros ->. apply Hb. apply list_elem_of_fmap. exists (o, None). split; [done|by eapply list_elem_of_lookup_2].
Qed.

(** The page's part of an answer: the row becomes what the request settled, the
    other rows stay, and the inputs follow. *)
Lemma vars_done_find o s :
  distinct v_key (vp_rows s) -> vp_inputs s = vp_rows s ->
  as_sent o (find_key v_key (op_key o) (vp_rows s)) ->
  let s' := vars_done o s in
  distinct v_key (vp_rows s') /\ vp_inputs s' = vp_rows s' /\ vp_srv s' = vp_srv s /\ vp_open s' = vp_open s /\
  (CFG_KEY_RE (op_key o) = true -> keys_ok (vp_rows s) -> keys_ok (vp_rows s')) /\
  forall k, find_key v_key k (vp_rows s') = if decide (op_key o = k) then settled_as o else find_key v_key k (vp_rows s).
Proof.
  intros Hd Hi Hs. destruct o as [k w|k]; simpl in *.
  - pose proof (fun k' => put_row_find v_key (VRow k w) (vp_rows s) k' Hd) as Hp.
    assert (Hid : forall r, find_key v_key k (vp_rows s) = Some r -> set_value k w (vp_rows s) = vp_rows s).
    { intros r Hr. destruct Hs as [Hs|Hs]; [congruence|]. unfold set_value, put_row. rewrite Hs. simpl.
      pose proof (list_find_key v_key k (vp_rows s)) as Hl.
      destruct (list_find _ (vp_rows s)) as [[i y]|] eqn:El; [|by apply find_key_None in Hl; rewrite Hl in Hs].
      destruct Hl as [Hl Hy]. apply list_insert_id. rewrite Hl. f_equal.
      assert (Hf := find_key_elem v_key _ y Hd (list_elem_of_lookup_2 _ _ _ Hl)). rewrite Hy in Hf. congruence. }
    destruct (find_key v_key k (vp_rows s)) as [r|] eqn:Er; simpl.
    + rewrite (Hid r eq_refl). split_and!; try done. intros k'. case_decide as E; [|done]. subst k'.
      destruct Hs; congruence.
    + assert (Eput : sort_rows v_key (vp_rows s ++ [VRow k w]) = put_row v_key (VRow k w) (vp_rows s)).
      { unfold put_row. pose proof (list_find_key v_key k (vp_rows s)) as Hl. simpl.
        destruct (list_find _ (vp_rows s)) as [[i y]|]; [|done].
        destruct Hl as [Hl <-]. apply find_key_None in Er. destruct Er.
        apply list_elem_of_fmap_2. by eapply list_elem_of_lookup_2. }
      rewrite Eput. split_and!; try done.
      * by apply (Hp k).
      * intros Hk Hl. by apply (put_row_forall v_key (fun k => CFG_KEY_RE k = true)).
      * intros k'. by rewrite (proj2 (Hp k')).
  - pose proof (fun k' => drop_row_find v_key k (vp_rows s) k' Hd) as Hp.
    split_and!; try done.
    + by apply (Hp k).
    + intros _ Hl. unfold keys_ok, drop_row in *. rewrite Forall_forall in *.
      intros x [_ Hx]%list_elem_of_filter. by apply Hl.
    + intros k'. apply Hp.
Qed.

Lemma vars_answer_inv U s n o (ok : bool) :
  vinv U s -> vp_open s !! n = Some (o, Some ok) ->
  let s1 := set_vopen (delete n (vp_open s)) s in
  vinv (if ok then U ∖ {[op_key o]} else U) (if ok then vars_done o s1 else s1).
Proof.
  intros [H1 H2 H3 H4 H5 H6 H7] Hn s1.
  destruct (open_delete s n _ H5 Hn) as (D1 & D2 & D3). simpl in D2, D3.
  pose proof (delete_Permutation _ _ _ Hn) as Hp.
  rewrite Hp, Forall_cons in H4, H6. destruct H4 as [Hko H4], H6 as [[Hs Ha] H6]. simpl in Hs, Ha, Hko.
  destruct ok.
  - destruct (vars_done_find o s1 H1 H2 Hs) as (E1 & E2 & E3 & E4 & E5 & E6). simpl in E6.
    split; rewrite ?E4; simpl; auto.
    + apply (entries_frame U _ s _ _ (op_key o)); [done| |done]. intros k Hk. rewrite E6, decide_False, E3 by done.
      split; [set_solver|done].
    + intros k Hk. unfold busy in Hk. rewrite E4 in Hk. rewrite E6, E3. case_decide as E.
      * subst k. simpl. rewrite Ha. by split.
      * destruct (D3 k Hk) as [->|Hb]; [done|]. destruct (H7 k Hb) as [B1 B2]. split; [done|].
        intros HU. apply B2. set_solver.
  - split; simpl; auto. intros k Hk. destruct (D3 k Hk) as [->|Hb]; [done|by apply H7].
Qed.

Lemma vars_step_inv U e s s' :
  vinv U s -> calm e s -> vars_step e s = Some s' -> vinv (unsaved_step e s U) s'.
Proof.
  intros Hi Hc E. pose proof (vi_inputs _ _ Hi) as Hin. destruct e as [k w|k|k|k w|n up|n|]; simpl in *.
  - rewrite Hin in E. destruct (find_key v_key k (vp_rows s)) eqn:Ef; simplify_eq.
    apply type_inv; [done|done|eauto].
  - rewrite Hin in E. destruct (find_key v_key k (vp_rows s)) as [r|] eqn:Ef; simplify_eq.
    destruct (row_key_ok _ _ _ (vi_keys _ _ Hi) Ef) as [Hk Hr].
    apply send_inv; [done..|]. right. simpl. rewrite Ef. f_equal. destruct r; simpl in *. by subst.
  - rewrite Hin in E. destruct (find_key v_key k (vp_rows s)) as [r|] eqn:Ef; simplify_eq.
    apply send_inv; [done|done|by apply (row_key_ok _ _ _ (vi_keys _ _ Hi) Ef)|done].
  - destruct Hc as [Hb Hf]. unfold add_error in E. destruct (negb (truthy (trim k))); [by simplify_eq|].
    destruct (CFG_KEY_RE (trim k)) eqn:Ek; simplify_eq/=; [|done].
    apply send_inv; [done..|]. by left.
  - destruct (vp_open s !! n) as [[o [?|]]|] eqn:Eo; simplify_eq. by apply server_inv.
  - destruct (vp_open s !! n) as [[o [ok|]]|] eqn:Eo; simplify_eq.
    pose proof (vars_answer_inv U s n o ok Hi Eo). by destruct ok.
  - simplify_eq. destruct Hi. by split.
Qed.

Lemma vars_run_inv es U s s' :
  vinv U s -> calm_run es s -> vars_run es s = Some s' -> vinv (unsaved es s U) s'.
Proof.
  revert U s; induction es as [|e es IH]; intros U s Hi Hc E; simpl in *; [by simplify_eq|].
  destruct Hc as [Hc Hr]. destruct (vars_step e s) as [s1|] eqn:E1; [|done].
  eapply IH; [by eapply vars_step_inv|done|done].
Qed.

(** ** Properties *)

(** C33 The variables tab mirrors the server. However requests and answers interleave, in
    calm use (one request per variable at a time, no typing into a row being saved, no
    adding of a variable that is there): the inputs on screen are the page's rows; a
    variable without an open request has a row exactly when the server has it, with the
    server's value unless text was typed there and not saved since; every request is
    for a name the server takes. *)
Theorem vars_mirror es rows m s :
  mirrors v_key rows m -> keys_ok rows -> calm_run es (loaded rows m) ->
  vars_run es (loaded rows m) = Some s ->
  vp_inputs s = vp_rows s /\
  Forall (fun x => CFG_KEY_RE (op_key x.1) = true) (vp_open s) /\
  forall k, ~ busy k s ->
    (is_Some (find_key v_key k (vp_rows s)) <-> is_Some (vp_srv s !! k)) /\
    (k ∉ unsaved es (loaded rows m) ∅ -> find_key v_key k (vp_rows s) = vp_srv s !! k).
Proof.
  intros [Hd Hm] Hk Hc E.
  assert (Hi : vinv ∅ (loaded rows m)).
  { split; simpl; try done; try constructor; rewrite Hm; done. }
  destruct (vars_run_inv _ _ _ _ Hi Hc E) as [_ I2 _ I4 _ _ I7]. done.
Qed.

Definition sample_vars : list vrow := [VRow (lit "A") (lit "1"); VRow (lit "C") (lit "3")].
Definition sample_use : list vars_event :=
  [VAdd (lit " B ") (lit "2"); VType (lit "A") (lit "9"); VServer 0 true; VSave (lit "A"); VAnswer 0;
   VDelete (lit "C"); VServer 1 true; VServer 0 true; VAnswer 1; VAnswer 0; VType (lit "B") (lit "x")].

Lemma vars_mirror_witness :
  exists s, vars_run sample_use (loaded sample_vars (table v_key sample_vars)) = Some s /\
  vp_rows s = [VRow (lit "A") (lit "9"); VRow (lit "B") (lit "x")] /\ vp_inputs s = vp_rows s.
Proof.
  eexists. split; [vm_compute; reflexivity|]. split; [reflexivity|].
  refine (proj1 (vars_mirror sample_use sample_vars (table v_key sample_vars) _ _ _ _ _)).
  - apply table_mirrors. compute_decide.
  - repeat constructor.
  - compute_decide.
  - vm_compute; reflexivity.
Defined.

(** What the other uses do. Adding a variable that is there replaces its value on the
    server and in the page's array but not in its row on screen, and the row's save
    button then puts the old value back. Text typed into a row while its save is open
    is taken back out of the array by the answer, and gone from the screen when the
    table is drawn anew. A row deleted while its save is open comes back if the save
    is answered last. *)
Theorem vars_races :
  let s0 := loaded [VRow (lit "A") (lit "1")] (table v_key [VRow (lit "A") (lit "1")]) in
  (exists s1 s2,
     vars_run [VAdd (lit "A") (lit "2"); VServer 0 true; VAnswer 0] s0 = Some s1 /\
     vp_srv s1 !! lit "A" = Some (VRow (lit "A") (lit "2")) /\
     vp_rows s1 = [VRow (lit "A") (lit "2")] /\ vp_inputs s1 = [VRow (lit "A") (lit "1")] /\
     vars_run [VSave (lit "A"); VServer 0 true; VAnswer 0] s1 = Some s2 /\
     vp_srv s2 !! lit "A" = Some (VRow (lit "A") (lit "1"))) /\
  (exists s1 s2,
     vars_run [VSave (lit "A"); VType (lit "A") (lit "3"); VServer 0 true; VAnswer 0] s0 = Some s1 /\
     vp_inputs s1 = [VRow (lit "A") (lit "3")] /\ vp_rows s1 = [VRow (lit "A") (lit "1")] /\
     vars_step VRedraw s1 = Some s2 /\ vp_inputs s2 = [VRow (lit "A") (lit "1")]) /\
  (exists s1,
     vars_run [VSave (lit "A"); VDelete (lit "A"); VServer 0 true; VServer 1 true; VAnswer 1; VAnswer 0] s0 = Some s1 /\
     vp_inputs s1 = [VRow (lit "A") (lit "1")] /\ vp_srv s1 !! lit "A" = None).
Proof.
  intros s0. split; [|split]; [do 2 eexists..|eexists]; split_and!; vm_compute; reflexivity.
Qed.

(** ** Connections *)

Section connections_spec.
Variable json_valid : jstr -> bool.

Definition conns_inv (s : list crow * gmap jstr conn) : Prop :=
  mirrors cr_id s.1 (toConnResp <$> s.2) /\
  (forall k c, s.2 !! k = Some c -> c_id c = k /\ CFG_KEY_RE k = true).

(** What a save stores: the fields posted, the old password when none is given. *)
Lemma setConnection_spec b m m' resp :
  setConnection json_valid b m = Some (m', resp) ->
  exists c, m' = <[c_id b := c]> m /\ resp = toConnResp c /\ c_id c = c_id b /\ CFG_KEY_RE (c_id b) = true /\
    c_password c = (if truthy (c_password b) then c_password b else default [] (c_password <$> m !! c_id b)).
Proof.
  unfold setConnection. destruct (CFG_KEY_RE (c_id b)) eqn:Ek; [|done].
  destruct (truthy (c_extra b) && _); simpl; [done|]. intros [= <- <-].
  eexists. split_and!; try done. by destruct (truthy _), (m !! c_id b).
Qed.

Lemma conn_step_inv e s : conns_inv s -> conns_inv (conn_step json_valid e s).
Proof.
  intros [Hm Hk]. destruct s as [rows m], e as [f|id]; simpl in *.
  - destruct (conn_post f) as [|b]; [done|].
    destruct (setConnection json_valid b m) as [[m' resp]|] eqn:E; [|done].
    apply setConnection_spec in E as (c & -> & -> & Hid & Hre & _). split; simpl.
    + rewrite fmap_insert, <- Hid. apply (put_row_mirrors cr_id (toConnResp c)). done.
    + intros k c' Hc. apply lookup_insert_Some in Hc as [[<- <-]|[_ Hc]]; [done|by apply Hk].
  - destruct (m !! id) eqn:E; [|done]. split; simpl.
    + rewrite fmap_delete. by apply drop_row_mirrors.
    + intros k c' [_ Hc]%lookup_delete_Some. by apply Hk.
Qed.

Definition conn_trimmed (c : conn) : Prop :=
  trimmed (c_type c) /\ trimmed (c_host c) /\ trimmed (c_login c) /\ trimmed (c_extra c) /\
  (truthy (c_extra c) = true -> json_valid (c_extra c) = true).

Lemma put_same {A} (key : A -> jstr) x l : distinct key l -> find_key key (key x) l = Some x -> put_row key x l = l.
Proof.
  intros Hd Hf. unfold put_row. pose proof (list_find_key key (key x) l) as Hl.
  destruct (list_find _ l) as [[i y]|]; [|by apply find_key_None in Hl; rewrite Hl in Hf].
  destruct Hl as [Hl Hy]. apply list_insert_id. rewrite Hl. f_equal.
  assert (H := find_key_elem key _ y Hd (list_elem_of_lookup_2 _ _ _ Hl)). rewrite Hy in H. congruence.
Qed.

Lemma conn_edit_same c s :
  conns_inv s -> s.2 !! c_id c = Some c -> conn_trimmed c ->
  conn_step json_valid (CSave (connDialog (Some (toConnResp c)))) s = s.
Proof.
  intros [[Hd Hm] Hk] Hc (T1 & T2 & T3 & T4 & Hj). destruct s as [rows m]; simpl in *.
  destruct (Hk _ _ Hc) as [_ Hre].
  assert (Ht : truthy (c_id c) = true) by (unfold CFG_KEY_RE in Hre; by bool_props).
  unfold conn_post, connDialog; simpl. rewrite Ht, Hre; simpl.
  rewrite !trim_id by done. unfold setConnection; simpl. rewrite Hre; simpl.
  assert (Hx : truthy (c_extra c) && negb (json_valid (c_extra c)) = false).
  { destruct (truthy (c_extra c)); [|done]. by rewrite Hj. }
  rewrite Hx, Hc. simpl.
  assert (Hp : num_of (if (c_port c =? 0)%Z then Blank else NumF (c_port c)) = c_port c).
  { destruct (Z.eqb_spec (c_port c) 0); simpl; lia. }
  rewrite Hp. f_equal.
  - destruct c; simpl in *. apply (put_same cr_id); [done|]. simpl. by rewrite Hm, lookup_fmap, Hc.
  - apply insert_id. rewrite Hc. by destruct c.
Qed.
End connections_spec.

(** The connections tab mirrors the server, password apart: after any sequence of saves
    and deletions, refused ones included, its rows are the server's connections with the
    password masked. A dialog opened on a connection and saved as it is changes nothing,
    so the stored password is kept; a save replaces the password exactly when one was
    typed. *)
Theorem conns_mirror json_valid es rows m :
  conns_inv (rows, m) ->
  let s := foldl (fun s e => conn_step json_valid e s) (rows, m) es in
  mirrors cr_id s.1 (toConnResp <$> s.2) /\
  (forall c, s.2 !! c_id c = Some c -> conn_trimmed json_valid c ->
     conn_step json_valid (CSave (connDialog (Some (toConnResp c)))) s = s) /\
  (forall f b c, conn_post f = inr b -> setConnection json_valid b s.2 <> None -> s.2 !! c_id b = Some c ->
     c_password <$> (conn_step json_valid (CSave f) s).2 !! c_id b
     = Some (if truthy (f_pw f) then f_pw f else c_password c)).
Proof.
  intros Hi s. assert (Hs : conns_inv s).
  { unfold s. clear s. revert Hi. generalize (rows, m). induction es as [|e es IH]; intros s Hi; simpl; [done|].
    by apply IH, conn_step_inv. }
  split_and!; [apply Hs|intros c Hc Ht; by apply conn_edit_same|].
  intros f b c Hf Hn Hc. simpl. rewrite Hf. destruct (setConnection json_valid b s.2) as [[m' resp]|] eqn:E; [|done].
  apply setConnection_spec in E as (c' & -> & _ & _ & _ & Hp). simpl.
  rewrite lookup_insert_eq. simpl. f_equal. rewrite Hp, Hc. simpl.
  assert (Hb : c_password b = f_pw f).
  { unfold conn_post in Hf. repeat case_match; by simplify_eq/=. }
  by rewrite Hb.
Qed.

Definition sample_conn : conn :=
  Conn (lit "db") (lit "mysql") (lit "db.host") 3306 (lit "root") (lit "secret") (lit "{}").
Definition sample_conns : list conn_event :=
  [CSave (CForm None (lit " api ") (lit "http") (lit " api.host ") Blank [] (lit "tok") []);
   CSave (connDialog (Some (toConnResp sample_conn))); CSave (CForm None (lit "no good") [] [] Blank [] [] [])].
Lemma conns_mirror_witness :
  let s := foldl (fun s e => conn_step (fun x => bool_decide (x = lit "{}")) e s)
             ([toConnResp sample_conn], {[ lit "db" := sample_conn ]}) sample_conns in
  c_password <$> s.2 !! lit "db" = Some (lit "secret") /\ length s.1 = 2 /\
  mirrors cr_id s.1 (toConnResp <$> s.2).
Proof.
  intros s. split; [vm_compute; reflexivity|]. split; [vm_compute; reflexivity|].
  refine (proj1 (conns_mirror (fun x => bool_decide (x = lit "{}")) sample_conns _ _ _)).
  split; simpl.
  - split; [compute_decide|]. intros k. unfold find_key; simpl. rewrite map_fmap_singleton.
    case_bool_decide as E; [by subst k|]. by rewrite lookup_singleton_ne.
  - intros k c [<- <-]%lookup_singleton_Some. by split.
Defined.

(** ** Alert groups *)

Lemma g_step_chans e d d' :
  1 <= length (g_chans d) -> g_step e d = Some d' ->
  g_edit d' = g_edit d /\ 1 <= length (g_chans d') <= Nat.max AG_MAX_CHANNELS (length (g_chans d)).
Proof.
  intros Hl. destruct e; simpl; unfold AG_MAX_CHANNELS; intros H; repeat case_match; simplify_eq/=; try (split; [done|lia]).
  - rewrite length_insert. split; [done|lia].
  - rewrite length_insert. split; [done|lia].
  - split; [done|]. bool_props. rewrite !Nat.leb_gt in *.
    rewrite length_delete by (apply lookup_lt_is_Some; lia). lia.
  - split; [done|]. rewrite length_app. simpl. match goal with H : (_ <? _) = true |- _ => apply Nat.ltb_lt in H end. lia.
Qed.

Lemma g_list_ok chans :
  Forall (fun c => trimmed (ch_url c) /\ truthy (ch_url c) = true) (g_list chans).
Proof.
  unfold g_list. apply Forall_forall. intros c Hc%list_elem_of_In%filter_In. destruct Hc as [Hc Ht].
  apply in_map_iff in Hc as (c0 & <- & _). split; [apply trim_trimmed|done].
Qed.

(** The alert-group dialog. It always has a row and never more than sixteen, if it was
    opened on no more; a group keeps its name while edited. What it posts is a group the
    server takes: a name of its alphabet and length, one to sixteen channels, each a
    trimmed http, https or mailto address; the channels are the rows with an address, in
    order. Otherwise it shows an error, for the first of name, number and addresses that
    is wrong. *)
Theorem group_dialog_exact g es d :
  match g with Some (_, cs) => length cs <= AG_MAX_CHANNELS | None => True end ->
  g_run es (groupDialog g) = Some d ->
  1 <= length (g_chans d) <= AG_MAX_CHANNELS /\ g_edit d = fst <$> g /\
  match g_save d with
  | inr (nm, list) =>
      CFG_KEY_RE nm = true /\ length nm <= 128 /\ nm = default (trim (g_name d)) (g_edit d) /\
      1 <= length list <= AG_MAX_CHANNELS /\ list = g_list (g_chans d) /\
      Forall (fun c => trimmed (ch_url c) /\ AG_URL_RE (ch_url c) = true) list
  | inl _ =>
      let nm := default (trim (g_name d)) (g_edit d) in
      CFG_KEY_RE nm = false \/ 128 < length nm \/ g_list (g_chans d) = [] \/
      Exists (fun c => AG_URL_RE (ch_url c) = false) (g_list (g_chans d))
  end.
Proof.
  intros Hg E.
  assert (H0 : 1 <= length (g_chans (groupDialog g)) <= AG_MAX_CHANNELS /\ g_edit (groupDialog g) = fst <$> g).
  { unfold AG_MAX_CHANNELS in *. destruct g as [[nm [|c cs]]|]; simpl in *; split; try done; lia. }
  assert (Hd : 1 <= length (g_chans d) <= AG_MAX_CHANNELS /\ g_edit d = fst <$> g).
  { revert E H0. generalize (groupDialog g). induction es as [|e es IH]; intros d0 E H0; simpl in E; [by simplify_eq|].
    destruct (g_step e d0) as [d1|] eqn:E1; [|done]. apply (IH d1); [done|].
    destruct H0 as [H0 He]. apply g_step_chans in E1 as [E1 Hl]; [|lia]. rewrite E1. split; [lia|done]. }
  split; [apply Hd|]. split; [apply Hd|]. destruct Hd as [Hl _].
  assert (Hgl : length (g_list (g_chans d)) <= AG_MAX_CHANNELS).
  { etransitivity; [|apply Hl]. unfold g_list. etransitivity; [apply filter_length_le|]. by rewrite length_map. }
  unfold g_save. change (match g_edit d with Some n => n | None => trim (g_name d) end)
    with (default (trim (g_name d)) (g_edit d)).
  set (nm := default _ _) in *. destruct (truthy nm) eqn:Et; cbn [negb].
  2:{ left. unfold CFG_KEY_RE. by rewrite Et. }
  destruct (CFG_KEY_RE nm) eqn:Ek; cbn [negb orb]; [|by left].
  destruct (Nat.ltb_spec 128 (length nm)); [by right; left|].
  destruct (Nat.eqb_spec (length (g_list (g_chans d))) 0) as [E0|E0]; cbn [orb].
  { right; right; left. by apply length_zero_iff_nil. }
  destruct (Nat.ltb_spec AG_MAX_CHANNELS (length (g_list (g_chans d)))); [lia|].
  destruct (existsb _ _) eqn:Ex.
  - right; right; right. apply existsb_exists in Ex as (c & Hc & Hu). apply Exists_exists.
    exists c. split; [by apply list_elem_of_In|by bool_props].
  - split_and!; try done; [lia|]. pose proof (g_list_ok (g_chans d)) as Hok.
    rewrite Forall_forall in *. intros c Hc. split; [by apply Hok|].
    destruct (AG_URL_RE (ch_url c)) eqn:Eu; [done|]. exfalso.
    assert (Ht : existsb (fun c => negb (AG_URL_RE (ch_url c))) (g_list (g_chans d)) = true); [|congruence].
    apply existsb_exists. exists c. split; [by apply list_elem_of_In|by rewrite Eu].
Qed.

Lemma group_dialog_exact_witness :
  exists d, g_run [GAdd; GUrl 1 (lit " HTTPS://hook "); GName (lit " oncall "); GAdd; GRemove 2] (groupDialog None) = Some d /\
  g_save d = inr (lit "oncall", [Chan (lit "HTTPS://hook") []]) /\ 1 <= length (g_chans d) <= AG_MAX_CHANNELS.
Proof.
  eexists. split; [vm_compute; reflexivity|]. split; [vm_compute; reflexivity|].
  exact (proj1 (group_dialog_exact None
    [GAdd; GUrl 1 (lit " HTTPS://hook "); GName (lit " oncall "); GAdd; GRemove 2] _ I ltac:(vm_compute; reflexivity))).
Defined.
