(* ===== verification/Palette.v ===== *)
(** * The variable palette (views.js), and what the scheduler makes of its placeholders

    The palette of the task page offers names to insert into the command: the built-in
    ones, the variables and connections the server lists, and parameters typed by hand.
    A name becomes a pill, the pill [{{ name }}] in the saved command, and the
    scheduler's [renderCommand] (scheduler.go) replaces it by its value. The first part
    of the file follows a name along this way; the second is the palette itself: which
    editor an insertion goes to, and the menu of a connection's fields. *)

From S2P Require Import Prelude JsCore Schedule DagModel PillEditor Keyed Resources.

(** ** The names offered *)

Definition CONN_FIELDS : list jstr := [lit "host"; lit "port"; lit "login"; lit "password"].
Definition DATE_EXPR_CHIPS : list jstr :=
  [lit "logical_date - 1d"; lit "logical_date.month_start"; lit "logical_date | %Y%m%d"].

Inductive choice :=
| CBuiltin (n : jstr)          (** a chip of the first group *)
| CVar (k : jstr)              (** the chip of a variable *)
| CConn (i f : jstr)           (** a field picked from the menu of a connection *)
| CParams (k : jstr).          (** the parameter field, trimmed *)

Definition chip_name (c : choice) : jstr :=
  match c with
  | CBuiltin n => n
  | CVar k => lit "var." ++ k
  | CConn i f => lit "conn." ++ i ++ lit "." ++ f
  | CParams k => lit "params." ++ k
  end.

(** [/\w/] *)
Definition is_w (c : N) : bool := (is_alnum c || (c =? ch "_"))%N.

(** What the palette lets the user pick; the server takes a variable or a connection
    only under a [CFG_KEY_RE] name. *)
Definition offered (c : choice) : bool :=
  match c with
  | CBuiltin n => bool_decide (n ∈ TEMPLATE_VARS ++ DATE_EXPR_CHIPS)
  | CVar k => CFG_KEY_RE k
  | CConn i f => CFG_KEY_RE i && bool_decide (f ∈ CONN_FIELDS)
  | CParams k => truthy k && forallb is_w k
  end.

(** ** The scheduler *)

(** [\s] of Go *)
Definition go_ws (c : N) : bool := bool_decide (c ∈ [9; 10; 12; 13; 32]%N).
Definition date_char (c : N) : bool := negb (bool_decide (c ∈ [ch "{"; ch "}"; NL])).
(** Trailing white space taken off. *)
Definition go_rtrim (s : jstr) : jstr := reverse (span go_ws (reverse s)).2.

(** [templateRe] at the start of [s]: the key and what follows. The first alternative is
    lazy, so it leaves trailing white space to the [\s*] after it. *)
Definition close_tpl (r : jstr) : option jstr := strip_prefix (lit "}}") (span go_ws r).2.
Definition word_at (s : jstr) : option (jstr * jstr) :=
  let '(w, r1) := span is_word s in
  match w, close_tpl r1 with _ :: _, Some r2 => Some (w, r2) | _, _ => None end.
Definition template_at (s : jstr) : option (jstr * jstr) :=
  match strip_prefix (lit "{{") s with
  | None => None
  | Some r0 =>
    let r := (span go_ws r0).2 in
    match strip_prefix (lit "logical_date") r with
    | Some r1 =>
      let '(b, r2) := span date_char r1 in
      match close_tpl r2 with
      | Some r3 => Some (lit "logical_date" ++ go_rtrim b, r3)
      | None => word_at r
      end
    | None => word_at r
    end
  end.

(** The run's built-in names and parameters, the stored variables and connections,
    [evalDateExpr] for the run's date, the extra fields of a connection, and the outputs
    of the run's tasks. *)
Record server := Server {
  sv_base : gmap jstr jstr; sv_params : gmap jstr jstr; sv_vars : gmap jstr jstr; sv_conns : gmap jstr conn;
  evalDate : jstr -> option jstr; extra : jstr -> jstr -> option jstr; taskOutput : jstr -> jstr -> option jstr;
}.

Definition connField (sv : server) (c : conn) (f : jstr) : option jstr :=
  if bool_decide (f = lit "host") then Some (c_host c)
  else if bool_decide (f = lit "port") then Some (num_str (c_port c))
  else if bool_decide (f = lit "login" \/ f = lit "user") then Some (c_login c)
  else if bool_decide (f = lit "password") then Some (c_password c)
  else if bool_decide (f = lit "type") then Some (c_type c)
  else match strip_prefix (lit "extra.") f with
       | Some name => if truthy (c_extra c) then extra sv (c_extra c) name else None
       | None => None
       end.

(** [strings.Cut(rest, ".")] *)
Definition cut_dot (s : jstr) : option (jstr * jstr) :=
  match span (fun c => negb (c =? ch ".")%N) s with (a, _ :: b) => Some (a, b) | (_, []) => None end.

Definition templateResolver (sv : server) (key : jstr) : option jstr :=
  match sv_base sv !! key with
  | Some v => Some v
  | None =>
    if starts_with (lit "logical_date") key then evalDate sv (trim key)
    else match strip_prefix (lit "params.") key with
    | Some n => sv_params sv !! n
    | None =>
    match strip_prefix (lit "ti.") key with
    | Some rest => '(i, f) ← cut_dot rest; taskOutput sv i f
    | None =>
    match strip_prefix (lit "var.") key with
    | Some n => sv_vars sv !! n
    | None =>
    match strip_prefix (lit "conn.") key with
    | Some rest => '(i, f) ← cut_dot rest; c ← sv_conns sv !! i; connField sv c f
    | None => None
    end end end end
  end.

(** [renderCommand]: [skip] characters of a match are passed over. *)
Fixpoint render_at (sv : server) (s : jstr) (skip : nat) : jstr :=
  match s with
  | [] => []
  | c :: s' =>
    match skip with
    | S k => render_at sv s' k
    | O =>
      match template_at s with
      | Some (key, r) =>
        let m := length s - length r in
        default (take m s) (templateResolver sv key) ++ render_at sv s' (m - 1)
      | None => c :: render_at sv s' 0
      end
    end
  end.
Definition renderCommand (sv : server) (cmd : jstr) : jstr := render_at sv cmd 0.

(** What a choice stands for. *)
Definition choice_value (sv : server) (c : choice) : option jstr :=
  match c with
  | CBuiltin n => if bool_decide (n ∈ TEMPLATE_VARS) then sv_base sv !! n else evalDate sv n
  | CVar k => sv_vars sv !! k
  | CConn i f => c ← sv_conns sv !! i; connField sv c f
  | CParams k => sv_params sv !! k
  end.

(** [templateVars] *)
Definition templateVars (run_id dag_id task_id try_number date datetime : jstr) : gmap jstr jstr :=
  {[ lit "run_id" := run_id; lit "dag_id" := dag_id; lit "task_id" := task_id;
     lit "try_number" := try_number; lit "logical_date" := date; lit "logical_datetime" := datetime ]}.

(** A hyphen in the name: allowed by [CFG_KEY_RE], not a part of any placeholder. *)
Definition hyphen (c : choice) : bool :=
  match c with CVar k | CConn k _ => bool_decide (ch "-" ∈ k) | _ => false end.
(** The scheduler cuts a connection's name at the first dot. *)
Definition dotted (c : choice) : bool :=
  match c with CConn i _ => bool_decide (ch "." ∈ i) | _ => false end.
Definition date_chip (c : choice) : bool :=
  match c with CBuiltin n => negb (forallb is_word n) | _ => false end.

(** ** The palette on the page *)

(** A task page as it was drawn: the pill editors, each split at its caret, the fields of
    the jar form likewise, whether there is a palette, and its two loaded groups. *)
Record tscreen := Screen {
  sc_eds : list (list dnode * list dnode); sc_flds : list (jstr * jstr); sc_pal : bool;
  sc_vars : option (list jstr); sc_conns : option (list jstr);
}.
Definition set_eds (eds : list (list dnode * list dnode)) (c : tscreen) : tscreen :=
  Screen eds (sc_flds c) (sc_pal c) (sc_vars c) (sc_conns c).
Definition set_flds (fs : list (jstr * jstr)) (c : tscreen) : tscreen :=
  Screen (sc_eds c) fs (sc_pal c) (sc_vars c) (sc_conns c).

(** A page that is no longer on screen still exists for the handlers made for it. *)
Record pal := Pal {
  pl_pages : list tscreen;
  pl_cur : option nat;               (** the task page on screen *)
  pl_active : option (nat * nat);    (** [activePillEditor]: its page and place *)
  pl_last : option (nat * nat);      (** [lastCmdField] *)
  pl_menu : option (nat * jstr);     (** the open menu: the page of its chip, the connection *)
  pl_listen : bool;                  (** the listener on the document *)
  pl_open : list (bool * nat);       (** open requests: for the connections?, the page *)
}.
Definition pal_init : pal := Pal [] None None None None false [].

Definition set_pages (ps : list tscreen) (s : pal) : pal :=
  Pal ps (pl_cur s) (pl_active s) (pl_last s) (pl_menu s) (pl_listen s) (pl_open s).
Definition set_cur (c : option nat) (s : pal) : pal :=
  Pal (pl_pages s) c (pl_active s) (pl_last s) (pl_menu s) (pl_listen s) (pl_open s).
Definition set_ped (a : option (nat * nat)) (s : pal) : pal :=
  Pal (pl_pages s) (pl_cur s) a (pl_last s) (pl_menu s) (pl_listen s) (pl_open s).
Definition set_last (a : option (nat * nat)) (s : pal) : pal :=
  Pal (pl_pages s) (pl_cur s) (pl_active s) a (pl_menu s) (pl_listen s) (pl_open s).
Definition set_menu (m : option (nat * jstr)) (l : bool) (s : pal) : pal :=
  Pal (pl_pages s) (pl_cur s) (pl_active s) (pl_last s) m l (pl_open s).
Definition set_popen (q : list (bool * nat)) (s : pal) : pal :=
  Pal (pl_pages s) (pl_cur s) (pl_active s) (pl_last s) (pl_menu s) (pl_listen s) q.

Definition closeConnMenu (s : pal) : pal :=
  match pl_menu s with None => s | Some _ => set_menu None false s end.
Definition openConnMenu (p : nat) (i : jstr) (s : pal) : pal := set_menu (Some (p, i)) true (closeConnMenu s).

(** [main.contains(el)] for an element of page [q] *)
Definition in_main (s : pal) (x : option (nat * nat)) : option (nat * nat) :=
  match x with Some (q, i) => if bool_decide (pl_cur s = Some q) then x else None | None => None end.

(** [insertVar] as wired for page [p] *)
Definition insertVar (p : nat) (name : jstr) (s : pal) : pal :=
  match sc_eds <$> pl_pages s !! p with
  | Some (_ :: _) =>
    let t := default (p, 0) (in_main s (pl_active s)) in
    let put := alter (fun e : list dnode * list dnode => (e.1 ++ [Pill name; Txt [ZWSP]], e.2)) t.2 in
    let s1 := set_pages (alter (fun c => set_eds (put (sc_eds c)) c) t.1 (pl_pages s)) s in
    if bool_decide (pl_cur s = Some t.1) then set_ped (Some t) s1 else s1
  | _ =>
    let field q i := alter (fun c => set_flds
      (alter (fun f : jstr * jstr => (f.1 ++ token name, f.2)) i (sc_flds c)) c) q (pl_pages s) in
    match in_main s (pl_last s) with
    | Some (q, i) => set_pages (field q i) s
    | None => match pl_cur s with Some q => set_pages (field q 2) s | None => s end
    end
  end.

Inductive pal_event :=
| LDraw (eds : list (list dnode * list dnode)) (flds : list (jstr * jstr)) (palette : bool)
| LLeave (routed : bool)         (** another page is drawn, by a link or by [applyRoute] *)
| LFocus (i : nat) | LFocusField (i : nat)
| LChip (c : choice)             (** a chip of the first or second group *)
| LParams (text : jstr)          (** Enter in the parameter field *)
| LConn (i : jstr) | LPick (f : jstr) | LEscape | LOutside
| LAnswer (k : nat) (r : option (list jstr)).

(** [populateVarGroup], [populateConnGroup] after their request; a failure is an empty list. *)
Definition populate (isConn : bool) (p : nat) (r : option (list jstr)) (s : pal) : pal :=
  if bool_decide (pl_cur s = Some p) then
    set_pages (alter (fun c =>
      if isConn then Screen (sc_eds c) (sc_flds c) (sc_pal c) (sc_vars c) (Some (default [] r))
      else Screen (sc_eds c) (sc_flds c) (sc_pal c) (Some (default [] r)) (sc_conns c)) p (pl_pages s)) s
  else s.

(** The choices the page [c] has a chip for. *)
Definition has_chip (x : choice) (c : tscreen) : bool :=
  sc_pal c && match x with
  | CBuiltin n => bool_decide (n ∈ TEMPLATE_VARS ++ DATE_EXPR_CHIPS)
  | CVar k => bool_decide (k ∈ default [] (sc_vars c))
  | CConn _ _ | CParams _ => false
  end.

(** The page and name an event inserts. *)
Definition picks (e : pal_event) (s : pal) : option (nat * jstr) :=
  match e with
  | LChip x => p ← pl_cur s; c ← pl_pages s !! p; if has_chip x c then Some (p, chip_name x) else None
  | LParams text => p ← pl_cur s; c ← pl_pages s !! p;
      if sc_pal c && truthy (trim text) && forallb is_w (trim text) then Some (p, chip_name (CParams (trim text))) else None
  | LPick f => '(p, i) ← pl_menu s; if bool_decide (f ∈ CONN_FIELDS) then Some (p, chip_name (CConn i f)) else None
  | _ => None
  end.

Definition pal_step (e : pal_event) (s : pal) : option pal :=
  match e with
  | LDraw eds flds b =>
    let p := length (pl_pages s) in
    let s1 := set_cur (Some p) (set_pages (pl_pages s ++ [Screen eds flds b None None]) (closeConnMenu s)) in
    Some (if b then set_popen (pl_open s ++ [(false, p); (true, p)]) s1 else s1)
  | LLeave routed => Some (set_cur None (if routed then closeConnMenu s else s))
  | LFocus i => p ← pl_cur s; c ← pl_pages s !! p; _ ← sc_eds c !! i; Some (set_ped (Some (p, i)) s)
  | LFocusField i => p ← pl_cur s; c ← pl_pages s !! p; _ ← sc_flds c !! i; Some (set_last (Some (p, i)) s)
  | LChip _ => match picks e s with Some (p, n) => Some (insertVar p n s) | None => None end
  | LParams _ => p ← pl_cur s; c ← pl_pages s !! p;
      if sc_pal c then Some (match picks e s with Some (p, n) => insertVar p n s | None => s end) else None
  | LConn i => p ← pl_cur s; c ← pl_pages s !! p;
      if bool_decide (i ∈ default [] (sc_conns c)) then Some (openConnMenu p i s) else None
  | LPick _ => match picks e s with Some (p, n) => Some (closeConnMenu (insertVar p n s)) | None => None end
  | LEscape => match pl_menu s with Some _ => Some (closeConnMenu s) | None => None end
  | LOutside => Some (if pl_listen s then closeConnMenu s else s)
  | LAnswer k r => match pl_open s !! k with
                   | Some (b, p) => Some (populate b p r (set_popen (delete k (pl_open s)) s))
                   | None => None
                   end
  end.

Fixpoint pal_run (es : list pal_event) (s : pal) : option pal :=
  match es with
  | [] => Some s
  | e :: es' => match pal_step e s with Some s1 => pal_run es' s1 | None => None end
  end.

(** ** Rendering one placeholder *)

Lemma word_at_ok n r : name_ok n -> word_at (n ++ lit " }}" ++ r) = Some (n, r).
Proof.
  intros [Hn Hw]. unfold word_at. rewrite span_exact by done.
  change (close_tpl (lit " }}" ++ r)) with (Some r). by destruct n.
Qed.

Lemma word_at_hyphen a b :
  Forall (fun c => is_word c = true) a -> word_at (a ++ ch "-" :: b) = None.
Proof.
  intros Ha. unfold word_at. rewrite span_exact by done.
  change (close_tpl (ch "-" :: b)) with (@None jstr). by destruct a.
Qed.

Definition prefixes : list jstr := [lit "var."; lit "conn."; lit "params."].

Lemma template_word p k r :
  p ∈ prefixes -> template_at (token (p ++ k) ++ r) = word_at ((p ++ k) ++ lit " }}" ++ r).
Proof.
  intros Hp. unfold token. rewrite <- !app_assoc. unfold prefixes in Hp.
  rewrite !elem_of_cons, elem_of_nil in Hp. destruct Hp as [-> |[-> |[-> |[]]]]; reflexivity.
Qed.

Lemma template_builtin n r :
  n ∈ TEMPLATE_VARS ++ DATE_EXPR_CHIPS -> template_at (token n ++ r) = Some (n, r).
Proof.
  intros H. unfold TEMPLATE_VARS, DATE_EXPR_CHIPS in H. cbn [app] in H.
  rewrite !elem_of_cons, elem_of_nil in H.
  repeat (destruct H as [-> |H]; [reflexivity|]). done.
Qed.

Lemma prefix_word p : p ∈ prefixes -> Forall (fun c => is_word c = true) p.
Proof.
  intros H. assert (Hf : Forall (Forall (fun c => is_word c = true)) prefixes) by compute_decide.
  rewrite Forall_forall in Hf. by apply Hf.
Qed.

Lemma render_skip sv x r : render_at sv (x ++ r) (length x) = render_at sv r 0.
Proof. induction x as [|c x IH]; [done|]. exact IH. Qed.

Lemma render_match sv x key r :
  x <> [] -> template_at (x ++ r) = Some (key, r) ->
  render_at sv (x ++ r) 0 = default x (templateResolver sv key) ++ render_at sv r 0.
Proof.
  intros Hx E. destruct x as [|c x]; [done|]. cbn [app render_at]. cbn [app] in E. rewrite E.
  assert (Hl : length (c :: x ++ r) - length r = S (length x)) by (simpl; rewrite length_app; lia).
  rewrite Hl. f_equal.
  - f_equal. change (c :: x ++ r) with ((c :: x) ++ r). rewrite take_app_length'; done.
  - rewrite Nat.sub_1_r. apply render_skip.
Qed.

Lemma render_none sv c s : template_at (c :: s) = None -> render_at sv (c :: s) 0 = c :: render_at sv s 0.
Proof. intros E. cbn [render_at]. by rewrite E. Qed.

(** Text without an opening brace is passed through. *)
Lemma render_text sv x r : ch "{" ∉ x -> render_at sv (x ++ r) 0 = x ++ render_at sv r 0.
Proof.
  induction x as [|c x IH]; [done|]. intros [Hc Hx]%not_elem_of_cons. cbn [app].
  rewrite render_none; [by rewrite IH|]. unfold template_at. cbn [strip_prefix].
  by rewrite (proj2 (N.eqb_neq _ _) Hc).
Qed.

Lemma render_token_kept sv n r :
  template_at (token n ++ r) = None -> ch "{" ∉ n -> render_at sv (token n ++ r) 0 = token n ++ render_at sv r 0.
Proof.
  intros E Hn. set (x := ch " " :: n ++ lit " }}").
  assert (Hx : ch "{" ∉ x).
  { intros H. apply elem_of_cons in H as [H|H]; [done|].
    apply elem_of_app in H as [H|H]; [done|]. revert H. compute_decide. }
  change (token n) with (ch "{" :: ch "{" :: x) in *. cbn [app] in *.
  rewrite render_none by done. rewrite render_none by done. by rewrite render_text.
Qed.

(** ** The scheduler's resolver on the names of the palette *)

Lemma is_w_word c : is_w c = true -> is_word c = true.
Proof. unfold is_w, is_word. by intros ->. Qed.

Lemma idchar_word c : is_idchar c = true -> c <> ch "-" -> is_word c = true.
Proof.
  unfold is_idchar, is_word. intros H Hc. apply orb_true_iff in H as [H|H]; [done|].
  by apply N.eqb_eq in H.
Qed.

Lemma key_words k : CFG_KEY_RE k = true -> ch "-" ∉ k -> Forall (fun c => is_word c = true) k.
Proof.
  unfold CFG_KEY_RE. intros [_ H]%andb_true_iff Hn. rewrite forallb_forall in H. apply Forall_forall.
  intros c Hc. apply idchar_word; [by apply H, list_elem_of_In|]. by intros ->.
Qed.

(** A key up to its first hyphen. *)
Lemma key_hyphen k : CFG_KEY_RE k = true -> ch "-" ∈ k ->
  exists a b, k = a ++ ch "-" :: b /\ Forall (fun c => is_word c = true) a.
Proof.
  unfold CFG_KEY_RE. intros [_ H]%andb_true_iff (a & b & -> & Ha)%list_elem_of_split_l.
  exists a, b. split; [done|]. rewrite forallb_forall in H. apply Forall_forall. intros c Hc.
  apply idchar_word; [|by intros ->]. apply H, list_elem_of_In. apply elem_of_app. by left.
Qed.

Lemma key_no_brace k : CFG_KEY_RE k = true -> ch "{" ∉ k.
Proof.
  unfold CFG_KEY_RE. intros [_ H]%andb_true_iff Hk. rewrite forallb_forall in H.
  by specialize (H _ (proj1 (list_elem_of_In _ _) Hk)).
Qed.

Lemma cut_dot_app i f : ch "." ∉ i -> cut_dot (i ++ ch "." :: f) = Some (i, f).
Proof.
  intros H. unfold cut_dot. rewrite span_exact; [done| |done]. apply Forall_forall. intros c Hc.
  apply negb_true_iff, N.eqb_neq. by intros ->.
Qed.

Lemma templateVars_names a b c d e f k :
  is_Some (templateVars a b c d e f !! k) -> k ∈ TEMPLATE_VARS.
Proof.
  intros [v H]. unfold templateVars in H.
  repeat (apply lookup_insert_Some in H as [[<- _]|[_ H]]; [compute_decide|]).
  apply lookup_singleton_Some in H as [<- _]. compute_decide.
Qed.

(** A placeholder the editor does not recognize stays text. *)
Lemma exec_no_brace x : ch "{" ∉ x -> exec_tpl x = None.
Proof.
  induction x as [|c x IH]; [done|]. intros [Hc Hx]%not_elem_of_cons. cbn [exec_tpl].
  unfold tpl_at. cbn [strip_prefix]. rewrite (proj2 (N.eqb_neq _ _) Hc). by rewrite IH.
Qed.

Lemma fill_unread n :
  tpl_at (token n) = None -> ch "{" ∉ n -> fillPillEditor (token n) = [Txt (token n)].
Proof.
  intros E Hn. set (x := ch " " :: n ++ lit " }}").
  assert (Hx : ch "{" ∉ x).
  { intros H. apply elem_of_cons in H as [H|H]; [done|].
    apply elem_of_app in H as [H|H]; [done|]. revert H. compute_decide. }
  assert (E2 : exec_tpl (token n) = None).
  { change (token n) with (ch "{" :: ch "{" :: x) in *. cbn [exec_tpl]. rewrite E.
    change (tpl_at (ch "{" :: x)) with (@None (jstr * jstr)). cbv iota.
    change (tpl_at x) with (@None (jstr * jstr)) || idtac. by rewrite (exec_no_brace x Hx). }
  unfold fillPillEditor. change (length (token n)) with (S (S (length x))). cbn [fill_loop].
  by rewrite E2.
Qed.

Lemma fill_read n : name_ok n -> fillPillEditor (token n) = [Pill n].
Proof.
  intros Hn. assert (E : exec_tpl (token n) = Some ([], n, [])).
  { pose proof (tpl_at_written [32%N] n [32%N] []) as H. rewrite app_nil_r in H.
    change (written [32%N] n [32%N]) with (token n) in H. unfold exec_tpl.
    destruct (token n) eqn:Et; [done|]. fold exec_tpl. rewrite <- Et in *.
    rewrite H; [done| | |done]; by repeat constructor. }
  unfold fillPillEditor. change (length (token n)) with (S (S (length (ch " " :: n ++ lit " }}")))).
  cbn [fill_loop]. rewrite E. cbn [text_node app]. by destruct (length _).
Qed.

Lemma tpl_at_hyphen p a b :
  p ∈ prefixes -> Forall (fun c => is_word c = true) a -> tpl_at (token (p ++ a ++ ch "-" :: b)) = None.
Proof.
  intros Hp Ha. pose proof (prefix_word p Hp) as Hw.
  assert (E : (span is_ws (lit " " ++ (p ++ a ++ ch "-" :: b) ++ lit " }}")).2
              = (p ++ a) ++ ch "-" :: b ++ lit " }}").
  { rewrite <- !app_assoc. unfold prefixes in Hp. rewrite !elem_of_cons, elem_of_nil in Hp.
    destruct Hp as [-> |[-> |[-> |[]]]]; reflexivity. }
  unfold tpl_at. change (strip_prefix (lit "{{") (token (p ++ a ++ ch "-" :: b)))
    with (Some (lit " " ++ (p ++ a ++ ch "-" :: b) ++ lit " }}")). cbv iota beta.
  rewrite E, span_exact; [|by apply Forall_app|done].
  cbn [span snd]. change (strip_prefix (lit "}}") _) with (@None jstr). by destruct (p ++ a).
Qed.

(** The prefix of a name other than a built-in one. *)
Lemma prefix_base p k a b c d e f : p ∈ prefixes -> templateVars a b c d e f !! (p ++ k) = None.
Proof.
  intros Hp. destruct (_ !! _) eqn:E; [|done].
  assert (Hk : p ++ k ∈ TEMPLATE_VARS) by (eapply templateVars_names; by rewrite E).
  unfold prefixes in Hp. rewrite !elem_of_cons, elem_of_nil in Hp. apply list_elem_of_In in Hk.
  destruct Hp as [-> |[-> |[-> |[]]]]; repeat (destruct Hk as [Hk|Hk]; [done|]); done.
Qed.

(** A name made of a prefix, a key and a tail of word characters: recognized by both
    sides, or by neither when the key has a hyphen. *)
Lemma name_cases p k u r :
  p ∈ prefixes -> CFG_KEY_RE k = true -> Forall (fun c => is_word c = true) u ->
  let n := p ++ k ++ u in
  if bool_decide (ch "-" ∈ k)
  then (template_at (token n ++ r) = None) /\ (ch "{" ∉ n) /\ fillPillEditor (token n) = [Txt (token n)]
  else (template_at (token n ++ r) = Some (n, r)) /\ fillPillEditor (token n) = [Pill n].
Proof.
  intros Hp Hk Hu n. pose proof (prefix_word p Hp) as Hw. unfold n. case_bool_decide as Hh.
  - assert (Hb : ch "{" ∉ p ++ k ++ u).
    { rewrite !elem_of_app. intros [H|[H|H]].
      - rewrite Forall_forall in Hw. by specialize (Hw _ H).
      - by eapply key_no_brace.
      - rewrite Forall_forall in Hu. by specialize (Hu _ H). }
    destruct (key_hyphen k Hk Hh) as (a & b & -> & Ha). rewrite <- app_assoc in *. cbn [app] in *.
    split_and!; [|done|apply fill_unread; [by apply tpl_at_hyphen|done]].
    rewrite template_word by done. rewrite <- !app_assoc. rewrite app_assoc. cbn [app].
    by apply word_at_hyphen, Forall_app.
  - assert (Hn : name_ok (p ++ k ++ u)).
    { split; [destruct p; [unfold prefixes in Hp; set_solver|done]|].
      apply Forall_app; split; [done|]. apply Forall_app; split; [by apply key_words|done]. }
    split; [|by apply fill_read]. rewrite template_word by done. by apply word_at_ok.
Qed.

Lemma builtin_value sv a b c d e f n :
  sv_base sv = templateVars a b c d e f -> n ∈ TEMPLATE_VARS ++ DATE_EXPR_CHIPS ->
  templateResolver sv n = choice_value sv (CBuiltin n).
Proof.
  intros Hb Hn. unfold templateResolver, choice_value. rewrite Hb.
  apply list_elem_of_In in Hn.
  repeat (destruct Hn as [<-|Hn]; [reflexivity|]). done.
Qed.

Lemma prefix_value sv a b c d e f x :
  sv_base sv = templateVars a b c d e f -> offered x = true -> dotted x = false ->
  (forall n, x <> CBuiltin n) -> templateResolver sv (chip_name x) = choice_value sv x.
Proof.
  intros Hb Ho Hd Hx. unfold templateResolver. rewrite Hb.
  destruct x as [n|k|i fl|k]; [by destruct (Hx n)| | |]; cbn [chip_name];
    rewrite prefix_base by compute_decide; try reflexivity.
  change (strip_prefix (lit "conn.") (lit "conn." ++ i ++ lit "." ++ fl)) with (Some (i ++ lit "." ++ fl)).
  cbn -[cut_dot connField]. rewrite cut_dot_app; [done|]. simpl in Hd. by case_bool_decide.
Qed.

(** The names other than the built-in ones have this shape. *)
Lemma name_shape x :
  offered x = true -> (forall n, x <> CBuiltin n) ->
  exists p k u, chip_name x = p ++ k ++ u /\ p ∈ prefixes /\ CFG_KEY_RE k = true /\
    Forall (fun c => is_word c = true) u /\ bool_decide (ch "-" ∈ k) = hyphen x.
Proof.
  intros Ho Hx. destruct x as [n|k|i fl|k]; [by destruct (Hx n)| | |]; cbn [offered hyphen chip_name] in *.
  - exists (lit "var."), k, []. rewrite app_nil_r. split_and!; try done. compute_decide.
  - apply andb_true_iff in Ho as [Hi Hf]. apply bool_decide_eq_true in Hf.
    exists (lit "conn."), i, (lit "." ++ fl). split_and!; try done; [compute_decide|].
    assert (Hw : Forall (fun f => Forall (fun c => is_word c = true) (lit "." ++ f)) CONN_FIELDS)
      by compute_decide.
    rewrite Forall_forall in Hw. by apply Hw.
  - apply andb_true_iff in Ho as [Hk Hw]. rewrite forallb_forall in Hw.
    exists (lit "params."), k, []. rewrite app_nil_r. split_and!; try done; [compute_decide| |].
    + unfold CFG_KEY_RE. rewrite Hk. apply forallb_forall. intros c Hc. specialize (Hw c Hc).
      unfold is_w in Hw. unfold is_idchar. apply orb_true_iff in Hw as [->| ->]; [done|].
      by rewrite orb_true_r.
    + apply bool_decide_eq_false_2. intros H. by specialize (Hw _ (proj1 (list_elem_of_In _ _) H)).
Qed.

(** ** The palette's invariant *)

Definition editor_at (s : pal) (q j : nat) : option (list dnode * list dnode) :=
  c ← pl_pages s !! q; sc_eds c !! j.

(** The listener is there while the menu is open; the page on screen is the one drawn
    last; the remembered editor exists. *)
Record pal_inv (s : pal) : Prop := {
  li_menu : pl_listen s = true <-> is_Some (pl_menu s);
  li_cur : forall p, pl_cur s = Some p -> S p = length (pl_pages s);
  li_active : forall q i, pl_active s = Some (q, i) -> is_Some (editor_at s q i);
}.

Lemma close_menu_inv s : pal_inv s -> pal_inv (closeConnMenu s).
Proof.
  intros [Hm Hc Ha]. unfold closeConnMenu. destruct (pl_menu s) eqn:E; [|by split; rewrite ?E].
  split; [|done|done]. by split; [|intros [? ?]].
Qed.

Lemma alter_page_editor g q (ps : list tscreen) q' j :
  (forall c, sc_eds (g c) = sc_eds c) ->
  (c ← alter g q ps !! q'; sc_eds c !! j) = (c ← ps !! q'; sc_eds c !! j).
Proof.
  intros Hg. destruct (decide (q = q')) as [->|Hn].
  - rewrite list_lookup_alter_eq. destruct (ps !! q') as [c|]; [|done]. simpl. by rewrite Hg.
  - by rewrite list_lookup_alter_ne.
Qed.

Lemma alter_page_inv g q s :
  (forall c, sc_eds (g c) = sc_eds c) -> pal_inv s -> pal_inv (set_pages (alter g q (pl_pages s)) s).
Proof.
  intros Hg [Hm Hc Ha]. split; [done| |].
  - intros p Hp. simpl. rewrite length_alter. by apply Hc.
  - intros q' i E. unfold editor_at. simpl. rewrite alter_page_editor by done. by apply Ha.
Qed.

(** What an insertion by page [p] does to the editors. *)
Lemma insert_editor p n s :
  pal_inv s -> (exists c e eds, pl_pages s !! p = Some c /\ sc_eds c = e :: eds) ->
  let t := default (p, 0) (in_main s (pl_active s)) in
  exists l r, editor_at s t.1 t.2 = Some (l, r) /\
    editor_at (insertVar p n s) t.1 t.2 = Some (l ++ [Pill n; Txt [ZWSP]], r) /\
    (forall q j, (q, j) <> t -> editor_at (insertVar p n s) q j = editor_at s q j) /\
    pl_active (insertVar p n s) = (if bool_decide (pl_cur s = Some t.1) then Some t else pl_active s).
Proof.
  intros Hs (c & e & eds & Ep & Ee) t.
  assert (Ht : is_Some (editor_at s t.1 t.2)).
  { unfold t, in_main. destruct (pl_active s) as [[q i]|] eqn:Ea; [case_bool_decide|]; simpl;
      [by apply Hs|unfold editor_at; rewrite Ep; simpl; by rewrite Ee..]. }
  destruct Ht as [[l r] Ht]. exists l, r. split; [done|].
  unfold insertVar. rewrite Ep. cbn [fmap option_fmap option_map]. rewrite Ee. fold t.
  set (put := fun c => set_eds (alter (fun e : list dnode * list dnode => (e.1 ++ [Pill n; Txt [ZWSP]], e.2))
    t.2 (sc_eds c)) c).
  change (fun c0 => set_eds _ c0) with put.
  assert (Hed : forall q j, (c ← alter put t.1 (pl_pages s) !! q; sc_eds c !! j) =
    if bool_decide ((q, j) = t) then Some (l ++ [Pill n; Txt [ZWSP]], r) else editor_at s q j).
  { intros q j. unfold editor_at in *. destruct t as [tq ti]. cbn [fst snd] in *. case_bool_decide as Hq.
    - simplify_eq. rewrite list_lookup_alter_eq. destruct (pl_pages s !! tq) as [c0|]; [|done]. simpl in *.
      rewrite list_lookup_alter_eq. by rewrite Ht.
    - destruct (decide (tq = q)) as [->|Hn]; [|by rewrite list_lookup_alter_ne].
      rewrite list_lookup_alter_eq. destruct (pl_pages s !! q) as [c0|]; [|done]. simpl in *.
      rewrite list_lookup_alter_ne; [done|]. intros ->. by destruct Hq. }
  unfold editor_at at 1. unfold editor_at at 1.
  split_and!.
  - case_bool_decide; simpl; rewrite Hed; by rewrite bool_decide_eq_true_2 by (by destruct t).
  - intros q j Hq. case_bool_decide; simpl; rewrite Hed; by rewrite bool_decide_eq_false_2.
  - by case_bool_decide.
Qed.

Lemma insert_frame p n s :
  pl_menu (insertVar p n s) = pl_menu s /\ pl_listen (insertVar p n s) = pl_listen s /\
  pl_cur (insertVar p n s) = pl_cur s /\ length (pl_pages (insertVar p n s)) = length (pl_pages s).
Proof. unfold insertVar. repeat case_match; simpl; rewrite ?length_alter; done. Qed.

Lemma insert_inv p n s : pal_inv s -> pal_inv (insertVar p n s).
Proof.
  intros Hs. pose proof Hs as [Hm Hc Ha].
  assert (Hf : forall q i x, pal_inv (set_pages (alter (fun c => set_flds
      (alter (fun f : jstr * jstr => (f.1 ++ x, f.2)) i (sc_flds c)) c) q (pl_pages s)) s))
    by (intros; by apply alter_page_inv).
  destruct (pl_pages s !! p) as [c|] eqn:Ep; [destruct (sc_eds c) as [|e eds] eqn:Ee|].
  1,3: unfold insertVar; rewrite Ep; cbn [fmap option_fmap option_map]; rewrite ?Ee;
    destruct (in_main s (pl_last s)) as [[q i]|]; [apply Hf|destruct (pl_cur s); [apply Hf|done]].
  destruct (insert_editor p n s Hs) as (l & r & H1 & H2 & H3 & H4); [by eauto|].
  set (t := default (p, 0) (in_main s (pl_active s))) in *.
  assert (He : forall q i, is_Some (editor_at s q i) -> is_Some (editor_at (insertVar p n s) q i)).
  { intros q i Hq. destruct (decide ((q, i) = t)) as [Et|Ht]; [|by rewrite H3].
    change q with (q, i).1. change i with (q, i).2 at 2. rewrite Et. by rewrite H2. }
  destruct (insert_frame p n s) as (F1 & F2 & F3 & F4). split; [by rewrite F1, F2|by rewrite F3, F4|].
  intros q i. rewrite H4. case_bool_decide; [|by intros E; apply He, Ha].
  intros [= Et]. apply He. change q with (q, i).1. change i with (q, i).2 at 2. rewrite <- Et. by rewrite H1.
Qed.

Lemma pal_step_inv e s s' : pal_step e s = Some s' -> pal_inv s -> pal_inv s'.
Proof.
  intros E Hs. destruct e as [eds flds b|routed|i|i|x|text|i|f| | |k r]; cbn [pal_step] in E.
  - injection E as <-. pose proof (close_menu_inv s Hs) as [Hm Hc Ha].
    assert (Hp : pl_pages (closeConnMenu s) = pl_pages s) by (unfold closeConnMenu; by destruct (pl_menu s)).
    destruct b; (split; [exact Hm|intros p [= <-]; simpl; rewrite length_app; simpl; lia|]);
      intros q j Eq; destruct (Ha q j Eq) as [x Hx]; exists x; unfold editor_at in *; rewrite Hp in Hx; simpl;
      (destruct (pl_pages s !! q) as [c|] eqn:Ec; [|done]);
      by rewrite (lookup_app_l_Some _ _ _ _ Ec).
  - injection E as <-.
    assert (Hs' : pal_inv (if routed then closeConnMenu s else s)) by (destruct routed; [by apply close_menu_inv|done]).
    destruct Hs' as [Hm Hc Ha]. by split.
  - destruct (pl_cur s) as [p|]; [|done]. simpl in E. destruct (pl_pages s !! p) as [c|] eqn:Ec; [|done].
    simpl in E. destruct (sc_eds c !! i) as [ed|] eqn:Ed; [|done]. injection E as <-. destruct Hs as [Hm Hc Ha].
    split; [done|done|]. intros q j [= <- <-]. exists ed. unfold editor_at. simpl. by rewrite Ec.
  - destruct (pl_cur s) as [p|]; [|done]. simpl in E. destruct (pl_pages s !! p) as [c|]; [|done].
    simpl in E. destruct (sc_flds c !! i); [|done]. injection E as <-. by destruct Hs.
  - destruct (picks _ s) as [[p n]|]; [|done]. injection E as <-. by apply insert_inv.
  - assert (Hi : pal_inv (match picks (LParams text) s with Some (p, n) => insertVar p n s | None => s end))
      by (destruct (picks _ s) as [[q n]|]; [by apply insert_inv|done]).
    destruct (pl_cur s) as [p|]; [|done]. cbn [mbind option_bind] in E.
    destruct (pl_pages s !! p) as [c|]; [|done]. cbn [mbind option_bind] in E.
    destruct (sc_pal c); [|done]. by injection E as <-.
  - destruct (pl_cur s) as [p|]; [|done]. simpl in E. destruct (pl_pages s !! p) as [c|]; [|done]. simpl in E.
    case_bool_decide; [|done]. injection E as <-. unfold openConnMenu.
    destruct (close_menu_inv s Hs) as [Hm Hc Ha]. split; [|done|done]. by split; [eexists|].
  - destruct (picks _ s) as [[p n]|]; [|done]. injection E as <-. by apply close_menu_inv, insert_inv.
  - destruct (pl_menu s); [|done]. injection E as <-. by apply close_menu_inv.
  - injection E as <-. destruct (pl_listen s); [by apply close_menu_inv|done].
  - destruct (pl_open s !! k) as [[b p]|]; [|done]. injection E as <-.
    assert (Hq : pal_inv (set_popen (delete k (pl_open s)) s)) by by destruct Hs.
    unfold populate. case_bool_decide; [|done]. apply alter_page_inv; [|done]. by destruct b.
Qed.

Lemma pal_run_inv es s s' : pal_run es s = Some s' -> pal_inv s -> pal_inv s'.
Proof.
  revert s; induction es as [|e es IH]; intros s E Hs; simpl in E; [by simplify_eq|].
  destruct (pal_step e s) as [s1|] eqn:E1; [|done]. eapply IH; [done|]. by eapply pal_step_inv.
Qed.

Lemma pal_init_inv : pal_inv pal_init.
Proof. by split; [split; [|intros [? ?]]| |]. Qed.

(** ** Properties *)

(** C32 From the palette to the scheduler. Every name the palette offers whose value is
    known, unless it has a hyphen (or is a field of a connection whose name has a dot),
    is replaced by that value wherever it stands in a command; a variable or connection
    with a hyphen in its name, which both the console and the server accept, is offered
    but never replaced. An inserted name opens as the same pill again, except for those
    with a hyphen and the date expressions, which open as text. *)
Theorem palette_resolves sv a b c d e f x v r :
  sv_base sv = templateVars a b c d e f -> offered x = true -> choice_value sv x = Some v ->
  (hyphen x = false -> dotted x = false ->
     renderCommand sv (token (chip_name x) ++ r) = v ++ renderCommand sv r) /\
  (hyphen x = true ->
     renderCommand sv (token (chip_name x) ++ r) = token (chip_name x) ++ renderCommand sv r) /\
  fillPillEditor (token (chip_name x)) =
    if hyphen x || date_chip x then [Txt (token (chip_name x))] else [Pill (chip_name x)].
Proof.
  intros Hb Ho Hv. unfold renderCommand.
  assert (Hx : (exists n, x = CBuiltin n) \/ forall n, x <> CBuiltin n) by (destruct x; eauto).
  destruct Hx as [[n ->]|Hx].
  - cbn [chip_name hyphen dotted date_chip offered orb] in *. apply bool_decide_eq_true in Ho. split_and!; [|done|].
    + intros _ _. rewrite (render_match sv (token n) n r); [|done|by apply template_builtin].
      by rewrite (builtin_value sv a b c d e f), Hv.
    + apply elem_of_app in Ho as [Ho|Ho]; apply list_elem_of_In in Ho;
        repeat (destruct Ho as [<-|Ho]; [reflexivity|]); done.
  - assert (Hd : date_chip x = false) by (destruct x; naive_solver).
    destruct (name_shape x Ho Hx) as (p & k & u & En & Hp & Hk & Hu & Hh).
    pose proof (name_cases p k u r Hp Hk Hu) as H. cbv zeta in H. rewrite <- En, Hh in H.
    rewrite Hd, orb_false_r. destruct (hyphen x).
    + destruct H as (Ht & Hb' & Hf). split_and!; [done| |done]. intros _. by apply render_token_kept.
    + destruct H as [Ht Hf]. split_and!; [|done|done]. intros _ Hdot.
      rewrite (render_match sv (token (chip_name x)) (chip_name x) r) by done.
      by rewrite (prefix_value sv a b c d e f), Hv.
Qed.

Definition sample_server : server :=
  Server (templateVars (lit "r1") (lit "etl") (lit "load") (lit "1") (lit "2024-05-01") (lit "2024-05-01T00:00:00Z"))
    {[ lit "day" := lit "mon" ]} {[ lit "TOKEN" := lit "abc"; lit "my-key" := lit "xyz" ]}
    {[ lit "db" := Conn (lit "db") (lit "postgres") (lit "h1") 5432 (lit "u") (lit "p") [] ]}
    (fun _ => Some (lit "2024-04-30")) (fun _ _ => None) (fun _ _ => None).

Lemma palette_resolves_witness :
  renderCommand sample_server (lit "run {{ var.TOKEN }} {{ conn.db.port }} {{ params.day }} {{ logical_date - 1d }} {{ var.my-key }}")
    = lit "run abc 5432 mon 2024-04-30 {{ var.my-key }}" /\
  renderCommand sample_server (token (lit "var.my-key") ++ lit " x") = token (lit "var.my-key") ++ lit " x".
Proof.
  split; [vm_compute; reflexivity|].
  refine (eq_trans (proj1 (proj2 (palette_resolves sample_server (lit "r1") (lit "etl") (lit "load") (lit "1")
    (lit "2024-05-01") (lit "2024-05-01T00:00:00Z") (CVar (lit "my-key")) (lit "xyz") (lit " x") _ _ _)) _) _);
    vm_compute; reflexivity.
Defined.

(** The palette inserts where the caret was. In every run the menu's listener is on the
    document exactly while the menu is open; and a choice made on the page on screen puts
    its pill, with the anchor after it, at the caret of one editor of this page, the one
    last focused or else the first, which has the focus then; no other editor changes. *)
Theorem palette_inserts es s e p n c s' :
  pal_run es pal_init = Some s ->
  (pl_listen s = true <-> is_Some (pl_menu s)) /\
  (picks e s = Some (p, n) -> pl_cur s = Some p -> pl_pages s !! p = Some c -> sc_eds c <> [] ->
   pal_step e s = Some s' ->
   exists i l r, editor_at s p i = Some (l, r) /\
     editor_at s' p i = Some (l ++ [Pill n; Txt [ZWSP]], r) /\
     (l ++ [Pill n; Txt [ZWSP]]) ++ r = insertPill l r n /\
     (forall q j, (q, j) <> (p, i) -> editor_at s' q j = editor_at s q j) /\
     (in_main s (pl_active s) = Some (p, i) \/ (in_main s (pl_active s) = None /\ i = 0)) /\
     pl_active s' = Some (p, i)).
Proof.
  intros E. pose proof (pal_run_inv _ _ _ E pal_init_inv) as Hs. split; [by destruct Hs|].
  intros Hp Hc Hg Hn Hst. destruct (sc_eds c) as [|ed eds] eqn:Ee; [done|].
  destruct (insert_editor p n s Hs) as (l & r & H1 & H2 & H3 & H4); [by eauto|].
  assert (Hos : exists i, default (p, 0) (in_main s (pl_active s)) = (p, i) /\
    (in_main s (pl_active s) = Some (p, i) \/ (in_main s (pl_active s) = None /\ i = 0))).
  { clear H4. unfold in_main. destruct (pl_active s) as [[q i]|]; [case_bool_decide as Hq|].
    - rewrite Hc in Hq. simplify_eq. exists i. split; [done|auto].
    - exists 0. split; [done|auto].
    - exists 0. split; [done|auto]. }
  destruct Hos as (i & Ei & Hi). rewrite Ei in *. cbn [fst snd] in *.
  assert (Hs' : exists t, s' = t /\ pl_pages t = pl_pages (insertVar p n s) /\ pl_active t = pl_active (insertVar p n s)).
  { exists s'. split; [done|]. destruct e as [| | | |x|text| |f| | |]; try done; cbn [pal_step] in Hst.
    - rewrite Hp in Hst. by simplify_eq.
    - rewrite Hp, Hc in Hst. cbn [mbind option_bind] in Hst. rewrite Hg in Hst. cbn [mbind option_bind] in Hst.
      destruct (sc_pal c); by simplify_eq.
    - rewrite Hp in Hst. simplify_eq. unfold closeConnMenu. by destruct (pl_menu _). }
  destruct Hs' as (t & -> & Ep & Ea). assert (Ed : forall q j, editor_at t q j = editor_at (insertVar p n s) q j)
    by (intros; unfold editor_at; by rewrite Ep). exists i, l, r.
  rewrite bool_decide_eq_true_2 in H4 by done. unfold insertPill, insertNodesAtCaret. rewrite <- app_assoc.
  split_and!; [done|by rewrite Ed|done| |done|congruence]. intros q j. rewrite Ed. apply H3.
Qed.

Definition sample_palette : list pal_event :=
  [LDraw [([Txt (lit "curl ")], [Txt (lit " -v")]); ([], [])] [] true; LFocus 1; LFocus 0;
   LAnswer 0 (Some [lit "TOKEN"]); LAnswer 0 (Some [lit "db"])].

Definition sample_pal : pal := default pal_init (pal_run sample_palette pal_init).

Lemma palette_inserts_witness :
  pal_run sample_palette pal_init = Some sample_pal /\
  exists s', pal_step (LChip (CVar (lit "TOKEN"))) sample_pal = Some s' /\
  exists i l r, editor_at sample_pal 0 i = Some (l, r) /\
    editor_at s' 0 i = Some (l ++ [Pill (lit "var.TOKEN"); Txt [ZWSP]], r).
Proof.
  split; [vm_compute; reflexivity|]. eexists. split; [vm_compute; reflexivity|].
  edestruct (fun c s' E => proj2 (palette_inserts sample_palette sample_pal
    (LChip (CVar (lit "TOKEN"))) 0 (lit "var.TOKEN") c s' E)) as (i & l & r & H1 & H2 & _);
    [vm_compute; reflexivity..|discriminate|vm_compute; reflexivity|].
  exists i, l, r. by split.
Defined.

(** The menu outlives its page: it is closed when a task page is drawn and by
    [applyRoute], not when a link of the page draws another one. A field picked then goes
    to the editor of the page that was left, whose handlers write the task and save. *)
Lemma menu_outlives_page :
  exists s, pal_run (sample_palette ++ [LConn (lit "db"); LLeave false; LPick (lit "host")]) pal_init = Some s /\
    pl_cur s = None /\
    editor_at s 0 0 = Some ([Txt (lit "curl "); Pill (lit "conn.db.host"); Txt [ZWSP]], [Txt (lit " -v")]).
Proof. eexists. split; [vm_compute; reflexivity|]. split; reflexivity. Qed.
