(* ===== verification/Dashboard.v ===== *)
(** * The home page: filters, health bar, bulk operations, novice list (views.js)

    What the dashboard derives from the overview the server sends, the selection of
    rows for bulk operations, and the fetch of schedules for the novice list. *)

From S2P Require Import Prelude JsCore Schedule Format Jump.

(** ** The overview *)

Record odag := Odag {
  od_id : jstr; od_latest : jstr;     (** [latest_state], [""] when it never ran *)
  od_paused : bool; od_spark : list (option jstr);   (** the states of the sparkline's points *)
}.
Record activity := Act {
  ac_dag : jstr; ac_run : jstr; ac_state : jstr; ac_started : option Z; ac_finished : option Z;
}.
Record overview := Overview { ov_dags : list odag; ov_activity : list activity }.

Definition failed_now (s : jstr) : bool := bool_decide (s = lit "failed") || bool_decide (s = lit "timed_out").

(** ** Filters *)

(** The rows of the table for the search text (already in lower case) and the filter. *)
Definition row_shown (query flt : jstr) (d : odag) : bool :=
  if truthy query && negb (includes query (toLowerCase (od_id d))) then false
  else if bool_decide (flt = lit "running") then bool_decide (od_latest d = lit "running")
  else if bool_decide (flt = lit "failed") then failed_now (od_latest d)
  else if bool_decide (flt = lit "paused") then od_paused d
  else true.
Definition dash_list (query flt : jstr) (ov : overview) : list odag :=
  List.filter (row_shown query flt) (ov_dags ov).

(** ** The health bar *)

Inductive health :=
| AllOk (last_run : option Z)                       (** when the newest started run of the feed started *)
| Failing (dag : jstr) (run : option jstr)          (** the workflow named, and the run its link opens *)
          (note : option label).

Definition ac_time (a : activity) : option Z :=
  match ac_started a with Some x => Some x | None => ac_finished a end.

Definition healthBar (ov : overview) : health :=
  match List.filter (fun d => failed_now (od_latest d)) (ov_dags ov) with
  | [] => AllOk (match List.find (fun a => bool_decide (is_Some (ac_time a))) (ov_activity ov) with
                 | Some a => ac_time a | None => None end)
  | f :: more =>
    let last := List.find (fun a => bool_decide (ac_dag a = od_id f) && failed_now (ac_state a)) (ov_activity ov) in
    let n := length (f :: more) in
    let note := if Nat.ltb 1 n then Some (T (lit "ov_fail_more") [Raw (digits (N.of_nat (n - 1)))])
                else if Nat.ltb n (length (ov_dags ov))
                then Some (T (lit "ov_rest_ok") [Raw (digits (N.of_nat (length (ov_dags ov) - n)))])
                else None in
    Failing (od_id f) (ac_run <$> last) note
  end.

(** ** The getting-started list: the three steps, and the flag that hides it *)

Definition gs_steps (dags : list odag) : bool * bool * bool :=
  (match dags with [] => false | _ => true end,
   existsb (fun d => match od_spark d with [] => false | _ => true end) dags,
   existsb (fun d => existsb (fun p => bool_decide (p = Some (lit "success"))) (od_spark d)
                     || bool_decide (od_latest d = lit "success")) dags).

(** The new flag and the steps shown, if any. *)
Definition gettingStarted (done : bool) (dags : list odag) : bool * option (bool * bool * bool) :=
  if done then (true, None)
  else match gs_steps dags with
       | (true, true, true) => (true, None)
       | st => (false, Some st)
       end.

(** ** Bulk operations *)

Inductive bulk_op := BPause | BResume | BTrigger | BDelete.
#[export] Instance bulk_op_eq_dec : EqDecision bulk_op.
Proof. solve_decision. Defined.

(** The page as drawn: the rows' ids and the selection ([bulkSel], in insertion order). *)
Record bulk := Bulk { bk_rows : list jstr; bk_sel : list jstr }.

(** [bulkSel.add(id)], [bulkSel.delete(id)] *)
Definition sel_add (id : jstr) (sel : list jstr) : list jstr :=
  if bool_decide (id ∈ sel) then sel else sel ++ [id].
Definition sel_del (id : jstr) (sel : list jstr) : list jstr := filter (fun x => x <> id) sel.

(** [wireBulk]: rows filtered away leave the selection. *)
Definition wireBulk (rows sel : list jstr) : bulk := Bulk rows (filter (fun id => id ∈ rows) sel).

Inductive bulk_event :=
| Draw (rows : list jstr)            (** the table is drawn with these rows *)
| TickAll (on : bool)                (** the box in the header *)
| TickRow (id : jstr) (on : bool)
| Clear.                             (** the bar's cross, or the end of an operation *)

Definition bulk_step (e : bulk_event) (b : bulk) : bulk :=
  match e with
  | Draw l => wireBulk l (bk_sel b)
  | TickAll on => Bulk (bk_rows b) (foldl (fun s id => if on then sel_add id s else sel_del id s)
                                      (bk_sel b) (bk_rows b))
  | TickRow id on => if bool_decide (id ∈ bk_rows b)
                     then Bulk (bk_rows b) (if on then sel_add id (bk_sel b) else sel_del id (bk_sel b))
                     else b
  | Clear => wireBulk (bk_rows b) []
  end.
Definition bulk_run (es : list bulk_event) (b : bulk) : bulk := foldl (fun b e => bulk_step e b) b es.

(** The header's box, a row's box, and the bar's count ([None]: hidden). *)
Definition all_checked (b : bulk) : bool :=
  match bk_rows b with [] => false | l => forallb (fun id => bool_decide (id ∈ bk_sel b)) l end.
Definition row_checked (b : bulk) (id : jstr) : bool := bool_decide (id ∈ bk_sel b).
Definition bulk_bar (b : bulk) : option nat := match bk_sel b with [] => None | l => Some (length l) end.

(** One request of an operation. *)
Definition bulk_call (op : bulk_op) (id : jstr) : jstr * bulk_op := (id, op).

(** [runBulk], confirmed: the requests in order, each answered by [api] with an error
    message or nothing. *)
Definition fail_line (id msg : jstr) : jstr := id ++ lit ": " ++ msg.
Fixpoint bulk_loop (api : jstr * bulk_op -> option jstr) (op : bulk_op) (ids : list jstr)
    (acc : nat * list jstr) : list (jstr * bulk_op) * (nat * list jstr) :=
  match ids with
  | [] => ([], acc)
  | id :: r =>
    let q := bulk_call op id in
    let acc' := match api q with
                | None => (S acc.1, acc.2)
                | Some msg => (acc.1, acc.2 ++ [fail_line id msg])
                end in
    let '(qs, res) := bulk_loop api op r acc' in (q :: qs, res)
  end.
(** The requests, and the toasts: their kind and text. *)
Definition runBulk (api : jstr * bulk_op -> option jstr) (op : bulk_op) (confirmed : bool) (b : bulk)
  : list (jstr * bulk_op) * list (jstr * label) :=
  if bool_decide (op = BDelete) && negb confirmed then ([], [])
  else
    let ids := bk_sel b in
    let '(qs, (ok, fails)) := bulk_loop api op ids (0, []) in
    (qs, ((match fails with [] => lit "ok" | _ => lit "warn" end),
          T (lit "bulk_done") [Raw (digits (N.of_nat ok)); Raw (digits (N.of_nat (length ids)))])
         :: ((fun f => (lit "fail", Raw f)) <$> take 3 fails)).

(** ** The novice list *)

(** [lastByDag]: the first entry of the feed for each workflow; the object's
    inherited properties are found before it is filled. *)
Definition last_by_dag (feed : list activity) : gmap jstr activity :=
  foldl (fun m a => match obj_get m (ac_dag a) with Missing => <[ac_dag a := a]> m | _ => m end) ∅ feed.

Inductive nv_last :=
| LastRun (a : activity)
| LastState (s : jstr)
| Never
| LastInherited.        (** a property of [Object.prototype] taken for an entry *)
Definition nv_last_of (feed : list activity) (d : odag) : nv_last :=
  match obj_get (last_by_dag feed) (od_id d) with
  | Own a => LastRun a
  | Inherited => LastInherited
  | Missing => if truthy (od_latest d) then LastState (od_latest d) else Never
  end.

(** [nvScheds] and the guard of its fetch. *)
Record nvs := Nvs { nv_scheds : option (gmap jstr jstr); nv_fetching : bool; nv_home : bool }.

Definition nv_missing (m : option (gmap jstr jstr)) (id : jstr) : bool :=
  match obj_get (default ∅ m) id with Missing => true | _ => false end.

(** A draw of the list starts a fetch when a schedule is missing and none is open. *)
Definition nv_draw (ids : list jstr) (s : nvs) : nvs * bool :=
  if negb (nv_fetching s) && existsb (nv_missing (nv_scheds s)) ids
  then (Nvs (nv_scheds s) true (nv_home s), true) else (s, false).

(** The answer ([None]: it failed); the page is drawn again only when nothing is
    missing any more. [ids] are the workflows of the overview at that moment. *)
Definition nv_answer (ids : list jstr) (ans : option (gmap jstr jstr)) (s : nvs) : nvs * bool :=
  let m := match ans with Some m => Some m | None => Some (default ∅ (nv_scheds s)) end in
  let s1 := Nvs m false (nv_home s) in
  if forallb (fun id => negb (nv_missing m id)) ids && nv_home s then nv_draw ids s1 else (s1, false).

Inductive nv_event := NvDraw (ids : list jstr) | NvAnswer (ids : list jstr) (ans : option (gmap jstr jstr))
                    | NvView (home : bool).
(** The state and the number of requests issued. *)
Definition nv_step (e : nv_event) (s : nvs * nat) : nvs * nat :=
  match e with
  | NvDraw ids => let '(s', q) := nv_draw ids s.1 in (s', if q then S s.2 else s.2)
  | NvAnswer ids ans => if nv_fetching s.1
                        then let '(s', q) := nv_answer ids ans s.1 in (s', if q then S s.2 else s.2) else s
  | NvView h => (Nvs (nv_scheds s.1) (nv_fetching s.1) h, s.2)
  end.
Definition nv_run (es : list nv_event) (s : nvs * nat) : nvs * nat := foldl (fun s e => nv_step e s) s es.

(** ** Lemmas on the selection *)

Lemma sel_add_spec id sel x : x ∈ sel_add id sel <-> x = id \/ x ∈ sel.
Proof. unfold sel_add. case_bool_decide; set_solver. Qed.
Lemma sel_del_spec id sel x : x ∈ sel_del id sel <-> x <> id /\ x ∈ sel.
Proof. unfold sel_del. by rewrite list_elem_of_filter. Qed.
Lemma sel_add_nodup id sel : NoDup sel -> NoDup (sel_add id sel).
Proof. intros H. unfold sel_add. case_bool_decide; [done|]. by apply NoDup_snoc. Qed.
Lemma sel_del_nodup id sel : NoDup sel -> NoDup (sel_del id sel).
Proof. intros H. by apply NoDup_filter. Qed.

Definition tick_all (on : bool) (rows sel : list jstr) : list jstr :=
  foldl (fun s id => if on then sel_add id s else sel_del id s) sel rows.

Lemma tick_all_spec on rows sel x :
  x ∈ tick_all on rows sel <-> (if on then x ∈ rows \/ x ∈ sel else (x ∉ rows) /\ x ∈ sel).
Proof.
  revert sel. induction rows as [|id rows IH]; intros sel; simpl; [destruct on; set_solver|].
  rewrite IH. destruct on; [rewrite sel_add_spec|rewrite sel_del_spec]; set_solver.
Qed.

Lemma tick_all_nodup on rows sel : NoDup sel -> NoDup (tick_all on rows sel).
Proof.
  revert sel. induction rows as [|id rows IH]; intros sel H; simpl; [done|].
  apply IH. destruct on; [by apply sel_add_nodup|by apply sel_del_nodup].
Qed.

Definition bulk_wf (b : bulk) : Prop := NoDup (bk_sel b) /\ (bk_sel b ⊆ bk_rows b).

Lemma wireBulk_wf rows sel : NoDup sel -> bulk_wf (wireBulk rows sel).
Proof.
  intros H. split; simpl; [by apply NoDup_filter|]. intros x. rewrite list_elem_of_filter. by intros [? _].
Qed.

Lemma bulk_step_wf e b : bulk_wf b -> bulk_wf (bulk_step e b).
Proof.
  intros [H1 H2]. destruct e as [l|on|id on|]; simpl;
    try (apply wireBulk_wf; done || apply NoDup_nil_2).
  - split; [by apply tick_all_nodup|]. intros x Hx%tick_all_spec; simpl.
    destruct on; [destruct Hx as [Hx|Hx]|destruct Hx as [_ Hx]]; auto.
  - case_bool_decide as Hid; [|done]. split; simpl.
    + destruct on; [by apply sel_add_nodup|by apply sel_del_nodup].
    + intros x Hx. destruct on; [apply sel_add_spec in Hx as [->|Hx]|apply sel_del_spec in Hx as [_ Hx]];
        auto.
Qed.

Lemma bulk_run_wf es b : bulk_wf b -> bulk_wf (bulk_run es b).
Proof. unfold bulk_run. revert b; induction es; intros b H; simpl; auto using bulk_step_wf. Qed.

(** The failures of an operation, in order. *)
Definition failures (api : jstr * bulk_op -> option jstr) (op : bulk_op) (ids : list jstr) : list jstr :=
  omap (fun id => fail_line id <$> api (id, op)) ids.

Lemma failures_cons api op id ids :
  failures api op (id :: ids)
  = match api (id, op) with Some m => fail_line id m :: failures api op ids | None => failures api op ids end.
Proof. unfold failures. simpl. by destruct (api (id, op)). Qed.

Lemma bulk_loop_spec api op ids ok fails :
  bulk_loop api op ids (ok, fails)
  = ((fun id => (id, op)) <$> ids,
     (ok + (length ids - length (failures api op ids)), fails ++ failures api op ids))
  /\ length (failures api op ids) <= length ids.
Proof.
  revert ok fails. induction ids as [|id ids IH]; intros ok fails.
  - simpl. rewrite app_nil_r. split; [repeat f_equal; lia|lia].
  - cbn [bulk_loop]. unfold bulk_call. rewrite failures_cons. rewrite fmap_cons.
    destruct (api (id, op)) as [m|] eqn:E; cbn [fst snd length].
    + destruct (IH ok (fails ++ [fail_line id m])) as [-> Hl]. rewrite <- app_assoc.
      split; [done|lia].
    + destruct (IH (S ok) fails) as [-> Hl]. split; [|lia]. do 2 f_equal. lia.
Qed.

(** A bulk operation acts on what the page shows as ticked. Whatever is ticked,
    filtered and drawn, the selection lists rows on screen, each once; the header's
    box is ticked exactly when there are rows and all are; the bar shows exactly when
    some row is ticked, with their number. An operation, if it is not a deletion left
    unconfirmed, sends one request per ticked row, in order, whatever fails; the
    counts it reports add up, it is reported as fine only when nothing failed, and at
    most three failures are shown. *)
Theorem bulk_exact es rows :
  NoDup rows ->
  let b := bulk_run es (wireBulk rows []) in
  NoDup (bk_sel b) /\ (bk_sel b ⊆ bk_rows b) /\
  (all_checked b = true <-> bk_rows b <> [] /\ forall id, id ∈ bk_rows b -> row_checked b id = true) /\
  (bulk_bar b = None <-> forall id, id ∈ bk_rows b -> row_checked b id = false) /\
  (forall n, bulk_bar b = Some n -> n = length (bk_sel b)) /\
  (forall on id, id ∈ bk_rows b -> row_checked (bulk_step (TickAll on) b) id = on) /\
  (forall api op confirmed,
     (op = BDelete -> confirmed = false -> runBulk api op confirmed b = ([], [])) /\
     ((op = BDelete -> confirmed = true) ->
        let errs := failures api op (bk_sel b) in
        (runBulk api op confirmed b).1 = (fun id => (id, op)) <$> bk_sel b /\
          (runBulk api op confirmed b).2
          = (match errs with [] => lit "ok" | _ => lit "warn" end,
             T (lit "bulk_done") [Raw (digits (N.of_nat (length (bk_sel b) - length errs)));
                                  Raw (digits (N.of_nat (length (bk_sel b))))])
            :: ((fun f => (lit "fail", Raw f)) <$> take 3 errs))).
Proof.
  intros Hn b. destruct (bulk_run_wf es (wireBulk rows []) (wireBulk_wf rows [] (NoDup_nil_2)))
    as [H1 H2]. fold b in H1, H2.
  split; [done|]. split; [done|]. split_and!.
  - unfold all_checked. destruct (bk_rows b) as [|i l]; [naive_solver|].
    rewrite forallb_forall. setoid_rewrite <- list_elem_of_In. unfold row_checked. naive_solver.
  - unfold bulk_bar, row_checked. destruct (bk_sel b) as [|i l] eqn:E; [done|]. split; [done|].
    intros H. specialize (H i (H2 i ltac:(by left))). by rewrite bool_decide_eq_true_2 in H by left.
  - unfold bulk_bar. by destruct (bk_sel b); intros n [= <-].
  - intros on id Hid. unfold row_checked; simpl. fold (tick_all on (bk_rows b) (bk_sel b)).
    destruct on; [apply bool_decide_eq_true|apply bool_decide_eq_false]; rewrite tick_all_spec; naive_solver.
  - intros api op confirmed. split; [by intros -> ->|]. intros Hc.
    destruct (bulk_loop_spec api op (bk_sel b) 0 []) as [E _]. cbn [app plus] in E. unfold runBulk.
    replace (bool_decide (op = BDelete) && negb confirmed) with false.
    2: { case_bool_decide; [|done]. by rewrite Hc. }
    by rewrite E.
Qed.

Lemma bulk_exact_witness :
  let rows := [lit "etl"; lit "report"; lit "sync"] in
  let b := bulk_run [TickAll true; TickRow (lit "report") false; Draw [lit "report"; lit "sync"];
                     TickRow (lit "report") true] (wireBulk rows []) in
  NoDup rows /\ bk_sel b = [lit "sync"; lit "report"] /\ NoDup (bk_sel b).
Proof.
  intros rows b. assert (Hn : NoDup rows) by compute_decide. split; [exact Hn|].
  split; [reflexivity|]. exact (proj1 (bulk_exact _ rows Hn)).
Defined.

(** ** What the home page says *)

Lemma dash_list_failed ov :
  dash_list [] (lit "failed") ov = List.filter (fun d => failed_now (od_latest d)) (ov_dags ov).
Proof. done. Qed.

Lemma find_elem {A} (p : A -> bool) l x : List.find p l = Some x -> x ∈ l /\ p x = true.
Proof. intros [H1 H2]%find_some. split; [by apply list_elem_of_In|done]. Qed.

(** The home page's summary is true of the overview it shows. The health bar reports
    that all is well exactly when the "failed" filter has no rows; otherwise it names
    the first of those rows, links to a failed run of that workflow when the feed has
    one, and adds a note exactly when there are other workflows. The getting-started
    list is shown only with a step to do, and once hidden it stays hidden. *)
Theorem home_truthful ov :
  match healthBar ov with
  | AllOk _ => dash_list [] (lit "failed") ov = []
  | Failing dag run note =>
    head (od_id <$> dash_list [] (lit "failed") ov) = Some dag /\
    (forall r, run = Some r -> exists a, a ∈ ov_activity ov /\ ac_run a = r /\ ac_dag a = dag
                                         /\ failed_now (ac_state a) = true) /\
    (run = None -> forall a, a ∈ ov_activity ov -> ac_dag a = dag -> failed_now (ac_state a) = false) /\
    (note = None <-> length (ov_dags ov) = 1)
  end /\
  (forall done dags st, (gettingStarted done dags).2 = Some st -> done = false /\ st <> (true, true, true)) /\
  (forall dags dags', (gettingStarted (gettingStarted true dags).1 dags') = (true, None)).
Proof.
  split; [|split].
  - unfold healthBar. rewrite <- dash_list_failed.
    destruct (dash_list [] (lit "failed") ov) as [|f more] eqn:E; [done|]. split; [done|].
    assert (Hlen : length (f :: more) <= length (ov_dags ov)).
    { rewrite <- E. apply List.filter_length_le. }
    split; [|split].
    + intros r Hr. destruct (List.find _ _) as [a|] eqn:Ef; [|done]. injection Hr as <-.
      apply find_elem in Ef as [Ha Hb]. apply andb_true_iff in Hb as [Hd Hs].
      apply bool_decide_eq_true in Hd. by exists a.
    + intros Hr a Ha Hd. destruct (List.find _ _) as [b|] eqn:Ef; [done|].
      pose proof (find_none _ _ Ef a (proj1 (list_elem_of_In _ _) Ha)) as Hn. simpl in Hn.
      rewrite bool_decide_eq_true_2 in Hn by done. exact Hn.
    + cbn [length] in *. destruct (Nat.ltb_spec 1 (S (length more))); [split; [done|lia]|].
      destruct (Nat.ltb_spec (S (length more)) (length (ov_dags ov))); split; try done; lia.
  - intros d dags st. unfold gettingStarted. destruct d; [done|].
    destruct (gs_steps dags) as [[[] []] []]; simpl; intros [= <-]; done.
  - done.
Qed.

(** ** The novice list *)

Definition draws (es : list nv_event) : nat :=
  length (List.filter (fun e => match e with NvDraw _ => true | _ => false end) es).

Lemma nv_answer_quiet ids ans s : (nv_answer ids ans s).2 = false /\ nv_fetching (nv_answer ids ans s).1 = false.
Proof.
  unfold nv_answer. set (m := match ans with Some m => Some m | None => _ end).
  destruct (forallb (fun id => negb (nv_missing m id)) ids && nv_home s) eqn:E; [|done].
  apply andb_true_iff in E as [E _]. unfold nv_draw. cbn [nv_fetching nv_scheds negb andb].
  replace (existsb (nv_missing m) ids) with false; [done|]. symmetry.
  induction ids as [|i ids IH]; [done|]; simpl in *. apply andb_true_iff in E as [E1 E2].
  apply negb_true_iff in E1. by rewrite E1, IH.
Qed.

Lemma last_by_dag_lookup feed m id :
  id ∉ proto_names ->
  foldl (fun m a => match obj_get m (ac_dag a) with Missing => <[ac_dag a := a]> m | _ => m end) m feed !! id
  = match m !! id with
    | Some a => Some a
    | None => List.find (fun a => bool_decide (ac_dag a = id)) feed
    end.
Proof.
  intros Hid. revert m. induction feed as [|a feed IH]; intros m; simpl; [by destruct (m !! id)|].
  rewrite IH. unfold obj_get. destruct (decide (ac_dag a = id)) as [E|E].
  - rewrite (bool_decide_eq_true_2 (ac_dag a = id)) by done. rewrite E.
    rewrite (bool_decide_eq_false_2 (id ∈ proto_names)) by done.
    destruct (m !! id) eqn:Em; [by rewrite Em|]. by rewrite lookup_insert_eq.
  - rewrite (bool_decide_eq_false_2 (ac_dag a = id)) by done.
    destruct (m !! ac_dag a); [done|]. case_bool_decide; [done|]. by rewrite lookup_insert_ne.
Qed.

(** The novice list fetches schedules once per draw at most and never in answer to
    its own fetch, so a workflow whose schedule cannot be had does not make it draw and
    fetch for ever; and the last run it shows of a workflow (not named like a property
    of every object) is the first entry of the feed about it. *)
Theorem novice_list_settles es h feed d :
  let s := nv_run es (Nvs None false h, 0) in
  s.2 <= draws es /\
  (forall ids ans, (nv_step (NvAnswer ids ans) s).2 = s.2) /\
  (forall ids ans, nv_fetching (nv_step (NvAnswer ids ans) s).1 = false) /\
  (od_id d ∉ proto_names ->
   nv_last_of feed d = match List.find (fun a => bool_decide (ac_dag a = od_id d)) feed with
                       | Some a => LastRun a
                       | None => if truthy (od_latest d) then LastState (od_latest d) else Never
                       end).
Proof.
  assert (Ha : forall ids ans s, (nv_step (NvAnswer ids ans) s).2 = s.2 /\
                                 nv_fetching (nv_step (NvAnswer ids ans) s).1 = false).
  { intros ids ans s. simpl. destruct (nv_fetching s.1) eqn:Ef; [|done].
    pose proof (nv_answer_quiet ids ans s.1) as [H1 H2]. destruct (nv_answer _ _ _) as [s' q]; simpl in *.
    by subst q. }
  intros s. split; [|split; [|split]].
  - assert (Hg : forall s0, (nv_run es s0).2 <= s0.2 + draws es); [|apply (Hg (Nvs None false h, 0))].
    unfold nv_run, draws. induction es as [|e es' IH]; intros s0; simpl; [lia|].
    etransitivity; [apply IH|]. destruct e as [ids|ids ans|v].
    + simpl. destruct (nv_draw ids s0.1) as [s1 []]; simpl; lia.
    + rewrite (proj1 (Ha ids ans s0)). lia.
    + simpl. lia.
  - intros ids ans. apply Ha.
  - intros ids ans. apply Ha.
  - intros Hd. unfold nv_last_of. rewrite obj_get_plain by done. unfold last_by_dag.
    rewrite last_by_dag_lookup by done. rewrite lookup_empty. by destruct (List.find _ feed).
Qed.
