(* ===== verification/Trigger.v ===== *)
(** * Triggering a workflow by hand: parameters, priority, backfill, hero facts (views.js) *)

From S2P Require Import Prelude JsCore Schedule DagModel RunView RunsTab.

(** ** The parameter form ([triggerParamsDialog]) *)

Record tform := TForm { tf_rows : list (jstr * jstr); tf_prio : Z }.
Definition tform_init : tform := TForm [([], [])] 0.

Inductive tf_event :=
| SetKey (i : nat) (k : jstr) | SetVal (i : nat) (v : jstr) | SetPrio (p : numf)
| RemoveRow (i : nat) | AddRow.

(** Every handler is of a row on screen. *)
Definition tf_step (e : tf_event) (f : tform) : tform :=
  match e with
  | SetKey i k => TForm (alter (fun r => (k, r.2)) i (tf_rows f)) (tf_prio f)
  | SetVal i v => TForm (alter (fun r => (r.1, v)) i (tf_rows f)) (tf_prio f)
  | SetPrio p => TForm (tf_rows f) (num_of p)
  | RemoveRow i => TForm (match delete i (tf_rows f) with [] => [([], [])] | l => l end) (tf_prio f)
  | AddRow => TForm (tf_rows f ++ [([], [])]) (tf_prio f)
  end.
Definition tf_run (es : list tf_event) (f : tform) : tform := foldl (fun f e => tf_step e f) f es.

(** The object the button builds: rows with a blank key are left out. *)
Definition tf_params (rows : list (jstr * jstr)) : gmap jstr jstr :=
  foldl (fun m r => let k := trim r.1 in if truthy k then set_prop m (k, r.2) else m) ∅ rows.

(** ** The request ([triggerActiveDag]) *)

Record tbody := TBody { tb_params : option (gmap jstr jstr); tb_priority : option Z }.

Definition trigger_prio (p : Z) : Z := Z.max (-100) (Z.min 100 p).
(** [None]: the request has no body. *)
Definition trigger_body (params : option (gmap jstr jstr)) (priority : Z) : option tbody :=
  let ps := match params with
            | Some m => if bool_decide (m = ∅) then None else Some m
            | None => None end in
  let prio := trigger_prio priority in
  let pr := if bool_decide (prio = 0%Z) then None else Some prio in
  match ps, pr with None, None => None | _, _ => Some (TBody ps pr) end.

(** The form's button. *)
Definition tf_submit (f : tform) : option tbody := trigger_body (Some (tf_params (tf_rows f))) (tf_prio f).

(** ** Backfill *)

Inductive bf_result := NeedDates | BfRequest (from to : jstr).
Definition backfill (from to : jstr) : bf_result :=
  if negb (truthy from) || negb (truthy to) then NeedDates else BfRequest from to.

(** ** The hero's facts *)

Definition hero_terminal (rs : list rrun) : list rrun :=
  List.filter (fun r => bool_decide (rr_state r = lit "success") || bool_decide (rr_state r = lit "failed")
                        || bool_decide (rr_state r = lit "timed_out")) rs.
(** The newest run, and the successes among the finished runs ([None]: none finished). *)
Definition dagHeroStats (rs : list rrun) : option rrun * option (nat * nat) :=
  let terminal := hero_terminal rs in
  (head rs,
   match terminal with
   | [] => None
   | _ => Some (length (List.filter (fun r => bool_decide (rr_state r = lit "success")) terminal), length terminal)
   end).

(** ** Lemmas *)

Lemma tf_params_lookup rows m k :
  k <> [] -> k <> lit "__proto__" ->
  foldl (fun m r => let k := trim r.1 in if truthy k then set_prop m (k, r.2) else m) m rows !! k
  = match find_last (fun r => bool_decide (trim r.1 = k)) rows with
    | Some r => Some r.2
    | None => m !! k
    end.
Proof.
  intros Hk Hp. unfold find_last. revert m. induction rows as [|r rows IH] using rev_ind; intros m; [done|].
  rewrite foldl_app, reverse_app, reverse_singleton. cbn [foldl app List.find].
  destruct (decide (trim r.1 = k)) as [E|E].
  - rewrite (bool_decide_eq_true_2 _ E), E. destruct k as [|c k]; [done|]. cbn [truthy].
    unfold set_prop; simpl. rewrite bool_decide_eq_false_2 by done. by rewrite lookup_insert_eq.
  - rewrite (bool_decide_eq_false_2 _ E). rewrite <- IH.
    destruct (truthy (trim r.1)); [|done]. unfold set_prop; simpl. case_bool_decide; [done|].
    by rewrite lookup_insert_ne.
Qed.

Lemma tf_params_keys rows k v : tf_params rows !! k = Some v -> k <> [] /\ trimmed k.
Proof.
  unfold tf_params. assert (H0 : forall k v, (∅ : gmap jstr jstr) !! k = Some v -> k <> [] /\ trimmed k) by done.
  revert H0. generalize (∅ : gmap jstr jstr) as m. induction rows as [|r rows IH]; intros m Hm; simpl; [by apply Hm|].
  apply IH. intros k' v'. destruct (truthy (trim r.1)) eqn:E; [|by apply Hm].
  unfold set_prop; simpl. case_bool_decide; [by apply Hm|].
  intros [[<- _]|[_ H']]%lookup_insert_Some; [|by eapply Hm].
  split; [by apply truthy_true|apply trim_trimmed].
Qed.

Lemma tf_run_rows es f : tf_rows f <> [] -> tf_rows (tf_run es f) <> [].
Proof.
  unfold tf_run. revert f. induction es as [|e es IH]; intros f H; simpl; [done|]. apply IH.
  destruct e; simpl; try done.
  - intros E. apply (f_equal length) in E. rewrite length_alter in E. by destruct (tf_rows f).
  - intros E. apply (f_equal length) in E. rewrite length_alter in E. by destruct (tf_rows f).
  - by destruct (delete i (tf_rows f)).
  - by destruct (tf_rows f).
Qed.

(** The manual trigger sends what the form shows. The form never runs out of rows; a
    parameter has the value of the last row with its (trimmed) name, and rows without
    a name are left out; the priority sent is the one typed, held between -100 and
    100 and left out when it is 0; and a form left as it opens, like the plain
    button, sends no body at all. *)
Theorem trigger_sends_form es :
  let f := tf_run es tform_init in
  tf_rows f <> [] /\
  (forall k, k <> [] -> k <> lit "__proto__" ->
     tf_params (tf_rows f) !! k = snd <$> find_last (fun r => bool_decide (trim r.1 = k)) (tf_rows f)) /\
  (forall k v, tf_params (tf_rows f) !! k = Some v -> k <> [] /\ trimmed k) /\
  (forall b, tf_submit f = Some b ->
     tb_params b = (if decide (tf_params (tf_rows f) = ∅) then None else Some (tf_params (tf_rows f))) /\
     (forall p, tb_priority b = Some p -> (-100 <= p <= 100 /\ p <> 0)%Z) /\
     ((-100 <= tf_prio f <= 100)%Z -> default 0%Z (tb_priority b) = tf_prio f)) /\
  (tf_submit f = None <-> tf_params (tf_rows f) = ∅ /\ tf_prio f = 0%Z) /\
  tf_submit tform_init = None /\ trigger_body None 0 = None.
Proof.
  intros f. split; [by apply tf_run_rows|]. split; [|split; [|split; [|split]]].
  - intros k Hk Hp. unfold tf_params. rewrite tf_params_lookup by done.
    by destruct (find_last _ (tf_rows f)).
  - apply tf_params_keys.
  - intros b. unfold tf_submit, trigger_body, trigger_prio.
    case_bool_decide as H1; case_bool_decide as H2; intros Hb; simplify_eq/=;
      (split; [by destruct (decide (tf_params (tf_rows f) = ∅))|split; [intros p ?; simplify_eq; lia|lia]]).
  - unfold tf_submit, trigger_body, trigger_prio.
    case_bool_decide as H1; case_bool_decide as H2; split; intros Hb; simplify_eq; try done;
      try (split; [done|lia]); destruct Hb as [Hp Hz]; done || lia.
  - done.
Qed.

(** The hero counts runs of the list: successes never exceed the finished runs, no
    rate is shown without one, and neither counts a run that is queued or running. *)
Lemma hero_counts rs ok n :
  (dagHeroStats rs).2 = Some (ok, n) ->
  ok <= n <= length rs /\ 0 < n /\ Forall (fun r => runLive (rr_state r) = false) (hero_terminal rs).
Proof.
  unfold dagHeroStats. cbn [snd]. intros H.
  assert (Hn : hero_terminal rs <> [] /\ n = length (hero_terminal rs) /\
    ok = length (List.filter (fun r => bool_decide (rr_state r = lit "success")) (hero_terminal rs))).
  { destruct (hero_terminal rs); [done|]. by injection H as <- <-. }
  destruct Hn as (Hn & -> & ->).
  split; [split; apply List.filter_length_le|]. split; [destruct (hero_terminal rs); [done|simpl; lia]|]. apply Forall_forall. intros x. rewrite list_elem_of_In. intros [_ Hx]%filter_In.
  unfold runLive. rewrite !orb_true_iff, !bool_decide_eq_true in Hx.
  by destruct Hx as [[->| ->]| ->].
Qed.
