(* ===== verification/PanZoom.v ===== *)
(** * Panning and zooming the dependency graph (base.js)

    The view of a graph (scale and translation), moved by the wheel, the mouse, one
    or two fingers and the zoom buttons. Coordinates are relative to the graph's box;
    numbers are rationals, the distance of two fingers is what [Math.hypot] returns. *)

From S2P Require Import Prelude.
From Stdlib Require Import QArith Qminmax Lqa.

Open Scope Q_scope.

(** ** State *)

(** The box on screen and the drawing's natural size. *)
Record vport := VPort { vw : Q; vh : Q; cw : Q; ch : Q }.

Record pz := Pz {
  z_s : Q; z_tx : Q; z_ty : Q;
  z_drag : bool; z_moved : bool; z_sup : bool;     (** [wrap._sup]: swallow the next click *)
  z_sx : Q; z_sy : Q; z_otx : Q; z_oty : Q;
  z_touches : list (nat * (Q * Q)); z_pinch : Q;
}.

(** The view at first: as saved with the page, or the identity. *)
Definition pz_init (saved : option (Q * Q * Q)) : pz :=
  let '(s, tx, ty) := default (1, 0, 0) saved in
  Pz s tx ty false false false 0 0 0 0 [] 0.

Definition set_view (s tx ty : Q) (z : pz) : pz :=
  Pz s tx ty (z_drag z) (z_moved z) (z_sup z) (z_sx z) (z_sy z) (z_otx z) (z_oty z) (z_touches z) (z_pinch z).
Definition set_touches (l : list (nat * (Q * Q))) (p : Q) (z : pz) : pz :=
  Pz (z_s z) (z_tx z) (z_ty z) (z_drag z) (z_moved z) (z_sup z) (z_sx z) (z_sy z) (z_otx z) (z_oty z) l p.
Definition set_press (drag moved sup : bool) (z : pz) : pz :=
  Pz (z_s z) (z_tx z) (z_ty z) drag moved sup (z_sx z) (z_sy z) (z_otx z) (z_oty z) (z_touches z) (z_pinch z).

Definition Qlt_bool (a b : Q) : bool := negb (Qle_bool b a).

Definition MIN : Q := 1 # 4.
Definition MAX : Q := 4.

(** ** The view *)

Definition laid_out (v : vport) : bool := negb (Qlt_bool (vw v) 10 || Qlt_bool (vh v) 10).

(** One axis: keep a margin of 44 of the content on screen. *)
Definition clamp1 (view content t : Q) : Q := Qmin (view - 44) (Qmax (44 - content) t).
Definition clamp (v : vport) (z : pz) : pz :=
  if laid_out v
  then set_view (z_s z) (clamp1 (vw v) (cw v * z_s z) (z_tx z)) (clamp1 (vh v) (ch v * z_s z) (z_ty z)) z
  else z.

(** The translation that keeps the content under [p] in place. *)
Definition zoom1 (p t s ns : Q) : Q := p - (p - t) * (ns / s).
Definition zoomAt (v : vport) (px py ns0 : Q) (z : pz) : pz :=
  let ns := Qmin MAX (Qmax MIN ns0) in
  clamp v (set_view ns (zoom1 px (z_tx z) (z_s z) ns) (zoom1 py (z_ty z) (z_s z) ns) z).

Definition fit (v : vport) (z : pz) : pz :=
  if laid_out v then
    let s := Qmin 1 (Qmax MIN (Qmin ((vw v - 36) / cw v) ((vh v - 36) / ch v))) in
    set_view s ((vw v - cw v * s) / 2) ((vh v - ch v * s) / 2) z
  else z.

(** ** Pointers *)

Section PanZoom.
Context (hypot : Q -> Q -> Q).

(** [touches.set(id, p)]: a Map keeps the place of a key it has. *)
Fixpoint touch_set (id : nat) (p : Q * Q) (l : list (nat * (Q * Q))) : list (nat * (Q * Q)) :=
  match l with
  | [] => [(id, p)]
  | (i, q) :: r => if Nat.eqb i id then (id, p) :: r else (i, q) :: touch_set id p r
  end.
Definition touch_del (id : nat) (l : list (nat * (Q * Q))) : list (nat * (Q * Q)) :=
  List.filter (fun t => negb (Nat.eqb t.1 id)) l.

Inductive pointer := Mouse (primary : bool) | Touch (id : nat).
Inductive pz_event :=
| Wheel (ctrl up : bool) (x y : Q)
| Down (p : pointer) (on_zoom : bool) (x y : Q)
| Move (p : pointer) (x y : Q)
| Up (p : pointer)                    (** pointerup or pointercancel *)
| Click (on_zoom : bool)
| ZoomIn | ZoomOut | Fit.

Definition start_drag (x y : Q) (z : pz) : pz :=
  Pz (z_s z) (z_tx z) (z_ty z) true false (z_sup z) x y (z_tx z) (z_ty z) (z_touches z) (z_pinch z).

(** A move of less than four pixels from the press is still a click. *)
Definition far (dx dy : Q) : bool := Qle_bool 16 (dx * dx + dy * dy).

Definition drag_move (v : vport) (x y : Q) (z : pz) : pz :=
  let dx := x - z_sx z in let dy := y - z_sy z in
  if negb (z_drag z) then z
  else if negb (z_moved z) && negb (far dx dy) then z
  else clamp v (set_view (z_s z) (z_otx z + dx) (z_oty z + dy) (set_press true true (z_sup z) z)).

(** Two fingers: the distance from the last one scales the view about their middle. *)
Definition pinch (v : vport) (a b : Q * Q) (z : pz) : pz :=
  let d := hypot (a.1 - b.1) (a.2 - b.2) in
  let z1 := if Qlt_bool 0 (z_pinch z) && Qlt_bool 0 d
            then zoomAt v ((a.1 + b.1) / 2) ((a.2 + b.2) / 2) (z_s z * (d / z_pinch z)) z else z in
  set_touches (z_touches z1) d z1.

Definition pz_step (v : vport) (e : pz_event) (z : pz) : pz :=
  match e with
  | Wheel ctrl up x y =>
    if ctrl then zoomAt v x y (z_s z * (if up then 28 # 25 else / (28 # 25))) z else z
  | Down p on_zoom x y =>
    match p with
    | Mouse false => z
    | _ =>
      let z0 := set_press (z_drag z) (z_moved z) false z in
      if on_zoom then z0
      else match p with
      | Touch id =>
        let l := touch_set id (x, y) (z_touches z0) in
        let z1 := set_touches l (z_pinch z0) z0 in
        match l with
        | [(_, a); (_, b)] =>
          set_touches l (hypot (a.1 - b.1) (a.2 - b.2)) (set_press false (z_moved z1) true z1)
        | _ => start_drag x y z1
        end
      | Mouse _ => start_drag x y z0
      end
    end
  | Move p x y =>
    match p with
    | Touch id =>
      if existsb (fun t => Nat.eqb t.1 id) (z_touches z) then
        let l := touch_set id (x, y) (z_touches z) in
        let z1 := set_touches l (z_pinch z) z in
        match l with
        | [(_, a); (_, b)] => pinch v a b z1
        | _ => drag_move v x y z1
        end
      else drag_move v x y z
    | Mouse _ => drag_move v x y z
    end
  | Up p =>
    let z1 := match p with
      | Touch id => let l := touch_del id (z_touches z) in
                    set_touches l (if Nat.ltb (length l) 2 then 0 else z_pinch z) z
      | Mouse _ => z
      end in
    if z_drag z1 then set_press false (z_moved z1) (if z_moved z1 then true else z_sup z1) z1 else z1
  | Click on_zoom => if on_zoom then z else set_press (z_drag z) (z_moved z) false z
  | ZoomIn => zoomAt v (vw v / 2) (vh v / 2) (z_s z * (5 # 4)) z
  | ZoomOut => zoomAt v (vw v / 2) (vh v / 2) (z_s z / (5 # 4)) z
  | Fit => fit v z
  end.

(** A click reaches the nodes when it is not swallowed. *)
Definition click_passes (z : pz) : bool := negb (z_sup z).

(** The first frame: a drawing larger than its box is fitted, unless a view was saved. *)
Definition pz_attach (saved : option (Q * Q * Q)) (v : vport) : pz :=
  let z := pz_init saved in
  match saved with
  | Some _ => z
  | None => if laid_out v && (Qlt_bool (vw v + 1) (cw v) || Qlt_bool (vh v + 1) (ch v)) then fit v z else z
  end.

Definition pz_run (es : list (vport * pz_event)) (z : pz) : pz :=
  foldl (fun z ve => pz_step ve.1 ve.2 z) z es.

(** ** The view stays in bounds *)

Definition scale_ok (z : pz) : Prop := MIN <= z_s z <= MAX.

Lemma clamp_s v z : z_s (clamp v z) = z_s z.
Proof. unfold clamp. by destruct (laid_out v). Qed.

Lemma zoomAt_s v x y ns z : MIN <= z_s (zoomAt v x y ns z) <= MAX.
Proof.
  unfold zoomAt. rewrite clamp_s; simpl. split.
  - apply Q.min_glb; [unfold MIN, MAX; lra|apply Q.le_max_l].
  - apply Q.le_min_l.
Qed.

Lemma fit_s v z : scale_ok z -> scale_ok (fit v z).
Proof.
  intros H. unfold fit. destruct (laid_out v); [|done]. unfold scale_ok; simpl. split.
  - apply Q.min_glb; [unfold MIN; lra|apply Q.le_max_l].
  - eapply Qle_trans; [apply Q.le_min_l|]. unfold MAX; lra.
Qed.

Lemma drag_move_s v x y z : z_s (drag_move v x y z) = z_s z.
Proof. unfold drag_move. repeat case_match; try done. by rewrite clamp_s. Qed.

Lemma pz_step_scale v e z : scale_ok z -> scale_ok (pz_step v e z).
Proof.
  intros H. destruct e as [ctrl up x y|p on x y|p x y|p|on| | |]; simpl;
    try apply zoomAt_s; try (by apply fit_s).
  - destruct ctrl; [apply zoomAt_s|done].
  - destruct p as [[]|id]; try done; destruct on; try done.
    destruct (touch_set id (x, y) (z_touches z)) as [|[? ?] [|[? ?] [|? ?]]]; done.
  - destruct p as [b|id]; [unfold scale_ok; by rewrite drag_move_s|].
    destruct (existsb _ _); [|unfold scale_ok; by rewrite drag_move_s].
    destruct (touch_set id (x, y) (z_touches z)) as [|[? a] [|[? b] [|? ?]]];
      try (unfold scale_ok; rewrite drag_move_s; done).
    unfold pinch, scale_ok; simpl. destruct (_ && _); [apply zoomAt_s|done].
  - destruct p as [b|id]; simpl; by destruct (z_drag z).
  - by destruct on.
Qed.

Lemma pz_run_scale es z : scale_ok z -> scale_ok (pz_run es z).
Proof.
  unfold pz_run. revert z. induction es as [|[v e] es IH]; intros z H; simpl; [done|].
  by apply IH, pz_step_scale.
Qed.

(** ** What stays on screen *)

(** One axis of the drawing shows: the far edge is at most at 44 from the box's end,
    and the near one at least 44 inside when the box has room for both margins. *)
Definition shows (view content t : Q) : Prop :=
  t <= view - 44 /\ (44 - content <= view - 44 -> 44 - content <= t).

Lemma clamp1_shows view content t : shows view content (clamp1 view content t).
Proof.
  unfold shows, clamp1. split; [apply Q.le_min_l|]. intros H. apply Q.min_glb; [done|apply Q.le_max_l].
Qed.

Definition on_screen (v : vport) (z : pz) : Prop :=
  laid_out v = true -> shows (vw v) (cw v * z_s z) (z_tx z) /\ shows (vh v) (ch v * z_s z) (z_ty z).

Lemma clamp_on_screen v z : on_screen v (clamp v z).
Proof. intros H. unfold clamp. rewrite H; simpl. split; apply clamp1_shows. Qed.

Lemma clamp1_id view content t :
  t <= view - 44 -> 44 - content <= t -> clamp1 view content t == t.
Proof. intros H1 H2. unfold clamp1. rewrite (Q.max_r _ t) by done. by apply Q.min_r. Qed.

Lemma zoom1_fixed p t s ns : 0 < s -> 0 < ns -> (p - zoom1 p t s ns) / ns == (p - t) / s.
Proof. intros Hs Hn. unfold zoom1. field. split; lra. Qed.

(** ** The click after a drag *)

(** Did a move leave the four pixels around the press? *)
Definition dragged (x y : Q) (ms : list (vport * (Q * Q))) : bool :=
  existsb (fun m => far (m.2.1 - x) (m.2.2 - y)) ms.
Definition moves_of (ms : list (vport * (Q * Q))) : list (vport * pz_event) :=
  (fun m => (m.1, Move (Mouse true) m.2.1 m.2.2)) <$> ms.

Lemma drag_moves x y ms z :
  z_drag z = true -> z_sx z = x -> z_sy z = y ->
  let z' := pz_run (moves_of ms) z in
  z_drag z' = true /\ z_sup z' = z_sup z /\ z_moved z' = z_moved z || dragged x y ms.
Proof.
  revert z. induction ms as [|[v [mx my]] ms IH]; intros z Hd Hx Hy; simpl.
  - by rewrite orb_false_r.
  - unfold pz_run in *; simpl. set (z1 := drag_move v mx my z).
    assert (H1 : z_drag z1 = true /\ z_sx z1 = x /\ z_sy z1 = y /\ z_sup z1 = z_sup z /\
      z_moved z1 = z_moved z || far (mx - x) (my - y)).
    { unfold z1, drag_move. rewrite Hd, Hx, Hy. cbn [negb]. unfold clamp.
      destruct (z_moved z) eqn:Em; cbn [negb andb].
      - destruct (laid_out v); simpl; by rewrite Hx, Hy.
      - destruct (far (mx - x) (my - y)); cbn [negb]; [|by rewrite Hd, Hx, Hy, Em].
        destruct (laid_out v); simpl; by rewrite Hx, Hy. }
    destruct H1 as (D1 & X1 & Y1 & S1 & M1). destruct (IH z1 D1 X1 Y1) as (D2 & S2 & M2).
    rewrite D2, S2, M2, S1, M1. split_and!; try done. by rewrite orb_assoc.
Qed.

(** ** Properties *)


(** A press, moves and the release with the mouse: the click that follows is
    swallowed exactly when a move left the four pixels around the press, and no more
    than one click is. *)
Theorem drag_swallows_click es z0 v x y ms :
  let z := pz_run es z0 in
  let z' := pz_run ((v, Down (Mouse true) false x y) :: moves_of ms ++ [(v, Up (Mouse true))]) z in
  click_passes z' = negb (dragged x y ms) /\ click_passes (pz_step v (Click false) z') = true.
Proof.
  intros z z'. split; [|done]. subst z'. unfold pz_run. simpl. rewrite foldl_app. simpl.
  pose proof (drag_moves x y ms (start_drag x y (set_press (z_drag z) (z_moved z) false z))
                eq_refl eq_refl eq_refl) as (D & S & M).
  unfold pz_run in D, S, M. unfold click_passes. rewrite D. cbn [z_sup set_press].
  rewrite M. simpl in *. destruct (dragged x y ms); [done|]. by rewrite S.
Qed.

End PanZoom.

