(* ===== verification/Session.v ===== *)
(** * Signing in, session expiry and the interface mode (base.js)

    Who is signed in, the login form over the page, and the novice or expert mode,
    as a transition system: requests are answered by events. *)

From S2P Require Import Prelude JsCore Schedule.

(** ** State *)

(** [/api/me]: [auth] is false when the server needs no login. *)
Record user := User { u_role : jstr; u_auth : bool; u_name : jstr }.
Definition implicit_admin : user := User (lit "admin") false [].

Record form := Form { f_expired : bool; f_busy : bool; f_error : option label }.

Record session := Session {
  authUser : option user;
  login : option form;            (** the form over the page *)
  roleAttr : option jstr;         (** [document.body.dataset.role] *)
  meOpen : nat;                   (** unanswered [/api/me] requests *)
  submits : nat;                  (** unanswered sign-in requests *)
  starting : nat;                 (** [startApp] calls before their mode is resolved *)
  apps : nat;                     (** [startApp] calls so far *)
  uiMode : option jstr; savedMode : option jstr;   (** [localStorage.cnv_mode] *)
}.

(** The console as it is loaded: [initAuth] has asked who the user is. *)
Definition boot (saved : option jstr) : session := Session None None None 1 0 0 0 None saved.

Definition set_auth (u : option user) (f : option form) (s : session) : session :=
  Session u f (roleAttr s) (meOpen s) (submits s) (starting s) (apps s) (uiMode s) (savedMode s).
Definition set_open (me sub : nat) (s : session) : session :=
  Session (authUser s) (login s) (roleAttr s) me sub (starting s) (apps s) (uiMode s) (savedMode s).
Definition set_mode (m saved : option jstr) (s : session) : session :=
  Session (authUser s) (login s) (roleAttr s) (meOpen s) (submits s) (starting s) (apps s) m saved.

(** ** Operations *)

Definition showLogin (expired : bool) (s : session) : session :=
  set_auth (authUser s) (Some (Form expired false None)) s.

Definition startApp (s : session) : session :=
  Session (authUser s) (login s) (roleAttr s) (meOpen s) (submits s) (S (starting s)) (S (apps s))
          (uiMode s) (savedMode s).

Inductive me_answer := MeUser (u : user) | MeStatus (status : Z) | MeBroken.

(** [initAuth] after its request; the caller starts the app when it returns true. *)
Definition initAuth (a : me_answer) (s : session) : session * bool :=
  match a with
  | MeUser u =>
    (Session (Some u) (login s) (Some (u_role u ||j lit "admin")) (meOpen s) (submits s) (starting s)
             (apps s) (uiMode s) (savedMode s), true)
  | MeStatus 401%Z => (showLogin false s, false)
  | MeStatus _ | MeBroken => (set_auth (Some implicit_admin) (login s) s, true)
  end.

(** The user's chip: name and role, hidden when no one has signed in by name. *)
Definition renderUserChip (u : option user) : option (jstr * label) :=
  match u with
  | Some u => if negb (u_auth u) || negb (truthy (u_name u)) then None
              else Some (u_name u, T (if bool_decide (u_role u = lit "viewer") then lit "role_viewer"
                                      else lit "role_admin") [])
  | None => None
  end.

(** A failed request as [api] reports it: the session ends at a 401 of any call but
    the sign-in's own. *)
Definition api_failed (status : Z) (own : bool) (s : session) : session :=
  if bool_decide (status = 401%Z) && bool_decide (is_Some (authUser s)) && negb own
  then showLogin true (set_auth None (login s) s) else s.

(** [resolveMode]: the saved choice, else what the instance suggests ([None]: the
    overview could not be had). *)
Definition resolveMode (saved : option jstr) (dags : option N) : jstr :=
  match saved with
  | Some m => if bool_decide (m = lit "novice") || bool_decide (m = lit "expert") then m
              else match dags with Some n => if (0 <? n)%N then lit "expert" else lit "novice"
                                 | None => lit "expert" end
  | None => match dags with Some n => if (0 <? n)%N then lit "expert" else lit "novice"
                          | None => lit "expert" end
  end.

Definition setMode (m : jstr) (s : session) : session :=
  if bool_decide (uiMode s = Some m) then s else set_mode (Some m) (Some m) s.

Inductive ses_event :=
| Me (a : me_answer)
| Submit
| SignedIn
| Refused (status : Z) (msg : jstr)
| ApiError (status : Z)               (** some other request of the page failed *)
| Logout                              (** the chip's button, after its request *)
| ModeKnown (dags : option N)         (** [resolveMode] inside [startApp] *)
| PickMode (m : jstr).

Definition ses_step (e : ses_event) (s : session) : option session :=
  match e with
  | Me a =>
    match meOpen s with
    | O => None
    | S n => let '(s1, ok) := initAuth a (set_open n (submits s) s) in
             Some (if ok then startApp s1 else s1)
    end
  | Submit =>
    match login s with
    | Some f => if f_busy f then None
                else Some (set_open (meOpen s) (S (submits s))
                             (set_auth (authUser s) (Some (Form (f_expired f) true None)) s))
    | None => None
    end
  | SignedIn =>
    match submits s with
    | O => None
    | S n => Some (set_open (S (meOpen s)) n (set_auth (authUser s) None s))
    end
  | Refused status msg =>
    match submits s with
    | O => None
    | S n =>
      let err := if bool_decide (status = 401%Z) then T (lit "login_bad") []
                 else if truthy msg then Raw msg else T (lit "api_err") [] in
      Some (set_open (meOpen s) n
              (set_auth (authUser s) (match login s with
                                      | Some f => Some (Form (f_expired f) false (Some err))
                                      | None => None end) s))
    end
  | ApiError status => Some (api_failed status false s)
  | Logout => match authUser s with
              | Some u => if bool_decide (is_Some (renderUserChip (Some u)))
                          then Some (showLogin false (set_auth None (login s) s)) else None
              | None => None
              end
  | ModeKnown dags =>
    match starting s with
    | O => None
    | S n =>
      let s1 := set_mode (Some (resolveMode (savedMode s) dags)) (savedMode s) s in
      Some (Session (authUser s1) (login s1) (roleAttr s1) (meOpen s1) (submits s1) n (apps s1)
                    (uiMode s1) (savedMode s1))
    end
  | PickMode m => if bool_decide (m = lit "novice") || bool_decide (m = lit "expert")
                  then Some (setMode m s) else None
  end.
Fixpoint ses_run (es : list ses_event) (s : session) : option session :=
  match es with
  | [] => Some s
  | e :: es' => match ses_step e s with Some s' => ses_run es' s' | None => None end
  end.

(** ** The phases of a session *)

(** Asking who the user is, the form, a sign-in under way, or signed in. *)
Inductive phase := Asking | AtForm | SigningIn | In.
Definition phase_of (s : session) : option phase :=
  match authUser s, login s, meOpen s, submits s with
  | None, None, 1, 0 => Some Asking
  | None, Some f, 0, 0 => if f_busy f then None else Some AtForm
  | None, Some f, 0, 1 => if f_busy f then Some SigningIn else None
  | Some _, None, 0, 0 => Some In
  | _, _, _, _ => None
  end.

(** The moves between the phases. *)
Inductive moves : phase -> phase -> Prop :=
| M_stay p : moves p p
| M_known : moves Asking In
| M_asked : moves Asking AtForm
| M_submit : moves AtForm SigningIn
| M_signed : moves SigningIn Asking
| M_refused : moves SigningIn AtForm
| M_left : moves In AtForm.

Lemma ses_step_phase e s s' p :
  phase_of s = Some p -> ses_step e s = Some s' -> exists p', phase_of s' = Some p' /\ moves p p'.
Proof.
  destruct s as [u f ra me sub st ap ui sv]. unfold phase_of; simpl. intros Hp Hs.
  destruct u as [u|], f as [[x [] er]|]; simpl in Hp; try done;
    destruct me as [|[|me]]; simpl in Hp; try done; destruct sub as [|[|sub]]; simpl in Hp; try done;
    simplify_eq; destruct e as [a| | |status msg|status| |dags|m]; simpl in Hs; simplify_eq/=;
    try (destruct a as [u0|z|]; [|destruct (decide (z = 401%Z)) as [->|Hz]|]);
    try (unfold api_failed in *; simpl in *); try case_bool_decide; simplify_eq/=;
    repeat case_match; simplify_eq/=;
    unfold setMode in *; repeat case_match; simplify_eq/=;
    eauto using moves.
Qed.

Lemma ses_run_phase es s s' p :
  phase_of s = Some p -> ses_run es s = Some s' -> exists p', phase_of s' = Some p' /\ rtc moves p p'.
Proof.
  revert s p; induction es as [|e es IH]; intros s p Hp; simpl; [intros [= <-]; eauto using rtc_refl|].
  destruct (ses_step e s) as [s1|] eqn:E; [|done]. intros Hr.
  destruct (ses_step_phase _ _ _ _ Hp E) as (p1 & Hp1 & Hm).
  destruct (IH _ _ Hp1 Hr) as (p2 & Hp2 & Hm2). exists p2. split; [done|]. by eapply rtc_l.
Qed.

Lemma phase_form s p : phase_of s = Some p -> is_Some (login s) <-> p = AtForm \/ p = SigningIn.
Proof.
  destruct s as [u f ra me sub st ap ui sv]. unfold phase_of; simpl.
  destruct u, f as [[x [] er]|], me as [|[|me]], sub as [|[|sub]]; simpl; intros [= <-];
    (split; [|intros [?|?]]; try done; eauto); try (intros [? ?]; done).
Qed.

Lemma phase_user s p : phase_of s = Some p -> is_Some (authUser s) <-> p = In.
Proof.
  destruct s as [u f ra me sub st ap ui sv]. unfold phase_of; simpl.
  destruct u, f as [[x [] er]|], me as [|[|me]], sub as [|[|sub]]; simpl; intros [= <-];
    split; try done; eauto; intros [? ?]; done.
Qed.

Lemma initAuth_apps a s : apps (initAuth a s).1 = apps s.
Proof. unfold initAuth. destruct a as [u|z|]; [done| |done]. by repeat case_match. Qed.

Lemma initAuth_in a s : (initAuth a s).2 = true -> is_Some (authUser (initAuth a s).1).
Proof. unfold initAuth. destruct a as [u|z|]; [eauto| |eauto]. repeat case_match; simpl; eauto; done. Qed.

(** Only the answer to [/api/me] starts the app. *)
Lemma ses_step_apps e s s' :
  ses_step e s = Some s' ->
  apps s' = apps s \/ ((exists a, e = Me a) /\ apps s' = S (apps s) /\ is_Some (authUser s')).
Proof.
  destruct e as [a| | |status msg|status| |dags|m]; simpl.
  - destruct (meOpen s) as [|n]; [done|]. intros H.
    pose proof (initAuth_apps a (set_open n (submits s) s)) as Ha.
    pose proof (initAuth_in a (set_open n (submits s) s)) as Hi.
    destruct (initAuth _ _) as [s1 []]; injection H as <-; simpl in *; [right|by left].
    split; [eauto|]. split; [by rewrite Ha|]. by apply Hi.
  - destruct (login s) as [f|]; [|done]. destruct (f_busy f); [done|]. intros [= <-]. by left.
  - destruct (submits s); [done|]. intros [= <-]. by left.
  - destruct (submits s); [done|]. intros [= <-]. by left.
  - intros [= <-]. left. unfold api_failed. by destruct (_ && _).
  - destruct (authUser s); [|done]. case_bool_decide; [|done]. intros [= <-]. by left.
  - destruct (starting s); [done|]. intros [= <-]. by left.
  - destruct (_ || _); [|done]. intros [= <-]. left. unfold setMode. by case_bool_decide.
Qed.

(** A step that signs someone in starts the app. *)
Lemma ses_step_user e s s' :
  authUser s = None -> ses_step e s = Some s' -> is_Some (authUser s') -> apps s' = S (apps s).
Proof.
  intros Hno He Hu. destruct e as [a| | |status msg|status| |dags|m]; simpl in He.
  - destruct (meOpen s) as [|n]; [done|]. unfold initAuth in He.
    destruct a as [u|z|]; [by simplify_eq| |by simplify_eq].
    repeat case_match; simplify_eq/=; try done; rewrite Hno in Hu; by destruct Hu.
  - destruct (login s) as [f|]; [|done]. destruct (f_busy f); simplify_eq/=. rewrite Hno in Hu. by destruct Hu.
  - destruct (submits s); simplify_eq/=. rewrite Hno in Hu. by destruct Hu.
  - destruct (submits s); simplify_eq/=. rewrite Hno in Hu. by destruct Hu.
  - unfold api_failed in He. destruct (_ && _); simplify_eq/=; try (rewrite Hno in Hu); by destruct Hu.
  - by rewrite Hno in He.
  - destruct (starting s); simplify_eq/=. rewrite Hno in Hu. by destruct Hu.
  - destruct (_ || _); simplify_eq/=. unfold setMode in Hu.
    case_bool_decide; simpl in Hu; rewrite Hno in Hu; by destruct Hu.
Qed.



(** The mode chosen is the mode kept: after a click that changes it, every later
    start has it, whatever the instance holds; without a choice a start is in novice
    mode exactly on an instance known to be empty, and does not store that. *)
Theorem mode_choice_sticks s m s' :
  uiMode s <> Some m -> ses_step (PickMode m) s = Some s' ->
  uiMode s' = Some m /\ (forall dags, resolveMode (savedMode s') dags = m) /\
  (forall dags, resolveMode None dags = lit "novice" <-> dags = Some 0%N) /\
  (forall dags s2, ses_step (ModeKnown dags) s' = Some s2 -> savedMode s2 = savedMode s' /\ uiMode s2 = Some m).
Proof.
  intros Hm. simpl. destruct (bool_decide (m = lit "novice") || bool_decide (m = lit "expert")) eqn:Em; [|done].
  unfold setMode. rewrite bool_decide_eq_false_2 by done. intros [= <-].
  assert (Hr : forall dags, resolveMode (Some m) dags = m) by (intros dags; unfold resolveMode; by rewrite Em).
  split_and!; try done.
  - intros [n|]; simpl; [|split; done]. destruct (0 <? n)%N eqn:En; bool_props.
    + split; [done|]. intros [= ->]. lia.
    + split; [|done]. intros _. f_equal. lia.
  - intros dags s2. cbn [ses_step]. destruct (starting _); [done|]. intros [= <-].
    split; [done|]. cbn [uiMode]. by rewrite Em.
Qed.

Definition expert_session : session :=
  default (boot None) (ses_run [Me MeBroken; ModeKnown (Some 2%N)] (boot None)).
Definition chosen_session : session :=
  default (boot None) (ses_step (PickMode (lit "novice")) expert_session).

Lemma mode_choice_sticks_witness :
  uiMode expert_session = Some (lit "expert") /\
  ses_step (PickMode (lit "novice")) expert_session = Some chosen_session /\
  resolveMode (savedMode chosen_session) (Some 5%N) = lit "novice".
Proof.
  assert (H1 : uiMode expert_session <> Some (lit "novice")) by compute_decide.
  assert (H2 : ses_step (PickMode (lit "novice")) expert_session = Some chosen_session) by reflexivity.
  split; [reflexivity|]. split; [exact H2|].
  exact (proj1 (proj2 (mode_choice_sticks _ (lit "novice") _ H1 H2)) (Some 5%N)).
Defined.
