(* ===== verification/Dialogs.v ===== *)
(** * Confirmations, pickers, prompts and toasts (base.js, views.js)

    The dialogs share one place in the page ([modal-root]) and one key listener each
    on the document. A dialog is a promise: the model records the answers in the
    order in which they are given. *)

From S2P Require Import Prelude JsCore Schedule.

(** ** State *)

Inductive kind := Confirm | Pick (options : list jstr) | Prompt (initial : jstr).
Inductive answer := Yes | No | Nothing | Text (s : jstr).
#[export] Instance answer_eq_dec : EqDecision answer.
Proof. solve_decision. Defined.

Record shown := Shown { sh_id : nat; sh_kind : kind; sh_input : jstr }.

Record dialogs := Dialogs {
  root : option shown;                  (** what [modal-root] holds *)
  listeners : list (nat * kind);        (** the dialogs whose key listener is on, oldest first *)
  answers : list (nat * answer);
  next : nat;
}.
Definition no_dialogs : dialogs := Dialogs None [] [] 0.

(** ** Operations *)

Definition open (k : kind) (s : dialogs) : dialogs :=
  Dialogs (Some (Shown (next s) k match k with Prompt d => d | _ => [] end))
          (listeners s ++ [(next s, k)]) (answers s) (S (next s)).

(** [close(v)] of the dialog [id]: listener off, page cleared, promise resolved. *)
Definition close (id : nat) (v : answer) (s : dialogs) : dialogs :=
  Dialogs None (List.filter (fun l => negb (Nat.eqb l.1 id)) (listeners s)) (answers s ++ [(id, v)]) (next s).

(** What Escape and Cancel resolve to. *)
Definition refusal (k : kind) : answer := match k with Confirm => No | _ => Nothing end.

(** One listener's [onKey]. A prompt reads its field: when the page holds no prompt
    any more that throws, and the listener stays. *)
Definition on_escape (l : nat * kind) (s : dialogs) : dialogs := close l.1 (refusal l.2) s.
Definition on_enter (l : nat * kind) (s : dialogs) : dialogs :=
  match l.2 with
  | Confirm => close l.1 Yes s
  | Pick _ => s
  | Prompt _ => match root s with
                | Some (Shown _ (Prompt _) x) => close l.1 (Text (trim x)) s
                | _ => s
                end
  end.

Inductive dlg_event :=
| Open (k : kind)
| Escape | Enter                       (** keys, wherever the focus is *)
| Cancel | Outside | Ok                (** clicks on the dialog shown *)
| Choose (v : jstr)
| Type_ (x : jstr).

Definition dlg_step (e : dlg_event) (s : dialogs) : option dialogs :=
  match e with
  | Open k => Some (open k s)
  | Escape => Some (foldl (fun s l => on_escape l s) s (listeners s))
  | Enter => Some (foldl (fun s l => on_enter l s) s (listeners s))
  | Cancel | Outside =>
    match root s with Some d => Some (close (sh_id d) (refusal (sh_kind d)) s) | None => None end
  | Ok =>
    match root s with
    | Some (Shown id Confirm _) => Some (close id Yes s)
    | Some (Shown id (Prompt _) x) => Some (close id (Text (trim x)) s)
    | _ => None
    end
  | Choose v =>
    match root s with
    | Some (Shown id (Pick os) _) => if bool_decide (v ∈ os) then Some (close id (Text v) s) else None
    | _ => None
    end
  | Type_ x =>
    match root s with
    | Some (Shown id (Prompt d) _) =>
      Some (Dialogs (Some (Shown id (Prompt d) x)) (listeners s) (answers s) (next s))
    | _ => None
    end
  end.

(** A dialog is opened only when none is: the overlay covers the page. *)
Definition one_at_a_time (e : dlg_event) (s : dialogs) : Prop :=
  match e with Open _ => root s = None | _ => True end.
Fixpoint dlg_run (es : list dlg_event) (s : dialogs) : option dialogs :=
  match es with
  | [] => Some s
  | e :: es' => match dlg_step e s with Some s' => dlg_run es' s' | None => None end
  end.
Fixpoint single (es : list dlg_event) (s : dialogs) : Prop :=
  match es with
  | [] => True
  | e :: es' => one_at_a_time e s /\ match dlg_step e s with Some s' => single es' s' | None => True end
  end.

(** ** Toasts: failures stay until clicked, the others go by themselves *)

Record toasts := Toasts { t_shown : list (nat * jstr * label); t_next : nat }.
Definition toast (k : jstr) (msg : label) (s : toasts) : toasts :=
  Toasts (t_shown s ++ [(t_next s, k, msg)]) (S (t_next s)).
Definition dismiss (id : nat) (s : toasts) : toasts :=
  Toasts (List.filter (fun x => negb (Nat.eqb x.1.1 id)) (t_shown s)) (t_next s).
(** The timer of a toast, 3.2 seconds on. *)
Definition expires (k : jstr) : bool := negb (bool_decide (k = lit "fail")).
Definition expire (id : nat) (s : toasts) : toasts :=
  Toasts (List.filter (fun x => negb (Nat.eqb x.1.1 id && expires x.1.2)) (t_shown s)) (t_next s).

(** ** One dialog at a time *)

Record dlg_inv (s : dialogs) : Prop := {
  di_root : match root s with
            | Some d => listeners s = [(sh_id d, sh_kind d)]
            | None => listeners s = [] end;
  di_ids : (answers s).*1 ++ (listeners s).*1 = seq 0 (next s);
}.

Lemma close_inv id k v s :
  listeners s = [(id, k)] -> dlg_inv s -> dlg_inv (close id v s).
Proof.
  intros Hl [H1 H2]. constructor; simpl.
  - rewrite Hl; simpl. by rewrite Nat.eqb_refl.
  - rewrite Hl in H2 |- *. simpl in *. rewrite Nat.eqb_refl; simpl.
    rewrite fmap_app; simpl. by rewrite app_nil_r.
Qed.

Lemma dlg_step_inv e s s' : one_at_a_time e s -> dlg_inv s -> dlg_step e s = Some s' -> dlg_inv s'.
Proof.
  intros Ho Hi. pose proof Hi as [H1 H2]. destruct e as [k| | | | | |v|x]; simpl in *; intros E.
  - injection E as <-. rewrite Ho in H1. constructor; simpl; rewrite H1; [done|].
    rewrite H1, app_nil_r in H2. simpl. by rewrite H2, <- seq_S.
  - injection E as <-. destruct (root s) as [d|]; rewrite H1; [|done]. by eapply close_inv.
  - injection E as <-. destruct (root s) as [[id k x]|] eqn:Er; rewrite H1; [|done]. simpl in *.
    unfold on_enter; simpl. destruct k; [by eapply close_inv|done|].
    rewrite Er. by eapply close_inv.
  - destruct (root s) as [d|]; [|done]. injection E as <-. by eapply close_inv.
  - destruct (root s) as [d|]; [|done]. injection E as <-. by eapply close_inv.
  - destruct (root s) as [[id [] x]|]; simplify_eq; by eapply close_inv.
  - destruct (root s) as [[id [] x]|]; try done. case_bool_decide; simplify_eq; by eapply close_inv.
  - destruct (root s) as [[id [] y]|] eqn:Er; simplify_eq. by constructor.
Qed.

Lemma dlg_run_inv es s s' : single es s -> dlg_inv s -> dlg_run es s = Some s' -> dlg_inv s'.
Proof.
  revert s; induction es as [|e es IH]; intros s Hs Hi; simpl in *; [by intros [= <-]|].
  destruct Hs as [Ho Hs]. destruct (dlg_step e s) eqn:E; [|done]. eapply IH; [done|by eapply dlg_step_inv].
Qed.

(** A dialog is answered once, and as the user answered it. With one dialog open at a
    time, the dialogs are answered in the order they were opened, each exactly once
    but the one on screen, whose key listener is the only one; an answer to it comes
    from its buttons or from a key, and is a refusal exactly for Escape, Cancel and a
    click outside. *)
Theorem dialogs_answered_once es s :
  single es no_dialogs -> dlg_run es no_dialogs = Some s ->
  (answers s).*1 ++ (match root s with Some d => [sh_id d] | None => [] end) = seq 0 (next s) /\
  listeners s = match root s with Some d => [(sh_id d, sh_kind d)] | None => [] end /\
  (forall e s' d, root s = Some d -> one_at_a_time e s -> dlg_step e s = Some s' ->
     (root s' <> None /\ answers s' = answers s) \/
     (root s' = None /\ exists v, answers s' = answers s ++ [(sh_id d, v)] /\
        (v = refusal (sh_kind d) <-> e = Escape \/ e = Cancel \/ e = Outside))).
Proof.
  intros Hs Hr. assert (H0 : dlg_inv no_dialogs) by done.
  pose proof (dlg_run_inv _ _ _ Hs H0 Hr) as [H1 H2].
  split; [|split].
  - rewrite <- H2. f_equal. destruct (root s) as [d|]; by rewrite H1.
  - by destruct (root s).
  - intros e s' d Ed Ho. rewrite Ed in H1. destruct d as [id k x]; simpl in *.
    destruct e as [k'| | | | | |v|y]; simpl in *; rewrite ?Ed, ?H1; simpl.
    + by rewrite Ed in Ho.
    + intros [= <-]. right. split; [done|]. eexists. split; [done|]. split; eauto.
    + intros [= <-]. unfold on_enter; simpl. destruct k; [right|left|rewrite Ed; right].
      * split; [done|]. eexists. split; [done|]. split; [done|]. naive_solver.
      * by rewrite Ed.
      * split; [done|]. eexists. split; [done|]. split; [done|]. naive_solver.
    + intros [= <-]. right. split; [done|]. eexists. split; [done|]. split; eauto.
    + intros [= <-]. right. split; [done|]. eexists. split; [done|]. split; eauto.
    + destruct k; intros [= <-]; right; (split; [done|]; eexists; split; [done|]; split; [done|]; naive_solver).
    + destruct k; try done. case_bool_decide; [|done]. intros [= <-]. right.
      split; [done|]. eexists. split; [done|]. split; [done|]. naive_solver.
    + destruct k; try done. intros [= <-]. left. done.
Qed.

Lemma dialogs_answered_once_witness :
  let es := [Open Confirm; Cancel; Open (Prompt (lit "etl_copy")); Type_ (lit " x "); Enter; Open (Pick [lit "a"])] in
  exists s, single es no_dialogs /\ dlg_run es no_dialogs = Some s /\
    answers s = [(0, No); (1, Text (lit "x"))] /\ listeners s = [(2, Pick [lit "a"])].
Proof.
  intros es. eexists. assert (Hs : single es no_dialogs) by (vm_compute; repeat split; exact I).
  split; [exact Hs|]. split; [vm_compute; reflexivity|]. split; [reflexivity|].
  exact (proj1 (proj2 (dialogs_answered_once es _ Hs ltac:(vm_compute; reflexivity)))).
Defined.

(** A failure stays on screen until it is clicked: timers remove the other toasts
    only; a click removes the toast clicked and no other. *)
Lemma failures_stay id x s :
  x ∈ t_shown s ->
  (x.1.2 = lit "fail" -> x ∈ t_shown (expire id s)) /\ (x.1.1 <> id -> x ∈ t_shown (dismiss id s)) /\
  (x.1.1 = id -> x ∉ t_shown (dismiss id s)).
Proof.
  intros Hx. simpl. split_and!.
  - intros Hf. apply list_elem_of_In, filter_In. split; [by apply list_elem_of_In|].
    unfold expires. rewrite bool_decide_eq_true_2 by done. by rewrite andb_false_r.
  - intros Hd. apply list_elem_of_In, filter_In. split; [by apply list_elem_of_In|].
    apply negb_true_iff. by apply Nat.eqb_neq.
  - intros <- H. apply list_elem_of_In, filter_In in H as [_ H]. by rewrite Nat.eqb_refl in H.
Qed.
