(* ===== verification/Workers.v ===== *)
(** * The workers page and its poll (views.js): [showWorkers], [startWorkersPoll],
    [refreshWorkers], [renderWorkers], [toggleDrainWorker]

    A transition system like the run page's: the page is opened and left, requests are
    answered and intervals fire in any order. An answer that arrives while a dialog is
    open or the focus is inside the page is stored but not drawn. *)

From S2P Require Import Prelude JsCore.

(** ** State *)

(** A row of the fleet, as far as the table shows it. *)
Record worker := Worker { w_id : jstr; w_state : jstr; w_draining : bool }.
#[export] Instance worker_eq_dec : EqDecision worker.
Proof. solve_decision. Defined.

Inductive fscreen := FOther | FTable (ws : list worker) | FError.

(** A request: of [showWorkers], of interval [id] started with generation [gen], or of
    [refreshWorkers] with the identity of the [WK] object of the moment. *)
Inductive freq := QShow | QTick (id gen : nat) | QUpdate (wk : nat).

Record fleet := Fleet {
  fl_view : bool;                          (** [view === "workers"] *)
  fl_WK : option (nat * list worker);      (** [WK]: the object's identity, its workers *)
  fl_screen : fscreen;
  fl_poll : option nat;                    (** [wkPoll] *)
  fl_gen : nat;                            (** [wkPollGen] *)
  fl_timers : list (nat * nat);            (** running intervals, with their generation *)
  fl_next : nat;
  fl_reqs : list freq;
}.
Definition fleet_init : fleet := Fleet false None FOther None 0 [] 0 [].

Definition set_page (v : bool) (sc : fscreen) (s : fleet) : fleet :=
  Fleet v (fl_WK s) sc (fl_poll s) (fl_gen s) (fl_timers s) (fl_next s) (fl_reqs s).
Definition set_WK (w : option (nat * list worker)) (s : fleet) : fleet :=
  Fleet (fl_view s) w (fl_screen s) (fl_poll s) (fl_gen s) (fl_timers s) (fl_next s) (fl_reqs s).
Definition set_freqs (q : list freq) (s : fleet) : fleet :=
  Fleet (fl_view s) (fl_WK s) (fl_screen s) (fl_poll s) (fl_gen s) (fl_timers s) (fl_next s) q.

(** [clearInterval] *)
Definition stop_timer (id : nat) (s : fleet) : fleet :=
  Fleet (fl_view s) (fl_WK s) (fl_screen s) (fl_poll s) (fl_gen s)
    (filter (fun t => t.1 <> id) (fl_timers s)) (fl_next s) (fl_reqs s).

(** [stopWorkersPoll] *)
Definition stopWorkersPoll (s : fleet) : fleet :=
  let s1 := match fl_poll s with Some id => stop_timer id s | None => s end in
  Fleet (fl_view s1) (fl_WK s1) (fl_screen s1) None (fl_gen s1) (fl_timers s1) (fl_next s1) (fl_reqs s1).

(** [startWorkersPoll] *)
Definition startWorkersPoll (s : fleet) : fleet :=
  let gen := S (fl_gen s) in
  Fleet (fl_view s) (fl_WK s) (fl_screen s) (Some (fl_next s)) gen
    (fl_timers s ++ [(fl_next s, gen)]) (S (fl_next s)) (fl_reqs s).

(** [renderWorkers] *)
Definition renderWorkers (s : fleet) : fleet :=
  match fl_WK s with
  | Some (_, ws) => if fl_view s then set_page true (FTable ws) s else s
  | None => s
  end.

(** [showWorkers] after its request. *)
Definition show_answer (ans : option (list worker)) (s : fleet) : fleet :=
  match ans with
  | Some ws => startWorkersPoll (renderWorkers (set_WK (Some (fl_next s, ws)) s))
  | None => set_page (fl_view s) FError (set_WK None s)
  end.

(** The interval's callback up to its request. *)
Definition fleet_tick (id gen : nat) (hidden : bool) (s : fleet) : fleet :=
  if negb (gen =? fl_gen s) || negb (fl_view s) then stop_timer id s
  else if hidden then s
  else set_freqs (fl_reqs s ++ [QTick id gen]) s.

(** The callback after its request; [busy] when a dialog is open or the focus is in
    the page. *)
Definition tick_answer (id gen : nat) (ans : option (list worker)) (busy : bool) (s : fleet) : fleet :=
  match ans with
  | None => s
  | Some ws =>
    match fl_WK s with
    | Some (o, old) =>
      if negb (gen =? fl_gen s) || negb (fl_view s) then stop_timer id s
      else if bool_decide (ws = old) then s
      else let s1 := set_WK (Some (o, ws)) s in if busy then s1 else renderWorkers s1
    | None => stop_timer id s
    end
  end.

(** [refreshWorkers] after its request; the answer goes into the object it was asked
    for. *)
Definition update_answer (wk : nat) (ans : option (list worker)) (s : fleet) : fleet :=
  match ans, fl_WK s with
  | Some ws, Some (o, _) => renderWorkers (if o =? wk then set_WK (Some (o, ws)) s else s)
  | _, _ => s
  end.

Inductive fleet_event :=
| OpenFleet                                     (** [showWorkers], in expert mode *)
| LeaveFleet                                    (** another page is drawn *)
| FTick (n : nat) (hidden : bool)               (** the [n]-th interval fires *)
| FUpdate                                       (** [refreshWorkers], after a drain or removal *)
| FAnswer (n : nat) (ans : option (list worker)) (busy : bool).

Definition fleet_step (e : fleet_event) (s : fleet) : option fleet :=
  match e with
  | OpenFleet => let s1 := stopWorkersPoll s in
      Some (set_freqs (fl_reqs s1 ++ [QShow]) (set_page true (fl_screen s1) s1))
  | LeaveFleet => Some (set_page false FOther s)
  | FTick n hidden =>
    match fl_timers s !! n with Some (id, gen) => Some (fleet_tick id gen hidden s) | None => None end
  | FUpdate =>
    match fl_WK s with
    | Some (o, _) => Some (if fl_view s then set_freqs (fl_reqs s ++ [QUpdate o]) s else s)
    | None => Some s
    end
  | FAnswer n ans busy =>
    match fl_reqs s !! n with
    | Some q => let s1 := set_freqs (delete n (fl_reqs s)) s in
        Some (match q with
              | QShow => show_answer ans s1
              | QTick id gen => tick_answer id gen ans busy s1
              | QUpdate o => update_answer o ans s1
              end)
    | None => None
    end
  end.

Fixpoint fleet_run (es : list fleet_event) (s : fleet) : option fleet :=
  match es with
  | [] => Some s
  | e :: es' => match fleet_step e s with Some s' => fleet_run es' s' | None => None end
  end.

(** [renderWorkers]' badge of a state. *)
Definition state_key (w : worker) : jstr :=
  if bool_decide (w_state w = lit "online") || bool_decide (w_state w = lit "lost") then w_state w else lit "offline".

(** The body of the drain request: the opposite of what the row showed. *)
Definition drain_target (w : worker) : bool := negb (w_draining w).

(** ** Invariant *)

Record winv (s : fleet) : Prop := {
  wi_ids : NoDup (fl_timers s).*1;
  wi_next : Forall (fun t => t.1 < fl_next s) (fl_timers s);
  wi_gens : NoDup (fl_timers s).*2;
  wi_old : Forall (fun t => t.2 <= fl_gen s) (fl_timers s);
  wi_cur : forall id, (id, fl_gen s) ∈ fl_timers s -> fl_poll s = Some id;
  wi_table : forall ws, fl_screen s = FTable ws -> fl_view s = true;
}.

(** The table shows what the page knows. *)
Definition fresh_table (s : fleet) : Prop :=
  forall ws, fl_screen s = FTable ws -> exists o, fl_WK s = Some (o, ws).

Lemma nodup_fmap_filter {A B} (f : A -> B) (P : A -> Prop) `{forall x, Decision (P x)} l :
  NoDup (f <$> l) -> NoDup (f <$> filter P l).
Proof.
  induction l as [|x l IH]; [done|]. rewrite fmap_cons, NoDup_cons, filter_cons. intros [Hx Hl].
  case_decide; [|by apply IH]. rewrite fmap_cons, NoDup_cons. split; [|by apply IH].
  rewrite list_elem_of_fmap. intros (y & Ey & [_ Hy]%list_elem_of_filter). apply Hx. rewrite Ey.
  by apply list_elem_of_fmap_2.
Qed.

(** Intervals that end, and pages that change without a new table. *)
Lemma shrink_inv s s' :
  winv s -> (exists P (HP : forall x, Decision (P x)), fl_timers s' = @filter _ _ _ P HP (fl_timers s)) ->
  fl_next s' = fl_next s -> fl_gen s' = fl_gen s ->
  (forall id, (id, fl_gen s) ∈ fl_timers s' -> fl_poll s' = fl_poll s) ->
  (forall ws, fl_screen s' = FTable ws -> fl_view s' = true) -> winv s'.
Proof.
  intros [I1 I2 I3 I4 I5 I6] (P & HP & Et) En Eg Ep Ht.
  assert (Hsub : forall t, t ∈ fl_timers s' -> t ∈ fl_timers s).
  { intros t. rewrite Et. by intros [_ ?]%list_elem_of_filter. }
  split; rewrite ?En, ?Eg; try done.
  - rewrite Et. by apply nodup_fmap_filter.
  - rewrite Forall_forall in *. auto.
  - rewrite Et. by apply nodup_fmap_filter.
  - rewrite Forall_forall in *. auto.
  - intros id Hid. rewrite (Ep id Hid). by apply I5, Hsub.
Qed.

Lemma filter_True {A} (l : list A) : filter (fun _ => True) l = l.
Proof. apply filter_all. by apply Forall_true. Qed.

Lemma page_inv s s' :
  winv s -> fl_timers s' = fl_timers s -> fl_next s' = fl_next s -> fl_gen s' = fl_gen s -> fl_poll s' = fl_poll s ->
  (forall ws, fl_screen s' = FTable ws -> fl_view s' = true) -> winv s'.
Proof.
  intros Hi Et En Eg Ep Ht. apply (shrink_inv s); auto.
  exists (fun _ => True), _. by rewrite filter_True.
Qed.

Lemma stop_timer_inv id s : winv s -> winv (stop_timer id s).
Proof. intros Hi. apply (shrink_inv s); simpl; try done; [eauto|apply Hi]. Qed.

Lemma fleet_stop_inv s : winv s -> winv (stopWorkersPoll s) /\ forall t, t ∈ fl_timers (stopWorkersPoll s) -> t.2 <> fl_gen s.
Proof.
  intros Hi. assert (Hg : forall t, t ∈ fl_timers (stopWorkersPoll s) -> t.2 <> fl_gen s).
  { intros [id g] Ht; simpl; intros ->. unfold stopWorkersPoll in Ht. destruct (fl_poll s) as [i|] eqn:Ep; simpl in Ht.
    - apply list_elem_of_filter in Ht as [Hn Ht]. apply Hn. simpl. apply (wi_cur _ Hi) in Ht. congruence.
    - apply (wi_cur _ Hi) in Ht. congruence. }
  split; [|done]. apply (shrink_inv s); unfold stopWorkersPoll; destruct (fl_poll s) as [i|] eqn:Ep; simpl in *;
    try done; try (by apply Hi).
  - eauto.
  - exists (fun _ => True), _. by rewrite filter_True.
  - intros id Hid. exfalso. apply (Hg (id, fl_gen s)); [unfold stopWorkersPoll; by rewrite Ep|done].
Qed.

Lemma start_inv s : winv s -> winv (startWorkersPoll s).
Proof.
  intros [I1 I2 I3 I4 I5 I6]. split; simpl; try done.
  - rewrite fmap_app, NoDup_app. split; [done|]. split; [|apply NoDup_singleton].
    intros x (t & -> & Ht)%list_elem_of_fmap Hx%list_elem_of_singleton.
    rewrite Forall_forall in I2. specialize (I2 t Ht). simpl in *. lia.
  - apply Forall_app. split; [|by repeat constructor]. eapply Forall_impl; [exact I2|]. simpl; lia.
  - rewrite fmap_app, NoDup_app. split; [done|]. split; [|apply NoDup_singleton].
    intros x (t & -> & Ht)%list_elem_of_fmap Hx%list_elem_of_singleton.
    rewrite Forall_forall in I4. specialize (I4 t Ht). simpl in *. lia.
  - apply Forall_app. split; [|by repeat constructor]. eapply Forall_impl; [exact I4|]. simpl; lia.
  - intros id [Ht|[= ->]%list_elem_of_singleton]%elem_of_app; [|done].
    rewrite Forall_forall in I4. specialize (I4 _ Ht). simpl in *. lia.
Qed.

Lemma fleet_render_inv s : winv s -> winv (renderWorkers s).
Proof.
  intros Hi. unfold renderWorkers. destruct (fl_WK s) as [[o ws]|]; [|done].
  destruct (fl_view s) eqn:Ev; [|done]. by apply (page_inv s).
Qed.
Lemma set_WK_inv w s : winv s -> winv (set_WK w s).
Proof. intros Hi. apply (page_inv s); try done. apply Hi. Qed.
Create HintDb workers.
#[local] Hint Resolve stop_timer_inv start_inv fleet_render_inv set_WK_inv : workers.

Lemma fleet_step_inv e s s' : winv s -> fleet_step e s = Some s' -> winv s'.
Proof.
  intros Hi E. destruct e as [| |n hidden| |n ans busy]; simpl in E.
  - simplify_eq. destruct (fleet_stop_inv s Hi) as [Hs _]. by apply (page_inv _ _ Hs).
  - simplify_eq. by apply (page_inv s).
  - destruct (fl_timers s !! n) as [[id g]|]; simplify_eq. unfold fleet_tick.
    destruct (_ || _); [auto with workers|]. destruct hidden; [done|]. apply (page_inv s); try done. apply Hi.
  - destruct (fl_WK s) as [[o ws]|]; simplify_eq; [|done]. destruct (fl_view s) eqn:Ev; [|done].
    by apply (page_inv s).
  - destruct (fl_reqs s !! n) as [q|]; simplify_eq.
    assert (H1 : winv (set_freqs (delete n (fl_reqs s)) s)) by (apply (page_inv s); try done; apply Hi).
    revert H1. generalize (set_freqs (delete n (fl_reqs s)) s). clear. intros s H1.
    destruct q as [|id g|o].
    + unfold show_answer. destruct ans as [ws|]; [auto with workers|]. by apply (page_inv s).
    + unfold tick_answer. destruct ans as [ws|]; [|done]. destruct (fl_WK s) as [[o old]|]; [|auto with workers].
      destruct (_ || _); [auto with workers|]. case_bool_decide; [done|]. destruct busy; auto with workers.
    + unfold update_answer. destruct ans as [ws|]; [|done]. destruct (fl_WK s) as [[o' old]|]; [|done].
      destruct (o' =? o); auto with workers.
Qed.

(** No answer of a poll arrives while a dialog is open or the focus is in the page. *)
Definition undisturbed (e : fleet_event) : Prop := match e with FAnswer _ _ busy => busy = false | _ => True end.

Lemma render_fresh s : fresh_table s -> fresh_table (renderWorkers s).
Proof.
  intros Hf. unfold renderWorkers. destruct (fl_WK s) as [[o ws]|] eqn:Ew; [|done].
  destruct (fl_view s); [|done]. intros ws' [= <-]. simpl. eauto.
Qed.

(** A new list that is drawn at once. *)
Lemma set_render_fresh o ws s : winv s -> fresh_table (renderWorkers (set_WK (Some (o, ws)) s)).
Proof.
  intros Hi ws' E. unfold renderWorkers in *. simpl in *. destruct (fl_view s) eqn:Ev; simpl in *.
  - simplify_eq. eauto.
  - apply (wi_table _ Hi) in E. congruence.
Qed.

Lemma fleet_step_fresh e s s' :
  winv s -> fresh_table s -> undisturbed e -> fleet_step e s = Some s' -> fresh_table s'.
Proof.
  intros Hi Hf Hu E. destruct e as [| |n hidden| |n ans busy]; simpl in E.
  - simplify_eq. intros ws. unfold stopWorkersPoll. destruct (fl_poll s); apply Hf.
  - by simplify_eq.
  - destruct (fl_timers s !! n) as [[id g]|]; simplify_eq. unfold fleet_tick.
    destruct (_ || _); [done|]. by destruct hidden.
  - destruct (fl_WK s) as [[o ws]|] eqn:Ew; simplify_eq; [|done]. by destruct (fl_view s).
  - destruct (fl_reqs s !! n) as [q|]; simplify_eq.
    assert (H1 : winv (set_freqs (delete n (fl_reqs s)) s)) by (apply (page_inv s); try done; apply Hi).
    assert (H2 : fresh_table (set_freqs (delete n (fl_reqs s)) s)) by done.
    revert H1 H2. generalize (set_freqs (delete n (fl_reqs s)) s). clear - Hu. simpl in Hu. subst busy. intros s H1 H2.
    destruct q as [|id g|o].
    + unfold show_answer. destruct ans as [ws|]; [|done]. intros ws'. simpl. by apply set_render_fresh.
    + unfold tick_answer. destruct ans as [ws|]; [|done]. destruct (fl_WK s) as [[o old]|]; [|done].
      destruct (_ || _); [done|]. case_bool_decide; [done|]. by apply set_render_fresh.
    + unfold update_answer. destruct ans as [ws|]; [|done]. destruct (fl_WK s) as [[o' old]|]; [|done].
      destruct (o' =? o); [by apply set_render_fresh|by apply render_fresh].
Qed.

Lemma fleet_run_inv es s s' :
  winv s -> fleet_run es s = Some s' ->
  winv s' /\ (fresh_table s -> Forall undisturbed es -> fresh_table s').
Proof.
  revert s; induction es as [|e es IH]; intros s Hi E; simpl in E; [by simplify_eq|].
  destruct (fleet_step e s) as [s1|] eqn:E1; [|done].
  destruct (IH s1) as [H1 H2]; [by eapply fleet_step_inv|done|]. split; [done|].
  intros Hf [Hu Hus]%Forall_cons. apply H2; [by apply (fleet_step_fresh e s)|done].
Qed.

Lemma fleet_init_inv : winv fleet_init.
Proof. split; try constructor; try done. intros id H. inversion H. Qed.

(** Off the page the intervals end one after the other, at their next tick. *)
Lemma ticks_end k s :
  winv s -> fl_view s = false -> length (fl_timers s) = k ->
  exists s', fleet_run (replicate k (FTick 0 false)) s = Some s' /\ fl_timers s' = [] /\ fl_reqs s' = fl_reqs s /\
             fl_screen s' = fl_screen s.
Proof.
  revert s; induction k as [|k IH]; intros s Hi Hv Hk.
  - exists s. split_and!; try done. by apply length_zero_iff_nil.
  - destruct (fl_timers s) as [|[id g] l] eqn:Et; [done|]. simpl. rewrite Et. simpl.
    unfold fleet_tick. rewrite Hv, orb_true_r.
    assert (Hl : fl_timers (stop_timer id s) = l).
    { simpl. rewrite Et, filter_cons. destruct (decide _) as [H|_]; [by destruct H|]. apply filter_all.
      pose proof (wi_ids _ Hi) as Hn. rewrite Et, fmap_cons, NoDup_cons in Hn. destruct Hn as [Hn _].
      apply Forall_forall. intros t Ht Eq. apply Hn. simpl in *. rewrite <- Eq. by apply list_elem_of_fmap_2. }
    destruct (IH (stop_timer id s)) as (s' & H1 & H2 & H3 & H4); [by apply stop_timer_inv|done|rewrite Hl; simpl in Hk; lia|].
    exists s'. done.
Qed.

(** ** Properties *)

(** C34 The workers page in every interleaving. No two intervals have the same generation,
    so at most one is current, and it is the one [wkPoll] names; the table is drawn on
    its own page only, and shows the list the page holds as long as no answer came
    while a dialog or the focus kept it from being drawn. After the page is left the
    intervals end at their next ticks, without a request. *)
Theorem workers_poll_safe es s :
  fleet_run es fleet_init = Some s ->
  NoDup (fl_timers s).*2 /\
  (forall id, (id, fl_gen s) ∈ fl_timers s -> fl_poll s = Some id) /\
  (forall ws, fl_screen s = FTable ws ->
     fl_view s = true /\ (Forall undisturbed es -> exists o, fl_WK s = Some (o, ws))) /\
  (fl_view s = false -> exists s',
     fleet_run (replicate (length (fl_timers s)) (FTick 0 false)) s = Some s' /\
     fl_timers s' = [] /\ fl_reqs s' = fl_reqs s /\ fl_screen s' = fl_screen s).
Proof.
  intros E. destruct (fleet_run_inv _ _ _ fleet_init_inv E) as [Hi Hf]. split_and!.
  - apply Hi.
  - apply Hi.
  - intros ws Hs. split; [by eapply wi_table|]. intros Hu. by apply Hf.
  - intros Hv. by apply ticks_end.
Qed.

Definition wk_a : worker := Worker (lit "w1") (lit "online") false.
Definition wk_b : worker := Worker (lit "w1") (lit "lost") false.
Definition sample_fleet : list fleet_event :=
  [OpenFleet; FAnswer 0 (Some [wk_a]) false; FTick 0 false; OpenFleet; FAnswer 1 (Some [wk_a]) false;
   FAnswer 0 (Some [wk_b]) false; FTick 0 false; FAnswer 0 (Some [wk_b]) false].

Lemma workers_poll_safe_witness :
  exists s, fleet_run sample_fleet fleet_init = Some s /\ fl_screen s = FTable [wk_b] /\
  fl_timers s = [(1, 2)] /\ exists o, fl_WK s = Some (o, [wk_b]).
Proof.
  eexists. split; [vm_compute; reflexivity|]. split; [reflexivity|]. split; [reflexivity|].
  refine (proj2 (proj1 (proj2 (proj2 (workers_poll_safe sample_fleet _ _))) _ _) _).
  - vm_compute; reflexivity.
  - reflexivity.
  - repeat constructor.
Defined.

(** While the list stays what it is, nothing but a refresh after an operation draws it. *)
Lemma unchanged_step e o ws s s' :
  fl_view s = true -> fl_WK s = Some (o, ws) -> Forall (fun q => exists id g, q = QTick id g) (fl_reqs s) ->
  match e with FTick _ _ => True | FAnswer _ (Some l) _ => l = ws | FAnswer _ None _ => True | _ => False end ->
  fleet_step e s = Some s' ->
  fl_view s' = true /\ fl_WK s' = Some (o, ws) /\ Forall (fun q => exists id g, q = QTick id g) (fl_reqs s') /\
  fl_screen s' = fl_screen s.
Proof.
  intros Hv Hw Hq He E. destruct e as [| |n hidden| |n ans busy]; simpl in E; try done.
  - destruct (fl_timers s !! n) as [[id g]|]; simplify_eq. unfold fleet_tick.
    destruct (_ || _); [done|]. destruct hidden; [done|]. simpl. split_and!; try done.
    apply Forall_app. split; [done|]. constructor; [eauto|constructor].
  - destruct (fl_reqs s !! n) as [q|] eqn:Eq; simplify_eq.
    assert (Hd : Forall (fun q => exists id g, q = QTick id g) (delete n (fl_reqs s))) by by apply Forall_delete.
    rewrite Forall_lookup in Hq. destruct (Hq n q Eq) as (id & g & ->).
    unfold tick_answer. destruct ans as [l|]; [|done]. simpl. rewrite Hw, Hv. subst l.
    destruct (_ || _); [done|]. by rewrite bool_decide_eq_true_2.
Qed.

(** An answer that could not be drawn is not drawn later, although the comment says
    that the poll catches up: the list is stored, the next answers equal it, and an
    answer that changes nothing is not drawn. *)
Theorem skipped_list_stays :
  (exists s, fleet_run [OpenFleet; FAnswer 0 (Some [wk_a]) false; FTick 0 false; FAnswer 0 (Some [wk_b]) true]
               fleet_init = Some s /\
     fl_view s = true /\ fl_screen s = FTable [wk_a] /\ fl_WK s = Some (0, [wk_b]) /\ fl_reqs s = []) /\
  (forall es o ws s s',
     fl_view s = true -> fl_WK s = Some (o, ws) -> fl_reqs s = [] ->
     Forall (fun e => match e with FTick _ _ => True | FAnswer _ (Some l) _ => l = ws
                      | FAnswer _ None _ => True | _ => False end) es ->
     fleet_run es s = Some s' -> fl_screen s' = fl_screen s).
Proof.
  split; [eexists; split_and!; vm_compute; reflexivity|].
  intros es o ws s s' Hv Hw Hr He E.
  assert (Hq : Forall (fun q => exists id g, q = QTick id g) (fl_reqs s)) by (rewrite Hr; constructor).
  clear Hr. revert s Hv Hw Hq E. induction He as [|e es He _ IH]; intros s Hv Hw Hq E; simpl in E; [by simplify_eq|].
  destruct (fleet_step e s) as [s1|] eqn:E1; [|done].
  destruct (unchanged_step e o ws s s1 Hv Hw Hq He E1) as (V & W & Q & S). rewrite <- S. by apply IH.
Qed.
