(* ===== verification/Admin.v ===== *)
(** * The audit trail and the API tokens (views.js): [showAudit], [renderAudit],
    [showApi], [createToken], [revokeToken]

    The audit page shows the operations log page by page, newest first, with two
    filters applied to what has been fetched. The log may grow between two pages. *)

From stdpp Require Import sorting.
From S2P Require Import Prelude JsCore Schedule.

(** ** The audit trail *)

Record aentry := AEntry { ae_id : nat; ae_actor : jstr; ae_action : jstr }.
#[export] Instance aentry_eq_dec : EqDecision aentry.
Proof. solve_decision. Defined.

(** [AUD] *)
Record aud := Aud { au_entries : list aentry; au_actor : jstr; au_action : jstr; au_more : bool }.

Definition AUDIT_PAGE : nat := 200.
#[local] Opaque AUDIT_PAGE.

(** [GET /api/audit?limit=200&offset=...] on a log kept newest first *)
Definition audit_page (log : list aentry) (offset : nat) : list aentry := take AUDIT_PAGE (drop offset log).

(** [showAudit] *)
Definition showAudit (log : list aentry) : aud :=
  let entries := audit_page log 0 in Aud entries [] [] (AUDIT_PAGE <=? length entries).

(** The rows [renderAudit] shows. *)
Definition audit_shown (a : aud) : list aentry :=
  List.filter (fun e => (negb (truthy (au_actor a)) || bool_decide (ae_actor e = au_actor a)) &&
                        (negb (truthy (au_action a)) || bool_decide (ae_action e = au_action a))) (au_entries a).

(** The load-more button after its request ([None]: it failed). *)
Definition audit_more (ans : option (list aentry)) (a : aud) : aud :=
  let page := default [] ans in
  Aud (au_entries a ++ page) (au_actor a) (au_action a) (AUDIT_PAGE <=? length page).

(** The user filters, or clicks the button; [grown] are the operations recorded since
    the last request. *)
Inductive aud_event := AActor (v : jstr) | AAction (v : jstr) | AMore (grown : list aentry) (ok : bool).

Definition aud_step (e : aud_event) (s : list aentry * aud) : option (list aentry * aud) :=
  let '(log, a) := s in
  match e with
  | AActor v => Some (log, Aud (au_entries a) v (au_action a) (au_more a))
  | AAction v => Some (log, Aud (au_entries a) (au_actor a) v (au_more a))
  | AMore grown ok =>
    if au_more a then
      let log' := grown ++ log in
      Some (log', audit_more (if ok then Some (audit_page log' (length (au_entries a))) else None) a)
    else None
  end.
Fixpoint aud_run (es : list aud_event) (s : list aentry * aud) : option (list aentry * aud) :=
  match es with
  | [] => Some s
  | e :: es' => match aud_step e s with Some s' => aud_run es' s' | None => None end
  end.

(** The log stood still and no request failed. *)
Definition still (e : aud_event) : Prop := match e with AMore grown ok => grown = [] /\ ok = true | _ => True end.
Definition is_more (e : aud_event) : bool := match e with AMore _ _ => true | _ => false end.

(** What the page has is the newest part of the log, all of it when there is no more;
    every page asked for so far, but possibly the last, was full. *)
Record aud_inv (clicks : nat) (s : list aentry * aud) : Prop := {
  ai_prefix : au_entries s.2 = take (length (au_entries s.2)) s.1;
  ai_end : au_more s.2 = false -> au_entries s.2 = s.1;
  ai_count : AUDIT_PAGE * clicks <= length (au_entries s.2);
  ai_full : au_more s.2 = true -> AUDIT_PAGE * S clicks <= length (au_entries s.2);
}.

Lemma page_end (log : list aentry) n :
  (AUDIT_PAGE <=? length (audit_page log n)) = false -> drop n log = audit_page log n.
Proof.
  unfold audit_page. intros H%Nat.leb_gt. rewrite length_take in H. symmetry. apply take_ge. lia.
Qed.

Lemma page_app (log l : list aentry) :
  l = take (length l) log ->
  l ++ audit_page log (length l) = take (length (l ++ audit_page log (length l))) log.
Proof.
  intros Hl. assert (Hn : length l <= length log) by (rewrite Hl, length_take; lia).
  unfold audit_page. rewrite Hl at 1. rewrite length_app, length_take, length_drop, take_take_drop.
  destruct (Nat.le_ge_cases AUDIT_PAGE (length log - length l)).
  - by rewrite Nat.min_l.
  - rewrite Nat.min_r by done. rewrite !take_ge by lia. done.
Qed.

Lemma showAudit_inv log : aud_inv 0 (log, showAudit log).
Proof.
  unfold showAudit. split; simpl.
  - change (audit_page log 0) with ([] ++ audit_page log (length (@nil aentry))). by apply page_app.
  - intros H. by apply page_end in H.
  - lia.
  - intros H%Nat.leb_le. by rewrite Nat.mul_1_r.
Qed.

Lemma still_step k e s s' :
  still e -> aud_inv k s -> aud_step e s = Some s' ->
  aud_inv (if is_more e then S k else k) s' /\ s'.1 = s.1.
Proof.
  intros Hs [Hp Hm Hc Hf] E. destruct s as [log a], e as [v|v|grown ok]; simpl in *; simplify_eq/=; try done.
  destruct Hs as [-> ->]. destruct (au_more a) eqn:Em; simplify_eq/=. split; [|done].
  specialize (Hf eq_refl). split; simpl.
  - by apply page_app.
  - intros El. apply page_end in El. rewrite <- El, Hp at 1. apply take_drop.
  - rewrite length_app. lia.
  - intros El%Nat.leb_le. rewrite length_app, Nat.mul_succ_r. lia.
Qed.

Lemma still_run k es s s' :
  Forall still es -> aud_inv k s -> aud_run es s = Some s' ->
  aud_inv (k + length (List.filter is_more es)) s' /\ s'.1 = s.1.
Proof.
  revert k s; induction es as [|e es IH]; intros k s Hs Hi E; simpl in E; [simplify_eq; by rewrite Nat.add_0_r|].
  apply Forall_cons in Hs as [He Hs]. destruct (aud_step e s) as [s1|] eqn:E1; [|done].
  destruct (still_step k e s s1 He Hi E1) as [Hi1 Hl]. destruct (IH _ s1 Hs Hi1 E) as (H1 & H2).
  split; [|congruence]. simpl. destruct (is_more e); [|done]. simpl. by rewrite Nat.add_succ_r.
Qed.

(** The entries are always entries of the log, whatever happens. *)
Lemma aud_sub_step e s s' :
  au_entries s.2 ⊆ s.1 -> aud_step e s = Some s' -> au_entries s'.2 ⊆ s'.1.
Proof.
  intros H E. destruct s as [log a], e as [v|v|grown ok]; simpl in *; simplify_eq/=; try done.
  destruct (au_more a); simplify_eq/=. intros x [Hx|Hx]%elem_of_app; [apply elem_of_app; right; auto|].
  destruct ok; simpl in Hx; [|by inversion Hx]. unfold audit_page in Hx.
  apply elem_of_take in Hx as (i & Hi & _). rewrite lookup_drop in Hi. by eapply list_elem_of_lookup_2.
Qed.
Lemma aud_sub_run es s s' : au_entries s.2 ⊆ s.1 -> aud_run es s = Some s' -> au_entries s'.2 ⊆ s'.1.
Proof.
  revert s; induction es as [|e es IH]; intros s H E; simpl in E; [by simplify_eq|].
  destruct (aud_step e s) as [s1|] eqn:E1; [|done]. eapply IH; [by eapply aud_sub_step|done].
Qed.

(** ** The tokens *)

Record atoken := AToken { at_id : nat; at_name : jstr; at_role : jstr }.

(** [TOKENS] and the server's table, which lists the newest first and never reuses an
    id. *)
Record toks := Toks { tk_list : list atoken; tk_srv : list atoken; tk_seq : nat }.
Inductive tok_event := TCreate (name role : jstr) (up : bool) | TRevoke (id : nat) (confirmed up : bool) | TReload.

(** [createToken] needs a name; [revokeToken] a confirmation. *)
Definition tok_step (e : tok_event) (s : toks) : toks :=
  match e with
  | TCreate name role up =>
    if truthy (trim name) && up then
      let tok := AToken (tk_seq s) (trim name) role in
      Toks (tok :: tk_list s) (tok :: tk_srv s) (S (tk_seq s))
    else s
  | TRevoke id confirmed up =>
    if confirmed && up && bool_decide (id ∈ at_id <$> tk_srv s)
    then Toks (filter (fun k => at_id k <> id) (tk_list s)) (filter (fun k => at_id k <> id) (tk_srv s)) (tk_seq s)
    else s
  | TReload => Toks (tk_srv s) (tk_srv s) (tk_seq s)
  end.

(** The list is the server's, newest first, with distinct ids. *)
Lemma tokens_mirror es srv seq :
  let newest := fun l => StronglySorted (fun a b => at_id b < at_id a) l in
  newest srv -> Forall (fun k => at_id k < seq) srv ->
  let s := foldl (fun s e => tok_step e s) (Toks srv srv seq) es in
  tk_list s = tk_srv s /\ newest (tk_list s) /\ Forall (fun k => truthy (at_name k) = true) (filter (fun k => seq <= at_id k) (tk_list s)).
Proof.
  intros newest Hn Hs.
  set (good := fun s : toks => tk_list s = tk_srv s /\ newest (tk_srv s) /\ Forall (fun k => at_id k < tk_seq s) (tk_srv s) /\
    seq <= tk_seq s /\ Forall (fun k => truthy (at_name k) = true) (filter (fun k => seq <= at_id k) (tk_srv s))).
  assert (H0 : good (Toks srv srv seq)).
  { split_and!; simpl; try done. rewrite filter_none; [constructor|].
    eapply Forall_impl; [exact Hs|]. simpl; lia. }
  cut (good (foldl (fun s e => tok_step e s) (Toks srv srv seq) es)).
  { intros (E & H1 & H2 & _ & H3) s. fold s in E, H1, H3. by rewrite E. }
  revert H0. generalize (Toks srv srv seq). induction es as [|e es IH]; intros s Hg; simpl; [done|].
  apply IH. destruct Hg as (G1 & G2 & G3 & G4 & G5), e as [name role up|id c up|]; simpl.
  - destruct (truthy (trim name)) eqn:Et; simpl; [|done]. destruct up; [|done].
    split_and!; simpl; try (by rewrite G1).
    + by constructor.
    + constructor; simpl; [lia|]. eapply Forall_impl; [exact G3|]. simpl; lia.
    + lia.
    + rewrite filter_cons. case_decide; [by constructor|done].
  - destruct (_ && _); [|done]. split_and!; simpl; try done.
    + by rewrite G1.
    + clear - G2. unfold newest in *. induction G2 as [|k l Hl IH Hk]; [constructor|]. rewrite filter_cons.
      case_decide; [|done]. constructor; [done|]. rewrite Forall_forall in *. intros x [_ Hx]%list_elem_of_filter. auto.
    + rewrite Forall_forall in *. intros x [_ Hx]%list_elem_of_filter. auto.
    + rewrite Forall_forall in *. intros x [Hx1 [_ Hx]%list_elem_of_filter]%list_elem_of_filter.
      apply G5. by apply list_elem_of_filter.
  - by split_and!.
Qed.

(** ** Properties *)

(** The audit trail is read without gaps. While the log stands still and no request
    fails, the page holds the newest part of it, and the whole log when the load-more
    button is gone, which it is after at most one click per full page; the rows shown
    are the entries that pass both filters, in order. Whatever happens, nothing is
    shown that is not in the log. *)
Theorem audit_pages es log s :
  aud_run es (log, showAudit log) = Some s ->
  au_entries s.2 ⊆ s.1 /\
  (forall x, x ∈ audit_shown s.2 <->
     x ∈ au_entries s.2 /\ (au_actor s.2 = [] \/ ae_actor x = au_actor s.2) /\
     (au_action s.2 = [] \/ ae_action x = au_action s.2)) /\
  (Forall still es ->
     s.1 = log /\ au_entries s.2 = take (length (au_entries s.2)) log /\
     (au_more s.2 = false -> au_entries s.2 = log) /\
     AUDIT_PAGE * length (List.filter is_more es) <= length log).
Proof.
  intros E. split; [|split].
  - apply (aud_sub_run es _ _) in E; [done|]. simpl. unfold audit_page. intros x (i & Hi & _)%elem_of_take.
    by eapply list_elem_of_lookup_2.
  - intros x. unfold audit_shown. rewrite list_elem_of_In, filter_In, <- list_elem_of_In, andb_true_iff, !orb_true_iff, !negb_true_iff, !bool_decide_eq_true.
    destruct (au_actor s.2), (au_action s.2); naive_solver.
  - intros Hs. destruct (still_run 0 es _ _ Hs (showAudit_inv log) E) as [[I1 I2 I3 _] Hl]. simpl in Hl.
    rewrite Hl in *. split_and!; try done. etransitivity; [exact I3|]. rewrite I1, length_take. lia.
Qed.

Definition sample_log : list aentry := (fun n => AEntry n (lit "ann") (lit "trigger")) <$> seq 0 250.
Lemma audit_pages_witness :
  exists s, aud_run [AMore [] true; AActor (lit "bob")] (sample_log, showAudit sample_log) = Some s /\
  audit_shown s.2 = [] /\ au_entries s.2 = sample_log.
Proof.
  eexists. split; [vm_compute; reflexivity|]. split; [vm_compute; reflexivity|].
  refine (proj1 (proj2 (proj2 (proj2 (proj2 (audit_pages [AMore [] true; AActor (lit "bob")] sample_log _ _)) _)) ) _).
  - vm_compute; reflexivity.
  - repeat constructor.
  - reflexivity.
Defined.

(** Two uses it does not survive. When [n] operations have been recorded since the
    last page, the next page starts with the [n] entries shown last, again; and when a
    request fails the button goes, as if the log had ended there. *)
Theorem audit_page_repeats :
  (forall (grown log : list aentry) a,
     au_entries a = take (length (au_entries a)) log -> length grown <= length (au_entries a) <= length log ->
     let page := audit_page (grown ++ log) (length (au_entries a)) in
     take (length grown) page = take AUDIT_PAGE (drop (length (au_entries a) - length grown) (au_entries a))) /\
  (forall a, au_more (audit_more None a) = false /\ au_entries (audit_more None a) = au_entries a).
Proof.
  split; [|intros a; split; [done|apply app_nil_r]].
  intros grown log a Hp Hl page. unfold page, audit_page.
  set (n := length (au_entries a)) in *. set (g := length grown) in *.
  rewrite drop_app_ge by (unfold g in Hl; lia). fold g.
  rewrite take_take, Nat.min_comm, <- take_take, take_drop_commute.
  rewrite Nat.sub_add by lia. by rewrite <- Hp.
Qed.
