(* ===== verification/Projects.v ===== *)
(** * Project uploads (views.js): [stripTop], [walkEntry], [hydrateProjectSection]

    Files reach the upload list in three ways: chosen one by one, as a chosen folder
    (the browser gives each file's path from that folder on), or dropped (the code
    walks the directory entries itself). The entries of a directory are a list here,
    the batches of its reader one after the other; the code reads them concurrently,
    so the order within a dropped folder is the browser's and the model takes one. *)

From S2P Require Import Prelude JsCore Schedule.

(** ** Entries and paths *)

(** A dropped or chosen entry; a file stands for its contents. *)
Inductive fentry := EFile (name : jstr) (file : nat) | EDir (name : jstr) (kids : list fentry).

Section fentry_ind.
Context (P : fentry -> Prop) (Hf : forall n f, P (EFile n f)) (Hd : forall n ks, Forall P ks -> P (EDir n ks)).
Fixpoint fentry_nested_ind (e : fentry) : P e :=
  match e with
  | EFile n f => Hf n f
  | EDir n ks => Hd n ks ((fix go l : Forall P l :=
      match l with [] => List.Forall_nil _ | k :: l' => @List.Forall_cons _ P k l' (fentry_nested_ind k) (go l') end) ks)
  end.
End fentry_ind.

Definition slash : N := ch "/".

(** [stripTop]: the path without its first segment. *)
Fixpoint strip_to_slash (p : jstr) : option jstr :=
  match p with
  | [] => None
  | c :: p' => if (c =? slash)%N then Some p' else strip_to_slash p'
  end.
Definition stripTop (p : jstr) : jstr := default p (strip_to_slash p).

(** A file of the upload list: [{file, path}]. *)
Record picked := Picked { pk_file : nat; pk_path : jstr }.

(** [walkEntry] *)
Fixpoint walkEntry (prefix : jstr) (e : fentry) : list picked :=
  match e with
  | EFile name file => [Picked file (prefix ++ name)]
  | EDir name kids => List.flat_map (walkEntry (prefix ++ name ++ [slash])) kids
  end.

(** The drop handler: of a directory its children, at the root. When nothing dropped
    is a directory the files are taken from [dataTransfer.files], by name. *)
Definition drop_files (entries : list fentry) : list picked :=
  List.flat_map (fun en => match en with EFile _ _ => walkEntry [] en | EDir _ kids => List.flat_map (walkEntry []) kids end) entries.

(** [addFiles]: a file with the browser's [webkitRelativePath], [""] when it has none. *)
Definition addFiles (files : list (nat * jstr * jstr)) (fromFolder : bool) : list picked :=
  map (fun '(file, name, rel) => Picked file (if fromFolder && truthy rel then stripTop rel else name)) files.

(** What the browser lists for a chosen folder: the files below it, with their names
    and their paths from the folder on. *)
Fixpoint listed (prefix : jstr) (e : fentry) : list (nat * jstr * jstr) :=
  match e with
  | EFile name file => [(file, name, prefix ++ name)]
  | EDir name kids => List.flat_map (listed (prefix ++ name ++ [slash])) kids
  end.

(** ** The upload form *)

Definition is_name (c : N) : bool := is_idchar c.
Inductive upmode := ModeFiles | ModeInline.
Record upform := UpForm {
  u_mode : upmode; u_name : jstr; u_picked : list picked; u_fname : jstr; u_content : jstr }.

Inductive up_event :=
| UpMode (m : upmode) | UpName (v : jstr) | UpFiles (l : list (nat * jstr * jstr)) | UpFolder (root : fentry)
| UpDrop (entries : list fentry) | UpFName (v : jstr) | UpContent (v : jstr).

Definition up_step (e : up_event) (f : upform) : upform :=
  let pick := fun l => UpForm (u_mode f) (u_name f) (u_picked f ++ l) (u_fname f) (u_content f) in
  match e with
  | UpMode m => UpForm m (u_name f) (u_picked f) (u_fname f) (u_content f)
  | UpName v => UpForm (u_mode f) v (u_picked f) (u_fname f) (u_content f)
  | UpFiles l => pick (addFiles l false)
  | UpFolder root => pick (addFiles (listed [] root) true)
  | UpDrop entries => pick (drop_files entries)
  | UpFName v => UpForm (u_mode f) (u_name f) (u_picked f) v (u_content f)
  | UpContent v => UpForm (u_mode f) (u_name f) (u_picked f) (u_fname f) v
  end.

(** The parts of the multipart body, in order. *)
Inductive part := PFilename (v : jstr) | PContent (v : jstr) | PFile (file : nat) | PPath (v : jstr).

(** The upload button: the message shown, or the project's name and the body. *)
Definition upload (f : upform) : label + jstr * list part :=
  let name := trim (u_name f) in
  if negb (truthy name) then inl (T (lit "proj_need_name") [])
  else if bool_decide (name = lit ".") || bool_decide (name = lit "..") || negb (forallb is_name name)
  then inl (T (lit "proj_name_bad") [])
  else match u_mode f with
  | ModeInline =>
    let fn := trim (u_fname f) in
    if negb (truthy fn) then inl (T (lit "proj_need_files") [])
    else inr (name, [PFilename fn; PContent (u_content f)])
  | ModeFiles =>
    match u_picked f with
    | [] => inl (T (lit "proj_need_files") [])
    | l => inr (name, List.flat_map (fun it => [PFile (pk_file it); PPath (pk_path it)]) l)
    end
  end.

(** The options of the project select: the task's project is kept when the list lacks
    it. *)
Definition project_options (projects : list jstr) (cur : jstr) : list jstr :=
  [] :: projects ++ (if truthy cur && negb (existsb (fun p => bool_decide (p = cur)) projects) then [cur] else []).

(** ** Lemmas *)

Lemma strip_to_slash_app p q : slash ∉ p -> strip_to_slash (p ++ slash :: q) = Some q.
Proof.
  induction p as [|c p IH]; simpl; intros H; [done|].
  apply not_elem_of_cons in H as [Hc H]. rewrite (proj2 (N.eqb_neq _ _)) by done. by apply IH.
Qed.

(** A longer prefix is in front of every path. *)
Lemma walkEntry_prefix p q e : walkEntry (p ++ q) e = map (fun x => Picked (pk_file x) (p ++ pk_path x)) (walkEntry q e).
Proof.
  revert q. induction e as [n f|n ks IH] using fentry_nested_ind; intros q; simpl.
  - by rewrite app_assoc.
  - induction IH as [|k ks Hk _ IHks]; simpl; [done|]. rewrite map_app, <- IHks. f_equal.
    rewrite <- Hk. by rewrite !app_assoc.
Qed.

(** The browser's list of a folder is the walk's, with the names besides. *)
Lemma listed_walk p e : map (fun '(f, _, rel) => Picked f rel) (listed p e) = walkEntry p e.
Proof.
  revert p. induction e as [n f|n ks IH] using fentry_nested_ind; intros p; simpl; [done|].
  induction IH as [|k ks Hk _ IHks]; simpl; [done|]. by rewrite map_app, IHks, Hk.
Qed.

Lemma listed_path p e x : p <> [] -> x ∈ listed p e -> truthy x.2 = true.
Proof.
  revert p. induction e as [n f|n ks IH] using fentry_nested_ind; intros p Hp Hx; simpl in Hx.
  - apply list_elem_of_singleton in Hx as ->. simpl. destruct p; [by destruct Hp|done].
  - apply list_elem_of_In, in_flat_map in Hx as (k & Hk & Hx). rewrite Forall_forall in IH.
    apply (IH k (proj2 (list_elem_of_In _ _) Hk) (p ++ n ++ [slash])); [by destruct p|by apply list_elem_of_In].
Qed.

Lemma addFiles_listed p e : p <> [] -> addFiles (listed p e) true = map (fun x => Picked (pk_file x) (stripTop (pk_path x))) (walkEntry p e).
Proof.
  intros Hp. rewrite <- listed_walk, map_map. unfold addFiles. apply map_ext_in. intros [[f n] rel] Hx.
  apply list_elem_of_In, (listed_path p e _ Hp) in Hx. simpl in Hx. by rewrite Hx.
Qed.

Lemma flat_map_map {A B C} (f : B -> C) (g : A -> list B) l : map f (List.flat_map g l) = List.flat_map (fun x => map f (g x)) l.
Proof. induction l as [|x l IH]; simpl; [done|]. by rewrite map_app, IH. Qed.

(** ** Properties *)

(** A folder uploads the same way however it is handed over: dropped, or chosen in the
    browser's dialog, its files get the same paths, those below the folder, whatever
    the depth. *)
Theorem folder_paths_agree root kids :
  slash ∉ root ->
  addFiles (listed [] (EDir root kids)) true = drop_files [EDir root kids] /\
  forall name file, EFile name file ∈ kids -> Picked file name ∈ drop_files [EDir root kids].
Proof.
  intros Hr. split.
  - simpl. rewrite app_nil_r. unfold addFiles.
    assert (E : forall ks, addFiles (List.flat_map (listed (root ++ [slash])) ks) true = List.flat_map (walkEntry []) ks).
    { induction ks as [|k ks IH]; simpl; [done|]. unfold addFiles in *. rewrite map_app, IH. f_equal.
      pose proof (addFiles_listed (root ++ [slash]) k) as Ha. unfold addFiles in Ha. rewrite Ha by by destruct root.
      rewrite <- (app_nil_r (root ++ [slash])), walkEntry_prefix, map_map. rewrite <- (map_id (walkEntry [] k)) at 2.
      apply map_ext. intros [f p]. simpl. f_equal. unfold stripTop.
      rewrite <- app_assoc. cbn [app]. by rewrite strip_to_slash_app. }
    apply E.
  - intros name file Hk. simpl. rewrite app_nil_r. apply list_elem_of_In, in_flat_map.
    exists (EFile name file). split; [by apply list_elem_of_In|]. by left.
Qed.

Lemma folder_paths_agree_witness :
  let kids := [EFile (lit "main.py") 0; EDir (lit "src") [EFile (lit "a.py") 1; EDir (lit "b") [EFile (lit "c.py") 2]]] in
  drop_files [EDir (lit "proj") kids]
  = [Picked 0 (lit "main.py"); Picked 1 (lit "src/a.py"); Picked 2 (lit "src/b/c.py")] /\
  addFiles (listed [] (EDir (lit "proj") kids)) true = drop_files [EDir (lit "proj") kids].
Proof.
  intros kids. split; [vm_compute; reflexivity|].
  refine (proj1 (folder_paths_agree (lit "proj") kids _)). compute_decide.
Defined.

(** What the form uploads: a name the server takes as a directory, never one that a
    path would resolve away, with either the one file typed or the files picked, each
    followed by its path, in the order they were picked and none left out; and the task
    page's select always offers the task's own project. *)
Theorem upload_exact es f0 :
  let f := fold_left (fun f e => up_step e f) es f0 in
  (forall nm body, upload f = inr (nm, body) ->
     nm = trim (u_name f) /\ nm <> [] /\ nm <> lit "." /\ nm <> lit ".." /\ forallb is_name nm = true /\
     match u_mode f with
     | ModeInline => body = [PFilename (trim (u_fname f)); PContent (u_content f)] /\ trim (u_fname f) <> []
     | ModeFiles => u_picked f <> [] /\
         body = List.flat_map (fun it => [PFile (pk_file it); PPath (pk_path it)]) (u_picked f)
     end) /\
  u_picked f = u_picked f0 ++ List.flat_map (fun e => match e with
    | UpFiles l => addFiles l false | UpFolder r => addFiles (listed [] r) true
    | UpDrop es => drop_files es | _ => [] end) es /\
  forall projects cur, cur ∈ project_options projects cur.
Proof.
  intros f. split; [|split].
  - intros nm body H. unfold upload in H. destruct (truthy (trim (u_name f))) eqn:Et; simpl in H; [|done].
    destruct (_ || _ || _) eqn:En in H; [done|]. bool_props.
    assert (Hn : trim (u_name f) <> []) by by apply truthy_true.
    destruct (u_mode f).
    + destruct (u_picked f) as [|x l] eqn:Ep; simplify_eq/=. by split_and!.
    + destruct (truthy (trim (u_fname f))) eqn:Ef; simplify_eq/=. apply truthy_true in Ef. by split_and!.
  - unfold f. clear f. revert f0. induction es as [|e es IH]; intros f0; simpl; [by rewrite app_nil_r|].
    rewrite IH. destruct e; simpl; by rewrite ?app_assoc, ?app_nil_l.
  - intros projects cur. unfold project_options. destruct cur as [|c cur]; [by left|]. right. simpl.
    apply elem_of_app. destruct (existsb _ projects) eqn:E; simpl; [left|right; by left].
    apply existsb_exists in E as (p & Hp & Hc). bool_props. subst p. by apply list_elem_of_In.
Qed.
