(* ===== verification/TaskForm.v ===== *)
(** * The task page's form (views.js): [renderTaskPage], [commandFieldHtml],
    [wireCommandField]

    The page edits one task of [D.tasks] in place. Text and number inputs write the
    model as they are typed in and save when they lose the focus; selects save at
    once; the jar form composes the command from three inputs. The model keeps beside
    the page the texts in the jar form's inputs, whether an input has been typed into
    since the last save, and what was there at that save. *)

From S2P Require Import Prelude JsCore Schedule TaskGraph DagModel DagEdit PillEditor.

(** ** Fields *)

(** The task's text fields with a control ([data-k], [data-h] and the pill editors),
    and its number fields. *)
Inductive tfield :=
| FType | FCommand | FConn | FProject | FPool | FBackoff | FRule | FSubdag
| FDodDag | FDodOffset | FDodOnTimeout
| FMethod | FUrl | FHeaders | FBody | FStatus.
Inductive nfield := NPriority | NRetries | NDelay | NDelayMax | NTimeout | NSla | NDodTimeout.
#[export] Instance tfield_eq_dec : EqDecision tfield.
Proof. solve_decision. Defined.
#[export] Instance nfield_eq_dec : EqDecision nfield.
Proof. solve_decision. Defined.

Definition get_text (f : tfield) (tk : task) : jstr :=
  match f with
  | FType => tk_type tk | FCommand => tk_command tk | FConn => tk_conn tk | FProject => tk_project tk
  | FPool => tk_pool tk | FBackoff => tk_retry_backoff tk | FRule => tk_trigger_rule tk | FSubdag => tk_subdag tk
  | FDodDag => tk_dodDag tk | FDodOffset => tk_dodOffset tk | FDodOnTimeout => tk_dodOnTimeout tk
  | FMethod => tk_httpMethod tk | FUrl => tk_httpUrl tk | FHeaders => tk_httpHeaders tk
  | FBody => tk_httpBody tk | FStatus => tk_httpStatus tk
  end.
Definition get_num (f : nfield) (tk : task) : numf :=
  match f with
  | NPriority => tk_priority tk | NRetries => tk_retries tk | NDelay => tk_retry_delay tk
  | NDelayMax => tk_retry_delay_max tk | NTimeout => tk_timeout tk | NSla => tk_sla tk
  | NDodTimeout => tk_dodTimeout tk
  end.

(** [tk[k] = el.value] *)
Definition set_tfield (f : tfield) (v : jstr) (tk : task) : task :=
  let '(Task i ty cmd conn proj pool pr re rd bo rm ti sl ds ru sub wg dd off dt dot me ur he bod st) := tk in
  match f with
  | FType => Task i v cmd conn proj pool pr re rd bo rm ti sl ds ru sub wg dd off dt dot me ur he bod st
  | FCommand => Task i ty v conn proj pool pr re rd bo rm ti sl ds ru sub wg dd off dt dot me ur he bod st
  | FConn => Task i ty cmd v proj pool pr re rd bo rm ti sl ds ru sub wg dd off dt dot me ur he bod st
  | FProject => Task i ty cmd conn v pool pr re rd bo rm ti sl ds ru sub wg dd off dt dot me ur he bod st
  | FPool => Task i ty cmd conn proj v pr re rd bo rm ti sl ds ru sub wg dd off dt dot me ur he bod st
  | FBackoff => Task i ty cmd conn proj pool pr re rd v rm ti sl ds ru sub wg dd off dt dot me ur he bod st
  | FRule => Task i ty cmd conn proj pool pr re rd bo rm ti sl ds v sub wg dd off dt dot me ur he bod st
  | FSubdag => Task i ty cmd conn proj pool pr re rd bo rm ti sl ds ru v wg dd off dt dot me ur he bod st
  | FDodDag => Task i ty cmd conn proj pool pr re rd bo rm ti sl ds ru sub wg v off dt dot me ur he bod st
  | FDodOffset => Task i ty cmd conn proj pool pr re rd bo rm ti sl ds ru sub wg dd v dt dot me ur he bod st
  | FDodOnTimeout => Task i ty cmd conn proj pool pr re rd bo rm ti sl ds ru sub wg dd off dt v me ur he bod st
  | FMethod => Task i ty cmd conn proj pool pr re rd bo rm ti sl ds ru sub wg dd off dt dot v ur he bod st
  | FUrl => Task i ty cmd conn proj pool pr re rd bo rm ti sl ds ru sub wg dd off dt dot me v he bod st
  | FHeaders => Task i ty cmd conn proj pool pr re rd bo rm ti sl ds ru sub wg dd off dt dot me ur v bod st
  | FBody => Task i ty cmd conn proj pool pr re rd bo rm ti sl ds ru sub wg dd off dt dot me ur he v st
  | FStatus => Task i ty cmd conn proj pool pr re rd bo rm ti sl ds ru sub wg dd off dt dot me ur he bod v
  end.
Definition set_nfield (f : nfield) (v : numf) (tk : task) : task :=
  let '(Task i ty cmd conn proj pool pr re rd bo rm ti sl ds ru sub wg dd off dt dot me ur he bod st) := tk in
  match f with
  | NPriority => Task i ty cmd conn proj pool v re rd bo rm ti sl ds ru sub wg dd off dt dot me ur he bod st
  | NRetries => Task i ty cmd conn proj pool pr v rd bo rm ti sl ds ru sub wg dd off dt dot me ur he bod st
  | NDelay => Task i ty cmd conn proj pool pr re v bo rm ti sl ds ru sub wg dd off dt dot me ur he bod st
  | NDelayMax => Task i ty cmd conn proj pool pr re rd bo v ti sl ds ru sub wg dd off dt dot me ur he bod st
  | NTimeout => Task i ty cmd conn proj pool pr re rd bo rm v sl ds ru sub wg dd off dt dot me ur he bod st
  | NSla => Task i ty cmd conn proj pool pr re rd bo rm ti v ds ru sub wg dd off dt dot me ur he bod st
  | NDodTimeout => Task i ty cmd conn proj pool pr re rd bo rm ti sl ds ru sub wg dd off v dot me ur he bod st
  end.

(** ** The form *)

Record taskform := TaskForm {
  tp_page : page;
  tp_task : nat;                  (** the place of the task in [D.tasks] *)
  tp_raw : bool;                  (** [cmdRaw] *)
  tp_cf : jar_form;               (** the texts in the jar form's inputs *)
  tp_typed : bool;                (** an input has been typed into and not left *)
  tp_saved : list task;           (** the tasks at the last [saveDag] *)
}.

Definition current_task (s : taskform) : option task := pg_tasks (tp_page s) !! tp_task s.
Definition form_mode (raw : bool) (tk : task) : bool := is_type tk (lit "jar") && negb raw.

(** The inputs of the jar form when the page is drawn: [b.parse(tk.command) || {}]. *)
Definition draw_cf (tk : task) : jar_form := default (JarForm [] [] []) (parse (tk_command tk)).

(** The controls [commandFieldHtml] draws for the type; those of the other sections
    are always there. [FCommand] is the command's pill editor. *)
Definition has_control (raw : bool) (tk : task) (f : tfield) : bool :=
  match f with
  | FCommand => negb (is_type tk (lit "subdag") || is_type tk (lit "http") || form_mode raw tk)
  | FConn => is_type tk (lit "sql")
  | FProject => is_type tk (lit "shell")
  | FSubdag => is_type tk (lit "subdag")
  | FMethod | FUrl | FHeaders | FBody | FStatus => is_type tk (lit "http")
  | _ => true
  end.
Definition is_select (f : tfield) : bool :=
  match f with FType | FProject | FBackoff | FRule | FSubdag | FDodDag | FDodOnTimeout | FMethod => true | _ => false end.

(** [D.tasks[n]] changed in place. *)
Definition alter_task (g : task -> task) (s : taskform) (typed : bool) : taskform :=
  TaskForm (set_tasks (alter g (tp_task s) (pg_tasks (tp_page s))) (tp_page s)) (tp_task s) (tp_raw s) (tp_cf s)
           typed (tp_saved s).
Definition save_form (s : taskform) : taskform :=
  TaskForm (saveDag (tp_page s)).1 (tp_task s) (tp_raw s) (tp_cf s) false (pg_tasks (tp_page s)).
(** [renderTaskPage] *)
Definition draw_form (raw : bool) (s : taskform) : taskform :=
  TaskForm (tp_page s) (tp_task s) raw (match current_task s with Some tk => draw_cf tk | None => tp_cf s end)
           (tp_typed s) (tp_saved s).

(** The task page as [showTask] opens it. *)
Definition open_form (p : page) (n : nat) : option taskform :=
  match pg_tasks p !! n with
  | Some tk => Some (TaskForm (showTask (tk_id tk) p).1 n (computeCmdRaw tk) (draw_cf tk) false (pg_tasks p))
  | None => None
  end.

Inductive jfield := JJar | JMain | JArgs.
Definition set_cf (k : jfield) (v : jstr) (f : jar_form) : jar_form :=
  match k with
  | JJar => JarForm v (jf_mainclass f) (jf_args f)
  | JMain => JarForm (jf_jar f) v (jf_args f)
  | JArgs => JarForm (jf_jar f) (jf_mainclass f) v
  end.

Inductive tp_event :=
| TText (f : tfield) (v : jstr)     (** typing into a text control *)
| TNum (f : nfield) (v : numf)
| TSelect (f : tfield) (v : jstr)   (** choosing in a select *)
| TForm (k : jfield) (v : jstr)     (** typing into the jar form *)
| TLeave                            (** an input loses the focus *)
| TToForm | TToRaw
| TRedraw.                          (** the language is switched *)

Definition tp_step (e : tp_event) (s : taskform) : option taskform :=
  match current_task s with
  | None => None
  | Some tk =>
    match e with
    | TText f v => if has_control (tp_raw s) tk f && negb (is_select f)
                   then Some (alter_task (set_tfield f v) s true) else None
    | TNum f v => Some (alter_task (set_nfield f v) s true)
    | TSelect f v =>
      if has_control (tp_raw s) tk f && is_select f then
        let s1 := alter_task (set_tfield f v) s (tp_typed s) in
        Some (save_form (if bool_decide (f = FType) then draw_form (computeCmdRaw (set_tfield f v tk)) s1 else s1))
      else None
    | TForm k v =>
      if form_mode (tp_raw s) tk then
        let cf := set_cf k v (tp_cf s) in
        let s1 := alter_task (set_tfield FCommand (compose cf)) s true in
        Some (TaskForm (tp_page s1) (tp_task s1) (tp_raw s1) cf true (tp_saved s1))
      else None
    | TLeave => Some (save_form s)
    | TToForm =>
      if is_type tk (lit "jar") && tp_raw s then
        Some (if negb (truthy (tk_command tk)) || bool_decide (is_Some (parse (tk_command tk)))
              then draw_form false s else s)
      else None
    | TToRaw => if form_mode (tp_raw s) tk then Some (draw_form true s) else None
    | TRedraw => Some (draw_form (tp_raw s) s)
    end
  end.

Fixpoint tp_run (es : list tp_event) (s : taskform) : option taskform :=
  match es with
  | [] => Some s
  | e :: es' => match tp_step e s with Some s' => tp_run es' s' | None => None end
  end.

(** The field an event is about. *)
Definition about_text (f : tfield) (e : tp_event) : Prop :=
  match e with TText f' _ | TSelect f' _ => f' = f | TForm _ _ => f = FCommand | _ => False end.
Definition about_num (f : nfield) (e : tp_event) : Prop := match e with TNum f' _ => f' = f | _ => False end.
#[export] Instance about_text_dec f e : Decision (about_text f e).
Proof. destruct e; simpl; apply _. Defined.
#[export] Instance about_num_dec f e : Decision (about_num f e).
Proof. destruct e; simpl; apply _. Defined.

(** ** Lemmas *)

Lemma get_set_text f g v tk : get_text f (set_tfield g v tk) = if decide (g = f) then v else get_text f tk.
Proof. destruct tk. destruct f, g; reflexivity. Qed.
Lemma get_text_set_nfield f g v tk : get_text f (set_nfield g v tk) = get_text f tk.
Proof. destruct tk. destruct f, g; reflexivity. Qed.
Lemma get_num_set_tfield f g v tk : get_num f (set_tfield g v tk) = get_num f tk.
Proof. destruct tk. destruct f, g; reflexivity. Qed.
Lemma get_set_num f g v tk : get_num f (set_nfield g v tk) = if decide (g = f) then v else get_num f tk.
Proof. destruct tk. destruct f, g; reflexivity. Qed.

(** What no control of the form reaches: the name, the dependencies and the worker
    group. *)
Definition fixed (tk : task) : jstr * list jstr * jstr := (tk_id tk, tk_deps tk, tk_worker_group tk).
Lemma fixed_set_tfield f v tk : fixed (set_tfield f v tk) = fixed tk.
Proof. destruct tk. by destruct f. Qed.
Lemma fixed_set_nfield f v tk : fixed (set_nfield f v tk) = fixed tk.
Proof. destruct tk. by destruct f. Qed.

(** An event's effect on the tasks: the task's own fields, nothing else. *)
Definition reaches (e : tp_event) (tk tk' : task) : Prop :=
  fixed tk' = fixed tk /\
  (forall f, ~ about_text f e -> get_text f tk' = get_text f tk) /\
  (forall f, ~ about_num f e -> get_num f tk' = get_num f tk).

Lemma reaches_text e f v tk : about_text f e -> reaches e tk (set_tfield f v tk).
Proof.
  intros He. split; [apply fixed_set_tfield|]. split.
  - intros g Hg. rewrite get_set_text. case_decide; [by subst|done].
  - intros g _. apply get_num_set_tfield.
Qed.

Lemma tp_step_tasks e s s' tk :
  current_task s = Some tk -> tp_step e s = Some s' ->
  tp_task s' = tp_task s /\
  exists tk', reaches e tk tk' /\ pg_tasks (tp_page s') = <[tp_task s := tk']> (pg_tasks (tp_page s)).
Proof.
  intros Hc E. unfold tp_step in E. rewrite Hc in E. unfold current_task in Hc.
  assert (Hid : pg_tasks (tp_page s) = <[tp_task s := tk]> (pg_tasks (tp_page s))) by by rewrite list_insert_id.
  assert (Ha : forall g, alter g (tp_task s) (pg_tasks (tp_page s)) = <[tp_task s := g tk]> (pg_tasks (tp_page s))).
  { intros g. rewrite list_insert_alter. apply list_alter_ext; [|done]. intros x Hx. congruence. }
  assert (Hs : forall s, pg_tasks (tp_page (save_form s)) = pg_tasks (tp_page s)).
  { intros s0. simpl. apply saveDag_cases. }
  destruct e as [f v|f v|f v|k v| | | |]; simpl in E.
  - destruct (_ && _); simplify_eq. split; [done|]. exists (set_tfield f v tk). split; [by apply reaches_text|apply Ha].
  - simplify_eq. split; [done|]. exists (set_nfield f v tk). split; [|apply Ha].
    split; [apply fixed_set_nfield|]. split; [intros; apply get_text_set_nfield|].
    intros g Hg. rewrite get_set_num. case_decide; [by subst|done].
  - destruct (_ && _); simplify_eq. split; [by case_bool_decide|]. exists (set_tfield f v tk).
    split; [by apply reaches_text|]. rewrite Hs. case_bool_decide; apply Ha.
  - destruct (form_mode _ _); simplify_eq. split; [done|]. eexists. split; [|apply Ha]. by apply reaches_text.
  - simplify_eq. split; [done|]. exists tk. split; [done|]. by rewrite Hs.
  - destruct (_ && _); simplify_eq. split; [by destruct (_ || _)|]. exists tk. split; [done|]. by destruct (_ || _).
  - destruct (form_mode _ _); simplify_eq. split; [done|]. by exists tk.
  - simplify_eq. split; [done|]. by exists tk.
Qed.

Lemma wf_insert_fixed n tk tk' ts :
  tasks_wf ts -> ts !! n = Some tk -> tk_id tk' = tk_id tk -> tk_deps tk' = tk_deps tk -> tasks_wf (<[n := tk']> ts).
Proof.
  intros Hw Hn Hi Hd.
  set (g := fun x => with_deps (tk_deps x) (with_id (tk_id x) tk')).
  assert (Hg : tk' = g tk) by (unfold g; rewrite <- Hi, <- Hd; by destruct tk').
  assert (E : <[n := tk']> ts = alter g n ts).
  { rewrite list_insert_alter. apply list_alter_ext; [|done]. intros x Hx. congruence. }
  rewrite E. apply wf_alter_sub; [done|..]; intros x; unfold g; autorewrite with cronova; done.
Qed.

(** ** Invariants of a session on the task page *)

(** The jar form's inputs and the command: the command was composed from them, or was
    read into them, or both are empty. *)
Definition in_step (cmd : jstr) (cf : jar_form) : Prop :=
  cmd = compose cf \/ parse cmd = Some cf \/ (cmd = [] /\ cf = JarForm [] [] []).

Definition form_inv (s : taskform) : Prop :=
  forall tk, current_task s = Some tk -> form_mode (tp_raw s) tk = true -> in_step (tk_command tk) (tp_cf s).

(** The page is not drawn anew with the form open. *)
Definition no_redraw (e : tp_event) : Prop := match e with TRedraw => False | _ => True end.
#[export] Instance no_redraw_dec e : Decision (no_redraw e).
Proof. destruct e; apply _. Defined.

Lemma drawn_in_step raw tk :
  form_mode raw tk = true -> (raw = computeCmdRaw tk \/ truthy (tk_command tk) = false \/ is_Some (parse (tk_command tk))) ->
  in_step (tk_command tk) (draw_cf tk).
Proof.
  unfold form_mode, draw_cf, in_step. intros [Ht Hr]%andb_true_iff Hc. apply negb_true_iff in Hr. subst raw.
  assert (H : truthy (tk_command tk) = false \/ is_Some (parse (tk_command tk))).
  { destruct Hc as [Hc|Hc]; [|done]. unfold computeCmdRaw in Hc. rewrite Ht in Hc. simpl in Hc.
    destruct (truthy (tk_command tk)); simpl in Hc; [|by left]. right. destruct (parse (tk_command tk)); [eauto|done]. }
  destruct H as [H|[f Hf]].
  - destruct (tk_command tk) eqn:E; [|done]. right; right. by split.
  - rewrite Hf. by right; left.
Qed.

Lemma current_alter g s b : current_task (alter_task g s b) = g <$> current_task s.
Proof. unfold current_task, alter_task. simpl. by rewrite list_lookup_alter_eq. Qed.
Lemma current_save s : current_task (save_form s) = current_task s.
Proof. unfold current_task. simpl. by rewrite (proj1 (saveDag_cases _)). Qed.

Lemma form_inv_alter g s b :
  form_inv s -> (forall raw tk, form_mode raw (g tk) = true -> form_mode raw tk = true /\ tk_command (g tk) = tk_command tk) ->
  form_inv (alter_task g s b).
Proof.
  intros Hf Hg tk. rewrite current_alter. destruct (current_task s) as [tk0|] eqn:E; [|done].
  simpl. intros [= <-] Hm. destruct (Hg _ _ Hm) as [Hm' ->]. by apply Hf.
Qed.

Lemma form_inv_draw raw s :
  (forall tk, current_task s = Some tk ->
     raw = computeCmdRaw tk \/ truthy (tk_command tk) = false \/ is_Some (parse (tk_command tk)) \/ form_mode raw tk = false) ->
  form_inv (draw_form raw s).
Proof.
  intros H tk Hc Hm. change (current_task (draw_form raw s)) with (current_task s) in Hc. simpl in *.
  rewrite Hc. apply (drawn_in_step raw); [done|]. destruct (H tk Hc) as [|[|[|]]]; auto. congruence.
Qed.

Lemma tp_step_form e s s' :
  form_inv s -> no_redraw e -> tp_step e s = Some s' -> form_inv s'.
Proof.
  intros Hf Hn E. unfold tp_step in E. destruct (current_task s) as [tk|] eqn:Hc; [|done].
  destruct e as [f v|f v|f v|k v| | | |]; simpl in E; try done.
  - destruct (has_control _ _ _ && _) eqn:Hh; simplify_eq. intros tk' Hc' Hm. rewrite current_alter, Hc in Hc'.
    simpl in Hc'. simplify_eq. simpl in *. apply andb_true_iff in Hh as [Hh1 Hh2].
    assert (Hty : tk_type (set_tfield f v tk) = tk_type tk) by (destruct tk, f; done).
    assert (Hm' : form_mode (tp_raw s) tk = true) by (unfold form_mode, is_type in *; by rewrite Hty in Hm).
    destruct (decide (f = FCommand)) as [->|Hne].
    + simpl in Hh1. rewrite Hm' in Hh1. by rewrite orb_true_r in Hh1.
    + assert (Hcmd : tk_command (set_tfield f v tk) = tk_command tk) by (destruct tk, f; done).
      rewrite Hcmd. by apply Hf.
  - simplify_eq. apply form_inv_alter; [done|]. intros raw t. by destruct t, f.
  - destruct (has_control _ _ _ && _) eqn:Hh; simplify_eq. apply andb_true_iff in Hh as [_ Hh].
    intros tk' Hc' Hm. rewrite current_save in Hc'. simpl in Hm.
    assert (Hfi : form_inv (if bool_decide (f = FType)
                  then draw_form (computeCmdRaw (set_tfield f v tk)) (alter_task (set_tfield f v) s (tp_typed s))
                  else alter_task (set_tfield f v) s (tp_typed s))); [|by apply Hfi].
    case_bool_decide as Hty.
    + apply form_inv_draw. intros t. rewrite current_alter, Hc. simpl. intros [= <-]. by left.
    + apply form_inv_alter; [done|]. intros raw t. destruct t, f; done.
  - destruct (form_mode _ _) eqn:Hm; simplify_eq. intros tk' Hc' Hm'. left.
    change (current_task (alter_task (set_tfield FCommand (compose (set_cf k v (tp_cf s)))) s true) = Some tk') in Hc'.
    rewrite current_alter, Hc in Hc'. simpl in Hc'. injection Hc' as <-.
    simpl. by destruct tk.
  - simplify_eq. intros tk' Hc' Hm. rewrite current_save in Hc'. by apply Hf.
  - destruct (_ && _) eqn:Ej; simplify_eq. destruct (_ || _) eqn:Hp; [|done].
    apply form_inv_draw. rewrite Hc. intros t [= <-]. apply orb_true_iff in Hp as [Hp|Hp].
    + right; left. by apply negb_true_iff in Hp.
    + apply bool_decide_eq_true in Hp. auto.
  - destruct (form_mode _ _) eqn:Hm; simplify_eq. apply form_inv_draw. rewrite Hc. intros t [= <-].
    do 3 right. unfold form_mode. apply andb_false_r.
Qed.

(** What a session leaves of the tasks it started from. *)
Record session_ok (es : list tp_event) (n : nat) (ts : list task) (s : taskform) : Prop := {
  so_task : tp_task s = n;
  so_wf : page_wf (tp_page s);
  so_others : forall m, m <> n -> pg_tasks (tp_page s) !! m = ts !! m;
  so_own : exists tk tk', ts !! n = Some tk /\ current_task s = Some tk' /\ fixed tk' = fixed tk /\
    (forall f, Forall (fun e => ~ about_text f e) es -> get_text f tk' = get_text f tk) /\
    (forall f, Forall (fun e => ~ about_num f e) es -> get_num f tk' = get_num f tk);
  so_saved : tp_typed s = false -> tp_saved s = pg_tasks (tp_page s);
}.

Lemma tp_step_page e s s' tk tk' :
  current_task s = Some tk -> page_wf (tp_page s) -> fixed tk' = fixed tk ->
  pg_tasks (tp_page s') = <[tp_task s := tk']> (pg_tasks (tp_page s)) ->
  (pg_graphBase (tp_page s') = None \/ pg_graphBase (tp_page s') = pg_graphBase (tp_page s)) ->
  tp_step e s = Some s' -> page_wf (tp_page s').
Proof.
  intros Hc [Hw Hb] Hfx Et Eb _. split.
  - rewrite Et. injection Hfx as Hi Hd _. by eapply wf_insert_fixed.
  - intros b E. apply Hb. destruct Eb as [Eb|Eb]; congruence.
Qed.

(** A step keeps the graph session or ends it by a save; and what is not saved is
    typed and not left. *)
Lemma tp_step_rest e s s' :
  tp_step e s = Some s' ->
  (pg_graphBase (tp_page s') = None \/ pg_graphBase (tp_page s') = pg_graphBase (tp_page s)) /\
  ((tp_typed s = false -> tp_saved s = pg_tasks (tp_page s)) -> tp_typed s' = false -> tp_saved s' = pg_tasks (tp_page s')).
Proof.
  intros E. unfold tp_step in E. destruct (current_task s) as [tk|]; [|done].
  assert (Hs : forall s0, (pg_graphBase (tp_page (save_form s0)) = None \/
      pg_graphBase (tp_page (save_form s0)) = pg_graphBase (tp_page s0)) /\
      tp_saved (save_form s0) = pg_tasks (tp_page (save_form s0))).
  { intros s0. simpl. destruct (saveDag_cases (tp_page s0)) as [E1 E2]. split; [done|by rewrite E1]. }
  destruct e as [f v|f v|f v|k v| | | |]; simpl in E.
  - destruct (_ && _); simplify_eq. by split; [right|].
  - simplify_eq. by split; [right|].
  - destruct (_ && _); simplify_eq. case_bool_decide; (split; [|intros _ _; apply Hs]).
    + by destruct (Hs (draw_form (computeCmdRaw (set_tfield f v tk)) (alter_task (set_tfield f v) s (tp_typed s)))) as [? _].
    + by destruct (Hs (alter_task (set_tfield f v) s (tp_typed s))) as [? _].
  - destruct (form_mode _ _); simplify_eq. by split; [right|].
  - simplify_eq. split; [|intros _ _; apply Hs]. by destruct (Hs s).
  - destruct (_ && _); simplify_eq. destruct (_ || _); (split; [by right|done]).
  - destruct (form_mode _ _); simplify_eq. by split; [right|].
  - simplify_eq. by split; [right|].
Qed.

Lemma tp_step_ok es e n ts s s' :
  session_ok es n ts s -> tp_step e s = Some s' -> session_ok (es ++ [e]) n ts s'.
Proof.
  intros [H1 H2 H3 (tk & tk1 & Hn & Hc & Hf & Ht & Hnu) H5] E.
  destruct (tp_step_tasks e s s' tk1 Hc E) as (Etask & tk2 & (R1 & R2 & R3) & Ets).
  destruct (tp_step_rest e s s' E) as [Eb Esv].
  assert (Hlen : tp_task s < length (pg_tasks (tp_page s))) by (by apply lookup_lt_Some in Hc).
  split.
  - congruence.
  - eapply tp_step_page; [exact Hc|done|exact R1|exact Ets|exact Eb|exact E].
  - intros m Hm. rewrite Ets, list_lookup_insert_ne by congruence. by apply H3.
  - exists tk, tk2. split; [done|]. split.
    { unfold current_task. rewrite Ets, Etask. by rewrite list_lookup_insert_eq. }
    split; [congruence|].
    split; intros f [Hes He]%Forall_app; rewrite Forall_singleton in He; [rewrite (R2 f He); auto|rewrite (R3 f He); auto].
  - auto.
Qed.

Lemma tp_run_ok es0 es n ts s s' :
  session_ok es0 n ts s -> tp_run es s = Some s' -> session_ok (es0 ++ es) n ts s'.
Proof.
  revert es0 s; induction es as [|e es IH]; intros es0 s Hs E; simpl in E; [simplify_eq; by rewrite app_nil_r|].
  destruct (tp_step e s) as [s1|] eqn:E1; [|done].
  rewrite cons_middle, app_assoc. eapply IH; [by eapply tp_step_ok|done].
Qed.

Lemma tp_run_form es s s' : form_inv s -> Forall no_redraw es -> tp_run es s = Some s' -> form_inv s'.
Proof.
  revert s; induction es as [|e es IH]; intros s Hf Hn E; simpl in E; [by simplify_eq|].
  apply Forall_cons in Hn as [He Hn]. destruct (tp_step e s) as [s1|] eqn:E1; [|done].
  eapply IH; [by eapply tp_step_form|done|done].
Qed.

(** ** Properties *)


Definition sample_jar : task := set_tfield FType (lit "jar") (with_id (lit "load") blankTask).
Definition sample_tpage : page := open_page [sample_jar].
Definition sample_form : list tp_event :=
  [TForm JJar (lit "app.jar"); TForm JArgs (lit "--in x"); TNum NRetries (NumF 3); TLeave;
   TSelect FType (lit "shell"); TSelect FType (lit "jar")].


(** Drawn anew while the command does not parse yet, the jar form comes up empty over
    a command that is not, although the comment at the redraw says that unsaved edits
    survive; the next input writes the command from the empty form. *)
Theorem jar_form_forgets :
  exists s s1 s2,
    open_form sample_tpage 0 = Some s /\
    tp_run [TForm JArgs (lit "--in x"); TRedraw] s = Some s1 /\
    tk_command <$> current_task s1 = Some (lit "java -jar  --in x") /\ tp_cf s1 = JarForm [] [] [] /\
    tp_run [TForm JJar (lit "app.jar")] s1 = Some s2 /\
    tk_command <$> current_task s2 = Some (lit "java -jar app.jar").
Proof. do 3 eexists. split_and!; vm_compute; reflexivity. Qed.
