(* ===== verification/Markup.v ===== *)
(** * Markup (every template of base.js, builder.js and views.js): what the browser
    makes of the strings the console assigns to [innerHTML]

    A template literal is a list of chunks: the characters of the source ([L]), an
    escaped value ([E], [${esc(...)}]), a localized text written as it is ([M],
    [${t(...)}]) and a value written as it is ([V], [${...}]). [scan] is the
    tokenizer of the HTML standard on the constructs the templates use, as a state
    machine over code units that refuses everything else; [nest] keeps the stack of
    open elements. A fragment is [inert] when, whatever its values are, its tags
    nest, nothing it opens can run a script, and its tags and attributes are those
    of the same fragment with every value left out. *)

From Stdlib Require Import Ascii String.
From S2P Require Import Prelude JsCore Schedule DictData Labels Format.

(** ** Templates *)

(** A text in the language of the console. *)
Definition text : Type := language -> jstr.
Definition tx (l : label) : text := fun lang => Labels.render lang l.

Inductive chunk :=
| L (s : jstr)
| E (x : text)
| M (x : text)
| V (s : jstr).
Abbreviation html := (list chunk).

Definition chunk_text (lang : language) (c : chunk) : jstr :=
  match c with L s | V s => s | E x => esc (x lang) | M x => x lang end.
Definition markup (lang : language) (h : html) : jstr := List.flat_map (chunk_text lang) h.

(** The same template with its values left out. *)
Definition blank_chunk (c : chunk) : chunk :=
  match c with E _ => E (fun _ => []) | V _ => V [] | _ => c end.
Definition blank (h : html) : html := map blank_chunk h.

(** The source of a template, [`] standing for the double quote. *)
Definition dquote (c : N) : N := if (c =? 96)%N then 34%N else c.
Notation "'src' s" :=
  ([L ltac:(let x := eval vm_compute in (map dquote (of_literal s%string)) in exact x)])
  (at level 1, s at level 0, only parsing).
(** [t(k)], [${t(k)}], [${esc(t(k))}] *)
Notation "'say' k" := (tx (T (lit k) [])) (at level 1, k at level 0, only parsing).
Notation "'msg' k" := [M (tx (T (lit k) []))] (at level 1, k at level 0, only parsing).
Notation "'emsg' k" := [E (tx (T (lit k) []))] (at level 1, k at level 0, only parsing).
(** [${t(k, ...)}], [${esc(t(k, ...))}], [${esc(s)}], [${n}] *)
Definition msgl (l : label) : html := [M (tx l)].
Definition escl (l : label) : html := [E (tx l)].
Definition escd (s : jstr) : html := [E (fun _ => s)].
Definition num (z : Z) : html := [V (num_str z)].

(** [${c ? h : ""}], [l.map(f).join("")], [l.map((x, i) => ...).join("")],
    [l.map(f).join(sep)] *)
Definition only (c : bool) (h : html) : html := if c then h else [].
Definition each {A} (l : list A) (f : A -> html) : html := List.flat_map f l.
Fixpoint each_from {A} (i : Z) (l : list A) (f : A -> Z -> html) : html :=
  match l with [] => [] | x :: r => f x i ++ each_from (i + 1) r f end.
Definition eachi {A} (l : list A) (f : A -> Z -> html) : html := each_from 0 l f.
Fixpoint sep_by (sep : html) (l : list html) : html :=
  match l with [] => [] | [h] => h | h :: r => h ++ sep ++ sep_by sep r end.

(** [`${state}`] where the label is an inherited member. *)
Definition inherited_text (s : jstr) : jstr :=
  if bool_decide (s = lit "__proto__") then lit "[object Object]"
  else if bool_decide (s = lit "constructor") then lit "function Object() { [native code] }"
  else lit "function " ++ s ++ lit "() { [native code] }".
Definition slot_text (s : jstr) (x : slot jstr) : jstr :=
  match x with Own v => v | Inherited => inherited_text s | Missing => [] end.
Definition stateText (s : jstr) : text := fun lang => slot_text s (stateLabel lang s).
Definition typeText (s : jstr) : text := fun lang => slot_text s (typeLabel lang s).

(** ** The tokenizer *)

Inductive mode :=
| Text
| TagStart
| TagName (n : jstr)
| EndStart
| EndName (n : jstr)
| Inside (el : jstr)
| AttrName (el n : jstr)
| AttrEq (el : jstr)
| Quoted (q : N) (el : jstr)
| AfterValue (el : jstr)
| Slash (el : jstr)
| Bang (dashes : nat)
| Comment (dashes : nat).

Inductive tok :=
| Open (el : jstr)
| Attr (name : jstr)
| Enter (el : jstr)
| Single (el : jstr)
| Close (el : jstr).
#[export] Instance mode_eq_dec : EqDecision mode.
Proof. solve_decision. Defined.
#[export] Instance tok_eq_dec : EqDecision tok.
Proof. solve_decision. Defined.

Definition in_range (a b c : N) : bool := (a <=? c)%N && (c <=? b)%N.
Definition lower (c : N) : bool := in_range 97 122 c.
Definition name_char (c : N) : bool := lower c || in_range 48 57 c || (c =? 45)%N.
Definition attr_char (c : N) : bool := name_char c || in_range 65 90 c.
(** Tab, line feed, form feed, carriage return, space. *)
Definition html_space (c : N) : bool :=
  (c =? 32)%N || (c =? 10)%N || (c =? 9)%N || (c =? 12)%N || (c =? 13)%N.

Definition tag_end (el : jstr) (evs : list tok) (c : N) : option (mode * list tok) :=
  if html_space c then Some (Inside el, evs)
  else if (c =? ch "/")%N then Some (Slash el, evs)
  else if (c =? ch ">")%N then Some (Text, evs ++ [Enter el])
  else None.

Definition tok_step (m : mode) (c : N) : option (mode * list tok) :=
  match m with
  | Text => if (c =? ch "<")%N then Some (TagStart, []) else Some (Text, [])
  | TagStart =>
    if lower c then Some (TagName [c], [])
    else if (c =? ch "/")%N then Some (EndStart, [])
    else if (c =? ch "!")%N then Some (Bang 0, []) else None
  | TagName n => if name_char c then Some (TagName (n ++ [c]), []) else tag_end n [Open n] c
  | EndStart => if lower c then Some (EndName [c], []) else None
  | EndName n =>
    if name_char c then Some (EndName (n ++ [c]), [])
    else if (c =? ch ">")%N then Some (Text, [Close n]) else None
  | Inside el => if attr_char c then Some (AttrName el [c], []) else tag_end el [] c
  | AttrName el n =>
    if attr_char c then Some (AttrName el (n ++ [c]), [])
    else if (c =? ch "=")%N then Some (AttrEq el, [Attr n]) else tag_end el [Attr n] c
  | AttrEq el => if (c =? 34)%N || (c =? 39)%N then Some (Quoted c el, []) else None
  | Quoted q el => if (c =? q)%N then Some (AfterValue el, []) else Some (Quoted q el, [])
  | AfterValue el => tag_end el [] c
  | Slash el => if (c =? ch ">")%N then Some (Text, [Single el]) else None
  | Bang d =>
    if (c =? ch "-")%N then Some (match d with O => Bang 1 | _ => Comment 0 end, []) else None
  | Comment d =>
    if (c =? ch "-")%N then Some (Comment (S d), [])
    else if (c =? ch ">")%N && Nat.leb 2 d then Some (Text, []) else Some (Comment 0, [])
  end.

Fixpoint scan (m : mode) (s : jstr) : option (mode * list tok) :=
  match s with
  | [] => Some (m, [])
  | c :: r =>
    match tok_step m c with
    | Some (m1, e1) =>
      match scan m1 r with Some (m2, e2) => Some (m2, e1 ++ e2) | None => None end
    | None => None
    end
  end.

(** ** The open elements *)

Definition VOID : list jstr := [lit "input"; lit "br"; lit "hr"; lit "img"].
(** SVG elements the templates close with [/>]. *)
Definition EMPTY_SVG : list jstr := [lit "path"; lit "rect"; lit "circle"].
Definition SCRIPTED : list jstr :=
  [lit "script"; lit "style"; lit "iframe"; lit "object"; lit "embed"; lit "base"; lit "link";
   lit "meta"; lit "template"].
Definition handler (name : jstr) : bool := starts_with (lit "on") name || bool_decide (name = lit "srcdoc").

Fixpoint nest (k : list jstr) (evs : list tok) : option (list jstr) :=
  match evs with
  | [] => Some k
  | e :: r =>
    match e with
    | Open el => if bool_decide (el ∈ SCRIPTED) then None else nest k r
    | Attr n => if handler n then None else nest k r
    | Enter el => if bool_decide (el ∈ VOID) then nest k r else nest (el :: k) r
    | Single el =>
      if bool_decide (el ∈ VOID) || bool_decide (el ∈ EMPTY_SVG) then nest k r else None
    | Close el =>
      match k with top :: k' => if bool_decide (top = el) then nest k' r else None | [] => None end
    end
  end.

(** The string is a sequence of complete, properly nested elements and text. *)
Definition well_formed (s : jstr) : bool :=
  match scan Text s with
  | Some (Text, evs) => bool_decide (nest [] evs = Some [])
  | _ => false
  end.
Definition skeleton (s : jstr) : list tok :=
  match scan Text s with Some (_, evs) => evs | None => [] end.

Definition inert (h : html) : Prop :=
  forall lang, well_formed (markup lang h) = true
               /\ skeleton (markup lang h) = skeleton (markup lang (blank h)).

(** ** Strings without structure *)

Definition structural (c : N) : bool := (c =? ch "<")%N || (c =? ch ">")%N || (c =? 34)%N.
Definition plain (s : jstr) : bool := forallb (fun c => negb (structural c)) s.

(** The texts of the dictionaries that hold markup, or the name of a parameter in
    angle brackets; every other one is plain. *)
Definition RICH : list jstr := [lit "hlp_dag"; lit "hlp_toggle"; lit "hlp_spark"; lit "tok_sub"].
Definition plain_key (k : jstr) : bool := plain k && negb (bool_decide (k ∈ RICH)).
Fixpoint plain_piece (p : piece) : bool :=
  match p with
  | Txt s => plain s
  | Arg _ => true
  | IfGt _ _ yes no => forallb plain_piece yes && forallb plain_piece no
  end.
Definition plain_dict (d : dict) : bool :=
  forallb (fun e => bool_decide (e.1 ∈ RICH) || forallb plain_piece e.2.2) d.
(** Plain in both languages. *)
Definition plain_text (x : text) : Prop := forall lang, plain (x lang) = true.

(** ** Scanning *)

Lemma scan_app m a b :
  scan m (a ++ b) =
  match scan m a with
  | Some (m1, e1) => match scan m1 b with Some (m2, e2) => Some (m2, e1 ++ e2) | None => None end
  | None => None
  end.
Proof.
  revert m. induction a as [|c a IH]; intros m; simpl.
  - destruct (scan m b) as [[]|]; done.
  - destruct (tok_step m c) as [[m1 e1]|]; [|done]. rewrite IH.
    destruct (scan m1 a) as [[m2 e2]|]; [|done].
    destruct (scan m2 b) as [[m3 e3]|]; [|done]. by rewrite app_assoc.
Qed.

Lemma nest_app k a b :
  nest k (a ++ b) = match nest k a with Some k' => nest k' b | None => None end.
Proof.
  revert k. induction a as [|e a IH]; intros k; [done|].
  destruct e as [| | | |el]; simpl; try (by destruct (_ : bool)).
  destruct k as [|top k]; [done|]. by destruct (bool_decide _).
Qed.

(** Elements opened outside a fragment stay open. *)
Lemma nest_frame k j evs k' : nest k evs = Some k' -> nest (k ++ j) evs = Some (k' ++ j).
Proof.
  revert k. induction evs as [|e evs IH]; intros k; simpl; [by intros [= ->]|].
  destruct e as [el|el|el|el|el]; simpl.
  1-4: destruct (_ : bool); first [done|apply IH|apply (IH (el :: k))].
  destruct k as [|top k]; [done|]. simpl. destruct (bool_decide _); [apply IH|done].
Qed.

(** Where a value may stand: in a text or in a double-quoted attribute. *)
Definition value_mode (m : mode) : bool :=
  match m with Text => true | Quoted q _ => (q =? 34)%N | _ => false end.

Lemma scan_plain m s : value_mode m = true -> plain s = true -> scan m s = Some (m, []).
Proof.
  intros Hm. induction s as [|c s IH]; [done|]. simpl. unfold structural.
  rewrite !negb_orb, !andb_true_iff, !negb_true_iff. intros [[[Hl Hg] Hq] Hs].
  assert (tok_step m c = Some (m, [])) as ->; [|by rewrite IH].
  destruct m; try done; simpl in *; [by rewrite Hl|]. apply N.eqb_eq in Hm as ->. by rewrite Hq.
Qed.

Lemma plain_app a b : plain (a ++ b) = plain a && plain b.
Proof. apply forallb_app. Qed.
Lemma plain_esc s : plain (esc s) = true.
Proof.
  apply forallb_forall. intros c Hc. apply negb_true_iff. unfold structural.
  pose proof (fun d H => esc_safe s d H) as Hs.
  rewrite !orb_false_iff, !N.eqb_neq. apply list_elem_of_In in Hc.
  repeat split; intros ->; by refine (Hs _ _ Hc); set_solver.
Qed.

(** ** Triples

    [tr st h st'] : from [st] (where the tokenizer is, what is open) every rendering
    of [h] leads to [st'], emitting the same tokens as the blank one. *)

Definition place : Type := mode * list jstr.
Definition tr (st : place) (h : html) (st' : place) : Prop :=
  forall lang, exists evs,
    scan st.1 (markup lang h) = Some (st'.1, evs)
    /\ scan st.1 (markup lang (blank h)) = Some (st'.1, evs) /\ nest st.2 evs = Some st'.2.
Definition frag (h : html) : Prop := tr (Text, []) h (Text, []).

Lemma frag_inert h : frag h -> inert h.
Proof.
  intros H lang. destruct (H lang) as (evs & H1 & H2 & H3). simpl in *.
  unfold well_formed, skeleton. rewrite H1, H2. split; [|done]. by apply bool_decide_eq_true.
Qed.

Lemma markup_app lang a b : markup lang (a ++ b) = markup lang a ++ markup lang b.
Proof. apply List.flat_map_app. Qed.
Lemma blank_app a b : blank (a ++ b) = blank a ++ blank b.
Proof. apply List.map_app. Qed.

Lemma tr_nil st : tr st [] st.
Proof. intros lang. by exists []. Qed.

Lemma tr_app st1 st2 st3 a b : tr st1 a st2 -> tr st2 b st3 -> tr st1 (a ++ b) st3.
Proof.
  intros Ha Hb lang. destruct (Ha lang) as (ea & A1 & A2 & A3), (Hb lang) as (eb & B1 & B2 & B3).
  exists (ea ++ eb). rewrite blank_app, !markup_app, !scan_app, A1, A2, B1, B2, nest_app, A3. done.
Qed.

(** The characters of the source, run. *)
Definition lit_place (st : place) (s : jstr) : option place :=
  match scan st.1 s with
  | Some (m, evs) => match nest st.2 evs with Some k => Some (m, k) | None => None end
  | None => None
  end.
Lemma tr_L st s st' : lit_place st s = Some st' -> tr st [L s] st'.
Proof.
  unfold lit_place. intros H lang. simpl. rewrite app_nil_r.
  destruct (scan st.1 s) as [[m evs]|]; [|done].
  destruct (nest st.2 evs) as [k|] eqn:Hk; [|done]. injection H as <-. by exists evs.
Qed.

Lemma tr_value st c :
  value_mode st.1 = true -> (forall lang, plain (chunk_text lang c) = true) ->
  (forall lang, plain (chunk_text lang (blank_chunk c)) = true) -> tr st [c] st.
Proof.
  intros Hm Hs Hb lang. exists []. simpl. rewrite !app_nil_r. by rewrite !scan_plain.
Qed.
Lemma tr_E st x : value_mode st.1 = true -> tr st [E x] st.
Proof. intros Hm. by apply tr_value; [|intros; apply plain_esc|]. Qed.
Lemma tr_M st x : value_mode st.1 = true -> plain_text x -> tr st [M x] st.
Proof. intros Hm Hx. by apply tr_value. Qed.
Lemma tr_V st s : value_mode st.1 = true -> plain s = true -> tr st [V s] st.
Proof. intros Hm Hs. by apply tr_value. Qed.

(** A rich text is the source's own markup. *)
Lemma tr_rich st x st' : (forall lang, lit_place st (x lang) = Some st') -> tr st [M x] st'.
Proof. intros H lang. apply (tr_L _ _ _ (H lang) lang). Qed.

Lemma tr_if (c : bool) st a b st' :
  (c = true -> tr st a st') -> (c = false -> tr st b st') -> tr st (if c then a else b) st'.
Proof. destruct c; auto. Qed.
Lemma tr_list_case {A} (l : list A) st a b st' :
  tr st a st' -> (forall x r, l = x :: r -> tr st (b x r) st') ->
  tr st (match l with [] => a | x :: r => b x r end) st'.
Proof. destruct l; auto. Qed.
Lemma tr_option_case {A} (o : option A) st a b st' :
  (forall x, o = Some x -> tr st (b x) st') -> tr st a st' ->
  tr st (match o with Some x => b x | None => a end) st'.
Proof. destruct o; auto. Qed.
Lemma tr_only c st h : (c = true -> tr st h st) -> tr st (only c h) st.
Proof. intros H. apply tr_if; [done|]. intros. apply tr_nil. Qed.

Lemma tr_each {A} (l : list A) f st : (forall x, x ∈ l -> tr st (f x) st) -> tr st (each l f) st.
Proof.
  induction l as [|x l IH]; intros H; [apply tr_nil|].
  apply tr_app with st; [apply H; set_solver|]. apply IH. set_solver.
Qed.
Lemma tr_each_from {A} (l : list A) f st i :
  (forall x j, x ∈ l -> tr st (f x j) st) -> tr st (each_from i l f) st.
Proof.
  revert i. induction l as [|x l IH]; intros i H; [apply tr_nil|].
  apply tr_app with st; [apply H; set_solver|]. apply IH. set_solver.
Qed.
Lemma tr_eachi {A} (l : list A) f st :
  (forall x j, x ∈ l -> tr st (f x j) st) -> tr st (eachi l f) st.
Proof. apply tr_each_from. Qed.
Lemma tr_sep {A} st sep (l : list A) f :
  tr st sep st -> (forall x, x ∈ l -> tr st (f x) st) -> tr st (sep_by sep (f <$> l)) st.
Proof.
  intros Hs. induction l as [|x l IH]; intros H; [apply tr_nil|].
  assert (Hx : tr st (f x) st) by (apply H; set_solver).
  assert (Hl : tr st (sep_by sep (f <$> l)) st) by (apply IH; intros; apply H; set_solver).
  destruct l; [done|]. by repeat apply tr_app with st.
Qed.

(** A fragment fits between any two tags. *)
Lemma tr_frag h k : frag h -> tr (Text, k) h (Text, k).
Proof.
  intros H lang. destruct (H lang) as (evs & H1 & H2 & H3). exists evs. split_and!; try done.
  by apply (nest_frame _ k) in H3.
Qed.

Lemma frag_app a b : frag a -> frag b -> frag (a ++ b).
Proof. apply tr_app. Qed.
Lemma frag_if (c : bool) a b : frag a -> frag b -> frag (if c then a else b).
Proof. by destruct c. Qed.
Lemma frag_nil : frag [].
Proof. apply tr_nil. Qed.

(** *** Attributes without a value

    [<input ${c ? "checked" : ""}>]: with or without the attribute the tag goes on
    the same way. *)
Definition delim (c : N) : bool := html_space c || (c =? ch "/")%N || (c =? ch ">")%N.
Lemma delim_ends el evs c : delim c = false -> tag_end el evs c = None.
Proof.
  unfold delim, tag_end. rewrite !orb_false_iff. by intros [[-> ->] ->].
Qed.
Lemma delim_cases c : delim c = true -> c ∈ [32; 10; 9; 12; 13; 47; 62]%N.
Proof.
  unfold delim, html_space. rewrite !orb_true_iff, !N.eqb_eq. intros; naive_solver set_solver.
Qed.
Lemma scan_bare el n c r m e :
  delim c = true -> scan (Inside el) (c :: r) = Some (m, e) ->
  scan (AttrName el n) (c :: r) = Some (m, Attr n :: e).
Proof.
  intros Hc. apply delim_cases in Hc. simpl.
  repeat (apply elem_of_cons in Hc as [->|Hc]); [..|by apply elem_of_nil in Hc]; simpl;
    destruct (scan _ r) as [[]|]; by intros [= -> <-].
Qed.
Lemma scan_after el s m e :
  m <> AfterValue el -> scan (AfterValue el) s = Some (m, e) ->
  exists c r, s = c :: r /\ delim c = true /\ scan (Inside el) s = Some (m, e).
Proof.
  destruct s as [|c r]; [by intros ? [= <- _]|]. intros _ H. exists c, r. split; [done|].
  simpl in H. destruct (delim c) eqn:Hc; [|by rewrite delim_ends in H]. split; [done|].
  rewrite <- H. apply delim_cases in Hc. simpl.
  by repeat (apply elem_of_cons in Hc as [->|Hc]); [..|by apply elem_of_nil in Hc].
Qed.

Lemma tr_bare_after el k n c a h m k' :
  tr (AfterValue el, k) a (AttrName el n, k) -> handler n = false -> m <> AfterValue el ->
  tr (AfterValue el, k) h (m, k') -> tr (AfterValue el, k) (only c a ++ h) (m, k').
Proof.
  intros Ha Hn Hm Hh. destruct c; [|done]. intros lang.
  destruct (Ha lang) as (ea & A1 & A2 & A3), (Hh lang) as (eh & H1 & H2 & H3). simpl in *.
  exists (ea ++ Attr n :: eh).
  assert (Hs : forall s, scan (AfterValue el) s = Some (m, eh) ->
                         scan (AttrName el n) s = Some (m, Attr n :: eh)).
  { intros s Hs. destruct (scan_after _ _ _ _ Hm Hs) as (d & r & -> & Hd & Hi).
    by apply scan_bare. }
  rewrite blank_app, !markup_app, !scan_app, A1, A2, (Hs _ H1), (Hs _ H2), nest_app, A3.
  simpl. by rewrite Hn.
Qed.

Lemma tr_bare_in el k n c a d r h m k' :
  tr (Inside el, k) a (AttrName el n, k) -> handler n = false -> delim d = true ->
  tr (Inside el, k) (L (d :: r) :: h) (m, k') ->
  tr (Inside el, k) (only c a ++ L (d :: r) :: h) (m, k').
Proof.
  intros Ha Hn Hd Hh. destruct c; [|done]. intros lang.
  destruct (Ha lang) as (ea & A1 & A2 & A3), (Hh lang) as (eh & H1 & H2 & H3). cbn [only fst snd] in *.
  exists (ea ++ Attr n :: eh).
  rewrite blank_app, !markup_app, !scan_app, A1, A2, nest_app, A3.
  change (blank (L (d :: r) :: h)) with (L (d :: r) :: blank h) in *.
  assert (Hl : forall x, markup lang (L (d :: r) :: x) = d :: r ++ markup lang x) by done.
  rewrite !Hl in *. rewrite (scan_bare el n d _ _ _ Hd H1), (scan_bare el n d _ _ _ Hd H2).
  cbn. by rewrite Hn.
Qed.

Lemma tr_valued_in el k c a d r h m k' :
  tr (Inside el, k) a (AfterValue el, k) -> delim d = true ->
  tr (Inside el, k) (L (d :: r) :: h) (m, k') ->
  tr (Inside el, k) (only c a ++ L (d :: r) :: h) (m, k').
Proof.
  intros Ha Hd Hh. destruct c; [|done]. apply (tr_app _ (AfterValue el, k)); [done|].
  intros lang. destruct (Hh lang) as (evs & H1 & H2 & H3). exists evs. cbn [fst snd] in *.
  assert (Hs : forall x, scan (AfterValue el) (markup lang (L (d :: r) :: x))
                         = scan (Inside el) (markup lang (L (d :: r) :: x))).
  { intros x. apply delim_cases in Hd. simpl.
    by repeat (apply elem_of_cons in Hd as [->|Hd]); [..|by apply elem_of_nil in Hd]. }
  split_and!; [by rewrite Hs| |done].
  change (blank (L (d :: r) :: h)) with (L (d :: r) :: blank h) in *. by rewrite Hs.
Qed.

(** ** Plain texts *)

Lemma plain_forall s : plain s = true <-> Forall (fun c => structural c = false) s.
Proof.
  unfold plain. rewrite forallb_forall, Forall_forall.
  split; intros H c Hc; [apply negb_true_iff, H|apply negb_true_iff, H]; by apply list_elem_of_In.
Qed.
Lemma plain_flat {A} (f : A -> jstr) l :
  (forall x, x ∈ l -> plain (f x) = true) -> plain (List.flat_map f l) = true.
Proof.
  induction l as [|x l IH]; intros H; [done|]. simpl. rewrite plain_app, H by set_solver.
  apply IH. set_solver.
Qed.
Lemma plain_join sep l : plain sep = true -> Forall (fun s => plain s = true) l -> plain (join sep l) = true.
Proof.
  intros Hs. induction 1 as [|s l Hx Hl IH]; [done|]. simpl.
  destruct l; [done|]. by rewrite !plain_app, Hs, Hx.
Qed.
Lemma plain_digits n : plain (digits n) = true.
Proof.
  apply plain_forall. eapply Forall_impl; [apply digits_digit|]. intros c Hc. unfold is_digit in Hc.
  apply andb_true_iff in Hc as [H1 H2]. apply N.leb_le in H1, H2. unfold structural.
  rewrite !orb_false_iff, !N.eqb_neq. lia.
Qed.
Lemma plain_num z : plain (num_str z) = true.
Proof. unfold num_str. destruct (z <? 0)%Z; [|apply plain_digits]. simpl. apply plain_digits. Qed.
Lemma plain_or a b : plain a = true -> plain b = true -> plain (a ||j b) = true.
Proof. unfold js_or. by destruct (truthy a). Qed.

Lemma plain_pieces args ps :
  Forall (fun s => plain s = true) args -> forallb plain_piece ps = true ->
  plain (List.flat_map (piece_text args) ps) = true.
Proof.
  intros Ha. assert (Hp : forall p, plain_piece p = true -> plain (piece_text args p) = true).
  { fix IH 1. intros [s|n|n k yes no] H; simpl in *; [done| |].
    - destruct (args !! n) as [s|] eqn:Hn; [|done]. by apply (Forall_lookup_1 _ _ _ _ Ha Hn).
    - apply andb_true_iff in H as [Hy Hn].
      destruct (gt_num _ _); [induction yes as [|q qs IHq]|induction no as [|q qs IHq]]; try done;
        simpl in *; rewrite plain_app.
      + apply andb_true_iff in Hy as [Hq Hy]. by rewrite IH, IHq.
      + apply andb_true_iff in Hn as [Hq Hn]. by rewrite IH, IHq. }
  intros Hps. apply plain_flat. intros p Hin. apply Hp.
  rewrite forallb_forall in Hps. by apply Hps, list_elem_of_In.
Qed.

(** Every text but the four of [RICH] is plain when its arguments are. *)
Lemma dict_plain lang : plain_dict (DICT lang) = true.
Proof. destruct lang; by vm_compute. Qed.
Lemma assoc_plain lang k e args :
  plain_key k = true -> Forall (fun s => plain s = true) args -> assoc (DICT lang) k = Some e ->
  plain (entry_text args e) = true.
Proof.
  intros Hk Ha He. unfold assoc in He. destruct (List.find _ _) as [p|] eqn:Hf; [|done].
  apply find_some in Hf as [Hin Hp]. apply bool_decide_eq_true in Hp. simpl in He.
  injection He as <-. apply plain_pieces; [done|].
  pose proof (dict_plain lang) as Hd. unfold plain_dict in Hd. rewrite forallb_forall in Hd.
  apply Hd, orb_true_iff in Hin as [Hin|]; [|done]. apply bool_decide_eq_true in Hin.
  rewrite Hp in Hin. unfold plain_key in Hk. apply andb_true_iff in Hk as [_ Hk].
  by rewrite bool_decide_eq_true_2 in Hk.
Qed.
Lemma plain_T k args :
  plain_key k = true -> Forall (fun l => plain_text (tx l)) args -> plain_text (tx (T k args)).
Proof.
  intros Hk Ha lang. unfold tx. simpl.
  assert (Ha' : Forall (fun s => plain s = true) (map (Labels.render lang) args)).
  { apply Forall_forall. intros s (l & -> & Hl)%list_elem_of_fmap.
    rewrite Forall_forall in Ha. by apply Ha. }
  unfold t. destruct (assoc (DICT lang) k) eqn:H1; [by eapply assoc_plain|].
  destruct (assoc (DICT Zh) k) eqn:H2; [by eapply assoc_plain|].
  by apply andb_true_iff in Hk as [-> _].
Qed.
Lemma plain_raw s : plain s = true -> plain_text (tx (Raw s)).
Proof. by intros H lang. Qed.
Lemma plain_const s : plain s = true -> plain_text (fun _ => s).
Proof. by intros H lang. Qed.

Lemma assoc_in {A} (l : list (jstr * A)) k v : assoc l k = Some v -> (k, v) ∈ l.
Proof.
  unfold assoc. destruct (List.find _ l) as [p|] eqn:H; [|done]. intros [= <-].
  apply find_some in H as [H Hk]. apply bool_decide_eq_true in Hk as <-.
  apply list_elem_of_In. by destruct p.
Qed.
Lemma plain_inherited s : plain s = true -> plain (inherited_text s) = true.
Proof.
  intros H. unfold inherited_text. do 2 (case_bool_decide; [done|]). by rewrite !plain_app, H.
Qed.
Lemma plain_slot (l : list (jstr * jstr)) s :
  forallb (fun e => plain e.2) l = true -> plain s = true ->
  plain (slot_text s (table_get l s)) = true.
Proof.
  intros Hl Hs. unfold table_get. destruct (assoc l s) as [v|] eqn:H.
  - apply assoc_in, list_elem_of_In in H. rewrite forallb_forall in Hl. apply (Hl _ H).
  - case_bool_decide; [by apply plain_inherited|done].
Qed.
Lemma plain_state s : plain s = true -> plain_text (stateText s).
Proof.
  intros Hs lang. unfold stateText, stateLabel.
  pose proof (plain_slot (STATE lang) s) as H1. pose proof (plain_slot (STATE Zh) s) as H2.
  destruct (table_get (STATE lang) s); [by apply H1; [destruct lang; vm_compute|]..|].
  destruct (table_get (STATE Zh) s); [by apply H2; [vm_compute|]..|done].
Qed.
Lemma plain_type s : plain s = true -> plain_text (typeText s).
Proof.
  intros Hs lang. unfold typeText, typeLabel. pose proof (plain_slot (TYPEL lang) s) as H1.
  destruct (table_get (TYPEL lang) s); [by apply H1; [destruct lang; vm_compute|]..|done].
Qed.

(** A key built from a prefix no rich text has. *)
Lemma plain_key_prefix p s :
  plain p = true -> forallb (fun r => negb (starts_with p r)) RICH = true -> plain s = true ->
  plain_key (p ++ s) = true.
Proof.
  intros Hp Hr Hs. unfold plain_key. rewrite plain_app, Hp, Hs. simpl.
  apply negb_true_iff, bool_decide_eq_false. intros Hin%list_elem_of_In.
  rewrite forallb_forall in Hr. apply Hr, negb_true_iff in Hin.
  assert (starts_with p (p ++ s) = true) by (unfold starts_with; by rewrite strip_prefix_app). congruence.
Qed.
Lemma plain_in (l : list jstr) x : forallb plain l = true -> x ∈ l -> plain x = true.
Proof. rewrite forallb_forall. intros H Hx%list_elem_of_In. by apply H. Qed.

Create HintDb markup.
#[export] Hint Resolve plain_num plain_esc plain_digits plain_or plain_raw plain_state plain_type
  plain_const tr_frag : markup.

(** ** Automation *)

(** [plain s = true] and [plain_text x]. *)
Ltac plain_tac :=
  lazymatch goal with
  | |- plain_text (tx (T _ _)) =>
    apply plain_T; [plain_tac|repeat constructor; plain_tac]
  | |- plain_text (tx (Raw _)) => apply plain_raw; plain_tac
  | |- plain_key (_ ++ _) = true =>
    apply plain_key_prefix; [vm_compute; reflexivity|vm_compute; reflexivity|plain_tac]
  | |- plain (_ ++ _) = true => rewrite plain_app; apply andb_true_iff; split; plain_tac
  | |- plain (if ?c then _ else _) = true => destruct c; plain_tac
  | |- plain_text (fun _ => _) => let lang := fresh "lang" in intros lang; cbv beta; plain_tac
  | |- _ =>
    first [assumption | solve [auto with markup] | vm_compute; reflexivity
          | match goal with Hx : ?x ∈ _ |- plain ?x = true =>
              refine (plain_in _ _ _ Hx); vm_compute; reflexivity end]
  end.

(** What the hypotheses say of the elements of a list. *)
Ltac use_members :=
  repeat match goal with
  | H : Forall ?P ?l, Hx : ?x ∈ ?l |- _ =>
    let T := eval cbv beta in (P x) in
    lazymatch goal with
    | _ : T |- _ => fail
    | _ => let Hp := fresh "Hp" in assert (T) as Hp by exact (proj1 (Forall_forall P l) H x Hx)
    end
  end.

(** [tr st h st'] where [st] is known: the source is run, values are checked to stand
    where a value may, branches must meet. *)
Ltac tr_go :=
  lazymatch goal with
  | |- tr _ [] _ => apply tr_nil
  | |- tr ?st [L ?s] _ =>
    let r := eval vm_compute in (lit_place st s) in
    lazymatch r with Some ?x => refine (tr_L st s x _); vm_cast_no_check (eq_refl (Some x)) end
  | |- tr _ [E _] _ => apply tr_E; reflexivity
  | |- tr _ [M _] _ => apply tr_M; [reflexivity|plain_tac]
  | |- tr _ [V _] _ => apply tr_V; [reflexivity|plain_tac]
  | |- tr (AfterValue ?el, ?k) (only ?c [L ?s] ++ ?h) _ =>
    let r := eval vm_compute in (lit_place (AfterValue el, k) s) in
    lazymatch r with
    | Some (AttrName _ ?n, _) =>
      eapply (tr_bare_after el k n c); [tr_go|vm_compute; reflexivity| |tr_go]; discriminate
    | _ => eapply tr_app; [tr_go|tr_go]
    end
  | |- tr (Inside ?el, ?k) (only ?c [L ?s] ++ [L _] ++ _) _ =>
    let r := eval vm_compute in (lit_place (Inside el, k) s) in
    lazymatch r with
    | Some (AttrName _ ?n, _) =>
      eapply (tr_bare_in el k n c); [tr_go|vm_compute; reflexivity|vm_compute; reflexivity|tr_list]
    end
  | |- tr (Inside ?el, ?k) (only ?c ?a ++ [L _] ++ _) _ =>
    eapply (tr_valued_in el k c); [tr_go|vm_compute; reflexivity|tr_list]
  | |- tr _ (_ ++ _) _ => eapply tr_app; [tr_go|tr_go]
  | |- tr _ (only _ _) _ => apply tr_only; intros; tr_go
  | |- tr _ (if ?c then _ else _) _ =>
    lazymatch type of c with
    | bool => apply tr_if; intros; tr_go
    | list _ => apply tr_list_case; [tr_go|intros; tr_go]
    | option _ => apply tr_option_case; [intros; tr_go|tr_go]
    | _ => destruct c eqn:?; tr_go
    end
  | |- tr _ (match ?x with _ => _ end) _ => destruct x eqn:?; tr_go
  | |- tr _ (each _ _) _ => apply tr_each; intros; use_members; tr_go
  | |- tr _ (eachi _ _) _ => apply tr_eachi; intros; use_members; tr_go
  | |- tr _ (sep_by _ (_ <$> _)) _ => apply tr_sep; intros; use_members; tr_go
  | |- tr _ (escd _) _ => unfold escd; tr_go
  | |- tr _ (escl _) _ => unfold escl; tr_go
  | |- tr _ (msgl _) _ => unfold msgl; tr_go
  | |- tr _ (num _) _ => unfold num; tr_go
  | |- _ => solve [auto with markup | eauto with markup | apply tr_frag; eauto with markup]
  end
with tr_list :=
  lazymatch goal with
  | |- tr ?st (?c :: ?h) ?st' => change (tr st ([c] ++ h) st'); tr_go
  end.
Ltac frag_go := unfold frag; tr_go.
(** Fragments given as arguments to another template. *)
#[export] Hint Extern 5 (frag (_ ++ _)) => frag_go : markup.
#[export] Hint Extern 5 (frag (_ :: _)) => frag_go : markup.

(** ** The elements a page looks up

    [$("x")] finds an element of the page when the text of the page holds the
    attribute [id="x"]. *)
Definition id_attr (i : jstr) : jstr := lit " id=" ++ [34%N] ++ i ++ [34%N].
Definition finds (h : html) (i : jstr) : Prop :=
  forall lang, includes (id_attr i) (markup lang h) = true.

Lemma starts_with_app p a b : starts_with p a = true -> starts_with p (a ++ b) = true.
Proof.
  unfold starts_with. destruct (strip_prefix p a) as [r|] eqn:H; [|done].
  apply strip_prefix_Some in H as ->. by rewrite <- app_assoc, strip_prefix_app.
Qed.
Lemma includes_app_l p a b : includes p a = true -> includes p (a ++ b) = true.
Proof.
  induction a as [|c a IH]; intros H.
  - simpl in H. rewrite orb_false_r in H. destruct p; [|done]. by destruct b.
  - simpl in *. apply orb_true_iff in H as [H|H]; apply orb_true_iff.
    + left. by apply (starts_with_app _ (c :: a)).
    + right. by apply IH.
Qed.
Lemma includes_app_r p a b : includes p b = true -> includes p (a ++ b) = true.
Proof. intros H. induction a as [|c a IH]; [done|]. simpl. rewrite IH. apply orb_true_r. Qed.

Lemma finds_L i s : includes (id_attr i) s = true -> finds [L s] i.
Proof. intros H lang. simpl. by rewrite app_nil_r. Qed.
Lemma finds_l i a b : finds a i -> finds (a ++ b) i.
Proof. intros H lang. rewrite markup_app. apply includes_app_l, H. Qed.
Lemma finds_r i a b : finds b i -> finds (a ++ b) i.
Proof. intros H lang. rewrite markup_app. apply includes_app_r, H. Qed.
Lemma finds_if i (c : bool) a b : (c = true -> finds a i) -> (c = false -> finds b i) -> finds (if c then a else b) i.
Proof. destruct c; auto. Qed.
Lemma finds_only i c h : c = true -> finds h i -> finds (only c h) i.
Proof. by intros ->. Qed.

(** [finds page i] for a literal id. *)
Create HintDb finds.
Ltac find_go :=
  lazymatch goal with
  | |- finds (_ ++ _) _ => first [apply finds_l; find_go | apply finds_r; find_go]
  | |- finds [L ?s] ?i =>
    let b := eval vm_compute in (includes (id_attr i) s) in
    lazymatch b with true => refine (finds_L i s _); vm_cast_no_check (eq_refl true) end
  | |- finds (only _ _) _ => apply finds_only; [first [assumption|reflexivity]|find_go]
  | |- finds (if _ then _ else _) _ => apply finds_if; intros; find_go
  | |- _ => first [assumption | solve [eauto with finds]]
  end.
Ltac find_all := repeat (apply Forall_cons; split; [find_go|]); apply Forall_nil; done.
