(* ===== verification/Screens.v ===== *)
(** * The shared pieces of the screens (base.js): copyable values, badges, help
    bubbles, sparklines, the dialogs, the jump menu, the login page, the graph

    Each template as a function from what it prints to its chunks, and why it is
    inert. What a template prints unescaped is a number, a text of the dictionaries
    or a word the server picks from a fixed list (a state, a run type): those are
    the [plain] hypotheses. *)

From S2P Require Import Prelude JsCore Schedule DictData Labels Format GraphLayout Jump Dialogs Session Markup.

(** ** Small pieces *)

Definition copy_span (value cls title : jstr) : html :=
  src "<span class=`copyable " ++ [V cls] ++ src "` data-copy=`" ++ escd value
  ++ src "` role=`button` tabindex=`0` title=`" ++ [E (fun lang => title ||j say "copy_hint" lang)]
  ++ src "` aria-label=`" ++ msg "copy_hint" ++ src ": " ++ escd value ++ src "`>" ++ escd value
  ++ src "</span>".

Definition badge (s : jstr) (sm : bool) : html :=
  let k := s ||j lit "none" in
  src "<span class=`badge" ++ only sm (src " sm") ++ src " s-" ++ [V k]
  ++ src "`><span class=`d`></span>" ++ [M (stateText s)] ++ src "</span>".

(** [html.replace(/<[^>]+>/g, "")] *)
Fixpoint strip_loop (fuel : nat) (s : jstr) : jstr :=
  match fuel, s with
  | S f, c :: r =>
    if (c =? ch "<")%N then
      match span (fun d => negb (d =? ch ">")%N) r with
      | (_ :: _, _ :: r') => strip_loop f r'
      | _ => c :: strip_loop f r
      end
    else c :: strip_loop f r
  | _, _ => []
  end.
Definition strip_tags (s : jstr) : jstr := strip_loop (length s) s.

Definition hlp (key pos : jstr) : html :=
  let tip := tx (T key []) in
  src "<span class=`hlp" ++ only (truthy pos) (src " hlp-" ++ [V pos])
  ++ src "` tabindex=`0` aria-label=`" ++ [E (fun lang => strip_tags (tip lang))]
  ++ src "`>?<span class=`tip` aria-hidden=`true`>" ++ [M tip] ++ src "</span></span>".

(** A bar's tooltip: the state, and the duration where there is one. *)
Definition bar_label (b : bar) : text := fun lang =>
  if bool_decide (bar_k b = lit "noruns") then stateText (lit "none") lang
  else if (0 <? bar_ms b)%Z then stateText (bar_k b) lang ++ lit " · " ++ fmtMs (bar_ms b)
  else stateText (bar_k b) lang.
Definition spark_html (points : list point) (scaleMs : Z) : html :=
  src "<div class=`spark`>"
  ++ each (sparkline points scaleMs) (fun b =>
       src "<i class=`" ++ escd (bar_k b) ++ src "` style=`height:" ++ num (bar_h b)
       ++ src "px` title=`" ++ [E (bar_label b)] ++ src "`></i>")
  ++ src "</div>".

Lemma copy_span_frag x cls title : plain cls = true -> frag (copy_span x cls title).
Proof. intros H. unfold copy_span. frag_go. Qed.
Lemma badge_frag s sm : plain s = true -> frag (badge s sm).
Proof. intros H. unfold badge. cbv zeta. frag_go. Qed.
Lemma spark_frag ps n : frag (spark_html ps n).
Proof. unfold spark_html. frag_go. Qed.

(** The help texts the screens use: three of them have markup of their own. *)
Lemma hlp_frag key pos : plain_key key = true -> plain pos = true -> frag (hlp key pos).
Proof. intros Hk Hp. unfold hlp. cbv zeta. frag_go. Qed.
Ltac rich := apply tr_rich; intros []; vm_compute; reflexivity.
Lemma hlp_rich_frag key pos :
  key ∈ [lit "hlp_dag"; lit "hlp_toggle"; lit "hlp_spark"] -> plain pos = true -> frag (hlp key pos).
Proof.
  intros Hk Hp. unfold hlp. cbv zeta. unfold frag.
  repeat (apply elem_of_cons in Hk as [->|Hk]); [..|by apply elem_of_nil in Hk].
  all: repeat (eapply tr_app; [first [tr_go|rich]|]); tr_go.
Qed.
#[export] Hint Resolve copy_span_frag badge_frag spark_frag hlp_frag : markup.
#[export] Hint Extern 4 (frag (hlp _ _)) => apply hlp_rich_frag; [set_solver|reflexivity] : markup.

(** ** Dialogs: [opts] and the options of a choice *)

Record pick_option := PickOption { po_value : jstr; po_label : text; po_danger : bool }.

Definition confirm_html (title body : text) (hasBody danger : bool) (okLabel : option text) : html :=
  src "<div class=`overlay` id=`cfm-ovl`><div class=`modal confirm` role=`dialog` aria-modal=`true` aria-label=`"
  ++ [E title] ++ src "`>
      <h2>" ++ [E title] ++ src "</h2>
      <div class=`body`>" ++ only hasBody (src "<p class=`cfm-body`>" ++ [E body] ++ src "</p>") ++ src "</div>
      <div class=`foot`><button id=`cfm-cancel`>" ++ emsg "cancel_word" ++ src "</button><button class=`"
  ++ (if danger then src "danger" else src "primary") ++ src "` id=`cfm-ok`>"
  ++ [E (default (say "confirm_word") okLabel)] ++ src "</button></div>
    </div></div>".

Definition pick_buttons (options : list pick_option) : html :=
  eachi options (fun o i =>
    src "<button class=`"
    ++ (if po_danger o then src "danger" else only (i =? 0)%Z (src "primary"))
    ++ src "` data-pick=`" ++ escd (po_value o) ++ src "`>" ++ [E (po_label o)] ++ src "</button>").
Definition pick_html (title body : text) (hasBody : bool) (options : list pick_option) : html :=
  src "<div class=`overlay` id=`pick-ovl`><div class=`modal confirm` role=`dialog` aria-modal=`true` aria-label=`"
  ++ [E title] ++ src "`>
      <h2>" ++ [E title] ++ src "</h2>
      <div class=`body`>" ++ only hasBody (src "<p class=`cfm-body`>" ++ [E body] ++ src "</p>") ++ src "</div>
      <div class=`foot pick-foot`><button id=`pick-cancel`>" ++ emsg "cancel_word" ++ src "</button>"
  ++ pick_buttons options ++ src "</div>
    </div></div>".

(** ** The jump menu *)

Definition hl_match (id q : jstr) : html :=
  match indexOf q (toLowerCase id) with
  | None => escd id
  | Some i => escd (take i id) ++ src "<b>" ++ escd (take (length q) (drop i id)) ++ src "</b>"
              ++ escd (drop (i + length q) id)
  end.
(** [menu.innerHTML], for the ids that match [q] *)
Definition jump_html (q : jstr) (ids : list jstr) : html :=
  match ids with
  | [] => src "<div class=`jump-empty`>" ++ msg "jump_none" ++ src "</div>"
  | _ => eachi ids (fun id i =>
      src "<div class=`jump-item " ++ only (i =? 0)%Z (src "sel") ++ src "` id=`jump-opt-" ++ num i
      ++ src "` data-jump=`" ++ escd id ++ src "` role=`option` aria-selected=`"
      ++ (if (i =? 0)%Z then src "true" else src "false") ++ src "`><span class=`mono`>" ++ hl_match id q
      ++ src "</span><span class=`jump-open`>" ++ msg "jump_open" ++ src " →</span></div>")
  end.

(** ** The user chip, the login page, a failed start *)

Definition chip_html (u : user) : html :=
  src "<div class=`uc-id`><span class=`uc-name`>" ++ escd (u_name u) ++ src "</span><span class=`uc-role`>"
  ++ (if bool_decide (u_role u = lit "viewer") then msg "role_viewer" else msg "role_admin")
  ++ src "</span></div><button class=`uc-logout` id=`uc-logout`>" ++ msg "logout" ++ src "</button>".

Definition login_html (expired : bool) : html :=
  src "
    <div class=`login-overlay`>
      <form class=`login-card` id=`login-form` novalidate>
        <div class=`login-logo`><span class=`logo` style=`width:22px;height:22px;font-size:13px`>c</span> cronova</div>
        <div class=`login-h`>" ++ msg "login_title" ++ src "</div>
        <div class=`login-sub`>" ++ (if expired then msg "sess_expired" else msg "login_sub") ++ src "</div>
        <label class=`login-lbl`>" ++ msg "login_user" ++ src "<input id=`login-user` autocomplete=`username`></label>
        <label class=`login-lbl`>" ++ msg "login_pass" ++ src "<input id=`login-pass` type=`password` autocomplete=`current-password`></label>
        <div class=`login-err` id=`login-err` hidden></div>
        <button class=`primary login-submit` type=`submit`>" ++ msg "login_btn" ++ src "</button>
      </form>
    </div>".

(** The one-line pages of a failed request. *)
Definition error_html (message : text) : html :=
  src "<div class=`empty err`>" ++ msg "api_err" ++ src ": " ++ [E message] ++ src "</div>".

Lemma confirm_frag title body b d ok : frag (confirm_html title body b d ok).
Proof. unfold confirm_html. frag_go. Qed.
Lemma pick_frag title body b os : frag (pick_html title body b os).
Proof. unfold pick_html, pick_buttons. frag_go. Qed.
Lemma hl_match_frag id q : frag (hl_match id q).
Proof. unfold hl_match. frag_go. Qed.
#[export] Hint Resolve hl_match_frag : markup.
Lemma jump_frag q ids : frag (jump_html q ids).
Proof. unfold jump_html. frag_go. Qed.
Lemma chip_frag u : frag (chip_html u).
Proof. unfold chip_html. frag_go. Qed.
Lemma login_frag b : frag (login_html b).
Proof. unfold login_html. frag_go. Qed.
Lemma error_frag m : frag (error_html m).
Proof. unfold error_html. frag_go. Qed.
#[export] Hint Resolve confirm_frag pick_frag jump_frag chip_frag login_frag error_frag : markup.

(** ** The dependency graph as SVG *)

(** What the caller colours and tags: [stateByTask], [opts.dashed], [opts.editable],
    [opts.clickable], [opts.tag]. *)
Record gview := GView {
  gv_state : option (jstr -> jstr); gv_dashed : jstr -> bool;
  gv_editable : bool; gv_clickable : bool; gv_tag : bool;
}.
Definition tint (v p : jstr) : jstr * jstr :=
  (lit "color-mix(in srgb, var(" ++ v ++ lit ") " ++ p ++ lit "%, transparent)", lit "var(" ++ v ++ lit ")").
Definition STATE_COLORS : list (jstr * (jstr * jstr)) :=
  [ (lit "success", tint (lit "--ok") (lit "15")); (lit "failed", tint (lit "--fail") (lit "16"));
    (lit "running", tint (lit "--run") (lit "16")); (lit "up_for_retry", tint (lit "--warn") (lit "16"));
    (lit "queued", tint (lit "--warn") (lit "12")); (lit "scheduled", tint (lit "--warn") (lit "10"));
    (lit "upstream_failed", tint (lit "--upstream") (lit "12")); (lit "skipped", tint (lit "--skip") (lit "18"));
    (lit "cancelled", tint (lit "--skip") (lit "22")); (lit "timed_out", tint (lit "--fail") (lit "20")) ].
(** [None]: a name every object inherits, whose value is not the pair the caller takes apart. *)
Definition colorForState (s : option jstr) : option (jstr * jstr) :=
  let neutral := (lit "var(--panel-2)", lit "var(--line-2)") in
  match s with
  | None => Some neutral
  | Some s =>
    match assoc STATE_COLORS s with
    | Some c => Some c
    | None => if bool_decide (s ∈ proto_names) then None else Some neutral
    end
  end.
(** [s.length > n ? s.slice(0, n - 1) + "…" : s] *)
Definition ellipsis (n : nat) (s : jstr) : jstr :=
  if Nat.ltb n (length s) then take (n - 1) s ++ lit "…" else s.

Definition edge_path (e : gedge) : html :=
  src "M" ++ num (e_x1 e) ++ src " " ++ num (e_y1 e) ++ src " C " ++ num (e_mx e) ++ src " " ++ num (e_y1 e)
  ++ src ", " ++ num (e_mx e) ++ src " " ++ num (e_y2 e) ++ src ", " ++ num (e_x2 e) ++ src " " ++ num (e_y2 e).
Definition edge_html (e : gedge) : html :=
  src "<g class=`edge-g" ++ only (e_dashed e) (src " ext") ++ src "` data-efrom=`" ++ escd (e_from e)
  ++ src "` data-eto=`" ++ escd (e_to e) ++ src "`><path class=`graph-edge` d=`" ++ edge_path e ++ src "`/>"
  ++ only (e_hit e)
       (src "<path class=`edge-hit` d=`" ++ edge_path e ++ src "` tabindex=`0` role=`button` aria-label=`"
        ++ escl (T (lit "ge_edge_aria") [Raw (e_from e); Raw (e_to e)]) ++ src "`/>")
  ++ src "</g>".

Definition stub_html (b : gbox) (ext : jstr) : html :=
  src "<g class=`graph-node ext` aria-hidden=`true`><rect x=`" ++ num (b_x b) ++ src "` y=`" ++ num (b_y b + 4)
  ++ src "` width=`" ++ num NW ++ src "` height=`" ++ num (NH - 8)
  ++ src "` rx=`8` style=`fill:var(--panel-2);stroke:var(--line-2)` stroke-width=`1.2` stroke-dasharray=`4 4`/><text x=`"
  ++ num (b_x b + NW / 2) ++ src "` y=`" ++ num (b_y b + NH / 2 + 4) ++ src "` text-anchor=`middle`>⌁ "
  ++ escd (ellipsis 16 ext) ++ src "</text></g>".

Definition node_html (v : gview) (b : gbox) : option html :=
  let id := n_id (b_node b) in let sub := truthy (n_subdag (b_node b)) in
  match n_ext (b_node b) with
  | Some ext => Some (stub_html b ext)
  | None =>
    match colorForState ((fun f => f id) <$> gv_state v) with
    | None => None
    | Some (f, st0) =>
      let st := if b_pending b then lit "var(--accent)" else st0 in
      let running := match gv_state v with Some f => bool_decide (f id = lit "running") | None => false end in
      let attrs :=
        if gv_editable v || gv_clickable v then
          src " data-node=`" ++ escd id ++ src "` style=`cursor:pointer`"
          ++ only (gv_editable v)
               (src " tabindex=`0` role=`button` aria-label=`" ++ escl (T (lit "ge_node_aria") [Raw id]) ++ src "`")
        else only (gv_tag v) (src " data-node=`" ++ escd id ++ src "`") in
      let inner := only sub
        (src "<rect class=`g-inner` x=`" ++ num (b_x b + 3) ++ src "` y=`" ++ num (b_y b + 3) ++ src "` width=`"
         ++ num (NW - 6) ++ src "` height=`" ++ num (NH - 6) ++ src "` rx=`5.5` style=`stroke:" ++ [V st]
         ++ src "` stroke-width=`1`/>") in
      let label :=
        if sub then
          src "<text x=`" ++ num (b_x b + NW / 2) ++ src "` y=`" ++ num (b_y b + NH / 2 - 1)
          ++ src "` text-anchor=`middle`>⧉ " ++ escd id ++ src "</text><text class=`g-sub` x=`"
          ++ num (b_x b + NW / 2) ++ src "` y=`" ++ num (b_y b + NH / 2 + 11) ++ src "` text-anchor=`middle`>"
          ++ escd (ellipsis 20 (n_subdag (b_node b))) ++ src "</text>"
        else
          src "<text x=`" ++ num (b_x b + NW / 2) ++ src "` y=`" ++ num (b_y b + NH / 2 + 4)
          ++ src "` text-anchor=`middle`>" ++ escd id ++ src "</text>" in
      let handle := only (gv_editable v)
        (src "<circle class=`gh-hit` cx=`" ++ num (b_x b + NW) ++ src "` cy=`" ++ num (b_y b + NH / 2)
         ++ src "` r=`11` data-ghandle=`" ++ escd id ++ src "`/><circle class=`gh` cx=`" ++ num (b_x b + NW)
         ++ src "` cy=`" ++ num (b_y b + NH / 2) ++ src "` r=`5` data-ghandle=`" ++ escd id
         ++ src "` aria-hidden=`true`/>") in
      Some (src "<g class=`graph-node" ++ only (gv_tag v && running) (src " g-running")
            ++ only sub (src " subdag") ++ src "`" ++ attrs ++ src "><rect x=`" ++ num (b_x b) ++ src "` y=`"
            ++ num (b_y b) ++ src "` width=`" ++ num NW ++ src "` height=`" ++ num NH
            ++ src "` rx=`8` style=`fill:" ++ [V f] ++ src ";stroke:" ++ [V st] ++ src "` stroke-width=`"
            ++ (if b_pending b then src "2.6" else src "1.2") ++ src "`"
            ++ only (gv_dashed v id) (src " stroke-dasharray=`5 4`") ++ src "/>" ++ inner ++ label ++ handle
            ++ src "</g>")
    end
  end.

Definition zoom_html : html :=
  src "<div class=`graph-zoom` aria-hidden=`false`>
    <button class=`gz` data-z=`in` aria-label=`" ++ msg "gz_in" ++ src "` title=`" ++ msg "gz_in" ++ src "`>+</button>
    <button class=`gz` data-z=`fit` aria-label=`" ++ msg "gz_fit" ++ src "` title=`" ++ emsg "gz_hint" ++ src "`>⤢</button>
    <button class=`gz` data-z=`out` aria-label=`" ++ msg "gz_out" ++ src "` title=`" ++ msg "gz_out" ++ src "`>−</button></div>".

(** The picture of [GraphLayout.renderGraph], written out. *)
Definition graph_html (v : gview) (d : option drawing) : option html :=
  match d with
  | None => Some (src "<div class=`empty`>—</div>")
  | Some d =>
    match mapM (node_html v) (dr_boxes d) with
    | None => None
    | Some nodes =>
      Some (src "<div class=`graph-wrap` style=`height:" ++ num (dr_wrapH d) ++ src "px` title=`" ++ emsg "gz_hint"
            ++ src "`><svg class=`graph-svg` width=`" ++ num (dr_W d) ++ src "` height=`" ++ num (dr_H d)
            ++ src "` viewBox=`0 0 " ++ num (dr_W d) ++ src " " ++ num (dr_H d) ++ src "`>"
            ++ each (dr_edges d) edge_html ++ each nodes (fun h => h) ++ src "</svg>" ++ zoom_html ++ src "</div>")
    end
  end.

Lemma edge_path_tr st e : value_mode st.1 = true -> tr st (edge_path e) st.
Proof.
  destruct st as [[| | | | | | | |q el| | | |] k]; try done; intros Hq; unfold edge_path; [tr_go|].
  simpl in Hq. apply N.eqb_eq in Hq as ->. tr_go.
Qed.
#[export] Hint Resolve edge_path_tr : markup.
Lemma edge_frag e : frag (edge_html e).
Proof. unfold edge_html. frag_go. Qed.
Lemma zoom_frag : frag zoom_html.
Proof. unfold zoom_html. frag_go. Qed.
Lemma stub_frag b x : frag (stub_html b x).
Proof. unfold stub_html. frag_go. Qed.
Lemma colors_plain s f st : colorForState s = Some (f, st) -> plain f = true /\ plain st = true.
Proof.
  unfold colorForState. destruct s as [s|]; [|by intros [= <- <-]].
  destruct (assoc STATE_COLORS s) as [c|] eqn:H.
  - intros [= ->]. apply assoc_in in H.
    repeat (apply elem_of_cons in H as [[= _ -> ->]|H]; [done|]). by apply elem_of_nil in H.
  - case_bool_decide; [done|]. by intros [= <- <-].
Qed.
#[export] Hint Resolve edge_frag zoom_frag stub_frag : markup.

Lemma node_frag v b h : node_html v b = Some h -> frag h.
Proof.
  unfold node_html. destruct (n_ext (b_node b)) as [ext|].
  { intros [= <-]. apply stub_frag. }
  destruct (colorForState _) as [[f st]|] eqn:Hc; [|done]. apply colors_plain in Hc as [Hf Hs].
  cbv zeta. generalize (truthy (n_subdag (b_node b))). intros sub.
  assert (Hp : plain (if b_pending b then lit "var(--accent)" else st) = true) by (by destruct (b_pending b)).
  generalize dependent (if b_pending b then lit "var(--accent)" else st). intros st' Hst'.
  intros Hh%(inj Some). subst h. frag_go.
Qed.
Lemma graph_frag v d h : graph_html v d = Some h -> frag h.
Proof.
  unfold graph_html. destruct d as [d|]; [|intros [= <-]; frag_go].
  destruct (mapM _ _) as [nodes|] eqn:Hn; [|done]. intros Hh%(inj Some). subst h.
  assert (Hf : Forall frag nodes).
  { apply mapM_Some in Hn. induction Hn; constructor; eauto using node_frag. }
  frag_go.
Qed.
(** Known states are drawn. *)
Lemma node_drawn v b :
  (forall f, gv_state v = Some f -> f (n_id (b_node b)) ∉ proto_names) -> is_Some (node_html v b).
Proof.
  intros H. unfold node_html. destruct (n_ext (b_node b)); [done|].
  destruct (gv_state v) as [f|]; simpl; [|done]. specialize (H f eq_refl).
  unfold colorForState. destruct (assoc STATE_COLORS _) as [[]|]; [done|]. by case_bool_decide.
Qed.
Lemma graph_drawn v d :
  (forall f, gv_state v = Some f -> forall i, f i ∉ proto_names) -> is_Some (graph_html v d).
Proof.
  intros H. unfold graph_html. destruct d as [d|]; [|done].
  assert (is_Some (mapM (node_html v) (dr_boxes d))) as [nodes ->]; [|done].
  apply mapM_is_Some, Forall_forall. intros b _. apply node_drawn. intros f Hf. by apply H.
Qed.

(** ** Dates, as the browser writes them *)

Class Host := {
  toLocaleString : Z -> jstr;
  hourMinute : language -> Z -> jstr;       (** [toLocaleTimeString], two digits each *)
  dayKey : Z -> Z;                          (** year, month and day of the local date *)
  yesterday : Z -> Z;                       (** [setDate(getDate() - 1)] *)
  monthDay : language -> Z -> jstr;
  date_plain : forall z, plain (toLocaleString z) = true;
}.
#[export] Hint Resolve date_plain : markup.

Definition fmt `{Host} (x : option Z) : jstr := match x with Some z => toLocaleString z | None => dash end.
Definition fmtDay `{Host} (now : Z) (x : option Z) : text := fun lang =>
  match x with
  | None => dash
  | Some d =>
    if (dayKey d =? dayKey now)%Z then say "day_today" lang ++ lit " " ++ hourMinute lang d
    else if (dayKey d =? dayKey (yesterday now))%Z then say "day_yesterday" lang ++ lit " " ++ hourMinute lang d
    else monthDay lang d ++ lit " " ++ hourMinute lang d
  end.
Lemma fmt_plain `{Host} x : plain (fmt x) = true.
Proof. destruct x; [apply date_plain|done]. Qed.
Lemma dur_plain now a b : plain (dur now a b) = true.
Proof.
  unfold dur, dash, min_sec, num_unit. destruct a; [|done]. cbv zeta.
  destruct (_ <? _)%Z; [done|]. destruct (_ <? _)%Z; by rewrite ?plain_app, ?plain_num.
Qed.
Lemma fmtMs_plain ms : plain (fmtMs ms) = true.
Proof.
  unfold fmtMs, dash, min_sec, num_unit. repeat destruct (_ <? _)%Z; destruct (_ <=? _)%Z;
    by rewrite ?plain_app, ?plain_num.
Qed.
#[export] Hint Resolve fmt_plain dur_plain fmtMs_plain : markup.
