(* ===== verification/HomePages.v ===== *)
(** * The pages of the workflow list (views.js): the dashboard, the novice home page,
    the bulk bar

    The templates of the two home pages as functions of the overview, and the
    elements their code looks up. Which rows are shown, what the health bar says and
    which boxes are ticked is [Dashboard]'s. *)

From S2P Require Import Prelude JsCore Schedule DictData Labels Format Jump Dashboard Markup Screens.

(** ** The dashboard *)

(** A workflow of [/api/overview]: what [Dashboard] keeps of it and what its row prints. *)
Record drow := DRow {
  dr_dag : odag; dr_type : jstr; dr_desc : jstr; dr_next : jstr; dr_points : list point;
}.
Definition drow_ok (d : drow) : Prop := plain (dr_type d) = true /\ plain (od_latest (dr_dag d)) = true.

Definition loud_hlp (k : jstr) : html := hlp k [].

Definition row_html (admin : bool) (sel : list jstr) (scaleMs : Z) (d : drow) : html :=
  let o := dr_dag d in
  src "<tr class=`row` data-id=`" ++ escd (od_id o) ++ src "`>
    " ++ only admin
      (src "<td><input type=`checkbox` class=`bulk-ck no-nav` data-id=`" ++ escd (od_id o) ++ src "` "
       ++ only (bool_decide (od_id o ∈ sel)) (src "checked") ++ src " aria-label=`"
       ++ escl (T (lit "bulk_pick") [Raw (od_id o)]) ++ src "`></td>")
  ++ src "
    <td><div class=`toggle no-nav " ++ only (negb (od_paused o)) (src "on")
  ++ src "` role=`switch` tabindex=`0` aria-checked=`" ++ (if od_paused o then src "false" else src "true")
  ++ src "` aria-label=`" ++ escd (od_id o) ++ src " — "
  ++ (if od_paused o then msg "btn_resume" else msg "btn_pause") ++ src "` title=`"
  ++ (if od_paused o then emsg "toggle_tip_off" else emsg "toggle_tip_on") ++ src "` data-id=`"
  ++ escd (od_id o) ++ src "` data-paused=`" ++ (if od_paused o then src "true" else src "false")
  ++ src "`></div></td>
    <td><div class=`dag-title`><span class=`dag-name` role=`button` tabindex=`0` aria-label=`"
  ++ escd (od_id o) ++ src "`>" ++ escd (od_id o) ++ src "</span><span class=`tag`>" ++ [M (typeText (dr_type d))]
  ++ src "</span>" ++ badge (od_latest o) true ++ src "</div><div class=`dag-desc`>"
  ++ escl (descLabel (dr_desc d)) ++ src "</div></td>
    <td>" ++ spark_html (dr_points d) scaleMs ++ src "</td>
    <td class=`mono muted` style=`font-size:12px`>" ++ escl (nextLabel (dr_next d)) ++ src "</td>
    <td style=`text-align:right`><button class=`icon play no-nav` style=`white-space:nowrap` data-id=`"
  ++ escd (od_id o) ++ src "` title=`" ++ emsg "run_now_tip" ++ src "`>▶ " ++ msg "btn_run_word"
  ++ src "</button></td></tr>".

Lemma row_frag admin sel n d : drow_ok d -> frag (row_html admin sel n d).
Proof. intros [Ht Hl]. unfold row_html. cbv zeta. frag_go. Qed.
#[export] Hint Resolve row_frag : markup.

(** [healthBarHtml]: [rate] is [success_rate.toFixed(0)]. *)
Definition stats_html (running rate : Z) : html :=
  src "<div class=`ov-stats`>
    <span title=`" ++ emsg "ov_running_tip" ++ src "`>" ++ msg "ov_running" ++ src " <b style=`color:var(--run)`>"
  ++ num running ++ src "</b></span>
    <span>" ++ msg "ov_rate" ++ src " <b style=`color:var(--ok)`>" ++ num rate ++ src "%</b>"
  ++ hlp (lit "hlp_rate") (lit "r") ++ src "</span></div>".

(** The parts of the line under a failing workflow's name: when, and the others. *)
Definition fail_parts `{Host} (now : Z) (ov : overview) (f : odag) (note : option label) : text := fun lang =>
  let last := List.find (fun a => bool_decide (ac_dag a = od_id f) && failed_now (ac_state a)) (ov_activity ov) in
  let when_ := match last with Some a => fmtDay now (ac_time a) lang | None => [] end in
  List.flat_map (fun p => lit " · " ++ p)
    ((if truthy when_ && bool_decide (when_ <> dash) then [when_] else [])
     ++ match note with Some l => [Labels.render lang l] | None => [] end).

Definition health_html `{Host} (now running rate : Z) (ov : overview) : html :=
  match List.filter (fun d => failed_now (od_latest d)) (ov_dags ov), healthBar ov with
  | f :: _, Failing dag run note =>
    src "<div class=`ov-bar bad`><span class=`ov-ic`>!</span>
    <div class=`ov-main`><span class=`ov-t`>" ++ escl (T (lit "ov_fail_title") [Raw dag])
    ++ src "</span><span class=`ov-s`>" ++ [E (fail_parts now ov f note)] ++ src "</span></div>
    " ++ stats_html running rate ++ src "
    <a id=`ov-go` role=`button` tabindex=`0`"
    ++ match run with Some r => src " data-run=`" ++ escd r ++ src "`" | None => [] end
    ++ src " data-dag=`" ++ escd dag ++ src "`>" ++ emsg "ov_go" ++ src "</a></div>"
  | _, AllOk last =>
    src "<div class=`ov-bar`><span class=`ov-ic ok`>✓</span>
      <div class=`ov-main`><span class=`ov-t`>" ++ emsg "ov_all_ok" ++ src "</span><span class=`ov-s`>"
    ++ [E (fun lang => match last with
                       | Some z => lit " · " ++ t lang (lit "ov_last_run") [fmtDay now (Some z) lang]
                       | None => [] end)]
    ++ src "</span></div>" ++ stats_html running rate ++ src "</div>"
  | _, _ => []
  end.

Definition gs_step_html (done : bool) (label : html) : html :=
  src "<span class=`gs-step " ++ only done (src "done") ++ src "`><span class=`gs-ic`>"
  ++ (if done then src "✓" else src "○") ++ src "</span>" ++ label ++ src "</span>".
Definition getting_started_html (steps : option (bool * bool * bool)) : html :=
  match steps with
  | None => []
  | Some (hasDag, hasRun, hasOk) =>
    src "<div class=`gs-box` id=`gs-box`>
    <span class=`gs-title`>" ++ msg "gs_title" ++ src "</span>
    " ++ gs_step_html hasDag (msg "gs_create") ++ src " " ++ gs_step_html hasRun (msg "gs_trigger") ++ src " "
    ++ gs_step_html hasOk (msg "gs_green") ++ src "
    <button class=`icon` id=`gs-x` aria-label=`" ++ msg "cancel_word" ++ src "`>✕</button></div>"
  end.

Lemma stats_frag a b : frag (stats_html a b).
Proof. unfold stats_html. frag_go. Qed.
#[export] Hint Resolve stats_frag : markup.
Lemma health_frag `{Host} now a b ov : frag (health_html now a b ov).
Proof. unfold health_html. frag_go. Qed.
Lemma getting_started_frag st : frag (getting_started_html st).
Proof. unfold getting_started_html, gs_step_html. frag_go. Qed.
#[export] Hint Resolve health_frag getting_started_frag : markup.

(** [renderDags]: [done] is the getting-started flag, [query] and [flt] the filter. *)
Definition scale_ms (rows : list drow) : Z := max_ms (rows ≫= fun d => pt_ms <$> dr_points d).
Definition FILTERS : list jstr := [lit "all"; lit "running"; lit "failed"; lit "paused"].

Definition empty_dags_html (viewer : bool) : html :=
  src "<div class=`ov-wrap`>
      <div class=`page-h`><h1>" ++ msg "nav_dags" ++ hlp (lit "hlp_dag") (lit "b") ++ src "</h1><span class=`num`>0</span></div>
      <div class=`page-sub`>" ++ msg "dags_sub" ++ src "</div>
      <div class=`empty-state` style=`margin-top:20px`><div class=`es-ic`>✦</div><div class=`es-t`>" ++ msg "no_dags_title"
  ++ src "</div><div class=`es-s`>" ++ msg "no_dags_sub" ++ src "</div>"
  ++ only (negb viewer) (src "<div style=`margin-top:16px`><button class=`primary` id=`es-new`>" ++ msg "newdag"
                         ++ src "</button></div>")
  ++ src "</div></div>".

Definition dags_html `{Host} (viewer done : bool) (query flt : jstr) (sel : list jstr) (now running rate total : Z)
    (ov : overview) (rows : list drow) : html :=
  let list_ := List.filter (fun d => row_shown query flt (dr_dag d)) rows in
  match rows with
  | [] => empty_dags_html viewer
  | _ =>
    src "<div class=`ov-wrap`>
    <div class=`page-h`><h1>" ++ msg "nav_dags" ++ hlp (lit "hlp_dag") (lit "b") ++ src "</h1><span class=`num`>"
    ++ num total ++ src "</span></div>
    <div class=`page-sub` style=`margin-bottom:14px`>" ++ msg "dags_sub" ++ src "</div>
    " ++ health_html now running rate ov ++ src "
    " ++ getting_started_html (gettingStarted done (dr_dag <$> rows)).2 ++ src "
    <div class=`filters` style=`margin-bottom:12px`>"
    ++ each FILTERS (fun f => src "<button class=`pill " ++ only (bool_decide (flt = f)) (src "active") ++ src "` data-f=`"
                              ++ [V f] ++ src "`>" ++ msgl (T (lit "f_" ++ f) []) ++ src "</button>")
    ++ src "</div>
    <table class=`tbl`><thead><tr>
      " ++ only (negb viewer) (src "<th style=`width:30px`><input type=`checkbox` id=`bulk-all` aria-label=`"
                               ++ emsg "bulk_all" ++ src "` title=`" ++ emsg "bulk_all" ++ src "`></th>") ++ src "
      <th style=`width:42px`>" ++ loud_hlp (lit "hlp_toggle") ++ src "</th>
      <th>" ++ msg "h_dag" ++ src "</th>
      <th>" ++ msg "h_spark" ++ loud_hlp (lit "hlp_spark") ++ src "</th>
      <th>" ++ msg "h_next" ++ hlp (lit "hlp_next") (lit "r") ++ src "</th>
      <th style=`width:96px`></th></tr></thead>
    <tbody>" ++ each list_ (row_html (negb viewer) sel (scale_ms rows)) ++ src "</tbody></table>
    " ++ match list_ with
         | [] => src "<div class=`tbl-empty`>" ++ (if truthy query then msg "no_match" else msg "no_match_filter") ++ src "</div>"
         | _ => [] end
    ++ src "
    <div class=`bulk-bar` id=`bulk-bar` hidden></div></div>"
  end.

(** [renderBulkBar] *)
Definition bulk_html (n : nat) : html :=
  src "<span class=`bulk-n`>" ++ escl (T (lit "bulk_selected") [Raw (digits (N.of_nat n))]) ++ src "</span>
    <button data-bulk=`pause`>" ++ msg "btn_pause" ++ src "</button>
    <button data-bulk=`resume`>" ++ msg "btn_resume" ++ src "</button>
    <button data-bulk=`trigger`>▶ " ++ msg "trigger" ++ src "</button>
    <button class=`danger` data-bulk=`delete`>" ++ msg "btn_delete" ++ src "</button>
    <button class=`icon` id=`bulk-clear` aria-label=`" ++ msg "cancel_word" ++ src "`>✕</button>".

Lemma empty_dags_frag v : frag (empty_dags_html v).
Proof. unfold empty_dags_html. frag_go. Qed.
#[export] Hint Resolve empty_dags_frag : markup.
Lemma Forall_filter_bool {A} (P : A -> Prop) (f : A -> bool) l : Forall P l -> Forall P (List.filter f l).
Proof. rewrite !List.Forall_forall. intros H x [Hx _]%List.filter_In. by apply H. Qed.
Lemma dags_frag `{Host} v d q f sel now a b c ov rows :
  Forall drow_ok rows -> frag (dags_html v d q f sel now a b c ov rows).
Proof.
  intros Hok. pose proof (Forall_filter_bool _ (fun d => row_shown q f (dr_dag d)) _ Hok) as Hf.
  unfold dags_html, loud_hlp. cbv zeta. destruct rows; [frag_go|].
  generalize dependent (List.filter (fun d => row_shown q f (dr_dag d)) (d0 :: rows)).
  intros l Hf. frag_go.
Qed.
Lemma bulk_frag n : frag (bulk_html n).
Proof. unfold bulk_html. frag_go. Qed.

(** ** The novice home page *)

Definition S0_CHIPS : list (Z * jstr) := [(1, lit "s0_step1"); (2, lit "s0_step2"); (3, lit "s0_step3")]%Z.
Definition s0_chip (x : Z * jstr) : html :=
  src "<div class=`s0-chip`><span class=`nv-num`>" ++ num x.1 ++ src "</span><span>" ++ escl (T x.2 []) ++ src "</span></div>".
Definition s0_html (viewer : bool) : html :=
  src "<div class=`s0`>
      <div class=`logo`>✦</div>
      <h1>" ++ emsg "s0_title" ++ src "</h1>
      <div class=`s0-sub`>" ++ emsg "s0_sub" ++ src "<br>" ++ emsg "s0_sub2" ++ src "</div>
      <div class=`s0-steps`>" ++ sep_by (src "<span class=`s0-arrow`>→</span>") (s0_chip <$> S0_CHIPS) ++ src "</div>
      " ++ only (negb viewer) (src "<button class=`primary s0-cta` id=`s0-go`>" ++ emsg "s0_cta" ++ src "</button>") ++ src "
      <div class=`s0-expert`><a id=`s0-expert` role=`button` tabindex=`0`>" ++ emsg "s0_expert_link" ++ src "</a></div>
      <div class=`s0-term nv-hint`>" ++ emsg "s0_term_hint" ++ src "</div>
    </div>".

(** The line under a workflow's name; a workflow named like an inherited member gets
    that member for a run. *)
Definition nv_line `{Host} (sched : jstr) (ms_of : activity -> Z) (feed : list activity) (o : odag) : text := fun lang =>
  join (lit " · ")
    ((if od_paused o then [say "nx_paused" lang] else [])
     ++ [Labels.render lang (nvSchedGloss sched)]
     ++ [match nv_last_of feed o with
         | LastRun a =>
           t lang (lit "nv_last_run") [stateText (ac_state a) lang] ++ lit "（" ++ fmt (ac_time a)
           ++ (if (0 <? ms_of a)%Z then lit " · " ++ fmtMs (ms_of a) else []) ++ lit "）"
         | LastState s => t lang (lit "nv_last_run") [stateText s lang]
         | Never => say "nv_never_ran" lang
         | LastInherited => t lang (lit "nv_last_run") [lit "undefined"] ++ lit "（" ++ dash ++ lit "）"
         end]).

Definition nv_row_html `{Host} (sched : jstr -> jstr) (ms_of : activity -> Z) (feed : list activity) (o : odag) : html :=
  src "<div class=`nv-item` style=`padding:15px 18px;gap:14px`>
      <div class=`toggle " ++ only (negb (od_paused o)) (src "on") ++ src "` role=`switch` tabindex=`0` aria-checked=`"
  ++ (if od_paused o then src "false" else src "true") ++ src "` aria-label=`" ++ escd (od_id o) ++ src " — "
  ++ (if od_paused o then msg "btn_resume" else msg "btn_pause") ++ src "` data-id=`" ++ escd (od_id o)
  ++ src "` data-paused=`" ++ (if od_paused o then src "true" else src "false") ++ src "`></div>
      <div class=`nv-main`>
        <div class=`mono` style=`font-size:14px;font-weight:600`>" ++ escd (od_id o) ++ src "</div>
        <div style=`font-size:12.5px;color:var(--muted);margin-top:2px;overflow:hidden;text-overflow:ellipsis;white-space:nowrap`>"
  ++ [E (nv_line (sched (od_id o)) ms_of feed o)] ++ src "</div>
      </div>
      " ++ only (truthy (od_latest o)) (badge (od_latest o) false) ++ src "
      <button data-nvrun=`" ++ escd (od_id o) ++ src "`>" ++ emsg "nv_run_btn" ++ src "</button>
      <button class=`primary` data-nvview=`" ++ escd (od_id o) ++ src "`>" ++ emsg "nv_view_btn" ++ src "</button>
    </div>".

Definition nv_health_html (dags : list odag) : html :=
  match List.filter (fun d => failed_now (od_latest d)) dags with
  | f :: more =>
    src "<div class=`nv-banner bad` style=`margin-top:6px`>
        <span class=`nv-big-ic bad` style=`width:34px;height:34px;font-size:16px`>!</span>
        <div class=`nv-bmain`><div class=`nv-bt`>"
    ++ escl (T (lit "nv_health_bad_title") [Raw (digits (N.of_nat (length (f :: more))))]) ++ src "</div>
        <div class=`nv-bs`>" ++ escl (T (lit "nv_health_bad_line") [Raw (od_id f)]) ++ src "</div></div>
        <button class=`primary` id=`nv-fix`>" ++ emsg "nv_fix" ++ src "</button>
      </div>"
  | [] =>
    src "<div class=`nv-banner` style=`margin-top:6px`>
        <span class=`nv-big-ic ok` style=`width:34px;height:34px;font-size:17px`>✓</span>
        <div class=`nv-bmain`><div class=`nv-bt`>" ++ emsg "nv_health_ok" ++ src "</div>
        <div class=`nv-bs`>" ++ escl (T (lit "nv_health_line") [Raw (digits (N.of_nat (length dags)))]) ++ src "</div></div>
        <a id=`nv-metrics` role=`button` tabindex=`0` style=`font-size:12.5px;cursor:pointer`>" ++ emsg "nv_metrics_link" ++ src "</a>
      </div>"
  end.

Definition nv_home_html `{Host} (viewer : bool) (sched : jstr -> jstr) (ms_of : activity -> Z) (ov : overview) : html :=
  match ov_dags ov with
  | [] => s0_html viewer
  | dags =>
    src "<div class=`nv-wrap`>
    " ++ nv_health_html dags ++ src "
    <div class=`section-h` style=`margin:0 0 10px`>" ++ emsg "nv_myflows" ++ src "</div>
    <div class=`nv-panel`>" ++ each dags (nv_row_html sched ms_of (ov_activity ov)) ++ src "</div>
    <div class=`nv-links`>
      <span>" ++ emsg "nv_next_hints" ++ src "</span>
      <a id=`nv-another` role=`button` tabindex=`0`>" ++ emsg "nv_hint_another" ++ src "</a>
      <span>·</span>
      <a id=`nv-expert` role=`button` tabindex=`0`>" ++ emsg "nv_hint_expert" ++ src "</a>
    </div>
  </div>"
  end.

Definition odag_ok (o : odag) : Prop := plain (od_latest o) = true.
Lemma s0_frag v : frag (s0_html v).
Proof. unfold s0_html, s0_chip. frag_go. Qed.
Lemma nv_row_frag `{Host} sched ms feed o : odag_ok o -> frag (nv_row_html sched ms feed o).
Proof. intros Ho. unfold odag_ok in Ho. unfold nv_row_html. frag_go. Qed.
Lemma nv_health_frag dags : frag (nv_health_html dags).
Proof. unfold nv_health_html. frag_go. Qed.
#[export] Hint Resolve s0_frag nv_row_frag nv_health_frag : markup.
Lemma nv_home_frag `{Host} v sched ms ov : Forall odag_ok (ov_dags ov) -> frag (nv_home_html v sched ms ov).
Proof.
  intros Hok. unfold nv_home_html. destruct (ov_dags ov) as [|o l] eqn:Ho; [frag_go|].
  generalize dependent (o :: l). intros dags _ Hok. frag_go.
Qed.

(** What the code of the two pages looks up without asking whether it is there. *)
Definition s0_ids : list jstr := [lit "s0-expert"].
Definition nv_home_ids : list jstr := [lit "nv-another"; lit "nv-expert"].
Lemma nv_home_finds `{Host} v sched ms ov :
  Forall (finds (nv_home_html v sched ms ov)) (match ov_dags ov with [] => s0_ids | _ => nv_home_ids end).
Proof. unfold nv_home_html, s0_html. destruct (ov_dags ov); find_all. Qed.
Lemma bulk_finds n : finds (bulk_html n) (lit "bulk-clear").
Proof. unfold bulk_html. find_go. Qed.
