(* ===== verification/DagPages.v ===== *)
(** * The page of a workflow (views.js): the hero, the tabs, the novice page, the
    structure and run-history tabs, and the dialogs opened from them

    The templates as functions of the page's model ([DagModel.dag], its tasks, the
    runs the server listed), the elements their code looks up, and a page that
    cannot be written: a task named after a method every object inherits. *)

From S2P Require Import Prelude JsCore Schedule TaskGraph DagModel DagEdit DiffPanel DiffLines.
From S2P Require Import DictData Labels Format RunView RunsTab Settings GraphLayout Markup Screens.

(** A run as the history lists it. *)
Record hrun := HRun {
  hr_id : jstr; hr_state : jstr; hr_type : jstr; hr_logical : jstr; hr_priority : Z;
  hr_start : option Z; hr_end : option Z;
}.
Definition hrun_ok (r : hrun) : Prop := plain (hr_state r) = true /\ plain (hr_type r) = true.

Lemma hrun_state r : hrun_ok r -> plain (hr_state r) = true.
Proof. by intros []. Qed.
Lemma hrun_type r : hrun_ok r -> plain (hr_type r) = true.
Proof. by intros []. Qed.
#[export] Hint Resolve hrun_state hrun_type : markup.

Definition schedSummary (d : sched) : text := fun lang =>
  List.flat_map (Labels.render lang) (Schedule.schedSummary d).

(** ** The hero *)

Definition last_html `{Host} (now : Z) (last : option hrun) : html :=
  match last with
  | Some r => src "<span class=`v`>" ++ badge (hr_state r) false ++ src " <span class=`muted`>"
              ++ [V (fmt (hr_start r))] ++ src " · " ++ [V (dur now (hr_start r) (hr_end r))] ++ src "</span></span>"
  | None => src "<span class=`v muted`>" ++ msg "dh_never" ++ src "</span>"
  end.
Definition terminal_run (r : hrun) : bool :=
  bool_decide (hr_state r ∈ [lit "success"; lit "failed"; lit "timed_out"]).
Definition hero_stats_html `{Host} (now : Z) (d : dag) (runs : list hrun) : html :=
  let terminal := List.filter terminal_run runs in
  let okN := length (List.filter (fun r => bool_decide (hr_state r = lit "success")) terminal) in
  src "<div class=`dh-stat`><span class=`k`>" ++ msg "dh_last" ++ src "</span>
      " ++ last_html now (head runs) ++ src "</div>
    <div class=`dh-stat`><span class=`k`>" ++ msg "dh_next" ++ src "</span><span class=`v`>"
  ++ [E (schedSummary (d_sched d))] ++ src "</span></div>
    <div class=`dh-stat`><span class=`k`>" ++ msg "dh_rate" ++ src "</span><span class=`v`>"
  ++ (if Nat.eqb (length terminal) 0 then msg "dh_norate"
      else num (Z.of_nat okN) ++ src "/" ++ num (Z.of_nat (length terminal)) ++ src " " ++ [M (stateText (lit "success"))])
  ++ src "</span></div>".

Definition DAG_TABS : list jstr := [lit "runs"; lit "structure"; lit "settings"].
Definition dag_type (d : dag) : jstr :=
  if truthy (schedule (d_sched d)) then lit "schedule"
  else match d_trigger_after d with [] => lit "manual" | _ => lit "dependency" end.

Definition dag_page_html `{Host} (now : Z) (d : dag) (ntasks : nat) (runs : list hrun) (coach : bool) (tab : jstr) : html :=
  let noTasks := Nat.eqb ntasks 0 in
  src "
    <div class=`crumb-bar`><a id=`back`>" ++ msg "back_dags" ++ src "</a> / " ++ escd (d_dag_id d) ++ src "</div>
    <div class=`dag-hero`>
      <div class=`dh-top`>
        <h1 class=`mono`>" ++ copy_span (d_dag_id d) [] [] ++ src "</h1>
        <span class=`tag`>" ++ [M (typeText (dag_type d))] ++ src "</span>
        " ++ only (d_paused d) (src "<span class=`tag warn`>" ++ msg "f_paused" ++ src "</span>") ++ src "
        <span class=`savestate ss-saved` id=`d-save`></span>
        <div class=`dh-actions`>
          <button class=`primary` id=`trig` " ++ only noTasks (src "disabled") ++ src ">" ++ msg "btn_trigger" ++ src "</button>
          <button class=`icon` id=`trig-params` title=`" ++ msg "trig_params" ++ src "` " ++ only noTasks (src "disabled")
  ++ src " aria-label=`" ++ msg "trig_params" ++ src "`>⋯</button>
          " ++ only (truthy (schedule (d_sched d)))
                 (src "<button id=`backfill-btn` " ++ only noTasks (src "disabled") ++ src ">" ++ msg "btn_backfill" ++ src "</button>")
  ++ src "
          <button id=`pause`>" ++ (if d_paused d then msg "btn_resume" else msg "btn_pause") ++ src "</button>
          <button class=`icon` id=`dup` title=`" ++ msg "btn_duplicate" ++ src "`>" ++ msg "btn_duplicate" ++ src "</button>
          <button class=`icon` id=`yaml-btn`>YAML</button>
        </div>
      </div>
      <div class=`dh-stats` id=`dh-stats`>" ++ hero_stats_html now d runs ++ src "
      </div>
      " ++ only noTasks (src "<div class=`page-sub` style=`margin:8px 0 0`>" ++ msg "dag_disabled_hint" ++ src "</div>") ++ src "
    </div>
    " ++ only coach
      (src "<div class=`coach-ribbon` id=`coach`><span>✦ " ++ msg "coach_tpl_ready"
       ++ src "</span><button class=`primary` id=`coach-run`>" ++ msg "btn_trigger"
       ++ src "</button><button class=`icon` id=`coach-x` aria-label=`" ++ msg "cancel_word" ++ src "`>✕</button></div>")
  ++ src "
    <div class=`run-tabs dag-tabs` id=`dag-tabs`>
      " ++ each DAG_TABS (fun k =>
        src "<button class=`pill " ++ only (bool_decide (tab = k)) (src "active") ++ src "`"
        ++ only (bool_decide (tab = k)) (src " aria-current=`true`") ++ src " data-dt=`" ++ [V k] ++ src "`>"
        ++ msgl (T (lit "tab_" ++ k) [])
        ++ only (bool_decide (k = lit "structure")) (src " <span class=`tab-n`>" ++ num (Z.of_nat ntasks) ++ src "</span>")
        ++ src "</button>")
  ++ src "
    </div>
    <div class=`b-errors` id=`dag-errors`></div>
    <div id=`dag-tab-body`></div>".

(** What [renderDagPage] looks up without asking whether it is there. *)
Definition dag_page_ids : list jstr :=
  [lit "back"; lit "trig"; lit "pause"; lit "dup"; lit "yaml-btn"; lit "dag-tabs"].

Lemma head_ok {A} (P : A -> Prop) l x : Forall P l -> head l = Some x -> P x.
Proof. intros [|y r Hy _]; [done|]. by intros [= <-]. Qed.
Lemma last_frag `{Host} now last : (forall r, last = Some r -> hrun_ok r) -> frag (last_html now last).
Proof.
  intros Hok. unfold last_html. destruct last as [r|]; [|frag_go].
  destruct (Hok r eq_refl) as [Hs Ht]. frag_go.
Qed.
Lemma hero_stats_frag `{Host} now d runs : Forall hrun_ok runs -> frag (hero_stats_html now d runs).
Proof.
  intros Hok. assert (Hl : frag (last_html now (head runs))).
  { apply last_frag. intros r. by apply head_ok. }
  unfold hero_stats_html. cbv zeta. frag_go.
Qed.
Lemma dag_type_plain d : plain (dag_type d) = true.
Proof. unfold dag_type. destruct (truthy _); [done|]. by destruct (d_trigger_after d). Qed.
#[export] Hint Resolve hero_stats_frag dag_type_plain : markup.
Lemma dag_page_frag `{Host} now d n runs coach tab :
  Forall hrun_ok runs -> frag (dag_page_html now d n runs coach tab).
Proof. intros Hok. unfold dag_page_html. cbv zeta. frag_go. Qed.
Lemma dag_page_finds `{Host} now d n runs coach tab :
  Forall (finds (dag_page_html now d n runs coach tab)) dag_page_ids.
Proof. unfold dag_page_html. cbv zeta. find_all. Qed.

(** ** The novice page *)

(** [nvTaskLabel]: the ids of the console's own templates are glossed. For a name
    every object inherits, [t] is handed that member: a method is called without a
    receiver, which for most of them throws ([None]). *)
Definition TASK_LABELS : list (jstr * jstr) :=
  [ (lit "extract", lit "nv_step_extract"); (lit "transform", lit "nv_step_transform");
    (lit "load", lit "nv_step_load"); (lit "fetch", lit "nv_step_fetch");
    (lit "render", lit "nv_step_render"); (lit "step_1", lit "nv_step_1") ].
Definition called_bare (s : jstr) : option jstr :=
  if bool_decide (s ∈ [lit "constructor"; lit "__proto__"]) then Some (lit "[object Object]")
  else if bool_decide (s = lit "toString") then Some (lit "[object Undefined]")
  else if bool_decide (s = lit "isPrototypeOf") then Some (lit "false")
  else None.
Definition nvTaskLabel (id : jstr) : option text :=
  match table_get TASK_LABELS id with
  | Own k => Some (tx (T k []))
  | Missing => Some (fun _ => id)
  | Inherited => (fun s _ => s) <$> called_bare id
  end.

Definition nv_step_html (tk : task) (i : Z) (label : text) : html :=
  src "<div class=`nv-item`>
        <span class=`nv-num sm`>" ++ num (i + 1) ++ src "</span>
        <div class=`nv-main`>
          <div class=`nv-label`>" ++ [E label] ++ src "</div>
          <div class=`nv-cmd` title=`" ++ escd (tk_command tk) ++ src "`>" ++ escd (tk_command tk ||j lit "—") ++ src "</div>
        </div>
        <a style=`font-size:12.5px` role=`button` tabindex=`0` data-nvedit=`" ++ escd (tk_id tk) ++ src "`>" ++ emsg "nv_edit" ++ src "</a>
      </div>".
(** The rows of the steps; [None] when a label throws. *)
Fixpoint nv_steps_html (i : Z) (ordered : list task) : option html :=
  match ordered with
  | [] => Some []
  | tk :: r =>
    match nvTaskLabel (tk_id tk), nv_steps_html (i + 1) r with
    | Some label, Some h => Some (nv_step_html tk i label ++ h)
    | _, _ => None
    end
  end.

Definition nv_run_html `{Host} (now : Z) (r : hrun) : html :=
  src "<div class=`nv-item` style=`padding:12px 17px;gap:14px`>
        " ++ badge (hr_state r) false ++ src "
        <span style=`font-size:13px`>" ++ [V (fmt (hr_start r))] ++ src " · " ++ [M (typeText (hr_type r))] ++ src "</span>
        <span class=`mono muted` style=`font-size:12px`>" ++ [V (dur now (hr_start r) (hr_end r))] ++ src "</span>
        <div style=`flex:1`></div>
        <a style=`font-size:12.5px` role=`button` tabindex=`0` data-nvlog=`" ++ escd (hr_id r) ++ src "`>" ++ emsg "nv_view_log" ++ src "</a>
      </div>".

Definition nv_failed (r : hrun) : bool :=
  bool_decide (hr_state r = lit "failed") || bool_decide (hr_state r = lit "timed_out").
Definition nv_notify_checked (d : dag) : bool :=
  (truthy (d_notify_url d) || truthy (d_notify_group d)) && bool_decide (lit "failure" ∈ d_notify_on d).

(** [ordered] are the steps in topological order. *)
Definition nv_page_html `{Host} (now : Z) (d : dag) (ntasks : nat) (ordered : list task) (runs : list hrun) : option html :=
  let noTasks := Nat.eqb ntasks 0 in
  let lastFailed := match runs with r :: _ => nv_failed r | [] => false end in
  (fun steps =>
  src "<div class=`nv-wrap`>
    <div class=`crumb-bar`><a id=`back`>← " ++ emsg "nv_myflows" ++ src "</a> / " ++ escd (d_dag_id d) ++ src "</div>
    <div class=`dag-hero`>
      <div class=`dh-top`>
        <h1 class=`mono`>" ++ copy_span (d_dag_id d) [] [] ++ src "</h1>
        <span class=`tag " ++ (if d_paused d then src "warn" else src "ok") ++ src "`>"
  ++ (if d_paused d then emsg "f_paused" else emsg "nv_enabled") ++ src "</span>
        <span class=`savestate ss-saved` id=`d-save`></span>
        <div class=`dh-actions`>
          <button class=`primary` id=`nv-trig` " ++ only noTasks (src "disabled") ++ src ">" ++ emsg "nv_run_now" ++ src "</button>
          <button class=`icon` id=`nv-more` title=`" ++ emsg "nv_more_title" ++ src "` aria-label=`" ++ emsg "nv_more_title" ++ src "`>"
  ++ emsg "nv_more" ++ src "</button>
        </div>
      </div>
      <div class=`dh-stats`>
        <div class=`dh-stat`><span class=`k`>" ++ msg "dh_last" ++ src "</span>
          " ++ last_html now (head runs) ++ src "</div>
        <div class=`dh-stat`><span class=`k`>" ++ msg "set_sched" ++ src "</span><span class=`v`>"
  ++ escl (nvSchedGloss (schedule (d_sched d))) ++ src "</span></div>
      </div>
      " ++ only noTasks (src "<div class=`page-sub` style=`margin:8px 0 0`>" ++ msg "dag_disabled_hint" ++ src "</div>") ++ src "
    </div>
    " ++ only lastFailed (src "<div class=`nv-ribbon`>
      <span class=`nv-x`>✕</span>
      <span class=`nv-rmain` id=`nv-ribbon-text`>" ++ emsg "nv_fail_ribbon_generic" ++ src "</span>
      <a style=`font-size:12.5px` id=`nv-see-log` role=`button` tabindex=`0`>" ++ emsg "nv_see_log" ++ src "</a>
      <button class=`primary` id=`nv-rerun`>" ++ emsg "nvr_rerun" ++ src "</button>
    </div>") ++ src "
    <!-- the shared save pipeline (saveDag/reflectSaveState) reports validation
         errors into #dag-errors; without it a blocked save would fail silently -->
    <div class=`b-errors` id=`dag-errors`></div>
    <div class=`section-h`>" ++ emsg "nv_steps_h" ++ src " <span style=`text-transform:none;letter-spacing:0;color:var(--faint);font-weight:400`>"
  ++ emsg "nv_steps_hint" ++ src "</span></div>
    <div class=`nv-panel`>
      " ++ steps ++ src "
      <div class=`nv-item last` style=`padding:11px 17px`><a style=`font-size:12.5px` role=`button` tabindex=`0` id=`nv-addstep`>"
  ++ emsg "nv_add_step" ++ src "</a></div>
    </div>
    <div class=`section-h`>" ++ emsg "nv_recent_h" ++ src "</div>
    <div class=`nv-panel`>
      " ++ match runs with
           | [] => src "<div class=`empty`>" ++ msg "no_runs" ++ src "</div>"
           | _ => each (take 5 runs) (nv_run_html now)
           end ++ src "
    </div>
    <div class=`section-h`>" ++ emsg "nv_notify_h" ++ src "</div>
    <div class=`nv-panel` style=`padding:14px 17px`>
      <label style=`display:flex;align-items:center;gap:10px;cursor:pointer`>
        <input type=`checkbox` id=`nv-notify-on` " ++ only (nv_notify_checked d) (src "checked") ++ src ">
        <span style=`font-size:13.5px;font-weight:600`>" ++ emsg "nv_notify_toggle" ++ src "</span>
      </label>
      <div id=`nv-notify-body` style=`margin-top:10px` " ++ only (negb (truthy (d_notify_url d))) (src "hidden") ++ src ">
        <input id=`nv-notify-url` type=`url` class=`mono` placeholder=`https://hooks.slack.com/services/…` value=`"
  ++ escd (d_notify_url d) ++ src "` style=`width:100%`>
        <div class=`field-hint`>" ++ emsg "nv_notify_hint" ++ src "</div>
      </div>
    </div>
    <details class=`adv-box` style=`margin-top:22px`>
      <summary>" ++ emsg "nv_adv_summary" ++ src "</summary>
      <div style=`margin-top:12px;font-size:13px;color:var(--muted);line-height:1.7`>
        " ++ escl (T (lit "nv_adv_body") [Raw (num_str (d_default_retries d)); Raw (num_str (d_max_active_runs d))]) ++ src "<br>
        " ++ emsg "nv_adv_body2" ++ src " <a id=`nv-adv-expert` role=`button` tabindex=`0` style=`cursor:pointer`>"
  ++ emsg "nv_to_expert" ++ src "</a> " ++ emsg "nv_adv_body3" ++ src "
      </div>
    </details>
  </div>") <$> nv_steps_html 0 ordered.

Definition nv_page_ids (runs : list hrun) : list jstr :=
  [lit "back"; lit "nv-notify-on"; lit "nv-notify-body"; lit "nv-notify-url"; lit "nv-trig"; lit "nv-more";
   lit "nv-addstep"; lit "nv-adv-expert"]
  ++ (if match runs with r :: _ => nv_failed r | [] => false end then [lit "nv-see-log"; lit "nv-rerun"] else []).

(** [nvEditStepModal], drawn for the step it edits. *)
Definition nv_edit_html (tk : task) (canDel : bool) : html :=
  let title := escl (T (lit "nv_edit_step_title") [Raw (tk_id tk)]) in
  src "<div class=`overlay` id=`nv-eovl`><div class=`modal confirm` role=`dialog` aria-modal=`true` aria-label=`" ++ title ++ src "`>
    <h2>" ++ title ++ src "</h2>
    <div class=`body`><div class=`b-field`><label>" ++ emsg "t_command" ++ src "</label><input class=`mono` id=`nv-ecmd` value=`"
  ++ escd (tk_command tk) ++ src "` spellcheck=`false`></div></div>
    <div class=`foot`>" ++ only canDel (src "<button class=`danger` id=`nv-edel` style=`margin-right:auto`>" ++ emsg "nv_del_step" ++ src "</button>")
  ++ src "<button id=`nv-ecancel`>" ++ msg "cancel_word" ++ src "</button><button class=`primary` id=`nv-eok`>" ++ msg "v_save" ++ src "</button></div>
  </div></div>".
Definition nv_edit_ids : list jstr := [lit "nv-ecancel"; lit "nv-eok"; lit "nv-eovl"; lit "nv-ecmd"].

Lemma nv_step_frag tk i l : frag (nv_step_html tk i l).
Proof. unfold nv_step_html. frag_go. Qed.
Lemma nv_steps_frag i ts h : nv_steps_html i ts = Some h -> frag h.
Proof.
  revert i h. induction ts as [|tk ts IH]; intros i h; cbn [nv_steps_html]; [intros [= <-]; apply frag_nil|].
  destruct (nvTaskLabel _) as [l|]; [|done]. destruct (nv_steps_html _ ts) as [h'|] eqn:Hs; [|done].
  intros Hh%(inj Some). subst h. apply frag_app; [apply nv_step_frag|by eapply IH].
Qed.
Lemma nv_hrun_frag `{Host} now r : hrun_ok r -> frag (nv_run_html now r).
Proof. intros [Hs Ht]. unfold nv_run_html. frag_go. Qed.
#[export] Hint Resolve nv_hrun_frag nv_steps_frag : markup.
Lemma nv_page_frag `{Host} now d n ts runs h :
  Forall hrun_ok runs -> nv_page_html now d n ts runs = Some h -> frag h.
Proof.
  intros Hok. unfold nv_page_html. cbv zeta. destruct (nv_steps_html 0 ts) as [steps|] eqn:Hs; [|done].
  cbn [fmap option_fmap option_map]. intros Hh%(inj Some). subst h. apply nv_steps_frag in Hs.
  assert (Hl : frag (last_html now (head runs))) by (apply last_frag; intros r; by apply head_ok).
  assert (H5 : Forall hrun_ok (take 5 runs)) by by apply Forall_take.
  frag_go.
Qed.
Lemma nv_page_finds `{Host} now d n ts runs h :
  nv_page_html now d n ts runs = Some h -> Forall (finds h) (nv_page_ids runs).
Proof.
  unfold nv_page_html, nv_page_ids. cbv zeta. destruct (nv_steps_html 0 ts) as [steps|]; [|done].
  cbn [fmap option_fmap option_map]. intros Hh%(inj Some). subst h. apply Forall_app. split; [find_all|].
  destruct (match runs with r :: _ => nv_failed r | [] => false end) eqn:Hf; [find_all|constructor].
Qed.
Lemma nv_edit_frag tk b : frag (nv_edit_html tk b).
Proof. unfold nv_edit_html. cbv zeta. frag_go. Qed.
Lemma nv_edit_finds tk b : Forall (finds (nv_edit_html tk b)) nv_edit_ids.
Proof. unfold nv_edit_html. cbv zeta. find_all. Qed.

(** The page is written exactly when no step has one of the eight names. *)
Definition UNCALLABLE : list jstr := List.filter (fun s => bool_decide (called_bare s = None)) proto_names.
Lemma nvTaskLabel_None id : nvTaskLabel id = None <-> id ∈ UNCALLABLE.
Proof.
  assert (Hu : id ∈ UNCALLABLE <-> id ∈ proto_names /\ called_bare id = None).
  { unfold UNCALLABLE. rewrite list_elem_of_In, List.filter_In, list_elem_of_In. by rewrite bool_decide_eq_true. }
  rewrite Hu. unfold nvTaskLabel, table_get. destruct (assoc TASK_LABELS id) as [k|] eqn:Ha.
  - split; [done|]. intros [Hin _]. apply assoc_in in Ha.
    exfalso. revert Ha. repeat (apply elem_of_cons in Hin as [->|Hin]; [by compute_decide|]). by apply elem_of_nil in Hin.
  - case_bool_decide; [|naive_solver]. rewrite fmap_None. naive_solver.
Qed.
Lemma nv_steps_written i ts :
  is_Some (nv_steps_html i ts) <-> Forall (fun tk => tk_id tk ∉ UNCALLABLE) ts.
Proof.
  revert i. induction ts as [|tk ts IH]; intros i; simpl; [by split; [constructor|]|].
  rewrite Forall_cons, <- (IH (i + 1)%Z), <- nvTaskLabel_None.
  destruct (nvTaskLabel _), (nv_steps_html (i + 1) ts); split; intros Hx; try (by destruct Hx);
    try (by split; eauto); destruct Hx as [H1 H2]; try done; by destruct H2.
Qed.
Lemma nv_page_written `{Host} now d n ts runs :
  is_Some (nv_page_html now d n ts runs) <-> Forall (fun tk => tk_id tk ∉ UNCALLABLE) ts.
Proof. unfold nv_page_html. cbv zeta. rewrite fmap_is_Some. apply nv_steps_written. Qed.

(** ** The settings tab *)

Definition setrow_key (r : setrow) : jstr :=
  match r with
  | RSched => lit "sched" | RMax => lit "max" | RPolicy => lit "policy" | RRetries => lit "retries"
  | RSla => lit "sla" | RTimeout => lit "timeout" | RDeps => lit "deps" | RNotify => lit "notify"
  end.
(** [row(key, label, summary, summaryText, editor, hint)] *)
Definition set_row_html (edit : option setrow) (r : setrow) (label : jstr) (summary : html) (summaryText : text)
    (editor : html) (hint : option jstr) : html :=
  let open := bool_decide (edit = Some r) in
  src "<div class=`set-row " ++ only open (src "editing") ++ src "` data-set=`" ++ [V (setrow_key r)] ++ src "`>
      <div class=`set-head` " ++ only (negb open)
        (src "role=`button` tabindex=`0` aria-label=`" ++ escl (T label []) ++ src ": " ++ [E summaryText] ++ src " — "
         ++ msg "set_edit" ++ src "`") ++ src ">
        <span class=`set-k`>" ++ escl (T label []) ++ src "</span>
        " ++ (if open then src "<button class=`icon set-close` data-close=`" ++ [V (setrow_key r)] ++ src "`>" ++ msg "set_done" ++ src "</button>"
              else src "<span class=`set-v`>" ++ summary ++ src "</span><span class=`set-pen` aria-hidden=`true`>✎</span>") ++ src "
      </div>
      " ++ only open
        (src "<div class=`set-body`>"
         ++ match hint with Some k => src "<div class=`field-hint` style=`margin-bottom:8px`>" ++ escl (T k []) ++ src "</div>" | None => [] end
         ++ editor ++ src "</div>")
  ++ src "</div>".

Definition secs_summary (sec : Z) : html :=
  if (0 <? sec)%Z then src "<span class=`mono`>" ++ msgl (secsLabel sec) ++ src "</span>"
  else src "<span class=`muted`>" ++ msg "set_off" ++ src "</span>".
Definition mono_num (n : Z) : html := src "<span class=`mono`>" ++ num n ++ src "</span>".
Definition none_html (k : jstr) : html := src "<span class=`muted`>" ++ msgl (T k []) ++ src "</span>".

Definition deps_text (d : dag) : text := fun lang =>
  match d_trigger_after d with [] => say "set_none" lang | l => join (lit ", ") l end.
Definition deps_summary (d : dag) : html :=
  match d_trigger_after d with
  | [] => none_html (lit "set_none")
  | l => sep_by (src ", ") ((fun x => src "<span class=`mono`>" ++ escd x ++ src "</span>") <$> l)
  end.
Definition bool_html (b : bool) : html := if b then src "true" else src "false".
Definition deps_editor (all : list jstr) (d : dag) : html :=
  match Settings.others all d with
  | [] => src "<div class=`muted`>" ++ msg "set_no_deps_avail" ++ src "</div>"
  | l =>
    src "<div class=`b-deps`>" ++ each l (fun x =>
      let on := bool_decide (x ∈ d_trigger_after d) in
      src "<span class=`chip ta " ++ only on (src "on") ++ src "` role=`checkbox` tabindex=`0` aria-checked=`" ++ bool_html on
      ++ src "` data-ta=`" ++ escd x ++ src "`>" ++ escd x ++ src "</span>") ++ src "</div>"
  end.

Definition notif_text (d : dag) : text := fun lang =>
  if notifyTarget d then
    (if truthy (trim (d_notify_group d)) then say "set_group" lang ++ lit ": " ++ trim (d_notify_group d) else d_notify_url d)
    ++ lit " · " ++ match d_notify_on d with [] => say "notify_off" lang | l => join (lit ", ") l end
  else say "set_none" lang.
Definition notif_summary (d : dag) : html :=
  let g := trim (d_notify_group d) in
  if notifyTarget d then
    match notify_tags d with
    | [] => none_html (lit "notify_off")
    | l => sep_by (src " ") ((fun e => src "<span class=`tag " ++ (if bool_decide (e = lit "failure") then src "bad" else src "ok")
                                       ++ src "`>" ++ msgl (T (lit "notify_" ++ e) []) ++ src "</span>") <$> l)
    end ++ src " "
    ++ (if truthy g then src "<span class=`tag`>" ++ emsg "set_group" ++ src " · " ++ escd g ++ src "</span>"
        else src "<span class=`mono set-url` title=`" ++ escd (d_notify_url d) ++ src "`>" ++ escd (d_notify_url d) ++ src "</span>")
  else none_html (lit "set_none").

(** The options of the alert group; a name the list lacks is marked. *)
Definition group_opts (names : option (list jstr)) (cur : jstr) (marked : jstr -> bool) : html :=
  let ns := default [] names in
  let all := if truthy cur && negb (bool_decide (cur ∈ ns)) then ns ++ [cur] else ns in
  src "<option value=``>" ++ emsg "ag_group_none" ++ src "</option>"
  ++ each all (fun n => src "<option value=`" ++ escd n ++ src "` " ++ only (bool_decide (n = cur)) (src "selected") ++ src ">"
       ++ (if marked n then escl (T (lit "ag_opt_missing") [Raw n]) else escd n) ++ src "</option>").
(** When drawn, nothing is marked before the list has arrived. *)
Definition group_opts_drawn (names : option (list jstr)) (d : dag) : html :=
  group_opts names (trim (d_notify_group d))
    (fun n => match names with Some l => negb (bool_decide (n ∈ l)) | None => false end).
(** When the answer of [/api/alert-groups] arrives. *)
Definition group_opts_arrived (names : list jstr) (d : dag) : html :=
  group_opts (Some names) (trim (d_notify_group d)) (fun n => negb (bool_decide (n ∈ names))).

Definition nFormats : list (jstr * label) :=
  [ ([], Raw (lit "raw")); (lit "slack", Raw (lit "Slack")); (lit "feishu", T (lit "nf_feishu") []);
    (lit "dingtalk", T (lit "nf_dingtalk") []); (lit "email", T (lit "nf_email") []) ].
Definition notif_editor (names : option (list jstr)) (d : dag) : html :=
  let grp := truthy (trim (d_notify_group d)) in
  let has := notifyTarget d in
  src "<div class=`b-field` style=`margin-bottom:8px`><label>" ++ msg "set_group" ++ src "</label><select id=`d-ngroup` style=`width:260px`>"
  ++ group_opts_drawn names d ++ src "</select></div>
    <input id=`d-nurl` type=`url` class=`" ++ only grp (src "input-dim") ++ src "` placeholder=`https://hooks.slack.com/services/…` value=`"
  ++ escd (d_notify_url d) ++ src "` style=`width:100%;margin-bottom:4px` aria-label=`" ++ emsg "set_notify" ++ src " URL`>
    <div class=`field-hint` id=`d-ngrouphint` style=`margin-bottom:4px`" ++ only (negb grp) (src " hidden") ++ src ">"
  ++ emsg "ag_url_overridden" ++ src "</div>
    <div class=`field-hint` style=`margin-bottom:8px`>" ++ emsg "notify_mailto_hint" ++ src "</div>
    <div class=`b-deps`>" ++ each nEvents (fun e =>
      src "<span class=`chip non " ++ only (chip_drawn d e) (src "on") ++ src " " ++ only (negb has) (src "dis")
      ++ src "` role=`checkbox` tabindex=`" ++ (if has then src "0" else src "-1") ++ src "` aria-checked=`" ++ bool_html (chip_drawn d e)
      ++ src "` aria-disabled=`" ++ bool_html (negb has) ++ src "` data-non=`" ++ [V e] ++ src "`>" ++ msgl (T (lit "notify_" ++ e) []) ++ src "</span>")
  ++ src "</div>
    <div class=`b-field` style=`margin-top:8px`><label>" ++ msg "nf_label" ++ src "</label><select id=`d-nfmt` style=`width:220px`>"
  ++ each nFormats (fun x => src "<option value=`" ++ [V x.1] ++ src "` " ++ only (bool_decide (d_notify_format d = x.1)) (src "selected")
                             ++ src ">" ++ msgl x.2 ++ src "</option>")
  ++ src "</select><div class=`field-hint`>" ++ msg "nf_hint" ++ src "</div></div>
    <div class=`field-hint` id=`d-nhint` style=`margin-top:6px`" ++ only has (src " hidden") ++ src ">" ++ emsg "notify_need_url" ++ src "</div>".

Definition polKey (v : jstr) : jstr := lit "po_" ++ (v ||j lit "parallel").
Definition pol_summary (d : dag) : html :=
  let pol := policy_shown d in
  if truthy pol then src "<span class=`mono`>" ++ escl (T (polKey pol) []) ++ src "</span>"
  else src "<span class=`muted`>" ++ emsg "po_parallel" ++ src "</span>".
Definition pol_editor (d : dag) : html :=
  let pol := policy_shown d in
  src "<select id=`d-policy` style=`width:220px` aria-label=`" ++ emsg "set_policy" ++ src "`>"
  ++ each POLICIES (fun v => src "<option value=`" ++ [V v] ++ src "` " ++ only (bool_decide (pol = v)) (src "selected") ++ src ">"
                             ++ escl (T (polKey v) []) ++ src "</option>")
  ++ src "</select>
    <div class=`field-hint` id=`d-policyhint` style=`margin-top:6px`>" ++ escl (T (lit "pod_" ++ (pol ||j lit "parallel")) []) ++ src "</div>".

Definition const_text (s : jstr) : text := fun _ => s.
Definition settings_html (edit : option setrow) (all : list jstr) (names : option (list jstr)) (d : dag) : html :=
  let row := set_row_html edit in
  src "<div class=`set-list`>
    " ++ row RSched (lit "set_sched") [E (schedSummary (d_sched d))] (schedSummary (d_sched d)) (src "<div id=`d-sched`></div>") None ++ src "
    " ++ row RMax (lit "set_max") (mono_num (d_max_active_runs d)) (const_text (num_str (d_max_active_runs d)))
           (src "<input id=`d-max` type=`number` min=`1` value=`" ++ num (d_max_active_runs d) ++ src "` style=`width:110px`>") None ++ src "
    " ++ row RPolicy (lit "set_policy") (pol_summary d) (tx (T (polKey (policy_shown d)) [])) (pol_editor d) (Some (lit "set_policy_hint")) ++ src "
    " ++ row RRetries (lit "set_retries") (mono_num (d_default_retries d)) (const_text (num_str (d_default_retries d)))
           (src "<input id=`d-defr` type=`number` min=`0` value=`" ++ num (d_default_retries d) ++ src "` style=`width:110px`>") None ++ src "
    " ++ row RSla (lit "set_sla") (secs_summary (d_sla d)) (const_text (num_str (d_sla d)))
           (src "<input id=`d-sla` type=`number` min=`0` value=`" ++ num (d_sla d) ++ src "` style=`width:110px`> <span class=`muted`>"
            ++ msg "secs" ++ src "</span>") (Some (lit "set_sla_hint")) ++ src "
    " ++ row RTimeout (lit "set_timeout") (secs_summary (d_dagrun_timeout d)) (const_text (num_str (d_dagrun_timeout d)))
           (src "<input id=`d-timeout` type=`number` min=`0` value=`" ++ num (d_dagrun_timeout d) ++ src "` style=`width:110px`> <span class=`muted`>"
            ++ msg "secs" ++ src "</span>") (Some (lit "set_timeout_hint")) ++ src "
    " ++ row RDeps (lit "set_deps") (deps_summary d) (deps_text d) (deps_editor all d) (Some (lit "set_deps_hint")) ++ src "
    " ++ row RNotify (lit "set_notify") (notif_summary d) (notif_text d) (notif_editor names d) (Some (lit "set_notify_hint")) ++ src "
  </div>
  <div class=`danger-zone`>
    <div class=`dz-t`>" ++ msg "danger_title" ++ src "</div>
    <div class=`dz-row`><span class=`muted`>" ++ msg "danger_del_hint" ++ src "</span><button class=`danger` id=`del`>"
  ++ msg "btn_delete" ++ src "</button></div>
  </div>".

Lemma num_unit_plain n u : plain u = true -> plain (num_unit n u) = true.
Proof. intros H. unfold num_unit. by rewrite plain_app, plain_num. Qed.
#[export] Hint Resolve num_unit_plain : markup.
Lemma secs_plain sec : plain_text (tx (secsLabel sec)).
Proof.
  unfold secsLabel. destruct (sec <=? 0)%Z; [plain_tac|]. destruct (sec <? 60)%Z; [plain_tac|].
  destruct (sec <? 3600)%Z; cbv zeta; apply plain_raw; rewrite plain_app;
    (rewrite num_unit_plain; [|done]); destruct (_ =? _)%Z; try done; by apply num_unit_plain.
Qed.
Lemma tags_events d x : x ∈ notify_tags d -> plain x = true.
Proof.
  unfold notify_tags. destruct (notifyTarget d); [|intros H; by apply elem_of_nil in H].
  intros H. apply list_elem_of_In, List.filter_In in H as [H _]. apply list_elem_of_In in H.
  by apply (plain_in nEvents).
Qed.
Lemma policy_plain d : plain (policy_shown d) = true.
Proof. unfold policy_shown. case_bool_decide as H; [by apply (plain_in POLICIES)|done]. Qed.
#[export] Hint Resolve secs_plain tags_events policy_plain : markup.

Lemma secs_summary_frag n : frag (secs_summary n).
Proof. unfold secs_summary. frag_go. Qed.
Lemma mono_frag n : frag (mono_num n).
Proof. unfold mono_num. frag_go. Qed.
Lemma none_frag k : plain_key k = true -> frag (none_html k).
Proof. intros H. unfold none_html. frag_go. Qed.
#[export] Hint Resolve secs_summary_frag mono_frag none_frag : markup.
Lemma deps_summary_frag d : frag (deps_summary d).
Proof. unfold deps_summary. frag_go. Qed.
Lemma deps_editor_frag all d : frag (deps_editor all d).
Proof. unfold deps_editor, bool_html. cbv zeta. frag_go. Qed.
Lemma notif_summary_frag d : frag (notif_summary d).
Proof.
  unfold notif_summary. cbv zeta. pose proof (tags_events d) as Ht. destruct (notify_tags d); frag_go.
Qed.
Lemma group_opts_frag names cur m : frag (group_opts names cur m).
Proof. unfold group_opts. cbv zeta. frag_go. Qed.
#[export] Hint Resolve deps_summary_frag deps_editor_frag notif_summary_frag group_opts_frag : markup.
Lemma group_drawn_frag names d : frag (group_opts_drawn names d).
Proof. apply group_opts_frag. Qed.
Lemma formats_plain x : x ∈ nFormats -> plain x.1 = true /\ plain_text (tx x.2).
Proof.
  intros H. repeat (apply elem_of_cons in H as [->|H]; [split; [done|cbn [snd]; plain_tac]|]). by apply elem_of_nil in H.
Qed.
#[export] Hint Resolve group_drawn_frag : markup.
#[export] Hint Extern 3 (plain _.1 = true) => apply formats_plain; assumption : markup.
#[export] Hint Extern 3 (plain_text (tx _.2)) => apply formats_plain; assumption : markup.
Lemma notif_editor_frag names d : frag (notif_editor names d).
Proof. unfold notif_editor, bool_html. cbv zeta. frag_go. Qed.
Lemma pol_summary_frag d : frag (pol_summary d).
Proof. unfold pol_summary. cbv zeta. frag_go. Qed.
Lemma pol_editor_frag d : frag (pol_editor d).
Proof. unfold pol_editor. cbv zeta. frag_go. Qed.
#[export] Hint Resolve notif_editor_frag pol_summary_frag pol_editor_frag : markup.

Lemma setrow_plain r : plain (setrow_key r) = true.
Proof. by destruct r. Qed.
#[export] Hint Resolve setrow_plain : markup.
Lemma set_row_frag edit r k s st ed hint : frag s -> frag ed -> frag (set_row_html edit r k s st ed hint).
Proof. intros Hs He. unfold set_row_html. cbv zeta. frag_go. Qed.
#[export] Hint Resolve set_row_frag : markup.
Lemma settings_frag edit all names d : frag (settings_html edit all names d).
Proof.
  unfold settings_html. cbv zeta.
  frag_go.
Qed.
