(* ===== verification/DagDialogs.v ===== *)
(** * The run-history and structure tabs of a workflow, and its dialogs (views.js)

    The duration trend and the table of runs, the task table, the bar of unsaved
    changes and the diff, and the dialogs for a name, the YAML, a run with
    parameters and a backfill. *)

From S2P Require Import Prelude JsCore Schedule TaskGraph DagModel DagEdit DiffPanel DiffLines.
From S2P Require Import DictData Labels Format RunView RunsTab GraphLayout Markup Screens DagPages.

(** ** The run history *)

(** [durationTrendHtml]: nothing for fewer than two finished runs; a bar of at least
    four pixels for a run that took time, oldest first. *)
Definition run_ms (r : hrun) : Z :=
  match hr_start r, hr_end r with Some a, Some b => Z.max 0 (b - a) | _, _ => 0 end.
Definition finished (r : hrun) : bool :=
  match hr_start r, hr_end r with Some _, Some _ => true | _, _ => false end.
Definition trend_height (mx : Z) (r : hrun) : Z :=
  if (0 <? run_ms r)%Z then Z.max 4 (round_div (run_ms r * 46) mx) else 3.
Definition trend_title (r : hrun) : text := fun lang =>
  hr_logical r ++ lit " · " ++ stateText (hr_state r) lang
  ++ (if (0 <? run_ms r)%Z then lit " · " ++ fmtMs (run_ms r) else []).
Definition trend_html (runs : list hrun) : html :=
  let items := reverse runs in
  let mx := max_ms (run_ms <$> items) in
  if Nat.ltb (length (List.filter finished runs)) 2 then []
  else
    src "<div class=`dur-trend` title=`" ++ emsg "dt_hint" ++ src "`><div class=`dt-bars`>"
    ++ each items (fun r =>
        src "<i class=`dt-bar dt-" ++ escd (hr_state r) ++ src "` style=`height:" ++ num (trend_height mx r)
        ++ src "px` role=`button` tabindex=`0` data-run=`" ++ escd (hr_id r) ++ src "` title=`" ++ [E (trend_title r)]
        ++ src "` aria-label=`" ++ [E (trend_title r)] ++ src "`></i>")
    ++ src "</div><span class=`dt-max mono`>" ++ [V (fmtMs mx)] ++ src "</span></div>".

Definition prio_badge (p : Z) : html :=
  only (negb (p =? 0)%Z)
    (src " <span class=`tag prio` title=`" ++ emsg "run_priority_tip" ++ src "`>P" ++ num p ++ src "</span>").

Definition run_action (canAct : bool) (r : hrun) : html :=
  if negb canAct then []
  else if runLive (hr_state r) then
    src "<button class=`icon rr-act no-nav` data-rr-cancel=`" ++ escd (hr_id r) ++ src "` title=`" ++ msg "run_cancel"
    ++ src "` aria-label=`" ++ msg "run_cancel" ++ src "`>✕</button>"
  else only (bool_decide (hr_state r ∈ [lit "failed"; lit "cancelled"; lit "timed_out"]))
    (src "<button class=`icon rr-act no-nav` data-rr-retry=`" ++ escd (hr_id r) ++ src "` title=`" ++ msg "run_retry"
     ++ src "` aria-label=`" ++ msg "run_retry" ++ src "`>↻</button>").

Definition runs_chips (runFilter : jstr) : html :=
  src "<div class=`varchips` style=`margin-bottom:8px`>"
  ++ each RUN_FILTERS (fun x => src "<span class=`chip varchip " ++ only (bool_decide (runFilter = x.2)) (src "on")
       ++ src "` role=`button` tabindex=`0` data-rf=`" ++ [V x.2] ++ src "`>" ++ msgl (T x.1 []) ++ src "</span>")
  ++ src "</div>".
Definition runs_html `{Host} (now : Z) (canAct : bool) (runFilter : jstr) (limit : Z) (runs : list hrun) : html :=
  match runs with
  | [] => runs_chips runFilter ++ src "<div class=`empty`>" ++ msg "no_runs" ++ src "</div>"
  | _ =>
    runs_chips runFilter ++ trend_html runs
    ++ src "<table class=`tbl`><thead><tr><th>" ++ msg "th_logical" ++ src "</th><th>" ++ msg "th_state" ++ src "</th><th>"
    ++ msg "th_trig" ++ src "</th><th>" ++ msg "th_started" ++ src "</th><th>" ++ msg "th_dur" ++ src "</th><th style=`width:56px`></th></tr></thead>
    <tbody>" ++ each runs (fun r =>
      src "<tr class=`row` data-run=`" ++ escd (hr_id r) ++ src "`><td class=`mono`>" ++ escd (hr_logical r) ++ src "</td><td>"
      ++ badge (hr_state r) false ++ prio_badge (hr_priority r) ++ src "</td><td>" ++ [M (typeText (hr_type r))] ++ src "</td><td>"
      ++ [V (fmt (hr_start r))] ++ src "</td><td>" ++ [V (dur now (hr_start r) (hr_end r))] ++ src "</td><td class=`run-row-act`>"
      ++ run_action canAct r ++ src "</td></tr>")
    ++ src "</tbody></table>"
    ++ only ((limit <=? Z.of_nat (length runs)) && (limit <? 200))%Z
         (src "<div style=`text-align:center;margin-top:10px`><button class=`icon` id=`runs-more`>" ++ msg "runs_more" ++ src "</button></div>")
  end.

(** ** The structure tab *)

Definition piece_html (p : dpiece) : html :=
  match p with
  | PInvalid e => src "<div class=`e fatal diff-msg`>" ++ msg "diff_invalid" ++ src ": " ++ escd e ++ src "</div>"
  | PRows rows =>
    src "<pre class=`diff-view`>"
    ++ each rows (fun l =>
        src "<span class=`dl" ++ match l.1 with Add => src " add" | Del => src " del" | Same => [] end ++ src "`>"
        ++ escd (match l.1 with Add => lit "+ " | Del => lit "- " | Same => lit "  " end ++ l.2) ++ src "</span>")
    ++ src "</pre>"
  | PSame => src "<div class=`muted diff-msg`>" ++ msg "diff_same" ++ src "</div>"
  | PFailed e => src "<div class=`e fatal diff-msg`>" ++ escd e ++ src "</div>"
  end.
(** The panel of [DiffPanel], written out. *)
Definition panel_html (c : list dpiece) : html := each c piece_html.

Definition unsaved_bar (dirty : Z) (open : bool) : html :=
  only (negb (dirty =? 0)%Z)
    (src "<div class=`diff-bar` id=`gd-bar` role=`status`>
      <span class=`diff-n`>" ++ msgl (T (lit "diff_unsaved") [Raw (num_str dirty)]) ++ src "</span>
      <button class=`icon` id=`gd-toggle` aria-expanded=`" ++ bool_html open ++ src "`>"
     ++ (if open then msg "diff_hide" else msg "diff_show") ++ src "</button>
      <div class=`diff-spacer`></div>
      <button id=`gd-discard`>" ++ msg "diff_discard" ++ src "</button>
      <button class=`primary` id=`gd-save`>" ++ msg "diff_save" ++ src "</button>
    </div>" ++ only open (src "<div class=`diff-panel` id=`gd-panel`><div class=`muted diff-msg`>" ++ msg "diff_loading" ++ src "</div></div>")).
Definition graph_toolbar (connect : bool) : html :=
  src "<div class=`graph-toolbar`>
      <button class=`icon` id=`g-addtask`>" ++ msg "ge_addtask" ++ src "</button>
      <button class=`icon" ++ only connect (src " on") ++ src "` id=`g-connect` aria-pressed=`" ++ bool_html connect
  ++ src "` title=`" ++ emsg "ge_connect_tip" ++ src "`>" ++ msg "ge_connect" ++ src "</button>
    </div>".
Definition task_table (ts : list task) : html :=
  src "<table class=`tbl tasks`><thead><tr><th>" ++ msg "th_id" ++ src "</th><th>" ++ msg "th_type" ++ src "</th><th>"
  ++ msg "th_command" ++ src "</th><th>" ++ msg "h_pool" ++ src "</th><th>" ++ msg "t_rule" ++ src "</th><th>" ++ msg "th_deps"
  ++ src "</th><th style=`width:44px`></th></tr></thead>
    <tbody>" ++ each ts (fun tk =>
      src "<tr class=`row` data-task=`" ++ escd (tk_id tk) ++ src "`>
      <td class=`mono`>" ++ escd (tk_id tk ||j lit "—") ++ src "</td><td>" ++ escd (tk_type tk) ++ src "</td>
      <td class=`muted mono cmd-cell no-nav`>"
      ++ (if truthy (tk_command tk) then copy_span (tk_command tk) [] (tk_command tk) else src "—") ++ src "</td>
      <td class=`mono`>" ++ escd (tk_pool tk) ++ src "</td><td class=`muted`>"
      ++ msgl (T (lit "tr_" ++ (tk_trigger_rule tk ||j lit "all_success")) []) ++ src "</td>
      <td class=`muted`>" ++ escd (join (lit ", ") (tk_deps tk) ||j lit "—") ++ src "</td>
      <td><button class=`icon no-nav` data-dup=`" ++ escd (tk_id tk) ++ src "` title=`" ++ msg "btn_duplicate"
      ++ src "`>⧉</button><button class=`icon rm no-nav` data-del=`" ++ escd (tk_id tk) ++ src "` title=`" ++ msg "b_remove"
      ++ src "`>✕</button></td></tr>")
  ++ src "</tbody></table>".

(** What [dagStructureHtml] hands to [renderGraph]. *)
Definition structure_tasks (ts : list task) : list gtask :=
  (fun tk => GTask (tk_id tk) (List.filter (fun d => existsb (fun x => bool_decide (tk_id x = d)) ts) (tk_deps tk))
               (trim (tk_dodDag tk)) (if bool_decide (tk_type tk = lit "subdag") then tk_subdag tk else []))
  <$> List.filter (fun tk => truthy (tk_id tk)) ts.
Definition editable_view : gview := GView None (fun _ => false) true false false.
Definition structure_html (p : page) : option html :=
  let ts := structure_tasks (pg_tasks p) in
  (fun g =>
    unsaved_bar (Z.of_nat (pg_graphDirty p)) (pg_diffOpen p)
    ++ match ts with
       | [] => []
       | _ => graph_toolbar (pg_connectMode p) ++ src "<div class=`page-sub` style=`margin:-2px 0 8px`>" ++ msg "graph_connect_hint"
              ++ src "</div><div class=`b-graph` id=`d-graph`>" ++ g ++ src "</div>"
       end
    ++ src "
    <div class=`toolbar` style=`margin:10px 0 6px`><button class=`primary` id=`d-addtask`>" ++ msg "b_addtask" ++ src "</button></div>
    " ++ match pg_tasks p with
         | [] => src "<div class=`empty-state`><div class=`es-ic`>▦</div><div class=`es-t`>" ++ msg "dag_no_tasks_title"
                 ++ src "</div><div class=`es-s`>" ++ msg "dag_no_tasks_sub" ++ src "</div></div>"
         | l => task_table l
         end)
  <$> graph_html editable_view (renderGraph ts (GOpts true (pg_graphPending p))).

Lemma trend_frag runs : frag (trend_html runs).
Proof. unfold trend_html. cbv zeta. destruct (Nat.ltb _ _); frag_go. Qed.
Lemma prio_frag p : frag (prio_badge p).
Proof. unfold prio_badge. frag_go. Qed.
Lemma run_action_frag c r : frag (run_action c r).
Proof. unfold run_action. frag_go. Qed.
Lemma filters_plain x : x ∈ RUN_FILTERS -> plain_key x.1 = true /\ plain x.2 = true.
Proof. intros H. by repeat (apply elem_of_cons in H as [->|H]); [..|by apply elem_of_nil in H]. Qed.
#[export] Hint Resolve trend_frag prio_frag run_action_frag : markup.
#[export] Hint Extern 3 (plain _.2 = true) => apply filters_plain; assumption : markup.
#[export] Hint Extern 3 (plain_key _.1 = true) => apply filters_plain; assumption : markup.
Lemma runs_chips_frag f : frag (runs_chips f).
Proof. unfold runs_chips. frag_go. Qed.
#[export] Hint Resolve runs_chips_frag : markup.
Lemma runs_frag `{Host} now c f n runs : Forall hrun_ok runs -> frag (runs_html now c f n runs).
Proof.
  intros Hok. unfold runs_html. destruct runs as [|r0 l]; [frag_go|].
  generalize dependent (r0 :: l). intros rs Hok. frag_go.
Qed.

Lemma piece_frag p : frag (piece_html p).
Proof. unfold piece_html. frag_go. Qed.
#[export] Hint Resolve piece_frag : markup.
Lemma panel_frag c : frag (panel_html c).
Proof. unfold panel_html. frag_go. Qed.
Lemma unsaved_frag n o : frag (unsaved_bar n o).
Proof. unfold unsaved_bar, bool_html. frag_go. Qed.
Lemma toolbar_frag c : frag (graph_toolbar c).
Proof. unfold graph_toolbar, bool_html. frag_go. Qed.
Definition rules_ok (ts : list task) : Prop := Forall (fun tk => plain (tk_trigger_rule tk) = true) ts.
Lemma task_table_frag ts : rules_ok ts -> frag (task_table ts).
Proof. unfold rules_ok. intros Hok. unfold task_table. frag_go. Qed.
#[export] Hint Resolve unsaved_frag toolbar_frag task_table_frag : markup.
Lemma structure_frag p h : rules_ok (pg_tasks p) -> structure_html p = Some h -> frag h.
Proof.
  intros Hok. unfold structure_html. cbv zeta. destruct (graph_html _ _) as [g|] eqn:Hg; [|done].
  apply graph_frag in Hg. cbn [fmap option_fmap option_map]. intros Hh%(inj Some). subst h.
  destruct (pg_tasks p) as [|tk ts]; [frag_go|]. generalize dependent (tk :: ts). intros l Hok. frag_go.
Qed.
Lemma structure_drawn p : is_Some (structure_html p).
Proof. unfold structure_html. apply fmap_is_Some, graph_drawn. by intros f [=]. Qed.

(** ** Dialogs *)

Definition prompt_html (title : text) (def : jstr) : html :=
  src "<div class=`overlay` id=`povl`><div class=`modal confirm` role=`dialog` aria-modal=`true` aria-label=`" ++ [E title] ++ src "`>
      <h2>" ++ [E title] ++ src "</h2>
      <div class=`body`><input id=`p-input` value=`" ++ escd def ++ src "` style=`width:100%`></div>
      <div class=`foot`><button id=`p-cancel`>" ++ msg "cancel_word" ++ src "</button><button class=`primary` id=`p-ok`>"
  ++ msg "confirm_word" ++ src "</button></div>
    </div></div>".
Definition prompt_ids : list jstr := [lit "p-cancel"; lit "p-ok"; lit "povl"; lit "p-input"].

Definition yaml_html (id yml : jstr) : html :=
  src "<div class=`overlay` id=`yovl`><div class=`modal` role=`dialog` aria-modal=`true` aria-label=`YAML`>
    <h2>YAML · <span class=`mono`>" ++ escd id ++ src "</span></h2>
    <div class=`body`><pre class=`yaml-view`>" ++ escd yml ++ src "</pre></div>
    <div class=`foot`><button id=`y-copy`>" ++ msg "y_copy" ++ src "</button><button id=`y-dl`>" ++ msg "y_download"
  ++ src "</button><button class=`primary` id=`y-close`>" ++ msg "y_close" ++ src "</button></div>
  </div></div>".
Definition yaml_ids : list jstr := [lit "yovl"; lit "y-close"; lit "y-copy"; lit "y-dl"].

(** [triggerParamsDialog], drawn with the rows and the priority typed so far. *)
Definition params_html (rows : list (jstr * jstr)) (prio : Z) : html :=
  src "<div class=`overlay` id=`tpovl`><div class=`modal confirm` role=`dialog` aria-modal=`true` aria-label=`" ++ msg "trig_params" ++ src "`>
      <h2>" ++ msg "trig_params" ++ src "</h2>
      <div class=`body`>
        <div class=`field-hint` style=`margin-bottom:12px`>" ++ emsg "p_hint" ++ src "</div>
        <div id=`tp-rows`>" ++ eachi rows (fun r i =>
          src "<div class=`tp-row`><input class=`tp-k mono` data-i=`" ++ num i ++ src "` placeholder=`" ++ msg "p_key"
          ++ src "` value=`" ++ escd r.1 ++ src "`><input class=`tp-v mono` data-i=`" ++ num i ++ src "` placeholder=`" ++ msg "p_val"
          ++ src "` value=`" ++ escd r.2 ++ src "`><button class=`icon tp-rm` data-i=`" ++ num i ++ src "` aria-label=`"
          ++ msg "btn_delete" ++ src "`>✕</button></div>") ++ src "</div>
        <button class=`icon` id=`tp-add` style=`margin-top:8px`>+ " ++ msg "p_add" ++ src "</button>
        <div class=`b-field` style=`margin-top:14px;max-width:220px`><label>" ++ msg "p_priority" ++ src "</label>
          <input id=`tp-prio` type=`number` min=`-100` max=`100` step=`1` value=`" ++ num prio ++ src "` style=`width:110px`>
          <div class=`field-hint`>" ++ emsg "p_priority_hint" ++ src "</div>
        </div>
      </div>
      <div class=`foot`><button id=`tp-cancel`>" ++ msg "nd_cancel" ++ src "</button><button class=`primary` id=`tp-go`>"
  ++ msg "p_trigger" ++ src "</button></div>
    </div></div>".
Definition params_ids : list jstr := [lit "tp-prio"; lit "tp-add"; lit "tp-cancel"; lit "tpovl"; lit "tp-go"].

(** [today] is the date part of [toISOString()]. *)
Definition backfill_html (today : jstr) : html :=
  src "<div class=`overlay` id=`bfovl`><div class=`modal confirm` role=`dialog` aria-modal=`true` aria-label=`" ++ msg "btn_backfill" ++ src "`>
    <h2>" ++ msg "btn_backfill" ++ src "</h2>
    <div class=`body`>
      <div class=`field-hint` style=`margin-bottom:12px`>" ++ emsg "bf_hint" ++ src "</div>
      <div class=`tc-grid`>
        <div class=`b-field`><label>" ++ msg "bf_from" ++ src "</label><input id=`bf-from` type=`date` max=`" ++ [V today] ++ src "`></div>
        <div class=`b-field`><label>" ++ msg "bf_to" ++ src "</label><input id=`bf-to` type=`date` max=`" ++ [V today] ++ src "` value=`"
  ++ [V today] ++ src "`></div>
      </div>
    </div>
    <div class=`foot`><button id=`bf-cancel`>" ++ msg "nd_cancel" ++ src "</button><button class=`primary` id=`bf-go`>" ++ msg "bf_go" ++ src "</button></div>
  </div></div>".
Definition backfill_ids : list jstr := [lit "bf-cancel"; lit "bfovl"; lit "bf-go"; lit "bf-from"; lit "bf-to"].

Lemma prompt_frag title d : frag (prompt_html title d).
Proof. unfold prompt_html. frag_go. Qed.
Lemma yaml_frag i y : frag (yaml_html i y).
Proof. unfold yaml_html. frag_go. Qed.
Lemma params_frag rows p : frag (params_html rows p).
Proof. unfold params_html. frag_go. Qed.
Lemma backfill_frag today : plain today = true -> frag (backfill_html today).
Proof. intros H. unfold backfill_html. frag_go. Qed.
Lemma prompt_finds title d : Forall (finds (prompt_html title d)) prompt_ids.
Proof. unfold prompt_html. find_all. Qed.
Lemma yaml_finds i y : Forall (finds (yaml_html i y)) yaml_ids.
Proof. unfold yaml_html. find_all. Qed.
Lemma params_finds rows p : Forall (finds (params_html rows p)) params_ids.
Proof. unfold params_html. find_all. Qed.
Lemma backfill_finds today : Forall (finds (backfill_html today)) backfill_ids.
Proof. unfold backfill_html. find_all. Qed.
