(* ===== verification/TaskPages.v ===== *)
(** * The page of a task (views.js): the command field of each type, the variable
    palette, the project section, the cross-workflow wait, the advanced options

    The templates as functions of the task and of what surrounds it. [hlVars] colours
    the placeholders of an already escaped command: the one place where a value is
    written between the tags it is wrapped in. *)

From S2P Require Import Prelude JsCore Schedule TaskGraph DagModel DagEdit DictData.
From S2P Require Import Labels Format PillEditor Palette TaskForm Markup Screens DagPages.

(** ** [hlVars] *)

(** [\s*\}\}] *)
Definition close_re (s : jstr) : option (jstr * jstr) :=
  let '(w, r) := span is_ws s in
  match strip_prefix (lit "}}") r with Some r' => Some (w ++ lit "}}", r') | None => None end.
Definition no_brace (c : N) : bool := negb ((c =? ch "{") || (c =? ch "}") || (c =? NL))%N.
Definition or_else {A} (a b : option A) : option A := match a with Some _ => a | None => b end.
(** The rest of [/\{\{\s*(?:logical_date[^{}\n]*?|[\w.]+)\s*\}\}/] after the two
    braces: what it matches and what follows. White space that the lazy group leaves
    goes to the class after it, so taking all of the group matches the same text. *)
Definition hl_at (s : jstr) : option (jstr * jstr) :=
  let '(w, r) := span is_ws s in
  or_else
    (match strip_prefix (lit "logical_date") r with
     | Some r1 => let '(a, r2) := span no_brace r1 in
                  match close_re r2 with Some (c, r') => Some (w ++ lit "logical_date" ++ a ++ c, r') | None => None end
     | None => None
     end)
    (match span is_word r with
     | ((_ :: _) as n, r1) => match close_re r1 with Some (c, r') => Some (w ++ n ++ c, r') | None => None end
     | _ => None
     end).
Definition hl_match (s : jstr) : option (jstr * jstr) :=
  match strip_prefix (lit "{{") s with Some r1 => hl_at r1 | None => None end.
(** [s.replace(re, (m) => `<span class="varhl">${m}</span>`)]; a match takes at least
    one character, so as many rounds as there are characters are enough. *)
Fixpoint hl_loop (fuel : nat) (s : jstr) : html :=
  match fuel, s with
  | S f, c :: r =>
    match hl_match s with
    | Some (m, r') => src "<span class=`varhl`>" ++ [V (lit "{{" ++ m)] ++ src "</span>" ++ hl_loop f r'
    | None => V [c] :: hl_loop f r
    end
  | _, _ => []
  end.
Definition hl_vars (cmd : jstr) : html := hl_loop (length (esc cmd)) (esc cmd).

(** The text of a fragment: its values, without the source around them. *)
Definition values (h : html) : jstr := List.flat_map (fun c => match c with V s => s | _ => [] end) h.

Lemma span_split {A} p (s a b : list A) : span p s = (a, b) -> s = a ++ b.
Proof. intros H. pose proof (span_app p s) as E. by rewrite H in E. Qed.
Lemma close_split s c r : close_re s = Some (c, r) -> s = c ++ r.
Proof.
  unfold close_re. destruct (span is_ws s) as [w q] eqn:Hw. apply span_split in Hw as ->.
  destruct (strip_prefix _ q) as [q'|] eqn:Hq; [|done]. apply strip_prefix_Some in Hq as ->.
  intros Hc%(inj Some). injection Hc as <- <-. by rewrite <- app_assoc.
Qed.
Lemma hl_at_split s m r : hl_at s = Some (m, r) -> s = m ++ r.
Proof.
  unfold hl_at. destruct (span is_ws s) as [w q] eqn:Hw. apply span_split in Hw as ->. unfold or_else.
  destruct (match strip_prefix (lit "logical_date") q with Some _ => _ | None => _ end) as [[m' r']|] eqn:Hl.
  - intros Hm%(inj Some). injection Hm as -> ->.
    destruct (strip_prefix (lit "logical_date") q) as [q1|] eqn:Hq; [|done]. apply strip_prefix_Some in Hq as ->.
    destruct (span no_brace q1) as [a q2] eqn:Ha. apply span_split in Ha as ->.
    destruct (close_re q2) as [[c r1]|] eqn:Hc; [|done]. apply close_split in Hc as ->.
    apply (inj Some) in Hl. injection Hl as <- <-. rewrite <- ?app_assoc; simpl; by rewrite <- ?app_assoc.
  - destruct (span is_word q) as [[|c0 n] q1] eqn:Hn; [done|]. apply span_split in Hn as ->.
    destruct (close_re q1) as [[c r1]|] eqn:Hc; [|done]. apply close_split in Hc as ->.
    intros Hm%(inj Some). injection Hm as <- <-. rewrite <- ?app_assoc; simpl; by rewrite <- ?app_assoc.
Qed.
Lemma hl_match_split s m r : hl_match s = Some (m, r) -> s = (lit "{{" ++ m) ++ r.
Proof.
  unfold hl_match. destruct (strip_prefix _ s) as [r1|] eqn:Hr; [|done].
  apply strip_prefix_Some in Hr as ->. by intros ->%hl_at_split.
Qed.
Lemma hl_unfold f c s :
  hl_loop (S f) (c :: s) = match hl_match (c :: s) with
    | Some (m, r') => src "<span class=`varhl`>" ++ [V (lit "{{" ++ m)] ++ src "</span>" ++ hl_loop f r'
    | None => V [c] :: hl_loop f s
    end.
Proof. done. Qed.

Lemma hl_loop_frag fuel s : plain s = true -> frag (hl_loop fuel s).
Proof.
  revert s. induction fuel as [|f IH]; intros s Hs; [apply frag_nil|].
  destruct s as [|c s]; [apply frag_nil|]. rewrite hl_unfold.
  destruct (hl_match (c :: s)) as [[m r]|] eqn:Hm.
  - apply hl_match_split in Hm. rewrite Hm, plain_app in Hs. apply andb_true_iff in Hs as [Hb Hr].
    apply IH in Hr. frag_go.
  - change (c :: s) with ([c] ++ s) in Hs. rewrite plain_app in Hs. apply andb_true_iff in Hs as [Hc Hs].
    apply (frag_app [V [c]]); [|by apply IH]. by apply tr_V.
Qed.
(** The colouring adds tags and leaves the text. *)
Lemma hl_loop_values fuel s : length s <= fuel -> values (hl_loop fuel s) = s.
Proof.
  revert s. induction fuel as [|f IH]; intros s Hs; [by destruct s; [|simpl in Hs; lia]|].
  destruct s as [|c s]; [done|]. rewrite hl_unfold. simpl in Hs.
  destruct (hl_match (c :: s)) as [[m r]|] eqn:Hm.
  - apply hl_match_split in Hm. assert (Hl : length (c :: s) = length ((lit "{{" ++ m) ++ r)) by by rewrite Hm.
    rewrite !length_app in Hl. simpl in Hl. rewrite Hm. unfold values. rewrite !List.flat_map_app. simpl.
    rewrite <- app_assoc. simpl. fold (values (hl_loop f r)). rewrite IH by lia. done.
  - unfold values. simpl. fold (values (hl_loop f s)). by rewrite IH by lia.
Qed.
Lemma hl_vars_frag cmd : frag (hl_vars cmd).
Proof. apply hl_loop_frag, plain_esc. Qed.
Lemma hl_vars_values cmd : values (hl_vars cmd) = esc cmd.
Proof. by apply hl_loop_values. Qed.
#[export] Hint Resolve hl_vars_frag : markup.

(** ** The pill editor and the variable palette *)

Definition pill_editor_html (field ph : jstr) (single : bool) : html :=
  src "<div class=`pill-editor cmd` data-pe=`" ++ escd field ++ src "`" ++ only single (src " data-single=`1`")
  ++ src " contenteditable=`true`
    role=`textbox` aria-multiline=`" ++ (if single then src "false" else src "true") ++ src "` aria-label=`"
  ++ emsg "var_editor_aria" ++ src "`
    data-ph=`" ++ escd ph ++ src "` spellcheck=`false`></div>".

Definition TEMPLATE_VARS : list jstr :=
  [lit "logical_date"; lit "logical_datetime"; lit "run_id"; lit "dag_id"; lit "task_id"; lit "try_number"].
Definition var_chip (name kind label : jstr) : html :=
  src "<span class=`chip varchip` data-var=`" ++ escd name ++ src "` data-kind=`" ++ escd kind
  ++ src "` role=`button` tabindex=`0` draggable=`true` title=`" ++ escd name ++ src "`>" ++ escd (label ||j name) ++ src "</span>".
Definition conn_chip (id : jstr) : html :=
  src "<span class=`chip varchip vp-conn` data-kind=`conn` data-conn=`" ++ escd id
  ++ src "` role=`button` tabindex=`0` aria-haspopup=`menu` draggable=`true` title=`conn." ++ escd id ++ src "`>conn."
  ++ escd id ++ src "</span>".
Definition var_hint_html : html :=
  src "<a class=`chip empty-hint vp-hint` href=`#/resources`>" ++ msg "var_empty" ++ src " · " ++ msg "var_goto_settings" ++ src "</a>".
Definition palette_group (vg : jstr) (label : html) (inner : html) : html :=
  src "<div class=`vp-group` data-vg=`" ++ [V vg] ++ src "`><span class=`vp-label`>" ++ label ++ src "</span>" ++ inner ++ src "</div>".
Definition loading_html : html := src "<span class=`vp-load`>…</span>".
(** The groups of the palette; those of the variables and connections are filled by
    the answers of the two requests. *)
Definition palette_html : html :=
  src "<div class=`var-palette` title=`" ++ msg "var_insert" ++ src "`>
    " ++ palette_group (lit "builtin") (msg "vg_builtin")
           (each (TEMPLATE_VARS ++ DATE_EXPR_CHIPS) (fun v => var_chip v (lit "builtin") (lit "{{ " ++ v ++ lit " }}"))) ++ src "
    " ++ palette_group (lit "var") (msg "vg_var") loading_html ++ src "
    " ++ palette_group (lit "conn") (msg "vg_conn") loading_html ++ src "
    " ++ palette_group (lit "params") (msg "vg_params")
           (src "<input class=`vp-keyin` data-kind=`params` placeholder=`params.key` spellcheck=`false` aria-label=`"
            ++ emsg "vg_params" ++ src "`>") ++ src "
  </div>".
(** What the two answers append to their groups. *)
Definition var_group_html (keys : list jstr) : html :=
  match keys with [] => var_hint_html | _ => each keys (fun k => var_chip (lit "var." ++ k) (lit "var") (lit "var." ++ k)) end.
Definition conn_group_html (ids : list jstr) : html :=
  match ids with [] => var_hint_html | _ => each ids conn_chip end.
Definition conn_menu_html (id : jstr) : html :=
  src "<div class=`vp-menu-head`>" ++ msg "var_conn_field" ++ src "</div>"
  ++ each CONN_FIELDS (fun f => src "<button type=`button` class=`vp-menu-item` role=`menuitem` data-field=`" ++ [V f]
       ++ src "`>conn." ++ escd id ++ src ".<b>" ++ [V f] ++ src "</b></button>").

Lemma pill_editor_frag f ph s : frag (pill_editor_html f ph s).
Proof. unfold pill_editor_html. frag_go. Qed.
Lemma var_chip_frag n k l : frag (var_chip n k l).
Proof. unfold var_chip. frag_go. Qed.
Lemma conn_chip_frag id : frag (conn_chip id).
Proof. unfold conn_chip. frag_go. Qed.
Lemma var_hint_frag : frag var_hint_html.
Proof. unfold var_hint_html. frag_go. Qed.
Lemma group_frag vg l i : plain vg = true -> frag l -> frag i -> frag (palette_group vg l i).
Proof. intros Hv Hl Hi. unfold palette_group. frag_go. Qed.
#[export] Hint Resolve pill_editor_frag var_chip_frag conn_chip_frag var_hint_frag group_frag : markup.
Lemma loading_frag : frag loading_html.
Proof. unfold loading_html. frag_go. Qed.
Lemma builtin_frag l kind f : frag (each l (fun v => var_chip v kind (f v))).
Proof. frag_go. Qed.
#[export] Hint Resolve loading_frag builtin_frag : markup.
Lemma palette_frag : frag palette_html.
Proof. unfold palette_html. frag_go. Qed.
Lemma var_group_frag ks : frag (var_group_html ks).
Proof. unfold var_group_html. frag_go. Qed.
Lemma conn_group_frag ids : frag (conn_group_html ids).
Proof. unfold conn_group_html. frag_go. Qed.
Lemma conn_menu_frag id : frag (conn_menu_html id).
Proof. unfold conn_menu_html. frag_go. Qed.
#[export] Hint Resolve palette_frag : markup.

(** ** The command field *)

(** The workflows a task can name: [cur] stays on offer when the list lacks it. *)
Definition dag_options (others : list jstr) (cur : jstr) : html :=
  each others (fun x => src "<option value=`" ++ escd x ++ src "` " ++ only (bool_decide (cur = x)) (src "selected") ++ src ">"
                        ++ escd x ++ src "</option>")
  ++ only (truthy cur && negb (bool_decide (cur ∈ others)))
       (src "<option value=`" ++ escd cur ++ src "` selected>" ++ escd cur ++ src "</option>").
Definition other_dags (all : list jstr) (id : jstr) : list jstr := List.filter (fun x => negb (bool_decide (x = id))) all.

Definition HTTP_METHODS : list jstr := [lit "GET"; lit "POST"; lit "PUT"; lit "PATCH"; lit "DELETE"; lit "HEAD"].
(** The fields of [CMD_BUILDERS.jar]: key, label, placeholder, full width. *)
Definition JAR_FIELDS : list (jfield * jstr * jstr * jstr * bool) :=
  [ (JJar, lit "jar", lit "cb_jar", lit "app.jar", true);
    (JMain, lit "mainclass", lit "cb_mainclass", lit "(optional) com.example.Main", false);
    (JArgs, lit "args", lit "cb_args", lit "--in {{ logical_date }}", true) ].
Definition jar_get (k : jfield) (f : jar_form) : jstr :=
  match k with JJar => jf_jar f | JMain => jf_mainclass f | JArgs => jf_args f end.
Definition jar_field_html (f : jar_form) (x : jfield * jstr * jstr * jstr * bool) : html :=
  let '(k, key, label, ph, full) := x in
  src "<div class=`b-field" ++ only full (src " full") ++ src "`><label>" ++ msgl (T label []) ++ src "</label><input class=`cf` data-cf=`"
  ++ [V key] ++ src "` value=`" ++ escd (jar_get k f) ++ src "` placeholder=`" ++ escd ph ++ src "`></div>".
Definition preview_html (cmd : jstr) : html :=
  src "<div class=`cmd-preview`><span class=`cp-label`>" ++ msg "cmd_will_run" ++ src "</span> <code id=`cmd-preview`>"
  ++ hl_vars cmd ++ src "</code></div>".

Definition subdag_field (all : list jstr) (dagid : jstr) (tk : task) : html :=
  src "<div class=`b-field full`><label>" ++ msg "t_subdag" ++ src "</label>
      <select class=`tf` data-k=`subdag` style=`max-width:340px`>
        <option value=``>" ++ msg "subdag_none" ++ src "</option>
        " ++ dag_options (other_dags all dagid) (trim (tk_subdag tk)) ++ src "
      </select>
      <div class=`field-hint`>" ++ msg "subdag_hint" ++ src "</div></div>".
Definition http_field (tk : task) : html :=
  let m := tk_httpMethod tk ||j lit "GET" in
  src "<div class=`b-field full`><label>" ++ msg "t_http" ++ src "</label>" ++ palette_html ++ src "
      <div class=`tc-grid`>
        <div class=`b-field`><label>" ++ msg "http_method" ++ src "</label><select class=`hf` data-h=`httpMethod`>"
  ++ each HTTP_METHODS (fun o => src "<option " ++ only (bool_decide (m = o)) (src "selected") ++ src ">" ++ [V o] ++ src "</option>")
  ++ src "</select></div>
        <div class=`b-field full`><label>" ++ msg "http_url" ++ src "</label>"
  ++ pill_editor_html (lit "httpUrl") (lit "https://{{ conn.api.host }}/path") true ++ src "</div>
      </div>
      <div class=`b-field full`><label>" ++ msg "http_headers" ++ src "</label>"
  ++ pill_editor_html (lit "httpHeaders") (lit "Authorization: Bearer {{ var.TOKEN }}") false
  ++ src "<div class=`field-hint`>" ++ msg "http_headers_hint" ++ src "</div></div>
      <div class=`b-field full`><label>" ++ msg "http_body" ++ src "</label>"
  ++ pill_editor_html (lit "httpBody") (map dquote (lit "{`k`:`{{ var.X }}`}")) false ++ src "</div>
      <div class=`b-field`><label>" ++ msg "http_status" ++ src "</label><input class=`hf` data-h=`httpStatus` value=`"
  ++ escd (tk_httpStatus tk) ++ src "` placeholder=`200, 201`><div class=`field-hint`>" ++ msg "http_status_hint" ++ src "</div></div></div>".
Definition python_field : html :=
  src "<div class=`b-field full`><label>" ++ msg "t_python" ++ src "</label>" ++ palette_html ++ src "
      " ++ pill_editor_html (lit "command") (lit "print(os.environ['CRONOVA_LOGICAL_DATE'])") false ++ src "
      <div class=`field-hint`>" ++ msg "python_hint" ++ src "</div></div>".
Definition sql_field (tk : task) : html :=
  src "<div class=`b-field full`><label>" ++ msg "t_sql" ++ src "</label>" ++ palette_html ++ src "
      <div class=`b-field`><label>" ++ msg "sql_conn" ++ src "</label><input class=`tf` data-k=`conn` value=`" ++ escd (tk_conn tk)
  ++ src "` placeholder=`warehouse`><div class=`field-hint`>" ++ msg "sql_conn_hint" ++ src "</div></div>
      " ++ pill_editor_html (lit "command") (lit "SELECT count(*) FROM events WHERE day = '{{ params.day }}'") false ++ src "</div>".
Definition raw_field (jar : bool) (tk : task) : html :=
  src "<div class=`b-field full`><label>" ++ msg "t_command"
  ++ only jar (src " <a class=`raw-toggle` id=`cmd-toform`>" ++ msg "cmd_use_form" ++ src "</a>") ++ src "</label>" ++ palette_html ++ src "
      " ++ pill_editor_html (lit "command") (lit "echo running {{ logical_date }}") false ++ src "
      " ++ preview_html (tk_command tk) ++ src "</div>".
Definition jar_field (tk : task) : html :=
  let f := draw_cf tk in
  src "<div class=`b-field full`><label>" ++ msg "t_command" ++ src " <span class=`tag`>" ++ escd (tk_type tk)
  ++ src "</span> <a class=`raw-toggle` id=`cmd-toraw`>" ++ msg "cmd_edit_raw" ++ src "</a></label>" ++ palette_html ++ src "
    <div class=`cmd-builder tc-grid`>" ++ each JAR_FIELDS (jar_field_html f) ++ src "</div>
    " ++ preview_html (tk_command tk ||j compose f) ++ src "</div>".
(** [commandFieldHtml] *)
Definition command_field (all : list jstr) (dagid : jstr) (raw : bool) (tk : task) : html :=
  let jar := is_type tk (lit "jar") in
  if is_type tk (lit "subdag") then subdag_field all dagid tk
  else if is_type tk (lit "http") then http_field tk
  else if is_type tk (lit "python") then python_field
  else if is_type tk (lit "sql") then sql_field tk
  else if raw || negb jar then raw_field jar tk
  else jar_field tk.

Lemma dag_options_frag l c : frag (dag_options l c).
Proof. unfold dag_options. frag_go. Qed.
Lemma preview_frag c : frag (preview_html c).
Proof. unfold preview_html. frag_go. Qed.
Lemma jar_field_html_frag f x : x ∈ JAR_FIELDS -> frag (jar_field_html f x).
Proof.
  intros H. repeat (apply elem_of_cons in H as [->|H]; [unfold jar_field_html; frag_go|]). by apply elem_of_nil in H.
Qed.
#[export] Hint Resolve dag_options_frag preview_frag jar_field_html_frag : markup.
Lemma subdag_frag a d tk : frag (subdag_field a d tk).
Proof. unfold subdag_field. frag_go. Qed.
Lemma http_frag tk : frag (http_field tk).
Proof. unfold http_field. cbv zeta. frag_go. Qed.
Lemma python_frag : frag python_field.
Proof. unfold python_field. frag_go. Qed.
Lemma sql_frag tk : frag (sql_field tk).
Proof. unfold sql_field. frag_go. Qed.
Lemma raw_frag j tk : frag (raw_field j tk).
Proof. unfold raw_field. frag_go. Qed.
Lemma jar_frag tk : frag (jar_field tk).
Proof. unfold jar_field. cbv zeta. frag_go. Qed.
Lemma command_frag a d r tk : frag (command_field a d r tk).
Proof.
  unfold command_field. cbv zeta. apply frag_if; [apply subdag_frag|]. apply frag_if; [apply http_frag|].
  apply frag_if; [apply python_frag|]. apply frag_if; [apply sql_frag|]. apply frag_if; [apply raw_frag|apply jar_frag].
Qed.
#[export] Hint Resolve command_frag : markup.

(** ** The other sections *)

Definition numf_str (f : numf) : jstr := match f with Blank => [] | NumF z => num_str z end.

(** [dodSectionHtml] *)
Definition dod_section (all : list jstr) (dagid : jstr) (tk : task) : html :=
  let cur := trim (tk_dodDag tk) in
  src "<details class=`adv-box` style=`margin-top:14px`" ++ only (truthy cur) (src " open") ++ src ">
    <summary>" ++ msg "dod_title" ++ src " <span class=`opt`>" ++ msg "t_optional" ++ src "</span>"
  ++ only (truthy cur) (src " <span class=`tag`>" ++ escd cur ++ src "</span>") ++ src "</summary>
    <div class=`field-hint` style=`margin-top:8px`>" ++ msg "dod_hint" ++ src "</div>
    <div class=`tc-grid` style=`margin-top:10px`>
      <div class=`b-field`><label>" ++ msg "dod_dag" ++ src "</label><select class=`tf` data-k=`dodDag`>
        <option value=``>" ++ msg "set_none" ++ src "</option>
        " ++ dag_options (other_dags all dagid) cur ++ src "
      </select></div>
      <div class=`b-field`><label>" ++ msg "dod_offset" ++ src "</label><input class=`tf mono` data-k=`dodOffset` value=`"
  ++ escd (tk_dodOffset tk) ++ src "` placeholder=`- 1d`><div class=`field-hint`>" ++ msg "dod_offset_hint" ++ src "</div></div>
      <div class=`b-field`><label>" ++ msg "dod_timeout" ++ src "</label><input class=`tf` data-k=`dodTimeout` type=`number` min=`0` value=`"
  ++ escd (numf_str (tk_dodTimeout tk)) ++ src "`><div class=`field-hint`>" ++ msg "dod_timeout_hint" ++ src "</div></div>
      <div class=`b-field`><label>" ++ msg "dod_on_timeout" ++ src "</label><select class=`tf` data-k=`dodOnTimeout`>
        <option value=`` " ++ only (negb (truthy (tk_dodOnTimeout tk))) (src "selected") ++ src ">" ++ msg "dod_fail" ++ src "</option>
        <option value=`skip` " ++ only (bool_decide (tk_dodOnTimeout tk = lit "skip")) (src "selected") ++ src ">" ++ msg "dod_skip" ++ src "</option>
      </select></div>
    </div>
  </details>".

(** [projectSectionHtml]: its select is filled when the list of projects arrives. *)
Definition project_section : html :=
  src "<div class=`b-field full proj-sec`>
    <label>" ++ msg "t_project" ++ src " <span class=`opt`>" ++ msg "t_optional" ++ src "</span></label>
    <div class=`proj-row`>
      <select class=`tf proj-select` data-k=`project` aria-label=`" ++ msg "t_project" ++ src "`><option value=``>" ++ msg "proj_none" ++ src "</option></select>
      <button type=`button` class=`proj-toggle` id=`proj-toggle` aria-expanded=`false`>" ++ msg "proj_upload" ++ src "</button>
    </div>
    <div class=`field-hint`>" ++ msg "proj_hint" ++ src "</div>
    <div class=`proj-panel` id=`proj-panel` hidden>
      <div class=`b-field`><label>" ++ msg "proj_name" ++ src "</label><input class=`proj-name` id=`proj-name` placeholder=`my_project` autocomplete=`off`></div>
      <div class=`proj-modes` role=`tablist`>
        <button type=`button` class=`seg on` data-mode=`files` role=`tab` aria-selected=`true`>" ++ msg "proj_mode_files" ++ src "</button>
        <button type=`button` class=`seg` data-mode=`inline` role=`tab` aria-selected=`false`>" ++ msg "proj_mode_inline" ++ src "</button>
      </div>
      <div id=`pm-files`>
        <div class=`proj-drop` id=`proj-drop` tabindex=`0`>
          <div class=`pd-text`>" ++ msg "proj_drop" ++ src "</div>
          <div class=`pd-actions`><button type=`button` id=`pd-files`>" ++ msg "proj_pick_files" ++ src "</button><button type=`button` id=`pd-folder`>"
  ++ msg "proj_pick_folder" ++ src "</button></div>
          <div class=`pd-zip`>" ++ msg "proj_ziphint" ++ src "</div>
          <div class=`pd-selected` id=`pd-selected` hidden></div>
        </div>
        <input type=`file` id=`pd-input-files` multiple hidden>
        <input type=`file` id=`pd-input-folder` webkitdirectory hidden>
      </div>
      <div id=`pm-inline` hidden>
        <div class=`b-field`><label>" ++ msg "proj_filename" ++ src "</label><input class=`proj-iname` id=`pi-name` placeholder=`main.py` autocomplete=`off`></div>
        <div class=`b-field full`><label>" ++ msg "proj_content" ++ src "</label><textarea class=`cmd` id=`pi-content` rows=`6` spellcheck=`false` placeholder=`print('hello')`></textarea></div>
      </div>
      <div class=`proj-foot`><button type=`button` class=`primary` id=`proj-do`>" ++ msg "proj_do_upload"
  ++ src "</button><button type=`button` id=`proj-cancel`>" ++ msg "cancel_word" ++ src "</button></div>
    </div>
  </div>".
(** What [hydrateProjectSection] and its handlers look up without asking. *)
Definition project_ids : list jstr :=
  [lit "proj-panel"; lit "proj-toggle"; lit "proj-name"; lit "pm-files"; lit "pm-inline"; lit "proj-drop"; lit "pd-selected";
   lit "pd-files"; lit "pd-folder"; lit "pd-input-files"; lit "pd-input-folder"; lit "proj-cancel"; lit "proj-do";
   lit "pi-name"; lit "pi-content"].

(** [fill]: the options of the select, for the projects fetched so far; the word after
    the number is the language's. *)
Definition files_word : text := fun lang => match lang with Zh => lit "个文件" | En => lit " files" end.
Definition project_options (projects : list (jstr * Z)) (cur : jstr) : html :=
  src "<option value=``>" ++ msg "proj_none" ++ src "</option>"
  ++ each projects (fun p => src "<option value=`" ++ escd p.1 ++ src "` " ++ only (bool_decide (p.1 = cur)) (src "selected") ++ src ">"
       ++ escd p.1 ++ src " · " ++ num p.2 ++ [M files_word] ++ src "</option>")
  ++ only (truthy cur && negb (existsb (fun p => bool_decide (p.1 = cur)) projects))
       (src "<option value=`" ++ escd cur ++ src "` selected>" ++ escd cur ++ src "</option>").

(** ** The page *)

Definition TASK_TYPES : list jstr := [lit "shell"; lit "python"; lit "sql"; lit "jar"; lit "http"; lit "subdag"].
Definition TRIGGER_RULES : list jstr :=
  [lit "all_success"; lit "all_done"; lit "one_success"; lit "one_failed"; lit "all_failed"; lit "none_failed"].

(** Whether the advanced options are unfolded. *)
Definition adv_open (tk : task) : bool :=
  negb (bool_decide (tk_pool tk = lit "default")) || negb (num_of (tk_priority tk) =? 0)%Z
  || negb (bool_decide (tk_retries tk = Blank)) || negb (bool_decide (tk_retry_delay tk = Blank))
  || negb (num_of (tk_timeout tk) =? 0)%Z || negb (num_of (tk_sla tk) =? 0)%Z.
Definition adv_section (tk : task) : html :=
  src "<details class=`adv-box`" ++ only (adv_open tk) (src " open") ++ src ">
        <summary>" ++ msg "adv_options" ++ src "</summary>
        <div class=`tc-grid` style=`margin-top:10px`>
          <div class=`b-field`><label>" ++ msg "t_pool" ++ src "</label><input class=`tf` data-k=`pool` value=`" ++ escd (tk_pool tk)
  ++ src "` placeholder=`default`><div class=`field-hint`>" ++ msg "pool_hint" ++ src "</div></div>
          <div class=`b-field`><label>" ++ msg "t_priority" ++ src "</label><input class=`tf` data-k=`priority` type=`number` value=`"
  ++ escd (numf_str (tk_priority tk)) ++ src "`></div>
          <div class=`b-field`><label>" ++ msg "t_retries" ++ src "</label><input class=`tf` data-k=`retries` type=`number` min=`0` value=`"
  ++ escd (numf_str (tk_retries tk)) ++ src "`></div>
          <div class=`b-field`><label>" ++ msg "t_retrydelay" ++ src "</label><input class=`tf` data-k=`retry_delay` type=`number` min=`0` value=`"
  ++ escd (numf_str (tk_retry_delay tk)) ++ src "`></div>
          <div class=`b-field`><label>" ++ msg "t_backoff" ++ src "</label><select class=`tf` data-k=`retry_backoff`>
            <option value=`` " ++ only (negb (truthy (tk_retry_backoff tk))) (src "selected") ++ src ">" ++ msg "bo_fixed" ++ src "</option>
            <option value=`exponential` " ++ only (bool_decide (tk_retry_backoff tk = lit "exponential")) (src "selected") ++ src ">"
  ++ msg "bo_exponential" ++ src "</option>
          </select><div class=`field-hint`>" ++ msg "t_backoff_hint" ++ src "</div></div>
          <div class=`b-field`><label>" ++ msg "t_backoffmax" ++ src "</label><input class=`tf` data-k=`retry_delay_max` type=`number` min=`0` value=`"
  ++ escd (numf_str (tk_retry_delay_max tk)) ++ src "`><div class=`field-hint`>" ++ msg "t_backoffmax_hint" ++ src "</div></div>
          <div class=`b-field`><label>" ++ msg "t_timeout" ++ src "</label><input class=`tf` data-k=`timeout` type=`number` min=`0` value=`"
  ++ escd (numf_str (tk_timeout tk)) ++ src "`><div class=`field-hint`>" ++ msg "t_timeout_hint" ++ src "</div></div>
          <div class=`b-field`><label>" ++ msg "t_sla" ++ src "</label><input class=`tf` data-k=`sla` type=`number` min=`0` value=`"
  ++ escd (numf_str (tk_sla tk)) ++ src "`><div class=`field-hint`>" ++ msg "t_sla_hint" ++ src "</div></div>
        </div>
      </details>".

(** [renderTaskPage]: [siblings] are the other tasks' names. *)
Definition task_page_html (all : list jstr) (dagid : jstr) (raw : bool) (siblings : list jstr) (tk : task) : html :=
  let title := tk_id tk ||j lit "—" in
  src "
    <div class=`crumb-bar`><a id=`t-back`>" ++ msg "back_dags" ++ src "</a> / <a id=`t-dag`>" ++ escd dagid ++ src "</a> / " ++ escd title ++ src "</div>
    <div class=`page-h`><h1 class=`mono`>" ++ escd title ++ src "</h1><span class=`savestate ss-saved` id=`t-save`></span></div>
    <div class=`form-page`>
      <div class=`tc-grid`>
        <div class=`b-field`><label>" ++ msg "t_id" ++ src "</label><input class=`tf` data-k=`id` value=`" ++ escd (tk_id tk) ++ src "` placeholder=`step_a`></div>
        <div class=`b-field`><label>" ++ msg "t_type" ++ src "</label><select class=`tf` data-k=`type`>"
  ++ each TASK_TYPES (fun o => src "<option " ++ only (bool_decide (tk_type tk = o)) (src "selected") ++ src ">" ++ [V o] ++ src "</option>")
  ++ src "</select></div>
      </div>
      " ++ command_field all dagid raw tk ++ src "
      " ++ only (is_type tk (lit "shell")) project_section ++ src "
      <div class=`section-h`>" ++ msg "t_deps" ++ src "</div>
      <div class=`b-deps`>"
  ++ match siblings with
     | [] => src "<span class=`chip empty-hint`>" ++ msg "t_nodeps" ++ src "</span>"
     | _ => each siblings (fun id =>
         let on := bool_decide (id ∈ tk_deps tk) in
         src "<span class=`chip dep " ++ only on (src "on") ++ src "` role=`checkbox` tabindex=`0` aria-checked=`" ++ bool_html on
         ++ src "` data-dep=`" ++ escd id ++ src "`>" ++ escd id ++ src "</span>")
     end ++ src "</div>
      <div class=`tc-grid` style=`margin-top:14px`>
        <div class=`b-field`><label>" ++ msg "t_rule" ++ src "</label><select class=`tf` data-k=`trigger_rule`>"
  ++ each TRIGGER_RULES (fun r => src "<option value=`" ++ [V r] ++ src "` " ++ only (bool_decide (tk_trigger_rule tk = r)) (src "selected") ++ src ">"
                                  ++ msgl (T (lit "tr_" ++ r) []) ++ src "</option>")
  ++ src "</select><div class=`field-hint` id=`rule-desc`>" ++ msgl (T (lit "trd_" ++ (tk_trigger_rule tk ||j lit "all_success")) []) ++ src "</div></div>
      </div>
      " ++ dod_section all dagid tk ++ src "
      " ++ adv_section tk ++ src "
      <div class=`b-errors` id=`task-errors`></div>
    </div>
    <div class=`form-foot`><button id=`t-back2`>" ++ msgl (T (lit "back_dag") [Raw dagid]) ++ src "</button></div>".
Definition task_page_ids : list jstr := [lit "t-back"; lit "t-dag"; lit "t-back2"].

(** [showErrors] *)
Definition errors_html (errs : list label) : html :=
  each errs (fun x => src "<div class=`e fatal`>" ++ escl x ++ src "</div>").

Lemma dod_frag a d tk : frag (dod_section a d tk).
Proof. unfold dod_section. cbv zeta. frag_go. Qed.
Lemma project_frag : frag project_section.
Proof. unfold project_section. frag_go. Qed.
Lemma project_finds : Forall (finds project_section) project_ids.
Proof. unfold project_section. find_all. Qed.
Lemma project_options_frag ps cur : frag (project_options ps cur).
Proof.
  assert (Hw : plain_text files_word) by by intros [].
  unfold project_options. frag_go.
Qed.
Lemma adv_frag tk : frag (adv_section tk).
Proof. unfold adv_section. frag_go. Qed.
Lemma errors_frag es : frag (errors_html es).
Proof. unfold errors_html. frag_go. Qed.
#[export] Hint Resolve dod_frag project_frag adv_frag errors_frag : markup.

(** A workflow's name is made of letters, digits, dots, dashes and underscores. *)
Lemma id_plain s : ID_RE s = true -> plain s = true.
Proof.
  assert (Hc : forall c, is_alnum c || is_idchar c = true -> negb (structural c) = true).
  { intros c. unfold structural. destruct (c =? ch "<")%N eqn:E1; [by apply N.eqb_eq in E1 as ->|].
    destruct (c =? ch ">")%N eqn:E2; [by apply N.eqb_eq in E2 as ->|].
    destruct (c =? 34)%N eqn:E3; [by apply N.eqb_eq in E3 as ->|done]. }
  destruct s as [|c s]; [done|]. simpl. intros [H1 H2]%andb_true_iff.
  rewrite Hc by by rewrite H1. simpl. rewrite forallb_forall in H2.
  apply forallb_forall. intros d Hd.
  apply Hc. rewrite (H2 d Hd). apply orb_true_r.
Qed.
Lemma task_page_frag a d r sib tk :
  ID_RE d = true -> plain (tk_trigger_rule tk) = true -> frag (task_page_html a d r sib tk).
Proof.
  intros Hd%id_plain Hr. unfold task_page_html, bool_html. cbv zeta.
  generalize (tk_id tk ||j lit "—"). intros title. frag_go.
Qed.
Lemma task_page_finds a d r sib tk : Forall (finds (task_page_html a d r sib tk)) task_page_ids.
Proof. unfold task_page_html. cbv zeta. find_all. Qed.
