(* ===== verification/RunPages.v ===== *)
(** * The pages of a run (views.js): the novice checklist and banner, the expert page,
    its table and timeline, and the log panels

    The templates, over what [RunDisplay] derives from a run: the rows' icons and
    texts, the banner, the actions, the bars of the timeline. *)

From Stdlib Require Import QArith Qround.
From S2P Require Import Prelude JsCore Schedule TaskGraph DictData Labels Format.
From S2P Require Import RunView RunDisplay GraphLayout Markup Screens DagPages DagDialogs.

(** A task instance: what [RunDisplay] reads of it and what the table prints. *)
Record rinst := RInst { ri_inst : inst; ri_pool : jstr; ri_max_retries : Z; ri_ref : jstr }.
Definition inst_ok (x : inst) : Prop := plain (in_state x) = true /\ plain (in_id x) = true.
Definition rinst_ok (x : rinst) : Prop := inst_ok (ri_inst x).
Lemma inst_state x : inst_ok x -> plain (in_state x) = true.
Proof. by intros []. Qed.
Lemma inst_id x : inst_ok x -> plain (in_id x) = true.
Proof. by intros []. Qed.
Lemma rinst_inst x : rinst_ok x -> inst_ok (ri_inst x).
Proof. done. Qed.
#[export] Hint Resolve inst_state inst_id rinst_inst : markup.

(** ** The novice page *)

Definition icon_html (i : icon) : html :=
  match i with
  | IcOk => src "<span class=`nv-step-ic ok`>✓</span>"
  | IcBad => src "<span class=`nv-step-ic bad`>✕</span>"
  | IcSpin => src "<span class=`nv-spin`></span>"
  | IcSkip => src "<span class=`nv-step-ic skip`>⊘</span>"
  | IcPending n => src "<span class=`nv-step-ic pending`>" ++ num (Z.of_nat n) ++ src "</span>"
  end.
Definition step_text_of (now : Z) (s : step_text) : text := fun lang =>
  match s with
  | TDur a b => dur now a b
  | TState st n => stateText st lang ++ (if (0 <? n)%Z then lit " · " ++ t lang (lit "nvr_retry_n") [num_str n] else [])
  | TLabel l => Labels.render lang l
  end.
Definition nov_row_html (now : Z) (pin : option jstr) (clickable : bool) (id cmd : jstr) (label : text) (r : icon * step_text) : html :=
  src "<div class=`nv-item " ++ only (bool_decide (pin = Some id)) (src "sel") ++ src "` "
  ++ only clickable (src "role=`button` tabindex=`0` data-nvrstep=`" ++ escd id ++ src "`") ++ src ">
      " ++ icon_html r.1 ++ src "
      <div class=`nv-main`>
        <div class=`nv-label`>" ++ [E label] ++ src "</div>
        <div class=`nv-cmd` title=`" ++ escd cmd ++ src "`>" ++ escd cmd ++ src "</div>
      </div>
      <span class=`nv-dur`>" ++ [E (step_text_of now r.2)] ++ src "</span>
    </div>".
(** The rows, for the steps' ids and commands; [None] when a label throws. *)
Fixpoint nov_rows_html (now : Z) (pin : option jstr) (tis : list inst) (cmd : jstr -> jstr)
    (rows : list (jstr * (icon * step_text))) : option html :=
  match rows with
  | [] => Some []
  | (id, x) :: rest =>
    let clickable := match inst_of tis id with Some i => truthy (in_id i) | None => false end in
    match nvTaskLabel id, nov_rows_html now pin tis cmd rest with
    | Some label, Some h => Some (nov_row_html now pin clickable id (cmd id) label x ++ h)
    | _, _ => None
    end
  end.
Definition nov_steps_html (now : Z) (pin : option jstr) (r : RunDisplay.run) (defs : list jstr) (cmd : jstr -> jstr) (tis : list inst)
  : option html := nov_rows_html now pin tis cmd (step_rows r defs tis).

Definition nov_shell : html :=
  src "<div class=`nv-wrap-sm`>
    <div id=`nvr-banner`></div>
    <div class=`nv-panel`>
      <div id=`nvr-steps`></div>
      <div class=`nvr-loghead` id=`nvr-loghead`></div>
      <div class=`logbox nvr-log` id=`nvr-logbox`></div>
    </div>
    <div id=`nvr-foot` style=`display:flex;justify-content:flex-end;margin-top:14px`></div>
  </div>".
Definition nov_foot (live : bool) : html :=
  only live (src "<button class=`danger` id=`nvr-cancel`>" ++ msg "run_cancel" ++ src "</button>").
Definition nov_loghead (task : jstr) : html :=
  msg "log_word" ++ src " · <span class=`mono`>" ++ escd task ++ src "</span> <span class=`live` id=`nvr-live`><span class=`p`></span>"
  ++ msg "live" ++ src "</span>".

(** [t(k, fragment)]: the text of [k] before its parameter, the fragment, and the
    text after it. *)
Fixpoint before_arg (ps : list piece) : jstr :=
  match ps with Txt s :: r => s ++ before_arg r | _ => [] end.
Fixpoint after_arg (ps : list piece) : jstr :=
  match ps with Txt _ :: r => after_arg r | Arg _ :: r => before_arg r | _ => [] end.
Definition entry_pieces (lang : language) (k : jstr) : list piece :=
  match assoc (DICT lang) k with Some e => e.2 | None => [] end.
Definition msg_around (k : jstr) (h : html) : html :=
  [M (fun lang => before_arg (entry_pieces lang k))] ++ h ++ [M (fun lang => after_arg (entry_pieces lang k))].

Definition banner_html (now : Z) (dagid : jstr) (sched : jstr) (r : RunDisplay.run) (b : banner) : html :=
  match b with
  | BLive =>
    src "<div style=`margin:8px 0 20px`>
      <h1 style=`font-size:22px;margin:0 0 6px;font-weight:700`>"
    ++ msg_around (lit "nvr_running_title") (src "<span class=`mono` style=`color:var(--accent)`>" ++ escd dagid ++ src "</span>")
    ++ src "</h1>
      <div class=`page-sub` style=`margin-bottom:0`>" ++ emsg "nvr_sub" ++ src "</div>
    </div>"
  | BOk =>
    src "<div class=`nv-banner ok` style=`margin:8px 0 20px`>
      <span class=`nv-big-ic ok`>✓</span>
      <div class=`nv-bmain`>
        <div class=`nv-bt`>" ++ escl (T (lit "nvr_done_title") [Raw (dur now (r_start r) (r_end r))]) ++ src "</div>
        <div class=`nv-bs`>" ++ escl (nvSchedGloss sched) ++ src " · " ++ emsg "nvr_done_sub" ++ src "</div>
      </div>
      <button class=`primary` id=`nvr-home`>" ++ emsg "nvr_done_home" ++ src "</button>
      <button id=`nvr-detail`>" ++ emsg "nvr_detail" ++ src "</button>
    </div>"
  | BBad title sub rerun =>
    src "<div class=`nv-banner bad` style=`margin:8px 0 20px`>
      <span class=`nv-big-ic bad`>✕</span>
      <div class=`nv-bmain`>
        <div class=`nv-bt`>" ++ escl title ++ src "</div>
        <div class=`nv-bs`>" ++ [E (fun lang => join (lit " ") (map (Labels.render lang) sub))] ++ src "</div>
      </div>
      <button class=`primary` id=`nvr-retry`>" ++ escl (T rerun []) ++ src "</button>
      <button id=`nvr-edit`>" ++ emsg "nvr_edit_steps" ++ src "</button>
      <button class=`icon` id=`nvr-home`>" ++ emsg "nvr_home" ++ src "</button>
    </div>"
  end.

(** Around a text with one parameter, [msg_around] is [t]. *)
Lemma running_title_is_t lang h :
  markup lang (msg_around (lit "nvr_running_title") h) = t lang (lit "nvr_running_title") [markup lang h].
Proof.
  unfold msg_around. rewrite !markup_app. generalize (markup lang h). intros s.
  destruct lang; vm_compute; by rewrite ?app_nil_r.
Qed.
Lemma around_plain k lang : plain_key k = true ->
  plain (before_arg (entry_pieces lang k)) = true /\ plain (after_arg (entry_pieces lang k)) = true.
Proof.
  intros Hk. assert (Hall : forallb plain_piece (entry_pieces lang k) = true).
  { unfold entry_pieces. destruct (assoc (DICT lang) k) as [e|] eqn:He; [|done]. apply assoc_in in He.
    pose proof (dict_plain lang) as Hd. unfold plain_dict in Hd. rewrite forallb_forall in Hd.
    apply list_elem_of_In, Hd, orb_true_iff in He as [He|]; [|done]. apply bool_decide_eq_true in He. simpl in He.
    unfold plain_key in Hk. apply andb_true_iff in Hk as [_ Hk]. by rewrite bool_decide_eq_true_2 in Hk. }
  clear Hk. assert (Hb : forall ps, forallb plain_piece ps = true -> plain (before_arg ps) = true).
  { induction ps as [|[s|n|n m y z] ps IH]; simpl; try done. intros [H1 H2]%andb_true_iff. by rewrite plain_app, H1, IH. }
  split; [by apply Hb|].
  induction (entry_pieces lang k) as [|[s|n|n m y z] ps IH]; simpl in *; try done; [|by apply Hb].
  apply andb_true_iff in Hall as [_ Hall]. by apply IH.
Qed.
Lemma around_frag k h : plain_key k = true -> frag h -> frag (msg_around k h).
Proof.
  intros Hk Hh. unfold msg_around.
  assert (H1 : plain_text (fun lang => before_arg (entry_pieces lang k))) by (intros lang; by apply around_plain).
  assert (H2 : plain_text (fun lang => after_arg (entry_pieces lang k))) by (intros lang; by apply around_plain).
  frag_go.
Qed.
#[export] Hint Resolve around_frag : markup.

Lemma icon_frag i : frag (icon_html i).
Proof. unfold icon_html. destruct i; frag_go. Qed.
#[export] Hint Resolve icon_frag : markup.
Lemma nov_row_frag now pin c id cmd l r : frag (nov_row_html now pin c id cmd l r).
Proof. unfold nov_row_html. frag_go. Qed.
Lemma nov_rows_frag now pin tis cmd rows h : nov_rows_html now pin tis cmd rows = Some h -> frag h.
Proof.
  revert h. induction rows as [|[id x] rows IH]; intros h; cbn [nov_rows_html]; [intros [= <-]; apply frag_nil|].
  cbv zeta. destruct (nvTaskLabel id) as [l|]; [|done]. destruct (nov_rows_html _ _ _ _ rows) as [h'|]; [|done].
  intros Hh%(inj Some). subst h. apply frag_app; [apply nov_row_frag|by apply IH].
Qed.
Lemma nov_steps_frag now pin r defs cmd tis h : nov_steps_html now pin r defs cmd tis = Some h -> frag h.
Proof. apply nov_rows_frag. Qed.
Lemma nov_shell_frag : frag nov_shell.
Proof. unfold nov_shell. frag_go. Qed.
Lemma nov_foot_frag b : frag (nov_foot b).
Proof. unfold nov_foot. frag_go. Qed.
Lemma nov_loghead_frag x : frag (nov_loghead x).
Proof. unfold nov_loghead. frag_go. Qed.
Lemma banner_frag now d s r b : frag (banner_html now d s r b).
Proof. unfold banner_html. destruct b; frag_go. Qed.

(** ** The expert page *)

Record runhead := RunHead {
  rh_id : jstr; rh_dag : jstr; rh_logical : jstr; rh_type : jstr; rh_priority : Z; rh_parent : jstr;
  rh_params : list (jstr * jstr); rh_run : RunDisplay.run;
}.
Definition run_page_html `{Host} (now : Z) (h : runhead) (timeline : bool) (graph : html) : html :=
  let r := rh_run h in
  src "
    <div class=`crumb-bar run-crumb`><a id=`back`>← " ++ escd (rh_dag h) ++ src "</a> / " ++ msg "run_word" ++ src "</div>
    <div class=`run-hero`>
      <div class=`run-title-row`>
        <div class=`run-title-main`>
          <h1 class=`mono`>" ++ copy_span (rh_id h) [] [] ++ src "</h1>
          <span id=`run-badge`>" ++ badge (r_state r) false ++ src "</span>" ++ prio_badge (rh_priority h) ++ src "
          " ++ only (truthy (rh_parent h)) (src "<a class=`tag run-link` id=`parent-run-link` role=`button` tabindex=`0` title=`"
                    ++ escd (rh_parent h) ++ src "`>⧉ " ++ msg "parent_run" ++ src " ↗</a>") ++ src "
        </div>
        <div class=`run-progress-wrap`>
          <span class=`run-progress-label`>" ++ msg "run_progress" ++ src "</span>
          <span class=`run-prog` id=`run-progress`></span>
          <div class=`run-meter` aria-hidden=`true`><i id=`run-meter-bar`></i></div>
        </div>
        <span class=`run-actions` id=`run-actions`></span>
      </div>
      <div class=`run-facts`>
        <div class=`run-fact`><span class=`k`>" ++ msg "k_logical" ++ src "</span><span class=`v mono`>" ++ copy_span (rh_logical h) [] [] ++ src "</span></div>
        <div class=`run-fact`><span class=`k`>" ++ msg "k_trig" ++ src "</span><span class=`v`>" ++ [M (typeText (rh_type h))] ++ src "</span></div>
        <div class=`run-fact`><span class=`k`>" ++ msg "k_dur" ++ src "</span><span class=`v mono` id=`run-dur`>" ++ [V (dur now (r_start r) (r_end r))]
  ++ src "</span></div>
        <div class=`run-fact`><span class=`k`>" ++ msg "k_started" ++ src "</span><span class=`v`>" ++ [V (fmt (r_start r))] ++ src "</span></div>
      </div>
    </div>
    " ++ match rh_params h with
         | [] => []
         | ps => src "<div class=`run-parambar`><span class=`rp-k`>" ++ msg "run_params" ++ src "</span>"
                 ++ each ps (fun p => src "<span class=`rp-chip mono`>" ++ escd p.1 ++ src "=<b>" ++ escd p.2 ++ src "</b></span>") ++ src "</div>"
         end ++ src "
    <div class=`section-h run-section-h`>" ++ msg "sec_graph" ++ src "</div><div id=`run-graph` class=`run-graph-panel`>" ++ graph ++ src "</div>
    <div class=`run-tabs` id=`run-tabs`>
      <button class=`pill " ++ only (negb timeline) (src "active") ++ src "` data-rt=`instances`>" ++ msg "sec_instances" ++ src "</button>
      <button class=`pill " ++ only timeline (src "active") ++ src "` data-rt=`timeline`>" ++ msg "g_timeline" ++ src "</button>
    </div>
    <div id=`run-body`></div>
    <div id=`logwrap`></div>".
(** What [showRun] and the polls' [renderRunDynamic] look up without asking. *)
Definition run_page_ids : list jstr :=
  [lit "back"; lit "run-tabs"; lit "run-badge"; lit "run-dur"; lit "run-progress"; lit "logwrap"].

(** The run's graph: tagged with the instances' states, not clickable. *)
Definition run_view (tis : list inst) : gview :=
  GView (Some (fun id => match inst_of tis id with Some x => in_state x | None => [] end)) (fun _ => false) false false true.

Definition actions_html (a : run_actions) : html :=
  match a with
  | ACancel => src "<button class=`danger` id=`run-cancel`>" ++ msg "run_cancel" ++ src "</button>"
  | ATerm canRetry => only canRetry (src "<button class=`primary` id=`run-retry`>" ++ msg "run_retry" ++ src "</button>")
                      ++ src "<button id=`run-mark`>" ++ msg "run_mark" ++ src "</button>"
  | ANone => []
  end.
Definition actions_ids (a : run_actions) : list jstr :=
  match a with
  | ACancel => [lit "run-cancel"]
  | ATerm canRetry => (if canRetry then [lit "run-retry"] else []) ++ [lit "run-mark"]
  | ANone => []
  end.

Definition child_run (x : rinst) : jstr := default [] (strip_prefix (lit "subdag:") (ri_ref x)).
Definition instance_row (now : Z) (viewer : bool) (r : RunDisplay.run) (y : rinst) : html :=
  let x := ri_inst y in
  let child := child_run y in
  let '(canRetry, canMark) := row_actions viewer r x in
  src "<tr><td class=`mono`>" ++ escd (in_task x)
  ++ only (truthy child) (src " <a class=`run-link no-nav` role=`button` tabindex=`0` data-child-run=`" ++ escd child ++ src "` title=`"
       ++ escd child ++ src "`>⧉ " ++ msg "child_run" ++ src " ↗</a>")
  ++ src "</td><td>" ++ badge (in_state x) false ++ src "</td><td>" ++ num (in_try x) ++ src "/" ++ num (ri_max_retries y + 1)
  ++ src "</td><td class=`mono`>" ++ escd (ri_pool y) ++ src "</td><td class=`num-col`>" ++ [V (dur now (in_start x) (in_end x))] ++ src "</td>
      <td><button class=`icon logbtn` data-ti=`" ++ [V (in_id x)] ++ src "` data-task=`" ++ escd (in_task x) ++ src "`>" ++ msg "th_logs" ++ src "</button>"
  ++ only canRetry (src " <button class=`icon retrybtn` data-rtask=`" ++ escd (in_task x) ++ src "` title=`" ++ msg "task_retry"
       ++ src "` aria-label=`" ++ msg "task_retry" ++ src "`>↻</button>")
  ++ only canMark (src " <button class=`icon markbtn` data-mtask=`" ++ escd (in_task x) ++ src "` title=`" ++ msg "task_mark"
       ++ src "` aria-label=`" ++ msg "task_mark" ++ src "`>⚑</button>")
  ++ src "</td></tr>".
Definition instances_html (now : Z) (viewer : bool) (r : RunDisplay.run) (tis : list rinst) : html :=
  match tis with
  | [] => src "<div class=`empty`>" ++ msg "run_no_tasks" ++ src "</div>"
  | _ =>
    src "<table class=`tbl`><thead><tr><th>" ++ msg "th_task" ++ src "</th><th>" ++ msg "th_state" ++ src "</th><th>" ++ msg "th_try"
    ++ src "</th><th>" ++ msg "h_pool" ++ src "</th><th class=`num-col`>" ++ msg "th_dur" ++ src "</th><th style=`width:140px`>"
    ++ msg "th_act" ++ src "</th></tr></thead>
    <tbody>" ++ each tis (instance_row now viewer r) ++ src "</tbody></table>"
  end.

(** [x.toFixed(2)], on the exact quotient. *)
Definition fixed_pos (q : Q) : jstr :=
  let n := Qfloor (q * 100 + (1 # 2)) in
  digits (Z.to_N (n / 100)) ++ lit "." ++ digits (Z.to_N (n mod 100 / 10)) ++ digits (Z.to_N (n mod 10)).
Definition toFixed2 (q : Q) : jstr := if negb (Qle_bool 0 q) then lit "-" ++ fixed_pos (- q) else fixed_pos q.

Definition bar_title `{Host} (now : Z) (x : inst) : text := fun lang =>
  in_task x ++ lit " · " ++ stateText (in_state x) lang ++ lit " · " ++ dur now (in_start x) (in_end x) ++ lit " · "
  ++ fmt (in_start x) ++ lit " → " ++ match in_end x with Some e => fmt (Some e) | None => lit "…" end.
(** A state's label, or a text where it has none. *)
Definition state_or (s k : jstr) : text := fun lang => stateText s lang ||j t lang k [].
Definition gantt_row_html `{Host} (now : Z) (r : RunDisplay.run) (tis : list inst) (x : inst) : html :=
  match gantt_bar now r tis x with
  | None =>
    src "<div class=`gantt-row`><div class=`gantt-label mono`>" ++ escd (in_task x)
    ++ src "</div><div class=`gantt-track`><span class=`gantt-none`>" ++ [M (state_or (in_state x) (lit "g_never_ran"))]
    ++ src "</span></div></div>"
  | Some b =>
    src "<div class=`gantt-row` data-ti=`" ++ [V (in_id x)] ++ src "` data-task=`" ++ escd (in_task x)
    ++ src "`><div class=`gantt-label mono`>" ++ escd (in_task x)
    ++ only (1 <? in_try x)%Z (src "<span class=`g-try` title=`" ++ msg "th_try" ++ src " " ++ num (in_try x) ++ src "`>×" ++ num (in_try x) ++ src "</span>")
    ++ src "</div><div class=`gantt-track`><div class=`gantt-bar g-" ++ escd (in_state x) ++ src "` style=`left:" ++ [V (toFixed2 (g_left b))]
    ++ src "%;width:" ++ [V (toFixed2 (g_width b))] ++ src "%` title=`" ++ [E (bar_title now x)] ++ src "`></div></div></div>"
  end.
Definition gantt_html `{Host} (now : Z) (r : RunDisplay.run) (tis : list inst) : html :=
  match tis with
  | [] => src "<div class=`empty`>" ++ msg "run_no_tasks" ++ src "</div>"
  | _ =>
    src "<div class=`gantt`><div class=`gantt-rows`>" ++ each tis (gantt_row_html now r tis) ++ src "</div>
    <div class=`gantt-axis`><span>" ++ escd (fmt (Some (gantt_t0 now r tis))) ++ src "</span><span class=`mono`>"
    ++ escd (dur now (Some (gantt_t0 now r tis)) (Some (gantt_t1 now r tis))) ++ src "</span><span>"
    ++ (if runLive (r_state r) then src "…" else escd (fmt (Some (gantt_t1 now r tis)))) ++ src "</span></div></div>"
  end.

(** ** The log panels *)

(** [showLog]: the link downloads the instance's whole log. *)
Definition log_panel_html (multi : bool) (ti task : jstr) : html :=
  src "
    <div class=`run-log-panel`>
    <div class=`run-log-head`>
      <div>" ++ msg "log_word" ++ src " · <span class=`mono`>" ++ escd task ++ src "</span> <span class=`live` id=`live`></span></div>
      <div style=`display:flex;gap:14px`>" ++ only multi (src "<a id=`log-all` role=`button` tabindex=`0`>" ++ msg "log_all" ++ src "</a>") ++ src "
      <a id=`log-dl` href=`/api/tasks/" ++ [V ti] ++ src "/log?download=1` download=`" ++ escd task ++ src ".log`>" ++ msg "log_download" ++ src "</a></div>
    </div>
    <div class=`log-toolbar`>
      <input id=`log-find` placeholder=`" ++ msg "log_find_ph" ++ src "` style=`max-width:220px`>
      <span class=`muted` id=`log-count`></span>
    </div>
    <div class=`logbox` id=`logbox`></div></div>".
Definition log_panel_ids : list jstr := [lit "logbox"; lit "log-count"; lit "log-find"; lit "live"].
Definition live_html : html := src "<span class=`p`></span>" ++ msg "live".
Definition all_logs_html (n : nat) : html :=
  src "
    <div class=`run-log-panel`>
    <div class=`run-log-head`>
      <div>" ++ msg "log_word" ++ src " · " ++ emsg "log_all" ++ src " <span class=`muted`>(" ++ num (Z.of_nat n)
  ++ src ")</span> <span class=`live` id=`live`><span class=`p`></span>" ++ msg "live" ++ src "</span></div>
    </div>
    <div class=`logbox` id=`logbox`></div></div>".

(** ** Proofs *)

Lemma fixed_plain q : plain (toFixed2 q) = true.
Proof. unfold toFixed2, fixed_pos. destruct (negb _); by rewrite !plain_app, !plain_digits. Qed.
Lemma state_or_plain s k : plain s = true -> plain_key k = true -> plain_text (state_or s k).
Proof.
  intros Hs Hk lang. apply plain_or; [by apply plain_state|]. by apply (plain_T k [] Hk).
Qed.
#[export] Hint Resolve fixed_plain state_or_plain : markup.
Definition runhead_ok (h : runhead) : Prop := plain (rh_type h) = true /\ plain (r_state (rh_run h)) = true.
#[export] Hint Resolve prio_frag : markup.
Lemma run_page_frag `{Host} now h tl g : runhead_ok h -> frag g -> frag (run_page_html now h tl g).
Proof. intros [Ht Hs] Hg. unfold run_page_html. cbv zeta. frag_go. Qed.
Lemma run_page_finds `{Host} now h tl g : Forall (finds (run_page_html now h tl g)) run_page_ids.
Proof. unfold run_page_html. cbv zeta. find_all. Qed.
Lemma actions_frag a : frag (actions_html a).
Proof. destruct a; unfold actions_html; frag_go. Qed.
Lemma actions_find a : Forall (finds (actions_html a)) (actions_ids a).
Proof. destruct a as [| |[]]; unfold actions_html, actions_ids; find_all. Qed.
Lemma instance_frag now v r x : rinst_ok x -> frag (instance_row now v r x).
Proof. intros Hx. unfold instance_row. cbv zeta. destruct (row_actions _ _ _) as [a b]. frag_go. Qed.
#[export] Hint Resolve instance_frag : markup.
Lemma instances_frag now v r tis : Forall rinst_ok tis -> frag (instances_html now v r tis).
Proof.
  intros Hok. unfold instances_html. destruct tis as [|x l]; [frag_go|]. generalize dependent (x :: l). intros tis Hok. frag_go.
Qed.
Lemma gantt_row_frag `{Host} now r tis x : inst_ok x -> frag (gantt_row_html now r tis x).
Proof. intros [Hs Hi]. unfold gantt_row_html. frag_go. Qed.
#[export] Hint Resolve gantt_row_frag : markup.
Lemma gantt_frag `{Host} now r tis : Forall inst_ok tis -> frag (gantt_html now r tis).
Proof.
  intros Hok. unfold gantt_html. destruct tis as [|x l]; [frag_go|]. generalize dependent (x :: l). intros tis Hok. frag_go.
Qed.
Lemma log_panel_frag m ti task : plain ti = true -> frag (log_panel_html m ti task).
Proof. intros H. unfold log_panel_html. frag_go. Qed.
Lemma log_panel_finds m ti task : Forall (finds (log_panel_html m ti task)) log_panel_ids.
Proof. unfold log_panel_html. find_all. Qed.
Lemma live_frag : frag live_html.
Proof. unfold live_html. frag_go. Qed.
Lemma all_logs_frag n : frag (all_logs_html n).
Proof. unfold all_logs_html. frag_go. Qed.
