(* ===== verification/ResourcePages.v ===== *)
(** * The pages of shared configuration (views.js): pools, variables, connections,
    alert groups, and their dialogs

    The templates over the rows and dialog states of [Resources]. *)

From S2P Require Import Prelude JsCore Schedule DagModel DictData Labels Format Resources Markup Screens DagPages.

(** ** Pools *)

Record pool := Pool { pl_name : jstr; pl_slots : Z }.
#[export] Instance pool_eq_dec : EqDecision pool.
Proof. solve_decision. Defined.

Definition pools_html (pools : list pool) : html :=
  src "
    <div class=`page-h`><h1>Pools</h1><span class=`num`>" ++ num (Z.of_nat (length pools)) ++ src "</span></div>
    <div class=`page-sub`>" ++ msg "pools_sub" ++ src "</div>
    <table class=`tbl`><thead><tr><th>" ++ msg "p_name" ++ src "</th><th>" ++ msg "p_slots" ++ src "</th><th></th></tr></thead>
    <tbody>" ++ each pools (fun p =>
      src "<tr><td class=`mono`>" ++ escd (pl_name p) ++ src "</td><td><input type=`number` min=`1` value=`" ++ num (pl_slots p)
      ++ src "` data-pool=`" ++ escd (pl_name p) ++ src "` style=`width:90px`></td><td><button data-save=`" ++ escd (pl_name p)
      ++ src "`>" ++ msg "p_save" ++ src "</button></td></tr>")
  ++ src "</tbody></table>
    <div class=`toolbar` style=`margin-top:16px`><input id=`np` placeholder=`" ++ msg "p_newname"
  ++ src "`><input id=`ns` type=`number` min=`1` value=`4` style=`width:90px`><button class=`primary` id=`addp`>"
  ++ msg "p_create" ++ src "</button></div>".
Definition pools_ids : list jstr := [lit "addp"; lit "np"; lit "ns"].

(** ** Variables and connections *)

Inductive res_tab := VarsTab | ConnsTab | GroupsTab.
#[export] Instance res_tab_eq_dec : EqDecision res_tab.
Proof. solve_decision. Defined.

Definition tab_pill (tab this : res_tab) (name : jstr) (label : html) (n : nat) : html :=
  src "<button class=`pill " ++ only (bool_decide (tab = this)) (src "active") ++ src "`"
  ++ only (bool_decide (tab = this)) (src " aria-current=`true`") ++ src " data-rt=`" ++ [V name] ++ src "`>" ++ label
  ++ src " <span class=`tab-n`>" ++ num (Z.of_nat n) ++ src "</span></button>".
(** [renderResources]: the page around the tab, for the numbers of rows. *)
Definition resources_html (novice : bool) (tab : res_tab) (vars conns groups : nat) : html :=
  src "
    <div class=`page-h`><h1>" ++ msg "nav_resources" ++ src "</h1></div>
    <div class=`page-sub`>" ++ emsg "res_sub" ++ src "</div>
    <div class=`run-tabs` id=`res-tabs`>
      " ++ tab_pill tab VarsTab (lit "vars") (msg "res_vars") vars ++ src "
      " ++ tab_pill tab ConnsTab (lit "conns") (msg "res_conns") conns ++ src "
      " ++ only (negb novice) (tab_pill tab GroupsTab (lit "groups") (msg "res_groups") groups) ++ src "
    </div>
    <div id=`res-body`></div>".
Definition resources_ids : list jstr := [lit "res-tabs"; lit "res-body"].

Definition varsTabHtml (vars : list vrow) : html :=
  src "<table class=`tbl`><thead><tr><th style=`width:240px`>" ++ msg "v_key" ++ src "</th><th>" ++ msg "v_value"
  ++ src "</th><th style=`width:130px`></th></tr></thead>
    <tbody>"
  ++ (match vars with [] => src "<tr><td colspan=`3`><div class=`empty`>" ++ msg "v_none" ++ src "</div></td></tr>"
      | _ => each vars (fun v =>
        src "<tr><td class=`mono`>" ++ escd (v_key v) ++ src "</td><td><input class=`v-val mono` data-key=`" ++ escd (v_key v)
        ++ src "` value=`" ++ escd (v_value v) ++ src "` style=`width:100%`></td>
      <td><button data-vsave=`" ++ escd (v_key v) ++ src "`>" ++ msg "v_save" ++ src "</button> <button class=`icon danger` data-vdel=`"
        ++ escd (v_key v) ++ src "` aria-label=`" ++ msg "btn_delete" ++ src "`>✕</button></td></tr>") end)
  ++ src "</tbody></table>
    <div class=`toolbar` style=`margin-top:16px`><input id=`nv-key` class=`mono` placeholder=`" ++ msg "v_key"
  ++ src "` style=`width:240px`><input id=`nv-val` class=`mono` placeholder=`" ++ msg "v_value"
  ++ src "`><button class=`primary` id=`nv-add`>" ++ msg "v_add" ++ src "</button></div>".
Definition vars_ids : list jstr := [lit "nv-add"; lit "nv-key"; lit "nv-val"].

Definition connsTabHtml (conns : list crow) : html :=
  src "<table class=`tbl`><thead><tr><th>" ++ msg "c_id" ++ src "</th><th>" ++ msg "c_type" ++ src "</th><th>" ++ msg "c_host"
  ++ src "</th><th>" ++ msg "c_login" ++ src "</th><th>" ++ msg "c_password" ++ src "</th><th style=`width:130px`></th></tr></thead>
    <tbody>"
  ++ (match conns with [] => src "<tr><td colspan=`6`><div class=`empty`>" ++ msg "c_none" ++ src "</div></td></tr>"
      | _ => each conns (fun c =>
        src "<tr><td class=`mono`>" ++ escd (cr_id c) ++ src "</td><td>" ++ escd (cr_type c ||j lit "—") ++ src "</td>
      <td class=`mono muted`>" ++ escd (cr_host c ||j lit "—") ++ only (negb (cr_port c =? 0)%Z) (src ":" ++ num (cr_port c))
        ++ src "</td><td class=`mono muted`>" ++ escd (cr_login c ||j lit "—") ++ src "</td>
      <td>" ++ (if cr_has_password c then src "<span class=`mono`>••••••</span>"
                else src "<span class=`muted`>" ++ msg "c_pw_none" ++ src "</span>") ++ src "</td>
      <td><button data-cedit=`" ++ escd (cr_id c) ++ src "`>" ++ msg "set_edit" ++ src "</button> <button class=`icon danger` data-cdel=`"
        ++ escd (cr_id c) ++ src "` aria-label=`" ++ msg "btn_delete" ++ src "`>✕</button></td></tr>") end)
  ++ src "</tbody></table>
    <div class=`toolbar` style=`margin-top:16px`><button class=`primary` id=`nc-add`>" ++ msg "c_add" ++ src "</button></div>".

(** The dialog as [connDialog] opens it; [pw] is [conn.has_password]. *)
Definition conn_dialog_html (f : cform) (pw : bool) : html :=
  let isEdit := match f_edit f with Some _ => true | None => false end in
  let title := if isEdit then msg "c_edit" else msg "c_add" in
  src "<div class=`overlay` id=`covl`><div class=`modal` role=`dialog` aria-modal=`true` aria-label=`" ++ title ++ src "`>
    <h2>" ++ title ++ src "</h2>
    <div class=`body`>
      <div class=`b-field`><label>" ++ msg "c_id" ++ src "</label><input id=`c-id` class=`mono` value=`" ++ escd (f_id f) ++ src "` "
  ++ only isEdit (src "disabled") ++ src " placeholder=`mysql_prod`></div>
      <div class=`b-grid`>
        <div class=`b-field`><label>" ++ msg "c_type" ++ src "</label><input id=`c-type` value=`" ++ escd (f_type f) ++ src "` placeholder=`mysql`></div>
        <div class=`b-field`><label>" ++ msg "c_host" ++ src "</label><input id=`c-host` class=`mono` value=`" ++ escd (f_host f) ++ src "`></div>
        <div class=`b-field`><label>" ++ msg "c_port" ++ src "</label><input id=`c-port` type=`number` value=`"
  ++ match f_port f with Blank => [] | NumF z => num z end ++ src "`></div>
        <div class=`b-field`><label>" ++ msg "c_login" ++ src "</label><input id=`c-login` class=`mono` value=`" ++ escd (f_login f) ++ src "`></div>
      </div>
      <div class=`b-field`><label>" ++ msg "c_password" ++ src "</label><input id=`c-pw` type=`password` placeholder=`"
  ++ only (isEdit && pw) (msg "c_pw_keep") ++ src "`></div>
      <div class=`b-field`><label>" ++ msg "c_extra"
  ++ src "</label><textarea id=`c-extra` class=`mono` rows=`3` spellcheck=`false` placeholder='{`schema`:`prod`}'>" ++ escd (f_extra f)
  ++ src "</textarea></div>
      <div class=`nd-err` id=`c-err`></div>
    </div>
    <div class=`foot`><button id=`c-cancel`>" ++ msg "nd_cancel" ++ src "</button><button class=`primary` id=`c-save`>" ++ msg "v_save" ++ src "</button></div>
  </div></div>".
Definition conn_ids : list jstr :=
  [lit "covl"; lit "c-cancel"; lit "c-save"; lit "c-err"; lit "c-id"; lit "c-type"; lit "c-host"; lit "c-port"; lit "c-login";
   lit "c-pw"; lit "c-extra"].

(** ** Alert groups *)

Record grow := GRow { gr_name : jstr; gr_chans : list chan; gr_updated : option Z }.

Section groups.
(** [new URL(u).host], [None] where the constructor throws. *)
Variable url_host : jstr -> option jstr.

Definition channel_text (u : jstr) : jstr :=
  if starts_with_ci (lit "mailto:") u then
    match split_on (ch "?") (drop 7 u) with s :: _ => s | [] => [] end
  else match url_host u with Some h => h ||j take 40 u | None => take 40 u end.
Definition agChannelSummary (chs : list chan) : jstr := join (lit " · ") (map (fun c => channel_text (ch_url c)) chs).

Definition groupsTabHtml `{Host} (groups : list grow) : html :=
  src "<div class=`page-sub` style=`margin:2px 0 12px`>" ++ emsg "ag_hint" ++ src "</div>
    <table class=`tbl`><thead><tr><th style=`width:220px`>" ++ msg "ag_name" ++ src "</th><th>" ++ msg "ag_channels"
  ++ src "</th><th style=`width:170px`>" ++ msg "ag_updated" ++ src "</th><th style=`width:130px`></th></tr></thead>
    <tbody>"
  ++ (match groups with [] => src "<tr><td colspan=`4`><div class=`empty`>" ++ msg "ag_none" ++ src "</div></td></tr>"
      | _ => each groups (fun g =>
        src "<tr><td class=`mono`>" ++ escd (gr_name g) ++ src "</td>
      <td><span class=`tag`>" ++ escl (T (lit "ag_channel_n") [Raw (digits (N.of_nat (length (gr_chans g))))])
        ++ src "</span> <span class=`mono muted` style=`font-size:12px` title=`" ++ escd (join [10%N] (map ch_url (gr_chans g)))
        ++ src "`>" ++ escd (agChannelSummary (gr_chans g)) ++ src "</span></td>
      <td style=`font-size:12.5px` class=`muted`>" ++ [V (fmt (gr_updated g))] ++ src "</td>
      <td><button data-agedit=`" ++ escd (gr_name g) ++ src "`>" ++ msg "set_edit" ++ src "</button> <button class=`icon danger` data-agdel=`"
        ++ escd (gr_name g) ++ src "` aria-label=`" ++ msg "btn_delete" ++ src "`>✕</button></td></tr>") end)
  ++ src "</tbody></table>
    <div class=`toolbar` style=`margin-top:16px`><button class=`primary` id=`ag-add`>" ++ msg "ag_add" ++ src "</button></div>".
End groups.

Definition agFormats : list (jstr * label) := nFormats.
Definition channel_row_html (lone : bool) (c : chan) (i : Z) : html :=
  src "<div class=`ag-ch-row`>
            <input class=`mono ag-ch-url` data-agi=`" ++ num i ++ src "` value=`" ++ escd (ch_url c) ++ src "` placeholder=`"
  ++ emsg "ag_url_ph" ++ src "` aria-label=`URL " ++ num (i + 1) ++ src "`>
            <select class=`ag-ch-fmt` data-agi=`" ++ num i ++ src "` aria-label=`" ++ emsg "ag_fmt" ++ src " " ++ num (i + 1) ++ src "`>"
  ++ each agFormats (fun x => src "<option value=`" ++ [V x.1] ++ src "` " ++ only (bool_decide (ch_format c = x.1)) (src "selected")
                              ++ src ">" ++ msgl x.2 ++ src "</option>")
  ++ src "</select>
            <button class=`icon danger` data-agrm=`" ++ num i ++ src "` " ++ only lone (src "disabled") ++ src " aria-label=`"
  ++ emsg "ag_remove_channel" ++ src " " ++ num (i + 1) ++ src "`>✕</button>
          </div>".
(** [render] of the dialog in the state [d]. *)
Definition group_dialog_html (d : gdialog) : html :=
  let isEdit := match g_edit d with Some _ => true | None => false end in
  let title := if isEdit then msg "ag_edit" else msg "ag_add" in
  let chans := g_chans d in
  src "<div class=`overlay` id=`agovl`><div class=`modal` role=`dialog` aria-modal=`true` aria-label=`" ++ title ++ src "`>
      <h2>" ++ title ++ src "</h2>
      <div class=`body`>
        <div class=`b-field`><label>" ++ msg "ag_name" ++ src "</label><input id=`ag-name` class=`mono` value=`" ++ escd (g_name d)
  ++ src "` " ++ only isEdit (src "disabled") ++ src " placeholder=`oncall`></div>
        <div class=`b-field`><label>" ++ msg "ag_channels"
  ++ src " <span class=`muted` style=`text-transform:none;letter-spacing:0`>· "
  ++ escl (T (lit "ag_max") [Raw (digits (N.of_nat AG_MAX_CHANNELS))]) ++ src "</span></label>
          " ++ eachi chans (channel_row_html (Nat.leb (length chans) 1)) ++ src "
          " ++ only (Nat.ltb (length chans) AG_MAX_CHANNELS)
               (src "<a role=`button` tabindex=`0` id=`ag-addch` style=`font-size:12.5px`>" ++ emsg "ag_add_channel" ++ src "</a>")
  ++ src "
          <div class=`field-hint`>" ++ emsg "ag_mailto_hint" ++ src "</div>
        </div>
        <div class=`nd-err` id=`ag-err`></div>
      </div>
      <div class=`foot`><button id=`ag-cancel`>" ++ msg "nd_cancel" ++ src "</button><button class=`primary` id=`ag-save`>" ++ msg "v_save" ++ src "</button></div>
    </div></div>".
Definition group_ids : list jstr := [lit "agovl"; lit "ag-cancel"; lit "ag-save"; lit "ag-name"; lit "ag-err"].

(** ** Why they are inert, and hold what their code looks up *)

Lemma pools_frag ps : frag (pools_html ps).
Proof. unfold pools_html. frag_go. Qed.
Lemma tab_pill_frag tab this name label n : plain name = true -> frag label -> frag (tab_pill tab this name label n).
Proof. intros Hn Hl. unfold tab_pill. frag_go. Qed.
#[export] Hint Resolve tab_pill_frag : markup.
Lemma resources_frag nv tab a b c : frag (resources_html nv tab a b c).
Proof.
  assert (Hm : forall k, plain_key k = true -> frag [M (tx (T k []))]) by (intros; frag_go).
  unfold resources_html. frag_go.
  all: apply tr_frag, tab_pill_frag; [reflexivity|apply Hm; reflexivity].
Qed.
Lemma vars_frag vs : frag (varsTabHtml vs).
Proof. unfold varsTabHtml. destruct vs as [|v l]; [frag_go|]. generalize (v :: l). intros vs. frag_go. Qed.
Lemma conns_frag cs : frag (connsTabHtml cs).
Proof. unfold connsTabHtml. destruct cs as [|c l]; [frag_go|]. generalize (c :: l). intros cs. frag_go. Qed.
Lemma conn_dialog_frag f pw : frag (conn_dialog_html f pw).
Proof. unfold conn_dialog_html. cbv zeta. frag_go. Qed.
Lemma groups_frag url `{Host} gs : frag (groupsTabHtml url gs).
Proof. unfold groupsTabHtml. destruct gs as [|g l]; [frag_go|]. generalize (g :: l). intros gs. frag_go. Qed.
Lemma agFormats_plain x : x ∈ agFormats -> plain x.1 = true /\ plain_text (tx x.2).
Proof. apply formats_plain. Qed.
#[export] Hint Extern 3 (plain _.1 = true) => apply agFormats_plain; assumption : markup.
#[export] Hint Extern 3 (plain_text (tx _.2)) => apply agFormats_plain; assumption : markup.
Lemma channel_row_frag lone c i : frag (channel_row_html lone c i).
Proof. unfold channel_row_html. frag_go. Qed.
#[export] Hint Resolve channel_row_frag : markup.
Lemma group_dialog_frag d : frag (group_dialog_html d).
Proof. unfold group_dialog_html. cbv zeta. frag_go. Qed.

Lemma pools_finds ps : Forall (finds (pools_html ps)) pools_ids.
Proof. unfold pools_html. find_all. Qed.
Lemma resources_finds nv tab a b c : Forall (finds (resources_html nv tab a b c)) resources_ids.
Proof. unfold resources_html. find_all. Qed.
Lemma vars_tab_finds vs : Forall (finds (varsTabHtml vs)) vars_ids.
Proof. unfold varsTabHtml. find_all. Qed.
Lemma conns_tab_finds cs : Forall (finds (connsTabHtml cs)) [lit "nc-add"].
Proof. unfold connsTabHtml. find_all. Qed.
Lemma conn_dialog_finds f pw : Forall (finds (conn_dialog_html f pw)) conn_ids.
Proof. unfold conn_dialog_html. cbv zeta. find_all. Qed.
Lemma groups_tab_finds url `{Host} gs : Forall (finds (groupsTabHtml url gs)) [lit "ag-add"].
Proof. unfold groupsTabHtml. find_all. Qed.
Lemma group_dialog_finds d : Forall (finds (group_dialog_html d)) group_ids.
Proof. unfold group_dialog_html. cbv zeta. find_all. Qed.
