(* ===== verification/AdminPages.v ===== *)
(** * The pages of administration (views.js): the audit trail, the API tokens, the
    fleet of workers, and their dialogs

    The templates over the page states of [Admin] and [Workers]. *)

From S2P Require Import Prelude JsCore Schedule DictData Labels Format Keyed Admin Workers Markup Screens.

(** ** The audit trail *)

(** An entry, with what its row prints besides. *)
Record arow := ARow { ar_entry : aentry; ar_ts : option Z; ar_target : jstr; ar_detail : jstr }.

(** A verb without a text is shown as it is. *)
Definition auditActionLabel (a : jstr) : text := fun lang =>
  let v := t lang (lit "act_" ++ a) [] in
  if bool_decide (v = lit "act_" ++ a) then a else v.
Definition auditRows `{Host} (entries : list arow) : html :=
  each entries (fun e =>
    src "<tr><td style=`font-size:12.5px`>" ++ [V (fmt (ar_ts e))] ++ src "</td><td class=`mono`>" ++ escd (ae_actor (ar_entry e))
    ++ src "</td><td><span class=`tag`>" ++ [E (auditActionLabel (ae_action (ar_entry e)))] ++ src "</span></td><td class=`mono`>"
    ++ escd (ar_target e ||j lit "—")
    ++ only (truthy (ar_detail e)) (src " <span class=`muted`>" ++ escd (ar_detail e) ++ src "</span>") ++ src "</td></tr>").

(** [[...new Set(vals)].sort()] *)
Definition sorted_set (vals : list jstr) : list jstr := sort_rows (fun v => v) (remove_dups vals).
Definition opts (vals : list jstr) (sel : jstr) (all : text) : html :=
  src "<option value=``>" ++ [E all] ++ src "</option>"
  ++ each (sorted_set vals) (fun v =>
       src "<option value=`" ++ escd v ++ src "` " ++ only (bool_decide (sel = v)) (src "selected") ++ src ">" ++ escd v ++ src "</option>").

(** [renderAudit], for the page [a] whose entries print as [rows]. *)
Definition audit_html `{Host} (a : aud) (row : aentry -> arow) : html :=
  let shown := audit_shown a in
  src "
    <div class=`page-h`><h1>" ++ msg "nav_audit" ++ src "</h1><span class=`num`>" ++ num (Z.of_nat (length shown)) ++ src "</span>
      <div class=`filters` style=`display:flex;gap:8px`>
        <select id=`au-actor` aria-label=`" ++ emsg "au_f_actor" ++ src "` style=`max-width:170px`>"
  ++ opts (ae_actor <$> au_entries a) (au_actor a) (say "au_f_actor") ++ src "</select>
        <select id=`au-action` aria-label=`" ++ emsg "au_f_action" ++ src "` style=`max-width:170px`>"
  ++ opts (ae_action <$> au_entries a) (au_action a) (say "au_f_action") ++ src "</select>
      </div></div>
    <div class=`page-sub`>" ++ msg "audit_sub" ++ src "</div>
    "
  ++ match shown with
     | [] => src "<div class=`empty`>" ++ msg "audit_empty" ++ src "</div>"
     | _ => src "<table class=`tbl`><thead><tr><th style=`width:180px`>" ++ msg "au_time" ++ src "</th><th>" ++ msg "au_actor"
            ++ src "</th><th>" ++ msg "au_action" ++ src "</th><th>" ++ msg "au_target" ++ src "</th></tr></thead><tbody>"
            ++ auditRows (row <$> shown) ++ src "</tbody></table>"
     end
  ++ src "
    " ++ only (au_more a) (src "<div style=`text-align:center;margin-top:10px`><button class=`icon` id=`au-more`>"
                           ++ msg "audit_more" ++ src "</button></div>").
Definition audit_ids : list jstr := [lit "au-actor"; lit "au-action"].

(** ** API tokens *)

Record krow := KRow { kr_token : atoken; kr_prefix : jstr; kr_created : option Z; kr_used : option Z }.

Definition roleLabel (role : jstr) : label :=
  if bool_decide (role = lit "viewer") then T (lit "role_viewer_ro") []
  else if bool_decide (role = lit "operator") then T (lit "role_operator") [] else T (lit "role_admin_full") [].
Definition token_row_html `{Host} (admin : bool) (k : krow) : html :=
  let tk := kr_token k in
  src "<tr>
      <td class=`mono`>" ++ escd (at_name tk) ++ src "</td>
      <td><span class=`tag`>" ++ escl (roleLabel (at_role tk)) ++ src "</span></td>
      <td class=`mono muted`>" ++ escd (kr_prefix k) ++ src "…</td>
      <td style=`font-size:12.5px`>" ++ [V (fmt (kr_created k))] ++ src "</td>
      <td style=`font-size:12.5px` class=`muted`>"
  ++ match kr_used k with Some z => [V (fmt (Some z))] | None => msg "tok_never" end ++ src "</td>
      "
  ++ (if admin then
        src "<td><button class=`icon danger` data-tokdel=`" ++ num (Z.of_nat (at_id tk)) ++ src "` data-tokname=`" ++ escd (at_name tk)
        ++ src "` aria-label=`" ++ msg "tok_revoke" ++ src "`>✕</button></td>"
      else src "<td></td>") ++ src "
    </tr>".
Definition api_html `{Host} (admin : bool) (tokens : list krow) : html :=
  src "
    <div class=`page-h`><h1>" ++ msg "api_title" ++ src "</h1></div>
    <div class=`page-sub`>" ++ emsg "api_sub" ++ src "</div>

    <div class=`api-docs-card`>
      <div class=`adc-body`>
        <div class=`adc-h`>" ++ msg "api_docs_h" ++ src "</div>
        <div class=`adc-hint`>" ++ emsg "api_docs_hint" ++ src "</div>
      </div>
      <div class=`adc-actions`>
        <a class=`btn primary` href=`/docs` target=`_blank` rel=`noopener`>" ++ msg "api_open_docs" ++ src "</a>
        <a class=`btn` href=`/openapi.json` target=`_blank` rel=`noopener`>" ++ msg "api_spec_link" ++ src "</a>
      </div>
    </div>

    <div class=`page-h` style=`margin-top:26px`><h2 style=`font-size:16px;margin:0`>" ++ msg "tok_title"
  ++ src "</h2><span class=`num`>" ++ num (Z.of_nat (length tokens)) ++ src "</span></div>
    <div class=`page-sub`>" ++ emsg "tok_sub" ++ src "</div>
    "
  ++ match tokens with
     | [] => src "<div class=`empty`>" ++ msg "tok_none" ++ src "</div>"
     | _ => src "<table class=`tbl`>
      <thead><tr><th>" ++ msg "tok_name" ++ src "</th><th style=`width:150px`>" ++ msg "tok_role" ++ src "</th><th style=`width:130px`>"
            ++ msg "tok_prefix" ++ src "</th><th style=`width:170px`>" ++ msg "tok_created" ++ src "</th><th style=`width:170px`>"
            ++ msg "tok_lastused" ++ src "</th><th style=`width:50px`></th></tr></thead>
      <tbody>" ++ each tokens (token_row_html admin) ++ src "</tbody></table>"
     end
  ++ src "
    "
  ++ only admin (src "<div class=`toolbar` style=`margin-top:16px`>
      <input id=`tok-name` class=`mono` placeholder=`" ++ msg "tok_name_ph" ++ src "` style=`width:220px` maxlength=`60`>
      <select id=`tok-role`><option value=`admin`>" ++ msg "role_admin_full" ++ src "</option><option value=`operator`>"
                 ++ msg "role_operator" ++ src "</option><option value=`viewer`>" ++ msg "role_viewer_ro" ++ src "</option></select>
      <button class=`primary` id=`tok-add`>" ++ msg "tok_create" ++ src "</button>
    </div>").
(** Read by [createToken]. *)
Definition api_ids : list jstr := [lit "tok-name"; lit "tok-role"].

Definition reveal_token_html (token : jstr) : html :=
  src "<div class=`overlay` id=`tk-ovl`><div class=`modal` role=`dialog` aria-modal=`true` aria-label=`" ++ msg "tok_reveal_h" ++ src "`>
    <h2>" ++ msg "tok_reveal_h" ++ src "</h2>
    <div class=`body`>
      <div class=`tok-reveal-row`><code class=`tok-plain mono` id=`tk-plain`>" ++ escd token
  ++ src "</code><button class=`primary` id=`tk-copy`>" ++ msg "tok_copy" ++ src "</button></div>
      <div class=`tok-warn`>⚠ " ++ emsg "tok_reveal_warn" ++ src "</div>
    </div>
    <div class=`foot`><button class=`primary` id=`tk-done`>" ++ msg "tok_done" ++ src "</button></div>
  </div></div>".
Definition reveal_token_ids : list jstr := [lit "tk-ovl"; lit "tk-copy"; lit "tk-done"].

(** ** The fleet *)

(** A worker, with what its row prints besides; the labels in the order of
    [Object.entries]. *)
Record wrow := WRow {
  wr_worker : worker; wr_name : jstr; wr_labels : list (jstr * jstr); wr_active : Z; wr_version : jstr;
  wr_heartbeat : option Z; wr_created : option Z;
}.

Definition stateBadge (w : worker) : html :=
  src "<span class=`badge s-wk-" ++ [V (state_key w)] ++ src "`><span class=`d`></span>" ++ msgl (T (lit "wk_" ++ state_key w) [])
  ++ src "</span>" ++ only (w_draining w) (src " <span class=`tag warn`>" ++ msg "wk_draining" ++ src "</span>").
Definition labelsInline (labels : list (jstr * jstr)) : html :=
  match List.filter (fun kv => negb (bool_decide (kv.1 = lit "group"))) labels with
  | [] => []
  | extra =>
    src "<div class=`muted mono` style=`font-size:11px;margin-top:2px`>"
    ++ sep_by (src " · ") ((fun kv => escd kv.1 ++ src "=" ++ escd kv.2) <$> extra) ++ src "</div>"
  end.
Definition worker_name (w : wrow) : text := fun lang => if truthy (wr_name w) then wr_name w else t lang (lit "wk_unnamed") [].
Definition worker_group (w : wrow) : jstr := default [] (assoc (wr_labels w) (lit "group")) ||j lit "default".
(** [relTime] falls back on the friendly date. *)
Definition relTime_text `{Host} (now : Z) (x : option Z) : text := fun lang =>
  Labels.render lang (relTime now (fmtDay now x lang) x).
Definition worker_row_html `{Host} (now : Z) (admin : bool) (w : wrow) : html :=
  let wk := wr_worker w in
  src "<tr>
      <td>" ++ [E (worker_name w)] ++ labelsInline (wr_labels w) ++ src "</td>
      <td>" ++ copy_span (w_id wk) (lit "mono") [] ++ src "</td>
      <td><span class=`tag`>" ++ escd (worker_group w) ++ src "</span></td>
      <td>" ++ stateBadge wk ++ src "</td>
      <td class=`num-col`>" ++ num (wr_active w) ++ src "</td>
      <td class=`mono muted`>" ++ escd (wr_version w ||j lit "—") ++ src "</td>
      <td title=`" ++ escd (fmt (wr_heartbeat w)) ++ src "`>" ++ [E (relTime_text now (wr_heartbeat w))] ++ src "</td>
      <td style=`font-size:12.5px`>" ++ [V (fmt (wr_created w))] ++ src "</td>
      <td style=`white-space:nowrap`>"
  ++ only admin
       (src "<button class=`icon` data-wk-drain=`" ++ escd (w_id wk) ++ src "` data-wk-name=`" ++ [E (worker_name w)]
        ++ src "` data-draining=`" ++ num (if w_draining wk then 1 else 0) ++ src "`>"
        ++ (if w_draining wk then msg "wk_undrain" else msg "wk_drain") ++ src "</button>
      <button class=`icon danger` data-wk-rm=`" ++ escd (w_id wk) ++ src "` data-wk-name=`" ++ [E (worker_name w)] ++ src "` title=`"
        ++ msg "wk_remove" ++ src "` aria-label=`" ++ msg "wk_remove" ++ src "`>✕</button>")
  ++ src "</td>
    </tr>".
(** [origin] is [location.origin]. *)
Definition join_cmd (origin token : jstr) : jstr :=
  lit "cronova worker -server " ++ origin ++ lit " -join-token " ++ token.
Definition no_workers_html (origin : jstr) : html :=
  src "<div class=`empty-state`>
      <div class=`es-ic`>⇄</div>
      <div class=`es-t`>" ++ msg "wk_none_title" ++ src "</div>
      <div class=`es-s`>" ++ msg "wk_none_sub" ++ src "</div>
      <div class=`es-s` style=`margin-top:10px`>1. " ++ msg "wk_join_step1" ++ src "</div>
      <div class=`es-s`>2. " ++ msg "wk_join_step2" ++ src "</div>
      <div style=`margin-top:8px`>" ++ copy_span (join_cmd origin (lit "<token>")) (lit "mono") [] ++ src "</div>
    </div>".
Definition workers_html `{Host} (now : Z) (origin : jstr) (admin : bool) (ws : list wrow) : html :=
  src "
    <div class=`page-h`><h1>" ++ msg "nav_workers" ++ src "</h1><span class=`num`>" ++ num (Z.of_nat (length ws)) ++ src "</span>
      " ++ only admin (src "<div style=`margin-left:auto`><button class=`primary` id=`wk-token`>" ++ msg "wk_token_btn"
                       ++ src "</button></div>") ++ src "
    </div>
    <div class=`page-sub`>" ++ emsg "wk_sub" ++ src "</div>
    "
  ++ match ws with
     | [] => no_workers_html origin
     | _ => src "<table class=`tbl`>
      <thead><tr><th>" ++ msg "wk_name" ++ src "</th><th>worker_id</th><th>" ++ msg "wk_group" ++ src "</th><th>" ++ msg "wk_state"
            ++ src "</th><th class=`num-col`>" ++ msg "wk_active" ++ src "</th><th>" ++ msg "wk_version" ++ src "</th><th>"
            ++ msg "wk_heartbeat" ++ src "</th><th>" ++ msg "wk_created" ++ src "</th><th style=`width:170px`></th></tr></thead>
      <tbody>" ++ each ws (worker_row_html now admin) ++ src "</tbody></table>"
     end.

Definition TTLS : list (jstr * jstr) :=
  [(lit "1h", lit "wk_ttl_1h"); (lit "24h", lit "wk_ttl_24h"); (lit "168h", lit "wk_ttl_7d")].
Definition token_dialog_html : html :=
  src "<div class=`overlay` id=`wkovl`><div class=`modal confirm` role=`dialog` aria-modal=`true` aria-label=`" ++ msg "wk_token_title" ++ src "`>
    <h2>" ++ msg "wk_token_title" ++ src "</h2>
    <div class=`body`>
      <div class=`b-field` style=`max-width:220px`><label>" ++ msg "wk_token_ttl" ++ src "</label>
        <select id=`wk-ttl`>" ++ eachi TTLS (fun x i =>
          src "<option value=`" ++ [V x.1] ++ src "` " ++ only (i =? 1)%Z (src "selected") ++ src ">" ++ msgl (T x.2 []) ++ src "</option>")
  ++ src "</select></div>
      <div class=`field-hint` style=`margin-top:8px`>" ++ emsg "wk_token_warn" ++ src "</div>
      <div class=`login-err` id=`wk-err` hidden></div>
    </div>
    <div class=`foot`><button id=`wk-cancel`>" ++ msg "cancel_word" ++ src "</button><button class=`primary` id=`wk-mint`>"
  ++ msg "wk_token_create" ++ src "</button></div>
  </div></div>".
Definition token_dialog_ids : list jstr := [lit "wk-cancel"; lit "wkovl"; lit "wk-mint"; lit "wk-err"; lit "wk-ttl"].

Definition reveal_worker_html `{Host} (origin token : jstr) (expires : option Z) : html :=
  src "<div class=`overlay` id=`wkrovl`><div class=`modal` role=`dialog` aria-modal=`true` aria-label=`" ++ msg "wk_token_reveal_h" ++ src "`>
    <h2>" ++ msg "wk_token_reveal_h" ++ src "</h2>
    <div class=`body`>
      <div class=`tok-reveal-row`><code class=`tok-plain mono`>" ++ escd token ++ src "</code><button class=`primary` id=`wkr-copy`>"
  ++ msg "tok_copy" ++ src "</button></div>
      <div class=`tok-warn`>⚠ " ++ emsg "wk_token_warn"
  ++ match expires with Some z => src " · " ++ emsg "wk_expires" ++ src ": " ++ escd (fmt (Some z)) | None => [] end ++ src "</div>
      <div class=`b-sec` style=`margin-top:14px`>" ++ msg "wk_join_cmd_h" ++ src "</div>
      <div class=`tok-reveal-row` style=`margin-top:6px`><code class=`tok-plain mono`>" ++ escd (join_cmd origin token)
  ++ src "</code><button id=`wkr-copycmd`>" ++ msg "tok_copy" ++ src "</button></div>
    </div>
    <div class=`foot`><button class=`primary` id=`wkr-done`>" ++ msg "tok_done" ++ src "</button></div>
  </div></div>".
Definition reveal_worker_ids : list jstr := [lit "wkrovl"; lit "wkr-copy"; lit "wkr-copycmd"; lit "wkr-done"].

(** ** Why they are inert, and hold what their code looks up *)

Lemma audit_rows_frag `{Host} es : frag (auditRows es).
Proof. unfold auditRows. frag_go. Qed.
Lemma opts_frag vals sel all : frag (opts vals sel all).
Proof. unfold opts. frag_go. Qed.
#[export] Hint Resolve audit_rows_frag opts_frag : markup.
Lemma audit_frag `{Host} a row : frag (audit_html a row).
Proof.
  unfold audit_html. cbv zeta. generalize (audit_shown a). intros shown.
  destruct shown as [|e l]; [frag_go|]. generalize (e :: l). intros shown. frag_go.
Qed.
Lemma token_row_frag `{Host} admin k : frag (token_row_html admin k).
Proof. unfold token_row_html. cbv zeta. frag_go. Qed.
#[export] Hint Resolve token_row_frag : markup.
Lemma api_frag `{Host} admin ks : frag (api_html admin ks).
Proof. unfold api_html. destruct ks as [|k l]; [frag_go|]. generalize (k :: l). intros ks. frag_go. Qed.
Lemma reveal_token_frag s : frag (reveal_token_html s).
Proof. unfold reveal_token_html. frag_go. Qed.

Lemma state_key_cases w : state_key w ∈ [lit "online"; lit "lost"; lit "offline"].
Proof.
  unfold state_key. case_bool_decide as H1; [rewrite H1; left|]. case_bool_decide as H2; simpl; [rewrite H2; set_solver|set_solver].
Qed.
Lemma state_key_plain w : plain (state_key w) = true.
Proof. apply (plain_in [lit "online"; lit "lost"; lit "offline"]); [reflexivity|apply state_key_cases]. Qed.
#[export] Hint Resolve state_key_plain : markup.
Lemma state_badge_frag w : frag (stateBadge w).
Proof. unfold stateBadge. frag_go. Qed.
Lemma labels_frag l : frag (labelsInline l).
Proof.
  unfold labelsInline. destruct (List.filter _ l) as [|kv r]; [apply frag_nil|].
  generalize (kv :: r). intros extra. frag_go.
Qed.
#[export] Hint Resolve state_badge_frag labels_frag : markup.
Lemma worker_row_frag `{Host} now admin w : frag (worker_row_html now admin w).
Proof. unfold worker_row_html. cbv zeta. frag_go. Qed.
Lemma no_workers_frag origin : frag (no_workers_html origin).
Proof. unfold no_workers_html. frag_go. Qed.
#[export] Hint Resolve worker_row_frag no_workers_frag : markup.
Lemma workers_frag `{Host} now origin admin ws : frag (workers_html now origin admin ws).
Proof. unfold workers_html. destruct ws as [|w l]; [frag_go|]. generalize (w :: l). intros ws. frag_go. Qed.
Lemma ttls_plain x : x ∈ TTLS -> plain x.1 = true /\ plain_key x.2 = true.
Proof. intros H. by repeat (apply elem_of_cons in H as [->|H]); [..|by apply elem_of_nil in H]. Qed.
#[export] Hint Extern 3 (plain _.1 = true) => apply ttls_plain; assumption : markup.
#[export] Hint Extern 3 (plain_key _.2 = true) => apply ttls_plain; assumption : markup.
Lemma token_dialog_frag : frag token_dialog_html.
Proof. unfold token_dialog_html. frag_go. Qed.
Lemma reveal_worker_frag `{Host} origin token e : frag (reveal_worker_html origin token e).
Proof. unfold reveal_worker_html. frag_go. Qed.

Lemma audit_finds `{Host} a row : Forall (finds (audit_html a row)) audit_ids.
Proof. unfold audit_html. cbv zeta. find_all. Qed.
Lemma api_finds `{Host} ks : Forall (finds (api_html true ks)) api_ids.
Proof. unfold api_html. find_all. Qed.
Lemma reveal_token_finds s : Forall (finds (reveal_token_html s)) reveal_token_ids.
Proof. unfold reveal_token_html. find_all. Qed.
Lemma token_dialog_finds : Forall (finds token_dialog_html) token_dialog_ids.
Proof. unfold token_dialog_html. find_all. Qed.
Lemma reveal_worker_finds `{Host} origin token e : Forall (finds (reveal_worker_html origin token e)) reveal_worker_ids.
Proof. unfold reveal_worker_html. find_all. Qed.
