(* ===== verification/GraphPage.v ===== *)
(** * The page of relations between workflows (server.go, [dagGraph]; views.js, [showGraph])

    The server lists a node per workflow and per upstream it does not know, and an
    edge per trigger; the page hands them to [renderGraph], an upstream being a
    dependency. Workflows may trigger each other in a circle. The server's part is
    modelled from its source to know what lists the page is given. As in [GraphLayout],
    objects keyed by workflow names are finite maps. *)

From S2P Require Import Prelude JsCore Schedule TaskGraph DictData Labels GraphLayout Markup Screens.

(** ** The server's lists *)

(** A workflow: its latest run's state, or empty, and its [trigger_after]. *)
Record dag_def := DagDef { dd_id : jstr; dd_latest : jstr; dd_upstreams : list jstr }.
Record rnode := RNode { rn_id : jstr; rn_latest : jstr; rn_missing : bool }.

Definition known_dag (ds : list dag_def) (i : jstr) : bool := bool_decide (i ∈ dd_id <$> ds).
(** A node for each upstream not known and not listed yet. *)
Definition add_missing (ds : list dag_def) (nodes : list rnode) (up : jstr) : list rnode :=
  if known_dag ds up || existsb (fun n => rn_missing n && bool_decide (rn_id n = up)) nodes then nodes
  else nodes ++ [RNode up [] true].
Definition add_dag (ds : list dag_def) (nodes : list rnode) (d : dag_def) : list rnode :=
  foldl (add_missing ds) (nodes ++ [RNode (dd_id d) (dd_latest d) false]) (dd_upstreams d).
Definition graph_nodes (ds : list dag_def) : list rnode := foldl (add_dag ds) [] ds.
(** From the upstream to the workflow. *)
Definition graph_edges (ds : list dag_def) : list (jstr * jstr) :=
  ds ≫= fun d => (fun up => (up, dd_id d)) <$> dd_upstreams d.

(** ** The page *)

(** [depMap] *)
Definition dep_map (nodes : list rnode) (edges : list (jstr * jstr)) : gmap jstr (list jstr) :=
  foldl (fun m e => <[e.2 := default [] (m !! e.2) ++ [e.1]]> m) (foldl (fun m n => <[rn_id n := []]> m) ∅ nodes) edges.
Definition graph_tasks (nodes : list rnode) (edges : list (jstr * jstr)) : list gtask :=
  (fun n => GTask (rn_id n) (default [] (dep_map nodes edges !! rn_id n)) [] []) <$> nodes.
(** [stateByTask]; setting its prototype to a string does nothing. *)
Definition state_map (nodes : list rnode) : gmap jstr jstr :=
  foldl (fun m n => if truthy (rn_latest n) && negb (bool_decide (rn_id n = lit "__proto__"))
                    then <[rn_id n := rn_latest n]> m else m) ∅ nodes.
Definition relation_view (nodes : list rnode) : gview :=
  GView (Some (fun i => default [] (state_map nodes !! i)))
    (fun i => existsb (fun n => rn_missing n && bool_decide (rn_id n = i)) nodes) false true false.
(** The nodes a click opens. *)
Definition opens (nodes : list rnode) (i : jstr) : bool :=
  existsb (fun n => negb (rn_missing n) && bool_decide (rn_id n = i)) nodes.

Definition graph_page_html (nodes : list rnode) (edges : list (jstr * jstr)) : option html :=
  let head :=
    src "
    <div class=`page-h`><h1>" ++ msg "graph_title" ++ src "</h1><span class=`num`>" ++ num (Z.of_nat (length nodes)) ++ src "</span></div>
    <div class=`page-sub`>" ++ msg "graph_sub" ++ src "</div>
    " in
  match edges with
  | [] => Some (head ++ src "<div class=`empty`>" ++ msg "graph_none" ++ src "</div>")
  | _ =>
    (fun g => head ++ src "
      <div class=`page-sub` style=`margin:-6px 0 10px`>" ++ msg "graph_view_hint" ++ src "</div>
      <div class=`b-graph` id=`dag-graph`>" ++ g ++ src "</div>")
    <$> (graph_html (relation_view nodes) (renderGraph (graph_tasks nodes edges) (GOpts false None)))
  end.

Lemma graph_page_frag nodes edges h : graph_page_html nodes edges = Some h -> frag h.
Proof.
  unfold graph_page_html. cbv zeta. destruct edges as [|e l].
  { intros Hh%(inj Some). subst h. frag_go. }
  generalize (e :: l). intros edges. destruct (graph_html _ _) as [g|] eqn:Hg; [|done].
  apply graph_frag in Hg. intros Hh%(inj Some). subst h. frag_go.
Qed.

(** ** What the lists hold *)

Section lists.
Context (ds : list dag_def).

(** Some workflow waits for [i]. *)
Definition named (i : jstr) : Prop := exists d, d ∈ ds /\ i ∈ dd_upstreams d.
(** Nodes are distinct, those not missing are the workflows added so far, and a
    missing one is an upstream nobody knows. *)
Record nodes_ok (added : list jstr) (nodes : list rnode) : Prop := {
  no_dup : NoDup (rn_id <$> nodes);
  no_known : forall i, i ∈ added <-> exists n, n ∈ nodes /\ rn_id n = i /\ rn_missing n = false;
  no_missing : forall n, n ∈ nodes -> rn_missing n = true -> (rn_id n ∉ dd_id <$> ds) /\ named (rn_id n);
}.
Definition listed (nodes : list rnode) (i : jstr) : Prop := i ∈ rn_id <$> nodes.

Lemma listed_missing nodes i :
  existsb (fun n => rn_missing n && bool_decide (rn_id n = i)) nodes = true <->
  exists n, n ∈ nodes /\ rn_id n = i /\ rn_missing n = true.
Proof.
  rewrite existsb_exists. setoid_rewrite <- list_elem_of_In. setoid_rewrite andb_true_iff.
  setoid_rewrite bool_decide_eq_true. naive_solver.
Qed.

Lemma add_missing_ok added nodes up :
  added ⊆ dd_id <$> ds -> named up -> nodes_ok added nodes ->
  nodes_ok added (add_missing ds nodes up) /\ (forall i, listed nodes i -> listed (add_missing ds nodes up) i)
  /\ (known_dag ds up = false -> listed (add_missing ds nodes up) up).
Proof.
  intros Hsub Hup Hok. unfold add_missing, known_dag.
  destruct (bool_decide (up ∈ _)) eqn:Hk; simpl; [split_and!; auto; discriminate|].
  apply bool_decide_eq_false in Hk.
  destruct (existsb _ _) eqn:He.
  { apply listed_missing in He as (n & Hn & <- & _). split_and!; auto. intros _. by apply list_elem_of_fmap_2. }
  destruct Hok as [H1 H2 H3].
  assert (Hnew : up ∉ rn_id <$> nodes).
  { intros (n & -> & Hn)%list_elem_of_fmap. destruct (rn_missing n) eqn:Hm.
    - rewrite <- not_true_iff_false in He. apply He, listed_missing. eauto.
    - apply Hk, Hsub, H2. eauto. }
  split_and!.
  - split.
    + rewrite fmap_app. by apply NoDup_snoc.
    + intros i. rewrite H2. setoid_rewrite elem_of_app. setoid_rewrite list_elem_of_singleton. naive_solver.
    + intros n [Hn| ->%list_elem_of_singleton]%elem_of_app; auto.
  - intros i Hi. unfold listed in *. rewrite fmap_app. set_solver.
  - intros _. unfold listed. rewrite fmap_app. set_solver.
Qed.

Lemma add_all_missing_ok added ups nodes :
  added ⊆ dd_id <$> ds -> Forall named ups -> nodes_ok added nodes ->
  nodes_ok added (foldl (add_missing ds) nodes ups) /\ (forall i, listed nodes i -> listed (foldl (add_missing ds) nodes ups) i)
  /\ (forall up, up ∈ ups -> known_dag ds up = false -> listed (foldl (add_missing ds) nodes ups) up).
Proof.
  intros Hsub Hups. revert nodes. induction Hups as [|up ups Hup _ IH]; intros nodes Hn; simpl.
  { split_and!; auto. by intros up ?%not_elem_of_nil. }
  destruct (add_missing_ok added nodes up Hsub Hup Hn) as (A1 & A2 & A3), (IH _ A1) as (B1 & B2 & B3).
  split_and!; auto. intros u [->|Hu]%elem_of_cons; auto.
Qed.

Lemma add_dag_ok added nodes d :
  d ∈ ds -> dd_id d ∉ added -> added ⊆ dd_id <$> ds -> nodes_ok added nodes ->
  nodes_ok (added ++ [dd_id d]) (add_dag ds nodes d) /\ (forall i, listed nodes i -> listed (add_dag ds nodes d) i)
  /\ (forall up, up ∈ dd_upstreams d -> known_dag ds up = false -> listed (add_dag ds nodes d) up).
Proof.
  intros Hd Hnew Hsub [H1 H2 H3]. unfold add_dag.
  assert (Hid : dd_id d ∈ dd_id <$> ds) by by apply list_elem_of_fmap_2.
  assert (Hok : nodes_ok (added ++ [dd_id d]) (nodes ++ [RNode (dd_id d) (dd_latest d) false])).
  { split.
    - rewrite fmap_app. apply NoDup_snoc; simpl; split; [done|]. intros (n & E & Hn)%list_elem_of_fmap.
      destruct (rn_missing n) eqn:Hm; [by destruct (H3 n Hn Hm) as [Hx _]; rewrite <- E in Hx|]. apply Hnew, H2. eauto.
    - intros i. rewrite elem_of_app, H2. setoid_rewrite elem_of_app. setoid_rewrite list_elem_of_singleton. naive_solver.
    - intros n [Hn| ->%list_elem_of_singleton]%elem_of_app; [auto|done]. }
  destruct (add_all_missing_ok (added ++ [dd_id d]) (dd_upstreams d) (nodes ++ [RNode (dd_id d) (dd_latest d) false]) ltac:(set_solver)) as (A1 & A2 & A3); [|exact Hok|].
  { apply Forall_forall. intros up Hup. by exists d. }
  split_and!; auto. intros i Hi. apply A2. unfold listed in *. rewrite fmap_app. set_solver.
Qed.

Lemma graph_nodes_ok :
  NoDup (dd_id <$> ds) ->
  nodes_ok (dd_id <$> ds) (graph_nodes ds) /\ (forall up, named up -> listed (graph_nodes ds) up).
Proof.
  intros Hnd.
  assert (H : forall l done_, done_ ++ l = ds -> forall nodes, nodes_ok (dd_id <$> done_) nodes ->
    (forall d up, d ∈ done_ -> up ∈ dd_upstreams d -> known_dag ds up = false -> listed nodes up) ->
    nodes_ok (dd_id <$> ds) (foldl (add_dag ds) nodes l)
    /\ (forall d up, d ∈ ds -> up ∈ dd_upstreams d -> known_dag ds up = false -> listed (foldl (add_dag ds) nodes l) up)).
  { induction l as [|d l IH]; intros done_ E nodes Hn Hu; simpl; [rewrite app_nil_r in E; by subst|].
    assert (Hd : d ∈ ds) by (rewrite <- E; set_solver).
    assert (Hnew : dd_id d ∉ dd_id <$> done_).
    { rewrite <- E, fmap_app, fmap_cons in Hnd. apply NoDup_app in Hnd as (_ & Hx & _). intros Hin. apply (Hx _ Hin). set_solver. }
    destruct (add_dag_ok (dd_id <$> done_) nodes d Hd Hnew) as (A1 & A2 & A3); [|exact Hn|].
    { rewrite <- E, fmap_app. set_solver. }
    apply (IH (done_ ++ [d])); [by rewrite <- app_assoc|by rewrite fmap_app|].
    intros x up [Hx| ->%list_elem_of_singleton]%elem_of_app; eauto. }
  destruct (H ds [] eq_refl []) as [H1 H2].
  { split; [constructor| |by intros n ?%not_elem_of_nil]. simpl. setoid_rewrite elem_of_nil. naive_solver. }
  { by intros d up ?%not_elem_of_nil. }
  split; [exact H1|]. intros up (d & Hd & Hup). destruct (known_dag ds up) eqn:Hk; [|eauto].
  apply bool_decide_eq_true in Hk. apply (no_known _ _ H1) in Hk as (n & Hn & <- & _).
  by apply list_elem_of_fmap_2.
Qed.
End lists.

(** [depMap] holds the upstreams of each node. *)
Lemma dep_map_spec nodes edges x up :
  up ∈ default [] (dep_map nodes edges !! x) <-> (up, x) ∈ edges.
Proof.
  unfold dep_map. set (base := foldl _ ∅ nodes).
  assert (Hb : forall y, default [] (base !! y) = []).
  { intros y. unfold base. clear. assert (H0 : default [] ((∅ : gmap jstr (list jstr)) !! y) = []) by by rewrite lookup_empty.
    revert H0. generalize (∅ : gmap jstr (list jstr)). induction nodes as [|n l IH]; intros m H; [done|].
    simpl. apply IH. destruct (decide (rn_id n = y)) as [->|?]; [by rewrite lookup_insert_eq|by rewrite lookup_insert_ne]. }
  induction edges as [|e l IH] using rev_ind; [simpl; rewrite Hb; set_solver|].
  rewrite foldl_app, elem_of_app, list_elem_of_singleton. simpl. destruct e as [a b]. simpl.
  destruct (decide (b = x)) as [->|Hne].
  - rewrite lookup_insert_eq. simpl. rewrite elem_of_app, IH, list_elem_of_singleton. naive_solver.
  - rewrite lookup_insert_ne by done. rewrite IH. naive_solver.
Qed.
Lemma graph_edges_spec ds up x :
  (up, x) ∈ graph_edges ds <-> exists d, d ∈ ds /\ dd_id d = x /\ up ∈ dd_upstreams d.
Proof.
  unfold graph_edges. rewrite list_elem_of_bind. split.
  - intros (d & (u & [= -> ->] & Hu)%list_elem_of_fmap & Hd). eauto.
  - intros (d & Hd & <- & Hu). exists d. split; [|done]. apply list_elem_of_fmap. eauto.
Qed.

Lemma edge_to_ends lev l ext o n d e : edge_to lev l ext o n d = Some e -> e_from e = d /\ e_to e = n_id n.
Proof. unfold edge_to. destruct (pos lev l d) as [[]|]; [|done]. destruct (pos lev l _) as [[]|]; [|done]. by intros [= <-]. Qed.
(** Without stubs the picture's nodes are the tasks. *)
Lemma no_stubs ts : Forall (fun t => g_dod t = []) ts -> all_nodes ts = task_node <$> ts.
Proof.
  intros H. unfold all_nodes. assert (stubs ts = []) as ->; [|done]. unfold stubs.
  induction H as [|t ts Ht _ IH]; [done|]. simpl. unfold add_stub at 2. by rewrite Ht.
Qed.

(** ** Property *)


(** Two workflows that trigger each other, one of which waits for an unknown one. *)
Definition sample_dags : list dag_def :=
  [DagDef (lit "a") (lit "success") [lit "b"]; DagDef (lit "b") [] [lit "a"; lit "gone"]].
