(* ===== verification/BuilderPages.v ===== *)
(** * The screens of the builder (builder.js): the schedule editor with its cheat
    sheet and preview, the new-workflow dialog, the wizard

    The templates over the states of [Schedule] and [Creation]. *)

From S2P Require Import Prelude JsCore Schedule DictData Labels Format Creation Markup Screens DagPages.

(** ** The cheat sheet *)

Definition cron_table : Type := list (jstr * jstr).
Record cron_help := CronHelp { ch_fields : cron_table; ch_ops : cron_table; ch_examples : cron_table; ch_shortcuts : cron_table }.

Definition CRON_HELP (lang : language) : cron_help :=
  match lang with
  | Zh => CronHelp
    [ (lit "分", lit "0-59"); (lit "时", lit "0-23"); (lit "日", lit "1-31"); (lit "月", lit "1-12"); (lit "周", lit "0-6（0=周日）") ]
    [ (lit "*", lit "任意值"); (lit ",", lit "列举，如 1,15"); (lit "-", lit "范围，如 1-5"); (lit "/", lit "步进，如 */5") ]
    [ (lit "* * * * *", lit "每分钟"); (lit "*/5 * * * *", lit "每 5 分钟"); (lit "0 * * * *", lit "每小时整点");
      (lit "0 9 * * *", lit "每天 09:00"); (lit "30 2 * * *", lit "每天 02:30"); (lit "0 0 * * 1", lit "每周一 00:00");
      (lit "0 9 * * 1-5", lit "工作日 09:00"); (lit "0 0 1 * *", lit "每月 1 号 00:00") ]
    [ (lit "@hourly", lit "每小时"); (lit "@daily", lit "每天"); (lit "@weekly", lit "每周"); (lit "@every 30s", lit "每 30 秒");
      (lit "@every 5m", lit "每 5 分钟") ]
  | En => CronHelp
    [ (lit "min", lit "0-59"); (lit "hour", lit "0-23"); (lit "day", lit "1-31"); (lit "month", lit "1-12"); (lit "weekday", lit "0-6 (0=Sun)") ]
    [ (lit "*", lit "any value"); (lit ",", lit "list, e.g. 1,15"); (lit "-", lit "range, e.g. 1-5"); (lit "/", lit "step, e.g. */5") ]
    [ (lit "* * * * *", lit "every minute"); (lit "*/5 * * * *", lit "every 5 min"); (lit "0 * * * *", lit "every hour");
      (lit "0 9 * * *", lit "daily 09:00"); (lit "30 2 * * *", lit "daily 02:30"); (lit "0 0 * * 1", lit "Mon 00:00");
      (lit "0 9 * * 1-5", lit "weekdays 09:00"); (lit "0 0 1 * *", lit "1st of month 00:00") ]
    [ (lit "@hourly", lit "hourly"); (lit "@daily", lit "daily"); (lit "@weekly", lit "weekly"); (lit "@every 30s", lit "every 30s");
      (lit "@every 5m", lit "every 5 min") ]
  end.

Definition help_rows (arr : cron_table) (clickable : bool) : html :=
  each arr (fun x =>
    src "<div class=`ch-row`><code class=`" ++ only clickable (src "ch-ex") ++ src "` "
    ++ only clickable (src "data-cron=`" ++ escd x.1 ++ src "`") ++ src ">" ++ escd x.1 ++ src "</code><span>" ++ escd x.2 ++ src "</span></div>").
(** [cronHelpHtml], in the language [lang]. *)
Definition cronHelpHtml (idp : jstr) (lang : language) : html :=
  let c := CRON_HELP lang in
  src "<div class=`cron-help` id=`" ++ [V idp] ++ src "-cronpop` hidden>
    <div class=`ch-head`><b>" ++ msg "ch_title" ++ src "</b><button class=`icon` id=`" ++ [V idp] ++ src "-cronclose`>✕</button></div>
    <div class=`ch-fmt`>" ++ msg "ch_format" ++ src "</div>
    <div class=`ch-cols`>
      <div><div class=`ch-h`>" ++ msg "ch_fields" ++ src "</div>" ++ help_rows (ch_fields c) false ++ src "</div>
      <div><div class=`ch-h`>" ++ msg "ch_ops" ++ src "</div>" ++ help_rows (ch_ops c) false ++ src "</div>
    </div>
    <div class=`ch-h` style=`margin-top:8px`>" ++ msg "ch_examples" ++ src "</div>" ++ help_rows (ch_examples c) true ++ src "
    <div class=`ch-h` style=`margin-top:8px`>" ++ msg "ch_shortcuts" ++ src "</div>" ++ help_rows (ch_shortcuts c) true ++ src "
  </div>".

(** ** The schedule editor *)

Definition mode_name (m : sched_mode) : jstr :=
  match m with Manual => lit "manual" | Every => lit "every" | Cron => lit "cron" end.
Definition schedModesHtml (d : sched) : html :=
  src "<div class=`sched-modes`>" ++ each [Manual; Every; Cron] (fun m =>
    src "<button class=`pill " ++ only (bool_decide (schedMode d = m)) (src "active") ++ src "` data-mode=`" ++ [V (mode_name m)]
    ++ src "`>" ++ msgl (T (lit "sm_" ++ mode_name m) []) ++ src "</button>") ++ src "</div>".

Definition sched_fields_html (d : sched) (idp : jstr) (lang : language) : html :=
  match schedMode d with
  | Manual => src "<div class=`page-sub` style=`margin:6px 0`>" ++ msg "sched_manual_hint" ++ src "</div>"
  | Every =>
    src "<div class=`sched-every`><span class=`muted`>" ++ msg "sched_every_pre" ++ src "</span>
      <input id=`" ++ [V idp] ++ src "-ev` type=`number` min=`1` value=`" ++ num (schedEvery d) ++ src "` style=`width:90px`>
      <select id=`" ++ [V idp] ++ src "-eu`>" ++ each [Us; Um; Uh] (fun u =>
        src "<option value=`" ++ [V (unit_str u)] ++ src "` " ++ only (bool_decide (schedUnit d = u)) (src "selected") ++ src ">"
        ++ msgl (T (lit "unit_" ++ unit_str u) []) ++ src "</option>") ++ src "</select></div>"
  | Cron =>
    src "<div class=`cron-wrap`>
      <div style=`display:flex;align-items:center;gap:8px`>
        <input id=`" ++ [V idp] ++ src "-cron` value=`" ++ escd (schedCron d) ++ src "` placeholder=`0 2 * * *` style=`max-width:260px`>
        <button class=`icon` id=`" ++ [V idp] ++ src "-cronhelp` type=`button`>" ++ msg "cron_help" ++ src " ?</button>
      </div>
      <div class=`b-deps` style=`margin-top:8px`>" ++ each CRON_PRESETS (fun p =>
        src "<span class=`chip cronp` data-cron=`" ++ escd p.2 ++ src "`>" ++ msgl (T p.1 []) ++ src "</span>") ++ src "</div>
      " ++ cronHelpHtml idp lang ++ src "
    </div>"
  end.
Definition schedBodyHtml (d : sched) (start : jstr) (catchup : bool) (idp : jstr) (lang : language) : html :=
  let timed := negb (bool_decide (schedMode d = Manual)) in
  sched_fields_html d idp lang
  ++ only timed (src "<div class=`sched-preview` id=`" ++ [V idp] ++ src "-schedprev` aria-live=`polite`></div>")
  ++ only timed (src "<div class=`b-field` style=`max-width:220px;margin-top:12px`><label>" ++ msg "f_start" ++ src "</label><input id=`"
                 ++ [V idp] ++ src "-start` type=`date` value=`" ++ escd start ++ src "`></div>")
  ++ only timed (src "<div class=`b-field b-check` style=`margin-top:12px`><input type=`checkbox` id=`" ++ [V idp] ++ src "-catchup` "
                 ++ only catchup (src "checked") ++ src "><label for=`" ++ [V idp] ++ src "-catchup`>" ++ msg "f_catchup"
                 ++ src "</label><div class=`field-hint`>" ++ emsg "f_catchup_hint" ++ src "</div></div>").
(** [renderSchedUI], with [renderSchedBody] into it. *)
Definition sched_ui_html (d : sched) (start : jstr) (catchup : bool) (idp : jstr) (lang : language) : html :=
  schedModesHtml d ++ src "<div id=`" ++ [V idp] ++ src "-schedbody`>" ++ schedBodyHtml d start catchup idp lang ++ src "</div>".

(** The preview once the server has answered; [times] are the next runs, written out. *)
Definition preview_fires_html (sent : option label) (times : jstr) : html :=
  match sent with Some l => src "<b>" ++ escl l ++ src "</b> — " | None => [] end
  ++ msg "sp_next" ++ src ": " ++ [E (fun _ => times)] ++ only (negb (truthy times)) (src "—").

(** ** The new-workflow dialog *)

Definition tpl_card_html (n : nd) (tp : template) : html :=
  let on := bool_decide (nd_template n = tp_key tp) in
  src "<div class=`tpl-card " ++ only on (src "on") ++ src "` data-tpl=`" ++ [V (tp_key tp)]
  ++ src "` role=`button` tabindex=`0` aria-pressed=`" ++ bool_html on ++ src "`><div class=`tpl-name`>" ++ msgl (T (tp_name tp) [])
  ++ src "</div><div class=`tpl-desc`>" ++ msgl (T (tp_desc tp) []) ++ src "</div>"
  ++ only (negb (Nat.eqb (length (tp_tasks tp)) 0))
       (src "<div class=`tpl-meta`>" ++ num (Z.of_nat (length (tp_tasks tp))) ++ src " " ++ msg "tpl_tasks"
        ++ only (truthy (tp_schedule tp)) (src " · cron") ++ src "</div>")
  ++ src "</div>".
Definition nd_form_html (n : nd) : html :=
  src "
      <div class=`b-sec`>" ++ msg "tpl_start" ++ src "</div>
      <div class=`tpl-cards`>" ++ each DAG_TEMPLATES (tpl_card_html n) ++ src "</div>
      <div class=`b-field` style=`margin-top:14px`><label>" ++ msg "f_dag_id"
  ++ src "</label><input id=`nd-id` placeholder=`my_workflow` value=`" ++ escd (nd_dag_id n) ++ src "`></div>
      <div class=`nd-err` id=`nd-err`></div>
      <div style=`margin-top:12px`><a class=`raw-toggle` id=`nd-adv`>" ++ (if nd_advanced n then msg "nd_less" else msg "nd_more") ++ src "</a></div>
      " ++ only (nd_advanced n)
        (src "
      <div class=`b-sec` style=`margin-top:14px`>" ++ msg "sched" ++ src "</div>
      <div id=`nd-sched`></div>
      <div style=`margin-top:14px`><a class=`raw-toggle` id=`nd-toyaml`>" ++ msg "nd_import_yaml" ++ src "</a></div>").
Definition nd_yaml_html : html :=
  src "
      <div class=`b-sec`>" ++ msg "nd_import_yaml" ++ src "</div>
      <textarea id=`nd-yaml` class=`yaml-input` rows=`14` spellcheck=`false` placeholder=`dag_id: my_workflow
tasks:
  - id: hello
    command: echo hi`></textarea>
      <div style=`margin-top:10px`><a class=`raw-toggle` id=`nd-toform`>" ++ msg "nd_back_form" ++ src "</a></div>".
Definition new_dag_html (n : nd) : html :=
  src "<div class=`overlay` id=`ovl`><div class=`modal` role=`dialog` aria-modal=`true` aria-labelledby=`nd-h2`>
    <h2 id=`nd-h2`>" ++ msg "nd_title" ++ src "</h2>
    <div class=`body`>" ++ (if nd_yamlMode n then nd_yaml_html else nd_form_html n) ++ src "</div>
    <div class=`foot`><span class=`err` id=`nd-srv`></span><button id=`nd-cancel`>" ++ msg "nd_cancel"
  ++ src "</button><button class=`primary` id=`nd-create`>" ++ (if nd_yamlMode n then msg "nd_import" else msg "nd_create") ++ src "</button></div>
  </div></div>".
(** Looked up in either mode, in the form, in the YAML mode. *)
Definition nd_ids : list jstr := [lit "nd-cancel"; lit "ovl"; lit "nd-create"; lit "nd-srv"].
Definition nd_form_ids : list jstr := [lit "nd-adv"; lit "nd-id"; lit "nd-err"].
Definition nd_yaml_ids : list jstr := [lit "nd-toform"; lit "nd-yaml"].

(** ** The wizard *)

Definition tpl_name (k : nv_tpl) : jstr := match k with Etl => lit "etl" | Report => lit "report" | Blank_tpl => lit "blank" end.
(** The steps of the templates have names [nvTaskLabel] glosses. *)
Definition step_label (id : jstr) : text := default (fun _ => []) (nvTaskLabel id).
Definition wzFlowChips (k : nv_tpl) : html :=
  let labels := match k with Blank_tpl => [say "wz_tpl_blank_chip"] | _ => (fun s => step_label (tt_id s)) <$> NV_TEMPLATES k end in
  src "<div class=`wz-flow`>" ++ sep_by (src "<span class=`farr`>→</span>") ((fun l => src "<span class=`fchip`>" ++ [E l] ++ src "</span>") <$> labels)
  ++ src "</div>".
Definition wz_card_html (w : wz) (k : nv_tpl) : html :=
  let on := bool_decide (w_tpl w = k) in
  let key := lit "wz_tpl_" ++ tpl_name k in
  src "<div class=`tpl-card " ++ only on (src "on") ++ src "` role=`button` tabindex=`0` data-wztpl=`" ++ [V (tpl_name k)]
  ++ src "` aria-pressed=`" ++ bool_html on ++ src "` aria-label=`" ++ escl (T key []) ++ src " — " ++ escl (T (key ++ lit "_d") []) ++ src "`>
        <div class=`tpl-name`>" ++ escl (T key []) ++ src "</div>
        <div class=`tpl-desc`>" ++ escl (T (key ++ lit "_d") []) ++ src "</div>
        " ++ wzFlowChips k ++ src "
        <div class=`tpl-meta`>" ++ escl (T (key ++ lit "_m") []) ++ src "</div>
      </div>".
Definition wz1_html (w : wz) : html :=
  src "
      <h1>" ++ emsg "wz1_title" ++ src "</h1>
      <div class=`page-sub` style=`margin-bottom:18px`>" ++ emsg "wz1_sub" ++ src "</div>
      <div class=`tpl-grid`>" ++ wz_card_html w Etl ++ wz_card_html w Report ++ wz_card_html w Blank_tpl ++ src "</div>
      <div class=`wz-foot end`><button class=`primary` style=`padding:9px 22px` id=`wz-next`>" ++ emsg "wz1_next" ++ src "</button></div>".

Definition wz_error (w : wz) : text := fun lang => match w_err w with Some l => Labels.render lang l | None => [] end.
(** [today] is the date part of [toISOString()]. *)
Definition wz2_html (today : jstr) (w : wz) : html :=
  let steps := wzSteps w in
  let inserted := match steps with s :: _ => includes (lit "logical_date") (tt_cmd s) | [] => false end in
  src "
      <h1>" ++ emsg "wz2_title" ++ src "</h1>
      <div class=`page-sub` style=`margin-bottom:18px`>" ++ emsg "wz2_sub" ++ src "</div>
      <div class=`b-field` style=`max-width:340px;margin-bottom:16px`>
        <label>" ++ emsg "wz2_name_label" ++ src "</label>
        <input class=`mono` id=`wz-name` value=`" ++ escd (w_name w) ++ src "` spellcheck=`false`>
        <div class=`field-hint`>" ++ emsg "wz2_name_hint" ++ src "</div>
      </div>
      " ++ eachi steps (fun s i =>
        src "<div class=`wz-step-row`>
        <span class=`nv-num`>" ++ num (i + 1) ++ src "</span>
        <div class=`wz-step-main`>
          <div class=`wz-step-label`>" ++ [E (step_label (tt_id s))] ++ src "</div>
          <input class=`mono` data-wzcmd=`" ++ escd (tt_id s) ++ src "` value=`" ++ escd (tt_cmd s) ++ src "` spellcheck=`false`>
        </div>
      </div>") ++ src "
      <div class=`nv-dashed` style=`margin-top:6px`>
        <div style=`font-size:12.5px;color:var(--muted);margin-bottom:9px`>" ++ emsg "wz2_adv" ++ src "</div>
        <div style=`display:flex;gap:9px;align-items:center;flex-wrap:wrap`>
          <span class=`chip varchip` role=`button` tabindex=`0` id=`wz-datevar`>" ++ emsg "wz2_datevar" ++ src "</span>
          <span class=`nv-hint`>" ++ emsg "wz2_datevar_note" ++ src " <code class=`mono` style=`color:var(--accent)`>--date {{ logical_date }}</code></span>
        </div>
        " ++ only inserted (src "<div class=`sched-preview` style=`margin-top:9px`>" ++ escl (T (lit "wz2_inserted") [Raw today]) ++ src "</div>") ++ src "
      </div>
      <div class=`wz-err` id=`wz-err`>" ++ [E (wz_error w)] ++ src "</div>
      <div class=`wz-foot`>
        <button id=`wz-prev`>" ++ emsg "wz_prev" ++ src "</button>
        <button class=`primary` style=`padding:9px 22px` id=`wz-next`>" ++ emsg "wz2_next" ++ src "</button>
      </div>".

Definition sched_card_html (w : wz) (m : wz_mode) (name : jstr) (field : html) : html :=
  let on := bool_decide (w_mode w = m) in
  let key := lit "wz3_" ++ name in
  src "<div class=`tpl-card sched-card " ++ only on (src "on") ++ src "` role=`button` tabindex=`0` data-wzsched=`" ++ [V name]
  ++ src "` aria-pressed=`" ++ bool_html on ++ src "` aria-label=`" ++ escl (T key []) ++ src "`>
          <div><div class=`tpl-name`>" ++ escl (T key []) ++ src "</div><div class=`tpl-desc`>" ++ escl (T (key ++ lit "_d") []) ++ src "</div></div>"
  ++ field ++ src "
        </div>".
Definition wz_time_html (w : wz) : html :=
  src "
          <input type=`time` id=`wz-time` value=`" ++ escd (w_time w) ++ src "` style=`width:110px`>".
Definition wz_int_html (w : wz) : html :=
  src "
          <div style=`display:flex;align-items:center;gap:8px` id=`wz-int-wrap`>
            <span class=`muted` style=`font-size:12.5px`>" ++ emsg "wz3_every" ++ src "</span>
            <input type=`number` min=`1` id=`wz-int` value=`" ++ num (w_n w) ++ src "` style=`width:76px`>
            <span class=`muted` style=`font-size:12.5px`>" ++ emsg "wz3_minutes" ++ src "</span>
          </div>".
Definition wz3_html (w : wz) : html :=
  src "
      <h1>" ++ emsg "wz3_title" ++ src "</h1>
      <div class=`page-sub` style=`margin-bottom:18px`>" ++ emsg "wz3_sub" ++ src "</div>
      <div class=`sched-grid`>
        " ++ sched_card_html w WDaily (lit "daily") (wz_time_html w) ++ src "
        " ++ sched_card_html w WInterval (lit "interval") (wz_int_html w) ++ src "
        " ++ sched_card_html w WManual (lit "manual") [] ++ src "
      </div>
      <div class=`nv-note` style=`max-width:560px;margin-top:16px`>
        <b id=`wz-sent`>" ++ escl (wzSchedSentence w) ++ src "</b><br>
        <span class=`muted`>" ++ emsg "wz3_note" ++ src "</span>
      </div>
      <div class=`nv-hint` style=`margin-top:10px`>" ++ emsg "wz3_cron_hint" ++ src "</div>
      <div class=`wz-err` id=`wz-err`>" ++ [E (wz_error w)] ++ src "</div>
      <div class=`wz-foot` style=`max-width:560px`>
        <button id=`wz-prev`>" ++ emsg "wz_prev" ++ src "</button>
        <button class=`primary` style=`padding:9px 22px` id=`wz-create`>" ++ emsg "wz3_create" ++ src "</button>
      </div>".
Definition wz_body_html (today : jstr) (w : wz) : html :=
  if Nat.eqb (w_step w) 1 then wz1_html w else if Nat.eqb (w_step w) 2 then wz2_html today w else wz3_html w.
(** [renderWizard] *)
Definition wizard_html (today : jstr) (w : wz) : html :=
  src "<div class=`wz` data-screen-label=`wizard`><div class=`wz-head`>
      <a id=`wz-back` role=`button` tabindex=`0`>" ++ emsg "wz_back" ++ src "</a>
      <div class=`grow` style=`flex:1`></div>
      <div class=`wz-dots`>" ++ each [1; 2; 3] (fun n => src "<span class=`wz-dot " ++ only (Nat.leb n (w_step w)) (src "on") ++ src "`></span>")
  ++ src "<span class=`wz-stepn`>" ++ escl (T (lit "wz_stepof") [Raw (digits (N.of_nat (w_step w)))]) ++ src "</span></div>
    </div>" ++ wz_body_html today w ++ src "</div>".

(** ** Why they are inert, and hold what their code looks up *)

Lemma help_rows_frag arr c : frag (help_rows arr c).
Proof. unfold help_rows. frag_go. Qed.
#[export] Hint Resolve help_rows_frag : markup.
Lemma cron_help_frag idp lang : plain idp = true -> frag (cronHelpHtml idp lang).
Proof. intros H. unfold cronHelpHtml. cbv zeta. frag_go. Qed.
#[export] Hint Resolve cron_help_frag : markup.
Lemma mode_plain m : plain (mode_name m) = true.
Proof. by destruct m. Qed.
Lemma unit_plain u : plain (unit_str u) = true.
Proof. by destruct u. Qed.
Lemma presets_plain p : p ∈ CRON_PRESETS -> plain_key p.1 = true.
Proof. intros H. by repeat (apply elem_of_cons in H as [->|H]); [..|by apply elem_of_nil in H]. Qed.
#[export] Hint Resolve mode_plain unit_plain : markup.
#[export] Hint Extern 3 (plain_key _.1 = true) => apply presets_plain; assumption : markup.
Lemma sched_modes_frag d : frag (schedModesHtml d).
Proof. unfold schedModesHtml. frag_go. Qed.
Lemma sched_fields_frag d idp lang : plain idp = true -> frag (sched_fields_html d idp lang).
Proof. intros H. unfold sched_fields_html. destruct (schedMode d); frag_go. Qed.
#[export] Hint Resolve sched_modes_frag sched_fields_frag : markup.
Lemma sched_body_frag d s c idp lang : plain idp = true -> frag (schedBodyHtml d s c idp lang).
Proof. intros H. unfold schedBodyHtml. cbv zeta. frag_go. Qed.
#[export] Hint Resolve sched_body_frag : markup.
Lemma sched_ui_frag d s c idp lang : plain idp = true -> frag (sched_ui_html d s c idp lang).
Proof. intros H. unfold sched_ui_html. frag_go. Qed.
Lemma preview_fires_frag sent times : frag (preview_fires_html sent times).
Proof. unfold preview_fires_html. destruct sent; frag_go. Qed.

Lemma templates_plain tp :
  tp ∈ DAG_TEMPLATES -> plain (tp_key tp) = true /\ plain_key (tp_name tp) = true /\ plain_key (tp_desc tp) = true.
Proof. intros H. by repeat (apply elem_of_cons in H as [->|H]); [..|by apply elem_of_nil in H]. Qed.
Lemma tpl_card_frag n tp : tp ∈ DAG_TEMPLATES -> frag (tpl_card_html n tp).
Proof. intros (H1 & H2 & H3)%templates_plain. unfold tpl_card_html, bool_html. cbv zeta. frag_go. Qed.
#[export] Hint Resolve tpl_card_frag : markup.
Lemma nd_form_frag n : frag (nd_form_html n).
Proof.
  assert (H : frag (each DAG_TEMPLATES (tpl_card_html n))) by (apply tr_each; intros; by apply tpl_card_frag).
  unfold nd_form_html. revert H. generalize (each DAG_TEMPLATES (tpl_card_html n)). intros cards H. frag_go.
Qed.
Lemma nd_yaml_frag : frag nd_yaml_html.
Proof. unfold nd_yaml_html. frag_go. Qed.
#[export] Hint Resolve nd_form_frag nd_yaml_frag : markup.
Lemma new_dag_frag n : frag (new_dag_html n).
Proof. unfold new_dag_html. frag_go. Qed.

Lemma tpl_name_plain k : plain (tpl_name k) = true.
Proof. by destruct k. Qed.
#[export] Hint Resolve tpl_name_plain : markup.
Lemma flow_chips_frag k : frag (wzFlowChips k).
Proof. unfold wzFlowChips. cbv zeta. generalize (match k with Blank_tpl => [say "wz_tpl_blank_chip"] | _ => (fun s => step_label (tt_id s)) <$> NV_TEMPLATES k end). intros labels. frag_go. Qed.
#[export] Hint Resolve flow_chips_frag : markup.
Lemma wz_card_frag w k : frag (wz_card_html w k).
Proof. unfold wz_card_html, bool_html. cbv zeta. frag_go. Qed.
#[export] Hint Resolve wz_card_frag : markup.
Lemma wz1_frag w : frag (wz1_html w).
Proof. unfold wz1_html. frag_go. Qed.
Lemma wz2_frag today w : frag (wz2_html today w).
Proof. unfold wz2_html. cbv zeta. frag_go. Qed.
Lemma sched_card_frag w m name field : plain name = true -> frag field -> frag (sched_card_html w m name field).
Proof. intros Hn Hf. unfold sched_card_html, bool_html. cbv zeta. frag_go. Qed.
Lemma wz_time_frag w : frag (wz_time_html w).
Proof. unfold wz_time_html. frag_go. Qed.
Lemma wz_int_frag w : frag (wz_int_html w).
Proof. unfold wz_int_html. frag_go. Qed.
#[export] Hint Resolve sched_card_frag wz_time_frag wz_int_frag frag_nil : markup.
Lemma wz3_frag w : frag (wz3_html w).
Proof. unfold wz3_html. frag_go. Qed.
#[export] Hint Resolve wz1_frag wz2_frag wz3_frag : markup.
Lemma wizard_frag today w : frag (wizard_html today w).
Proof. unfold wizard_html, wz_body_html. frag_go. Qed.

(** Every step of the wizard's templates has a gloss. *)
Lemma step_labels k : Forall (fun s => is_Some (nvTaskLabel (tt_id s))) (NV_TEMPLATES k).
Proof.
  apply (Forall_impl (fun s => tt_id s ∉ UNCALLABLE)); [destruct k; compute_decide|].
  intros s Hs. apply not_eq_None_Some. by rewrite nvTaskLabel_None.
Qed.

Lemma new_dag_find n :
  Forall (finds (new_dag_html n)) nd_ids
  /\ Forall (finds (new_dag_html n)) (if nd_yamlMode n then nd_yaml_ids else nd_form_ids)
  /\ (nd_yamlMode n = false -> nd_advanced n = true -> finds (new_dag_html n) (lit "nd-sched")).
Proof.
  unfold new_dag_html, nd_form_html, nd_yaml_html. split_and!; [find_all| |].
  - destruct (nd_yamlMode n); find_all.
  - intros -> ->. cbn [only]. find_go.
Qed.
(** The wizard's code looks up [wz-err] on the second step, the rest by asking. *)
Lemma wizard_find today w :
  finds (wizard_html today w) (lit "wz-back") /\ (w_step w = 2 -> finds (wizard_html today w) (lit "wz-err")).
Proof.
  unfold wizard_html, wz_body_html. split; [find_go|]. intros ->. cbn [Nat.eqb]. unfold wz2_html. cbv zeta. find_go.
Qed.
