(* ===== verification/SchedPreview.v ===== *)
(** * The preview under the schedule editor (builder.js): [schedPreviewSoon],
    [updateSchedPreview], [renderSchedBody]

    Typing into the editor starts a timer of 350 ms anew; when it fires, and whenever
    the body is drawn again, the next runs are requested. Requests are answered in
    any order. [spSeq] tells the latest one. *)

From S2P Require Import Prelude JsCore Schedule.

(** ** State *)

(** What the preview element shows: nothing, the gloss and the next runs of a schedule
    from a start date, or that the server does not take it. *)
Inductive preview :=
| NoPreview
| Fires (sent : option label) (snap start : jstr)
| Invalid (snap start : jstr).
(** A request: its number, the element it was made for, and what it asked. *)
Record sp_req := SpReq { rq_seq : nat; rq_el : nat; rq_snap : jstr; rq_start : jstr }.

Record sp := Sp {
  sp_d : sched;                       (** [SCHED.state.dag] *)
  sp_date : jstr;                     (** its [start_date] *)
  sp_el : option (nat * preview);     (** the preview element on screen, by identity *)
  sp_next : nat;                      (** the next element *)
  sp_timer : bool;                    (** [spTimer] is running *)
  sp_seq : nat;                       (** [spSeq] *)
  sp_open : list sp_req;
}.
Definition set_el (e : option (nat * preview)) (s : sp) : sp :=
  Sp (sp_d s) (sp_date s) e (sp_next s) (sp_timer s) (sp_seq s) (sp_open s).
Definition set_timer (b : bool) (s : sp) : sp :=
  Sp (sp_d s) (sp_date s) (sp_el s) (sp_next s) b (sp_seq s) (sp_open s).
Definition set_form (d : sched) (date : jstr) (s : sp) : sp :=
  Sp d date (sp_el s) (sp_next s) (sp_timer s) (sp_seq s) (sp_open s).
Definition set_open (q : list sp_req) (s : sp) : sp :=
  Sp (sp_d s) (sp_date s) (sp_el s) (sp_next s) (sp_timer s) (sp_seq s) q.

Definition scheduled (d : sched) : bool := negb (bool_decide (schedMode d = Manual)) && truthy (schedule d).

(** [updateSchedPreview] up to its request. *)
Definition updateSchedPreview (s : sp) : sp :=
  match sp_el s with
  | None => s
  | Some (el, _) =>
    if scheduled (sp_d s) then
      let seq := S (sp_seq s) in
      Sp (sp_d s) (sp_date s) (sp_el s) (sp_next s) (sp_timer s) seq
        (sp_open s ++ [SpReq seq el (schedule (sp_d s)) (sp_date s)])
    else set_el (Some (el, NoPreview)) s
  end.

(** [renderSchedBody]: a new element, unless the mode has none. *)
Definition renderSchedBody (s : sp) : sp :=
  let s1 := if bool_decide (schedMode (sp_d s) = Manual) then set_el None s
            else Sp (sp_d s) (sp_date s) (Some (sp_next s, NoPreview)) (S (sp_next s)) (sp_timer s) (sp_seq s) (sp_open s) in
  updateSchedPreview s1.

(** [updateSchedPreview] once the request [r] is answered: whether the server takes
    the schedule. The answer is dropped when it is not the latest one's or the schedule has changed,
    and written into the element of the request, which may be gone from the screen. *)
Definition preview_answer (r : sp_req) (ok : bool) (s : sp) : sp :=
  match sp_el s with
  | Some (el, _) =>
    if Nat.eqb (rq_seq r) (sp_seq s) && bool_decide (schedule (sp_d s) = rq_snap r) then
      if Nat.eqb el (rq_el r) then
        set_el (Some (el, if ok then Fires (schedSentence (sp_d s)) (rq_snap r) (rq_start r)
                          else Invalid (rq_snap r) (rq_start r))) s
      else s
    else s
  | None => s
  end.

Inductive sp_event :=
| SpForm (e : sched_event)    (** a control of the editor *)
| SpDate (date : jstr)        (** the start date *)
| SpTimer
| SpAnswer (n : nat) (ok : bool)
| SpRedraw                    (** the editor is drawn again, or for the first time *)
| SpClose.                    (** it leaves the screen *)

(** [wireSchedModes], [wireSchedBody]: picking redraws the body, typing waits. *)
Definition redraws (e : sched_event) : bool :=
  match e with PickMode _ | PickCron _ => true | _ => false end.
(** Which controls the modes draw. *)
Definition has_control (e : sched_event) (m : sched_mode) : bool :=
  match e with
  | PickMode _ => true
  | InputEvery _ | PickUnit _ => bool_decide (m = Every)
  | InputCron _ | PickCron _ => bool_decide (m = Cron)
  end.

(** [opened] is whether the editor is on screen. *)
Definition sp_step (e : sp_event) (s : bool * sp) : option (bool * sp) :=
  let '(opened, p) := s in
  match e with
  | SpForm ev =>
    if opened && has_control ev (schedMode (sp_d p)) then
      let p1 := set_form (sched_step ev (sp_d p)) (sp_date p) p in
      Some (true, if redraws ev then renderSchedBody p1 else set_timer true p1)
    else None
  | SpDate date =>
    if opened && negb (bool_decide (schedMode (sp_d p) = Manual))
    then Some (true, set_timer true (set_form (sp_d p) date p)) else None
  | SpTimer => if sp_timer p then Some (opened, updateSchedPreview (set_timer false p)) else None
  | SpAnswer n ok =>
    match sp_open p !! n with
    | Some r => Some (opened, preview_answer r ok (set_open (delete n (sp_open p)) p))
    | None => None
    end
  | SpRedraw => Some (true, renderSchedBody p)
  | SpClose => Some (false, set_el None p)
  end.
Fixpoint sp_run (es : list sp_event) (s : bool * sp) : option (bool * sp) :=
  match es with
  | [] => Some s
  | e :: es' => match sp_step e s with Some s' => sp_run es' s' | None => None end
  end.
(** The page before the editor is opened on a stored schedule. *)
Definition sp_init (sch date : jstr) : bool * sp := (false, Sp (parseScheduleState sch) date None 0 false 0 []).

(** ** Invariant *)

(** What the server would be asked now, and what its answer shows. *)
Definition current (s : sp) (x : preview) : Prop :=
  x = Fires (schedSentence (sp_d s)) (schedule (sp_d s)) (sp_date s) \/ x = Invalid (schedule (sp_d s)) (sp_date s).

(** The request of the latest number asks for what the form says, for the element on
    screen. *)
Definition asked (s : sp) (el : nat) (r : sp_req) : Prop :=
  rq_seq r = sp_seq s /\ rq_el r = el /\ rq_snap r = schedule (sp_d s) /\ rq_start r = sp_date s.

Record sp_inv (s : bool * sp) : Prop := {
  si_el : s.1 = true -> is_Some (sp_el s.2) <-> schedMode (sp_d s.2) <> Manual;
  si_closed : s.1 = false -> sp_el s.2 = None;
  si_seqs : Forall (fun r => rq_seq r <= sp_seq s.2 /\ rq_el r < sp_next s.2 /\ truthy (rq_snap r) = true) (sp_open s.2);
  si_nodup : NoDup (rq_seq <$> sp_open s.2);
  si_next : forall el x, sp_el s.2 = Some (el, x) -> el < sp_next s.2;
  si_shown : forall el x, sp_el s.2 = Some (el, x) -> sp_timer s.2 = false ->
    if scheduled (sp_d s.2) then
      current s.2 x /\ Forall (fun r => rq_seq r <> sp_seq s.2) (sp_open s.2)
      \/ exists r, r ∈ sp_open s.2 /\ asked s.2 el r
    else x = NoPreview;
}.

Lemma sp_update_inv o s :
  (o = true -> is_Some (sp_el s) <-> schedMode (sp_d s) <> Manual) -> (o = false -> sp_el s = None) ->
  Forall (fun r => rq_seq r <= sp_seq s /\ rq_el r < sp_next s /\ truthy (rq_snap r) = true) (sp_open s) -> NoDup (rq_seq <$> sp_open s) ->
  (forall el x, sp_el s = Some (el, x) -> el < sp_next s) ->
  sp_inv (o, updateSchedPreview s).
Proof.
  intros H1 H2 H3 H4 H5. unfold updateSchedPreview. destruct (sp_el s) as [[el x]|] eqn:Eel.
  2: { by split; simpl; rewrite ?Eel. }
  destruct (scheduled (sp_d s)) eqn:Es.
  - split; simpl; rewrite ?Eel; try done.
    + apply Forall_app. split; [eapply Forall_impl; [exact H3|]; simpl; intros ? (? & ? & ?); split_and!; [lia|done|done]|].
      constructor; [simpl; split_and!; [lia|by eapply H5|by apply andb_true_iff in Es as [_ Es]]|constructor].
    + rewrite fmap_app. apply NoDup_snoc. split; [done|]. simpl. intros (r & Er & Hr)%list_elem_of_fmap.
      rewrite Forall_forall in H3. specialize (H3 r Hr). lia.
    + intros el' x' [= <- <-] _. rewrite Es. right. eexists. split; [apply elem_of_app; right; left|]. by repeat split.
  - split; simpl; try done.
    + intros Ho. specialize (H1 Ho). split; [intros _; apply H1; eauto|eauto].
    + intros Ho. by specialize (H2 Ho).
    + intros el' x' [= <- <-]. by eapply H5.
    + intros el' x' [= <- <-] _. by rewrite Es.
Qed.

Lemma render_body_inv s :
  Forall (fun r => rq_seq r <= sp_seq s /\ rq_el r < sp_next s /\ truthy (rq_snap r) = true) (sp_open s) -> NoDup (rq_seq <$> sp_open s) ->
  sp_inv (true, renderSchedBody s).
Proof.
  intros H3 H4. unfold renderSchedBody. case_bool_decide as Hm; apply sp_update_inv; simpl; try done.
  - eapply Forall_impl; [exact H3|]. simpl; intros ? (? & ? & ?); split_and!; [done|lia|done].
  - intros el x [= <- _]. lia.
Qed.

(** Typing leaves the mode as it is. *)
Lemma typing_mode e d : redraws e = false -> schedMode (sched_step e d) = schedMode d.
Proof. by destruct e, d. Qed.

Lemma sp_form_inv p d date :
  schedMode d = schedMode (sp_d p) -> sp_inv (true, p) -> sp_inv (true, set_timer true (set_form d date p)).
Proof. intros Hm [I1 I2 I3 I4 I5 I6]. split; simpl in *; try done. by rewrite Hm. Qed.

Lemma sp_answer_inv o p n r ok :
  sp_open p !! n = Some r -> sp_inv (o, p) -> sp_inv (o, preview_answer r ok (set_open (delete n (sp_open p)) p)).
Proof.
  intros Hn [I1 I2 I3 I4 I5 I6]. simpl in *.
  assert (Hp := delete_Permutation _ _ _ Hn).
  assert (I3' : Forall (fun r => rq_seq r <= sp_seq p /\ rq_el r < sp_next p /\ truthy (rq_snap r) = true) (delete n (sp_open p))).
  { rewrite Hp in I3. by apply Forall_cons in I3 as [_ I3]. }
  assert (Hoth : (rq_seq r ∉ (rq_seq <$> delete n (sp_open p))) /\ NoDup (rq_seq <$> delete n (sp_open p))).
  { rewrite Hp in I4. by apply NoDup_cons in I4. }
  destruct Hoth as [Hoth I4'].
  (* the request of the latest number is [r], or still open *)
  assert (Hq : rq_seq r = sp_seq p -> Forall (fun x => rq_seq x <> sp_seq p) (delete n (sp_open p))).
  { intros Hq. rewrite <- Hq. apply Forall_forall. intros x Hx E. apply Hoth. rewrite <- E. by apply list_elem_of_fmap_2. }
  assert (Hk : forall el x, sp_el p = Some (el, x) -> sp_timer p = false -> scheduled (sp_d p) = true ->
    (rq_seq r = sp_seq p /\ asked p el r) \/
    (rq_seq r <> sp_seq p /\ (current p x /\ Forall (fun r => rq_seq r <> sp_seq p) (delete n (sp_open p))
                             \/ exists r, r ∈ delete n (sp_open p) /\ asked p el r))).
  { intros el x Eel Ht Es. specialize (I6 el x Eel Ht). rewrite Es in I6. setoid_rewrite Hp in I6.
    destruct I6 as [[Hx [Hr Hf]%Forall_cons]|(r' & [->|Hr']%elem_of_cons & Ha)]; [right; auto|left; by split; [apply Ha|]|].
    destruct (decide (rq_seq r = sp_seq p)) as [E|]; [|right; eauto].
    apply Hq in E. rewrite Forall_forall in E. destruct (E r' Hr'). apply Ha. }
  unfold preview_answer. simpl. destruct (sp_el p) as [[el x]|] eqn:Eel.
  2: { split; simpl; rewrite ?Eel; done. }
  destruct (Nat.eqb (rq_seq r) (sp_seq p) && bool_decide (schedule (sp_d p) = rq_snap r)) eqn:Hc.
  1: destruct (Nat.eqb_spec el (rq_el r)) as [He|He].
  2,3: split; simpl; rewrite ?Eel; try done; intros el' x' [= <- <-] Ht;
    specialize (Hk el x eq_refl Ht); specialize (I6 el x eq_refl Ht); destruct (scheduled (sp_d p)); [|done];
    destruct (Hk eq_refl) as [[E Ha]|[_ H]]; [|exact H]; destruct Ha as (_ & H1 & H2 & _).
  - apply andb_true_iff in Hc as [Hs%Nat.eqb_eq Hsnap%bool_decide_eq_true].
    split; simpl; try done.
    1: intros Ho; specialize (I1 Ho); split; [intros _; apply I1; eauto|eauto].
    1: intros Ho; by specialize (I2 Ho).
    1: intros el' x' [= <- <-]; by eapply I5.
    intros el' x' [= <- <-] Ht. specialize (Hk el x eq_refl Ht). destruct (scheduled (sp_d p)) eqn:Es.
    + destruct (Hk eq_refl) as [[_ (_ & _ & H1 & H2)]|[]]; [|done]. left. split; [|auto].
      unfold current. simpl. rewrite <- H1, <- H2. destruct ok; auto.
    + exfalso. rewrite Hp in I3. apply Forall_cons in I3 as [(_ & _ & Hr) _]. rewrite <- Hsnap in Hr.
      unfold scheduled in Es. rewrite Hr, andb_true_r in Es. apply negb_false_iff, bool_decide_eq_true in Es.
      destruct o; [by apply (proj1 (I1 eq_refl)); eauto|by specialize (I2 eq_refl)].
  - by rewrite H1 in He.
  - rewrite E, H2, Nat.eqb_refl, bool_decide_eq_true_2 in Hc by done. done.
Qed.

Lemma sp_step_inv e s s' : sp_step e s = Some s' -> sp_inv s -> sp_inv s'.
Proof.
  destruct s as [o p]. intros Hs Hi. pose proof Hi as [I1 I2 I3 I4 I5 I6]. simpl in *.
  destruct e as [ev|date| |n ok| |]; simpl in Hs.
  - destruct o; simpl in Hs; [|done]. destruct (has_control ev _); [|done]. injection Hs as <-.
    destruct (redraws ev) eqn:Er; [by apply render_body_inv|].
    apply sp_form_inv; [by apply typing_mode|done].
  - destruct o; simpl in Hs; [|done]. destruct (negb _); [|done]. injection Hs as <-. by apply sp_form_inv.
  - destruct (sp_timer p); [|done]. injection Hs as <-. by apply sp_update_inv.
  - destruct (sp_open p !! n) as [r|] eqn:En; [|done]. injection Hs as <-. by apply sp_answer_inv.
  - injection Hs as <-. by apply render_body_inv.
  - injection Hs as <-. by split.
Qed.
Lemma sp_run_inv es s s' : sp_run es s = Some s' -> sp_inv s -> sp_inv s'.
Proof.
  revert s. induction es as [|e es IH]; intros s; simpl; [by intros [= ->]|].
  destruct (sp_step e s) as [s1|] eqn:E; [|done]. intros Hr Hi. by apply (IH s1), (sp_step_inv e s).
Qed.
Lemma sp_init_inv sch date : sp_inv (sp_init sch date).
Proof. by split; simpl; try constructor. Qed.

(** ** At rest *)

(** Time and the server only. *)
Definition passive (e : sp_event) : Prop := match e with SpTimer | SpAnswer _ _ => True | _ => False end.
Definition same_form (p q : sp) : Prop := sp_d q = sp_d p /\ sp_date q = sp_date p.
Definition at_rest (p : sp) : Prop := sp_timer p = false /\ sp_open p = [].

Lemma update_form p : same_form p (updateSchedPreview p) /\ sp_timer (updateSchedPreview p) = sp_timer p.
Proof. unfold updateSchedPreview. destruct (sp_el p) as [[]|]; [|done]. by destruct (scheduled _). Qed.
Lemma answer_form r ok p :
  same_form p (preview_answer r ok p) /\ sp_timer (preview_answer r ok p) = sp_timer p /\ sp_open (preview_answer r ok p) = sp_open p.
Proof. unfold preview_answer. destruct (sp_el p) as [[el x]|]; [|done]. destruct (_ && _); [|done]. by destruct (Nat.eqb el _). Qed.

Lemma answers_settle o p :
  sp_timer p = false -> exists es q, Forall passive es /\ sp_run es (o, p) = Some (o, q) /\ at_rest q /\ same_form p q.
Proof.
  remember (sp_open p) as l eqn:El. revert p El. induction l as [|r l IH]; intros p El Ht.
  { exists [], p. by repeat split. }
  destruct (answer_form r true (set_open l p)) as (Hf & Ht' & Ho).
  destruct (IH (preview_answer r true (set_open l p))) as (es & q & H1 & H2 & H3 & H4); [by rewrite Ho|by rewrite Ht'|].
  exists (SpAnswer 0 true :: es), q. split_and!; [by constructor| |done|].
  - simpl. rewrite <- El. exact H2.
  - destruct H4 as [H4 H5], Hf as [H6 H7]. split; [by rewrite H4, H6|by rewrite H5, H7].
Qed.

(** ** Property *)

(** C20 The preview says what the editor says, as soon as nothing is under way. However
    the form is edited, closed and opened again, and in whatever order the requests are
    answered: while the editor is on screen there is a preview exactly when the mode
    has a schedule; when no timer runs and no request is open, it shows the gloss and
    the next runs of the schedule and start date in the form, or that the server
    refuses them, or nothing when there is no schedule; and such a state is always
    reached once time passes and the server answers, without touching the form. *)
Theorem preview_settles sch date es o p :
  sp_run es (sp_init sch date) = Some (o, p) ->
  (o = true -> is_Some (sp_el p) <-> schedMode (sp_d p) <> Manual) /\
  (forall el x, sp_el p = Some (el, x) -> at_rest p ->
     if scheduled (sp_d p) then current p x else x = NoPreview) /\
  exists es' q, Forall passive es' /\ sp_run es' (o, p) = Some (o, q) /\ at_rest q /\ same_form p q.
Proof.
  intros Hr. apply sp_run_inv in Hr as [I1 _ _ _ _ I6]; [|apply sp_init_inv]. simpl in *. split_and!; [done| |].
  - intros el x Hx [Ht Ho]. specialize (I6 el x Hx Ht). destruct (scheduled (sp_d p)); [|done].
    destruct I6 as [[H _]|(r & Hr & _)]; [done|]. rewrite Ho in Hr. by apply not_elem_of_nil in Hr.
  - destruct (sp_timer p) eqn:Ht; [|by apply answers_settle].
    destruct (update_form (set_timer false p)) as [[Hd Hs] Ht'].
    destruct (answers_settle o (updateSchedPreview (set_timer false p))) as (es' & q & H1 & H2 & H3 & [H4 H5]); [done|].
    exists (SpTimer :: es'), q. split_and!; [by constructor| |done|].
    + simpl. by rewrite Ht.
    + simpl in Hd, Hs. split; congruence.
Qed.

(** A preset is picked, then another schedule typed before the first is answered. *)
Definition sample_preview : list sp_event :=
  [SpRedraw; SpForm (PickCron (lit "0 * * * *")); SpForm (InputCron (lit "0 2 * * *")); SpTimer; SpAnswer 0 true; SpAnswer 0 true; SpAnswer 0 true].
Lemma preview_settles_witness :
  exists p, sp_run sample_preview (sp_init (lit "0 0 * * *") []) = Some (true, p) /\
  sp_el p = Some (1, Fires (Some (T (lit "cp_2am") [])) (lit "0 2 * * *") []) /\
  current p (Fires (Some (T (lit "cp_2am") [])) (lit "0 2 * * *") []).
Proof.
  let r := eval vm_compute in (sp_run sample_preview (sp_init (lit "0 0 * * *") [])) in
  lazymatch r with
  | Some (_, ?q) =>
    exists q; split; [vm_compute; reflexivity|]; split; [reflexivity|];
    pose proof (preview_settles (lit "0 0 * * *") [] sample_preview true q) as H
  end.
  destruct H as (_ & H & _); [vm_compute; reflexivity|]. exact (H 1 _ eq_refl (conj eq_refl eq_refl)).
Defined.
