(* ===== verification/Pages.v ===== *)
(** * Everything the console writes into the document

    One constructor per template that is assigned to [innerHTML], with what it prints.
    [screen_html] is the template, [None] when writing it throws; [screen_ids] are the
    elements of it that its code looks up with [$] and uses without asking whether they
    are there; [screen_ok] is what the templates rely on: the words they print
    unescaped (states, run types, trigger rules, ids the server makes up) are plain. *)

From S2P Require Import Prelude JsCore Schedule TaskGraph DagModel DagEdit DiffPanel DictData Labels Format GraphLayout Session RunDisplay Dashboard.
From S2P Require Import Settings Resources Admin Creation Markup Screens HomePages DagPages DagDialogs TaskPages RunPages ResourcePages AdminPages GraphPage BuilderPages.

(** ** The templates without a page of their own *)

(** [showDag] of an archived workflow. *)
Definition archived_html (id : jstr) : html :=
  src "<div class=`crumb-bar`><a id=`back`>" ++ msg "back_dags" ++ src "</a> / " ++ escd id ++ src "</div><div class=`empty`>"
  ++ msg "dag_archived" ++ src "</div>".
(** [renderDagTab], before the tab is drawn into it. *)
Definition tab_shell (structure : bool) : html :=
  if structure then src "<div id=`d-structure`></div>" else src "<div id=`d-runs`></div>".
(** [showGraph], when the request failed. *)
Definition graph_error_html (message : text) : html := src "<div class=`empty`>" ++ [E message] ++ src "</div>".

Inductive screen :=
(** base.js *)
| SConfirm (title body : text) (hasBody danger : bool) (okLabel : option text)
| SPick (title body : text) (hasBody : bool) (options : list pick_option)
| SJump (q : jstr) (ids : list jstr) | SChip (u : user) | SLogin (expired : bool) | SError (message : text)
(** builder.js *)
| SSchedule (d : sched) (start : jstr) (catchup : bool) (idp : jstr) (lang : language)
| SPreview (sent : option label) (times : jstr) | SNewDag (n : nd) | SWizard (today : jstr) (w : wz)
(** views.js: the home pages *)
| SDags (viewer done : bool) (query flt : jstr) (sel : list jstr) (now running rate total : Z) (ov : overview) (rows : list drow)
| SBulk (n : nat) | SNvHome (viewer : bool) (sched_of : jstr -> jstr) (ms_of : activity -> Z) (ov : overview)
(** a workflow *)
| SArchived (id : jstr) | SDag (now : Z) (d : dag) (n : nat) (runs : list hrun) (coach : bool) (tab : jstr)
| SHero (now : Z) (d : dag) (runs : list hrun) | STab (structure : bool)
| SNvDag (now : Z) (d : dag) (n : nat) (ts : list task) (runs : list hrun) | SNvEdit (tk : task) (raw : bool)
| SSettings (edit : option setrow) (all : list jstr) (names : option (list jstr)) (d : dag)
| SGroups (names : list jstr) (d : dag)
| SRuns (now : Z) (canAct : bool) (flt : jstr) (limit : Z) (runs : list hrun)
| SStructure (p : page) | SPanel (c : list dpiece)
| SPrompt (title : text) (def : jstr) | SYaml (id yml : jstr) | SParams (rows : list (jstr * jstr)) (prio : Z) | SBackfill (today : jstr)
(** a task *)
| STask (all : list jstr) (dagid : jstr) (raw : bool) (siblings : list jstr) (tk : task)
| SVars (keys : list jstr) | SConnChips (ids : list jstr) | SConnMenu (id : jstr)
| SProjects (ps : list (jstr * Z)) (cur : jstr) | SErrors (errs : list label) | SCommand (cmd : jstr)
(** a run *)
| SRun (now : Z) (h : runhead) (timeline : bool) (tis : list inst) (ts : list gtask) | SBadge (state : jstr)
| SNvRun | SNvSteps (now : Z) (pin : option jstr) (r : RunDisplay.run) (defs : list jstr) (cmd : jstr -> jstr) (tis : list inst)
| SNvFoot (live : bool) | SNvLog (task : jstr) | SBanner (now : Z) (dagid sched_ : jstr) (r : RunDisplay.run) (b : banner)
| SActions (a : run_actions) | SInstances (now : Z) (canAct : bool) (r : RunDisplay.run) (tis : list rinst)
| SGantt (now : Z) (r : RunDisplay.run) (tis : list inst)
| SLog (multi : bool) (ti task : jstr) | SLive | SAllLogs (n : nat)
(** the pages of the administrator *)
| SPools (ps : list pool) | SResources (novice : bool) (tab : res_tab) (vars conns groups : nat)
| SVarsTab (vs : list vrow) | SConnsTab (cs : list crow) | SConnDialog (f : cform) (pw : bool)
| SGroupsTab (url_host : jstr -> option jstr) (gs : list grow) | SGroupDialog (d : gdialog)
| SAudit (a : aud) (row : aentry -> arow) | SApi (admin : bool) (ks : list krow) | SToken (token : jstr)
| SRelations (nodes : list rnode) (edges : list (jstr * jstr)) | SGraphError (message : text)
| SWorkers (now : Z) (origin : jstr) (admin : bool) (ws : list wrow)
| SMint | SMinted (origin token : jstr) (expires : option Z).

Section screens.
Context `{Host}.

Definition screen_html (s : screen) : option html :=
  match s with
  | SConfirm ti b hb d ok => Some (confirm_html ti b hb d ok)
  | SPick ti b hb os => Some (pick_html ti b hb os)
  | SJump q ids => Some (jump_html q ids)
  | SChip u => Some (chip_html u)
  | SLogin e => Some (login_html e)
  | SError m => Some (error_html m)
  | SSchedule d st cu idp lang => Some (sched_ui_html d st cu idp lang)
  | SPreview sent times => Some (preview_fires_html sent times)
  | SNewDag n => Some (new_dag_html n)
  | SWizard today w => Some (wizard_html today w)
  | SDags v dn q f sel now a b c ov rows => Some (dags_html v dn q f sel now a b c ov rows)
  | SBulk n => Some (bulk_html n)
  | SNvHome v so ms ov => Some (nv_home_html v so ms ov)
  | SArchived id => Some (archived_html id)
  | SDag now d n runs coach tab => Some (dag_page_html now d n runs coach tab)
  | SHero now d runs => Some (hero_stats_html now d runs)
  | STab st => Some (tab_shell st)
  | SNvDag now d n ts runs => nv_page_html now d n ts runs
  | SNvEdit tk raw => Some (nv_edit_html tk raw)
  | SSettings edit all names d => Some (settings_html edit all names d)
  | SGroups names d => Some (group_opts_arrived names d)
  | SRuns now c f n runs => Some (runs_html now c f n runs)
  | SStructure p => structure_html p
  | SPanel c => Some (panel_html c)
  | SPrompt ti d => Some (prompt_html ti d)
  | SYaml i y => Some (yaml_html i y)
  | SParams rows prio => Some (params_html rows prio)
  | SBackfill today => Some (backfill_html today)
  | STask all d raw sib tk => Some (task_page_html all d raw sib tk)
  | SVars keys => Some (var_group_html keys)
  | SConnChips ids => Some (conn_group_html ids)
  | SConnMenu id => Some (conn_menu_html id)
  | SProjects ps cur => Some (project_options ps cur)
  | SErrors es => Some (errors_html es)
  | SCommand cmd => Some (hl_vars cmd)
  | SRun now h tl tis ts => run_page_html now h tl <$> graph_html (run_view tis) (renderGraph ts (GOpts false None))
  | SBadge st => Some (badge st false)
  | SNvRun => Some nov_shell
  | SNvSteps now pin r defs cmd tis => nov_steps_html now pin r defs cmd tis
  | SNvFoot live => Some (nov_foot live)
  | SNvLog task => Some (nov_loghead task)
  | SBanner now d sc r b => Some (banner_html now d sc r b)
  | SActions a => Some (actions_html a)
  | SInstances now c r tis => Some (instances_html now c r tis)
  | SGantt now r tis => Some (gantt_html now r tis)
  | SLog m ti task => Some (log_panel_html m ti task)
  | SLive => Some live_html
  | SAllLogs n => Some (all_logs_html n)
  | SPools ps => Some (pools_html ps)
  | SResources nv tab a b c => Some (resources_html nv tab a b c)
  | SVarsTab vs => Some (varsTabHtml vs)
  | SConnsTab cs => Some (connsTabHtml cs)
  | SConnDialog f pw => Some (conn_dialog_html f pw)
  | SGroupsTab url gs => Some (groupsTabHtml url gs)
  | SGroupDialog d => Some (group_dialog_html d)
  | SAudit a row => Some (audit_html a row)
  | SApi admin ks => Some (api_html admin ks)
  | SToken token => Some (reveal_token_html token)
  | SRelations nodes edges => graph_page_html nodes edges
  | SGraphError m => Some (graph_error_html m)
  | SWorkers now origin admin ws => Some (workers_html now origin admin ws)
  | SMint => Some token_dialog_html
  | SMinted origin token e => Some (reveal_worker_html origin token e)
  end.

Definition screen_ok (s : screen) : Prop :=
  match s with
  | SSchedule _ _ _ idp _ => idp = lit "nd" \/ idp = lit "d"
  | SDags _ _ _ _ _ _ _ _ _ _ rows => Forall drow_ok rows
  | SNvHome _ _ _ ov => Forall odag_ok (ov_dags ov)
  | SDag _ _ _ runs _ _ | SHero _ _ runs | SNvDag _ _ _ _ runs | SRuns _ _ _ _ runs => Forall hrun_ok runs
  | SStructure p => rules_ok (pg_tasks p)
  | SBackfill today => plain today = true
  | STask _ d _ _ tk => ID_RE d = true /\ plain (tk_trigger_rule tk) = true
  | SRun _ h _ _ _ => runhead_ok h
  | SBadge st => plain st = true
  | SInstances _ _ _ tis => Forall rinst_ok tis
  | SGantt _ _ tis => Forall inst_ok tis
  | SLog _ ti _ => plain ti = true
  | _ => True
  end.

Definition screen_ids (s : screen) : list jstr :=
  match s with
  | SConfirm _ _ _ _ _ => [lit "cfm-ovl"; lit "cfm-cancel"; lit "cfm-ok"]
  | SPick _ _ _ _ => [lit "pick-ovl"; lit "pick-cancel"]
  | SSchedule _ _ _ idp _ => [idp ++ lit "-schedbody"]
  | SLogin _ => [lit "login-form"; lit "login-user"; lit "login-pass"; lit "login-err"]
  | SChip _ => [lit "uc-logout"]
  | SNewDag n => nd_ids ++ (if nd_yamlMode n then nd_yaml_ids else nd_form_ids ++ (if nd_advanced n then [lit "nd-sched"] else []))
  | SWizard _ w => lit "wz-back" :: (if Nat.eqb (w_step w) 2 then [lit "wz-err"] else [])
  | SBulk _ => [lit "bulk-clear"]
  | SNvHome _ _ _ ov => match ov_dags ov with [] => s0_ids | _ => nv_home_ids end
  | SArchived _ => [lit "back"]
  | SDag _ _ _ _ _ _ => dag_page_ids
  | STab structure => [if structure then lit "d-structure" else lit "d-runs"]
  | SNvDag _ _ _ _ runs => nv_page_ids runs
  | SNvEdit _ _ => nv_edit_ids
  | SPrompt _ _ => prompt_ids
  | SYaml _ _ => yaml_ids
  | SParams _ _ => params_ids
  | SBackfill _ => backfill_ids
  | STask _ _ _ _ _ => task_page_ids
  | SRun _ _ _ _ _ => run_page_ids
  | SActions a => actions_ids a
  | SLog _ _ _ => log_panel_ids
  | SPools _ => pools_ids
  | SResources _ _ _ _ _ => resources_ids
  | SVarsTab _ => vars_ids
  | SConnsTab _ => [lit "nc-add"]
  | SConnDialog _ _ => conn_ids
  | SGroupsTab _ _ => [lit "ag-add"]
  | SGroupDialog _ => group_ids
  | SAudit _ _ => audit_ids
  | SApi admin _ => if admin then api_ids else []
  | SToken _ => reveal_token_ids
  | SMint => token_dialog_ids
  | SMinted _ _ _ => reveal_worker_ids
  | _ => []
  end.

(** ** Lemmas *)

Lemma archived_frag id : frag (archived_html id).
Proof. unfold archived_html. frag_go. Qed.
Lemma tab_shell_frag st : frag (tab_shell st).
Proof. unfold tab_shell. frag_go. Qed.
Lemma graph_error_frag m : frag (graph_error_html m).
Proof. unfold graph_error_html. frag_go. Qed.

Lemma run_screen_frag now h0 tl tis ts h :
  runhead_ok h0 -> screen_html (SRun now h0 tl tis ts) = Some h -> frag h.
Proof.
  intros Hok. cbn [screen_html]. destruct (graph_html _ _) as [g|] eqn:Hg; [|done].
  intros Hh%(inj Some). subst h. apply run_page_frag; [done|]. exact (graph_frag _ _ _ Hg).
Qed.
Lemma screen_frag s h : screen_ok s -> screen_html s = Some h -> frag h.
Proof.
  destruct s; cbn [screen_html screen_ok]; intros Hok Hh.
  - apply (inj Some) in Hh as <-. by apply confirm_frag.
  - apply (inj Some) in Hh as <-. by apply pick_frag.
  - apply (inj Some) in Hh as <-. by apply jump_frag.
  - apply (inj Some) in Hh as <-. by apply chip_frag.
  - apply (inj Some) in Hh as <-. by apply login_frag.
  - apply (inj Some) in Hh as <-. by apply error_frag.
  - apply (inj Some) in Hh as <-. apply sched_ui_frag; by destruct Hok as [-> | ->].
  - apply (inj Some) in Hh as <-. by apply preview_fires_frag.
  - apply (inj Some) in Hh as <-. by apply new_dag_frag.
  - apply (inj Some) in Hh as <-. by apply wizard_frag.
  - apply (inj Some) in Hh as <-. by apply dags_frag.
  - apply (inj Some) in Hh as <-. by apply bulk_frag.
  - apply (inj Some) in Hh as <-. by apply nv_home_frag.
  - apply (inj Some) in Hh as <-. by apply archived_frag.
  - apply (inj Some) in Hh as <-. by apply dag_page_frag.
  - apply (inj Some) in Hh as <-. by apply hero_stats_frag.
  - apply (inj Some) in Hh as <-. by apply tab_shell_frag.
  - by eapply nv_page_frag.
  - apply (inj Some) in Hh as <-. by apply nv_edit_frag.
  - apply (inj Some) in Hh as <-. by apply settings_frag.
  - apply (inj Some) in Hh as <-. by apply group_opts_frag.
  - apply (inj Some) in Hh as <-. by apply runs_frag.
  - exact (structure_frag p h Hok Hh).
  - apply (inj Some) in Hh as <-. by apply panel_frag.
  - apply (inj Some) in Hh as <-. by apply prompt_frag.
  - apply (inj Some) in Hh as <-. by apply yaml_frag.
  - apply (inj Some) in Hh as <-. by apply params_frag.
  - apply (inj Some) in Hh as <-. by apply backfill_frag.
  - apply (inj Some) in Hh as <-. apply task_page_frag; by destruct Hok.
  - apply (inj Some) in Hh as <-. by apply var_group_frag.
  - apply (inj Some) in Hh as <-. by apply conn_group_frag.
  - apply (inj Some) in Hh as <-. by apply conn_menu_frag.
  - apply (inj Some) in Hh as <-. by apply project_options_frag.
  - apply (inj Some) in Hh as <-. by apply errors_frag.
  - apply (inj Some) in Hh as <-. by apply hl_vars_frag.
  - by apply run_screen_frag in Hh.
  - apply (inj Some) in Hh as <-. by apply badge_frag.
  - apply (inj Some) in Hh as <-. by apply nov_shell_frag.
  - by eapply nov_steps_frag.
  - apply (inj Some) in Hh as <-. by apply nov_foot_frag.
  - apply (inj Some) in Hh as <-. by apply nov_loghead_frag.
  - apply (inj Some) in Hh as <-. by apply banner_frag.
  - apply (inj Some) in Hh as <-. by apply actions_frag.
  - apply (inj Some) in Hh as <-. by apply instances_frag.
  - apply (inj Some) in Hh as <-. by apply gantt_frag.
  - apply (inj Some) in Hh as <-. by apply log_panel_frag.
  - apply (inj Some) in Hh as <-. by apply live_frag.
  - apply (inj Some) in Hh as <-. by apply all_logs_frag.
  - apply (inj Some) in Hh as <-. by apply pools_frag.
  - apply (inj Some) in Hh as <-. by apply resources_frag.
  - apply (inj Some) in Hh as <-. by apply vars_frag.
  - apply (inj Some) in Hh as <-. by apply conns_frag.
  - apply (inj Some) in Hh as <-. by apply conn_dialog_frag.
  - apply (inj Some) in Hh as <-. by apply groups_frag.
  - apply (inj Some) in Hh as <-. by apply group_dialog_frag.
  - apply (inj Some) in Hh as <-. by apply audit_frag.
  - apply (inj Some) in Hh as <-. by apply api_frag.
  - apply (inj Some) in Hh as <-. by apply reveal_token_frag.
  - by eapply graph_page_frag.
  - apply (inj Some) in Hh as <-. by apply graph_error_frag.
  - apply (inj Some) in Hh as <-. by apply workers_frag.
  - apply (inj Some) in Hh as <-. by apply token_dialog_frag.
  - apply (inj Some) in Hh as <-. by apply reveal_worker_frag.
Qed.

(** An attribute of which a part is a value. *)
Lemma finds_around a v b h i : includes (id_attr i) (a ++ v ++ b) = true -> finds ([L a] ++ [V v] ++ [L b] ++ h) i.
Proof.
  intros Hi lang. cbn [app markup List.flat_map chunk_text]. rewrite !app_assoc in *.
  by apply includes_app_l.
Qed.
Lemma sched_ui_finds d st cu idp lang :
  idp = lit "nd" \/ idp = lit "d" -> finds (sched_ui_html d st cu idp lang) (idp ++ lit "-schedbody").
Proof. intros Hi. unfold sched_ui_html. apply finds_r, finds_around. by destruct Hi as [-> | ->]; vm_compute. Qed.
Lemma confirm_finds ti b hb d ok : Forall (finds (confirm_html ti b hb d ok)) (screen_ids (SConfirm ti b hb d ok)).
Proof. unfold confirm_html. cbn [screen_ids]. find_all. Qed.
Lemma pick_finds ti b hb os : Forall (finds (pick_html ti b hb os)) (screen_ids (SPick ti b hb os)).
Proof. unfold pick_html. cbn [screen_ids]. find_all. Qed.
Lemma login_finds e : Forall (finds (login_html e)) (screen_ids (SLogin e)).
Proof. unfold login_html. cbn [screen_ids]. find_all. Qed.
Lemma chip_finds u : Forall (finds (chip_html u)) (screen_ids (SChip u)).
Proof. unfold chip_html. cbn [screen_ids]. find_all. Qed.
Lemma archived_finds id : Forall (finds (archived_html id)) (screen_ids (SArchived id)).
Proof. unfold archived_html. cbn [screen_ids]. find_all. Qed.
Lemma tab_shell_finds st : Forall (finds (tab_shell st)) (screen_ids (STab st)).
Proof. unfold tab_shell. destruct st; cbn [screen_ids]; find_all. Qed.
Lemma new_dag_finds n : Forall (finds (new_dag_html n)) (screen_ids (SNewDag n)).
Proof.
  destruct (new_dag_find n) as (H1 & H2 & H3). cbn [screen_ids].
  apply Forall_app. split; [done|]. destruct (nd_yamlMode n); [done|]. apply Forall_app. split; [done|].
  destruct (nd_advanced n); [|constructor]. constructor; [by apply H3|constructor].
Qed.
Lemma wizard_finds today w : Forall (finds (wizard_html today w)) (screen_ids (SWizard today w)).
Proof.
  destruct (wizard_find today w) as (W1 & W2). cbn [screen_ids]. constructor; [done|].
  destruct (Nat.eqb_spec (w_step w) 2); [|constructor]. constructor; [by apply W2|constructor].
Qed.
Lemma run_screen_finds now h0 tl tis ts h :
  screen_html (SRun now h0 tl tis ts) = Some h -> Forall (finds h) run_page_ids.
Proof.
  cbn [screen_html]. destruct (graph_html _ _) as [g|]; [|done]. intros Hh%(inj Some). subst h. apply run_page_finds.
Qed.
Lemma screen_finds s h : screen_ok s -> screen_html s = Some h -> Forall (finds h) (screen_ids s).
Proof.
  destruct s; cbn [screen_html screen_ids screen_ok]; intros Hok Hh; try exact (List.Forall_nil (finds h)).
  - apply (inj Some) in Hh as <-. apply confirm_finds.
  - apply (inj Some) in Hh as <-. apply pick_finds.
  - apply (inj Some) in Hh as <-. apply chip_finds.
  - apply (inj Some) in Hh as <-. apply login_finds.
  - apply (inj Some) in Hh as <-. constructor; [by apply sched_ui_finds|constructor].
  - apply (inj Some) in Hh as <-. apply new_dag_finds.
  - apply (inj Some) in Hh as <-. apply wizard_finds.
  - apply (inj Some) in Hh as <-. constructor; [apply bulk_finds|constructor].
  - apply (inj Some) in Hh as <-. apply nv_home_finds.
  - apply (inj Some) in Hh as <-. apply archived_finds.
  - apply (inj Some) in Hh as <-. apply dag_page_finds.
  - apply (inj Some) in Hh as <-. apply tab_shell_finds.
  - exact (nv_page_finds _ _ _ _ _ _ Hh).
  - apply (inj Some) in Hh as <-. apply nv_edit_finds.
  - apply (inj Some) in Hh as <-. apply prompt_finds.
  - apply (inj Some) in Hh as <-. apply yaml_finds.
  - apply (inj Some) in Hh as <-. apply params_finds.
  - apply (inj Some) in Hh as <-. apply backfill_finds.
  - apply (inj Some) in Hh as <-. apply task_page_finds.
  - exact (run_screen_finds _ _ _ _ _ _ Hh).
  - apply (inj Some) in Hh as <-. apply actions_find.
  - apply (inj Some) in Hh as <-. apply log_panel_finds.
  - apply (inj Some) in Hh as <-. apply pools_finds.
  - apply (inj Some) in Hh as <-. apply resources_finds.
  - apply (inj Some) in Hh as <-. apply vars_tab_finds.
  - apply (inj Some) in Hh as <-. apply conns_tab_finds.
  - apply (inj Some) in Hh as <-. apply conn_dialog_finds.
  - apply (inj Some) in Hh as <-. apply groups_tab_finds.
  - apply (inj Some) in Hh as <-. apply group_dialog_finds.
  - apply (inj Some) in Hh as <-. apply audit_finds.
  - apply (inj Some) in Hh as <-. destruct admin; [apply api_finds|constructor].
  - apply (inj Some) in Hh as <-. apply reveal_token_finds.
  - apply (inj Some) in Hh as <-. apply token_dialog_finds.
  - apply (inj Some) in Hh as <-. apply reveal_worker_finds.
Qed.
(** What is not written: a novice page with a step whose name [nvTaskLabel] cannot call. *)
Definition throws (s : screen) : Prop :=
  match s with
  | SNvDag _ _ _ ts _ => Exists (fun tk => tk_id tk ∈ UNCALLABLE) ts
  | SNvSteps _ _ r defs _ tis => Exists (fun x => x.1 ∈ UNCALLABLE) (step_rows r defs tis)
  | _ => False
  end.
(** The states the graphs are coloured by are not names every object inherits. *)
Definition states_named (s : screen) : Prop :=
  match s with
  | SRun _ _ _ tis _ => Forall (fun x => in_state x ∉ proto_names) tis
  | SRelations nodes _ => Forall (fun n => rn_latest n ∉ proto_names) nodes
  | _ => True
  end.

Lemma nov_rows_None now pin tis cmd rows :
  nov_rows_html now pin tis cmd rows = None <-> Exists (fun x => x.1 ∈ UNCALLABLE) rows.
Proof.
  induction rows as [|[id x] rows IH]; simpl; [split; [done|by intros ?%Exists_nil]|].
  rewrite Exists_cons, <- IH, <- nvTaskLabel_None. simpl.
  destruct (nvTaskLabel id), (nov_rows_html _ _ _ _ rows); naive_solver.
Qed.
Lemma nil_unnamed : [] ∉ proto_names.
Proof. compute_decide. Qed.
Lemma run_states tis : Forall (fun x => in_state x ∉ proto_names) tis ->
  forall f, gv_state (run_view tis) = Some f -> forall i, f i ∉ proto_names.
Proof.
  intros Hf f [= <-] i. destruct (inst_of tis i) as [x|] eqn:Hx; [|apply nil_unnamed].
  apply find_last_In in Hx as [Hx _]. rewrite Forall_forall in Hf. by apply Hf.
Qed.
Lemma relation_states nodes : Forall (fun n => rn_latest n ∉ proto_names) nodes ->
  forall f, gv_state (relation_view nodes) = Some f -> forall i, f i ∉ proto_names.
Proof.
  intros Hf f [= <-] i. unfold state_map.
  assert (H0 : default [] ((∅ : gmap jstr jstr) !! i) ∉ proto_names) by (rewrite lookup_empty; apply nil_unnamed).
  revert H0. generalize (∅ : gmap jstr jstr). induction Hf as [|n l Hn _ IH]; intros m Hm; [done|]. simpl. apply IH.
  destruct (_ && _); [|done]. destruct (decide (rn_id n = i)) as [->|Hne]; [by rewrite lookup_insert_eq|by rewrite lookup_insert_ne].
Qed.
End screens.

(** A browser that writes dates as numbers. *)
Definition sample_host : Host := Build_Host num_str (fun _ => num_str) (fun z => z) (fun z => z) (fun _ => num_str) plain_num.
(** A name with markup in it. *)
Definition hostile : jstr := lit "'><img src=x onerror=alert(1)><script>" ++ [34%N] ++ lit " onclick=".

(** ** Properties *)

(** C7 No data can change the structure of a page or make it run a script. Whatever
    the names, commands, parameters, messages and other values are, and in either
    language, every page, dialog and fragment the console writes consists of complete,
    properly nested elements and text; none of them can carry a script, no attribute is
    an event handler; and its tags and attributes are those of the same template with
    every value left out, so that a value is text or the content of an attribute and
    nothing else. *)
Theorem screens_inert `{Host} s h : screen_ok s -> screen_html s = Some h -> inert h.
Proof. intros Hok Hh. by apply frag_inert, (screen_frag s). Qed.

Definition hostile_screen : screen := SGroupDialog (GDialog (Some hostile) hostile [Chan hostile hostile]).
Lemma screens_inert_witness :
  screen_ok hostile_screen /\ exists h, @screen_html sample_host hostile_screen = Some h /\ inert h
  /\ includes (esc hostile) (markup En h) = true /\ includes hostile (markup En h) = false.
Proof.
  split; [exact I|]. eexists. split; [reflexivity|]. split.
  - exact (@screens_inert sample_host hostile_screen _ I eq_refl).
  - split; vm_compute; reflexivity.
Defined.




(** A run whose step is called [valueOf]. *)
Definition named_valueOf : screen :=
  SNvSteps 0 None (RunDisplay.Run (lit "running") (Some 0%Z) None) [lit "extract"; lit "valueOf"] (fun _ => []) [].
