(* ===== verification/Navigation.v ===== *)
(** * Going from page to page (views.js, [loadDags], [showDag], [showTask], [showRun],
    [showPools] and the other [show] functions; base.js, [applyRoute], [setNav],
    [setLang], [setMode]; boot.js, the heartbeat)

    A page sets [view] and the address, asks the server and is drawn when the answer
    arrives; meanwhile the user may have gone elsewhere, and answers arrive in any
    order. The model keeps what the pages share: [view], the address, the breadcrumb,
    what [main] shows, and which caches hold data. A page is its name and what it was
    drawn for; its content is the matter of the other files. The tasks of a workflow
    page are those it was opened with. The pending saves a workflow page waits for
    before its request are part of the request. *)

From S2P Require Import Prelude JsCore Schedule Labels Routing.

(** ** State *)

Inductive vkey := VDags | VDag | VTask | VRun | VWizard | VPools | VResources | VGraph | VAudit | VWorkers | VApi.
#[export] Instance vkey_eq_dec : EqDecision vkey.
Proof. solve_decision. Defined.

Inductive page :=
| PHome | PWizard | PPools | PResources | PGraph | PAudit | PWorkers | PApi
| PRun (id dag : jstr)
| PDag (id : jstr) (tab : jstr)
| PTask (dag task : jstr)
| PArchived (id : jstr)
| PError.
#[export] Instance page_eq_dec : EqDecision page.
Proof. solve_decision. Defined.

(** What [main] shows, with the language and the mode it was drawn in. *)
Record drawn := Drawn { dr_lang : language; dr_nov : bool; dr_page : page }.

(** [D]: its workflow, tab, tasks and [activeTaskId]. *)
Record opened_dag := OD { od_id : jstr; od_tab : jstr; od_tasks : list jstr; od_active : option jstr }.

(** The requests a page waits for. The first two carry whether they are [startApp]'s,
    which reports a failure; [LScheds] is the second request of the novice home page;
    [LRun] carries the mode it began in, [LDag] the task of a task's address; [LBeat]
    is the heartbeat's and [LPause] the pause button's. *)
Inductive load :=
| LHome (boot : bool) | LScheds
| LPools (boot : bool) | LResources | LGraph | LAudit | LWorkers | LApi
| LRun (id : jstr) (nov : bool)
| LDag (id : jstr) (tab task : option jstr)
| LBeat | LPause.

Inductive reply := Got | GotRun (dag : jstr) | GotDag (tasks : list jstr) | Archived | Failed.

Record nav := Nav {
  n_view : vkey;
  n_addr : route;                            (** [location.hash], as a route *)
  n_crumb : language * list label;           (** the text in the breadcrumb *)
  n_screen : option drawn;
  n_loads : list load;
  n_lang : language; n_nov : bool; n_viewer : bool;
  n_dag : option opened_dag;                 (** [D] *)
  n_run : jstr;                              (** [currentRun] *)
  n_home : bool; n_res : bool; n_aud : bool; n_wk : bool; n_tok : bool;
      (** [overviewCache], [RES], [AUD], [WK], [TOKENS] hold data *)
}.

Definition set_view (v : vkey) (s : nav) : nav :=
  Nav v (n_addr s) (n_crumb s) (n_screen s) (n_loads s) (n_lang s) (n_nov s) (n_viewer s) (n_dag s) (n_run s)
    (n_home s) (n_res s) (n_aud s) (n_wk s) (n_tok s).
Definition set_addr (r : route) (s : nav) : nav :=
  Nav (n_view s) r (n_crumb s) (n_screen s) (n_loads s) (n_lang s) (n_nov s) (n_viewer s) (n_dag s) (n_run s)
    (n_home s) (n_res s) (n_aud s) (n_wk s) (n_tok s).
Definition set_crumb (l : list label) (s : nav) : nav :=
  Nav (n_view s) (n_addr s) (n_lang s, l) (n_screen s) (n_loads s) (n_lang s) (n_nov s) (n_viewer s) (n_dag s) (n_run s)
    (n_home s) (n_res s) (n_aud s) (n_wk s) (n_tok s).
(** [main.innerHTML = ...], in the mode [nov] *)
Definition draw_in (nov : bool) (p : page) (s : nav) : nav :=
  Nav (n_view s) (n_addr s) (n_crumb s) (Some (Drawn (n_lang s) nov p)) (n_loads s) (n_lang s) (n_nov s) (n_viewer s)
    (n_dag s) (n_run s) (n_home s) (n_res s) (n_aud s) (n_wk s) (n_tok s).
Definition draw (p : page) (s : nav) : nav := draw_in (n_nov s) p s.
Definition set_loads (q : list load) (s : nav) : nav :=
  Nav (n_view s) (n_addr s) (n_crumb s) (n_screen s) q (n_lang s) (n_nov s) (n_viewer s) (n_dag s) (n_run s)
    (n_home s) (n_res s) (n_aud s) (n_wk s) (n_tok s).
Definition ask (l : load) (s : nav) : nav := set_loads (n_loads s ++ [l]) s.
Definition set_prefs (lang : language) (nov : bool) (s : nav) : nav :=
  Nav (n_view s) (n_addr s) (n_crumb s) (n_screen s) (n_loads s) lang nov (n_viewer s) (n_dag s) (n_run s)
    (n_home s) (n_res s) (n_aud s) (n_wk s) (n_tok s).
Definition set_D (d : option opened_dag) (s : nav) : nav :=
  Nav (n_view s) (n_addr s) (n_crumb s) (n_screen s) (n_loads s) (n_lang s) (n_nov s) (n_viewer s) d (n_run s)
    (n_home s) (n_res s) (n_aud s) (n_wk s) (n_tok s).
Definition set_run (r : jstr) (s : nav) : nav :=
  Nav (n_view s) (n_addr s) (n_crumb s) (n_screen s) (n_loads s) (n_lang s) (n_nov s) (n_viewer s) (n_dag s) r
    (n_home s) (n_res s) (n_aud s) (n_wk s) (n_tok s).
Definition set_caches (home res aud wk tok : bool) (s : nav) : nav :=
  Nav (n_view s) (n_addr s) (n_crumb s) (n_screen s) (n_loads s) (n_lang s) (n_nov s) (n_viewer s) (n_dag s) (n_run s)
    home res aud wk tok.

(** ** Drawing *)

(** The breadcrumb of a page that has its own name, as [setNav] words it. *)
Definition page_title (r : route) (nov : bool) : list label :=
  match r with
  | RPools => [Raw (lit "Pools")]
  | RGraph => [T (lit "graph_title") []]
  | RResources => [T (if nov then lit "nv_shared" else lit "nav_resources") []]
  | RAudit => [T (lit "nav_audit") []]
  | RWorkers => [T (lit "nav_workers") []]
  | RApi => [T (lit "nav_api") []]
  | RNew => [T (lit "wz_crumb") []]
  | RDag id _ => [Raw id]
  | RTask d k => [Raw d; Raw (lit " / "); Raw k]
  | RDags | RRun _ => [T (if nov then lit "nv_myflows" else lit "nav_dags") []]
  end.
Definition setNav (r : route) (s : nav) : nav := set_crumb (page_title r (n_nov s)) s.

(** The pages that check [view] before they draw. *)
Definition renderDags (s : nav) : nav :=
  if bool_decide (n_view s = VDags) && n_home s then draw PHome s else s.
Definition renderResources (s : nav) : nav :=
  if bool_decide (n_view s = VResources) && n_res s then draw PResources s else s.
Definition renderAudit (s : nav) : nav :=
  if bool_decide (n_view s = VAudit) && n_aud s then draw PAudit s else s.
Definition renderWorkers (s : nav) : nav :=
  if bool_decide (n_view s = VWorkers) && n_wk s then draw PWorkers s else s.
Definition renderApi (s : nav) : nav :=
  if bool_decide (n_view s = VApi) && n_tok s then draw PApi s else s.
(** And one that does not. *)
Definition renderDagPage (s : nav) : nav :=
  match n_dag s with Some d => draw (PDag (od_id d) (od_tab d)) s | None => s end.

(** ** The [show] functions, up to their first request *)

Definition loadDags (boot : bool) (s : nav) : nav :=
  ask (LHome boot) (set_addr RDags (setNav RDags (set_view VDags s))).
Definition showWizard (s : nav) : nav :=
  if n_viewer s then loadDags false s
  else draw PWizard (set_addr RNew (setNav RNew (set_view VWizard s))).
Definition showPools (boot : bool) (s : nav) : nav :=
  ask (LPools boot) (set_addr RPools (setNav RPools (set_view VPools s))).
Definition showResources (s : nav) : nav :=
  ask LResources (set_addr RResources (setNav RResources (set_view VResources s))).
Definition showGraph (s : nav) : nav := ask LGraph (set_addr RGraph (setNav RGraph (set_view VGraph s))).
Definition showAudit (s : nav) : nav := ask LAudit (set_addr RAudit (setNav RAudit (set_view VAudit s))).
Definition showWorkers (s : nav) : nav :=
  if n_nov s then loadDags false s
  else ask LWorkers (set_addr RWorkers (setNav RWorkers (set_view VWorkers s))).
Definition showApi (s : nav) : nav := ask LApi (set_addr RApi (setNav RApi (set_view VApi s))).
(** [showRun], [showRunNovice] *)
Definition showRun (id : jstr) (s : nav) : nav :=
  ask (LRun id (n_nov s)) (set_addr (RRun id) (set_run id (set_view VRun s))).
(** The tab of an address: the runs tab has none. *)
Definition addr_tab (tab : option jstr) : option jstr :=
  match tab with
  | Some tb => if truthy tb && negb (bool_decide (tb = lit "runs")) then Some tb else None
  | None => None
  end.
Definition showDag (id : jstr) (tab task : option jstr) (s : nav) : nav :=
  ask (LDag id tab task) (set_addr (RDag id (addr_tab tab)) s).

(** [applyRoute] *)
Definition applyRoute (boot : bool) (r : route) (s : nav) : nav :=
  match r with
  | RDags => loadDags boot s
  | RNew => showWizard s
  | RPools => showPools boot s
  | RResources => showResources s
  | RGraph => showGraph s
  | RAudit => showAudit s
  | RWorkers => showWorkers s
  | RApi => showApi s
  | RRun id => showRun id s
  | RDag id tab => showDag id tab None s
  | RTask d k => showDag d None (Some k) s
  end.

(** [setDagHash] *)
Definition setDagHash (d : opened_dag) (s : nav) : nav :=
  set_addr (RDag (od_id d) (if bool_decide (od_tab d = lit "runs") then None else Some (od_tab d))) s.
Definition gotoDagPage (s : nav) : nav :=
  match n_dag s with
  | None => loadDags false s
  | Some d => renderDagPage (setNav (RDag (od_id d) None) (setDagHash d (set_view VDag s)))
  end.
Definition renderTaskPage (s : nav) : nav :=
  match n_dag s with
  | None => loadDags false s
  | Some d =>
    match od_active d with
    | Some k => if bool_decide (k ∈ od_tasks d) then draw (PTask (od_id d) k) s else showDag (od_id d) None None s
    | None => showDag (od_id d) None None s
    end
  end.
Definition showTask (d : opened_dag) (k : jstr) (s : nav) : nav :=
  renderTaskPage (setNav (RTask (od_id d) k) (set_addr (RTask (od_id d) k)
    (set_D (Some (OD (od_id d) (lit "structure") (od_tasks d) (Some k))) (set_view VTask s)))).

(** ** The answers *)

(** The tab a workflow opens on. *)
Definition first_tab (tab : option jstr) (tasks : list jstr) : jstr :=
  match tab with
  | Some tb => if bool_decide (tb = lit "structure") || bool_decide (tb = lit "settings") then tb
               else if bool_decide (tb = lit "runs") || negb (bool_decide (tasks = [])) then lit "runs" else lit "structure"
  | None => if bool_decide (tasks = []) then lit "structure" else lit "runs"
  end.

(** [showDag] once its requests are answered; a task's address goes on to its page
    when the workflow has the task. *)
Definition dag_answer (id : jstr) (tab task : option jstr) (a : reply) (s : nav) : nav :=
  match a with
  | GotDag tasks =>
    let d := OD id (first_tab tab tasks) tasks None in
    let s1 := renderDagPage (setNav (RDag id None) (setDagHash d (set_view VDag (set_D (Some d) s)))) in
    match task with
    | Some k => if bool_decide (k ∈ tasks) then showTask d k s1 else s1
    | None => s1
    end
  | _ =>
    draw (match a with Archived => PArchived id | _ => PError end) (setNav (RDag id None) (set_view VDag (set_D None s)))
  end.

(** The rest of a page's function; [Failed] of the heartbeat is also the answer that
    nothing has changed. *)
Definition answer (l : load) (a : reply) (s : nav) : nav :=
  match l, a with
  | LHome boot, Failed | LPools boot, Failed => if boot then draw PError s else s
  | LHome _, _ =>
    let s1 := set_caches true (n_res s) (n_aud s) (n_wk s) (n_tok s) s in
    if n_nov s then ask LScheds s1 else renderDags s1
  | LScheds, _ => renderDags s
  | LPools _, _ => draw PPools s
  | LResources, Failed | LGraph, Failed | LAudit, Failed | LApi, Failed => draw PError s
  | LWorkers, Failed => draw PError (set_caches (n_home s) (n_res s) (n_aud s) false (n_tok s) s)
  | LResources, _ => renderResources (set_caches (n_home s) true (n_aud s) (n_wk s) (n_tok s) s)
  | LGraph, _ => draw PGraph s
  | LAudit, _ => renderAudit (set_caches (n_home s) (n_res s) true (n_wk s) (n_tok s) s)
  | LWorkers, _ => renderWorkers (set_caches (n_home s) (n_res s) (n_aud s) true (n_tok s) s)
  | LApi, _ => renderApi (set_caches (n_home s) (n_res s) (n_aud s) (n_wk s) true s)
  | LRun id nov, GotRun dag => draw_in nov (PRun id dag) (set_crumb [Raw dag; Raw (lit " / "); T (lit "run_word") []] s)
  | LRun _ nov, _ => draw_in nov PError s
  | LDag id tab task, _ => dag_answer id tab task a s
  | LBeat, Failed => s
  | LBeat, _ => renderDags (set_caches true (n_res s) (n_aud s) (n_wk s) (n_tok s) s)
  | LPause, Failed => s
  | LPause, _ => renderDagPage s
  end.
(** The answers a request can have. *)
Definition answers (l : load) (a : reply) : bool :=
  match a with
  | Failed => true
  | Got => match l with LRun _ _ | LDag _ _ _ => false | _ => true end
  | GotRun _ => match l with LRun _ _ => true | _ => false end
  | GotDag _ | Archived => match l with LDag _ _ _ => true | _ => false end
  end.

(** ** Language and mode *)

Definition setLang (l : language) (s0 : nav) : nav :=
  let s := set_prefs l (n_nov s0) s0 in
  match n_view s with
  | VDags => renderDags (setNav RDags s)
  | VDag => renderDagPage s
  | VTask => renderTaskPage s
  | VRun => showRun (n_run s) s
  | VWizard => draw PWizard s
  | VPools => showPools false s
  | VResources => renderResources s
  | VGraph => showGraph s
  | VAudit => renderAudit s
  | VWorkers => renderWorkers (setNav RWorkers s)
  | VApi => renderApi s
  end.
Definition setMode (nov : bool) (s : nav) : nav :=
  if bool_decide (n_nov s = nov) then s else applyRoute false (n_addr s) (set_prefs (n_lang s) nov s).

(** ** Events *)

Inductive nav_event :=
| Go (r : route)          (** a [show] function is called, by a link or after a request *)
| Address (r : route)     (** Back, Forward or a typed address: [hashchange] *)
| ClickTab (tab : jstr) | ClickTask (k : jstr) | ClickPause   (** on a workflow's page *)
| ClickBack                                                   (** on a task's page *)
| Answer (n : nat) (a : reply)
| Beat
| Lang (l : language) | Mode (nov : bool).

Definition nav_step (e : nav_event) (s : nav) : option nav :=
  match e with
  | Go (RTask _ _) => None
  | Go r => Some (applyRoute false r s)
  | Address r => Some (applyRoute false r (set_addr r s))
  | ClickTab tab =>
    match n_dag s, dr_page <$> n_screen s with
    | Some d, Some (PDag _ _) =>
      if bool_decide (tab ∈ [lit "runs"; lit "structure"; lit "settings"]) && negb (bool_decide (tab = od_tab d)) then
        let d' := OD (od_id d) tab (od_tasks d) (od_active d) in
        Some (renderDagPage (setDagHash d' (set_D (Some d') s)))
      else None
    | _, _ => None
    end
  | ClickTask k =>
    match n_dag s, dr_page <$> n_screen s with
    | Some d, Some (PDag _ _) => if bool_decide (k ∈ od_tasks d) then Some (showTask d k s) else None
    | _, _ => None
    end
  | ClickPause =>
    match dr_page <$> n_screen s with Some (PDag _ _) => Some (ask LPause s) | _ => None end
  | ClickBack =>
    match dr_page <$> n_screen s with Some (PTask _ _) => Some (gotoDagPage s) | _ => None end
  | Answer n a =>
    match n_loads s !! n with
    | Some l => if answers l a then Some (answer l a (set_loads (delete n (n_loads s)) s)) else None
    | None => None
    end
  | Beat => if bool_decide (n_view s = VDags) then Some (ask LBeat s) else None
  | Lang l => Some (setLang l s)
  | Mode nov => Some (setMode nov s)
  end.
Fixpoint nav_run (es : list nav_event) (s : nav) : option nav :=
  match es with
  | [] => Some s
  | e :: es' => match nav_step e s with Some s' => nav_run es' s' | None => None end
  end.

(** [startApp] at the address [r]; [home]: [resolveMode] has asked for the overview. *)
Definition nav_boot (r : route) (lang : language) (nov viewer home : bool) : nav :=
  applyRoute true r
    (Nav VDags r (lang, []) None [] lang nov viewer None [] home false false false false).

(** ** Agreement *)

Definition view_of (r : route) : vkey :=
  match r with
  | RDags => VDags | RNew => VWizard | RPools => VPools | RResources => VResources | RGraph => VGraph
  | RAudit => VAudit | RWorkers => VWorkers | RApi => VApi | RRun _ => VRun | RDag _ _ => VDag | RTask _ _ => VTask
  end.
(** The pages an address can show. *)
Definition fits (r : route) (p : page) : Prop :=
  match r, p with
  | RDags, PHome | RNew, PWizard | RPools, PPools | RResources, PResources | RGraph, PGraph | RAudit, PAudit
  | RWorkers, PWorkers | RApi, PApi => True
  | RRun id, PRun id' _ => id = id'
  | RDag id tab, PDag id' tab' => id = id' /\ tab = if bool_decide (tab' = lit "runs") then None else Some tab'
  | RDag id _, PArchived id' => id = id'
  | RTask d k, PTask d' k' => d = d' /\ k = k'
  | (RNew | RTask _ _), PError => False
  | _, PError => True
  | _, _ => False
  end.
(** The data the page was drawn from is still there. *)
Definition loaded (s : nav) (p : page) : Prop :=
  match p with
  | PHome => n_home s = true | PResources => n_res s = true | PAudit => n_aud s = true
  | PWorkers => n_wk s = true | PApi => n_tok s = true
  | PDag id tab => exists d, n_dag s = Some d /\ od_id d = id /\ od_tab d = tab
  | PTask id k => exists d, n_dag s = Some d /\ od_id d = id /\ od_active d = Some k /\ k ∈ od_tasks d
  | PArchived _ => n_dag s = None
  | PError => match n_addr s with RDag _ _ => n_dag s = None | _ => True end
  | _ => True
  end.
(** The page on screen is the address's, in the mode and, unless it is an error or an
    archived workflow, the language of the console. *)
Record agree (s : nav) : Prop := {
  agree_view : n_view s = view_of (n_addr s);
  agree_page : exists d, n_screen s = Some d /\ fits (n_addr s) (dr_page d) /\ loaded s (dr_page d) /\
    dr_nov d = n_nov s /\
    (dr_lang d = n_lang s \/ dr_page d = PError \/ exists i, dr_page d = PArchived i);
}.

(** The address's own request. *)
Definition load_addr (l : load) : option route :=
  match l with
  | LHome _ | LScheds => Some RDags
  | LPools _ => Some RPools | LResources => Some RResources | LGraph => Some RGraph | LAudit => Some RAudit
  | LWorkers => Some RWorkers | LApi => Some RApi
  | LRun id _ => Some (RRun id)
  | LDag id tab _ => Some (RDag id (addr_tab tab))
  | LBeat | LPause => None
  end.
Definition own (s : nav) (l : load) : bool :=
  bool_decide (load_addr l = Some (n_addr s)) && match l with LRun _ nov => Bool.eqb nov (n_nov s) | _ => true end.
Definition own_pending (s : nav) : bool := existsb (own s) (n_loads s).

(** An answer is drawn whatever is on screen, without setting the address. *)
Definition blind (l : load) (a : reply) (s : nav) : bool :=
  match l, a with
  | LHome boot, Failed => boot
  | LPools boot, Failed => boot
  | LPools _, _ | LGraph, _ | LRun _ _, _ => true
  | (LResources | LAudit | LWorkers | LApi), Failed => true
  | LPause, Got => negb (bool_decide (n_view s = VDag))
  | _, _ => false
  end.
(** A failure that nothing reports. *)
Definition silent (l : load) (a : reply) : bool :=
  match l, a with LHome false, Failed | LPools false, Failed => true | _, _ => false end.

(** An answer does no harm when it is the page's own and not a silent failure, when
    the page's own is still to come, or when it is not drawn blindly; a workflow that
    cannot be opened must be the address's. *)
Definition fine (s : nav) (n : nat) (l : load) (a : reply) : bool :=
  let rest := existsb (own s) (delete n (n_loads s)) in
  match l, a with
  | LDag _ _ _, (Archived | Failed) => own s l
  | _, _ => rest || (if own s l then negb (silent l a) else negb (blind l a s))
  end.
(** No answer does harm, and the buttons of a workflow's page are used while it is the
    view's. *)
Definition harmless (e : nav_event) (s : nav) : bool :=
  match e with
  | Answer n a => match n_loads s !! n with Some l => fine s n l a | None => true end
  | ClickTab _ => bool_decide (n_view s = VDag)
  | _ => true
  end.
Fixpoint all_steps (P : nav_event -> nav -> bool) (es : list nav_event) (s : nav) : bool :=
  match es with
  | [] => true
  | e :: es' => P e s && match nav_step e s with Some s' => all_steps P es' s' | None => true end
  end.

(** ** Invariant *)

Record nav_inv (s : nav) : Prop := {
  inv_view : match n_addr s with RDag _ _ => own_pending s = true \/ n_view s = VDag | r => n_view s = view_of r end;
  inv_page : own_pending s = true \/ agree s;
  inv_scheds : LScheds ∈ n_loads s -> n_home s = true;
}.

Lemma own_ask l s : own s l = true -> own_pending (ask l s) = true.
Proof.
  intros H. unfold own_pending, ask, set_loads. cbn. rewrite List.existsb_app. cbn.
  change (own (Nav _ _ _ _ _ _ _ _ _ _ _ _ _ _ _) l) with (own s l). rewrite H. by rewrite orb_true_r.
Qed.
(** A page that asks for its own data. *)
Lemma asked_inv l s :
  own s l = true -> (n_view s = view_of (n_addr s) \/ exists i t, n_addr s = RDag i t) ->
  (l = LScheds -> n_home s = true) -> (LScheds ∈ n_loads s -> n_home s = true) -> nav_inv (ask l s).
Proof.
  intros H Hv Hl Hs. pose proof (own_ask _ _ H) as Ho. split; [|by left|].
  - cbn. destruct Hv as [Hv|(i & t & ->)]; [|by left]. destruct (n_addr s); try done. by left.
  - cbn. intros Hin%elem_of_app. destruct Hin as [Hin|Hin%list_elem_of_singleton]; auto.
Qed.
Lemma own_refl s l : load_addr l = Some (n_addr s) -> (forall i nov, l = LRun i nov -> nov = n_nov s) -> own s l = true.
Proof.
  intros H Hn. unfold own. rewrite bool_decide_true by done. destruct l; try done. cbn.
  rewrite (Hn _ _ eq_refl). by destruct (n_nov s).
Qed.

Section Shows.
Context (s : nav) (Hs : LScheds ∈ n_loads s -> n_home s = true).

Lemma loadDags_inv boot : nav_inv (loadDags boot s).
Proof. apply asked_inv; [by apply own_refl|by left|done|done]. Qed.
Lemma nav_showRun_inv id : nav_inv (showRun id s).
Proof. apply asked_inv; [apply own_refl; [done|by intros ? ? [= _ <-]]|by left|done|done]. Qed.
Lemma showDag_inv id tab task : nav_inv (showDag id tab task s).
Proof. apply asked_inv; [by apply own_refl|right; eauto|done|done]. Qed.
Lemma showPools_inv boot : nav_inv (showPools boot s).
Proof. apply asked_inv; [by apply own_refl|by left|done|done]. Qed.
Lemma showGraph_inv : nav_inv (showGraph s).
Proof. apply asked_inv; [by apply own_refl|by left|done|done]. Qed.
Lemma applyRoute_inv boot r : nav_inv (applyRoute boot r s).
Proof.
  destruct r; cbn;
    eauto using loadDags_inv, nav_showRun_inv, showDag_inv, showPools_inv, showGraph_inv;
    try (apply asked_inv; [by apply own_refl|by left|done|done]).
  - unfold showWizard. destruct (n_viewer s); [apply loadDags_inv|]. split; [done| |done].
    right. split; [done|]. eexists. split; [done|]. cbn. repeat split; auto.
  - unfold showWorkers. destruct (n_nov s); [apply loadDags_inv|].
    apply asked_inv; [by apply own_refl|by left|done|done].
Qed.
End Shows.

Definition scheds_ok (s : nav) : Prop := LScheds ∈ n_loads s -> n_home s = true.
Lemma agree_inv s : agree s -> scheds_ok s -> nav_inv s.
Proof.
  intros Ha Hs. split; [|by right|done]. rewrite (agree_view _ Ha). destruct (n_addr s) eqn:E; try done.
  right. done.
Qed.
(** Another request, of whatever page. *)
Lemma ask_inv l s : nav_inv s -> (l = LScheds -> n_home s = true) -> nav_inv (ask l s).
Proof.
  intros [Hv Hp Hs] Hl.
  assert (Ho : own_pending s = true -> own_pending (ask l s) = true).
  { intros H. unfold own_pending, ask, set_loads. cbn. rewrite List.existsb_app.
    change (existsb (own (Nav _ _ _ _ _ _ _ _ _ _ _ _ _ _ _)) (n_loads s)) with (own_pending s). by rewrite H. }
  split.
  - cbn. destruct (n_addr s); try done. destruct Hv; auto.
  - destruct Hp as [?|[? (d & ? & ? & ? & ?)]]; [left; auto|right]. split; [done|]. by exists d.
  - cbn. intros Hin%elem_of_app. destruct Hin as [Hin|Hin%list_elem_of_singleton]; auto.
Qed.
(** Drawing while the page's own request is open. *)
Lemma draw_pending nov p s : nav_inv s -> own_pending s = true -> nav_inv (draw_in nov p s).
Proof. intros [Hv _ Hs] Ho. split; [exact Hv|by left|exact Hs]. Qed.

(** A page that checks [view]: *)
Definition checked (r : route) (p : page) : Prop :=
  match r, p with
  | RDags, PHome | RResources, PResources | RAudit, PAudit | RWorkers, PWorkers | RApi, PApi => True
  | _, _ => False
  end.
Lemma checked_inv r p (cache : bool) s :
  checked r p -> (cache = true -> loaded s p) -> scheds_ok s ->
  (nav_inv s \/ n_addr s = r /\ n_view s = view_of r /\ cache = true) ->
  nav_inv (if bool_decide (n_view s = view_of r) && cache then draw p s else s).
Proof.
  intros Hc Hl Hs H.
  assert (Hown : n_addr s = r -> n_view s = view_of r -> cache = true -> nav_inv (draw p s)).
  { intros Ha Hv Hcache. apply agree_inv; [|exact Hs]. split; [cbn; congruence|].
    eexists. split; [done|]. cbn -[loaded]. rewrite Ha. split_and!; [|by auto|done|by left].
    destruct r, p; try done. }
  destruct H as [Hi|(Ha & Hv & Hcache)].
  - case_bool_decide as Hv; [|done]. destruct cache eqn:Hcache; [|done]. cbn.
    destruct (decide (n_addr s = r)) as [|Hne]; [by auto|].
    apply draw_pending; [done|]. pose proof (inv_view _ Hi) as Hw.
    destruct (n_addr s), r, p; try done; try congruence; cbn in *; first [congruence|destruct Hw; congruence].
  - rewrite bool_decide_true, Hcache by done. cbn. auto.
Qed.

Lemma goto_inv s : scheds_ok s -> nav_inv (gotoDagPage s).
Proof.
  intros Hs. unfold gotoDagPage. destruct (n_dag s) as [d|] eqn:E; [|by apply loadDags_inv].
  unfold renderDagPage. cbn. rewrite E. apply agree_inv; [|done]. split; [done|].
  eexists. split; [done|]. cbn. rewrite E. split_and!; eauto.
Qed.
Lemma renderTaskPage_inv s :
  (forall d k, n_dag s = Some d -> od_active d = Some k -> n_addr s = RTask (od_id d) k /\ n_view s = VTask) ->
  scheds_ok s -> nav_inv (renderTaskPage s).
Proof.
  intros Ha Hs. unfold renderTaskPage. destruct (n_dag s) as [d|] eqn:E; [|by apply loadDags_inv].
  destruct (od_active d) as [k|] eqn:Ek; [|by apply showDag_inv].
  case_bool_decide; [|by apply showDag_inv]. destruct (Ha _ _ eq_refl Ek) as [Hr Hv].
  apply agree_inv; [|done]. split; [cbn; by rewrite Hr, Hv|]. eexists. split; [done|]. cbn. rewrite Hr, E.
  split_and!; [done|by eauto 6|done|by left].
Qed.
Lemma showTask_inv d k s : scheds_ok s -> nav_inv (showTask d k s).
Proof. intros Hs. apply renderTaskPage_inv; [|done]. cbn. intros ? ? [= <-] [= <-]. done. Qed.
Lemma nav_opened_inv id tab task tasks s : scheds_ok s -> nav_inv (dag_answer id tab task (GotDag tasks) s).
Proof.
  intros Hs. unfold dag_answer. set (s1 := renderDagPage _).
  assert (H1 : nav_inv s1).
  { apply agree_inv; [|done]. split; [done|]. eexists. split; [done|]. cbn. split_and!; eauto. }
  destruct task as [k|]; [|done]. case_bool_decide; [|done]. by apply showTask_inv.
Qed.

(** ** Answers keep the invariant *)

Lemma existsb_delete {A} (f : A -> bool) (l : list A) n x :
  l !! n = Some x -> existsb f l = f x || existsb f (delete n l).
Proof.
  revert n. induction l as [|y l IH]; intros [|n] H; try done; cbn in *.
  - by injection H as ->.
  - rewrite (IH _ H). by destruct (f x), (f y).
Qed.

Section Answers.
Context (s : nav) (n : nat) (l : load) (Hi : nav_inv s) (Hn : n_loads s !! n = Some l).
Let s0 := set_loads (delete n (n_loads s)) s.

Lemma rest_pending : own_pending s = own s l || own_pending s0.
Proof. exact (existsb_delete (own s) _ _ _ Hn). Qed.
Lemma rest_scheds : scheds_ok s0.
Proof. intros Hin. apply (inv_scheds _ Hi). cbn in Hin. exact (list_elem_of_delete_inv _ _ _ Hin). Qed.
Lemma rest_inv : own s l = false \/ own_pending s0 = true -> nav_inv s0.
Proof.
  intros H. pose proof rest_pending as Hp. split; [|..|exact rest_scheds].
  - pose proof (inv_view _ Hi) as Hv. cbn. destruct (n_addr s); try done.
    destruct Hv as [Hv|?]; [left|by right]. rewrite Hp in Hv. destruct H as [H|?]; [by rewrite H in Hv|done].
  - destruct (inv_page _ Hi) as [Ho|Ha].
    + left. rewrite Hp in Ho. destruct H as [H|?]; [by rewrite H in Ho|done].
    + right. destruct Ha as [Hv (d & ? & ? & ? & ?)]. split; [done|]. exists d. done.
Qed.
End Answers.

Lemma caches_inv home res aud wk tok s :
  (n_home s = true -> home = true) -> (n_res s = true -> res = true) -> (n_aud s = true -> aud = true) ->
  (n_wk s = true -> wk = true) -> (n_tok s = true -> tok = true) ->
  nav_inv s -> nav_inv (set_caches home res aud wk tok s).
Proof.
  intros H1 H2 H3 H4 H5 [Hv Hp Hs]. split; [exact Hv| |cbn; auto].
  destruct Hp as [Ho|[Ha (d & ? & ? & Hl & ? & ?)]]; [by left|right]. split; [done|]. exists d.
  split_and!; try done. destruct (dr_page d); cbn in *; auto.
Qed.

Lemma own_addr s l r : own s l = true -> load_addr l = Some r -> n_addr s = r.
Proof. intros [Ho _]%andb_true_iff. apply bool_decide_eq_true in Ho. congruence. Qed.
(** An answer drawn without a check. *)
Lemma drawn_inv nov p s :
  scheds_ok s -> (nav_inv s /\ own_pending s = true \/
    n_view s = view_of (n_addr s) /\ nov = n_nov s /\ fits (n_addr s) p /\ loaded s p) -> nav_inv (draw_in nov p s).
Proof.
  intros Hs [[Hi Ho]|(Hv & -> & Hf & Hl)]; [by apply draw_pending|].
  apply agree_inv; [|exact Hs]. split; [done|]. eexists. split; [done|]. cbn -[loaded]. split_and!; [done| |done|by left].
  destruct p; exact Hl.
Qed.

Section Answered.
Context (s : nav) (n : nat) (l : load) (a : reply) (Hi : nav_inv s) (Hn : n_loads s !! n = Some l).
Context (Hf : fine s n l a = true).
Let s0 := set_loads (delete n (n_loads s)) s.

(** Either the rest is as before, or the answer is the page's own and not silent. *)
Lemma answer_cases :
  nav_inv s0 /\ (own_pending s0 = true \/ blind l a s = false) \/ own s l = true /\ silent l a = false.
Proof.
  pose proof (rest_inv s n l Hi Hn) as Hr. pose proof Hf as Hf'. unfold fine in Hf'. fold s0 in Hr.
  assert (H : own s l = true /\ silent l a = false \/
              (own_pending s0 || (if own s l then negb (silent l a) else negb (blind l a s)) = true)).
  { destruct l, a; try (right; exact Hf'); left; done. }
  destruct H as [H|H]; [by right|]. apply orb_true_iff in H as [H|H]; [left; auto|].
  destruct (own s l) eqn:Eo; [right|left].
  - by apply negb_true_iff in H.
  - apply negb_true_iff in H. auto.
Qed.

Lemma own_cases :
  nav_inv s0 /\ (own_pending s0 = true \/ blind l a s = false) \/
  silent l a = false /\ (forall r, load_addr l = Some r -> n_addr s0 = r) /\
    (match load_addr l with Some (RDag _ _) => True | _ => n_view s0 = view_of (n_addr s0) end).
Proof.
  destruct answer_cases as [?|[Ho Hs]]; [by left|right]. split; [done|]. split.
  - intros r Hr. exact (own_addr _ _ _ Ho Hr).
  - destruct (load_addr l) as [r|] eqn:Hr; [|exfalso; unfold own in Ho; rewrite Hr in Ho; by rewrite andb_false_l in Ho].
    pose proof (own_addr _ _ _ Ho Hr) as Hx. pose proof (inv_view _ Hi) as Hv. cbn. rewrite Hx in Hv |- *.
    by destruct r.
Qed.

(** The pages that check [view]. *)
Lemma answer_checked r p home res aud wk tok (cache : nav -> bool) :
  load_addr l = Some r \/ load_addr l = None -> checked r p ->
  (n_home s0 = true -> home = true) -> (n_res s0 = true -> res = true) -> (n_aud s0 = true -> aud = true) ->
  (n_wk s0 = true -> wk = true) -> (n_tok s0 = true -> tok = true) ->
  let s1 := set_caches home res aud wk tok s0 in
  cache s1 = true -> loaded s1 p ->
  nav_inv (if bool_decide (n_view s1 = view_of r) && cache s1 then draw p s1 else s1).
Proof.
  intros Hr Hc H1 H2 H3 H4 H5 s1 Hcache Hl.
  apply checked_inv; [done|done|intros Hin; cbn; apply H1; exact (rest_scheds s n Hi Hin)|].
  destruct Hr as [Hr|Hr].
  - destruct own_cases as [[? _]|(_ & Hr' & Hv)]; [left; by apply caches_inv|right].
    specialize (Hr' _ Hr). rewrite Hr in Hv. cbn. split; [exact Hr'|]. split; [|done].
    rewrite Hr' in Hv. by destruct r, p.
  - left. apply caches_inv; try done.
    destruct answer_cases as [[? _]|[Ho _]]; [done|]. unfold own in Ho. by rewrite Hr in Ho.
Qed.

(** The pages drawn without a check. *)
Lemma answer_drawn nov p :
  blind l a s = true -> (own s l = true -> nov = n_nov s) ->
  (forall r, load_addr l = Some r -> fits r p /\ match r with RDag _ _ => False | _ => n_addr s0 = r -> loaded s0 p end) ->
  nav_inv (draw_in nov p s0).
Proof.
  intros Hb Hnov Hp. apply drawn_inv; [exact (rest_scheds s n Hi)|].
  destruct answer_cases as [[? [?|?]]|[Ho _]]; [left; auto|congruence|].
  destruct own_cases as [[? [?|?]]|(_ & Hr & Hv)]; [left; auto|congruence|right].
  destruct (load_addr l) as [r|] eqn:Er; [|unfold own in Ho; by rewrite Er in Ho].
  specialize (Hr _ eq_refl). destruct (Hp _ eq_refl) as [Hfit Hnd].
  split_and!; [by destruct r|cbn; auto|by rewrite Hr|destruct r; auto; done].
Qed.
End Answered.

(** Closes the case of an answer drawn without a check. *)
Ltac drawn_here s n Hi Hn Hf :=
  apply (answer_drawn s n _ _ Hi Hn Hf); [done|done|intros ? [= <-]; split; [done|try done; cbn; by intros ->]].

Lemma crumb_inv c s : nav_inv s -> nav_inv (set_crumb c s).
Proof.
  intros [Hv Hp Hs]. split; [exact Hv| |exact Hs].
  destruct Hp as [?|[? (d & ? & ? & ? & ?)]]; [by left|right]. split; [done|]. by exists d.
Qed.
Lemma redraw_inv s : nav_inv s -> own_pending s = true \/ n_view s = VDag -> nav_inv (renderDagPage s).
Proof.
  intros Hi H. unfold renderDagPage. destruct (n_dag s) as [d|] eqn:Ed; [|done].
  destruct (own_pending s) eqn:Ho; [by apply draw_pending|]. destruct H as [?|Hv]; [done|].
  destruct (inv_page _ Hi) as [?|[Hw (x & _ & Hf & Hl & _ & _)]]; [congruence|].
  apply agree_inv; [|exact (inv_scheds _ Hi)]. split; [done|]. eexists. split; [done|]. cbn.
  rewrite Hv in Hw. destruct (n_addr s) as [| | | | | | | | |id tab|] eqn:Ea; try done.
  destruct (dr_page x); try done; cbn in Hf, Hl.
  - destruct Hl as (d' & [= <-]%(eq_trans (eq_sym Ed)) & Hid & Htab). destruct Hf as [-> ->]. subst. by split_and!; eauto.
  - congruence.
  - rewrite Ea in Hl. congruence.
Qed.
(** A workflow that is archived or cannot be had. *)
Lemma nav_closed_inv a tab id s t k :
  n_addr s = RDag id tab -> a = Archived \/ a = Failed -> scheds_ok s -> nav_inv (dag_answer id t k a s).
Proof.
  intros Ha Hx Hs.
  destruct Hx as [-> | ->]; (apply agree_inv; [|exact Hs]; split; [cbn; by rewrite Ha|]; eexists; split; [done|];
    cbn; rewrite Ha; by split_and!; eauto).
Qed.

Lemma nav_answer_inv s n l a :
  nav_inv s -> n_loads s !! n = Some l -> answers l a = true -> fine s n l a = true ->
  nav_inv (answer l a (set_loads (delete n (n_loads s)) s)).
Proof.
  intros Hi Hn Ha Hf. pose proof (answer_cases s n l a Hi Hn Hf) as Hc.
  pose proof (own_cases s n l a Hi Hn Hf) as Hoc.
  pose proof (rest_scheds s n Hi) as Hs. set (s0 := set_loads _ s) in *.
  destruct l as [boot| |boot| | | | | |id nov|id tab task| |].
  - destruct a; try done; cbn [answer].
    + destruct (n_nov s0) eqn:Enov.
      * destruct Hc as [[? _]|[Ho _]]; [apply ask_inv; [by apply caches_inv|done]|].
        destruct Hoc as [[? _]|(_ & Hr & Hv)]; [apply ask_inv; [by apply caches_inv|done]|].
        specialize (Hr _ eq_refl). apply asked_inv; [apply own_refl; [by cbn in Hr |- *; rewrite Hr|done]|by left|done|done].
      * by apply (answer_checked s n _ _ Hi Hn Hf RDags PHome true _ _ _ _ n_home); [left|..].
    + destruct boot; [by drawn_here s n Hi Hn Hf|by destruct Hc as [[? _]|[_ ?]]].
  - apply (checked_inv RDags PHome (n_home s0)); [done|done|done|].
    destruct Hoc as [[? _]|(_ & Hr & Hv)]; [by left|right]. specialize (Hr _ eq_refl). split; [done|].
    split; [by rewrite Hv, Hr|]. apply (inv_scheds _ Hi). by eapply list_elem_of_lookup_2.
  - destruct a; try done; cbn [answer]; [by drawn_here s n Hi Hn Hf|].
    destruct boot; [by drawn_here s n Hi Hn Hf|by destruct Hc as [[? _]|[_ ?]]].
  - destruct a; try done; cbn [answer]; [|by drawn_here s n Hi Hn Hf].
    by apply (answer_checked s n _ _ Hi Hn Hf RResources PResources _ true _ _ _ n_res); [left|..].
  - destruct a; try done; by drawn_here s n Hi Hn Hf.
  - destruct a; try done; cbn [answer]; [|by drawn_here s n Hi Hn Hf].
    by apply (answer_checked s n _ _ Hi Hn Hf RAudit PAudit _ _ true _ _ n_aud); [left|..].
  - destruct a; try done; cbn [answer].
    + by apply (answer_checked s n _ _ Hi Hn Hf RWorkers PWorkers _ _ _ true _ n_wk); [left|..].
    + destruct Hoc as [[[Hv _ _] [Ho|?]]|(_ & Hr & Hv)]; [|done|].
      * apply draw_pending; [|exact Ho]. split; [exact Hv|by left|exact Hs].
      * specialize (Hr _ eq_refl). apply drawn_inv; [exact Hs|right]. change (n_addr s = RWorkers) in Hr.
        split; [exact Hv|]. cbn. by rewrite Hr.
  - destruct a; try done; cbn [answer]; [|by drawn_here s n Hi Hn Hf].
    by apply (answer_checked s n _ _ Hi Hn Hf RApi PApi _ _ _ _ true n_tok); [left|..].
  - assert (Hnov : own s (LRun id nov) = true -> nov = n_nov s0).
    { intros [_ ?%Bool.eqb_prop]%andb_true_iff. done. }
    destruct a; try done; cbn [answer].
    + apply (crumb_inv _ (draw_in nov (PRun id dag) s0)).
      apply (answer_drawn s n _ _ Hi Hn Hf); [done|done|by intros ? [= <-]].
    + apply (answer_drawn s n _ _ Hi Hn Hf); [done|done|intros ? [= <-]; split; [done|cbn; by intros ->]].
  - assert (Ho : a = Archived \/ a = Failed -> n_addr s0 = RDag id (addr_tab tab)).
    { intros Hx. unfold fine in Hf. apply (own_addr s (LDag id tab task)); [|done].
      by destruct Hx as [-> | ->]. }
    destruct a as [| |tasks| |]; try done; [by apply nav_opened_inv|..]; cbn [answer];
      apply (nav_closed_inv _ (addr_tab tab)); auto.
  - destruct a; try done; cbn [answer].
    + by apply (answer_checked s n _ _ Hi Hn Hf RDags PHome true _ _ _ _ n_home); [right|..].
    + destruct Hc as [[? _]|[? _]]; done.
  - destruct a; try done; cbn [answer].
    + destruct Hc as [[? Hb]|[? _]]; [|done]. apply redraw_inv; [done|]. cbn in Hb.
      destruct Hb as [?|Hb%negb_false_iff%bool_decide_eq_true]; auto.
    + destruct Hc as [[? _]|[? _]]; done.
Qed.

(** ** Language, mode and the other events *)

Section Languages.
Context (lang : language) (s : nav) (Hi : nav_inv s).
Let s1 := set_prefs lang (n_nov s) s.

(** Nothing is drawn again: a request is open, or an error is on screen. *)
Lemma relang_inv :
  own_pending s = true \/ (forall d, n_screen s = Some d -> dr_page d = PError \/ exists i, dr_page d = PArchived i) ->
  nav_inv s1.
Proof.
  destruct Hi as [Hv Hp Hs]. intros H. split; [exact Hv| |exact Hs].
  destruct Hp as [?|[Hw (d & Hd & Hf & Hl & Hn & _)]]; [by left|]. destruct H as [?|H]; [by left|right].
  split; [exact Hw|]. exists d. split_and!; try done. by destruct (H _ Hd); auto.
Qed.
Lemma relang_checked r p (cache : bool) :
  checked r p -> n_view s = view_of r -> (loaded s p -> cache = true) -> (cache = true -> loaded s p) ->
  nav_inv (if bool_decide (n_view s1 = view_of r) && cache then draw p s1 else s1).
Proof.
  intros Hc Hv H1 H2. rewrite bool_decide_true by done. cbn.
  assert (Ha : own_pending s = true \/ n_addr s = r /\ agree s).
  { destruct (inv_page _ Hi) as [?|Ha]; [by left|right]. split; [|done]. pose proof (agree_view _ Ha) as Hw.
    rewrite Hv in Hw. by destruct r, p, (n_addr s). }
  destruct Ha as [Ho|[Ha Hg]].
  - destruct cache; [apply draw_pending; [by apply relang_inv; left|done]|by apply relang_inv; left].
  - destruct Hg as [_ (d & Hd & Hf & Hl & _)]. rewrite Ha in Hf. destruct cache.
    + apply agree_inv; [|exact (inv_scheds _ Hi)]. split; [cbn; by rewrite Ha|]. eexists. split; [done|].
      cbn -[loaded]. rewrite Ha. split_and!; [by destruct r, p|specialize (H2 eq_refl); by destruct r, p|done|by left].
    + apply relang_inv. right. intros ? [= <-]%(eq_trans (eq_sym Hd)). left.
      destruct r, p, (dr_page d); try done; by specialize (H1 Hl).
Qed.
Lemma relang_dag : n_view s = VDag -> nav_inv (renderDagPage s1).
Proof.
  intros Hv. destruct (own_pending s) eqn:Ho.
  { apply redraw_inv; [by apply relang_inv; left|by left]. }
  destruct (inv_page _ Hi) as [?|[Hw (d & Hd & Hf & Hl & _)]]; [congruence|]. rewrite Hv in Hw.
  destruct (n_addr s) as [| | | | | | | | |i t|] eqn:Ea; try done.
  assert (Hx : n_dag s = None -> nav_inv (renderDagPage s1)).
  { intros Hn. unfold renderDagPage. cbn. rewrite Hn. apply relang_inv. right. intros ? [= <-]%(eq_trans (eq_sym Hd)).
    destruct (dr_page d); try done; eauto. cbn in Hl. destruct Hl as (? & ? & _). congruence. }
  destruct (dr_page d); try done; cbn in Hl; [|auto|rewrite Ea in Hl; auto].
  destruct Hl as (x & Hx' & <- & <-). unfold renderDagPage. cbn. rewrite Hx'.
  apply agree_inv; [|exact (inv_scheds _ Hi)]. split; [cbn; by rewrite Ea|]. eexists. split; [done|].
  cbn -[fits]. rewrite Ea. by split_and!; eauto.
Qed.
Lemma relang_task : n_view s = VTask -> nav_inv (renderTaskPage s1).
Proof.
  intros Hv. destruct (own_pending s) eqn:Ho.
  - assert (Hr : nav_inv s1) by (by apply relang_inv; left). unfold renderTaskPage.
    pose proof (inv_scheds _ Hr) as Hs. destruct (n_dag s1) as [d|]; [|by apply loadDags_inv].
    destruct (od_active d); [|by apply showDag_inv]. case_bool_decide; [by apply draw_pending|by apply showDag_inv].
  - apply renderTaskPage_inv; [|exact (inv_scheds _ Hi)]. cbn. intros d k Hd Hk.
    destruct (inv_page _ Hi) as [?|[Hw (x & _ & Hf & Hl & _)]]; [congruence|]. split; [|done]. rewrite Hv in Hw.
    destruct (n_addr s); try done. destruct (dr_page x); try done. cbn in Hf, Hl.
    destruct Hf as [-> ->], Hl as (? & ? & <- & ? & _). simplify_eq. done.
Qed.
Lemma relang_wizard : n_view s = VWizard -> nav_inv (draw PWizard s1).
Proof.
  intros Hv. destruct (inv_page _ Hi) as [Ho|[Hw _]].
  - apply draw_pending; [by apply relang_inv; left|done].
  - rewrite Hv in Hw. apply agree_inv; [|exact (inv_scheds _ Hi)]. split; [cbn; congruence|].
    eexists. split; [done|]. cbn. destruct (n_addr s); try done. by split_and!; auto.
Qed.
End Languages.

Lemma setLang_inv lang s : nav_inv s -> nav_inv (setLang lang s).
Proof.
  intros Hi. unfold setLang. cbn -[renderDags renderWorkers renderDagPage renderTaskPage].
  destruct (n_view s) eqn:Hv.
  - assert (E : forall s1, renderDags (setNav RDags s1) = setNav RDags (renderDags s1)).
    { intros s1. unfold renderDags. cbn. by destruct (_ && _). }
    rewrite E. by apply crumb_inv, (relang_checked lang s Hi RDags PHome).
  - by apply relang_dag.
  - by apply relang_task.
  - apply nav_showRun_inv. exact (inv_scheds _ Hi).
  - by apply relang_wizard.
  - apply showPools_inv. exact (inv_scheds _ Hi).
  - by apply (relang_checked lang s Hi RResources PResources).
  - apply showGraph_inv. exact (inv_scheds _ Hi).
  - by apply (relang_checked lang s Hi RAudit PAudit).
  - assert (E : forall s1, renderWorkers (setNav RWorkers s1) = setNav RWorkers (renderWorkers s1)).
    { intros s1. unfold renderWorkers. cbn. by destruct (_ && _). }
    rewrite E. by apply crumb_inv, (relang_checked lang s Hi RWorkers PWorkers).
  - by apply (relang_checked lang s Hi RApi PApi).
Qed.

Lemma nav_step_inv e s s' : nav_inv s -> harmless e s = true -> nav_step e s = Some s' -> nav_inv s'.
Proof.
  intros Hi Ho Hs. pose proof (inv_scheds _ Hi) as Hsch.
  destruct e as [r|r|tab|k| | |n a| |l|nov]; cbn [nav_step] in Hs.
  - pose proof (applyRoute_inv s Hsch false r). destruct r; try discriminate Hs; by injection Hs as <-.
  - injection Hs as <-. by apply applyRoute_inv.
  - destruct (n_dag s) as [d|]; [|done]. destruct (dr_page <$> n_screen s) as [[]|]; try done.
    case_match; [|done]. injection Hs as <-. apply bool_decide_eq_true in Ho.
    apply agree_inv; [|exact Hsch]. split; [exact Ho|]. eexists. split; [done|]. cbn. by split_and!; eauto.
  - destruct (n_dag s) as [d|]; [|done]. destruct (dr_page <$> n_screen s) as [[]|]; try done.
    case_bool_decide; [|done]. injection Hs as <-. by apply showTask_inv.
  - destruct (dr_page <$> n_screen s) as [[]|]; try done. injection Hs as <-. by apply ask_inv.
  - destruct (dr_page <$> n_screen s) as [[]|]; try done. injection Hs as <-. by apply goto_inv.
  - cbn in Ho. destruct (n_loads s !! n) as [l|] eqn:Hn; [|done]. destruct (answers l a) eqn:Ha; [|done].
    injection Hs as <-. by apply nav_answer_inv.
  - case_bool_decide; [|done]. injection Hs as <-. by apply ask_inv.
  - injection Hs as <-. by apply setLang_inv.
  - injection Hs as <-. unfold setMode. case_bool_decide; [done|]. by apply applyRoute_inv.
Qed.

(** ** The breadcrumb *)

Definition run_title (dag : jstr) : list label := [Raw dag; Raw (lit " / "); T (lit "run_word") []].
(** The pages [setLang] draws again without their breadcrumb. *)
Definition crumb_kept (r : route) : bool := match r with RNew | RResources | RAudit | RApi => true | _ => false end.
(** The breadcrumb names the page on screen. *)
Definition crumb_ok (s : nav) : Prop :=
  match n_addr s with
  | RRun _ => own_pending s = true \/
      forall i dag, dr_page <$> n_screen s = Some (PRun i dag) -> n_crumb s = (n_lang s, run_title dag)
  | RDag id _ => own_pending s = true \/ (n_crumb s).2 = [Raw id]
  | RTask d k => (n_crumb s).2 = page_title (RTask d k) (n_nov s)
  | r => (n_crumb s).2 = page_title r (n_nov s) /\ ((n_crumb s).1 = n_lang s \/ crumb_kept r = true)
  end.
(** No run's answer is late. *)
Definition runs_prompt (e : nav_event) (s : nav) : bool :=
  match e with
  | Answer n _ => match n_loads s !! n with Some (LRun i nov) => own s (LRun i nov) | _ => true end
  | _ => true
  end.

Lemma crumb_same s s' :
  n_addr s' = n_addr s -> n_lang s' = n_lang s -> n_nov s' = n_nov s -> n_crumb s' = n_crumb s ->
  (forall i dag, dr_page <$> n_screen s' = Some (PRun i dag) -> dr_page <$> n_screen s = Some (PRun i dag)) ->
  (match n_addr s with RRun _ | RDag _ _ => own_pending s = true -> own_pending s' = true | _ => True end) ->
  crumb_ok s -> crumb_ok s'.
Proof.
  unfold crumb_ok. intros -> -> -> -> Hp Ho. destruct (n_addr s); try done; (intros [?|H]; [left|right]; eauto).
Qed.
Lemma start_crumb s boot r : crumb_ok (applyRoute boot r s).
Proof.
  assert (Hh : forall b, crumb_ok (loadDags b s)) by (intros b; split; [done|by left]).
  assert (Hd : forall i t k, crumb_ok (showDag i t k s)).
  { intros. left. apply own_ask. by apply own_refl. }
  destruct r; cbn [applyRoute]; auto; try (by (split; [done|left])).
  - unfold showWizard. destruct (n_viewer s); [done|]. split; [done|by left].
  - unfold showWorkers. destruct (n_nov s); [done|]. split; [done|by left].
  - left. apply own_ask. apply own_refl; [done|by intros ? ? [= _ <-]].
Qed.
Lemma task_crumb s : (forall p, crumb_ok (draw p s)) -> crumb_ok (renderTaskPage s).
Proof.
  intros H. unfold renderTaskPage. destruct (n_dag s) as [d|]; [|apply (start_crumb s false RDags)].
  destruct (od_active d) as [k|]; [|apply (start_crumb s false (RDag (od_id d) None))].
  case_bool_decide; [auto|apply (start_crumb s false (RDag (od_id d) None))].
Qed.
Lemma open_task_crumb d k s : crumb_ok (showTask d k s).
Proof. by apply task_crumb. Qed.

(** While a workflow's page is the view, the breadcrumb is its name. *)
Definition dag_crumb (s : nav) : Prop := n_view s = VDag -> forall d, n_dag s = Some d -> (n_crumb s).2 = [Raw (od_id d)].
Lemma start_dag_crumb s boot r : dag_crumb s -> dag_crumb (applyRoute boot r s).
Proof.
  intros H. destruct r; cbn [applyRoute]; try done.
  - unfold showWizard. by destruct (n_viewer s).
  - unfold showWorkers. by destruct (n_nov s).
Qed.
Lemma task_dag_crumb s : dag_crumb s -> dag_crumb (renderTaskPage s).
Proof.
  intros H. unfold renderTaskPage. destruct (n_dag s) as [d|]; [|done].
  destruct (od_active d); [|done]. by case_bool_decide.
Qed.
Lemma opened_titled id tab task a s : crumb_ok (dag_answer id tab task a s) /\ dag_crumb (dag_answer id tab task a s) \/ a = Archived \/ a = Failed \/ a = Got \/ exists d, a = GotRun d.
Proof.
  destruct a as [|d|tasks| |]; eauto 6. left. cbn [dag_answer]. set (s1 := renderDagPage _).
  assert (H1 : crumb_ok s1 /\ dag_crumb s1) by (split; [by right|by intros _ ? [= <-]]).
  destruct task as [k|]; [|done]. case_bool_decide; [|done]. split; [by apply open_task_crumb|].
  apply task_dag_crumb. done.
Qed.

(** What an answer leaves alone. *)
Lemma answer_quiet l a s :
  match l with LRun _ _ | LDag _ _ _ => False | _ => True end ->
  let s' := answer l a s in
  (n_addr s' = n_addr s /\ n_lang s' = n_lang s /\ n_nov s' = n_nov s /\ n_crumb s' = n_crumb s) /\
  (n_view s' = n_view s /\ n_dag s' = n_dag s) /\
  (forall i dag, dr_page <$> n_screen s' = Some (PRun i dag) -> dr_page <$> n_screen s = Some (PRun i dag)) /\
  (own_pending s = true -> own_pending s' = true).
Proof.
  intros Hl. destruct l as [b| |b| | | | | | | | |], a; try done; cbn [answer];
    try (destruct b; by split_and!);
    unfold renderDags, renderResources, renderAudit, renderWorkers, renderApi, renderDagPage; cbn;
    repeat case_match; split_and!; try done;
    (intros H'; unfold own_pending in *; cbn; rewrite List.existsb_app; apply orb_true_iff; by left).
Qed.

Definition titled (s : nav) : Prop := crumb_ok s /\ dag_crumb s.

Lemma answer_titled s n l a :
  nav_inv s -> titled s -> n_loads s !! n = Some l -> answers l a = true -> fine s n l a = true ->
  runs_prompt (Answer n a) s = true -> titled (answer l a (set_loads (delete n (n_loads s)) s)).
Proof.
  intros Hi [Hc Hd] Hn Ha Hf Hp. set (s0 := set_loads _ s).
  assert (Hq : match l with LRun _ _ | LDag _ _ _ => False | _ => True end -> titled (answer l a s0)).
  { intros Hl. destruct (answer_quiet l a s0 Hl) as ((E1 & E2 & E3 & E4) & (E5 & E6) & E7 & E8). split.
    - apply (crumb_same s); try done. pose proof (rest_pending s n l Hn) as Hr. fold s0 in Hr.
      assert (Hnot : match n_addr s with RRun _ | RDag _ _ => own s l = false | _ => True end).
      { destruct (own s l) eqn:Ho; [|by destruct (n_addr s)]. unfold own in Ho.
        apply andb_true_iff in Ho as [Ho _]. apply bool_decide_eq_true in Ho.
        destruct l; try done; injection Ho as <-; done. }
      destruct (n_addr s); try done; rewrite Hr, Hnot; exact E8.
    - unfold dag_crumb. rewrite E5, E6, E4. exact Hd. }
  destruct l as [b| |b| | | | | |id nov|id tab task| |]; try (by apply Hq).
  - cbn in Hp. rewrite Hn in Hp. pose proof (own_addr _ _ _ Hp eq_refl) as Hr.
    assert (Hv : n_view s = VRun) by (pose proof (inv_view _ Hi) as Hv; by rewrite Hr in Hv).
    destruct a; try done; cbn [answer]; (split; [unfold crumb_ok; cbn; rewrite Hr; right|by intros ?%(eq_trans (eq_sym Hv))]).
    + by intros ? ? [= _ ->].
    + done.
  - destruct (opened_titled id tab task a s0) as [?|Hx]; [done|].
    assert (Ho : own s (LDag id tab task) = true) by (by destruct Hx as [-> |[-> |[-> |[? ->]]]]).
    pose proof (own_addr _ _ _ Ho eq_refl) as Hr.
    destruct Hx as [-> |[-> |[-> |[? ->]]]]; try done; (split; [unfold crumb_ok; cbn; rewrite Hr; by right|done]).
Qed.

(** The address of the view. *)
Lemma view_addr s : nav_inv s -> n_view s <> VDag ->
  view_of (n_addr s) = n_view s \/ (exists i t, n_addr s = RDag i t) /\ own_pending s = true.
Proof.
  intros Hi Hne. pose proof (inv_view _ Hi) as Hw. destruct (n_addr s); try (left; congruence).
  right. destruct Hw; [eauto|done].
Qed.
(** A page that is not a workflow's is drawn again with the breadcrumb [c]. *)
Lemma redrawn_crumb lang c r p s :
  nav_inv s -> n_view s = view_of r -> (forall id, r <> RRun id) -> (forall i t, r <> RDag i t) -> (forall i t, r <> RTask i t) ->
  (c = n_crumb s /\ crumb_kept r = true \/ c = (lang, page_title r (n_nov s))) -> crumb_ok s ->
  let s1 := set_prefs lang (n_nov s) s in
  let s2 := Nav (n_view s) (n_addr s) c p (n_loads s) lang (n_nov s) (n_viewer s) (n_dag s) (n_run s)
              (n_home s) (n_res s) (n_aud s) (n_wk s) (n_tok s) in crumb_ok s2.
Proof.
  intros Hi Hv H1 H2 H3 Hc Hk s1 s2.
  destruct (view_addr s Hi) as [Ha|[(i & t & Ha) Ho]]; [rewrite Hv; destruct r; try done; exfalso; by eapply H2| |].
  - revert Hk. unfold crumb_ok. cbn. rewrite Hv in Ha.
    destruct r, (n_addr s); try done; try (exfalso; by eapply H1); try (exfalso; by eapply H2); try (exfalso; by eapply H3);
      destruct Hc as [[-> Hx]| ->]; try done; try (intros _; split; [done|by left]); intros [? _]; (split; [done|by right]).
  - unfold crumb_ok. cbn. rewrite Ha. by left.
Qed.
Lemma relang_titled lang s : nav_inv s -> titled s -> titled (setLang lang s).
Proof.
  intros Hi [Hc Hd]. unfold setLang. cbn -[renderDags renderWorkers renderDagPage renderTaskPage].
  set (s1 := set_prefs lang (n_nov s) s). assert (Hs1 : dag_crumb s1) by exact Hd.
  destruct (n_view s) eqn:Hv.
  - split; [|unfold renderDags; by destruct (_ && _); intros ?%(eq_trans (eq_sym Hv))].
    unfold renderDags. destruct (_ && _); by apply (redrawn_crumb lang _ RDags _ s Hi); auto.
  - assert (Ha : exists i t, n_addr s = RDag i t).
    { pose proof (inv_view _ Hi) as Hw. destruct (n_addr s); cbn in Hw; try congruence; eauto. }
    destruct Ha as (i & t & Ha). unfold renderDagPage. split; [|by destruct (n_dag s1)].
    unfold crumb_ok in *. rewrite Ha in Hc. destruct (n_dag s1); cbn; by rewrite Ha.
  - split; [|by apply task_dag_crumb]. apply task_crumb. intros p. unfold crumb_ok in *. cbn.
    destruct (view_addr s Hi) as [Ha|[(i & t & Ha) Ho]]; [by rewrite Hv| |rewrite Ha; by left].
    rewrite Hv in Ha. by destruct (n_addr s).
  - split; [apply (start_crumb s1 false (RRun (n_run s)))|done].
  - split; [|by intros ?%(eq_trans (eq_sym Hv))]. by apply (redrawn_crumb lang _ RNew _ s Hi); auto.
  - split; [apply (start_crumb s1 false RPools)|done].
  - split; [|unfold renderResources; by destruct (_ && _); intros ?%(eq_trans (eq_sym Hv))].
    unfold renderResources. destruct (_ && _); by apply (redrawn_crumb lang _ RResources _ s Hi); auto.
  - split; [apply (start_crumb s1 false RGraph)|done].
  - split; [|unfold renderAudit; by destruct (_ && _); intros ?%(eq_trans (eq_sym Hv))].
    unfold renderAudit. destruct (_ && _); by apply (redrawn_crumb lang _ RAudit _ s Hi); auto.
  - split; [|unfold renderWorkers; by destruct (_ && _); intros ?%(eq_trans (eq_sym Hv))].
    unfold renderWorkers. destruct (_ && _); by apply (redrawn_crumb lang _ RWorkers _ s Hi); auto.
  - split; [|unfold renderApi; by destruct (_ && _); intros ?%(eq_trans (eq_sym Hv))].
    unfold renderApi. destruct (_ && _); by apply (redrawn_crumb lang _ RApi _ s Hi); auto.
Qed.

Lemma nav_step_titled e s s' :
  nav_inv s -> titled s -> harmless e s = true -> runs_prompt e s = true -> nav_step e s = Some s' -> titled s'.
Proof.
  intros Hi Ht Ho Hp Hs. assert (Hsch := inv_scheds _ Hi). destruct Ht as [Hc Hd].
  assert (Hask : forall l, titled (ask l s)).
  { intros l. split; [|exact Hd]. apply (crumb_same s); try done. destruct (n_addr s); try done;
      (intros H; unfold own_pending, ask, set_loads; cbn; rewrite List.existsb_app; apply orb_true_iff; by left). }
  destruct e as [r|r|tab|k| | |n a| |l|nov]; cbn [nav_step] in Hs.
  - pose proof (start_crumb s false r) as H1. pose proof (start_dag_crumb s false r Hd) as H2.
    destruct r; try discriminate Hs; by injection Hs as <-.
  - injection Hs as <-. split; [apply start_crumb|by apply start_dag_crumb].
  - destruct (n_dag s) as [d|] eqn:Ed; [|done]. destruct (dr_page <$> n_screen s) as [[]|]; try done.
    case_match; [|done]. injection Hs as <-. apply bool_decide_eq_true in Ho. specialize (Hd Ho _ Ed).
    split; [by right|]. by intros _ ? [= <-].
  - destruct (n_dag s) as [d|]; [|done]. destruct (dr_page <$> n_screen s) as [[]|]; try done.
    case_bool_decide; [|done]. injection Hs as <-. split; [apply open_task_crumb|by apply task_dag_crumb].
  - destruct (dr_page <$> n_screen s) as [[]|]; try done. by injection Hs as <-.
  - destruct (dr_page <$> n_screen s) as [[]|]; try done. injection Hs as <-. unfold gotoDagPage.
    destruct (n_dag s) as [d|] eqn:Ed; [|split; [apply (start_crumb s false RDags)|done]].
    unfold renderDagPage. cbn. rewrite Ed. split; [by right|]. intros _ d' Hd'. cbn in Hd'. by simplify_eq.
  - destruct (n_loads s !! n) as [l|] eqn:Hn; [|done]. destruct (answers l a) eqn:Ha; [|done].
    injection Hs as <-. cbn in Ho. rewrite Hn in Ho. by apply answer_titled.
  - case_bool_decide; [|done]. by injection Hs as <-.
  - injection Hs as <-. by apply relang_titled.
  - injection Hs as <-. unfold setMode. case_bool_decide; [done|].
    split; [apply start_crumb|by apply start_dag_crumb].
Qed.

Lemma boot_inv r lang nov viewer home :
  nav_inv (nav_boot r lang nov viewer home) /\ titled (nav_boot r lang nov viewer home).
Proof.
  split; [apply applyRoute_inv; cbn; intros H; by apply not_elem_of_nil in H|].
  split; [apply start_crumb|]. by apply start_dag_crumb.
Qed.
Lemma nav_run_inv es s s' :
  nav_inv s -> all_steps harmless es s = true -> nav_run es s = Some s' ->
  nav_inv s' /\ (all_steps runs_prompt es s = true -> titled s -> titled s').
Proof.
  revert s. induction es as [|e es IH]; intros s Hi Hh Hr; [by simplify_eq/=|]. cbn in Hh, Hr |- *.
  apply andb_true_iff in Hh as [H1 H2]. destruct (nav_step e s) as [s1|] eqn:Hs; [|done].
  destruct (IH s1 (nav_step_inv _ _ _ Hi H1 Hs) H2 Hr) as [H3 H4]. split; [done|].
  intros [Hp1 Hp2]%andb_true_iff Ht. apply H4; [done|].
  exact (nav_step_titled e s s1 Hi Ht H1 Hp1 Hs).
Qed.

(** ** Properties *)


(** The home page and its heartbeat, the pools and, before they are there, a workflow,
    one of its tasks, and English. *)
Definition sample_walk : list nav_event :=
  [Answer 0 Got; Beat; Go RPools; Go (RDag (lit "etl") None); Answer 1 Got; Answer 0 Got; Answer 0 (GotDag [lit "load"]);
   ClickTab (lit "structure"); ClickTask (lit "load"); Lang En].

(** What late answers do: pools that arrive after the home page are drawn over it, and
    over the wizard, which has no request, even in order; a workflow that cannot be
    opened takes the view from the audit trail, whose entries are then not drawn; a
    run's data puts the run's name over the audit trail. When the pools fail nothing
    is said and the page before stays. The breadcrumb of the audit trail keeps its
    language. *)
Definition shown (es : list nav_event) : option (vkey * route * option page * (language * list label) * bool) :=
  (fun s => (n_view s, n_addr s, dr_page <$> n_screen s, n_crumb s, own_pending s)) <$>
    nav_run es (nav_boot RDags Zh false false false).
Theorem late_answers_misplace :
  let etl := lit "etl" in
  shown [Answer 0 Got; Go RPools; Go RDags; Answer 1 Got; Answer 0 Got]
    = Some (VDags, RDags, Some PPools, (Zh, [T (lit "nav_dags") []]), false) /\
  shown [Answer 0 Got; Go RPools; Go RNew; Answer 0 Got]
    = Some (VWizard, RNew, Some PPools, (Zh, [T (lit "wz_crumb") []]), false) /\
  shown [Answer 0 Got; Go (RDag etl None); Go RAudit; Answer 0 Failed; Answer 0 Got]
    = Some (VDag, RAudit, Some PError, (Zh, [Raw etl]), false) /\
  shown [Answer 0 Got; Go (RRun (lit "r1")); Go RAudit; Answer 0 (GotRun etl); Answer 0 Got]
    = Some (VAudit, RAudit, Some PAudit, (Zh, run_title etl), false) /\
  shown [Answer 0 Got; Go RPools; Answer 0 Failed]
    = Some (VPools, RPools, Some PHome, (Zh, [Raw (lit "Pools")]), false) /\
  shown [Answer 0 Got; Go RAudit; Answer 0 Got; Lang En]
    = Some (VAudit, RAudit, Some PAudit, (Zh, [T (lit "nav_audit") []]), false).
Proof. vm_compute. by split_and!. Qed.
