(* ===== verification/RunActions.v ===== *)
(** * The actions on a run: what the pages offer (views.js, [renderRunActions],
    [instancesTableHtml], [renderDagRuns], [cancelRunUI] and its siblings) and what the
    server does with them (scheduler.go, [CancelRun], [RetryRun], [RetryTask],
    [MarkTask], [MarkRun]; model.go, sqlite.go)

    A run on the server is its state, its task instances, the definition it was
    started with and the workflow's present one. The server handles one action at a
    time. A run has one instance per task, as its table requires. Killing processes,
    notifications, the run's own times, the settings an instance copies from its task
    and the events a success publishes are left out. *)

From S2P Require Import Prelude JsCore TaskGraph Labels RunView RunDisplay.

(** ** What the pages offer *)

Inductive action :=
| Cancel | RetryRun | MarkRun (target : jstr)
| RetryTask (k : jstr) | MarkTask (k target : jstr).
#[export] Instance action_eq_dec : EqDecision action.
Proof. solve_decision. Defined.

(** The choices of [markRunUI] and [markTaskUI]. *)
Definition RUN_MARKS : list jstr := [lit "success"; lit "failed"].
Definition TASK_MARKS : list jstr := [lit "success"; lit "skipped"; lit "failed"].

(** The buttons over the run and those of a row. *)
Definition run_offers (a : run_actions) : list action :=
  match a with
  | ANone => []
  | ACancel => [Cancel]
  | ATerm canRetry => (if canRetry then [RetryRun] else []) ++ (MarkRun <$> RUN_MARKS)
  end.
Definition row_offers (viewer : bool) (r : run) (x : inst) : list action :=
  (if (row_actions viewer r x).1 then [RetryTask (in_task x)] else [])
  ++ (if (row_actions viewer r x).2 then MarkTask (in_task x) <$> TASK_MARKS else []).
Definition offered (viewer : bool) (r : run) (tis : list inst) : list action :=
  run_offers (actions_of viewer r tis) ++ (tis ≫= row_offers viewer r).
(** The button of a row of the run history. *)
Definition inline_offer (viewer : bool) (state : jstr) : option action :=
  if viewer then None else if runLive state then Some Cancel
  else if bool_decide (state ∈ [lit "failed"; lit "cancelled"; lit "timed_out"]) then Some RetryRun else None.

(** ** The server *)

Record srun := SRun {
  sr_state : jstr;
  sr_tis : list inst;
  sr_now : option (list node);   (** the workflow's definition, unless it is archived *)
  sr_then : option (list node);  (** the run's own *)
}.
Definition put_state (st : jstr) (s : srun) : srun := SRun st (sr_tis s) (sr_now s) (sr_then s).
Definition put_tis (l : list inst) (s : srun) : srun := SRun (sr_state s) l (sr_now s) (sr_then s).
(** An instance put into a final state, and one that waits again; it keeps its number of
    attempts. *)
Definition finish_inst (now : Z) (st : jstr) (x : inst) : inst :=
  Inst (in_id x) (in_task x) st (in_try x) (in_start x) (Some now).
Definition reschedule (x : inst) : inst :=
  Inst (in_id x) (in_task x) (lit "scheduled") (in_try x) None None.

(** Done, or refused with the machine code of [mapErr], empty when it has none. *)
Inductive result := Done (s : srun) | Refused (code : jstr).

Definition RUN_STATES : list jstr :=
  [lit "queued"; lit "running"; lit "success"; lit "failed"; lit "cancelled"; lit "timed_out"].
Definition run_terminal (st : jstr) : bool :=
  bool_decide (st ∈ [lit "success"; lit "failed"; lit "cancelled"; lit "timed_out"]).
(** [LegalPriorRunStates] *)
Definition LegalPriorRunStates (target : jstr) : list jstr :=
  if bool_decide (target = lit "running") then [lit "queued"; lit "success"; lit "failed"; lit "cancelled"; lit "timed_out"]
  else if bool_decide (target = lit "success") || bool_decide (target = lit "failed")
  then [lit "queued"; lit "running"; lit "success"; lit "failed"]
  else if bool_decide (target = lit "cancelled") then [lit "queued"; lit "running"]
  else if bool_decide (target = lit "timed_out") then [lit "running"] else [].
(** [UpdateDagRunState]: the write is refused from any other state. *)
Definition UpdateDagRunState (target : jstr) (s : srun) : result :=
  if bool_decide (sr_state s ∈ LegalPriorRunStates target) then Done (put_state target s) else Refused [].

(** [downstreamClosure]: a queue of tasks; [edges] lists a pair per dependency. *)
Definition edges (d : list node) : list (jstr * jstr) := d ≫= fun t => (fun dep => (dep, nid t)) <$> ndeps t.
Definition dependents (es : list (jstr * jstr)) (k : jstr) : list jstr :=
  snd <$> filter (fun e => e.1 = k) es.
Fixpoint closure_loop (fuel : nat) (es : list (jstr * jstr)) (closure : gset jstr) (queue : list jstr) : gset jstr :=
  match fuel, queue with
  | S f, k :: q => if bool_decide (k ∈ closure) then closure_loop f es closure q
                   else closure_loop f es ({[k]} ∪ closure) (q ++ dependents es k)
  | _, _ => closure
  end.
(** One round per queued task: the first one and at most one per dependency. *)
Definition downstreamClosure (d : list node) (k : jstr) : gset jstr :=
  closure_loop (S (length (edges d))) (edges d) ∅ [k].

Definition has_task (d : list node) (k : jstr) : bool := bool_decide (k ∈ nid <$> d).
Definition has_inst (tis : list inst) (k : jstr) : bool := bool_decide (k ∈ in_task <$> tis).

Section Server.
(** The database's ids of new instances, and the server's clock. *)
Context (new_id : jstr -> jstr) (now : Z).

(** [prepareRetryDefinition]: the run takes over the present definition; a task of it
    without an instance gets one. *)
Definition new_inst (k : jstr) : inst := Inst (new_id k) k (lit "scheduled") 0 None None.
Definition prepareRetryDefinition (d : list node) (s : srun) : srun :=
  SRun (sr_state s) (sr_tis s ++ (new_inst <$> filter (fun k => has_inst (sr_tis s) k = false) (nid <$> d)))
    (sr_now s) (Some d).
(** [clearAndReactivate] *)
Definition clearAndReactivate (ids : list jstr) (s : srun) : result :=
  UpdateDagRunState (lit "running")
    (put_tis ((fun x => if bool_decide (in_task x ∈ ids) then reschedule x else x) <$> sr_tis s) s).

Definition CancelRun (s : srun) : result :=
  if runLive (sr_state s) then
    match UpdateDagRunState (lit "cancelled") s with
    | Done s1 => Done (put_tis ((fun x => if is_terminal (in_state x) then x else finish_inst now (lit "cancelled") x) <$> sr_tis s1) s1)
    | e => e
    end
  else Refused (lit "run_not_active").

(** [retryContext]: the present definition. *)
Definition retryContext (s : srun) : result + list node :=
  if runLive (sr_state s) then inl (Refused (lit "run_still_active"))
  else match sr_now s with Some d => inr d | None => inl (Refused (lit "not_found")) end.
Definition retry_ids (d : list node) (ks : list jstr) : list jstr :=
  filter (fun k => has_task d k = true) (ks ≫= fun k => elements (downstreamClosure d k)).
Definition RetryTask_ (k : jstr) (s : srun) : result :=
  match retryContext s with
  | inl e => e
  | inr d =>
    if has_inst (sr_tis s) k && has_task d k
    then clearAndReactivate (retry_ids d [k]) (prepareRetryDefinition d s)
    else Refused (lit "not_found")
  end.
(** The tasks [RetryRun] starts from. *)
Definition retried (d : list node) (tis : list inst) : list jstr :=
  in_task <$> filter (fun x => has_task d (in_task x) && is_retryable (in_state x) = true) tis.
Definition RetryRun_ (s : srun) : result :=
  match retryContext s with
  | inl e => e
  | inr d =>
    let ids := retry_ids d (retried d (sr_tis s)) in
    if bool_decide (ids = []) then Refused (lit "nothing_to_retry")
    else clearAndReactivate ids (prepareRetryDefinition d s)
  end.

(** The tasks a mark releases: blocked ones downstream of a task marked as not
    blocking. *)
Definition release (d : list node) (k target : jstr) (x : inst) : inst :=
  if (bool_decide (target = lit "success") || bool_decide (target = lit "skipped"))
     && bool_decide (in_task x ∈ retry_ids d [k]) && negb (bool_decide (in_task x = k))
     && bool_decide (in_state x = lit "upstream_failed")
  then reschedule x else x.
Definition MarkTask_ (k target : jstr) (s : srun) : result :=
  if bool_decide (target ∈ TASK_MARKS) then
    match sr_then s with
    | None => Refused (lit "not_found")
    | Some d =>
      if has_inst (sr_tis s) k && has_task d k then
        let mark x := if bool_decide (in_task x = k) then finish_inst now target x else release d k target x in
        let s1 := put_tis (mark <$> sr_tis s) s in
        if run_terminal (sr_state s1) then UpdateDagRunState (lit "running") s1 else Done s1
      else Refused (lit "not_found")
    end
  else Refused (lit "bad_mark_state").
(** [UpdateDagRunSuccess] writes from any state. *)
Definition MarkRun_ (target : jstr) (s : srun) : result :=
  if bool_decide (target ∈ RUN_MARKS) then
    if run_terminal (sr_state s) then
      if bool_decide (sr_state s = target) then Done s
      else if bool_decide (target = lit "success") then Done (put_state target s)
      else UpdateDagRunState target s
    else Refused (lit "run_still_active")
  else Refused (lit "bad_mark_state").

Definition perform (a : action) (s : srun) : result :=
  match a with
  | Cancel => CancelRun s
  | RetryRun => RetryRun_ s
  | MarkRun target => MarkRun_ target s
  | RetryTask k => RetryTask_ k s
  | MarkTask k target => MarkTask_ k target s
  end.
End Server.

(** ** The closure *)

Definition reach (d : list node) : jstr -> jstr -> Prop := rtc (fun a b => (a, b) ∈ edges d).

Lemma dependents_spec es k b : b ∈ dependents es k <-> (k, b) ∈ es.
Proof.
  unfold dependents. rewrite list_elem_of_fmap. split.
  - intros ([a b'] & -> & [Ha Hin]%list_elem_of_filter). cbn in Ha. by subst.
  - intros H. exists (k, b). split; [done|]. by apply list_elem_of_filter.
Qed.
Lemma dependents_length (es : list (jstr * jstr)) (C : gset jstr) k : k ∉ C ->
  length (dependents es k) + length (filter (fun e => e.1 ∉ {[k]} ∪ C) es) = length (filter (fun e => e.1 ∉ C) es).
Proof.
  intros Hk. unfold dependents. rewrite length_fmap. induction es as [|[a b] es IH]; [done|].
  rewrite !filter_cons. cbn. repeat case_decide; cbn; try lia; set_solver.
Qed.
Lemma closure_loop_spec es k fuel : forall C Q,
  (forall x, x ∈ C \/ x ∈ Q -> rtc (fun a b => (a, b) ∈ es) k x) ->
  (forall a b, a ∈ C -> (a, b) ∈ es -> b ∈ C \/ b ∈ Q) -> k ∈ C \/ k ∈ Q ->
  length Q + length (filter (fun e => e.1 ∉ C) es) <= fuel ->
  forall x, x ∈ closure_loop fuel es C Q <-> rtc (fun a b => (a, b) ∈ es) k x.
Proof.
  induction fuel as [|f IH]; intros C [|a Q] H1 H2 H3 Hm x; cbn in Hm |- *; try lia.
  1, 2: split; [by auto|]; intros Hr; assert (Hk : k ∈ C) by (destruct H3 as [?|?%not_elem_of_nil]; done);
    clear -Hr H2 Hk; induction Hr as [|a b c Hab _ IH]; [done|]; apply IH;
    by destruct (H2 _ _ Hk Hab) as [?|?%not_elem_of_nil].
  case_bool_decide as Ha.
  - apply IH; [set_solver| |set_solver|lia]. intros u v Hu Huv. destruct (H2 u v Hu Huv) as [?|?]; set_solver.
  - apply IH.
    + intros y [Hy|Hy]; [set_solver|]. apply elem_of_app in Hy as [Hy|Hy%dependents_spec]; [set_solver|].
      eapply rtc_r; [|exact Hy]. apply H1. set_solver.
    + intros u v Hu Huv. destruct (decide (u = a)) as [->|Hne].
      * right. apply elem_of_app. right. by apply dependents_spec.
      * destruct (H2 u v) as [?|?]; [set_solver|done|set_solver|set_solver].
    + set_solver.
    + rewrite length_app. pose proof (dependents_length es C a Ha). lia.
Qed.
(** The tasks after [k], and [k]. *)
Lemma closure_spec d k x : x ∈ downstreamClosure d k <-> reach d k x.
Proof.
  unfold downstreamClosure, reach. apply closure_loop_spec; [|set_solver|set_solver|].
  - intros y [?|Hy]; [set_solver|]. apply list_elem_of_singleton in Hy as ->. done.
  - cbn [length]. generalize (edges d). intros es. induction es as [|e es IH]; [done|].
    rewrite filter_cons. case_decide; cbn [length] in *; lia.
Qed.
Lemma retry_ids_spec d ks x : x ∈ retry_ids d ks <-> x ∈ nid <$> d /\ exists k, k ∈ ks /\ reach d k x.
Proof.
  unfold retry_ids, has_task. rewrite list_elem_of_filter, bool_decide_eq_true. f_equiv.
  rewrite list_elem_of_bind. split.
  - intros (k & Hx%elem_of_elements%closure_spec & Hk). eauto.
  - intros (k & Hk & Hr). exists k. split; [|done]. by apply elem_of_elements, closure_spec.
Qed.

(** ** Properties *)

Lemma known_state st : st ∈ RUN_STATES ->
  runLive st = true /\ run_terminal st = false /\ st ∈ LegalPriorRunStates (lit "cancelled") \/
  runLive st = false /\ run_terminal st = true /\ st ∈ LegalPriorRunStates (lit "running").
Proof.
  intros H. repeat (apply elem_of_cons in H as [->|H]); [..|by apply not_elem_of_nil in H];
    (left + right); repeat split; compute_decide.
Qed.

Section Accepted.
Context (new_id : jstr -> jstr) (now : Z) (s : srun) (d d' : list node) (st en : option Z).
Context (Hst : sr_state s ∈ RUN_STATES) (Hnow : sr_now s = Some d) (Hthen : sr_then s = Some d').
(** The run's tasks are still in the workflow. *)
Context (Htasks : forall x, x ∈ sr_tis s -> in_task x ∈ nid <$> d /\ in_task x ∈ nid <$> d').
Let r := Run (sr_state s) st en.

Lemma inst_known x : x ∈ sr_tis s ->
  has_inst (sr_tis s) (in_task x) = true /\ has_task d (in_task x) = true /\ has_task d' (in_task x) = true.
Proof.
  intros Hx. unfold has_inst, has_task. destruct (Htasks _ Hx). rewrite !bool_decide_true; [done|done|done|].
  by apply list_elem_of_fmap_2.
Qed.
Lemma retried_spec k : k ∈ retried d (sr_tis s) <-> exists x, x ∈ sr_tis s /\ in_task x = k /\ is_retryable (in_state x) = true.
Proof.
  unfold retried. rewrite list_elem_of_fmap. split.
  - intros (x & -> & [H Hx]%list_elem_of_filter). apply andb_true_iff in H as [_ H]. eauto.
  - intros (x & Hx & <- & H). exists x. split; [done|]. apply list_elem_of_filter.
    destruct (inst_known x Hx) as (_ & -> & _). by rewrite H.
Qed.
Lemma retried_some : existsb (fun x => is_retryable (in_state x)) (sr_tis s) = true <-> retry_ids d (retried d (sr_tis s)) <> [].
Proof.
  rewrite List.existsb_exists. split.
  - intros (x & Hx%list_elem_of_In & H) E. apply (not_elem_of_nil (in_task x)). rewrite <- E. apply retry_ids_spec.
    split; [by apply Htasks|]. exists (in_task x). split; [apply retried_spec; eauto|done].
  - intros H. destruct (retry_ids d _) as [|k l] eqn:E; [done|].
    assert (Hk : k ∈ retry_ids d (retried d (sr_tis s))) by (rewrite E; left).
    apply retry_ids_spec in Hk as (_ & y & Hy & _). apply retried_spec in Hy as (x & ? & _ & ?).
    exists x. split; [by apply list_elem_of_In|done].
Qed.

(** When a retry of the run is taken. *)
Lemma retry_run_taken : runLive (sr_state s) = false ->
  if existsb (fun x => is_retryable (in_state x)) (sr_tis s)
  then exists s', RetryRun_ new_id s = Done s' else RetryRun_ new_id s = Refused (lit "nothing_to_retry").
Proof.
  intros Hl. unfold RetryRun_, retryContext. rewrite Hl, Hnow. pose proof retried_some as Hr.
  destruct (existsb _ _).
  - rewrite bool_decide_false by (by apply Hr). unfold clearAndReactivate, UpdateDagRunState.
    rewrite bool_decide_true; [eauto|]. cbn. destruct (known_state _ Hst) as [(? & _)|(_ & _ & ?)]; [congruence|done].
  - rewrite bool_decide_true; [done|]. destruct (retry_ids d _); [done|]. by discriminate (proj2 Hr).
Qed.

Lemma run_actions_taken a : a ∈ run_offers (actions_of false r (sr_tis s)) ->
  (exists s', perform new_id now a s = Done s') \/
  a = MarkRun (lit "failed") /\ sr_state s ∈ [lit "cancelled"; lit "timed_out"] /\ perform new_id now a s = Refused [].
Proof.
  unfold actions_of. cbn [r_state r]. destruct (known_state _ Hst) as [(Hl & Ht & Hc)|(Hl & Ht & Hr)]; rewrite Hl; cbn [run_offers].
  - intros ->%list_elem_of_singleton. left. cbn. unfold CancelRun, UpdateDagRunState. rewrite Hl, bool_decide_true by done. eauto.
  - intros [Ha|Ha]%elem_of_app.
    + pose proof (retry_run_taken Hl) as Hx. destruct (existsb _ _); [|by apply not_elem_of_nil in Ha].
      apply list_elem_of_singleton in Ha as ->. by left.
    + assert (Hm : forall target, target ∈ RUN_MARKS -> perform new_id now (MarkRun target) s =
        if bool_decide (sr_state s = target) then Done s
        else if bool_decide (target = lit "success") then Done (put_state target s) else UpdateDagRunState target s).
      { intros target Hin. cbn. unfold MarkRun_. by rewrite Ht, bool_decide_true. }
      apply list_elem_of_fmap in Ha as (target & -> & Hin). rewrite (Hm _ Hin).
      case_bool_decide as He; [eauto|]. apply elem_of_cons in Hin as [->|Hin]; [by eauto|].
      apply list_elem_of_singleton in Hin as ->. rewrite bool_decide_false by done. unfold UpdateDagRunState.
      case_bool_decide as Hp; [left; eauto|right]. split; [done|]. split; [|done]. clear -Hst Hp Hl.
      repeat (apply elem_of_cons in Hst as [Hst|Hst]); [..|by apply not_elem_of_nil in Hst]; rewrite Hst in *;
        first [compute_decide|exfalso; apply Hp; compute_decide].
Qed.

Lemma row_actions_taken x a : x ∈ sr_tis s -> a ∈ row_offers false r x -> exists s', perform new_id now a s = Done s'.
Proof.
  intros Hx Ha. destruct (inst_known x Hx) as (Hi & Hd & Hd'). unfold row_offers in Ha. cbn in Ha.
  apply elem_of_app in Ha as [Ha|Ha].
  - destruct (is_retryable (in_state x) && _ && _) eqn:E; [|by apply not_elem_of_nil in Ha].
    apply list_elem_of_singleton in Ha as ->. rewrite andb_true_r in E. apply andb_true_iff in E as [_ Hl%negb_true_iff].
    cbn. unfold RetryTask_, retryContext. rewrite Hl, Hnow, Hi, Hd. unfold clearAndReactivate, UpdateDagRunState.
    rewrite bool_decide_true; [eauto|]. destruct (known_state _ Hst) as [(? & _)|(_ & _ & ?)]; [congruence|done].
  - assert (Hm : exists target, a = MarkTask (in_task x) target /\ target ∈ TASK_MARKS).
    { change (a ∈ MarkTask (in_task x) <$> TASK_MARKS) in Ha. apply list_elem_of_fmap in Ha as (target & -> & ?). eauto. }
    destruct Hm as (target & -> & Hin). cbn. unfold MarkTask_. rewrite bool_decide_true by done. rewrite Hthen, Hi, Hd'.
    cbn. destruct (run_terminal (sr_state s)) eqn:Ht; [|eauto]. unfold UpdateDagRunState.
    rewrite bool_decide_true; [eauto|]. destruct (known_state _ Hst) as [(_ & ? & _)|(_ & _ & ?)]; [congruence|done].
Qed.

Lemma not_offered_refused a :
  a ∈ Cancel :: RetryRun :: (MarkRun <$> RUN_MARKS) -> a ∉ run_offers (actions_of false r (sr_tis s)) ->
  exists code, perform new_id now a s = Refused code /\ code ∈ mapErr_codes.
Proof.
  intros Ha Hn. unfold actions_of in Hn. cbn [r_state r] in Hn.
  destruct (known_state _ Hst) as [(Hl & Ht & _)|(Hl & Ht & _)]; rewrite Hl in Hn; cbn [run_offers] in Hn.
  - apply elem_of_cons in Ha as [->|Ha]; [by destruct Hn; left|].
    exists (lit "run_still_active"). split; [|compute_decide].
    apply elem_of_cons in Ha as [->|Ha]; [cbn; unfold RetryRun_, retryContext; by rewrite Hl|].
    apply list_elem_of_fmap in Ha as (target & -> & Hin). cbn. unfold MarkRun_. by rewrite bool_decide_true, Ht by done.
  - apply elem_of_cons in Ha as [->|Ha].
    { exists (lit "run_not_active"). split; [cbn; unfold CancelRun; by rewrite Hl|compute_decide]. }
    apply elem_of_cons in Ha as [->|Ha]; [|by destruct Hn; apply elem_of_app; right].
    pose proof (retry_run_taken Hl) as Hr. destruct (existsb _ _); [by destruct Hn; left|].
    exists (lit "nothing_to_retry"). split; [exact Hr|compute_decide].
Qed.

(** After a retry the run is active and no instance can be retried; the tasks after
    the retried ones wait again and the others are as they were. *)
Lemma cleared ks (s' : srun) : ks ⊆ in_task <$> sr_tis s ->
  clearAndReactivate (retry_ids d ks) (prepareRetryDefinition new_id d s) = Done s' ->
  sr_state s' = lit "running" /\
  (forall k, k ∈ nid <$> d -> k ∈ in_task <$> sr_tis s') /\
  (forall x, x ∈ sr_tis s ->
     ((exists k, k ∈ ks /\ reach d k (in_task x)) -> reschedule x ∈ sr_tis s') /\
     (~ (exists k, k ∈ ks /\ reach d k (in_task x)) -> x ∈ sr_tis s')) /\
  (forall y, y ∈ sr_tis s' -> in_state y = lit "scheduled" \/ y ∈ sr_tis s /\ ~ exists k, k ∈ ks /\ reach d k (in_task y)).
Proof.
  intros Hks. unfold clearAndReactivate, UpdateDagRunState. case_bool_decide; [|done]. intros [= <-]. cbn.
  set (f := fun x => if bool_decide (in_task x ∈ retry_ids d ks) then reschedule x else x).
  assert (Hf : forall x, in_task (f x) = in_task x) by (intros x; unfold f; by case_bool_decide).
  split; [done|]. split_and!.
  - intros k Hk. apply list_elem_of_fmap. destruct (decide (k ∈ in_task <$> sr_tis s)) as [Hi|Hi].
    + apply list_elem_of_fmap in Hi as (x & -> & Hx). exists (f x). split; [done|].
      apply list_elem_of_fmap_2, elem_of_app. by left.
    + exists (f (new_inst new_id k)). split; [done|]. apply list_elem_of_fmap_2, elem_of_app. right.
      apply list_elem_of_fmap_2, list_elem_of_filter. split; [|done]. unfold has_inst. by apply bool_decide_false.
  - intros x Hx. assert (Hin : f x ∈ f <$> sr_tis s ++ (new_inst new_id <$> filter (fun k => has_inst (sr_tis s) k = false) (nid <$> d))).
    { apply list_elem_of_fmap_2, elem_of_app. by left. }
    split; intros Hr; revert Hin; unfold f at 1.
    + rewrite bool_decide_true; [done|]. apply retry_ids_spec. split; [by apply Htasks|done].
    + rewrite bool_decide_false; [done|]. by intros [_ ?]%retry_ids_spec.
  - intros y Hy. apply list_elem_of_fmap in Hy as (x & -> & Hx). unfold f. case_bool_decide as Hb; [by left|].
    apply elem_of_app in Hx as [Hx|Hx].
    + right. split; [done|]. intros Hr. apply Hb, retry_ids_spec. split; [by apply Htasks|done].
    + left. apply list_elem_of_fmap in Hx as (k & -> & _). done.
Qed.
End Accepted.

Lemma retryable_not_scheduled st : is_retryable st = true -> st <> lit "scheduled".
Proof. intros H ->. done. Qed.

(** C10 A run as the pages show it, its tasks still being in the workflow. Every action
    the run page offers, over the run or in a row, is taken by the server, but for marking
    a cancelled or timed-out run as failed; an action over the run that is not
    offered would be refused, with a reason the dictionaries word. The retry button of
    the run history is taken exactly when some task can be retried. After a
    cancellation every instance is finished and the finished ones are untouched; after
    a retry the run is active, no instance is left to be retried, every task of the
    workflow has one, the ones after a retried task wait again and the others are
    untouched. *)
Theorem run_actions_accepted new_id now s d d' st en :
  sr_state s ∈ RUN_STATES -> sr_now s = Some d -> sr_then s = Some d' ->
  (forall x, x ∈ sr_tis s -> in_task x ∈ nid <$> d /\ in_task x ∈ nid <$> d') ->
  let r := Run (sr_state s) st en in
  let retryable := existsb (fun x => is_retryable (in_state x)) (sr_tis s) in
  (forall a, a ∈ offered false r (sr_tis s) -> (exists s', perform new_id now a s = Done s') \/
     a = MarkRun (lit "failed") /\ sr_state s ∈ [lit "cancelled"; lit "timed_out"] /\ perform new_id now a s = Refused []) /\
  (forall a, a ∈ Cancel :: RetryRun :: (MarkRun <$> RUN_MARKS) -> a ∉ run_offers (actions_of false r (sr_tis s)) ->
     exists code, perform new_id now a s = Refused code /\ code ∈ mapErr_codes) /\
  (inline_offer false (sr_state s) = Some RetryRun ->
     if retryable then exists s', perform new_id now RetryRun s = Done s'
     else perform new_id now RetryRun s = Refused (lit "nothing_to_retry")) /\
  (forall s', perform new_id now Cancel s = Done s' -> sr_state s' = lit "cancelled" /\
     (forall y, y ∈ sr_tis s' -> is_terminal (in_state y) = true) /\
     (forall x, x ∈ sr_tis s -> is_terminal (in_state x) = true -> x ∈ sr_tis s')) /\
  (forall s', perform new_id now RetryRun s = Done s' ->
     let again x := exists y, y ∈ sr_tis s /\ is_retryable (in_state y) = true /\ reach d (in_task y) (in_task x) in
     sr_state s' = lit "running" /\ (forall y, y ∈ sr_tis s' -> is_retryable (in_state y) = false) /\
     (forall k, k ∈ nid <$> d -> k ∈ in_task <$> sr_tis s') /\
     (forall x, x ∈ sr_tis s -> (again x -> reschedule x ∈ sr_tis s') /\ (~ again x -> x ∈ sr_tis s'))).
Proof.
  intros Hst Hnow Hthen Ht r retryable. split_and!.
  - intros a [Ha|Ha]%elem_of_app; [by eapply run_actions_taken|].
    apply list_elem_of_bind in Ha as (x & Ha & Hx). left. by eapply row_actions_taken.
  - by eapply not_offered_refused.
  - unfold inline_offer. destruct (runLive (sr_state s)) eqn:Hl; [done|]. intros _. by eapply retry_run_taken.
  - intros s' Hs'. cbn in Hs'. unfold CancelRun, UpdateDagRunState in Hs'. repeat case_match; try done. simplify_eq. cbn.
    split; [done|]. split.
    + intros y Hy. apply list_elem_of_fmap in Hy as (x & -> & _). by destruct (is_terminal (in_state x)) eqn:E.
    + intros x Hx E. apply list_elem_of_fmap. exists x. by rewrite E.
  - intros s' Hs' again. cbn in Hs'. unfold RetryRun_, retryContext in Hs'. destruct (runLive _); [done|].
    rewrite Hnow in Hs'. case_bool_decide; [done|].
    assert (Hsub : retried d (sr_tis s) ⊆ in_task <$> sr_tis s).
    { intros k (x & Hx & <- & _)%(retried_spec s d d' Ht). by apply list_elem_of_fmap_2. }
    destruct (cleared new_id s d d' Ht _ s' Hsub Hs') as (E1 & E2 & E3 & E4).
    assert (Hag : forall x, (exists k, k ∈ retried d (sr_tis s) /\ reach d k (in_task x)) <-> again x).
    { intros x. split.
      - intros (k & (y & ? & <- & ?)%(retried_spec s d d' Ht) & ?). by exists y.
      - intros (y & ? & ? & ?). exists (in_task y). split; [|done]. apply (retried_spec s d d' Ht). eauto. }
    split; [done|]. split_and!; [|done|].
    + intros y Hy. apply not_true_iff_false. intros Hr. destruct (E4 _ Hy) as [Es|[Hy' Hn]].
      * by apply (retryable_not_scheduled _ Hr).
      * apply Hn, Hag. exists y. split_and!; done.
    + intros x Hx. rewrite <- Hag. by apply E3.
Qed.

(** A failed run of three tasks; the third succeeded. *)
Definition failed_def : list node := [Node (lit "a") []; Node (lit "b") [lit "a"]; Node (lit "c") []].
Definition failed_run : srun := SRun (lit "failed")
  [Inst (lit "1") (lit "a") (lit "failed") 2 (Some 10%Z) (Some 20%Z);
   Inst (lit "2") (lit "b") (lit "upstream_failed") 0 None (Some 20%Z);
   Inst (lit "3") (lit "c") (lit "success") 1 (Some 10%Z) (Some 15%Z)] (Some failed_def) (Some failed_def).
Lemma run_actions_accepted_witness :
  offered false (Run (lit "failed") None None) (sr_tis failed_run)
    = [RetryRun; MarkRun (lit "success"); MarkRun (lit "failed")]
      ++ (RetryTask (lit "a") :: (MarkTask (lit "a") <$> TASK_MARKS))
      ++ (RetryTask (lit "b") :: (MarkTask (lit "b") <$> TASK_MARKS))
      ++ (MarkTask (lit "c") <$> TASK_MARKS) /\
  exists s', perform (fun k => k) 30 RetryRun failed_run = Done s' /\ sr_state s' = lit "running" /\
    Inst (lit "3") (lit "c") (lit "success") 1 (Some 10%Z) (Some 15%Z) ∈ sr_tis s' /\
    (forall y, y ∈ sr_tis s' -> is_retryable (in_state y) = false).
Proof.
  split; [vm_compute; reflexivity|].
  destruct (run_actions_accepted (fun k => k) 30 failed_run failed_def failed_def None None)
    as (_ & _ & _ & _ & H); [compute_decide|done|done| |].
  - intros x Hx. repeat (apply elem_of_cons in Hx as [->|Hx]); [..|by apply not_elem_of_nil in Hx]; split; compute_decide.
  - destruct (perform (fun k => k) 30 RetryRun failed_run) as [s'|] eqn:E; [|by vm_compute in E].
    destruct (H s' eq_refl) as (E1 & E2 & _ & _). exists s'. split; [done|]. split; [done|]. split; [|done].
    vm_compute in E. injection E as <-. apply (list_elem_of_lookup_2 _ 2). reflexivity.
Defined.
