(* ===== verification/Requests.v ===== *)
(** * The console's requests and the server's routes: the URLs of the pages (views.js,
    builder.js, base.js, boot.js), the URL parser of the browser, and the table of
    server.go, [Handler]

    A URL is the string given to [fetch] or [EventSource]. Of the browser's URL parser
    the model has the removal of dot segments; it leaves the other characters the
    pages write as they are. The server's router splits the path, decodes the segments
    and takes the route that matches. Authentication comes before, the bodies beside
    the mark requests' are left out. *)

From S2P Require Import Prelude JsCore Schedule TaskGraph Labels Routing Jump RunView RunDisplay RunActions.

(** ** The requests of the pages *)

(** Most ids are written with [encodeURIComponent], some as they are. *)
Inductive style := Plain | Encoded.
Definition put (st : style) (x : jstr) : jstr := match st with Plain => x | Encoded => enc x end.

Inductive req :=
| GetInfo | GetMe | PostLogin | PostLogout | GetOverview | GetDags | GetGraph
| PostDag | BuildDag | ValidateDag
| GetDag (st : style) (id : jstr) | DeleteDag (st : style) (id : jstr)
| PauseDag (st : style) (id : jstr) (paused : bool) | TriggerDag (st : style) (id : jstr)
| BackfillDag (id : jstr) | GetDagRuns (st : style) (id : jstr) (limit : N) (state : jstr)
| Preview (schedule start_date : jstr)
| GetRun (id : jstr) | PostCancel (id : jstr) | PostRetry (id : jstr) | PostMark (id : jstr)
| PostRetryTask (id task : jstr) | PostMarkTask (id task : jstr) | LogStream (ti : N)
| GetPools | PostPool (name : jstr) (slots : N)
| GetVariables | PostVariable (key : jstr) | DeleteVariable (key : jstr)
| GetConnections | PostConnection (id : jstr) | DeleteConnection (id : jstr)
| GetGroups | PostGroup (name : jstr) | DeleteGroup (name : jstr)
| GetProjects | PostProject (name : jstr)
| GetAudit (offset : option N)
| GetTokens | PostToken | DeleteToken (id : N)
| GetWorkers | PostDrain (id : jstr) | DeleteWorker (id : jstr) | PostWorkerToken.

Definition js_bool (b : bool) : jstr := if b then lit "true" else lit "false".

Definition method_of (r : req) : jstr :=
  match r with
  | PostLogin | PostLogout | PostDag | BuildDag | ValidateDag | PauseDag _ _ _ | TriggerDag _ _ | BackfillDag _
  | PostCancel _ | PostRetry _ | PostMark _ | PostRetryTask _ _ | PostMarkTask _ _ | PostPool _ _
  | PostVariable _ | PostConnection _ | PostGroup _ | PostProject _ | PostToken | PostDrain _ | PostWorkerToken => lit "POST"
  | DeleteDag _ _ | DeleteVariable _ | DeleteConnection _ | DeleteGroup _ | DeleteToken _ | DeleteWorker _ => lit "DELETE"
  | _ => lit "GET"
  end.

Definition url_of (r : req) : jstr :=
  match r with
  | GetInfo => lit "/api/info" | GetMe => lit "/api/me" | PostLogin => lit "/api/login" | PostLogout => lit "/api/logout"
  | GetOverview => lit "/api/overview" | GetDags => lit "/api/dags" | GetGraph => lit "/api/dag-graph"
  | PostDag => lit "/api/dags" | BuildDag => lit "/api/dags/build" | ValidateDag => lit "/api/dags/validate"
  | GetDag st id => lit "/api/dags/" ++ put st id
  | DeleteDag st id => lit "/api/dags/" ++ put st id
  | PauseDag st id b => lit "/api/dags/" ++ put st id ++ lit "/pause?paused=" ++ js_bool b
  | TriggerDag st id => lit "/api/dags/" ++ put st id ++ lit "/trigger"
  | BackfillDag id => lit "/api/dags/" ++ id ++ lit "/backfill"
  | GetDagRuns st id n state => lit "/api/dags/" ++ put st id ++ lit "/runs?limit=" ++ digits n
      ++ (if truthy state then lit "&state=" ++ enc state else [])
  | Preview s d => lit "/api/schedule/preview?schedule=" ++ enc s ++ lit "&start_date=" ++ enc d ++ lit "&n=3"
  | GetRun id => lit "/api/runs/" ++ enc id
  | PostCancel id => lit "/api/runs/" ++ enc id ++ lit "/cancel"
  | PostRetry id => lit "/api/runs/" ++ enc id ++ lit "/retry"
  | PostMark id => lit "/api/runs/" ++ enc id ++ lit "/mark"
  | PostRetryTask id k => lit "/api/runs/" ++ enc id ++ lit "/tasks/" ++ enc k ++ lit "/retry"
  | PostMarkTask id k => lit "/api/runs/" ++ enc id ++ lit "/tasks/" ++ enc k ++ lit "/mark"
  | LogStream ti => lit "/api/tasks/" ++ digits ti ++ lit "/log/stream"
  | GetPools => lit "/api/pools" | PostPool k n => lit "/api/pools/" ++ enc k ++ lit "?slots=" ++ digits n
  | GetVariables => lit "/api/variables"
  | PostVariable k => lit "/api/variables/" ++ enc k | DeleteVariable k => lit "/api/variables/" ++ enc k
  | GetConnections => lit "/api/connections"
  | PostConnection k => lit "/api/connections/" ++ enc k | DeleteConnection k => lit "/api/connections/" ++ enc k
  | GetGroups => lit "/api/alert-groups"
  | PostGroup k => lit "/api/alert-groups/" ++ enc k | DeleteGroup k => lit "/api/alert-groups/" ++ enc k
  | GetProjects => lit "/api/projects" | PostProject k => lit "/api/projects/" ++ enc k
  | GetAudit None => lit "/api/audit?limit=200" | GetAudit (Some n) => lit "/api/audit?limit=200&offset=" ++ digits n
  | GetTokens => lit "/api/tokens" | PostToken => lit "/api/tokens" | DeleteToken n => lit "/api/tokens/" ++ digits n
  | GetWorkers => lit "/api/workers" | PostDrain k => lit "/api/workers/" ++ enc k ++ lit "/drain"
  | DeleteWorker k => lit "/api/workers/" ++ enc k | PostWorkerToken => lit "/api/worker-tokens"
  end.

(** ** The browser: dot segments *)

Definition is_dot (s : jstr) : bool := bool_decide (toLowerCase s ∈ [lit "."; lit "%2e"]).
Definition is_dots (s : jstr) : bool :=
  bool_decide (toLowerCase s ∈ [lit ".."; lit ".%2e"; lit "%2e."; lit "%2e%2e"]).
(** The segments so far, last first. A dot segment at the end leaves an empty one. *)
Fixpoint dot_segments (out segs : list jstr) : list jstr :=
  match segs with
  | [] => reverse out
  | s :: r =>
    let fin o := match r with [] => [] :: o | _ => o end in
    if is_dots s then dot_segments (fin (tail out)) r
    else if is_dot s then dot_segments (fin out) r
    else dot_segments (s :: out) r
  end.

(** ** The server's routes *)

(** The table of [Handler] as it is written, without the static pages'. *)
Definition Handler : list (jstr * jstr) :=
  [(lit "GET /api/info", lit "getInfo"); (lit "GET /api/overview", lit "overview"); (lit "GET /api/dags", lit "listDAGs");
   (lit "GET /api/dag-graph", lit "dagGraph"); (lit "GET /api/schedule/preview", lit "schedulePreview");
   (lit "POST /api/dags", lit "createDAG"); (lit "POST /api/dags/build", lit "buildDAG");
   (lit "POST /api/dags/validate", lit "validateDAG"); (lit "GET /api/dags/{id}", lit "getDAG");
   (lit "DELETE /api/dags/{id}", lit "deleteDAG"); (lit "POST /api/dags/{id}/trigger", lit "triggerDAG");
   (lit "POST /api/dags/{id}/backfill", lit "backfillDAG"); (lit "POST /api/events", lit "publishEvent");
   (lit "POST /api/dags/{id}/hook", lit "setDagHook"); (lit "GET /api/dags/{id}/hook", lit "getDagHook");
   (lit "DELETE /api/dags/{id}/hook", lit "deleteDagHook"); (lit "POST /api/hooks/{id}/{secret}", lit "hookTrigger");
   (lit "POST /api/workers/join", lit "joinWorker"); (lit "GET /api/workers", lit "listWorkers");
   (lit "POST /api/workers/{id}/drain", lit "drainWorker"); (lit "DELETE /api/workers/{id}", lit "removeWorker");
   (lit "POST /api/worker-tokens", lit "createWorkerToken"); (lit "POST /api/dags/{id}/pause", lit "pauseDAG");
   (lit "GET /api/dags/{id}/runs", lit "listRuns"); (lit "GET /api/dags/{id}/task-durations", lit "taskDurations");
   (lit "GET /api/dags/{id}/versions", lit "listDagVersions");
   (lit "POST /api/dags/{id}/versions/{hash}/restore", lit "restoreDagVersion"); (lit "GET /api/runs/{runID}", lit "getRun");
   (lit "GET /api/runs/{runID}/timeline", lit "runTimeline"); (lit "POST /api/runs/{runID}/hold", lit "holdRun");
   (lit "POST /api/runs/{runID}/release", lit "releaseRun"); (lit "POST /api/runs/{runID}/cancel", lit "cancelRun");
   (lit "POST /api/runs/{runID}/retry", lit "retryRun"); (lit "POST /api/runs/{runID}/tasks/{taskID}/retry", lit "retryTask");
   (lit "POST /api/runs/{runID}/tasks/{taskID}/mark", lit "markTask"); (lit "POST /api/runs/{runID}/mark", lit "markRun");
   (lit "GET /api/tasks/{tiID}/log", lit "getLog"); (lit "GET /api/tasks/{tiID}/log/stream", lit "streamLog");
   (lit "GET /api/pools", lit "listPools"); (lit "POST /api/pools/{name}", lit "setPool");
   (lit "GET /api/variables", lit "listVariables"); (lit "POST /api/variables/{key}", lit "setVariable");
   (lit "DELETE /api/variables/{key}", lit "deleteVariable"); (lit "GET /api/alert-groups", lit "listAlertGroups");
   (lit "POST /api/alert-groups/{name}", lit "setAlertGroup"); (lit "DELETE /api/alert-groups/{name}", lit "deleteAlertGroup");
   (lit "GET /api/connections", lit "listConnections"); (lit "POST /api/connections/{id}", lit "setConnection");
   (lit "DELETE /api/connections/{id}", lit "deleteConnection"); (lit "GET /api/projects", lit "listProjects");
   (lit "GET /api/projects/{name}", lit "getProject"); (lit "POST /api/projects/{name}", lit "uploadProject");
   (lit "DELETE /api/projects/{name}", lit "deleteProject"); (lit "POST /api/login", lit "login");
   (lit "POST /api/logout", lit "logout"); (lit "GET /api/me", lit "me"); (lit "GET /healthz", lit "healthz");
   (lit "GET /readyz", lit "readyz"); (lit "GET /metrics", lit "metrics"); (lit "GET /api/audit", lit "listAudit");
   (lit "GET /api/tokens", lit "listTokens"); (lit "POST /api/tokens", lit "createToken");
   (lit "DELETE /api/tokens/{id}", lit "deleteToken"); (lit "GET /openapi.json", lit "openAPISpec"); (lit "GET /docs", lit "docsPage")].

(** A segment of a pattern: a word, or a wildcard with its name. *)
Inductive pat := Word (w : jstr) | Wild (name : jstr).
Definition pat_of (s : jstr) : pat :=
  match strip_prefix (lit "{") s with Some r => Wild (removelast r) | None => Word s end.
(** [cut sep s]: around the first [sep]. *)
Definition cut (sep : N) (s : jstr) : jstr * jstr :=
  let '(a, b) := span (fun c => negb (c =? sep)%N) s in (a, tail b).
Definition path_segs (path : jstr) : list jstr := tail (split_on (ch "/") path).
Definition route_pat (p : jstr) : jstr * list pat := let '(m, path) := cut (ch " ") p in (m, pat_of <$> path_segs path).
Definition table : list (jstr * list pat * jstr) := (fun '(p, h) => (route_pat p, h)) <$> Handler.

(** A wildcard takes a segment that is not empty. *)
Fixpoint match_pat (ps : list pat) (segs : list jstr) : option (list (jstr * jstr)) :=
  match ps, segs with
  | [], [] => Some []
  | Word w :: ps, s :: segs => if bool_decide (w = s) then match_pat ps segs else None
  | Wild n :: ps, s :: segs => if truthy s then cons (n, s) <$> match_pat ps segs else None
  | _, _ => None
  end.
(** No request matches two of these routes ([routes_apart]). *)
Fixpoint find_route (rs : list (jstr * list pat * jstr)) (m : jstr) (segs : list jstr) : option (jstr * list (jstr * jstr)) :=
  match rs with
  | [] => None
  | (m', ps, h) :: rs =>
    match (if bool_decide (m' = m) && Nat.eqb (length ps) (length segs) then match_pat ps segs else None) with
    | Some vs => Some (h, vs)
    | None => find_route rs m segs
    end
  end.

(** A segment that does not decode stays as it is. *)
Definition unescape (s : jstr) : jstr := default s (decodeURIComponent s).
Definition query_unescape (s : jstr) : jstr := unescape ((fun c => if (c =? ch "+")%N then ch " " else c) <$> s).
Definition parse_query (q : jstr) : list (jstr * jstr) :=
  (fun kv => let '(k, v) := cut (ch "=") kv in (query_unescape k, query_unescape v))
  <$> filter (fun kv => truthy kv = true) (split_on (ch "&") q).

(** The handler with its path values and its query; [None]: the file server. *)
Definition dispatch (m url : jstr) : option (jstr * list (jstr * jstr) * list (jstr * jstr)) :=
  let '(path, q) := cut (ch "?") url in
  (fun hv => (hv, parse_query q)) <$> find_route table m (unescape <$> dot_segments [] (path_segs path)).

(** What each request is meant to reach. *)
Definition meant (r : req) : jstr * list (jstr * jstr) * list (jstr * jstr) :=
  match r with
  | GetInfo => (lit "getInfo", [], []) | GetMe => (lit "me", [], []) | PostLogin => (lit "login", [], [])
  | PostLogout => (lit "logout", [], []) | GetOverview => (lit "overview", [], []) | GetDags => (lit "listDAGs", [], [])
  | GetGraph => (lit "dagGraph", [], []) | PostDag => (lit "createDAG", [], []) | BuildDag => (lit "buildDAG", [], [])
  | ValidateDag => (lit "validateDAG", [], [])
  | GetDag _ id => (lit "getDAG", [(lit "id", id)], []) | DeleteDag _ id => (lit "deleteDAG", [(lit "id", id)], [])
  | PauseDag _ id b => (lit "pauseDAG", [(lit "id", id)], [(lit "paused", js_bool b)])
  | TriggerDag _ id => (lit "triggerDAG", [(lit "id", id)], []) | BackfillDag id => (lit "backfillDAG", [(lit "id", id)], [])
  | GetDagRuns _ id n state => (lit "listRuns", [(lit "id", id)],
      (lit "limit", digits n) :: if truthy state then [(lit "state", state)] else [])
  | Preview s d => (lit "schedulePreview", [], [(lit "schedule", s); (lit "start_date", d); (lit "n", lit "3")])
  | GetRun id => (lit "getRun", [(lit "runID", id)], []) | PostCancel id => (lit "cancelRun", [(lit "runID", id)], [])
  | PostRetry id => (lit "retryRun", [(lit "runID", id)], []) | PostMark id => (lit "markRun", [(lit "runID", id)], [])
  | PostRetryTask id k => (lit "retryTask", [(lit "runID", id); (lit "taskID", k)], [])
  | PostMarkTask id k => (lit "markTask", [(lit "runID", id); (lit "taskID", k)], [])
  | LogStream ti => (lit "streamLog", [(lit "tiID", digits ti)], [])
  | GetPools => (lit "listPools", [], []) | PostPool k n => (lit "setPool", [(lit "name", k)], [(lit "slots", digits n)])
  | GetVariables => (lit "listVariables", [], []) | PostVariable k => (lit "setVariable", [(lit "key", k)], [])
  | DeleteVariable k => (lit "deleteVariable", [(lit "key", k)], [])
  | GetConnections => (lit "listConnections", [], []) | PostConnection k => (lit "setConnection", [(lit "id", k)], [])
  | DeleteConnection k => (lit "deleteConnection", [(lit "id", k)], [])
  | GetGroups => (lit "listAlertGroups", [], []) | PostGroup k => (lit "setAlertGroup", [(lit "name", k)], [])
  | DeleteGroup k => (lit "deleteAlertGroup", [(lit "name", k)], [])
  | GetProjects => (lit "listProjects", [], []) | PostProject k => (lit "uploadProject", [(lit "name", k)], [])
  | GetAudit o => (lit "listAudit", [], (lit "limit", lit "200") :: match o with Some n => [(lit "offset", digits n)] | None => [] end)
  | GetTokens => (lit "listTokens", [], []) | PostToken => (lit "createToken", [], [])
  | DeleteToken n => (lit "deleteToken", [(lit "id", digits n)], [])
  | GetWorkers => (lit "listWorkers", [], []) | PostDrain k => (lit "drainWorker", [(lit "id", k)], [])
  | DeleteWorker k => (lit "removeWorker", [(lit "id", k)], []) | PostWorkerToken => (lit "createWorkerToken", [], [])
  end.

(** ** The actions on a run *)

Definition action_req (id : jstr) (a : action) : req :=
  match a with
  | Cancel => PostCancel id | RetryRun => PostRetry id | MarkRun _ => PostMark id
  | RetryTask k => PostRetryTask id k | MarkTask k _ => PostMarkTask id k
  end.
(** The [state] of the body. *)
Definition action_body (a : action) : jstr :=
  match a with MarkRun st | MarkTask _ st => st | _ => [] end.
Definition value_of (vs : list (jstr * jstr)) (n : jstr) : jstr := default [] (Labels.assoc vs n).
(** The handlers of server.go. *)
Definition serve (h : jstr) (vs : list (jstr * jstr)) (body : jstr) : option (jstr * action) :=
  let run := value_of vs (lit "runID") in
  let task := value_of vs (lit "taskID") in
  if bool_decide (h = lit "cancelRun") then Some (run, Cancel)
  else if bool_decide (h = lit "retryRun") then Some (run, RetryRun)
  else if bool_decide (h = lit "retryTask") then Some (run, RetryTask task)
  else if bool_decide (h = lit "markTask") then Some (run, MarkTask task body)
  else if bool_decide (h = lit "markRun") then Some (run, MarkRun body)
  else None.

(** What a page does when one of its buttons is pressed. *)
Inductive button := BCancel | BRetry | BMark | BRetryTask (k : jstr) | BMarkTask (k : jstr).
Inductive place := RunPage | History | NovicePage.
Inductive ui :=
| UConfirm (title body ok : label) (danger : bool)
| UPick (title body : label) (choices : list (jstr * label))
| USend (r : req) (body : jstr)
| UToast (msg : label) (kind : jstr)
| UOpenRun (id : jstr) | URefreshRuns.

Definition mark_label (st : jstr) : label :=
  if bool_decide (st = lit "success") then T (lit "notify_success") []
  else if bool_decide (st = lit "skipped") then T (lit "mark_skip") [] else T (lit "notify_failure") [].
Definition choices (l : list jstr) : list (jstr * label) := (fun st => (st, mark_label st)) <$> l.
Definition asks (id : jstr) (b : button) : list ui :=
  match b with
  | BCancel => [UConfirm (T (lit "confirm_cancel_title") [Raw id]) (T (lit "confirm_cancel_body") []) (T (lit "run_cancel") []) true]
  | BRetry => []
  | BMark => [UPick (T (lit "mark_run_title") [Raw id]) (T (lit "mark_run_body") []) (choices RUN_MARKS)]
  | BRetryTask k => [UConfirm (T (lit "confirm_retry_title") [Raw k]) (T (lit "confirm_retry_body") []) (T (lit "task_retry") []) false]
  | BMarkTask k => [UPick (T (lit "mark_task_title") [Raw k]) (T (lit "mark_task_body") []) (choices TASK_MARKS)]
  end.
(** The answer of the dialog: [None] when it is dismissed, the choice of a pick. *)
Definition chosen (b : button) (ans : option jstr) : option action :=
  match b, ans with
  | BRetry, _ => Some RetryRun
  | BCancel, Some _ => Some Cancel
  | BRetryTask k, Some _ => Some (RetryTask k)
  | BMark, Some st => if truthy st then Some (MarkRun st) else None
  | BMarkTask k, Some st => if truthy st then Some (MarkTask k st) else None
  | _, None => None
  end.
Definition done_label (a : action) : label :=
  match a with
  | Cancel => T (lit "run_cancelled_toast") []
  | RetryRun | RetryTask _ => T (lit "run_retried_toast") []
  | MarkRun _ | MarkTask _ _ => T (lit "mark_done_toast") []
  end.
(** After the request; [failure] is the message of an error. *)
Definition after (p : place) (id : jstr) (a : action) (failure : option jstr) : list ui :=
  match failure, p with
  | Some m, _ => [UToast (Raw m) (lit "fail")]
  | None, RunPage => [UToast (done_label a) (lit "ok"); UOpenRun id]
  | None, History => [UToast (done_label a) (lit "ok"); URefreshRuns]
  | None, NovicePage => match a with RetryRun => [UOpenRun id] | _ => [] end
  end.
Definition click (p : place) (id : jstr) (b : button) (ans failure : option jstr) : list ui :=
  asks id b ++ match chosen b ans with
               | Some a => USend (action_req id a) (action_body a) :: after p id a failure
               | None => []
               end.

(** ** What is encoded comes back *)

(** Names that a request can carry. *)
Definition name_ok (s : jstr) : Prop := id_ok s /\ s <> lit "." /\ s <> lit "..".
Definition style_ok (st : style) (s : jstr) : Prop := name_ok s /\ (st = Plain -> forallb is_idchar s = true).
Definition req_ok (r : req) : Prop :=
  match r with
  | GetDag st id | DeleteDag st id | PauseDag st id _ | TriggerDag st id => style_ok st id
  | GetDagRuns st id _ state => style_ok st id /\ ascii state
  | BackfillDag id => style_ok Plain id
  | Preview s d => ascii s /\ ascii d
  | GetRun k | PostCancel k | PostRetry k | PostMark k | PostPool k _ | PostVariable k | DeleteVariable k | PostConnection k
  | DeleteConnection k | PostGroup k | DeleteGroup k | PostProject k | PostDrain k | DeleteWorker k => name_ok k
  | PostRetryTask id k | PostMarkTask id k => name_ok id /\ name_ok k
  | _ => True
  end.

Lemma enc_plain s : forallb unreserved s = true -> enc s = s.
Proof.
  intros H. assert (Ha : ascii s).
  { apply Forall_forall. intros c Hc%list_elem_of_In. rewrite forallb_forall in H. specialize (H _ Hc).
    unfold unreserved, is_alnum, is_digit in H. destruct (N.ltb_spec c 128); [done|]. exfalso. revert H.
    rewrite !(proj2 (N.leb_gt c _)) by lia. rewrite !andb_false_r. cbn [orb]. rewrite bool_decide_eq_true.
    intros Hc'. repeat (apply elem_of_cons in Hc' as [->|Hc']; [lia|]). by apply not_elem_of_nil in Hc'. }
  rewrite enc_ascii by done. clear Ha. induction s as [|c s IH]; [done|]. cbn in H |- *. apply andb_true_iff in H as [Hc Hs].
  rewrite enc_char_plain by done. cbn. by rewrite IH.
Qed.
Lemma idchar_unreserved c : is_idchar c = true -> unreserved c = true.
Proof.
  unfold is_idchar, unreserved. rewrite !orb_true_iff, bool_decide_eq_true, !N.eqb_eq.
  intros [[[H | ->] | ->] | ->]; [by left|right; compute_decide..].
Qed.
Lemma enc_idchars s : forallb is_idchar s = true -> enc s = s.
Proof.
  intros H. apply enc_plain. rewrite forallb_forall in *. intros c Hc. by apply idchar_unreserved, H.
Qed.
Lemma digits_ascii n : ascii (digits n).
Proof.
  eapply Forall_impl; [apply digits_digit|]. intros c H. unfold is_digit in H. apply andb_true_iff in H as [_ H%N.leb_le]. lia.
Qed.
Lemma hex_digit_plain n : (n < 16)%N -> unreserved (hex_digit n) = true.
Proof.
  intros H. unfold unreserved. apply orb_true_iff. left. unfold is_alnum, is_digit, hex_digit.
  destruct (N.ltb_spec n 10); rewrite !orb_true_iff, !andb_true_iff, !N.leb_le; [left; left|left; right]; lia.
Qed.
(** A reserved character other than the percent sign does not occur in an encoding. *)
Lemma enc_avoids s c : ascii s -> unreserved c = false -> c <> ch "%" -> c ∉ enc s.
Proof.
  intros Ha Hc Hp. rewrite enc_ascii by done. rewrite list_elem_of_In. intros (x & Hx & Hin)%in_flat_map.
  apply list_elem_of_In in Hx. unfold ascii in Ha. rewrite Forall_forall in Ha. specialize (Ha _ Hx).
  destruct (unreserved x) eqn:E.
  - rewrite enc_char_plain in Hin by done. destruct Hin as [->|[]]. congruence.
  - rewrite enc_char_pct in Hin by done. destruct Hin as [<-|[<-|[<-|[]]]]; [done|..].
    + rewrite hex_digit_plain in Hc; [done|]. apply N.Div0.div_lt_upper_bound. lia.
    + rewrite hex_digit_plain in Hc; [done|]. by apply N.mod_lt.
Qed.
Lemma join_avoids c sep l : c <> sep -> Forall (fun w => c ∉ w) l -> c ∉ join [sep] l.
Proof.
  intros Hs. induction 1 as [|w l Hw Hl IH]; [apply not_elem_of_nil|]. destruct l as [|w' l]; [done|].
  rewrite join_cons. set_solver.
Qed.
Lemma cut_at sep a b : sep ∉ a -> cut sep (a ++ sep :: b) = (a, b).
Proof.
  intros H. unfold cut. assert (E : span (fun c => negb (c =? sep)%N) (a ++ sep :: b) = (a, sep :: b)); [|by rewrite E].
  induction a as [|x a IH]; cbn; [by rewrite N.eqb_refl|]. destruct (N.eqb_spec x sep) as [->|]; [set_solver|].
  cbn. rewrite IH by set_solver. done.
Qed.
Lemma cut_none sep a : sep ∉ a -> cut sep a = (a, []).
Proof.
  intros H. unfold cut. assert (E : span (fun c => negb (c =? sep)%N) a = (a, [])); [|by rewrite E].
  induction a as [|x a IH]; cbn; [done|]. destruct (N.eqb_spec x sep) as [->|]; [set_solver|].
  cbn. rewrite IH by set_solver. done.
Qed.

(** ** Paths *)

Lemma lower_inv c n : lower_ascii c = n -> c = n \/ (97 <= n <= 122)%N /\ c = (n - 32)%N.
Proof.
  unfold lower_ascii. destruct ((65 <=? c) && (c <=? 90))%N eqn:E; [|by left]. apply andb_true_iff in E.
  rewrite !N.leb_le in E. intros <-. right. lia.
Qed.
Lemma lower_cons_inv s n p : toLowerCase s = n :: p -> exists c s', s = c :: s' /\ lower_ascii c = n /\ toLowerCase s' = p.
Proof. destruct s as [|c s]; [done|]. intros [= <- <-]. eauto. Qed.
(** An encoding reads as dots only when the name is made of them. *)
Lemma dots_decode s : is_dot s || is_dots s = true -> decodeURIComponent s ∈ [Some (lit "."); Some (lit "..")].
Proof.
  unfold is_dot, is_dots. rewrite orb_true_iff, !bool_decide_eq_true. intros H.
  assert (Hin : toLowerCase s ∈ [lit "."; lit "%2e"] ++ [lit ".."; lit ".%2e"; lit "%2e."; lit "%2e%2e"]) by (apply elem_of_app; tauto).
  clear H. cbn [app] in Hin.
  repeat (apply elem_of_cons in Hin as [Hin|Hin]); [..|by apply not_elem_of_nil in Hin];
    repeat match type of Hin with
    | toLowerCase ?s = _ :: _ => apply lower_cons_inv in Hin as (? & ? & -> & [-> | [? ->]]%lower_inv & Hin); [|try lia]
    end; apply fmap_nil_inv in Hin as ->; compute_decide.
Qed.
Lemma enc_not_dots s : name_ok s -> is_dot (enc s) || is_dots (enc s) = false.
Proof.
  intros ([Ha _] & H1 & H2). apply not_true_iff_false. intros H%dots_decode. rewrite decode_enc in H by done.
  apply elem_of_cons in H as [[=]|[[=]|?%not_elem_of_nil]%elem_of_cons]; done.
Qed.
Lemma dot_segments_id out segs : Forall name_ok segs ->
  dot_segments out (enc <$> segs) = reverse out ++ (enc <$> segs).
Proof.
  intros H. revert out. induction H as [|s segs Hs H IH]; intros out; [by rewrite app_nil_r|].
  cbn [fmap list_fmap dot_segments]. apply enc_not_dots in Hs. apply orb_false_iff in Hs as [-> ->].
  rewrite IH, reverse_cons, <- app_assoc. done.
Qed.

Definition query_str (q : list (jstr * jstr)) : jstr := join [ch "&"] ((fun kv => enc kv.1 ++ [ch "="] ++ enc kv.2) <$> q).
Definition full_url (segs : list jstr) (q : list (jstr * jstr)) : jstr :=
  [ch "/"] ++ join [ch "/"] (enc <$> segs) ++ match q with [] => [] | _ => [ch "?"] ++ query_str q end.
Definition pair_ok (kv : jstr * jstr) : Prop := ascii kv.1 /\ ascii kv.2.

Lemma query_unescape_enc s : ascii s -> query_unescape (enc s) = s.
Proof.
  intros H. unfold query_unescape. replace (_ <$> enc s) with (enc s).
  - unfold unescape. by rewrite decode_enc.
  - symmetry. rewrite <- (list_fmap_id (enc s)) at 2. apply list_fmap_ext. intros i c Hc.
    destruct (N.eqb_spec c (ch "+")) as [->|]; [|done]. apply list_elem_of_lookup_2 in Hc.
    by apply enc_avoids in Hc.
Qed.
Lemma parse_query_str q : Forall pair_ok q -> parse_query (query_str q) = q.
Proof.
  intros H. destruct q as [|kv0 q0]; [done|]. set (q := kv0 :: q0) in *. unfold parse_query, query_str. rewrite split_join; [|done|].
  - rewrite filter_all.
    + rewrite <- list_fmap_compose. rewrite <- (list_fmap_id q) at 2. apply list_fmap_ext. intros i [k v] Hkv.
      rewrite Forall_lookup in H. destruct (H _ _ Hkv) as [Hk Hv]. cbn [compose fst snd] in *.
      change ([ch "="] ++ enc v) with (ch "=" :: enc v). rewrite cut_at by (by apply enc_avoids).
      by rewrite !query_unescape_enc.
    + apply Forall_fmap. eapply Forall_impl; [exact H|]. intros [k v] _. unfold compose; cbn [fst snd]. destruct (enc k); reflexivity.
  - apply Forall_fmap. eapply Forall_impl; [exact H|]. intros [k v] [Hk Hv]. cbn in *.
    rewrite elem_of_app, elem_of_cons. intros [Hc|[Hc|Hc]]; [|done|]; by apply enc_avoids in Hc.
Qed.
Lemma path_segs_join l : l <> [] -> Forall (fun w => ch "/" ∉ w) l -> path_segs ([ch "/"] ++ join [ch "/"] l) = l.
Proof.
  intros Hn Hl. unfold path_segs. rewrite (split_on_cons (ch "/") [] _ (not_elem_of_nil _) : split_on (ch "/") ([ch "/"] ++ _) = _).
  by rewrite split_join.
Qed.
(** A URL of good names is taken apart into them. *)
Lemma dispatch_full m segs q : segs <> [] -> Forall name_ok segs -> Forall pair_ok q ->
  dispatch m (full_url segs q) = (fun hv => (hv, q)) <$> find_route table m segs.
Proof.
  intros Hn Hs Hq. unfold dispatch, full_url.
  assert (Ha : Forall ascii segs) by (eapply Forall_impl; [exact Hs|]; by intros s [[? _] _]).
  assert (Hav : forall c, unreserved c = false -> c <> ch "%" -> Forall (fun w => c ∉ w) (enc <$> segs)).
  { intros c H1 H2. apply Forall_fmap. eapply Forall_impl; [exact Ha|]. intros s ?. by apply enc_avoids. }
  assert (Hc : cut (ch "?") ([ch "/"] ++ join [ch "/"] (enc <$> segs) ++ match q with [] => [] | _ => [ch "?"] ++ query_str q end)
               = ([ch "/"] ++ join [ch "/"] (enc <$> segs), query_str q)).
  { assert (Hq' : ch "?" ∉ [ch "/"] ++ join [ch "/"] (enc <$> segs)).
    { apply not_elem_of_app. split; [by intros ?%list_elem_of_singleton|]. apply join_avoids; [done|]. by apply Hav. }
    destruct q as [|kv q']; [rewrite app_nil_r; by apply cut_none|]. rewrite app_assoc. by apply cut_at. }
  rewrite Hc, parse_query_str by done.
  rewrite path_segs_join by first [by destruct segs | by apply Hav]. rewrite dot_segments_id by done.
  assert (E : unescape <$> reverse [] ++ (enc <$> segs) = segs); [|by rewrite E].
  change (reverse [] ++ (enc <$> segs)) with (enc <$> segs). rewrite <- list_fmap_compose. rewrite <- (list_fmap_id segs) at 2.
  apply list_fmap_ext. intros i s Hi. rewrite Forall_lookup in Ha. unfold compose, unescape. by rewrite decode_enc by (by eapply Ha).
Qed.

(** ** Every request reaches its handler *)

Definition segs_of (r : req) : list jstr :=
  lit "api" :: match r with
  | GetInfo => [lit "info"] | GetMe => [lit "me"] | PostLogin => [lit "login"] | PostLogout => [lit "logout"]
  | GetOverview => [lit "overview"] | GetDags | PostDag => [lit "dags"] | GetGraph => [lit "dag-graph"]
  | BuildDag => [lit "dags"; lit "build"] | ValidateDag => [lit "dags"; lit "validate"]
  | GetDag _ id | DeleteDag _ id => [lit "dags"; id]
  | PauseDag _ id _ => [lit "dags"; id; lit "pause"] | TriggerDag _ id => [lit "dags"; id; lit "trigger"]
  | BackfillDag id => [lit "dags"; id; lit "backfill"] | GetDagRuns _ id _ _ => [lit "dags"; id; lit "runs"]
  | Preview _ _ => [lit "schedule"; lit "preview"]
  | GetRun id => [lit "runs"; id] | PostCancel id => [lit "runs"; id; lit "cancel"]
  | PostRetry id => [lit "runs"; id; lit "retry"] | PostMark id => [lit "runs"; id; lit "mark"]
  | PostRetryTask id k => [lit "runs"; id; lit "tasks"; k; lit "retry"]
  | PostMarkTask id k => [lit "runs"; id; lit "tasks"; k; lit "mark"]
  | LogStream ti => [lit "tasks"; digits ti; lit "log"; lit "stream"]
  | GetPools => [lit "pools"] | PostPool k _ => [lit "pools"; k]
  | GetVariables => [lit "variables"] | PostVariable k | DeleteVariable k => [lit "variables"; k]
  | GetConnections => [lit "connections"] | PostConnection k | DeleteConnection k => [lit "connections"; k]
  | GetGroups => [lit "alert-groups"] | PostGroup k | DeleteGroup k => [lit "alert-groups"; k]
  | GetProjects => [lit "projects"] | PostProject k => [lit "projects"; k]
  | GetAudit _ => [lit "audit"] | GetTokens | PostToken => [lit "tokens"] | DeleteToken n => [lit "tokens"; digits n]
  | GetWorkers => [lit "workers"] | PostDrain k => [lit "workers"; k; lit "drain"] | DeleteWorker k => [lit "workers"; k]
  | PostWorkerToken => [lit "worker-tokens"]
  end.

Lemma put_enc st s : style_ok st s -> put st s = enc s.
Proof. intros [_ H]. destruct st; [|done]. symmetry. by apply enc_idchars, H. Qed.
Ltac plain_words :=
  repeat match goal with
  | |- context [enc (digits ?n)] => rewrite (enc_idchars (digits n)) by apply digits_idchars
  | |- context [enc (?c :: ?l)] => rewrite (enc_plain (c :: l)) by (vm_compute; reflexivity)
  end.
Lemma url_full r : req_ok r -> url_of r = full_url (segs_of r) (meant r).2.
Proof.
  intros H. unfold full_url, query_str.
  destruct r; cbn [req_ok] in H; cbn [url_of segs_of meant snd fst fmap list_fmap app];
    rewrite ?put_enc by first [done|by apply H];
    try match goal with |- context [if truthy ?s then _ else _] => destruct (truthy s) end;
    try match goal with b : bool |- _ => destruct b end; try match goal with o : option N |- _ => destruct o end;
    cbn [fmap list_fmap js_bool]; unfold join; cbn [fst snd]; plain_words; cbn [app]; rewrite ?app_nil_r, <- ?app_assoc; cbn [app]; try reflexivity.
  rewrite <- (enc_idchars id) at 1 by (by apply H). done.
Qed.

Ltac split_ok :=
  repeat match goal with
  | H : style_ok _ _ |- _ => destruct H
  | H : style_ok _ _ /\ _ |- _ => destruct H
  | H : name_ok _ /\ _ |- _ => destruct H
  | H : ascii _ /\ _ |- _ => destruct H
  end.
Lemma word_name s : forallb (fun c => c <? 128)%N s && truthy s && negb (bool_decide (s ∈ [lit "."; lit ".."])) = true -> name_ok s.
Proof.
  intros [H Hd%negb_true_iff]%andb_true_iff. split; [by apply word_ok|]. apply bool_decide_eq_false in Hd. set_solver.
Qed.
Lemma digits_name n : name_ok (digits n).
Proof.
  split; [split; [apply digits_ascii|apply digits_nonnil]|].
  split; intros E; pose proof (digits_digit n) as H; rewrite E in H; by inversion H.
Qed.
Lemma segs_ok r : req_ok r -> Forall name_ok (segs_of r).
Proof.
  intros H. destruct r; cbn [req_ok] in H; split_ok; unfold segs_of;
    repeat first [apply Forall_nil_2 | apply Forall_cons_2];
    first [done | apply digits_name | by apply word_name].
Qed.
Lemma query_ok r : req_ok r -> Forall pair_ok (meant r).2.
Proof.
  intros H. destruct r; cbn [req_ok] in H; split_ok; cbn [meant snd];
    try match goal with |- context [if truthy ?s then _ else _] => destruct (truthy s) end;
    try match goal with b : bool |- _ => destruct b end; try match goal with o : option N |- _ => destruct o end;
    repeat first [apply Forall_nil_2 | apply Forall_cons_2]; split; cbn [fst snd];
    first [done | apply digits_ascii | by apply word_ok].
Qed.
Lemma found r : req_ok r -> find_route table (method_of r) (segs_of r) = Some (meant r).1.
Proof.
  intros H. assert (Hd : forall n, exists c d, digits n = c :: d).
  { intros n. pose proof (digits_nonnil n). destruct (digits n); [done|eauto]. }
  assert (Hn : forall s, name_ok s -> exists c d, s = c :: d) by (intros [|c d] [[_ ?] _]; [done|eauto]).
  destruct r; cbn [req_ok] in H; split_ok; unfold segs_of, meant, method_of; cbn [fst];
    repeat match goal with
    | H : name_ok ?s |- _ => let c := fresh "c" in destruct (Hn s H) as (c & ? & ->); clear H
    | |- context [digits ?n] => let c := fresh "c" in destruct (Hd n) as (c & ? & ->)
    end; vm_compute; reflexivity.
Qed.
Lemma arrives r : req_ok r -> dispatch (method_of r) (url_of r) = Some (meant r).
Proof.
  intros H. rewrite url_full by done. rewrite dispatch_full by first [by apply segs_ok | by apply query_ok | done].
  rewrite found by done. cbn [fmap option_fmap option_map]. by destruct (meant r).
Qed.

(** Two different routes take no request in common. *)
Fixpoint pats_meet (a b : list pat) : bool :=
  match a, b with
  | [], [] => true
  | Word v :: a, Word w :: b => bool_decide (v = w) && pats_meet a b
  | _ :: a, _ :: b => pats_meet a b
  | _, _ => false
  end.
Lemma match_meet a b segs va vb : match_pat a segs = Some va -> match_pat b segs = Some vb -> pats_meet a b = true.
Proof.
  revert b segs va vb. induction a as [|p a IH]; intros b segs va vb; [by destruct segs, b as [|[]]|].
  destruct segs as [|s segs]; [by destruct p|]. destruct b as [|q b]; [done|].
  destruct p, q; cbn; repeat case_bool_decide; repeat case_match; intros; try done;
    repeat match goal with H : _ <$> _ = Some _ |- _ => apply fmap_Some in H as (? & ? & ?) end; first [congruence | eauto].
Qed.
Lemma routes_apart (i j : nat) m m' a b h h' segs va vb :
  table !! i = Some (m, a, h) -> table !! j = Some (m', b, h') -> m = m' ->
  match_pat a segs = Some va -> match_pat b segs = Some vb -> i = j.
Proof.
  intros Hi Hj -> Ha Hb. pose proof (match_meet _ _ _ _ _ Ha Hb) as Hm.
  assert (Hc : forallb (fun i => forallb (fun j => match table !! i, table !! j with
      | Some (m, a, _), Some (m', b, _) => negb (bool_decide (m = m') && pats_meet a b) || Nat.eqb i j
      | _, _ => true end) (seq 0 (length table))) (seq 0 (length table)) = true) by (vm_compute; reflexivity).
  rewrite forallb_forall in Hc. specialize (Hc i). rewrite forallb_forall in Hc.
  assert (Hl : forall k x, table !! k = Some x -> In k (seq 0 (length table))).
  { intros k x Hk. apply in_seq. apply lookup_lt_Some in Hk. lia. }
  specialize (Hc (Hl _ _ Hi) j (Hl _ _ Hj)). rewrite Hi, Hj, Hm, bool_decide_true in Hc by done. by apply Nat.eqb_eq in Hc.
Qed.

(** The names [CFG_KEY_RE] lets through and a URL does not carry. *)
Definition by_name (k : jstr) : list req :=
  [PostVariable k; DeleteVariable k; PostConnection k; DeleteConnection k; PostGroup k; DeleteGroup k].

Definition button_ok (b : button) : Prop := match b with BRetryTask k | BMarkTask k => name_ok k | _ => True end.


