(* ===== verification/PillDrag.v ===== *)
(** * Dragging pills and inserting names (views.js): [makePill], [insertAtCaret],
    [insertNodesAtCaret]'s choice of a place, [peDragStart], [peDragOver], [peDrop],
    [peDragEnd] and the listeners of [wirePillEditor]

    The editors of the task page are kept by the task's field they edit, each with its
    content and the field's present value. A content that lies in pieces because of a
    drop caret reads as the normalized one: two contents are the same on screen when
    they normalize to the same. The browser computes the place under the pointer. *)

From S2P Require Import Prelude JsCore Schedule DagModel PillEditor.

(** ** A pill, and text fields *)

Record pill_view := PillView {
  pv_class : jstr; pv_tpl : jstr; pv_aria : label; pv_title : list label; pv_label : jstr; pv_remove : label;
}.
Definition kind_class (k : pill_kind) : jstr :=
  match k with
  | KBuiltin => lit "builtin" | KVar => lit "var" | KConn => lit "conn" | KParams => lit "params" | KOther => lit "other"
  end.
Definition makePill (name : jstr) : pill_view :=
  PillView (lit "pill pill-" ++ kind_class (tplMeta name).1) name (T (lit "var_pill_aria") [Raw name])
    (pill_title name) name (T (lit "var_pill_remove") [Raw name]).

(** The field's new value and caret; [None]: the element has no selection. *)
Definition insertAtCaret (value : jstr) (sel : option (nat * nat)) (text : jstr) : jstr * nat :=
  let '(s, e) := default (length value, length value) sel in
  (take s value ++ text ++ drop e value, s + length text).

(** ** Places in an editor *)

(** Between two nodes, in a text node, or in a pill's own text. *)
Inductive caret := Between (i : nat) | InText (i off : nat) | InPill (i : nat).

(** The content before and after; [insertNodesAtCaret] hops out of a pill. *)
Definition split_at (ns : list dnode) (c : caret) : list dnode * list dnode :=
  match c with
  | Between i => (take i ns, drop i ns)
  | InPill i => (take (S i) ns, drop (S i) ns)
  | InText i off =>
    match ns !! i with
    | Some (Txt d) => (take i ns ++ [Txt (take off d)], Txt (drop off d) :: drop (S i) ns)
    | _ => (take i ns, drop i ns)
    end
  end.
(** Where the node at [k] is once the content is split there. *)
Definition shifted (ns : list dnode) (c : caret) (k : nat) : nat :=
  match c with
  | InText i _ => match ns !! i with Some (Txt _) => if k <=? i then k else S k | _ => k end
  | _ => k
  end.
(** The selection, the one remembered, or the end. *)
Definition insertion_caret (ns : list dnode) (live saved : option caret) : caret :=
  match live, saved with
  | Some c, _ => c
  | None, Some c => c
  | None, None => Between (length ns)
  end.

(** [Node.normalize]: neighbouring text nodes are joined, empty ones removed. *)
Definition merge (n : dnode) (acc : list dnode) : list dnode :=
  match n, acc with
  | Txt d, Txt d' :: r => Txt (d ++ d') :: r
  | Txt d, _ => text_node d ++ acc
  | _, _ => n :: acc
  end.
Fixpoint norm_node (n : dnode) : dnode :=
  match n with
  | Elem b kids => Elem b (foldr (fun k acc => merge (norm_node k) acc) [] kids)
  | _ => n
  end.
Definition normalize (ns : list dnode) : list dnode := foldr (fun n acc => merge (norm_node n) acc) [] ns.
(** What an editor shows, as a string. *)
Definition text_of (ns : list dnode) : jstr := readPillEditor (normalize ns).

(** ** Dragging *)

(** A chip of the palette, a pill of an editor, or a pill that has left the page. *)
Inductive source := Chip | PillAt (f : jstr) (i : nat) | Removed.
Record drag := Drag { dg_name : jstr; dg_source : source }.
Record pane := Pane { pn_nodes : list dnode; pn_value : jstr }.
Record pdrag := PDrag {
  pd_panes : gmap jstr pane;           (** the editors, with their fields of the task *)
  pd_drag : option drag;               (** [peDrag] *)
  pd_caret : option (jstr * nat);      (** [peDropCaret]: its editor and the nodes before it *)
  pd_marked : gset jstr;               (** the editors of class pe-drop *)
  pd_saves : nat;                      (** calls of [saveDag] *)
}.
Definition set_nodes (f : jstr) (ns : list dnode) (s : pdrag) : pdrag :=
  PDrag (alter (fun p => Pane ns (pn_value p)) f (pd_panes s)) (pd_drag s) (pd_caret s) (pd_marked s) (pd_saves s).
Definition set_drag (d : option drag) (s : pdrag) : pdrag := PDrag (pd_panes s) d (pd_caret s) (pd_marked s) (pd_saves s).
Definition set_caret (c : option (jstr * nat)) (s : pdrag) : pdrag := PDrag (pd_panes s) (pd_drag s) c (pd_marked s) (pd_saves s).
Definition set_marked (m : gset jstr) (s : pdrag) : pdrag := PDrag (pd_panes s) (pd_drag s) (pd_caret s) m (pd_saves s).
Definition saved (s : pdrag) : pdrag := PDrag (pd_panes s) (pd_drag s) (pd_caret s) (pd_marked s) (S (pd_saves s)).
Definition nodes_of (s : pdrag) (f : jstr) : list dnode := from_option pn_nodes [] (pd_panes s !! f).
Definition value_of (s : pdrag) (f : jstr) : jstr := from_option pn_value [] (pd_panes s !! f).

(** The listener of the input event. *)
Definition sync (f : jstr) (s : pdrag) : pdrag :=
  PDrag (alter (fun p => Pane (pn_nodes p) (readPillEditor (pn_nodes p))) f (pd_panes s))
    (pd_drag s) (pd_caret s) (pd_marked s) (pd_saves s).

Definition peDragStart (name : jstr) (src : source) (s : pdrag) : pdrag := set_drag (Some (Drag name src)) s.
Definition peRemoveDropCaret (s : pdrag) : pdrag := set_caret None s.
Definition peDragEnd (s : pdrag) : pdrag := set_drag None (peRemoveDropCaret (set_marked ∅ s)).

(** The source of a drag once an editor's content is split. *)
Definition moved_source (f : jstr) (ns : list dnode) (c : caret) (d : drag) : drag :=
  match dg_source d with
  | PillAt g k => if bool_decide (g = f) then Drag (dg_name d) (PillAt g (shifted ns c k)) else d
  | _ => d
  end.
(** [pt]: the place under the pointer, when it is in the editor. *)
Definition peDragOver (f : jstr) (pt : option caret) (s : pdrag) : pdrag :=
  match pd_drag s with
  | None => s
  | Some d =>
    let s1 := peRemoveDropCaret (set_marked ({[f]} ∪ pd_marked s) s) in
    match pt with
    | None | Some (InPill _) => s1
    | Some c =>
      let '(l, r) := split_at (nodes_of s f) c in
      set_caret (Some (f, length l)) (set_drag (Some (moved_source f (nodes_of s f) c d)) (set_nodes f (l ++ r) s1))
    end
  end.
Definition dragleave (f : jstr) (outside : bool) (s : pdrag) : pdrag :=
  if outside then peRemoveDropCaret (set_marked (pd_marked s ∖ {[f]}) s) else s.

(** [removePill] for the node at [i]. *)
Definition remove_at (ns : list dnode) (i : nat) : list dnode := removePill (take i ns) (drop (S i) ns).
Definition peDrop (f : jstr) (pt : option caret) (s : pdrag) : pdrag :=
  match pd_drag s with
  | None => s
  | Some d =>
    let s1 := set_marked (pd_marked s ∖ {[f]}) (peRemoveDropCaret s) in
    match pt with
    | None => peDragEnd s1
    | Some c =>
      let ns := nodes_of s f in
      let '(l, r) := split_at ns c in
      let s2 := sync f (set_nodes f (insertPill l r (dg_name d)) s1) in
      let s3 := match dg_source d with
        | PillAt g k =>
          let k' := if bool_decide (g = f)
                    then (let j := shifted ns c k in if j <? length l then j else j + 2) else k in
          set_drag (Some (Drag (dg_name d) Removed)) (set_nodes g (remove_at (nodes_of s2 g) k') s2)
        | _ => s2
        end in
      saved (sync f (set_nodes f (normalize (nodes_of s3 f)) s3))
    end
  end.

Inductive pd_event :=
| EChip (name : jstr) | EPill (f : jstr) (i : nat)
| EOver (f : jstr) (pt : option caret) | ELeave (f : jstr) (outside : bool)
| EDrop (f : jstr) (pt : option caret) | EEnd.
(** The end of a drag is told to its source; from a pill that has left the page the
    event does not reach the editor. *)
Definition pd_step (e : pd_event) (s : pdrag) : pdrag :=
  match e with
  | EChip name => peDragStart name Chip s
  | EPill f i => match nodes_of s f !! i with Some (Pill name) => peDragStart name (PillAt f i) s | _ => s end
  | EOver f pt => peDragOver f pt s
  | ELeave f outside => dragleave f outside s
  | EDrop f pt => peDrop f pt s
  | EEnd => match pd_drag s with Some (Drag _ Removed) | None => s | Some _ => peDragEnd s end
  end.
Definition pd_run (es : list pd_event) (s : pdrag) : pdrag := fold_left (fun s e => pd_step e s) es s.
Definition is_drop (e : pd_event) : bool := match e with EDrop _ _ => true | _ => false end.

(** ** Contents that are the same on screen *)

Lemma normalize_cons n ns : normalize (n :: ns) = merge (norm_node n) (normalize ns).
Proof. done. Qed.
Lemma merge_text_nil acc : merge (Txt []) acc = acc.
Proof. by destruct acc as [|[] acc]. Qed.
Lemma merge_text_merge d e acc : merge (Txt d) (merge (Txt e) acc) = merge (Txt (d ++ e)) acc.
Proof.
  destruct acc as [|[x| | |] acc]; cbn; rewrite ?app_assoc; try done; destruct e as [|c e]; cbn; rewrite ?app_nil_r; try done;
    by destruct d.
Qed.
Lemma foldr_merge acc n m : foldr merge acc (merge n m) = merge n (foldr merge acc m).
Proof.
  destruct n as [d| | |]; [|done..]. destruct m as [|[d'| | |] r]; cbn [foldr].
  2: by rewrite merge_text_merge.
  all: destruct d; [by rewrite !merge_text_nil|reflexivity].
Qed.
Lemma norm_merge (a : list dnode) acc : foldr (fun n acc => merge (norm_node n) acc) acc a
  = foldr merge acc (normalize a).
Proof. induction a as [|n a IH]; [done|]. cbn [foldr]. by rewrite IH, normalize_cons, foldr_merge. Qed.
Lemma normalize_app a b : normalize (a ++ b) = foldr merge (normalize b) (normalize a).
Proof. unfold normalize at 1. rewrite foldr_app. apply norm_merge. Qed.
Lemma normalize_self a : foldr merge [] (normalize a) = normalize a.
Proof. by rewrite <- norm_merge. Qed.
(** Joining with what follows starts afresh after a pill. *)
Lemma merge_pill n a m b : merge n (a ++ Pill m :: b) = merge n a ++ Pill m :: b.
Proof. destruct n, a as [|[] a]; try done; cbn; by rewrite ?app_nil_r, <- ?app_assoc. Qed.
Lemma normalize_pill a n b : normalize (a ++ Pill n :: b) = normalize a ++ Pill n :: normalize b.
Proof.
  rewrite normalize_app, normalize_cons. cbn [norm_node merge]. rewrite <- (normalize_self a) at 2.
  induction (normalize a) as [|k m IH]; [done|]. cbn [foldr]. by rewrite IH, merge_pill.
Qed.
Lemma normalize_text d b : normalize (Txt d :: b) = merge (Txt d) (normalize b).
Proof. done. Qed.
Lemma normalize_split ns c : let '(l, r) := split_at ns c in normalize (l ++ r) = normalize ns.
Proof.
  destruct c as [i|i off|i]; cbn; rewrite ?take_drop; try done.
  destruct (ns !! i) as [[d| | |]|] eqn:E; rewrite ?take_drop; try done.
  rewrite <- app_assoc. cbn [app]. rewrite <- (take_drop_middle _ _ _ E) at 3.
  rewrite !normalize_app, !normalize_text, merge_text_merge, take_drop. done.
Qed.
Lemma merge_flat n acc : flat [n] -> flat acc -> flat (merge n acc).
Proof.
  intros Hn Ha. destruct n as [d| | |]; [|by apply (Forall_app_2 _ [_])..].
  assert (Ht : flat (text_node d)) by by destruct d; repeat constructor.
  destruct acc as [|[] acc]; cbn [merge]; first [by apply Forall_app | inversion Ha; by constructor].
Qed.
Lemma normalize_flat ns : flat ns -> flat (normalize ns).
Proof.
  induction 1 as [|n ns Hn _ IH]; [by constructor|]. rewrite normalize_cons. apply merge_flat; [|done].
  constructor; [by destruct n|done].
Qed.
Lemma split_flat ns c : flat ns -> let '(l, r) := split_at ns c in flat l /\ flat r.
Proof.
  intros H. unfold flat in *. destruct c as [i|i off|i]; cbn; try (by split; [apply Forall_take|apply Forall_drop]).
  destruct (ns !! i) as [[d| | |]|]; try (by split; [apply Forall_take|apply Forall_drop]).
  split; [apply Forall_app; split; [by apply Forall_take|by repeat constructor]|].
  constructor; [done|by apply Forall_drop].
Qed.

(** ** Reading what is on screen *)

(** No caret anchor comes first. *)
Definition no_anchor (ns : list dnode) : bool :=
  match ns with Txt (c :: _) :: _ => negb (c =? ZWSP)%N | _ => true end.
Lemma text_of_flat ns : flat ns -> text_of ns = ser false (normalize ns).
Proof. intros H. unfold text_of. by apply read_flat, normalize_flat. Qed.
Lemma ser_merge ap d m : d <> [] -> ser ap (merge (Txt d) m) = cut ap d ++ ser false m.
Proof.
  intros Hd. destruct d as [|c d]; [done|]. destruct m as [|[x| | |] m]; try done. cbn [merge ser].
  assert (cut false x = x) as -> by by destruct x. cbn [app cut].
  destruct (ap && (c =? ZWSP)%N); cbn [app]; by rewrite <- ?app_assoc.
Qed.
Lemma ends_merge ap d m : d <> [] -> ends ap (merge (Txt d) m) = ends false m.
Proof. intros Hd. by destruct d as [|c d], m as [|[] m]. Qed.
Lemma ser_norm_app ap a b : ser ap (normalize (a ++ b)) =
  ser ap (normalize a) ++ ser (ends ap (normalize a)) (normalize b).
Proof.
  revert ap. induction a as [|n a IH]; intros ap; [done|]. cbn [app]. rewrite !normalize_cons.
  destruct n as [d| | |]; cbn [norm_node].
  - destruct d as [|c d]; [rewrite !merge_text_nil; apply IH|].
    rewrite !ser_merge, ends_merge, IH by done. by rewrite app_assoc.
  - cbn [merge ser ends]. rewrite IH. by rewrite app_assoc.
  - cbn [merge ser ends]. by rewrite IH.
  - cbn [merge ser ends]. apply IH.
Qed.
Lemma ser_no_anchor ap ns : no_anchor ns = true -> ser ap ns = ser false ns.
Proof.
  destruct ns as [|[[|c d]| | |] ns]; try done. cbn. intros ->%negb_true_iff. by rewrite andb_false_r.
Qed.
Lemma ser_anchor ap ns : ser true (normalize (Txt [ZWSP] :: ns)) = ser false (normalize ns) /\
  ends ap (normalize (Txt [ZWSP] :: ns)) = ends false (normalize ns).
Proof. rewrite normalize_text, ser_merge, ends_merge by done. done. Qed.
Lemma normalize_idem ns : flat ns -> normalize (normalize ns) = normalize ns.
Proof.
  intros H. rewrite <- (normalize_self ns) at 2. unfold normalize at 1. generalize (normalize_flat _ H). generalize (normalize ns).
  induction 1 as [|n m Hn _ IH]; [done|]. cbn [foldr]. rewrite IH. by destruct n.
Qed.

(** ** Inserting and removing, on screen *)

(** The caret is not between a pill and its anchor. *)
Definition caret_ok (l r : list dnode) : bool := negb (ends false (normalize l)) || no_anchor (normalize r).
(** The pill before [y] has its anchor in a node of its own, or has none. *)
Definition own_anchor (y : list dnode) : bool :=
  match y with
  | Txt d :: y' => if bool_decide (d = [ZWSP]) then no_anchor (normalize y') else no_anchor (normalize y)
  | _ => true
  end.

Lemma text_of_app l r : flat l -> flat r -> caret_ok l r = true -> text_of (l ++ r) = text_of l ++ text_of r.
Proof.
  intros Hl Hr H. rewrite !text_of_flat by first [done | by apply Forall_app]. rewrite ser_norm_app. f_equal.
  unfold caret_ok in H. destruct (ends false (normalize l)); [by apply ser_no_anchor|done].
Qed.
Lemma text_of_pill x n y : flat x -> flat y ->
  text_of (x ++ Pill n :: y) = text_of x ++ token n ++ ser true (normalize y).
Proof.
  intros Hx Hy. rewrite !text_of_flat by first [done | apply Forall_app; split; [done|by constructor]].
  by rewrite normalize_pill, ser_app.
Qed.
Lemma text_of_removed x y : flat x -> flat y -> own_anchor y = true ->
  text_of (removePill x y) = text_of x ++ ser true (normalize y).
Proof.
  intros Hx Hy Ho.
  assert (H : no_anchor (normalize y) = true -> text_of (x ++ y) = text_of x ++ ser true (normalize y)).
  { intros Ha. rewrite !text_of_flat by first [done | by apply Forall_app]. rewrite ser_norm_app.
    by rewrite (ser_no_anchor (ends _ _) _ Ha), (ser_no_anchor true _ Ha). }
  unfold removePill. destruct y as [|[d|m| |] y]; try (by apply H). cbn [own_anchor] in Ho.
  case_bool_decide as Hd; [|by apply H]. subst d. inversion Hy; subst.
  rewrite !text_of_flat by first [done | by apply Forall_app]. rewrite ser_norm_app.
  rewrite (proj1 (ser_anchor false y)). f_equal. by apply ser_no_anchor.
Qed.
Lemma text_of_inserted l r n : flat l -> flat r ->
  text_of (insertPill l r n) = text_of l ++ token n ++ text_of r.
Proof.
  intros Hl Hr. change (insertPill l r n) with (l ++ Pill n :: Txt [ZWSP] :: r).
  rewrite text_of_pill by first [done | by constructor]. rewrite (proj1 (ser_anchor false r)). by rewrite (text_of_flat r).
Qed.
Lemma no_anchor_prefix a b : no_anchor (normalize (a ++ b)) = true -> no_anchor (normalize a) = true.
Proof.
  rewrite normalize_app. destruct (normalize a) as [|[[|c d]| | |] m]; try done. cbn [foldr].
  by destruct (foldr merge (normalize b) m) as [|[] ?].
Qed.
Lemma no_anchor_pill a n b : no_anchor (normalize a) = true -> no_anchor (normalize (a ++ Pill n :: b)) = true.
Proof. rewrite normalize_pill. by destruct (normalize a). Qed.
Lemma own_anchor_pill b r n z : own_anchor (b ++ r) = true -> own_anchor (b ++ Pill n :: z) = true.
Proof.
  destruct b as [|[d| | |] b]; try done. cbn [app own_anchor]. case_bool_decide; intros Ha.
  - by eapply no_anchor_pill, no_anchor_prefix.
  - apply (no_anchor_pill (Txt d :: b)). by apply (no_anchor_prefix (Txt d :: b) r).
Qed.

Lemma remove_at_middle x n y : remove_at (x ++ n :: y) (length x) = removePill x y.
Proof. unfold remove_at. rewrite take_app_length, cons_middle, app_assoc, drop_app_length'; [done|]. rewrite length_app. cbn. lia. Qed.
Lemma shifted_lookup ns c k n : ns !! k = Some (Pill n) ->
  let '(l, r) := split_at ns c in (l ++ r) !! shifted ns c k = Some (Pill n).
Proof.
  intros Hk. destruct c as [i|i off|i]; cbn; rewrite ?take_drop; try done.
  destruct (ns !! i) as [[d| | |]|] eqn:E; rewrite ?take_drop; try done.
  assert (Hi : i < length ns) by (by eapply lookup_lt_Some). assert (Hlen : length (take i ns) = i) by (rewrite length_take; lia).
  rewrite <- app_assoc. cbn [app]. destruct (Nat.leb_spec k i) as [Hle|Hgt].
  - assert (k <> i) by (intros ->; congruence). rewrite lookup_app_l by lia. by rewrite lookup_take_lt by lia.
  - rewrite lookup_app_r by lia. rewrite Hlen. replace (S k - i) with (S (S (k - S i))) by lia. cbn [lookup list_lookup].
    etransitivity; [apply lookup_drop|]. by replace (S i + (k - S i)) with k by lia.
Qed.
Lemma removePill_flat x y : flat x -> flat y -> flat (removePill x y).
Proof.
  intros Hx Hy. unfold removePill. destruct y as [|[d| | |] y]; try case_bool_decide; apply Forall_app; split; try done.
  by inversion Hy.
Qed.
(** A pill moved within an editor. *)
Lemma text_of_moved l r j n : flat l -> flat r -> (l ++ r) !! j = Some (Pill n) ->
  own_anchor (drop (S j) (l ++ r)) = true ->
  let ns := remove_at (insertPill l r n) (if j <? length l then j else j + 2) in
  flat ns /\ ((exists a b, text_of l = a ++ token n ++ b /\ text_of ns = a ++ b ++ token n ++ text_of r) \/
              (exists b c, text_of r = b ++ token n ++ c /\ text_of ns = text_of l ++ token n ++ b ++ c)).
Proof.
  intros Hl Hr Hj Ho ns. unfold ns. clear ns. destruct (Nat.ltb_spec j (length l)) as [Hlt|Hge].
  - rewrite lookup_app_l in Hj by done. destruct (list_elem_of_split_length _ _ _ Hj) as (a & b & -> & ->).
    rewrite <- app_assoc in Ho. cbn [app] in Ho. rewrite cons_middle, app_assoc, drop_app_length' in Ho by (rewrite length_app; cbn; lia).
    assert (Ha : flat a /\ flat b) by (apply Forall_app in Hl as [? Hb]; by inversion Hb). destruct Ha as [Ha Hb].
    change (insertPill (a ++ Pill n :: b) r n) with ((a ++ Pill n :: b) ++ Pill n :: Txt [ZWSP] :: r).
    rewrite <- app_assoc. cbn [app]. rewrite remove_at_middle.
    set (y := b ++ Pill n :: Txt [ZWSP] :: r). assert (Hy : flat y) by (apply Forall_app; split; [done|by repeat constructor]).
    assert (Hoy : own_anchor y = true) by (by eapply own_anchor_pill). split.
    + by apply removePill_flat.
    + left. exists (text_of a), (ser true (normalize b)). rewrite text_of_pill by done. split; [done|].
      rewrite text_of_removed by done. f_equal. unfold y. rewrite normalize_pill, ser_app. cbn [ser].
      by rewrite (proj1 (ser_anchor false r)), (text_of_flat r).
  - rewrite lookup_app_r in Hj by done. destruct (list_elem_of_split_length _ _ _ Hj) as (b & c & -> & Hlen).
    assert (Hb : flat b /\ flat c) by (apply Forall_app in Hr as [? Hc]; by inversion Hc). destruct Hb as [Hb Hc].
    rewrite app_assoc, cons_middle, app_assoc, drop_app_length' in Ho by (rewrite !length_app; cbn; lia).
    change (insertPill l (b ++ Pill n :: c) n) with (l ++ [Pill n; Txt [ZWSP]] ++ (b ++ Pill n :: c)).
    rewrite !app_assoc. replace (j + 2) with (length ((l ++ [Pill n; Txt [ZWSP]]) ++ b)) by (rewrite !length_app; cbn; lia).
    rewrite remove_at_middle. set (x := (l ++ _) ++ b).
    assert (Hx : flat x) by (repeat (apply Forall_app; split; try done); by repeat constructor). split.
    + by apply removePill_flat.
    + right. exists (text_of b), (ser true (normalize c)). rewrite text_of_pill by done. split; [done|].
      rewrite text_of_removed by done. unfold x. rewrite <- app_assoc.
      change ([Pill n; Txt [ZWSP]] ++ b) with (Pill n :: Txt [ZWSP] :: b). change (l ++ Pill n :: Txt [ZWSP] :: b) with (insertPill l b n).
      rewrite text_of_inserted by done. by rewrite <- !app_assoc.
Qed.

(** ** States *)

Lemma nodes_set_ne f g ns s : g <> f -> nodes_of (set_nodes f ns s) g = nodes_of s g.
Proof. intros H. unfold nodes_of, set_nodes. cbn. by rewrite lookup_alter_ne. Qed.
Lemma nodes_set f ns s : is_Some (pd_panes s !! f) -> nodes_of (set_nodes f ns s) f = ns.
Proof. intros [p Hp]. unfold nodes_of, set_nodes. cbn. by rewrite lookup_alter_eq, Hp. Qed.
Lemma nodes_set_none f ns s : pd_panes s !! f = None -> nodes_of (set_nodes f ns s) f = nodes_of s f.
Proof. intros Hp. unfold nodes_of, set_nodes. cbn. by rewrite lookup_alter_eq, Hp. Qed.
Lemma value_set f g ns s : value_of (set_nodes f ns s) g = value_of s g.
Proof.
  unfold value_of, set_nodes. cbn. destruct (decide (g = f)) as [->|]; [|by rewrite lookup_alter_ne].
  rewrite lookup_alter_eq. by destruct (pd_panes s !! f).
Qed.
Lemma nodes_sync f g s : nodes_of (sync f s) g = nodes_of s g.
Proof.
  unfold nodes_of, sync. cbn. destruct (decide (g = f)) as [->|]; [|by rewrite lookup_alter_ne].
  rewrite lookup_alter_eq. by destruct (pd_panes s !! f).
Qed.
Lemma value_sync f s : is_Some (pd_panes s !! f) -> value_of (sync f s) f = readPillEditor (nodes_of s f).
Proof. intros [p Hp]. unfold value_of, nodes_of, sync. cbn. by rewrite lookup_alter_eq, Hp. Qed.
Lemma value_sync_ne f g s : g <> f -> value_of (sync f s) g = value_of s g.
Proof. intros H. unfold value_of, sync. cbn. by rewrite lookup_alter_ne. Qed.
Lemma page_set f g ns s : is_Some (pd_panes (set_nodes f ns s) !! g) <-> is_Some (pd_panes s !! g).
Proof.
  cbn. destruct (decide (g = f)) as [->|]; [|by rewrite lookup_alter_ne].
  rewrite lookup_alter_eq. by rewrite fmap_is_Some.
Qed.
Lemma page_sync f g s : is_Some (pd_panes (sync f s) !! g) <-> is_Some (pd_panes s !! g).
Proof.
  cbn. destruct (decide (g = f)) as [->|]; [|by rewrite lookup_alter_ne].
  rewrite lookup_alter_eq. by rewrite fmap_is_Some.
Qed.

(** The pill being dragged is where the drag says it is; the contents are text, pills
    and line breaks; the drop caret is in a marked editor. *)
Definition tracked (s : pdrag) : Prop :=
  match pd_drag s with Some (Drag n (PillAt g k)) => nodes_of s g !! k = Some (Pill n) | _ => True end.
Definition all_flat (s : pdrag) : Prop := forall f, flat (nodes_of s f).
Definition caret_marked (s : pdrag) : Prop := match pd_caret s with Some (f, _) => f ∈ pd_marked s | None => True end.
Definition pd_inv (s : pdrag) : Prop := all_flat s /\ tracked s /\ caret_marked s.

Lemma flat_set f ns s : all_flat s -> flat ns -> all_flat (set_nodes f ns s).
Proof.
  intros H Hns g. destruct (decide (g = f)) as [->|]; [|by rewrite nodes_set_ne].
  destruct (pd_panes s !! f) eqn:E; [by rewrite nodes_set|by rewrite nodes_set_none].
Qed.
Lemma flat_remove_at ns k : flat ns -> flat (remove_at ns k).
Proof. intros H. apply removePill_flat; [by apply Forall_take|by apply Forall_drop]. Qed.
Lemma insertPill_flat l r n : flat l -> flat r -> flat (insertPill l r n).
Proof. intros Hl Hr. apply Forall_app. split; [done|by repeat constructor]. Qed.

(** The state after a drop at a place, its parts named. *)
Definition landed (f : jstr) (l r : list dnode) (n : jstr) (s : pdrag) : pdrag :=
  sync f (set_nodes f (insertPill l r n) (set_marked (pd_marked s ∖ {[f]}) (peRemoveDropCaret s))).
Lemma nodes_landed_ne f l r n s g : g <> f -> nodes_of (landed f l r n s) g = nodes_of s g.
Proof. intros H. unfold landed. by rewrite nodes_sync, nodes_set_ne. Qed.
Lemma nodes_landed f l r n s : is_Some (pd_panes s !! f) -> nodes_of (landed f l r n s) f = insertPill l r n.
Proof. intros H. unfold landed. by rewrite nodes_sync, nodes_set. Qed.
Lemma page_landed f l r n s g : is_Some (pd_panes (landed f l r n s) !! g) <-> is_Some (pd_panes s !! g).
Proof. unfold landed. by rewrite page_sync, page_set. Qed.
Lemma flat_landed f l r n s : all_flat s -> flat l -> flat r -> all_flat (landed f l r n s).
Proof.
  intros H Hl Hr g. unfold landed. rewrite nodes_sync. by apply flat_set, insertPill_flat.
Qed.
(** The end of a drop. *)
Definition settled (f : jstr) (s : pdrag) : pdrag := saved (sync f (set_nodes f (normalize (nodes_of s f)) s)).
Lemma nodes_settled f s g : all_flat s -> text_of (nodes_of (settled f s) g) = text_of (nodes_of s g).
Proof.
  intros H. unfold settled. change (nodes_of (saved ?x) g) with (nodes_of x g). rewrite nodes_sync.
  destruct (decide (g = f)) as [->|]; [|by rewrite nodes_set_ne].
  destruct (pd_panes s !! f) eqn:E; [|by rewrite nodes_set_none]. rewrite nodes_set by done.
  unfold text_of. by rewrite normalize_idem.
Qed.
Lemma value_settled f s : is_Some (pd_panes s !! f) -> value_of (settled f s) f = text_of (nodes_of s f).
Proof.
  intros H. unfold settled. change (value_of (saved ?x) f) with (value_of x f).
  by rewrite value_sync, nodes_set by (try apply page_set; done).
Qed.
Lemma value_settled_ne f g s : g <> f -> value_of (settled f s) g = value_of s g.
Proof. intros H. change (value_of (settled f s) g) with (value_of (sync f (set_nodes f (normalize (nodes_of s f)) s)) g). by rewrite value_sync_ne, value_set. Qed.
Lemma peDrop_eq f c d s : pd_drag s = Some d ->
  peDrop f (Some c) s =
    let '(l, r) := split_at (nodes_of s f) c in
    let s2 := landed f l r (dg_name d) s in
    settled f (match dg_source d with
      | PillAt g k =>
        let k' := if bool_decide (g = f)
                  then (let j := shifted (nodes_of s f) c k in if j <? length l then j else j + 2) else k in
        set_drag (Some (Drag (dg_name d) Removed)) (set_nodes g (remove_at (nodes_of s2 g) k') s2)
      | _ => s2 end).
Proof. intros H. unfold peDrop. rewrite H. by destruct (split_at (nodes_of s f) c). Qed.

Lemma page_tracked f k n s : nodes_of s f !! k = Some (Pill n) -> is_Some (pd_panes s !! f).
Proof. unfold nodes_of. destruct (pd_panes s !! f); [done|]. done. Qed.
Lemma over_inv f c d s : pd_inv s -> pd_drag s = Some d ->
  let '(l, r) := split_at (nodes_of s f) c in
  all_flat (set_nodes f (l ++ r) s) /\
  match dg_source (moved_source f (nodes_of s f) c d) with
  | PillAt g k => nodes_of (set_nodes f (l ++ r) s) g !! k = Some (Pill (dg_name d)) | _ => True end.
Proof.
  intros (Hf & Ht & _) Hd. pose proof (split_flat _ c (Hf f)) as Hs. pose proof (shifted_lookup (nodes_of s f) c) as Hk.
  destruct (split_at (nodes_of s f) c) as [l r]. destruct Hs as [Hl Hr]. split; [apply flat_set; [done|by apply Forall_app]|].
  unfold tracked in Ht. rewrite Hd in Ht. destruct d as [n src]. unfold moved_source. cbn [dg_source dg_name].
  destruct src as [|g k|]; [done| |done]. cbn in Ht. case_bool_decide as Hg; cbn [dg_source].
  - subst g. rewrite nodes_set by by eapply page_tracked. by apply Hk.
  - by rewrite nodes_set_ne.
Qed.
Lemma pd_step_inv e s : pd_inv s -> pd_inv (pd_step e s).
Proof.
  intros Hi. pose proof Hi as (Hf & Ht & Hc). destruct e as [name|f i|f pt|f out|f pt|]; cbn [pd_step].
  - split_and!; done.
  - destruct (nodes_of s f !! i) as [[|name| |]|] eqn:E; try done.
  - unfold peDragOver. destruct (pd_drag s) as [d|] eqn:Hd; [|done]. unfold tracked in Ht.
    destruct pt as [c|]; [|split_and!; [done|exact Ht|done]].
    pose proof (over_inv f c d s Hi Hd) as Ho. destruct c as [i|i off|i];
      [| |split_and!; [done|exact Ht|done]];
      destruct (split_at _ _) as [l r]; destruct Ho as [Ho1 Ho2]; (split_and!; [exact Ho1| |cbn; set_solver]);
      unfold tracked; cbn -[nodes_of]; unfold moved_source in *; destruct d as [n [|g k|]]; cbn -[nodes_of] in *; try done;
      repeat case_bool_decide; exact Ho2.
  - unfold dragleave. destruct out; split_and!; done.
  - destruct (pd_drag s) as [d|] eqn:Hd; [|unfold peDrop; by rewrite Hd]. destruct pt as [c|].
    + rewrite (peDrop_eq _ _ _ _ Hd). pose proof (split_flat _ c (Hf f)) as Hs.
      destruct (split_at (nodes_of s f) c) as [l r]. destruct Hs as [Hl Hr]. pose proof (flat_landed f l r (dg_name d) s Hf Hl Hr) as Hfl.
      assert (Hset : forall t, all_flat t -> all_flat (settled f t)).
      { intros t Hft g. unfold settled. change (nodes_of (saved ?x) g) with (nodes_of x g). rewrite nodes_sync.
        apply flat_set; [done|]. by apply normalize_flat. }
      destruct (dg_source d) as [|g k|] eqn:Es; (split_and!; [apply Hset| |done]); try done.
      * unfold tracked. cbn. rewrite Hd. destruct d as [? []]; done.
      * intros h. apply (flat_set g _ (landed f l r (dg_name d) s) Hfl). by apply flat_remove_at.
      * unfold tracked. cbn. rewrite Hd. destruct d as [? []]; done.
    + unfold peDrop. rewrite Hd. split_and!; done.
  - destruct (pd_drag s) as [[n []]|] eqn:Hd; try done.
Qed.
Lemma quiet_step e s g : is_drop e = false ->
  text_of (nodes_of (pd_step e s) g) = text_of (nodes_of s g) /\ value_of (pd_step e s) g = value_of s g.
Proof.
  intros Hq. destruct e as [name|f i|f pt|f out|f pt|]; cbn [pd_step]; try done.
  - by destruct (nodes_of s f !! i) as [[|name| |]|].
  - unfold peDragOver. destruct (pd_drag s) as [d|]; [|done].
    assert (H : forall c, let '(l, r) := split_at (nodes_of s f) c in text_of (nodes_of (set_nodes f (l ++ r) s) g) = text_of (nodes_of s g)).
    { intros c. pose proof (normalize_split (nodes_of s f) c) as Hs. destruct (split_at (nodes_of s f) c) as [l r].
      destruct (decide (g = f)) as [->|]; [|by rewrite nodes_set_ne].
      destruct (pd_panes s !! f) eqn:E; [|by rewrite nodes_set_none]. rewrite nodes_set by done. unfold text_of. by rewrite Hs. }
    destruct pt as [[i|i off|i]|]; try done;
      [specialize (H (Between i))|specialize (H (InText i off))]; destruct (split_at _ _) as [l r]; (split; [exact H|apply (value_set f g _ s)]).
  - by destruct out.
  - by destruct (pd_drag s) as [[n []]|].
Qed.

Lemma drop_text f l r n s : all_flat s -> flat l -> flat r -> is_Some (pd_panes s !! f) ->
  text_of (nodes_of (landed f l r n s) f) = text_of l ++ token n ++ text_of r.
Proof. intros Hf Hl Hr Hp. rewrite nodes_landed by done. by apply text_of_inserted. Qed.
Lemma leave_text ns k n : flat ns -> ns !! k = Some (Pill n) -> own_anchor (drop (S k) ns) = true ->
  exists a b, text_of ns = a ++ token n ++ b /\ text_of (remove_at ns k) = a ++ b.
Proof.
  intros Hf Hk Ho. exists (text_of (take k ns)), (ser true (normalize (drop (S k) ns))).
  assert (Ht : flat (take k ns) /\ flat (drop (S k) ns)) by (split; [by apply Forall_take|by apply Forall_drop]). destruct Ht.
  split; [|by apply text_of_removed]. rewrite <- (take_drop_middle _ _ _ Hk) at 1. by apply text_of_pill.
Qed.

(** What a drop at a place of the editor [f] shows and saves, [l] and [r] being the
    content before and after that place. *)
Definition drop_spec (f : jstr) (c : caret) (d : drag) (l r : list dnode) (s s' : pdrag) : Prop :=
  let tok := token (dg_name d) in
  let shown t g := text_of (nodes_of t g) in
  shown s f = text_of l ++ text_of r /\ value_of s' f = shown s' f /\ pd_caret s' = None /\
  (forall h, h <> f -> (forall k, dg_source d <> PillAt h k) -> nodes_of s' h = nodes_of s h /\ value_of s' h = value_of s h) /\
  match dg_source d with
  | PillAt g k =>
    pd_step EEnd s' = s' /\ pd_drag s' = Some (Drag (dg_name d) Removed) /\
    if bool_decide (g = f) then
      own_anchor (drop (S (shifted (nodes_of s f) c k)) (l ++ r)) = true ->
      (exists a b, text_of l = a ++ tok ++ b /\ shown s' f = a ++ b ++ tok ++ text_of r) \/
      (exists b z, text_of r = b ++ tok ++ z /\ shown s' f = text_of l ++ tok ++ b ++ z)
    else
      own_anchor (drop (S k) (nodes_of s g)) = true ->
      shown s' f = text_of l ++ tok ++ text_of r /\
      exists a b, shown s g = a ++ tok ++ b /\ shown s' g = a ++ b /\ value_of s' g = value_of s g
  | _ => pd_drag s' = Some d /\ shown s' f = text_of l ++ tok ++ text_of r
  end.
Lemma drop_exact f c d s : pd_inv s -> is_Some (pd_panes s !! f) -> pd_drag s = Some d ->
  let '(l, r) := split_at (nodes_of s f) c in caret_ok l r = true -> drop_spec f c d l r s (peDrop f (Some c) s).
Proof.
  intros (Hf & Ht & _) Hp Hd. rewrite (peDrop_eq _ _ _ _ Hd). pose proof (split_flat _ c (Hf f)) as Hs.
  pose proof (shifted_lookup (nodes_of s f) c) as Hsh. pose proof (normalize_split (nodes_of s f) c) as Hn.
  destruct (split_at (nodes_of s f) c) as [l r]. destruct Hs as [Hl Hr]. intros Hc. unfold tracked in Ht. rewrite Hd in Ht.
  set (s2 := landed f l r (dg_name d) s). assert (Hf2 : all_flat s2) by by apply flat_landed.
  assert (Hp2 : is_Some (pd_panes s2 !! f)) by by apply page_landed.
  assert (Hbefore : text_of (nodes_of s f) = text_of l ++ text_of r).
  { rewrite <- text_of_app by done. unfold text_of. by rewrite Hn. }
  assert (Hv2 : forall h, h <> f -> value_of s2 h = value_of s h) by (intros h Hh; unfold s2, landed; by rewrite value_sync_ne, value_set).
  assert (Ho2 : forall h, h <> f -> nodes_of s2 h = nodes_of s h) by (intros h Hh; by apply nodes_landed_ne).
  assert (Hkeep : forall t, all_flat t -> is_Some (pd_panes t !! f) -> value_of (settled f t) f = text_of (nodes_of (settled f t) f) /\
    forall h, h <> f -> nodes_of (settled f t) h = nodes_of t h /\ value_of (settled f t) h = value_of t h).
  { intros t Ht1 Ht2. split; [by rewrite value_settled, nodes_settled|]. intros h Hh. rewrite value_settled_ne by done.
    split; [|done]. change (nodes_of (settled f t) h) with (nodes_of (sync f (set_nodes f (normalize (nodes_of t f)) t)) h).
    by rewrite nodes_sync, nodes_set_ne. }
  destruct d as [n src]. cbn [dg_name dg_source] in *. destruct src as [|g k|]; unfold drop_spec; cbn [dg_source dg_name].
  1, 3: destruct (Hkeep s2 Hf2 Hp2) as [Hk1 Hk2]; split_and!; [done|done|done| | |];
    [intros h Hh _; destruct (Hk2 h Hh) as [-> ->]; by rewrite Ho2, Hv2|exact Hd|];
    rewrite nodes_settled by done; by apply drop_text.
  set (k' := if bool_decide (g = f) then _ else k). cbn in Ht.
  set (s3 := set_drag _ (set_nodes g (remove_at (nodes_of s2 g) k') s2)).
  assert (Hf3 : all_flat s3) by (intros h; apply (flat_set g _ s2 Hf2); by apply flat_remove_at).
  assert (Hp3 : is_Some (pd_panes s3 !! f)) by by apply (page_set g f _ s2).
  assert (Hpg : is_Some (pd_panes s2 !! g)) by (apply page_landed; by eapply page_tracked).
  destruct (Hkeep s3 Hf3 Hp3) as [Hk1 Hk2]. split_and!; [done|done|done| |done|done|].
  - intros h Hh Hne. destruct (Hk2 h Hh) as [-> ->]. assert (h <> g) by (intros ->; by eapply Hne).
    change (nodes_of s3 h) with (nodes_of (set_nodes g (remove_at (nodes_of s2 g) k') s2) h). rewrite nodes_set_ne, Ho2 by done.
    split; [done|]. change (value_of s3 h) with (value_of (set_nodes g (remove_at (nodes_of s2 g) k') s2) h). by rewrite value_set, Hv2.
  - assert (H3 : nodes_of s3 g = remove_at (nodes_of s2 g) k') by by apply (nodes_set g _ s2).
    unfold k' in H3. case_bool_decide as Hg; intros Ho.
    + subst g. rewrite nodes_settled, H3 by done. unfold s2. rewrite nodes_landed by done.
      by apply (text_of_moved l r _ n Hl Hr (Hsh k n Ht) Ho).
    + rewrite nodes_settled by done. change (nodes_of s3 f) with (nodes_of (set_nodes g (remove_at (nodes_of s2 g) k') s2) f).
      rewrite nodes_set_ne by done. split; [by apply drop_text|].
      destruct (Hk2 g Hg) as [-> ->]. rewrite H3, Ho2 by done. destruct (leave_text _ k n (Hf g) Ht Ho) as (a & b & E1 & E2).
      exists a, b. split_and!; [done|done|]. change (value_of s3 g) with (value_of (set_nodes g (remove_at (nodes_of s2 g) k') s2) g).
      by rewrite value_set, Hv2.
Qed.


(** Two editors of an HTTP task, the pill of the address being dragged to the headers. *)
Definition http_panes : gmap jstr pane :=
  <[lit "httpUrl" := Pane (fillPillEditor (lit "https://{{ var.host }}/x")) (lit "https://{{ var.host }}/x")]>
    {[lit "httpHeaders" := Pane (fillPillEditor (lit "Host: ")) (lit "Host: ")]}.
Definition http_task : pdrag := pd_step (EPill (lit "httpUrl") 1) (PDrag http_panes None None ∅ 0).
