(* ===== verification/EdgeTools.v ===== *)
(** * The pointer tools of the graph editor (views.js): [startEdgeDrag], the edge menu
    ([showEdgeMenu], [closeEdgeMenu]) and their listeners

    A drag's listeners are on the window and hear every pointer. A node or an edge of
    the drawing belongs to the rendering it was made in: [tl_gen] counts the renderings. What
    the browser finds under the pointer and the boxes of the drawing are in the events. *)

From S2P Require Import Prelude JsCore Schedule TaskGraph DagModel DagEdit.
From Stdlib Require Import QArith Qminmax Lqa.

(** ** Geometry *)

(** A client coordinate in the drawing: the box's start and size on screen, the
    drawing's size; a box without extent counts as one. *)
Definition toSvg (client start size extent : Q) : Q :=
  (client - start) * extent / (if Qeq_bool size 0 then 1 else size).
(** The points of the curve from the handle to the pointer. *)
Definition drag_curve (x0 y0 x y : Q) : list (Q * Q) :=
  let mx := (x0 + x) / 2 in [(x0, y0); (mx, y0); (mx, y); (x, y)].
(** One coordinate of the menu: the edge's and the wrapper's boxes, half of the button
    and the room it needs. *)
Definition menu_at (e_start e_size w_start w_size half room : Q) : Q :=
  Qmin (Qmax (e_start + e_size / 2 - w_start - half) 6) (Qmax 6 (w_size - room)).
Definition menu_place (ex ew wx ww ey eh wy wh : Q) : Q * Q :=
  (menu_at ex ew wx ww 60 150, menu_at ey eh wy wh 38 44).

Lemma menu_at_inside es ez ws wz half room :
  (6 <= menu_at es ez ws wz half room /\ menu_at es ez ws wz half room <= Qmax 6 (wz - room))%Q.
Proof.
  unfold menu_at. split; [|apply Q.le_min_r]. apply Q.min_glb; [apply Q.le_max_r|apply Q.le_max_l].
Qed.

(** ** State *)

(** The node the pointer is over: its rendering, its task, and whether it is shown as
    allowed. *)
Record aim := Aim { am_gen : nat; am_task : jstr; am_ok : bool }.
Record tools := Tools {
  tl_page : page; tl_gen : nat;
  tl_drags : list (jstr * option aim);            (** the drags with listeners: source and target *)
  tl_menu : option (jstr * jstr);                 (** [edgeMenuEl] with its edge *)
  tl_listens : bool;                              (** [onDocEdgeMenu] is on the document *)
  tl_out : list effect;
}.
Definition tools_of (p : page) : tools := Tools p 0 [] None false [].

Definition set_drags (l : list (jstr * option aim)) (s : tools) : tools :=
  Tools (tl_page s) (tl_gen s) l (tl_menu s) (tl_listens s) (tl_out s).
Definition set_edge_menu (m : option (jstr * jstr)) (b : bool) (s : tools) : tools :=
  Tools (tl_page s) (tl_gen s) (tl_drags s) m b (tl_out s).
Definition closeEdgeMenu (s : tools) : tools :=
  match tl_menu s with None => s | Some _ => set_edge_menu None false s end.
(** An edit of the page; it draws the graph again, which closes the menu. *)
Definition edited (r : page * list effect) (s : tools) : tools :=
  let s1 := closeEdgeMenu s in Tools r.1 (S (tl_gen s1)) (tl_drags s1) (tl_menu s1) (tl_listens s1) (tl_out s1 ++ r.2).

(** [touch]: the pointer's type; else its button. *)
Definition startEdgeDrag (touch : bool) (btn : nat) (from : jstr) (s : tools) : tools :=
  if negb touch && negb (btn =? 0) then s
  else let s1 := closeEdgeMenu s in set_drags (tl_drags s1 ++ [(from, None)]) s1.

(** [setTarget]: [None] or the node under the pointer. *)
Definition setTarget (p : page) (gen : nat) (from : jstr) (g : option jstr) (cur : option aim) : option aim :=
  match g, cur with
  | None, _ => None
  | Some id, Some a =>
    if (am_gen a =? gen) && bool_decide (am_task a = id) then cur
    else Some (Aim gen id (graphDropAllowed from id p))
  | Some id, None => Some (Aim gen id (graphDropAllowed from id p))
  end.
(** What a drag can aim at: another task's node, not a stub of another workflow. *)
Definition droppable (from : jstr) (el : option jstr) : option jstr :=
  match el with
  | Some id => if bool_decide (id = from) || starts_with (lit "__ext__") id then None else Some id
  | None => None
  end.
Definition move (el : option jstr) (s : tools) : tools :=
  set_drags ((fun d => (d.1, setTarget (tl_page s) (tl_gen s) d.1 (droppable d.1 el) d.2)) <$> tl_drags s) s.
(** The end of every drag: the listeners go, the target gets the dependency. *)
Definition drop_one (s : tools) (d : jstr * option aim) : tools :=
  match d.2 with
  | Some a => edited (graphToggleDep d.1 (am_task a) false (tl_page s)) s
  | None => s
  end.
Definition up (s : tools) : tools := fold_left drop_one (tl_drags s) (set_drags [] s).

Definition showEdgeMenu (from to : jstr) (s : tools) : tools :=
  set_edge_menu (Some (from, to)) true (closeEdgeMenu s).
Definition menu_remove (s : tools) : tools :=
  match tl_menu s with
  | Some (from, to) => let s1 := closeEdgeMenu s in edited (graphToggleDep from to true (tl_page s1)) s1
  | None => s
  end.
Definition onDocEdgeMenu (inside : bool) (s : tools) : tools :=
  if tl_listens s && negb inside then closeEdgeMenu s else s.

Inductive tool_event :=
| TDown (touch : bool) (btn : nat) (from : jstr) | TMove (el : option jstr) | TUp | TCancel
| TEdge (from to : jstr) | TRemove | TEscape | TDocDown (inside : bool).
Definition tool_step (e : tool_event) (s : tools) : tools :=
  match e with
  | TDown touch btn from => startEdgeDrag touch btn from s
  | TMove el => move el s
  | TUp | TCancel => up s
  | TEdge from to => showEdgeMenu from to s
  | TRemove => menu_remove s
  | TEscape => closeEdgeMenu s
  | TDocDown inside => onDocEdgeMenu inside s
  end.
(** Handles and edges are those of the drawing: a handle belongs to a task, an edge
    to a dependency. *)
Definition drawn_edge (from to : jstr) (p : page) : bool :=
  match find_task to (pg_tasks p) with Some (_, dt) => bool_decide (from <> to /\ from ∈ tk_deps dt) | None => false end.
Definition tool_enabled (e : tool_event) (s : tools) : Prop :=
  match e with
  | TDown _ _ from => from ∈ tk_id <$> pg_tasks (tl_page s)
  | TEdge from to => drawn_edge from to (tl_page s) = true
  | _ => True
  end.
Inductive tools_reach (p : page) : tools -> Prop :=
| tr_start : tools_reach p (tools_of p)
| tr_step s e : tools_reach p s -> tool_enabled e s -> tools_reach p (tool_step e s).

(** ** What an edit of an edge does to the tasks *)

Open Scope nat_scope.
Definition push_at (up down : jstr) (ts : list task) : list task :=
  (fun x => if bool_decide (tk_id x = down) then push_dep up x else x) <$> ts.
Definition drop_at (up down : jstr) (ts : list task) : list task :=
  (fun x => if bool_decide (tk_id x = down) then drop_dep up x else x) <$> ts.

Lemma alter_by_id (f : task -> task) n u ts : NoDup (tk_id <$> ts) -> ts !! n = Some u ->
  alter f n ts = (fun x => if bool_decide (tk_id x = tk_id u) then f x else x) <$> ts.
Proof.
  intros Hd Hn. apply list_eq. intros m. rewrite list_lookup_fmap. destruct (decide (m = n)) as [->|Hm].
  - rewrite list_lookup_alter_eq, Hn. cbn. by rewrite bool_decide_true.
  - rewrite list_lookup_alter_ne by done. destruct (ts !! m) as [v|] eqn:Em; [|done]. cbn. rewrite bool_decide_false; [done|].
    intros Hv. apply Hm. eapply NoDup_lookup; [exact Hd|..]; rewrite list_lookup_fmap; [by rewrite Em|rewrite Hn; cbn; congruence].
Qed.
Lemma drop_tasks up down p : page_wf p -> up ∈ tk_id <$> pg_tasks p ->
  pg_tasks (graphToggleDep up down false p).1 = if graphDropAllowed up down p then push_at up down (pg_tasks p) else pg_tasks p.
Proof. intros Hp Hu. apply (drop_allowed_spec up down p Hp Hu). Qed.
Lemma remove_tasks up down p : page_wf p -> drawn_edge up down p = true ->
  pg_tasks (graphToggleDep up down true p).1 = drop_at up down (pg_tasks p).
Proof.
  intros [Hw _] He. unfold drawn_edge in He. unfold graphToggleDep.
  destruct (find_task down (pg_tasks p)) as [[n u]|] eqn:E; [|done]. apply find_task_Some in E as [Hn <-].
  apply bool_decide_eq_true in He as [Hne Hin]. rewrite bool_decide_false, bool_decide_true by done. cbn.
  by apply alter_by_id; [apply Hw|].
Qed.
Lemma toggle_ids up down r p : tk_id <$> pg_tasks (graphToggleDep up down r p).1 = tk_id <$> pg_tasks p.
Proof.
  assert (H : forall (f : task -> task) (n : nat) (ts : list task), (forall x, tk_id (f x) = tk_id x) -> tk_id <$> alter f n ts = tk_id <$> ts).
  { intros f n ts Hf. revert n. induction ts as [|x ts IH]; intros [|n]; cbn; try done; [by rewrite Hf|by rewrite IH]. }
  unfold graphToggleDep. destruct (find_task down (pg_tasks p)) as [[n u]|]; [|done].
  repeat case_match; try done; apply H; intros x; by destruct x.
Qed.

(** The task may have more dependencies. *)
Definition grown (x y : task) : Prop := tk_id x = tk_id y /\ tk_deps x `prefix_of` tk_deps y.
#[export] Instance grown_preorder : PreOrder grown.
Proof. split; [by intros x|]. intros x y z [? ?] [? ?]. split; [congruence|by etransitivity]. Qed.
Lemma push_grown up down ts : Forall2 grown ts (push_at up down ts).
Proof.
  unfold push_at. induction ts as [|x ts IH]; constructor; [|done]. case_bool_decide; [|done].
  split; destruct x; cbn; [done|by eexists].
Qed.

(** ** The invariant *)

Record tools_inv (p : page) (s : tools) : Prop := {
  ti_wf : page_wf (tl_page s);
  ti_ids : tk_id <$> pg_tasks (tl_page s) = tk_id <$> pg_tasks p;
  ti_listens : tl_listens s = bool_decide (is_Some (tl_menu s));
  ti_drags : forall from t, (from, t) ∈ tl_drags s -> from ∈ tk_id <$> pg_tasks p /\
    forall a, t = Some a -> am_gen a <= tl_gen s /\ am_task a <> from /\
      (am_gen a = tl_gen s -> am_ok a = graphDropAllowed from (am_task a) (tl_page s));
  ti_menu : forall from to, tl_menu s = Some (from, to) -> drawn_edge from to (tl_page s) = true;
}.

Lemma drawn_edge_task from to p : page_wf p -> drawn_edge from to p = true -> from ∈ tk_id <$> pg_tasks p.
Proof.
  intros [Hw _] He. unfold drawn_edge in He. destruct (find_task to (pg_tasks p)) as [[n u]|] eqn:E; [|done].
  apply find_task_Some in E as [Hn _]. apply bool_decide_eq_true in He as [_ Hin].
  pose proof (wf_deps _ Hw) as Hd. rewrite Forall_lookup in Hd. destruct (Hd _ _ Hn) as [_ Hd'].
  rewrite Forall_forall in Hd'. by apply Hd'.
Qed.
Lemma tool_close_inv p s : tools_inv p s -> tools_inv p (closeEdgeMenu s).
Proof. intros Hi. unfold closeEdgeMenu. destruct (tl_menu s) eqn:E; [|exact Hi]. destruct Hi as [H1 H2 H3 H4 H5]. by split. Qed.
Lemma close_menu s p : tools_inv p s -> tl_menu (closeEdgeMenu s) = None /\ tl_listens (closeEdgeMenu s) = false.
Proof. intros H. pose proof (ti_listens _ _ H) as Hl. unfold closeEdgeMenu. destruct (tl_menu s) eqn:E; [done|]. by rewrite Hl. Qed.
Lemma close_same s : tl_page (closeEdgeMenu s) = tl_page s /\ tl_gen (closeEdgeMenu s) = tl_gen s /\ tl_drags (closeEdgeMenu s) = tl_drags s.
Proof. unfold closeEdgeMenu. by destruct (tl_menu s). Qed.
Lemma edited_inv p s from to r : tools_inv p s -> from ∈ tk_id <$> pg_tasks p ->
  tools_inv p (edited (graphToggleDep from to r (tl_page s)) s).
Proof.
  intros Hi Hf. destruct (close_menu _ _ Hi) as [Hm Hl]. destruct (close_same s) as (_ & Hg & Hd). destruct Hi as [H1 H2 H3 H4 H5].
  split; cbn [edited tl_page tl_gen tl_drags tl_menu tl_listens]; rewrite ?Hm, ?Hl, ?Hd; [|by rewrite toggle_ids|by rewrite bool_decide_false by (by intros [])| |done].
  - apply page_wf_toggle; [done|]. by rewrite H2.
  - intros f t Hin. destruct (H4 f t Hin) as [Hf' Ha]. split; [done|]. intros a ->. destruct (Ha a eq_refl) as (? & ? & _).
    rewrite Hg. split_and!; [lia|done|lia].
Qed.
Lemma ups_inv p ds : forall s, tools_inv p s -> (forall from t, (from, t) ∈ ds -> from ∈ tk_id <$> pg_tasks p) ->
  tl_drags s = [] -> tools_inv p (fold_left drop_one ds s) /\ tl_drags (fold_left drop_one ds s) = [] /\
  Forall2 grown (pg_tasks (tl_page s)) (pg_tasks (tl_page (fold_left drop_one ds s))).
Proof.
  induction ds as [|[from t] ds IH]; intros s Hi Hds Hn; [by split_and!|]. cbn [fold_left].
  assert (Hd : forall f t', (f, t') ∈ ds -> f ∈ tk_id <$> pg_tasks p) by (intros f t' ?; apply (Hds f t'); by right).
  destruct t as [a|]; [|by apply IH]. unfold drop_one at 2 4 6. cbn [fst snd].
  assert (Hf : from ∈ tk_id <$> pg_tasks p) by (apply (Hds from (Some a)); by left).
  destruct (IH (edited (graphToggleDep from (am_task a) false (tl_page s)) s)) as (H1 & H2 & H3); [by apply edited_inv|done|by cbn; rewrite (proj2 (proj2 (close_same s)))|].
  split_and!; [done|done|]. etransitivity; [|exact H3]. cbn [edited tl_page].
  rewrite (drop_tasks _ _ _ (ti_wf _ _ Hi)) by (by rewrite (ti_ids _ _ Hi)).
  destruct (graphDropAllowed _ _ _); [|done]. apply push_grown.
Qed.
Lemma up_inv p s : tools_inv p s ->
  tools_inv p (up s) /\ tl_drags (up s) = [] /\ Forall2 grown (pg_tasks (tl_page s)) (pg_tasks (tl_page (up s))).
Proof.
  intros Hi. apply (ups_inv p (tl_drags s) (set_drags [] s)); [|intros f t Hin; by apply (ti_drags _ _ Hi f t)|done].
  destruct Hi as [H1 H2 H3 H4 H5]. split; try done. cbn. intros f t Hin. by apply not_elem_of_nil in Hin.
Qed.
Lemma tool_inv p s e : tools_inv p s -> tool_enabled e s -> tools_inv p (tool_step e s).
Proof.
  intros Hi He. destruct e as [touch btn from|el| | |from to| | |inside]; cbn [tool_step].
  - unfold startEdgeDrag. destruct (negb touch && _); [done|]. pose proof (tool_close_inv _ _ Hi) as Hc.
    destruct Hc as [H1 H2 H3 H4 H5]. split; try done. cbn [set_drags tl_drags tl_gen tl_page]. intros f t Hin.
    apply elem_of_app in Hin as [Hin|Hin]; [by apply H4|]. apply list_elem_of_singleton in Hin as [= -> ->].
    split; [|done]. cbn in He. by rewrite (ti_ids _ _ Hi) in He.
  - destruct Hi as [H1 H2 H3 H4 H5]. split; try done. cbn [move set_drags tl_drags tl_gen tl_page]. intros f t Hin.
    apply list_elem_of_fmap in Hin as ([f' t'] & [= -> ->] & Hin). destruct (H4 f' t' Hin) as [Hf Ha]. split; [done|].
    intros a. unfold setTarget, droppable. destruct el as [id|]; [|done].
    destruct (bool_decide (id = f') || _) eqn:Ed; [done|]. apply orb_false_iff in Ed as [Ed _]. apply bool_decide_eq_false in Ed.
    destruct t' as [a'|]; [|by intros [= <-]]. destruct (_ && _); [|by intros [= <-]]. intros [= ->]. by apply Ha.
  - by apply up_inv.
  - by apply up_inv.
  - cbn in He. destruct (close_same s) as (Hp & _ & _). destruct (tool_close_inv _ _ Hi) as [H1 H2 H3 H4 H5].
    split; try done; unfold showEdgeMenu; cbn [set_edge_menu tl_menu tl_gen tl_page].
    intros f t [= <- <-]. by rewrite Hp.
  - unfold menu_remove. destruct (tl_menu s) as [[from to]|] eqn:Em; [|done].
    apply edited_inv; [by apply tool_close_inv|]. rewrite <- (ti_ids _ _ Hi). eapply drawn_edge_task; [apply (ti_wf _ _ Hi)|].
    by apply (ti_menu _ _ Hi).
  - by apply tool_close_inv.
  - unfold onDocEdgeMenu. destruct (_ && _); [by apply tool_close_inv|done].
Qed.
Lemma reach_inv p s : page_wf p -> tools_reach p s -> tools_inv p s.
Proof.
  intros Hp. induction 1 as [|s e _ IH He]; [|by apply tool_inv]. split; try done.
  cbn. intros f t Hin. by apply not_elem_of_nil in Hin.
Qed.

(** C18 The pointer tools of the graph editor, however their gestures overlap, keep the
    workflow well formed and its tasks' names. The node under a drag is shown as allowed exactly when the
    drop would be taken, and then the end of the drag adds that one dependency and
    otherwise changes nothing; a cancelled pointer counts as a drop; no drop ever removes a
    dependency, and no listener of a drag stays. The menu of an edge listens to the
    document exactly while it is open, lies inside the graph's box, and removes exactly the
    dependency of its edge. *)
Theorem edge_tools_exact p s : page_wf p -> tools_reach p s ->
  page_wf (tl_page s) /\ tk_id <$> pg_tasks (tl_page s) = tk_id <$> pg_tasks p /\
  tl_listens s = bool_decide (is_Some (tl_menu s)) /\
  (forall from a, (from, Some a) ∈ tl_drags s -> am_gen a = tl_gen s -> am_ok a = graphDropAllowed from (am_task a) (tl_page s)) /\
  (forall e, e = TUp \/ e = TCancel ->
     tl_drags (tool_step e s) = [] /\ Forall2 grown (pg_tasks (tl_page s)) (pg_tasks (tl_page (tool_step e s))) /\
     forall from a, tl_drags s = [(from, Some a)] -> am_gen a = tl_gen s ->
       pg_tasks (tl_page (tool_step e s)) =
         if am_ok a then push_at from (am_task a) (pg_tasks (tl_page s)) else pg_tasks (tl_page s)) /\
  (forall from to, tl_menu s = Some (from, to) ->
     pg_tasks (tl_page (tool_step TRemove s)) = drop_at from to (pg_tasks (tl_page s)) /\
     tl_menu (tool_step TRemove s) = None /\ tl_listens (tool_step TRemove s) = false) /\
  (forall ex ew wx ww ey eh wy wh, let '(x, y) := menu_place ex ew wx ww ey eh wy wh in
     (6 <= x /\ x <= Qmax 6 (ww - 150) /\ 6 <= y /\ y <= Qmax 6 (wh - 44))%Q).
Proof.
  intros Hp Hr. pose proof (reach_inv _ _ Hp Hr) as Hi. pose proof Hi as [H1 H2 H3 H4 H5]. split_and!; try done.
  - intros from a Hin Hg. destruct (H4 _ _ Hin) as [_ Ha]. by apply (Ha a).
  - intros e He. assert (Ee : tool_step e s = up s) by by destruct He as [-> | ->]. rewrite Ee.
    destruct (up_inv _ _ Hi) as (_ & Hd & Hg). split_and!; [done|done|]. intros from a Hds Hgen.
    unfold up. rewrite Hds. cbn [fold_left drop_one snd fst edited tl_page set_drags].
    destruct (H4 from (Some a)) as [Hf Ha]; [rewrite Hds; by left|]. destruct (Ha a eq_refl) as (_ & _ & ->); [|done].
    apply drop_tasks; [done|]. by rewrite H2.
  - intros from to Hm. specialize (H5 _ _ Hm). destruct (close_same s) as (Hpg & _ & _).
    cbn [tool_step]. unfold menu_remove. rewrite Hm.
    destruct (close_menu _ _ (tool_close_inv _ _ Hi)) as [Hc1 Hc2]. cbn [edited tl_page tl_menu tl_listens]. rewrite Hpg.
    split; [by apply remove_tasks|done].
  - intros. unfold menu_place. split_and!; apply menu_at_inside.
Qed.

(** The edge of [two_steps] is removed with its menu and drawn again with a drag. *)
Definition redraw : list tool_event :=
  [TEdge (lit "extract") (lit "load"); TRemove; TDown false 0 (lit "extract"); TMove (Some (lit "load"))].
Lemma edge_tools_exact_witness :
  let s := fold_left (fun s e => tool_step e s) redraw (tools_of (open_page two_steps)) in
  tk_deps <$> pg_tasks (tl_page s) = [[]; []] /\
  tk_deps <$> pg_tasks (tl_page (tool_step TCancel s)) = [[]; [lit "extract"]].
Proof.
  intros s. assert (Hr : tools_reach (open_page two_steps) s).
  { unfold s, redraw. cbn [fold_left]. do 4 (apply tr_step; [|first [exact I|reflexivity|cbn [tool_enabled]; compute_decide]]). constructor. }
  split; [vm_compute; reflexivity|].
  destruct (edge_tools_exact _ _ two_steps_wf Hr) as (_ & _ & _ & _ & H & _).
  destruct (H TCancel (or_intror eq_refl)) as (_ & _ & H'). rewrite (H' (lit "extract") (Aim 1 (lit "load") true)) by (vm_compute; reflexivity).
  vm_compute. reflexivity.
Defined.
