(* ===== verification/WorkerDialogs.v ===== *)
(** * The actions of the workers page (views.js): [toggleDrainWorker], [removeWorkerUI],
    [workerTokenDialog] and [revealWorkerToken]

    The token dialogs share one root with each other; every dialog puts a key listener
    on the document. A mint request is answered whenever the server does; it knows the
    dialog it was started from by number. What the dialogs show, their lifetimes included,
    is in AdminPages. *)

From S2P Require Import Prelude JsCore AdminPages Schedule Labels Routing RunActions Requests.

(** ** Draining and removing *)

Inductive wk_ui := WConfirm (title body ok : label) (danger : bool) | WSend (r : req) (draining : option bool)
| WToast (msg : label) (kind : jstr) | WRefresh.
Definition after_send (key : jstr) (failure : option jstr) : list wk_ui :=
  match failure with
  | None => [WToast (T key []) (lit "ok"); WRefresh]
  | Some m => [WToast (Raw m) (lit "fail")]
  end.
Definition toggleDrainWorker (id name : jstr) (draining yes : bool) (failure : option jstr) : list wk_ui :=
  let target := negb draining in
  let key (on off : jstr) := if target then on else off in
  WConfirm (T (key (lit "wk_drain_title") (lit "wk_undrain_title")) [Raw name])
    (T (key (lit "wk_drain_body") (lit "wk_undrain_body")) []) (T (key (lit "wk_drain") (lit "wk_undrain")) []) false
  :: if yes then WSend (PostDrain id) (Some target) :: after_send (key (lit "wk_drained_toast") (lit "wk_undrained_toast")) failure
     else [].
Definition removeWorkerUI (id name : jstr) (yes : bool) (failure : option jstr) : list wk_ui :=
  WConfirm (T (lit "wk_remove_title") [Raw name]) (T (lit "wk_remove_body") []) (T (lit "wk_remove") []) true
  :: if yes then WSend (DeleteWorker id) None :: after_send (lit "wk_removed_toast") failure else [].

(** ** The join token *)

(** The option selected at first. *)
Definition default_ttl : nat := 1.
(** [createWorkerToken]: a positive duration of at most thirty days, here of hours. *)
Definition ttl_hours (s : jstr) : option N :=
  match strip_prefix (lit "h") (reverse s) with
  | Some r => let d := reverse r in if truthy d && forallb is_digit d then Some (digits_val d) else None
  | None => None
  end.
Definition ttl_taken (s : jstr) : bool :=
  match ttl_hours s with Some h => (0 <? h)%N && (h <=? 30 * 24)%N | None => false end.
(** The message of a failed mint. *)
Definition mint_error (message : jstr) (code : option jstr) : list label :=
  if bool_decide (code = Some (lit "workers_disabled"))
  then [Raw message; Raw (lit " — "); T (lit "wk_disabled_hint") []] else [Raw message].

(** What the root holds, and the dialogs' numbers. *)
Inductive wk_root := Empty | TokenForm (n : nat) (busy : bool) (err : option (list label)) | Reveal (n : nat) (token : jstr).
Record wkd := Wkd {
  wd_root : wk_root;
  wd_keys : list nat;          (** dialogs whose key listener is on the document *)
  wd_mints : list nat;         (** dialogs with a request open *)
  wd_next : nat;
}.
Definition wkd_init : wkd := Wkd Empty [] [] 0.

Inductive mint_answer := Minted (token : jstr) | MintFailed (message : jstr) (code : option jstr).
Inductive wk_event :=
| WOpen | WMint | WAnswer (n : nat) (a : mint_answer) | WEscape | WClose.

Definition close_dialog (n : nat) (s : wkd) : wkd :=
  Wkd Empty (filter (fun k => k <> n) (wd_keys s)) (wd_mints s) (wd_next s).
Definition workerTokenDialog (s : wkd) : wkd :=
  Wkd (TokenForm (wd_next s) false None) (wd_keys s ++ [wd_next s]) (wd_mints s) (S (wd_next s)).
Definition mint (s : wkd) : wkd :=
  match wd_root s with
  | TokenForm n false err => Wkd (TokenForm n true err) (wd_keys s) (wd_mints s ++ [n]) (wd_next s)
  | _ => s
  end.
Definition revealWorkerToken (token : jstr) (s : wkd) : wkd :=
  Wkd (Reveal (wd_next s) token) (wd_keys s ++ [wd_next s]) (wd_mints s) (S (wd_next s)).
Definition mint_answered (n : nat) (a : mint_answer) (s : wkd) : wkd :=
  let s1 := Wkd (wd_root s) (wd_keys s) (filter (fun k => k <> n) (wd_mints s)) (wd_next s) in
  match a with
  | Minted token => revealWorkerToken token (Wkd (wd_root s1) (filter (fun k => k <> n) (wd_keys s1)) (wd_mints s1) (wd_next s1))
  | MintFailed message code =>
    match wd_root s1 with
    | TokenForm m busy _ =>
      (* the message goes into the form on screen, the button is the old form's *)
      Wkd (TokenForm m (if m =? n then false else busy) (Some (mint_error message code))) (wd_keys s1) (wd_mints s1) (wd_next s1)
    | _ => s1
    end
  end.
Definition wk_step (e : wk_event) (s : wkd) : wkd :=
  match e with
  | WOpen => workerTokenDialog s
  | WMint => mint s
  | WAnswer n a => if bool_decide (n ∈ wd_mints s) then mint_answered n a s else s
  | WEscape => fold_left (fun s n => close_dialog n s) (wd_keys s) s
  | WClose => match wd_root s with Empty => s | TokenForm n _ _ | Reveal n _ => close_dialog n s end
  end.

(** ** Properties *)

(** The dialog on screen has its key listener; a form's button is disabled exactly while
    its request is open. *)
Record wk_inv (s : wkd) : Prop := {
  wi_root : match wd_root s with Empty => True | TokenForm n _ _ | Reveal n _ => n ∈ wd_keys s end;
  wi_busy : match wd_root s with TokenForm n busy _ => busy = bool_decide (n ∈ wd_mints s) | _ => True end;
  wi_next : forall n, n ∈ wd_keys s \/ n ∈ wd_mints s -> n < wd_next s;
}.
Lemma close_all_keys ks s : let s' := fold_left (fun s n => close_dialog n s) ks s in
  wd_keys s' = filter (fun k => k ∉ ks) (wd_keys s) /\ (ks <> [] -> wd_root s' = Empty) /\
  (ks = [] -> s' = s) /\ wd_mints s' = wd_mints s /\ wd_next s' = wd_next s.
Proof.
  revert s. induction ks as [|n ks IH]; intros s; cbn.
  - split_and!; try done. symmetry. apply filter_all. apply Forall_forall. intros x _. apply not_elem_of_nil.
  - destruct (IH (close_dialog n s)) as (E1 & E2 & E3 & E4 & E5). rewrite E1, E4, E5. cbn. split_and!; try done.
    + rewrite list_filter_filter. apply list_filter_iff. intros x. rewrite not_elem_of_cons. tauto.
    + intros _. destruct ks; [|by apply E2]. by rewrite E3.
Qed.
Lemma wk_inv_step e s : wk_inv s -> wk_inv (wk_step e s).
Proof.
  intros Hi. pose proof Hi as [H1 H2 H3]. destruct e as [| |n a| |]; cbn [wk_step].
  - split; cbn; [set_solver| |].
    + symmetry. apply bool_decide_false. intros Hn. specialize (H3 (wd_next s) (or_intror Hn)). lia.
    + intros n [[Hn|Hn]%elem_of_app|Hn]; [specialize (H3 n (or_introl Hn)); lia|set_solver by lia|specialize (H3 n (or_intror Hn)); lia].
  - unfold mint. destruct (wd_root s) as [|n [] err|n t] eqn:E; try done. split; cbn; [done| |].
    + symmetry. apply bool_decide_true. set_solver.
    + intros k [Hk|[Hk|Hk]%elem_of_app]; [by apply H3; left|by apply H3; right|]. apply list_elem_of_singleton in Hk as ->. by apply H3; left.
  - case_bool_decide as Hn; [|done]. destruct a as [token|m code]; cbn.
    + split; cbn; [set_solver|done|]. intros k [[Hk|Hk]%elem_of_app|Hk].
      * apply list_elem_of_filter in Hk as [_ Hk]. specialize (H3 k (or_introl Hk)). lia.
      * apply list_elem_of_singleton in Hk as ->. lia.
      * apply list_elem_of_filter in Hk as [_ Hk]. specialize (H3 k (or_intror Hk)). lia.
    + assert (Hlt : forall k, k ∈ wd_keys s \/ k ∈ filter (fun k => k <> n) (wd_mints s) -> k < wd_next s).
      { intros k [Hk|Hk]; [by apply H3; left|]. apply list_elem_of_filter in Hk as [_ Hk]. by apply H3; right. }
      destruct (wd_root s) as [|k busy err|k t] eqn:E; (split; cbn; rewrite ?E; [done| |exact Hlt]); try done.
      destruct (Nat.eqb_spec k n) as [->|Hk].
      * symmetry. apply bool_decide_false. by intros [? _]%list_elem_of_filter.
      * rewrite H2. apply bool_decide_ext. rewrite list_elem_of_filter. tauto.
  - destruct (close_all_keys (wd_keys s) s) as (E1 & E2 & E3 & E4 & E5).
    destruct (decide (wd_keys s = [])) as [Hk|Hk]; [by rewrite E3|]. split; rewrite ?E1, ?E2, ?E4, ?E5 by done; try done.
    intros n [Hn|Hn]; [|by apply H3; right]. apply list_elem_of_filter in Hn as [? ?]. done.
  - destruct (wd_root s) as [|n busy err|n t] eqn:E; [done|..]; (split; cbn; try done);
      intros k [Hk|Hk]; try (by apply H3; right); apply list_elem_of_filter in Hk as [_ Hk]; by apply H3; left.
Qed.

(** A join token is on screen only from the answer that minted it until its dialog is
    closed; closing a dialog or pressing Escape takes every token off the screen, and
    Escape leaves no listener behind; a failed mint is reported in the form on screen
    and lets it be tried again; and the server takes every lifetime the form offers. A
    request whose form has been cancelled still shows its token. *)
Theorem join_token_shown s : wk_inv s ->
  (forall e, wk_inv (wk_step e s)) /\
  (forall e n token, wd_root (wk_step e s) = Reveal n token ->
     wd_root s = Reveal n token \/ exists m, m ∈ wd_mints s /\ e = WAnswer m (Minted token)) /\
  wd_root (wk_step WClose s) = Empty /\ wd_root (wk_step WEscape s) = Empty /\ wd_keys (wk_step WEscape s) = [] /\
  (forall n err message code, wd_root s = TokenForm n true err ->
     wd_root (wk_step (WAnswer n (MintFailed message code)) s) = TokenForm n false (Some (mint_error message code))) /\
  forallb (fun o => ttl_taken o.1) TTLS = true.
Proof.
  intros Hi. pose proof Hi as [H1 H2 H3]. destruct (close_all_keys (wd_keys s) s) as (E1 & E2 & E3 & _).
  split; [intros e; by apply wk_inv_step|]. split_and!.
  - intros e n token. destruct e as [| |m a| |]; cbn; try done.
    + unfold mint. destruct (wd_root s) as [|? []|] eqn:E; cbn; intros Hr; try discriminate Hr; left; congruence.
    + case_bool_decide as Hm; [|by left]. destruct a as [t|msg code]; cbn; [intros [= _ ->]; right; eauto|].
      destruct (wd_root s) eqn:E; cbn; rewrite ?E; intros Hr; try discriminate Hr; left; congruence.
    + destruct (decide (wd_keys s = [])) as [Hk|Hk]; [rewrite E3 by done; by left|by rewrite E2].
    + destruct (wd_root s) eqn:E; cbn; rewrite ?E; intros Hr; discriminate Hr.
  - cbn. by destruct (wd_root s) eqn:E.
  - cbn. destruct (decide (wd_keys s = [])) as [Hk|Hk]; [|by apply E2]. rewrite E3 by done. rewrite Hk in H1.
    destruct (wd_root s); [done|..]; by apply not_elem_of_nil in H1.
  - cbn. rewrite E1.
    destruct (filter _ _) as [|x l] eqn:E; [done|]. assert (Hx : x ∈ x :: l) by left. rewrite <- E in Hx.
    by apply list_elem_of_filter in Hx as [? ?].
  - intros n err message code Hr. cbn. rewrite Hr in H2. symmetry in H2. rewrite H2. cbn. by rewrite Hr, Nat.eqb_refl.
  - reflexivity.
Qed.
