(* ===== verification/Chrome.v ===== *)
(** * Around the pages: theme, search box, navigation, document listeners and heartbeat
    (boot.js; base.js, [copyText], [loadInfo], [syncModeChrome], [applyStaticI18n])

    An element is given by what the document listeners look at. The clipboard and
    [execCommand] are the browser's: their success is an argument. *)

From S2P Require Import Prelude JsCore Schedule Labels Routing Jump.

(** ** Theme, language and mode *)

(** [localStorage.getItem("cnv_theme") || "dark"] *)
Definition start_theme (stored : option jstr) : jstr := default [] stored ||j lit "dark".
Definition flip_theme (theme : jstr) : jstr := if bool_decide (theme = lit "dark") then lit "light" else lit "dark".
Record theme_view := ThemeView { th_root : jstr; th_icon : jstr; th_pressed : bool; th_label : label }.
Definition applyTheme (theme : jstr) : theme_view :=
  ThemeView theme (if bool_decide (theme = lit "dark") then lit "☀" else lit "☾") (bool_decide (theme = lit "light")) (T (lit "aria_theme") []).
(** A click on the button: the theme and what is stored. *)
Definition theme_click (theme : jstr) : jstr * jstr := (flip_theme theme, flip_theme theme).

(** The mode toggle and the main button; [None] before the mode is known. *)
Record mode_view := ModeView { mo_novice : bool; mo_expert : bool; mo_newdag : label }.
Definition syncModeChrome (uiMode : option jstr) : option mode_view :=
  match uiMode with
  | None => None
  | Some m => let nov := bool_decide (m = lit "novice") in
      Some (ModeView nov (negb nov) (T (if nov then lit "nv_newflow" else lit "newdag") []))
  end.
(** The texts that do not depend on a page: the search box, the language button. *)
Definition applyStaticI18n (lang : language) : jstr * label * jstr :=
  (match lang with Zh => lit "zh" | En => lit "en" end, T (lit "search_ph") [], match lang with Zh => lit "EN" | En => lit "中" end).
Definition lang_click (lang : language) : language := match lang with Zh => En | En => Zh end.

(** ** Search box and navigation *)

Inductive key := ArrowDown | ArrowUp | Enter | Space | EscapeKey | OtherKey.
(** The menu after a key, the workflow that is opened, and whether the key is taken. *)
Definition search_key (k : key) (j : jump) : jump * option jstr * bool :=
  match k with
  | ArrowDown => (jumpMove 1 j, None, true)
  | ArrowUp => (jumpMove (-1) j, None, true)
  | Enter => match jumpEnter j with Some id => (closeJump j, Some id, true) | None => (j, None, false) end
  | EscapeKey => (closeJump j, None, false)
  | _ => (j, None, false)
  end.
(** Typing: the filter of the home page, whether it is drawn again, and the menu. *)
Definition search_input (home : bool) (overview : option (list jstr)) (value : jstr) (j : jump) : jstr * bool * jump :=
  (toLowerCase value, home, updateJump overview value j).

Inductive nav_target := NavTo (r : route) | NavDocs.
Definition nav_click (v : jstr) : nav_target :=
  if bool_decide (v = lit "pools") then NavTo RPools
  else if bool_decide (v = lit "graph") then NavTo RGraph
  else if bool_decide (v = lit "resources") then NavTo RResources
  else if bool_decide (v = lit "audit") then NavTo RAudit
  else if bool_decide (v = lit "workers") then NavTo RWorkers
  else if bool_decide (v = lit "api") then NavTo RApi
  else if bool_decide (v = lit "help") then NavDocs else NavTo RDags.

(** ** Listeners of the document *)

(** [el_own]: it handles Enter and Space itself and stops them. *)
Record element := Element {
  el_role : option jstr; el_tabindex0 : bool; el_field : bool; el_own : bool;
  el_copy : option jstr;      (** the nearest data-copy, itself included *)
  el_title : jstr;            (** of the nearest spark cell or bar with a title *)
}.
(** [[tabindex="0"][role]:not(input):not(textarea):not(select)] *)
Definition delegated (el : element) : bool := el_tabindex0 el && bool_decide (is_Some (el_role el)) && negb (el_field el).
(** How often a key activates an element: by its own listener, and by the document's
    when the event gets there. *)
Definition activations (k : key) (el : element) : nat :=
  match k with
  | Enter | Space => (if el_own el then 1 else 0) + (if negb (el_own el) && delegated el then 1 else 0)
  | _ => 0
  end.
(** Help bubbles that Escape hides: the focused one, and those under the pointer. *)
Definition hidden_help (k : key) (focused : option nat) (hovered : list nat) : list nat :=
  match k with EscapeKey => option_list focused ++ hovered | _ => [] end.

(** [secure]: a clipboard in a secure context; then whether it took the text. *)
Definition copyText (secure clipboard legacy : bool) : bool := if secure then (if clipboard then true else legacy) else legacy.
Definition copy_click (el : element) (secure clipboard legacy : bool) : option (jstr * label * jstr) :=
  match el_copy el with
  | Some text => let ok := copyText secure clipboard legacy in
      Some (text, T (if ok then lit "copied" else lit "copy_fail") [], if ok then lit "ok" else lit "warn")
  | None => None
  end.
(** A tap where there is no pointer to hover with. *)
Definition touch_title (no_hover : bool) (el : element) : option jstr :=
  if truthy (el_title el) && no_hover then Some (el_title el) else None.

(** ** The heartbeat *)

Record info := Info { i_tz : jstr; i_executor : jstr; i_tick : jstr; i_version : jstr }.
Record footer := Footer { f_tz : jstr; f_exec : jstr; f_tick : jstr; f_version : jstr }.
Definition show_info (i : info) : footer :=
  Footer (i_tz i) (i_executor i ||j lit "—") (lit "tick " ++ (i_tick i ||j lit "—")) (lit "scheduler " ++ (i_version i ||j lit "dev")).

(** An answer of the overview: its JSON and its number of workflows. *)
Record overview := Overview { ov_json : jstr; ov_total : N }.
Record chrome := Chrome {
  cr_hidden : bool; cr_signed : bool; cr_logs : bool; cr_modal : bool;
  cr_home : bool;                      (** [view] is the home page *)
  cr_cache : option overview;          (** [overviewCache] *)
  cr_drawn : option overview;          (** what the home page was drawn from *)
  cr_draws : nat; cr_count : option N; cr_footer : option footer;
  cr_infos : nat; cr_overviews : nat;  (** open requests *)
}.
Definition set_flags (hidden signed logs modal : bool) (s : chrome) : chrome :=
  Chrome hidden signed logs modal (cr_home s) (cr_cache s) (cr_drawn s) (cr_draws s) (cr_count s) (cr_footer s) (cr_infos s) (cr_overviews s).
Definition set_requests (i o : nat) (s : chrome) : chrome :=
  Chrome (cr_hidden s) (cr_signed s) (cr_logs s) (cr_modal s) (cr_home s) (cr_cache s) (cr_drawn s) (cr_draws s) (cr_count s) (cr_footer s) i o.
Definition set_footer (f : option footer) (s : chrome) : chrome :=
  Chrome (cr_hidden s) (cr_signed s) (cr_logs s) (cr_modal s) (cr_home s) (cr_cache s) (cr_drawn s) (cr_draws s) (cr_count s) f (cr_infos s) (cr_overviews s).
Definition leave_home (s : chrome) : chrome :=
  Chrome (cr_hidden s) (cr_signed s) (cr_logs s) (cr_modal s) false (cr_cache s) (cr_drawn s) (cr_draws s) (cr_count s) (cr_footer s) (cr_infos s) (cr_overviews s).
(** [overviewCache = fresh; setDagCounts(...); renderDags()] *)
Definition take_overview (home : bool) (o : overview) (s : chrome) : chrome :=
  Chrome (cr_hidden s) (cr_signed s) (cr_logs s) (cr_modal s) home (Some o) (if home then Some o else cr_drawn s)
    (if home then S (cr_draws s) else cr_draws s) (Some (ov_total o)) (cr_footer s) (cr_infos s) (cr_overviews s).

Definition heartbeat (s : chrome) : chrome :=
  if cr_hidden s || negb (cr_signed s) then s
  else
    let s1 := set_requests (S (cr_infos s)) (cr_overviews s) s in
    if negb (cr_home s1) || cr_logs s1 || cr_modal s1 then s1 else set_requests (cr_infos s1) (S (cr_overviews s1)) s1.
Definition loadInfo (a : option info) (s : chrome) : chrome :=
  let s1 := set_requests (pred (cr_infos s)) (cr_overviews s) s in
  match a with Some i => set_footer (Some (show_info i)) s1 | None => s1 end.
Definition beat_answer (a : option overview) (s : chrome) : chrome :=
  let s1 := set_requests (cr_infos s) (pred (cr_overviews s)) s in
  match a with
  | Some o => if bool_decide (Some (ov_json o) = ov_json <$> cr_cache s1) then s1 else take_overview (cr_home s1) o s1
  | None => s1
  end.

Inductive chrome_event :=
| CFlags (hidden signed logs modal : bool) | CLeave | CHome (o : overview)
| CTick | CInfo (a : option info) | COverview (a : option overview).
Definition chrome_step (e : chrome_event) (s : chrome) : chrome :=
  match e with
  | CFlags h g l m => set_flags h g l m s
  | CLeave => leave_home s
  | CHome o => take_overview true o s
  | CTick => heartbeat s
  | CInfo a => if cr_infos s is 0 then s else loadInfo a s
  | COverview a => if cr_overviews s is 0 then s else beat_answer a s
  end.

(** ** Properties *)

Lemma theme_persists theme : theme = lit "dark" \/ theme = lit "light" ->
  let '(now, stored) := theme_click theme in start_theme (Some stored) = now /\ now <> theme /\ theme_click now = (theme, theme).
Proof. by intros [-> | ->]. Qed.
Lemma activated_once k el : delegated el = true \/ el_own el = true -> k = Enter \/ k = Space -> activations k el = 1.
Proof. unfold activations. intros [H|H] [-> | ->]; rewrite ?H; by destruct (el_own el). Qed.
Lemma search_keys_are_menu_steps k j :
  exists e, (search_key k j).1.1 = jump_step e j \/ (search_key k j).1.1 = j.
Proof.
  destruct k; cbn; [by exists Down; left|by exists Up; left| |by exists Escape; right|by exists Escape; left|by exists Escape; right].
  destruct (jumpEnter j) as [id|]; [by exists (JumpTo id); left|by exists Escape; right].
Qed.

(** The home page shows the overview it holds; the heartbeat asks for nothing while the
    page is hidden or nobody is signed in, and for the overview only on a home page
    with no log or dialog open; its answers draw nothing on other pages and nothing when the
    overview is the same, and bring a home page and the count up to date otherwise. *)
Theorem heartbeat_quiet s : (cr_home s = true -> cr_drawn s = cr_cache s) ->
  (forall e, let s' := chrome_step e s in cr_home s' = true -> cr_drawn s' = cr_cache s') /\
  (cr_hidden s = true \/ cr_signed s = false -> chrome_step CTick s = s) /\
  (cr_overviews (chrome_step CTick s) <> cr_overviews s ->
     cr_home s = true /\ cr_logs s = false /\ cr_modal s = false /\ cr_hidden s = false /\ cr_signed s = true) /\
  (forall a, cr_home s = false \/ ov_json <$> a = ov_json <$> cr_cache s -> let s' := chrome_step (COverview a) s in
     cr_draws s' = cr_draws s /\ cr_drawn s' = cr_drawn s) /\
  (forall o, 0 < cr_overviews s -> let s' := chrome_step (COverview (Some o)) s in
     ov_json <$> cr_cache s' = Some (ov_json o) /\ (cr_home s = true -> ov_json <$> cr_drawn s' = Some (ov_json o))).
Proof.
  intros Hd. split_and!.
  - intros e. destruct e as [h g l m| |o| |a|a]; cbn; try done.
    + unfold heartbeat. by repeat case_match.
    + destruct (cr_infos s); [done|]. by destruct a.
    + destruct (cr_overviews s); [done|]. destruct a as [o|]; cbn; [|done]. case_bool_decide; [done|]. cbn. by intros ->.
  - cbn. unfold heartbeat. intros [-> | ->]; [done|]. by rewrite orb_true_r.
  - cbn. unfold heartbeat. destruct (cr_hidden s), (cr_signed s); cbn; try done.
    by destruct (cr_home s), (cr_logs s), (cr_modal s).
  - intros a Ha. cbn. destruct (cr_overviews s); [done|]. destruct a as [o|]; cbn; [|done]. case_bool_decide as He; [done|].
    destruct Ha as [Ha|Ha]; [cbn; by rewrite Ha|done].
  - intros o Ho. cbn. destruct (cr_overviews s); [lia|]. unfold beat_answer. cbn. case_bool_decide as He.
    + split; [done|]. intros Hh. cbn. by rewrite Hd.
    + cbn. split; [done|]. by intros ->.
Qed.
