(* ===== verification/LogStream.v ===== *)
(** * A task's log on its way to the screen (server.go, [streamLog]; the browser's
    EventSource; views.js, [showLog])

    The server reads the bytes a task has added to its log file, cuts them into lines
    and long lines into pieces, and sends each piece as an event of a text stream. The
    browser takes the stream apart again, by the rules of the HTML standard, and hands
    each event to its listeners. A file is what it holds when it is looked at; [None] is
    a file that cannot be opened. Bytes are numbers below 256; the decoding of UTF-8, which
    keeps the bytes of ASCII apart, comes last and is a parameter. *)

From S2P Require Import Prelude JsCore Schedule Format Jump RunView RunDisplay.

Definition bytes := list N.
Definition size (b : bytes) : N := N.of_nat (length b).
Definition LF : N := 10.
Definition CR : N := 13.

(** ** The server *)

Definition sseInitialTailBytes : N := 1048576.
Definition sseLineChunkBytes : N := 65536.
Definition sseReadPerDrain : N := 1048576.
Definition read_buffer : N := 32768.

(** What is written to the response. *)
Inductive frame := Truncated (from size : N) | Line (b : bytes) | Done.

(** [offset] and [lineBuf] *)
Record tailer := Tailer { tl_offset : N; tl_buf : bytes }.

(** [os.Stat] before the first read. *)
Definition stream_start (f : option bytes) : list frame * tailer :=
  match f with
  | Some file =>
    if (sseInitialTailBytes <? size file)%N
    then let off := (size file - sseInitialTailBytes)%N in ([Truncated off (size file)], Tailer off [])
    else ([], Tailer 0 [])
  | None => ([], Tailer 0 [])
  end.
(** The file behind what was read, or cut short. *)
Definition reposition (file : bytes) (s : tailer) : list frame * tailer :=
  if (size file <? tl_offset s)%N then ([], Tailer 0 [])
  else if (sseInitialTailBytes <? size file - tl_offset s)%N
  then let off := (size file - sseInitialTailBytes)%N in ([Truncated off (size file)], Tailer off [])
  else ([], s).
(** [for remaining > 0 { n, err := f.Read(buf[:readSize]) ... }] *)
Fixpoint read_loop (fuel : nat) (remaining : N) (file : bytes) (s : tailer) : tailer :=
  match fuel with
  | O => s
  | S f =>
    if (0 <? remaining)%N then
      let got := take (N.to_nat (N.min remaining read_buffer)) (drop (N.to_nat (tl_offset s)) file) in
      match got with
      | [] => s
      | _ => read_loop f (remaining - size got) file (Tailer (tl_offset s + size got) (tl_buf s ++ got))
      end
    else s
  end.
(** [for len(line) > sseLineChunkBytes { emit(line[:sseLineChunkBytes]); ... }] *)
Fixpoint chunk_loop (fuel : nat) (line : bytes) : list bytes * bytes :=
  match fuel with
  | O => ([], line)
  | S f =>
    if (sseLineChunkBytes <? size line)%N
    then let '(e, r) := chunk_loop f (drop (N.to_nat sseLineChunkBytes) line) in
         (take (N.to_nat sseLineChunkBytes) line :: e, r)
    else ([], line)
  end.
Definition chunks (line : bytes) : list bytes * bytes := chunk_loop (length line) line.
(** The complete lines of [lineBuf]. *)
Fixpoint line_loop (fuel : nat) (buf : bytes) : list bytes * bytes :=
  match fuel with
  | O => ([], buf)
  | S f =>
    match span (fun c => negb (c =? LF)%N) buf with
    | (line, _ :: rest) =>
      let '(e, r) := chunks line in
      let '(es, b) := line_loop f rest in
      (e ++ [r] ++ es, b)
    | (_, []) => ([], buf)
    end
  end.
Definition cut (buf : bytes) : list bytes * bytes :=
  let '(es, b) := line_loop (length buf) buf in
  let '(cs, r) := chunks b in
  (es ++ cs, r).
Definition drain (final : bool) (f : option bytes) (s : tailer) : list frame * tailer :=
  match f with
  | None => ([], s)
  | Some file =>
    let '(fr, s1) := reposition file s in
    let s2 := read_loop (S (length file)) sseReadPerDrain file s1 in
    let '(es, r) := cut (tl_buf s2) in
    if final && truthy r
    then (fr ++ (Line <$> es) ++ [Line r], Tailer (tl_offset s2) [])
    else (fr ++ (Line <$> es), Tailer (tl_offset s2) r)
  end.
Fixpoint drains (fs : list (option bytes)) (s : tailer) : list frame * tailer :=
  match fs with
  | [] => ([], s)
  | f :: fs' => let '(a, s1) := drain false f s in let '(b, s2) := drains fs' s1 in (a ++ b, s2)
  end.
(** A whole stream: the file when it is opened, at every tick, and after the task has
    been found finished. *)
Definition streamLog (f0 : option bytes) (ticks : list (option bytes)) (last : option bytes) : list frame :=
  let '(a, s) := stream_start f0 in
  let '(b, s1) := drains ticks s in
  a ++ b ++ (drain true last s1).1 ++ [Done].

(** [emit]; [fmt.Fprintf] of the other two. *)
Definition no_cr (b : bytes) : bytes := filter (fun c => c <> CR) b.
Definition emit (line : bytes) : bytes := lit "data: " ++ no_cr line ++ [LF; LF].
Definition truncated_text (from size : N) : bytes :=
  lit "showing log from byte " ++ digits from ++ lit " of " ++ digits size.
Definition wire (f : frame) : bytes :=
  match f with
  | Line b => emit b
  | Truncated a n => lit "event: truncated" ++ [LF] ++ lit "data: " ++ truncated_text a n ++ [LF; LF]
  | Done => lit "event: done" ++ [LF] ++ lit "data: end" ++ [LF; LF]
  end.

(** ** The browser *)

Record sse_event := SseEvent { se_type : bytes; se_data : bytes }.

(** The complete lines of the stream. *)
Fixpoint sse_lines (cur s : bytes) : list bytes :=
  match s with
  | [] => []
  | c :: r =>
    if (c =? LF)%N then cur :: sse_lines [] r
    else if (c =? CR)%N then cur :: sse_lines [] (match r with 10%N :: r' => r' | _ => r end)
    else sse_lines (cur ++ [c]) r
  end.
(** A line of a field; the buffers are those of the event's type and data. *)
Definition field (line : bytes) : bytes * bytes :=
  let '(name, rest) := span (fun c => negb (c =? ch ":")%N) line in
  (name, match rest with [] => [] | _ :: v => match v with 32%N :: v' => v' | _ => v end end).
Definition sse_line (line : bytes) (b : bytes * bytes) : bytes * bytes :=
  let '(type, data) := b in
  if starts_with [ch ":"] line then b
  else
    let '(name, value) := field line in
    if bool_decide (name = lit "event") then (value, data)
    else if bool_decide (name = lit "data") then (type, data ++ value ++ [LF])
    else b.
Definition dispatch (b : bytes * bytes) : list sse_event :=
  let '(type, data) := b in
  match data with [] => [] | _ => [SseEvent (type ||j lit "message") (take (pred (length data)) data)] end.
Fixpoint sse_run (ls : list bytes) (b : bytes * bytes) : list sse_event :=
  match ls with
  | [] => []
  | [] :: ls' => dispatch b ++ sse_run ls' ([], [])
  | l :: ls' => sse_run ls' (sse_line l b)
  end.
Definition sse_parse (s : bytes) : list sse_event := sse_run (sse_lines [] s) ([], []).

(** ** The listeners: [onmessage], and [done], which closes the stream *)

Fixpoint heard (es : list sse_event) : list bytes * bool :=
  match es with
  | [] => ([], false)
  | e :: es' =>
    if bool_decide (se_type e = lit "done") then ([], true)
    else let '(ms, d) := heard es' in
         if bool_decide (se_type e = lit "message") then (se_data e :: ms, d) else (ms, d)
  end.

(** ** What is to be shown *)

Definition pieces (line : bytes) : list bytes := let '(e, r) := chunks line in e ++ [r].
(** The lines of a file; a line feed at its end starts no line. *)
Definition text_lines (f : bytes) : list bytes :=
  match reverse (split_on LF f) with [] :: r => reverse r | _ => split_on LF f end.
Definition log_lines (f : bytes) : list bytes := concat (pieces <$> text_lines f).

(** ** Cutting is independent of where the reads end *)

(** The same byte by byte: [r] is the piece so far. *)
Fixpoint machine (r s : bytes) : list bytes * bytes :=
  match s with
  | [] => ([], r)
  | c :: s' =>
    if (c =? LF)%N then let '(e, b) := machine [] s' in (r :: e, b)
    else if (size r <? sseLineChunkBytes)%N then machine (r ++ [c]) s'
    else let '(e, b) := machine [c] s' in (r :: e, b)
  end.

Lemma chunk_pos : (0 < sseLineChunkBytes)%N. Proof. done. Qed.
#[global] Opaque sseLineChunkBytes.
Lemma size_nil : (size [] <= sseLineChunkBytes)%N.
Proof. apply N.le_0_l. Qed.
#[local] Hint Resolve size_nil : core.
Lemma size_app a b : size (a ++ b) = (size a + size b)%N.
Proof. unfold size. rewrite length_app. lia. Qed.
Lemma size_drop n a : size (drop n a) = (size a - N.of_nat n)%N.
Proof. unfold size. rewrite length_drop. lia. Qed.

Lemma chunk_loop_fuel f g l : length l <= f -> length l <= g -> chunk_loop f l = chunk_loop g l.
Proof.
  pose proof chunk_pos as Hc. revert g l. induction f as [|f IH]; intros [|g] l Hf Hg; cbn [chunk_loop]; [done|..].
  1,2: destruct (N.ltb_spec sseLineChunkBytes (size l)) as [H|H]; [unfold size in H; lia|done].
  destruct (N.ltb_spec sseLineChunkBytes (size l)) as [H|H]; [|done].
  rewrite (IH g); [done|rewrite length_drop; unfold size in H; lia..].
Qed.
Lemma chunks_eq l : chunks l =
  if (sseLineChunkBytes <? size l)%N
  then (take (N.to_nat sseLineChunkBytes) l :: (chunks (drop (N.to_nat sseLineChunkBytes) l)).1,
        (chunks (drop (N.to_nat sseLineChunkBytes) l)).2)
  else ([], l).
Proof.
  pose proof chunk_pos as Hc. unfold chunks at 1. destruct l as [|c l].
  { destruct (N.ltb_spec sseLineChunkBytes (size [])) as [H|H]; [unfold size in H; cbn in H; lia|done]. }
  cbn [length chunk_loop]. case_match eqn:E; [|done]. unfold chunks.
  rewrite (chunk_loop_fuel (length l) (length (drop (N.to_nat sseLineChunkBytes) (c :: l)))); [by destruct (chunk_loop _ _)|rewrite length_drop; cbn; lia|done].
Qed.
Lemma chunks_small l : (size l <= sseLineChunkBytes)%N -> chunks l = ([], l).
Proof. intros H. rewrite chunks_eq. by destruct (N.ltb_spec sseLineChunkBytes (size l)); [lia|]. Qed.
Lemma chunks_full r l : size r = sseLineChunkBytes -> l <> [] -> chunks (r ++ l) = (r :: (chunks l).1, (chunks l).2).
Proof.
  intros Hr Hl. rewrite chunks_eq, size_app.
  assert (0 < size l)%N by (destruct l; [done|unfold size; cbn; lia]).
  destruct (N.ltb_spec sseLineChunkBytes (size r + size l)); [|lia].
  replace (N.to_nat sseLineChunkBytes) with (length r) by (unfold size in Hr; lia). by rewrite take_app_length, drop_app_length.
Qed.

Lemma machine_app r a b : machine r (a ++ b) = ((machine r a).1 ++ (machine (machine r a).2 b).1, (machine (machine r a).2 b).2).
Proof.
  revert r. induction a as [|c a IH]; intros r; cbn; [by destruct (machine r b)|].
  destruct (c =? LF)%N; [rewrite IH; by destruct (machine [] a)|].
  destruct (size r <? sseLineChunkBytes)%N; rewrite IH; [done|]. by destruct (machine [c] a).
Qed.
Lemma machine_free r l : LF ∉ l -> (size r <= sseLineChunkBytes)%N -> machine r l = chunks (r ++ l).
Proof.
  revert r. induction l as [|c l IH]; intros r Hl Hr; cbn [machine]; [by rewrite app_nil_r, chunks_small|].
  apply not_elem_of_cons in Hl as [Hc Hl]. destruct (N.eqb_spec c LF) as [->|_]; [done|].
  destruct (N.ltb_spec (size r) sseLineChunkBytes) as [H|H].
  - rewrite IH; [by rewrite <- app_assoc|done|]. rewrite size_app. change (size [c]) with 1%N. lia.
  - rewrite IH; [|done|pose proof chunk_pos; change (size [c]) with 1%N; lia].
    change ([c] ++ l) with (c :: l). rewrite chunks_full by (lia || done). by destruct (chunks (c :: l)).
Qed.

Lemma span_LF s : (exists l r, s = l ++ LF :: r /\ (LF ∉ l) /\ span (fun c => negb (c =? LF)%N) s = (l, LF :: r)) \/
  ((LF ∉ s) /\ span (fun c => negb (c =? LF)%N) s = (s, [])).
Proof.
  pose proof (span_app (fun c => negb (c =? LF)%N) s) as E. pose proof (span_all (fun c => negb (c =? LF)%N) s) as Ha.
  pose proof (span_stops (fun c => negb (c =? LF)%N) s) as Hs. destruct (span _ s) as [l r]; cbn in *.
  assert (Hl : LF ∉ l). { intros Hin. rewrite Forall_forall in Ha. by specialize (Ha _ Hin). }
  destruct r as [|c r]; cbn in Hs.
  - right. rewrite app_nil_r in E. by subst l.
  - left. destruct (N.eqb_spec c LF) as [->|]; [|done]. eauto.
Qed.
Lemma machine_line r l s : LF ∉ l -> (size r <= sseLineChunkBytes)%N ->
  machine r (l ++ LF :: s) = (pieces (r ++ l) ++ (machine [] s).1, (machine [] s).2).
Proof.
  intros Hl Hr. rewrite machine_app, (machine_free r l) by done. unfold pieces. destruct (chunks (r ++ l)) as [e x].
  cbn. destruct (machine [] s) as [e' b]. by rewrite <- app_assoc.
Qed.
Lemma line_loop_machine fuel s : length s <= fuel ->
  machine [] s = ((line_loop fuel s).1 ++ (chunks (line_loop fuel s).2).1, (chunks (line_loop fuel s).2).2).
Proof.
  revert s. induction fuel as [|f IH]; intros s Hs; [destruct s; [done|cbn in Hs; lia]|]. cbn [line_loop].
  destruct (span_LF s) as [(l & r & -> & Hl & ->)|[Hl ->]].
  - rewrite machine_line by auto. rewrite length_app in Hs. cbn in Hs. rewrite IH by lia.
    unfold pieces. cbn [app]. destruct (chunks l) as [e x], (line_loop f r) as [es b]. cbn. by rewrite <- !app_assoc.
  - rewrite machine_free by auto. cbn [fst snd app]. by destruct (chunks s).
Qed.
Lemma cut_machine s : cut s = machine [] s.
Proof. unfold cut. rewrite (line_loop_machine (length s)) by done. destruct (line_loop _ s) as [es b]. cbn [fst snd]. by destruct (chunks b). Qed.

(** A piece holds no line feed and is no longer than the bound. *)
Definition piece_ok (p : bytes) : Prop := (LF ∉ p) /\ (size p <= sseLineChunkBytes)%N.
Lemma piece_nil : piece_ok [].
Proof. split; [apply not_elem_of_nil|auto]. Qed.
Lemma machine_pieces r s : piece_ok r -> Forall piece_ok (machine r s).1 /\ piece_ok (machine r s).2.
Proof.
  revert r. induction s as [|c s IH]; intros r Hr; cbn; [done|].
  destruct (N.eqb_spec c LF) as [->|Hc].
  - specialize (IH [] piece_nil). destruct (machine [] s). destruct IH. by split; [constructor|].
  - assert (Hc1 : LF ∉ [c]) by by rewrite list_elem_of_singleton.
    destruct Hr as [H1 H2]. destruct (N.ltb_spec (size r) sseLineChunkBytes) as [H|H].
    + apply IH. split; [by rewrite elem_of_app; intros [?|?]|]. rewrite size_app. change (size [c]) with 1%N. lia.
    + assert (Hp : piece_ok [c]). { split; [done|]. change (size [c]) with 1%N. pose proof chunk_pos. lia. }
      specialize (IH [c] Hp). destruct (machine [c] s). destruct IH. by split; [constructor|].
Qed.
Lemma machine_resume r s : piece_ok r -> machine [] (r ++ s) = machine r s.
Proof.
  intros [H1 H2]. rewrite machine_app, (machine_free [] r) by auto. rewrite chunks_small by done.
  cbn. by destruct (machine r s).
Qed.

(** ** What a file is cut into *)

Lemma chunk_loop_rest f l : l <> [] -> (chunk_loop f l).2 <> [].
Proof.
  revert l. induction f as [|f IH]; intros l Hl; cbn; [done|].
  destruct (N.ltb_spec sseLineChunkBytes (size l)) as [H|H]; [|done].
  assert (Hd : drop (N.to_nat sseLineChunkBytes) l <> []).
  { intros E. apply (f_equal length) in E. rewrite length_drop in E. unfold size in H. cbn in E. lia. }
  specialize (IH _ Hd). by destruct (chunk_loop f _).
Qed.

Lemma text_lines_cons l s : LF ∉ l -> text_lines (l ++ LF :: s) = l :: text_lines s.
Proof.
  intros Hl. unfold text_lines. rewrite split_on_cons by done. rewrite reverse_cons.
  assert (Hn : reverse (split_on LF s) <> []).
  { intros E. apply (f_equal reverse) in E. rewrite reverse_involutive in E. by apply split_on_nonnil in E. }
  destruct (reverse (split_on LF s)) as [|[|c x] r] eqn:E; [done|..]; cbn; [by rewrite reverse_snoc|done].
Qed.
Lemma machine_flush s : (machine [] s).1 ++ (if truthy (machine [] s).2 then [(machine [] s).2] else []) = log_lines s.
Proof.
  remember (length s) as n eqn:En. assert (Hn : length s <= n) by lia. clear En. revert s Hn.
  induction n as [|n IH]; intros s Hn; [by destruct s; [|cbn in Hn; lia]|].
  destruct (span_LF s) as [(l & r & -> & Hl & _)|[Hl _]].
  - rewrite length_app in Hn. cbn in Hn. rewrite machine_line by auto. cbn [fst snd]. rewrite <- app_assoc, IH by lia.
    unfold log_lines. by rewrite text_lines_cons by done.
  - rewrite machine_free by auto. change ([] ++ s) with s. unfold log_lines, text_lines. rewrite split_on_word by done.
    destruct s as [|c s]; [by rewrite chunks_small by auto|]. cbn [reverse rev_append fmap list_fmap concat]. unfold pieces.
    rewrite app_nil_r.
    assert (Ht : truthy (chunks (c :: s)).2 = true) by (apply truthy_true, chunk_loop_rest; done).
    destruct (chunks (c :: s)) as [e x]. cbn in *. by rewrite Ht.
Qed.

(** ** The reads of the server *)

Lemma read_loop_spec fuel rem file o b : (o <= size file)%N -> length file < fuel + N.to_nat o ->
  let new := take (N.to_nat rem) (drop (N.to_nat o) file) in
  read_loop fuel rem file (Tailer o b) = Tailer (o + size new) (b ++ new).
Proof.
  revert rem o b. induction fuel as [|f IH]; intros rem o b Ho Hf; [unfold size in Ho; lia|]. cbn [read_loop tl_offset tl_buf].
  destruct (N.ltb_spec 0 rem) as [Hr|Hr].
  2:{ replace rem with 0%N by lia. cbn. by rewrite N.add_0_r, app_nil_r. }
  set (n := N.min rem read_buffer). assert (Hn : (0 < n)%N) by (unfold n, read_buffer; lia).
  destruct (take (N.to_nat n) (drop (N.to_nat o) file)) as [|c l] eqn:E.
  - assert (Hd : drop (N.to_nat o) file = []).
    { destruct (drop (N.to_nat o) file); [done|]. destruct (N.to_nat n) eqn:En; [lia|done]. }
    rewrite Hd, take_nil. cbn. by rewrite N.add_0_r, app_nil_r.
  - rewrite <- E. set (got := take (N.to_nat n) (drop (N.to_nat o) file)) in *.
    assert (Hg : (0 < size got)%N) by (rewrite E; unfold size; cbn; lia).
    assert (Hgl : (size got <= n)%N /\ (size got <= size file - o)%N).
    { unfold got, size. rewrite length_take, length_drop. lia. }
    assert (Hgn : N.to_nat (size got) = length got) by (unfold size; lia).
    rewrite IH by (unfold size in *; lia).
    assert (Es : take (N.to_nat rem) (drop (N.to_nat o) file) =
      got ++ take (N.to_nat (rem - size got)) (drop (N.to_nat (o + size got)) file)).
    { assert (Eg : got = take (length got) (drop (N.to_nat o) file)).
      { unfold got at 2. rewrite length_take. unfold got. destruct (Nat.min_spec (N.to_nat n) (length (drop (N.to_nat o) file))) as [[_ ->]|[Hm ->]]; [done|].
        by rewrite !take_ge by lia. }
      rewrite Eg at 1. replace (N.to_nat (o + size got)) with (N.to_nat o + length got) by lia. rewrite <- drop_drop, take_take_drop.
      f_equal. lia. }
    rewrite Es, size_app, <- app_assoc. f_equal. lia.
Qed.

(** The file at every look extends the one before, and never by more than one read. *)
Fixpoint follows (o : N) (f : bytes) (fs : list (option bytes)) : Prop :=
  match fs with
  | [] => True
  | g :: gs => let g' := default [] g in f `prefix_of` g' /\ (size g' <= o + sseInitialTailBytes)%N /\ follows (size g') g' gs
  end.
(** Where the stream of a file begins. *)
Definition start_of (f : bytes) : N := if (sseInitialTailBytes <? size f)%N then (size f - sseInitialTailBytes)%N else 0%N.

(** What was sent from [st] on, and what is left in the buffer, when the reads have come
    to [o] of the file [f]. *)
Record at_ (st o : N) (f : bytes) (sent : list bytes) (s : tailer) : Prop := {
  at_le : (st <= o)%N /\ (o <= size f)%N;
  at_off : tl_offset s = o;
  at_cut : machine [] (drop (N.to_nat st) (take (N.to_nat o) f)) = (sent, tl_buf s);
}.
Lemma drain_at final st o f g sent s : at_ st o f sent s -> f `prefix_of` default [] g ->
  (size (default [] g) <= o + sseInitialTailBytes)%N ->
  let m := machine [] (drop (N.to_nat st) (default [] g)) in
  exists new, (drain final g s).1 = Line <$> new /\
    (final = false -> at_ st (size (default [] g)) (default [] g) (sent ++ new) (drain final g s).2) /\
    (final = true -> sent ++ new = m.1 ++ (if truthy m.2 then [m.2] else [])).
Proof.
  intros [[H1 H2] Ho Hc] [k Hk] Hg m.
  assert (Hm : m = (sent ++ (machine (tl_buf s) (drop (N.to_nat o) (default [] g))).1, (machine (tl_buf s) (drop (N.to_nat o) (default [] g))).2)).
  { unfold m. rewrite Hk. unfold size in H2.
    assert (E : drop (N.to_nat st) (f ++ k) = drop (N.to_nat st) (take (N.to_nat o) f) ++ drop (N.to_nat o) (f ++ k)).
    { rewrite <- (take_drop (N.to_nat o) (f ++ k)) at 1. rewrite take_app_le by lia. rewrite drop_app_le; [done|]. rewrite length_take. lia. }
    by rewrite E, machine_app, Hc. }
  destruct g as [g|]; cbn [default from_option id] in *.
  2:{ (* no file yet *)
    assert (f = []) as -> by (by destruct f). assert (o = 0%N) as -> by (unfold size in H2; cbn in H2; lia).
    rewrite !drop_nil in *. exists []. cbn in *. rewrite app_nil_r. injection Hc as <- Hb. split; [done|]. split; intros _.
    - split; [cbn; lia|done|]. rewrite take_nil, drop_nil. by rewrite <- Hb.
    - rewrite Hm. by rewrite <- Hb. }
  unfold drain, reposition. rewrite Ho. assert (Hsz : (o <= size g)%N) by (rewrite Hk, size_app; lia).
  destruct (N.ltb_spec (size g) o); [lia|]. destruct (N.ltb_spec sseInitialTailBytes (size g - o)); [lia|].
  destruct s as [o' b]. cbn in Ho. subst o'. cbn [tl_buf] in *.
  rewrite read_loop_spec by (done || lia). rewrite take_ge by (rewrite length_drop; unfold size, sseReadPerDrain, sseInitialTailBytes in *; lia).
  cbn [tl_buf tl_offset]. rewrite size_drop.
  assert (Hb : piece_ok b). { pose proof (machine_pieces [] (drop (N.to_nat st) (take (N.to_nat o) f)) piece_nil) as [_ Hp]. by rewrite Hc in Hp. }
  rewrite cut_machine, machine_resume by done.
  destruct (machine b (drop (N.to_nat o) g)) as [e r] eqn:E. cbn [fst snd] in *. rewrite Hm.
  destruct (final && truthy r) eqn:Ef.
  - apply andb_true_iff in Ef as [-> Hr]. exists (e ++ [r]). cbn. split; [by rewrite fmap_app|]. split; [done|]. intros _.
    by rewrite Hr, app_assoc.
  - exists e. cbn. split; [done|]. split.
    + intros ->. split; cbn; [unfold size in *; lia|lia|]. rewrite take_ge by (unfold size; lia). fold m. by rewrite Hm.
    + intros ->. cbn in Ef. by rewrite Ef, app_nil_r.
Qed.

Lemma drains_at st fs : forall o f sent s, at_ st o f sent s -> follows o f fs ->
  exists new o' f', (drains fs s).1 = Line <$> new /\ at_ st o' f' (sent ++ new) (drains fs s).2 /\
    (forall g, follows o f (fs ++ [g]) -> f' `prefix_of` default [] g /\ (size (default [] g) <= o' + sseInitialTailBytes)%N).
Proof.
  induction fs as [|g fs IH]; intros o f sent s Ha Hf.
  - exists [], o, f. cbn. rewrite app_nil_r. split_and!; [done|done|]. by intros g (Hp & Hg & _).
  - destruct Hf as (Hp & Hg & Hf). destruct (drain_at false st o f g sent s Ha Hp Hg) as (new & E & Ha1 & _).
    destruct (IH _ _ _ _ (Ha1 eq_refl) Hf) as (new2 & o2 & f2 & E2 & Ha2 & Hl).
    exists (new ++ new2), o2, f2. cbn [drains]. destruct (drain false g s) as [a s1]. cbn in *.
    destruct (drains fs s1) as [b s2]. cbn in *. subst a b. rewrite fmap_app, app_assoc. split_and!; [done|done|].
    intros g' (_ & _ & Hf'). by apply Hl.
Qed.
Lemma stream_start_at f0 : let f := default [] f0 in exists tr, (stream_start f0).1 = tr /\
  at_ (start_of f) (start_of f) f [] (stream_start f0).2 /\ (tr = [] \/ exists a n, tr = [Truncated a n]).
Proof.
  assert (Hmid : forall k g, machine [] (drop k (take k g)) = ([], [])).
  { intros k g. by rewrite drop_ge by (rewrite length_take; lia). }
  intros f. unfold f, stream_start, start_of. destruct f0 as [file|]; cbn [default from_option id].
  - destruct (N.ltb_spec sseInitialTailBytes (size file)) as [H|H]; eexists; (split; [reflexivity|]);
      (split; [split; [lia|done|apply Hmid]|]); [right; eauto|by left].
  - exists []. change (sseInitialTailBytes <? size [])%N with false. cbn [fst snd]. split; [done|]. split; [|by left]. split; [cbn; lia|done|]. apply (Hmid 0 []).
Qed.
(** The pieces a stream sends. *)
Lemma streamLog_lines f0 ticks last : let f := default [] f0 in
  follows (start_of f) f (ticks ++ [last]) ->
  exists tr, (tr = [] \/ exists a n, tr = [Truncated a n]) /\
    streamLog f0 ticks last = tr ++ (Line <$> log_lines (drop (N.to_nat (start_of f)) (default [] last))) ++ [Done].
Proof.
  intros f Hf. destruct (stream_start_at f0) as (tr & E & Ha & Htr). fold f in Ha.
  assert (Hf1 : follows (start_of f) f ticks).
  { clear -Hf. revert Hf. generalize (start_of f). generalize f. induction ticks as [|g gs IH]; intros f' o; cbn; [done|].
    intros (? & ? & ?). split_and!; [done..|]. by apply IH. }
  destruct (drains_at _ _ _ _ _ _ Ha Hf1) as (new & o' & f' & Ed & Ha' & Hl). destruct (Hl last Hf) as [Hp Hs].
  destruct (drain_at true _ _ _ last _ _ Ha' Hp Hs) as (new2 & E2 & _ & Hd).
  exists tr. split; [done|]. unfold streamLog. destruct (stream_start f0) as [a s]. cbn [fst snd] in E, Ed, E2, Hd. subst a.
  destruct (drains ticks s) as [b s1]. cbn [fst snd] in *. subst b. rewrite E2, <- machine_flush.
  rewrite <- (Hd eq_refl). rewrite fmap_app, <- !app_assoc. done.
Qed.

(** ** The browser takes the stream apart *)

Definition event_of (f : frame) : sse_event :=
  match f with
  | Line b => SseEvent (lit "message") (no_cr b)
  | Truncated a n => SseEvent (lit "truncated") (truncated_text a n)
  | Done => SseEvent (lit "done") (lit "end")
  end.
Definition frame_ok (f : frame) : Prop := match f with Line b => LF ∉ b | _ => True end.
Definition no_eol (l : bytes) : Prop := (LF ∉ l) /\ (CR ∉ l).

Lemma sse_lines_line cur l s : no_eol l -> sse_lines cur (l ++ LF :: s) = (cur ++ l) :: sse_lines [] s.
Proof.
  revert cur. induction l as [|c l IH]; intros cur [H1 H2]; cbn; [by rewrite app_nil_r|].
  apply not_elem_of_cons in H1 as [Hc1 H1]. apply not_elem_of_cons in H2 as [Hc2 H2].
  destruct (N.eqb_spec c LF) as [->|_]; [done|]. destruct (N.eqb_spec c CR) as [->|_]; [done|].
  rewrite IH by done. by rewrite <- app_assoc.
Qed.
Lemma no_eol_app a b : no_eol a -> no_eol b -> no_eol (a ++ b).
Proof. intros [? ?] [? ?]. split; rewrite elem_of_app; tauto. Qed.
Lemma no_eol_dec l : forallb (fun c => negb (c =? LF)%N && negb (c =? CR)%N) l = true -> no_eol l.
Proof. intros H. rewrite forallb_forall in H. split; intros Hin%list_elem_of_In; by specialize (H _ Hin). Qed.
Lemma no_eol_digits n : no_eol (digits n).
Proof.
  pose proof (digits_digit n) as H. rewrite Forall_forall in H. split; intros Hin; by specialize (H _ Hin).
Qed.
Lemma no_eol_truncated a n : no_eol (truncated_text a n).
Proof. unfold truncated_text. auto using no_eol_app, no_eol_digits, no_eol_dec. Qed.
Lemma no_eol_cr b : LF ∉ b -> no_eol (no_cr b).
Proof. intros H. unfold no_cr. split; rewrite list_elem_of_filter; tauto. Qed.

Lemma sse_data v ls t : sse_run ((lit "data: " ++ v) :: [] :: ls) (t, []) = SseEvent (t ||j lit "message") v :: sse_run ls ([], []).
Proof.
  change (sse_run ((lit "data: " ++ v) :: [] :: ls) (t, [])) with (dispatch (t, v ++ [LF]) ++ sse_run ls ([], [])).
  unfold dispatch. destruct (v ++ [LF]) eqn:E; [by destruct v|]. rewrite <- E. f_equal. f_equal.
  rewrite length_app. cbn. replace (pred (length v + 1)) with (length v) by lia. by rewrite take_app_length.
Qed.
Lemma sse_frame f s : frame_ok f -> sse_parse (wire f ++ s) = event_of f :: sse_parse s.
Proof.
  intros Hf. unfold sse_parse.
  assert (Hd : forall v, no_eol v -> sse_lines [] (lit "data: " ++ v ++ [LF; LF] ++ s) = (lit "data: " ++ v) :: [] :: sse_lines [] s).
  { intros v Hv. rewrite app_assoc. change ([LF; LF] ++ s) with (LF :: [] ++ LF :: s).
    rewrite sse_lines_line by (apply no_eol_app; [by apply no_eol_dec|done]). reflexivity. }
  destruct f as [a n|b|]; cbn [event_of].
  - assert (E : wire (Truncated a n) ++ s = lit "event: truncated" ++ LF :: (lit "data: " ++ truncated_text a n ++ [LF; LF] ++ s)).
    { cbn [wire]. rewrite <- !app_assoc. reflexivity. }
    rewrite E, sse_lines_line, Hd by (apply no_eol_truncated || by apply no_eol_dec). cbn [app]. apply (sse_data (truncated_text a n)).
  - unfold wire, emit. rewrite <- !app_assoc, Hd by by apply no_eol_cr. apply (sse_data (no_cr b)).
  - reflexivity.
Qed.
Lemma sse_frames fs : Forall frame_ok fs -> sse_parse (concat (wire <$> fs)) = event_of <$> fs.
Proof. induction 1 as [|f fs Hf _ IH]; [done|]. cbn [fmap list_fmap concat]. by rewrite sse_frame, IH. Qed.

(** ** From the file to the screen *)

Lemma Line_ok (es : list bytes) : Forall (fun p => LF ∉ p) es -> Forall frame_ok (Line <$> es).
Proof. intros H. by apply Forall_fmap. Qed.
Lemma log_lines_free f : Forall (fun p => LF ∉ p) (log_lines f).
Proof.
  rewrite <- machine_flush. destruct (machine_pieces [] f piece_nil) as [H1 [H2 _]]. apply Forall_app. split.
  - eapply Forall_impl; [exact H1|]. by intros p [? _].
  - destruct (truthy _); [by constructor|constructor].
Qed.
Lemma log_lines_size f : Forall (fun p => size p <= sseLineChunkBytes)%N (log_lines f).
Proof.
  rewrite <- machine_flush. destruct (machine_pieces [] f piece_nil) as [H1 [_ H2]]. apply Forall_app. split.
  - eapply Forall_impl; [exact H1|]. by intros p [_ ?].
  - destruct (truthy _); [by constructor|constructor].
Qed.
Lemma machine_bytes r s : concat (machine r s).1 ++ (machine r s).2 = r ++ filter (fun c => c <> LF) s.
Proof.
  revert r. induction s as [|c s IH]; intros r; cbn [machine]; [by rewrite app_nil_r|].
  destruct (N.eqb_spec c LF) as [->|Hc].
  - rewrite (filter_cons_False (A := N)) by tauto. specialize (IH []). destruct (machine [] s). cbn in *. by rewrite <- app_assoc, IH.
  - rewrite (filter_cons_True (A := N)) by done. destruct (size r <? sseLineChunkBytes)%N; [by rewrite IH, <- app_assoc|].
    specialize (IH [c]). destruct (machine [c] s). cbn in *. by rewrite <- app_assoc, IH.
Qed.
(** The pieces hold every byte but the line feeds, and short lines are whole. *)
Lemma log_lines_bytes f : concat (log_lines f) = filter (fun c => c <> LF) f.
Proof.
  rewrite <- machine_flush, concat_app, <- (app_nil_l (filter _ f)), <- machine_bytes. f_equal.
  destruct (machine [] f).2; [done|]. cbn. by rewrite app_nil_r.
Qed.
Lemma log_lines_short f : Forall (fun l => size l <= sseLineChunkBytes)%N (text_lines f) -> log_lines f = text_lines f.
Proof.
  unfold log_lines. induction 1 as [|l ls Hl _ IH]; [done|]. cbn [fmap list_fmap concat]. unfold pieces. rewrite chunks_small by done.
  cbn. f_equal. exact IH.
Qed.
Lemma drain_ok final f s : LF ∉ tl_buf s -> Forall frame_ok (drain final f s).1 /\ LF ∉ tl_buf (drain final f s).2.
Proof.
  intros Hs. unfold drain. destruct f as [file|]; [|done].
  assert (Hcut : forall b, Forall (fun p => LF ∉ p) (cut b).1 /\ LF ∉ (cut b).2).
  { intros b. rewrite cut_machine. destruct (machine_pieces [] b piece_nil) as [H1 [H2 _]]. split; [|done].
    eapply Forall_impl; [exact H1|]. by intros p [? _]. }
  assert (Hfr : Forall frame_ok (reposition file s).1) by (unfold reposition; repeat case_match; repeat constructor).
  destruct (reposition file s) as [fr s1]. cbn in Hfr. set (s2 := read_loop _ _ _ _).
  specialize (Hcut (tl_buf s2)). destruct (cut (tl_buf s2)) as [es r]. cbn in Hcut. destruct Hcut as [Hes Hr].
  destruct (final && truthy r); cbn.
  - split; [|apply not_elem_of_nil]. rewrite !Forall_app. split_and!; [done|by apply Line_ok|by repeat constructor].
  - split; [|done]. rewrite Forall_app. split; [done|by apply Line_ok].
Qed.
Lemma streamLog_ok f0 ticks last : exists fs, streamLog f0 ticks last = fs ++ [Done] /\ Forall frame_ok fs.
Proof.
  unfold streamLog. assert (Ha : Forall frame_ok (stream_start f0).1 /\ LF ∉ tl_buf (stream_start f0).2).
  { unfold stream_start. repeat case_match; (split; [repeat constructor|apply not_elem_of_nil]). }
  destruct (stream_start f0) as [a s]. cbn in Ha. destruct Ha as [Ha Hs].
  assert (Hb : Forall frame_ok (drains ticks s).1 /\ LF ∉ tl_buf (drains ticks s).2).
  { clear Ha. revert s Hs. induction ticks as [|g gs IH]; intros s Hs; cbn; [done|].
    pose proof (drain_ok false g s Hs) as [H1 H2]. destruct (drain false g s) as [x s1]. cbn in *.
    specialize (IH s1 H2). destruct (drains gs s1) as [y s2]. cbn in *. rewrite Forall_app. tauto. }
  destruct (drains ticks s) as [b s1]. cbn in Hb. destruct Hb as [Hb Hs1]. destruct (drain_ok true last s1 Hs1) as [Hc _].
  exists (a ++ b ++ (drain true last s1).1). rewrite <- !app_assoc. split; [done|]. rewrite !Forall_app. done.
Qed.

Lemma heard_done fs : (heard (event_of <$> (fs ++ [Done]))).2 = true.
Proof.
  induction fs as [|f fs IH]; [done|]. change (event_of <$> ((f :: fs) ++ [Done])) with (event_of f :: (event_of <$> (fs ++ [Done]))).
  cbn [heard]. case_bool_decide; [done|]. destruct (heard _) as [ms d]. cbn in IH. by case_bool_decide.
Qed.
Lemma heard_lines tr ls : tr = [] \/ (exists a n, tr = [Truncated a n]) ->
  (heard (event_of <$> (tr ++ (Line <$> ls) ++ [Done]))).1 = no_cr <$> ls.
Proof.
  assert (H : (heard (event_of <$> ((Line <$> ls) ++ [Done]))).1 = no_cr <$> ls).
  { induction ls as [|l ls IH]; [done|].
    change (event_of <$> ((Line <$> l :: ls) ++ [Done])) with (event_of (Line l) :: (event_of <$> ((Line <$> ls) ++ [Done]))).
    cbn [heard]. rewrite bool_decide_false by done. destruct (heard _) as [ms d]. cbn in IH. subst ms. by rewrite bool_decide_true. }
  intros [-> | (a & n & ->)]; [done|].
  change (event_of <$> ([Truncated a n] ++ (Line <$> ls) ++ [Done])) with (event_of (Truncated a n) :: (event_of <$> ((Line <$> ls) ++ [Done]))).
  cbn [heard]. rewrite bool_decide_false by done. destruct (heard _) as [ms d]. cbn [fst snd] in *. by rewrite bool_decide_false.
Qed.
Lemma messages_map (l : list jstr) : messages (Message <$> l) = l.
Proof. induction l as [|x l IH]; [done|]. cbn. by f_equal. Qed.

Lemma no_filter lower (ms : list jstr) : lv_filter (log_run lower (Message <$> ms) log_open) = [].
Proof.
  induction ms as [|x ms IH] using rev_ind; [done|]. unfold log_run in *. rewrite fmap_app, foldl_app. cbn.
  destruct (_ || _); cbn; done.
Qed.

(** The live log on screen, for a stream that has ended: [onmessage] for every message. *)
Definition on_screen (lower : jstr -> jstr) (decode : bytes -> jstr) (msgs : list bytes) : box :=
  lv_box (log_run lower (Message <$> (decode <$> msgs)) log_open).


Definition sample_ticks : list (option bytes) :=
  [None; Some (lit "sta"); Some (lit "start" ++ [CR; LF] ++ lit "data: x")].
Definition sample_last : option bytes := Some (lit "start" ++ [CR; LF] ++ lit "data: x" ++ [LF; LF] ++ lit "end").
