(* ===== verification/LogPanels.v ===== *)
(** * The live logs of the run pages (views.js, [showLog], [showAllLogs], [nvOpenLog],
    [openDefaultRunLog], the choice of a log in [renderNovRun]; base.js, [closeLog])

    A stream of the browser belongs to the panel it was opened for, and writes there
    whether or not the panel is still on the page. [logES] and [logESAll] are what the
    code can close. The content of a panel is [RunDisplay]'s; which lines a stream
    brings is [LogStream]'s. Events: pages are left and drawn, in any order, polls are
    answered, the user picks logs, streams bring lines and end. *)

From S2P Require Import Prelude JsCore Schedule TaskGraph Labels Format Jump RunView RunDisplay.

(** ** State *)

Inductive stream_kind := KTask | KAll | KFollow.
(** An open EventSource, the panel of its [box] and the instance it is for. *)
Record source := Source { so_id : nat; so_panel : nat; so_inst : inst; so_kind : stream_kind }.
Inductive pview :=
| PTask (x : inst) (v : logview) (multi : bool)   (** [multi]: offers all logs *)
| PAll (xs : list inst) (v : alllogs)
| PFollow (x : inst) (v : logview).
Record panel := Panel { pn_id : nat; pn_view : pview; pn_live : bool }.
Inductive lscreen :=
| SOther
| SExpert (opened : bool) (p : option panel)      (** [#logwrap] and its [data-opened] *)
| SNovice (pin cur : option jstr) (p : option panel). (** [NVR.pin], [NVR.curTi] *)
Record logs := Logs {
  lg_next : nat;
  lg_open : list source;
  lg_ES : option nat;
  lg_all : list nat;
  lg_screen : lscreen;
  lg_cache : option (list inst);   (** [runDataCache] *)
}.
Definition logs_init : logs := Logs 0 [] None [] SOther None.

Definition set_lscreen (sc : lscreen) (s : logs) : logs :=
  Logs (lg_next s) (lg_open s) (lg_ES s) (lg_all s) sc (lg_cache s).
Definition set_lcache (c : option (list inst)) (s : logs) : logs :=
  Logs (lg_next s) (lg_open s) (lg_ES s) (lg_all s) (lg_screen s) c.
Definition panel_of (sc : lscreen) : option panel :=
  match sc with SOther => None | SExpert _ p | SNovice _ _ p => p end.
Definition with_panel (p : panel) (sc : lscreen) : lscreen :=
  match sc with SOther => SOther | SExpert o _ => SExpert o (Some p) | SNovice pin cur _ => SNovice pin cur (Some p) end.
Definition on_panel (s : logs) : option panel := panel_of (lg_screen s).

(** ** Opening and closing *)

Definition closable (s : logs) : list nat := option_list (lg_ES s) ++ lg_all s.
Definition closeLog (s : logs) : logs :=
  Logs (lg_next s) (filter (fun o => so_id o ∉ closable s) (lg_open s)) None [] (lg_screen s) (lg_cache s).
Definition showLog (x : inst) (s0 : logs) : logs :=
  let s := closeLog s0 in
  match lg_screen s with
  | SExpert _ _ =>
    let n := lg_next s in
    let multi := match lg_cache s with Some l => Nat.ltb 1 (length l) | None => false end in
    Logs (S n) (lg_open s ++ [Source n n x KTask]) (Some n) (lg_all s) (SExpert true (Some (Panel n (PTask x log_open multi) true))) (lg_cache s)
  | _ => s
  end.
Definition showAllLogs (s0 : logs) : logs :=
  match lg_cache s0 with
  | None => s0
  | Some data =>
    let s := closeLog s0 in
    let tasks := List.filter (fun x => truthy (in_id x)) data in
    match lg_screen s with
    | SExpert o _ =>
      let n := lg_next s in
      Logs (n + S (length tasks)) (lg_open s ++ imap (fun i x => Source (n + i) n x KAll) tasks) (lg_ES s)
        (lg_all s ++ imap (fun i _ => n + i) tasks) (SExpert o (Some (Panel n (PAll tasks (all_open (in_task <$> tasks))) true))) (lg_cache s)
    | _ => s
    end
  end.
Definition nvOpenLog (x : inst) (s0 : logs) : logs :=
  let s := closeLog s0 in
  match lg_screen s with
  | SNovice pin cur _ =>
    let n := lg_next s in
    Logs (S n) (lg_open s ++ [Source n n x KFollow]) (Some n) (lg_all s) (SNovice pin cur (Some (Panel n (PFollow x log_open) true))) (lg_cache s)
  | _ => s
  end.

(** ** The pages *)

Definition openDefaultRunLog (tis : list inst) (s : logs) : logs :=
  match lg_screen s with
  | SExpert false _ =>
    match default_log tis with Some x => if truthy (in_id x) then showLog x s else s | None => s end
  | _ => s
  end.
(** The end of [renderNovRun]: [NVR.curTi = pick.id; nvOpenLog(pick)]. *)
Definition follow_log (tis : list inst) (s : logs) : logs :=
  match lg_screen s with
  | SNovice pin cur p =>
    match pick_log pin tis with
    | Some x => if truthy (in_id x) && negb (bool_decide (cur = Some (in_id x)))
                then nvOpenLog x (set_lscreen (SNovice pin (Some (in_id x)) p) s) else s
    | None => s
    end
  | _ => s
  end.
Definition draw_expert (tis : list inst) (s : logs) : logs :=
  openDefaultRunLog tis (set_lcache (Some tis) (set_lscreen (SExpert false None) s)).
Definition draw_novice (tis : list inst) (s : logs) : logs := follow_log tis (set_lscreen (SNovice None None None) s).
(** A click on a step, with the data its row was drawn from. *)
Definition pin_step (task : jstr) (tis : list inst) (s : logs) : logs :=
  match lg_screen s with
  | SNovice pin cur p =>
    follow_log tis (set_lscreen (SNovice (if bool_decide (pin = Some task) then None else Some task) cur p) s)
  | _ => s
  end.

(** ** What the streams do *)

Definition feed (x : inst) (data : jstr) (v : pview) : pview :=
  match v with
  | PTask y w m => PTask y (log_step toLowerCase (Message data) w) m
  | PAll ys w => PAll ys (all_step (AllMessage (in_task x) data) w)
  | PFollow y w => PFollow y (log_step toLowerCase (Message data) w)
  end.
(** On a panel that has left the page nothing is seen of it. *)
Definition on_message (o : source) (data : jstr) (s : logs) : logs :=
  match on_panel s with
  | Some p => if Nat.eqb (pn_id p) (so_panel o)
              then set_lscreen (with_panel (Panel (pn_id p) (feed (so_inst o) data (pn_view p)) (pn_live p)) (lg_screen s)) s else s
  | None => s
  end.
(** [$("live")] and [$("nvr-live")] *)
Definition clear_live (k : stream_kind) (s : logs) : logs :=
  match on_panel s with
  | Some p =>
    match k, pn_view p with
    | KFollow, PFollow _ _ | (KTask | KAll), (PTask _ _ _ | PAll _ _) =>
      set_lscreen (with_panel (Panel (pn_id p) (pn_view p) false) (lg_screen s)) s
    | _, _ => s
    end
  | None => s
  end.
(** [settle]: the count is the panel's own. *)
Definition settle (o : source) (s : logs) : logs :=
  let s1 := Logs (lg_next s) (filter (fun q => so_id q <> so_id o) (lg_open s)) (lg_ES s) (lg_all s) (lg_screen s) (lg_cache s) in
  match on_panel s1 with
  | Some (Panel n (PAll xs v) live) =>
    if Nat.eqb n (so_panel o) then
      let v' := all_step Settle v in
      let s2 := set_lscreen (with_panel (Panel n (PAll xs v') live) (lg_screen s1)) s1 in
      if all_live v' then s2 else clear_live KAll s2
    else s1
  | _ => s1
  end.
(** "done" and errors. *)
Definition on_end (o : source) (s : logs) : logs :=
  match so_kind o with KAll => settle o s | k => clear_live k (closeLog s) end.

Inductive lg_event :=
| LLeave                                    (** a page function's first lines *)
| LDrawOther | LDrawExpert (tis : list inst) | LDrawNovice (tis : list inst)
| LPollExpert (tis : list inst) | LPollNovice (tis : list inst)
| LPin (task : jstr) (tis : list inst) | LClick (x : inst) | LAll | LFind (value : jstr)
| LMessage (n : nat) (data : jstr) | LEnd (n : nat).
Definition source_of (n : nat) (s : logs) : option source := List.find (fun o => Nat.eqb (so_id o) n) (lg_open s).
(** [None]: the page does not offer it, or there is no such stream. *)
Definition lg_step (e : lg_event) (s : logs) : option logs :=
  match e with
  | LLeave => Some (closeLog s)
  | LDrawOther => Some (set_lscreen SOther s)
  | LDrawExpert tis => Some (draw_expert tis s)
  | LDrawNovice tis => Some (draw_novice tis s)
  | LPollExpert tis => Some (set_lcache (Some tis) s)
  | LPollNovice tis => Some (follow_log tis s)
  | LPin task tis => match lg_screen s with SNovice _ _ _ => Some (pin_step task tis s) | _ => None end
  | LClick x => match lg_screen s with SExpert _ _ => Some (showLog x s) | _ => None end
  | LAll => match lg_screen s with SExpert _ (Some (Panel _ (PTask _ _ true) _)) => Some (showAllLogs s) | _ => None end
  | LFind value =>
    match on_panel s with
    | Some (Panel n (PTask x v m) live) =>
      Some (set_lscreen (with_panel (Panel n (PTask x (log_step toLowerCase (Find value) v) m) live) (lg_screen s)) s)
    | _ => None
    end
  | LMessage n data => o ← source_of n s; Some (on_message o data s)
  | LEnd n => o ← source_of n s; Some (on_end o s)
  end.
Definition lg_run (es : list lg_event) (s : logs) : option logs := foldM lg_step es s.

(** ** The invariant *)

(** The open streams [os] belong to the panel [p], and it says so. *)
Record panel_ok (p : panel) (os : list source) : Prop := {
  po_mine : Forall (fun o => so_panel o = pn_id p) os;
  po_view : match pn_view p with
            | PTask x _ _ => Forall (fun o => so_inst o = x /\ so_kind o = KTask) os /\ length os <= 1
            | PFollow x _ => Forall (fun o => so_inst o = x /\ so_kind o = KFollow) os /\ length os <= 1
            | PAll xs v => Forall (fun o => so_inst o ∈ xs /\ so_kind o = KAll) os /\ (os = [] \/ al_open v = Z.of_nat (length os))
            end;
  po_live : os <> [] -> pn_live p = true;
}.
Definition screen_shape (sc : lscreen) : Prop :=
  match sc with
  | SExpert _ (Some p) => match pn_view p with PFollow _ _ => False | _ => True end
  | SNovice _ _ (Some p) => match pn_view p with PFollow _ _ => True | _ => False end
  | _ => True
  end.
Record lg_inv (s : logs) : Prop := {
  li_next : Forall (fun o => so_id o < lg_next s) (lg_open s) /\ (forall p, on_panel s = Some p -> pn_id p < lg_next s);
  li_nodup : NoDup (so_id <$> lg_open s);
  li_closable : Forall (fun o => so_id o ∈ closable s) (lg_open s);
  li_panel : forall p, on_panel s = Some p -> panel_ok p (lg_open s);
  li_shape : screen_shape (lg_screen s);
}.

Lemma panel_ok_nil p : panel_ok p [].
Proof. split; [done| |done]. by case_match; (split; [done|]); [cbn; lia|left|cbn; lia]. Qed.
Lemma closeLog_open s : lg_inv s -> lg_open (closeLog s) = [].
Proof.
  intros H. cbn. apply filter_none. eapply Forall_impl; [apply (li_closable s H)|]. intros o Ho Hn. by apply Hn.
Qed.
(** With no open stream only the panel's number matters. *)
Lemma lg_inv_closed s : lg_open s = [] -> (forall p, on_panel s = Some p -> pn_id p < lg_next s) -> screen_shape (lg_screen s) -> lg_inv s.
Proof. intros E Hp Hs. split; rewrite ?E; try done; [constructor|intros; apply panel_ok_nil]. Qed.
Lemma closeLog_inv s : lg_inv s -> lg_inv (closeLog s).
Proof. intros H. apply lg_inv_closed; [by apply closeLog_open|apply (li_next s H)|apply (li_shape s H)]. Qed.
Lemma blank_inv sc s : lg_inv s -> panel_of sc = None -> lg_inv (set_lscreen sc s).
Proof.
  intros [[H1 _] H2 H3 _ _] Hp. split; cbn; try done; unfold on_panel; cbn; rewrite ?Hp; try done. by destruct sc as [|? []|? ? []].
Qed.
(** A new panel with the streams [os], which are all that is open. *)
Lemma new_panel_inv n os es all sc c k p : panel_of sc = Some p -> screen_shape sc -> panel_ok p os -> pn_id p < n + k ->
  Forall (fun o => so_id o < n + k) os -> NoDup (so_id <$> os) -> Forall (fun o => so_id o ∈ option_list es ++ all) os ->
  lg_inv (Logs (n + k) os es all sc c).
Proof. intros Hp Hs Ho Hn Hk Hd Hc. split; unfold on_panel; cbn; rewrite ?Hp; try done; [split; [done|]|]; by intros ? [= <-]. Qed.
Lemma single_inv s x kind v sc : lg_inv s -> panel_of sc = Some (Panel (lg_next s) v true) -> screen_shape sc ->
  match v, kind with PTask y _ _, KTask | PFollow y _, KFollow => y = x | _, _ => False end ->
  lg_inv (Logs (S (lg_next s)) (lg_open (closeLog s) ++ [Source (lg_next s) (lg_next s) x kind]) (Some (lg_next s)) [] sc (lg_cache s)).
Proof.
  intros H Hp Hs Hv. rewrite closeLog_open by done. rewrite <- Nat.add_1_r.
  apply (new_panel_inv _ _ _ _ _ _ _ _ Hp Hs); cbn; try (repeat constructor; cbn; (lia || set_solver)).
  split; cbn; [by constructor| |done]. destruct v, kind; try done; subst; (split; [by repeat constructor|cbn; lia]).
Qed.
Lemma showLog_inv x s : lg_inv s -> lg_inv (showLog x s).
Proof.
  intros H. unfold showLog. destruct (lg_screen (closeLog s)) eqn:E; try by apply closeLog_inv.
  by apply (single_inv s x KTask (PTask x log_open (match lg_cache s with Some l => Nat.ltb 1 (length l) | None => false end))).
Qed.
Lemma nvOpenLog_inv x s : lg_inv s -> lg_inv (nvOpenLog x s).
Proof.
  intros H. unfold nvOpenLog. destruct (lg_screen (closeLog s)) eqn:E; try by apply closeLog_inv.
  by apply (single_inv s x KFollow (PFollow x log_open)).
Qed.

Lemma all_sources n xs m : let os := imap (fun i x => Source (n + i) m x KAll) xs in
  so_id <$> os = imap (fun i _ => n + i) xs /\ length os = length xs /\
  Forall (fun o => so_panel o = m /\ so_inst o ∈ xs /\ so_kind o = KAll /\ n <= so_id o < n + length xs) os.
Proof.
  cbn. split; [by rewrite fmap_imap; apply imap_ext|]. split; [apply length_imap|]. apply Forall_forall. intros o.
  rewrite list_elem_of_lookup. intros [i Hi]. rewrite list_lookup_imap in Hi. destruct (xs !! i) eqn:E; [|done].
  injection Hi as <-. cbn. pose proof (lookup_lt_Some _ _ _ E). split_and!; [done|by eapply list_elem_of_lookup_2|done|lia|lia].
Qed.
Lemma imap_ids_nodup {A} n (xs : list A) : NoDup (imap (fun i _ => n + i) xs).
Proof.
  apply NoDup_alt. intros i j k Hi Hj. rewrite list_lookup_imap in Hi, Hj. destruct (xs !! i), (xs !! j); try done. simplify_eq/=. lia.
Qed.
Lemma showAllLogs_inv s : lg_inv s -> lg_inv (showAllLogs s).
Proof.
  intros H. unfold showAllLogs. destruct (lg_cache s) as [data|]; [|done].
  destruct (lg_screen (closeLog s)) eqn:E; try by apply closeLog_inv.
  set (xs := List.filter _ data). rewrite closeLog_open by done. cbn [app lg_ES lg_all closeLog lg_next].
  destruct (all_sources (lg_next s) xs (lg_next s)) as (E1 & E2 & Ha). rewrite Forall_forall in Ha.
  eapply new_panel_inv; [done|done| |cbn; lia| |by rewrite E1; apply imap_ids_nodup|].
  - split; cbn; [apply Forall_forall; intros o Ho; by apply Ha| |done]. split.
    + apply Forall_forall. intros o Ho. destruct (Ha o Ho) as (_ & ? & ? & _). done.
    + right. by rewrite E2, length_fmap.
  - apply Forall_forall. intros o Ho. destruct (Ha o Ho) as (_ & _ & _ & ?). lia.
  - apply Forall_forall. intros o Ho. cbn. rewrite <- E1. by apply list_elem_of_fmap_2.
Qed.

Lemma repanel_inv p p' s : lg_inv s -> on_panel s = Some p -> pn_id p' = pn_id p ->
  (panel_ok p (lg_open s) -> panel_ok p' (lg_open s)) ->
  (match pn_view p, pn_view p' with PFollow _ _, PFollow _ _ => True | PFollow _ _, _ | _, PFollow _ _ => False | _, _ => True end) ->
  lg_inv (set_lscreen (with_panel p' (lg_screen s)) s).
Proof.
  intros [[H1 H1p] H2 H3 H4 H5] Hp Hid Hok Hv.
  assert (E : on_panel (set_lscreen (with_panel p' (lg_screen s)) s) = Some p').
  { revert Hp. unfold on_panel. cbn. by destruct (lg_screen s) as [|o [q|]|pin cur [q|]]. }
  split; rewrite ?E; cbn; try done.
  - split; [done|]. intros ? [= <-]. rewrite Hid. by apply H1p.
  - intros ? [= <-]. by apply Hok, H4.
  - revert Hp H5. unfold on_panel. destruct (lg_screen s) as [|o [q|]|pin cur [q|]]; cbn; try done; intros [= ->];
      revert Hv; by destruct (pn_view p), (pn_view p').
Qed.
Lemma rescreen_inv sc s : lg_inv s -> panel_of sc = on_panel s -> screen_shape sc -> lg_inv (set_lscreen sc s).
Proof. intros [H1 H2 H3 H4 H5] Hp Hs. split; unfold on_panel in *; cbn; rewrite ?Hp; done. Qed.
Lemma lcache_inv c s : lg_inv s -> lg_inv (set_lcache c s).
Proof. by intros []. Qed.
Lemma openDefaultRunLog_inv tis s : lg_inv s -> lg_inv (openDefaultRunLog tis s).
Proof. intros H. unfold openDefaultRunLog. repeat case_match; try done. by apply showLog_inv. Qed.
Lemma follow_log_inv tis s : lg_inv s -> lg_inv (follow_log tis s).
Proof.
  intros H. unfold follow_log. destruct (lg_screen s) as [| |pin cur p] eqn:E; try done. repeat case_match; try done.
  apply nvOpenLog_inv, rescreen_inv; [done|by unfold on_panel; rewrite E|]. pose proof (li_shape s H) as Hs. by rewrite E in Hs.
Qed.
Lemma on_message_inv o data s : lg_inv s -> lg_inv (on_message o data s).
Proof.
  intros H. unfold on_message. destruct (on_panel s) as [p|] eqn:E; [|done]. destruct (Nat.eqb _ _); [|done].
  apply (repanel_inv p); [done|done|done| |by destruct (pn_view p)].
  intros [H1 H2 H3]. split; cbn; [done| |done]. destruct (pn_view p) as [x v m|xs v|x v]; cbn; [done| |done].
  destruct H2 as [? [?|Hn]]; (split; [done|]); [by left|right]. rewrite <- Hn. by case_match.
Qed.
Lemma clear_live_inv k s : lg_inv s -> (lg_open s = [] \/ on_panel s = None) -> lg_inv (clear_live k s).
Proof.
  intros H Ho. unfold clear_live. destruct (on_panel s) as [p|] eqn:E; [|done]. destruct Ho as [Ho|Ho]; [|done].
  assert (Hi : lg_inv (set_lscreen (with_panel (Panel (pn_id p) (pn_view p) false) (lg_screen s)) s)).
  { apply (repanel_inv p); [done|done|done| |by destruct (pn_view p)]. rewrite Ho. intros _. apply panel_ok_nil. }
  by destruct k, (pn_view p).
Qed.

Definition without (o : source) (s : logs) : logs :=
  Logs (lg_next s) (filter (fun q => so_id q <> so_id o) (lg_open s)) (lg_ES s) (lg_all s) (lg_screen s) (lg_cache s).
Lemma without_length o (os : list source) : NoDup (so_id <$> os) -> o ∈ os -> S (length (filter (fun q => so_id q <> so_id o) os)) = length os.
Proof.
  induction os as [|q os IH]; intros Hd Ho; [by apply not_elem_of_nil in Ho|]. apply NoDup_cons in Hd as [Hq Hd].
  destruct (decide (so_id q = so_id o)) as [E|E].
  - rewrite filter_cons_False by tauto. rewrite filter_all; [done|]. apply Forall_forall. intros q' Hq' E'. apply Hq.
    rewrite E, <- E'. by apply list_elem_of_fmap_2.
  - rewrite filter_cons_True by done. apply elem_of_cons in Ho as [-> |Ho]; [done|]. cbn. by rewrite IH.
Qed.
Lemma Forall_filter_l {A} (P Q : A -> Prop) `{forall x, Decision (Q x)} (l : list A) : Forall P l -> Forall P (filter Q l).
Proof. rewrite !Forall_forall. intros HP x [_ Hx]%list_elem_of_filter. by apply HP. Qed.
Lemma without_base o s : lg_inv s -> Forall (fun q => so_id q < lg_next s) (lg_open (without o s)) /\
  NoDup (so_id <$> lg_open (without o s)) /\ Forall (fun q => so_id q ∈ closable s) (lg_open (without o s)).
Proof.
  intros [[H1 _] H2 H3 _ _]. cbn. split_and!; [by apply Forall_filter_l| |by apply Forall_filter_l].
  eapply sublist_NoDup; [exact H2|]. apply fmap_sublist, sublist_filter.
Qed.
Lemma settle_inv o s : lg_inv s -> o ∈ lg_open s -> so_kind o = KAll -> lg_inv (settle o s).
Proof.
  intros H Ho Hk. destruct (without_base o s H) as (B1 & B2 & B3). fold (without o s) in *.
  unfold settle. fold (without o s). change (on_panel (without o s)) with (on_panel s).
  destruct (on_panel s) as [[n w live]|] eqn:E.
  2:{ assert (En : on_panel (without o s) = None) by exact E. split; rewrite ?En; try done. apply (li_shape s H). }
  pose proof (li_panel s H _ E) as [P1 P2 P3]. cbn in P1, P2, P3. rewrite Forall_forall in P1.
  destruct w as [x v m|xs v|x v]; try by destruct P2 as [P2 _]; rewrite Forall_forall in P2; destruct (P2 o Ho) as [_ ?]; congruence.
  rewrite (P1 o Ho), Nat.eqb_refl. destruct P2 as [Pa Pn].
  assert (Hne : lg_open s <> []) by (intros En; rewrite En in Ho; by apply not_elem_of_nil in Ho).
  destruct Pn as [Pn|Pn]; [done|]. pose proof (without_length o (lg_open s) (li_nodup s H) Ho) as Hl.
  set (v' := all_step Settle v). set (s2 := set_lscreen _ _).
  assert (Es : on_panel s2 = Some (Panel n (PAll xs v') live)).
  { revert E. unfold s2, on_panel. cbn. by destruct (lg_screen s) as [|? [?|]|? ? [?|]]. }
  assert (Hi : lg_inv s2).
  { split; rewrite ?Es; try done.
    - split; [done|]. intros ? [= <-]. by apply (proj2 (li_next s H) _ E).
    - intros ? [= <-]. split; cbn.
      + apply Forall_filter_l, Forall_forall, P1.
      + split; [by apply Forall_filter_l|]. right. lia.
      + intros _. by apply P3.
    - pose proof (li_shape s H) as Hs. revert E Hs. unfold s2, on_panel. cbn. destruct (lg_screen s) as [|? [?|]|? ? [?|]]; cbn; try done.
      by intros [= ->]. }
  destruct (all_live v') eqn:El; [done|]. apply clear_live_inv; [done|]. left. cbn.
  apply length_zero_iff_nil. unfold all_live in El. apply Z.ltb_ge in El. cbn in El. lia.
Qed.

Lemma source_of_spec n s o : source_of n s = Some o -> o ∈ lg_open s /\ so_id o = n.
Proof.
  unfold source_of. intros [H1 H2]%List.find_some. split; [by apply list_elem_of_In|by apply Nat.eqb_eq].
Qed.
Lemma on_end_inv o s : lg_inv s -> o ∈ lg_open s -> lg_inv (on_end o s).
Proof.
  intros H Ho. unfold on_end. destruct (so_kind o) eqn:E; [|by apply settle_inv|];
    (apply clear_live_inv; [by apply closeLog_inv|left; by apply closeLog_open]).
Qed.
Lemma lg_step_inv e s s' : lg_inv s -> lg_step e s = Some s' -> lg_inv s'.
Proof.
  intros H. destruct e; cbn [lg_step].
  - intros [= <-]. by apply closeLog_inv.
  - intros [= <-]. by apply blank_inv.
  - intros [= <-]. by apply openDefaultRunLog_inv, lcache_inv, blank_inv.
  - intros [= <-]. by apply follow_log_inv, blank_inv.
  - intros [= <-]. by apply lcache_inv.
  - intros [= <-]. by apply follow_log_inv.
  - destruct (lg_screen s) as [| |pin cur p] eqn:E; try done. intros [= <-]. unfold pin_step. rewrite E.
    apply follow_log_inv, rescreen_inv; [done|by unfold on_panel; rewrite E|]. pose proof (li_shape s H) as Hs. by rewrite E in Hs.
  - destruct (lg_screen s); try done. intros [= <-]. by apply showLog_inv.
  - repeat case_match; try done. intros [= <-]. by apply showAllLogs_inv.
  - destruct (on_panel s) as [[n [x v m| |] live]|] eqn:E; try done. intros [= <-].
    apply (repanel_inv (Panel n (PTask x v m) live)); try done. intros [H1 H2 H3]. by split.
  - destruct (source_of n s) as [o|]; [|done]. intros [= <-]. by apply on_message_inv.
  - destruct (source_of n s) as [o|] eqn:E; [|done]. intros [= <-]. apply source_of_spec in E as [Ho _]. by apply on_end_inv.
Qed.
Lemma logs_init_inv : lg_inv logs_init.
Proof. by apply lg_inv_closed. Qed.
Lemma lg_run_inv es s s' : lg_inv s -> lg_run es s = Some s' -> lg_inv s'.
Proof. intros H. apply (foldM_ind lg_step (fun _ => lg_inv)); [done|]. intros _ e s1 s2 _ H1. by apply lg_step_inv. Qed.

(** ** A panel's content over time *)

(** The panel of [s] stays, or a new one, with a number of its own, takes its place. *)
Definition renewed (s s' : logs) : Prop :=
  lg_next s <= lg_next s' /\ (on_panel s' = on_panel s \/ forall p, on_panel s' = Some p -> lg_next s <= pn_id p).
Lemma renewed_refl s : renewed s s.
Proof. split; [done|by left]. Qed.
Lemma renewed_blank sc s : panel_of sc = None -> renewed s (set_lscreen sc s).
Proof. intros H. split; [done|]. right. unfold on_panel. cbn. by rewrite H. Qed.
Lemma renewed_trans s1 s2 s3 : renewed s1 s2 -> renewed s2 s3 -> renewed s1 s3.
Proof. intros [H1 H2] [H3 H4]. split; [lia|]. destruct H4 as [-> |H4]; [done|]. right. intros p Hp. specialize (H4 p Hp). lia. Qed.
Lemma renewed_showLog x s : renewed s (showLog x s).
Proof.
  unfold showLog. destruct (lg_screen (closeLog s)) eqn:E; (split; [cbn; lia|]); [by left|right|by left].
  unfold on_panel. cbn. by intros q [= <-].
Qed.
Lemma renewed_nvOpenLog x s : renewed s (nvOpenLog x s).
Proof.
  unfold nvOpenLog. destruct (lg_screen (closeLog s)) eqn:E; (split; [cbn; lia|]); [by left|by left|right].
  unfold on_panel. cbn. by intros q [= <-].
Qed.
Lemma renewed_showAllLogs s : renewed s (showAllLogs s).
Proof.
  unfold showAllLogs. destruct (lg_cache s); [|apply renewed_refl].
  destruct (lg_screen (closeLog s)) eqn:E; (split; [cbn; lia|]); [by left|right|by left].
  unfold on_panel. cbn. by intros q [= <-].
Qed.
Lemma renewed_default tis s : renewed s (openDefaultRunLog tis s).
Proof. unfold openDefaultRunLog. repeat case_match; auto using renewed_refl, renewed_showLog. Qed.
Lemma renewed_follow tis s : renewed s (follow_log tis s).
Proof.
  unfold follow_log. destruct (lg_screen s) eqn:E; try apply renewed_refl. repeat case_match; try apply renewed_refl.
  eapply renewed_trans; [|apply renewed_nvOpenLog]. split; [done|left]. unfold on_panel. cbn. by rewrite E.
Qed.
Definition panel_event (e : lg_event) : bool := match e with LFind _ | LMessage _ _ | LEnd _ => true | _ => false end.
Lemma renewed_step e s s' : lg_step e s = Some s' -> panel_event e = false -> renewed s s'.
Proof.
  destruct e; cbn [lg_step panel_event]; try done; intros E _.
  - simplify_eq. split; [done|by left].
  - simplify_eq. by apply renewed_blank.
  - simplify_eq. unfold draw_expert. eapply renewed_trans; [|apply renewed_default]. by apply (renewed_blank (SExpert false None) s).
  - simplify_eq. eapply renewed_trans; [|apply renewed_follow]. by apply renewed_blank.
  - simplify_eq. split; [done|by left].
  - simplify_eq. apply renewed_follow.
  - destruct (lg_screen s) eqn:Es; try done. simplify_eq. unfold pin_step. rewrite Es. eapply renewed_trans; [|apply renewed_follow].
    split; [done|left]. unfold on_panel. cbn. by rewrite Es.
  - destruct (lg_screen s); try done. simplify_eq. apply renewed_showLog.
  - repeat case_match; simplify_eq. apply renewed_showAllLogs.
Qed.

(** What an event does to the content of the panel on screen. *)
Definition view_step (e : lg_event) (s : logs) (v : pview) : pview :=
  match e with
  | LMessage n data => match source_of n s with Some o => feed (so_inst o) data v | None => v end
  | LFind value => match v with PTask x w m => PTask x (log_step toLowerCase (Find value) w) m | _ => v end
  | LEnd _ => match v with PAll xs w => PAll xs (all_step Settle w) | _ => v end
  | _ => v
  end.
Lemma with_panel_on p s q : on_panel s = Some q -> on_panel (set_lscreen (with_panel p (lg_screen s)) s) = Some p.
Proof. unfold on_panel. cbn. by destruct (lg_screen s) as [|o [?|]|pin cur [?|]]. Qed.
Lemma clear_live_on k s p : on_panel s = Some p -> exists l, on_panel (clear_live k s) = Some (Panel (pn_id p) (pn_view p) l).
Proof.
  intros E. unfold clear_live. rewrite E. assert (E' : exists l, on_panel s = Some (Panel (pn_id p) (pn_view p) l)) by (exists (pn_live p); by destruct p).
  destruct k, (pn_view p) eqn:Ev; rewrite ?Ev in E'; try done; exists false; by apply with_panel_on with p.
Qed.
Lemma clear_live_next k s : lg_next (clear_live k s) = lg_next s.
Proof. unfold clear_live. by repeat case_match. Qed.
Lemma panel_step e s s' p : lg_inv s -> lg_step e s = Some s' -> panel_event e = true -> on_panel s = Some p ->
  lg_next s' = lg_next s /\ exists l, on_panel s' = Some (Panel (pn_id p) (view_step e s (pn_view p)) l).
Proof.
  intros H E He Hp. destruct e as [| | | | | | | | |value|n data|n]; try done; cbn [lg_step view_step] in *.
  - rewrite Hp in E. destruct p as [n [x v m| |] l]; try done. simplify_eq. split; [done|]. exists l. by eapply with_panel_on.
  - destruct (source_of n s) as [o|] eqn:Eo; [|done]. simplify_eq/=. unfold on_message. rewrite Hp.
    apply source_of_spec in Eo as [Ho _]. destruct (li_panel s H p Hp) as [Hm _ _]. rewrite Forall_forall in Hm.
    rewrite (Hm o Ho), Nat.eqb_refl. split; [done|]. exists (pn_live p). rewrite <- (Hm o Ho). by eapply with_panel_on.
  - destruct (source_of n s) as [o|] eqn:Eo; [|done]. simplify_eq/=. apply source_of_spec in Eo as [Ho _].
    destruct (li_panel s H p Hp) as [Hm Hv _]. rewrite Forall_forall in Hm. unfold on_end.
    assert (Hc : forall k, lg_next (clear_live k (closeLog s)) = lg_next s /\
      exists l, on_panel (clear_live k (closeLog s)) = Some (Panel (pn_id p) (pn_view p) l)).
    { intros k. split; [exact (clear_live_next k (closeLog s))|]. by apply (clear_live_on k (closeLog s) p). }
    destruct p as [m w l]. cbn [pn_view pn_id] in *.
    destruct w as [x v mu|xs v|x v]; destruct Hv as [Hv _]; rewrite Forall_forall in Hv; destruct (Hv o Ho) as [_ Hk]; rewrite Hk; [apply Hc| |apply Hc].
    unfold settle. fold (without o s). change (on_panel (without o s)) with (on_panel s). rewrite Hp, (Hm o Ho), Nat.eqb_refl.
    set (s2 := set_lscreen _ _). assert (E2 : on_panel s2 = Some (Panel m (PAll xs (all_step Settle v)) l)).
    { eapply (with_panel_on _ (without o s)). exact Hp. }
    destruct (all_live _); [split; [done|by exists l; rewrite E2]|].
    split; [exact (clear_live_next KAll s2)|]. destruct (clear_live_on KAll s2 _ E2) as [l' ->]. eauto.
Qed.

(** The lines and searches among the events. *)
Definition log_events (es : list lg_event) : list log_event :=
  omap (fun e => match e with LMessage _ d => Some (Message d) | LFind v => Some (Find v) | _ => None end) es.
(** The content [w] is [v] after the events. *)
Definition grown (es : list lg_event) (v w : pview) : Prop :=
  match v, w with
  | PTask x a m, PTask y b m' => y = x /\ m' = m /\ b = RunDisplay.log_run toLowerCase (log_events es) a
  | PFollow x a, PFollow y b => y = x /\ b = RunDisplay.log_run toLowerCase (log_events es) a
  | PAll xs a, PAll ys b => ys = xs /\ exists fs, b = all_run fs a /\ snd <$> all_messages fs = messages (log_events es)
  | _, _ => False
  end.
Lemma grown_refl v : grown [] v v.
Proof. destruct v as [x v m|xs v|x v]; cbn; try done. split; [done|]. by exists []. Qed.
Lemma grown_skip e es v w : log_events [e] = [] -> grown es v w -> grown (e :: es) v w.
Proof.
  intros E. assert (El : log_events (e :: es) = log_events es).
  { change (e :: es) with ([e] ++ es). unfold log_events in *. by rewrite omap_app, E. }
  unfold grown. by rewrite El.
Qed.
Lemma grown_step e s s' es p w : lg_step e s = Some s' -> panel_event e = true -> on_panel s = Some p ->
  grown es (view_step e s (pn_view p)) w -> grown (e :: es) (pn_view p) w.
Proof.
  intros E He Hp Hg. destruct e as [| | | | | | | | |value|n data|n]; try done; cbn [lg_step view_step] in *.
  - rewrite Hp in E. destruct p as [n [x v m| |] l]; try done.
  - destruct (source_of n s) as [o|]; [|done]. destruct (pn_view p) as [x v m|xs v|x v], w as [y u m'|ys u|y u]; try done.
    cbn in Hg |- *. destruct Hg as (-> & fs & -> & Hf). split; [done|]. exists (AllMessage (in_task (so_inst o)) data :: fs). split; [done|].
    exact (f_equal (cons data) Hf).
  - destruct (pn_view p) as [x v m|xs v|x v], w as [y u m'|ys u|y u]; try done.
    cbn in Hg |- *. destruct Hg as (-> & fs & -> & Hf). split; [done|]. by exists (Settle :: fs).
Qed.
Lemma panel_step_none e s s' : lg_step e s = Some s' -> panel_event e = true -> on_panel s = None -> lg_next s' = lg_next s /\ on_panel s' = None.
Proof.
  intros E He Hp. destruct e as [| | | | | | | | |value|n data|n]; try done; cbn [lg_step] in E.
  - by rewrite Hp in E.
  - destruct (source_of n s) as [o|]; [|done]. simplify_eq/=. unfold on_message. by rewrite Hp.
  - destruct (source_of n s) as [o|]; [|done]. simplify_eq/=. unfold on_end, settle, clear_live.
    fold (without o s). change (on_panel (without o s)) with (on_panel s). change (on_panel (closeLog s)) with (on_panel s).
    rewrite Hp. by destruct (so_kind o).
Qed.
(** A number once gone from the screen does not come back. *)
Definition gone (n : nat) (s : logs) : Prop := n < lg_next s /\ forall p, on_panel s = Some p -> pn_id p <> n.
Lemma gone_step n e s s' : lg_inv s -> gone n s -> lg_step e s = Some s' -> gone n s'.
Proof.
  intros H [Hn Hp] E. destruct (panel_event e) eqn:Ee.
  - destruct (on_panel s) as [p|] eqn:Es.
    + destruct (panel_step e s s' p H E Ee Es) as (En & l & El). split; [lia|]. rewrite El. intros q [= <-]. exact (Hp p eq_refl).
    + destruct (panel_step_none e s s' E Ee Es) as [En El]. split; [lia|]. by rewrite El.
  - destruct (renewed_step _ _ _ E Ee) as [Hl [El|Hr]]; (split; [lia|]); [by rewrite El|]. intros q Hq. specialize (Hr q Hq). lia.
Qed.
Lemma gone_run n es : forall s s', lg_inv s -> gone n s -> lg_run es s = Some s' -> gone n s'.
Proof.
  unfold lg_run. induction es as [|e es IH]; intros s s' H Hn; cbn; [by intros [= <-]|].
  destruct (lg_step e s) as [s1|] eqn:E; [|done]. apply IH; [by eapply lg_step_inv|by eapply gone_step].
Qed.
Lemma grown_run es : forall s s' p p', lg_inv s -> lg_run es s = Some s' -> on_panel s = Some p -> on_panel s' = Some p' ->
  pn_id p' = pn_id p -> grown es (pn_view p) (pn_view p').
Proof.
  unfold lg_run. induction es as [|e es IH]; intros s s' p p' H; cbn [foldM].
  - intros [= <-] Hp Hp' _. rewrite Hp in Hp'. simplify_eq. apply grown_refl.
  - destruct (lg_step e s) as [s1|] eqn:E; [|done]. intros Hr Hp Hp' Hid.
    assert (H1 : lg_inv s1) by by eapply lg_step_inv. destruct (panel_event e) eqn:Ee.
    + destruct (panel_step e s s1 p H E Ee Hp) as (_ & l & El). apply (grown_step e s s1); [done..|].
      by apply (IH s1 s' _ p' H1 Hr El Hp').
    + apply grown_skip; [by destruct e|]. destruct (renewed_step _ _ _ E Ee) as [Hl [El|Hg]].
      * apply (IH s1 s'); [done..| |done|done]. by rewrite El.
      * exfalso. apply (gone_run (pn_id p) es s1 s') with p'; [done| |done|done|done].
        pose proof (proj2 (li_next s H) p Hp). split; [lia|]. intros q Hq. specialize (Hg q Hq). lia.
Qed.

(** ** Properties *)

Lemma end_live o s p : lg_inv s -> o ∈ lg_open s -> on_panel s = Some p ->
  exists p', on_panel (on_end o s) = Some p' /\ pn_id p' = pn_id p /\ pn_live p' = negb (bool_decide (lg_open (on_end o s) = [])).
Proof.
  intros H Ho Hp. destruct (li_panel s H p Hp) as [Hm Hv Hl]. rewrite Forall_forall in Hm.
  pose proof (li_shape s H) as Hsh. pose proof (closeLog_open s H) as Hc.
  destruct p as [n w l]. cbn [pn_id pn_view pn_live] in *.
  assert (Hclear : forall k w, (match k, w with KFollow, PFollow _ _ | (KTask | KAll), (PTask _ _ _ | PAll _ _) => True | _, _ => False end) ->
    forall s1, on_panel s1 = Some (Panel n w l) -> lg_open s1 = [] ->
    exists p', on_panel (clear_live k s1) = Some p' /\ pn_id p' = n /\ pn_live p' = negb (bool_decide (lg_open (clear_live k s1) = []))).
  { intros k w' Hk s1 E1 Eo. unfold clear_live. rewrite E1. exists (Panel n w' false).
    destruct k, w'; try done; (split; [by eapply with_panel_on|]); cbn; rewrite Eo; done. }
  unfold on_end. destruct w as [x v m|xs v|x v]; destruct Hv as [Hv Hn]; rewrite Forall_forall in Hv; destruct (Hv o Ho) as [_ ->];
    [by apply (Hclear KTask (PTask x v m)) with (s1 := closeLog s)| |by apply (Hclear KFollow (PFollow x v)) with (s1 := closeLog s)].
  assert (Hne : lg_open s <> []) by (intros En; rewrite En in Ho; by apply not_elem_of_nil in Ho).
  destruct Hn as [?|Hn]; [done|]. pose proof (without_length o (lg_open s) (li_nodup s H) Ho) as Hlen.
  unfold settle. fold (without o s). change (on_panel (without o s)) with (on_panel s). rewrite Hp, (Hm o Ho), Nat.eqb_refl.
  set (s2 := set_lscreen _ _). assert (E2 : on_panel s2 = Some (Panel n (PAll xs (all_step Settle v)) l)).
  { eapply (with_panel_on _ (without o s)). exact Hp. }
  unfold all_live. destruct (Z.ltb_spec 0 (al_open (all_step Settle v))) as [Hz|Hz]; cbn in Hz.
  - eexists. split; [exact E2|]. split; [done|]. cbn [pn_live]. rewrite (Hl Hne), bool_decide_false; [done|].
    change (lg_open s2) with (lg_open (without o s)). intros En. cbn in En. rewrite En in Hlen. cbn in Hlen. lia.
  - apply (Hclear KAll (PAll xs (all_step Settle v)) I s2 E2). cbn. apply length_zero_iff_nil. lia.
Qed.

(** C13 The live logs of the run pages, in whatever order pages are left and drawn, polls
    are answered, logs are picked and streams bring lines and end: everything open can
    be closed; the streams that are open while a log is on screen are its own, for the
    instance its head names, at most one of them on the panel of one task, and it is marked live; the content
    is what the lines and searches since it was opened make of it, and lines of no other
    task; when a stream ends the mark goes exactly when it was the last one; and the
    novice page changes to the log that its steps pick, unless it is there already. *)
Theorem log_panels_exact es s : lg_run es logs_init = Some s ->
  lg_open (closeLog s) = [] /\
  (forall p, on_panel s = Some p ->
     (forall o, o ∈ lg_open s -> so_panel o = pn_id p /\ pn_live p = true /\
        match pn_view p with PTask x _ _ | PFollow x _ => so_inst o = x /\ lg_open s = [o] | PAll xs _ => so_inst o ∈ xs end) /\
     (forall es' s' p', lg_run es' s = Some s' -> on_panel s' = Some p' -> pn_id p' = pn_id p -> grown es' (pn_view p) (pn_view p')) /\
     (forall n s', lg_step (LEnd n) s = Some s' -> exists p', on_panel s' = Some p' /\ pn_id p' = pn_id p /\
        pn_live p' = negb (bool_decide (lg_open s' = [])))) /\
  (forall tis pin cur p x, lg_screen s = SNovice pin cur p -> pick_log pin tis = Some x -> truthy (in_id x) = true ->
     let s' := follow_log tis s in
     if decide (cur = Some (in_id x)) then s' = s
     else exists n, lg_screen s' = SNovice pin (Some (in_id x)) (Some (Panel n (PFollow x log_open) true)) /\
                    lg_open s' = [Source n n x KFollow]).
Proof.
  intros Hr. assert (H : lg_inv s) by (eapply lg_run_inv; [apply logs_init_inv|done]).
  split; [by apply closeLog_open|]. split.
  - intros p Hp. split_and!.
    + intros o Ho. destruct (li_panel s H p Hp) as [Hm Hv Hl]. rewrite Forall_forall in Hm. split; [by apply Hm|].
      split; [apply Hl; intros En; rewrite En in Ho; by apply not_elem_of_nil in Ho|].
      destruct (pn_view p); destruct Hv as [Hv Hn]; rewrite Forall_forall in Hv; destruct (Hv o Ho) as [Hx _]; [|done|];
        (split; [done|]); destruct (lg_open s) as [|o1 [|o2 os]]; cbn in Hn; try lia; try (by apply not_elem_of_nil in Ho);
        by apply list_elem_of_singleton in Ho as ->.
    + intros es' s' p' Hr' Hp' Hid. by eapply grown_run.
    + intros n s' E. cbn in E. destruct (source_of n s) as [o|] eqn:Eo; [|done]. injection E as <-.
      apply source_of_spec in Eo as [Ho _]. by apply end_live.
  - intros tis pin cur p x Hs Hx Ht. cbv zeta. unfold follow_log. rewrite Hs, Hx, Ht. cbn [andb].
    destruct (decide (cur = Some (in_id x))) as [E|E]; [by rewrite bool_decide_true|]. rewrite bool_decide_false by done. cbn [negb].
    assert (H1 : lg_inv (set_lscreen (SNovice pin (Some (in_id x)) p) s)).
    { apply rescreen_inv; [done|by unfold on_panel; rewrite Hs|]. pose proof (li_shape s H) as Hsh. by rewrite Hs in Hsh. }
    exists (lg_next s). unfold nvOpenLog. rewrite closeLog_open by done. done.
Qed.

Definition log_inst (id task state : jstr) : inst := Inst id task state 1 None None.
Definition two_tasks : list inst := [log_inst (lit "7") (lit "a") (lit "success"); log_inst (lit "8") (lit "b") (lit "running")].
Definition log_session : list lg_event :=
  [LDrawExpert two_tasks; LMessage 0 (lit "one"); LFind (lit "x"); LFind []; LMessage 0 (lit "two")].
Lemma log_panels_exact_witness : exists s p, lg_run log_session logs_init = Some s /\ on_panel s = Some p /\
  (exists v, pn_view p = PTask (log_inst (lit "8") (lit "b") (lit "running")) v true /\ box_text (lv_box v) = lit "one" ++ [10%N] ++ lit "two") /\
  (forall s', lg_step (LEnd 0) s = Some s' -> exists p', on_panel s' = Some p' /\ pn_live p' = false).
Proof.
  destruct (lg_run log_session logs_init) as [s|] eqn:E; [|exfalso; vm_compute in E; done].
  destruct (log_panels_exact log_session s E) as (_ & Hp & _).
  destruct (on_panel s) as [p|] eqn:Ep; [|exfalso; vm_compute in E; injection E as <-; done].
  exists s, p. split; [done|]. split; [done|]. destruct (Hp p eq_refl) as (_ & _ & He). split.
  - vm_compute in E. injection E as <-. vm_compute in Ep. injection Ep as <-. eexists. split; reflexivity.
  - intros s' Hs'. destruct (He 0 s' Hs') as (p' & E1 & _ & E2). exists p'. split; [done|]. rewrite E2.
    vm_compute in E. injection E as <-. vm_compute in Hs'. injection Hs' as <-. reflexivity.
Defined.

(** A run page that is drawn after the user has gone on to the home page opens a
    stream there, and it stays open under the home page: the heartbeat, which waits for
    [logES] to be free, leaves the home page as it is until the task ends. *)
Theorem late_log_streams_on : exists s, lg_run [LLeave; LLeave; LDrawExpert two_tasks; LDrawOther] logs_init = Some s /\
  lg_screen s = SOther /\ lg_ES s = Some 0 /\ length (lg_open s) = 1.
Proof. eexists. split; [vm_compute; reflexivity|]. done. Qed.
